(* ===== verification/_CoqProject ===== *)
-Q . S2P
Prelude.v
Frame.v
S1gTim.v
Radiotap.v
Michael.v
Skb.v
Amsdu.v
AmsduProofs.v
Chandef.v
ChandefProofs.v
Mle.v
Ttlm.v
Element.v
ElementProofs.v
MleDefrag.v
ElemSizes.v
Parse.v
ParseProofs.v
ParseFull.v
Key.v
Wep.v
Tkip.v
TkipFrame.v
Ccmp.v
Bip.v
Reorder.v
ReorderSpec.v
ReorderRefine.v
ReorderProps.v
TxQueue.v
TxQueueProofs.v
MldReorder.v
MldReorderProofs.v
Fragment.v
FragmentProofs.v
SequenceProofs.v
Agg.v
AggFrames.v
AggFrameProofs.v
TtlmFrame.v
AggRx.v
AggTx.v
AggWork.v
AggLogic.v
AggInterrupts.v
AggWp.v
AggHandlers.v
AggProofs.v
AggProps.v
StateMonad.v
Mesh.v
MeshPlink.v
MeshRun.v
MeshSpec.v
MeshInv.v
MeshRefine.v
MeshHandlers.v
MeshOps.v
MeshAgree.v
MeshNet.v
MeshProps.v
