(* ===== verification/Prelude.v ===== *)
(** * A verification of frame handling in mac80211, cfg80211 and iwlwifi

    The repository is the Linux wireless stack as shipped with the Intel
    iwlwifi drivers: [net/wireless] (cfg80211), [net/mac80211] and
    [drivers/net/wireless/intel/iwlwifi], with their headers under [include].
    This library models the parts that compute on frames and sequence numbers
    and proves them correct.  Paths below are relative to [src/].

    ** How a frame travels, and what is modelled

    A frame to be sent gets its sequence number and is cut into fragments
    ([net/mac80211/tx.c]), is protected by WEP, TKIP, CCMP, GCMP or BIP
    ([wep.c], [wpa.c], [tkip.c]) and is queued on a ring of the device
    ([iwlwifi/pcie/tx.c], [tx-gen2.c]).  A received frame may start with a
    radiotap header ([net/wireless/radiotap.c]), is put in order with the other
    frames of its block-acknowledgment session, by the driver
    ([iwlwifi/mld/agg.c]) or by mac80211 ([net/mac80211/rx.c]), is checked for
    duplicates, decrypted, checked for replay and reassembled ([rx.c],
    [wpa.c]), and becomes one Ethernet frame, or several if it is an A-MSDU
    ([net/wireless/util.c]).  A sleeping station looks itself up in the traffic
    indication map of beacons ([include/linux/ieee80211.h],
    [ieee80211-s1g.h]).  Stations with several links describe them in
    multi-link elements ([ieee80211-eht.h]), which may have to be fragmented and
    put together again ([util.c], [net/wireless/scan.c]), and negotiate which
    traffic uses which link ([net/mac80211/mlme.c]).  The elements of a
    management frame are found by one parser ([net/mac80211/parse.c]), which
    also extracts the part that is about a non-transmitted BSS or another link.
    Two stations agree to aggregate the frames of a traffic identifier by an
    exchange of ADDBA frames ([agg-tx.c], [agg-rx.c], [ht.c]), while frames to
    be sent wait in a queue, the driver is told of each step, and timers,
    interrupts and the peer may cut in at any point.  Two stations of a mesh
    likewise establish a link by an exchange of OPEN, CONFIRM and CLOSE frames
    ([mesh_plink.c]), each frame naming the link by the random numbers both
    chose, with timers that retry and give up.  All of it happens on
    channels of 20 to 320 MHz, whose definitions cfg80211 checks and compares
    ([net/wireless/chan.c]).

    ** Files

    - [Prelude]: C integers, byte buffers, error numbers, tactics.
    - [Frame]: [include/linux/ieee80211.h], frame-control predicates, header
      layout, sequence number arithmetic, the TIM lookup.
    - [S1gTim]: [include/linux/ieee80211-s1g.h], the TIM of 802.11ah.
    - [Radiotap]: [net/wireless/radiotap.c].
    - [Michael]: [net/wireless/michael-mic.c].
    - [Skb]: linear socket buffers; the interfaces of allocation, RC4, CRC-32.
    - [Amsdu], [AmsduProofs]: received buffers with page fragments; conversion
      of data frames and A-MSDUs to Ethernet frames ([net/wireless/util.c], and
      the A-MSDU handler of [rx.c]).
    - [Chandef], [ChandefProofs]: [net/wireless/chan.c] and the conversions of
      channel numbers and operating classes of [util.c]: validity and
      compatibility of channel definitions, their sub-channels, radar states.
    - [Mle]: [include/linux/ieee80211-eht.h], size checks and accessors of
      multi-link elements.  [Ttlm]: TID-to-link mappings of [mlme.c].
      [TtlmFrame]: the request frame, from the sender through the element
      parser to the handler.
    - [Element], [ElementProofs], [MleDefrag]: fragmentation of elements
      ([util.c]), defragmentation of elements and of multi-link elements
      ([scan.c]), in memory that source and destination share.
    - [ElemSizes]: the size checks of the HE, EHT, UHR and mesh elements in
      [include/linux/ieee80211-*.h].  [Parse]: [net/mac80211/parse.c].
      [ParseProofs]: what a walk over elements leaves behind.  [ParseFull]: the
      search for a profile, and the parser as a whole.
    - [Key]: [net/mac80211/key.h], flags and handler results.
    - [Wep]: [wep.c].  [Tkip]: [tkip.c].  [TkipFrame]: the Michael and TKIP
      handlers of [wpa.c].  [Ccmp]: the CCMP and GCMP handlers of [wpa.c] and
      [aead_api.c], one definition with the cipher as parameter.  [Bip]: the
      CMAC and GMAC handlers of [wpa.c], [aes_cmac.c] and [aes_gmac.c].
    - [Reorder]: the reorder ring of [rx.c].  [ReorderSpec]: the abstract
      reorder buffer.  [ReorderRefine]: the simulation.  [ReorderProps]: its
      consequences, and runs outside its conditions.
    - [MldReorder], [MldReorderProofs]: the reorder buffer of [mld/agg.c], an
      implementation of the same abstract buffer.
    - [TxQueue], [TxQueueProofs]: the transmit and command rings of
      [iwlwifi/pcie/tx.c] and [tx-gen2.c].
    - [Fragment], [FragmentProofs], [SequenceProofs]: sequence numbers and
      fragmentation of [tx.c], duplicate detection and reassembly of [rx.c].
    - Negotiation of block-acknowledgment sessions: [Agg], its state, the monad
      of its handlers and what can interrupt them; [AggFrames], the frames and
      their readers; [AggRx] ([agg-rx.c]), [AggTx] ([agg-tx.c]) and [AggWork]
      ([ht.c], the dispatch of [rx.c] and [iface.c], and runs of all of them),
      the operations.  [AggFrameProofs]: the frames.  [AggLogic]: the invariant
      and the protocol seen by the driver.  [AggInterrupts], [AggWp],
      [AggHandlers], [AggProofs]: interrupts, rules for the monad, and each
      handler keep them.  [AggProps]: the consequences.
    - Mesh peer links: [StateMonad], state passing with faults, and its
      weakest preconditions; [Mesh], the state of an interface and its peers,
      the counters of [mesh.h], the bookkeeping of [mesh_ps.c], the timer and
      what can interrupt a handler; [MeshPlink], [mesh_plink.c] and what
      [mesh.c] does with beacons; [MeshRun], how stations go ([sta_info.c]),
      what user space changes ([cfg.c]) and runs of all of it.  [MeshSpec]: the
      links alone, and their atomic steps; [MeshInv], the invariant of the
      steps.  [MeshRefine], [MeshHandlers], [MeshOps]: interrupts, handlers and
      operations go by the steps.  [MeshAgree], [MeshNet]: two stations that
      exchange frames.  [MeshProps]: the consequences.

    ** How code becomes definitions

    A function of the source is a definition of the same name.  Its state (a
    session, a ring, a cache, a key) is an argument and part of the result; a
    structure is a record with the fields the code uses.  A pointer into a
    buffer is an offset; a read or write outside the buffer has no value.  The
    element parser has two objects, the frame and the scratch buffer it
    allocates: the frame is at the addresses from 0, the scratch buffer behind
    one address that belongs to neither, and a pointer into the frame reads from
    the frame only ([Parse.object]), so that running over its end is a fault.  A
    function whose C result is an error number returns that number; [None]
    means a fault (a bad access, a dereference of NULL, a loop that runs on),
    so that a theorem of the form [f x = Some r] also shows memory safety and
    termination.  Integers keep their width: [u8] to [u64] truncate, [s32] is
    signed.  Queues of frames are lists.  Kernel services (allocation, RC4,
    CRC-32, the AEAD transforms, CMAC) are type classes: operations, and laws
    that state what callers rely on; [Skb.Sample] and the samples of [Ccmp] and
    [Bip] satisfy the laws.  Locks, reference counts, statistics counters and
    trace points are left out; each handler runs under its lock, so a run is a
    sequence of calls.  The handlers of [agg-tx.c] are the exception: timers,
    driver callbacks and transmissions run beside them.  They are written in a
    monad [Agg.M] over the whole station, in which [preempt] stands between any
    two accesses that no spin lock keeps together and runs an arbitrary list of
    interrupts, taken from the schedule, as are the driver's answers; the
    theorems are for all schedules and answers.  So are those of
    [mesh_plink.c], in the monad [StateMonad.M]: timers expire, their handlers
    run and send their frame at any such point, allocations fail as the state
    says, and random numbers are what it says.

    ** Bounds and fuel

    A loop that is not structural takes fuel, and the theorems show that the
    fuel given is enough: the release loops get 2048 rounds, because the
    modular comparison of sequence numbers is false from half the sequence
    space on; the scans of the reorder ring, the cache and the rings get one
    round per slot; fragmentation gets one round per octet left to send; the
    radiotap iterator gets a round per presence bit left; the loops over
    elements, profiles and A-MSDU subframes get one round per octet of their
    buffer, since each consumes its header; the loops over the sub-channels of a channel
    definition get 20 rounds, since 320 MHz have 16.  The handlers of the
    negotiation loop over sixteen traffic identifiers only.  The draw of a link
    ID goes on until the number is free, in the numbers the state holds and
    then in all there are; fewer than 65535 stations leave one.  Where the code's
    loop does not end ([find_ready], [gen1_unmap_loop]), no fuel suffices and a
    theorem says so.

    ** What the theorems show

    - Ordering: for window sizes that divide 4096 and whole frames, none
      marked as filtered, the reorder ring of mac80211 refines the abstract
      buffer ([ReorderProps.reorder_refines]); hence frames leave in order and at
      most once, none that arrives within the release timeout is lost inside a
      window, and none is stuck ([ReorderProps.reorder_timer_progress], from the
      start of a session).  For every other size up to 1024 a frame is lost at the
      wrap ([ReorderProps.reorder_wrap_loss]).  The buffer of iwlmld, driven by a
      firmware that reports the first missing number, also loses nothing
      ([MldReorderProofs.mld_reorder_lossless]), under the same condition on the
      window and for frames that are not A-MSDUs.
    - Queueing: the transmit ring with its overflow list is a first-in
      first-out queue that loses no frame ([TxQueueProofs.txq_fifo]), while the
      firmware is alive and frames can be linearised and mapped.
    - Reassembly: only consecutive fragments of one transmission, with one key
      and consecutive packet numbers, are ever joined
      ([FragmentProofs.reassembly_safe]); fragmentation and reassembly are
      inverse; numbering and duplicate detection together deliver each frame
      exactly once ([SequenceProofs.numbered_exactly_once]), for the unicast
      frames of one traffic class.
    - Ciphers: for each cipher the receive handler undoes the transmit handler,
      and packet numbers of delivered frames of one queue strictly increase
      whatever is received, unless the hardware has vouched for a number
      (CCMP, GCMP: the flags that say so; TKIP: any status flag).  For TKIP the
      cached phase 1 key has to be the right one ([Tkip.tkip_rx_stale_p1k] shows
      that it may not be).
    - Elements: defragmentation in place is reading the whole body and then
      storing it ([ElementProofs.element_defragment_correct]); fragmentation,
      of elements and of multi-link elements with their profiles, is undone by
      it; multi-link fields are read back as written, and so is a mapping that
      fits the room its sender reserves, after its way through the parser
      ([TtlmFrame.ttlm_request_roundtrip]); for any received octets no access
      leaves the buffer, but for the one [ParseProofs.csa_tpe_overread] shows,
      which [ParseFull.parse_elems_full_safe] excludes by a condition on the
      frame.  A range parsed without an error is a sequence of whole elements of
      allowed sizes ([ParseProofs.parse_elems_accepts]).
    - Ethernet: splitting an A-MSDU yields the frame of each subframe whatever
      the layout of the buffer, if each has eight octets of body
      ([AmsduProofs.amsdu_split_correct]), stays in the
      buffer for any octets, and yields nothing for an MSDU that an attacker
      marked as aggregated ([AmsduProofs.amsdu_injection_rejected]).
    - Channels: two definitions of different widths with one control channel
      are compatible exactly if neither has an NPCA channel, the narrower is not
      80+80 MHz, and it is one segment of the wider with the same puncturing
      ([ChandefProofs.chandef_compatible_correct]); radar on one definition
      blocks every definition that shares a sub-channel with it
      ([ChandefProofs.radar_blocks_overlapping]); operating classes are found
      again from the definitions they give.
    - Sessions: whatever the peer sends, whatever interrupts the handlers and
      whatever the driver answers, no handler uses a session that is gone, the
      driver sees a session started, made operational and stopped in that order
      ([AggProps.agg_driver_protocol]), and the records of a session agree with
      each other ([AggProps.agg_session_invariant]); a request makes the peer
      start a session with the parameters asked for.
    - Mesh links, under the conditions below: no operation faults and the
      counts, link IDs and timers of the links stay consistent
      ([MeshProps.mesh_peering_invariant]); two
      stations that have both established their link agree about it, over any
      network between them ([MeshProps.mesh_peering_agreement]), if the link IDs
      they drew are distinct and not zero and no open link was opened again; a
      link that
      hears nothing is given up ([MeshProps.mesh_peering_gives_up]).
    - Parsers: the S1G TIM parser computes the answer of an abstract block list
      and, like the radiotap iterator, never leaves its buffer.
    - Deviations: runs in which the code does not do what it means to, such as
      [ReorderProps.reorder_wrap_loss] (window sizes that do not divide 4096),
      [ReorderProps.reorder_filtered_hang], [TxQueueProofs.cmdq_full_stuck],
      [Tkip.tkip_rx_stale_p1k], [MleDefrag.mle_defrag_fifteen],
      [AmsduProofs.amsdu_short_body_stale],
      [ChandefProofs.operating_class_gaps], [ParseProofs.csa_tpe_overread],
      [TtlmFrame.ttlm_request_roundtrip] (a mapping longer than its buffer),
      [AggProps.agg_cancelled_start_stops_queue] and
      [MeshProps.mesh_stray_confirm_shuts_out].

    Conditions of the theorems are stated in them.  The ones that recur: the
    refinement of the reorder ring is for window sizes that divide 4096, whole
    MSDUs and no frames the driver filtered; the second-generation rings are of
    power-of-two size, as [iwl_queue_init] demands; on a mesh the limit on
    links is not lowered below the links there are, the device is not suspended
    and its station table is not full ([MeshOps.op_ok]), and its
    stations all belong to the mesh.

    ** Not modelled, and why

    Device registers, DMA descriptors and firmware commands are I/O.  The
    netlink interface (nl80211) marshals attributes into driver calls.  The
    operation modes (dvm, mvm, the rest of mld, xvt), MEI and the device tables
    mostly fill firmware structures.  Rate control is heuristic.  The station
    MLME, IBSS, NAN and TDLS are sequences of driver calls over timers and work
    queues, whose results depend on what each driver makes of them; mesh paths ([mesh_hwmp.c], [mesh_pathtbl.c])
    and synchronisation need clocks and tables under RCU.  The regulatory
    database and the flags it sets on channels ([reg.c]) come from a file and an
    agent in user space, and the BSS table ([scan.c]) is filled by scans of the
    driver; what both do with elements and channel definitions is modelled in
    [Parse] and [Chandef].  Of [mlme.c] only the request for a TID-to-link
    mapping and the decision on it are modelled, since applying it is left to the driver; of
    [wireless/util.c] the tables of bit rates and the checks of interface
    combinations are not; of the negotiation of sessions, BAR frames are not;
    of mesh links, the elements other than the peering element, rate control
    and the frames a sleeping peer is sent are not.  The receive buffer
    allocator of [pcie/rx.c] works on pages and DMA addresses.  The
    compatibility layer, kconf and the headers of firmware structures are not
    part of the program's logic. *)
From stdpp Require Export base numbers list.
From Stdlib Require Export ZArith Lia Bool.
From Stdlib Require Export Btauto.

#[global] Open Scope Z_scope.

(** ** C integers

    A C object of an unsigned type of [w] bits is a [Z] in [0, 2^w); assigning
    to it truncates.  A signed object is a [Z] in [-2^(w-1), 2^(w-1)). *)

Definition wrap (w z : Z) : Z := z mod 2 ^ w.
Definition swrap (w z : Z) : Z :=
  let r := z mod 2 ^ w in if r <? 2 ^ (w - 1) then r else r - 2 ^ w.

Declare Scope cint_scope.
Delimit Scope cint_scope with C.
Abbreviation u8 := (wrap 8).
Abbreviation u16 := (wrap 16).
Abbreviation u32 := (wrap 32).
Abbreviation u64 := (wrap 64).
Abbreviation s32 := (swrap 32).
Notation "x .& y" := (Z.land x y) (at level 41, left associativity) : cint_scope.
Notation "x .| y" := (Z.lor x y) (at level 43, left associativity) : cint_scope.
Notation "x .^ y" := (Z.lxor x y) (at level 42, left associativity) : cint_scope.
Notation "x << n" := (Z.shiftl x n) (at level 39, left associativity) : cint_scope.
Notation "x >> n" := (Z.shiftr x n) (at level 39, left associativity) : cint_scope.
#[global] Open Scope cint_scope.

(** The kernel's [BIT(n)] and [GENMASK(h, l)]. *)
Definition BIT (n : Z) : Z := 1 << n.
Definition GENMASK (h l : Z) : Z := Z.ones (h - l + 1) << l.

(** C truth values: [nz x] is the condition [if (x)]. *)
Definition nz (x : Z) : bool := negb (x =? 0).

(** Error numbers. *)
Definition ENOENT : Z := 2.
Definition EIO : Z := 5.
Definition ENOMEM : Z := 12.
Definition EFAULT : Z := 14.
Definition EINVAL : Z := 22.
Definition ENOSPC : Z := 28.
Definition EBADMSG : Z := 74.
Definition EOPNOTSUPP : Z := 95.

(** [time_after(a, b)]: signed comparison of the unsigned 64-bit clock. *)
Definition time_after (a b : Z) : bool := Z.testbit (u64 (b - a)) 63.

Definition is_uint (w z : Z) : Prop := 0 <= z < 2 ^ w.
Abbreviation bytes_ok := (Forall (is_uint 8)).

#[global] Instance is_uint_dec w z : Decision (is_uint w z).
Proof. unfold is_uint. apply _. Defined.

(** ** Lemmas on wrapped integers *)

Lemma wrap_range w z : 0 <= w -> 0 <= wrap w z < 2 ^ w.
Proof. intros. unfold wrap. apply Z.mod_pos_bound, Z.pow_pos_nonneg; lia. Qed.

Lemma wrap_is_uint w z : 0 <= w -> is_uint w (wrap w z).
Proof. apply wrap_range. Qed.

Lemma wrap_small w z : is_uint w z -> wrap w z = z.
Proof. apply Z.mod_small. Qed.

Lemma wrap_wrap w z : wrap w (wrap w z) = wrap w z.
Proof. unfold wrap. by rewrite Zmod_mod. Qed.

Lemma wrap_add_l w a b : wrap w (wrap w a + b) = wrap w (a + b).
Proof. unfold wrap. apply Zplus_mod_idemp_l. Qed.

Lemma wrap_add_r w a b : wrap w (a + wrap w b) = wrap w (a + b).
Proof. unfold wrap. apply Zplus_mod_idemp_r. Qed.

Lemma wrap_land_ones w z : 0 <= w -> wrap w z = Z.land z (Z.ones w).
Proof. intros. unfold wrap. now rewrite Z.land_ones. Qed.

Lemma wrap_testbit w z i :
  0 <= w -> 0 <= i -> Z.testbit (wrap w z) i = (i <? w) && Z.testbit z i.
Proof.
  intros. rewrite wrap_land_ones, Z.land_spec by done.
  destruct (Z.ltb_spec i w).
  - rewrite Z.ones_spec_low by lia. btauto.
  - rewrite Z.ones_spec_high by lia. btauto.
Qed.

Lemma uint_testbit_high w z i : is_uint w z -> 0 <= w <= i -> Z.testbit z i = false.
Proof.
  intros Hz Hi. rewrite <- (wrap_small w z) by done.
  rewrite wrap_testbit by lia. destruct (Z.ltb_spec i w); [lia|done].
Qed.

(** A non-negative number with no bit at or above [w] is a [w]-bit number. *)
Lemma uint_of_bits w z :
  0 <= w -> (forall i, w <= i -> Z.testbit z i = false) -> is_uint w z.
Proof.
  intros Hw H. replace z with (wrap w z); [by apply wrap_is_uint|].
  apply Z.bits_inj'; intros i Hi. rewrite wrap_testbit by lia.
  destruct (Z.ltb_spec i w); [done|]. by rewrite H.
Qed.

Lemma is_uint_mono w w' z : is_uint w z -> 0 <= w <= w' -> is_uint w' z.
Proof. unfold is_uint. intros. pose proof (Z.pow_le_mono_r 2 w w'). lia. Qed.

Lemma land_is_uint w a b : 0 <= w -> is_uint w b -> is_uint w (a .& b).
Proof.
  intros Hw Hb. apply uint_of_bits; [done|]. intros i Hi.
  rewrite Z.land_spec, (uint_testbit_high w b) by (done || lia). btauto.
Qed.

Lemma lor_is_uint w a b : 0 <= w -> is_uint w a -> is_uint w b -> is_uint w (a .| b).
Proof.
  intros Hw Ha Hb. apply uint_of_bits; [done|]. intros i Hi.
  by rewrite Z.lor_spec, (uint_testbit_high w a), (uint_testbit_high w b) by (done || lia).
Qed.

Lemma lxor_is_uint w a b : 0 <= w -> is_uint w a -> is_uint w b -> is_uint w (a .^ b).
Proof.
  intros Hw Ha Hb. apply uint_of_bits; [done|]. intros i Hi.
  by rewrite Z.lxor_spec, (uint_testbit_high w a), (uint_testbit_high w b) by (done || lia).
Qed.

Lemma shiftr_is_uint w n a : 0 <= n <= w -> is_uint w a -> is_uint (w - n) (a >> n).
Proof.
  intros Hn Ha. apply uint_of_bits; [lia|]. intros i Hi.
  rewrite Z.shiftr_spec by lia. apply (uint_testbit_high w); [done|lia].
Qed.

Lemma shiftl_is_uint w n a : 0 <= w -> 0 <= n -> is_uint w a -> is_uint (w + n) (a << n).
Proof.
  intros Hw Hn Ha. apply uint_of_bits; [lia|]. intros i Hi.
  rewrite Z.shiftl_spec by lia. apply (uint_testbit_high w); [done|lia].
Qed.

(** Masking with one bit. *)
Lemma land_pow2 z n : 0 <= n -> z .& 2 ^ n = if Z.testbit z n then 2 ^ n else 0.
Proof.
  intros Hn. apply Z.bits_inj'; intros i Hi.
  rewrite Z.land_spec, Z.pow2_bits_eqb by done.
  destruct (Z.eqb_spec n i) as [->|Hne].
  - destruct (Z.testbit z i); rewrite ?Z.pow2_bits_true, ?Z.bits_0 by done; done.
  - destruct (Z.testbit z n); rewrite ?Z.pow2_bits_false, ?Z.bits_0 by done; btauto.
Qed.

Lemma nz_land_pow2 z n : 0 <= n -> nz (z .& 2 ^ n) = Z.testbit z n.
Proof.
  intros Hn. rewrite land_pow2 by done. unfold nz.
  destruct (Z.testbit z n); [|done].
  destruct (Z.eqb_spec (2 ^ n) 0); [lia|done].
Qed.

Lemma land_le a b : 0 <= b -> 0 <= a .& b <= b.
Proof.
  intros Hb. apply Z.ldiff_le; [done|]. apply Z.bits_inj'; intros i Hi.
  rewrite Z.ldiff_spec, Z.land_spec, Z.bits_0. btauto.
Qed.

(** Disjoint or is addition. *)
Lemma lor_disjoint_add a b : a .& b = 0 -> a .| b = a + b.
Proof. intros H. symmetry. apply Z.add_nocarry_lxor in H as H'. rewrite H'. by apply Z.lxor_lor. Qed.

Lemma lor_shiftl_add w a b : 0 <= w -> is_uint w a -> a .| (b << w) = a + b * 2 ^ w.
Proof.
  intros Hw Ha. rewrite lor_disjoint_add; [by rewrite Z.shiftl_mul_pow2|].
  apply Z.bits_inj'; intros i Hi. rewrite Z.land_spec, Z.bits_0.
  destruct (decide (i < w)).
  - rewrite Z.shiftl_spec_low by lia. btauto.
  - rewrite (uint_testbit_high w a) by (done || lia). done.
Qed.

(** ** Automation

    [zbits] proves an equality of bit expressions by comparing every bit;
    [uints] proves that an expression is an unsigned integer of its width. *)

Create HintDb cint discriminated.
#[export] Hint Resolve wrap_is_uint land_is_uint lor_is_uint lxor_is_uint : cint.
#[export] Hint Rewrite Z.land_spec Z.lor_spec Z.lxor_spec Z.bits_0 : zbits.
#[export] Hint Rewrite Z.shiftr_spec Z.shiftl_spec wrap_testbit Z.lnot_spec
  using lia : zbits.

Ltac zbits :=
  apply Z.bits_inj'; intros ? ?; autorewrite with zbits; try btauto.

Ltac uints :=
  repeat first
    [ assumption
    | apply wrap_is_uint; lia
    | apply lor_is_uint; [lia| |]
    | apply lxor_is_uint; [lia| |]
    | apply land_is_uint; [lia|]
    | split; [lia|reflexivity] ].

(** ** The kernel's bit helpers: population count, rotations, byte swap *)

Fixpoint popcount (n : nat) (z : Z) : Z :=
  match n with
  | O => 0
  | S n => Z.b2z (Z.odd z) + popcount n (Z.div2 z)
  end.
Definition hweight8 (z : Z) : Z := popcount 8 z.

Definition rol32 (x n : Z) : Z := u32 (x << n) .| (x >> (32 - n)).
Definition ror32 (x n : Z) : Z := (x >> n) .| u32 (x << (32 - n)).
Definition ror16 (x n : Z) : Z := (x >> n) .| u16 (x << (16 - n)).
Definition swab16 (x : Z) : Z := ((x .& 0x00ff) << 8) .| ((x .& 0xff00) >> 8).

Lemma popcount_range n z : 0 <= popcount n z <= Z.of_nat n.
Proof.
  revert z. induction n as [|n IH]; intros z; cbn [popcount]; [lia|].
  specialize (IH (Z.div2 z)). destruct (Z.odd z); simpl Z.b2z; lia.
Qed.

(** ** Byte buffers

    A buffer is a [list Z] of bytes; a pointer into it is an offset.  A read
    outside the buffer has no value: the readers return [None], which a model
    of C code propagates as a memory fault. *)

Definition rd8 (buf : list Z) (off : Z) : option Z :=
  if off <? 0 then None else buf !! Z.to_nat off.

Definition rd_le16 (buf : list Z) (off : Z) : option Z :=
  b0 ← rd8 buf off; b1 ← rd8 buf (off + 1); Some (b0 .| (b1 << 8)).

Definition rd_be16 (buf : list Z) (off : Z) : option Z :=
  b0 ← rd8 buf off; b1 ← rd8 buf (off + 1); Some ((b0 << 8) .| b1).

Definition rd_le32 (buf : list Z) (off : Z) : option Z :=
  h0 ← rd_le16 buf off; h1 ← rd_le16 buf (off + 2); Some (h0 .| (h1 << 16)).

(** [put_unaligned_le32] and friends, as the list of bytes written. *)
Definition le16_bytes (v : Z) : list Z := [u8 v; u8 (v >> 8)].
Definition le32_bytes (v : Z) : list Z :=
  [u8 v; u8 (v >> 8); u8 (v >> 16); u8 (v >> 24)].

Definition zlen {A} (l : list A) : Z := Z.of_nat (length l).

Lemma zlen_nonneg {A} (l : list A) : 0 <= zlen l.
Proof. unfold zlen. lia. Qed.

Lemma zlen_app {A} (l k : list A) : zlen (l ++ k) = zlen l + zlen k.
Proof. unfold zlen. rewrite length_app. lia. Qed.

Lemma rd8_Some buf off : 0 <= off < zlen buf -> exists b, rd8 buf off = Some b.
Proof.
  unfold rd8, zlen. intros H. destruct (Z.ltb_spec off 0); [lia|].
  apply lookup_lt_is_Some. lia.
Qed.

Lemma rd8_range buf off b : rd8 buf off = Some b -> 0 <= off < zlen buf.
Proof.
  unfold rd8, zlen. destruct (Z.ltb_spec off 0); [done|].
  intros Hb%lookup_lt_Some. lia.
Qed.

Lemma rd8_ok buf off b : bytes_ok buf -> rd8 buf off = Some b -> is_uint 8 b.
Proof.
  unfold rd8. intros Hok. destruct (off <? 0); [done|].
  intros Hb. eapply Forall_lookup_1; eauto.
Qed.

Lemma rd_le16_Some buf off :
  0 <= off -> off + 2 <= zlen buf -> exists v, rd_le16 buf off = Some v.
Proof.
  intros ??. unfold rd_le16.
  destruct (rd8_Some buf off) as [b0 ->]; [lia|].
  destruct (rd8_Some buf (off + 1)) as [b1 ->]; [lia|]. simpl. eauto.
Qed.

Lemma rd_le32_Some buf off :
  0 <= off -> off + 4 <= zlen buf -> exists v, rd_le32 buf off = Some v.
Proof.
  intros ??. unfold rd_le32.
  destruct (rd_le16_Some buf off) as [b0 ->]; [lia..|].
  destruct (rd_le16_Some buf (off + 2)) as [b1 ->]; [lia..|]. simpl. eauto.
Qed.

Lemma rd_le16_ok buf off v : bytes_ok buf -> rd_le16 buf off = Some v -> is_uint 16 v.
Proof.
  unfold rd_le16. intros Hok H.
  destruct (rd8 buf off) as [b0|] eqn:E0; [|done].
  destruct (rd8 buf (off + 1)) as [b1|] eqn:E1; [|done]. simplify_eq/=.
  apply rd8_ok in E0, E1; [|done..]. apply lor_is_uint; [lia| |].
  - eapply is_uint_mono; [done|lia].
  - by apply (shiftl_is_uint 8 8).
Qed.

Lemma rd_le32_ok buf off v : bytes_ok buf -> rd_le32 buf off = Some v -> is_uint 32 v.
Proof.
  unfold rd_le32. intros Hok H.
  destruct (rd_le16 buf off) as [b0|] eqn:E0; [|done].
  destruct (rd_le16 buf (off + 2)) as [b1|] eqn:E1; [|done]. simplify_eq/=.
  apply rd_le16_ok in E0, E1; [|done..]. apply lor_is_uint; [lia| |].
  - eapply is_uint_mono; [done|lia].
  - by apply (shiftl_is_uint 16 16).
Qed.

(** Reads in a concatenation. *)
Lemma rd8_app_r pre l k : 0 <= k -> rd8 (pre ++ l) (zlen pre + k) = rd8 l k.
Proof.
  intros Hk. unfold rd8, zlen. destruct (Z.ltb_spec (Z.of_nat (length pre) + k) 0); [lia|].
  destruct (Z.ltb_spec k 0); [lia|].
  rewrite lookup_app_r by lia. f_equal. lia.
Qed.

Lemma rd8_app_l pre l k : k < zlen pre -> rd8 (pre ++ l) k = rd8 pre k.
Proof.
  unfold rd8, zlen. intros Hk. destruct (Z.ltb_spec k 0); [done|].
  apply lookup_app_l. lia.
Qed.

Lemma rd8_here pre x l : rd8 (pre ++ x :: l) (zlen pre) = Some x.
Proof. rewrite <- (Z.add_0_r (zlen pre)), rd8_app_r by lia. done. Qed.

Lemma rd8_cons x l k : 0 <= k -> rd8 (x :: l) (1 + k) = rd8 l k.
Proof. apply (rd8_app_r [x] l k). Qed.

Lemma rd8_lookup l k : 0 <= k -> rd8 l k = l !! Z.to_nat k.
Proof. intros. unfold rd8. by destruct (Z.ltb_spec k 0); [lia|]. Qed.

Lemma zlen_cons {A} (x : A) l : zlen (x :: l) = 1 + zlen l.
Proof. unfold zlen. simpl length. lia. Qed.

Lemma zlen_nil {A} : zlen (@nil A) = 0.
Proof. done. Qed.

#[export] Hint Rewrite @zlen_app @zlen_cons @zlen_nil : zlen.
Ltac zlens := autorewrite with zlen in *.

(** Case analysis on the boolean comparisons of a goal or hypothesis, with the
    order facts they decide in the context. *)
Ltac zcase :=
  match goal with
  | |- context [?a <? ?b] => destruct (Z.ltb_spec a b)
  | |- context [?a <=? ?b] => destruct (Z.leb_spec a b)
  | |- context [?a =? ?b] => destruct (Z.eqb_spec a b)
  | H : context [?a <? ?b] |- _ => destruct (Z.ltb_spec a b)
  | H : context [?a <=? ?b] |- _ => destruct (Z.leb_spec a b)
  | H : context [?a =? ?b] |- _ => destruct (Z.eqb_spec a b)
  end.

(** Closes [exists r, e = Some r /\ P r] goals whose witness is on the left. *)
Ltac exdone := eexists; first [reflexivity | split; [reflexivity|done]].

(** ** Reading back what was written *)

Lemma byte_split_join v : is_uint 16 v -> u8 v .| (u8 (v >> 8) << 8) = v.
Proof.
  intros Hv. apply Z.bits_inj'; intros i Hi. rewrite Z.lor_spec, wrap_testbit by lia.
  destruct (Z.ltb_spec i 8).
  - rewrite Z.shiftl_spec_low by lia. btauto.
  - rewrite Z.shiftl_spec, wrap_testbit, Z.shiftr_spec by lia.
    replace (i - 8 + 8) with i by lia. destruct (Z.ltb_spec (i - 8) 8); [btauto|].
    rewrite (uint_testbit_high 16 v) by (done || lia). btauto.
Qed.

Lemma rd_le16_bytes v l : is_uint 16 v -> rd_le16 (le16_bytes v ++ l) 0 = Some v.
Proof.
  intros Hv. transitivity (Some (u8 v .| (u8 (v >> 8) << 8))); [done|].
  by rewrite byte_split_join.
Qed.

Lemma le32_bytes_halves v : le32_bytes v = le16_bytes (u16 v) ++ le16_bytes (v >> 16).
Proof.
  unfold le32_bytes, le16_bytes. cbn [app]. rewrite Z.shiftr_shiftr by lia. f_equal; [|f_equal].
  - zbits. repeat zcase; btauto || lia.
  - zbits. repeat zcase; btauto || lia.
Qed.

Lemma half_split_join v : u16 v .| ((v >> 16) << 16) = v.
Proof.
  apply Z.bits_inj'; intros i Hi. rewrite Z.lor_spec, wrap_testbit by lia.
  destruct (Z.ltb_spec i 16).
  - rewrite Z.shiftl_spec_low by lia. btauto.
  - rewrite Z.shiftl_spec, Z.shiftr_spec by lia.
    replace (i - 16 + 16) with i by lia. btauto.
Qed.

Lemma rd_le32_bytes v l : is_uint 32 v -> rd_le32 (le32_bytes v ++ l) 0 = Some v.
Proof.
  intros Hv. unfold rd_le32. rewrite le32_bytes_halves, <- app_assoc.
  rewrite rd_le16_bytes by (apply wrap_is_uint; lia). cbn [mbind option_bind].
  replace (rd_le16 _ (0 + 2)) with (rd_le16 (le16_bytes (v >> 16) ++ l) 0) by done.
  rewrite rd_le16_bytes by (by apply (shiftr_is_uint 32 16)). cbn [mbind option_bind].
  f_equal. apply half_split_join.
Qed.

Lemma le16_bytes_ok v : bytes_ok (le16_bytes v).
Proof. repeat constructor; by apply wrap_is_uint. Qed.

Lemma le32_bytes_ok v : bytes_ok (le32_bytes v).
Proof. repeat constructor; by apply wrap_is_uint. Qed.

(** One bind of an option computation that has not faulted. *)
Lemma bind_some {A B} (x : A) (f : A -> option B) : Some x ≫= f = f x.
Proof. reflexivity. Qed.

(** [obind H] runs the option computation of [H : e = Some r] bind by bind,
    discarding the faults; [ostep] does one bind of the goal's left side by
    cases, closing the fault. *)
Ltac obind H :=
  repeat match type of H with
  | mbind _ ?e = Some _ =>
      let x := fresh "x" in let E := fresh "E" in
      destruct e as [x|] eqn:E; [cbn [mbind option_bind] in H | discriminate H]
  end.
Ltac ostep :=
  match goal with
  | |- mbind _ ?e = _ =>
      let x := fresh "x" in let E := fresh "E" in
      destruct e as [x|] eqn:E; [cbn [mbind option_bind] | done]
  end.

Lemma rd_le16_app_r pre l k : 0 <= k -> rd_le16 (pre ++ l) (zlen pre + k) = rd_le16 l k.
Proof. intros. unfold rd_le16. by rewrite <- Z.add_assoc, !rd8_app_r by lia. Qed.

Lemma rd_le32_app_r pre l k : 0 <= k -> rd_le32 (pre ++ l) (zlen pre + k) = rd_le32 l k.
Proof. intros. unfold rd_le32. by rewrite <- Z.add_assoc, !rd_le16_app_r by lia. Qed.
