(* ===== verification/Frame.v ===== *)
(** * Frame: frame-control predicates and the 802.11 header

    Models [include/linux/ieee80211.h] (frame type predicates, address and QoS
    accessors, robust-management classification, TIM lookup, sequence-number
    arithmetic) and the header-length computation of [net/wireless/util.c].
    A [__le16] is its numeric value; a frame is a byte buffer, a pointer into
    it an offset, and a read past its end has no value. *)
From S2P Require Import Prelude.

(** ** Constants *)

Definition WLAN_EID_S1G_BCN_COMPAT : Z := 213.
Definition IEEE80211_UHR_NPCA_PARAMS_DIS_SUBCH_BMAP_PRES : Z := 0x08000000.
Definition IEEE80211_UHR_DBE_OPER_DIS_SUBCHANNEL_BITMAP_PRES : Z := 0x08.
Definition IEEE80211_FCTL_FTYPE : Z := 0x000c.
Definition IEEE80211_FCTL_STYPE : Z := 0x00f0.
Definition IEEE80211_FCTL_TODS : Z := 0x0100.
Definition IEEE80211_FCTL_FROMDS : Z := 0x0200.
Definition IEEE80211_FCTL_MOREFRAGS : Z := 0x0400.
Definition IEEE80211_FCTL_RETRY : Z := 0x0800.
Definition IEEE80211_FCTL_PM : Z := 0x1000.
Definition IEEE80211_FCTL_MOREDATA : Z := 0x2000.
Definition IEEE80211_FCTL_PROTECTED : Z := 0x4000.
Definition IEEE80211_FCTL_ORDER : Z := 0x8000.
Definition IEEE80211_SCTL_FRAG : Z := 0x000f.
Definition IEEE80211_SCTL_SEQ : Z := 0xfff0.
Definition IEEE80211_FTYPE_MGMT : Z := 0x0000.
Definition IEEE80211_FTYPE_CTL : Z := 0x0004.
Definition IEEE80211_FTYPE_DATA : Z := 0x0008.
Definition IEEE80211_FTYPE_EXT : Z := 0x000c.
Definition IEEE80211_STYPE_ASSOC_REQ : Z := 0x0000.
Definition IEEE80211_STYPE_ASSOC_RESP : Z := 0x0010.
Definition IEEE80211_STYPE_REASSOC_REQ : Z := 0x0020.
Definition IEEE80211_STYPE_REASSOC_RESP : Z := 0x0030.
Definition IEEE80211_STYPE_PROBE_REQ : Z := 0x0040.
Definition IEEE80211_STYPE_PROBE_RESP : Z := 0x0050.
Definition IEEE80211_STYPE_BEACON : Z := 0x0080.
Definition IEEE80211_STYPE_ATIM : Z := 0x0090.
Definition IEEE80211_STYPE_DISASSOC : Z := 0x00A0.
Definition IEEE80211_STYPE_AUTH : Z := 0x00B0.
Definition IEEE80211_STYPE_DEAUTH : Z := 0x00C0.
Definition IEEE80211_STYPE_ACTION : Z := 0x00D0.
Definition IEEE80211_STYPE_TRIGGER : Z := 0x0020.
Definition IEEE80211_STYPE_BACK_REQ : Z := 0x0080.
Definition IEEE80211_STYPE_BACK : Z := 0x0090.
Definition IEEE80211_STYPE_PSPOLL : Z := 0x00A0.
Definition IEEE80211_STYPE_RTS : Z := 0x00B0.
Definition IEEE80211_STYPE_CTS : Z := 0x00C0.
Definition IEEE80211_STYPE_ACK : Z := 0x00D0.
Definition IEEE80211_STYPE_CFEND : Z := 0x00E0.
Definition IEEE80211_STYPE_CFENDACK : Z := 0x00F0.
Definition IEEE80211_STYPE_NULLFUNC : Z := 0x0040.
Definition IEEE80211_STYPE_QOS_DATA : Z := 0x0080.
Definition IEEE80211_STYPE_QOS_NULLFUNC : Z := 0x00C0.
Definition IEEE80211_STYPE_S1G_BEACON : Z := 0x0010.
Definition IEEE80211_QOS_CTL_LEN : Z := 2.
Definition IEEE80211_QOS_CTL_TID_MASK : Z := 0x000f.
Definition IEEE80211_HT_CTL_LEN : Z := 4.
Definition ETH_ALEN : Z := 6.
Definition WLAN_CATEGORY_PUBLIC : Z := 4.
Definition WLAN_CATEGORY_HT : Z := 7.
Definition WLAN_CATEGORY_WNM_UNPROTECTED : Z := 11.
Definition WLAN_CATEGORY_MESH_ACTION : Z := 13.
Definition WLAN_CATEGORY_MULTIHOP_ACTION : Z := 14.
Definition WLAN_CATEGORY_SELF_PROTECTED : Z := 15.
Definition WLAN_CATEGORY_UNPROT_DMG : Z := 20.
Definition WLAN_CATEGORY_VHT : Z := 21.
Definition WLAN_CATEGORY_S1G : Z := 22.
Definition WLAN_CATEGORY_VENDOR_SPECIFIC : Z := 127.
Definition WLAN_PUB_ACTION_20_40_BSS_COEX : Z := 0.
Definition WLAN_PUB_ACTION_DSE_REG_LOC_ANN : Z := 3.
Definition WLAN_PUB_ACTION_MSMT_PILOT : Z := 7.
Definition WLAN_PUB_ACTION_VENDOR_SPECIFIC : Z := 9.
Definition WLAN_PUB_ACTION_TDLS_DISCOVER_RES : Z := 14.
Definition WLAN_PUB_ACTION_LOC_TRACK_NOTI : Z := 15.
Definition WLAN_PUB_ACTION_FTM_REQUEST : Z := 32.
Definition WLAN_PUB_ACTION_FTM_RESPONSE : Z := 33.
Definition WLAN_PUB_ACTION_FILS_DISCOVERY : Z := 34.

(** ** Frame-control predicates *)

Definition ieee80211_has_tods (fc : Z) : bool := nz (fc .& IEEE80211_FCTL_TODS).
Definition ieee80211_has_fromds (fc : Z) : bool := nz (fc .& IEEE80211_FCTL_FROMDS).
Definition ieee80211_has_a4 (fc : Z) : bool :=
  let tmp := IEEE80211_FCTL_TODS .| IEEE80211_FCTL_FROMDS in
  fc .& tmp =? tmp.
Definition ieee80211_has_morefrags (fc : Z) : bool := nz (fc .& IEEE80211_FCTL_MOREFRAGS).
Definition ieee80211_has_retry (fc : Z) : bool := nz (fc .& IEEE80211_FCTL_RETRY).
Definition ieee80211_has_pm (fc : Z) : bool := nz (fc .& IEEE80211_FCTL_PM).
Definition ieee80211_has_moredata (fc : Z) : bool := nz (fc .& IEEE80211_FCTL_MOREDATA).
Definition ieee80211_has_protected (fc : Z) : bool := nz (fc .& IEEE80211_FCTL_PROTECTED).
Definition ieee80211_has_order (fc : Z) : bool := nz (fc .& IEEE80211_FCTL_ORDER).
Definition ieee80211_is_mgmt (fc : Z) : bool :=
  fc .& IEEE80211_FCTL_FTYPE =? IEEE80211_FTYPE_MGMT.
Definition ieee80211_is_ctl (fc : Z) : bool :=
  fc .& IEEE80211_FCTL_FTYPE =? IEEE80211_FTYPE_CTL.
Definition ieee80211_is_data (fc : Z) : bool :=
  fc .& IEEE80211_FCTL_FTYPE =? IEEE80211_FTYPE_DATA.
Definition ieee80211_is_ext (fc : Z) : bool :=
  fc .& IEEE80211_FCTL_FTYPE =? IEEE80211_FTYPE_EXT.
Definition ieee80211_is_data_qos (fc : Z) : bool :=
  fc .& (IEEE80211_FCTL_FTYPE .| IEEE80211_STYPE_QOS_DATA)
    =? (IEEE80211_FTYPE_DATA .| IEEE80211_STYPE_QOS_DATA).
Definition ieee80211_is_data_present (fc : Z) : bool :=
  fc .& (IEEE80211_FCTL_FTYPE .| 0x40) =? IEEE80211_FTYPE_DATA.
Definition ieee80211_is_assoc_req (fc : Z) : bool :=
  fc .& (IEEE80211_FCTL_FTYPE .| IEEE80211_FCTL_STYPE)
    =? (IEEE80211_FTYPE_MGMT .| IEEE80211_STYPE_ASSOC_REQ).
Definition ieee80211_is_assoc_resp (fc : Z) : bool :=
  fc .& (IEEE80211_FCTL_FTYPE .| IEEE80211_FCTL_STYPE)
    =? (IEEE80211_FTYPE_MGMT .| IEEE80211_STYPE_ASSOC_RESP).
Definition ieee80211_is_reassoc_req (fc : Z) : bool :=
  fc .& (IEEE80211_FCTL_FTYPE .| IEEE80211_FCTL_STYPE)
    =? (IEEE80211_FTYPE_MGMT .| IEEE80211_STYPE_REASSOC_REQ).
Definition ieee80211_is_reassoc_resp (fc : Z) : bool :=
  fc .& (IEEE80211_FCTL_FTYPE .| IEEE80211_FCTL_STYPE)
    =? (IEEE80211_FTYPE_MGMT .| IEEE80211_STYPE_REASSOC_RESP).
Definition ieee80211_is_assoc (fc : Z) : bool :=
  ieee80211_is_assoc_req fc || ieee80211_is_reassoc_req fc ||
  ieee80211_is_assoc_resp fc || ieee80211_is_reassoc_resp fc.
Definition ieee80211_is_probe_req (fc : Z) : bool :=
  fc .& (IEEE80211_FCTL_FTYPE .| IEEE80211_FCTL_STYPE)
    =? (IEEE80211_FTYPE_MGMT .| IEEE80211_STYPE_PROBE_REQ).
Definition ieee80211_is_probe_resp (fc : Z) : bool :=
  fc .& (IEEE80211_FCTL_FTYPE .| IEEE80211_FCTL_STYPE)
    =? (IEEE80211_FTYPE_MGMT .| IEEE80211_STYPE_PROBE_RESP).
Definition ieee80211_is_beacon (fc : Z) : bool :=
  fc .& (IEEE80211_FCTL_FTYPE .| IEEE80211_FCTL_STYPE)
    =? (IEEE80211_FTYPE_MGMT .| IEEE80211_STYPE_BEACON).
Definition ieee80211_is_atim (fc : Z) : bool :=
  fc .& (IEEE80211_FCTL_FTYPE .| IEEE80211_FCTL_STYPE)
    =? (IEEE80211_FTYPE_MGMT .| IEEE80211_STYPE_ATIM).
Definition ieee80211_is_disassoc (fc : Z) : bool :=
  fc .& (IEEE80211_FCTL_FTYPE .| IEEE80211_FCTL_STYPE)
    =? (IEEE80211_FTYPE_MGMT .| IEEE80211_STYPE_DISASSOC).
Definition ieee80211_is_auth (fc : Z) : bool :=
  fc .& (IEEE80211_FCTL_FTYPE .| IEEE80211_FCTL_STYPE)
    =? (IEEE80211_FTYPE_MGMT .| IEEE80211_STYPE_AUTH).
Definition ieee80211_is_deauth (fc : Z) : bool :=
  fc .& (IEEE80211_FCTL_FTYPE .| IEEE80211_FCTL_STYPE)
    =? (IEEE80211_FTYPE_MGMT .| IEEE80211_STYPE_DEAUTH).
Definition ieee80211_is_action (fc : Z) : bool :=
  fc .& (IEEE80211_FCTL_FTYPE .| IEEE80211_FCTL_STYPE)
    =? (IEEE80211_FTYPE_MGMT .| IEEE80211_STYPE_ACTION).
Definition ieee80211_is_back_req (fc : Z) : bool :=
  fc .& (IEEE80211_FCTL_FTYPE .| IEEE80211_FCTL_STYPE)
    =? (IEEE80211_FTYPE_CTL .| IEEE80211_STYPE_BACK_REQ).
Definition ieee80211_is_back (fc : Z) : bool :=
  fc .& (IEEE80211_FCTL_FTYPE .| IEEE80211_FCTL_STYPE)
    =? (IEEE80211_FTYPE_CTL .| IEEE80211_STYPE_BACK).
Definition ieee80211_is_pspoll (fc : Z) : bool :=
  fc .& (IEEE80211_FCTL_FTYPE .| IEEE80211_FCTL_STYPE)
    =? (IEEE80211_FTYPE_CTL .| IEEE80211_STYPE_PSPOLL).
Definition ieee80211_is_rts (fc : Z) : bool :=
  fc .& (IEEE80211_FCTL_FTYPE .| IEEE80211_FCTL_STYPE)
    =? (IEEE80211_FTYPE_CTL .| IEEE80211_STYPE_RTS).
Definition ieee80211_is_cts (fc : Z) : bool :=
  fc .& (IEEE80211_FCTL_FTYPE .| IEEE80211_FCTL_STYPE)
    =? (IEEE80211_FTYPE_CTL .| IEEE80211_STYPE_CTS).
Definition ieee80211_is_ack (fc : Z) : bool :=
  fc .& (IEEE80211_FCTL_FTYPE .| IEEE80211_FCTL_STYPE)
    =? (IEEE80211_FTYPE_CTL .| IEEE80211_STYPE_ACK).
Definition ieee80211_is_cfend (fc : Z) : bool :=
  fc .& (IEEE80211_FCTL_FTYPE .| IEEE80211_FCTL_STYPE)
    =? (IEEE80211_FTYPE_CTL .| IEEE80211_STYPE_CFEND).
Definition ieee80211_is_cfendack (fc : Z) : bool :=
  fc .& (IEEE80211_FCTL_FTYPE .| IEEE80211_FCTL_STYPE)
    =? (IEEE80211_FTYPE_CTL .| IEEE80211_STYPE_CFENDACK).
Definition ieee80211_is_nullfunc (fc : Z) : bool :=
  fc .& (IEEE80211_FCTL_FTYPE .| IEEE80211_FCTL_STYPE)
    =? (IEEE80211_FTYPE_DATA .| IEEE80211_STYPE_NULLFUNC).
Definition ieee80211_is_qos_nullfunc (fc : Z) : bool :=
  fc .& (IEEE80211_FCTL_FTYPE .| IEEE80211_FCTL_STYPE)
    =? (IEEE80211_FTYPE_DATA .| IEEE80211_STYPE_QOS_NULLFUNC).
Definition ieee80211_is_trigger (fc : Z) : bool :=
  fc .& (IEEE80211_FCTL_FTYPE .| IEEE80211_FCTL_STYPE)
    =? (IEEE80211_FTYPE_CTL .| IEEE80211_STYPE_TRIGGER).
Definition ieee80211_is_any_nullfunc (fc : Z) : bool :=
  ieee80211_is_nullfunc fc || ieee80211_is_qos_nullfunc fc.
Definition ieee80211_is_s1g_beacon (fc : Z) : bool :=
  fc .& (IEEE80211_FCTL_FTYPE .| IEEE80211_FCTL_STYPE)
    =? (IEEE80211_FTYPE_EXT .| IEEE80211_STYPE_S1G_BEACON).
Definition ieee80211_is_first_frag (seq_ctrl : Z) : bool :=
  seq_ctrl .& IEEE80211_SCTL_FRAG =? 0.

(** ** Sequence numbers *)

Definition IEEE80211_SN_MASK : Z := IEEE80211_SCTL_SEQ >> 4.
Definition IEEE80211_MAX_SN : Z := IEEE80211_SN_MASK.
Definition IEEE80211_SN_MODULO : Z := IEEE80211_MAX_SN + 1.

Definition ieee80211_sn_less (sn1 sn2 : Z) : bool :=
  (IEEE80211_SN_MODULO >> 1) <? ((sn1 - sn2) .& IEEE80211_SN_MASK).
Definition ieee80211_sn_less_eq (sn1 sn2 : Z) : bool :=
  ((sn2 - sn1) .& IEEE80211_SN_MASK) <=? (IEEE80211_SN_MODULO >> 1).
Definition ieee80211_sn_add (sn1 sn2 : Z) : Z := (sn1 + sn2) .& IEEE80211_SN_MASK.
Definition ieee80211_sn_inc (sn : Z) : Z := ieee80211_sn_add sn 1.
Definition ieee80211_sn_sub (sn1 sn2 : Z) : Z := (sn1 - sn2) .& IEEE80211_SN_MASK.
Definition IEEE80211_SEQ_TO_SN (seq : Z) : Z := (seq .& IEEE80211_SCTL_SEQ) >> 4.
Definition IEEE80211_SN_TO_SEQ (ssn : Z) : Z := (ssn << 4) .& IEEE80211_SCTL_SEQ.

(** ** The header [struct ieee80211_hdr], at the start of a frame buffer *)

Definition hdr_frame_control (frame : list Z) : option Z := rd_le16 frame 0.
Definition hdr_seq_ctrl (frame : list Z) : option Z := rd_le16 frame 22.
Definition ADDR1 : Z := 4.
Definition ADDR2 : Z := 10.
Definition ADDR3 : Z := 16.
Definition ADDR4 : Z := 24.

Definition ieee80211_is_frag (frame : list Z) : option bool :=
  fc ← hdr_frame_control frame;
  if ieee80211_has_morefrags fc then Some true
  else seq ← hdr_seq_ctrl frame; Some (nz (seq .& IEEE80211_SCTL_FRAG)).

(** [le16_get_bits(v, IEEE80211_SCTL_SEQ)] *)
Definition ieee80211_get_sn (frame : list Z) : option Z :=
  seq ← hdr_seq_ctrl frame; Some ((seq .& IEEE80211_SCTL_SEQ) >> 4).

(** Offset of the QoS control field: after three or four addresses. *)
Definition ieee80211_get_qos_ctl (frame : list Z) : option Z :=
  fc ← hdr_frame_control frame;
  Some (if ieee80211_has_a4 fc then 30 else 24).

Definition ieee80211_get_tid (frame : list Z) : option Z :=
  qc ← ieee80211_get_qos_ctl frame;
  b ← rd8 frame qc;
  Some (b .& IEEE80211_QOS_CTL_TID_MASK).

Definition ieee80211_get_SA (frame : list Z) : option Z :=
  fc ← hdr_frame_control frame;
  Some (if ieee80211_has_a4 fc then ADDR4
        else if ieee80211_has_fromds fc then ADDR3 else ADDR2).

Definition ieee80211_get_DA (frame : list Z) : option Z :=
  fc ← hdr_frame_control frame;
  Some (if ieee80211_has_tods fc then ADDR3 else ADDR1).

Definition ieee80211_hdrlen (fc : Z) : Z :=
  if ieee80211_is_ext fc then 4
  else if ieee80211_is_data fc then
    let hdrlen := if ieee80211_has_a4 fc then 30 else 24 in
    if ieee80211_is_data_qos fc then
      let hdrlen := hdrlen + IEEE80211_QOS_CTL_LEN in
      if ieee80211_has_order fc then hdrlen + IEEE80211_HT_CTL_LEN else hdrlen
    else hdrlen
  else if ieee80211_is_mgmt fc then
    if ieee80211_has_order fc then 24 + IEEE80211_HT_CTL_LEN else 24
  else if ieee80211_is_ctl fc then
    if fc .& 0x00E0 =? 0x00C0 then 10 else 16
  else 24.

Definition ieee80211_get_hdrlen_from_skb (skb : list Z) : option Z :=
  if zlen skb <? 10 then Some 0
  else
    fc ← hdr_frame_control skb;
    let hdrlen := ieee80211_hdrlen fc in
    Some (if zlen skb <? hdrlen then 0 else hdrlen).

(** ** Management frame classification

    The frame body starts at offset 24 ([struct ieee80211_mgmt]): the action
    category is its first octet, the action code its second. *)

Definition MIN_ACTION_SIZE_category : Z := 25.
Definition MIN_ACTION_SIZE_action_code : Z := 26.
Definition mgmt_category (frame : list Z) : option Z := rd8 frame 24.
Definition mgmt_action_code (frame : list Z) : option Z := rd8 frame 25.

Definition is_multicast_ether_addr (first_octet : Z) : bool := nz (first_octet .& 1).

Definition ieee80211_is_bufferable_mmpdu (skb : list Z) : option bool :=
  fc ← hdr_frame_control skb;
  if negb (ieee80211_is_mgmt fc) then Some false
  else if ieee80211_is_disassoc fc || ieee80211_is_deauth fc then Some true
  else if negb (ieee80211_is_action fc) then Some false
  else if zlen skb <? MIN_ACTION_SIZE_action_code then Some true
  else
    category ← mgmt_category skb;
    if negb (category =? WLAN_CATEGORY_PUBLIC) then Some true
    else
      action_code ← mgmt_action_code skb;
      Some (negb ((action_code =? WLAN_PUB_ACTION_FTM_REQUEST) ||
                  (action_code =? WLAN_PUB_ACTION_FTM_RESPONSE))).

Definition robust_category (category : Z) : bool :=
  negb (category =? WLAN_CATEGORY_PUBLIC) &&
  negb (category =? WLAN_CATEGORY_HT) &&
  negb (category =? WLAN_CATEGORY_WNM_UNPROTECTED) &&
  negb (category =? WLAN_CATEGORY_SELF_PROTECTED) &&
  negb (category =? WLAN_CATEGORY_UNPROT_DMG) &&
  negb (category =? WLAN_CATEGORY_VHT) &&
  negb (category =? WLAN_CATEGORY_S1G) &&
  negb (category =? WLAN_CATEGORY_VENDOR_SPECIFIC).

Definition _ieee80211_is_robust_mgmt_frame (frame : list Z) : option bool :=
  fc ← hdr_frame_control frame;
  if ieee80211_is_disassoc fc || ieee80211_is_deauth fc then Some true
  else if ieee80211_is_action fc then
    if ieee80211_has_protected fc then Some true
    else category ← mgmt_category frame; Some (robust_category category)
  else Some false.

Definition ieee80211_is_robust_mgmt_frame (skb : list Z) : option bool :=
  if zlen skb <? MIN_ACTION_SIZE_category then Some false
  else _ieee80211_is_robust_mgmt_frame skb.

Definition ieee80211_is_public_action (frame : list Z) (len : Z) : option bool :=
  if len <? MIN_ACTION_SIZE_category then Some false
  else
    fc ← hdr_frame_control frame;
    if negb (ieee80211_is_action fc) then Some false
    else category ← mgmt_category frame; Some (category =? WLAN_CATEGORY_PUBLIC).

Definition protected_dual_action (action : Z) : bool :=
  negb (action =? WLAN_PUB_ACTION_20_40_BSS_COEX) &&
  negb (action =? WLAN_PUB_ACTION_DSE_REG_LOC_ANN) &&
  negb (action =? WLAN_PUB_ACTION_MSMT_PILOT) &&
  negb (action =? WLAN_PUB_ACTION_TDLS_DISCOVER_RES) &&
  negb (action =? WLAN_PUB_ACTION_LOC_TRACK_NOTI) &&
  negb (action =? WLAN_PUB_ACTION_FTM_REQUEST) &&
  negb (action =? WLAN_PUB_ACTION_FTM_RESPONSE) &&
  negb (action =? WLAN_PUB_ACTION_FILS_DISCOVERY) &&
  negb (action =? WLAN_PUB_ACTION_VENDOR_SPECIFIC).

Definition ieee80211_is_protected_dual_of_public_action (skb : list Z) : option bool :=
  pub ← ieee80211_is_public_action skb (zlen skb);
  if negb pub || (zlen skb <? MIN_ACTION_SIZE_action_code) then Some false
  else action ← mgmt_action_code skb; Some (protected_dual_action action).

Definition _ieee80211_is_group_privacy_action (frame : list Z) : option bool :=
  fc ← hdr_frame_control frame;
  if negb (ieee80211_is_action fc) then Some false
  else
    a1 ← rd8 frame ADDR1;
    if negb (is_multicast_ether_addr a1) then Some false
    else
      category ← mgmt_category frame;
      Some ((category =? WLAN_CATEGORY_MESH_ACTION) ||
            (category =? WLAN_CATEGORY_MULTIHOP_ACTION)).

Definition ieee80211_is_group_privacy_action (skb : list Z) : option bool :=
  if zlen skb <? MIN_ACTION_SIZE_category then Some false
  else _ieee80211_is_group_privacy_action skb.

(** ** TIM lookup

    [tim] is the element's payload: DTIM count, DTIM period, bitmap control,
    and the partial virtual bitmap from offset 3.  [tim_len] is a [u8]. *)

Definition TIM_BITMAP_CTRL : Z := 2.
Definition TIM_VIRTUAL_MAP : Z := 3.
Definition sizeof_tim_ie : Z := 4.

Definition __ieee80211_check_tim (tim : list Z) (tim_len aid : Z) : option bool :=
  if tim_len <? sizeof_tim_ie then Some false
  else
    let aid := aid .& 0x3fff in
    let index := u8 (aid / 8) in
    let mask := u8 (1 << (aid .& 7)) in
    bitmap_ctrl ← rd8 tim TIM_BITMAP_CTRL;
    let indexn1 := u8 (bitmap_ctrl .& 0xfe) in
    let indexn2 := u8 (tim_len + indexn1 - 4) in
    if (index <? indexn1) || (indexn2 <? index) then Some false
    else
      let index := u8 (index - indexn1) in
      b ← rd8 tim (TIM_VIRTUAL_MAP + index);
      Some (nz (b .& mask)).

(** ** Sequence-number arithmetic: lemmas *)

Lemma sn_mask_mod z : z .& IEEE80211_SN_MASK = z mod 4096.
Proof. change IEEE80211_SN_MASK with (Z.ones 12). by rewrite Z.land_ones. Qed.

Lemma sn_less_spec a b :
  ieee80211_sn_less a b = true <-> 0 < (b - a) mod 4096 < 2048.
Proof.
  unfold ieee80211_sn_less. rewrite sn_mask_mod.
  change (IEEE80211_SN_MODULO >> 1) with 2048. rewrite Z.ltb_lt.
  Z.div_mod_to_equations. lia.
Qed.

Lemma sn_less_eq_spec a b :
  ieee80211_sn_less_eq a b = true <-> (b - a) mod 4096 <= 2048.
Proof.
  unfold ieee80211_sn_less_eq. rewrite sn_mask_mod.
  change (IEEE80211_SN_MODULO >> 1) with 2048. by rewrite Z.leb_le.
Qed.

Lemma sn_sub_mod a b : ieee80211_sn_sub a b = (a - b) mod 4096.
Proof. apply sn_mask_mod. Qed.

Lemma sn_add_mod a b : ieee80211_sn_add a b = (a + b) mod 4096.
Proof. apply sn_mask_mod. Qed.

Lemma sn_inc_mod a : ieee80211_sn_inc a = (a + 1) mod 4096.
Proof. apply sn_mask_mod. Qed.

Lemma sn_less_irrefl a : ieee80211_sn_less a a = false.
Proof.
  destruct (ieee80211_sn_less a a) eqn:E; [|done].
  apply sn_less_spec in E. rewrite Z.sub_diag, Zmod_0_l in E. lia.
Qed.

#[export] Hint Rewrite sn_mask_mod sn_sub_mod sn_add_mod sn_inc_mod : sn.

(** The receiver's ordering of sequence numbers is asymmetric, and total but
    for the two antipodal values of the circle. *)
Lemma sn_less_trichotomy a b :
  is_uint 12 a -> is_uint 12 b ->
  (ieee80211_sn_less a b = true /\ ieee80211_sn_less b a = false) \/
  (ieee80211_sn_less a b = false /\ ieee80211_sn_less b a = true) \/
  (ieee80211_sn_less a b = false /\ ieee80211_sn_less b a = false /\
   (a = b \/ (a - b) mod 4096 = 2048)).
Proof.
  unfold is_uint. intros Ha Hb.
  destruct (ieee80211_sn_less a b) eqn:E1, (ieee80211_sn_less b a) eqn:E2;
    rewrite <- ?not_true_iff_false in *; rewrite ?sn_less_spec in *;
    try (exfalso; Z.div_mod_to_equations; lia); auto.
  right; right. do 2 (split; [done|]). Z.div_mod_to_equations; lia.
Qed.

(** ** Header layout *)

Lemma hdrlen_values fc : In (ieee80211_hdrlen fc) [4; 10; 16; 24; 26; 28; 30; 32; 36].
Proof.
  unfold ieee80211_hdrlen.
  repeat match goal with |- context [if ?b then _ else _] => destruct b end;
    vm_compute; tauto.
Qed.

Lemma hdrlen_data fc :
  ieee80211_is_data fc = true ->
  ieee80211_hdrlen fc =
    (if ieee80211_has_a4 fc then 30 else 24) +
    (if ieee80211_is_data_qos fc then
       2 + (if ieee80211_has_order fc then 4 else 0) else 0).
Proof.
  intros Hd. unfold ieee80211_hdrlen. rewrite Hd.
  replace (ieee80211_is_ext fc) with false.
  - repeat match goal with |- context [if ?b then _ else _] => destruct b end; reflexivity.
  - symmetry. unfold ieee80211_is_data, ieee80211_is_ext in *.
    apply Z.eqb_eq in Hd. rewrite Hd. reflexivity.
Qed.

Lemma data_qos_is_data fc : ieee80211_is_data_qos fc = true -> ieee80211_is_data fc = true.
Proof.
  unfold ieee80211_is_data_qos, ieee80211_is_data. rewrite !Z.eqb_eq. intros H.
  apply (f_equal (fun z => z .& IEEE80211_FCTL_FTYPE)) in H.
  rewrite <- Z.land_assoc in H. exact H.
Qed.

Lemma data_present_is_data fc : ieee80211_is_data_present fc = true -> ieee80211_is_data fc = true.
Proof.
  unfold ieee80211_is_data_present, ieee80211_is_data. rewrite !Z.eqb_eq. intros H.
  apply (f_equal (fun z => z .& IEEE80211_FCTL_FTYPE)) in H.
  rewrite <- Z.land_assoc in H. exact H.
Qed.

Lemma has_a4_spec fc :
  ieee80211_has_a4 fc = ieee80211_has_tods fc && ieee80211_has_fromds fc.
Proof.
  unfold ieee80211_has_a4, ieee80211_has_tods, ieee80211_has_fromds, nz.
  change (IEEE80211_FCTL_TODS .| IEEE80211_FCTL_FROMDS) with 768.
  replace (fc .& 768) with ((fc .& 256) .| (fc .& 512))
    by (rewrite <- Z.land_lor_distr_r; reflexivity).
  change IEEE80211_FCTL_TODS with (2 ^ 8). change IEEE80211_FCTL_FROMDS with (2 ^ 9).
  change 256 with (2 ^ 8). change 512 with (2 ^ 9). rewrite !land_pow2 by lia.
  by destruct (Z.testbit fc 8), (Z.testbit fc 9).
Qed.

(** Every address a data frame's accessors select lies inside the header whose
    length [ieee80211_hdrlen] reports, and so does the QoS control field of a
    QoS frame: a buffer holding the header holds them. *)
Lemma data_accessors_in_header frame fc :
  hdr_frame_control frame = Some fc ->
  ieee80211_is_data fc = true ->
  exists sa da qc,
    ieee80211_get_SA frame = Some sa /\ ieee80211_get_DA frame = Some da /\
    ieee80211_get_qos_ctl frame = Some qc /\
    sa + ETH_ALEN <= ieee80211_hdrlen fc /\ da + ETH_ALEN <= ieee80211_hdrlen fc /\
    (ieee80211_is_data_qos fc = true -> qc + IEEE80211_QOS_CTL_LEN <= ieee80211_hdrlen fc).
Proof.
  intros Hfc Hd. unfold ieee80211_get_SA, ieee80211_get_DA, ieee80211_get_qos_ctl.
  rewrite Hfc; simpl. do 3 eexists. do 3 (split; [reflexivity|]).
  rewrite (hdrlen_data fc Hd).
  unfold ADDR1, ADDR2, ADDR3, ADDR4, ETH_ALEN, IEEE80211_QOS_CTL_LEN.
  destruct (ieee80211_has_a4 fc), (ieee80211_has_fromds fc), (ieee80211_has_tods fc),
    (ieee80211_is_data_qos fc), (ieee80211_has_order fc); lia.
Qed.

(** ** TIM lookup: lemmas *)

(** The bit of association [aid] in the partial virtual bitmap, by definition. *)
Definition tim_bit (tim : list Z) (aid : Z) : bool :=
  match rd8 tim TIM_BITMAP_CTRL with
  | None => false
  | Some ctrl =>
      let first := ctrl .& 0xfe in
      if aid / 8 <? first then false
      else match rd8 tim (TIM_VIRTUAL_MAP + (aid / 8 - first)) with
           | None => false
           | Some b => Z.testbit b (aid mod 8)
           end
  end.

Lemma land_fe_range c : is_uint 8 c -> 0 <= c .& 0xfe < 255.
Proof.
  intros Hc. assert (is_uint 8 (c .& 0xfe)) as H.
  { rewrite Z.land_comm. by apply land_is_uint. }
  unfold is_uint in H. assert (c .& 254 <> 255); [|lia].
  intros E. assert (Z.testbit (c .& 254) 0 = true) as T by (by rewrite E).
  rewrite Z.land_spec, andb_true_iff in T. by destruct T.
Qed.

Lemma check_tim_total tim tim_len aid :
  bytes_ok tim -> tim_len = zlen tim -> is_uint 8 tim_len ->
  exists b, __ieee80211_check_tim tim tim_len aid = Some b.
Proof.
  intros Hok Hlen Hu. unfold __ieee80211_check_tim, sizeof_tim_ie.
  destruct (Z.ltb_spec tim_len 4); [eauto|].
  destruct (rd8_Some tim TIM_BITMAP_CTRL) as [c Hc]; [unfold TIM_BITMAP_CTRL; lia|].
  rewrite Hc; simpl. set (i := u8 ((aid .& 16383) / 8)).
  pose proof (wrap_range 8 ((aid .& 16383) / 8)) as Hi. fold i in Hi.
  pose proof (land_fe_range c (rd8_ok _ _ _ Hok Hc)) as Hn.
  rewrite (wrap_small 8 (c .& 254)) by (unfold is_uint; lia).
  destruct (Z.ltb_spec i (c .& 254)); [simpl; eauto|].
  destruct (Z.ltb_spec (u8 (tim_len + (c .& 254) - 4)) i) as [|Hle]; [simpl; eauto|]. simpl.
  rewrite (wrap_small 8 (i - _)) by (unfold is_uint; lia).
  destruct (rd8_Some tim (TIM_VIRTUAL_MAP + (i - (c .& 254)))) as [b ->]; [|simpl; eauto].
  unfold TIM_VIRTUAL_MAP, wrap in *. unfold is_uint in Hu.
  assert ((tim_len + (c .& 254) - 4) mod 2 ^ 8 <= tim_len + (c .& 254) - 4)
    by (apply Z.mod_le; lia). lia.
Qed.

Lemma check_tim_correct tim tim_len aid :
  bytes_ok tim -> tim_len = zlen tim -> is_uint 8 tim_len -> 4 <= tim_len ->
  0 <= aid <= 2007 ->
  (forall c, rd8 tim TIM_BITMAP_CTRL = Some c -> tim_len + (c .& 0xfe) - 4 < 256) ->
  __ieee80211_check_tim tim tim_len aid = Some (tim_bit tim aid).
Proof.
  intros Hok Hlen Hu H4 Haid Hfit. unfold __ieee80211_check_tim, sizeof_tim_ie, tim_bit.
  destruct (Z.ltb_spec tim_len 4); [lia|].
  destruct (rd8_Some tim TIM_BITMAP_CTRL) as [c Hc]; [unfold TIM_BITMAP_CTRL; lia|].
  specialize (Hfit c Hc). rewrite Hc; simpl.
  pose proof (land_fe_range c (rd8_ok _ _ _ Hok Hc)) as Hn.
  replace (aid .& 16383) with aid.
  2: { change 16383 with (Z.ones 14). rewrite Z.land_ones, Z.mod_small by lia. done. }
  assert (0 <= aid / 8 < 251) as Hq by (Z.div_mod_to_equations; lia).
  rewrite (wrap_small 8 (c .& 254)), (wrap_small 8 (aid / 8)),
    (wrap_small 8 (tim_len + _ - 4)) by (unfold is_uint; lia).
  destruct (Z.ltb_spec (aid / 8) (c .& 254)); [done|]. simpl.
  rewrite (wrap_small 8 (aid / 8 - _)) by (unfold is_uint; lia).
  unfold TIM_VIRTUAL_MAP. destruct (Z.ltb_spec (tim_len + (c .& 254) - 4) (aid / 8)).
  - destruct (rd8 tim (3 + (aid / 8 - (c .& 254)))) eqn:E; [|done].
    apply rd8_range in E. lia.
  - destruct (rd8_Some tim (3 + (aid / 8 - (c .& 254)))) as [b Hb]; [lia|].
    rewrite Hb; simpl. f_equal.
    change 7 with (Z.ones 3). rewrite Z.land_ones by lia. change (2 ^ 3) with 8.
    rewrite Z.shiftl_1_l. assert (0 <= aid mod 8 < 8) by (apply Z.mod_pos_bound; lia).
    rewrite wrap_small; [apply nz_land_pow2; lia|].
    split; [lia|]. apply Z.pow_lt_mono_r; lia.
Qed.

(** Setting the Protected bit changes neither the frame's class nor its
    header length. *)
Lemma land_lor_away a b m : b .& m = 0 -> (a .| b) .& m = a .& m.
Proof. intros E. by rewrite Z.land_lor_distr_l, E, Z.lor_0_r. Qed.

Ltac fc_away := rewrite ?Z.land_assoc, ?land_lor_away by reflexivity; try reflexivity.

Lemma hdrlen_protected fc :
  ieee80211_hdrlen (fc .| IEEE80211_FCTL_PROTECTED) = ieee80211_hdrlen fc.
Proof.
  unfold ieee80211_hdrlen, ieee80211_is_ext, ieee80211_is_data, ieee80211_has_a4,
    ieee80211_is_data_qos, ieee80211_has_order, ieee80211_is_mgmt, ieee80211_is_ctl. fc_away.
Qed.

Lemma is_data_protected fc :
  ieee80211_is_data (fc .| IEEE80211_FCTL_PROTECTED) = ieee80211_is_data fc.
Proof. unfold ieee80211_is_data. fc_away. Qed.

Lemma has_protected_set fc : ieee80211_has_protected (fc .| IEEE80211_FCTL_PROTECTED) = true.
Proof.
  unfold ieee80211_has_protected. rewrite Z.land_lor_distr_l, Z.land_diag.
  apply negb_true_iff, Z.eqb_neq. intros E%Z.lor_eq_0_iff. by destruct E.
Qed.

Lemma hdrlen_range fc : 4 <= ieee80211_hdrlen fc <= 36.
Proof.
  pose proof (hdrlen_values fc) as H. simpl in H.
  destruct H as [<-|[<-|[<-|[<-|[<-|[<-|[<-|[<-|[<-|[]]]]]]]]]]; lia.
Qed.

(** ** Properties *)

(** The sequence-number order is total off the antipode: two 12-bit
    sequence numbers compare in exactly one direction, and in neither only if
    they are equal or half the space apart; [less] is the signed order of
    their distance modulo 4096. *)
Theorem sn_order a b :
  is_uint 12 a -> is_uint 12 b ->
  (ieee80211_sn_less a b = true <-> 0 < (b - a) mod 4096 < 2048) /\
  ((ieee80211_sn_less a b = true /\ ieee80211_sn_less b a = false) \/
   (ieee80211_sn_less a b = false /\ ieee80211_sn_less b a = true) \/
   (ieee80211_sn_less a b = false /\ ieee80211_sn_less b a = false /\
    (a = b \/ (a - b) mod 4096 = 2048))).
Proof. intros. split; [apply sn_less_spec|by apply sn_less_trichotomy]. Qed.

Lemma sn_order_witness :
  (ieee80211_sn_less 4095 3 = true <-> 0 < (3 - 4095) mod 4096 < 2048) /\
  ((ieee80211_sn_less 4095 3 = true /\ ieee80211_sn_less 3 4095 = false) \/
   (ieee80211_sn_less 4095 3 = false /\ ieee80211_sn_less 3 4095 = true) \/
   (ieee80211_sn_less 4095 3 = false /\ ieee80211_sn_less 3 4095 = false /\
    (4095 = 3 \/ (4095 - 3) mod 4096 = 2048))).
Proof. apply (sn_order 4095 3); by vm_compute. Defined.

(** The header of a data frame contains every field its accessors
    address: for every frame control, source and destination addresses and
    the QoS control field lie inside the computed header length. *)
Theorem data_header_contains_accessors frame fc :
  hdr_frame_control frame = Some fc -> ieee80211_is_data fc = true ->
  exists sa da qc,
    ieee80211_get_SA frame = Some sa /\ ieee80211_get_DA frame = Some da /\
    ieee80211_get_qos_ctl frame = Some qc /\
    sa + ETH_ALEN <= ieee80211_hdrlen fc /\ da + ETH_ALEN <= ieee80211_hdrlen fc /\
    (ieee80211_is_data_qos fc = true -> qc + IEEE80211_QOS_CTL_LEN <= ieee80211_hdrlen fc).
Proof. apply data_accessors_in_header. Qed.

Lemma data_header_contains_accessors_witness :
  exists sa da qc,
    ieee80211_get_SA [0x88; 0x03] = Some sa /\ ieee80211_get_DA [0x88; 0x03] = Some da /\
    ieee80211_get_qos_ctl [0x88; 0x03] = Some qc /\
    sa + ETH_ALEN <= ieee80211_hdrlen 0x0388 /\ da + ETH_ALEN <= ieee80211_hdrlen 0x0388 /\
    (ieee80211_is_data_qos 0x0388 = true -> qc + IEEE80211_QOS_CTL_LEN <= ieee80211_hdrlen 0x0388).
Proof. apply (data_header_contains_accessors [0x88; 0x03] 0x0388); reflexivity. Defined.

(** The TIM lookup is memory safe on any element, and on a well-sized
    element answers the bit the partial virtual bitmap holds for the AID. *)
Theorem tim_lookup_correct tim tim_len aid :
  bytes_ok tim -> tim_len = zlen tim -> is_uint 8 tim_len ->
  (exists b, __ieee80211_check_tim tim tim_len aid = Some b) /\
  (4 <= tim_len -> 0 <= aid <= 2007 ->
   (forall c, rd8 tim TIM_BITMAP_CTRL = Some c -> tim_len + (c .& 0xfe) - 4 < 256) ->
   __ieee80211_check_tim tim tim_len aid = Some (tim_bit tim aid)).
Proof. intros. split; [by apply check_tim_total|by apply check_tim_correct]. Qed.

Lemma tim_lookup_correct_witness :
  (exists b, __ieee80211_check_tim [0; 1; 2; 0x10] 4 20 = Some b) /\
  (4 <= 4 -> 0 <= 20 <= 2007 ->
   (forall c, rd8 [0; 1; 2; 0x10] TIM_BITMAP_CTRL = Some c -> 4 + (c .& 0xfe) - 4 < 256) ->
   __ieee80211_check_tim [0; 1; 2; 0x10] 4 20 = Some (tim_bit [0; 1; 2; 0x10] 20)).
Proof. apply (tim_lookup_correct [0; 1; 2; 0x10] 4 20); [by repeat constructor|done..]. Defined.
