(* ===== verification/S1gTim.v ===== *)
(** * S1gTim: the S1G (802.11ah) traffic indication map

    Models the encoded-block parser of [include/linux/ieee80211-s1g.h].  The
    TIM is the element payload as a byte buffer, a [const u8 *] into it is an
    offset, and [end] is the offset [tim_len]; every dereference goes through
    [rd8], so a read outside the element shows up as [None]. *)
From S2P Require Import Prelude Frame.


Definition IEEE80211_S1G_TIM_ENC_MODE_BLOCK : Z := 0.
Definition IEEE80211_S1G_TIM_ENC_MODE_SINGLE : Z := 1.
Definition IEEE80211_S1G_TIM_ENC_MODE_OLB : Z := 2.

Record s1g_tim_aid := {
  aid : Z;
  target_blk : Z;
  target_subblk : Z;
  target_subblk_bit : Z;
}.

Record s1g_tim_enc_block := {
  enc_mode : Z;
  inverse : bool;
  ptr : Z;
  len : Z;
  olb_blk_offset : Z;
}.

Definition ieee80211_s1g_len_bitmap (tim : list Z) (ptr end_ : Z) : option Z :=
  if end_ <=? ptr then Some (- EINVAL)
  else
    blkmap ← rd8 tim ptr;
    let n_subblks := hweight8 blkmap in
    Some (if end_ <? ptr + 1 + n_subblks then - EINVAL else 1 + n_subblks).

Definition ieee80211_s1g_len_single (ptr end_ : Z) : Z :=
  if end_ <? ptr + 1 then - EINVAL else 1.

Definition ieee80211_s1g_len_olb (tim : list Z) (ptr end_ : Z) : option Z :=
  if end_ <=? ptr then Some (- EINVAL)
  else b ← rd8 tim ptr; Some (if end_ <? ptr + 1 + b then - EINVAL else 1 + b).

Inductive find_result :=
| Found (enc : s1g_tim_enc_block)
| Failed (err : Z).

(** One encoded block at [ptr] (past the control octet): its length and
    whether it describes the target block.  [None] inside is the mode the
    switch rejects. *)
Definition s1g_block_extent (tim : list Z) (a : s1g_tim_aid) (mode blk_off ptr end_ : Z)
  : option (option (Z * bool)) :=
  if mode =? IEEE80211_S1G_TIM_ENC_MODE_BLOCK then
    len ← ieee80211_s1g_len_bitmap tim ptr end_;
    Some (Some (len, blk_off =? target_blk a))
  else if mode =? IEEE80211_S1G_TIM_ENC_MODE_SINGLE then
    Some (Some (ieee80211_s1g_len_single ptr end_, blk_off =? target_blk a))
  else if mode =? IEEE80211_S1G_TIM_ENC_MODE_OLB then
    len ← ieee80211_s1g_len_olb tim ptr end_;
    let span := u8 ((len - 1 + 7) / 8) in
    Some (Some (len, (0 <? len) && (blk_off <=? target_blk a) && (target_blk a <? blk_off + span)))
  else Some None.

Fixpoint ieee80211_s1g_find_target_block (fuel : nat) (tim : list Z)
    (a : s1g_tim_aid) (ptr end_ : Z) : option find_result :=
  match fuel with
  | O => None
  | S fuel =>
      if end_ <? ptr + 1 then Some (Failed (- ENOENT))
      else
        ctrl ← rd8 tim ptr;
        let ptr := ptr + 1 in
        let mode := ctrl .& 0x03 in
        let inverse := nz (ctrl .& BIT 2) in
        let blk_off := ctrl >> 3 in
        ext ← s1g_block_extent tim a mode blk_off ptr end_;
        match ext with
        | None => Some (Failed (- EOPNOTSUPP))
        | Some (len, contains) =>
            if len <? 0 then Some (Failed len)
            else if (contains : bool) then
              Some (Found {| enc_mode := mode; inverse := inverse; ptr := ptr;
                             len := u8 len; olb_blk_offset := blk_off |})
            else ieee80211_s1g_find_target_block fuel tim a (ptr + len) end_
        end
  end.

Definition ieee80211_s1g_parse_bitmap (tim : list Z) (enc : s1g_tim_enc_block)
    (a : s1g_tim_aid) : option bool :=
  blkmap ← rd8 tim (ptr enc);
  let p := ptr enc + 1 in
  if negb (nz (blkmap .& BIT (target_subblk a))) then Some (inverse enc)
  else
    let p := if nz (target_subblk a)
             then p + hweight8 (blkmap .& GENMASK (target_subblk a - 1) 0) else p in
    b ← rd8 tim p;
    Some (xorb (nz (b .& BIT (target_subblk_bit a))) (inverse enc)).

Definition ieee80211_s1g_parse_single (tim : list Z) (enc : s1g_tim_enc_block)
    (a : s1g_tim_aid) : option bool :=
  b ← rd8 tim (ptr enc);
  Some (xorb (b .& 0x3f =? aid a .& 0x3f) (inverse enc)).

Definition ieee80211_s1g_parse_olb (tim : list Z) (enc : s1g_tim_enc_block)
    (a : s1g_tim_aid) : option bool :=
  blk_len ← rd8 tim (ptr enc);
  let p := ptr enc + 1 in
  let span_offset := u16 (target_blk a - olb_blk_offset enc) in
  let subblk_idx := u16 (span_offset * 8 + target_subblk a) in
  if blk_len <=? subblk_idx then Some (inverse enc)
  else
    b ← rd8 tim (p + subblk_idx);
    Some (xorb (nz (b .& BIT (target_subblk_bit a))) (inverse enc)).

Definition s1g_target (aid : Z) : s1g_tim_aid :=
  {| aid := aid; target_blk := (aid >> 6) .& 0x1f;
     target_subblk := (aid >> 3) .& 0x7; target_subblk_bit := aid .& 0x7 |}.

(** The switch on the encoding mode at the end of [ieee80211_s1g_check_tim]. *)
Definition s1g_parse_block (tim : list Z) (enc : s1g_tim_enc_block) (a : s1g_tim_aid)
  : option bool :=
  if enc_mode enc =? IEEE80211_S1G_TIM_ENC_MODE_BLOCK then
    ieee80211_s1g_parse_bitmap tim enc a
  else if enc_mode enc =? IEEE80211_S1G_TIM_ENC_MODE_SINGLE then
    ieee80211_s1g_parse_single tim enc a
  else if enc_mode enc =? IEEE80211_S1G_TIM_ENC_MODE_OLB then
    ieee80211_s1g_parse_olb tim enc a
  else Some false.

(** Each round of the search consumes the control octet, so one more than the
    number of octets is enough fuel. *)
Definition ieee80211_s1g_check_tim (tim : list Z) (tim_len aid : Z) : option bool :=
  if tim_len <? 3 then Some false
  else
    let target_aid := s1g_target aid in
    r ← ieee80211_s1g_find_target_block (S (length tim)) tim target_aid
          TIM_VIRTUAL_MAP tim_len;
    match r with
    | Failed _ => Some false
    | Found enc => s1g_parse_block tim enc target_aid
    end.

(** [ieee80211_check_tim]: the dispatch on the PPDU type. *)
Definition ieee80211_check_tim (tim : list Z) (tim_len aid : Z) (s1g : bool) : option bool :=
  if s1g then ieee80211_s1g_check_tim tim tim_len aid
  else __ieee80211_check_tim tim tim_len aid.

(** S1G beacon fields. *)
Definition ieee80211_s1g_has_next_tbtt (fc : Z) : bool :=
  ieee80211_is_s1g_beacon fc && nz (fc .& 0x100).
Definition ieee80211_s1g_has_cssid (fc : Z) : bool :=
  ieee80211_is_s1g_beacon fc && nz (fc .& 0x200).
Definition ieee80211_s1g_has_ano (fc : Z) : bool :=
  ieee80211_is_s1g_beacon fc && nz (fc .& 0x400).
Definition ieee80211_s1g_optional_len (fc : Z) : Z :=
  (if ieee80211_s1g_has_next_tbtt fc then 3 else 0) +
  (if ieee80211_s1g_has_cssid fc then 4 else 0) +
  (if ieee80211_s1g_has_ano fc then 1 else 0).
Definition ieee80211_is_s1g_short_beacon (fc : Z) (variable : list Z) (variable_len : Z)
  : option bool :=
  if negb (ieee80211_is_s1g_beacon fc) then Some false
  else if variable_len <? 2 then Some true
  else id ← rd8 variable 0; Some (negb (id =? WLAN_EID_S1G_BCN_COMPAT)).

(** ** Specification: the partial virtual bitmap as a list of encoded blocks

    A block covers 64 associations as eight subblocks of eight.  The bitmap
    encoding lists the subblocks that are present, the single encoding one
    association, the OLB encoding a run of subblocks that may extend over
    several blocks; each may be inverted. *)

Inductive s1g_block :=
| Bitmap (inv : bool) (off : Z) (subs : list (option Z))
| Single (inv : bool) (off lsbs : Z)
| Olb (inv : bool) (off : Z) (subs : list Z).

Definition block_ok (b : s1g_block) : Prop :=
  match b with
  | Bitmap _ off subs =>
      is_uint 5 off /\ length subs = 8%nat /\
      Forall (fun o => match o with Some x => is_uint 8 x | None => True end) subs
  | Single _ off lsbs => is_uint 5 off /\ is_uint 6 lsbs
  | Olb _ off subs => is_uint 5 off /\ zlen subs < 256 /\ bytes_ok subs
  end.

Fixpoint presence (subs : list (option Z)) : Z :=
  match subs with
  | [] => 0
  | o :: subs => (if o then 1 else 0) + 2 * presence subs
  end.

Definition control_octet (mode : Z) (inv : bool) (off : Z) : Z :=
  mode + 4 * Z.b2z inv + 8 * off.

Definition encode_body (b : s1g_block) : list Z :=
  match b with
  | Bitmap _ _ subs => presence subs :: omap id subs
  | Single _ _ lsbs => [lsbs]
  | Olb _ _ subs => zlen subs :: subs
  end.

Definition encode_block (b : s1g_block) : list Z :=
  match b with
  | Bitmap inv off _ => control_octet 0 inv off
  | Single inv off _ => control_octet 1 inv off
  | Olb inv off _ => control_octet 2 inv off
  end :: encode_body b.

(** Does the block describe block number [t], and what does it say of [aid]? *)
Definition describes (t : Z) (b : s1g_block) : bool :=
  match b with
  | Bitmap _ off _ | Single _ off _ => off =? t
  | Olb _ off subs => (off <=? t) && (t <? off + (zlen subs + 7) / 8)
  end.

Definition indicates (aid : Z) (b : s1g_block) : bool :=
  let blk := (aid / 64) mod 32 in
  let sub := (aid / 8) mod 8 in
  let bit := aid mod 8 in
  match b with
  | Bitmap inv _ subs =>
      match subs !! Z.to_nat sub with
      | Some (Some x) => xorb (Z.testbit x bit) inv
      | _ => inv
      end
  | Single inv _ lsbs => xorb (lsbs =? aid mod 64) inv
  | Olb inv off subs =>
      match subs !! Z.to_nat ((blk - off) * 8 + sub) with
      | Some x => xorb (Z.testbit x bit) inv
      | None => inv
      end
  end.

Definition pvb_lookup (blocks : list s1g_block) (aid : Z) : bool :=
  match List.find (describes ((aid / 64) mod 32)) blocks with
  | Some b => indicates aid b
  | None => false
  end.

(** ** Memory safety *)

Lemma len_bitmap_total tim p e :
  bytes_ok tim -> 0 <= p -> e = zlen tim ->
  exists l, ieee80211_s1g_len_bitmap tim p e = Some l /\
    (l < 0 \/ (exists m, rd8 tim p = Some m /\ l = 1 + hweight8 m /\ p + l <= e)).
Proof.
  intros Hok Hp ->. unfold ieee80211_s1g_len_bitmap, EINVAL.
  destruct (Z.leb_spec (zlen tim) p); [eexists; split; [done|lia]|].
  destruct (rd8_Some tim p) as [m Hm]; [lia|]. rewrite Hm; simpl.
  eexists; split; [done|]. destruct (Z.ltb_spec (zlen tim) (p + 1 + hweight8 m)); [lia|].
  right. exists m. split; [done|lia].
Qed.

Lemma len_olb_total tim p e :
  bytes_ok tim -> 0 <= p -> e = zlen tim ->
  exists l, ieee80211_s1g_len_olb tim p e = Some l /\
    (l < 0 \/ (exists m, rd8 tim p = Some m /\ is_uint 8 m /\ l = 1 + m /\ p + l <= e)).
Proof.
  intros Hok Hp ->. unfold ieee80211_s1g_len_olb, EINVAL.
  destruct (Z.leb_spec (zlen tim) p); [eexists; split; [done|lia]|].
  destruct (rd8_Some tim p) as [m Hm]; [lia|]. rewrite Hm; simpl.
  eexists; split; [done|]. destruct (Z.ltb_spec (zlen tim) (p + 1 + m)); [lia|].
  right. exists m. split_and!; [done|by eapply rd8_ok|lia..].
Qed.

(** What the search guarantees of the block it reports: its body, whose length
    the encoding mode determines, lies inside the element. *)
Definition enc_ok (tim : list Z) (enc : s1g_tim_enc_block) : Prop :=
  0 <= ptr enc /\ exists m, rd8 tim (ptr enc) = Some m /\
  (enc_mode enc = IEEE80211_S1G_TIM_ENC_MODE_BLOCK -> ptr enc + 1 + hweight8 m <= zlen tim) /\
  (enc_mode enc = IEEE80211_S1G_TIM_ENC_MODE_OLB -> ptr enc + 1 + m <= zlen tim).

Lemma block_extent_safe tim a mode off p :
  bytes_ok tim -> 0 <= p ->
  exists ext, s1g_block_extent tim a mode off p (zlen tim) = Some ext /\
    match ext with
    | Some (l, c) => l < 0 \/
        (1 <= l /\ p + l <= zlen tim /\
         forall inv o l', enc_ok tim {| enc_mode := mode; inverse := inv; ptr := p;
                                     len := l'; olb_blk_offset := o |})
    | None => True
    end.
Proof.
  intros Hok Hp. unfold s1g_block_extent, enc_ok; simpl.
  destruct (Z.eqb_spec mode IEEE80211_S1G_TIM_ENC_MODE_BLOCK) as [->|];
    [|destruct (Z.eqb_spec mode IEEE80211_S1G_TIM_ENC_MODE_SINGLE) as [->|];
      [|destruct (Z.eqb_spec mode IEEE80211_S1G_TIM_ENC_MODE_OLB) as [->|]; [|exdone]]].
  - destruct (len_bitmap_total tim p (zlen tim)) as (l & -> & Hl); [done..|]. simpl.
    eexists; split; [done|]. destruct Hl as [|(m & Hm & -> & ?)]; [by left|].
    pose proof (popcount_range 8 m) as Hpc. fold (hweight8 m) in Hpc.
    right. split_and!; [lia..|]. intros. split; [done|]. exists m. split_and!; [done|lia|done].
  - eexists; split; [done|]. unfold ieee80211_s1g_len_single, EINVAL.
    destruct (Z.ltb_spec (zlen tim) (p + 1)); [by left|].
    right. split_and!; [lia..|]. intros. split; [done|].
    destruct (rd8_Some tim p) as [m Hm]; [lia|]. exists m. by split_and!.
  - destruct (len_olb_total tim p (zlen tim)) as (l & -> & Hl); [done..|]. simpl.
    eexists; split; [done|]. destruct Hl as [|(m & Hm & [??] & -> & ?)]; [by left|].
    right. split_and!; [lia..|]. intros. split; [done|]. exists m. split_and!; [done..|lia].
Qed.

Lemma find_target_block_safe fuel tim a p :
  bytes_ok tim -> 0 <= p <= zlen tim -> zlen tim - p < Z.of_nat fuel ->
  exists r, ieee80211_s1g_find_target_block fuel tim a p (zlen tim) = Some r /\
    match r with Found enc => enc_ok tim enc | Failed _ => True end.
Proof.
  intros Hok. revert p. induction fuel as [|fuel IH]; intros p Hp Hf; [lia|].
  cbn [ieee80211_s1g_find_target_block].
  destruct (Z.ltb_spec (zlen tim) (p + 1)); [exdone|].
  destruct (rd8_Some tim p) as [ctrl Hc]; [lia|]. rewrite Hc. cbn [mbind option_bind].
  destruct (block_extent_safe tim a (ctrl .& 3) (ctrl >> 3) (p + 1)) as (ext & -> & He);
    [done|lia|]. simpl. destruct ext as [[l c]|]; [|exdone].
  destruct (Z.ltb_spec l 0); [exdone|]. destruct He as [|(? & ? & Hok')]; [lia|].
  destruct c; [eexists; split; [reflexivity|apply Hok']|]. apply IH; lia.
Qed.

Lemma popcount_land_ones n k z :
  (k <= n)%nat -> popcount n (z .& Z.ones (Z.of_nat k)) = popcount k z.
Proof.
  revert k z. induction n as [|n IH]; intros [|k] z Hk; try lia; cbn [popcount].
  - done.
  - replace (z .& Z.ones (Z.of_nat 0)) with 0 by (change (Z.ones (Z.of_nat 0)) with 0; by rewrite Z.land_0_r).
    specialize (IH 0%nat 0 ltac:(lia)). rewrite Z.land_0_l in IH. simpl in *. done.
  - rewrite <- !Z.bit0_odd, Z.land_spec, Z.ones_spec_low, andb_true_r by lia. f_equal.
    rewrite <- (IH k) by lia. f_equal. rewrite !Z.div2_spec, Z.shiftr_land. f_equal.
    apply Z.bits_inj'; intros i Hi. rewrite Z.shiftr_spec, !Z.testbit_ones_nonneg by lia.
    apply eq_iff_eq_true. rewrite !Z.ltb_lt. lia.
Qed.

(** A set bit outside the low [k] ones leaves fewer of them below it. *)
Lemma popcount_lt n k z :
  (k < n)%nat -> Z.testbit z (Z.of_nat k) = true -> popcount k z < popcount n z.
Proof.
  revert k z. induction n as [|n IH]; intros [|k] z Hk Hb; try lia; cbn [popcount].
  - rewrite <- Z.bit0_odd. change (Z.of_nat 0) with 0 in Hb. rewrite Hb. pose proof (popcount_range n (Z.div2 z)). simpl; lia.
  - apply Z.add_lt_mono_l, IH; [lia|]. rewrite Z.div2_spec, Z.shiftr_spec by lia.
    rewrite <- Hb. f_equal. lia.
Qed.

Lemma target_subblk_range x : 0 <= target_subblk (s1g_target x) < 8.
Proof. simpl. change 7 with (Z.ones 3). rewrite Z.land_ones by lia. apply Z.mod_pos_bound; lia. Qed.

Lemma subblk_mask m s :
  0 <= s < 8 -> (if nz s then hweight8 (m .& GENMASK (s - 1) 0) else 0) = popcount (Z.to_nat s) m.
Proof.
  intros Hs. unfold nz. destruct (Z.eqb_spec s 0) as [->|]; [done|]. simpl.
  unfold GENMASK, hweight8. rewrite Z.shiftl_0_r.
  replace (s - 1 - 0 + 1) with (Z.of_nat (Z.to_nat s)) by lia.
  by rewrite popcount_land_ones by lia.
Qed.

Lemma parse_block_safe tim enc x :
  bytes_ok tim -> enc_ok tim enc ->
  exists b, s1g_parse_block tim enc (s1g_target x) = Some b.
Proof.
  intros Hok (Hp & m & Hm & Hbm & Holb). unfold s1g_parse_block.
  pose proof (rd8_range _ _ _ Hm) as Hr. pose proof (rd8_ok _ _ _ Hok Hm) as [Hm0 Hm8].
  destruct (Z.eqb_spec (enc_mode enc) IEEE80211_S1G_TIM_ENC_MODE_BLOCK) as [Em|_].
  { specialize (Hbm Em). unfold ieee80211_s1g_parse_bitmap. rewrite Hm. cbn [mbind option_bind].
    pose proof (target_subblk_range x) as Hs. set (s := target_subblk (s1g_target x)) in *.
    unfold BIT at 1. rewrite Z.shiftl_1_l, nz_land_pow2 by lia.
    destruct (Z.testbit m s) eqn:Hb; simpl; [|exdone].
    replace (if nz s then _ else _) with (ptr enc + 1 + popcount (Z.to_nat s) m)
      by (rewrite <- subblk_mask by done; destruct (nz s); lia).
    pose proof (popcount_range (Z.to_nat s) m).
    assert (popcount (Z.to_nat s) m < hweight8 m).
    { apply popcount_lt; [lia|]. by rewrite Z2Nat.id by lia. }
    destruct (rd8_Some tim (ptr enc + 1 + popcount (Z.to_nat s) m)) as [b ->]; [lia|].
    exdone. }
  destruct (Z.eqb_spec (enc_mode enc) IEEE80211_S1G_TIM_ENC_MODE_SINGLE).
  { unfold ieee80211_s1g_parse_single. rewrite Hm. exdone. }
  destruct (Z.eqb_spec (enc_mode enc) IEEE80211_S1G_TIM_ENC_MODE_OLB) as [Em|_]; [|exdone].
  specialize (Holb Em). unfold ieee80211_s1g_parse_olb. rewrite Hm. cbn [mbind option_bind].
  set (i := u16 _). assert (0 <= i) by (apply wrap_range; lia).
  destruct (Z.leb_spec m i); [exdone|].
  destruct (rd8_Some tim (ptr enc + 1 + i)) as [b ->]; [lia|]. exdone.
Qed.

(** The S1G TIM parser never reads outside the element, whatever the element
    holds and whatever the association. *)
Lemma s1g_check_tim_total tim tim_len aid :
  bytes_ok tim -> tim_len = zlen tim ->
  exists b, ieee80211_s1g_check_tim tim tim_len aid = Some b.
Proof.
  intros Hok ->. unfold ieee80211_s1g_check_tim, TIM_VIRTUAL_MAP.
  destruct (Z.ltb_spec (zlen tim) 3); [exdone|].
  destruct (find_target_block_safe (S (length tim)) tim (s1g_target aid) 3)
    as (r & -> & Hr); [done|lia|unfold zlen; lia|]. cbn [mbind option_bind].
  destruct r as [enc|]; [by apply parse_block_safe|exdone].
Qed.

(** ** Functional correctness *)

Lemma land_ones_mod z n : 0 <= n -> z .& (2 ^ n - 1) = z mod 2 ^ n.
Proof. intros. rewrite <- Z.land_ones by done. f_equal. rewrite Z.ones_equiv. lia. Qed.

Lemma testbit_div_odd z n : 0 <= n -> Z.testbit z n = (z / 2 ^ n mod 2 =? 1).
Proof.
  intros. rewrite <- Z.testbit_spec' by done. by destruct (Z.testbit z n).
Qed.

Lemma control_octet_fields mode inv off :
  0 <= mode < 4 -> 0 <= off ->
  control_octet mode inv off .& 3 = mode /\
  nz (control_octet mode inv off .& BIT 2) = inv /\
  control_octet mode inv off >> 3 = off.
Proof.
  intros Hm Ho. unfold control_octet, BIT.
  rewrite Z.shiftl_1_l, nz_land_pow2, testbit_div_odd, Z.shiftr_div_pow2 by lia.
  change 3 with (2 ^ 2 - 1) at 1. rewrite land_ones_mod by lia.
  change (2 ^ 2) with 4. change (2 ^ 3) with 8.
  destruct inv; simpl Z.b2z; split_and!; try destruct (Z.eqb_spec _ 1);
    Z.div_mod_to_equations; lia.
Qed.

Lemma presence_range subs : 0 <= presence subs < 2 ^ zlen subs.
Proof.
  induction subs as [|o subs IH]; [done|]. zlens. cbn [presence].
  rewrite Z.pow_add_r by (pose proof (zlen_nonneg subs); lia). destruct o; lia.
Qed.

Lemma presence_testbit subs k :
  Z.testbit (presence subs) (Z.of_nat k) =
    match subs !! k with Some (Some _) => true | _ => false end.
Proof.
  revert k. induction subs as [|o subs IH]; intros k; [by rewrite Z.bits_0|].
  cbn [presence]. rewrite Z.add_comm. destruct k as [|k].
  - change (Z.of_nat 0) with 0. simpl. destruct o.
    + apply Z.testbit_odd_0.
    + rewrite Z.add_0_r. apply Z.testbit_even_0.
  - rewrite Nat2Z.inj_succ. simpl. rewrite <- IH. destruct o.
    + apply Z.testbit_odd_succ. lia.
    + rewrite Z.add_0_r. apply Z.testbit_even_succ. lia.
Qed.

Lemma popcount_presence k subs :
  popcount k (presence subs) = zlen (omap id (take k subs)).
Proof.
  revert subs. induction k as [|k IH]; intros [|o subs]; [done..| |].
  { change (0 + popcount k (presence []) = 0). rewrite IH. by destruct k. }
  cbn [presence popcount take].
  assert (Z.odd ((if o then 1 else 0) + 2 * presence subs) = if o then true else false) as ->.
  { rewrite Z.odd_add_mul_2. by destruct o. }
  assert (Z.div2 ((if o then 1 else 0) + 2 * presence subs) = presence subs) as ->.
  { rewrite Z.div2_div. destruct o; Z.div_mod_to_equations; lia. }
  rewrite IH. destruct o; simpl omap; zlens; reflexivity.
Qed.

Lemma omap_id_lookup (subs : list (option Z)) k x :
  subs !! k = Some (Some x) ->
  omap id subs !! length (omap id (take k subs)) = Some x.
Proof.
  revert k. induction subs as [|o subs IH]; intros [|k] H; simplify_eq/=; [done|].
  destruct o; simpl; by apply IH.
Qed.

(** The fields of the target follow the arithmetic of the association id. *)
Lemma s1g_target_fields x :
  target_blk (s1g_target x) = (x / 64) mod 32 /\
  target_subblk (s1g_target x) = (x / 8) mod 8 /\
  target_subblk_bit (s1g_target x) = x mod 8.
Proof.
  simpl. rewrite !Z.shiftr_div_pow2 by lia.
  change 31 with (2 ^ 5 - 1). change 7 with (2 ^ 3 - 1).
  by rewrite !land_ones_mod by lia.
Qed.

Definition block_mode (b : s1g_block) : Z :=
  match b with Bitmap _ _ _ => 0 | Single _ _ _ => 1 | Olb _ _ _ => 2 end.
Definition block_inv (b : s1g_block) : bool :=
  match b with Bitmap i _ _ => i | Single i _ _ => i | Olb i _ _ => i end.
Definition block_off (b : s1g_block) : Z :=
  match b with Bitmap _ o _ => o | Single _ o _ => o | Olb _ o _ => o end.

Lemma encode_block_eq b :
  encode_block b = control_octet (block_mode b) (block_inv b) (block_off b) :: encode_body b.
Proof. by destruct b. Qed.

Lemma block_off_range b : block_ok b -> 0 <= block_off b < 32.
Proof. destruct b; intros [Ho _]; exact Ho. Qed.

Lemma presence_popcount8 subs :
  length subs = 8%nat -> hweight8 (presence subs) = zlen (omap id subs).
Proof. intros H. unfold hweight8. by rewrite popcount_presence, take_ge by lia. Qed.

Lemma block_extent_encode pre post b x :
  block_ok b ->
  let tim := pre ++ encode_body b ++ post in
  s1g_block_extent tim (s1g_target x) (block_mode b) (block_off b) (zlen pre) (zlen tim) =
    Some (Some (zlen (encode_body b), describes ((x / 64) mod 32) b)).
Proof.
  intros Hb tim. destruct (s1g_target_fields x) as (Et & _ & _).
  pose proof (zlen_nonneg post). pose proof (zlen_nonneg pre).
  unfold s1g_block_extent, ieee80211_s1g_len_bitmap, ieee80211_s1g_len_single,
    ieee80211_s1g_len_olb. unfold tim.
  destruct b as [i o subs|i o l|i o subs]; simpl; simpl in Et; rewrite Et; clear Et;
    destruct Hb as (_ & Hb); rewrite ?rd8_here; zlens.
  - destruct Hb as (Hl & _). pose proof (zlen_nonneg (omap id subs)).
    cbn [mbind option_bind]. rewrite presence_popcount8 by done. do 2 (zcase; [lia|]). done.
  - zcase; [lia|]. done.
  - pose proof (zlen_nonneg subs).
    match goal with |- context [?a <=? zlen pre] => destruct (Z.leb_spec a (zlen pre)); [lia|] end.
    cbn [mbind option_bind].
    match goal with |- context [?a <? _ + 1 + _] => destruct (Z.ltb_spec a (zlen pre + 1 + zlen subs)); [lia|] end.
    simpl. do 3 f_equal. destruct (Z.ltb_spec 0 (1 + zlen subs)); [|lia]. simpl.
    do 2 f_equal. rewrite wrap_small; [do 2 f_equal; lia|].
    unfold is_uint. Z.div_mod_to_equations; lia.
Qed.

Lemma testbit_mask b s : 0 <= s -> nz (b .& BIT s) = Z.testbit b s.
Proof. intros. unfold BIT. rewrite Z.shiftl_1_l. by apply nz_land_pow2. Qed.

Lemma parse_bitmap_encode pre post inv off subs x l' o' :
  block_ok (Bitmap inv off subs) ->
  ieee80211_s1g_parse_bitmap (pre ++ encode_body (Bitmap inv off subs) ++ post)
    {| enc_mode := 0; inverse := inv; ptr := zlen pre; len := l'; olb_blk_offset := o' |}
    (s1g_target x) = Some (indicates x (Bitmap inv off subs)).
Proof.
  intros (_ & Hl & _). destruct (s1g_target_fields x) as (_ & Es & Eb).
  unfold ieee80211_s1g_parse_bitmap. simpl ptr. simpl inverse.
  cbn [encode_body app]. rewrite rd8_here. cbn [mbind option_bind].
  rewrite Es, Eb. set (s := (x / 8) mod 8).
  assert (0 <= s < 8) as Hs by (apply Z.mod_pos_bound; lia).
  rewrite testbit_mask by lia. replace s with (Z.of_nat (Z.to_nat s)) at 1 by lia.
  rewrite presence_testbit. cbn [indicates]. fold s.
  destruct (subs !! Z.to_nat s) as [[v|]|] eqn:Ev; simpl negb; cbv iota; [|done|done].
  replace (if nz s then _ else _)
    with (zlen pre + (1 + popcount (Z.to_nat s) (presence subs)))
    by (rewrite <- subblk_mask by done; destruct (nz s); lia).
  pose proof (popcount_range (Z.to_nat s) (presence subs)) as Hr.
  rewrite rd8_app_r by lia. rewrite popcount_presence in *.
  rewrite rd8_cons by lia.
  rewrite rd8_app_l; rewrite ?rd8_lookup by lia.
  - unfold zlen. rewrite Nat2Z.id, (omap_id_lookup _ _ _ Ev). cbn [mbind option_bind].
    rewrite testbit_mask; [done|]. apply Z.mod_pos_bound; lia.
  - apply omap_id_lookup, lookup_lt_Some in Ev. unfold zlen. lia.
Qed.

Lemma parse_olb_encode pre post inv off subs x l' :
  block_ok (Olb inv off subs) -> describes ((x / 64) mod 32) (Olb inv off subs) = true ->
  ieee80211_s1g_parse_olb (pre ++ encode_body (Olb inv off subs) ++ post)
    {| enc_mode := 2; inverse := inv; ptr := zlen pre; len := l'; olb_blk_offset := off |}
    (s1g_target x) = Some (indicates x (Olb inv off subs)).
Proof.
  intros (Ho & Hl & _) Hd. destruct (s1g_target_fields x) as (Et & Es & Eb).
  unfold ieee80211_s1g_parse_olb. simpl ptr. simpl inverse. simpl olb_blk_offset.
  cbn [encode_body app]. rewrite rd8_here. cbn [mbind option_bind].
  rewrite Et, Es, Eb. cbn [indicates describes] in *.
  apply andb_true_iff in Hd as [Hd1%Z.leb_le Hd2%Z.ltb_lt].
  set (s := (x / 8) mod 8). set (t := (x / 64) mod 32) in *.
  assert (0 <= s < 8) as Hs by (apply Z.mod_pos_bound; lia).
  assert (0 <= t < 32) as Ht by (apply Z.mod_pos_bound; lia).
  unfold is_uint in Ho. rewrite (wrap_small 16 (t - off)) by (unfold is_uint; lia).
  rewrite wrap_small by (unfold is_uint; lia).
  set (i := (t - off) * 8 + s). assert (0 <= i) by lia.
  destruct (Z.leb_spec (zlen subs) i).
  - rewrite lookup_ge_None_2 by (unfold zlen in *; lia). done.
  - rewrite <- Z.add_assoc, rd8_app_r, rd8_cons by lia.
    rewrite rd8_app_l, rd8_lookup by lia.
    destruct (subs !! Z.to_nat i) as [v|] eqn:Ev.
    + cbn [mbind option_bind]. rewrite testbit_mask; [done|]. apply Z.mod_pos_bound; lia.
    + apply lookup_ge_None in Ev. unfold zlen in *. lia.
Qed.

Lemma parse_block_encode pre post b x l' :
  block_ok b -> describes ((x / 64) mod 32) b = true ->
  s1g_parse_block (pre ++ encode_body b ++ post)
    {| enc_mode := block_mode b; inverse := block_inv b; ptr := zlen pre; len := l';
       olb_blk_offset := block_off b |} (s1g_target x) = Some (indicates x b).
Proof.
  intros Hb Hd. destruct b; unfold s1g_parse_block; simpl enc_mode; cbn [block_mode];
    simpl Z.eqb; cbv iota.
  - by apply parse_bitmap_encode.
  - unfold ieee80211_s1g_parse_single. simpl ptr. cbn [encode_body app].
    rewrite rd8_here. cbn. destruct Hb as [_ Hl].
    change 63 with (2 ^ 6 - 1). rewrite !land_ones_mod, Z.mod_small by (lia || apply Hl).
    done.
  - by apply parse_olb_encode.
Qed.

(** The search agrees with the specification's: it stops at the first block
    that describes the target, and finishing the parse there answers the
    question. *)
Lemma find_target_block_encode blocks pre x fuel :
  Forall block_ok blocks ->
  let tim := pre ++ concat (map encode_block blocks) in
  (length (concat (map encode_block blocks)) < fuel)%nat ->
  match ieee80211_s1g_find_target_block fuel tim (s1g_target x) (zlen pre) (zlen tim) with
  | Some (Found enc) => s1g_parse_block tim enc (s1g_target x)
  | Some (Failed _) => Some false
  | None => None
  end = Some (pvb_lookup blocks x).
Proof.
  revert pre fuel.
  induction blocks as [|b blocks IH]; intros pre [|fuel] Hok tim Hf; try (simpl in Hf; lia).
  - cbn [ieee80211_s1g_find_target_block]. unfold tim. zlens. simpl.
    destruct (Z.ltb_spec (zlen pre + 0) (zlen pre + 1)); [done|lia].
  - inversion Hok as [|?? Hb Hbs]; subst.
    set (post := concat (map encode_block blocks)) in *.
    assert (tim = (pre ++ [control_octet (block_mode b) (block_inv b) (block_off b)])
              ++ encode_body b ++ post) as Etim.
    { unfold tim. cbn [map concat]. rewrite encode_block_eq. fold post.
      by rewrite <- !app_assoc. }
    pose proof (zlen_nonneg post). pose proof (zlen_nonneg (encode_body b)).
    cbn [ieee80211_s1g_find_target_block].
    destruct (Z.ltb_spec (zlen tim) (zlen pre + 1)).
    { rewrite Etim in *. zlens. lia. }
    assert (rd8 tim (zlen pre) = Some (control_octet (block_mode b) (block_inv b) (block_off b)))
      as -> by (rewrite Etim, <- app_assoc; apply rd8_here).
    cbn [mbind option_bind].
    destruct (control_octet_fields (block_mode b) (block_inv b) (block_off b)) as (-> & -> & ->);
      [by destruct b|by apply block_off_range|].
    set (pre' := pre ++ [_]) in *.
    replace (zlen pre + 1) with (zlen pre') by (unfold pre'; zlens; lia).
    rewrite Etim, block_extent_encode by done. cbn [mbind option_bind].
    unfold pvb_lookup. cbn [List.find]. destruct (Z.ltb_spec (zlen (encode_body b)) 0); [lia|].
    destruct (describes ((x / 64) mod 32) b) eqn:Ed.
    + by apply parse_block_encode.
    + replace (zlen pre' + zlen (encode_body b)) with (zlen (pre' ++ encode_body b)) by by zlens.
      rewrite app_assoc. apply IH; [done|].
      cbn [map concat] in Hf. rewrite encode_block_eq, length_app in Hf. simpl in Hf.
      fold post in Hf |- *. lia.
Qed.

(** Parsing the encoding of a list of blocks answers what the blocks say. *)
Lemma s1g_check_tim_encode hdr blocks x :
  length hdr = 3%nat -> Forall block_ok blocks ->
  let tim := hdr ++ concat (map encode_block blocks) in
  ieee80211_s1g_check_tim tim (zlen tim) x = Some (pvb_lookup blocks x).
Proof.
  intros Hh Hok tim.
  pose proof (find_target_block_encode blocks hdr x (S (length tim)) Hok) as H.
  cbn zeta in H. fold tim in H. unfold ieee80211_s1g_check_tim.
  assert (zlen hdr = 3) as E3 by (unfold zlen; lia).
  destruct (Z.ltb_spec (zlen tim) 3).
  { unfold tim in *. zlens. pose proof (zlen_nonneg (concat (map encode_block blocks))). lia. }
  rewrite E3 in H. unfold TIM_VIRTUAL_MAP. rewrite <- H.
  - by destruct (ieee80211_s1g_find_target_block _ _ _ _ _) as [[]|].
  - unfold tim. rewrite length_app. lia.
Qed.

(** ** Properties *)

(** The S1G TIM parser reads only inside the element it is given, for any
    element contents and any AID, and always returns. *)
Theorem s1g_tim_parser_safe tim tim_len aid :
  bytes_ok tim -> tim_len = zlen tim ->
  exists b, ieee80211_s1g_check_tim tim tim_len aid = Some b.
Proof. apply s1g_check_tim_total. Qed.

Lemma s1g_tim_parser_safe_witness :
  exists b, ieee80211_s1g_check_tim [0; 1; 0; 0xff; 0xff; 2] 6 77 = Some b.
Proof. apply s1g_tim_parser_safe; [by repeat constructor|done]. Defined.

(** C30: The S1G TIM parser decodes the standard's encoding: on an element made
    of encoded blocks, in block-bitmap, single-AID and OLB mode, inverted or
    not, it answers whether the first block that describes the AID's block
    indicates traffic for the AID. *)
Theorem s1g_tim_parser_correct hdr blocks x :
  length hdr = 3%nat -> Forall block_ok blocks ->
  let tim := hdr ++ concat (map encode_block blocks) in
  ieee80211_s1g_check_tim tim (zlen tim) x = Some (pvb_lookup blocks x).
Proof. apply s1g_check_tim_encode. Qed.

Lemma s1g_tim_parser_correct_witness :
  let blocks := [Bitmap false 0 [None; Some 4; None; None; None; None; None; None]; Single true 1 5] in
  let tim := [0; 1; 0] ++ concat (map encode_block blocks) in
  ieee80211_s1g_check_tim tim (zlen tim) 70 = Some (pvb_lookup blocks 70).
Proof.
  apply (s1g_tim_parser_correct [0; 1; 0]
    [Bitmap false 0 [None; Some 4; None; None; None; None; None; None]; Single true 1 5]); [done|].
  repeat constructor; try (intros E; discriminate E); vm_compute; done.
Defined.
