(* ===== verification/Radiotap.v ===== *)
(** * Radiotap: the radiotap header iterator

    Models [net/wireless/radiotap.c].  Injected frames arrive from user space
    with a radiotap header whose presence bitmaps chain to one another and
    whose fields are found by alignment arithmetic; the iterator walks it.
    The header is a byte buffer and every pointer of the C iterator is an
    offset from [_rtheader].  [None] is a read outside the buffer (or of the
    uninitialised [_next_ns_data], or running out of loop fuel). *)
From S2P Require Import Prelude.


Definition IEEE80211_RADIOTAP_RADIOTAP_NAMESPACE : Z := 29.
Definition IEEE80211_RADIOTAP_VENDOR_NAMESPACE : Z := 30.
Definition IEEE80211_RADIOTAP_EXT : Z := 31.
Definition sizeof_radiotap_header : Z := 8.

Record radiotap_align_size := mk_as { as_align : Z; as_size : Z }.

Record ieee80211_radiotap_namespace := {
  align_size : list radiotap_align_size;
  n_bits : Z;
  oui : Z;
  subns : Z;
}.

(** Indexed by [IEEE80211_RADIOTAP_TSFT] (0) to [IEEE80211_RADIOTAP_VHT] (21);
    index 18 has no initializer, hence zero. *)
Definition rtap_namespace_sizes : list radiotap_align_size :=
  [ mk_as 8 8;  (* TSFT *)              mk_as 1 1;  (* FLAGS *)
    mk_as 1 1;  (* RATE *)              mk_as 2 4;  (* CHANNEL *)
    mk_as 2 2;  (* FHSS *)              mk_as 1 1;  (* DBM_ANTSIGNAL *)
    mk_as 1 1;  (* DBM_ANTNOISE *)      mk_as 2 2;  (* LOCK_QUALITY *)
    mk_as 2 2;  (* TX_ATTENUATION *)    mk_as 2 2;  (* DB_TX_ATTENUATION *)
    mk_as 1 1;  (* DBM_TX_POWER *)      mk_as 1 1;  (* ANTENNA *)
    mk_as 1 1;  (* DB_ANTSIGNAL *)      mk_as 1 1;  (* DB_ANTNOISE *)
    mk_as 2 2;  (* RX_FLAGS *)          mk_as 2 2;  (* TX_FLAGS *)
    mk_as 1 1;  (* RTS_RETRIES *)       mk_as 1 1;  (* DATA_RETRIES *)
    mk_as 0 0;                          mk_as 1 3;  (* MCS *)
    mk_as 4 8;  (* AMPDU_STATUS *)      mk_as 2 12  (* VHT *) ].

Definition radiotap_ns : ieee80211_radiotap_namespace :=
  {| align_size := rtap_namespace_sizes; n_bits := zlen rtap_namespace_sizes;
     oui := 0; subns := 0 |}.

(** The values of the [current_namespace] pointer. *)
Inductive ns_ptr :=
| NS_NULL
| NS_RADIOTAP
| NS_VENDOR (ns : ieee80211_radiotap_namespace).

Definition ns_deref (p : ns_ptr) : option ieee80211_radiotap_namespace :=
  match p with
  | NS_NULL => None
  | NS_RADIOTAP => Some radiotap_ns
  | NS_VENDOR ns => Some ns
  end.

Record ieee80211_radiotap_iterator := mk_iter {
  _vns : option (list ieee80211_radiotap_namespace);
  current_namespace : ns_ptr;
  _arg : Z;
  _next_ns_data : option Z;
  _next_bitmap : Z;
  this_arg : Z;
  this_arg_index : Z;
  this_arg_size : Z;
  is_radiotap_ns : bool;
  _max_length : Z;
  _arg_index : Z;
  _bitmap_shifter : Z;
  _reset_on_ext : bool;
}.

(** The [while] loop of the initialization: skip the extended bitmaps. *)
Fixpoint skip_bitmaps (fuel : nat) (rt : list Z) (max arg : Z) : option (Z + Z) :=
  match fuel with
  | O => None
  | S fuel =>
      w ← rd_le32 rt arg;
      if nz (w .& BIT IEEE80211_RADIOTAP_EXT) then
        let arg := arg + 4 in
        if max <? arg + 4 then Some (inr (- EINVAL))
        else skip_bitmaps fuel rt max arg
      else Some (inl arg)
  end.

(** [ieee80211_radiotap_iterator_init]: the iterator, or the error. *)
Definition ieee80211_radiotap_iterator_init (rt : list Z) (max_length : Z)
    (vns : option (list ieee80211_radiotap_namespace))
  : option (ieee80211_radiotap_iterator + Z) :=
  if max_length <? sizeof_radiotap_header then Some (inr (- EINVAL))
  else
    it_version ← rd8 rt 0;
    if nz it_version then Some (inr (- EINVAL))
    else
      it_len ← rd_le16 rt 2;
      if max_length <? it_len then Some (inr (- EINVAL))
      else
        it_present ← rd_le32 rt 4;
        let finish arg :=
          {| _vns := vns; current_namespace := NS_RADIOTAP; _arg := arg;
             _next_ns_data := None; _next_bitmap := sizeof_radiotap_header;
             this_arg := arg; this_arg_index := 0; this_arg_size := 0;
             is_radiotap_ns := true; _max_length := it_len; _arg_index := 0;
             _bitmap_shifter := it_present; _reset_on_ext := false |} in
        if nz (it_present .& BIT IEEE80211_RADIOTAP_EXT) then
          if it_len <? sizeof_radiotap_header + 4 then Some (inr (- EINVAL))
          else
            r ← skip_bitmaps (S (Z.to_nat it_len)) rt it_len sizeof_radiotap_header;
            match r with
            | inr e => Some (inr e)
            | inl arg => Some (inl (finish (arg + 4)))
            end
        else Some (inl (finish sizeof_radiotap_header)).

Fixpoint find_ns_in (vns : list ieee80211_radiotap_namespace) (o s : Z) : ns_ptr :=
  match vns with
  | [] => NS_NULL
  | ns :: vns =>
      if negb (oui ns =? o) then find_ns_in vns o s
      else if negb (subns ns =? s) then find_ns_in vns o s
      else NS_VENDOR ns
  end.

Definition find_ns (vns : option (list ieee80211_radiotap_namespace)) (o s : Z) : ns_ptr :=
  match vns with
  | None => NS_NULL
  | Some l => find_ns_in l o s
  end.

(** How one round of the loop of [ieee80211_radiotap_iterator_next] ends. *)
Inductive round :=
| Return (ret : Z) (it : ieee80211_radiotap_iterator)
| Again (it : ieee80211_radiotap_iterator).

Definition set_arg it v := mk_iter (_vns it) (current_namespace it) v (_next_ns_data it)
  (_next_bitmap it) (this_arg it) (this_arg_index it) (this_arg_size it) (is_radiotap_ns it)
  (_max_length it) (_arg_index it) (_bitmap_shifter it) (_reset_on_ext it).
Definition set_ns it v := mk_iter (_vns it) v (_arg it) (_next_ns_data it)
  (_next_bitmap it) (this_arg it) (this_arg_index it) (this_arg_size it) (is_radiotap_ns it)
  (_max_length it) (_arg_index it) (_bitmap_shifter it) (_reset_on_ext it).
Definition set_next_ns_data it v := mk_iter (_vns it) (current_namespace it) (_arg it) v
  (_next_bitmap it) (this_arg it) (this_arg_index it) (this_arg_size it) (is_radiotap_ns it)
  (_max_length it) (_arg_index it) (_bitmap_shifter it) (_reset_on_ext it).
Definition set_this it arg idx size := mk_iter (_vns it) (current_namespace it) (_arg it)
  (_next_ns_data it) (_next_bitmap it) arg idx size (is_radiotap_ns it)
  (_max_length it) (_arg_index it) (_bitmap_shifter it) (_reset_on_ext it).
Definition set_bits it shifter idx := mk_iter (_vns it) (current_namespace it) (_arg it)
  (_next_ns_data it) (_next_bitmap it) (this_arg it) (this_arg_index it) (this_arg_size it)
  (is_radiotap_ns it) (_max_length it) idx shifter (_reset_on_ext it).
Definition set_reset it r isrt := mk_iter (_vns it) (current_namespace it) (_arg it)
  (_next_ns_data it) (_next_bitmap it) (this_arg it) (this_arg_index it) (this_arg_size it)
  isrt (_max_length it) (_arg_index it) (_bitmap_shifter it) r.
Definition set_next_bitmap it v := mk_iter (_vns it) (current_namespace it) (_arg it)
  (_next_ns_data it) v (this_arg it) (this_arg_index it) (this_arg_size it)
  (is_radiotap_ns it) (_max_length it) (_arg_index it) (_bitmap_shifter it) (_reset_on_ext it).

(** The label [next_entry]: one bit consumed; [hit] returns. *)
Definition next_entry (hit : bool) (it : ieee80211_radiotap_iterator) : round :=
  let it := set_bits it (_bitmap_shifter it >> 1) (_arg_index it + 1) in
  if hit then Return 0 it else Again it.

(** The switch on the bit that yields alignment and size; [None] when the
    namespace does not know the field. *)
Definition arg_align_size (it : ieee80211_radiotap_iterator) : option (option (Z * Z)) :=
  let bit := _arg_index it mod 32 in
  if (bit =? IEEE80211_RADIOTAP_RADIOTAP_NAMESPACE) || (bit =? IEEE80211_RADIOTAP_EXT)
  then Some (Some (1, 0))
  else if bit =? IEEE80211_RADIOTAP_VENDOR_NAMESPACE then Some (Some (2, 6))
  else
    match ns_deref (current_namespace it) with
    | None => Some None
    | Some ns =>
        if n_bits ns <=? _arg_index it then Some None
        else
          e ← align_size ns !! Z.to_nat (_arg_index it);
          if nz (as_align e) then Some (Some (as_align e, as_size e)) else Some None
    end.

(** The vendor-namespace argument's own header: OUI, sub-namespace and length
    of the data that follows.  Gives the iterator and the argument size. *)
Definition enter_vendor (rt : list Z) (it : ieee80211_radiotap_iterator) (size : Z)
  : option (ieee80211_radiotap_iterator * Z) :=
  b0 ← rd8 rt (_arg it);
  b1 ← rd8 rt (_arg it + 1);
  b2 ← rd8 rt (_arg it + 2);
  s ← rd8 rt (_arg it + 3);
  let it := set_ns it (find_ns (_vns it) (((b0 << 16) .| (b1 << 8)) .| b2) s) in
  vnslen ← rd_le16 rt (_arg it + 4);
  let it := set_next_ns_data it (Some (_arg it + size + vnslen)) in
  Some (it, match current_namespace it with NS_NULL => size + vnslen | _ => size end).

(** The second switch: what the argument just passed means for the walk. *)
Definition finish_arg (rt : list Z) (it : ieee80211_radiotap_iterator) : option round :=
  let bit := _arg_index it mod 32 in
  if bit =? IEEE80211_RADIOTAP_VENDOR_NAMESPACE then
    let it := set_reset it true false in
    let it := set_this it (this_arg it) IEEE80211_RADIOTAP_VENDOR_NAMESPACE (this_arg_size it) in
    Some (next_entry (match current_namespace it with NS_NULL => true | _ => false end) it)
  else if bit =? IEEE80211_RADIOTAP_RADIOTAP_NAMESPACE then
    Some (next_entry false (set_reset (set_ns it NS_RADIOTAP) true true))
  else if bit =? IEEE80211_RADIOTAP_EXT then
    w ← rd_le32 rt (_next_bitmap it);
    let it := set_next_bitmap it (_next_bitmap it + 4) in
    let it := set_bits it w (if _reset_on_ext it then 0 else _arg_index it + 1) in
    Some (Again (set_reset it false (is_radiotap_ns it)))
  else Some (next_entry true it).

(** One round of [while (1)]. *)
Definition radiotap_round (rt : list Z) (it : ieee80211_radiotap_iterator) : option round :=
  if (_arg_index it mod 32 =? IEEE80211_RADIOTAP_EXT) && negb (nz (_bitmap_shifter it .& 1))
  then Some (Return (- ENOENT) it)
  else if negb (nz (_bitmap_shifter it .& 1)) then Some (next_entry false it)
  else
    as_ ← arg_align_size it;
    match as_ with
    | None =>
        match current_namespace it with
        | NS_RADIOTAP => Some (Return (- ENOENT) it)
        | _ =>
            d ← _next_ns_data it;
            Some (next_entry false (set_ns (set_arg it d) NS_NULL))
        end
    | Some (align, size) =>
        let pad := _arg it .& (align - 1) in
        let it := if nz pad then set_arg it (_arg it + (align - pad)) else it in
        if (_arg_index it mod 32 =? IEEE80211_RADIOTAP_VENDOR_NAMESPACE) &&
           (_max_length it <? _arg it + size)
        then Some (Return (- EINVAL) it)
        else
          r ← (if _arg_index it mod 32 =? IEEE80211_RADIOTAP_VENDOR_NAMESPACE
               then enter_vendor rt it size else Some (it, size));
          let it := r.1 in
          let size := r.2 in
          let it := set_this it (_arg it) (_arg_index it) size in
          let it := set_arg it (_arg it + size) in
          if _max_length it <? _arg it then Some (Return (- EINVAL) it)
          else finish_arg rt it
    end.

Fixpoint iterator_next_fuel (fuel : nat) (rt : list Z) (it : ieee80211_radiotap_iterator)
  : option (Z * ieee80211_radiotap_iterator) :=
  match fuel with
  | O => None
  | S fuel =>
      r ← radiotap_round rt it;
      match r with
      | Return ret it => Some (ret, it)
      | Again it => iterator_next_fuel fuel rt it
      end
  end.

(** At most 33 rounds per bitmap word, and a word takes four bytes. *)
Definition ieee80211_radiotap_iterator_next (rt : list Z) (it : ieee80211_radiotap_iterator)
  : option (Z * ieee80211_radiotap_iterator) :=
  iterator_next_fuel (Z.to_nat (33 * (_max_length it + 2))) rt it.

(** The loop of a caller ([ieee80211_parse_tx_radiotap] and others): fetch
    arguments until an error code ends the walk. *)
Fixpoint radiotap_walk (fuel : nat) (rt : list Z) (it : ieee80211_radiotap_iterator)
  : option (list (Z * Z * Z) * Z) :=
  match fuel with
  | O => None
  | S fuel =>
      r ← ieee80211_radiotap_iterator_next rt it;
      let it := r.2 in
      if nz r.1 then Some ([], r.1)
      else
        w ← radiotap_walk fuel rt it;
        Some ((this_arg_index it, this_arg it, this_arg_size it) :: w.1, w.2)
  end.

(** ** Invariant of the iterator *)

(** Bitmap word chain: if the current word has its extension bit set there is
    a next word at [nb], inside the header, and so on. *)
Inductive ext_chain (rt : list Z) (max : Z) : Z -> bool -> Prop :=
| chain_end nb : ext_chain rt max nb false
| chain_more nb w :
    rd_le32 rt nb = Some w -> nb + 4 <= max ->
    ext_chain rt max (nb + 4) (Z.testbit w 31) ->
    ext_chain rt max nb true.

(** A namespace description as drivers supply it: one entry per bit. *)
Definition ns_ok (ns : ieee80211_radiotap_namespace) : Prop :=
  n_bits ns <= zlen (align_size ns) /\
  Forall (fun e => is_uint 4 (as_align e) /\ is_uint 4 (as_size e)) (align_size ns).

Definition vns_ok (vns : option (list ieee80211_radiotap_namespace)) : Prop :=
  match vns with None => True | Some l => Forall ns_ok l end.

Record iter_ok (rt : list Z) (it : ieee80211_radiotap_iterator) : Prop := {
  ok_max : 0 <= _max_length it <= zlen rt;
  ok_index : 0 <= _arg_index it;
  ok_shifter : is_uint 32 (_bitmap_shifter it);
  ok_arg : 0 <= _arg it;
  ok_next : 0 <= _next_bitmap it;
  ok_chain : ext_chain rt (_max_length it) (_next_bitmap it)
               (Z.testbit (_bitmap_shifter it) (31 - _arg_index it mod 32));
  ok_nsdata : match _next_ns_data it with
              | Some d => 0 <= d
              | None => current_namespace it = NS_RADIOTAP
              end;
  ok_vns : vns_ok (_vns it);
  ok_cur : forall ns, ns_deref (current_namespace it) = Some ns -> ns_ok ns;
}.

(** Rounds left: the bits of this word and of the words that can follow. *)
Definition bits_left (it : ieee80211_radiotap_iterator) : Z :=
  32 - _arg_index it mod 32 + 32 * Z.max 0 ((_max_length it - _next_bitmap it) / 4).

Definition round_it (r : round) : ieee80211_radiotap_iterator :=
  match r with Return _ it => it | Again it => it end.

(** What a round promises: the invariant again, progress whenever a bit was
    consumed, and, when an argument is handed out, its extent inside the
    header. *)
Definition round_ok (rt : list Z) (it : ieee80211_radiotap_iterator) (r : round) : Prop :=
  iter_ok rt (round_it r) /\ _max_length (round_it r) = _max_length it /\
  match r with
  | Return ret it' =>
      ret = 0 /\ bits_left it' < bits_left it /\
        0 <= this_arg it' /\ 0 <= this_arg_size it' /\
        this_arg it' + this_arg_size it' <= _max_length it' \/
      ret = - EINVAL \/ ret = - ENOENT
  | Again it' => bits_left it' < bits_left it
  end.

Lemma radiotap_ns_ok : ns_ok radiotap_ns.
Proof. split; [done|]. repeat (constructor; [by split|]). constructor. Qed.

Lemma find_ns_ok vns o s ns : vns_ok vns -> ns_deref (find_ns vns o s) = Some ns -> ns_ok ns.
Proof.
  destruct vns as [l|]; [|done]. simpl. induction 1 as [|x l Hx Hl IH]; [done|]. simpl.
  destruct (oui x =? o); [|by apply IH]. destruct (subns x =? s); [|by apply IH].
  simpl. by intros [= <-].
Qed.

Lemma mod32_succ i : 0 <= i -> i mod 32 <> 31 -> (i + 1) mod 32 = i mod 32 + 1.
Proof. intros. Z.div_mod_to_equations; lia. Qed.

Lemma shift_testbit s j : 0 <= j -> Z.testbit (s >> 1) j = Z.testbit s (j + 1).
Proof. intros. by rewrite Z.shiftr_spec. Qed.

(** Consuming a bit other than the extension bit keeps the invariant. *)
Lemma next_entry_ok rt it hit :
  iter_ok rt it -> _arg_index it mod 32 <> 31 ->
  iter_ok rt (round_it (next_entry hit it)) /\
  bits_left (round_it (next_entry hit it)) < bits_left it.
Proof.
  intros Hok H31. unfold next_entry. pose proof (ok_index _ _ Hok) as Hi.
  pose proof (mod32_succ _ Hi H31) as Hs. pose proof (Z.mod_pos_bound (_arg_index it) 32).
  assert (iter_ok rt (set_bits it (_bitmap_shifter it >> 1) (_arg_index it + 1))) as H'.
  { destruct Hok. constructor; simpl; try done; try lia.
    - apply (is_uint_mono 31); [|lia]. by apply (shiftr_is_uint 32 1).
    - rewrite Hs, shift_testbit by lia.
      by replace (31 - (_arg_index it mod 32 + 1) + 1) with (31 - _arg_index it mod 32) by lia. }
  destruct hit; simpl; (split; [done|]); unfold bits_left; simpl; rewrite Hs; lia.
Qed.

Lemma next_entry_round rt it0 it hit :
  iter_ok rt it -> _arg_index it mod 32 <> 31 ->
  _max_length it = _max_length it0 -> bits_left it = bits_left it0 ->
  (hit = true -> 0 <= this_arg it /\ 0 <= this_arg_size it /\
     this_arg it + this_arg_size it <= _max_length it) ->
  round_ok rt it0 (next_entry hit it).
Proof.
  intros Hok Hne Hm Hb Hh. destruct (next_entry_ok rt it hit) as [H1 H2]; [done..|].
  unfold round_ok. rewrite Hb in H2. split; [exact H1|].
  destruct hit; simpl in *; (split; [done|]); [|done].
  left. destruct Hh as (?&?&?); done.
Qed.

Lemma set_arg_ok rt it v : iter_ok rt it -> 0 <= v -> iter_ok rt (set_arg it v).
Proof. intros []; by constructor. Qed.

Lemma set_this_ok rt it a i s : iter_ok rt it -> iter_ok rt (set_this it a i s).
Proof. intros []; by constructor. Qed.

Lemma set_reset_ok rt it r n : iter_ok rt it -> iter_ok rt (set_reset it r n).
Proof. intros []; by constructor. Qed.

Lemma set_ns_radiotap_ok rt it : iter_ok rt it -> iter_ok rt (set_ns it NS_RADIOTAP).
Proof.
  intros []. constructor; simpl; try done.
  - by destruct (_next_ns_data it).
  - intros ns [= <-]. apply radiotap_ns_ok.
Qed.

Lemma arg_align_size_ok rt it :
  iter_ok rt it -> exists r, arg_align_size it = Some r /\
    match r with Some (al, sz) => 1 <= al /\ 0 <= sz | None => _arg_index it mod 32 <> 31 end.
Proof.
  intros Hok. unfold arg_align_size, IEEE80211_RADIOTAP_RADIOTAP_NAMESPACE,
    IEEE80211_RADIOTAP_EXT, IEEE80211_RADIOTAP_VENDOR_NAMESPACE.
  destruct (Z.eqb_spec (_arg_index it mod 32) 29); [eexists; split; [reflexivity|simpl; lia]|].
  destruct (Z.eqb_spec (_arg_index it mod 32) 31); [eexists; split; [reflexivity|simpl; lia]|]. simpl.
  destruct (Z.eqb_spec (_arg_index it mod 32) 30); [eexists; split; [reflexivity|simpl; lia]|].
  destruct (ns_deref (current_namespace it)) as [ns|] eqn:En; [|exdone].
  destruct (ok_cur _ _ Hok ns En) as [Hlen Hall].
  destruct (Z.leb_spec (n_bits ns) (_arg_index it)); [exdone|].
  pose proof (ok_index _ _ Hok).
  destruct (lookup_lt_is_Some_2 (align_size ns) (Z.to_nat (_arg_index it))) as [e He];
    [unfold zlen in Hlen; lia|].
  rewrite He; simpl. unfold nz. destruct (Z.eqb_spec (as_align e) 0); simpl; [exdone|].
  eexists; split; [done|]. destruct (Forall_lookup_1 _ _ _ _ Hall He) as [[] []]. lia.
Qed.

(** The vendor header is read inside the bounds that were just checked. *)
Lemma enter_vendor_ok rt it size :
  bytes_ok rt -> iter_ok rt it -> 6 <= size -> _arg it + size <= _max_length it ->
  exists it' size', enter_vendor rt it size = Some (it', size') /\
    iter_ok rt it' /\ size <= size' /\ _arg it' = _arg it /\ _arg_index it' = _arg_index it /\
    _max_length it' = _max_length it /\ bits_left it' = bits_left it /\
    _bitmap_shifter it' = _bitmap_shifter it.
Proof.
  intros Hb Hok Hs Hle. pose proof (ok_max _ _ Hok). pose proof (ok_arg _ _ Hok).
  unfold enter_vendor.
  destruct (rd8_Some rt (_arg it)) as [b0 ->]; [lia|].
  destruct (rd8_Some rt (_arg it + 1)) as [b1 ->]; [lia|].
  destruct (rd8_Some rt (_arg it + 2)) as [b2 ->]; [lia|].
  destruct (rd8_Some rt (_arg it + 3)) as [s ->]; [lia|]. cbn [mbind option_bind _arg set_ns].
  destruct (rd_le16_Some rt (_arg it + 4)) as [l Hl]; [lia..|].
  pose proof (rd_le16_ok _ _ _ Hb Hl) as [Hl0 _]. rewrite Hl. cbn [mbind option_bind].
  do 2 eexists. split; [done|]. simpl. split_and!; try done.
  - destruct Hok. constructor; simpl; try done; [lia|]. intros ns. by apply find_ns_ok.
  - destruct (find_ns _ _ _); lia.
Qed.

(** The second switch, reached with the argument inside the header. *)
Lemma finish_arg_ok rt it :
  bytes_ok rt -> iter_ok rt it -> Z.testbit (_bitmap_shifter it) 0 = true ->
  0 <= this_arg it -> 0 <= this_arg_size it ->
  this_arg it + this_arg_size it <= _max_length it ->
  exists r, finish_arg rt it = Some r /\ round_ok rt it r.
Proof.
  intros Hb Hok Hbit Ha Hs Hle. unfold finish_arg.
  destruct (Z.eqb_spec (_arg_index it mod 32) IEEE80211_RADIOTAP_VENDOR_NAMESPACE) as [E|].
  { eexists; split; [reflexivity|]. apply next_entry_round; try done.
    - by apply set_this_ok, set_reset_ok.
    - simpl. by rewrite E. }
  destruct (Z.eqb_spec (_arg_index it mod 32) IEEE80211_RADIOTAP_RADIOTAP_NAMESPACE) as [E|].
  { eexists; split; [reflexivity|]. apply next_entry_round; try done.
    - by apply set_reset_ok, set_ns_radiotap_ok.
    - simpl. by rewrite E. }
  destruct (Z.eqb_spec (_arg_index it mod 32) IEEE80211_RADIOTAP_EXT) as [E|Hne].
  2: { eexists; split; [reflexivity|]. by apply next_entry_round. }
  pose proof (ok_chain _ _ Hok) as Hc. rewrite E in Hc. change (31 - IEEE80211_RADIOTAP_EXT) with 0 in Hc.
  rewrite Hbit in Hc. inversion Hc as [|nb w Hw Hnb Hrest]; subst. rewrite Hw. cbn [mbind option_bind].
  eexists; split; [reflexivity|]. unfold round_ok. simpl round_it. pose proof (ok_next _ _ Hok). pose proof (ok_index _ _ Hok).
  set (i' := if _reset_on_ext it then 0 else _arg_index it + 1).
  assert (0 <= i' /\ i' mod 32 = 0) as [Hi0 Hi].
  { unfold i'. destruct (_reset_on_ext it); [done|].
    unfold IEEE80211_RADIOTAP_EXT in E. split; [lia|]. Z.div_mod_to_equations; lia. }
  split_and!; [|done|].
  - destruct Hok. constructor; simpl; try done; try lia.
    + by eapply rd_le32_ok.
    + fold i'. by rewrite Hi.
  - unfold bits_left; simpl. fold i'. rewrite Hi, E. unfold IEEE80211_RADIOTAP_EXT.
    Z.div_mod_to_equations; lia.
Qed.

Lemma odd_land1 s : nz (s .& 1) = Z.testbit s 0.
Proof. change 1 with (2 ^ 0). by rewrite nz_land_pow2. Qed.

Lemma pad_ok rt it align :
  iter_ok rt it -> 1 <= align ->
  let pad := _arg it .& (align - 1) in
  let it' := if nz pad then set_arg it (_arg it + (align - pad)) else it in
  iter_ok rt it' /\ _arg_index it' = _arg_index it /\ _max_length it' = _max_length it /\
  _bitmap_shifter it' = _bitmap_shifter it /\ bits_left it' = bits_left it.
Proof.
  intros Hok Ha pad it'. pose proof (ok_arg _ _ Hok).
  pose proof (land_le (_arg it) (align - 1) ltac:(lia)) as Hp. fold pad in Hp.
  unfold it'. destruct (nz pad); simpl; split_and!; try done.
  apply set_arg_ok; [done|lia].
Qed.

(** The second half of a round: an argument of [size] bytes at [_arg]. *)
Lemma take_arg_ok rt it0 it size :
  bytes_ok rt -> iter_ok rt it -> Z.testbit (_bitmap_shifter it) 0 = true -> 0 <= size ->
  _max_length it = _max_length it0 -> bits_left it = bits_left it0 ->
  let it1 := set_arg (set_this it (_arg it) (_arg_index it) size) (_arg it + size) in
  exists r, (if _max_length it1 <? _arg it1 then Some (Return (- EINVAL) it1)
             else finish_arg rt it1) = Some r /\ round_ok rt it0 r.
Proof.
  intros Hb Hok Hbit Hs Hm Hl it1. pose proof (ok_arg _ _ Hok).
  assert (iter_ok rt it1) as Hok1 by (apply set_arg_ok; [by apply set_this_ok|lia]).
  destruct (Z.ltb_spec (_max_length it1) (_arg it1)).
  { eexists; split; [reflexivity|]. split; [done|]. split; [done|]. auto. }
  destruct (finish_arg_ok rt it1) as (r & -> & Hr); try done.
  eexists; split; [reflexivity|]. unfold round_ok in *. simpl in Hr. rewrite <- Hm.
  change (bits_left it1) with (bits_left it) in Hr. by rewrite <- Hl.
Qed.

Lemma return_err_ok rt it0 it e :
  iter_ok rt it -> _max_length it = _max_length it0 -> e = EINVAL \/ e = ENOENT ->
  round_ok rt it0 (Return (- e) it).
Proof. intros ?? [->| ->]; (split; [done|]); (split; [done|]); auto. Qed.

Lemma radiotap_round_ok rt it :
  bytes_ok rt -> iter_ok rt it ->
  exists r, radiotap_round rt it = Some r /\ round_ok rt it r.
Proof.
  intros Hb Hok. unfold radiotap_round. rewrite !odd_land1.
  destruct (Z.eqb_spec (_arg_index it mod 32) IEEE80211_RADIOTAP_EXT) as [E31|N31];
    destruct (Z.testbit (_bitmap_shifter it) 0) eqn:Hbit;
    cbn [andb negb]; try (eexists; split; [reflexivity|]; first
      [by apply next_entry_round | apply return_err_ok; by auto]).
  all: destruct (arg_align_size_ok rt it Hok) as ([[al sz]|] & Has & Hr); rewrite Has;
    cbn [mbind option_bind].
  2: { done. }
  3: { destruct (current_namespace it) eqn:En; try
      (eexists; split; [reflexivity|]; apply return_err_ok; by auto);
      pose proof (ok_nsdata _ _ Hok) as Hd; destruct (_next_ns_data it) as [d|] eqn:Ed;
      try congruence; cbn [mbind option_bind]; (eexists; split; [reflexivity|]);
      (apply next_entry_round; try done);
      destruct Hok; constructor; simpl; rewrite ?Ed; done. }
  all: destruct Hr as [Hal Hsz]; destruct (pad_ok rt it al Hok Hal) as (Hok' & Ei & Em & Eb & El);
    set (it' := if nz (_arg it .& (al - 1)) then _ else _) in *; rewrite Ei.
  1: rewrite E31; simpl; apply take_arg_ok; [done..|by rewrite Eb|done|by rewrite Em|done].
  destruct (Z.eqb_spec (_arg_index it mod 32) IEEE80211_RADIOTAP_VENDOR_NAMESPACE) as [E30|]; simpl.
  - destruct (Z.ltb_spec (_max_length it') (_arg it' + sz)).
    { eexists; split; [reflexivity|]. apply return_err_ok; auto. }
    assert (6 <= sz) as H6.
    { unfold arg_align_size in Has. rewrite E30 in Has. simpl in Has. simplify_eq. lia. }
    destruct (enter_vendor_ok rt it' sz) as (i2 & s2 & -> & Hok2 & ? & ? & ? & Em2 & El2 & Eb2); [done..|].
    assert (Z.testbit (_bitmap_shifter i2) 0 = true) by congruence.
    simpl. apply take_arg_ok; [done..|lia|congruence|congruence].
  - apply take_arg_ok; [done..|by rewrite Eb|done|by rewrite Em|done].
Qed.

Lemma bits_left_bounds rt it :
  iter_ok rt it -> 1 <= bits_left it <= 33 * (_max_length it + 2) - 33.
Proof.
  intros Hok. unfold bits_left. pose proof (ok_max _ _ Hok). pose proof (ok_next _ _ Hok).
  pose proof (Z.mod_pos_bound (_arg_index it) 32). split; [lia|].
  Z.div_mod_to_equations; lia.
Qed.

Lemma iterator_next_fuel_ok fuel rt it :
  bytes_ok rt -> iter_ok rt it -> bits_left it < Z.of_nat fuel ->
  exists ret it', iterator_next_fuel fuel rt it = Some (ret, it') /\
    iter_ok rt it' /\ _max_length it' = _max_length it /\
    (ret = 0 /\ bits_left it' < bits_left it /\ 0 <= this_arg it' /\ 0 <= this_arg_size it' /\
       this_arg it' + this_arg_size it' <= _max_length it' \/
     ret = - EINVAL \/ ret = - ENOENT).
Proof.
  intros Hb. revert it. induction fuel as [|fuel IH]; intros it Hok Hf.
  { pose proof (bits_left_bounds _ _ Hok). lia. }
  cbn [iterator_next_fuel].
  destruct (radiotap_round_ok rt it Hb Hok) as ([ret it'|it'] & -> & Hok' & Hm & Hr);
    cbn [mbind option_bind]; simpl in *.
  - by exists ret, it'.
  - destruct (IH it' Hok') as (ret & it2 & -> & Hok2 & Hm2 & Hret); [lia|].
    exists ret, it2. split; [done|]. split; [done|]. split; [congruence|].
    destruct Hret as [(?&?&?)|]; [|auto]. left. split_and!; try done; lia.
Qed.

(** One call of the iterator: no read outside the header, an answer, and an
    argument that lies inside the header. *)
Lemma iterator_next_ok rt it :
  bytes_ok rt -> iter_ok rt it ->
  exists ret it', ieee80211_radiotap_iterator_next rt it = Some (ret, it') /\
    iter_ok rt it' /\ _max_length it' = _max_length it /\
    (ret = 0 /\ bits_left it' < bits_left it /\ 0 <= this_arg it' /\ 0 <= this_arg_size it' /\
       this_arg it' + this_arg_size it' <= _max_length it' \/
     ret = - EINVAL \/ ret = - ENOENT).
Proof.
  intros Hb Hok. apply iterator_next_fuel_ok; [done..|].
  pose proof (bits_left_bounds _ _ Hok). lia.
Qed.

Lemma skip_bitmaps_ok fuel rt max arg :
  bytes_ok rt -> max <= zlen rt -> 0 <= arg -> arg + 4 <= max -> max - arg < Z.of_nat fuel ->
  exists r, skip_bitmaps fuel rt max arg = Some r /\
    match r with
    | inl arg' => arg <= arg' /\ ext_chain rt max arg true
    | inr e => e = - EINVAL
    end.
Proof.
  intros Hb Hmax. revert arg. induction fuel as [|fuel IH]; intros arg Ha Hm Hf; [lia|].
  cbn [skip_bitmaps]. destruct (rd_le32_Some rt arg) as [w Hw]; [lia..|].
  rewrite Hw. cbn [mbind option_bind]. unfold BIT, IEEE80211_RADIOTAP_EXT.
  rewrite Z.shiftl_1_l, nz_land_pow2 by lia.
  destruct (Z.testbit w 31) eqn:E.
  - destruct (Z.ltb_spec max (arg + 4 + 4)); [exdone|].
    destruct (IH (arg + 4)) as ([arg'|e] & -> & Hr); [lia..| |]; (eexists; split; [reflexivity|]).
    + destruct Hr. split; [lia|]. apply (chain_more _ _ _ w); [done|lia|by rewrite E].
    + done.
  - eexists; split; [reflexivity|]. simpl. split; [lia|].
    apply (chain_more _ _ _ w); [done|lia|]. rewrite E. constructor.
Qed.

Lemma iterator_init_ok rt max_length vns :
  bytes_ok rt -> max_length <= zlen rt -> vns_ok vns ->
  exists r, ieee80211_radiotap_iterator_init rt max_length vns = Some r /\
    match r with
    | inl it => iter_ok rt it /\ _max_length it <= max_length
    | inr e => e = - EINVAL
    end.
Proof.
  intros Hb Hlen Hv. unfold ieee80211_radiotap_iterator_init, sizeof_radiotap_header.
  destruct (Z.ltb_spec max_length 8); [exdone|].
  destruct (rd8_Some rt 0) as [v ->]; [lia|]. cbn [mbind option_bind].
  destruct (nz v); [exdone|].
  destruct (rd_le16_Some rt 2) as [l Hl]; [lia..|]. pose proof (rd_le16_ok _ _ _ Hb Hl) as [Hl0 _].
  rewrite Hl. cbn [mbind option_bind]. destruct (Z.ltb_spec max_length l); [exdone|].
  destruct (rd_le32_Some rt 4) as [p Hp]; [lia..|]. pose proof (rd_le32_ok _ _ _ Hb Hp) as Hpu.
  rewrite Hp. cbn [mbind option_bind]. unfold BIT, IEEE80211_RADIOTAP_EXT.
  rewrite Z.shiftl_1_l, nz_land_pow2 by lia.
  assert (forall arg, 0 <= arg -> ext_chain rt l 8 (Z.testbit p 31) ->
    iter_ok rt (mk_iter vns NS_RADIOTAP arg None 8 arg 0 0 true l 0 p false)) as Hfin.
  { intros arg Ha Hc. constructor; simpl; try done; try lia. intros ns [= <-]. apply radiotap_ns_ok. }
  destruct (Z.testbit p 31) eqn:E.
  - destruct (Z.ltb_spec l (8 + 4)); [exdone|].
    destruct (skip_bitmaps_ok (S (Z.to_nat l)) rt l 8) as ([arg|e] & -> & Hr); [done|lia..| |];
      cbn [mbind option_bind]; (eexists; split; [reflexivity|]); [|done].
    destruct Hr as [Ha Hc]. split; [|done]. apply Hfin; [lia|done].
  - eexists; split; [reflexivity|]. split; [|done]. apply Hfin; [lia|constructor].
Qed.

Lemma radiotap_walk_ok fuel rt it :
  bytes_ok rt -> iter_ok rt it -> bits_left it < Z.of_nat fuel ->
  exists args ret, radiotap_walk fuel rt it = Some (args, ret) /\ nz ret = true /\
    zlen args < bits_left it /\
    Forall (fun a => 0 <= a.1.2 /\ 0 <= a.2 /\ a.1.2 + a.2 <= _max_length it) args.
Proof.
  intros Hb. revert it. induction fuel as [|fuel IH]; intros it Hok Hf.
  { pose proof (bits_left_bounds _ _ Hok). lia. }
  cbn [radiotap_walk].
  destruct (iterator_next_ok rt it Hb Hok) as (ret & it' & -> & Hok' & Hm & Hr).
  cbn [mbind option_bind fst snd].
  destruct Hr as [(-> & Hlt & ? & ? & ?)|[->| ->]]; simpl.
  - destruct (IH it' Hok') as (args & ret & -> & Hret & Hn & Hall); [lia|].
    simpl. do 2 eexists. split; [reflexivity|]. split; [done|]. rewrite Hm in *.
    split; [zlens; lia|]. constructor; [by simpl; lia|done].
  - do 2 eexists. split; [reflexivity|]. pose proof (bits_left_bounds _ _ Hok).
    split; [done|]. split; [rewrite zlen_nil; lia|constructor].
  - do 2 eexists. split; [reflexivity|]. pose proof (bits_left_bounds _ _ Hok).
    split; [done|]. split; [rewrite zlen_nil; lia|constructor].
Qed.

(** ** Properties *)

(** C31: Radiotap headers from user space are walked safely.  Whatever bytes
    the header holds, initialisation and every step stay inside the buffer;
    the walk ends after finitely many arguments, and every argument it hands
    out lies inside the header's stated length, itself inside the buffer. *)
Theorem radiotap_walk_safe rt max_length vns :
  bytes_ok rt -> max_length <= zlen rt -> vns_ok vns ->
  exists r, ieee80211_radiotap_iterator_init rt max_length vns = Some r /\
    match r with
    | inr e => e = - EINVAL
    | inl it =>
        _max_length it <= max_length /\
        exists args ret, radiotap_walk (Z.to_nat (bits_left it + 1)) rt it = Some (args, ret) /\
          nz ret = true /\ zlen args < bits_left it /\
          Forall (fun a => 0 <= a.1.2 /\ 0 <= a.2 /\ a.1.2 + a.2 <= _max_length it) args
    end.
Proof.
  intros Hb Hm Hv. destruct (iterator_init_ok rt max_length vns Hb Hm Hv) as (r & -> & Hr).
  exists r. split; [done|]. destruct r as [it|e]; [|done]. destruct Hr as [Hok Hmax].
  split; [done|]. apply radiotap_walk_ok; [done..|].
  pose proof (bits_left_bounds _ _ Hok). lia.
Qed.

Lemma radiotap_walk_safe_witness :
  exists r, ieee80211_radiotap_iterator_init [0; 0; 9; 0; 2; 0; 0; 0; 0x10] 9 None = Some r /\
    match r with
    | inr e => e = - EINVAL
    | inl it =>
        _max_length it <= 9 /\
        exists args ret, radiotap_walk (Z.to_nat (bits_left it + 1)) [0; 0; 9; 0; 2; 0; 0; 0; 0x10] it =
            Some (args, ret) /\
          nz ret = true /\ zlen args < bits_left it /\
          Forall (fun a => 0 <= a.1.2 /\ 0 <= a.2 /\ a.1.2 + a.2 <= _max_length it) args
    end.
Proof. apply radiotap_walk_safe; [by repeat constructor|done|done]. Defined.
