(* ===== verification/Michael.v ===== *)
(** * Michael: the TKIP message integrity code

    Models [net/wireless/michael-mic.c].  The running state is two 32-bit
    halves; the code walks the payload word by word and assembles the last
    partial word with its padding by hand.  Proved: the block function is a
    permutation of the state for every message word, and the hand-written
    tail equals hashing the explicitly padded message. *)
From S2P Require Import Prelude Frame.

Record michael_mic_ctx := mk_ctx { l : Z; r : Z }.

Definition michael_block (mctx : michael_mic_ctx) (val : Z) : michael_mic_ctx :=
  let l := l mctx in
  let r := r mctx in
  let l := l .^ val in
  let r := r .^ rol32 l 17 in
  let l := u32 (l + r) in
  let r := r .^ (((l .& 0xff00ff00) >> 8) .| ((l .& 0x00ff00ff) << 8)) in
  let l := u32 (l + r) in
  let r := r .^ rol32 l 3 in
  let l := u32 (l + r) in
  let r := r .^ ror32 l 2 in
  let l := u32 (l + r) in
  mk_ctx l r.

Definition michael_mic_hdr (key hdr : list Z) : option michael_mic_ctx :=
  da ← ieee80211_get_DA hdr;
  sa ← ieee80211_get_SA hdr;
  fc ← hdr_frame_control hdr;
  tid ← (if ieee80211_is_data_qos fc then ieee80211_get_tid hdr else Some 0);
  kl ← rd_le32 key 0;
  kr ← rd_le32 key 4;
  da0 ← rd_le32 hdr da;
  da4 ← rd_le16 hdr (da + 4);
  sa0 ← rd_le16 hdr sa;
  sa2 ← rd_le32 hdr (sa + 2);
  let mctx := mk_ctx kl kr in
  let mctx := michael_block mctx da0 in
  let mctx := michael_block mctx (da4 .| (sa0 << 16)) in
  let mctx := michael_block mctx sa2 in
  Some (michael_block mctx tid).

(** The loop [for (block = 0; block < blocks; block++)]. *)
Fixpoint michael_blocks (mctx : michael_mic_ctx) (data : list Z) (block : Z) (n : nat)
  : option michael_mic_ctx :=
  match n with
  | O => Some mctx
  | S n =>
      w ← rd_le32 data (block * 4);
      michael_blocks (michael_block mctx w) data (block + 1) n
  end.

(** The loop [while (left > 0)] that gathers the partial block. *)
Fixpoint michael_tail (data : list Z) (base : Z) (n_left : nat) (val : Z) : option Z :=
  match n_left with
  | O => Some val
  | S n_left =>
      let val := u32 (val << 8) in
      b ← rd8 data (base + Z.of_nat n_left);
      michael_tail data base n_left (val .| b)
  end.

Definition michael_mic (key hdr data : list Z) (data_len : Z) : option (list Z) :=
  mctx ← michael_mic_hdr key hdr;
  let blocks := data_len / 4 in
  let n_left := data_len mod 4 in
  mctx ← michael_blocks mctx data 0 (Z.to_nat blocks);
  val ← michael_tail data (blocks * 4) (Z.to_nat n_left) 0x5a;
  let mctx := michael_block mctx val in
  let mctx := michael_block mctx 0 in
  Some (le32_bytes (l mctx) ++ le32_bytes (r mctx)).

(** ** Specification: hash the padded message *)

(** Little-endian words of a byte string whose length is a multiple of 4. *)
Fixpoint le_words (bs : list Z) : list Z :=
  match bs with
  | b0 :: b1 :: b2 :: b3 :: bs =>
      (b0 + b1 * 2 ^ 8 + b2 * 2 ^ 16 + b3 * 2 ^ 24) :: le_words bs
  | _ => []
  end.

(** 802.11: append 0x5a, then zeros (4 to 7) up to a multiple of four. *)
Definition michael_pad (data : list Z) : list Z :=
  data ++ [0x5a] ++ replicate (7 - length data `mod` 4)%nat 0.

Definition michael_spec (mctx : michael_mic_ctx) (data : list Z) : michael_mic_ctx :=
  fold_left michael_block (le_words (michael_pad data)) mctx.

(** The inverse of the block function. *)
Definition michael_unblock (mctx : michael_mic_ctx) (val : Z) : michael_mic_ctx :=
  let l := l mctx in
  let r := r mctx in
  let l := u32 (l - r) in
  let r := r .^ ror32 l 2 in
  let l := u32 (l - r) in
  let r := r .^ rol32 l 3 in
  let l := u32 (l - r) in
  let r := r .^ (((l .& 0xff00ff00) >> 8) .| ((l .& 0x00ff00ff) << 8)) in
  let l := u32 (l - r) in
  let r := r .^ rol32 l 17 in
  mk_ctx (l .^ val) r.

Definition ctx_ok (c : michael_mic_ctx) : Prop := is_uint 32 (l c) /\ is_uint 32 (r c).

(** ** Lemmas *)

Lemma u32_sub_add a b : is_uint 32 a -> u32 (u32 (a + b) - b) = a.
Proof.
  intros Ha. unfold wrap. rewrite Zminus_mod_idemp_l.
  replace (a + b - b) with a by lia. by apply wrap_small.
Qed.

Lemma u32_add_sub a b : is_uint 32 a -> u32 (u32 (a - b) + b) = a.
Proof.
  intros Ha. rewrite wrap_add_l. replace (a - b + b) with a by lia. by apply wrap_small.
Qed.

Lemma lxor_cancel a b : (a .^ b) .^ b = a.
Proof. by rewrite Z.lxor_assoc, Z.lxor_nilpotent, Z.lxor_0_r. Qed.

Lemma rol32_ok x n : 0 <= n <= 32 -> is_uint 32 x -> is_uint 32 (rol32 x n).
Proof.
  intros Hn Hx. unfold rol32. apply lor_is_uint; [lia|by apply wrap_is_uint|].
  eapply is_uint_mono; [by apply (shiftr_is_uint 32 (32 - n)); [lia|]|lia].
Qed.

Lemma ror32_ok x n : 0 <= n <= 32 -> is_uint 32 x -> is_uint 32 (ror32 x n).
Proof.
  intros Hn Hx. unfold ror32. apply lor_is_uint; [lia| |by apply wrap_is_uint].
  eapply is_uint_mono; [by apply (shiftr_is_uint 32 n)|lia].
Qed.

Lemma swap_ok x : is_uint 32 (((x .& 0xff00ff00) >> 8) .| ((x .& 0x00ff00ff) << 8)).
Proof.
  apply lor_is_uint; [lia| |].
  - apply (is_uint_mono 24); [|lia]. apply (shiftr_is_uint 32 8); [lia|]. by apply land_is_uint.
  - apply (shiftl_is_uint 24 8); [lia..|]. by apply land_is_uint.
Qed.

#[export] Hint Resolve rol32_ok ror32_ok swap_ok : cint.

(** The block function is a chain of two kinds of invertible steps. *)
Definition mix (f : Z -> Z) (c : michael_mic_ctx) : michael_mic_ctx := mk_ctx (l c) (r c .^ f (l c)).
Definition add (c : michael_mic_ctx) : michael_mic_ctx := mk_ctx (u32 (l c + r c)) (r c).
Definition sub (c : michael_mic_ctx) : michael_mic_ctx := mk_ctx (u32 (l c - r c)) (r c).
Definition inject (v : Z) (c : michael_mic_ctx) : michael_mic_ctx := mk_ctx (l c .^ v) (r c).
Definition swap (x : Z) : Z := ((x .& 0xff00ff00) >> 8) .| ((x .& 0x00ff00ff) << 8).

Lemma michael_block_steps c v :
  michael_block c v =
    add (mix (fun x => ror32 x 2) (add (mix (fun x => rol32 x 3) (add (mix swap
      (add (mix (fun x => rol32 x 17) (inject v c)))))))).
Proof. reflexivity. Qed.

Lemma michael_unblock_steps c v :
  michael_unblock c v =
    inject v (mix (fun x => rol32 x 17) (sub (mix swap (sub (mix (fun x => rol32 x 3)
      (sub (mix (fun x => ror32 x 2) (sub c)))))))).
Proof. reflexivity. Qed.

Lemma mix_ok f c : (forall x, is_uint 32 x -> is_uint 32 (f x)) -> ctx_ok c -> ctx_ok (mix f c).
Proof. intros Hf [Hl Hr]. split; simpl; [done|]. apply lxor_is_uint; [lia|done|auto]. Qed.

Lemma add_ok c : ctx_ok c -> ctx_ok (add c).
Proof. intros [Hl Hr]. split; simpl; [apply wrap_is_uint; lia|done]. Qed.

Lemma sub_ok c : ctx_ok c -> ctx_ok (sub c).
Proof. intros [Hl Hr]. split; simpl; [apply wrap_is_uint; lia|done]. Qed.

Lemma inject_ok v c : is_uint 32 v -> ctx_ok c -> ctx_ok (inject v c).
Proof. intros Hv [Hl Hr]. split; simpl; [apply lxor_is_uint; [lia|done..]|done]. Qed.

Lemma mix_mix f c : mix f (mix f c) = c.
Proof. destruct c; unfold mix; simpl. by rewrite lxor_cancel. Qed.

Lemma inject_inject v c : inject v (inject v c) = c.
Proof. destruct c; unfold inject; simpl. by rewrite lxor_cancel. Qed.

Lemma sub_add c : ctx_ok c -> sub (add c) = c.
Proof. destruct c; intros [??]; unfold sub, add; simpl. by rewrite u32_sub_add. Qed.

Lemma add_sub c : ctx_ok c -> add (sub c) = c.
Proof. destruct c; intros [??]; unfold sub, add; simpl. by rewrite u32_add_sub. Qed.

Ltac ctx_oks :=
  repeat first
    [ assumption | apply add_ok | apply sub_ok | apply inject_ok; [done|]
    | apply mix_ok; [intros; first [apply swap_ok | apply rol32_ok; [lia|done]
                                   | apply ror32_ok; [lia|done]]|] ].

Lemma michael_block_ok c v : ctx_ok c -> is_uint 32 v -> ctx_ok (michael_block c v).
Proof. intros. rewrite michael_block_steps. ctx_oks. Qed.

Lemma michael_unblock_block c v :
  ctx_ok c -> is_uint 32 v -> michael_unblock (michael_block c v) v = c.
Proof.
  intros. rewrite michael_block_steps, michael_unblock_steps.
  repeat first [rewrite mix_mix | rewrite sub_add by ctx_oks]. apply inject_inject.
Qed.

Lemma michael_block_unblock c v :
  ctx_ok c -> is_uint 32 v -> michael_block (michael_unblock c v) v = c.
Proof.
  intros. rewrite michael_block_steps, michael_unblock_steps, inject_inject.
  repeat first [rewrite mix_mix | rewrite add_sub by ctx_oks]. done.
Qed.

(** ** The tail is the padding *)

Lemma le16_sum b0 b1 : is_uint 8 b0 -> b0 .| (b1 << 8) = b0 + b1 * 2 ^ 8.
Proof. intros. by apply lor_shiftl_add. Qed.

Lemma rd_le32_four pre b0 b1 b2 b3 post :
  bytes_ok [b0; b1; b2; b3] ->
  rd_le32 (pre ++ b0 :: b1 :: b2 :: b3 :: post) (zlen pre) =
    Some (b0 + b1 * 2 ^ 8 + b2 * 2 ^ 16 + b3 * 2 ^ 24).
Proof.
  intros Hok. inversion_clear Hok as [|?? H0 Hok1]. inversion_clear Hok1 as [|?? H1 Hok2].
  inversion_clear Hok2 as [|?? H2 Hok3].
  assert (forall k, 0 <= k -> rd8 (pre ++ b0 :: b1 :: b2 :: b3 :: post) (zlen pre + k) =
    rd8 (b0 :: b1 :: b2 :: b3 :: post) k) as E by (intros; by apply rd8_app_r).
  pose proof (E 1) as E1. pose proof (E 2) as E2. pose proof (E 3) as E3.
  change (rd8 (b0 :: b1 :: b2 :: b3 :: post) 1) with (Some b1) in E1.
  change (rd8 (b0 :: b1 :: b2 :: b3 :: post) 2) with (Some b2) in E2.
  change (rd8 (b0 :: b1 :: b2 :: b3 :: post) 3) with (Some b3) in E3.
  unfold rd_le32, rd_le16. rewrite rd8_here. cbn [mbind option_bind].
  rewrite E1 by lia. cbn [mbind option_bind]. rewrite E2 by lia. cbn [mbind option_bind].
  rewrite <- Z.add_assoc. change (2 + 1) with 3. rewrite E3 by lia. cbn [mbind option_bind]. f_equal.
  rewrite (le16_sum b0), (le16_sum b2) by done. rewrite lor_shiftl_add; [ring|lia|].
  unfold is_uint in *. lia.
Qed.

Lemma four_split (data : list Z) n :
  length data = (4 * S n)%nat ->
  exists b0 b1 b2 b3 data', data = b0 :: b1 :: b2 :: b3 :: data' /\ length data' = (4 * n)%nat.
Proof.
  intros H. destruct data as [|b0 [|b1 [|b2 [|b3 data]]]]; simpl in H; try lia.
  exists b0, b1, b2, b3, data. split; [done|lia].
Qed.

Lemma michael_blocks_words n mctx pre data rest k :
  bytes_ok data -> zlen pre = 4 * k -> length data = (4 * n)%nat ->
  michael_blocks mctx (pre ++ data ++ rest) k n =
    Some (fold_left michael_block (le_words data) mctx).
Proof.
  revert mctx pre data k. induction n as [|n IH]; intros mctx pre data k Hok Hp Hd.
  { destruct data; [done|simpl in Hd; lia]. }
  apply four_split in Hd as (b0 & b1 & b2 & b3 & data' & -> & Hd).
  cbn [michael_blocks app]. replace (k * 4) with (zlen pre) by lia.
  assert (bytes_ok [b0; b1; b2; b3] /\ bytes_ok data') as [H4 Hok'].
  { apply Forall_app. exact Hok. }
  rewrite rd_le32_four by done. cbn [mbind option_bind le_words fold_left].
  rewrite <- (IH _ (pre ++ [b0; b1; b2; b3]) data' (k + 1)) by (done || (zlens; lia)).
  by rewrite <- app_assoc.
Qed.

(** Words of a concatenation at a word boundary. *)
Lemma le_words_app n a b :
  length a = (4 * n)%nat -> le_words (a ++ b) = le_words a ++ le_words b.
Proof.
  revert a. induction n as [|n IH]; intros a Ha; [destruct a; [done|simpl in Ha; lia]|].
  apply four_split in Ha as (b0 & b1 & b2 & b3 & a' & -> & Ha). simpl. by rewrite IH.
Qed.

Ltac list_eq := repeat (apply (f_equal2 cons); [lia|]); reflexivity.

(** Gathering up to three bytes above the 0x5a marker. *)
Lemma michael_tail_word pre tl :
  bytes_ok tl -> (length tl < 4)%nat ->
  exists v, michael_tail (pre ++ tl) (zlen pre) (length tl) 0x5a = Some v /\ is_uint 32 v /\
    le_words (tl ++ [0x5a] ++ replicate (7 - length tl)%nat 0) = [v; 0].
Proof.
  intros Hok Hl.
  assert (forall k a, tl !! k = Some a -> rd8 (pre ++ tl) (zlen pre + Z.of_nat k) = Some a) as Hrd.
  { intros k a Ha. rewrite rd8_app_r, rd8_lookup, Nat2Z.id by lia. done. }
  assert (forall x b, is_uint 24 x -> is_uint 8 b ->
    u32 (x << 8) .| b = b + x * 2 ^ 8 /\ is_uint 32 (b + x * 2 ^ 8)) as Hstep.
  { intros x b Hx Hb. rewrite wrap_small by (by apply (shiftl_is_uint 24 8)).
    rewrite Z.lor_comm. rewrite lor_shiftl_add by (done || lia).
    split; [done|]. unfold is_uint in *. lia. }
  destruct tl as [|a [|b [|c [|]]]]; simpl in Hl; try lia; clear Hl;
    repeat match goal with H : bytes_ok (_ :: _) |- _ => inversion_clear H end;
    cbn [michael_tail length].
  - eexists. split; [reflexivity|]. split; [done|]. reflexivity.
  - rewrite (Hrd 0%nat a) by done. cbn [mbind option_bind].
    destruct (Hstep 90 a) as [-> Hu]; [done..|]. eexists. split; [reflexivity|].
    split; [done|]. cbn [app replicate le_words Nat.sub]. list_eq.
  - rewrite (Hrd 1%nat b) by done. cbn [mbind option_bind]. rewrite (Hrd 0%nat a) by done.
    cbn [mbind option_bind]. destruct (Hstep 90 b) as [-> Hu]; [done..|].
    destruct (Hstep (b + 90 * 2 ^ 8) a) as [-> Hu2]; [unfold is_uint in *; lia|done|].
    eexists. split; [reflexivity|]. split; [done|]. cbn [app replicate le_words Nat.sub]. list_eq.
  - rewrite (Hrd 2%nat c) by done. cbn [mbind option_bind]. rewrite (Hrd 1%nat b) by done.
    cbn [mbind option_bind]. rewrite (Hrd 0%nat a) by done. cbn [mbind option_bind].
    destruct (Hstep 90 c) as [-> Hu]; [done..|].
    destruct (Hstep (c + 90 * 2 ^ 8) b) as [-> Hu2]; [unfold is_uint in *; lia|done|].
    destruct (Hstep (b + (c + 90 * 2 ^ 8) * 2 ^ 8) a) as [-> Hu3];
      [unfold is_uint in *; lia|done|].
    eexists. split; [reflexivity|]. split; [done|]. cbn [app replicate le_words Nat.sub]. list_eq.
Qed.

Lemma quads_of_len (data : list Z) : exists n : nat,
  Z.to_nat (zlen data / 4) = n /\ zlen data / 4 * 4 = Z.of_nat (4 * n) /\
  Z.to_nat (zlen data mod 4) = (length data - 4 * n)%nat /\
  (4 * n <= length data < 4 * n + 4)%nat /\ (length data `mod` 4 = length data - 4 * n)%nat.
Proof.
  exists (length data / 4)%nat. unfold zlen.
  pose proof (Nat2Z.inj_div (length data) 4) as Hd.
  pose proof (Nat2Z.inj_mod (length data) 4) as Hm.
  pose proof (Nat.div_mod_eq (length data) 4).
  pose proof (Nat.mod_upper_bound (length data) 4).
  change (Z.of_nat 4) with 4 in *. rewrite <- Hd, <- Hm. lia.
Qed.

(** The code's block loop, tail loop and two closing blocks hash the padded
    message. *)
Lemma michael_blocks_tail mctx data :
  bytes_ok data ->
  (c ← michael_blocks mctx data 0 (Z.to_nat (zlen data / 4));
   v ← michael_tail data (zlen data / 4 * 4) (Z.to_nat (zlen data mod 4)) 0x5a;
   Some (michael_block (michael_block c v) 0)) = Some (michael_spec mctx data).
Proof.
  intros Hok. destruct (quads_of_len data) as (n & -> & -> & -> & Hn & Hm).
  rewrite <- (take_drop (4 * n) data) in Hok. apply Forall_app in Hok as [Hok1 Hok2].
  assert (length (take (4 * n) data) = 4 * n)%nat as Ht by (rewrite length_take; lia).
  pose proof (michael_blocks_words n mctx [] (take (4 * n) data) (drop (4 * n) data) 0
    Hok1 eq_refl Ht) as Hb.
  cbn [app] in Hb. rewrite take_drop in Hb. rewrite Hb. cbn [mbind option_bind].
  destruct (michael_tail_word (take (4 * n) data) (drop (4 * n) data)) as (v & Hv & _ & Hw);
    [done|rewrite length_drop; lia|].
  rewrite take_drop in Hv. unfold zlen in Hv. rewrite Ht, length_drop in Hv. rewrite Hv.
  cbn [mbind option_bind]. f_equal. unfold michael_spec, michael_pad.
  rewrite length_drop in Hw.
  rewrite Hm.
  transitivity (fold_left michael_block (le_words ((take (4 * n) data ++ drop (4 * n) data) ++
    [0x5a] ++ replicate (7 - (length data - 4 * n)) 0)) mctx); [|by rewrite take_drop].
  by rewrite <- app_assoc, (le_words_app n), Hw, fold_left_app by done.
Qed.

(** The 8 bytes stored for a state. *)
Definition michael_digest (c : michael_mic_ctx) : list Z := le32_bytes (l c) ++ le32_bytes (r c).

Lemma michael_mic_eq key hdr data :
  bytes_ok data ->
  michael_mic key hdr data (zlen data) =
    (c ← michael_mic_hdr key hdr; Some (michael_digest (michael_spec c data))).
Proof.
  intros Hok. unfold michael_mic. destruct (michael_mic_hdr key hdr) as [c|]; [|done].
  cbn [mbind option_bind]. pose proof (michael_blocks_tail c data Hok) as Hb.
  destruct (michael_blocks _ _ _ _) as [c'|]; [|discriminate Hb]. cbn [mbind option_bind] in *.
  destruct (michael_tail _ _ _ _) as [v|]; [|discriminate Hb]. cbn [mbind option_bind] in *.
  injection Hb as Hb. by rewrite <- Hb.
Qed.

(** The header part only reads the header, and not the bits of the frame
    control that protection changes. *)
Definition same_header (f g : list Z) (fc : Z) : Prop :=
  hdr_frame_control f = Some fc /\
  (hdr_frame_control g = Some fc \/ hdr_frame_control g = Some (fc .| IEEE80211_FCTL_PROTECTED)) /\
  (forall k, 2 <= k < ieee80211_hdrlen fc -> rd8 f k = rd8 g k).

Lemma michael_mic_hdr_same key f g fc :
  ieee80211_is_data fc = true -> same_header f g fc ->
  michael_mic_hdr key f = michael_mic_hdr key g.
Proof.
  intros Hd (Hf & Hg & Hk).
  destruct (data_accessors_in_header f fc Hf Hd) as (sa & da & qc & Hsa & Hda & Hqc & B1 & B2 & B3).
  assert (ieee80211_get_SA g = Some sa /\ ieee80211_get_DA g = Some da /\
    ieee80211_get_qos_ctl g = Some qc /\
    exists fc', hdr_frame_control g = Some fc' /\
      ieee80211_is_data_qos fc' = ieee80211_is_data_qos fc) as (Gsa & Gda & Gqc & fc' & Gf & Gq).
  { unfold ieee80211_get_SA, ieee80211_get_DA, ieee80211_get_qos_ctl in *. rewrite Hf in *.
    destruct Hg as [-> | ->]; cbn [mbind option_bind] in *; [eauto 10|].
    assert (forall m, IEEE80211_FCTL_PROTECTED .& m = 0 ->
      (fc .| IEEE80211_FCTL_PROTECTED) .& m = fc .& m) as Hm by (intros; by apply land_lor_away).
    unfold ieee80211_has_a4, ieee80211_has_tods, ieee80211_has_fromds in *.
    rewrite !Hm by done. split_and!; [done..|].
    eexists. split; [done|]. unfold ieee80211_is_data_qos. by rewrite !Hm by done. }
  assert (2 <= sa /\ 2 <= da /\ 24 <= qc) as (Lsa & Lda & Lqc).
  { unfold ieee80211_get_SA, ieee80211_get_DA, ieee80211_get_qos_ctl in *. rewrite Hf in *.
    cbn [mbind option_bind] in *. simplify_eq.
    unfold ADDR1, ADDR2, ADDR3, ADDR4. repeat case_match; lia. }
  unfold ETH_ALEN, IEEE80211_QOS_CTL_LEN in *.
  unfold michael_mic_hdr, ieee80211_get_tid, rd_le32, rd_le16.
  rewrite Hsa, Hda, Hf, Hqc, Gsa, Gda, Gf, Gqc. cbn [mbind option_bind]. rewrite Gq.
  rewrite !(Hk da), !(Hk (da + 1)), !(Hk (da + 2)), !(Hk (da + 2 + 1)), !(Hk (da + 4)),
    !(Hk (da + 4 + 1)), !(Hk sa), !(Hk (sa + 1)), !(Hk (sa + 2)), !(Hk (sa + 2 + 1)),
    !(Hk (sa + 2 + 2)), !(Hk (sa + 2 + 2 + 1)) by lia.
  destruct (ieee80211_is_data_qos fc) eqn:Eq; [|done].
  specialize (B3 eq_refl). by rewrite (Hk qc) by lia.
Qed.

(** With its header in the buffer and a whole key, the state exists. *)
Lemma michael_mic_hdr_total key f fc :
  hdr_frame_control f = Some fc -> ieee80211_is_data fc = true ->
  ieee80211_hdrlen fc <= zlen f -> zlen key = 8 ->
  exists c, michael_mic_hdr key f = Some c.
Proof.
  intros Hf Hd Hl Hk.
  destruct (data_accessors_in_header f fc Hf Hd) as (sa & da & qc & Hsa & Hda & Hqc & B1 & B2 & B3).
  assert (2 <= sa /\ 2 <= da /\ 24 <= qc) as (Lsa & Lda & Lqc).
  { unfold ieee80211_get_SA, ieee80211_get_DA, ieee80211_get_qos_ctl in *. rewrite Hf in *.
    cbn [mbind option_bind] in *. simplify_eq.
    unfold ADDR1, ADDR2, ADDR3, ADDR4. repeat case_match; lia. }
  unfold ETH_ALEN, IEEE80211_QOS_CTL_LEN in *. unfold michael_mic_hdr, ieee80211_get_tid.
  rewrite Hsa, Hda, Hf, Hqc. cbn [mbind option_bind].
  assert (exists t, (if ieee80211_is_data_qos fc
    then rd8 f qc ≫= (fun b => Some (b .& IEEE80211_QOS_CTL_TID_MASK)) else Some 0) = Some t) as [t ->].
  { destruct (ieee80211_is_data_qos fc); [|eauto]. specialize (B3 eq_refl).
    destruct (rd8_Some f qc) as [b ->]; [lia|]. cbn [mbind option_bind]. eauto. }
  destruct (rd_le32_Some key 0) as [? ->]; [lia..|]. destruct (rd_le32_Some key 4) as [? ->]; [lia..|].
  destruct (rd_le32_Some f da) as [? ->]; [lia..|]. destruct (rd_le16_Some f (da + 4)) as [? ->]; [lia..|].
  destruct (rd_le16_Some f sa) as [? ->]; [lia..|]. destruct (rd_le32_Some f (sa + 2)) as [? ->]; [lia..|].
  cbn [mbind option_bind]. eauto.
Qed.

(** ** Test vectors of the standard (IEEE 802.11, Michael, without header) *)

Example michael_vector_empty :
  michael_digest (michael_spec (mk_ctx 0 0) []) = [0x82; 0x92; 0x5c; 0x1c; 0xa1; 0xd1; 0x30; 0xb8].
Proof. vm_compute. reflexivity. Qed.

Example michael_vector_M :
  michael_digest (michael_spec (mk_ctx 0x1c5c9282 0xb830d1a1) [0x4d]) =
    [0x43; 0x47; 0x21; 0xca; 0x40; 0x63; 0x9b; 0x3f].
Proof. vm_compute. reflexivity. Qed.

(** ** Properties *)

(** C33: The code's word loop and hand-assembled last word compute Michael:
    for every payload, of every length, the MIC is the digest of hashing the
    payload with its 0x5a and zero padding appended, from the state the key,
    addresses and priority give. *)
Theorem michael_mic_correct key hdr data :
  bytes_ok data ->
  michael_mic key hdr data (zlen data) =
    (c ← michael_mic_hdr key hdr; Some (michael_digest (michael_spec c data))).
Proof. apply michael_mic_eq. Qed.

Lemma michael_mic_correct_witness :
  michael_mic (replicate 8 3) ([0x08; 0x01] ++ replicate 22 5) [1; 2; 3; 4; 5; 6; 7] 7 =
    (c ← michael_mic_hdr (replicate 8 3) ([0x08; 0x01] ++ replicate 22 5);
     Some (michael_digest (michael_spec c [1; 2; 3; 4; 5; 6; 7]))).
Proof. apply (michael_mic_correct _ _ [1; 2; 3; 4; 5; 6; 7]). by repeat constructor. Defined.

(** Each Michael block is a permutation of the 64-bit state for every
    message word; [michael_unblock] is its inverse. *)
Theorem michael_block_bijective c v :
  ctx_ok c -> is_uint 32 v ->
  ctx_ok (michael_block c v) /\
  michael_unblock (michael_block c v) v = c /\ michael_block (michael_unblock c v) v = c.
Proof.
  intros Hc Hv. split_and!;
    [by apply michael_block_ok|by apply michael_unblock_block|by apply michael_block_unblock].
Qed.

Lemma michael_block_bijective_witness :
  ctx_ok (michael_block (mk_ctx 1 0xffffffff) 0x5a) /\
  michael_unblock (michael_block (mk_ctx 1 0xffffffff) 0x5a) 0x5a = mk_ctx 1 0xffffffff /\
  michael_block (michael_unblock (mk_ctx 1 0xffffffff) 0x5a) 0x5a = mk_ctx 1 0xffffffff.
Proof. apply (michael_block_bijective (mk_ctx 1 0xffffffff) 0x5a); by vm_compute. Defined.
