(* ===== verification/Skb.v ===== *)
(** * Skb: the linear socket buffer and the crypto primitives

    The kernel's socket-buffer primitives and the ciphers are not part of the
    repository.  A linear [sk_buff] is the memory the repository's code sees
    through its pointers: the bytes of the headroom, of the data and of the
    tailroom.  [skb_push], [skb_pull], [skb_put] and [skb_trim] move the
    boundaries; a move past the end of the buffer panics in the kernel and is
    a fault ([None]) here.  Allocation ([pskb_expand_head]), RC4 and CRC-32
    are interfaces: operations with the documented laws that clients rely
    on. *)
From S2P Require Import Prelude.

Record sk_buff := mk_skb {
  head : list Z;      (* headroom bytes, lowest address first *)
  data : list Z;
  tail : list Z;      (* tailroom bytes *)
  cloned : bool;
}.

Definition set_data (s : sk_buff) (d : list Z) : sk_buff := mk_skb (head s) d (tail s) (cloned s).

Definition skb_len (s : sk_buff) : Z := zlen (data s).
Definition skb_headroom (s : sk_buff) : Z := zlen (head s).
Definition skb_tailroom (s : sk_buff) : Z := zlen (tail s).

(** Memory ranges of a buffer: the [n] bytes at [off]; storing bytes at
    [off]; [memmove].  All fault out of range. *)
Definition in_range (buf : list Z) (off n : Z) : bool :=
  (0 <=? off) && (0 <=? n) && (off + n <=? zlen buf).

Definition slice (buf : list Z) (off n : Z) : option (list Z) :=
  if in_range buf off n then Some (take (Z.to_nat n) (drop (Z.to_nat off) buf)) else None.

Definition store (buf : list Z) (off : Z) (bs : list Z) : option (list Z) :=
  if in_range buf off (zlen bs) then
    Some (take (Z.to_nat off) buf ++ bs ++ drop (Z.to_nat off + length bs) buf)
  else None.

Definition memmove (buf : list Z) (dst src n : Z) : option (list Z) :=
  bs ← slice buf src n; store buf dst bs.

Definition skb_push (s : sk_buff) (n : Z) : option sk_buff :=
  if (0 <=? n) && (n <=? skb_headroom s) then
    let k := (length (head s) - Z.to_nat n)%nat in
    Some (mk_skb (take k (head s)) (drop k (head s) ++ data s) (tail s) (cloned s))
  else None.

Definition skb_pull (s : sk_buff) (n : Z) : option sk_buff :=
  if (0 <=? n) && (n <=? skb_len s) then
    Some (mk_skb (head s ++ take (Z.to_nat n) (data s)) (drop (Z.to_nat n) (data s))
            (tail s) (cloned s))
  else None.

Definition skb_put (s : sk_buff) (n : Z) : option sk_buff :=
  if (0 <=? n) && (n <=? skb_tailroom s) then
    Some (mk_skb (head s) (data s ++ take (Z.to_nat n) (tail s))
            (drop (Z.to_nat n) (tail s)) (cloned s))
  else None.

(** [skb_trim] does nothing when the data is already that short; its length
    is an [unsigned int]. *)
Definition skb_trim (s : sk_buff) (len : Z) : sk_buff :=
  let len := u32 len in
  if len <? skb_len s then
    mk_skb (head s) (take (Z.to_nat len) (data s)) (drop (Z.to_nat len) (data s) ++ tail s)
      (cloned s)
  else s.

(** [skb_put_data(skb, data, len)]. *)
Definition skb_put_data (s : sk_buff) (d : list Z) : option sk_buff :=
  s' ← skb_put s (zlen d);
  d' ← store (data s') (skb_len s) d;
  Some (set_data s' d').

(** ** Interfaces *)

(** [pskb_expand_head(skb, 0, ntail, GFP_ATOMIC)]: [None] is an allocation
    failure; a success unclones the buffer and adds tailroom. *)
Class SkbAlloc := pskb_expand_head : sk_buff -> Z -> option sk_buff.

Class SkbAllocLaws `{SkbAlloc} := {
  expand_head s n s' : pskb_expand_head s n = Some s' -> head s' = head s;
  expand_data s n s' : pskb_expand_head s n = Some s' -> data s' = data s;
  expand_tail s n s' : pskb_expand_head s n = Some s' -> skb_tailroom s + n <= skb_tailroom s';
  expand_cloned s n s' : pskb_expand_head s n = Some s' -> cloned s' = false;
}.

(** RC4 xors the text with a key stream fixed by the key. *)
Class Arc4 := arc4_keystream : list Z -> nat -> list Z.

Class Arc4Laws `{Arc4} := {
  keystream_length key n : length (arc4_keystream key n) = n;
  keystream_bytes key n : bytes_ok (arc4_keystream key n);
}.

Definition xor_bytes (a b : list Z) : list Z := zip_with Z.lxor a b.

(** [arc4_setkey] then [arc4_crypt] in place on the first [n] bytes. *)
Definition arc4_crypt `{Arc4} (key buf : list Z) (n : Z) : option (list Z) :=
  bs ← slice buf 0 n;
  store buf 0 (xor_bytes bs (arc4_keystream key (Z.to_nat n))).

(** CRC-32 with a running seed. *)
Class Crc32 := crc32_le : Z -> list Z -> Z.

(** ** ieee80211_crypto_tx_tailroom *)

(** The result is the C return value ([0] or negative) and the buffer. *)

Definition ieee80211_crypto_tx_tailroom `{SkbAlloc} (skb : sk_buff) (tail : Z) : Z * sk_buff :=
  let tail_need := tail - skb_tailroom skb in
  if (tail =? 0) || ((tail_need <=? 0) && negb (cloned skb)) then (0, skb)
  else match pskb_expand_head skb (Z.max tail_need 0) with
       | Some skb => (0, skb)
       | None => (- ENOMEM, skb)
       end.

(** ** Lemmas *)

Lemma slice_app pre mid post n :
  zlen mid = n -> slice (pre ++ mid ++ post) (zlen pre) n = Some mid.
Proof.
  intros <-. unfold slice, in_range, zlen. rewrite !length_app.
  repeat (zcase; try lia); cbn [andb].
  rewrite !Nat2Z.id, drop_app_length, take_app_length. done.
Qed.

Lemma slice_prefix mid post n : zlen mid = n -> slice (mid ++ post) 0 n = Some mid.
Proof. apply (slice_app []). Qed.

Lemma slice_all mid n : zlen mid = n -> slice mid 0 n = Some mid.
Proof. intros. rewrite <- (app_nil_r mid) at 1. by apply slice_prefix. Qed.

Lemma store_app pre old bs post :
  length bs = length old -> store (pre ++ old ++ post) (zlen pre) bs = Some (pre ++ bs ++ post).
Proof.
  intros E. unfold store, in_range, zlen. rewrite !length_app.
  repeat (zcase; try lia); cbn [andb]. rewrite !Nat2Z.id, take_app_length, E.
  do 3 f_equal. rewrite <- drop_drop, drop_app_length, drop_app_length. done.
Qed.

Lemma store_prefix old bs post :
  length bs = length old -> store (old ++ post) 0 bs = Some (bs ++ post).
Proof. apply (store_app []). Qed.

Lemma slice_Some buf off n bs :
  slice buf off n = Some bs ->
  exists pre post, buf = pre ++ bs ++ post /\ zlen pre = off /\ zlen bs = n.
Proof.
  unfold slice, in_range, zlen. repeat (zcase; try done); cbn [andb]. intros [= <-].
  exists (take (Z.to_nat off) buf), (drop (Z.to_nat n) (drop (Z.to_nat off) buf)).
  rewrite !take_drop, !length_take, length_drop. split; [done|]. lia.
Qed.

Lemma slice_bytes_ok buf off n bs : bytes_ok buf -> slice buf off n = Some bs -> bytes_ok bs.
Proof.
  intros Hok (pre & post & -> & _)%slice_Some. by apply Forall_app in Hok as [_ [? _]%Forall_app].
Qed.

(** Splitting a buffer at a known length. *)
Lemma split_at (buf : list Z) n :
  0 <= n <= zlen buf -> exists a b, buf = a ++ b /\ zlen a = n.
Proof.
  intros H. exists (take (Z.to_nat n) buf), (drop (Z.to_nat n) buf).
  rewrite take_drop. unfold zlen in *. rewrite length_take. split; [done|lia].
Qed.

Lemma xor_bytes_involutive a k :
  length k = length a -> xor_bytes (xor_bytes a k) k = a.
Proof.
  revert k. induction a as [|x a IH]; intros [|y k] E; simplify_eq/=; [done|].
  unfold xor_bytes in *. cbn. rewrite IH by done.
  by rewrite Z.lxor_assoc, Z.lxor_nilpotent, Z.lxor_0_r.
Qed.

Lemma xor_bytes_length a k : length k = length a -> length (xor_bytes a k) = length a.
Proof. intros E. unfold xor_bytes. rewrite length_zip_with. lia. Qed.

Lemma xor_bytes_ok a k : bytes_ok a -> bytes_ok k -> bytes_ok (xor_bytes a k).
Proof.
  intros Ha. revert k. induction Ha; intros [|y k] Hk; inversion_clear Hk; constructor.
  - apply lxor_is_uint; [lia|done..].
  - by apply IHHa.
Qed.

(** Encrypting the whole buffer. *)
Lemma arc4_crypt_all `{Arc4Laws} key buf n :
  zlen buf = n ->
  arc4_crypt key buf n = Some (xor_bytes buf (arc4_keystream key (length buf))).
Proof.
  intros <-. unfold arc4_crypt. rewrite slice_all by done. cbn [mbind option_bind].
  unfold zlen. rewrite Nat2Z.id. rewrite <- (app_nil_r buf) at 1.
  rewrite store_prefix; [by rewrite app_nil_r|].
  apply xor_bytes_length, keystream_length.
Qed.

Lemma arc4_crypt_length `{Arc4Laws} key buf n buf' :
  arc4_crypt key buf n = Some buf' -> length buf' = length buf.
Proof.
  unfold arc4_crypt. destruct (slice buf 0 n) as [bs|] eqn:E; [|done]. cbn [mbind option_bind].
  apply slice_Some in E as (pre & post & -> & Hp & Hb).
  destruct pre; [|unfold zlen in Hp; simpl in Hp; lia]. cbn [app].
  assert (length (arc4_keystream key (Z.to_nat n)) = length bs) as El.
  { rewrite keystream_length. unfold zlen in *. lia. }
  rewrite store_prefix by (by apply xor_bytes_length). intros [= <-].
  rewrite !length_app, xor_bytes_length by done. done.
Qed.

Lemma skb_push_app pre h s :
  head s = pre ++ h -> skb_push s (zlen h) = Some (mk_skb pre (h ++ data s) (tail s) (cloned s)).
Proof.
  intros E. unfold skb_push, skb_headroom. rewrite E. zlens. pose proof (zlen_nonneg pre).
  pose proof (zlen_nonneg h). repeat (zcase; try lia). cbn [andb].
  rewrite length_app. unfold zlen. rewrite Nat2Z.id.
  replace (length pre + length h - length h)%nat with (length pre) by lia.
  by rewrite take_app_length, drop_app_length.
Qed.

Lemma skb_pull_app s a b :
  data s = a ++ b -> skb_pull s (zlen a) = Some (mk_skb (head s ++ a) b (tail s) (cloned s)).
Proof.
  intros E. unfold skb_pull, skb_len. rewrite E. zlens.
  pose proof (zlen_nonneg a). pose proof (zlen_nonneg b). repeat (zcase; try lia). cbn [andb].
  unfold zlen. by rewrite Nat2Z.id, take_app_length, drop_app_length.
Qed.

Lemma skb_put_app s a b :
  tail s = a ++ b -> skb_put s (zlen a) = Some (mk_skb (head s) (data s ++ a) b (cloned s)).
Proof.
  intros E. unfold skb_put, skb_tailroom. rewrite E. zlens.
  pose proof (zlen_nonneg a). pose proof (zlen_nonneg b). repeat (zcase; try lia). cbn [andb].
  unfold zlen. by rewrite Nat2Z.id, take_app_length, drop_app_length.
Qed.

Lemma skb_trim_app s a b :
  data s = a ++ b -> zlen b > 0 -> zlen a < 2 ^ 32 ->
  skb_trim s (zlen a) = mk_skb (head s) a (b ++ tail s) (cloned s).
Proof.
  intros E Hb Ha. unfold skb_trim, skb_len. pose proof (zlen_nonneg a).
  rewrite wrap_small by (unfold is_uint; lia). rewrite E. zlens. zcase; [|lia].
  unfold zlen. by rewrite Nat2Z.id, take_app_length, drop_app_length.
Qed.

(** A successful tailroom request leaves the frame alone and makes the room. *)
Lemma crypto_tx_tailroom_ok `{SkbAllocLaws} s n s' :
  0 <= n -> ieee80211_crypto_tx_tailroom s n = (0, s') ->
  head s' = head s /\ data s' = data s /\ n <= skb_tailroom s'.
Proof.
  intros Hn. unfold ieee80211_crypto_tx_tailroom.
  destruct (Z.eqb_spec n 0) as [->|]; cbn [orb].
  { intros [= <-]. pose proof (zlen_nonneg (tail s)). done. }
  destruct (Z.leb_spec (n - skb_tailroom s) 0), (negb (cloned s)) eqn:Ec; cbn [andb];
    try (intros [= <-]; split_and!; [done..|lia]).
  all: destruct (pskb_expand_head s _) as [t|] eqn:E; [|done]; intros [= <-].
  all: split_and!; [by eapply expand_head|by eapply expand_data|].
  all: apply expand_tail in E; lia.
Qed.

(** ** A concrete environment

    One implementation of the interfaces that satisfies their laws: the laws
    are consistent, and theorems proved against them can be evaluated. *)
Module Sample.

Definition arc4 : Arc4 := fun key n => replicate n (u8 (foldr Z.add 0x5a key)).
Definition crc32 : Crc32 := fun seed bs => foldl (fun a b => u32 (rol32 a 5 .^ b)) seed bs.
Definition alloc : SkbAlloc := fun s n =>
  Some (mk_skb (head s) (data s) (tail s ++ replicate (Z.to_nat n) 0) false).

Lemma arc4_laws : @Arc4Laws arc4.
Proof.
  split; intros key n; [apply length_replicate|]. apply Forall_replicate, wrap_is_uint. lia.
Qed.

Lemma alloc_laws : @SkbAllocLaws alloc.
Proof.
  split; intros s n s' [= <-]; [done..| |done].
  unfold skb_tailroom, zlen. cbn [tail]. rewrite length_app, length_replicate. lia.
Qed.

End Sample.

(** A successful request also leaves the buffer writable. *)
Lemma crypto_tx_tailroom_unclones `{SkbAllocLaws} s n s' :
  0 < n -> ieee80211_crypto_tx_tailroom s n = (0, s') -> cloned s' = false.
Proof.
  intros Hn. unfold ieee80211_crypto_tx_tailroom. destruct (Z.eqb_spec n 0); [lia|]. cbn [orb].
  destruct (_ && _) eqn:E.
  - intros [= <-]. apply andb_true_iff in E as [_ E]. by apply negb_true_iff in E.
  - destruct (pskb_expand_head _ _) as [t|] eqn:Et; [|done]. intros [= <-].
    by eapply expand_cloned.
Qed.

(** A request that is already satisfied. *)
Lemma crypto_tx_tailroom_have `{SkbAlloc} s n :
  n <= skb_tailroom s -> cloned s = false -> ieee80211_crypto_tx_tailroom s n = (0, s).
Proof.
  intros Hn Hc. unfold ieee80211_crypto_tx_tailroom. rewrite Hc.
  destruct (Z.leb_spec (n - skb_tailroom s) 0); [|lia]. by rewrite orb_true_r.
Qed.

Lemma skb_put_at s a b n :
  tail s = a ++ b -> zlen a = n ->
  skb_put s n = Some (mk_skb (head s) (data s ++ a) b (cloned s)).
Proof. intros E <-. by apply skb_put_app. Qed.

Lemma skb_trim_at s a b n :
  data s = a ++ b -> zlen a = n -> zlen b > 0 -> n < 2 ^ 32 ->
  skb_trim s n = mk_skb (head s) a (b ++ tail s) (cloned s).
Proof. intros E <-. by apply skb_trim_app. Qed.

Lemma slice_suffix pre mid n : zlen mid = n -> slice (pre ++ mid) (zlen pre) n = Some mid.
Proof. intros E. rewrite <- (app_nil_r mid) at 1. by apply slice_app. Qed.

Lemma store_suffix pre old bs :
  length bs = length old -> store (pre ++ old) (zlen pre) bs = Some (pre ++ bs).
Proof.
  intros E. rewrite <- (app_nil_r old), store_app by done. by rewrite app_nil_r.
Qed.

Lemma skb_put_data_spec s d :
  zlen d <= skb_tailroom s ->
  exists s', skb_put_data s d = Some s' /\ data s' = data s ++ d /\ skb_tailroom s' = skb_tailroom s - zlen d.
Proof.
  intros Hd. destruct (split_at (tail s) (zlen d)) as (a & b & E & Ha).
  { pose proof (zlen_nonneg d). unfold skb_tailroom in Hd. lia. }
  unfold skb_put_data. rewrite (skb_put_at s a b) by done. rewrite bind_some. cbn [data].
  unfold skb_len. rewrite store_suffix by (unfold zlen in *; lia). rewrite bind_some.
  eexists. split; [done|]. split; [done|]. unfold skb_tailroom. cbn [tail set_data]. rewrite E. zlens. lia.
Qed.

(** A store splits the buffer at its range. *)
Lemma store_Some buf off bs buf' :
  store buf off bs = Some buf' ->
  exists pre old post, buf = pre ++ old ++ post /\ buf' = pre ++ bs ++ post /\
    zlen pre = off /\ length old = length bs.
Proof.
  unfold store. destruct (in_range buf off (zlen bs)) eqn:E; [|done]. intros [= <-].
  unfold in_range in E. apply andb_prop in E as [[?%Z.leb_le ?%Z.leb_le]%andb_prop ?%Z.leb_le].
  exists (take (Z.to_nat off) buf), (take (length bs) (drop (Z.to_nat off) buf)),
    (drop (Z.to_nat off + length bs) buf).
  unfold zlen in *. rewrite <- drop_drop, !take_drop, !length_take, length_drop.
  split_and!; [done..|lia|lia].
Qed.

Lemma store_is_Some buf off bs :
  0 <= off -> off + zlen bs <= zlen buf -> exists buf', store buf off bs = Some buf'.
Proof.
  intros. unfold store, in_range. pose proof (zlen_nonneg bs).
  repeat (zcase; try lia). cbn [andb]. eauto.
Qed.

Lemma store_zlen buf off bs buf' : store buf off bs = Some buf' -> zlen buf' = zlen buf.
Proof. intros (pre & old & post & -> & -> & _ & E)%store_Some. zlens. unfold zlen in *. lia. Qed.

Lemma store_bytes_ok buf off bs buf' :
  bytes_ok buf -> bytes_ok bs -> store buf off bs = Some buf' -> bytes_ok buf'.
Proof.
  intros Hb Hs (pre & old & post & -> & -> & _)%store_Some. rewrite !Forall_app in *. tauto.
Qed.

Lemma rd8_store_disjoint buf off bs buf' i :
  store buf off bs = Some buf' -> i < off \/ off + zlen bs <= i -> rd8 buf' i = rd8 buf i.
Proof.
  intros (pre & old & post & -> & -> & Hp & E)%store_Some Hi.
  pose proof (zlen_nonneg pre). pose proof (zlen_nonneg bs).
  destruct Hi; [by rewrite !rd8_app_l by lia|].
  replace i with (zlen pre + (zlen bs + (i - off - zlen bs))) by lia.
  rewrite !rd8_app_r by lia. replace (zlen bs) with (zlen old) at 2 by (unfold zlen; lia).
  by rewrite rd8_app_r by lia.
Qed.

(** Buffers of one length that agree on a range have the same slice there. *)
Lemma slice_agree a b off n :
  zlen a = zlen b -> (forall i, off <= i < off + n -> rd8 a i = rd8 b i) -> slice a off n = slice b off n.
Proof.
  intros Hl Ha. unfold slice, in_range. rewrite Hl. destruct (_ && _) eqn:E; [|done].
  apply andb_prop in E as [[?%Z.leb_le ?%Z.leb_le]%andb_prop ?%Z.leb_le].
  f_equal. apply list_eq. intros k. destruct (decide (k < Z.to_nat n)%nat).
  - rewrite !lookup_take_lt, !lookup_drop by done.
    specialize (Ha (off + Z.of_nat k)). rewrite !rd8_lookup in Ha by lia.
    replace (Z.to_nat off + k)%nat with (Z.to_nat (off + Z.of_nat k)) by lia. apply Ha. lia.
  - rewrite !lookup_take_ge by lia. done.
Qed.

Lemma slice_store_disjoint buf off bs buf' o n :
  store buf off bs = Some buf' -> o + n <= off \/ off + zlen bs <= o -> slice buf' o n = slice buf o n.
Proof.
  intros Hs Hd. apply slice_agree; [by eapply store_zlen|]. intros i Hi.
  eapply rd8_store_disjoint; [done|lia].
Qed.

(** Two adjacent stores are one. *)
Lemma store_adjacent buf off a b buf' :
  store buf off a = Some buf' -> store buf' (off + zlen a) b = store buf off (a ++ b).
Proof.
  intros (pre & old & post & -> & -> & Hp & E)%store_Some. subst off.
  unfold store, in_range. zlens. assert (zlen old = zlen a) as -> by (unfold zlen; lia).
  pose proof (zlen_nonneg pre). pose proof (zlen_nonneg a). pose proof (zlen_nonneg b).
  repeat (zcase; try lia); cbn [andb]; [|done]. f_equal.
  unfold zlen. rewrite <- Nat2Z.inj_add, !Nat2Z.id, take_app_length.
  replace (take (length pre + length a) (pre ++ a ++ post)) with (pre ++ a)
    by (rewrite (app_assoc pre a post), <- length_app; by rewrite take_app_length).
  rewrite length_app, !Nat.add_assoc, <- !drop_drop, !drop_app_length, <- E, drop_app_length.
  by rewrite <- !app_assoc.
Qed.

Lemma store_app_r D L k bs :
  0 <= k -> store (D ++ L) (zlen D + k) bs = (fun L' => D ++ L') <$> store L k bs.
Proof.
  intros Hk. pose proof (zlen_nonneg D). unfold store, in_range. zlens.
  replace (zlen D + k + zlen bs <=? zlen D + zlen L) with (k + zlen bs <=? zlen L)
    by (repeat zcase; lia).
  replace (0 <=? zlen D + k) with (0 <=? k) by (repeat zcase; lia).
  destruct (_ && _ && _); [|done]. cbn [fmap option_fmap option_map]. f_equal.
  replace (Z.to_nat (zlen D + k)) with (length D + Z.to_nat k)%nat by (unfold zlen; lia).
  rewrite take_app_add, <- Nat.add_assoc, drop_app_add, <- app_assoc. done.
Qed.

Lemma store_at D L q k bs L' :
  q = zlen D + k -> 0 <= k -> store L k bs = Some L' -> store (D ++ L) q bs = Some (D ++ L').
Proof. intros -> Hk H. by rewrite store_app_r, H by done. Qed.

Lemma slice_is_Some buf off n :
  0 <= off -> 0 <= n -> off + n <= zlen buf -> exists bs, slice buf off n = Some bs /\ zlen bs = n.
Proof.
  intros. unfold slice, in_range. repeat (zcase; try lia). cbn [andb]. eexists. split; [done|].
  unfold zlen in *. rewrite length_take, length_drop. lia.
Qed.

Lemma skb_trim_data s a b n :
  data s = a ++ b -> zlen a = n -> n < 2 ^ 32 -> data (skb_trim s n) = a.
Proof.
  intros E Ha Hn. unfold skb_trim, skb_len. pose proof (zlen_nonneg a).
  rewrite wrap_small by (unfold is_uint; lia). rewrite E. zlens. zcase; cbn [data].
  - unfold zlen in *. rewrite ?E. assert (Z.to_nat n = length a) as -> by lia. by rewrite take_app_length.
  - destruct b; [by rewrite E, app_nil_r|]. zlens. pose proof (zlen_nonneg b). lia.
Qed.
