(* ===== verification/Amsdu.v ===== *)
(** * Amsdu: from 802.11 data frames to Ethernet frames

    The conversions of [net/wireless/util.c] on the receive path: one data
    frame to one Ethernet frame ([ieee80211_data_to_8023_exthdr]), an A-MSDU to
    the Ethernet frames of its subframes ([ieee80211_amsdu_to_8023s]), the
    removal of a mesh header ([ieee80211_strip_8023_mesh_hdr]), and the use of
    the first two by [__ieee80211_rx_h_amsdu] of [net/mac80211/rx.c].

    Received socket buffers are not linear: the octets of a frame are those of
    the linear part, then of the page fragments, then of the buffers on the
    fragment list. *)
From S2P Require Import Prelude Frame Skb.

Record rx_skb := mk_rx {
  lin : sk_buff;
  frags : list (list Z);       (* skb_shinfo(skb)->frags *)
  frag_list : list (list Z);   (* skb_shinfo(skb)->frag_list *)
  head_frag : bool;
  dev : Z;
  priority : Z;
}.

Definition set_lin (s : rx_skb) (l : sk_buff) : rx_skb :=
  mk_rx l (frags s) (frag_list s) (head_frag s) (dev s) (priority s).
Definition set_frags (s : rx_skb) (f : list (list Z)) : rx_skb :=
  mk_rx (lin s) f (frag_list s) (head_frag s) (dev s) (priority s).
Definition set_dev (s : rx_skb) (d : Z) : rx_skb :=
  mk_rx (lin s) (frags s) (frag_list s) (head_frag s) d (priority s).
Definition set_priority (s : rx_skb) (p : Z) : rx_skb :=
  mk_rx (lin s) (frags s) (frag_list s) (head_frag s) (dev s) p.

Definition paged (s : rx_skb) : list Z := concat (frags s) ++ concat (frag_list s).
Definition content (s : rx_skb) : list Z := data (lin s) ++ paged s.
Definition rx_len (s : rx_skb) : Z := zlen (content s).
Definition skb_is_nonlinear (s : rx_skb) : bool := nz (zlen (paged s)).
Definition skb_has_frag_list (s : rx_skb) : bool := negb (bool_decide (frag_list s = [])).

(** [skb_copy_bits]: [None] is the error [-EFAULT]. *)
Definition skb_copy_bits (s : rx_skb) (off n : Z) : option (list Z) := slice (content s) off n.

(** [skb_pull] does nothing when the frame is shorter; a pull beyond the linear
    part panics. *)
Definition rx_pull (s : rx_skb) (n : Z) : option rx_skb :=
  if rx_len s <? n then Some s else l ← skb_pull (lin s) n; Some (set_lin s l).

(** [skb_push], and the copy of [bs] to the place made. *)
Definition rx_push_data (s : rx_skb) (bs : list Z) : option rx_skb :=
  l ← skb_push (lin s) (zlen bs);
  d ← store (data l) 0 bs;
  Some (set_lin s (set_data l d)).

(** Buffer management of the kernel.  [dev_alloc_skb n] allocates an empty
    buffer ([None] when out of memory); [pskb_pull_tail s n] moves octets into
    the linear part until it has [n] ([None] when out of memory or when there
    are fewer); [shinfo] is [struct skb_shared_info], which follows the
    tailroom of every buffer; [max_skb_frags] is the size of its array. *)
Class RxMem := {
  dev_alloc_skb : Z -> option sk_buff;
  pskb_pull_tail : rx_skb -> Z -> option rx_skb;
  shinfo : list Z;
  max_skb_frags : Z;
}.

Class RxMemLaws `{RxMem} := {
  alloc_empty n s : dev_alloc_skb n = Some s -> data s = [];
  alloc_room n s : dev_alloc_skb n = Some s -> n <= skb_tailroom s;
  pull_tail_content s n s' : pskb_pull_tail s n = Some s' -> content s' = content s;
  pull_tail_linear s n s' : pskb_pull_tail s n = Some s' -> n <= skb_len (lin s');
  shinfo_size : 8 <= zlen shinfo;
}.

(** [skb_reserve] on an empty buffer. *)
Definition skb_reserve (s : sk_buff) (n : Z) : option sk_buff :=
  if in_range (tail s) 0 n then
    Some (mk_skb (head s ++ take (Z.to_nat n) (tail s)) (data s)
            (drop (Z.to_nat n) (tail s)) (cloned s))
  else None.

Definition pskb_may_pull `{RxMem} (s : rx_skb) (n : Z) : option rx_skb :=
  if n <=? skb_len (lin s) then Some s
  else if rx_len s <? n then None else pskb_pull_tail s n.

(** The result of [pskb_pull] is NULL, and the buffer unchanged, when it
    fails; the callers below ignore it. *)
Definition pskb_pull `{RxMem} (s : rx_skb) (n : Z) : option rx_skb :=
  match pskb_may_pull s n with
  | Some s => rx_pull s n
  | None => Some s
  end.

(** ** Constants and types *)

Definition sizeof_ethhdr : Z := 14.
Definition ETH_P_AARP : list Z := [0x80; 0xf3].
Definition ETH_P_IPX : list Z := [0x81; 0x37].

Definition rfc1042_header : list Z := [0xaa; 0xaa; 0x03; 0x00; 0x00; 0x00].
Definition bridge_tunnel_header : list Z := [0xaa; 0xaa; 0x03; 0x00; 0x00; 0xf8].

Definition MESH_FLAGS_AE_A4 : Z := 0x1.
Definition MESH_FLAGS_AE_A5_A6 : Z := 0x2.
Definition MESH_FLAGS_AE : Z := 0x3.

Inductive nl80211_iftype :=
  | NL80211_IFTYPE_UNSPECIFIED | NL80211_IFTYPE_ADHOC | NL80211_IFTYPE_STATION
  | NL80211_IFTYPE_AP | NL80211_IFTYPE_AP_VLAN | NL80211_IFTYPE_WDS
  | NL80211_IFTYPE_MONITOR | NL80211_IFTYPE_MESH_POINT | NL80211_IFTYPE_P2P_CLIENT
  | NL80211_IFTYPE_P2P_GO | NL80211_IFTYPE_P2P_DEVICE | NL80211_IFTYPE_OCB
  | NL80211_IFTYPE_NAN | NL80211_IFTYPE_NAN_DATA | NL80211_IFTYPE_PD.

#[global] Instance nl80211_iftype_eq_dec : EqDecision nl80211_iftype.
Proof. solve_decision. Defined.

(** [struct ethhdr]; the type field holds its two octets in network order. *)
Record ethhdr := mk_eth { h_dest : list Z; h_source : list Z; h_proto : list Z }.
Definition eth_bytes (e : ethhdr) : list Z := h_dest e ++ h_source e ++ h_proto e.
Definition set_proto (e : ethhdr) (p : list Z) : ethhdr := mk_eth (h_dest e) (h_source e) p.
Definition set_source (e : ethhdr) (a : list Z) : ethhdr := mk_eth (h_dest e) a (h_proto e).

Definition htons (v : Z) : list Z := [u8 (v >> 8); u8 v].
Definition ether_addr_equal (a b : list Z) : bool := bool_decide (a = b).

(** [is_multicast_ether_addr] on an address. *)
Definition mcast_addr (a : list Z) : option bool :=
  b ← rd8 a 0; Some (is_multicast_ether_addr b).

(** ** Mesh headers and encapsulation *)

Definition __ieee80211_get_mesh_hdrlen (flags : Z) : Z :=
  let ae := flags .& MESH_FLAGS_AE in
  if ae =? MESH_FLAGS_AE_A4 then 12
  else if ae =? MESH_FLAGS_AE_A5_A6 then 18
  else 6.

(** The octets at [hdr]; the result is the protocol, when the header is one of
    the two encapsulations. *)
Definition ieee80211_get_8023_tunnel_proto (hdr : list Z) : option (option (list Z)) :=
  a ← slice hdr 0 ETH_ALEN;
  if ether_addr_equal a rfc1042_header then
    p ← slice hdr ETH_ALEN 2;
    Some (if bool_decide (p <> ETH_P_AARP) && bool_decide (p <> ETH_P_IPX) then Some p
          else if ether_addr_equal a bridge_tunnel_header then Some p else None)
  else if ether_addr_equal a bridge_tunnel_header then
    p ← slice hdr ETH_ALEN 2; Some (Some p)
  else Some None.

(** [struct ethhdr] from its fourteen octets. *)
Definition get_ethhdr (b : list Z) : option ethhdr :=
  d ← slice b 0 ETH_ALEN;
  s ← slice b ETH_ALEN ETH_ALEN;
  p ← slice b (2 * ETH_ALEN) 2;
  Some (mk_eth d s p).

(** The conditions of [ieee80211_strip_8023_mesh_hdr]: the error, the buffer
    they leave, the header and its length. *)
Definition strip_find_header `{RxMem} (skb : rx_skb) (eth : ethhdr) (hdrlen : Z)
    : option (Z * rx_skb * ethhdr * Z) :=
  let otherwise skb :=
    match pskb_may_pull skb hdrlen with
    | None => Some (- EINVAL, skb, eth, hdrlen)
    | Some skb => Some (0, skb, set_proto eth (htons (rx_len skb - hdrlen)), hdrlen)
    end in
  match pskb_may_pull skb (hdrlen + 8) with
  | None => otherwise skb
  | Some skb =>
      llc ← slice (data (lin skb)) hdrlen 8;
      t ← ieee80211_get_8023_tunnel_proto llc;
      match t with
      | Some p => Some (0, skb, set_proto eth p, hdrlen + ETH_ALEN + 2)
      | None => otherwise skb
      end
  end.

Definition ieee80211_strip_8023_mesh_hdr `{RxMem} (skb : rx_skb) : option (Z * rx_skb) :=
  match skb_copy_bits skb 0 (sizeof_ethhdr + 1) with
  | None => Some (- EFAULT, skb)
  | Some payload =>
      eth ← get_ethhdr payload;
      flags ← rd8 payload sizeof_ethhdr;
      '(ret, skb, eth, hdrlen) ←
        strip_find_header skb eth (sizeof_ethhdr + __ieee80211_get_mesh_hdrlen flags);
      if nz ret then Some (ret, skb)
      else
        let mesh_addr := sizeof_ethhdr + ETH_ALEN in
        let ae := flags .& MESH_FLAGS_AE in
        eth ← (if ae =? MESH_FLAGS_AE_A4 then
                 a ← slice (data (lin skb)) mesh_addr ETH_ALEN; Some (set_source eth a)
               else if ae =? MESH_FLAGS_AE_A5_A6 then
                 a ← slice (data (lin skb)) mesh_addr ETH_ALEN;
                 b ← slice (data (lin skb)) (mesh_addr + ETH_ALEN) ETH_ALEN;
                 Some (mk_eth a b (h_proto eth))
               else Some eth);
        skb ← pskb_pull skb (hdrlen - sizeof_ethhdr);
        d ← store (data (lin skb)) 0 (eth_bytes eth);
        Some (0, set_lin skb (set_data (lin skb) d))
  end.

(** ** One data frame *)

(** Which interfaces accept a frame with these DS bits; [mcast] and [own] are
    the two conditions on the addresses. *)
Definition iftype_accepts (iftype : nl80211_iftype) (fc : Z) (own_mcast : bool) : bool :=
  let ds := fc .& (IEEE80211_FCTL_TODS .| IEEE80211_FCTL_FROMDS) in
  if ds =? IEEE80211_FCTL_TODS then
    match iftype with
    | NL80211_IFTYPE_AP | NL80211_IFTYPE_AP_VLAN | NL80211_IFTYPE_P2P_GO => true
    | _ => false
    end
  else if ds =? (IEEE80211_FCTL_TODS .| IEEE80211_FCTL_FROMDS) then
    match iftype with
    | NL80211_IFTYPE_MESH_POINT | NL80211_IFTYPE_AP_VLAN | NL80211_IFTYPE_STATION => true
    | _ => false
    end
  else if ds =? IEEE80211_FCTL_FROMDS then
    match iftype with
    | NL80211_IFTYPE_STATION | NL80211_IFTYPE_P2P_CLIENT | NL80211_IFTYPE_MESH_POINT =>
        negb own_mcast
    | _ => false
    end
  else
    match iftype with
    | NL80211_IFTYPE_ADHOC | NL80211_IFTYPE_STATION | NL80211_IFTYPE_OCB
    | NL80211_IFTYPE_NAN_DATA => true
    | _ => false
    end.

Definition is_mesh (iftype : nl80211_iftype) : bool :=
  bool_decide (iftype = NL80211_IFTYPE_MESH_POINT).

(** [ehdr] tells whether the caller passes a header to fill, which is then the
    third result; otherwise the header is pushed onto the buffer. *)
Definition ieee80211_data_to_8023_exthdr `{RxMem} (skb : rx_skb) (ehdr : bool)
    (addr : list Z) (iftype : nl80211_iftype) (data_offset : Z) (is_amsdu : bool)
    : option (Z * rx_skb * option ethhdr) :=
  let hdr := data (lin skb) in
  fc ← hdr_frame_control hdr;
  if negb (ieee80211_is_data_present fc) then Some (-1, skb, None)
  else
    let hdrlen := u16 (ieee80211_hdrlen fc + data_offset) in
    if rx_len skb <? hdrlen then Some (-1, skb, None)
    else
      da ← ieee80211_get_DA hdr; h_dest ← slice hdr da ETH_ALEN;
      sa ← ieee80211_get_SA hdr; h_source ← slice hdr sa ETH_ALEN;
      mcast ← mcast_addr h_dest;
      if negb (iftype_accepts iftype fc (mcast && ether_addr_equal h_source addr))
      then Some (-1, skb, None)
      else
        proto ← (if negb is_amsdu && negb (is_mesh iftype) then
                   match skb_copy_bits skb hdrlen 8 with
                   | Some payload => ieee80211_get_8023_tunnel_proto payload
                   | None => Some None
                   end
                 else Some None);
        let '(h_proto, hdrlen) :=
          match proto with
          | Some p => (p, u16 (hdrlen + ETH_ALEN + 2))
          | None => (htons (rx_len skb - hdrlen), hdrlen)
          end in
        let tmp := mk_eth h_dest h_source h_proto in
        skb ← pskb_pull skb hdrlen;
        if ehdr then Some (0, skb, Some tmp)
        else skb ← rx_push_data skb (eth_bytes tmp); Some (0, skb, None).

(** [ieee80211_data_to_8023] of [include/net/cfg80211.h]. *)
Definition ieee80211_data_to_8023 `{RxMem} (skb : rx_skb) (addr : list Z)
    (iftype : nl80211_iftype) : option (Z * rx_skb * option ethhdr) :=
  ieee80211_data_to_8023_exthdr skb false addr iftype 0 false.

(** ** Copying a subframe *)

(** [__frame_add_frag] with the octets the fragment refers to; the page stays
    shared with the received buffer, and nothing writes to it. *)
Definition __frame_add_frag `{RxMem} (frame : rx_skb) (bs : list Z) : option rx_skb :=
  if zlen (frags frame) <? max_skb_frags then Some (set_frags frame (frags frame ++ [bs]))
  else None.

(** The first loop of [__ieee80211_amsdu_copy_frag] finds the piece that holds
    the offset, the second adds whole pieces. *)
Fixpoint find_frag (cur : list Z) (frs : list (list Z)) (offset : Z)
    : option (list Z * Z * list (list Z)) :=
  if zlen cur <=? offset then
    match frs with
    | [] => None
    | f :: frs => find_frag f frs (offset - zlen cur)
    end
  else Some (cur, offset, frs).

Fixpoint add_frags `{RxMem} (frame : rx_skb) (frs : list (list Z)) (len : Z) : option rx_skb :=
  if 0 <? len then
    match frs with
    | [] => None
    | f :: frs =>
        let cur_len := Z.min len (zlen f) in
        frame ← __frame_add_frag frame (take (Z.to_nat cur_len) f);
        add_frags frame frs (len - cur_len)
    end
  else Some frame.

Definition __ieee80211_amsdu_copy_frag `{RxMem} (skb frame : rx_skb) (offset len : Z)
    : option rx_skb :=
  '(cur, offset, frs) ← find_frag (data (lin skb)) (frags skb) offset;
  let frag_len := zlen cur - offset in
  let cur_len := Z.min len frag_len in
  frame ← __frame_add_frag frame (take (Z.to_nat cur_len) (drop (Z.to_nat offset) cur));
  add_frags frame frs (len - cur_len).

(** The result is [Some None] when the C function returns NULL. *)
Definition __ieee80211_amsdu_copy `{RxMem} (skb : rx_skb) (hlen offset len : Z)
    (reuse_frag : bool) (min_len : Z) : option (option rx_skb) :=
  if u32 (rx_len skb - offset) <? u32 len then Some None
  else
    let cur_len := if reuse_frag then Z.min len min_len else len in
    match dev_alloc_skb (hlen + sizeof_ethhdr + 2 + cur_len) with
    | None => Some None
    | Some l =>
        l ← skb_reserve l (hlen + sizeof_ethhdr + 2);
        bits ← skb_copy_bits skb offset cur_len;
        l ← skb_put_data l bits;
        let frame := mk_rx l [] [] false 0 (priority skb) in
        let len := len - cur_len in
        if len =? 0 then Some (Some frame)
        else
          frame ← __ieee80211_amsdu_copy_frag skb frame (offset + cur_len) len;
          Some (Some frame)
    end.

(** ** Subframe headers *)

(** The length field, read in network order or, with a mesh header present,
    in the order the peer uses. *)
Definition ieee80211_amsdu_subframe_length (field : list Z) (mesh_flags hdr_type : Z)
    : option Z :=
  len ← (if 2 <=? hdr_type then rd_le16 field 0 else rd_be16 field 0);
  Some (if nz hdr_type then u16 (len + __ieee80211_get_mesh_hdrlen mesh_flags) else len).

Definition subframe_padding (subframe_len : Z) : Z := (4 - subframe_len) .& 0x3.

(** [ieee80211_is_valid_amsdu]: a round per subframe. *)
Fixpoint valid_amsdu_loop (fuel : nat) (skb : rx_skb) (mesh_hdr offset : Z) : option bool :=
  match fuel with
  | O => None
  | S fuel =>
      if offset <? rx_len skb then
        let remaining := rx_len skb - offset in
        if remaining <? 4 then Some false
        else
          match skb_copy_bits skb (offset + 2 * ETH_ALEN) 4 with
          | None => Some false
          | Some hdr =>
              mesh_flags ← rd8 hdr 2;
              len ← ieee80211_amsdu_subframe_length hdr mesh_flags mesh_hdr;
              let subframe_len := sizeof_ethhdr + len in
              let padding := subframe_padding subframe_len in
              if remaining <? subframe_len then Some false
              else valid_amsdu_loop fuel skb mesh_hdr (offset + subframe_len + padding)
          end
      else Some true
  end.

Definition ieee80211_is_valid_amsdu (skb : rx_skb) (mesh_hdr : Z) : option bool :=
  valid_amsdu_loop (S (length (content skb))) skb mesh_hdr 0.

Definition is_amsdu_aggregation_attack (eth : ethhdr) (skb : rx_skb)
    (iftype : nl80211_iftype) : option bool :=
  if negb (is_mesh iftype) then Some (ether_addr_equal (h_dest eth) rfc1042_header)
  else
    b ← rd8 (h_dest eth) 0;
    let offset := __ieee80211_get_mesh_hdrlen b in
    if offset =? 6 then Some (ether_addr_equal (h_source eth) rfc1042_header)
    else if offset + ETH_ALEN <=? rx_len skb then
      temp ← skb_copy_bits skb offset ETH_ALEN;
      Some (ether_addr_equal temp rfc1042_header)
    else Some false.

(** ** An A-MSDU *)

(** [check_da] and [check_sa] against a subframe header. *)
Definition amsdu_addr_mismatch (check_da check_sa : option (list Z)) (eth : ethhdr)
    : option bool :=
  mcast ← mcast_addr (h_dest eth);
  Some (match check_da with
        | Some da => negb mcast && negb (ether_addr_equal da (h_dest eth))
        | None => false
        end ||
        match check_sa with
        | Some sa => negb (ether_addr_equal sa (h_source eth))
        | None => false
        end).

(** The end of the loop body of [ieee80211_amsdu_to_8023s]: the encapsulation
    is looked for at [frame->data], behind which come the tailroom and the
    shared info. *)
Definition amsdu_finish `{RxMem} (iftype : nl80211_iftype) (skb frame : rx_skb)
    (eth : ethhdr) : option rx_skb :=
  let frame := set_priority (set_dev frame (dev skb)) (priority skb) in
  '(eth, frame) ←
    (if is_mesh iftype then Some (eth, frame)
     else
       t ← ieee80211_get_8023_tunnel_proto (data (lin frame) ++ tail (lin frame) ++ shinfo);
       match t with
       | Some p => frame ← rx_pull frame (ETH_ALEN + 2); Some (set_proto eth p, frame)
       | None => Some (eth, frame)
       end);
  rx_push_data frame (eth_bytes eth).

Section ToEthernet.
Context `{RxMem}.
Context (iftype : nl80211_iftype) (hlen : Z) (check_da check_sa : option (list Z)).
Context (mesh_control : Z).

(** The octet of [hdr.flags] before the first copy, which only mesh interfaces
    fill. *)
Context (stale_flags : Z).

Definition amsdu_copy_len : Z := if is_mesh iftype then sizeof_ethhdr + 1 else sizeof_ethhdr.

(** The loop over the subframes; [[]] when the list is purged. *)
Fixpoint amsdu_loop (fuel : nat) (skb : rx_skb) (reuse_frag : bool) (offset : Z)
    (l : list rx_skb) : option (list rx_skb) :=
  match fuel with
  | O => None
  | S fuel =>
      let remaining := rx_len skb - offset in
      if remaining <? amsdu_copy_len then Some []
      else
        hdr ← skb_copy_bits skb offset amsdu_copy_len;
        eth ← get_ethhdr hdr;
        flags ← (if is_mesh iftype then rd8 hdr sizeof_ethhdr else Some stale_flags);
        let mesh_len := if is_mesh iftype then __ieee80211_get_mesh_hdrlen flags else 0 in
        len ← ieee80211_amsdu_subframe_length (h_proto eth) flags mesh_control;
        let subframe_len := sizeof_ethhdr + len in
        let padding := subframe_padding subframe_len in
        if remaining <? subframe_len then Some []
        else
          attack ← (if offset =? 0 then is_amsdu_aggregation_attack eth skb iftype
                    else Some false);
          if attack : bool then Some []
          else
            let offset := offset + sizeof_ethhdr in
            let last := remaining <=? subframe_len + padding in
            let continue (l : list rx_skb) :=
              if last then Some l
              else amsdu_loop fuel skb reuse_frag (offset + len + padding) l in
            mismatch ← amsdu_addr_mismatch check_da check_sa eth;
            if mismatch : bool then continue l
            else if negb (skb_is_nonlinear skb) && negb reuse_frag && last then
              (* reuse skb for the last subframe *)
              frame ← rx_pull skb offset;
              frame ← amsdu_finish iftype skb frame eth;
              Some (l ++ [frame])
            else
              copy ← __ieee80211_amsdu_copy skb hlen offset len reuse_frag (32 + mesh_len);
              match copy with
              | None => Some []
              | Some frame =>
                  frame ← amsdu_finish iftype skb frame eth;
                  continue (l ++ [frame])
              end
  end.

End ToEthernet.

Definition ALIGN4 (x : Z) : Z := ((x + 3) >> 2) << 2.

Definition ieee80211_amsdu_to_8023s `{RxMem} (stale_flags : Z) (skb : rx_skb)
    (iftype : nl80211_iftype) (extra_headroom : Z) (check_da check_sa : option (list Z))
    (mesh_control : Z) : option (list rx_skb) :=
  let hlen := ALIGN4 extra_headroom in
  let reuse_frag := head_frag skb && negb (skb_has_frag_list skb) in
  amsdu_loop iftype hlen check_da check_sa mesh_control stale_flags
    (S (length (content skb))) skb reuse_frag 0 [].

(** ** The receive handler *)

(** The loop of [__ieee80211_rx_h_amsdu] over the header formats: the only
    valid one, or -1. *)
Fixpoint find_mesh_control (skb : rx_skb) (formats : list Z) (valid : Z) : option Z :=
  match formats with
  | [] => Some valid
  | i :: formats =>
      ok ← ieee80211_is_valid_amsdu skb i;
      if negb ok then find_mesh_control skb formats valid
      else if 0 <=? valid then Some (-1)
      else find_mesh_control skb formats i
  end.

(** [__ieee80211_rx_h_amsdu] up to the delivery of the frames: the new
    [amsdu_mesh_control] of the station and the frames, or [None] for
    [RX_DROP_U_BAD_AMSDU]. *)
Definition __ieee80211_rx_h_amsdu `{RxMem} (stale_flags : Z) (skb : rx_skb) (netdev : Z)
    (vif_addr : list Z) (iftype : nl80211_iftype) (tdls_peer : bool)
    (extra_tx_headroom data_offset amsdu_mesh_control : Z)
    : option (option (Z * list rx_skb)) :=
  fc ← hdr_frame_control (data (lin skb));
  let '(use_da, use_sa) :=
    if ieee80211_has_a4 fc then (false, false)
    else match iftype with
         | NL80211_IFTYPE_AP | NL80211_IFTYPE_AP_VLAN => (false, true)
         | NL80211_IFTYPE_STATION => (true, tdls_peer)
         | NL80211_IFTYPE_MESH_POINT => (false, false)
         | _ => (true, true)
         end in
  let skb := set_dev skb netdev in
  '(ret, skb, eh) ← ieee80211_data_to_8023_exthdr skb true vif_addr iftype data_offset true;
  match eh with
  | Some eth =>
      mc ← (if amsdu_mesh_control <? 0 then find_mesh_control skb [0; 1; 2] (-1)
            else Some amsdu_mesh_control);
      frames ← ieee80211_amsdu_to_8023s stale_flags skb iftype extra_tx_headroom
                 (if use_da : bool then Some (h_dest eth) else None)
                 (if use_sa : bool then Some (h_source eth) else None) (u8 mc);
      Some (Some (mc, frames))
  | None => Some None
  end.
