(* ===== verification/AmsduProofs.v ===== *)
(** * AmsduProofs: what the conversions of [Amsdu] deliver

    An A-MSDU is described by the list of its subframes ([msdu]), whatever the
    layout of the buffer that holds it; [ethernet] is the frame each subframe
    stands for. *)
From S2P Require Import Prelude Frame Skb Amsdu.

(** ** Buffers *)

Lemma slice_of pre mid post off n :
  zlen pre = off -> zlen mid = n -> slice (pre ++ mid ++ post) off n = Some mid.
Proof. intros <-. apply slice_app. Qed.

Lemma content_set_lin s l : content (set_lin s l) = data l ++ paged s.
Proof. done. Qed.

(** Putting a header in front of a frame. *)
Lemma rx_push_data_spec s bs :
  zlen bs <= skb_headroom (lin s) ->
  exists s', rx_push_data s bs = Some s' /\ content s' = bs ++ content s /\
    dev s' = dev s /\ priority s' = priority s.
Proof.
  intros Hb. unfold rx_push_data. pose proof (zlen_nonneg bs).
  destruct (split_at (head (lin s)) (skb_headroom (lin s) - zlen bs)) as (a & b & E & Ha).
  { unfold skb_headroom in *. lia. }
  assert (zlen b = zlen bs) as Hbb by (unfold skb_headroom in *; rewrite E in *; zlens; lia).
  rewrite <- Hbb, (skb_push_app a b) by done. rewrite bind_some. cbn [data].
  rewrite store_prefix by (unfold zlen in *; lia). rewrite bind_some.
  eexists. split_and!; [done|..|done|done]. unfold content, paged, set_lin, set_data. cbn.
  by rewrite <- app_assoc.
Qed.

(** Removing octets of the linear part. *)
Lemma rx_pull_spec s n :
  0 <= n <= skb_len (lin s) ->
  exists s', rx_pull s n = Some s' /\ content s' = drop (Z.to_nat n) (content s) /\
    skb_headroom (lin s') = skb_headroom (lin s) + n /\
    skb_len (lin s') = skb_len (lin s) - n /\ paged s' = paged s /\
    dev s' = dev s /\ priority s' = priority s.
Proof.
  intros Hn. destruct (split_at (data (lin s)) n) as (a & b & E & <-); [done|].
  unfold rx_pull. destruct (Z.ltb_spec (rx_len s) (zlen a)).
  { unfold rx_len, content, skb_len in *. zlens. pose proof (zlen_nonneg (paged s)). lia. }
  rewrite (skb_pull_app _ a b) by done. rewrite bind_some. eexists. split; [done|].
  unfold content, paged, skb_headroom, skb_len, set_lin. cbn. rewrite E. zlens.
  unfold zlen at 1. rewrite Nat2Z.id, <- app_assoc, drop_app_length.
  split_and!; try done; lia.
Qed.

Lemma rx_pull_short s n : rx_len s < n -> rx_pull s n = Some s.
Proof. intros. unfold rx_pull. by destruct (Z.ltb_spec (rx_len s) n); [|lia]. Qed.

(** ** Encapsulation *)

(** A body that starts with one of the two encapsulations of its protocol. *)
Definition is_encap (body : list Z) : Prop :=
  let a := take 6 body in let p := take 2 (drop 6 body) in
  8 <= zlen body /\
  ((a = rfc1042_header /\ p <> ETH_P_AARP /\ p <> ETH_P_IPX) \/ a = bridge_tunnel_header).

#[global] Instance is_encap_dec body : Decision (is_encap body).
Proof. unfold is_encap. cbn zeta. apply _. Defined.

(** The octets after the addresses in the Ethernet frame: the encapsulation is
    removed, other bodies get their length. *)
Definition decap (body : list Z) : list Z :=
  if decide (is_encap body) then drop 6 body else htons (zlen body) ++ body.

Lemma split3 (l : list Z) a b c :
  zlen l = a + b + c -> 0 <= a -> 0 <= b -> 0 <= c ->
  exists x y z, l = x ++ y ++ z /\ zlen x = a /\ zlen y = b /\ zlen z = c.
Proof.
  intros Hl ???. destruct (split_at l a) as (x & r & -> & Hx); [lia|]. zlens.
  destruct (split_at r b) as (y & z & -> & Hy); [lia|]. zlens. exists x, y, z. split_and!; (done || lia).
Qed.

Lemma is_encap_split a p r :
  zlen a = 6 -> zlen p = 2 ->
  take 2 (drop 6 (a ++ p ++ r)) = p /\
  (is_encap (a ++ p ++ r) <->
   (a = rfc1042_header /\ p <> ETH_P_AARP /\ p <> ETH_P_IPX) \/ a = bridge_tunnel_header).
Proof.
  intros Ha Hp. unfold is_encap. cbn zeta. pose proof (zlen_nonneg r). zlens.
  rewrite (take_app_length' a _ 6) by (unfold zlen in Ha; lia).
  rewrite (drop_app_length' a _ 6) by (unfold zlen in Ha; lia).
  rewrite (take_app_length' p _ 2) by (unfold zlen in Hp; lia).
  split; [done|]. split; [tauto|]. split; [lia|done].
Qed.

Lemma tunnel_proto_spec body rest :
  8 <= zlen body ->
  ieee80211_get_8023_tunnel_proto (body ++ rest) =
  Some (if decide (is_encap body) then Some (take 2 (drop 6 body)) else None).
Proof.
  intros Hb. destruct (split3 body 6 2 (zlen body - 8)) as (a & p & r & -> & Ha & Hp & _); [lia..|].
  destruct (is_encap_split a p r) as [-> He]; [done..|].
  unfold ieee80211_get_8023_tunnel_proto, ETH_ALEN, ether_addr_equal.
  rewrite <- !app_assoc, slice_prefix, bind_some by done.
  rewrite (slice_of a p) by done. rewrite !bind_some.
  destruct (decide (is_encap _)) as [Hd|Hd]; apply He in Hd || rewrite He in Hd.
  - destruct Hd as [(-> & H1 & H2)| ->]; [|done].
    by rewrite !(bool_decide_eq_true_2 (p <> _)) by done.
  - destruct (decide (a = rfc1042_header)) as [->|Hr].
    + rewrite (bool_decide_eq_true_2 (rfc1042_header = _)) by done.
      rewrite (bool_decide_eq_false_2 (rfc1042_header = bridge_tunnel_header)) by done.
      destruct (bool_decide (p <> ETH_P_AARP)) eqn:E1, (bool_decide (p <> ETH_P_IPX)) eqn:E2;
        try done. apply bool_decide_eq_true in E1, E2. exfalso. apply Hd. auto.
    + rewrite (bool_decide_eq_false_2 (a = rfc1042_header)) by done.
      rewrite (bool_decide_eq_false_2 (a = bridge_tunnel_header)) by (intros ->; apply Hd; auto). done.
Qed.

(** A body of any length: the lookup behind it is safe. *)
Lemma tunnel_proto_any l :
  8 <= zlen l ->
  exists t, ieee80211_get_8023_tunnel_proto l = Some t /\ (forall p, t = Some p -> zlen p = 2).
Proof.
  intros Hl. rewrite <- (app_nil_r l), tunnel_proto_spec by done. eexists. split; [done|].
  intros p. destruct (decide _); [|done]. intros [= <-]. unfold zlen in *.
  rewrite length_take, length_drop. lia.
Qed.

Lemma eth_bytes_zlen e :
  zlen (h_dest e) = 6 -> zlen (h_source e) = 6 -> zlen (h_proto e) = 2 -> zlen (eth_bytes e) = 14.
Proof. intros. unfold eth_bytes. zlens. lia. Qed.

Lemma get_ethhdr_bytes d s p rest :
  zlen d = 6 -> zlen s = 6 -> zlen p = 2 ->
  get_ethhdr (d ++ s ++ p ++ rest) = Some (mk_eth d s p).
Proof.
  intros. unfold get_ethhdr, ETH_ALEN.
  rewrite slice_prefix, bind_some by done. rewrite (slice_of d s _ 6 6), bind_some by done.
  by rewrite (app_assoc d s), (slice_of (d ++ s) p _ (2 * 6) 2) by (zlens; lia).
Qed.

Lemma get_ethhdr_any b :
  14 <= zlen b ->
  exists e rest, get_ethhdr b = Some e /\ b = eth_bytes e ++ rest /\
    zlen (h_dest e) = 6 /\ zlen (h_source e) = 6 /\ zlen (h_proto e) = 2.
Proof.
  intros Hb. destruct (split3 b 6 6 (zlen b - 12)) as (d & s & r & -> & Hd & Hs & Hr); [lia..|].
  destruct (split_at r 2) as (p & t & -> & Hp); [zlens; lia|].
  rewrite get_ethhdr_bytes by done. exists (mk_eth d s p), t. unfold eth_bytes. cbn.
  split_and!; try done. by rewrite <- !app_assoc.
Qed.

(** The end of the loop body, for any frame. *)
Lemma amsdu_finish_any `{RxMemLaws} iftype skb frame eth :
  zlen (h_dest eth) = 6 -> zlen (h_source eth) = 6 -> zlen (h_proto eth) = 2 ->
  14 <= skb_headroom (lin frame) -> Z.min (rx_len frame) 8 <= skb_len (lin frame) ->
  exists f e n, amsdu_finish iftype skb frame eth = Some f /\ zlen e = 14 /\
    content f = e ++ drop n (content frame) /\ dev f = dev skb /\ priority f = priority skb.
Proof.
  intros Hd Hs Hp Hh Hl. unfold amsdu_finish.
  set (fr := set_priority (set_dev frame (dev skb)) (priority skb)).
  destruct (is_mesh iftype).
  { rewrite bind_some. destruct (rx_push_data_spec fr (eth_bytes eth)) as (f & -> & Hc & Hv & Hq).
    { rewrite eth_bytes_zlen by done. done. }
    exists f, (eth_bytes eth), 0%nat. rewrite Hv, Hq. split_and!; try done. by apply eth_bytes_zlen. }
  destruct (tunnel_proto_any (data (lin fr) ++ tail (lin fr) ++ shinfo)) as (t & -> & Ht).
  { zlens. pose proof shinfo_size. pose proof (zlen_nonneg (data (lin fr))).
    pose proof (zlen_nonneg (tail (lin fr))). lia. }
  rewrite bind_some. destruct t as [p|].
  2:{ rewrite bind_some. destruct (rx_push_data_spec fr (eth_bytes eth)) as (f & -> & Hc & Hv & Hq).
      { rewrite eth_bytes_zlen by done. done. }
      exists f, (eth_bytes eth), 0%nat. rewrite Hv, Hq. split_and!; try done. by apply eth_bytes_zlen. }
  assert (exists fr' n, rx_pull fr (ETH_ALEN + 2) = Some fr' /\ content fr' = drop n (content frame) /\
            14 <= skb_headroom (lin fr') /\ dev fr' = dev skb /\ priority fr' = priority skb)
    as (fr' & n & -> & Hc & Hh' & Hdv & Hpr).
  { change (ETH_ALEN + 2) with 8. destruct (Z.ltb_spec (rx_len fr) 8).
    - exists fr, 0%nat. by rewrite rx_pull_short by lia.
    - change (rx_len fr) with (rx_len frame) in *.
      destruct (rx_pull_spec fr 8) as (fr' & -> & Hc & Hh' & _ & _ & Hv & Hq).
      { change (lin fr) with (lin frame). lia. }
      exists fr', 8%nat. change (lin fr) with (lin frame) in *. split_and!; try done; lia. }
  rewrite !bind_some.
  destruct (rx_push_data_spec fr' (eth_bytes (set_proto eth p))) as (f & -> & Hc' & Hv & Hq).
  { rewrite eth_bytes_zlen; [done..|]. by apply Ht. }
  exists f, (eth_bytes (set_proto eth p)), n. rewrite Hv, Hq, Hc', Hc. split_and!; try done.
  apply eth_bytes_zlen; [done..|]. by apply Ht.
Qed.

(** Only the first eight octets decide. *)
Lemma is_encap_app a b :
  8 <= zlen a ->
  (is_encap (a ++ b) <-> is_encap a) /\ take 2 (drop 6 (a ++ b)) = take 2 (drop 6 a).
Proof.
  intros Ha. destruct (split3 a 6 2 (zlen a - 8)) as (x & p & r & -> & Hx & Hp & _); [lia..|].
  rewrite <- !app_assoc.
  destruct (is_encap_split x p (r ++ b)) as [-> ->]; [done..|].
  by destruct (is_encap_split x p r) as [-> ->].
Qed.

(** The end of the loop body, for a frame that holds at least an encapsulation
    header in its linear part. *)
Lemma amsdu_finish_body `{RxMemLaws} iftype skb frame eth :
  zlen (h_dest eth) = 6 -> zlen (h_source eth) = 6 -> zlen (h_proto eth) = 2 ->
  14 <= skb_headroom (lin frame) -> 8 <= skb_len (lin frame) ->
  exists f, amsdu_finish iftype skb frame eth = Some f /\
    content f = h_dest eth ++ h_source eth ++
      (if is_mesh iftype then h_proto eth ++ content frame
       else if decide (is_encap (content frame)) then drop 6 (content frame)
       else h_proto eth ++ content frame) /\
    dev f = dev skb /\ priority f = priority skb.
Proof.
  intros Hd Hs Hp Hh Hl. unfold amsdu_finish.
  set (fr := set_priority (set_dev frame (dev skb)) (priority skb)).
  change (lin fr) with (lin frame).
  assert (forall e f, content f = eth_bytes e ++ content frame ->
            content f = h_dest e ++ h_source e ++ h_proto e ++ content frame) as Happ.
  { intros e f ->. unfold eth_bytes. by rewrite <- !app_assoc. }
  destruct (rx_push_data_spec fr (eth_bytes eth)) as (f & Hf & Hc & Hv & Hq).
  { by rewrite eth_bytes_zlen by done. }
  destruct (is_mesh iftype).
  { rewrite bind_some, Hf. exists f. rewrite Hv, Hq. split_and!; try done. by apply Happ. }
  rewrite tunnel_proto_spec, bind_some by done.
  destruct (is_encap_app (data (lin frame)) (paged frame)) as [He Ht]; [done|].
  change (data (lin frame) ++ paged frame) with (content frame) in He, Ht.
  rewrite <- (decide_ext _ _ _ _ He). destruct (decide (is_encap (content frame))).
  2:{ rewrite bind_some, Hf. exists f. rewrite Hv, Hq. split_and!; try done. by apply Happ. }
  destruct (rx_pull_spec fr (ETH_ALEN + 2)) as (fr' & -> & Hc' & Hh' & _ & _ & Hv' & Hq').
  { unfold ETH_ALEN. change (lin fr) with (lin frame). lia. }
  change (lin fr) with (lin frame) in Hh'. rewrite !bind_some.
  set (p := take 2 (drop 6 (data (lin frame)))) in *.
  assert (zlen p = 2) as Hzp.
  { unfold p, zlen. rewrite length_take, length_drop. unfold skb_len, zlen in Hl. lia. }
  destruct (rx_push_data_spec fr' (eth_bytes (set_proto eth p))) as (g & -> & Hg & Hv2 & Hq2).
  { rewrite eth_bytes_zlen by done. unfold ETH_ALEN in Hh'. lia. }
  exists g. rewrite Hv2, Hq2, Hg, Hc'. split_and!; try done.
  unfold eth_bytes, set_proto. cbn [h_dest h_source h_proto]. rewrite <- !app_assoc. do 2 f_equal.
  change (content fr) with (content frame). rewrite <- Ht.
  change (Z.to_nat (ETH_ALEN + 2)) with (6 + 2)%nat. rewrite <- drop_drop. apply take_drop.
Qed.

(** ** Copying *)

Lemma find_frag_spec frs cur off :
  0 <= off < zlen (cur ++ concat frs) ->
  exists c o rest, find_frag cur frs off = Some (c, o, rest) /\ 0 <= o < zlen c /\
    drop (Z.to_nat off) (cur ++ concat frs) = drop (Z.to_nat o) c ++ concat rest /\
    zlen rest <= zlen frs.
Proof.
  revert cur off. induction frs as [|f frs IH]; intros cur off Ho; cbn [find_frag concat] in *;
    destruct (Z.leb_spec (zlen cur) off); zlens; try lia.
  - exists cur, off, []. split_and!; try done; try lia. by rewrite app_nil_r, app_nil_r.
  - destruct (IH f (off - zlen cur)) as (c & o & rest & -> & Hoc & Hd & Hr); [zlens; lia|].
    exists c, o, rest. split_and!; try done; try lia. rewrite <- Hd.
    rewrite drop_app_ge by (unfold zlen in *; lia). f_equal. unfold zlen in *. lia.
  - exists cur, off, (f :: frs). split_and!; try done; try lia; [|zlens; lia].
    by rewrite drop_app_le by (unfold zlen in *; lia).
Qed.

Lemma add_frags_spec `{RxMem} frs frame len :
  0 <= len <= zlen (concat frs) -> zlen (frags frame) + zlen frs <= max_skb_frags ->
  exists f, add_frags frame frs len = Some f /\
    concat (frags f) = concat (frags frame) ++ take (Z.to_nat len) (concat frs) /\
    lin f = lin frame /\ frag_list f = frag_list frame.
Proof.
  revert frame len. induction frs as [|f frs IH]; intros frame len Hl Hm; cbn [add_frags concat] in *;
    zlens; (destruct (Z.ltb_spec 0 len);
      [try lia|exists frame; replace len with 0 by lia; by rewrite take_0, app_nil_r]).
  unfold __frame_add_frag. pose proof (zlen_nonneg frs).
  destruct (Z.ltb_spec (zlen (frags frame)) max_skb_frags); [|lia]. rewrite bind_some.
  destruct (IH (set_frags frame (frags frame ++ [take (Z.to_nat (Z.min len (zlen f))) f]))
              (len - Z.min len (zlen f))) as (g & -> & Hc & Hi & Hfl).
  - pose proof (zlen_nonneg f). pose proof (zlen_nonneg (concat frs)). lia.
  - cbn [frags set_frags]. zlens. lia.
  - exists g. split_and!; try done. rewrite Hc. cbn [frags set_frags].
    rewrite concat_app. cbn [concat]. rewrite app_nil_r, <- app_assoc. f_equal.
    rewrite take_app. unfold zlen. f_equal; [|f_equal; lia].
    destruct (Z.min_spec len (Z.of_nat (length f))) as [[? ->]|[? ->]]; [done|].
    rewrite Nat2Z.id, firstn_all, take_ge by lia. done.
Qed.

Lemma copy_frag_spec `{RxMem} skb frame off len :
  frag_list skb = [] -> frags frame = [] -> frag_list frame = [] ->
  0 <= off -> 0 < len -> off + len <= rx_len skb -> zlen (frags skb) < max_skb_frags ->
  exists f, __ieee80211_amsdu_copy_frag skb frame off len = Some f /\
    paged f = take (Z.to_nat len) (drop (Z.to_nat off) (content skb)) /\ lin f = lin frame.
Proof.
  intros Hfl Hff Hffl Ho Hl Hb Hm. unfold __ieee80211_amsdu_copy_frag.
  assert (content skb = data (lin skb) ++ concat (frags skb)) as Ec.
  { unfold content, paged. by rewrite Hfl, app_nil_r. }
  unfold rx_len in Hb. rewrite Ec in *.
  destruct (find_frag_spec (frags skb) (data (lin skb)) off) as (c & o & rest & -> & Hoc & Hd & Hr);
    [lia|]. rewrite bind_some. cbv beta iota zeta. rewrite Hd.
  assert (zlen (data (lin skb) ++ concat (frags skb)) - off = zlen c - o + zlen (concat rest)) as Hz.
  { apply (f_equal zlen) in Hd. zlens. unfold zlen in *. rewrite !length_drop, ?length_app in Hd. lia. }
  unfold __frame_add_frag. rewrite Hff. change (zlen []) with 0. pose proof (zlen_nonneg rest).
  destruct (Z.ltb_spec 0 max_skb_frags); [|pose proof (zlen_nonneg (frags skb)); lia]. rewrite bind_some.
  destruct (add_frags_spec rest (set_frags frame ([] ++ [take (Z.to_nat (Z.min len (zlen c - o)))
    (drop (Z.to_nat o) c)])) (len - Z.min len (zlen c - o))) as (f & -> & Hc & Hi & Hl2).
  { pose proof (zlen_nonneg (concat rest)). lia. } { cbn [frags set_frags app]. zlens. lia. }
  exists f. split_and!; try done. unfold paged. rewrite Hl2, Hc. cbn [frags set_frags frag_list app concat].
  rewrite Hffl, !app_nil_r. cbn [concat]. rewrite ?app_nil_r, take_app, length_drop.
  unfold zlen in *. f_equal; [|f_equal; lia].
  destruct (Z.min_spec len (Z.of_nat (length c) - o)) as [[? ->]|[? ->]]; [done|].
  rewrite !take_ge by (rewrite length_drop; lia). done.
Qed.

Lemma take_take_drop {A} (l : list A) n m : (n <= m)%nat -> take n l ++ take (m - n) (drop n l) = take m l.
Proof.
  intros. rewrite <- (take_drop n (take m l)), take_take, skipn_firstn_comm.
  by rewrite (Nat.min_l n m) by done.
Qed.

(** A copied subframe has the octets asked for, room for an Ethernet header
    and its first [min_len] octets in the linear part. *)
Lemma amsdu_copy_spec `{RxMemLaws} skb hlen off len reuse_frag min_len :
  (reuse_frag = true -> frag_list skb = []) -> zlen (frags skb) < max_skb_frags ->
  0 <= hlen -> 0 <= off -> 0 <= len -> 0 <= min_len -> off + len <= rx_len skb < 2 ^ 32 ->
  exists r, __ieee80211_amsdu_copy skb hlen off len reuse_frag min_len = Some r /\
    (r = None -> exists n, dev_alloc_skb n = None) /\
    forall f, r = Some f ->
      content f = take (Z.to_nat len) (drop (Z.to_nat off) (content skb)) /\
      14 <= skb_headroom (lin f) /\ Z.min len min_len <= skb_len (lin f).
Proof.
  intros Hfl Hm Hh Ho Hl Hmin Hb. unfold __ieee80211_amsdu_copy, sizeof_ethhdr.
  rewrite !wrap_small by (unfold is_uint; lia).
  destruct (Z.ltb_spec (rx_len skb - off) len); [lia|].
  set (cur := if reuse_frag then Z.min len min_len else len).
  assert (0 <= cur <= len) as Hcur by (unfold cur; destruct reuse_frag; lia).
  destruct (dev_alloc_skb _) as [l|] eqn:Ea.
  2:{ exists None. split; [done|]. split; [by eauto|done]. }
  pose proof (alloc_empty _ _ Ea) as He. pose proof (alloc_room _ _ Ea) as Hr.
  destruct (split_at (tail l) (hlen + 14 + 2)) as (a & b & Et & Hza).
  { unfold skb_tailroom in Hr. lia. }
  unfold skb_reserve, in_range. unfold skb_tailroom in Hr. rewrite Et in Hr. zlens.
  rewrite Et. zlens. pose proof (zlen_nonneg a). pose proof (zlen_nonneg b).
  replace ((0 <=? 0) && (0 <=? hlen + 14 + 2) && (0 + (hlen + 14 + 2) <=? zlen a + zlen b)) with true
    by (symmetry; rewrite !andb_true_iff, !Z.leb_le; lia).
  rewrite bind_some, <- Hza. unfold zlen at 1 2. rewrite Nat2Z.id, take_app_length, drop_app_length, He.
  destruct (split3 (content skb) off cur (rx_len skb - off - cur)) as (x & y & z & Ec & Hx & Hy & _);
    [unfold rx_len in *; lia..|].
  unfold skb_copy_bits. rewrite Ec, (slice_of x y) by done. rewrite bind_some.
  destruct (split_at b (zlen y)) as (b1 & b2 & -> & Hb1); [lia|].
  unfold skb_put_data. rewrite (skb_put_at _ b1 b2) by done. rewrite bind_some. cbn [data app].
  change (skb_len (mk_skb (head l ++ a) [] (b1 ++ b2) (cloned l))) with 0.
  rewrite <- (app_nil_r b1), (store_prefix b1 y []) by (unfold zlen in *; lia).
  rewrite !bind_some, !app_nil_r. rewrite <- Ec.
  match goal with |- context [mk_rx ?l [] [] false 0 (priority skb)] =>
    set (frame := mk_rx l [] [] false 0 (priority skb)) end.
  assert (14 <= skb_headroom (lin frame)) as Hhead.
  { unfold frame, skb_headroom. cbn [lin set_data head]. zlens. pose proof (zlen_nonneg (head l)). lia. }
  assert (Z.min len min_len <= skb_len (lin frame)) as Hlin.
  { unfold frame, skb_len. cbn [lin set_data data]. rewrite Hy. unfold cur. destruct reuse_frag; lia. }
  assert (y = take (Z.to_nat cur) (drop (Z.to_nat off) (content skb))) as Ey.
  { rewrite Ec, drop_app_length' by (unfold zlen in *; lia).
    by rewrite take_app_length' by (unfold zlen in *; lia). }
  destruct (Z.eqb_spec (len - cur) 0).
  - exists (Some frame). split_and!; [done..|]. intros f [= <-]. split_and!; try done.
    unfold content, paged, frame. cbn [lin set_data data frags frag_list concat app]. rewrite app_nil_r, Ey.
    f_equal. f_equal. lia.
  - destruct reuse_frag eqn:Er; [|unfold cur in *; lia].
    destruct (copy_frag_spec skb frame (off + cur) (len - cur)) as (f & -> & Hp & Hf); try done; try lia.
    { by apply Hfl. }
    rewrite bind_some. exists (Some f). split_and!; [done..|]. intros f' [= <-]. rewrite Hf.
    split_and!; try done. unfold content. rewrite Hf, Hp.
    change (data (lin frame)) with y. rewrite Ey at 1.
    rewrite (Z2Nat.inj_add off cur), <- drop_drop by lia. rewrite Z2Nat.inj_sub by lia.
    apply take_take_drop. lia.
Qed.

(** ** Subframe headers *)

Lemma mesh_hdrlen_cases f :
  __ieee80211_get_mesh_hdrlen f = 6 \/ __ieee80211_get_mesh_hdrlen f = 12 \/
  __ieee80211_get_mesh_hdrlen f = 18.
Proof. unfold __ieee80211_get_mesh_hdrlen. repeat case_match; auto. Qed.

Lemma subframe_padding_range n : 0 <= subframe_padding n <= 3.
Proof. apply land_le. lia. Qed.

Lemma subframe_length_any field flags t :
  2 <= zlen field -> bytes_ok field ->
  exists len, ieee80211_amsdu_subframe_length field flags t = Some len /\ is_uint 16 len.
Proof.
  intros Hz Hb. unfold ieee80211_amsdu_subframe_length.
  assert (exists v, (if 2 <=? t then rd_le16 field 0 else rd_be16 field 0) = Some v /\ is_uint 16 v)
    as (v & -> & Hv).
  { destruct (2 <=? t).
    - destruct (rd_le16_Some field 0) as [v Hv]; [lia..|]. exists v. split; [done|]. by eapply rd_le16_ok.
    - unfold rd_be16. destruct (rd8_Some field 0) as [b0 E0]; [lia|].
      destruct (rd8_Some field (0 + 1)) as [b1 E1]; [lia|]. rewrite E0, E1, !bind_some.
      eexists. split; [done|]. apply rd8_ok in E0, E1; [|done..]. apply lor_is_uint; [lia| |].
      + by apply (shiftl_is_uint 8 8).
      + eapply is_uint_mono; [done|lia]. }
  rewrite bind_some. eexists. split; [done|]. destruct (nz t); [by apply wrap_is_uint|done].
Qed.

(** An injected MSDU: parsed without aggregation, the frame has an RFC 1042
    header where an MSDU of this interface has it. *)
Definition injected (iftype : nl80211_iftype) (c : list Z) : Prop :=
  let flags := default 0 (rd8 c 0) in
  slice c (if is_mesh iftype then __ieee80211_get_mesh_hdrlen flags else 0) 6 = Some rfc1042_header.

Lemma aggregation_attack_spec iftype skb eth rest :
  content skb = eth_bytes eth ++ rest ->
  zlen (h_dest eth) = 6 -> zlen (h_source eth) = 6 -> zlen (h_proto eth) = 2 ->
  exists b, is_amsdu_aggregation_attack eth skb iftype = Some b /\
    (b = true <-> injected iftype (content skb)).
Proof.
  intros Ec Hd Hs Hp. unfold is_amsdu_aggregation_attack, injected, eth_bytes in *. cbn zeta.
  destruct (rd8_Some (h_dest eth) 0) as [b Eb]; [lia|].
  assert (rd8 (content skb) 0 = Some b) as ->.
  { rewrite Ec, <- app_assoc, rd8_app_l by lia. done. }
  cbn [default]. unfold ether_addr_equal. destruct (is_mesh iftype); cbn [negb].
  - rewrite Eb, bind_some. change (id b) with b.
    destruct (Z.eqb_spec (__ieee80211_get_mesh_hdrlen b) 6) as [->|].
    + eexists. split; [done|]. rewrite bool_decide_eq_true.
      rewrite Ec, <- !app_assoc, (slice_of (h_dest eth) (h_source eth)) by done.
      split; congruence.
    + pose proof (mesh_hdrlen_cases b). unfold skb_copy_bits, ETH_ALEN.
      destruct (Z.leb_spec (__ieee80211_get_mesh_hdrlen b + 6) (rx_len skb)).
      * destruct (slice_is_Some (content skb) (__ieee80211_get_mesh_hdrlen b) 6) as (t & -> & _);
          [lia..|done|]. rewrite bind_some. eexists. split; [done|].
        rewrite bool_decide_eq_true. split; congruence.
      * exists false. split; [done|]. split; [done|]. unfold slice, in_range, rx_len in *.
        repeat zcase; try done; lia.
  - eexists. split; [done|]. rewrite bool_decide_eq_true, Ec, <- app_assoc, slice_prefix by done.
    split; congruence.
Qed.

Lemma addr_mismatch_any da sa eth :
  zlen (h_dest eth) = 6 -> exists b, amsdu_addr_mismatch da sa eth = Some b.
Proof.
  intros Hd. unfold amsdu_addr_mismatch, mcast_addr.
  destruct (rd8_Some (h_dest eth) 0) as [b ->]; [lia|]. rewrite !bind_some. eauto.
Qed.

(** ** Safety *)

(** The octets of [f] behind its Ethernet header are consecutive octets of the
    received frame. *)
Definition payload_of (skb f : rx_skb) : Prop :=
  exists e pre bits post, zlen e = 14 /\ content f = e ++ bits /\ content skb = pre ++ bits ++ post.

Lemma payload_of_copy skb f e n m off len :
  zlen e = 14 -> content f = e ++ drop n (take len (drop off (drop m (content skb)))) ->
  payload_of skb f.
Proof.
  intros He Hf. exists e. rewrite drop_drop in Hf. set (c := content skb) in *.
  exists (take (m + off) c ++ take n (take len (drop (m + off) c))),
    (drop n (take len (drop (m + off) c))), (drop len (drop (m + off) c)).
  split_and!; try done. by rewrite <- app_assoc, (app_assoc (take n _)), !take_drop.
Qed.

(** What a frame delivered by the loop is, in terms of the received buffer. *)
Definition delivered (skb f : rx_skb) : Prop :=
  payload_of skb f /\ dev f = dev skb /\ priority f = priority skb.

Lemma linear_content s : skb_is_nonlinear s = false -> content s = data (lin s) /\ paged s = [].
Proof.
  unfold skb_is_nonlinear, nz, content. destruct (Z.eqb_spec (zlen (paged s)) 0); [|done]. intros _.
  destruct (paged s); [by rewrite app_nil_r|]. unfold zlen in *. done.
Qed.

(** The last subframe takes the received buffer over. *)
Lemma amsdu_reuse_any `{RxMemLaws} iftype skb eth off :
  skb_is_nonlinear skb = false -> 14 <= off <= rx_len skb ->
  zlen (h_dest eth) = 6 -> zlen (h_source eth) = 6 -> zlen (h_proto eth) = 2 ->
  exists fr f, rx_pull skb off = Some fr /\ amsdu_finish iftype skb fr eth = Some f /\ delivered skb f.
Proof.
  intros Hn Ho Hd Hs Hp. apply linear_content in Hn as [Hc Hpg].
  assert (rx_len skb = skb_len (lin skb)) as Hl by (unfold rx_len, skb_len; by rewrite Hc).
  destruct (rx_pull_spec skb off) as (fr & -> & Hcf & Hh & Hlf & Hpf & _ & _); [lia|].
  destruct (amsdu_finish_any iftype skb fr eth) as (f & e & n & Hf & He & Hcc & Hv & Hq); try done.
  - unfold skb_headroom in *. pose proof (zlen_nonneg (head (lin skb))). lia.
  - unfold rx_len, content. rewrite Hpf, Hpg, app_nil_r. unfold skb_len. lia.
  - exists fr, f. split_and!; try done. split_and!; try done.
    apply (payload_of_copy skb f e n (Z.to_nat off) 0%nat (length (content skb))); [done|].
    rewrite drop_0, Hcc, Hcf. rewrite take_ge by (rewrite length_drop; lia). done.
Qed.

Lemma amsdu_copied_any `{RxMemLaws} iftype hlen skb eth off len reuse_frag mesh_len :
  (reuse_frag = true -> frag_list skb = []) -> zlen (frags skb) < max_skb_frags ->
  0 <= hlen -> 0 <= off -> 0 <= len -> 0 <= mesh_len -> off + len <= rx_len skb < 2 ^ 32 ->
  zlen (h_dest eth) = 6 -> zlen (h_source eth) = 6 -> zlen (h_proto eth) = 2 ->
  exists r, __ieee80211_amsdu_copy skb hlen off len reuse_frag (32 + mesh_len) = Some r /\
    forall fr, r = Some fr -> exists f, amsdu_finish iftype skb fr eth = Some f /\ delivered skb f.
Proof.
  intros Hfl Hm Hh Ho Hl Hml Hb Hd Hs Hp.
  destruct (amsdu_copy_spec skb hlen off len reuse_frag (32 + mesh_len)) as (r & -> & _ & Hr); try done; [lia|].
  exists r. split; [done|]. intros fr ->. destruct (Hr fr) as (Hc & Hhr & Hlin); [done|].
  assert (rx_len fr <= len) as Hle.
  { unfold rx_len. rewrite Hc. unfold zlen. rewrite length_take. lia. }
  destruct (amsdu_finish_any iftype skb fr eth) as (f & e & n & Hf & He & Hcc & Hv & Hq); try done.
  { pose proof (zlen_nonneg (content fr)). unfold rx_len in *. lia. }
  exists f. split; [done|]. split_and!; try done.
  apply (payload_of_copy skb f e n 0%nat (Z.to_nat off) (Z.to_nat len)); [done|].
  by rewrite Hcc, Hc, drop_0.
Qed.

(** The header of the subframe at an offset. *)
Lemma amsdu_header_any skb off n :
  14 <= n -> 0 <= off -> off + n <= rx_len skb ->
  exists hdr eth rest post, skb_copy_bits skb off n = Some hdr /\ zlen hdr = n /\
    get_ethhdr hdr = Some eth /\ drop (Z.to_nat off) (content skb) = hdr ++ post /\
    hdr = eth_bytes eth ++ rest /\
    zlen (h_dest eth) = 6 /\ zlen (h_source eth) = 6 /\ zlen (h_proto eth) = 2.
Proof.
  intros Hn Ho Hb. destruct (slice_is_Some (content skb) off n) as (hdr & E & Hz); [lia..|done|].
  destruct (get_ethhdr_any hdr) as (eth & rest & Hg & Hr & ?); [lia|].
  pose proof E as (pre & post & Ec & Hp & _)%slice_Some.
  exists hdr, eth, rest, post. split_and!; try done; try tauto.
  rewrite Ec, drop_app_length' by (unfold zlen in *; lia). done.
Qed.

Lemma header_flags iftype hdr stale :
  (if is_mesh iftype then 15 else 14) <= zlen hdr ->
  exists flags, (if is_mesh iftype then rd8 hdr 14 else Some stale) = Some flags.
Proof.
  intros. destruct (is_mesh iftype); [|by eauto]. apply rd8_Some. lia.
Qed.

Lemma header_proto_ok skb off n hdr eth rest :
  bytes_ok (content skb) -> skb_copy_bits skb off n = Some hdr -> hdr = eth_bytes eth ++ rest ->
  bytes_ok (h_proto eth).
Proof.
  intros Hok E ->. apply slice_bytes_ok in E; [|done]. unfold eth_bytes in E.
  apply Forall_app in E as [[_ [_ E]%Forall_app]%Forall_app _]. done.
Qed.

Section Safety.
Context `{RxMemLaws}.
Context (iftype : nl80211_iftype) (hlen : Z) (check_da check_sa : option (list Z)).
Context (mesh_control stale_flags : Z) (skb : rx_skb) (reuse_frag : bool).
Hypothesis (Hh : 0 <= hlen) (Hok : bytes_ok (content skb)) (Hlen : rx_len skb < 2 ^ 32).
Hypothesis (Hfl : reuse_frag = true -> frag_list skb = []).
Hypothesis (Hfr : zlen (frags skb) < max_skb_frags).

Lemma amsdu_loop_safe fuel off l :
  0 <= off <= rx_len skb -> rx_len skb - off < Z.of_nat fuel -> Forall (delivered skb) l ->
  exists fs, amsdu_loop iftype hlen check_da check_sa mesh_control stale_flags fuel skb
               reuse_frag off l = Some fs /\ Forall (delivered skb) fs.
Proof.
  revert off l. induction fuel as [|fuel IH]; intros off l Ho Hf Hl.
  { lia. }
  cbn [amsdu_loop]. unfold amsdu_copy_len, sizeof_ethhdr.
  set (n := if is_mesh iftype then 14 + 1 else 14).
  assert (14 <= n <= 15) as Hn by (unfold n; destruct (is_mesh iftype); lia).
  destruct (Z.ltb_spec (rx_len skb - off) n); [by exists []|].
  destruct (amsdu_header_any skb off n) as (hdr & eth & rest & post & E & Hz & Hg & Hd & Hr & H6 & H6' & H2);
    [lia..|]. rewrite E, bind_some, Hg, bind_some.
  destruct (header_flags iftype hdr stale_flags) as [flags ->].
  { rewrite Hz. unfold n. by destruct (is_mesh iftype). }
  rewrite bind_some.
  destruct (subframe_length_any (h_proto eth) flags mesh_control) as (len & -> & Hlenr);
    [lia|by eapply header_proto_ok|]. rewrite bind_some.
  pose proof (subframe_padding_range (14 + len)) as Hpad. unfold is_uint in Hlenr.
  destruct (Z.ltb_spec (rx_len skb - off) (14 + len)); [by exists []|].
  assert (exists a, (if off =? 0 then is_amsdu_aggregation_attack eth skb iftype else Some false) = Some a)
    as [a ->].
  { destruct (Z.eqb_spec off 0) as [->|]; [|by eauto]. rewrite drop_0, Hr, <- app_assoc in Hd.
    destruct (aggregation_attack_spec iftype skb eth (rest ++ post)) as (b & -> & _); eauto. }
  rewrite bind_some. destruct a; [by exists []|].
  destruct (addr_mismatch_any check_da check_sa eth) as [mm ->]; [done|]. rewrite bind_some.
  assert (forall l', Forall (delivered skb) l' -> exists fs,
    (if rx_len skb - off <=? 14 + len + subframe_padding (14 + len) then Some l'
     else amsdu_loop iftype hlen check_da check_sa mesh_control stale_flags fuel skb reuse_frag
            (off + 14 + len + subframe_padding (14 + len)) l') = Some fs /\ Forall (delivered skb) fs)
    as Hcont.
  { intros l' Hl'. destruct (Z.leb_spec (rx_len skb - off) (14 + len + subframe_padding (14 + len))).
    - by exists l'.
    - apply IH; [lia|lia|done]. }
  destruct mm; [by apply Hcont|].
  destruct (negb (skb_is_nonlinear skb) && _ && _) eqn:Ere.
  - rewrite !andb_true_iff, !negb_true_iff in Ere. destruct Ere as [[Hnl _] _].
    destruct (amsdu_reuse_any iftype skb eth (off + 14)) as (fr & f & -> & Hfin & Hdel); try done; [lia|].
    rewrite bind_some, Hfin, bind_some. eexists. split; [done|]. by apply Forall_app; auto.
  - destruct (amsdu_copied_any iftype hlen skb eth (off + 14) len reuse_frag
      (if is_mesh iftype then __ieee80211_get_mesh_hdrlen flags else 0)) as (r & -> & Hrr); try done; try lia.
    { pose proof (mesh_hdrlen_cases flags). destruct (is_mesh iftype); lia. }
    rewrite bind_some. destruct r as [fr|]; [|by exists []].
    destruct (Hrr fr) as (f & -> & Hdel); [done|]. rewrite bind_some.
    apply Hcont. by apply Forall_app; auto.
Qed.

End Safety.

(** For any received octets, any layout of the buffer and any interface
    type, splitting an A-MSDU terminates without an access outside the buffers,
    and the octets of each delivered frame behind its Ethernet header are
    consecutive octets of the received frame; the frame also inherits the
    device and the priority. *)
Theorem amsdu_split_safe `{RxMemLaws} stale skb iftype headroom check_da check_sa mesh_control :
  0 <= headroom -> bytes_ok (content skb) -> rx_len skb < 2 ^ 32 ->
  zlen (frags skb) < max_skb_frags ->
  exists fs, ieee80211_amsdu_to_8023s stale skb iftype headroom check_da check_sa mesh_control = Some fs /\
    Forall (delivered skb) fs.
Proof.
  intros Hh Hok Hlen Hfr. apply amsdu_loop_safe; try done.
  - unfold ALIGN4. apply Z.shiftl_nonneg, Z.shiftr_nonneg. lia.
  - intros [_ E]%andb_true_iff. unfold skb_has_frag_list in E.
    by apply negb_true_iff, negb_false_iff, bool_decide_eq_true in E.
  - unfold rx_len. pose proof (zlen_nonneg (content skb)). lia.
  - unfold rx_len, zlen. lia.
Qed.

(** ** The subframes of an A-MSDU *)

Record msdu := mk_msdu { da : list Z; sa : list Z; body : list Z; pad : list Z }.

Lemma rd_be16_htons v : is_uint 16 v -> rd_be16 (htons v) 0 = Some v.
Proof.
  intros Hv. transitivity (Some ((u8 (v >> 8) << 8) .| u8 v)); [done|].
  by rewrite Z.lor_comm, byte_split_join.
Qed.

Section Subframes.
Context (iftype : nl80211_iftype) (mesh_control : Z).

(** The length field of a subframe: formats 1 and 2 do not count the mesh
    header, and format 2 is in the wrong byte order. *)
Definition len_field (m : msdu) : list Z :=
  let n := zlen (body m) -
    (if nz mesh_control then __ieee80211_get_mesh_hdrlen (default 0 (rd8 (body m) 0)) else 0) in
  if 2 <=? mesh_control then le16_bytes n else htons n.

Definition subframe (m : msdu) : list Z := da m ++ sa m ++ len_field m ++ body m ++ pad m.

Definition encode (ms : list msdu) : list Z := concat (map subframe ms).

Definition msdu_ok (m : msdu) : Prop :=
  zlen (da m) = 6 /\ zlen (sa m) = 6 /\ 8 <= zlen (body m) < 2 ^ 16 /\
  (mesh_control <> 0 -> __ieee80211_get_mesh_hdrlen (default 0 (rd8 (body m) 0)) <= zlen (body m)).

(** Each subframe but the last is padded to a multiple of four octets. *)
Fixpoint padded (ms : list msdu) : Prop :=
  match ms with
  | [] => True
  | m :: ms =>
      match ms with
      | [] => pad m = []
      | _ => zlen (pad m) = subframe_padding (14 + zlen (body m))
      end /\ padded ms
  end.

(** The Ethernet frame a subframe stands for. *)
Definition ethernet (m : msdu) : list Z :=
  da m ++ sa m ++ (if is_mesh iftype then len_field m ++ body m else decap (body m)).

Definition accepted (check_da check_sa : option (list Z)) (m : msdu) : bool :=
  match check_da with
  | Some a => is_multicast_ether_addr (default 0 (rd8 (da m) 0)) || bool_decide (a = da m)
  | None => true
  end &&
  match check_sa with Some a => bool_decide (a = sa m) | None => true end.

Lemma len_field_zlen m : zlen (len_field m) = 2.
Proof. unfold len_field. by destruct (2 <=? mesh_control). Qed.

Lemma subframe_length_spec m flags :
  msdu_ok m -> (mesh_control <> 0 -> flags = default 0 (rd8 (body m) 0)) ->
  ieee80211_amsdu_subframe_length (len_field m) flags mesh_control = Some (zlen (body m)).
Proof.
  intros (_ & _ & Hb & Hm) Hf. unfold ieee80211_amsdu_subframe_length, len_field, nz.
  destruct (Z.eqb_spec mesh_control 0) as [->|Hne]; cbn [negb].
  - cbn [Z.leb]. change (2 <=? 0) with false. cbv iota.
    rewrite Z.sub_0_r, rd_be16_htons by (unfold is_uint; lia). done.
  - rewrite <- (Hf Hne) in *. set (h := __ieee80211_get_mesh_hdrlen flags) in *.
    pose proof (mesh_hdrlen_cases flags) as Hc. fold h in Hc.
    assert ((if 2 <=? mesh_control then rd_le16 (if 2 <=? mesh_control then le16_bytes (zlen (body m) - h)
               else htons (zlen (body m) - h)) 0
             else rd_be16 (if 2 <=? mesh_control then le16_bytes (zlen (body m) - h)
               else htons (zlen (body m) - h)) 0) = Some (zlen (body m) - h)) as ->.
    { specialize (Hm Hne). destruct (2 <=? mesh_control).
      - rewrite <- (app_nil_r (le16_bytes _)). apply rd_le16_bytes. unfold is_uint. lia.
      - apply rd_be16_htons. unfold is_uint. lia. }
    rewrite bind_some, wrap_small by (unfold is_uint; lia). f_equal. lia.
Qed.

Lemma addr_mismatch_spec check_da check_sa m :
  zlen (da m) = 6 ->
  amsdu_addr_mismatch check_da check_sa (mk_eth (da m) (sa m) (len_field m)) =
  Some (negb (accepted check_da check_sa m)).
Proof.
  intros Hd. unfold amsdu_addr_mismatch, mcast_addr, accepted, ether_addr_equal. cbn [h_dest h_source].
  destruct (rd8_Some (da m) 0) as [b ->]; [lia|]. rewrite !bind_some. f_equal.
  change (default 0 (Some b)) with b. destruct check_da, check_sa; btauto.
Qed.

End Subframes.

(** The header at a subframe. *)
Lemma amsdu_header_spec mc skb pre m rest n :
  content skb = pre ++ subframe mc m ++ rest -> 14 <= n <= 15 -> msdu_ok mc m ->
  exists hdr, skb_copy_bits skb (zlen pre) n = Some hdr /\
    get_ethhdr hdr = Some (mk_eth (da m) (sa m) (len_field mc m)) /\
    (n = 15 -> rd8 hdr 14 = Some (default 0 (rd8 (body m) 0))).
Proof.
  intros Ec Hn (Hd & Hs & Hb & _). pose proof (len_field_zlen mc m) as Hl.
  destruct (split_at (body m) (n - 14)) as (b1 & b2 & Eb & Hb1); [lia|].
  exists (da m ++ sa m ++ len_field mc m ++ b1). split_and!.
  - unfold skb_copy_bits. rewrite Ec. unfold subframe. rewrite Eb.
    replace ((da m ++ sa m ++ len_field mc m ++ (b1 ++ b2) ++ pad m) ++ rest)
      with ((da m ++ sa m ++ len_field mc m ++ b1) ++ b2 ++ pad m ++ rest) by (by rewrite <- !app_assoc).
    apply slice_app. zlens. lia.
  - by apply get_ethhdr_bytes.
  - intros ->. destruct b1 as [|x [|y b1]]; zlens; [lia| |pose proof (zlen_nonneg b1); lia].
    rewrite Eb. change (rd8 ((x :: []) ++ b2) 0) with (Some x).
    replace 14 with (zlen (da m ++ sa m ++ len_field mc m) + 0) by (zlens; lia).
    rewrite (app_assoc (sa m)), (app_assoc (da m)), rd8_app_r by lia. done.
Qed.

(** The frame made of a buffer that holds the body. *)
Lemma amsdu_finish_msdu `{RxMemLaws} iftype mc skb fr m :
  msdu_ok mc m -> (mc <> 0 -> is_mesh iftype = true) ->
  content fr = body m -> 14 <= skb_headroom (lin fr) -> 8 <= skb_len (lin fr) ->
  exists f, amsdu_finish iftype skb fr (mk_eth (da m) (sa m) (len_field mc m)) = Some f /\
    content f = ethernet iftype mc m.
Proof.
  intros (Hd & Hs & Hb & _) Hmc Hc Hh Hl.
  destruct (amsdu_finish_body iftype skb fr (mk_eth (da m) (sa m) (len_field mc m)))
    as (f & Hf & Hcf & _); try done; [apply len_field_zlen|].
  exists f. split; [done|]. rewrite Hcf, Hc. unfold ethernet, decap. cbn [h_dest h_source h_proto].
  do 2 f_equal. destruct (is_mesh iftype) eqn:Em; [done|]. destruct (decide (is_encap (body m))); [done|]. f_equal.
  unfold len_field, nz. destruct (Z.eqb_spec mc 0) as [->|Hne]; [|by specialize (Hmc Hne); congruence].
  cbn [negb]. by rewrite Z.sub_0_r.
Qed.

Lemma encode_cons mc m ms : encode mc (m :: ms) = subframe mc m ++ encode mc ms.
Proof. done. Qed.

Lemma subframe_zlen mc m :
  msdu_ok mc m -> zlen (subframe mc m) = 14 + zlen (body m) + zlen (pad m).
Proof. intros (Hd & Hs & _). unfold subframe. zlens. rewrite len_field_zlen. lia. Qed.

Section Split.
Context `{RxMemLaws}.
Context (iftype : nl80211_iftype) (hlen : Z) (check_da check_sa : option (list Z)).
Context (mc stale_flags : Z) (skb : rx_skb) (reuse_frag : bool).
Hypothesis (Hh : 0 <= hlen) (Hlen : rx_len skb < 2 ^ 32) (Hmc : mc <> 0 -> is_mesh iftype = true).
Hypothesis (Hfl : reuse_frag = true -> frag_list skb = []).
Hypothesis (Hfr : zlen (frags skb) < max_skb_frags).
Hypothesis (Halloc : forall n, is_Some (dev_alloc_skb n)).

(** The frame made for the subframe behind [pre], by copying or by taking the
    buffer over. *)
Lemma amsdu_copied_msdu pre m rest mesh_len :
  content skb = pre ++ subframe mc m ++ rest -> msdu_ok mc m -> 0 <= mesh_len ->
  exists fr f,
    __ieee80211_amsdu_copy skb hlen (zlen pre + 14) (zlen (body m)) reuse_frag (32 + mesh_len) = Some (Some fr) /\
    amsdu_finish iftype skb fr (mk_eth (da m) (sa m) (len_field mc m)) = Some f /\
    content f = ethernet iftype mc m.
Proof.
  intros Ec Hm Hml. pose proof Hm as (Hd & Hs & Hb & _). pose proof (subframe_zlen mc m Hm) as Hz.
  pose proof (zlen_nonneg pre). pose proof (zlen_nonneg rest). pose proof (zlen_nonneg (pad m)).
  assert (rx_len skb = zlen pre + zlen (subframe mc m) + zlen rest) as Hl.
  { unfold rx_len. rewrite Ec. zlens. lia. }
  destruct (amsdu_copy_spec skb hlen (zlen pre + 14) (zlen (body m)) reuse_frag (32 + mesh_len))
    as (r & Hr & Hn & Hs'); try done; try lia.
  destruct r as [fr|]; [|destruct Hn as [n Hn]; [done|]; destruct (Halloc n); congruence].
  destruct (Hs' fr) as (Hc & Hhr & Hlin); [done|].
  destruct (amsdu_finish_msdu iftype mc skb fr m) as (f & Hf & Hcf); try done; try lia.
  - rewrite Hc, Ec. unfold subframe.
    replace (pre ++ (da m ++ sa m ++ len_field mc m ++ body m ++ pad m) ++ rest)
      with ((pre ++ da m ++ sa m ++ len_field mc m) ++ body m ++ pad m ++ rest) by (by rewrite <- !app_assoc).
    pose proof (len_field_zlen mc m).
    rewrite drop_app_length' by (zlens; unfold zlen in *; rewrite !length_app in *; lia).
    by rewrite take_app_length' by (unfold zlen; lia).
  - exists fr, f. done.
Qed.

Lemma amsdu_reused_msdu pre m :
  content skb = pre ++ subframe mc m -> msdu_ok mc m -> pad m = [] -> skb_is_nonlinear skb = false ->
  exists fr f, rx_pull skb (zlen pre + 14) = Some fr /\
    amsdu_finish iftype skb fr (mk_eth (da m) (sa m) (len_field mc m)) = Some f /\
    content f = ethernet iftype mc m.
Proof.
  intros Ec Hm Hp Hn. pose proof Hm as (Hd & Hs & Hb & _). pose proof (subframe_zlen mc m Hm) as Hz.
  apply linear_content in Hn as [Hc Hpg]. pose proof (zlen_nonneg pre).
  assert (skb_len (lin skb) = zlen pre + zlen (subframe mc m)) as Hl.
  { unfold skb_len. rewrite <- Hc, Ec. zlens. done. }
  rewrite Hp in Hz. zlens.
  destruct (rx_pull_spec skb (zlen pre + 14)) as (fr & -> & Hcf & Hhr & Hlf & Hpf & _); [lia|].
  destruct (amsdu_finish_msdu iftype mc skb fr m) as (f & Hf & Hcc); try done.
  - rewrite Hcf, Ec. unfold subframe. rewrite Hp, app_nil_r.
    rewrite (app_assoc (sa m)), (app_assoc (da m)), app_assoc. pose proof (len_field_zlen mc m).
    by rewrite drop_app_length' by (unfold zlen in *; rewrite !length_app; lia).
  - unfold skb_headroom in *. pose proof (zlen_nonneg (head (lin skb))). lia.
  - lia.
  - exists fr, f. done.
Qed.

Lemma amsdu_loop_split ms pre fuel l :
  content skb = pre ++ encode mc ms -> ms <> [] -> Forall (msdu_ok mc) ms -> padded ms ->
  (pre = [] -> ~ injected iftype (content skb)) -> (length ms <= fuel)%nat ->
  exists fs, amsdu_loop iftype hlen check_da check_sa mc stale_flags fuel skb reuse_frag (zlen pre) l =
      Some (l ++ fs) /\
    map content fs = map (ethernet iftype mc) (filter (fun m => accepted check_da check_sa m) ms).
Proof.
  revert pre fuel l. induction ms as [|m ms IH]; [done|].
  intros pre [|fuel] l Ec _ [Hm Hms]%Forall_cons Hpad Hinj Hf; cbn [length] in Hf; [lia|].
  rewrite encode_cons in Ec. pose proof (subframe_zlen mc m Hm) as Hz.
  pose proof Hm as (Hd & Hs & Hb & _). cbn [padded] in Hpad. destruct Hpad as [Hp Hpad].
  assert (rx_len skb - zlen pre = zlen (subframe mc m) + zlen (encode mc ms)) as Hl.
  { unfold rx_len. rewrite Ec. zlens. lia. }
  pose proof (subframe_padding_range (14 + zlen (body m))). pose proof (zlen_nonneg (pad m)).
  assert ((rx_len skb - zlen pre <=? 14 + zlen (body m) + subframe_padding (14 + zlen (body m))) =
          bool_decide (ms = [])) as Hlast.
  { destruct ms as [|m' ms].
    - rewrite bool_decide_eq_true_2 by done. rewrite Hp in *. change (encode mc []) with (@nil Z) in *.
      zlens. apply Z.leb_le. lia.
    - rewrite bool_decide_eq_false_2 by done. apply Z.leb_gt. rewrite encode_cons in *. zlens.
      apply Forall_cons in Hms as [Hm' _]. pose proof (subframe_zlen mc m' Hm').
      destruct Hm' as (_ & _ & ? & _). pose proof (zlen_nonneg (pad m')).
      pose proof (zlen_nonneg (encode mc ms)). lia. }
  cbn [amsdu_loop]. unfold amsdu_copy_len, sizeof_ethhdr.
  set (n := if is_mesh iftype then 14 + 1 else 14).
  assert (14 <= n <= 15) as Hn by (unfold n; destruct (is_mesh iftype); lia).
  pose proof (zlen_nonneg (encode mc ms)).
  destruct (Z.ltb_spec (rx_len skb - zlen pre) n); [lia|].
  destruct (amsdu_header_spec mc skb pre m (encode mc ms) n) as (hdr & -> & Hg & Hfl'); [done..|].
  rewrite bind_some, Hg, bind_some.
  assert (exists flags, (if is_mesh iftype then rd8 hdr 14 else Some stale_flags) = Some flags /\
            (mc <> 0 -> flags = default 0 (rd8 (body m) 0))) as (flags & -> & Hflags).
  { destruct (is_mesh iftype) eqn:Em; [rewrite Hfl' by done; eauto|].
    exists stale_flags. split; [done|]. intros Hne. by specialize (Hmc Hne). }
  rewrite bind_some. cbn [h_proto]. rewrite subframe_length_spec, bind_some by done. cbv zeta.
  destruct (Z.ltb_spec (rx_len skb - zlen pre) (14 + zlen (body m))); [lia|].
  assert ((if zlen pre =? 0 then is_amsdu_aggregation_attack (mk_eth (da m) (sa m) (len_field mc m)) skb iftype
           else Some false) = Some false) as ->.
  { destruct (Z.eqb_spec (zlen pre) 0) as [E|]; [|done]. destruct pre; [|unfold zlen in E; done].
    destruct (aggregation_attack_spec iftype skb (mk_eth (da m) (sa m) (len_field mc m))
      (body m ++ pad m ++ encode mc ms)) as (b & -> & Hbi); try done; [|apply len_field_zlen|].
    - rewrite Ec. unfold subframe, eth_bytes. cbn. by rewrite <- !app_assoc.
    - destruct b; [|done]. exfalso. apply Hinj; [done|]. by apply Hbi. }
  rewrite !bind_some, addr_mismatch_spec, bind_some, Hlast by done.
  rewrite filter_cons. cbv beta.
  assert (forall l', exists fs,
    (if bool_decide (ms = []) then Some l'
     else amsdu_loop iftype hlen check_da check_sa mc stale_flags fuel skb reuse_frag
            (zlen pre + 14 + zlen (body m) + subframe_padding (14 + zlen (body m))) l') = Some (l' ++ fs) /\
    map content fs = map (ethernet iftype mc) (filter (fun m => accepted check_da check_sa m) ms)) as Hcont.
  { intros l'. destruct ms as [|m' ms].
    - exists []. rewrite bool_decide_eq_true_2, app_nil_r by done. done.
    - rewrite bool_decide_eq_false_2 by done.
      destruct (IH (pre ++ subframe mc m) fuel l') as (fs & Hfs & Hmap); try done; [..|lia|].
      + by rewrite <- app_assoc.
      + intros E. apply (f_equal zlen) in E. zlens. pose proof (zlen_nonneg pre). lia.
      + exists fs. split; [|done]. rewrite <- Hfs. f_equal. zlens. rewrite Hz, Hp. lia. }
  destruct (accepted check_da check_sa m) eqn:Hacc; cbn [negb].
  2:{ destruct (decide _); [done|]. apply Hcont. }
  destruct (decide _); [|done]. cbn [map].
  destruct (negb (skb_is_nonlinear skb) && negb reuse_frag && bool_decide (ms = [])) eqn:Ere.
  - rewrite !andb_true_iff, !negb_true_iff, bool_decide_eq_true in Ere. destruct Ere as [[Hnl _] ->].
    change (encode mc []) with (@nil Z) in Ec. rewrite app_nil_r in Ec.
    destruct (amsdu_reused_msdu pre m) as (fr & f & -> & Hfin & Hcf); try done.
    rewrite bind_some, Hfin, bind_some. exists [f]. split; [done|]. cbn. by rewrite Hcf.
  - destruct (amsdu_copied_msdu pre m (encode mc ms)
      (if is_mesh iftype then __ieee80211_get_mesh_hdrlen flags else 0)) as (fr & f & -> & Hfin & Hcf); try done.
    { pose proof (mesh_hdrlen_cases flags). destruct (is_mesh iftype); lia. }
    rewrite bind_some, Hfin, bind_some. destruct (Hcont (l ++ [f])) as (fs & -> & Hmap).
    exists (f :: fs). cbn [map]. rewrite Hcf, Hmap, <- app_assoc. done.
Qed.

End Split.

Lemma encode_length mc ms : Forall (msdu_ok mc) ms -> Z.of_nat (length ms) <= zlen (encode mc ms).
Proof.
  induction 1 as [|m ms Hm _ IH]; [done|]. rewrite encode_cons. zlens. rewrite subframe_zlen by done.
  destruct Hm as (_ & _ & ? & _). pose proof (zlen_nonneg (pad m)). cbn [length]. lia.
Qed.

(** C20: however the buffer of an A-MSDU is laid out in linear part, page
    fragments and fragment list, splitting it yields, in order, the Ethernet
    frame of each subframe whose addresses pass the checks: with its
    encapsulation header removed or its length put in, or, on a mesh, in any of
    the three length formats, with its mesh header.  Every subframe has at least
    eight octets of body (with fewer the code reads behind its copy,
    [amsdu_short_body_stale]), each but the last is padded to a word, the whole
    is not an injected MSDU ([amsdu_injection_rejected]), and memory suffices. *)
Theorem amsdu_split_correct `{RxMemLaws} stale skb iftype headroom check_da check_sa mc ms :
  content skb = encode mc ms -> ms <> [] -> Forall (msdu_ok mc) ms -> padded ms ->
  (mc <> 0 -> is_mesh iftype = true) -> ~ injected iftype (content skb) ->
  0 <= headroom -> rx_len skb < 2 ^ 32 -> zlen (frags skb) < max_skb_frags ->
  (forall n, is_Some (dev_alloc_skb n)) ->
  exists fs, ieee80211_amsdu_to_8023s stale skb iftype headroom check_da check_sa mc = Some fs /\
    map content fs =
    map (ethernet iftype mc) (filter (fun m => accepted check_da check_sa m) ms).
Proof.
  intros Ec Hne Hms Hpad Hmc Hinj Hh Hlen Hfr Halloc.
  destruct (amsdu_loop_split iftype (ALIGN4 headroom) check_da check_sa mc stale skb
    (head_frag skb && negb (skb_has_frag_list skb))) with (ms := ms) (pre := @nil Z)
    (fuel := S (length (content skb))) (l := @nil rx_skb) as (fs & Hfs & Hmap); try done.
  - apply Z.shiftl_nonneg, Z.shiftr_nonneg. lia.
  - intros [_ E]%andb_true_iff. unfold skb_has_frag_list in E.
    by apply negb_true_iff, negb_false_iff, bool_decide_eq_true in E.
  - pose proof (encode_length mc ms Hms). rewrite Ec. unfold zlen in *. lia.
  - by exists fs.
Qed.

(** C21: an MSDU that was encapsulated for transport (behind a mesh header, on
    a mesh), when its frame is marked as an A-MSDU by an attacker, yields no
    frame at all. *)
Theorem amsdu_injection_rejected `{RxMem} stale skb iftype headroom check_da check_sa mc mesh_header payload :
  content skb = mesh_header ++ rfc1042_header ++ payload -> bytes_ok (content skb) ->
  (if is_mesh iftype
   then exists flags, rd8 mesh_header 0 = Some flags /\ zlen mesh_header = __ieee80211_get_mesh_hdrlen flags
   else mesh_header = []) ->
  ieee80211_amsdu_to_8023s stale skb iftype headroom check_da check_sa mc = Some [].
Proof.
  intros Ec Hok Hm. unfold ieee80211_amsdu_to_8023s. cbn [amsdu_loop].
  unfold amsdu_copy_len, sizeof_ethhdr. rewrite Z.sub_0_r.
  set (n := if is_mesh iftype then 14 + 1 else 14).
  assert (14 <= n <= 15) as Hn by (unfold n; destruct (is_mesh iftype); lia).
  destruct (Z.ltb_spec (rx_len skb) n); [done|].
  destruct (amsdu_header_any skb 0 n) as (hdr & eth & rest & post & E & Hz & Hg & Hd & Hr & H6 & H6' & H2);
    [lia..|]. rewrite E, bind_some, Hg, bind_some.
  destruct (header_flags iftype hdr stale) as [flags ->].
  { rewrite Hz. unfold n. by destruct (is_mesh iftype). }
  rewrite bind_some.
  destruct (subframe_length_any (h_proto eth) flags mc) as (len & -> & _);
    [lia|by eapply header_proto_ok|]. rewrite bind_some.
  destruct (rx_len skb <? 14 + len); [done|]. change (0 =? 0) with true. cbv iota.
  rewrite drop_0, Hr, <- app_assoc in Hd.
  destruct (aggregation_attack_spec iftype skb eth (rest ++ post)) as (b & -> & Hb); [done..|].
  rewrite bind_some. replace b with true; [done|]. symmetry. apply Hb. unfold injected. cbn zeta.
  destruct (is_mesh iftype).
  - destruct Hm as (fl & Hfl & Hmz). rewrite Ec, rd8_app_l.
    + rewrite Hfl. change (default 0 (Some fl)) with fl. rewrite <- Hmz. by apply slice_app.
    + rewrite Hmz. destruct (mesh_hdrlen_cases fl) as [-> | [-> | ->]]; lia.
  - subst mesh_header. rewrite Ec. exact (slice_prefix rfc1042_header payload 6 eq_refl).
Qed.

(** ** One data frame *)

(** The header of a data frame by its fields; [rest] holds the fourth address,
    if any, the QoS control and the HT control. *)
Record data_header := mk_dh { dh_fc : Z; dur : list Z; a1 : list Z; a2 : list Z; a3 : list Z;
  seq : list Z; rest : list Z }.

Definition header_bytes (h : data_header) : list Z :=
  le16_bytes (dh_fc h) ++ dur h ++ a1 h ++ a2 h ++ a3 h ++ seq h ++ rest h.

Definition header_ok (h : data_header) : Prop :=
  is_uint 16 (dh_fc h) /\ zlen (dur h) = 2 /\ zlen (a1 h) = 6 /\ zlen (a2 h) = 6 /\
  zlen (a3 h) = 6 /\ zlen (seq h) = 2 /\ zlen (header_bytes h) = ieee80211_hdrlen (dh_fc h).

Definition a4 (h : data_header) : list Z := take 6 (rest h).

(** The destination and the source by the DS bits, as in table 9-30 of the
    standard. *)
Definition dest_of (h : data_header) : list Z :=
  match ieee80211_has_tods (dh_fc h), ieee80211_has_fromds (dh_fc h) with
  | false, _ => a1 h
  | true, _ => a3 h
  end.

Definition source_of (h : data_header) : list Z :=
  match ieee80211_has_tods (dh_fc h), ieee80211_has_fromds (dh_fc h) with
  | _, false => a2 h
  | false, true => a3 h
  | true, true => a4 h
  end.

(** Which interface types take which directions; a frame that comes back from
    the access point to its own multicast sender is refused. *)
Definition direction_ok (iftype : nl80211_iftype) (h : data_header) (addr : list Z) : bool :=
  match ieee80211_has_tods (dh_fc h), ieee80211_has_fromds (dh_fc h) with
  | false, false =>
      bool_decide (iftype ∈ [NL80211_IFTYPE_ADHOC; NL80211_IFTYPE_STATION; NL80211_IFTYPE_OCB;
                             NL80211_IFTYPE_NAN_DATA])
  | true, false =>
      bool_decide (iftype ∈ [NL80211_IFTYPE_AP; NL80211_IFTYPE_AP_VLAN; NL80211_IFTYPE_P2P_GO])
  | true, true =>
      bool_decide (iftype ∈ [NL80211_IFTYPE_MESH_POINT; NL80211_IFTYPE_AP_VLAN; NL80211_IFTYPE_STATION])
  | false, true =>
      bool_decide (iftype ∈ [NL80211_IFTYPE_STATION; NL80211_IFTYPE_P2P_CLIENT; NL80211_IFTYPE_MESH_POINT]) &&
      negb (is_multicast_ether_addr (default 0 (rd8 (a1 h) 0)) && bool_decide (a3 h = addr))
  end.

Lemma ds_bits fc :
  fc .& (IEEE80211_FCTL_TODS .| IEEE80211_FCTL_FROMDS) =
  (if ieee80211_has_tods fc then 256 else 0) + (if ieee80211_has_fromds fc then 512 else 0).
Proof.
  unfold ieee80211_has_tods, ieee80211_has_fromds.
  change IEEE80211_FCTL_TODS with (2 ^ 8). change IEEE80211_FCTL_FROMDS with (2 ^ 9).
  rewrite !nz_land_pow2, Z.land_lor_distr_r, !land_pow2 by lia.
  by destruct (Z.testbit fc 8), (Z.testbit fc 9).
Qed.

Lemma iftype_accepts_spec iftype h addr :
  zlen (a1 h) = 6 ->
  forall own,
  own = is_multicast_ether_addr (default 0 (rd8 (dest_of h) 0)) && bool_decide (source_of h = addr) ->
  iftype_accepts iftype (dh_fc h) own = direction_ok iftype h addr.
Proof.
  intros _ own ->. unfold iftype_accepts, direction_ok, dest_of, source_of. rewrite ds_bits.
  destruct (ieee80211_has_tods (dh_fc h)), (ieee80211_has_fromds (dh_fc h)); destruct iftype; reflexivity.
Qed.

Lemma le16_zlen v : zlen (le16_bytes v) = 2.
Proof. done. Qed.

Section DataHeader.
Context (h : data_header) (post : list Z).
Hypothesis Hh : header_ok h.

Lemma header_frame_control : hdr_frame_control (header_bytes h ++ post) = Some (dh_fc h).
Proof.
  destruct Hh as (Hfc & _). unfold hdr_frame_control, header_bytes. rewrite <- app_assoc.
  by apply rd_le16_bytes.
Qed.

Lemma header_addr pre a rest' off :
  header_bytes h = pre ++ a ++ rest' -> zlen pre = off -> zlen a = 6 ->
  slice (header_bytes h ++ post) off 6 = Some a.
Proof. intros -> Hp Ha. rewrite <- !app_assoc. by apply slice_of. Qed.

Lemma header_a1 : slice (header_bytes h ++ post) 4 6 = Some (a1 h).
Proof.
  destruct Hh as (_ & ? & ? & _).
  apply (header_addr (le16_bytes (dh_fc h) ++ dur h) _ (a2 h ++ a3 h ++ seq h ++ rest h)); [|zlens; rewrite ?le16_zlen; lia|done].
  unfold header_bytes. by rewrite <- !app_assoc.
Qed.

Lemma header_a2 : slice (header_bytes h ++ post) 10 6 = Some (a2 h).
Proof.
  destruct Hh as (_ & ? & ? & ? & _).
  apply (header_addr (le16_bytes (dh_fc h) ++ dur h ++ a1 h) _ (a3 h ++ seq h ++ rest h)); [|zlens; rewrite ?le16_zlen; lia|done].
  unfold header_bytes. by rewrite <- !app_assoc.
Qed.

Lemma header_a3 : slice (header_bytes h ++ post) 16 6 = Some (a3 h).
Proof.
  destruct Hh as (_ & ? & ? & ? & ? & _).
  apply (header_addr (le16_bytes (dh_fc h) ++ dur h ++ a1 h ++ a2 h) _ (seq h ++ rest h)); [|zlens; rewrite ?le16_zlen; lia|done].
  unfold header_bytes. by rewrite <- !app_assoc.
Qed.

Lemma header_a4 :
  ieee80211_is_data (dh_fc h) = true -> ieee80211_has_a4 (dh_fc h) = true ->
  slice (header_bytes h ++ post) 24 6 = Some (a4 h).
Proof.
  destruct Hh as (_ & ? & ? & ? & ? & ? & Hl). intros Hd H4.
  rewrite hdrlen_data, H4 in Hl by done. unfold header_bytes in Hl. zlens.
  rewrite le16_zlen in Hl.
  assert (6 <= zlen (rest h)) by (repeat case_match; lia).
  apply (header_addr (le16_bytes (dh_fc h) ++ dur h ++ a1 h ++ a2 h ++ a3 h ++ seq h) _ (drop 6 (rest h))).
  - unfold header_bytes, a4. by rewrite <- !app_assoc, take_drop.
  - zlens. rewrite le16_zlen. lia.
  - unfold a4, zlen in *. rewrite length_take. lia.
Qed.

(** The addresses the code copies. *)
Lemma header_addresses :
  ieee80211_is_data (dh_fc h) = true ->
  (da ← ieee80211_get_DA (header_bytes h ++ post); slice (header_bytes h ++ post) da 6) = Some (dest_of h) /\
  (sa ← ieee80211_get_SA (header_bytes h ++ post); slice (header_bytes h ++ post) sa 6) = Some (source_of h).
Proof.
  intros Hd. pose proof header_a4 as H4. unfold ieee80211_get_DA, ieee80211_get_SA.
  rewrite header_frame_control, !bind_some. unfold dest_of, source_of.
  rewrite has_a4_spec in *.
  destruct (ieee80211_has_tods (dh_fc h)), (ieee80211_has_fromds (dh_fc h)); cbn [andb];
    split; first [by apply H4 | apply header_a1 | apply header_a2 | apply header_a3].
Qed.

End DataHeader.

Lemma pskb_pull_spec `{RxMemLaws} skb n :
  0 <= n <= rx_len skb -> (forall k, k <= rx_len skb -> is_Some (pskb_pull_tail skb k)) ->
  exists s, pskb_pull skb n = Some s /\ content s = drop (Z.to_nat n) (content skb) /\
    n <= skb_headroom (lin s).
Proof.
  intros Hn Hp. unfold pskb_pull, pskb_may_pull.
  assert (forall s, content s = content skb -> n <= skb_len (lin s) ->
    exists s', rx_pull s n = Some s' /\ content s' = drop (Z.to_nat n) (content skb) /\
      n <= skb_headroom (lin s')) as Hok.
  { intros s Hc Hl. destruct (rx_pull_spec s n) as (s' & -> & Hc' & Hh & _); [lia|].
    exists s'. rewrite Hc', Hc, Hh. pose proof (zlen_nonneg (head (lin s))). unfold skb_headroom.
    split_and!; try done. lia. }
  destruct (Z.leb_spec n (skb_len (lin skb))); [by apply Hok|].
  destruct (Z.ltb_spec (rx_len skb) n); [lia|]. destruct (Hp n) as [s Es]; [lia|]. rewrite Es.
  apply Hok; [by apply (pull_tail_content skb n)|by apply (pull_tail_linear skb n)].
Qed.

(** What the conversion pushes onto the frame without its first [k] octets. *)
Lemma replace_header `{RxMemLaws} skb k d src p :
  zlen d = 6 -> zlen src = 6 -> zlen p = 2 -> 14 <= k <= rx_len skb ->
  (forall n, n <= rx_len skb -> is_Some (pskb_pull_tail skb n)) ->
  exists skb',
    (skb ← pskb_pull skb k; skb ← rx_push_data skb (eth_bytes (mk_eth d src p));
     Some (0, skb, @None ethhdr)) = Some (0, skb', None) /\
    content skb' = d ++ src ++ p ++ drop (Z.to_nat k) (content skb).
Proof.
  intros Hd Hs Hp Hk Hpull. destruct (pskb_pull_spec skb k) as (s & -> & Hc & Hhd); [lia|done|].
  rewrite bind_some. destruct (rx_push_data_spec s (eth_bytes (mk_eth d src p)))
    as (s' & -> & Hc' & _); [rewrite eth_bytes_zlen by done; lia|].
  exists s'. split; [done|]. rewrite Hc', Hc. unfold eth_bytes. cbn. by rewrite <- !app_assoc.
Qed.

(** C22: a data frame becomes an Ethernet frame with the destination and source
    its DS bits select and its encapsulation header removed or its length put
    in; on an interface that does not take frames of that direction it is
    refused and left alone. *)
Theorem data_to_8023_correct `{RxMemLaws} skb h l0 payload addr iftype :
  data (lin skb) = header_bytes h ++ l0 -> content skb = header_bytes h ++ payload ->
  header_ok h -> ieee80211_is_data_present (dh_fc h) = true ->
  (forall n, n <= rx_len skb -> is_Some (pskb_pull_tail skb n)) ->
  if direction_ok iftype h addr then
    exists skb', ieee80211_data_to_8023 skb addr iftype = Some (0, skb', None) /\
      content skb' = dest_of h ++ source_of h ++
        (if is_mesh iftype then htons (zlen payload) ++ payload else decap payload)
  else ieee80211_data_to_8023 skb addr iftype = Some (-1, skb, None).
Proof.
  intros El Ec Hh Hdp Hpull. pose proof (data_present_is_data _ Hdp) as Hd.
  pose proof Hh as (_ & _ & H1 & _ & H3 & _ & Hhl).
  unfold ieee80211_data_to_8023, ieee80211_data_to_8023_exthdr. rewrite El.
  rewrite header_frame_control, bind_some, Hdp by done. cbn [negb].
  pose proof (hdrlen_range (dh_fc h)) as Hr. rewrite Z.add_0_r, wrap_small by (unfold is_uint; lia).
  assert (rx_len skb = ieee80211_hdrlen (dh_fc h) + zlen payload) as Hlen.
  { unfold rx_len. rewrite Ec. zlens. lia. }
  pose proof (zlen_nonneg payload). destruct (Z.ltb_spec (rx_len skb) (ieee80211_hdrlen (dh_fc h))); [lia|].
  destruct (header_addresses h l0 Hh Hd) as [HD HS].
  destruct (ieee80211_get_DA (header_bytes h ++ l0)) as [da|]; [|done].
  destruct (ieee80211_get_SA (header_bytes h ++ l0)) as [sa|]; [|done]. rewrite bind_some in HD, HS.
  unfold ETH_ALEN. rewrite bind_some, HD, !bind_some, HS, bind_some. unfold mcast_addr.
  apply slice_Some in HD as (_ & _ & _ & _ & Hzd). apply slice_Some in HS as (_ & _ & _ & _ & Hzs).
  destruct (rd8_Some (dest_of h) 0) as [b Eb]; [lia|]. rewrite Eb, !bind_some. unfold ether_addr_equal.
  rewrite (iftype_accepts_spec iftype h addr H1) by (by rewrite Eb).
  destruct (direction_ok iftype h addr); [|done]. cbn [negb andb].
  unfold skb_copy_bits. set (hl := ieee80211_hdrlen (dh_fc h)) in *.
  assert (forall p k, zlen p = 2 -> 14 <= k <= rx_len skb -> exists skb',
    (skb ← pskb_pull skb k; skb ← rx_push_data skb (eth_bytes (mk_eth (dest_of h) (source_of h) p));
     Some (0, skb, @None ethhdr)) = Some (0, skb', None) /\
    content skb' = dest_of h ++ source_of h ++ p ++ drop (Z.to_nat k) (content skb)) as Hfin
    by (intros; by apply replace_header).
  assert (14 <= hl) as H14.
  { unfold hl. rewrite hdrlen_data by done. repeat case_match; lia. }
  assert (drop (Z.to_nat hl) (content skb) = payload) as Hdrop.
  { rewrite Ec. apply drop_app_length'. unfold zlen in Hhl. lia. }
  assert (zlen (htons (rx_len skb - hl)) = 2) as Hht by done.
  replace (rx_len skb - hl) with (zlen payload) in * by lia.
  destruct (is_mesh iftype); cbn [negb andb].
  { rewrite bind_some. cbv iota beta zeta. destruct (Hfin (htons (zlen payload)) hl) as (s & Hs & Hc); [done|lia|].
    exists s. split; [exact Hs|]. by rewrite Hc, Hdrop. }
  unfold decap.
  destruct (Z.leb_spec 8 (zlen payload)).
  - destruct (split_at payload 8) as (x & y & E & Hx); [lia|].
    rewrite Ec, E, (slice_of (header_bytes h) x) by done.
    pose proof (tunnel_proto_spec x []) as Ht'. rewrite app_nil_r in Ht'.
    rewrite Ht', bind_some by lia.
    destruct (is_encap_app x y) as [He Ht]; [lia|]. rewrite <- (decide_ext _ _ _ _ He), <- Ht, <- E.
    destruct (decide (is_encap payload)).
    + cbv iota beta zeta. rewrite wrap_small by (unfold is_uint; lia).
      destruct (Hfin (take 2 (drop 6 payload)) (hl + 6 + 2)) as (s & Hs & Hc).
      { unfold zlen in *. rewrite length_take, length_drop. lia. } { lia. }
      exists s. split; [exact Hs|]. rewrite Hc. do 2 f_equal.
      replace (Z.to_nat (hl + 6 + 2)) with (Z.to_nat hl + (6 + 2))%nat by lia.
      rewrite <- drop_drop, Hdrop, <- drop_drop. apply take_drop.
    + cbv iota beta zeta. destruct (Hfin (htons (zlen payload)) hl) as (s & Hs & Hc); [done|lia|].
      exists s. split; [exact Hs|]. by rewrite Hc, Hdrop.
  - assert (slice (content skb) hl 8 = None) as ->.
    { unfold slice, in_range. unfold rx_len in Hlen. repeat zcase; try done; lia. }
    rewrite bind_some. cbv iota beta zeta.
    destruct (decide _) as [[? _]|]; [lia|].
    destruct (Hfin (htons (zlen payload)) hl) as (s & Hs & Hc); [done|lia|].
    exists s. split; [exact Hs|]. by rewrite Hc, Hdrop.
Qed.

(** ** A subframe shorter than an encapsulation header

    The encapsulation is looked for in eight octets from the start of the
    frame, whatever its length: with six octets of payload that equal the
    RFC 1042 header, the protocol of the frame is the two octets the memory
    behind happens to hold. *)
Lemma amsdu_short_body_stale `{RxMem} iftype skb l p t e :
  is_mesh iftype = false -> data l = rfc1042_header -> tail l = p ++ t -> zlen p = 2 ->
  p <> ETH_P_AARP -> p <> ETH_P_IPX -> zlen (h_dest e) = 6 -> zlen (h_source e) = 6 ->
  14 <= skb_headroom l ->
  exists f, amsdu_finish iftype skb (mk_rx l [] [] false 0 0) e = Some f /\
    content f = h_dest e ++ h_source e ++ p ++ rfc1042_header.
Proof.
  intros Hi Hd Ht Hp Hne Hne' He He' Hh. unfold amsdu_finish. cbv zeta. rewrite Hi.
  cbn [lin set_priority set_dev dev frags frag_list head_frag priority]. rewrite Hd, Ht.
  rewrite <- !app_assoc, (app_assoc rfc1042_header p).
  rewrite tunnel_proto_spec, bind_some by (zlens; change (zlen rfc1042_header) with 6; lia).
  destruct (is_encap_split rfc1042_header p []) as [Ht' Hi']; [done..|]. rewrite app_nil_r in Ht', Hi'.
  destruct (decide _) as [|Hn]; [|exfalso; apply Hn, Hi'; auto]. rewrite Ht'.
  rewrite rx_pull_short, !bind_some.
  2:{ unfold rx_len, content, paged. cbn. by rewrite Hd. }
  match goal with |- context [rx_push_data ?s ?bs] => destruct (rx_push_data_spec s bs) as (f & -> & Hc & _) end.
  { by rewrite eth_bytes_zlen. }
  exists f. split; [done|]. rewrite Hc. unfold eth_bytes, set_proto, content, paged. cbn [lin data frags frag_list concat app
    set_priority set_dev h_dest h_source h_proto].
  by rewrite Hd, !app_nil_r, <- !app_assoc.
Qed.

(** ** Mesh headers *)

Lemma pskb_may_pull_spec `{RxMemLaws} skb n :
  0 <= n <= rx_len skb -> (forall k, k <= rx_len skb -> is_Some (pskb_pull_tail skb k)) ->
  exists s, pskb_may_pull skb n = Some s /\ content s = content skb /\ n <= skb_len (lin s).
Proof.
  intros Hn Hp. unfold pskb_may_pull. destruct (Z.leb_spec n (skb_len (lin skb))); [by exists skb|].
  destruct (Z.ltb_spec (rx_len skb) n); [lia|]. destruct (Hp n) as [s Es]; [lia|]. exists s.
  split; [done|]. split; [by apply (pull_tail_content skb n)|by apply (pull_tail_linear skb n)].
Qed.

Lemma slice_linear s off n :
  0 <= off -> 0 <= n -> off + n <= skb_len (lin s) -> slice (data (lin s)) off n = slice (content s) off n.
Proof.
  intros. destruct (split3 (data (lin s)) off n (skb_len (lin s) - off - n)) as (x & y & z & E & Hx & Hy & _);
    [unfold skb_len in *; lia..|]. unfold content. rewrite E, <- !app_assoc.
  by rewrite !(slice_of x y) by done.
Qed.

(** The addresses of an Ethernet frame whose payload starts with a mesh header:
    the address extension replaces the source or both. *)
Definition mesh_addrs (flags : Z) (mesh d s : list Z) : list Z * list Z :=
  if flags .& MESH_FLAGS_AE =? MESH_FLAGS_AE_A4 then (d, take 6 (drop 6 mesh))
  else if flags .& MESH_FLAGS_AE =? MESH_FLAGS_AE_A5_A6 then (take 6 (drop 6 mesh), take 6 (drop 12 mesh))
  else (d, s).

(** The last steps of the function: the addresses, and the new header. *)
Lemma strip_finish `{RxMemLaws} skb d s p q mesh payload flags k :
  content skb = (d ++ s ++ q) ++ mesh ++ payload -> zlen d = 6 -> zlen s = 6 -> zlen q = 2 -> zlen p = 2 ->
  zlen mesh = __ieee80211_get_mesh_hdrlen flags -> 14 + zlen mesh <= k <= skb_len (lin skb) ->
  exists skb',
    (eth ← (if flags .& MESH_FLAGS_AE =? MESH_FLAGS_AE_A4 then
              a ← slice (data (lin skb)) (sizeof_ethhdr + ETH_ALEN) ETH_ALEN; Some (set_source (mk_eth d s p) a)
            else if flags .& MESH_FLAGS_AE =? MESH_FLAGS_AE_A5_A6 then
              a ← slice (data (lin skb)) (sizeof_ethhdr + ETH_ALEN) ETH_ALEN;
              b ← slice (data (lin skb)) (sizeof_ethhdr + ETH_ALEN + ETH_ALEN) ETH_ALEN;
              Some (mk_eth a b p)
            else Some (mk_eth d s p));
     skb ← pskb_pull skb (k - sizeof_ethhdr);
     st ← store (data (lin skb)) 0 (eth_bytes eth);
     Some (0, set_lin skb (set_data (lin skb) st))) = Some (0, skb') /\
    content skb' = (mesh_addrs flags mesh d s).1 ++ (mesh_addrs flags mesh d s).2 ++ p ++
      drop (Z.to_nat k) (content skb).
Proof.
  intros Ec Hd Hs Hq Hp Hm Hk. unfold sizeof_ethhdr, ETH_ALEN, mesh_addrs.
  assert (forall e, zlen (eth_bytes e) = 14 -> exists skb',
    (skb ← pskb_pull skb (k - 14); st ← store (data (lin skb)) 0 (eth_bytes e);
     Some (0, set_lin skb (set_data (lin skb) st))) = Some (0, skb') /\
    content skb' = eth_bytes e ++ drop (Z.to_nat k) (content skb)) as Hfin.
  { intros e He. pose proof (zlen_nonneg mesh). unfold pskb_pull, pskb_may_pull.
    destruct (Z.leb_spec (k - 14) (skb_len (lin skb))); [|lia].
    destruct (rx_pull_spec skb (k - 14)) as (t & -> & Hc & _ & Hl & _); [lia|]. rewrite bind_some.
    destruct (split_at (data (lin t)) 14) as (x & y & E & Hx); [unfold skb_len in *; lia|].
    rewrite E, store_prefix by (unfold zlen in *; lia). rewrite bind_some. eexists. split; [done|].
    rewrite content_set_lin. cbn [set_data data]. change (paged (set_lin t _)) with (paged t).
    unfold content in Hc at 1. rewrite E in Hc.
    rewrite <- !app_assoc in *. f_equal. apply (f_equal (drop 14)) in Hc.
    rewrite drop_app_length' in Hc by (unfold zlen in Hx; lia). rewrite Hc, drop_drop. f_equal. lia. }
  assert (forall pre a r, mesh = pre ++ a ++ r -> zlen a = 6 ->
            slice (data (lin skb)) (14 + zlen pre) 6 = Some a) as Hsl.
  { intros pre a r -> Ha. zlens. pose proof (zlen_nonneg pre). pose proof (zlen_nonneg r).
    rewrite slice_linear by lia. rewrite Ec.
    replace ((d ++ s ++ q) ++ (pre ++ a ++ r) ++ payload) with ((d ++ s ++ q ++ pre) ++ a ++ r ++ payload)
      by (by rewrite <- !app_assoc). apply slice_of; [zlens; lia|done]. }
  unfold __ieee80211_get_mesh_hdrlen in Hm. cbv zeta in Hm.
  destruct (flags .& MESH_FLAGS_AE =? MESH_FLAGS_AE_A4); [|destruct (flags .& MESH_FLAGS_AE =? MESH_FLAGS_AE_A5_A6)].
  - destruct (split_at mesh 6) as (x & a & -> & Hx); [lia|]. zlens.
    pose proof (Hsl x a []) as E. rewrite Hx in E. rewrite app_nil_r in E.
    change (14 + 6) with 20 in *. rewrite E, !bind_some by (done || lia).
    destruct (Hfin (set_source (mk_eth d s p) a)) as (t & -> & Ht); [apply eth_bytes_zlen; cbn; lia|].
    exists t. split; [done|]. rewrite Ht. unfold eth_bytes. cbn [h_dest h_source h_proto set_source fst snd].
    rewrite (drop_app_length' x) by (unfold zlen in *; lia). rewrite (take_ge a) by (unfold zlen in *; lia).
    by rewrite <- !app_assoc.
  - destruct (split3 mesh 6 6 6) as (x & a & b & -> & Hx & Ha & Hb); [lia..|]. zlens.
    pose proof (Hsl x a b) as E. rewrite Hx in E. pose proof (Hsl (x ++ a) b []) as E'. zlens.
    rewrite Hx, Ha, app_nil_r, <- app_assoc in E'.
    change (14 + 6) with 20 in *. change (14 + (6 + 6)) with (20 + 6) in *.
    rewrite E, bind_some, E', !bind_some by (done || lia).
    destruct (Hfin (mk_eth a b p)) as (t & -> & Ht); [by apply eth_bytes_zlen|].
    exists t. split; [done|]. rewrite Ht. unfold eth_bytes. cbn [h_dest h_source h_proto fst snd].
    rewrite (drop_app_length' x) by (unfold zlen in *; lia).
    rewrite (take_app_length' a) by (unfold zlen in *; lia). rewrite (app_assoc x a b).
    rewrite (drop_app_length' (x ++ a)) by (rewrite length_app; unfold zlen in *; lia).
    rewrite (take_ge b) by (unfold zlen in *; lia). by rewrite <- !app_assoc.
  - rewrite bind_some. destruct (Hfin (mk_eth d s p)) as (t & -> & Ht); [by apply eth_bytes_zlen|].
    exists t. split; [done|]. rewrite Ht. unfold eth_bytes. cbn [h_dest h_source h_proto fst snd].
    by rewrite <- !app_assoc.
Qed.

Lemma strip_find_header_spec `{RxMemLaws} skb eth e mesh payload :
  content skb = e ++ mesh ++ payload -> zlen e = 14 ->
  (forall n, n <= rx_len skb -> is_Some (pskb_pull_tail skb n)) ->
  exists t p k, strip_find_header skb eth (14 + zlen mesh) = Some (0, t, set_proto eth p, k) /\
    content t = content skb /\ 14 + zlen mesh <= k <= skb_len (lin t) /\ zlen p = 2 /\
    p ++ drop (Z.to_nat (k - 14 - zlen mesh)) payload = decap payload.
Proof.
  intros Ec He Hpull. unfold strip_find_header. set (h := 14 + zlen mesh).
  assert (rx_len skb = h + zlen payload) as Hl by (unfold rx_len, h; rewrite Ec; zlens; lia).
  pose proof (zlen_nonneg payload). pose proof (zlen_nonneg mesh).
  assert (forall t, content t = content skb -> h <= skb_len (lin t) -> ~ is_encap payload ->
    exists t' p k,
    match pskb_may_pull t h with
    | None => Some (- EINVAL, t, eth, h)
    | Some t => Some (0, t, set_proto eth (htons (rx_len t - h)), h)
    end = Some (0, t', set_proto eth p, k) /\
    content t' = content skb /\ h <= k <= skb_len (lin t') /\ zlen p = 2 /\
    p ++ drop (Z.to_nat (k - 14 - zlen mesh)) payload = decap payload) as Hno.
  { intros t Hct Hlt Hne. unfold pskb_may_pull. destruct (Z.leb_spec h (skb_len (lin t))); [|lia].
    exists t, (htons (rx_len t - h)), h. split_and!; try done.
    unfold decap, rx_len in *. destruct (decide _); [done|]. rewrite Hct.
    replace (zlen (content skb) - h) with (zlen payload) by lia.
    by replace (Z.to_nat _) with 0%nat by (unfold h; lia). }
  destruct (Z.leb_spec 8 (zlen payload)) as [Hp8|Hp8].
  - destruct (pskb_may_pull_spec skb (h + 8)) as (t & -> & Hct & Hlt); [lia|done|].
    destruct (split_at payload 8) as (x & y & E & Hx); [lia|].
    assert (slice (content skb) h 8 = Some x) as Hsx.
    { rewrite Ec, E, (app_assoc e). apply slice_of; [unfold h; zlens; lia|done]. }
    rewrite slice_linear by lia. rewrite Hct, Hsx, bind_some.
    pose proof (tunnel_proto_spec x []) as Ht'. rewrite app_nil_r in Ht'. rewrite Ht', bind_some by lia.
    destruct (is_encap_app x y) as [Hi Ht]; [lia|]. rewrite <- (decide_ext _ _ _ _ Hi), <- Ht, <- E.
    destruct (decide (is_encap payload)); [|apply Hno; try done; lia].
    eexists t, _, (h + ETH_ALEN + 2). split; [done|]. unfold ETH_ALEN. split_and!; try done; try lia.
    + unfold zlen in *. rewrite length_take, length_drop. lia.
    + unfold decap. destruct (decide (is_encap payload)); [|done].
      replace (Z.to_nat (h + 6 + 2 - 14 - zlen mesh)) with (6 + 2)%nat by (unfold h; lia).
      rewrite <- drop_drop. apply take_drop.
  - assert (pskb_may_pull skb (h + 8) = None) as -> .
    { unfold pskb_may_pull. pose proof (zlen_nonneg (paged skb)).
      assert (skb_len (lin skb) <= rx_len skb) by (unfold rx_len, content, skb_len; zlens; lia).
      repeat zcase; (done || lia). }
    assert (~ is_encap payload) by (intros [? _]; lia).
    destruct (Z.leb_spec h (skb_len (lin skb))); [by apply Hno|].
    destruct (pskb_may_pull_spec skb h) as (t & E & Hct & Hlt); [lia|done|].
    destruct (Hno t) as (t' & p & k & E' & Hrest); try done. rewrite E.
    unfold pskb_may_pull in E'. destruct (Z.leb_spec h (skb_len (lin t))); [|lia]. eauto 10.
Qed.

(** Removing the mesh header of a converted frame puts the addresses of its
    extension into the Ethernet header and removes the encapsulation behind
    it, wherever the octets lie in the buffer. *)
Theorem strip_8023_mesh_hdr_correct `{RxMemLaws} skb d s q mesh payload flags :
  content skb = (d ++ s ++ q) ++ mesh ++ payload -> zlen d = 6 -> zlen s = 6 -> zlen q = 2 ->
  rd8 mesh 0 = Some flags -> zlen mesh = __ieee80211_get_mesh_hdrlen flags ->
  (forall n, n <= rx_len skb -> is_Some (pskb_pull_tail skb n)) ->
  exists skb', ieee80211_strip_8023_mesh_hdr skb = Some (0, skb') /\
    content skb' = (mesh_addrs flags mesh d s).1 ++ (mesh_addrs flags mesh d s).2 ++ decap payload.
Proof.
  intros Ec Hd Hs Hq Hf Hm Hpull. unfold ieee80211_strip_8023_mesh_hdr, skb_copy_bits, sizeof_ethhdr.
  pose proof (mesh_hdrlen_cases flags) as Hcs. pose proof (zlen_nonneg payload).
  assert (rx_len skb = 14 + zlen mesh + zlen payload) as Hl by (unfold rx_len; rewrite Ec; zlens; lia).
  destruct mesh as [|f mesh]; [done|]. injection Hf as ->.
  assert (slice (content skb) 0 (14 + 1) = Some (d ++ s ++ q ++ [flags])) as ->.
  { rewrite Ec. replace ((d ++ s ++ q) ++ (flags :: mesh) ++ payload)
      with ((d ++ s ++ q ++ [flags]) ++ mesh ++ payload) by (by rewrite <- !app_assoc).
    apply slice_prefix. zlens. lia. }
  rewrite get_ethhdr_bytes, bind_some by done.
  assert (rd8 (d ++ s ++ q ++ [flags]) 14 = Some flags) as ->.
  { replace 14 with (zlen (d ++ s ++ q) + 0) by (zlens; lia).
    rewrite (app_assoc s), (app_assoc d), rd8_app_r by lia. done. }
  rewrite bind_some. cbv zeta. rewrite <- Hm. set (m := flags :: mesh) in *.
  destruct (strip_find_header_spec skb (mk_eth d s q) (d ++ s ++ q) m payload) as (t & p & k & -> & Hct & Hk & Hp & Hdec);
    try done; [zlens; lia|].
  rewrite bind_some. cbv beta iota zeta. change (nz 0) with false. cbv iota.
  destruct (strip_finish t d s p q m payload flags k) as (u & Hu & Hcu); try done; [by rewrite Hct|].
  exists u. split; [exact Hu|]. rewrite Hcu, Hct, Ec, <- Hdec. do 3 f_equal.
  rewrite app_assoc, drop_app_ge by (rewrite !length_app; unfold zlen in *; lia). f_equal.
  rewrite !length_app. unfold zlen in *. lia.
Qed.

(** ** Witnesses *)

Module Sample.

Definition mem : RxMem := {|
  dev_alloc_skb n := Some (mk_skb [] [] (replicate (Z.to_nat n) 0) false);
  pskb_pull_tail s n :=
    if rx_len s <? n then None
    else Some (mk_rx (set_data (lin s) (content s)) [] [] false (dev s) (priority s));
  shinfo := replicate 64 0;
  max_skb_frags := 17;
|}.

Lemma laws : @RxMemLaws mem.
Proof.
  split.
  - by intros n s [= <-].
  - intros n s [= <-]. unfold skb_tailroom, zlen. cbn [tail]. rewrite length_replicate. lia.
  - intros s n s'. cbn [pskb_pull_tail mem]. destruct (rx_len s <? n); [done|]. intros [= <-].
    unfold content, paged at 1. cbn. by rewrite app_nil_r.
  - intros s n s'. cbn [pskb_pull_tail mem]. destruct (Z.ltb_spec (rx_len s) n); [done|]. by intros [= <-].
  - done.
Qed.

(** An A-MSDU of three subframes: encapsulated IPv4 to this station, another
    station's frame, and a frame with a length. *)
Definition own : list Z := [2; 0; 0; 0; 0; 1].
Definition peer : list Z := [2; 0; 0; 0; 0; 9].
Definition msdus : list msdu :=
  [mk_msdu own peer (rfc1042_header ++ [8; 0; 69; 0; 1]) [0; 0; 0];
   mk_msdu peer peer (rfc1042_header ++ [8; 0; 70]) [0];
   mk_msdu own peer [66; 66; 3; 0; 0; 0; 0; 0; 0] []].

(** [enc] in a linear part of 28 octets and two fragments. *)
Definition scattered (enc : list Z) : rx_skb :=
  mk_rx (mk_skb [] (take 28 enc) [] false) [take 12 (drop 28 enc); drop 40 enc] [] true 3 5.

Definition header : data_header :=
  mk_dh 0x0208 [0; 0] own [2; 0; 0; 0; 0; 3] peer [16; 0] [].

End Sample.

Ltac by_eval := by (eapply bool_decide_unpack; vm_compute).

Lemma amsdu_split_correct_witness :
  exists fs,
    @ieee80211_amsdu_to_8023s Sample.mem 0 (Sample.scattered (encode 0 Sample.msdus))
      NL80211_IFTYPE_STATION 30 (Some Sample.own) None 0 = Some fs /\
    map content fs =
      [Sample.own ++ Sample.peer ++ [8; 0; 69; 0; 1];
       Sample.own ++ Sample.peer ++ [0; 9; 66; 66; 3; 0; 0; 0; 0; 0; 0]].
Proof.
  apply (@amsdu_split_correct Sample.mem Sample.laws) with (ms := Sample.msdus);
    [reflexivity|done|..]; try (vm_compute; done).
  - repeat apply List.Forall_cons; [..|apply List.Forall_nil]; vm_compute; done.
  - intros n. cbn. eauto.
Defined.

Lemma amsdu_split_safe_witness :
  exists fs,
    @ieee80211_amsdu_to_8023s Sample.mem 0 (Sample.scattered (replicate 70 5))
      NL80211_IFTYPE_MESH_POINT 30 None None 2 = Some fs /\
    Forall (delivered (Sample.scattered (replicate 70 5))) fs.
Proof.
  apply (@amsdu_split_safe Sample.mem Sample.laws); [lia|by_eval|reflexivity|reflexivity].
Defined.

Lemma amsdu_injection_rejected_witness :
  @ieee80211_amsdu_to_8023s Sample.mem 0
    (Sample.scattered ([1; 31; 0; 0; 0; 0; 2; 0; 0; 0; 0; 0] ++ rfc1042_header ++ replicate 60 8))
    NL80211_IFTYPE_MESH_POINT 30 None None 2 = Some [].
Proof.
  apply (@amsdu_injection_rejected Sample.mem) with
    (mesh_header := [1; 31; 0; 0; 0; 0; 2; 0; 0; 0; 0; 0]) (payload := replicate 60 8);
    [reflexivity|by_eval|by exists 1].
Defined.

Lemma data_to_8023_correct_witness :
  exists skb',
    @ieee80211_data_to_8023 Sample.mem
      (Sample.scattered (header_bytes Sample.header ++ rfc1042_header ++ [134; 221; 96; 0; 0]))
      [2; 0; 0; 0; 0; 7] NL80211_IFTYPE_STATION = Some (0, skb', None) /\
    content skb' = Sample.own ++ Sample.peer ++ [134; 221; 96; 0; 0].
Proof.
  apply (@data_to_8023_correct Sample.mem Sample.laws _ Sample.header [170; 170; 3; 0]
    (rfc1042_header ++ [134; 221; 96; 0; 0]) [2; 0; 0; 0; 0; 7] NL80211_IFTYPE_STATION);
    [reflexivity|reflexivity|by_eval|reflexivity|].
  intros n Hn. cbn [pskb_pull_tail Sample.mem]. destruct (Z.ltb_spec (rx_len (Sample.scattered
    (header_bytes Sample.header ++ rfc1042_header ++ [134; 221; 96; 0; 0]))) n); [lia|by eexists].
Defined.

Lemma strip_8023_mesh_hdr_correct_witness :
  exists skb',
    @ieee80211_strip_8023_mesh_hdr Sample.mem
      (Sample.scattered ((Sample.own ++ Sample.peer ++ [0; 30]) ++
         ([2; 31; 0; 0; 0; 0] ++ [4; 4; 4; 4; 4; 4] ++ [5; 5; 5; 5; 5; 5]) ++
         rfc1042_header ++ [8; 0; 69; 0])) = Some (0, skb') /\
    content skb' = [4; 4; 4; 4; 4; 4] ++ [5; 5; 5; 5; 5; 5] ++ [8; 0; 69; 0].
Proof.
  apply (@strip_8023_mesh_hdr_correct Sample.mem Sample.laws) with (flags := 2)
    (mesh := [2; 31; 0; 0; 0; 0] ++ [4; 4; 4; 4; 4; 4] ++ [5; 5; 5; 5; 5; 5])
    (payload := rfc1042_header ++ [8; 0; 69; 0]) (d := Sample.own) (s := Sample.peer) (q := [0; 30]);
    [reflexivity..|].
  intros n Hn. cbn [pskb_pull_tail Sample.mem]. destruct (Z.ltb_spec (rx_len (Sample.scattered
    ((Sample.own ++ Sample.peer ++ [0; 30]) ++
     ([2; 31; 0; 0; 0; 0] ++ [4; 4; 4; 4; 4; 4] ++ [5; 5; 5; 5; 5; 5]) ++
     rfc1042_header ++ [8; 0; 69; 0]))) n); [lia|by eexists].
Defined.
