(* ===== verification/Chandef.v ===== *)
(** * Chandef: channels and channel definitions

    [net/wireless/chan.c], with the inline helpers of [include/net/cfg80211.h]
    and the conversions of [net/wireless/util.c]: channel numbers and
    frequencies, operating classes, validity, primary sub-channels and
    compatibility of channel definitions, and the walk over the sub-channels
    that radar detection (DFS) uses.

    A channel is a record; [addr] is its address, which the code compares.
    Frequencies and bit maps are unsigned integers of the width the code gives
    them. *)
From S2P Require Import Prelude Frame.

(** ** Data *)

Inductive nl80211_band :=
  | NL80211_BAND_2GHZ | NL80211_BAND_5GHZ | NL80211_BAND_60GHZ
  | NL80211_BAND_6GHZ | NL80211_BAND_S1GHZ | NL80211_BAND_LC.

#[global] Instance nl80211_band_eq_dec : EqDecision nl80211_band.
Proof. solve_decision. Defined.

Inductive nl80211_chan_width :=
  | NL80211_CHAN_WIDTH_20_NOHT | NL80211_CHAN_WIDTH_20 | NL80211_CHAN_WIDTH_40
  | NL80211_CHAN_WIDTH_80 | NL80211_CHAN_WIDTH_80P80 | NL80211_CHAN_WIDTH_160
  | NL80211_CHAN_WIDTH_5 | NL80211_CHAN_WIDTH_10 | NL80211_CHAN_WIDTH_1
  | NL80211_CHAN_WIDTH_2 | NL80211_CHAN_WIDTH_4 | NL80211_CHAN_WIDTH_8
  | NL80211_CHAN_WIDTH_16 | NL80211_CHAN_WIDTH_320.

#[global] Instance nl80211_chan_width_eq_dec : EqDecision nl80211_chan_width.
Proof. solve_decision. Defined.

(** The values of the enumeration, which the code orders. *)
Definition width_num (w : nl80211_chan_width) : Z :=
  match w with
  | NL80211_CHAN_WIDTH_20_NOHT => 0 | NL80211_CHAN_WIDTH_20 => 1
  | NL80211_CHAN_WIDTH_40 => 2 | NL80211_CHAN_WIDTH_80 => 3
  | NL80211_CHAN_WIDTH_80P80 => 4 | NL80211_CHAN_WIDTH_160 => 5
  | NL80211_CHAN_WIDTH_5 => 6 | NL80211_CHAN_WIDTH_10 => 7
  | NL80211_CHAN_WIDTH_1 => 8 | NL80211_CHAN_WIDTH_2 => 9
  | NL80211_CHAN_WIDTH_4 => 10 | NL80211_CHAN_WIDTH_8 => 11
  | NL80211_CHAN_WIDTH_16 => 12 | NL80211_CHAN_WIDTH_320 => 13
  end.

Inductive nl80211_channel_type :=
  | NL80211_CHAN_NO_HT | NL80211_CHAN_HT20 | NL80211_CHAN_HT40MINUS | NL80211_CHAN_HT40PLUS.

#[global] Instance nl80211_channel_type_eq_dec : EqDecision nl80211_channel_type.
Proof. solve_decision. Defined.

Inductive nl80211_dfs_state :=
  | NL80211_DFS_USABLE | NL80211_DFS_UNAVAILABLE | NL80211_DFS_AVAILABLE.

#[global] Instance nl80211_dfs_state_eq_dec : EqDecision nl80211_dfs_state.
Proof. solve_decision. Defined.

Record ieee80211_channel := mk_chan {
  addr : Z;
  band : nl80211_band;
  center_freq : Z;              (* MHz *)
  freq_offset : Z;              (* kHz *)
  chan_flags : Z;
  dfs_state : nl80211_dfs_state;
  dfs_state_entered : Z;
  cac_start_time : Z;
  dfs_cac_ms : Z;
}.

Record ieee80211_edmg := mk_edmg { edmg_channels : Z; bw_config : Z }.

Record cfg80211_chan_def := mk_chandef {
  chan : option ieee80211_channel;
  npca_chan : option ieee80211_channel;
  width : nl80211_chan_width;
  center_freq1 : Z;
  center_freq2 : Z;
  edmg : ieee80211_edmg;
  freq1_offset : Z;
  punctured : Z;
  npca_punctured : Z;
  s1g_primary_2mhz : bool;
}.

Definition IEEE80211_CHAN_DISABLED : Z := BIT 0.
Definition IEEE80211_CHAN_RADAR : Z := BIT 3.

(** Pointers to channels are compared by address. *)
Definition chan_ptr_eqb (a b : option ieee80211_channel) : bool :=
  bool_decide (addr <$> a = addr <$> b).

Definition MHZ_TO_KHZ (f : Z) : Z := u32 (f * 1000).
Definition KHZ_TO_MHZ (f : Z) : Z := f / 1000.

Definition ieee80211_channel_to_khz (c : ieee80211_channel) : Z :=
  u32 (MHZ_TO_KHZ (center_freq c) + freq_offset c).

Definition ieee80211_chandef_to_khz (c : cfg80211_chan_def) : Z :=
  u32 (MHZ_TO_KHZ (center_freq1 c) + freq1_offset c).

Definition nl80211_chan_width_to_mhz (w : nl80211_chan_width) : Z :=
  match w with
  | NL80211_CHAN_WIDTH_1 => 1
  | NL80211_CHAN_WIDTH_2 => 2
  | NL80211_CHAN_WIDTH_4 => 4
  | NL80211_CHAN_WIDTH_8 => 8
  | NL80211_CHAN_WIDTH_16 => 16
  | NL80211_CHAN_WIDTH_20 | NL80211_CHAN_WIDTH_20_NOHT => 20
  | NL80211_CHAN_WIDTH_40 => 40
  | NL80211_CHAN_WIDTH_80P80 | NL80211_CHAN_WIDTH_80 => 80
  | NL80211_CHAN_WIDTH_160 => 160
  | NL80211_CHAN_WIDTH_320 => 320
  | NL80211_CHAN_WIDTH_5 | NL80211_CHAN_WIDTH_10 => -1
  end.

Definition cfg80211_chandef_get_width (c : cfg80211_chan_def) : Z :=
  nl80211_chan_width_to_mhz (width c).

(** ** Channel numbers *)

Definition ieee80211_channel_to_freq_khz (n : Z) (band : nl80211_band) : Z :=
  if n <=? 0 then 0
  else
    match band with
    | NL80211_BAND_2GHZ | NL80211_BAND_LC =>
        if n =? 14 then MHZ_TO_KHZ 2484
        else if n <? 14 then MHZ_TO_KHZ (2407 + n * 5) else 0
    | NL80211_BAND_5GHZ =>
        if (182 <=? n) && (n <=? 196) then MHZ_TO_KHZ (4000 + n * 5)
        else MHZ_TO_KHZ (5000 + n * 5)
    | NL80211_BAND_6GHZ =>
        if n =? 2 then MHZ_TO_KHZ 5935
        else if n <=? 253 then MHZ_TO_KHZ (5950 + n * 5) else 0
    | NL80211_BAND_60GHZ =>
        if n <? 7 then MHZ_TO_KHZ (56160 + n * 2160) else 0
    | NL80211_BAND_S1GHZ => u32 (902000 + n * 500)
    end.

(** The differences are unsigned, the result is an [int]. *)
Definition ieee80211_freq_khz_to_channel (freq : Z) : Z :=
  let freq := KHZ_TO_MHZ freq in
  s32 (if freq =? 2484 then 14
       else if freq <? 2484 then u32 (freq - 2407) / 5
       else if (4910 <=? freq) && (freq <=? 4980) then u32 (freq - 4000) / 5
       else if freq <? 5925 then u32 (freq - 5000) / 5
       else if freq =? 5935 then 2
       else if freq <=? 45000 then u32 (freq - 5950) / 5
       else if (58320 <=? freq) && (freq <=? 70200) then u32 (freq - 56160) / 2160
       else 0).

Definition ieee80211_channel_to_frequency (n : Z) (band : nl80211_band) : Z :=
  KHZ_TO_MHZ (ieee80211_channel_to_freq_khz n band).

Definition ieee80211_frequency_to_channel (freq : Z) : Z :=
  ieee80211_freq_khz_to_channel (MHZ_TO_KHZ freq).

Definition cfg80211_channel_is_psc (c : ieee80211_channel) : bool :=
  if negb (bool_decide (band c = NL80211_BAND_6GHZ)) then false
  else Z.rem (ieee80211_frequency_to_channel (center_freq c)) 16 =? 5.

(** The channels of a wiphy, band after band. *)
Definition ieee80211_get_channel_khz (wiphy : list ieee80211_channel) (freq : Z)
    : option ieee80211_channel :=
  List.find (fun c => ieee80211_channel_to_khz c =? freq) wiphy.

(** ** Operating classes *)

Definition ieee80211_operating_class_to_band (cls : Z) : option nl80211_band :=
  if (cls =? 112) || ((115 <=? cls) && (cls <=? 127)) || ((128 <=? cls) && (cls <=? 130))
  then Some NL80211_BAND_5GHZ
  else if ((131 <=? cls) && (cls <=? 135)) || (cls =? 137) then Some NL80211_BAND_6GHZ
  else if (81 <=? cls) && (cls <=? 84) then Some NL80211_BAND_2GHZ
  else if cls =? 180 then Some NL80211_BAND_60GHZ
  else None.

Definition set_center_width (c : cfg80211_chan_def) (ch : ieee80211_channel) (f : Z)
    (w : nl80211_chan_width) : cfg80211_chan_def :=
  mk_chandef (Some ch) (npca_chan c) w (u32 f) (center_freq2 c) (edmg c) (freq1_offset c)
    (punctured c) (npca_punctured c) (s1g_primary_2mhz c).

Definition set_chan (c : cfg80211_chan_def) (ch : ieee80211_channel) : cfg80211_chan_def :=
  mk_chandef (Some ch) (npca_chan c) (width c) (center_freq1 c) (center_freq2 c) (edmg c)
    (freq1_offset c) (punctured c) (npca_punctured c) (s1g_primary_2mhz c).

Definition in_classes (cls : Z) (l : list Z) : bool := existsb (Z.eqb cls) l.

(** The result and the channel definition, whose fields other than [chan], the
    centre and the width keep their values. *)
Definition ieee80211_operating_class_to_chandef (cls : Z) (ch : option ieee80211_channel)
    (c : cfg80211_chan_def) : bool * cfg80211_chan_def :=
  match ieee80211_operating_class_to_band cls, ch with
  | Some b, Some ch =>
      if negb (bool_decide (b = band ch)) then (false, c)
      else
        let control_freq := center_freq ch in
        let offset :=
          (if 5955 <=? control_freq then control_freq - 5955
           else if 5745 <=? control_freq then control_freq - 5745
           else if 5180 <=? control_freq then control_freq - 5180
           else 0) / 20 in
        if in_classes cls [81; 82; 115; 118; 121; 124; 125; 131; 136] then
          (true, set_center_width c ch control_freq NL80211_CHAN_WIDTH_20)
        else if in_classes cls [83; 116; 119; 122; 126] then
          (true, set_center_width c ch (control_freq + 10) NL80211_CHAN_WIDTH_40)
        else if in_classes cls [84; 117; 120; 123; 127] then
          (true, set_center_width c ch (control_freq - 10) NL80211_CHAN_WIDTH_40)
        else if cls =? 132 then
          (true, set_center_width c ch (control_freq + 10 - (offset .& 1) * 20)
                   NL80211_CHAN_WIDTH_40)
        else if in_classes cls [128; 133] then
          (true, set_center_width c ch (control_freq + 30 - (offset .& 3) * 20)
                   NL80211_CHAN_WIDTH_80)
        else if in_classes cls [129; 134] then
          (true, set_center_width c ch (control_freq + 70 - (offset .& 7) * 20)
                   NL80211_CHAN_WIDTH_160)
        else (false, set_chan c ch)
  | _, _ => (false, c)
  end.

(** The classes of the three widths up to 40 MHz in a part of the 5 GHz band,
    with the class of the wider ones. *)
Definition class_5ghz (c : cfg80211_chan_def) (vht plus minus narrow : Z) : option Z :=
  if nz vht then Some vht
  else if bool_decide (width c = NL80211_CHAN_WIDTH_40) then
    ch ← chan c; Some (if center_freq ch <? center_freq1 c then plus else minus)
  else Some narrow.

(** [None] is a dereference of a null channel; [Some None] the result false. *)
Definition ieee80211_chandef_to_operating_class (c : cfg80211_chan_def) : option (option Z) :=
  let freq := center_freq1 c in
  if (2412 <=? freq) && (freq <=? 2472) then
    if width_num NL80211_CHAN_WIDTH_40 <? width_num (width c) then Some None
    else if bool_decide (width c = NL80211_CHAN_WIDTH_40) then
      ch ← chan c; Some (Some (if center_freq ch <? freq then 83 else 84))
    else Some (Some 81)
  else if freq =? 2484 then
    if negb (bool_decide (width c = NL80211_CHAN_WIDTH_20_NOHT)) then Some None
    else Some (Some 82)
  else
    let vht := match width c with
               | NL80211_CHAN_WIDTH_80 => 128
               | NL80211_CHAN_WIDTH_160 => 129
               | NL80211_CHAN_WIDTH_80P80 => 130
               | _ => 0
               end in
    if (5180 <=? freq) && (freq <=? 5240) then Some <$> class_5ghz c vht 116 117 115
    else if (5260 <=? freq) && (freq <=? 5320) then Some <$> class_5ghz c vht 119 120 118
    else if (5500 <=? freq) && (freq <=? 5720) then Some <$> class_5ghz c vht 122 123 121
    else if (5745 <=? freq) && (freq <=? 5845) then
      Some <$> class_5ghz c vht 126 127 (if freq <=? 5805 then 124 else 125)
    else if (56160 + 2160 * 1 <=? freq) && (freq <=? 56160 + 2160 * 6) then
      Some (if width_num NL80211_CHAN_WIDTH_40 <=? width_num (width c) then None else Some 180)
    else Some None.

(** ** Making a channel definition *)

Definition empty_chandef (ch : option ieee80211_channel) (w : nl80211_chan_width) (f : Z)
    : cfg80211_chan_def :=
  mk_chandef ch None w f 0 (mk_edmg 0 0) 0 0 0 false.

Definition cfg80211_chandef_create (ch : ieee80211_channel) (t : nl80211_channel_type)
    : cfg80211_chan_def :=
  match t with
  | NL80211_CHAN_NO_HT => empty_chandef (Some ch) NL80211_CHAN_WIDTH_20_NOHT (center_freq ch)
  | NL80211_CHAN_HT20 => empty_chandef (Some ch) NL80211_CHAN_WIDTH_20 (center_freq ch)
  | NL80211_CHAN_HT40PLUS =>
      empty_chandef (Some ch) NL80211_CHAN_WIDTH_40 (u32 (center_freq ch + 10))
  | NL80211_CHAN_HT40MINUS =>
      empty_chandef (Some ch) NL80211_CHAN_WIDTH_40 (u32 (center_freq ch - 10))
  end.

(** [None] is a dereference of a null channel. *)
Definition cfg80211_get_chandef_type (c : cfg80211_chan_def) : option nl80211_channel_type :=
  match width c with
  | NL80211_CHAN_WIDTH_20_NOHT => Some NL80211_CHAN_NO_HT
  | NL80211_CHAN_WIDTH_20 => Some NL80211_CHAN_HT20
  | NL80211_CHAN_WIDTH_40 =>
      ch ← chan c;
      Some (if center_freq ch <? center_freq1 c then NL80211_CHAN_HT40PLUS
            else NL80211_CHAN_HT40MINUS)
  | _ => Some NL80211_CHAN_NO_HT
  end.

(** ** Validity *)

Definition puncturing_values_80mhz : list Z := [0x8; 0x4; 0x2; 0x1].
Definition puncturing_values_160mhz : list Z :=
  [0x80; 0x40; 0x20; 0x10; 0x8; 0x4; 0x2; 0x1; 0xc0; 0x30; 0xc; 0x3].
Definition puncturing_values_320mhz : list Z :=
  [0xc000; 0x3000; 0xc00; 0x300; 0xc0; 0x30; 0xc; 0x3; 0xf000; 0xf00;
   0xf0; 0xf; 0xfc00; 0xf300; 0xf0c0; 0xf030; 0xf00c; 0xf003; 0xc00f;
   0x300f; 0xc0f; 0x30f; 0xcf; 0x3f].

Definition valid_puncturing_bitmap (c : cfg80211_chan_def) (primary_center punct : Z) : bool :=
  let check values half :=
    let start_freq := u32 (center_freq1 c - half) in
    if negb (nz punct) then true
    else if nz (punct .& u16 (BIT (u32 (primary_center - start_freq) / 20))) then false
    else existsb (fun v => v =? punct) values in
  match width c with
  | NL80211_CHAN_WIDTH_80 => check puncturing_values_80mhz 40
  | NL80211_CHAN_WIDTH_160 => check puncturing_values_160mhz 80
  | NL80211_CHAN_WIDTH_320 => check puncturing_values_320mhz 160
  | _ => punct =? 0
  end.

Definition cfg80211_valid_60g_freq (freq : Z) : bool := (58320 <=? freq) && (freq <=? 70200).

(** Contiguous and enabled channels among the six of an EDMG map: the current
    run, the longest run and the count. *)
Definition edmg_runs (channels : Z) : Z * Z :=
  let '(_, longest, enabled) :=
    foldl (fun '(run, longest, enabled) i =>
             let '(run, enabled) :=
               if nz (channels .& BIT i) then (run + 1, enabled + 1) else (0, enabled) in
             (run, Z.max run longest, enabled)) (0, 0, 0) [0; 1; 2; 3; 4; 5] in
  (longest, enabled).

Definition cfg80211_edmg_chandef_valid (c : cfg80211_chan_def) : option bool :=
  if negb (nz (edmg_channels (edmg c))) || negb (nz (bw_config (edmg c))) then Some false
  else
    ch ← chan c;
    if negb (cfg80211_valid_60g_freq (center_freq ch)) then Some false
    else
      let bw := bw_config (edmg c) in
      let '(longest, enabled) := edmg_runs (edmg_channels (edmg c)) in
      if (bw <? 4) || (15 <? bw) then Some false
      else if longest <? bw mod 4 + 1 then Some false
      else if bw <? 8 then Some true
      else if bw <? 12 then Some (negb (enabled <? 2))
      else Some (negb ((enabled <? 4) || (longest <? 2))).

Definition cfg80211_valid_center_freq (center : Z) (w : nl80211_chan_width) : bool :=
  if (center <? 5955) || (7215 <? center) then true
  else
    let bw := nl80211_chan_width_to_mhz w in
    if bw <? 0 then false
    else if (center - bw / 2 <? 5945) || (7225 <? center + bw / 2) then false
    else
      let step := if bw =? 320 then 160 else bw in
      (center - bw / 2 - 5945) mod step =? 0.

(** The cases fall through to the narrower widths. *)
Definition control_offsets (w : nl80211_chan_width) : list Z :=
  let w40 := [10; -10] in
  let w80 := [30; -30] ++ w40 in
  let w160 := [70; 50; -50; -70] ++ w80 in
  match w with
  | NL80211_CHAN_WIDTH_320 => [150; 130; 110; 90; -90; -110; -130; -150] ++ w160
  | NL80211_CHAN_WIDTH_160 => w160
  | NL80211_CHAN_WIDTH_80P80 | NL80211_CHAN_WIDTH_80 => w80
  | NL80211_CHAN_WIDTH_40 => w40
  | _ => []
  end.

Definition is_s1g_width (w : nl80211_chan_width) : bool :=
  match w with
  | NL80211_CHAN_WIDTH_1 | NL80211_CHAN_WIDTH_2 | NL80211_CHAN_WIDTH_4
  | NL80211_CHAN_WIDTH_8 | NL80211_CHAN_WIDTH_16 => true
  | _ => false
  end.

Definition cfg80211_chandef_valid_control_freq (c : cfg80211_chan_def) (control : Z) : bool :=
  match width c with
  | NL80211_CHAN_WIDTH_20 | NL80211_CHAN_WIDTH_20_NOHT => true
  | w => is_s1g_width w ||
         existsb (fun d => center_freq1 c =? u32 (control + d)) (control_offsets w)
  end.

Definition cfg80211_chandef_is_edmg (c : cfg80211_chan_def) : bool :=
  nz (edmg_channels (edmg c)) || nz (bw_config (edmg c)).

Definition chan_is_s1g (ch : ieee80211_channel) : bool :=
  bool_decide (band ch = NL80211_BAND_S1GHZ).

Definition cfg80211_s1g_get_start_freq_khz (c : cfg80211_chan_def) : Z :=
  let bw_mhz := u32 (cfg80211_chandef_get_width c) in
  let center_khz := u32 (MHZ_TO_KHZ (center_freq1 c) + freq1_offset c) in
  u32 (center_khz - bw_mhz * 500 + 500).

Definition cfg80211_s1g_get_end_freq_khz (c : cfg80211_chan_def) : Z :=
  let bw_mhz := u32 (cfg80211_chandef_get_width c) in
  let center_khz := u32 (MHZ_TO_KHZ (center_freq1 c) + freq1_offset c) in
  u32 (center_khz + bw_mhz * 500 - 500).

(** The switch over the width of [cfg80211_chandef_valid]. *)
Definition valid_width (c : cfg80211_chan_def) (ch : ieee80211_channel) : bool :=
  match width c with
  | NL80211_CHAN_WIDTH_20 | NL80211_CHAN_WIDTH_20_NOHT =>
      (ieee80211_chandef_to_khz c =? ieee80211_channel_to_khz ch) && negb (nz (center_freq2 c))
  | NL80211_CHAN_WIDTH_1 | NL80211_CHAN_WIDTH_2 | NL80211_CHAN_WIDTH_4
  | NL80211_CHAN_WIDTH_8 | NL80211_CHAN_WIDTH_16 =>
      let control_khz := ieee80211_channel_to_khz ch in
      chan_is_s1g ch && negb (nz (center_freq2 c)) &&
      negb ((control_khz <? cfg80211_s1g_get_start_freq_khz c) ||
            (cfg80211_s1g_get_end_freq_khz c <? control_khz))
  | NL80211_CHAN_WIDTH_80P80 =>
      nz (center_freq2 c) &&
      negb ((u32 (center_freq1 c - center_freq2 c) =? 80) ||
            (u32 (center_freq2 c - center_freq1 c) =? 80))
  | _ => negb (nz (center_freq2 c))
  end.

Definition valid_npca_width (c : cfg80211_chan_def) : bool :=
  match npca_chan c with
  | Some _ =>
      match width c with
      | NL80211_CHAN_WIDTH_80 | NL80211_CHAN_WIDTH_160 | NL80211_CHAN_WIDTH_320 => true
      | _ => false
      end
  | None => negb (nz (npca_punctured c))
  end.

Definition cfg80211_chandef_valid (c : cfg80211_chan_def) : bool :=
  match chan c with
  | None => false
  | Some ch =>
      let control_freq := center_freq ch in
      negb (1000 <=? freq1_offset c) &&
      negb (chan_is_s1g ch && negb (is_s1g_width (width c))) &&
      valid_width c ch &&
      cfg80211_chandef_valid_control_freq c control_freq &&
      valid_npca_width c &&
      cfg80211_valid_center_freq (center_freq1 c) (width c) &&
      negb (bool_decide (width c = NL80211_CHAN_WIDTH_80P80) &&
            negb (cfg80211_valid_center_freq (center_freq2 c) (width c))) &&
      negb ((center_freq1 c =? 2484) && negb (bool_decide (width c = NL80211_CHAN_WIDTH_20_NOHT))) &&
      negb (cfg80211_chandef_is_edmg c && negb (default false (cfg80211_edmg_chandef_valid c))) &&
      negb (negb (chan_is_s1g ch) && s1g_primary_2mhz c) &&
      valid_puncturing_bitmap c control_freq (punctured c)
  end.

(** ** Primary sub-channels and compatibility *)

(** The loop of [cfg80211_chandef_primary]: the width halves in each round. *)
Fixpoint primary_loop (fuel : nat) (control pri_width width center punct : Z) : option (Z * Z) :=
  match fuel with
  | O => None
  | S fuel =>
      if pri_width <? width then
        let bits_to_drop := width / 20 / 2 in
        let '(center, punct) :=
          if center <? control then (u32 (center + width / 4), punct >> bits_to_drop)
          else (u32 (center - width / 4), punct .& ((1 << bits_to_drop) - 1)) in
        primary_loop fuel control pri_width (width / 2) center punct
      else Some (center, punct)
  end.

(** Widths are at most 320. *)
Definition primary_fuel : nat := 10.

(** The centre of the primary sub-channel of a width and its punctured bits;
    the centre is -1 where the width makes no sense. *)
Definition cfg80211_chandef_primary (c : cfg80211_chan_def) (w : nl80211_chan_width)
    : option (Z * Z) :=
  let pri_width := nl80211_chan_width_to_mhz w in
  let width := cfg80211_chandef_get_width c in
  ch ← chan c;
  if (pri_width <? 0) || (width <? 0) then Some (-1, 0)
  else if width <? pri_width then Some (-1, 0)
  else
    '(center, punct) ← primary_loop primary_fuel (center_freq ch) pri_width width
                         (center_freq1 c) (punctured c);
    Some (s32 center, punct).

Definition cfg80211_chandef_identical (a b : cfg80211_chan_def) : bool :=
  chan_ptr_eqb (chan a) (chan b) &&
  bool_decide (width a = width b) &&
  (center_freq1 a =? center_freq1 b) &&
  (freq1_offset a =? freq1_offset b) &&
  (center_freq2 a =? center_freq2 b) &&
  (punctured a =? punctured b) &&
  Bool.eqb (s1g_primary_2mhz a) (s1g_primary_2mhz b) &&
  chan_ptr_eqb (npca_chan a) (npca_chan b) &&
  (npca_punctured a =? npca_punctured b).

(** The pointer the compatibility checks return: an error, NULL or one of the
    channel definitions. *)
Inductive chandef_ptr :=
  | ERR_PTR (err : Z)
  | NULL_PTR
  | CHANDEF (c : cfg80211_chan_def).

Definition check_chandef_primary_compat (c1 c2 : cfg80211_chan_def) (w : nl80211_chan_width)
    : option chandef_ptr :=
  '(p1, punct_c1) ← cfg80211_chandef_primary c1 w;
  '(p2, punct_c2) ← cfg80211_chandef_primary c2 w;
  Some (if negb (p1 =? p2) then ERR_PTR (- EINVAL)
        else if negb (punct_c1 =? punct_c2) then ERR_PTR (- EINVAL)
        else if bool_decide (width c1 = w) then CHANDEF c2
        else NULL_PTR).

Definition _cfg80211_chandef_compatible (c1 c2 : cfg80211_chan_def) : option chandef_ptr :=
  if cfg80211_chandef_identical c1 c2 then Some (CHANDEF c2)
  else if negb (chan_ptr_eqb (chan c1) (chan c2)) then Some NULL_PTR
  else if bool_decide (width c1 = width c2) then Some NULL_PTR
  else if bool_decide (npca_chan c1 <> None) || bool_decide (npca_chan c2 <> None) then Some NULL_PTR
  else if is_s1g_width (width c1) || is_s1g_width (width c2) then Some NULL_PTR
  else
    let '(c1, c2) := if width_num (width c2) <? width_num (width c1) then (c2, c1) else (c1, c2) in
    if width_num (width c1) <=? width_num NL80211_CHAN_WIDTH_20 then Some (CHANDEF c2)
    else
      ret ← check_chandef_primary_compat c1 c2 NL80211_CHAN_WIDTH_40;
      match ret with
      | NULL_PTR =>
          ret ← check_chandef_primary_compat c1 c2 NL80211_CHAN_WIDTH_80;
          match ret with
          | NULL_PTR =>
              if bool_decide (width c1 = NL80211_CHAN_WIDTH_80P80) then Some NULL_PTR
              else
                ret ← check_chandef_primary_compat c1 c2 NL80211_CHAN_WIDTH_160;
                Some ret
          | ret => Some ret
          end
      | ret => Some ret
      end.

(** [None] is a dereference of a null channel; [Some None] the result NULL. *)
Definition cfg80211_chandef_compatible (c1 c2 : cfg80211_chan_def)
    : option (option cfg80211_chan_def) :=
  ret ← _cfg80211_chandef_compatible c1 c2;
  Some (match ret with CHANDEF c => Some c | _ => None end).

(** ** Extensions of the operating channel: NPCA and DBE *)

Definition IEEE80211_UHR_NPCA_PARAMS_PRIMARY_CHAN : Z := 0x000000FF.
Definition IEEE80211_UHR_DBE_OPER_BANDWIDTH : Z := 0x07.
Definition IEEE80211_UHR_DBE_OPER_BW_40 : Z := 1.
Definition IEEE80211_UHR_DBE_OPER_BW_80 : Z := 2.
Definition IEEE80211_UHR_DBE_OPER_BW_160 : Z := 3.
Definition IEEE80211_UHR_DBE_OPER_BW_320_1 : Z := 4.
Definition IEEE80211_UHR_DBE_OPER_BW_320_2 : Z := 5.

(** The NPCA and DBE information: the parameters and the bitmap that follows
    when they say so. *)
Record uhr_info := mk_uhr { uhr_params : Z; dis_subch_bmap : Z }.

Definition set_npca (c : cfg80211_chan_def) (ch : option ieee80211_channel) (p : Z) : cfg80211_chan_def :=
  mk_chandef (chan c) ch (width c) (center_freq1 c) (center_freq2 c) (edmg c) (freq1_offset c)
    (punctured c) p (s1g_primary_2mhz c).

Definition cfg80211_chandef_add_npca (wiphy : list ieee80211_channel) (c : cfg80211_chan_def)
    (npca : option uhr_info) : option (Z * cfg80211_chan_def) :=
  if bool_decide (npca_chan c <> None) || nz (npca_punctured c) then Some (- EINVAL, c)
  else if negb (cfg80211_chandef_valid c) then Some (- EINVAL, c)
  else
    match npca with
    | None => Some (0, c)
    | Some npca =>
        match width c with
        | NL80211_CHAN_WIDTH_80 | NL80211_CHAN_WIDTH_160 | NL80211_CHAN_WIDTH_320 =>
            ch ← chan c;
            let n := uhr_params npca .& IEEE80211_UHR_NPCA_PARAMS_PRIMARY_CHAN in
            let npca_freq := ieee80211_channel_to_frequency n (band ch) in
            match ieee80211_get_channel_khz wiphy (MHZ_TO_KHZ npca_freq) with
            | None => Some (- EINVAL, c)
            | Some nch =>
                let bmap :=
                  if nz (uhr_params npca .& IEEE80211_UHR_NPCA_PARAMS_DIS_SUBCH_BMAP_PRES)
                  then dis_subch_bmap npca else npca_punctured c in
                let new := set_npca c (Some nch) bmap in
                if negb (cfg80211_chandef_valid new) then Some (- EINVAL, c) else Some (0, new)
            end
        | _ => Some (- EINVAL, c)
        end
    end.

Definition cfg80211_chandef_npca_valid (wiphy : list ieee80211_channel) (c : cfg80211_chan_def)
    (npca : option uhr_info) : option bool :=
  if bool_decide (npca_chan c <> None) || nz (npca_punctured c) then Some false
  else if bool_decide (npca = None) then Some true
  else
    '(ret, tmp) ← cfg80211_chandef_add_npca wiphy c npca;
    if nz ret then Some false
    else
      nch ← npca_chan tmp; ch ← chan tmp;
      if negb (cfg80211_chandef_valid_control_freq tmp (center_freq nch)) then Some false
      else
        let cf1 := center_freq1 tmp in
        if Bool.eqb (cf1 <? center_freq ch) (cf1 <? center_freq nch) then Some false
        else
          Some (negb (negb (valid_puncturing_bitmap tmp (center_freq nch) (npca_punctured tmp)) ||
                      negb (punctured tmp .& npca_punctured tmp =? punctured tmp))).

(** The two switches over the DBE bandwidth: may a channel of this width be
    extended, and to which width. *)
Definition dbe_width_ok (bw : Z) (w : nl80211_chan_width) : bool :=
  let eqw := fun w' => bool_decide (w = w') in
  let w40 := eqw NL80211_CHAN_WIDTH_20 in
  let w80 := eqw NL80211_CHAN_WIDTH_40 || w40 in
  let w160 := eqw NL80211_CHAN_WIDTH_80 || w80 in
  let w320 := eqw NL80211_CHAN_WIDTH_160 || w160 in
  if (bw =? IEEE80211_UHR_DBE_OPER_BW_320_2) || (bw =? IEEE80211_UHR_DBE_OPER_BW_320_1) then w320
  else if bw =? IEEE80211_UHR_DBE_OPER_BW_160 then w160
  else if bw =? IEEE80211_UHR_DBE_OPER_BW_80 then w80
  else if bw =? IEEE80211_UHR_DBE_OPER_BW_40 then w40
  else false.

Definition dbe_width (bw : Z) : nl80211_chan_width * Z :=
  if (bw =? IEEE80211_UHR_DBE_OPER_BW_320_2) || (bw =? IEEE80211_UHR_DBE_OPER_BW_320_1)
  then (NL80211_CHAN_WIDTH_320, 320)
  else if bw =? IEEE80211_UHR_DBE_OPER_BW_160 then (NL80211_CHAN_WIDTH_160, 160)
  else if bw =? IEEE80211_UHR_DBE_OPER_BW_80 then (NL80211_CHAN_WIDTH_80, 80)
  else (NL80211_CHAN_WIDTH_40, 40).

Definition cfg80211_chandef_add_dbe (c : cfg80211_chan_def) (dbe : option uhr_info)
    : option (Z * cfg80211_chan_def) :=
  match dbe with
  | None => Some (0, c)
  | Some dbe =>
      if negb (cfg80211_chandef_valid c) then Some (- EINVAL, c)
      else if bool_decide (width c = NL80211_CHAN_WIDTH_20_NOHT) then Some (- EINVAL, c)
      else
        ch ← chan c;
        let bw := uhr_params dbe .& IEEE80211_UHR_DBE_OPER_BANDWIDTH in
        let starting :=
          match band ch with
          | NL80211_BAND_5GHZ =>
              if IEEE80211_UHR_DBE_OPER_BW_160 <? bw then None
              else Some (if center_freq ch <? 5745 then 5180 else 5745)
          | NL80211_BAND_6GHZ => Some 5955
          | _ => None
          end in
        match starting with
        | None => Some (- EINVAL, c)
        | Some starting_freq =>
            if negb (dbe_width_ok bw (width c)) then Some (- EINVAL, c)
            else
              let starting_freq :=
                if bw =? IEEE80211_UHR_DBE_OPER_BW_320_2 then starting_freq + 160
                else starting_freq in
              let '(new_width, bw_mhz) := dbe_width bw in
              if center_freq ch <? starting_freq then Some (- EINVAL, c)
              else
                let offset := s32 (center_freq ch - starting_freq) in
                let index := Z.quot offset bw_mhz in
                let start_new := u16 (starting_freq - 10 + index * bw_mhz) in
                let start_old := u16 (center_freq1 c - cfg80211_chandef_get_width c / 2) in
                let punct_shift :=
                  if start_new <? start_old then u8 ((start_old - start_new) / 20) else 0 in
                let kept := u16 (punctured c << punct_shift) in
                let npca_kept := u16 (npca_punctured c << punct_shift) in
                let present :=
                  nz (uhr_params dbe .& IEEE80211_UHR_DBE_OPER_DIS_SUBCHANNEL_BITMAP_PRES) in
                let punct_mask := u16 (((1 << (bw_mhz / 40)) - 1) << punct_shift) in
                let bitmap := dis_subch_bmap dbe in
                if present && negb (bitmap .& punct_mask =? kept .& punct_mask)
                then Some (- EINVAL, c)
                else
                  let new := mk_chandef (chan c) (npca_chan c) new_width (start_new + bw_mhz / 2)
                    (center_freq2 c) (edmg c) (freq1_offset c) (if present then bitmap else kept)
                    npca_kept (s1g_primary_2mhz c) in
                  if negb (cfg80211_chandef_valid new) then Some (- EINVAL, c)
                  else
                    compat ← cfg80211_chandef_compatible new c;
                    Some (match compat with None => (- EINVAL, c) | Some _ => (0, new) end)
        end
  end.

(** ** The walk over the sub-channels, and radar detection *)

Section Walk.
Context (c : cfg80211_chan_def).

Definition seg_center (cf : Z) : Z :=
  MHZ_TO_KHZ (if cf =? 1 then center_freq1 c else center_freq2 c).

Definition cfg80211_get_start_freq (cf : Z) : Z :=
  let bandwidth := MHZ_TO_KHZ (cfg80211_chandef_get_width c) in
  if bandwidth <=? MHZ_TO_KHZ 20 then seg_center cf
  else u32 (seg_center cf - bandwidth / 2 + MHZ_TO_KHZ 10).

Definition cfg80211_get_end_freq (cf : Z) : Z :=
  let bandwidth := MHZ_TO_KHZ (cfg80211_chandef_get_width c) in
  if bandwidth <=? MHZ_TO_KHZ 20 then seg_center cf
  else u32 (seg_center cf + bandwidth / 2 - MHZ_TO_KHZ 10).

(** [for_each_subchan]: the frequencies, with the segment, for which the body
    of the loop runs. *)
Fixpoint subchan_loop (fuel : nat) (freq cf punct : Z) : option (list (Z * Z)) :=
  match fuel with
  | O => None
  | S fuel =>
      if freq <=? cfg80211_get_end_freq cf then
        let next := u32 (freq + MHZ_TO_KHZ 20) in
        rest ← (if (cf =? 1) && nz (center_freq2 c) && (cfg80211_get_end_freq cf <? next)
                then subchan_loop fuel (cfg80211_get_start_freq (cf + 1)) (cf + 1) 0
                else subchan_loop fuel next cf (punct >> 1));
        Some (if nz (punct .& 1) then rest else (freq, cf) :: rest)
      else Some []
  end.

(** At most 16 sub-channels in one segment and twice four in two. *)
Definition for_each_subchan : option (list (Z * Z)) :=
  subchan_loop 20 (cfg80211_get_start_freq 1) 1 (punctured c).

End Walk.

Definition set_dfs (ch : ieee80211_channel) (st : nl80211_dfs_state) (now : Z) : ieee80211_channel :=
  mk_chan (addr ch) (band ch) (center_freq ch) (freq_offset ch) (chan_flags ch) st now
    (cac_start_time ch) (dfs_cac_ms ch).

Definition set_cac (ch : ieee80211_channel) (t : Z) : ieee80211_channel :=
  mk_chan (addr ch) (band ch) (center_freq ch) (freq_offset ch) (chan_flags ch) (dfs_state ch)
    (dfs_state_entered ch) t (dfs_cac_ms ch).

(** Changing the channel that [ieee80211_get_channel_khz] finds. *)
Fixpoint update_channel (f : ieee80211_channel -> ieee80211_channel) (wiphy : list ieee80211_channel)
    (freq : Z) : list ieee80211_channel :=
  match wiphy with
  | [] => []
  | ch :: wiphy =>
      if ieee80211_channel_to_khz ch =? freq then f ch :: wiphy
      else ch :: update_channel f wiphy freq
  end.

Definition cfg80211_set_dfs_state (wiphy : list ieee80211_channel) (c : cfg80211_chan_def)
    (st : nl80211_dfs_state) (jiffies : Z) : option (list ieee80211_channel) :=
  if negb (cfg80211_chandef_valid c) then Some wiphy
  else if cfg80211_chandef_get_width c <? 0 then Some wiphy
  else
    subs ← for_each_subchan c;
    Some (foldl (fun wiphy '(freq, _) =>
      update_channel (fun ch => if nz (chan_flags ch .& IEEE80211_CHAN_RADAR)
                                then set_dfs ch st jiffies else ch) wiphy freq) wiphy subs).

Definition cfg80211_set_cac_state (wiphy : list ieee80211_channel) (c : cfg80211_chan_def)
    (cac_ongoing : bool) (boottime : Z) : option (list ieee80211_channel) :=
  if negb (cfg80211_chandef_valid c) then Some wiphy
  else if cfg80211_chandef_get_width c <? 0 then Some wiphy
  else
    let cac_time := if cac_ongoing then boottime else 0 in
    subs ← for_each_subchan c;
    Some (foldl (fun wiphy '(freq, _) => update_channel (fun ch => set_cac ch cac_time) wiphy freq)
            wiphy subs).

(** The loop of [cfg80211_chandef_dfs_usable]: the count of channels that need
    a check, or [None] when one rules the channel definition out. *)
Fixpoint dfs_usable_loop (wiphy : list ieee80211_channel) (subs : list (Z * Z)) (count : Z) : option Z :=
  match subs with
  | [] => Some count
  | (freq, _) :: subs =>
      ch ← ieee80211_get_channel_khz wiphy freq;
      if nz (chan_flags ch .& IEEE80211_CHAN_DISABLED) then None
      else if nz (chan_flags ch .& IEEE80211_CHAN_RADAR) then
        match dfs_state ch with
        | NL80211_DFS_UNAVAILABLE => None
        | NL80211_DFS_USABLE => dfs_usable_loop wiphy subs (count + 1)
        | NL80211_DFS_AVAILABLE => dfs_usable_loop wiphy subs count
        end
      else dfs_usable_loop wiphy subs count
  end.

Definition cfg80211_chandef_dfs_usable (wiphy : list ieee80211_channel) (c : cfg80211_chan_def)
    : option bool :=
  if negb (cfg80211_chandef_valid c) then Some false
  else if cfg80211_chandef_get_width c <? 0 then Some false
  else
    subs ← for_each_subchan c;
    Some (match dfs_usable_loop wiphy subs 0 with Some n => 0 <? n | None => false end).

Definition cfg80211_chandef_dfs_available (wiphy : list ieee80211_channel) (dfs_offload : bool)
    (c : cfg80211_chan_def) : option bool :=
  if negb (cfg80211_chandef_valid c) then Some false
  else if cfg80211_chandef_get_width c <? 0 then Some false
  else
    subs ← for_each_subchan c;
    Some (forallb (fun '(freq, _) =>
      match ieee80211_get_channel_khz wiphy freq with
      | None => false
      | Some ch =>
          negb (nz (chan_flags ch .& IEEE80211_CHAN_DISABLED)) &&
          negb (nz (chan_flags ch .& IEEE80211_CHAN_RADAR) &&
                negb (bool_decide (dfs_state ch = NL80211_DFS_AVAILABLE)) &&
                negb (bool_decide (dfs_state ch = NL80211_DFS_USABLE) && dfs_offload))
      end) subs).

Definition INT_MAX : Z := 2 ^ 31 - 1.

(** The check times of the two segments. *)
Definition cac_step (wiphy : list ieee80211_channel) (t : Z * Z) (sub : Z * Z) : Z * Z :=
  let '(t1, t2) := t in
  let '(freq, cf) := sub in
  let unusable := if cf =? 1 then (INT_MAX, t2) else (t1, INT_MAX) in
  match ieee80211_get_channel_khz wiphy freq with
  | None => unusable
  | Some ch =>
      if nz (chan_flags ch .& IEEE80211_CHAN_DISABLED) then unusable
      else if negb (nz (chan_flags ch .& IEEE80211_CHAN_RADAR)) then (t1, t2)
      else
        (if (cf =? 1) && (t1 <? dfs_cac_ms ch) then dfs_cac_ms ch else t1,
         if (cf =? 2) && (t2 <? dfs_cac_ms ch) then dfs_cac_ms ch else t2)
  end.

Definition cfg80211_chandef_dfs_cac_time (wiphy : list ieee80211_channel) (c : cfg80211_chan_def)
    : option Z :=
  if negb (cfg80211_chandef_valid c) then Some 0
  else if cfg80211_chandef_get_width c <? 0 then Some 0
  else
    subs ← for_each_subchan c;
    let '(t1, t2) := foldl (cac_step wiphy) (0, 0) subs in
    Some (if (t1 =? INT_MAX) && (t2 =? INT_MAX) then 0
          else if t1 =? INT_MAX then t2
          else if t2 =? INT_MAX then t1
          else Z.max t1 t2).

(** The two loops of [cfg80211_is_sub_chan]: is [f] one of the sub-channels of
    the segment at [center]? *)
Fixpoint sub_chan_loop (fuel : nat) (f freq last : Z) : option bool :=
  match fuel with
  | O => None
  | S fuel =>
      if freq <=? last then
        if f =? freq then Some true else sub_chan_loop fuel f (u32 (freq + 20)) last
      else Some false
  end.

Definition in_segment (center w f : Z) : option bool :=
  sub_chan_loop 20 f (u32 (center - w / 2 + 10)) (u32 (center + w / 2 - 10)).

Definition cfg80211_is_sub_chan (c : cfg80211_chan_def) (ch : ieee80211_channel)
    (primary_only : bool) : option bool :=
  match chan c with
  | None => Some false
  | Some own =>
      if center_freq own =? center_freq ch then Some true
      else if primary_only then Some false
      else
        let w := cfg80211_chandef_get_width c in
        if w <=? 20 then Some false
        else
          found ← in_segment (center_freq1 c) w (center_freq ch);
          if found : bool then Some true
          else if negb (nz (center_freq2 c)) then Some false
          else in_segment (center_freq2 c) w (center_freq ch)
  end.
