(* ===== verification/ChandefProofs.v ===== *)
(** * ChandefProofs: what channel definitions mean

    A channel definition of 20 to 320 MHz is a segment of 20 MHz sub-channels,
    numbered from its lower edge, some of them punctured; the control channel
    is one of them. *)
From S2P Require Import Prelude Frame Chandef.

(** ** Shape of a valid channel definition *)

(** The number of doublings from 20 MHz. *)
Definition order (w : nl80211_chan_width) : option nat :=
  match w with
  | NL80211_CHAN_WIDTH_20_NOHT | NL80211_CHAN_WIDTH_20 => Some 0%nat
  | NL80211_CHAN_WIDTH_40 => Some 1%nat
  | NL80211_CHAN_WIDTH_80 | NL80211_CHAN_WIDTH_80P80 => Some 2%nat
  | NL80211_CHAN_WIDTH_160 => Some 3%nat
  | NL80211_CHAN_WIDTH_320 => Some 4%nat
  | _ => None
  end.

(** [2 ^ k] sub-channels. *)
Definition pow (k : nat) : Z := 2 ^ Z.of_nat k.

Lemma pow_pos k : 1 <= pow k.
Proof. unfold pow. pose proof (Z.pow_pos_nonneg 2 (Z.of_nat k)). lia. Qed.

Lemma pow_S k : pow (S k) = 2 * pow k.
Proof. unfold pow. rewrite Nat2Z.inj_succ, Z.pow_succ_r by lia. done. Qed.

Lemma pow_add a b : pow (a + b) = pow a * pow b.
Proof. unfold pow. rewrite Nat2Z.inj_add, Z.pow_add_r by lia. done. Qed.

Lemma order_width w k : order w = Some k -> nl80211_chan_width_to_mhz w = 20 * pow k /\ (k <= 4)%nat.
Proof. destruct w; cbn; intros [= <-]; split; (reflexivity || lia). Qed.

(** Frequencies far enough from both ends of their type. *)
Definition freq_ok (f : Z) : Prop := 1000 <= f <= 100000.

(** The lower edge of a segment of order [k] centred at [center]. *)
Definition low_edge (center : Z) (k : nat) : Z := center - 10 * pow k.

Lemma control_offset_position w k d :
  order w = Some k -> In d (control_offsets w) ->
  exists m, 0 <= m < pow k /\ d = 10 * pow k - 10 - 20 * m.
Proof.
  intros Hw Hd. exists ((10 * pow k - 10 - d) / 20).
  destruct w; cbn in Hw, Hd; simplify_eq/=; repeat destruct Hd as [<-|Hd];
    first [done | vm_compute; split; [split; congruence|reflexivity]].
Qed.

Lemma puncturing_bits c k ctl :
  order (width c) = Some k -> valid_puncturing_bitmap c ctl (punctured c) = true ->
  is_uint (pow k) (punctured c).
Proof.
  intros Hk. unfold valid_puncturing_bitmap.
  assert (forall vs n, Forall (is_uint n) vs -> is_uint n 0 ->
    (if negb (nz (punctured c)) then true
     else if nz (punctured c .& u16 (BIT (u32 (ctl - u32 (center_freq1 c - 10 * n)) / 20))) then false
     else existsb (fun v => v =? punctured c) vs) = true -> is_uint n (punctured c)) as Hv.
  { intros vs n Hvs H0. unfold nz. destruct (Z.eqb_spec (punctured c) 0) as [->|]; [done|]. cbn [negb].
    destruct (negb _); [done|]. intros (v & Hin & <-%Z.eqb_eq)%existsb_exists.
    by eapply List.Forall_forall in Hvs. }
  destruct (width c); cbn in Hk; try done; injection Hk as <-; intros H;
    try (apply Z.eqb_eq in H; rewrite H; by vm_compute).
  - apply (Hv _ 4) in H; [done| |by vm_compute]. by (eapply bool_decide_unpack; vm_compute).
  - apply (Hv _ 8) in H; [done| |by vm_compute]. by (eapply bool_decide_unpack; vm_compute).
  - apply (Hv _ 16) in H; [done| |by vm_compute]. by (eapply bool_decide_unpack; vm_compute).
Qed.

(** The control channel of a valid definition of at least 40 MHz is one of its
    sub-channels, and only its own sub-channels are punctured. *)
Record segment (c : cfg80211_chan_def) (control : Z) (k : nat) (m : Z) : Prop := {
  seg_order : order (width c) = Some k;
  seg_index : 0 <= m < pow k;
  seg_control : control = low_edge (center_freq1 c) k + 10 + 20 * m;
  seg_punctured : is_uint (pow k) (punctured c);
}.

Lemma valid_segment c ch k :
  cfg80211_chandef_valid c = true -> chan c = Some ch -> freq_ok (center_freq ch) ->
  order (width c) = Some (S k) -> exists m, segment c (center_freq ch) (S k) m.
Proof.
  intros Hv Hch Hf Hk. unfold cfg80211_chandef_valid in Hv. rewrite Hch in Hv.
  repeat (apply andb_true_iff in Hv as [Hv ?]).
  assert (existsb (fun d => center_freq1 c =? u32 (center_freq ch + d)) (control_offsets (width c)) = true)
    as (d & Hd & Hc%Z.eqb_eq)%existsb_exists.
  { match goal with H : cfg80211_chandef_valid_control_freq _ _ = true |- _ =>
      unfold cfg80211_chandef_valid_control_freq in H; destruct (width c); cbn in Hk; try done end. }
  destruct (control_offset_position _ _ _ Hk Hd) as (m & Hm & ->). exists m.
  pose proof (order_width _ _ Hk) as [_ Hk4]. unfold freq_ok in Hf.
  assert (pow (S k) <= 16) by (unfold pow; apply (Z.pow_le_mono_r 2 _ 4); lia).
  rewrite wrap_small in Hc by (unfold is_uint; lia).
  split; [done..| |by eapply puncturing_bits]. unfold low_edge. lia.
Qed.

(** ** The primary sub-channel *)

(** Bits [2^j * q ..] of a map, as many as a segment of order [j] has. *)
Definition sub_bits (punct q : Z) (j : nat) : Z := (punct >> (pow j * q)) .& Z.ones (pow j).

Lemma primary_loop_spec j d : forall fuel control center punct m,
  (d < fuel)%nat -> (j + d <= 4)%nat -> 0 <= m < pow (j + d) ->
  control = low_edge center (j + d) + 10 + 20 * m -> 0 <= low_edge center (j + d) ->
  center + 10 * pow (j + d) < 2 ^ 31 -> is_uint (pow (j + d)) punct ->
  primary_loop fuel control (20 * pow j) (20 * pow (j + d)) center punct =
  Some (low_edge center (j + d) + 20 * pow j * (m / pow j) + 10 * pow j, sub_bits punct (m / pow j) j).
Proof.
  pose proof (pow_pos j) as Hj.
  induction d as [|d IH]; intros [|fuel] control center punct m Hf Hjd Hm Hc Hlo Hhi Hp; try lia;
    cbn [primary_loop].
  - rewrite Nat.add_0_r in *. destruct (Z.ltb_spec (20 * pow j) (20 * pow j)); [lia|].
    rewrite Z.div_small by lia. f_equal. f_equal.
    + unfold low_edge. lia.
    + unfold sub_bits. rewrite Z.mul_0_r, Z.shiftr_0_r, Z.land_ones by lia.
      rewrite Z.mod_small; [done|]. exact Hp.
  - replace (j + S d)%nat with (S (j + d)) in * by lia. rewrite pow_S in *.
    pose proof (pow_pos (j + d)) as Hk. pose proof (pow_pos d) as Hd.
    assert (pow (j + d) <= 8) by (unfold pow; apply (Z.pow_le_mono_r 2 _ 3); lia).
    destruct (Z.ltb_spec (20 * pow j) (20 * (2 * pow (j + d)))).
    2:{ rewrite pow_add in *. nia. }
    replace (20 * (2 * pow (j + d)) / 20 / 2) with (pow (j + d))
      by (rewrite (Z.mul_comm 20), Z.div_mul, (Z.mul_comm 2), Z.div_mul by lia; done).
    replace (20 * (2 * pow (j + d)) / 4) with (10 * pow (j + d))
      by (replace (20 * (2 * pow (j + d))) with (10 * pow (j + d) * 4) by lia; by rewrite Z.div_mul by lia).
    replace (20 * (2 * pow (j + d)) / 2) with (20 * pow (j + d))
      by (replace (20 * (2 * pow (j + d))) with (20 * pow (j + d) * 2) by lia; by rewrite Z.div_mul by lia).
    unfold low_edge in *. rewrite pow_S in *.
    destruct (Z.ltb_spec center control).
    + assert (pow (j + d) <= m) by lia. rewrite wrap_small by (unfold is_uint; lia).
      rewrite (IH fuel control _ _ (m - pow (j + d))); try lia.
      2:{ replace (pow (j + d)) with (2 * pow (j + d) - pow (j + d)) at 1 by lia.
          apply shiftr_is_uint; [lia|done]. }
      assert (m / pow j = (m - pow (j + d)) / pow j + pow d) as ->.
      { rewrite pow_add. replace m with (m - pow j * pow d + pow d * pow j) at 1 by lia.
        by rewrite Z.div_add by lia. }
      rewrite (pow_add j d) in *. f_equal. f_equal; [lia|]. unfold sub_bits.
      rewrite Z.shiftr_shiftr by (apply Z.mul_nonneg_nonneg; [|apply Z.div_pos]; lia).
      do 2 f_equal. lia.
    + assert (m < pow (j + d)) by lia. rewrite wrap_small by (unfold is_uint; lia).
      replace ((1 << pow (j + d)) - 1) with (Z.ones (pow (j + d))) by (rewrite Z.ones_equiv, Z.shiftl_1_l; lia).
      rewrite (IH fuel control _ _ m); try lia.
      2:{ rewrite Z.land_ones by lia. apply wrap_is_uint. lia. }
      f_equal. f_equal; [lia|]. unfold sub_bits. rewrite Z.shiftr_land.
      assert (0 <= m / pow j) by (apply Z.div_pos; lia).
      assert (pow j * (m / pow j) + pow j <= pow (j + d)) as Hle.
      { rewrite pow_add in *. assert (m / pow j < pow d) by (apply Z.div_lt_upper_bound; lia). nia. }
      apply Z.bits_inj'; intros i Hi. rewrite !Z.land_spec, !Z.shiftr_spec by lia.
      destruct (Z.ltb_spec i (pow j)).
      * rewrite (Z.ones_spec_low (pow (j + d))) by lia. by rewrite andb_true_r.
      * rewrite (Z.ones_spec_high (pow j)) by lia. by rewrite !andb_false_r.
Qed.

(** Parts of parts. *)
Lemma sub_bits_sub punct q a j r :
  (j <= a)%nat -> 0 <= q -> 0 <= r -> pow j * r + pow j <= pow a ->
  sub_bits (sub_bits punct q a) r j = sub_bits punct (pow (a - j) * q + r) j.
Proof.
  intros Hj Hq Hr Hle. unfold sub_bits. pose proof (pow_pos j). pose proof (pow_pos a).
  replace (pow j * (pow (a - j) * q + r)) with (pow a * q + pow j * r)
    by (replace a with (j + (a - j))%nat at 1 by lia; rewrite pow_add; lia).
  assert (0 <= pow a * q) by (apply Z.mul_nonneg_nonneg; lia).
  assert (0 <= pow j * r) by (apply Z.mul_nonneg_nonneg; lia).
  rewrite <- Z.shiftr_shiftr by done. rewrite Z.shiftr_land.
  apply Z.bits_inj'; intros i Hi. rewrite !Z.land_spec, (Z.shiftr_spec (Z.ones (pow a))) by lia.
  destruct (Z.ltb_spec i (pow j)).
  - rewrite (Z.ones_spec_low (pow a)) by lia. by rewrite andb_true_r.
  - rewrite (Z.ones_spec_high (pow j)) by lia. by rewrite !andb_false_r.
Qed.

Lemma sub_bits_range punct q j : is_uint (pow j) (sub_bits punct q j).
Proof.
  unfold sub_bits. pose proof (pow_pos j). rewrite Z.land_ones by lia. apply wrap_is_uint. lia.
Qed.

Lemma order_pow_le w k : order w = Some k -> 1 <= pow k <= 16.
Proof. destruct w; cbn; intros [= <-]; by vm_compute. Qed.

(** What [cfg80211_chandef_primary] computes: the centre of the sub-channel of
    the asked width that holds the control channel, and its punctured bits. *)
Lemma chandef_primary_spec c ch k m w j :
  segment c (center_freq ch) k m -> chan c = Some ch -> freq_ok (center_freq ch) ->
  order w = Some j -> (j <= k)%nat ->
  cfg80211_chandef_primary c w =
  Some (low_edge (center_freq1 c) k + 20 * pow j * (m / pow j) + 10 * pow j,
        sub_bits (punctured c) (m / pow j) j).
Proof.
  intros [Hk Hm Hc Hp] Hch Hf Hw Hjk. unfold cfg80211_chandef_primary, cfg80211_chandef_get_width.
  destruct (order_width _ _ Hk) as [Ek Hk4]. destruct (order_width _ _ Hw) as [Ej _].
  pose proof (order_pow_le _ _ Hk). pose proof (order_pow_le _ _ Hw).
  assert (pow j <= pow k) as Hle by (unfold pow; apply Z.pow_le_mono_r; lia).
  rewrite Ek, Ej, Hch, bind_some. unfold low_edge, freq_ok in *.
  destruct (Z.ltb_spec (20 * pow j) 0), (Z.ltb_spec (20 * pow k) 0); try lia. cbn [orb].
  destruct (Z.ltb_spec (20 * pow k) (20 * pow j)); [lia|].
  destruct (Nat.le_exists_sub j k) as (d & -> & _); [done|]. rewrite (Nat.add_comm d j) in *.
  rewrite (primary_loop_spec j d _ _ _ _ m); unfold low_edge, primary_fuel; try done; try lia.
  rewrite bind_some. f_equal. f_equal.
  assert (0 <= m / pow j) by (apply Z.div_pos; lia).
  assert (pow j * (m / pow j) <= m) by (apply Z.mul_div_le; lia).
  unfold swrap. rewrite Z.mod_small by lia. zcase; lia.
Qed.

(** ** Compatibility *)

(** [n] is one of the segments of its width into which [w] divides, and the two
    agree on the punctured sub-channels of [n]. *)
Definition is_block (n w : cfg80211_chan_def) : Prop :=
  exists a k q,
    order (width n) = Some a /\ order (width w) = Some k /\ 0 <= q < pow (k - a) /\
    low_edge (center_freq1 n) a = low_edge (center_freq1 w) k + 20 * pow a * q /\
    forall i, 0 <= i < pow a ->
      Z.testbit (punctured n) i = Z.testbit (punctured w) (pow a * q + i).

(** The block that holds the control channel is the primary sub-channel. *)
Lemma block_primary n w ch a k mn mw :
  segment n (center_freq ch) a mn -> segment w (center_freq ch) k mw -> (a <= k)%nat ->
  is_block n w <->
  (low_edge (center_freq1 n) a = low_edge (center_freq1 w) k + 20 * pow a * (mw / pow a) /\
   punctured n = sub_bits (punctured w) (mw / pow a) a).
Proof.
  intros [Hn Hmn Hcn Hpn] [Hw Hmw Hcw Hpw] Hak. pose proof (pow_pos a). pose proof (pow_pos k).
  assert (forall i q, 0 <= i < pow a -> 0 <= q ->
    Z.testbit (sub_bits (punctured w) q a) i = Z.testbit (punctured w) (pow a * q + i)) as Hbits.
  { intros i q Hi Hq. unfold sub_bits. rewrite Z.land_spec, Z.ones_spec_low, andb_true_r by lia.
    rewrite Z.shiftr_spec by lia. f_equal. lia. }
  split.
  - intros (a' & k' & q & Ha & Hk & Hq & Hl & Hb). rewrite Hn in Ha. rewrite Hw in Hk. simplify_eq.
    assert (mw = pow a' * q + mn) as -> by lia.
    rewrite (Z.mul_comm (pow a') q), Z.div_add_l, (Z.div_small mn), Z.add_0_r in * by lia.
    split; [done|]. apply Z.bits_inj'; intros i Hi. destruct (Z.ltb_spec i (pow a')).
    + rewrite Hbits, (Z.mul_comm (pow a') q) by lia. apply Hb. lia.
    + rewrite (uint_testbit_high (pow a') (punctured n)) by (done || lia).
      symmetry. apply (uint_testbit_high (pow a')); [apply sub_bits_range|lia].
  - intros [Hl Hp]. exists a, k, (mw / pow a). split_and!; try done.
    + apply Z.div_pos; lia.
    + apply Z.div_lt_upper_bound; [lia|]. rewrite <- pow_add. replace (a + (k - a))%nat with k by lia. lia.
    + intros i Hi. rewrite Hp. apply Hbits; [done|]. apply Z.div_pos; lia.
Qed.

(** Being a block is seen at each smaller width. *)
Lemma primary_compat_spec n w ch a k mn mw pw j :
  segment n (center_freq ch) a mn -> segment w (center_freq ch) k mw -> (a <= k)%nat ->
  chan n = Some ch -> chan w = Some ch -> freq_ok (center_freq ch) ->
  order pw = Some j -> (j <= a)%nat -> is_block n w ->
  check_chandef_primary_compat n w pw =
  Some (if bool_decide (width n = pw) then CHANDEF w else NULL_PTR).
Proof.
  intros Hn Hw Hak Hcn Hcw Hf Hpw Hja Hb. unfold check_chandef_primary_compat.
  rewrite (chandef_primary_spec n ch a mn pw j), bind_some by done.
  rewrite (chandef_primary_spec w ch k mw pw j), bind_some by (done || lia).
  destruct (proj1 (block_primary n w ch a k mn mw Hn Hw Hak) Hb) as [Hl Hp].
  destruct Hn as [Hon Hmn Hctn _], Hw as [How Hmw Hctw _].
  pose proof (pow_pos a). pose proof (pow_pos j).
  assert (pow a = pow j * pow (a - j)) as Hpow.
  { rewrite <- pow_add. f_equal. lia. }
  pose proof (pow_pos (a - j)).
  set (q := mw / pow a) in *. assert (0 <= q) by (apply Z.div_pos; lia).
  assert (mw = pow a * q + mn) as Hmw' by lia.
  assert (mw / pow j = pow (a - j) * q + mn / pow j) as Hdiv.
  { rewrite Hmw', Hpow. replace (pow j * pow (a - j) * q + mn) with ((pow (a - j) * q) * pow j + mn) by lia.
    by rewrite Z.div_add_l by lia. }
  assert (0 <= mn / pow j) by (apply Z.div_pos; lia).
  assert (mn / pow j < pow (a - j)) by (apply Z.div_lt_upper_bound; lia).
  assert (low_edge (center_freq1 n) a + 20 * pow j * (mn / pow j) + 10 * pow j =
          low_edge (center_freq1 w) k + 20 * pow j * (mw / pow j) + 10 * pow j) as ->.
  { rewrite Hl, Hdiv, Hpow. lia. }
  rewrite Z.eqb_refl. cbn [negb].
  rewrite Hp, sub_bits_sub by (done || nia). rewrite <- Hdiv, Z.eqb_refl. done.
Qed.

(** At its own width the comparison decides. *)
Lemma primary_compat_own n w ch a k mn mw :
  segment n (center_freq ch) a mn -> segment w (center_freq ch) k mw -> (a <= k)%nat ->
  chan n = Some ch -> chan w = Some ch -> freq_ok (center_freq ch) -> ~ is_block n w ->
  forall pw, order pw = Some a ->
  check_chandef_primary_compat n w pw = Some (ERR_PTR (- EINVAL)).
Proof.
  intros Hn Hw Hak Hcn Hcw Hf Hb pw Hpw. unfold check_chandef_primary_compat.
  rewrite (chandef_primary_spec n ch a mn pw a), bind_some by done.
  rewrite (chandef_primary_spec w ch k mw pw a), bind_some by done.
  rewrite (block_primary n w ch a k mn mw) in Hb by done.
  destruct Hn as [_ Hmn _ Hpn]. rewrite (Z.div_small mn) by done. rewrite Z.mul_0_r, Z.add_0_r.
  assert (sub_bits (punctured n) 0 a = punctured n) as ->.
  { pose proof (pow_pos a). unfold sub_bits. rewrite Z.mul_0_r, Z.shiftr_0_r, Z.land_ones by lia.
    by apply Z.mod_small. }
  destruct (Z.eqb_spec (low_edge (center_freq1 n) a + 10 * pow a)
    (low_edge (center_freq1 w) k + 20 * pow a * (mw / pow a) + 10 * pow a)); [|done]. cbn [negb].
  destruct (Z.eqb_spec (punctured n) (sub_bits (punctured w) (mw / pow a) a)); [|done].
  exfalso. apply Hb. split; [lia|done].
Qed.

(** The parts of the validity check. *)
Lemma chandef_valid_parts c ch :
  cfg80211_chandef_valid c = true -> chan c = Some ch ->
  freq1_offset c < 1000 /\ (chan_is_s1g ch = true -> is_s1g_width (width c) = true) /\
  valid_width c ch = true /\ cfg80211_chandef_valid_control_freq c (center_freq ch) = true /\
  valid_puncturing_bitmap c (center_freq ch) (punctured c) = true.
Proof.
  intros Hv Hch. unfold cfg80211_chandef_valid in Hv. rewrite Hch in Hv.
  repeat (apply andb_true_iff in Hv as [Hv ?]). split_and!; try done.
  - apply negb_true_iff, Z.leb_gt in Hv. done.
  - intros E. rewrite E in *. by destruct (is_s1g_width (width c)).
Qed.

(** Outside the S1G band the width is one of 20 to 320 MHz. *)
Lemma valid_order c ch :
  cfg80211_chandef_valid c = true -> chan c = Some ch -> band ch <> NL80211_BAND_S1GHZ ->
  exists k, order (width c) = Some k.
Proof.
  intros Hv Hch Hb. destruct (chandef_valid_parts c ch Hv Hch) as (_ & _ & Hw & Hc & _).
  unfold valid_width, chan_is_s1g, cfg80211_chandef_valid_control_freq in *.
  rewrite bool_decide_eq_false_2 in Hw by done. destruct (width c); cbn in *; eauto; done.
Qed.

(** A valid definition never punctures its control channel. *)
Lemma control_not_punctured c ch k m :
  cfg80211_chandef_valid c = true -> chan c = Some ch -> freq_ok (center_freq ch) ->
  segment c (center_freq ch) k m -> Z.testbit (punctured c) m = false.
Proof.
  intros Hv Hch Hf [Hk Hm Hc _]. destruct (chandef_valid_parts c ch Hv Hch) as (_ & _ & _ & _ & Hp).
  unfold valid_puncturing_bitmap, freq_ok in *.
  assert (forall vs n, 10 * pow k = n -> 0 <= m < 16 ->
    (if negb (nz (punctured c)) then true
     else if nz (punctured c .& u16 (BIT (u32 (center_freq ch - u32 (center_freq1 c - n)) / 20))) then false
     else existsb (fun v => v =? punctured c) vs) = true -> Z.testbit (punctured c) m = false) as Hbit.
  { intros vs n Hn Hm16. unfold low_edge in Hc.
    rewrite (wrap_small 32 (center_freq1 c - n)) by (unfold is_uint; lia).
    rewrite (wrap_small 32 (center_freq ch - (center_freq1 c - n))) by (unfold is_uint; lia).
    replace ((center_freq ch - (center_freq1 c - n)) / 20) with m.
    2:{ replace (center_freq ch - (center_freq1 c - n)) with (10 + m * 20) by lia.
        rewrite Z.div_add by lia. done. }
    unfold BIT. rewrite Z.shiftl_1_l, wrap_small.
    2:{ split; [apply Z.pow_nonneg; lia|apply Z.pow_lt_mono_r; lia]. }
    rewrite nz_land_pow2 by lia. unfold nz.
    destruct (Z.eqb_spec (punctured c) 0) as [->|]; [intros; apply Z.bits_0|]. cbn [negb].
    by destruct (Z.testbit (punctured c) m). }
  destruct (width c); cbn in Hk; try done; injection Hk as <-;
    try (apply Z.eqb_eq in Hp; rewrite Hp; apply Z.bits_0).
  - apply (Hbit puncturing_values_80mhz 40); [done| |exact Hp]. change (pow 2) with 4 in *. lia.
  - apply (Hbit puncturing_values_160mhz 80); [done| |exact Hp]. change (pow 3) with 8 in *. lia.
  - apply (Hbit puncturing_values_320mhz 160); [done| |exact Hp]. change (pow 4) with 16 in *. lia.
Qed.

(** A 20 MHz definition is centred on its control channel. *)
Lemma valid_segment_20 c ch :
  cfg80211_chandef_valid c = true -> chan c = Some ch -> freq_ok (center_freq ch) ->
  freq_ok (center_freq1 c) -> 0 <= freq_offset ch < 1000 -> 0 <= freq1_offset c ->
  order (width c) = Some 0%nat -> segment c (center_freq ch) 0 0 /\ punctured c = 0.
Proof.
  intros Hv Hch Hf Hf1 Hfo H1o Hk. destruct (chandef_valid_parts c ch Hv Hch) as (Ho & _ & Hw & _ & Hp).
  unfold valid_width, valid_puncturing_bitmap, ieee80211_chandef_to_khz, ieee80211_channel_to_khz,
    MHZ_TO_KHZ, freq_ok in *.
  rewrite !wrap_small in Hw by (rewrite ?wrap_small; unfold is_uint; lia).
  assert (center_freq1 c = center_freq ch /\ punctured c = 0) as [Hc Hp0].
  { destruct (width c); cbn in Hk; try done; apply andb_true_iff in Hw as [Hw%Z.eqb_eq _];
      apply Z.eqb_eq in Hp; split; lia. }
  split; [|done]. split; [done|done| |].
  - unfold low_edge. rewrite Hc. change (pow 0) with 1. lia.
  - rewrite Hp0. by vm_compute.
Qed.

(** A valid definition outside the S1G band with frequencies in range. *)
Record usable_def (c : cfg80211_chan_def) (ch : ieee80211_channel) : Prop := {
  ud_valid : cfg80211_chandef_valid c = true;
  ud_chan : chan c = Some ch;
  ud_freq : freq_ok (center_freq ch);
  ud_center : freq_ok (center_freq1 c);
  ud_offset : 0 <= freq_offset ch < 1000;
  ud_offset1 : 0 <= freq1_offset c;
  ud_band : band ch <> NL80211_BAND_S1GHZ;
}.

Lemma usable_segment c ch : usable_def c ch -> exists k m, segment c (center_freq ch) k m.
Proof.
  intros [Hv Hch Hf Hc Ho Ho1 Hb]. destruct (valid_order c ch Hv Hch Hb) as [[|k] Hk].
  - exists 0%nat, 0. by apply valid_segment_20.
  - destruct (valid_segment c ch k Hv Hch Hf Hk) as [m Hm]. by exists (S k), m.
Qed.

(** The comparisons of the compatibility check once the narrower definition
    is first. *)
Definition compat_core (n w : cfg80211_chan_def) : option chandef_ptr :=
  if width_num (width n) <=? width_num NL80211_CHAN_WIDTH_20 then Some (CHANDEF w)
  else
    ret ← check_chandef_primary_compat n w NL80211_CHAN_WIDTH_40;
    match ret with
    | NULL_PTR =>
        ret ← check_chandef_primary_compat n w NL80211_CHAN_WIDTH_80;
        match ret with
        | NULL_PTR =>
            if bool_decide (width n = NL80211_CHAN_WIDTH_80P80) then Some NULL_PTR
            else ret ← check_chandef_primary_compat n w NL80211_CHAN_WIDTH_160; Some ret
        | ret => Some ret
        end
    | ret => Some ret
    end.

Lemma identical_width a b : width a <> width b -> cfg80211_chandef_identical a b = false.
Proof.
  intros. unfold cfg80211_chandef_identical. rewrite (bool_decide_eq_false_2 (width a = width b)) by done.
  by rewrite andb_false_r.
Qed.

Lemma order_not_s1g w k : order w = Some k -> is_s1g_width w = false.
Proof. by destruct w. Qed.

Lemma compat_order n w ch a k :
  chan n = Some ch -> chan w = Some ch -> npca_chan n = None -> npca_chan w = None ->
  order (width n) = Some a -> order (width w) = Some k ->
  width_num (width n) < width_num (width w) ->
  _cfg80211_chandef_compatible n w = compat_core n w /\
  _cfg80211_chandef_compatible w n = compat_core n w.
Proof.
  intros Hn Hw Nn Nw Ha Hk Hlt.
  assert (width n <> width w) as Hne by (intros E; rewrite E in Hlt; lia).
  unfold _cfg80211_chandef_compatible, chan_ptr_eqb.
  rewrite !identical_width, Hn, Hw, Nn, Nw, (order_not_s1g _ _ Ha), (order_not_s1g _ _ Hk) by auto.
  rewrite (bool_decide_eq_true_2 (addr <$> Some ch = addr <$> Some ch)) by done.
  rewrite (bool_decide_eq_false_2 (width n = width w)), (bool_decide_eq_false_2 (width w = width n)) by auto.
  rewrite (bool_decide_eq_false_2 (None <> None)) by auto. cbn [negb orb].
  destruct (Z.ltb_spec (width_num (width w)) (width_num (width n))); [lia|].
  destruct (Z.ltb_spec (width_num (width n)) (width_num (width w))); [|lia]. done.
Qed.

Lemma check_compat_total n w ch a k mn mw pw j :
  segment n (center_freq ch) a mn -> segment w (center_freq ch) k mw ->
  chan n = Some ch -> chan w = Some ch -> freq_ok (center_freq ch) ->
  order pw = Some j -> (j <= a)%nat -> (a <= k)%nat -> width n <> pw ->
  check_chandef_primary_compat n w pw = Some (ERR_PTR (- EINVAL)) \/
  check_chandef_primary_compat n w pw = Some NULL_PTR.
Proof.
  intros Hn Hw Hcn Hcw Hf Hpw Hja Hak Hne. unfold check_chandef_primary_compat.
  rewrite (chandef_primary_spec n ch a mn pw j), bind_some by done.
  rewrite (chandef_primary_spec w ch k mw pw j), bind_some by (done || lia).
  rewrite (bool_decide_eq_false_2 (width n = pw)) by done.
  destruct (negb _); [auto|]. destruct (negb _); auto.
Qed.

Lemma block_20 n w ch k mw :
  usable_def n ch -> usable_def w ch -> order (width n) = Some 0%nat ->
  segment w (center_freq ch) k mw -> is_block n w.
Proof.
  intros [Hvn Hcn Hf Hc Ho Ho1 _] [Hvw Hcw _ _ _ _ _] H0 Hw.
  destruct (valid_segment_20 n ch) as [[_ _ Hn _] Hp]; try done.
  pose proof (control_not_punctured w ch k mw Hvw Hcw Hf Hw) as Hb. destruct Hw as [Hk Hm Hcw' _].
  exists 0%nat, k, mw. change (pow 0) with 1. rewrite Nat.sub_0_r. split_and!; try done; [lia..|].
  intros i Hi. rewrite Hp, Z.bits_0. replace (1 * mw + i) with mw by lia. done.
Qed.

Lemma order_mono w1 w2 a k :
  order w1 = Some a -> order w2 = Some k -> width_num w1 < width_num w2 ->
  (a <= k)%nat /\ w1 <> NL80211_CHAN_WIDTH_320.
Proof. destruct w1, w2; cbn; intros [= <-] [= <-]; try lia; split; (lia || done). Qed.

Lemma compat_core_block n w ch k mw :
  usable_def n ch -> usable_def w ch -> segment w (center_freq ch) k mw ->
  width_num (width n) < width_num (width w) -> width n <> NL80211_CHAN_WIDTH_80P80 ->
  is_block n w -> compat_core n w = Some (CHANDEF w).
Proof.
  intros Un Uw Hw Hlt H80 Hb. destruct (usable_segment n ch Un) as (a & mn & Hn).
  destruct Un as [_ Hcn Hf _ _ _ _], Uw as [_ Hcw _ _ _ _ _].
  pose proof Hn as [Ha _ _ _]. pose proof Hw as [Hk _ _ _].
  destruct (order_mono _ _ _ _ Ha Hk Hlt) as [Hak H320]. unfold compat_core.
  pose proof (fun pw j Hpw Hj =>
    primary_compat_spec n w ch a k mn mw pw j Hn Hw Hak Hcn Hcw Hf Hpw Hj Hb) as Hs.
  destruct (width n) eqn:E; try done; cbn in Ha; simplify_eq; cbn [width_num Z.leb].
  all: change (2 <=? 1) with false || change (3 <=? 1) with false || change (5 <=? 1) with false ||
       (change (0 <=? 1) with true; done) || (change (1 <=? 1) with true; done); cbv iota.
  - by rewrite (Hs NL80211_CHAN_WIDTH_40 1%nat), bind_some by (done || lia).
  - rewrite (Hs NL80211_CHAN_WIDTH_40 1%nat), bind_some by (done || lia).
    rewrite bool_decide_eq_false_2 by done.
    by rewrite (Hs NL80211_CHAN_WIDTH_80 2%nat), bind_some by (done || lia).
  - rewrite (Hs NL80211_CHAN_WIDTH_40 1%nat), bind_some by (done || lia).
    rewrite bool_decide_eq_false_2 by done.
    rewrite (Hs NL80211_CHAN_WIDTH_80 2%nat), bind_some by (done || lia).
    rewrite !bool_decide_eq_false_2 by done.
    by rewrite (Hs NL80211_CHAN_WIDTH_160 3%nat), bind_some by (done || lia).
Qed.

Lemma compat_core_no n w ch k mw :
  usable_def n ch -> usable_def w ch -> segment w (center_freq ch) k mw ->
  width_num (width n) < width_num (width w) ->
  width n = NL80211_CHAN_WIDTH_80P80 \/ ~ is_block n w ->
  compat_core n w = Some (ERR_PTR (- EINVAL)) \/ compat_core n w = Some NULL_PTR.
Proof.
  intros Un Uw Hw Hlt Hno. destruct (usable_segment n ch Un) as (a & mn & Hn).
  assert (order (width n) <> Some 0%nat) as H0.
  { intros H0. destruct Hno as [E|Hnb]; [by rewrite E in H0|]. apply Hnb. by eapply block_20. }
  destruct Un as [_ Hcn Hf _ _ _ _], Uw as [_ Hcw _ _ _ _ _].
  pose proof Hn as [Ha _ _ _]. pose proof Hw as [Hk _ _ _].
  destruct (order_mono _ _ _ _ Ha Hk Hlt) as [Hak H320]. unfold compat_core.
  pose proof (fun pw j Hpw Hj Hne =>
    check_compat_total n w ch a k mn mw pw j Hn Hw Hcn Hcw Hf Hpw Hj Hak Hne) as Ht.
  pose proof (fun Hb pw Hpw =>
    primary_compat_own n w ch a k mn mw Hn Hw Hak Hcn Hcw Hf Hb pw Hpw) as Ho.
  destruct (width n) eqn:E; cbn in Ha; try done; simplify_eq; cbn [width_num].
  all: change (2 <=? 1) with false || change (3 <=? 1) with false || change (4 <=? 1) with false ||
       change (5 <=? 1) with false; cbv iota.
  - destruct Hno as [|Hb]; [done|]. rewrite (Ho Hb NL80211_CHAN_WIDTH_40) by done. by left.
  - destruct Hno as [|Hb]; [done|].
    destruct (Ht NL80211_CHAN_WIDTH_40 1%nat) as [-> | ->]; try done; try lia; [by left|].
    rewrite bind_some. rewrite (Ho Hb NL80211_CHAN_WIDTH_80) by done. by left.
  - destruct (Ht NL80211_CHAN_WIDTH_40 1%nat) as [-> | ->]; try done; try lia; [by left|].
    rewrite bind_some.
    destruct (Ht NL80211_CHAN_WIDTH_80 2%nat) as [-> | ->]; try done; try lia; [by left|]. by right.
  - destruct Hno as [|Hb]; [done|].
    destruct (Ht NL80211_CHAN_WIDTH_40 1%nat) as [-> | ->]; try done; try lia; [by left|].
    rewrite bind_some.
    destruct (Ht NL80211_CHAN_WIDTH_80 2%nat) as [-> | ->]; try done; try lia; [by left|].
    rewrite bind_some, bool_decide_eq_false_2 by done.
    rewrite (Ho Hb NL80211_CHAN_WIDTH_160) by done. by left.
Qed.

Lemma is_block_dec n w ch :
  usable_def n ch -> usable_def w ch -> width_num (width n) < width_num (width w) ->
  is_block n w \/ ~ is_block n w.
Proof.
  intros Un Uw Hlt. destruct (usable_segment n ch Un) as (a & mn & Hn).
  destruct (usable_segment w ch Uw) as (k & mw & Hw).
  pose proof Hn as [Ha _ _ _]. pose proof Hw as [Hk _ _ _].
  destruct (order_mono _ _ _ _ Ha Hk Hlt) as [Hak _].
  rewrite (block_primary n w ch a k mn mw) by done.
  destruct (decide (low_edge (center_freq1 n) a = low_edge (center_freq1 w) k + 20 * pow a * (mw / pow a)));
    [|right; tauto].
  destruct (decide (punctured n = sub_bits (punctured w) (mw / pow a) a)); [left|right]; tauto.
Qed.

(** Without a non-primary channel. *)
Lemma compatible_block n w ch :
  usable_def n ch -> usable_def w ch -> npca_chan n = None -> npca_chan w = None ->
  width_num (width n) < width_num (width w) ->
  exists r, cfg80211_chandef_compatible n w = Some r /\ cfg80211_chandef_compatible w n = Some r /\
    (r = Some w \/ r = None) /\
    (r = Some w <-> width n <> NL80211_CHAN_WIDTH_80P80 /\ is_block n w).
Proof.
  intros Un Uw Nn Nw Hlt. destruct (usable_segment w ch Uw) as (k & mw & Hw).
  destruct (usable_segment n ch Un) as (a & mn & Hn).
  destruct (compat_order n w ch a k) as [E1 E2]; try done;
    [apply Un|apply Uw|apply Hn|apply Hw|]. unfold cfg80211_chandef_compatible. rewrite E1, E2.
  destruct (decide (width n = NL80211_CHAN_WIDTH_80P80)) as [H80|H80].
  { exists None. destruct (compat_core_no n w ch k mw) as [-> | ->]; auto; split_and!; auto;
      split; (done || tauto). }
  destruct (is_block_dec n w ch Un Uw Hlt) as [Hb|Hb].
  - exists (Some w). rewrite (compat_core_block n w ch k mw) by done. split_and!; auto. split; auto.
  - exists None. destruct (compat_core_no n w ch k mw) as [-> | ->]; auto; split_and!; auto;
      split; (done || tauto).
Qed.

(** A definition with a non-primary channel is compatible with itself only. *)
Lemma compatible_npca n w ch :
  chan n = Some ch -> chan w = Some ch -> width n <> width w -> npca_chan n <> None \/ npca_chan w <> None ->
  cfg80211_chandef_compatible n w = Some None.
Proof.
  intros Hn Hw Hne Hc. unfold cfg80211_chandef_compatible, _cfg80211_chandef_compatible, chan_ptr_eqb.
  rewrite identical_width, Hn, Hw by done.
  rewrite (bool_decide_eq_true_2 (addr <$> Some ch = addr <$> Some ch)), (bool_decide_eq_false_2 (width n = width w)) by done.
  assert (bool_decide (npca_chan n <> None) || bool_decide (npca_chan w <> None) = true) as -> by
    (apply orb_true_iff; rewrite !bool_decide_eq_true; done).
  done.
Qed.

(** C25: two valid channel definitions with one control channel and different
    widths are compatible, in either order, exactly if neither has a channel for
    non-primary access (NPCA), the narrower is not an 80+80 MHz definition, and
    it is one of the segments into which the wider divides at that width, with
    the same sub-channels punctured; the wider one is the result. *)
Theorem chandef_compatible_correct n w ch :
  usable_def n ch -> usable_def w ch -> width_num (width n) < width_num (width w) ->
  exists r, cfg80211_chandef_compatible n w = Some r /\ cfg80211_chandef_compatible w n = Some r /\
    (r = Some w \/ r = None) /\
    (r = Some w <-> npca_chan n = None /\ npca_chan w = None /\
                    width n <> NL80211_CHAN_WIDTH_80P80 /\ is_block n w).
Proof.
  intros Un Uw Hlt. destruct (decide (npca_chan n = None /\ npca_chan w = None)) as [[Nn Nw]|Hc].
  - destruct (compatible_block n w ch Un Uw Nn Nw Hlt) as (r & E1 & E2 & Hr & Hb). exists r. split_and!; try done.
    rewrite Hb. tauto.
  - assert (npca_chan n <> None \/ npca_chan w <> None) as Hc'.
    { destruct (npca_chan n); [by left|]. right. intros E. by destruct Hc. }
    assert (width n <> width w) as Hne by (intros E; rewrite E in Hlt; lia).
    exists None. rewrite !(compatible_npca _ _ ch) by (apply Un || apply Uw || (intros E; apply Hne; congruence) || tauto).
    split_and!; auto. split; [done|]. intros (? & ? & _). by destruct Hc.
Qed.

(** ** The walk over the sub-channels *)

(** The sub-channels of a segment from [freq] on that are not punctured. *)
Fixpoint subs (n : nat) (freq cf punct : Z) : list (Z * Z) :=
  match n with
  | O => []
  | S n => (if nz (punct .& 1) then [] else [(freq, cf)]) ++ subs n (freq + 20000) cf (punct >> 1)
  end.

Lemma elem_of_subs n freq cf punct f g :
  (f, g) ∈ subs n freq cf punct <->
  g = cf /\ exists i, 0 <= i < Z.of_nat n /\ f = freq + 20000 * i /\ Z.testbit punct i = false.
Proof.
  revert freq punct. induction n as [|n IH]; intros freq punct; cbn [subs].
  { split; [by intros ?%elem_of_nil|]. intros (_ & i & ? & _). lia. }
  rewrite elem_of_app, IH. replace (punct .& 1) with (punct .& 2 ^ 0) by done. rewrite nz_land_pow2 by lia.
  split.
  - intros [H|(-> & i & Hi & -> & Hb)].
    + destruct (Z.testbit punct 0) eqn:E; [by apply elem_of_nil in H|].
      apply list_elem_of_singleton in H. injection H as -> ->. split; [done|].
      exists 0. split_and!; (done || lia).
    + split; [done|]. exists (i + 1). split_and!; [lia..|]. by rewrite Z.shiftr_spec in Hb by lia.
  - intros (-> & i & Hi & -> & Hb). destruct (decide (i = 0)) as [->|].
    + left. rewrite Hb. apply list_elem_of_singleton. f_equal. lia.
    + right. split; [done|]. exists (i - 1). split_and!; [lia..|].
      rewrite Z.shiftr_spec by lia. by replace (i - 1 + 1) with i by lia.
Qed.

Section Walk.
Context (c : cfg80211_chan_def).

(** One segment to its end. *)
Lemma subchan_loop_one cf n : forall fuel freq punct,
  (n < fuel)%nat -> 0 <= freq -> freq + 20000 * Z.of_nat n < 2 ^ 32 ->
  (cf =? 1) && nz (center_freq2 c) = false ->
  cfg80211_get_end_freq c cf = freq + 20000 * (Z.of_nat n - 1) ->
  subchan_loop c fuel freq cf punct = Some (subs n freq cf punct).
Proof.
  induction n as [|n IH]; intros [|fuel] freq punct Hf H0 Hw Hcf He; try lia; cbn [subchan_loop subs].
  - destruct (Z.leb_spec freq (cfg80211_get_end_freq c cf)); [lia|done].
  - destruct (Z.leb_spec freq (cfg80211_get_end_freq c cf)); [|lia].
    change (MHZ_TO_KHZ 20) with 20000. rewrite Hcf. cbn [andb]. rewrite wrap_small by (unfold is_uint; lia).
    rewrite IH, bind_some by (done || lia). by destruct (nz (punct .& 1)).
Qed.

Lemma subchan_loop_S fuel freq cf punct :
  subchan_loop c (S fuel) freq cf punct =
  if freq <=? cfg80211_get_end_freq c cf then
    let next := u32 (freq + MHZ_TO_KHZ 20) in
    rest ← (if (cf =? 1) && nz (center_freq2 c) && (cfg80211_get_end_freq c cf <? next)
            then subchan_loop c fuel (cfg80211_get_start_freq c (cf + 1)) (cf + 1) 0
            else subchan_loop c fuel next cf (punct >> 1));
    Some (if nz (punct .& 1) then rest else (freq, cf) :: rest)
  else Some [].
Proof. done. Qed.

(** The first of two segments. *)
Lemma subchan_loop_two n fuel rest freq punct :
  0 <= freq -> freq + 20000 * (Z.of_nat n + 1) < 2 ^ 32 -> nz (center_freq2 c) = true ->
  cfg80211_get_end_freq c 1 = freq + 20000 * Z.of_nat n ->
  subchan_loop c fuel (cfg80211_get_start_freq c 2) 2 0 = Some rest ->
  subchan_loop c (S n + fuel) freq 1 punct = Some (subs (S n) freq 1 punct ++ rest).
Proof.
  revert freq punct. induction n as [|n IH]; intros freq punct H0 Hw Hc2 He Hr.
  all: rewrite Nat.add_succ_l.
  all: rewrite subchan_loop_S; cbv zeta; change (MHZ_TO_KHZ 20) with 20000.
  all: (destruct (Z.leb_spec freq (cfg80211_get_end_freq c 1)); [|lia]);
    rewrite wrap_small by (unfold is_uint; lia); change (1 =? 1) with true; rewrite Hc2; cbn [andb].
  - destruct (Z.ltb_spec (cfg80211_get_end_freq c 1) (freq + 20000)); [|lia].
    change (1 + 1) with 2. change (0 + fuel)%nat with fuel. rewrite Hr, bind_some. cbn [subs].
    by destruct (nz (punct .& 1)).
  - destruct (Z.ltb_spec (cfg80211_get_end_freq c 1) (freq + 20000)); [lia|].
    rewrite (IH (freq + 20000) (punct >> 1)), bind_some by (done || lia).
    change (subs (S (S n)) freq 1 punct) with
      ((if nz (punct .& 1) then [] else [(freq, 1)]) ++ subs (S n) (freq + 20000) 1 (punct >> 1)).
    rewrite <- app_assoc. by destruct (nz (punct .& 1)).
Qed.

Context (k : nat).
Hypothesis Hk : order (width c) = Some k.

Lemma start_freq_spec cf f :
  f = (if cf =? 1 then center_freq1 c else center_freq2 c) -> freq_ok f ->
  cfg80211_get_start_freq c cf = 1000 * (low_edge f k + 10) /\
  cfg80211_get_end_freq c cf = 1000 * (low_edge f k + 10) + 20000 * (pow k - 1).
Proof.
  intros Hf Hok. unfold cfg80211_get_start_freq, cfg80211_get_end_freq, seg_center, MHZ_TO_KHZ,
    cfg80211_chandef_get_width. rewrite <- Hf. destruct (order_width _ _ Hk) as [-> _].
  pose proof (order_pow_le _ _ Hk). unfold freq_ok, low_edge in *.
  rewrite !(wrap_small 32 (_ * 1000)) by (unfold is_uint; lia).
  assert (20 * pow k * 1000 / 2 = 10000 * pow k) as ->.
  { replace (20 * pow k * 1000) with (10000 * pow k * 2) by lia. by rewrite Z.div_mul by lia. }
  destruct (Z.leb_spec (20 * pow k * 1000) (20 * 1000)).
  - assert (pow k = 1) as -> by lia. lia.
  - rewrite !wrap_small by (unfold is_uint; lia). lia.
Qed.

(** The frequencies the walk visits: the sub-channels that are not punctured of
    the first segment, and all of the second. *)
Definition active (f : Z) : Prop :=
  (exists i, 0 <= i < pow k /\ f = 1000 * (low_edge (center_freq1 c) k + 10 + 20 * i) /\
     Z.testbit (punctured c) i = false) \/
  (center_freq2 c <> 0 /\
   exists i, 0 <= i < pow k /\ f = 1000 * (low_edge (center_freq2 c) k + 10 + 20 * i)).

Lemma walk_spec :
  freq_ok (center_freq1 c) -> center_freq2 c = 0 \/ (k <= 3)%nat /\ freq_ok (center_freq2 c) ->
  exists l, for_each_subchan c = Some l /\ forall f, f ∈ l.*1 <-> active f.
Proof.
  intros H1 H2. pose proof (order_pow_le _ _ Hk) as Hp.
  destruct (start_freq_spec 1 (center_freq1 c)) as [Es Ee]; [done..|].
  assert (Z.of_nat (Z.to_nat (pow k)) = pow k) as En by lia.
  assert (forall f cf punct g, f ∈ (subs (Z.to_nat (pow k)) (1000 * (low_edge g k + 10)) cf punct).*1 <->
    exists i, 0 <= i < pow k /\ f = 1000 * (low_edge g k + 10 + 20 * i) /\ Z.testbit punct i = false) as Hel.
  { intros f cf punct g. rewrite list_elem_of_fmap. split.
    - intros ([f' cf'] & -> & (-> & i & Hi & -> & Hb)%elem_of_subs). exists i. cbn. split_and!; (done || lia).
    - intros (i & Hi & -> & Hb). exists (1000 * (low_edge g k + 10 + 20 * i), cf). split; [done|].
      apply elem_of_subs. split; [done|]. exists i. split_and!; (done || lia). }
  unfold for_each_subchan, freq_ok, low_edge in *. destruct (Z.eq_dec (center_freq2 c) 0) as [E0|E0].
  - eexists. split.
    + rewrite Es. apply (subchan_loop_one 1 (Z.to_nat (pow k))); try lia.
      unfold nz. by rewrite E0.
    + intros f. rewrite Hel. unfold active, low_edge. split; [by left|]. intros [?|[? _]]; done.
  - destruct H2 as [|[Hk3 H2]]; [done|].
    assert (pow k <= 8) by (unfold pow; apply (Z.pow_le_mono_r 2 _ 3); lia).
    destruct (start_freq_spec 2 (center_freq2 c)) as [Es2 Ee2]; [done..|]. unfold low_edge in *.
    assert (exists n, Z.to_nat (pow k) = S n /\ (n < 8)%nat) as (n & Hn & Hn8).
    { exists (Z.to_nat (pow k) - 1)%nat. lia. }
    eexists. split.
    + rewrite Es. replace 20%nat with (S n + (20 - S n))%nat by lia. apply subchan_loop_two; try lia.
      * unfold nz. by destruct (Z.eqb_spec (center_freq2 c) 0).
      * rewrite Es2. apply (subchan_loop_one 2 (Z.to_nat (pow k))); lia.
    + intros f. rewrite fmap_app, elem_of_app, <- Hn, !Hel. unfold active, low_edge. split.
      * intros [?|(i & Hi & -> & _)]; [by left|]. right. split; [done|]. by exists i.
      * intros [?|(_ & i & Hi & ->)]; [by left|]. right. exists i. rewrite Z.bits_0. done.
Qed.

End Walk.

(** ** Radar detection *)

Lemma find_update (g : ieee80211_channel -> ieee80211_channel) wiphy x y :
  (forall ch, ieee80211_channel_to_khz (g ch) = ieee80211_channel_to_khz ch) ->
  ieee80211_get_channel_khz (update_channel g wiphy x) y =
  if x =? y then g <$> ieee80211_get_channel_khz wiphy y else ieee80211_get_channel_khz wiphy y.
Proof.
  intros Hg. unfold ieee80211_get_channel_khz. induction wiphy as [|ch wiphy IH]; cbn [update_channel List.find].
  { by destruct (x =? y). }
  destruct (Z.eqb_spec (ieee80211_channel_to_khz ch) x) as [E|E]; cbn [List.find].
  - rewrite Hg, E. by destruct (Z.eqb_spec x y).
  - rewrite IH. destruct (Z.eqb_spec (ieee80211_channel_to_khz ch) y) as [E'|]; [|done].
    destruct (Z.eqb_spec x y); [congruence|done].
Qed.

(** What the walk does to the channel at a frequency. *)
Lemma find_updates (g : ieee80211_channel -> ieee80211_channel) l : forall wiphy y,
  (forall ch, ieee80211_channel_to_khz (g ch) = ieee80211_channel_to_khz ch) ->
  (forall ch, g (g ch) = g ch) ->
  ieee80211_get_channel_khz (foldl (fun w '(freq, _) => update_channel g w freq) wiphy (l : list (Z * Z))) y =
  if bool_decide (y ∈ l.*1) then g <$> ieee80211_get_channel_khz wiphy y
  else ieee80211_get_channel_khz wiphy y.
Proof.
  induction l as [|[x cf] l IH]; intros wiphy y Hg Hgg; cbn [foldl].
  { by rewrite bool_decide_eq_false_2 by apply not_elem_of_nil. }
  rewrite IH, find_update by done. cbn [fmap list_fmap fst].
  destruct (Z.eqb_spec x y) as [->|Hne].
  - rewrite (bool_decide_eq_true_2 (y ∈ y :: _)) by (apply elem_of_cons; auto).
    destruct (bool_decide _); [|done]. destruct (ieee80211_get_channel_khz wiphy y); [|done].
    cbn. by rewrite Hgg.
  - assert (bool_decide (y ∈ x :: l.*1) = bool_decide (y ∈ l.*1)) as ->; [|done].
    apply bool_decide_ext. rewrite elem_of_cons. split; [intros [?|?]; [congruence|done]|auto].
Qed.

Definition is_radar (ch : ieee80211_channel) : bool := nz (chan_flags ch .& IEEE80211_CHAN_RADAR).
Definition is_disabled (ch : ieee80211_channel) : bool := nz (chan_flags ch .& IEEE80211_CHAN_DISABLED).

Definition dfs_update (st : nl80211_dfs_state) (now : Z) (ch : ieee80211_channel) : ieee80211_channel :=
  if is_radar ch then set_dfs ch st now else ch.

Lemma dfs_update_khz st now ch : ieee80211_channel_to_khz (dfs_update st now ch) = ieee80211_channel_to_khz ch.
Proof. unfold dfs_update. by destruct (is_radar ch). Qed.

Lemma dfs_update_twice st now ch : dfs_update st now (dfs_update st now ch) = dfs_update st now ch.
Proof.
  unfold dfs_update. destruct (is_radar ch) eqn:E; [|by rewrite E].
  change (is_radar (set_dfs ch st now)) with (is_radar ch). by rewrite E.
Qed.

(** A definition whose walk is described by [active]. *)
Record walkable (c : cfg80211_chan_def) (k : nat) : Prop := {
  wk_valid : cfg80211_chandef_valid c = true;
  wk_order : order (width c) = Some k;
  wk_freq1 : freq_ok (center_freq1 c);
  wk_freq2 : center_freq2 c = 0 \/ (k <= 3)%nat /\ freq_ok (center_freq2 c);
}.

Lemma order_width_pos c k : order (width c) = Some k -> cfg80211_chandef_get_width c <? 0 = false.
Proof.
  intros Hk. unfold cfg80211_chandef_get_width. destruct (order_width _ _ Hk) as [-> _].
  pose proof (pow_pos k). by destruct (Z.ltb_spec (20 * pow k) 0); [lia|].
Qed.

(** The state of the channels after [cfg80211_set_dfs_state]. *)
Lemma set_dfs_state_spec wiphy c k st now :
  walkable c k ->
  exists wiphy', cfg80211_set_dfs_state wiphy c st now = Some wiphy' /\
    forall f, (active c k f ->
                 ieee80211_get_channel_khz wiphy' f = dfs_update st now <$> ieee80211_get_channel_khz wiphy f) /\
              (~ active c k f -> ieee80211_get_channel_khz wiphy' f = ieee80211_get_channel_khz wiphy f).
Proof.
  intros [Hv Hk H1 H2]. destruct (walk_spec c k Hk H1 H2) as (l & Hl & Hact).
  unfold cfg80211_set_dfs_state. rewrite Hv, (order_width_pos c k Hk), Hl, bind_some by done. cbn [negb].
  eexists. split; [done|]. intros f.
  rewrite (find_updates (dfs_update st now)) by (apply dfs_update_khz || apply dfs_update_twice).
  rewrite <- Hact. split; intros; [by rewrite bool_decide_eq_true_2|by rewrite bool_decide_eq_false_2].
Qed.

(** Availability is a condition on every active sub-channel. *)
Lemma dfs_available_spec wiphy offload c k :
  walkable c k ->
  exists b, cfg80211_chandef_dfs_available wiphy offload c = Some b /\
    (b = true <-> forall f, active c k f -> exists ch, ieee80211_get_channel_khz wiphy f = Some ch /\
       is_disabled ch = false /\
       (is_radar ch = true -> dfs_state ch = NL80211_DFS_AVAILABLE \/
          dfs_state ch = NL80211_DFS_USABLE /\ offload = true)).
Proof.
  intros [Hv Hk H1 H2]. destruct (walk_spec c k Hk H1 H2) as (l & Hl & Hact).
  unfold cfg80211_chandef_dfs_available. rewrite Hv, (order_width_pos c k Hk), Hl, bind_some by done. cbn [negb].
  eexists. split; [done|]. rewrite forallb_forall. split.
  - intros H f ([f' cf] & -> & Hin)%Hact%list_elem_of_fmap. apply list_elem_of_In in Hin.
    specialize (H _ Hin). cbn [fst] in *. destruct (ieee80211_get_channel_khz wiphy f') as [ch|]; [|done].
    exists ch. fold (is_disabled ch) (is_radar ch) in H. split; [done|].
    destruct (is_disabled ch), (is_radar ch), (dfs_state ch), offload; cbn in H; try done; auto.
  - intros H [f cf] Hin%list_elem_of_In. destruct (H f) as (ch & -> & Hd & Hr).
    { apply Hact. apply list_elem_of_fmap. by exists (f, cf). }
    fold (is_disabled ch) (is_radar ch). rewrite Hd. destruct (is_radar ch); [|done].
    destruct Hr as [-> |[-> ->]]; done.
Qed.

Lemma dfs_usable_loop_blocked wiphy l f cf n :
  (f, cf) ∈ l ->
  (forall ch, ieee80211_get_channel_khz wiphy f = Some ch ->
     is_radar ch = true /\ dfs_state ch = NL80211_DFS_UNAVAILABLE) ->
  dfs_usable_loop wiphy l n = None.
Proof.
  intros Hin Hf. revert n. induction l as [|[x g] l IH]; intros n; [by apply elem_of_nil in Hin|].
  cbn [dfs_usable_loop]. destruct (ieee80211_get_channel_khz wiphy x) as [ch|] eqn:E; [|done].
  rewrite bind_some. fold (is_disabled ch) (is_radar ch). destruct (is_disabled ch); [done|].
  apply elem_of_cons in Hin as [[= <- <-]|Hin].
  - destruct (Hf _ E) as [-> ->]. done.
  - specialize (IH Hin). destruct (is_radar ch); [|apply IH]. destruct (dfs_state ch); done || apply IH.
Qed.

(** C26: when radar is reported on a channel definition, every definition that
    shares a sub-channel in use with it on which radar detection is required is
    neither available nor usable from then on; other channels are as before. *)
Theorem radar_blocks_overlapping wiphy c kc d kd f ch now offload :
  walkable c kc -> walkable d kd -> active c kc f -> active d kd f ->
  ieee80211_get_channel_khz wiphy f = Some ch -> is_radar ch = true ->
  exists wiphy', cfg80211_set_dfs_state wiphy c NL80211_DFS_UNAVAILABLE now = Some wiphy' /\
    cfg80211_chandef_dfs_available wiphy' offload d = Some false /\
    cfg80211_chandef_dfs_usable wiphy' d = Some false /\
    (forall g, ~ active c kc g -> ieee80211_get_channel_khz wiphy' g = ieee80211_get_channel_khz wiphy g).
Proof.
  intros Hc Hd Hac Had Hch Hr.
  destruct (set_dfs_state_spec wiphy c kc NL80211_DFS_UNAVAILABLE now Hc) as (wiphy' & Hs & Hw).
  exists wiphy'. split; [done|].
  assert (ieee80211_get_channel_khz wiphy' f = Some (set_dfs ch NL80211_DFS_UNAVAILABLE now)) as Hf.
  { rewrite (proj1 (Hw f) Hac), Hch. cbn. unfold dfs_update. by rewrite Hr. }
  split_and!; [| |intros g; apply Hw].
  - destruct (dfs_available_spec wiphy' offload d kd Hd) as (b & -> & Hb). destruct b; [|done].
    destruct (proj1 Hb eq_refl f Had) as (x & Hx & _ & Hst). rewrite Hf in Hx. injection Hx as <-.
    destruct Hst as [Hst|[Hst _]]; done.
  - destruct Hd as [Hv Hk H1 H2]. destruct (walk_spec d kd Hk H1 H2) as (l & Hl & Hact).
    unfold cfg80211_chandef_dfs_usable. rewrite Hv, (order_width_pos d kd Hk), Hl, bind_some by done.
    apply Hact, list_elem_of_fmap in Had as ([f' cf] & -> & Hin). cbn [negb].
    rewrite (dfs_usable_loop_blocked wiphy' l f' cf); [done..|]. cbn [fst] in Hf.
    rewrite Hf. by intros x [= <-].
Qed.

(** ** Extension of the operating channel *)

Lemma dbe_width_order bw w :
  dbe_width_ok bw w = true ->
  exists a k, order w = Some a /\ order (dbe_width bw).1 = Some k /\ (dbe_width bw).2 = 20 * pow k /\
    width_num w < width_num (dbe_width bw).1 /\ w <> NL80211_CHAN_WIDTH_80P80.
Proof.
  unfold dbe_width_ok, dbe_width.
  destruct ((bw =? IEEE80211_UHR_DBE_OPER_BW_320_2) || (bw =? IEEE80211_UHR_DBE_OPER_BW_320_1));
    [|destruct (bw =? IEEE80211_UHR_DBE_OPER_BW_160);
      [|destruct (bw =? IEEE80211_UHR_DBE_OPER_BW_80);
        [|destruct (bw =? IEEE80211_UHR_DBE_OPER_BW_40); [|done]]]];
    destruct w; try done; intros _; do 2 eexists; split_and!; done.
Qed.

(** When the operating channel of an access point is extended by DBE, the
    result is a valid, wider channel definition with the same control channel,
    of which the old channel is one segment with its puncturing kept. *)
Theorem dbe_extends c ch dbe c' :
  usable_def c ch -> center_freq ch <= 7300 ->
  cfg80211_chandef_add_dbe c (Some dbe) = Some (0, c') ->
  cfg80211_chandef_valid c' = true /\ chan c' = chan c /\
  width_num (width c) < width_num (width c') /\ is_block c c'.
Proof.
  intros Uc Hf Hadd. pose proof Uc as [Hv Hch Hfr Hfc Ho Ho1 Hb]. unfold freq_ok in Hfr.
  unfold cfg80211_chandef_add_dbe in Hadd. rewrite Hv, Hch, bind_some in Hadd. cbn [negb] in Hadd.
  destruct (bool_decide (width c = NL80211_CHAN_WIDTH_20_NOHT)); [done|].
  set (bw := uhr_params dbe .& IEEE80211_UHR_DBE_OPER_BANDWIDTH) in *.
  destruct (match band ch with NL80211_BAND_5GHZ => _ | NL80211_BAND_6GHZ => _ | _ => _ end)
    as [start|] eqn:Es; [|done].
  assert (5180 <= start <= 5955) as Hst.
  { revert Es. destruct (band ch); try done; [|by intros [= <-]].
    destruct (IEEE80211_UHR_DBE_OPER_BW_160 <? bw); [done|]. intros [= <-]. zcase; lia. }
  destruct (dbe_width_ok bw (width c)) eqn:Ew; [|done]. cbn [negb] in Hadd.
  destruct (dbe_width_order _ _ Ew) as (a & k & Ha & Hk & Hbw & Hlt & H80).
  destruct (dbe_width bw) as [nw mhz]. cbn [fst snd] in *.
  set (start' := if bw =? IEEE80211_UHR_DBE_OPER_BW_320_2 then start + 160 else start) in *.
  assert (5180 <= start' <= 6115) as Hst' by (unfold start'; destruct (_ =? _); lia).
  destruct (Z.ltb_spec (center_freq ch) start'); [done|].
  set (sn := u16 (start' - 10 + Z.quot (s32 (center_freq ch - start')) mhz * mhz)) in *.
  assert (is_uint 16 sn) as Hsn by (apply wrap_is_uint; lia).
  assert (1000 <= sn) as Hsn1.
  { unfold sn, swrap. rewrite (Z.mod_small (center_freq ch - start')) by lia.
    destruct (Z.ltb_spec (center_freq ch - start') (2 ^ (32 - 1))); [|lia].
    pose proof (order_pow_le _ _ Hk).
    assert (0 <= Z.quot (center_freq ch - start') mhz * mhz <= center_freq ch - start') as Hq.
    { rewrite Z.quot_div_nonneg by lia. pose proof (Z.mul_div_le (center_freq ch - start') mhz).
      pose proof (Z.div_pos (center_freq ch - start') mhz). nia. }
    rewrite wrap_small by (unfold is_uint; lia). lia. }
  match type of Hadd with context [if ?b && ?d then _ else _] => destruct (b && d); [done|] end.
  match type of Hadd with context [negb (cfg80211_chandef_valid ?x)] => set (new := x) in * end.
  destruct (cfg80211_chandef_valid new) eqn:Hvn; [|done]. cbn [negb] in Hadd.
  destruct (cfg80211_chandef_compatible new c) as [r|] eqn:Hr; [|done]. rewrite bind_some in Hadd.
  destruct r as [r|]; [|done]. injection Hadd as <-.
  assert (usable_def new ch) as Un.
  { split; try done. unfold freq_ok, new. cbn [center_freq1]. pose proof (order_pow_le _ _ Hk).
      assert (mhz / 2 = 10 * pow k) as ->.
      { rewrite Hbw. replace (20 * pow k) with (10 * pow k * 2) by lia. by rewrite Z.div_mul by lia. }
    unfold is_uint in Hsn. lia. }
  assert (npca_chan c = None) as Hn.
  { unfold cfg80211_chandef_compatible, _cfg80211_chandef_compatible in Hr.
    rewrite identical_width in Hr by (unfold new; cbn; intros E; rewrite E in Hlt; lia).
    unfold chan_ptr_eqb in Hr. rewrite (bool_decide_eq_true_2 (addr <$> chan new = addr <$> chan c)) in Hr by (by rewrite Hch).
    rewrite (bool_decide_eq_false_2 (width new = width c)) in Hr
      by (unfold new; cbn; intros E; rewrite E in Hlt; lia). cbn [negb] in Hr.
    change (npca_chan new) with (npca_chan c) in Hr.
    destruct (npca_chan c); [|done]. by rewrite (bool_decide_eq_true_2 (Some _ <> None)) in Hr. }
  destruct (compatible_block c new ch Uc Un Hn Hn Hlt) as (x & _ & Hx & Hx2 & Hblk).
  rewrite Hr in Hx. injection Hx as <-. split_and!; try done.
  apply Hblk. by destruct Hx2.
Qed.

(** The puncturing comparison covers half of the extended channel, also when
    the channel of the access point is narrower than half: a 40 MHz channel
    extended to 160 MHz, with sub-channels punctured that it does not have, is
    refused, although the result would be valid and compatible. *)
Module DbeMask.

Definition ch36 : ieee80211_channel :=
  mk_chan 1 NL80211_BAND_5GHZ 5180 0 0 NL80211_DFS_USABLE 0 0 0.
Definition bss40 : cfg80211_chan_def :=
  empty_chandef (Some ch36) NL80211_CHAN_WIDTH_40 5190.
Definition dbe160 : uhr_info :=
  mk_uhr (IEEE80211_UHR_DBE_OPER_BW_160 .| IEEE80211_UHR_DBE_OPER_DIS_SUBCHANNEL_BITMAP_PRES) 0xc.
Definition extended : cfg80211_chan_def :=
  mk_chandef (Some ch36) None NL80211_CHAN_WIDTH_160 5250 0 (mk_edmg 0 0) 0 0xc 0 false.

Lemma dbe_mask_too_wide :
  cfg80211_chandef_add_dbe bss40 (Some dbe160) = Some (- EINVAL, bss40) /\
  cfg80211_chandef_valid bss40 = true /\ cfg80211_chandef_valid extended = true /\
  cfg80211_chandef_compatible extended bss40 = Some (Some extended).
Proof. vm_compute. done. Qed.

End DbeMask.

(** ** Channel numbers and operating classes *)

(** [a], [a + s], ..., [b]. *)
Definition range (a b s : Z) : list Z :=
  map (fun i => a + s * Z.of_nat i) (List.seq 0 (Z.to_nat ((b - a) / s) + 1)).

Definition channels_5ghz : list Z := range 36 64 4 ++ range 100 144 4 ++ range 149 177 4.

(** The operating classes with their band and channels, as the comments of
    [ieee80211_operating_class_to_chandef] list them; class 82 and 136 apart. *)
Definition op_classes : list (Z * nl80211_band * list Z) :=
  [(81, NL80211_BAND_2GHZ, range 1 13 1); (83, NL80211_BAND_2GHZ, range 1 9 1);
   (84, NL80211_BAND_2GHZ, range 5 13 1);
   (115, NL80211_BAND_5GHZ, [36; 40; 44; 48]); (118, NL80211_BAND_5GHZ, [52; 56; 60; 64]);
   (121, NL80211_BAND_5GHZ, range 100 144 4); (124, NL80211_BAND_5GHZ, [149; 153; 157; 161]);
   (125, NL80211_BAND_5GHZ, range 149 177 4);
   (116, NL80211_BAND_5GHZ, [36; 44]); (119, NL80211_BAND_5GHZ, [52; 60]);
   (122, NL80211_BAND_5GHZ, range 100 140 8); (126, NL80211_BAND_5GHZ, [149; 157; 165; 173]);
   (117, NL80211_BAND_5GHZ, [40; 48]); (120, NL80211_BAND_5GHZ, [56; 64]);
   (123, NL80211_BAND_5GHZ, range 104 144 8); (127, NL80211_BAND_5GHZ, [153; 161; 169; 177]);
   (128, NL80211_BAND_5GHZ, channels_5ghz); (129, NL80211_BAND_5GHZ, channels_5ghz);
   (131, NL80211_BAND_6GHZ, range 1 233 4); (132, NL80211_BAND_6GHZ, range 1 229 4);
   (133, NL80211_BAND_6GHZ, range 1 229 4); (134, NL80211_BAND_6GHZ, range 1 229 4)].

(** The definitions that [ieee80211_chandef_to_operating_class] knows. *)
Definition class_known (cls : Z) (c : cfg80211_chan_def) : bool :=
  (center_freq1 c <=? 5845) && negb (center_freq1 c =? 5250) && negb (center_freq1 c =? 5730) &&
  negb ((cls =? 125) && (center_freq1 c <=? 5805)).

Definition fresh : cfg80211_chan_def := empty_chandef None NL80211_CHAN_WIDTH_20_NOHT 0.

Definition class_ok (cls : Z) (ch : ieee80211_channel) : bool :=
  let '(ok, c) := ieee80211_operating_class_to_chandef cls (Some ch) fresh in
  ok && cfg80211_chandef_valid c &&
  (if class_known cls c then bool_decide (ieee80211_chandef_to_operating_class c = Some (Some cls))
   else true).

Lemma op_classes_checked a fl st e t m :
  forallb (fun '(cls, b, ns) =>
    forallb (fun n => class_ok cls (mk_chan a b (ieee80211_channel_to_frequency n b) 0 fl st e t m)) ns)
    op_classes = true.
Proof. vm_compute. reflexivity. Qed.

(** Every channel of every operating class gives a valid channel definition,
    and the class is found again from the definition, for the definitions below
    5850 MHz except the 160 MHz ones around 5250 and 5730 MHz and the channels
    that class 125 shares with class 124. *)
Theorem operating_class_roundtrip cls b ns n ch :
  In (cls, b, ns) op_classes -> In n ns -> band ch = b ->
  center_freq ch = ieee80211_channel_to_frequency n b -> freq_offset ch = 0 ->
  exists c, ieee80211_operating_class_to_chandef cls (Some ch) fresh = (true, c) /\
    cfg80211_chandef_valid c = true /\
    (class_known cls c = true -> ieee80211_chandef_to_operating_class c = Some (Some cls)).
Proof.
  intros Hc Hn Hb Hf Ho. destruct ch as [a b' f o fl st e t m]. cbn in Hb, Hf, Ho. subst b' f o.
  pose proof (op_classes_checked a fl st e t m) as Hall.
  apply (proj1 (forallb_forall _ _) Hall) in Hc. apply (proj1 (forallb_forall _ _) Hc) in Hn.
  unfold class_ok in Hn. destruct (ieee80211_operating_class_to_chandef _ _ _) as [ok c].
  clear Hall Hc. apply andb_prop in Hn as [[Hok Hv]%andb_prop Hk]. subst ok. exists c.
  split; [reflexivity|]. split; [exact Hv|].
  intros E. rewrite E in Hk. exact (proj1 (bool_decide_eq_true _) Hk).
Qed.

(** The ranges of [ieee80211_chandef_to_operating_class] leave out the centre of
    the first 160 MHz channel, and class 82 makes a definition that is not
    valid. *)
Lemma operating_class_gaps :
  (let '(ok, c) := ieee80211_operating_class_to_chandef 129 (Some DbeMask.ch36) fresh in
   ok = true /\ cfg80211_chandef_valid c = true /\ center_freq1 c = 5250 /\
   ieee80211_chandef_to_operating_class c = Some None) /\
  (let '(ok, c) := ieee80211_operating_class_to_chandef 82
     (Some (mk_chan 1 NL80211_BAND_2GHZ 2484 0 0 NL80211_DFS_USABLE 0 0 0)) fresh in
   ok = true /\ cfg80211_chandef_valid c = false /\
   ieee80211_chandef_to_operating_class c = Some None) /\
  ieee80211_operating_class_to_band 136 = None.
Proof. vm_compute. done. Qed.

(** The channel numbers of a band whose frequencies lead back to them. *)
Definition last_channel (b : nl80211_band) : option Z :=
  match b with
  | NL80211_BAND_2GHZ | NL80211_BAND_LC => Some 14
  | NL80211_BAND_5GHZ => Some 184
  | NL80211_BAND_6GHZ => Some 253
  | NL80211_BAND_60GHZ => Some 6
  | NL80211_BAND_S1GHZ => None
  end.

Lemma channel_numbers_checked :
  forallb (fun b =>
    match last_channel b with
    | None => true
    | Some l => forallb (fun n => ieee80211_freq_khz_to_channel (ieee80211_channel_to_freq_khz n b) =? n)
                  (range 1 l 1)
    end) [NL80211_BAND_2GHZ; NL80211_BAND_5GHZ; NL80211_BAND_60GHZ; NL80211_BAND_6GHZ; NL80211_BAND_LC] = true.
Proof. vm_compute. reflexivity. Qed.

Lemma range_In a b n : a <= n <= b -> In n (range a b 1).
Proof.
  intros H. unfold range. apply in_map_iff. exists (Z.to_nat (n - a)). split; [lia|].
  apply in_seq. rewrite Z.div_1_r. lia.
Qed.

(** Channel numbers survive the conversion to a frequency and back. *)
Lemma channel_number_roundtrip b l n :
  last_channel b = Some l -> 1 <= n <= l ->
  ieee80211_freq_khz_to_channel (ieee80211_channel_to_freq_khz n b) = n.
Proof.
  intros Hl Hn. pose proof (proj1 (forallb_forall _ _) channel_numbers_checked b) as H.
  cbv beta in H. rewrite Hl in H. apply Z.eqb_eq.
  refine (proj1 (forallb_forall _ _) (H _) n (range_In 1 l n Hn)).
  destruct b; cbn; first [done | tauto].
Qed.

(** A frequency below 2407 MHz wraps around to a meaningless number. *)
Lemma s1g_channel_number :
  ieee80211_freq_khz_to_channel (ieee80211_channel_to_freq_khz 1 NL80211_BAND_S1GHZ) = 858993158.
Proof. vm_compute. reflexivity. Qed.

(** ** Definitions made from a channel type *)

(** C32: a channel definition made from a channel between 2400 and 5945 MHz, at
    no offset and not of the S1G band, and a channel type is well formed and has
    that type, but for channel 14 (2484 MHz), which takes the type without HT
    only, and the frequencies 2474 and 2494 MHz, whose 40 MHz definitions would
    be centred on it. *)
Theorem chandef_create_valid ch t :
  2400 <= center_freq ch < 5945 -> freq_offset ch = 0 -> band ch <> NL80211_BAND_S1GHZ ->
  (center_freq ch = 2484 -> t = NL80211_CHAN_NO_HT) ->
  center_freq ch <> 2474 -> center_freq ch <> 2494 ->
  cfg80211_chandef_valid (cfg80211_chandef_create ch t) = true /\
  cfg80211_get_chandef_type (cfg80211_chandef_create ch t) = Some t.
Proof.
  intros Hf Ho Hb H14 Hm Hp.
  assert (forall f, 2000 <= f < 5955 -> forall w, cfg80211_valid_center_freq f w = true) as Hvc.
  { intros f Hfr w. unfold cfg80211_valid_center_freq. by destruct (Z.ltb_spec f 5955); [|lia]. }
  assert (chan_is_s1g ch = false) as Hs by (by apply bool_decide_eq_false_2).
  assert (ieee80211_channel_to_khz ch = 1000 * center_freq ch) as Hk.
  { unfold ieee80211_channel_to_khz, MHZ_TO_KHZ. rewrite Ho.
    rewrite !wrap_small by (rewrite ?wrap_small; unfold is_uint; lia). lia. }
  assert (forall c, center_freq1 c = center_freq ch -> freq1_offset c = 0 ->
    ieee80211_chandef_to_khz c =? ieee80211_channel_to_khz ch = true) as Heq.
  { intros c Hc Hc0. apply Z.eqb_eq. rewrite Hk. unfold ieee80211_chandef_to_khz, MHZ_TO_KHZ.
    rewrite Hc, Hc0. rewrite !wrap_small by (rewrite ?wrap_small; unfold is_uint; lia). lia. }
  unfold cfg80211_chandef_valid, cfg80211_get_chandef_type, cfg80211_chandef_create, valid_width,
    valid_npca_width, cfg80211_chandef_is_edmg, valid_puncturing_bitmap,
    cfg80211_chandef_valid_control_freq.
  destruct t; unfold empty_chandef; cbn [chan npca_chan width center_freq1 center_freq2 edmg
    freq1_offset punctured npca_punctured s1g_primary_2mhz edmg_channels bw_config existsb
    control_offsets is_s1g_width app]; rewrite Hs.
  - rewrite Heq, Hvc by (done || lia). by destruct (center_freq ch =? 2484).
  - rewrite Heq, Hvc by (done || lia). destruct (Z.eqb_spec (center_freq ch) 2484) as [E|]; [|done].
    by specialize (H14 E).
  - rewrite wrap_small by (unfold is_uint; lia). rewrite Hvc by lia.
    change (center_freq ch + -10) with (center_freq ch - 10).
    rewrite (wrap_small 32 (center_freq ch - 10)), (Z.eqb_refl (center_freq ch - 10)) by (unfold is_uint; lia).
    rewrite bind_some. destruct (Z.ltb_spec (center_freq ch) (center_freq ch - 10)); [lia|].
    destruct (Z.eqb_spec (center_freq ch - 10) 2484); [lia|]. by rewrite orb_true_r.
  - rewrite wrap_small by (unfold is_uint; lia). rewrite Hvc, Z.eqb_refl by lia.
    rewrite bind_some. destruct (Z.ltb_spec (center_freq ch) (center_freq ch + 10)); [|lia].
    by destruct (Z.eqb_spec (center_freq ch + 10) 2484); [lia|].
Qed.

(** ** Witnesses *)

Module Witness.

Definition ch36 : ieee80211_channel := DbeMask.ch36.
Definition narrow : cfg80211_chan_def := empty_chandef (Some ch36) NL80211_CHAN_WIDTH_40 5190.
Definition wide : cfg80211_chan_def := empty_chandef (Some ch36) NL80211_CHAN_WIDTH_80 5210.

Definition radar_at (f : Z) : ieee80211_channel :=
  mk_chan f NL80211_BAND_5GHZ f 0 IEEE80211_CHAN_RADAR NL80211_DFS_AVAILABLE 0 0 60000.
Definition wiphy : list ieee80211_channel := map radar_at [5260; 5280; 5300; 5320].
Definition c80 : cfg80211_chan_def := empty_chandef (Some (radar_at 5260)) NL80211_CHAN_WIDTH_80 5290.
Definition c40 : cfg80211_chan_def := empty_chandef (Some (radar_at 5320)) NL80211_CHAN_WIDTH_40 5310.

Lemma usable c : cfg80211_chandef_valid c = true -> chan c = Some ch36 -> freq_ok (center_freq1 c) ->
  freq1_offset c = 0 -> usable_def c ch36.
Proof. intros. split; try done; lia. Qed.

End Witness.

Lemma chandef_compatible_correct_witness :
  exists r, cfg80211_chandef_compatible Witness.narrow Witness.wide = Some r /\
    cfg80211_chandef_compatible Witness.wide Witness.narrow = Some r /\
    (r = Some Witness.wide \/ r = None) /\
    (r = Some Witness.wide <->
     npca_chan Witness.narrow = None /\ npca_chan Witness.wide = None /\
     width Witness.narrow <> NL80211_CHAN_WIDTH_80P80 /\ is_block Witness.narrow Witness.wide).
Proof.
  apply (chandef_compatible_correct _ _ Witness.ch36);
    [apply Witness.usable; vm_compute; split_and?; done|apply Witness.usable; vm_compute; split_and?; done|done..].
Defined.

Lemma radar_blocks_overlapping_witness :
  exists wiphy', cfg80211_set_dfs_state Witness.wiphy Witness.c80 NL80211_DFS_UNAVAILABLE 5 = Some wiphy' /\
    cfg80211_chandef_dfs_available wiphy' false Witness.c40 = Some false /\
    cfg80211_chandef_dfs_usable wiphy' Witness.c40 = Some false /\
    (forall g, ~ active Witness.c80 2 g ->
       ieee80211_get_channel_khz wiphy' g = ieee80211_get_channel_khz Witness.wiphy g).
Proof.
  apply (radar_blocks_overlapping Witness.wiphy Witness.c80 2 Witness.c40 1 5300000 (Witness.radar_at 5300)).
  - split; [done|done|split; done|by left].
  - split; [done|done|split; done|by left].
  - left. exists 2. done.
  - left. exists 0. done.
  - done.
  - done.
Defined.

Lemma dbe_extends_witness :
  let c' := mk_chandef (Some Witness.ch36) None NL80211_CHAN_WIDTH_80 5210 0 (mk_edmg 0 0) 0 0x8 0 false in
  cfg80211_chandef_valid c' = true /\ chan c' = chan Witness.narrow /\
  width_num (width Witness.narrow) < width_num (width c') /\ is_block Witness.narrow c'.
Proof.
  apply (dbe_extends Witness.narrow Witness.ch36
    (mk_uhr (IEEE80211_UHR_DBE_OPER_BW_80 .| IEEE80211_UHR_DBE_OPER_DIS_SUBCHANNEL_BITMAP_PRES) 0x8));
    [apply Witness.usable; vm_compute; split_and?; done|done|vm_compute; done].
Defined.

Lemma operating_class_roundtrip_witness :
  exists c, ieee80211_operating_class_to_chandef 128 (Some Witness.ch36) fresh = (true, c) /\
    cfg80211_chandef_valid c = true /\
    (class_known 128 c = true -> ieee80211_chandef_to_operating_class c = Some (Some 128)).
Proof.
  apply (operating_class_roundtrip 128 NL80211_BAND_5GHZ channels_5ghz 36);
    [cbn; tauto|left; done|done|done|done].
Defined.

Lemma chandef_create_valid_witness :
  cfg80211_chandef_valid (cfg80211_chandef_create Witness.ch36 NL80211_CHAN_HT40PLUS) = true /\
  cfg80211_get_chandef_type (cfg80211_chandef_create Witness.ch36 NL80211_CHAN_HT40PLUS) =
    Some NL80211_CHAN_HT40PLUS.
Proof. apply chandef_create_valid; cbn; first [done | lia]. Defined.
