(* ===== verification/Mle.v ===== *)
(** * Mle: the multi-link element

    [include/linux/ieee80211-eht.h]: the control word of a multi-link element
    says which fields its common part holds.  [ieee80211_mle_size_ok] checks
    that the part is long enough for them; the accessors then compute where
    each field lies without further checks.  The same for the per-station
    profiles inside the element.  The element is a buffer and an offset; an
    access outside the buffer has no value. *)
From S2P Require Import Prelude Frame.

Definition WLAN_EID_EXTENSION : Z := 255.
Definition IEEE80211_ML_CONTROL_TYPE : Z := 0x0007.
Definition IEEE80211_ML_CONTROL_TYPE_BASIC : Z := 0.
Definition IEEE80211_ML_CONTROL_TYPE_PREQ : Z := 1.
Definition IEEE80211_ML_CONTROL_TYPE_RECONF : Z := 2.
Definition IEEE80211_ML_CONTROL_TYPE_TDLS : Z := 3.
Definition IEEE80211_ML_CONTROL_TYPE_PRIO_ACCESS : Z := 4.
Definition IEEE80211_MLC_BASIC_PRES_LINK_ID : Z := 0x0010.
Definition IEEE80211_MLC_BASIC_PRES_BSS_PARAM_CH_CNT : Z := 0x0020.
Definition IEEE80211_MLC_BASIC_PRES_MED_SYNC_DELAY : Z := 0x0040.
Definition IEEE80211_MLC_BASIC_PRES_EML_CAPA : Z := 0x0080.
Definition IEEE80211_MLC_BASIC_PRES_MLD_CAPA_OP : Z := 0x0100.
Definition IEEE80211_MLC_BASIC_PRES_MLD_ID : Z := 0x0200.
Definition IEEE80211_MLC_BASIC_PRES_EXT_MLD_CAPA_OP : Z := 0x0400.
Definition IEEE80211_MLC_BASIC_PRES_ENH_CRIT_UPD : Z := 0x0800.
Definition IEEE80211_MLC_BASIC_PRES_AGE_OF_BSS_LOAD : Z := 0x1000.
Definition IEEE80211_MLC_PREQ_PRES_MLD_ID : Z := 0x0010.
Definition IEEE80211_MLC_PREQ_PRES_MLD_MAC_ADDR : Z := 0x0020.
Definition IEEE80211_MLC_PREQ_PRES_NEIGH_AP_MLD_MAC_ADDR : Z := 0x0040.
Definition IEEE80211_MLC_RECONF_PRES_MLD_MAC_ADDR : Z := 0x0010.
Definition IEEE80211_MLC_RECONF_PRES_EML_CAPA : Z := 0x0020.
Definition IEEE80211_MLC_RECONF_PRES_MLD_CAPA_OP : Z := 0x0040.
Definition IEEE80211_MLC_RECONF_PRES_EXT_MLD_CAPA_OP : Z := 0x0080.
Definition IEEE80211_MLC_RECONF_PRES_TARGET_AP_MLD_ADDR : Z := 0x0100.
Definition IEEE80211_MED_SYNC_DELAY_DEFAULT : Z := 0x10ac.

(** Sizes of [struct ieee80211_multi_link_elem] and of the fixed part of the
    common information. *)
Definition sizeof_multi_link_elem : Z := 2.
Definition sizeof_mle_basic_common_info : Z := 1 + ETH_ALEN.
Definition sizeof_mle_preq_common_info : Z := 1.
Definition sizeof_mle_tdls_common_info : Z := 1 + ETH_ALEN.

(** A run of statements [if (control & mask) common += n]. *)
Definition advance (control : Z) (fields : list (Z * Z)) (common : Z) : Z :=
  foldl (fun c '(mask, n) => if nz (control .& mask) then c + n else c) common fields.

(** ** Size check *)

Definition mle_common (control : Z) : option Z :=
  let type := control .& IEEE80211_ML_CONTROL_TYPE in
  if type =? IEEE80211_ML_CONTROL_TYPE_BASIC then
    Some (advance control
      [(IEEE80211_MLC_BASIC_PRES_LINK_ID, 1); (IEEE80211_MLC_BASIC_PRES_BSS_PARAM_CH_CNT, 1);
       (IEEE80211_MLC_BASIC_PRES_MED_SYNC_DELAY, 2); (IEEE80211_MLC_BASIC_PRES_EML_CAPA, 2);
       (IEEE80211_MLC_BASIC_PRES_MLD_CAPA_OP, 2); (IEEE80211_MLC_BASIC_PRES_MLD_ID, 1);
       (IEEE80211_MLC_BASIC_PRES_EXT_MLD_CAPA_OP, 2); (IEEE80211_MLC_BASIC_PRES_ENH_CRIT_UPD, 1);
       (IEEE80211_MLC_BASIC_PRES_AGE_OF_BSS_LOAD, 1)] sizeof_mle_basic_common_info)
  else if type =? IEEE80211_ML_CONTROL_TYPE_PREQ then
    Some (advance control
      [(IEEE80211_MLC_PREQ_PRES_MLD_ID, 1); (IEEE80211_MLC_PREQ_PRES_MLD_MAC_ADDR, ETH_ALEN);
       (IEEE80211_MLC_PREQ_PRES_NEIGH_AP_MLD_MAC_ADDR, ETH_ALEN)] sizeof_mle_preq_common_info)
  else if type =? IEEE80211_ML_CONTROL_TYPE_RECONF then
    Some (advance control
      [(IEEE80211_MLC_RECONF_PRES_MLD_MAC_ADDR, ETH_ALEN); (IEEE80211_MLC_RECONF_PRES_EML_CAPA, 2);
       (IEEE80211_MLC_RECONF_PRES_MLD_CAPA_OP, 2); (IEEE80211_MLC_RECONF_PRES_EXT_MLD_CAPA_OP, 2);
       (IEEE80211_MLC_RECONF_PRES_TARGET_AP_MLD_ADDR, ETH_ALEN)] 1)
  else if type =? IEEE80211_ML_CONTROL_TYPE_TDLS then Some sizeof_mle_tdls_common_info
  else if type =? IEEE80211_ML_CONTROL_TYPE_PRIO_ACCESS then Some (ETH_ALEN + 1)
  else None.

Definition ieee80211_mle_size_ok (buf : list Z) (p len : Z) : option bool :=
  let fixed := sizeof_multi_link_elem in
  if len <? fixed then Some false
  else
    control ← rd_le16 buf p;
    match mle_common control with
    | None => Some true
    | Some common =>
        if len <? fixed + common then Some false
        else
          common_len ← rd8 buf (p + fixed);
          Some ((common <=? common_len) && (common_len <=? len - fixed))
    end.

Definition ieee80211_mle_type_ok (buf : list Z) (p type len : Z) : option bool :=
  ok ← ieee80211_mle_size_ok buf p len;
  if negb ok then Some false
  else
    control ← rd_le16 buf p;
    Some ((control .& IEEE80211_ML_CONTROL_TYPE) =? type).

(** The result is a [u8]. *)
Definition ieee80211_mle_common_size (buf : list Z) (p : Z) : option Z :=
  control ← rd_le16 buf p;
  if (control .& IEEE80211_ML_CONTROL_TYPE) <=? IEEE80211_ML_CONTROL_TYPE_PRIO_ACCESS then
    l ← rd8 buf (p + sizeof_multi_link_elem);
    Some (u8 (sizeof_multi_link_elem + l))
  else Some 0.

(** ** Accessors of the basic element's common part *)

Definition mle_common_start (p : Z) : Z := p + sizeof_multi_link_elem + sizeof_mle_basic_common_info.

Definition ieee80211_mle_get_link_id (buf : list Z) (p : Z) : option Z :=
  control ← rd_le16 buf p;
  if negb (nz (control .& IEEE80211_MLC_BASIC_PRES_LINK_ID)) then Some (-1)
  else rd8 buf (mle_common_start p).

Definition ieee80211_mle_get_bss_param_ch_cnt (buf : list Z) (p : Z) : option Z :=
  control ← rd_le16 buf p;
  if negb (nz (control .& IEEE80211_MLC_BASIC_PRES_BSS_PARAM_CH_CNT)) then Some (-1)
  else rd8 buf (advance control [(IEEE80211_MLC_BASIC_PRES_LINK_ID, 1)] (mle_common_start p)).

Definition ieee80211_mle_get_eml_med_sync_delay (buf : list Z) (p : Z) : option Z :=
  control ← rd_le16 buf p;
  if negb (nz (control .& IEEE80211_MLC_BASIC_PRES_MED_SYNC_DELAY))
  then Some IEEE80211_MED_SYNC_DELAY_DEFAULT
  else rd_le16 buf (advance control
         [(IEEE80211_MLC_BASIC_PRES_LINK_ID, 1); (IEEE80211_MLC_BASIC_PRES_BSS_PARAM_CH_CNT, 1)]
         (mle_common_start p)).

Definition ieee80211_mle_get_eml_cap (buf : list Z) (p : Z) : option Z :=
  control ← rd_le16 buf p;
  if negb (nz (control .& IEEE80211_MLC_BASIC_PRES_EML_CAPA)) then Some 0
  else rd_le16 buf (advance control
         [(IEEE80211_MLC_BASIC_PRES_LINK_ID, 1); (IEEE80211_MLC_BASIC_PRES_BSS_PARAM_CH_CNT, 1);
          (IEEE80211_MLC_BASIC_PRES_MED_SYNC_DELAY, 2)] (mle_common_start p)).

Definition ieee80211_mle_get_mld_capa_op (buf : list Z) (p : Z) : option Z :=
  control ← rd_le16 buf p;
  if negb (nz (control .& IEEE80211_MLC_BASIC_PRES_MLD_CAPA_OP)) then Some 0
  else rd_le16 buf (advance control
         [(IEEE80211_MLC_BASIC_PRES_LINK_ID, 1); (IEEE80211_MLC_BASIC_PRES_BSS_PARAM_CH_CNT, 1);
          (IEEE80211_MLC_BASIC_PRES_MED_SYNC_DELAY, 2); (IEEE80211_MLC_BASIC_PRES_EML_CAPA, 2)]
         (mle_common_start p)).

Definition ieee80211_mle_get_ext_mld_capa_op (buf : list Z) (p : Z) : option Z :=
  control ← rd_le16 buf p;
  if negb (nz (control .& IEEE80211_MLC_BASIC_PRES_EXT_MLD_CAPA_OP)) then Some 0
  else rd_le16 buf (advance control
         [(IEEE80211_MLC_BASIC_PRES_LINK_ID, 1); (IEEE80211_MLC_BASIC_PRES_BSS_PARAM_CH_CNT, 1);
          (IEEE80211_MLC_BASIC_PRES_MED_SYNC_DELAY, 2); (IEEE80211_MLC_BASIC_PRES_EML_CAPA, 2);
          (IEEE80211_MLC_BASIC_PRES_MLD_CAPA_OP, 2); (IEEE80211_MLC_BASIC_PRES_MLD_ID, 1)]
         (mle_common_start p)).

(** The pointer to the field, [None] inside for NULL. *)
Definition ieee80211_mle_get_enh_crit_upd_info (buf : list Z) (p : Z) : option (option Z) :=
  control ← rd_le16 buf p;
  if negb (nz (control .& IEEE80211_MLC_BASIC_PRES_ENH_CRIT_UPD)) then Some None
  else Some (Some (advance control
         [(IEEE80211_MLC_BASIC_PRES_LINK_ID, 1); (IEEE80211_MLC_BASIC_PRES_BSS_PARAM_CH_CNT, 1);
          (IEEE80211_MLC_BASIC_PRES_MED_SYNC_DELAY, 2); (IEEE80211_MLC_BASIC_PRES_EML_CAPA, 2);
          (IEEE80211_MLC_BASIC_PRES_MLD_CAPA_OP, 2); (IEEE80211_MLC_BASIC_PRES_MLD_ID, 1);
          (IEEE80211_MLC_BASIC_PRES_EXT_MLD_CAPA_OP, 2)] (mle_common_start p))).

Definition ieee80211_mle_get_mld_id (buf : list Z) (p : Z) : option Z :=
  control ← rd_le16 buf p;
  if negb (nz (control .& IEEE80211_MLC_BASIC_PRES_MLD_ID)) then Some 0
  else rd8 buf (advance control
         [(IEEE80211_MLC_BASIC_PRES_LINK_ID, 1); (IEEE80211_MLC_BASIC_PRES_BSS_PARAM_CH_CNT, 1);
          (IEEE80211_MLC_BASIC_PRES_MED_SYNC_DELAY, 2); (IEEE80211_MLC_BASIC_PRES_EML_CAPA, 2);
          (IEEE80211_MLC_BASIC_PRES_MLD_CAPA_OP, 2)] (mle_common_start p)).

(** ** Per-station profiles *)

Definition IEEE80211_MLE_STA_CONTROL_LINK_ID : Z := 0x000f.
Definition IEEE80211_MLE_STA_CONTROL_COMPLETE_PROFILE : Z := 0x0010.
Definition IEEE80211_MLE_STA_CONTROL_STA_MAC_ADDR_PRESENT : Z := 0x0020.
Definition IEEE80211_MLE_STA_CONTROL_BEACON_INT_PRESENT : Z := 0x0040.
Definition IEEE80211_MLE_STA_CONTROL_TSF_OFFS_PRESENT : Z := 0x0080.
Definition IEEE80211_MLE_STA_CONTROL_DTIM_INFO_PRESENT : Z := 0x0100.
Definition IEEE80211_MLE_STA_CONTROL_NSTR_LINK_PAIR_PRESENT : Z := 0x0200.
Definition IEEE80211_MLE_STA_CONTROL_NSTR_BITMAP_SIZE : Z := 0x0400.
Definition IEEE80211_MLE_STA_CONTROL_BSS_PARAM_CHANGE_CNT_PRESENT : Z := 0x0800.
Definition IEEE80211_MLE_STA_CONTROL_ENH_CRIT_UPD_PRESENT : Z := 0x1000.
Definition IEEE80211_MLE_STA_CONTROL_AP_CONDUCTED_TX_PWR_PRESENT : Z := 0x2000.
Definition IEEE80211_MLE_STA_CONTROL_AGE_OF_BSS_LOAD_PRESENT : Z := 0x4000.
Definition IEEE80211_MLE_STA_RECONF_CONTROL_STA_MAC_ADDR_PRESENT : Z := 0x0020.
Definition IEEE80211_MLE_STA_RECONF_CONTROL_AP_REM_TIMER_PRESENT : Z := 0x0040.
Definition IEEE80211_MLE_STA_RECONF_CONTROL_OPERATION_PARAMS_PRESENT : Z := 0x0800.
Definition IEEE80211_MLE_STA_RECONF_CONTROL_OPERATION_NSTR_BMAP_SIZE : Z := 0x1000.
Definition IEEE80211_MLE_STA_RECONF_CONTROL_OPERATION_NSTR_IND_BMAP_PRES : Z := 0x2000.
Definition IEEE80211_MLE_STA_RECONF_CONTROL_OPERATION_DSO_INFO_PRESENT : Z := 0x4000.

(** [struct ieee80211_mle_per_sta_profile] without its variable part. *)
Definition sizeof_mle_per_sta_profile : Z := 3.

(** The fields up to and including the NSTR bitmap. *)
Definition sta_prof_nstr (control pos : Z) : Z :=
  let pos := advance control
    [(IEEE80211_MLE_STA_CONTROL_STA_MAC_ADDR_PRESENT, 6); (IEEE80211_MLE_STA_CONTROL_BEACON_INT_PRESENT, 2);
     (IEEE80211_MLE_STA_CONTROL_TSF_OFFS_PRESENT, 8); (IEEE80211_MLE_STA_CONTROL_DTIM_INFO_PRESENT, 2)] pos in
  if nz (control .& IEEE80211_MLE_STA_CONTROL_COMPLETE_PROFILE) &&
     nz (control .& IEEE80211_MLE_STA_CONTROL_NSTR_LINK_PAIR_PRESENT) then
    if nz (control .& IEEE80211_MLE_STA_CONTROL_NSTR_BITMAP_SIZE) then pos + 2 else pos + 1
  else pos.

Definition ieee80211_mle_basic_sta_prof_size_ok (buf : list Z) (p len : Z) : option bool :=
  let fixed := sizeof_mle_per_sta_profile in
  if len <? fixed then Some false
  else
    control ← rd_le16 buf p;
    let info_len := advance control
      [(IEEE80211_MLE_STA_CONTROL_BSS_PARAM_CHANGE_CNT_PRESENT, 1);
       (IEEE80211_MLE_STA_CONTROL_ENH_CRIT_UPD_PRESENT, 1);
       (IEEE80211_MLE_STA_CONTROL_AP_CONDUCTED_TX_PWR_PRESENT, 1);
       (IEEE80211_MLE_STA_CONTROL_AGE_OF_BSS_LOAD_PRESENT, 1)] (sta_prof_nstr control 1) in
    sta_info_len ← rd8 buf (p + 2);
    Some ((info_len <=? sta_info_len) && (fixed + sta_info_len - 1 <=? len)).

Definition ieee80211_mle_basic_sta_prof_bss_param_ch_cnt (buf : list Z) (p : Z) : option Z :=
  control ← rd_le16 buf p;
  if negb (nz (control .& IEEE80211_MLE_STA_CONTROL_BSS_PARAM_CHANGE_CNT_PRESENT)) then Some 0
  else rd8 buf (sta_prof_nstr control (p + sizeof_mle_per_sta_profile)).

Definition ieee80211_mle_basic_sta_prof_enh_crit_upd (buf : list Z) (p : Z) : option (option Z) :=
  control ← rd_le16 buf p;
  if negb (nz (control .& IEEE80211_MLE_STA_CONTROL_ENH_CRIT_UPD_PRESENT)) then Some None
  else Some (Some (advance control [(IEEE80211_MLE_STA_CONTROL_BSS_PARAM_CHANGE_CNT_PRESENT, 1)]
                     (sta_prof_nstr control (p + sizeof_mle_per_sta_profile)))).

Definition ieee80211_mle_reconf_sta_prof_size_ok (buf : list Z) (p len : Z) : option bool :=
  let fixed := sizeof_mle_per_sta_profile in
  if len <? fixed then Some false
  else
    control ← rd_le16 buf p;
    let info_len := advance control
      [(IEEE80211_MLE_STA_RECONF_CONTROL_STA_MAC_ADDR_PRESENT, ETH_ALEN);
       (IEEE80211_MLE_STA_RECONF_CONTROL_AP_REM_TIMER_PRESENT, 2);
       (IEEE80211_MLE_STA_RECONF_CONTROL_OPERATION_PARAMS_PRESENT, 3)] 1 in
    let info_len :=
      if nz (control .& IEEE80211_MLE_STA_RECONF_CONTROL_OPERATION_NSTR_IND_BMAP_PRES) then
        info_len + (1 + Z.b2z (nz (control .& IEEE80211_MLE_STA_RECONF_CONTROL_OPERATION_NSTR_BMAP_SIZE)))
      else info_len in
    let info_len := advance control [(IEEE80211_MLE_STA_RECONF_CONTROL_OPERATION_DSO_INFO_PRESENT, 1)] info_len in
    sta_info_len ← rd8 buf (p + 2);
    Some ((info_len <=? sta_info_len) && (fixed + sta_info_len - 1 <=? len)).

(** ** EML delays, in microseconds *)

Definition IEEE80211_EML_CAP_EMLSR_SUPP : Z := 0x0001.
Definition IEEE80211_EML_CAP_EML_PADDING_DELAY : Z := 0x000e.
Definition IEEE80211_EML_CAP_EML_PADDING_DELAY_256US : Z := 4.
Definition IEEE80211_EML_CAP_EML_TRANSITION_DELAY : Z := 0x0070.
Definition IEEE80211_EML_CAP_EMLSR_TRANSITION_DELAY_256US : Z := 5.
Definition IEEE80211_EML_CAP_EMLMR_TRANSITION_DELAY_256US : Z := 4.
Definition IEEE80211_EML_CAP_EMLMR_SUPPORT : Z := 0x0080.
Definition IEEE80211_EML_CAP_TRANSITION_TIMEOUT : Z := 0x7800.
Definition IEEE80211_EML_CAP_TRANSITION_TIMEOUT_64TU : Z := 10.

(** The delay with code [code]: [unit << (code - 1)], 0 for 0 and for codes
    above [max]. *)
Definition eml_delay (code max unit : Z) : Z :=
  if (code =? 0) || (max <? code) then 0 else unit * (1 << (code - 1)).

Definition ieee80211_emlsr_pad_delay_in_us (eml_cap : Z) : Z :=
  if negb (nz (eml_cap .& IEEE80211_EML_CAP_EMLSR_SUPP)) then 0
  else eml_delay ((eml_cap .& IEEE80211_EML_CAP_EML_PADDING_DELAY) >> 1)
         IEEE80211_EML_CAP_EML_PADDING_DELAY_256US 32.
Definition ieee80211_emlsr_trans_delay_in_us (eml_cap : Z) : Z :=
  if negb (nz (eml_cap .& IEEE80211_EML_CAP_EMLSR_SUPP)) then 0
  else eml_delay ((eml_cap .& IEEE80211_EML_CAP_EML_TRANSITION_DELAY) >> 4)
         IEEE80211_EML_CAP_EMLSR_TRANSITION_DELAY_256US 16.
Definition ieee80211_emlmr_pad_delay_in_us (eml_cap : Z) : Z :=
  if negb (nz (eml_cap .& IEEE80211_EML_CAP_EMLMR_SUPPORT)) then 0
  else eml_delay ((eml_cap .& IEEE80211_EML_CAP_EML_PADDING_DELAY) >> 1)
         IEEE80211_EML_CAP_EML_PADDING_DELAY_256US 32.
Definition ieee80211_emlmr_trans_delay_in_us (eml_cap : Z) : Z :=
  if negb (nz (eml_cap .& IEEE80211_EML_CAP_EMLMR_SUPPORT)) then 0
  else eml_delay ((eml_cap .& IEEE80211_EML_CAP_EML_TRANSITION_DELAY) >> 4)
         IEEE80211_EML_CAP_EMLMR_TRANSITION_DELAY_256US 32.
Definition ieee80211_eml_trans_timeout_in_us (eml_cap : Z) : Z :=
  eml_delay ((eml_cap .& IEEE80211_EML_CAP_TRANSITION_TIMEOUT) >> 11)
    IEEE80211_EML_CAP_TRANSITION_TIMEOUT_64TU 128.

(** ** Lemmas *)

Lemma advance_nil control c : advance control [] c = c.
Proof. done. Qed.

Lemma advance_cons control m n fs c :
  advance control ((m, n) :: fs) c =
  advance control fs (c + (if nz (control .& m) then n else 0)).
Proof. unfold advance; cbn. destruct (nz _); [done|]. by rewrite Z.add_0_r. Qed.

#[export] Hint Rewrite advance_nil advance_cons : advance.

(** Case analysis on every presence bit of a goal or context. *)
Ltac presence :=
  repeat match goal with
  | |- context [if nz ?x then _ else _] => destruct (nz x)
  | H : context [if nz ?x then _ else _] |- _ => destruct (nz x)
  end.

Lemma mle_common_pos control common : mle_common control = Some common -> 1 <= common <= 22.
Proof.
  unfold mle_common, sizeof_mle_basic_common_info, sizeof_mle_preq_common_info,
    sizeof_mle_tdls_common_info, ETH_ALEN.
  autorewrite with advance. repeat case_match; intros; simplify_eq; lia.
Qed.

(** The size check never leaves the element. *)
Lemma mle_size_ok_safe buf p len :
  0 <= p -> p + len <= zlen buf -> exists b, ieee80211_mle_size_ok buf p len = Some b.
Proof.
  intros Hp Hl. unfold ieee80211_mle_size_ok, sizeof_multi_link_elem.
  destruct (Z.ltb_spec len 2); [eauto|].
  destruct (rd_le16_Some buf p) as [control ->]; [lia..|]. rewrite bind_some.
  destruct (mle_common control) as [common|] eqn:E; [|eauto]. apply mle_common_pos in E.
  destruct (Z.ltb_spec len (2 + common)); [eauto|].
  destruct (rd8_Some buf (p + 2)) as [l ->]; [lia|]. rewrite bind_some. eauto.
Qed.

(** What a positive size check of a basic element gives. *)
Lemma mle_size_ok_basic buf p len control :
  ieee80211_mle_size_ok buf p len = Some true ->
  rd_le16 buf p = Some control ->
  control .& IEEE80211_ML_CONTROL_TYPE = IEEE80211_ML_CONTROL_TYPE_BASIC ->
  exists common common_len, mle_common control = Some common /\
    rd8 buf (p + 2) = Some common_len /\ common <= common_len <= len - 2.
Proof.
  unfold ieee80211_mle_size_ok, sizeof_multi_link_elem. intros H Hc Ht.
  destruct (Z.ltb_spec len 2); [done|]. rewrite Hc, bind_some in H.
  destruct (mle_common control) as [common|] eqn:E.
  - destruct (Z.ltb_spec len (2 + common)); [done|].
    destruct (rd8 buf (p + 2)) as [l|]; [|done]. rewrite bind_some in H.
    injection H as H. apply andb_prop in H as [?%Z.leb_le ?%Z.leb_le]. eauto 6.
  - unfold mle_common in E. by rewrite Ht in E.
Qed.

(** ** Layout of a basic element

    The fields a basic element may hold, in order; [encode_basic] is the
    element's data after the extension id. *)

Record basic_common := mk_basic {
  bc_mac : list Z;
  bc_link_id : option Z;
  bc_bss_cnt : option Z;
  bc_med_sync : option Z;
  bc_eml : option Z;
  bc_capa : option Z;
  bc_mld_id : option Z;
  bc_ext : option Z;
  bc_enh : option Z;
  bc_age : option Z;
}.

Definition opt8 (o : option Z) : list Z := from_option (fun v => [v]) [] o.
Definition opt16 (o : option Z) : list Z := from_option le16_bytes [] o.
Definition pres (o : option Z) (mask : Z) : Z := if o then mask else 0.

Definition basic_control (i : basic_common) : Z :=
  pres (bc_link_id i) IEEE80211_MLC_BASIC_PRES_LINK_ID
  .| pres (bc_bss_cnt i) IEEE80211_MLC_BASIC_PRES_BSS_PARAM_CH_CNT
  .| pres (bc_med_sync i) IEEE80211_MLC_BASIC_PRES_MED_SYNC_DELAY
  .| pres (bc_eml i) IEEE80211_MLC_BASIC_PRES_EML_CAPA
  .| pres (bc_capa i) IEEE80211_MLC_BASIC_PRES_MLD_CAPA_OP
  .| pres (bc_mld_id i) IEEE80211_MLC_BASIC_PRES_MLD_ID
  .| pres (bc_ext i) IEEE80211_MLC_BASIC_PRES_EXT_MLD_CAPA_OP
  .| pres (bc_enh i) IEEE80211_MLC_BASIC_PRES_ENH_CRIT_UPD
  .| pres (bc_age i) IEEE80211_MLC_BASIC_PRES_AGE_OF_BSS_LOAD.

Definition basic_fields (i : basic_common) : list Z :=
  bc_mac i ++ opt8 (bc_link_id i) ++ opt8 (bc_bss_cnt i) ++ opt16 (bc_med_sync i) ++
  opt16 (bc_eml i) ++ opt16 (bc_capa i) ++ opt8 (bc_mld_id i) ++ opt16 (bc_ext i) ++
  opt8 (bc_enh i) ++ opt8 (bc_age i).

Definition encode_basic (i : basic_common) : list Z :=
  le16_bytes (basic_control i) ++ [1 + zlen (basic_fields i)] ++ basic_fields i.

Definition opt_ok (w : Z) (o : option Z) : Prop := from_option (is_uint w) True o.
Definition basic_ok (i : basic_common) : Prop :=
  zlen (bc_mac i) = 6 /\ opt_ok 16 (bc_med_sync i) /\ opt_ok 16 (bc_eml i) /\
  opt_ok 16 (bc_capa i) /\ opt_ok 16 (bc_ext i).

Lemma basic_control_bits i :
  let c := basic_control i in
  let has (o : option Z) := if o then true else false in
  is_uint 16 c /\ c .& IEEE80211_ML_CONTROL_TYPE = 0 /\
  nz (c .& IEEE80211_MLC_BASIC_PRES_LINK_ID) = has (bc_link_id i) /\
  nz (c .& IEEE80211_MLC_BASIC_PRES_BSS_PARAM_CH_CNT) = has (bc_bss_cnt i) /\
  nz (c .& IEEE80211_MLC_BASIC_PRES_MED_SYNC_DELAY) = has (bc_med_sync i) /\
  nz (c .& IEEE80211_MLC_BASIC_PRES_EML_CAPA) = has (bc_eml i) /\
  nz (c .& IEEE80211_MLC_BASIC_PRES_MLD_CAPA_OP) = has (bc_capa i) /\
  nz (c .& IEEE80211_MLC_BASIC_PRES_MLD_ID) = has (bc_mld_id i) /\
  nz (c .& IEEE80211_MLC_BASIC_PRES_EXT_MLD_CAPA_OP) = has (bc_ext i) /\
  nz (c .& IEEE80211_MLC_BASIC_PRES_ENH_CRIT_UPD) = has (bc_enh i) /\
  nz (c .& IEEE80211_MLC_BASIC_PRES_AGE_OF_BSS_LOAD) = has (bc_age i).
Proof.
  destruct i as [mac [] [] [] [] [] [] [] [] []]; vm_compute;
    split_and!; first [reflexivity | discriminate].
Qed.

Lemma zlen_opt8 o : zlen (opt8 o) = if o then 1 else 0.
Proof. by destruct o. Qed.
Lemma zlen_opt16 o : zlen (opt16 o) = if o then 2 else 0.
Proof. by destruct o. Qed.
Lemma zlen_le16_bytes v : zlen (le16_bytes v) = 2.
Proof. done. Qed.
#[export] Hint Rewrite zlen_opt8 zlen_opt16 zlen_le16_bytes : zlen.

(** Reading a present field that starts at [q]. *)
Lemma rd_opt8 A o B q v : o = Some v -> q = zlen A -> rd8 (A ++ opt8 o ++ B) q = Some v.
Proof. intros -> ->. apply rd8_here. Qed.
Lemma rd_opt16 A o B q v :
  o = Some v -> is_uint 16 v -> q = zlen A -> rd_le16 (A ++ opt16 o ++ B) q = Some v.
Proof.
  intros -> Hv ->. rewrite <- (Z.add_0_r (zlen A)), rd_le16_app_r by lia. by apply rd_le16_bytes.
Qed.

Lemma has_if {A} (o : option A) (n : Z) :
  (if (if o then true else false) then n else 0) = if o then n else 0.
Proof. by destruct o. Qed.

(** What an accessor reads in an encoded element: the field after those of
    [prefix], the common part being [mac ++ prefix ++ field ++ rest]. *)
Lemma encoded_field8 pre post i o prefix rest q v :
  basic_fields i = prefix ++ opt8 o ++ rest -> o = Some v ->
  q = zlen pre + 3 + zlen prefix ->
  rd8 (pre ++ encode_basic i ++ post) q = Some v.
Proof.
  intros E Ho ->.
  replace (pre ++ encode_basic i ++ post)
    with ((pre ++ le16_bytes (basic_control i) ++ [1 + zlen (basic_fields i)] ++ prefix) ++ opt8 o ++ rest ++ post)
    by (unfold encode_basic; rewrite E, <- !app_assoc; reflexivity).
  apply (rd_opt8 _ o _ _ v Ho). zlens. lia.
Qed.

Lemma encoded_field16 pre post i o prefix rest q v :
  basic_fields i = prefix ++ opt16 o ++ rest -> o = Some v -> opt_ok 16 (Some v) ->
  q = zlen pre + 3 + zlen prefix ->
  rd_le16 (pre ++ encode_basic i ++ post) q = Some v.
Proof.
  intros E Ho Hv ->.
  replace (pre ++ encode_basic i ++ post)
    with ((pre ++ le16_bytes (basic_control i) ++ [1 + zlen (basic_fields i)] ++ prefix) ++ opt16 o ++ rest ++ post)
    by (unfold encode_basic; rewrite E, <- !app_assoc; reflexivity).
  apply (rd_opt16 _ o _ _ v Ho Hv). zlens. lia.
Qed.

Lemma encoded_size i : zlen (encode_basic i) = 3 + zlen (basic_fields i).
Proof. unfold encode_basic. zlens. lia. Qed.

Lemma basic_fields_bound i : basic_ok i -> 0 <= zlen (basic_fields i) <= 19.
Proof.
  intros (Hm & _). split; [apply zlen_nonneg|]. unfold basic_fields. zlens. rewrite Hm.
  repeat match goal with |- context [if ?o then _ else _] => destruct o end; lia.
Qed.

Section Encoded.
Variables (pre post : list Z) (i : basic_common).
Hypothesis Hok : basic_ok i.
Let buf := pre ++ encode_basic i ++ post.
Let p := zlen pre.

Lemma encoded_control : rd_le16 buf p = Some (basic_control i).
Proof.
  unfold buf, p, encode_basic. rewrite <- (Z.add_0_r (zlen pre)), rd_le16_app_r by lia.
  rewrite <- !app_assoc. apply rd_le16_bytes, basic_control_bits.
Qed.

Lemma encoded_len : rd8 buf (p + 2) = Some (1 + zlen (basic_fields i)).
Proof.
  unfold buf, p, encode_basic. rewrite rd8_app_r by lia. rewrite <- !app_assoc. done.
Qed.

Lemma encoded_size_ok len :
  zlen (encode_basic i) <= len -> ieee80211_mle_size_ok buf p len = Some true.
Proof.
  rewrite encoded_size. intros Hl. destruct Hok as (Hm & _).
  pose proof (basic_control_bits i) as (_ & Ht & H). cbn zeta in H. destruct_and?.
  unfold ieee80211_mle_size_ok, sizeof_multi_link_elem.
  assert (mle_common (basic_control i) = Some (1 + zlen (basic_fields i))) as Hcommon.
  { unfold mle_common. rewrite Ht. cbn [Z.eqb]. f_equal. autorewrite with advance.
    repeat match goal with H : nz _ = _ |- _ => rewrite H; clear H end.
    rewrite !has_if. unfold basic_fields, sizeof_mle_basic_common_info, ETH_ALEN. zlens. lia. }
  rewrite encoded_control, bind_some, Hcommon, encoded_len, bind_some.
  pose proof (zlen_nonneg (basic_fields i)).
  repeat (zcase; try lia). done.
Qed.

Lemma encoded_common_size : ieee80211_mle_common_size buf p = Some (zlen (encode_basic i)).
Proof.
  unfold ieee80211_mle_common_size. rewrite encoded_control, bind_some.
  rewrite (proj1 (proj2 (basic_control_bits i))). cbn [Z.leb]. unfold sizeof_multi_link_elem.
  rewrite encoded_len, bind_some, encoded_size. pose proof (basic_fields_bound i Hok).
  rewrite wrap_small; [f_equal; lia|]. unfold is_uint. lia.
Qed.

(** Each accessor: a default when the field is absent; the field after its
    predecessors otherwise. *)
Ltac encoded_accessor :=
  pose proof (basic_control_bits i) as (_ & _ & H); cbn zeta in H; destruct_and?;
  destruct Hok as (Hm & ? & ? & ? & ?);
  rewrite encoded_control, bind_some;
  repeat match goal with H : nz _ = _ |- _ => rewrite H; clear H end;
  match goal with |- context [negb (match ?o with _ => _ end)] => destruct o eqn:? end; [|done];
  cbn [negb default from_option]; unfold id; autorewrite with advance;
  repeat match goal with H : nz _ = _ |- _ => rewrite H; clear H end; rewrite ?has_if.

Ltac encoded_pos :=
  unfold p, mle_common_start, sizeof_multi_link_elem, sizeof_mle_basic_common_info, ETH_ALEN;
  zlens; lia.

Ltac encoded_read o prefix :=
  lazymatch goal with
  | |- rd8 _ _ = _ => eapply (encoded_field8 _ _ _ o prefix)
  | |- rd_le16 _ _ = _ => eapply (encoded_field16 _ _ _ o prefix)
  end;
  [ unfold basic_fields; rewrite <- ?app_assoc; reflexivity
  | eassumption
  | first [assumption | encoded_pos] ..].

Lemma encoded_link_id : ieee80211_mle_get_link_id buf p = Some (default (-1) (bc_link_id i)).
Proof. unfold ieee80211_mle_get_link_id. encoded_accessor. encoded_read (bc_link_id i) (bc_mac i). Qed.
Lemma encoded_bss_cnt : ieee80211_mle_get_bss_param_ch_cnt buf p = Some (default (-1) (bc_bss_cnt i)).
Proof. unfold ieee80211_mle_get_bss_param_ch_cnt. encoded_accessor. encoded_read (bc_bss_cnt i) (bc_mac i ++ opt8 (bc_link_id i)). Qed.
Lemma encoded_med_sync : ieee80211_mle_get_eml_med_sync_delay buf p = Some (default IEEE80211_MED_SYNC_DELAY_DEFAULT (bc_med_sync i)).
Proof. unfold ieee80211_mle_get_eml_med_sync_delay. encoded_accessor. encoded_read (bc_med_sync i) (bc_mac i ++ opt8 (bc_link_id i) ++
    opt8 (bc_bss_cnt i)). Qed.
Lemma encoded_eml_cap : ieee80211_mle_get_eml_cap buf p = Some (default 0 (bc_eml i)).
Proof. unfold ieee80211_mle_get_eml_cap. encoded_accessor. encoded_read (bc_eml i) (bc_mac i ++ opt8 (bc_link_id i) ++
    opt8 (bc_bss_cnt i) ++ opt16 (bc_med_sync i)). Qed.
Lemma encoded_mld_capa : ieee80211_mle_get_mld_capa_op buf p = Some (default 0 (bc_capa i)).
Proof. unfold ieee80211_mle_get_mld_capa_op. encoded_accessor. encoded_read (bc_capa i) (bc_mac i ++ opt8 (bc_link_id i) ++
    opt8 (bc_bss_cnt i) ++ opt16 (bc_med_sync i) ++ opt16 (bc_eml i)). Qed.
Lemma encoded_mld_id : ieee80211_mle_get_mld_id buf p = Some (default 0 (bc_mld_id i)).
Proof. unfold ieee80211_mle_get_mld_id. encoded_accessor. encoded_read (bc_mld_id i) (bc_mac i ++ opt8 (bc_link_id i) ++
    opt8 (bc_bss_cnt i) ++ opt16 (bc_med_sync i) ++ opt16 (bc_eml i) ++
    opt16 (bc_capa i)). Qed.
Lemma encoded_ext_capa : ieee80211_mle_get_ext_mld_capa_op buf p = Some (default 0 (bc_ext i)).
Proof. unfold ieee80211_mle_get_ext_mld_capa_op. encoded_accessor. encoded_read (bc_ext i) (bc_mac i ++ opt8 (bc_link_id i) ++
    opt8 (bc_bss_cnt i) ++ opt16 (bc_med_sync i) ++ opt16 (bc_eml i) ++
    opt16 (bc_capa i) ++ opt8 (bc_mld_id i)). Qed.

(** The pointer to the last field, and the octet there. *)
Lemma encoded_enh_crit_upd :
  match bc_enh i with
  | None => ieee80211_mle_get_enh_crit_upd_info buf p = Some None
  | Some v => exists q, ieee80211_mle_get_enh_crit_upd_info buf p = Some (Some q) /\ rd8 buf q = Some v
  end.
Proof.
  destruct (bc_enh i) as [v|] eqn:Hv.
  - eexists. split; [unfold ieee80211_mle_get_enh_crit_upd_info|].
    + rewrite encoded_control, bind_some.
      pose proof (basic_control_bits i) as (_ & _ & H); cbn zeta in H; destruct_and?.
      match goal with H : nz (_ .& IEEE80211_MLC_BASIC_PRES_ENH_CRIT_UPD) = _ |- _ => rewrite H, Hv end.
      cbn [negb]. reflexivity.
    + autorewrite with advance.
      pose proof (basic_control_bits i) as (_ & _ & H); cbn zeta in H; destruct_and?;
      destruct Hok as (Hm & ? & ? & ? & ?).
      repeat match goal with H : nz _ = _ |- _ => rewrite H; clear H end. rewrite ?has_if.
      encoded_read (bc_enh i) (bc_mac i ++ opt8 (bc_link_id i) ++
    opt8 (bc_bss_cnt i) ++ opt16 (bc_med_sync i) ++ opt16 (bc_eml i) ++
    opt16 (bc_capa i) ++ opt8 (bc_mld_id i) ++ opt16 (bc_ext i)).
  - unfold ieee80211_mle_get_enh_crit_upd_info. rewrite encoded_control, bind_some.
    pose proof (basic_control_bits i) as (_ & _ & H); cbn zeta in H; destruct_and?.
    by match goal with H : nz (_ .& IEEE80211_MLC_BASIC_PRES_ENH_CRIT_UPD) = _ |- _ => rewrite H, Hv end.
Qed.
End Encoded.

(** ** Bounds *)

Ltac is_some_read :=
  first [apply rd_le16_Some | apply rd8_Some]; presence; lia.

(** The steps shared by the bounds of all accessors of an accepted element. *)
Lemma mle_type_ok_bounds buf p len :
  0 <= p -> p + len <= zlen buf ->
  ieee80211_mle_type_ok buf p IEEE80211_ML_CONTROL_TYPE_BASIC len = Some true ->
  exists control common, rd_le16 buf p = Some control /\
    mle_common control = Some common /\ p + 2 + common <= zlen buf /\
    control .& IEEE80211_ML_CONTROL_TYPE = IEEE80211_ML_CONTROL_TYPE_BASIC.
Proof.
  intros Hp Hl H. unfold ieee80211_mle_type_ok in H.
  destruct (ieee80211_mle_size_ok buf p len) as [[]|] eqn:Hs; [|done..]. rewrite bind_some in H.
  cbn [negb] in H. destruct (rd_le16 buf p) as [control|] eqn:Hc; [|done]. rewrite bind_some in H.
  injection H as H%Z.eqb_eq. destruct (mle_size_ok_basic _ _ _ _ Hs Hc H) as (common & cl & E & _ & ?).
  exists control, common. split_and!; [done..|lia|done].
Qed.

(** Unfolds an accessor of an element with control word [Hc]. *)
Ltac accessor_of Hc :=
  rewrite Hc, bind_some;
  match goal with |- context [negb ?b] => destruct b eqn:?; cbn [negb] end; [|by eexists];
  autorewrite with advance;
  unfold mle_common_start, sizeof_multi_link_elem, sizeof_mle_basic_common_info, ETH_ALEN.

Lemma mle_accessors_in_element buf p len :
  0 <= p -> p + len <= zlen buf ->
  ieee80211_mle_type_ok buf p IEEE80211_ML_CONTROL_TYPE_BASIC len = Some true ->
  is_Some (ieee80211_mle_get_link_id buf p) /\ is_Some (ieee80211_mle_get_bss_param_ch_cnt buf p) /\
  is_Some (ieee80211_mle_get_eml_med_sync_delay buf p) /\ is_Some (ieee80211_mle_get_eml_cap buf p) /\
  is_Some (ieee80211_mle_get_mld_capa_op buf p) /\ is_Some (ieee80211_mle_get_mld_id buf p) /\
  is_Some (ieee80211_mle_get_ext_mld_capa_op buf p) /\
  exists q, ieee80211_mle_get_enh_crit_upd_info buf p = Some q /\
    from_option (fun q => is_Some (rd8 buf q)) True q.
Proof.
  intros Hp Hl (control & common & Hc & E & Hb & Ht)%mle_type_ok_bounds; [|done..].
  unfold mle_common in E. rewrite Ht in E. cbn [Z.eqb] in E.
  unfold IEEE80211_ML_CONTROL_TYPE_BASIC, sizeof_mle_basic_common_info, ETH_ALEN in E.
  autorewrite with advance in E. injection E as <-.
  split_and!.
  all: unfold ieee80211_mle_get_link_id, ieee80211_mle_get_bss_param_ch_cnt,
    ieee80211_mle_get_eml_med_sync_delay, ieee80211_mle_get_eml_cap,
    ieee80211_mle_get_mld_capa_op, ieee80211_mle_get_mld_id,
    ieee80211_mle_get_ext_mld_capa_op, ieee80211_mle_get_enh_crit_upd_info.
  all: try (accessor_of Hc; try match goal with H : nz _ = true |- _ => rewrite H in Hb end; is_some_read).
  rewrite Hc, bind_some. destruct (nz (control .& IEEE80211_MLC_BASIC_PRES_ENH_CRIT_UPD)); cbn [negb];
    [|by eexists]. eexists; split; [done|]. cbn [from_option].
  autorewrite with advance. unfold mle_common_start, sizeof_multi_link_elem, sizeof_mle_basic_common_info, ETH_ALEN.
  is_some_read.
Qed.

Lemma sta_prof_nstr_add control c : sta_prof_nstr control c = c + sta_prof_nstr control 0.
Proof. unfold sta_prof_nstr. autorewrite with advance. repeat case_match; lia. Qed.

Lemma sta_prof_nstr_nonneg control : 0 <= sta_prof_nstr control 0.
Proof. unfold sta_prof_nstr. autorewrite with advance. repeat case_match; lia. Qed.

Lemma sta_prof_size_ok_safe buf p len :
  0 <= p -> p + len <= zlen buf ->
  (exists b, ieee80211_mle_basic_sta_prof_size_ok buf p len = Some b) /\
  (exists b, ieee80211_mle_reconf_sta_prof_size_ok buf p len = Some b).
Proof.
  intros Hp Hl. unfold ieee80211_mle_basic_sta_prof_size_ok, ieee80211_mle_reconf_sta_prof_size_ok,
    sizeof_mle_per_sta_profile.
  destruct (Z.ltb_spec len 3); [eauto|].
  destruct (rd_le16_Some buf p) as [control ->]; [lia..|]. rewrite !bind_some.
  destruct (rd8_Some buf (p + 2)) as [l ->]; [lia|]. rewrite !bind_some. eauto.
Qed.

Lemma sta_prof_accessors_in_element buf p len :
  0 <= p -> p + len <= zlen buf ->
  ieee80211_mle_basic_sta_prof_size_ok buf p len = Some true ->
  is_Some (ieee80211_mle_basic_sta_prof_bss_param_ch_cnt buf p) /\
  exists q, ieee80211_mle_basic_sta_prof_enh_crit_upd buf p = Some q /\
    from_option (fun q => is_Some (rd8 buf q)) True q.
Proof.
  intros Hp Hl. unfold ieee80211_mle_basic_sta_prof_size_ok, ieee80211_mle_basic_sta_prof_bss_param_ch_cnt,
    ieee80211_mle_basic_sta_prof_enh_crit_upd, sizeof_mle_per_sta_profile.
  destruct (Z.ltb_spec len 3); [done|].
  destruct (rd_le16_Some buf p) as [control ->]; [lia..|]. rewrite !bind_some.
  destruct (rd8_Some buf (p + 2)) as [l ->]; [lia|]. rewrite !bind_some.
  autorewrite with advance. rewrite (sta_prof_nstr_add control 1), (sta_prof_nstr_add control (p + 3)).
  pose proof (sta_prof_nstr_nonneg control).
  intros [= [Hi%Z.leb_le Hle%Z.leb_le]%andb_prop]. split.
  - destruct (nz (control .& IEEE80211_MLE_STA_CONTROL_BSS_PARAM_CHANGE_CNT_PRESENT)) eqn:E;
      cbn [negb]; [|by eexists]. is_some_read.
  - destruct (nz (control .& IEEE80211_MLE_STA_CONTROL_ENH_CRIT_UPD_PRESENT)) eqn:E; cbn [negb];
      eexists; (split; [done|]); [|done]. cbn [from_option]. is_some_read.
Qed.

(** The largest delays. *)
Lemma eml_delay_bound code max unit :
  0 <= max -> 0 <= unit -> 0 <= eml_delay code max unit <= unit * 2 ^ (max - 1).
Proof.
  intros Hm Hu. unfold eml_delay. pose proof (Z.pow_nonneg 2 (max - 1)).
  destruct (Z.eqb_spec code 0); cbn [orb]; [nia|].
  destruct (Z.ltb_spec max code); [nia|]. rewrite Z.shiftl_1_l.
  pose proof (Z.pow_nonneg 2 (code - 1)). pose proof (Z.pow_le_mono_r 2 (code - 1) (max - 1)). nia.
Qed.

(** ** Properties *)

(** A basic multi-link element with any combination of fields passes the
    size check at exactly its length, its common size is that length, and
    every accessor returns its field, or the default when the field is
    absent, wherever the element lies in a buffer. *)
Theorem mle_accessors_roundtrip pre post i :
  basic_ok i ->
  let buf := pre ++ encode_basic i ++ post in
  let p := zlen pre in
  ieee80211_mle_type_ok buf p IEEE80211_ML_CONTROL_TYPE_BASIC (zlen (encode_basic i)) = Some true /\
  ieee80211_mle_common_size buf p = Some (zlen (encode_basic i)) /\
  ieee80211_mle_get_link_id buf p = Some (default (-1) (bc_link_id i)) /\
  ieee80211_mle_get_bss_param_ch_cnt buf p = Some (default (-1) (bc_bss_cnt i)) /\
  ieee80211_mle_get_eml_med_sync_delay buf p
    = Some (default IEEE80211_MED_SYNC_DELAY_DEFAULT (bc_med_sync i)) /\
  ieee80211_mle_get_eml_cap buf p = Some (default 0 (bc_eml i)) /\
  ieee80211_mle_get_mld_capa_op buf p = Some (default 0 (bc_capa i)) /\
  ieee80211_mle_get_mld_id buf p = Some (default 0 (bc_mld_id i)) /\
  ieee80211_mle_get_ext_mld_capa_op buf p = Some (default 0 (bc_ext i)) /\
  match bc_enh i with
  | None => ieee80211_mle_get_enh_crit_upd_info buf p = Some None
  | Some v => exists q, ieee80211_mle_get_enh_crit_upd_info buf p = Some (Some q) /\ rd8 buf q = Some v
  end.
Proof.
  intros Hok buf p. split_and!.
  - unfold ieee80211_mle_type_ok, buf, p. rewrite encoded_size_ok, bind_some by done. cbn [negb].
    rewrite encoded_control, bind_some. by rewrite (proj1 (proj2 (basic_control_bits i))).
  - by apply encoded_common_size.
  - by apply encoded_link_id.
  - by apply encoded_bss_cnt.
  - by apply encoded_med_sync.
  - by apply encoded_eml_cap.
  - by apply encoded_mld_capa.
  - by apply encoded_mld_id.
  - by apply encoded_ext_capa.
  - by apply encoded_enh_crit_upd.
Qed.

Definition sample_basic : basic_common :=
  mk_basic [2; 0; 0; 0; 0; 1] (Some 3) (Some 7) None (Some 0x0123) (Some 0x8042) None (Some 0x0100) (Some 9) None.

Lemma mle_accessors_roundtrip_witness :
  ieee80211_mle_get_ext_mld_capa_op ([221; 0] ++ encode_basic sample_basic ++ [1; 2]) 2 = Some 0x0100 /\
  ieee80211_mle_get_eml_med_sync_delay ([221; 0] ++ encode_basic sample_basic ++ [1; 2]) 2
    = Some IEEE80211_MED_SYNC_DELAY_DEFAULT.
Proof.
  assert (basic_ok sample_basic) as Hok.
  { unfold basic_ok, opt_ok; cbn. split_and!; first [done | split; [lia|reflexivity]]. }
  destruct (mle_accessors_roundtrip [221; 0] [1; 2] sample_basic Hok)
    as (_ & _ & _ & _ & H1 & _ & _ & _ & H2 & _).
  split; [exact H2|exact H1].
Defined.

(** Whatever octets are received, the size checks of a multi-link
    element and of its per-station profiles stay inside the element, and once
    one has succeeded, every accessor of that structure does too. *)
Theorem mle_accessors_safe buf p len :
  0 <= p -> p + len <= zlen buf ->
  (exists b, ieee80211_mle_size_ok buf p len = Some b) /\
  (exists b, ieee80211_mle_basic_sta_prof_size_ok buf p len = Some b) /\
  (exists b, ieee80211_mle_reconf_sta_prof_size_ok buf p len = Some b) /\
  (ieee80211_mle_type_ok buf p IEEE80211_ML_CONTROL_TYPE_BASIC len = Some true ->
   is_Some (ieee80211_mle_get_link_id buf p) /\ is_Some (ieee80211_mle_get_bss_param_ch_cnt buf p) /\
   is_Some (ieee80211_mle_get_eml_med_sync_delay buf p) /\ is_Some (ieee80211_mle_get_eml_cap buf p) /\
   is_Some (ieee80211_mle_get_mld_capa_op buf p) /\ is_Some (ieee80211_mle_get_mld_id buf p) /\
   is_Some (ieee80211_mle_get_ext_mld_capa_op buf p) /\
   exists q, ieee80211_mle_get_enh_crit_upd_info buf p = Some q /\
     from_option (fun q => is_Some (rd8 buf q)) True q) /\
  (ieee80211_mle_basic_sta_prof_size_ok buf p len = Some true ->
   is_Some (ieee80211_mle_basic_sta_prof_bss_param_ch_cnt buf p) /\
   exists q, ieee80211_mle_basic_sta_prof_enh_crit_upd buf p = Some q /\
     from_option (fun q => is_Some (rd8 buf q)) True q).
Proof.
  intros Hp Hl. destruct (sta_prof_size_ok_safe buf p len Hp Hl) as [Hb Hr].
  split; [by apply mle_size_ok_safe|]. split; [done|]. split; [done|].
  split; intros H; [by eapply mle_accessors_in_element|by eapply sta_prof_accessors_in_element].
Qed.

Lemma mle_accessors_safe_witness :
  exists b, ieee80211_mle_size_ok [0x10; 0x00; 8; 1; 2; 3] 0 6 = Some b.
Proof. apply (mle_accessors_safe [0x10; 0x00; 8; 1; 2; 3] 0 6); vm_compute; discriminate. Defined.

(** The size of the common part is returned as a [u8], although an element put
    together from fragments can have a length octet of 254 or 255. *)
Lemma mle_common_size_wraps :
  let buf := [0; 0; 254] ++ replicate 300 0 in
  ieee80211_mle_size_ok buf 0 (zlen buf) = Some true /\ ieee80211_mle_common_size buf 0 = Some 0.
Proof. by vm_compute. Qed.
