(* ===== verification/Ttlm.v ===== *)
(** * Ttlm: TID-to-link mapping

    A multi-link station and its access point agree on which links carry which
    traffic identifiers.  [net/mac80211/mlme.c] writes a mapping as one element
    for both directions or two ([ieee80211_neg_ttlm_add_suggested_map]), reads
    a negotiated mapping ([ieee80211_parse_neg_ttlm]) and an advertised one
    ([ieee80211_parse_adv_t2l]), and decides on a peer's request
    ([ieee80211_process_neg_ttlm_req]); the size of a received element is
    checked by [ieee80211_tid_to_link_map_size_ok]
    ([include/linux/ieee80211-eht.h]).  A parsed element is a buffer and an
    offset.  The driver's decision is a parameter. *)
From S2P Require Import Prelude Frame Skb Mle.

Definition IEEE80211_TTLM_CONTROL_DIRECTION : Z := 0x03.
Definition IEEE80211_TTLM_CONTROL_DEF_LINK_MAP : Z := 0x04.
Definition IEEE80211_TTLM_CONTROL_SWITCH_TIME_PRESENT : Z := 0x08.
Definition IEEE80211_TTLM_CONTROL_EXPECTED_DUR_PRESENT : Z := 0x10.
Definition IEEE80211_TTLM_CONTROL_LINK_MAP_SIZE : Z := 0x20.
Definition IEEE80211_TTLM_DIRECTION_DOWN : Z := 0.
Definition IEEE80211_TTLM_DIRECTION_UP : Z := 1.
Definition IEEE80211_TTLM_DIRECTION_BOTH : Z := 2.
Definition IEEE80211_TTLM_NUM_TIDS : Z := 8.
Definition IEEE80211_TTLM_MAX_CNT : Z := 2.
Definition WLAN_EID_EXT_TID_TO_LINK_MAPPING : Z := 109.

(** [sizeof(struct ieee80211_ttlm_elem)]. *)
Definition sizeof_ttlm_elem : Z := 1.

(** ** Size check

    [elem_len] is a [u8]; it stays below 32. *)
Definition ieee80211_tid_to_link_map_size_ok (buf : list Z) (p len : Z) : option bool :=
  let fixed := sizeof_ttlm_elem in
  if len <? fixed then Some false
  else
    control ← rd8 buf p;
    let elem_len := if nz (control .& IEEE80211_TTLM_CONTROL_SWITCH_TIME_PRESENT) then 2 else 0 in
    let elem_len := if nz (control .& IEEE80211_TTLM_CONTROL_EXPECTED_DUR_PRESENT) then elem_len + 3 else elem_len in
    if negb (nz (control .& IEEE80211_TTLM_CONTROL_DEF_LINK_MAP)) then
      let elem_len := elem_len + 1 in
      if len <? fixed + elem_len then Some false
      else
        let bm_size := if nz (control .& IEEE80211_TTLM_CONTROL_LINK_MAP_SIZE) then 1 else 2 in
        presence ← rd8 buf (p + 1);
        let elem_len := elem_len + hweight8 presence * bm_size in
        Some (fixed + elem_len <=? len)
    else Some (fixed + elem_len <=? len).

(** ** Parsers *)

Definition ieee80211_get_ttlm (bm_size : Z) (buf : list Z) (p : Z) : option Z :=
  if bm_size =? 1 then rd8 buf p else rd_le16 buf p.

Record ieee80211_neg_ttlm := mk_neg_ttlm {
  downlink : list Z;
  uplink : list Z;
  valid : bool;
}.

Definition init_neg_ttlm : ieee80211_neg_ttlm := mk_neg_ttlm (replicate 8 0) (replicate 8 0) false.

(** The [switch] on the direction; [None] is its default. *)
Definition set_map (direction tid map : Z) (t : ieee80211_neg_ttlm) : option ieee80211_neg_ttlm :=
  let d := <[Z.to_nat tid := map]> (downlink t) in
  let u := <[Z.to_nat tid := map]> (uplink t) in
  if direction =? IEEE80211_TTLM_DIRECTION_BOTH then Some (mk_neg_ttlm d u (valid t))
  else if direction =? IEEE80211_TTLM_DIRECTION_DOWN then Some (mk_neg_ttlm d (uplink t) (valid t))
  else if direction =? IEEE80211_TTLM_DIRECTION_UP then Some (mk_neg_ttlm (downlink t) u (valid t))
  else None.

(** The loop over the traffic identifiers: the return value and the mapping
    so far. *)
Fixpoint neg_ttlm_loop (n : nat) (tid : Z) (buf : list Z) (pos link_map_presence map_size direction : Z)
    (t : ieee80211_neg_ttlm) : option (Z * ieee80211_neg_ttlm) :=
  match n with
  | O => Some (0, t)
  | S n =>
      if nz (link_map_presence .& BIT tid) then
        map ← ieee80211_get_ttlm map_size buf pos;
        if map =? 0 then Some (- EINVAL, t)
        else match set_map direction tid map t with
             | None => Some (- EINVAL, t)
             | Some t => neg_ttlm_loop n (tid + 1) buf (pos + map_size) link_map_presence map_size direction t
             end
      else match set_map direction tid 0 t with
           | None => Some (- EINVAL, t)
           | Some t => neg_ttlm_loop n (tid + 1) buf pos link_map_presence map_size direction t
           end
  end.

(** The result: the return value, the mapping and the direction, which is
    only written on some paths. *)
Definition ieee80211_parse_neg_ttlm (valid_links : Z) (buf : list Z) (p : Z)
    (neg_ttlm : ieee80211_neg_ttlm) (direction : Z) : option (Z * ieee80211_neg_ttlm * Z) :=
  let pos := p + sizeof_ttlm_elem in
  control ← rd8 buf p;
  if nz (control .& (IEEE80211_TTLM_CONTROL_SWITCH_TIME_PRESENT .| IEEE80211_TTLM_CONTROL_EXPECTED_DUR_PRESENT))
  then Some (- EINVAL, neg_ttlm, direction)
  else if nz (control .& IEEE80211_TTLM_CONTROL_DEF_LINK_MAP) then
    Some (0, mk_neg_ttlm (replicate 8 valid_links) (replicate 8 valid_links) (valid neg_ttlm),
          IEEE80211_TTLM_DIRECTION_BOTH)
  else
    let direction := control .& IEEE80211_TTLM_CONTROL_DIRECTION in
    if negb (direction =? IEEE80211_TTLM_DIRECTION_DOWN) && negb (direction =? IEEE80211_TTLM_DIRECTION_UP) &&
       negb (direction =? IEEE80211_TTLM_DIRECTION_BOTH)
    then Some (- EINVAL, neg_ttlm, direction)
    else
      link_map_presence ← rd8 buf pos;
      let map_size := if nz (control .& IEEE80211_TTLM_CONTROL_LINK_MAP_SIZE) then 1 else 2 in
      '(ret, neg_ttlm) ← neg_ttlm_loop (Z.to_nat IEEE80211_TTLM_NUM_TIDS) 0 buf (pos + 1) link_map_presence
                           map_size direction neg_ttlm;
      Some (ret, neg_ttlm, direction).

Record ieee80211_adv_ttlm_info := mk_adv_ttlm {
  switch_time : Z;
  duration : Z;
  map : Z;
  active : bool;
}.

(** Traffic identifiers 1 to 7 must have the map of 0. *)
Fixpoint adv_ttlm_loop (n : nat) (buf : list Z) (pos map_size map0 : Z) : option Z :=
  match n with
  | O => Some 0
  | S n =>
      map ← ieee80211_get_ttlm map_size buf pos;
      if negb (map =? map0) then Some (- EINVAL)
      else adv_ttlm_loop n buf (pos + map_size) map_size map0
  end.

Definition ieee80211_parse_adv_t2l (buf : list Z) (p : Z) : option (Z * ieee80211_adv_ttlm_info) :=
  let info := mk_adv_ttlm 0 0 0 false in
  let pos := p + sizeof_ttlm_elem in
  control ← rd8 buf p;
  if negb ((control .& IEEE80211_TTLM_CONTROL_DIRECTION) =? IEEE80211_TTLM_DIRECTION_BOTH)
  then Some (- EINVAL, info)
  else
    let has_map := negb (nz (control .& IEEE80211_TTLM_CONTROL_DEF_LINK_MAP)) in
    link_map_presence ← (if has_map then rd8 buf pos else Some 0);
    let pos := if has_map then pos + 1 else pos in
    switch_time ← (if nz (control .& IEEE80211_TTLM_CONTROL_SWITCH_TIME_PRESENT)
                   then st ← rd_le16 buf pos; Some (if st =? 0 then 1 else st) else Some 0);
    let pos := if nz (control .& IEEE80211_TTLM_CONTROL_SWITCH_TIME_PRESENT) then pos + 2 else pos in
    duration ← (if nz (control .& IEEE80211_TTLM_CONTROL_EXPECTED_DUR_PRESENT)
                then b0 ← rd8 buf pos; b1 ← rd8 buf (pos + 1); b2 ← rd8 buf (pos + 2);
                     Some (b0 .| (b1 << 8) .| (b2 << 16))
                else Some 0);
    let pos := if nz (control .& IEEE80211_TTLM_CONTROL_EXPECTED_DUR_PRESENT) then pos + 3 else pos in
    if nz (control .& IEEE80211_TTLM_CONTROL_DEF_LINK_MAP) then
      Some (0, mk_adv_ttlm switch_time duration 0xffff false)
    else
      let map_size := if nz (control .& IEEE80211_TTLM_CONTROL_LINK_MAP_SIZE) then 1 else 2 in
      if negb (link_map_presence =? 0xff) then Some (- EINVAL, mk_adv_ttlm switch_time duration 0 false)
      else
        map ← ieee80211_get_ttlm map_size buf pos;
        let info := mk_adv_ttlm switch_time duration map false in
        if map =? 0 then Some (- EINVAL, info)
        else
          ret ← adv_ttlm_loop 7 buf (pos + map_size) map_size map;
          Some (ret, info).

(** ** Writing a mapping *)

(** The loop over the traffic identifiers of one element: the buffer, the
    element length and the presence bits. *)
Fixpoint suggested_map_loop (n : nat) (tid : Z) (direction : Z) (t : ieee80211_neg_ttlm) (skb : sk_buff)
    (len map_ind : Z) : option (sk_buff * Z * Z) :=
  match n with
  | O => Some (skb, len, map_ind)
  | S n =>
      map ← (if direction =? IEEE80211_TTLM_DIRECTION_UP then uplink t !! Z.to_nat tid
             else downlink t !! Z.to_nat tid);
      if map =? 0 then suggested_map_loop n (tid + 1) direction t skb len map_ind
      else
        skb ← skb_put_data skb (le16_bytes map);
        suggested_map_loop n (tid + 1) direction t skb (u8 (len + 2)) (u8 (map_ind .| BIT tid))
  end.

(** One element, for [direction[i]]. *)
Definition suggested_map_element (direction : Z) (t : ieee80211_neg_ttlm) (skb : sk_buff) : option sk_buff :=
  let len := sizeof_ttlm_elem + 1 + 1 in
  let pos := skb_len skb in
  skb ← skb_put skb (len + 2);
  d ← store (data skb) pos [WLAN_EID_EXTENSION];
  d ← store d (pos + 2) [WLAN_EID_EXT_TID_TO_LINK_MAPPING];
  d ← store d (pos + 3) [direction];
  '(skb, len, map_ind) ← suggested_map_loop (Z.to_nat IEEE80211_TTLM_NUM_TIDS) 0 direction t
                           (set_data skb d) len 0;
  d ← store (data skb) (pos + 4) [map_ind];
  d ← store d (pos + 1) [len];
  Some (set_data skb d).

Definition ieee80211_neg_ttlm_add_suggested_map (skb : sk_buff) (neg_ttlm : ieee80211_neg_ttlm)
  : option sk_buff :=
  if negb (bool_decide (downlink neg_ttlm = uplink neg_ttlm)) then
    skb ← suggested_map_element IEEE80211_TTLM_DIRECTION_DOWN neg_ttlm skb;
    suggested_map_element IEEE80211_TTLM_DIRECTION_UP neg_ttlm skb
  else suggested_map_element IEEE80211_TTLM_DIRECTION_BOTH neg_ttlm skb.

(** ** A peer's request

    [enum ieee80211_neg_ttlm_res]. *)
Inductive ieee80211_neg_ttlm_res :=
  NEG_TTLM_RES_ACCEPT | NEG_TTLM_RES_REJECT | NEG_TTLM_RES_SUGGEST_PREFERRED.

#[global] Instance neg_ttlm_res_eq : EqDecision ieee80211_neg_ttlm_res.
Proof. solve_decision. Defined.

(** The loop over [elems->ttlm]: the mapping and the directions, or the
    rejection with the mapping so far. *)
Fixpoint neg_req_loop (valid_links : Z) (buf : list Z) (ttlm_num : nat) (ttlm : list Z)
    (neg_ttlm : ieee80211_neg_ttlm) : option (bool * ieee80211_neg_ttlm * list Z) :=
  match ttlm with
  | [] => Some (true, neg_ttlm, [])
  | p :: ttlm =>
      '(ret, neg_ttlm, direction) ← ieee80211_parse_neg_ttlm valid_links buf p neg_ttlm 0;
      if nz ret || ((direction =? IEEE80211_TTLM_DIRECTION_BOTH) && negb (bool_decide (ttlm_num = 1%nat)))
      then Some (false, neg_ttlm, [])
      else
        '(ok, neg_ttlm, directions) ← neg_req_loop valid_links buf ttlm_num ttlm neg_ttlm;
        Some (ok, neg_ttlm, direction :: directions)
  end.

Definition in_links (valid_links : Z) (map : Z) : bool := negb (nz map && nz (map .& u16 (Z.lnot valid_links))).

(** The response to send and the mapping; [drv_can_neg_ttlm] is the driver's
    decision.  An accepted mapping is then applied. *)
Definition ieee80211_process_neg_ttlm_req (drv_can_neg_ttlm : ieee80211_neg_ttlm -> ieee80211_neg_ttlm_res * ieee80211_neg_ttlm)
    (valid_links : Z) (buf : list Z) (ttlm : list Z)
  : option (ieee80211_neg_ttlm_res * ieee80211_neg_ttlm) :=
  '(ok, neg_ttlm, direction) ← neg_req_loop valid_links buf (length ttlm) ttlm init_neg_ttlm;
  if negb ok then Some (NEG_TTLM_RES_REJECT, neg_ttlm)
  else if bool_decide (length ttlm = 0%nat) ||
          (bool_decide (length ttlm = 2%nat) && bool_decide (direction !! 0%nat = direction !! 1%nat))
  then Some (NEG_TTLM_RES_REJECT, neg_ttlm)
  else if negb (forallb (in_links valid_links) (downlink neg_ttlm) && forallb (in_links valid_links) (uplink neg_ttlm))
  then Some (NEG_TTLM_RES_REJECT, neg_ttlm)
  else Some (drv_can_neg_ttlm neg_ttlm).

(** ** Specification: the octets of a mapping *)

Definition nonzero (m : Z) : bool := negb (m =? 0).
Definition map_bytes (l : list Z) : list Z := concat (le16_bytes <$> List.filter nonzero l).

(** Presence bits of a list of maps from TID [tid] on. *)
Fixpoint map_bits (tid : Z) (l : list Z) : Z :=
  match l with
  | [] => 0
  | m :: l => (if m =? 0 then 0 else BIT tid) .| map_bits (tid + 1) l
  end.

Definition ttlm_body (direction : Z) (l : list Z) : list Z := direction :: map_bits 0 l :: map_bytes l.
Definition ttlm_elem_bytes (direction : Z) (l : list Z) : list Z :=
  [WLAN_EID_EXTENSION; 1 + zlen (ttlm_body direction l); WLAN_EID_EXT_TID_TO_LINK_MAPPING] ++ ttlm_body direction l.

(** The maps of a direction, and setting them. *)
Definition dir_maps (direction : Z) (t : ieee80211_neg_ttlm) : list Z :=
  if direction =? IEEE80211_TTLM_DIRECTION_UP then uplink t else downlink t.
Definition set_maps (direction : Z) (l : list Z) (t : ieee80211_neg_ttlm) : ieee80211_neg_ttlm :=
  mk_neg_ttlm (if direction =? IEEE80211_TTLM_DIRECTION_UP then downlink t else l)
    (if direction =? IEEE80211_TTLM_DIRECTION_DOWN then uplink t else l) (valid t).

Definition valid_direction (d : Z) : Prop :=
  d = IEEE80211_TTLM_DIRECTION_DOWN \/ d = IEEE80211_TTLM_DIRECTION_UP \/ d = IEEE80211_TTLM_DIRECTION_BOTH.

(** ** Lemmas *)

Lemma map_bytes_cons m l :
  map_bytes (m :: l) = (if m =? 0 then [] else le16_bytes m) ++ map_bytes l.
Proof. unfold map_bytes, nonzero. cbn. by destruct (m =? 0). Qed.

Lemma zlen_map_bytes_cons m l :
  zlen (map_bytes (m :: l)) = (if m =? 0 then 0 else 2) + zlen (map_bytes l).
Proof. rewrite map_bytes_cons. zlens. by destruct (m =? 0). Qed.

Lemma zlen_map_bytes l : 0 <= zlen (map_bytes l) <= 2 * zlen l.
Proof.
  induction l as [|m l IH]; [done|]. rewrite zlen_map_bytes_cons. zlens. destruct (m =? 0); lia.
Qed.

Lemma BIT_pow n : 0 <= n -> BIT n = 2 ^ n.
Proof. intros. unfold BIT. apply Z.shiftl_1_l. Qed.

Lemma map_bits_low tid l i : 0 <= i < tid -> Z.testbit (map_bits tid l) i = false.
Proof.
  revert tid. induction l as [|m l IH]; intros tid Hi; cbn [map_bits]; [apply Z.bits_0|].
  rewrite Z.lor_spec, IH by lia. destruct (m =? 0); [by rewrite Z.bits_0|].
  rewrite BIT_pow by lia. rewrite Z.pow2_bits_false by lia. done.
Qed.

Lemma map_bits_uint tid l : 0 <= tid -> is_uint (tid + zlen l) (map_bits tid l).
Proof.
  revert tid. induction l as [|m l IH]; intros tid Ht; cbn [map_bits].
  - pose proof (zlen_nonneg (@nil Z)). split; [lia|]. apply Z.pow_pos_nonneg; lia.
  - zlens. apply lor_is_uint; [pose proof (zlen_nonneg l); lia| |].
    + pose proof (zlen_nonneg l). destruct (m =? 0); [split; [lia|]; apply Z.pow_pos_nonneg; lia|].
      rewrite BIT_pow by lia. split; [lia|]. apply Z.pow_lt_mono_r; lia.
    + replace (tid + (1 + zlen l)) with (tid + 1 + zlen l) by lia. apply IH. lia.
Qed.

(** The presence bit of the [k]-th map. *)
Lemma map_bits_test tid l k m :
  0 <= tid -> l !! k = Some m -> nz (map_bits tid l .& BIT (tid + Z.of_nat k)) = nonzero m.
Proof.
  revert tid k. induction l as [|x l IH]; intros tid k Ht Hk; [done|].
  rewrite BIT_pow, nz_land_pow2 by lia. cbn [map_bits]. rewrite Z.lor_spec.
  destruct k as [|k]; simplify_eq/=.
  - rewrite Z.add_0_r, map_bits_low by lia. unfold nonzero.
    destruct (m =? 0); [by rewrite Z.bits_0|]. rewrite BIT_pow, Z.pow2_bits_true by lia. done.
  - specialize (IH (tid + 1) k ltac:(lia) Hk). rewrite BIT_pow, nz_land_pow2 in IH by lia.
    replace (tid + Z.of_nat (S k)) with (tid + 1 + Z.of_nat k) by lia. rewrite IH.
    destruct (x =? 0); [by rewrite Z.bits_0|]. rewrite BIT_pow, Z.pow2_bits_false by lia. done.
Qed.

(** *** Writing *)

Lemma suggested_map_loop_spec n : forall tid l direction t skb len map_ind,
  length l = n -> 0 <= tid -> tid + zlen l <= 8 ->
  drop (Z.to_nat tid) (dir_maps direction t) = l ->
  zlen (map_bytes l) <= skb_tailroom skb ->
  0 <= len -> len + zlen (map_bytes l) < 256 -> is_uint 8 map_ind ->
  exists skb', suggested_map_loop n tid direction t skb len map_ind
      = Some (skb', len + zlen (map_bytes l), map_ind .| map_bits tid l) /\
    data skb' = data skb ++ map_bytes l /\ skb_tailroom skb' = skb_tailroom skb - zlen (map_bytes l).
Proof.
  induction n as [|n IH]; intros tid l direction t skb len map_ind Hn Ht H8 Hl Hr H0 Hlen Hi.
  - destruct l; [|done]. exists skb. cbn. rewrite Z.lor_0_r, Z.add_0_r, app_nil_r, Z.sub_0_r. done.
  - destruct l as [|m l]; [done|]. cbn [suggested_map_loop].
    assert (dir_maps direction t !! Z.to_nat tid = Some m) as Hm.
    { rewrite <- (Nat.add_0_r (Z.to_nat tid)), <- lookup_drop, Hl. done. }
    unfold dir_maps in Hm. zlens. rewrite zlen_map_bytes_cons in *.
    assert (drop (Z.to_nat (tid + 1)) (dir_maps direction t) = l) as Hl'.
    { replace (Z.to_nat (tid + 1)) with (Z.to_nat tid + 1)%nat by lia. rewrite <- drop_drop, Hl. done. }
    replace (if direction =? IEEE80211_TTLM_DIRECTION_UP then uplink t !! Z.to_nat tid
             else downlink t !! Z.to_nat tid) with (Some m) by (by destruct (direction =? IEEE80211_TTLM_DIRECTION_UP)).
    rewrite bind_some, map_bytes_cons. cbn [map_bits]. destruct (Z.eqb_spec m 0) as [->|Hm0].
    + destruct (IH (tid + 1) l direction t skb len map_ind) as (skb' & E & Ed & Et); try done; try lia.
      { by injection Hn. }
      exists skb'. rewrite E, Z.lor_0_l. cbn [app]. split_and!; [done..|]. rewrite Et. lia.
    + pose proof (zlen_nonneg (map_bytes l)).
      destruct (skb_put_data_spec skb (le16_bytes m)) as (s1 & E1 & Ed1 & Et1).
      { change (zlen (le16_bytes m)) with 2. lia. }
      change (zlen (le16_bytes m)) with 2 in Et1. rewrite E1, bind_some.
      assert (is_uint 8 (BIT tid)) as Hb.
      { rewrite BIT_pow by lia. split; [lia|]. apply Z.pow_lt_mono_r; pose proof (zlen_nonneg l); lia. }
      rewrite !wrap_small by (first [apply lor_is_uint; [lia|done|done] | unfold is_uint; lia]).
      destruct (IH (tid + 1) l direction t s1 (len + 2) (map_ind .| BIT tid)) as (skb' & E & Ed & Et);
        try done; try lia.
      { by injection Hn. }
      { apply lor_is_uint; [lia|done..]. }
      exists skb'. rewrite E. split_and!.
      * rewrite Z.lor_assoc. by replace (len + 2 + zlen (map_bytes l)) with (len + (2 + zlen (map_bytes l))) by lia.
      * rewrite Ed, Ed1. by rewrite <- app_assoc.
      * rewrite Et, Et1. lia.
Qed.

Lemma suggested_map_element_spec direction t skb :
  valid_direction direction -> length (dir_maps direction t) = 8%nat -> 5 + zlen (map_bytes (dir_maps direction t)) <= skb_tailroom skb ->
  exists skb', suggested_map_element direction t skb = Some skb' /\
    data skb' = data skb ++ ttlm_elem_bytes direction (dir_maps direction t) /\
    skb_tailroom skb' = skb_tailroom skb - (5 + zlen (map_bytes (dir_maps direction t))).
Proof.
  intros Hd H8 Hr. set (l := dir_maps direction t) in *.
  pose proof (zlen_map_bytes l) as Hl. assert (zlen l = 8) as H8' by (unfold zlen; lia). rewrite H8' in Hl.
  destruct (split_at (tail skb) 5) as (a & b & Et & Ha); [unfold skb_tailroom in Hr; lia|].
  do 5 (destruct a as [|? a]; [discriminate|]). destruct a; [|unfold zlen in Ha; simpl in Ha; lia].
  unfold suggested_map_element, sizeof_ttlm_elem. change (1 + 1 + 1) with 3. change (3 + 2) with 5.
  rewrite (skb_put_at skb _ b 5 Et) by done. rewrite bind_some. cbn [data]. unfold skb_len.
  rewrite (store_at _ _ _ 0 _ [WLAN_EID_EXTENSION; z0; z1; z2; z3]), bind_some by (done || lia).
  rewrite (store_at _ _ _ 2 _ [WLAN_EID_EXTENSION; z0; WLAN_EID_EXT_TID_TO_LINK_MAPPING; z2; z3]), bind_some
    by (done || lia).
  rewrite (store_at _ _ _ 3 _ [WLAN_EID_EXTENSION; z0; WLAN_EID_EXT_TID_TO_LINK_MAPPING; direction; z3]), bind_some
    by (done || lia).
  match goal with |- context [suggested_map_loop _ _ _ _ ?s _ _] =>
    destruct (suggested_map_loop_spec 8 0 l direction t s 3 0) as (s' & E & Ed & Er) end;
    try done; try lia.
  { unfold skb_tailroom. cbn [tail set_data]. unfold skb_tailroom in Hr. rewrite Et in Hr. zlens. lia. }
  unfold skb_tailroom in Er. cbn [data tail set_data] in Ed, Er.
  change (Z.to_nat IEEE80211_TTLM_NUM_TIDS) with 8%nat. rewrite E, bind_some, Ed, <- app_assoc.
  set (ind := 0 .| map_bits 0 l).
  rewrite (store_at _ _ _ 4 _ ([WLAN_EID_EXTENSION; z0; WLAN_EID_EXT_TID_TO_LINK_MAPPING; direction; ind] ++ map_bytes l)),
    bind_some by (lia || by apply (store_app [_; _; _; _] [_] [ind])).
  rewrite (store_at _ _ _ 1 _ ([WLAN_EID_EXTENSION; 3 + zlen (map_bytes l); WLAN_EID_EXT_TID_TO_LINK_MAPPING; direction; ind]
    ++ map_bytes l)), bind_some by (lia || by apply (store_app [_] [_] [3 + _])).
  eexists. split; [done|]. split.
  - cbn [data set_data]. unfold ttlm_elem_bytes, ttlm_body. unfold ind. rewrite Z.lor_0_l. zlens. cbn [app].
    replace (1 + (1 + (1 + zlen (map_bytes l)))) with (3 + zlen (map_bytes l)) by lia. done.
  - unfold skb_tailroom. cbn [tail set_data]. rewrite Er, Et. zlens. lia.
Qed.

(** Without the room for it a mapping is not written: [skb_put] panics. *)
Lemma skb_put_over skb n : skb_tailroom skb < n -> skb_put skb n = None.
Proof. intros Hn. unfold skb_put. destruct (Z.leb_spec n (skb_tailroom skb)); [lia|]. by rewrite andb_false_r. Qed.

Lemma skb_put_data_over skb l : skb_tailroom skb < zlen l -> skb_put_data skb l = None.
Proof. intros Hn. unfold skb_put_data. by rewrite skb_put_over. Qed.

Lemma suggested_map_loop_over n : forall tid l direction t skb len map_ind,
  length l = n -> 0 <= tid -> drop (Z.to_nat tid) (dir_maps direction t) = l ->
  skb_tailroom skb < zlen (map_bytes l) ->
  suggested_map_loop n tid direction t skb len map_ind = None.
Proof.
  induction n as [|n IH]; intros tid l direction t skb len map_ind Hn Ht Hl Hr.
  { destruct l; [|done]. change (zlen (map_bytes [])) with 0 in Hr. pose proof (zlen_nonneg (tail skb)).
    unfold skb_tailroom in Hr. lia. }
  destruct l as [|m l]; [done|]. injection Hn as Hn. cbn [suggested_map_loop].
  assert (dir_maps direction t !! Z.to_nat tid = Some m) as Hm.
  { rewrite <- (Nat.add_0_r (Z.to_nat tid)), <- lookup_drop, Hl. done. }
  assert (drop (Z.to_nat (tid + 1)) (dir_maps direction t) = l) as Hl'.
  { replace (Z.to_nat (tid + 1)) with (Z.to_nat tid + 1)%nat by lia. rewrite <- drop_drop, Hl. done. }
  unfold dir_maps in Hm. rewrite zlen_map_bytes_cons in Hr.
  replace (if direction =? IEEE80211_TTLM_DIRECTION_UP then uplink t !! Z.to_nat tid
           else downlink t !! Z.to_nat tid) with (Some m) by (by destruct (direction =? IEEE80211_TTLM_DIRECTION_UP)).
  rewrite bind_some. destruct (Z.eqb_spec m 0) as [->|Hm0]; [by apply (IH _ l); [..|lia|done|lia]|].
  destruct (Z.ltb_spec (skb_tailroom skb) 2) as [Hlt|Hge].
  { by rewrite skb_put_data_over. }
  destruct (skb_put_data_spec skb (le16_bytes m)) as (s1 & -> & _ & Et1); [done|]. change (zlen (le16_bytes m)) with 2 in Et1.
  rewrite bind_some. apply (IH _ l); (done || lia).
Qed.

Lemma suggested_map_element_over direction t skb :
  length (dir_maps direction t) = 8%nat -> skb_tailroom skb < 5 + zlen (map_bytes (dir_maps direction t)) ->
  suggested_map_element direction t skb = None.
Proof.
  intros H8 Hr. unfold suggested_map_element, sizeof_ttlm_elem. change (1 + 1 + 1) with 3. change (3 + 2) with 5.
  destruct (Z.ltb_spec (skb_tailroom skb) 5) as [Hlt|Hge]; [by rewrite skb_put_over|].
  destruct (split_at (tail skb) 5) as (a & b & Et & Ha); [unfold skb_tailroom in Hge; lia|].
  rewrite (skb_put_at skb a b 5 Et) by done. rewrite bind_some. cbn [data].
  repeat match goal with |- context [store ?d ?p ?v ≫= _] =>
    destruct (store d p v) as [?|]; [rewrite bind_some|done] end.
  change (Z.to_nat IEEE80211_TTLM_NUM_TIDS) with 8%nat.
  erewrite suggested_map_loop_over; [done|exact H8|done|done|].
  unfold skb_tailroom in *. cbn [tail set_data]. rewrite Et in Hr. zlens. lia.
Qed.

(** *** Reading *)

Lemma set_map_valid d tid m t :
  valid_direction d ->
  set_map d tid m t = Some (mk_neg_ttlm
    (if d =? IEEE80211_TTLM_DIRECTION_UP then downlink t else <[Z.to_nat tid := m]> (downlink t))
    (if d =? IEEE80211_TTLM_DIRECTION_DOWN then uplink t else <[Z.to_nat tid := m]> (uplink t)) (valid t)).
Proof. intros [-> | [-> | ->]]; done. Qed.

Lemma take_insert_next (L l : list Z) tid m n :
  length L = (Z.to_nat tid + S n)%nat -> 0 <= tid ->
  take (Z.to_nat (tid + 1)) (<[Z.to_nat tid := m]> L) ++ l = take (Z.to_nat tid) L ++ m :: l.
Proof.
  intros HL Ht. replace (Z.to_nat (tid + 1)) with (S (Z.to_nat tid)) by lia.
  rewrite (take_S_r _ _ m) by (apply list_lookup_insert_eq; lia).
  by rewrite take_insert_ge, <- app_assoc by lia.
Qed.

Lemma neg_ttlm_loop_spec n : forall tid l A B presence d t,
  length l = n -> 0 <= tid -> valid_direction d ->
  length (downlink t) = (Z.to_nat tid + n)%nat -> length (uplink t) = (Z.to_nat tid + n)%nat ->
  Forall (is_uint 16) l ->
  (forall k m, l !! k = Some m -> nz (presence .& BIT (tid + Z.of_nat k)) = nonzero m) ->
  neg_ttlm_loop n tid (A ++ map_bytes l ++ B) (zlen A) presence 2 d t =
    Some (0, mk_neg_ttlm
      (if d =? IEEE80211_TTLM_DIRECTION_UP then downlink t else take (Z.to_nat tid) (downlink t) ++ l)
      (if d =? IEEE80211_TTLM_DIRECTION_DOWN then uplink t else take (Z.to_nat tid) (uplink t) ++ l) (valid t)).
Proof.
  induction n as [|n IH]; intros tid l A B presence d t Hn Ht Hd H1 H2 Hok Hp; cbn [neg_ttlm_loop].
  { destruct l; [|done]. rewrite !app_nil_r, !take_ge by lia. destruct t. by repeat case_match. }
  destruct l as [|m l]; [done|]. injection Hn as Hn. inversion_clear Hok as [|? ? Hm Hok'].
  pose proof (Hp 0%nat m eq_refl) as Hp0. rewrite Z.add_0_r in Hp0. rewrite Hp0.
  assert (forall k m, l !! k = Some m -> nz (presence .& BIT (tid + 1 + Z.of_nat k)) = nonzero m) as Hp'.
  { intros k x Hk. rewrite <- (Hp (S k) x) by done. do 3 f_equal. lia. }
  rewrite map_bytes_cons. unfold nonzero.
  destruct (Z.eqb_spec m 0) as [->|Hm0]; cbn [negb].
  - rewrite set_map_valid by done. cbn [app]. rewrite IH; cbn [downlink uplink valid]; try done; try lia.
    + do 3 f_equal; repeat case_match; try done; by erewrite take_insert_next by done.
    + destruct (_ =? _); rewrite ?length_insert; lia.
    + destruct (_ =? _); rewrite ?length_insert; lia.
  - unfold ieee80211_get_ttlm. cbn [Z.eqb Pos.eqb].
    assert (rd_le16 (A ++ (le16_bytes m ++ map_bytes l) ++ B) (zlen A) = Some m) as ->.
    { rewrite <- (Z.add_0_r (zlen A)), rd_le16_app_r, <- app_assoc by lia. by apply rd_le16_bytes. }
    rewrite bind_some. destruct (Z.eqb_spec m 0); [done|].
    replace (A ++ (le16_bytes m ++ map_bytes l) ++ B) with ((A ++ le16_bytes m) ++ map_bytes l ++ B)
      by (by rewrite <- !app_assoc).
    replace (zlen A + 2) with (zlen (A ++ le16_bytes m)) by (zlens; done).
    rewrite set_map_valid by done. rewrite IH; cbn [downlink uplink valid]; try done; try lia.
    + do 3 f_equal; repeat case_match; try done; by erewrite take_insert_next by done.
    + destruct (_ =? _); rewrite ?length_insert; lia.
    + destruct (_ =? _); rewrite ?length_insert; lia.
Qed.

Lemma valid_direction_bits d :
  valid_direction d ->
  nz (d .& (IEEE80211_TTLM_CONTROL_SWITCH_TIME_PRESENT .| IEEE80211_TTLM_CONTROL_EXPECTED_DUR_PRESENT)) = false /\
  nz (d .& IEEE80211_TTLM_CONTROL_DEF_LINK_MAP) = false /\
  nz (d .& IEEE80211_TTLM_CONTROL_LINK_MAP_SIZE) = false /\
  nz (d .& IEEE80211_TTLM_CONTROL_SWITCH_TIME_PRESENT) = false /\
  nz (d .& IEEE80211_TTLM_CONTROL_EXPECTED_DUR_PRESENT) = false /\
  d .& IEEE80211_TTLM_CONTROL_DIRECTION = d.
Proof. by intros [-> | [-> | ->]]. Qed.

(** Parsing what was written. *)
Lemma parse_written valid_links pre post d l t d0 :
  valid_direction d -> length l = 8%nat -> Forall (is_uint 16) l ->
  length (downlink t) = 8%nat -> length (uplink t) = 8%nat ->
  ieee80211_parse_neg_ttlm valid_links (pre ++ ttlm_body d l ++ post) (zlen pre) t d0
    = Some (0, set_maps d l t, d).
Proof.
  intros Hd Hl Hok H1 H2. unfold ieee80211_parse_neg_ttlm, ttlm_body, sizeof_ttlm_elem.
  cbn [app]. rewrite rd8_here, bind_some.
  destruct (valid_direction_bits d Hd) as (E1 & E2 & E3 & _ & _ & E4). rewrite E1, E2, E3, E4.
  replace (negb (d =? IEEE80211_TTLM_DIRECTION_DOWN) && negb (d =? IEEE80211_TTLM_DIRECTION_UP) &&
    negb (d =? IEEE80211_TTLM_DIRECTION_BOTH)) with false by (by destruct Hd as [-> | [-> | ->]]).
  rewrite rd8_app_r by lia. change (rd8 _ 1) with (Some (map_bits 0 l)). rewrite bind_some.
  replace (pre ++ d :: map_bits 0 l :: map_bytes l ++ post)
    with ((pre ++ [d; map_bits 0 l]) ++ map_bytes l ++ post) by (by rewrite <- app_assoc).
  replace (zlen pre + 1 + 1) with (zlen (pre ++ [d; map_bits 0 l])) by (zlens; lia).
  rewrite neg_ttlm_loop_spec; try done.
  intros k m Hk. by apply map_bits_test.
Qed.

(** *** Bounds *)

Lemma popcount_step n z tid :
  0 <= tid -> popcount (S n) (z >> tid) = Z.b2z (Z.testbit z tid) + popcount n (z >> (tid + 1)).
Proof.
  intros Ht. cbn [popcount]. rewrite <- Z.bit0_odd, Z.shiftr_spec, Z.add_0_l by lia.
  by rewrite Z.div2_spec, Z.shiftr_shiftr by lia.
Qed.

Lemma map_bits_shift tid m l :
  0 <= tid -> map_bits tid (m :: l) >> (tid + 1) = map_bits (tid + 1) l >> (tid + 1).
Proof.
  intros Ht. cbn [map_bits]. rewrite Z.shiftr_lor. destruct (m =? 0); [by rewrite Z.shiftr_0_l|].
  rewrite BIT_pow, Z.shiftr_div_pow2, Z.div_small; [done| |lia|lia].
  split; [lia|]. apply Z.pow_lt_mono_r; lia.
Qed.

Lemma map_bits_count tid l :
  0 <= tid -> popcount (length l) (map_bits tid l >> tid) * 2 = zlen (map_bytes l).
Proof.
  revert tid. induction l as [|m l IH]; intros tid Ht; [done|].
  cbn [length]. rewrite popcount_step, map_bits_shift by lia.
  rewrite zlen_map_bytes_cons, <- (IH (tid + 1)) by lia.
  pose proof (map_bits_test tid (m :: l) 0 m Ht eq_refl) as Hb. rewrite Z.add_0_r, BIT_pow, nz_land_pow2 in Hb by lia.
  rewrite Hb. unfold nonzero. destruct (m =? 0); cbn [negb Z.b2z]; lia.
Qed.

Lemma get_ttlm_safe size buf p :
  1 <= size <= 2 -> 0 <= p -> p + size <= zlen buf -> exists m, ieee80211_get_ttlm size buf p = Some m.
Proof.
  intros Hs Hp Hb. unfold ieee80211_get_ttlm. destruct (Z.eqb_spec size 1).
  - apply rd8_Some. lia.
  - apply rd_le16_Some; lia.
Qed.

Lemma neg_ttlm_loop_safe n : forall tid buf pos presence size d t,
  valid_direction d -> 1 <= size <= 2 -> 0 <= tid -> 0 <= pos ->
  pos + popcount n (presence >> tid) * size <= zlen buf ->
  exists r, neg_ttlm_loop n tid buf pos presence size d t = Some r.
Proof.
  induction n as [|n IH]; intros tid buf pos presence size d t Hd Hs Ht Hp Hb;
    cbn [neg_ttlm_loop]; [eauto|].
  rewrite popcount_step in Hb by done. rewrite BIT_pow, nz_land_pow2 by done.
  pose proof (popcount_range n (presence >> (tid + 1))).
  destruct (Z.testbit presence tid); cbn [Z.b2z] in Hb.
  - destruct (get_ttlm_safe size buf pos) as [m ->]; [done|done|nia|]. rewrite bind_some.
    destruct (m =? 0); [eauto|]. rewrite set_map_valid by done. apply IH; (done || lia).
  - rewrite set_map_valid by done. apply IH; (done || lia).
Qed.

Lemma adv_ttlm_loop_safe n : forall buf pos size map0,
  1 <= size <= 2 -> 0 <= pos -> pos + Z.of_nat n * size <= zlen buf ->
  exists r, adv_ttlm_loop n buf pos size map0 = Some r.
Proof.
  induction n as [|n IH]; intros buf pos size map0 Hs Hp Hb; cbn [adv_ttlm_loop]; [eauto|].
  destruct (get_ttlm_safe size buf pos) as [m ->]; [done|done|nia|]. rewrite bind_some.
  destruct (negb (m =? map0)); [eauto|]. apply IH; [done|lia|nia].
Qed.

Definition map_size (control : Z) : Z := if nz (control .& IEEE80211_TTLM_CONTROL_LINK_MAP_SIZE) then 1 else 2.

Lemma map_size_range control : 1 <= map_size control <= 2.
Proof. unfold map_size. case_match; lia. Qed.

Ltac ttlm_cases :=
  repeat match goal with
  | |- context [nz (?c .& ?m)] => destruct (nz (c .& m))
  | H : context [nz (?c .& ?m)] |- _ => destruct (nz (c .& m))
  end.

(** What a positive size check gives. *)
Lemma ttlm_size_ok_inv buf p len :
  0 <= p -> p + len <= zlen buf ->
  ieee80211_tid_to_link_map_size_ok buf p len = Some true ->
  exists control, rd8 buf p = Some control /\
    let fixed := p + 1 + (if nz (control .& IEEE80211_TTLM_CONTROL_SWITCH_TIME_PRESENT) then 2 else 0)
      + (if nz (control .& IEEE80211_TTLM_CONTROL_EXPECTED_DUR_PRESENT) then 3 else 0) in
    if nz (control .& IEEE80211_TTLM_CONTROL_DEF_LINK_MAP) then fixed <= zlen buf
    else exists presence, rd8 buf (p + 1) = Some presence /\
      fixed + 1 + hweight8 presence * map_size control <= zlen buf.
Proof.
  intros Hp Hl. unfold ieee80211_tid_to_link_map_size_ok, sizeof_ttlm_elem, map_size.
  destruct (Z.ltb_spec len 1); [done|].
  destruct (rd8_Some buf p) as [control E]; [lia|]. rewrite E, bind_some. intros Hs.
  exists control. split; [done|].
  destruct (nz (control .& IEEE80211_TTLM_CONTROL_DEF_LINK_MAP)); cbn [negb] in Hs.
  - injection Hs as Hs%Z.leb_le. ttlm_cases; lia.
  - destruct (Z.ltb_spec len (1 + ((if nz (control .& IEEE80211_TTLM_CONTROL_EXPECTED_DUR_PRESENT)
        then (if nz (control .& IEEE80211_TTLM_CONTROL_SWITCH_TIME_PRESENT) then 2 else 0) + 3
        else if nz (control .& IEEE80211_TTLM_CONTROL_SWITCH_TIME_PRESENT) then 2 else 0) + 1))); [done|].
    destruct (rd8 buf (p + 1)) as [presence|]; [|done]. rewrite bind_some in Hs.
    injection Hs as Hs%Z.leb_le. exists presence. split; [done|].
    ttlm_cases; lia.
Qed.

Lemma parse_neg_safe buf p len valid_links t d0 :
  0 <= p -> p + len <= zlen buf ->
  ieee80211_tid_to_link_map_size_ok buf p len = Some true ->
  exists r, ieee80211_parse_neg_ttlm valid_links buf p t d0 = Some r.
Proof.
  intros Hp Hl (control & Hc & Hs)%ttlm_size_ok_inv; [|done..].
  unfold ieee80211_parse_neg_ttlm, sizeof_ttlm_elem. rewrite Hc, bind_some. cbn zeta in Hs.
  destruct (nz (control .& (_ .| _))); [eauto|].
  destruct (nz (control .& IEEE80211_TTLM_CONTROL_DEF_LINK_MAP)); [eauto|].
  destruct Hs as (presence & Hr & Hs). rewrite Hr, bind_some.
  set (d := control .& IEEE80211_TTLM_CONTROL_DIRECTION).
  destruct (negb (d =? IEEE80211_TTLM_DIRECTION_DOWN) && negb (d =? IEEE80211_TTLM_DIRECTION_UP) &&
    negb (d =? IEEE80211_TTLM_DIRECTION_BOTH)) eqn:Ed; [eauto|].
  assert (valid_direction d) as Hd.
  { unfold valid_direction. repeat (zcase; [tauto|]). done. }
  fold (map_size control). set (size := map_size control) in *.
  assert (1 <= size <= 2) as Hsz by apply map_size_range.
  destruct (neg_ttlm_loop_safe 8 0 buf (p + 1 + 1) presence size d t) as [[ret t'] E]; try done; try lia.
  { rewrite Z.shiftr_0_r. fold (hweight8 presence). ttlm_cases; lia. }
  change (Z.to_nat IEEE80211_TTLM_NUM_TIDS) with 8%nat. rewrite E, bind_some. eauto.
Qed.

Lemma parse_adv_safe buf p len :
  0 <= p -> p + len <= zlen buf ->
  ieee80211_tid_to_link_map_size_ok buf p len = Some true ->
  exists r, ieee80211_parse_adv_t2l buf p = Some r.
Proof.
  intros Hp Hl (control & Hc & Hs)%ttlm_size_ok_inv; [|done..].
  unfold ieee80211_parse_adv_t2l, sizeof_ttlm_elem. rewrite Hc, bind_some. cbn zeta in Hs.
  destruct (negb _); [eauto|]. fold (map_size control). set (size := map_size control) in *.
  assert (1 <= size <= 2) as Hsz by apply map_size_range.
  set (st := nz (control .& IEEE80211_TTLM_CONTROL_SWITCH_TIME_PRESENT)) in *.
  set (du := nz (control .& IEEE80211_TTLM_CONTROL_EXPECTED_DUR_PRESENT)) in *.
  set (def := nz (control .& IEEE80211_TTLM_CONTROL_DEF_LINK_MAP)) in *.
  assert (exists presence, (if negb def then rd8 buf (p + 1) else Some 0) = Some presence /\
    p + 1 + (if negb def then 1 else 0) + (if st then 2 else 0) + (if du then 3 else 0)
      + (if negb def then hweight8 presence * size else 0) <= zlen buf) as (presence & Er & Hb).
  { destruct def; cbn [negb]; [exists 0; split; [done|lia]|].
    destruct Hs as (presence & Hr & Hs). exists presence. split; [done|lia]. }
  rewrite Er, bind_some. set (pos := if negb def then p + 1 + 1 else p + 1).
  assert (pos = p + 1 + (if negb def then 1 else 0)) as Epos by (unfold pos; destruct def; cbn; lia).
  assert (0 <= (if negb def then hweight8 presence * size else 0)) as H0.
  { pose proof (popcount_range 8 presence). unfold hweight8. destruct (negb def); nia. }
  assert (exists v, (if st then st ← rd_le16 buf pos; Some (if st =? 0 then 1 else st) else Some 0) = Some v)
    as [v Ev].
  { destruct st; [|eauto]. destruct (rd_le16_Some buf pos) as [x ->]; [destruct du, def; cbn in *; lia..|].
    rewrite bind_some. eauto. }
  rewrite Ev, bind_some. set (pos2 := if st then pos + 2 else pos).
  assert (pos2 = pos + (if st then 2 else 0)) as Epos2 by (unfold pos2; destruct st; lia).
  clearbody pos2. assert (pos <= pos2) by (destruct st; lia).
  assert (0 <= pos) by (destruct (negb def); lia).
  assert (exists v, (if du then b0 ← rd8 buf pos2; b1 ← rd8 buf (pos2 + 1); b2 ← rd8 buf (pos2 + 2);
     Some (b0 .| (b1 << 8) .| (b2 << 16)) else Some 0) = Some v) as [w Ew].
  { destruct du; [|eauto].
    destruct (rd8_Some buf pos2) as [? ->]; [lia|]. rewrite bind_some.
    destruct (rd8_Some buf (pos2 + 1)) as [? ->]; [lia|]. rewrite bind_some.
    destruct (rd8_Some buf (pos2 + 2)) as [? ->]; [lia|]. rewrite bind_some. eauto. }
  rewrite Ew, bind_some. destruct def; cbn [negb] in *; [eauto|].
  destruct (Z.eqb_spec presence 255) as [->|]; cbn [negb]; [|eauto].
  change (hweight8 255) with 8 in Hb. set (pos3 := if du then pos2 + 3 else pos2).
  assert (pos3 = pos2 + (if du then 3 else 0)) as Epos3 by (unfold pos3; destruct du; lia).
  assert (pos2 <= pos3) by (destruct du; lia).
  destruct (get_ttlm_safe size buf pos3) as [m ->]; [done|lia|lia|]. rewrite bind_some.
  destruct (m =? 0); [eauto|].
  destruct (adv_ttlm_loop_safe 7 buf (pos3 + size) size m) as [r ->]; [done|lia|lia|].
  rewrite bind_some. eauto.
Qed.

Lemma size_ok_written pre post d l :
  valid_direction d -> length l = 8%nat ->
  ieee80211_tid_to_link_map_size_ok (pre ++ ttlm_body d l ++ post) (zlen pre) (zlen (ttlm_body d l)) = Some true.
Proof.
  intros Hd Hl. unfold ieee80211_tid_to_link_map_size_ok, ttlm_body, sizeof_ttlm_elem.
  pose proof (zlen_map_bytes l). zlens. destruct (Z.ltb_spec (1 + (1 + zlen (map_bytes l))) 1); [lia|].
  cbn [app]. rewrite rd8_here, bind_some.
  destruct (valid_direction_bits d Hd) as (_ & E2 & E3 & E4 & E5 & _). rewrite E2, E3, E4, E5. cbn [negb].
  destruct (Z.ltb_spec (1 + (1 + zlen (map_bytes l))) (1 + (0 + 1))); [lia|].
  rewrite rd8_app_r by lia. change (rd8 _ 1) with (Some (map_bits 0 l)). rewrite bind_some.
  pose proof (map_bits_count 0 l ltac:(lia)) as Hc. rewrite Hl, Z.shiftr_0_r in Hc.
  unfold hweight8. f_equal. apply Z.leb_le. lia.
Qed.

(** A parse of one written element inside the request. *)
Lemma parse_written_elem valid_links D d l R t :
  valid_direction d -> length l = 8%nat -> Forall (is_uint 16) l ->
  length (downlink t) = 8%nat -> length (uplink t) = 8%nat ->
  ieee80211_parse_neg_ttlm valid_links (D ++ ttlm_elem_bytes d l ++ R) (zlen D + 3) t 0
    = Some (0, set_maps d l t, d).
Proof.
  intros. unfold ttlm_elem_bytes. set (h := [WLAN_EID_EXTENSION; _; _]).
  replace (D ++ (h ++ ttlm_body d l) ++ R) with ((D ++ h) ++ ttlm_body d l ++ R) by (by rewrite <- !app_assoc).
  replace (zlen D + 3) with (zlen (D ++ h)) by (zlens; unfold h; zlens; lia).
  by apply parse_written.
Qed.

Definition same_maps (t : ieee80211_neg_ttlm) : ieee80211_neg_ttlm := mk_neg_ttlm (downlink t) (uplink t) false.

Lemma set_maps_both l t : set_maps IEEE80211_TTLM_DIRECTION_BOTH l t = mk_neg_ttlm l l (valid t).
Proof. done. Qed.
Lemma set_maps_down_up l k t :
  set_maps IEEE80211_TTLM_DIRECTION_UP k (set_maps IEEE80211_TTLM_DIRECTION_DOWN l t) = mk_neg_ttlm l k (valid t).
Proof. done. Qed.

Lemma process_written_both drv valid_links D R t :
  length (downlink t) = 8%nat -> Forall (is_uint 16) (downlink t) -> downlink t = uplink t ->
  forallb (in_links valid_links) (downlink t) = true -> forallb (in_links valid_links) (uplink t) = true ->
  ieee80211_process_neg_ttlm_req drv valid_links
    (D ++ ttlm_elem_bytes IEEE80211_TTLM_DIRECTION_BOTH (downlink t) ++ R) [zlen D + 3]
  = Some (drv (same_maps t)).
Proof.
  intros Hl Hok E H1 H2. unfold ieee80211_process_neg_ttlm_req. cbn [neg_req_loop length].
  rewrite parse_written_elem by (done || by right; right). rewrite bind_some.
  change (nz 0 || _) with false. cbv iota. rewrite !bind_some. cbn [negb].
  change (bool_decide (1%nat = 0%nat) || _) with false. cbv iota.
  rewrite set_maps_both. cbn [downlink uplink]. rewrite H1. cbn [andb negb].
  unfold same_maps. by rewrite <- E.
Qed.

Lemma process_written_two drv valid_links D1 D2 R1 R2 buf t :
  buf = D1 ++ ttlm_elem_bytes IEEE80211_TTLM_DIRECTION_DOWN (downlink t) ++ R1 ->
  buf = D2 ++ ttlm_elem_bytes IEEE80211_TTLM_DIRECTION_UP (uplink t) ++ R2 ->
  length (downlink t) = 8%nat -> Forall (is_uint 16) (downlink t) ->
  length (uplink t) = 8%nat -> Forall (is_uint 16) (uplink t) ->
  forallb (in_links valid_links) (downlink t) = true -> forallb (in_links valid_links) (uplink t) = true ->
  ieee80211_process_neg_ttlm_req drv valid_links buf [zlen D1 + 3; zlen D2 + 3] = Some (drv (same_maps t)).
Proof.
  intros B1 B2 Hl1 Hok1 Hl2 Hok2 H1 H2. unfold ieee80211_process_neg_ttlm_req. cbn [neg_req_loop length].
  rewrite B1, parse_written_elem by (done || by left). rewrite bind_some.
  change (nz 0 || _) with false. cbv iota. rewrite <- B1, B2.
  rewrite parse_written_elem by (done || by right; left). rewrite bind_some.
  change (nz 0 || _) with false. cbv iota. rewrite !bind_some. cbn [negb].
  change (bool_decide (2%nat = 0%nat) || _) with false. cbv iota.
  rewrite set_maps_down_up. cbn [downlink uplink]. by rewrite H1, H2.
Qed.

(** For any received octets the size check of a mapping element stays
    inside the element, and once it has succeeded both parsers do. *)
Theorem ttlm_parsers_safe buf p len :
  0 <= p -> p + len <= zlen buf ->
  exists ok, ieee80211_tid_to_link_map_size_ok buf p len = Some ok /\
    (ok = true -> forall valid_links t d,
      (exists r, ieee80211_parse_neg_ttlm valid_links buf p t d = Some r) /\
      (exists r, ieee80211_parse_adv_t2l buf p = Some r)).
Proof.
  intros Hp Hl. assert (exists ok, ieee80211_tid_to_link_map_size_ok buf p len = Some ok) as [ok E].
  { unfold ieee80211_tid_to_link_map_size_ok, sizeof_ttlm_elem. destruct (Z.ltb_spec len 1); [eauto|].
    destruct (rd8_Some buf p) as [c ->]; [lia|]. rewrite bind_some.
    set (e := if nz (c .& IEEE80211_TTLM_CONTROL_EXPECTED_DUR_PRESENT) then _ else _).
    assert (0 <= e) by (unfold e; ttlm_cases; lia). clearbody e.
    destruct (negb _); [|eauto]. destruct (Z.ltb_spec len (1 + (e + 1))); [eauto|].
    destruct (rd8_Some buf (p + 1)) as [? ->]; [lia|]. rewrite bind_some. eauto. }
  exists ok. split; [done|]. intros -> valid_links t d.
  split; [by eapply parse_neg_safe|by eapply parse_adv_safe].
Qed.

Lemma ttlm_parsers_safe_witness :
  exists ok, ieee80211_tid_to_link_map_size_ok [2; 255; 1; 0] 0 4 = Some ok.
Proof.
  destruct (ttlm_parsers_safe [2; 255; 1; 0] 0 4) as (ok & H & _); [vm_compute; discriminate..|].
  exists ok. exact H.
Defined.
