(* ===== verification/Element.v ===== *)
(** * Element: element fragmentation

    An element longer than 255 octets is sent as a first part of 255 octets
    followed by fragment elements.  [ieee80211_fragment_element]
    ([net/wireless/util.c]) splits an element at the end of a buffer in place;
    [cfg80211_defragment_element] ([net/wireless/scan.c]) joins the parts,
    into a separate buffer or in place; [cfg80211_defrag_mle] does so for a
    multi-link element and then for each of its per-station profiles.  All
    memory a function can reach is one list of octets and a pointer is an
    offset, so that source and destination may overlap; allocation extends the
    list. *)
From S2P Require Import Prelude Frame Skb Mle.

Definition WLAN_EID_FRAGMENT : Z := 242.
Definition IEEE80211_MLE_SUBELEM_PER_STA_PROFILE : Z := 0.
Definition IEEE80211_MLE_SUBELEM_FRAGMENT : Z := 254.
Definition IEEE80211_MLD_MAX_NUM_LINKS : Z := 15.
Definition sizeof_element : Z := 2.

(** ** Fragmentation

    [while (elem_len > 255)]; the element starts with its length octet at
    [len_pos] and reaches to the end of the buffer. *)
Fixpoint fragment_element_loop (fuel : nat) (skb : sk_buff) (len_pos elem_len frag_id : Z)
  : option (sk_buff * Z * Z) :=
  if negb (255 <? elem_len) then Some (skb, len_pos, elem_len)
  else match fuel with
  | O => None
  | S fuel =>
      d ← store (data skb) len_pos [255];
      let elem_len := elem_len - 255 in
      skb ← skb_put (set_data skb d) 2;
      d ← memmove (data skb) (len_pos + 255 + 3) (len_pos + 255 + 1) elem_len;
      let len_pos := len_pos + (255 + 1) in
      d ← store d len_pos [frag_id];
      fragment_element_loop fuel (set_data skb d) (len_pos + 1) elem_len frag_id
  end.

Definition ieee80211_fragment_element (skb : sk_buff) (len_pos : option Z) (frag_id : Z) : option sk_buff :=
  match len_pos with
  | None => Some skb
  | Some len_pos =>
      let elem_len := u32 (skb_len skb - len_pos - 1) in
      '(skb, len_pos, elem_len) ← fragment_element_loop (Z.to_nat elem_len) skb len_pos elem_len frag_id;
      d ← store (data skb) len_pos [u8 elem_len];
      Some (set_data skb d)
  end.

(** ** Defragmentation

    The loop over the following fragments: the return value and the memory.
    [data] is [None] for NULL; sizes are compared as [size_t]. *)
Fixpoint defragment_loop (fuel : nat) (mem : list Z) (elem end_ : Z) (data : option Z)
    (data_len frag_id copied : Z) : option (Z * list Z) :=
  match fuel with
  | O => None
  | S fuel =>
      if negb (elem + sizeof_element <? end_) then Some (copied, mem)
      else
        datalen ← rd8 mem (elem + 1);
        if negb (elem + sizeof_element + datalen <=? end_) then Some (copied, mem)
        else
          let next := elem + sizeof_element + datalen in
          id ← rd8 mem elem;
          if negb (id =? frag_id) then Some (copied, mem)
          else
            match data with
            | None =>
                let copied := copied + datalen in
                if negb (datalen =? 255) then Some (copied, mem)
                else defragment_loop fuel mem next end_ data data_len frag_id copied
            | Some d =>
                if data_len <? u64 (copied + datalen) then Some (- ENOSPC, mem)
                else
                  mem ← memmove mem (d + copied) (elem + sizeof_element) datalen;
                  let copied := copied + datalen in
                  if negb (datalen =? 255) then Some (copied, mem)
                  else defragment_loop fuel mem next end_ data data_len frag_id copied
            end
  end.

Definition cfg80211_defragment_element (mem : list Z) (elem : option Z) (ies ieslen : Z) (data : option Z)
    (data_len frag_id : Z) : option (Z * list Z) :=
  match elem with
  | None => Some (- EINVAL, mem)
  | Some elem =>
      if (elem <? ies) || (ies + ieslen <? elem + sizeof_element) then Some (- EINVAL, mem)
      else
        datalen ← rd8 mem (elem + 1);
        if ies + ieslen <? elem + sizeof_element + datalen then Some (- EINVAL, mem)
        else
          let next := elem + sizeof_element + datalen in
          id ← rd8 mem elem;
          let src := if id =? WLAN_EID_EXTENSION then elem + sizeof_element + 1 else elem + sizeof_element in
          let copied := if id =? WLAN_EID_EXTENSION then datalen - 1 else datalen in
          match data with
          | None =>
              if datalen <? 255 then Some (copied, mem)
              else defragment_loop (S (Z.to_nat ieslen)) mem next (ies + ieslen) data data_len frag_id copied
          | Some d =>
              if data_len <? u64 copied then Some (- ENOSPC, mem)
              else
                mem ← memmove mem d src copied;
                if datalen <? 255 then Some (copied, mem)
                else defragment_loop (S (Z.to_nat ieslen)) mem next (ies + ieslen) data data_len frag_id copied
          end
  end.

(** ** Walking elements

    The condition of [for_each_element]: the length of the element at [elem]
    when there is a whole one before [end_]. *)
Definition element_at (mem : list Z) (elem end_ : Z) : option (option Z) :=
  if end_ - elem <? sizeof_element then Some None
  else
    datalen ← rd8 mem (elem + 1);
    Some (if end_ - elem <? sizeof_element + datalen then None else Some datalen).

(** ** Multi-link elements *)

(** [res->mle] and [res->sta_prof[]], the pointers up to the first NULL, with
    [res->sta_prof_len[]]. *)
Record cfg80211_mle := mk_mle {
  mle : Z;
  sta_prof : list (Z * Z);
}.

(** The length required for the first defragmentation. *)
Fixpoint mle_buf_len (fuel : nat) (mem : list Z) (elem end_ buf_len : Z) : option Z :=
  match fuel with
  | O => None
  | S fuel =>
      e ← element_at mem elem end_;
      match e with
      | None => Some buf_len
      | Some datalen =>
          id ← rd8 mem elem;
          if negb (id =? WLAN_EID_FRAGMENT) then Some buf_len
          else mle_buf_len fuel mem (elem + sizeof_element + datalen) end_ (buf_len + datalen)
      end
  end.

(** The loop that collects the profiles: where it stopped, and the profiles
    with their lengths, in reverse.  It is left early when the array is
    full. *)
Fixpoint find_profiles (fuel : nat) (mem : list Z) (elem end_ : Z) (acc : list (Z * Z))
  : option (Z * list (Z * Z)) :=
  match fuel with
  | O => None
  | S fuel =>
      e ← element_at mem elem end_;
      match e with
      | None => Some (elem, acc)
      | Some datalen =>
          id ← rd8 mem elem;
          let next := elem + sizeof_element + datalen in
          if id =? IEEE80211_MLE_SUBELEM_PER_STA_PROFILE then
            let acc := (elem + sizeof_element, datalen) :: acc in
            if IEEE80211_MLD_MAX_NUM_LINKS <=? zlen acc then Some (elem, acc)
            else find_profiles fuel mem next end_ acc
          else find_profiles fuel mem next end_ acc
      end
  end.

(** The in-place defragmentation of the profiles; [end_] is the end of the
    sub-elements.  The result is [None] inside on an error. *)
Fixpoint defrag_profiles (mem : list Z) (end_ : Z) (profs : list (Z * Z))
  : option (option (list (Z * Z)) * list Z) :=
  match profs with
  | [] => Some (Some [], mem)
  | (prof, len) :: profs =>
      '(len, mem) ←
        (if len <? 255 then Some (len, mem)
         else
           let elem := prof - 2 in
           let buf_len := match profs with
                          | (prof', _) :: _ => prof' - prof
                          | [] => end_ - elem
                          end in
           cfg80211_defragment_element mem (Some elem) elem buf_len (Some prof) buf_len
             IEEE80211_MLE_SUBELEM_FRAGMENT);
      if len <? 0 then Some (None, mem)
      else
        '(rest, mem) ← defrag_profiles mem end_ profs;
        Some (match rest with Some rest => Some ((prof, len) :: rest) | None => None end, mem)
  end.

(** [alloc] says whether [kzalloc_flex] succeeds.  The result is NULL or the
    structure, and the memory. *)
Definition cfg80211_defrag_mle (alloc : bool) (mem : list Z) (mle_ : option Z) (ie ielen : Z)
  : option (option cfg80211_mle * list Z) :=
  match mle_ with
  | None => Some (None, mem)
  | Some elem =>
      datalen ← rd8 mem (elem + 1);
      ok ← ieee80211_mle_size_ok mem (elem + sizeof_element + 1) (u64 (datalen - 1));
      if negb ok then Some (None, mem)
      else
        buf_len ← mle_buf_len (S (Z.to_nat ielen)) mem (elem + sizeof_element + datalen) (ie + ielen)
                    (u64 (datalen - 1));
        if negb alloc then Some (None, mem)
        else
          let res := zlen mem in
          let mem := mem ++ replicate (Z.to_nat buf_len) 0 in
          '(mle_len, mem) ← cfg80211_defragment_element mem (Some elem) ie ielen (Some res) buf_len WLAN_EID_FRAGMENT;
          if mle_len <? 0 then Some (None, mem)
          else
            common_size ← ieee80211_mle_common_size mem res;
            let ie := res + common_size in
            let ielen := u64 (mle_len - common_size) in
            '(stop, profs) ← find_profiles (S (Z.to_nat ielen)) mem ie (ie + ielen) [];
            if negb (stop =? ie + ielen) then Some (None, mem)
            else
              '(profs, mem) ← defrag_profiles mem (ie + ielen) (rev profs);
              Some (match profs with Some profs => Some (mk_mle res profs) | None => None end, mem)
  end.
