(* ===== verification/ElementProofs.v ===== *)
(** * ElementProofs: element fragmentation is correct

    [fragmented] is the octets of an element with a body of any length.
    [ieee80211_fragment_element] writes them; [cfg80211_defragment_element]
    does what reading the whole body first and storing it then would do,
    although it copies part by part in place; and a multi-link element whose
    profiles and itself are fragmented is taken apart again. *)
From S2P Require Import Prelude Frame Skb Mle Element.

(** ** The octets of a fragmented element *)

(** The fragment elements for what is left of a body. *)
Fixpoint frag_tail (fuel : nat) (frag_id : Z) (body : list Z) : list Z :=
  match fuel, body with
  | S fuel, _ :: _ =>
      [frag_id; zlen (take 255 body)] ++ take 255 body ++ frag_tail fuel frag_id (drop 255 body)
  | _, _ => []
  end.

(** The length octet and what follows it. *)
Definition fragmented_from_len (frag_id : Z) (body : list Z) : list Z :=
  [zlen (take 255 body)] ++ take 255 body ++ frag_tail (length body) frag_id (drop 255 body).

Definition fragmented (id frag_id : Z) (body : list Z) : list Z := id :: fragmented_from_len frag_id body.

Lemma frag_tail_fuel n m frag_id body :
  (length body <= n)%nat -> (length body <= m)%nat -> frag_tail n frag_id body = frag_tail m frag_id body.
Proof.
  revert m body. induction n as [|n IH]; intros m body Hn Hm.
  { destruct body; [by destruct m|simpl in Hn; lia]. }
  destruct body as [|x body]; [by destruct m|]. destruct m as [|m]; [simpl in Hm; lia|].
  cbn [frag_tail]. rewrite (IH m); [done|..]; rewrite length_drop; simpl length in *; lia.
Qed.

(** A body of at most 255 octets, and a longer one. *)
Lemma fragmented_short frag_id body :
  zlen body <= 255 -> fragmented_from_len frag_id body = zlen body :: body.
Proof.
  intros H. unfold fragmented_from_len. rewrite take_ge, drop_ge by (unfold zlen in H; lia).
  destruct (length body); cbn [frag_tail]; by rewrite app_nil_r.
Qed.

Lemma fragmented_long frag_id b r :
  zlen b = 255 -> r <> [] ->
  fragmented_from_len frag_id (b ++ r) = [255] ++ b ++ frag_id :: fragmented_from_len frag_id r.
Proof.
  intros Hb Hr. assert (length b = 255%nat) as Hb' by (unfold zlen in Hb; lia).
  unfold fragmented_from_len at 1. rewrite <- Hb', take_app_length, drop_app_length, Hb.
  destruct r as [|x r]; [done|]. rewrite length_app.
  replace (length b + length (x :: r))%nat with (S (254 + length (x :: r))) by (simpl length; lia).
  cbn [frag_tail]. unfold fragmented_from_len. cbn [app].
  rewrite (frag_tail_fuel _ (length (x :: r))); [done|..]; rewrite length_drop; simpl length; lia.
Qed.

Lemma zlen_fragmented_from_len frag_id body :
  0 < zlen body -> zlen (fragmented_from_len frag_id body) = 1 + zlen body + 2 * ((zlen body - 1) / 255).
Proof.
  remember (length body) as n eqn:Hn. revert body Hn.
  induction n as [n IH] using (well_founded_induction lt_wf); intros body Hn H0.
  destruct (Z.leb_spec (zlen body) 255).
  - rewrite fragmented_short by lia. rewrite Z.div_small by lia. zlens. lia.
  - destruct (split_at body 255) as (b & r & -> & Hb); [lia|].
    assert (r <> []) as Hr by (intros ->; rewrite app_nil_r in *; lia).
    rewrite fragmented_long by done. zlens.
    rewrite (IH (length r)) by (rewrite ?Hn, ?length_app; (reflexivity || unfold zlen in *; lia)).
    replace (zlen b + zlen r - 1) with (zlen r - 1 + 1 * 255) by lia. rewrite Z.div_add by lia. lia.
Qed.

(** ** Fragmentation writes these octets *)

(** Right-nested concatenations. *)
Ltac appn := repeat (first [rewrite <- app_assoc | progress cbn [app]]).

Lemma store_one pre x l v : store (pre ++ x :: l) (zlen pre) [v] = Some (pre ++ v :: l).
Proof. by apply (store_app pre [x] [v]). Qed.

Lemma memmove_shift pre mid r :
  zlen mid = 2 ->
  exists x1 x2, memmove (pre ++ r ++ mid) (zlen pre + 2) (zlen pre) (zlen r) = Some (pre ++ x1 :: x2 :: r).
Proof.
  intros Hm. unfold memmove. rewrite slice_app, bind_some by done.
  destruct (split_at (r ++ mid) 2) as (a & b & E & Ha); [zlens; pose proof (zlen_nonneg r); lia|].
  destruct a as [|x1 [|x2 [|]]]; unfold zlen in Ha; simpl in Ha; try lia.
  exists x1, x2. rewrite E.
  apply (store_at _ _ _ 2); [done|lia|].
  rewrite <- (app_nil_r b).
  replace (x1 :: x2 :: r) with ([x1; x2] ++ r ++ []) by (by rewrite app_nil_r).
  apply (store_app [x1; x2]). assert (zlen (r ++ mid) = zlen ([x1; x2] ++ b)) as El by (by rewrite E).
  zlens. unfold zlen in *. lia.
Qed.

Lemma fragment_element_loop_spec fuel : forall skb pre x body frag_id,
  data skb = pre ++ x :: body -> zlen body <= Z.of_nat fuel ->
  2 * ((zlen body - 1) / 255) <= skb_tailroom skb ->
  exists s len_pos elem_len,
    fragment_element_loop fuel skb (zlen pre) (zlen body) frag_id = Some (s, len_pos, elem_len) /\
    store (data s) len_pos [u8 elem_len] = Some (pre ++ fragmented_from_len frag_id body) /\
    skb_tailroom s = skb_tailroom skb - 2 * Z.max 0 ((zlen body - 1) / 255).
Proof.
  assert (forall skb pre x body frag_id, data skb = pre ++ x :: body -> zlen body <= 255 ->
    store (data skb) (zlen pre) [u8 (zlen body)] = Some (pre ++ fragmented_from_len frag_id body) /\
    skb_tailroom skb = skb_tailroom skb - 2 * Z.max 0 ((zlen body - 1) / 255)) as Hshort.
  { intros skb pre x body frag_id Hd Hb. pose proof (zlen_nonneg body).
    rewrite fragmented_short, wrap_small, Hd by (unfold is_uint; lia). split; [by apply (store_app pre [x] [_])|].
    assert ((zlen body - 1) / 255 < 1) by (apply Z.div_lt_upper_bound; lia). lia. }
  induction fuel as [|fuel IH]; intros skb pre x body frag_id Hd Hf Ht; cbn [fragment_element_loop].
  { destruct (Z.ltb_spec 255 (zlen body)); cbn [negb]; [lia|].
    eexists _, _, _. split; [done|]. apply (Hshort skb pre x); [done|lia]. }
  destruct (Z.ltb_spec 255 (zlen body)); cbn [negb].
  2: { eexists _, _, _. split; [done|]. apply (Hshort skb pre x); [done|lia]. }
  destruct (split_at body 255) as (b & r & -> & Hb); [lia|]. zlens. rewrite Hb in *.
  assert ((255 + zlen r - 1) / 255 = (zlen r - 1) / 255 + 1) as Eq.
  { replace (255 + zlen r - 1) with (zlen r - 1 + 1 * 255) by lia. by rewrite Z.div_add. }
  assert (0 <= (zlen r - 1) / 255) by (apply Z.div_pos; lia). rewrite Eq in *.
  rewrite Hd, store_one, bind_some.
  destruct (split_at (tail skb) 2) as (y & tl & Et & Hy); [unfold skb_tailroom in Ht; lia|].
  rewrite (skb_put_at _ y tl) by (exact Et || done). rewrite bind_some. cbn [data set_data head tail cloned].
  destruct (memmove_shift (pre ++ [255] ++ b) y r Hy) as (x1 & x2 & Em).
  replace ((pre ++ 255 :: b ++ r) ++ y) with ((pre ++ [255] ++ b) ++ r ++ y) by (by appn).
  replace (zlen pre + 255 + 3) with (zlen (pre ++ [255] ++ b) + 2) by (zlens; lia).
  replace (zlen pre + 255 + 1) with (zlen (pre ++ [255] ++ b)) by (zlens; lia).
  replace (255 + zlen r - 255) with (zlen r) by lia. rewrite Em, bind_some.
  replace (zlen pre + (255 + 1)) with (zlen (pre ++ [255] ++ b)) by (zlens; lia).
  rewrite store_one, bind_some.
  set (s2 := set_data _ _).
  destruct (IH s2 ((pre ++ [255] ++ b) ++ [frag_id]) x2 r frag_id) as (s & lp & el & E1 & E2 & E3).
  { unfold s2. cbn [data set_data]. by appn. }
  { lia. }
  { unfold s2, skb_tailroom. cbn [tail set_data]. unfold skb_tailroom in Ht. rewrite Et in Ht. zlens. lia. }
  exists s, lp, el. rewrite zlen_app in E1. split; [exact E1|]. split.
  - rewrite E2, fragmented_long; [|done|by intros ->; zlens; lia]. by appn.
  - rewrite E3. unfold s2, skb_tailroom. cbn [tail set_data]. rewrite Et. zlens. lia.
Qed.

Lemma fragment_element_spec skb pre x body frag_id :
  data skb = pre ++ x :: body -> zlen body < 2 ^ 32 ->
  2 * ((zlen body - 1) / 255) <= skb_tailroom skb ->
  exists skb', ieee80211_fragment_element skb (Some (zlen pre)) frag_id = Some skb' /\
    data skb' = pre ++ fragmented_from_len frag_id body /\
    skb_tailroom skb' = skb_tailroom skb - 2 * Z.max 0 ((zlen body - 1) / 255).
Proof.
  intros Hd Hb Ht. unfold ieee80211_fragment_element, skb_len. rewrite Hd. zlens.
  replace (zlen pre + (1 + zlen body) - zlen pre - 1) with (zlen body) by lia.
  pose proof (zlen_nonneg body). rewrite wrap_small by (unfold is_uint; lia).
  destruct (fragment_element_loop_spec (Z.to_nat (zlen body)) skb pre x body frag_id) as (s & lp & el & E1 & E2 & E3);
    [done|lia|done|].
  rewrite E1, bind_some, E2, bind_some. eexists. split; [done|]. by split.
Qed.

(** ** Defragmentation

    Reading the fragments from memory that does not change. *)
Fixpoint gather (fuel : nat) (mem : list Z) (elem end_ frag_id : Z) : option (list Z) :=
  match fuel with
  | O => None
  | S fuel =>
      if negb (elem + 2 <? end_) then Some []
      else
        datalen ← rd8 mem (elem + 1);
        if negb (elem + 2 + datalen <=? end_) then Some []
        else
          id ← rd8 mem elem;
          if negb (id =? frag_id) then Some []
          else
            part ← slice mem (elem + 2) datalen;
            if negb (datalen =? 255) then Some part
            else rest ← gather fuel mem (elem + 2 + datalen) end_ frag_id; Some (part ++ rest)
  end.

(** The body of the element at [elem] in the elements up to [end_]. *)
Definition body_of (mem : list Z) (elem end_ frag_id : Z) : option (list Z) :=
  id ← rd8 mem elem;
  datalen ← rd8 mem (elem + 1);
  let ext := if id =? WLAN_EID_EXTENSION then 1 else 0 in
  part ← slice mem (elem + 2 + ext) (datalen - ext);
  if datalen <? 255 then Some part
  else rest ← gather (S (Z.to_nat (end_ - elem))) mem (elem + 2 + datalen) end_ frag_id; Some (part ++ rest).

Section Defragment.
Variables (mem : list Z) (ies end_ frag_id : Z).
Hypothesis Hmem : bytes_ok mem.
Hypothesis Hies : 0 <= ies.
Hypothesis Hend : end_ <= zlen mem.

(** One step of [gather]. *)
Lemma gather_cases fuel elem :
  0 <= elem -> Z.max 0 (end_ - elem) < Z.of_nat (S fuel) ->
  (elem + 2 <? end_ = false /\ gather (S fuel) mem elem end_ frag_id = Some []) \/
  exists datalen id, elem + 2 <? end_ = true /\ rd8 mem (elem + 1) = Some datalen /\ rd8 mem elem = Some id /\
    0 <= datalen <= 255 /\
    ((elem + 2 + datalen <=? end_ = false /\ gather (S fuel) mem elem end_ frag_id = Some []) \/
     (elem + 2 + datalen <=? end_ = true /\ id =? frag_id = false /\
        gather (S fuel) mem elem end_ frag_id = Some []) \/
     (exists part, elem + 2 + datalen <=? end_ = true /\ id =? frag_id = true /\
        slice mem (elem + 2) datalen = Some part /\ zlen part = datalen /\
        ((datalen =? 255 = false /\ gather (S fuel) mem elem end_ frag_id = Some part) \/
         (datalen =? 255 = true /\ Z.max 0 (end_ - (elem + 2 + datalen)) < Z.of_nat fuel /\
           gather (S fuel) mem elem end_ frag_id =
             rest ← gather fuel mem (elem + 2 + datalen) end_ frag_id; Some (part ++ rest))))).
Proof.
  intros H0 Hf. cbn [gather]. destruct (Z.ltb_spec (elem + 2) end_); cbn [negb]; [right|by left].
  destruct (rd8_Some mem (elem + 1)) as [datalen Ed]; [lia|].
  destruct (rd8_Some mem elem) as [id Ei]; [lia|]. pose proof (rd8_ok _ _ _ Hmem Ed) as Hd.
  unfold is_uint in Hd. change (2 ^ 8) with 256 in Hd.
  exists datalen, id. rewrite Ed, bind_some, Ei. do 3 (split; [done|]). split; [lia|].
  destruct (Z.leb_spec (elem + 2 + datalen) end_); cbn [negb]; [right|by left].
  rewrite bind_some. destruct (id =? frag_id); cbn [negb]; [right|by left].
  destruct (slice_is_Some mem (elem + 2) datalen) as (part & Es & Hp); [lia..|].
  exists part. do 4 (split; [done|]). rewrite Es, bind_some.
  destruct (Z.eqb_spec datalen 255); cbn [negb]; [right|by left]. split; [done|]. split; [lia|done].
Qed.

(** Enough fuel, any result. *)
Lemma gather_total fuel : forall elem,
  0 <= elem -> Z.max 0 (end_ - elem) < Z.of_nat fuel ->
  exists bs, gather fuel mem elem end_ frag_id = Some bs.
Proof.
  induction fuel as [|fuel IH]; intros elem H0 Hf; [lia|].
  destruct (gather_cases fuel elem H0 Hf) as [[_ ->]|(datalen & id & _ & _ & _ & Hd & [[_ ->]|[(_ & _ & ->)|(part & _ & _ & _ & _ & [[_ ->]|(_ & Hf' & ->)])]])];
    eauto.
  destruct (IH (elem + 2 + datalen)) as [bs ->]; [lia|done|]. rewrite bind_some. eauto.
Qed.

Lemma gather_fuel n m elem :
  0 <= elem -> Z.max 0 (end_ - elem) < Z.of_nat n -> Z.max 0 (end_ - elem) < Z.of_nat m ->
  gather n mem elem end_ frag_id = gather m mem elem end_ frag_id.
Proof.
  revert m elem. induction n as [|n IH]; intros m elem H0 Hn Hm; [lia|]. destruct m as [|m]; [lia|].
  cbn [gather]. destruct (Z.ltb_spec (elem + 2) end_); cbn [negb]; [|done].
  destruct (rd8 mem (elem + 1)) as [datalen|] eqn:Ed; [|done]. rewrite !bind_some.
  pose proof (rd8_ok _ _ _ Hmem Ed) as [? _].
  destruct (negb (elem + 2 + datalen <=? end_)); [done|].
  destruct (rd8 mem elem) as [id|]; [|done]. rewrite !bind_some. destruct (negb (id =? frag_id)); [done|].
  destruct (slice mem (elem + 2) datalen) as [part|]; [|done]. rewrite !bind_some.
  destruct (negb (datalen =? 255)); [done|]. by rewrite (IH m) by lia.
Qed.

(** Without a destination the loop only counts. *)
Lemma defragment_loop_count fuel : forall elem data_len copied bs,
  0 <= elem -> Z.max 0 (end_ - elem) < Z.of_nat fuel ->
  gather fuel mem elem end_ frag_id = Some bs ->
  defragment_loop fuel mem elem end_ None data_len frag_id copied = Some (copied + zlen bs, mem).
Proof.
  induction fuel as [|fuel IH]; intros elem data_len copied bs H0 Hf Hg; [lia|].
  cbn [defragment_loop]. unfold sizeof_element.
  destruct (gather_cases fuel elem H0 Hf) as [[-> E]|(datalen & id & -> & -> & -> & Hd & C)]; cbn [negb];
    [rewrite E in Hg; simplify_eq; by rewrite Z.add_0_r|]. rewrite !bind_some.
  destruct C as [[-> E]|[(-> & -> & E)|(part & -> & -> & _ & Hp & [[-> E]|(-> & Hf' & E)])]]; cbn [negb];
    rewrite E in Hg; simplify_eq; rewrite ?Z.add_0_r; try done.
  destruct (gather_total fuel (elem + 2 + zlen part)) as [rest Er]; [lia|done|].
  rewrite Er, bind_some in Hg. simplify_eq. rewrite (IH _ _ _ rest) by (done || lia).
  rewrite zlen_app. by rewrite Z.add_assoc.
Qed.

(** With one, it stores the whole body after what is there, if there is room;
    the destination may lie before what is still to be read, or outside. *)
Lemma defragment_loop_store fuel : forall m elem d data_len acc bs,
  0 <= elem -> Z.max 0 (end_ - elem) < Z.of_nat fuel ->
  store mem d acc = Some m -> d + zlen acc <= elem \/ end_ <= d /\ d + data_len <= zlen mem ->
  0 <= d -> zlen acc <= data_len -> zlen acc + Z.max 0 (end_ - elem) < 2 ^ 64 ->
  gather fuel mem elem end_ frag_id = Some bs ->
  exists r, defragment_loop fuel m elem end_ (Some d) data_len frag_id (zlen acc) = Some r /\
    (zlen acc + zlen bs <= data_len -> fst r = zlen acc + zlen bs /\ store mem d (acc ++ bs) = Some (snd r)) /\
    (data_len < zlen acc + zlen bs -> fst r = - ENOSPC).
Proof.
  induction fuel as [|fuel IH]; intros m elem d data_len acc bs H0 Hf Hm Hdis Hd0 Hacc H64 Hg; [lia|].
  cbn [defragment_loop]. unfold sizeof_element.
  assert (forall i, elem <= i < end_ -> rd8 m i = rd8 mem i) as Hrd.
  { intros i Hi. eapply rd8_store_disjoint; [done|lia]. }
  assert (Hdone : bs = [] -> exists r, Some (zlen acc, m) = Some r /\
    (zlen acc + zlen bs <= data_len -> fst r = zlen acc + zlen bs /\ store mem d (acc ++ bs) = Some (snd r)) /\
    (data_len < zlen acc + zlen bs -> fst r = - ENOSPC)).
  { intros ->. eexists. split; [done|]. rewrite app_nil_r, zlen_nil, Z.add_0_r. split; [done|lia]. }
  destruct (gather_cases fuel elem H0 Hf) as [[-> E]|(datalen & id & Eb & Ed & Ei & Hd & C)]; cbn [negb].
  { rewrite E in Hg. simplify_eq. by apply Hdone. }
  rewrite Eb, (Hrd (elem + 1)), (Hrd elem), Ed, Ei, !bind_some by (apply Z.ltb_lt in Eb; lia). cbn [negb].
  destruct C as [[-> E]|[(-> & -> & E)|(part & E1 & -> & Es & Hp & C)]]; cbn [negb];
    [rewrite E in Hg; simplify_eq; by apply Hdone..|]. rewrite E1. apply Z.leb_le in E1. cbn [negb].
  subst datalen. pose proof (zlen_nonneg acc).
  rewrite (wrap_small 64) by (unfold is_uint; lia).
  destruct (Z.ltb_spec data_len (zlen acc + zlen part)) as [Hfull|Hroom].
  { eexists. split; [done|]. assert (zlen part <= zlen bs).
    { destruct C as [[_ E]|(_ & Hf' & E)]; rewrite E in Hg; [simplify_eq; lia|].
      destruct (gather fuel mem _ _ _) as [rest|]; [|done]. rewrite bind_some in Hg. simplify_eq.
      rewrite zlen_app. pose proof (zlen_nonneg rest). lia. }
    split; [lia|done]. }
  unfold memmove. erewrite slice_store_disjoint by (done || lia). rewrite Es, bind_some.
  rewrite (store_adjacent mem d acc part m Hm).
  destruct (store_is_Some mem d (acc ++ part)) as [m' Em]; [done|rewrite zlen_app; lia|].
  rewrite Em, bind_some, <- zlen_app.
  destruct C as [[-> E]|(-> & Hf' & E)]; cbn [negb]; rewrite E in Hg.
  { simplify_eq. eexists. split; [done|]. rewrite zlen_app in *. split; [done|lia]. }
  destruct (gather_total fuel (elem + 2 + zlen part)) as [rest Er]; [lia|done|].
  rewrite Er, bind_some in Hg. simplify_eq. rewrite app_assoc, (zlen_app part), Z.add_assoc, <- (zlen_app acc part).
  eapply IH; try done; rewrite ?zlen_app; lia.
Qed.
End Defragment.

(** An element that lies between [ies] and [end_]. *)
Definition element_in (mem : list Z) (ies end_ elem : Z) : Prop :=
  ies <= elem /\ elem + 2 <= end_ /\
  exists id datalen, rd8 mem elem = Some id /\ rd8 mem (elem + 1) = Some datalen /\
    elem + 2 + datalen <= end_ /\ (id = WLAN_EID_EXTENSION -> 0 < datalen).

(** The first part of a body and its continuation, as the code sees them. *)
Lemma body_of_inv mem ies end_ elem frag_id :
  bytes_ok mem -> 0 <= ies -> end_ <= zlen mem -> element_in mem ies end_ elem ->
  exists id datalen ext part rest,
    rd8 mem elem = Some id /\ rd8 mem (elem + 1) = Some datalen /\ 0 <= datalen <= 255 /\
    elem + 2 + datalen <= end_ /\ ext = (if id =? WLAN_EID_EXTENSION then 1 else 0) /\ ext <= datalen /\
    slice mem (elem + 2 + ext) (datalen - ext) = Some part /\ zlen part = datalen - ext /\
    body_of mem elem end_ frag_id = Some (part ++ rest) /\
    if datalen <? 255 then rest = []
    else gather (S (Z.to_nat (end_ - elem))) mem (elem + 2 + datalen) end_ frag_id = Some rest.
Proof.
  intros Hok H0 Hend (Hi & H2 & id & datalen & Eid & Ed & Hfit & Hext).
  pose proof (rd8_ok _ _ _ Hok Ed) as Hd. unfold is_uint in Hd. change (2 ^ 8) with 256 in Hd.
  set (ext := if id =? WLAN_EID_EXTENSION then 1 else 0).
  assert (0 <= ext <= datalen) as He.
  { unfold ext. destruct (Z.eqb_spec id WLAN_EID_EXTENSION); [specialize (Hext e)|]; lia. }
  destruct (slice_is_Some mem (elem + 2 + ext) (datalen - ext)) as (part & Es & Hp); [lia..|].
  unfold body_of. rewrite Eid, bind_some, Ed, bind_some. fold ext. rewrite Es, bind_some.
  destruct (Z.ltb_spec datalen 255).
  - exists id, datalen, ext, part, []. rewrite app_nil_r. destruct (Z.ltb_spec datalen 255); [|lia].
    split_and!; (done || lia).
  - destruct (gather_total mem end_ frag_id Hok Hend (S (Z.to_nat (end_ - elem))) (elem + 2 + datalen))
      as [rest Er]; [lia..|].
    exists id, datalen, ext, part, rest. rewrite Er, bind_some. destruct (Z.ltb_spec datalen 255); [lia|].
    split_and!; (done || lia).
Qed.

Lemma defragment_element_spec mem ies ieslen elem frag_id :
  bytes_ok mem -> 0 <= ies -> ies + ieslen <= zlen mem -> zlen mem < 2 ^ 63 ->
  element_in mem ies (ies + ieslen) elem ->
  exists bs, body_of mem elem (ies + ieslen) frag_id = Some bs /\
    (forall data_len, cfg80211_defragment_element mem (Some elem) ies ieslen None data_len frag_id
       = Some (zlen bs, mem)) /\
    (forall d data_len, 0 <= d -> 0 <= data_len ->
       d <= elem + 2 \/ ies + ieslen <= d /\ d + data_len <= zlen mem ->
       exists r mem', cfg80211_defragment_element mem (Some elem) ies ieslen (Some d) data_len frag_id
           = Some (r, mem') /\
         if zlen bs <=? data_len then r = zlen bs /\ store mem d bs = Some mem' else r = - ENOSPC).
Proof.
  intros Hok H0 Hend H63 Hin. pose proof Hin as (Hi & _).
  destruct (body_of_inv mem ies (ies + ieslen) elem frag_id Hok H0 Hend Hin)
    as (id & datalen & ext & part & rest & Eid & Ed & Hd & Hfit & Hext & He & Es & Hp & Eb & Hrest).
  assert (Hrest' : datalen <? 255 = false -> gather (S (Z.to_nat ieslen)) mem (elem + 2 + datalen) (ies + ieslen) frag_id = Some rest).
  { intros E. rewrite E in Hrest. rewrite <- Hrest. apply gather_fuel; (done || lia). }
  assert (0 <= ext) by (subst ext; destruct (id =? WLAN_EID_EXTENSION); lia).
  assert (Ecop : (if id =? WLAN_EID_EXTENSION then datalen - 1 else datalen) = datalen - ext)
    by (subst ext; destruct (id =? WLAN_EID_EXTENSION); lia).
  assert (Esrc : (if id =? WLAN_EID_EXTENSION then elem + 2 + 1 else elem + 2) = elem + 2 + ext)
    by (subst ext; destruct (id =? WLAN_EID_EXTENSION); lia).
  exists (part ++ rest). split; [done|].
  assert (Estart : forall data data_len,
    cfg80211_defragment_element mem (Some elem) ies ieslen data data_len frag_id =
    let continue m := if datalen <? 255 then Some (datalen - ext, m)
      else defragment_loop (S (Z.to_nat ieslen)) m (elem + 2 + datalen) (ies + ieslen) data data_len frag_id (datalen - ext) in
    match data with
    | None => continue mem
    | Some d => if data_len <? u64 (datalen - ext) then Some (- ENOSPC, mem)
                else m ← memmove mem d (elem + 2 + ext) (datalen - ext); continue m
    end).
  { intros data data_len. unfold cfg80211_defragment_element, sizeof_element. rewrite Ed, Eid.
    destruct (Z.ltb_spec elem ies); [lia|]. destruct (Z.ltb_spec (ies + ieslen) (elem + 2)); [lia|]. cbn [orb].
    rewrite bind_some. destruct (Z.ltb_spec (ies + ieslen) (elem + 2 + datalen)); [lia|].
    by rewrite bind_some, Ecop, Esrc. }
  split.
  - intros data_len. rewrite Estart. cbn zeta. destruct (datalen <? 255) eqn:E.
    + subst rest. by rewrite app_nil_r, Hp.
    + rewrite (defragment_loop_count mem (ies + ieslen) frag_id Hok Hend _ _ _ _ rest); [|lia|lia|by apply Hrest'].
      by rewrite zlen_app, Hp.
  - intros d data_len Hd0 Hdl0 Hdis. rewrite Estart. cbn zeta. rewrite (wrap_small 64) by (unfold is_uint; lia).
    pose proof (zlen_nonneg rest). zlens. rewrite Hp.
    destruct (Z.ltb_spec data_len (datalen - ext)).
    { eexists _, _. split; [done|]. by destruct (Z.leb_spec (datalen - ext + zlen rest) data_len); [lia|]. }
    unfold memmove. rewrite Es, bind_some.
    destruct (store_is_Some mem d part) as [m Em]; [done|lia|]. rewrite Em, bind_some.
    destruct (datalen <? 255) eqn:E.
    + subst rest. rewrite app_nil_r. eexists _, _. split; [done|].
      zlens. by destruct (Z.leb_spec (datalen - ext + 0) data_len); [rewrite Z.add_0_r|lia].
    + destruct (defragment_loop_store mem (ies + ieslen) frag_id Hok Hend (S (Z.to_nat ieslen)) m
        (elem + 2 + datalen) d data_len part rest) as ([r m'] & El & Hf & Hs); try done; try lia.
      { by apply Hrest'. }
      rewrite Hp in *. rewrite El. exists r, m'. split; [done|].
      destruct (Z.leb_spec (datalen - ext + zlen rest) data_len); [by apply Hf|by apply Hs].
Qed.

(** ** Round trip *)

(** Nothing is gathered where no fragment element starts. *)
Lemma gather_stop fuel mem elem end_ frag_id :
  bytes_ok mem -> end_ <= zlen mem -> 0 <= elem -> Z.max 0 (end_ - elem) < Z.of_nat fuel ->
  (elem < end_ -> rd8 mem elem <> Some frag_id) ->
  gather fuel mem elem end_ frag_id = Some [].
Proof.
  intros Hok Hend H0 Hf Hh. destruct fuel as [|fuel]; [lia|].
  destruct (gather_cases mem end_ frag_id Hok Hend fuel elem H0 Hf)
    as [[_ E]|(datalen & id & Eb & _ & Ei & _ & [[_ E]|[(_ & _ & E)|(part & _ & E & _)]])]; try done.
  apply Z.ltb_lt in Eb. apply Z.eqb_eq in E as ->. by destruct Hh; [lia|].
Qed.

(** One fragment element in front. *)
Lemma gather_one fuel A b R end_ frag_id :
  0 < zlen b <= 255 -> zlen A + 2 + zlen b <= end_ ->
  gather (S fuel) (A ++ [frag_id; zlen b] ++ b ++ R) (zlen A) end_ frag_id =
  if zlen b =? 255 then rest ← gather fuel (A ++ [frag_id; zlen b] ++ b ++ R) (zlen A + 2 + zlen b) end_ frag_id;
                        Some (b ++ rest)
  else Some b.
Proof.
  intros Hb Hend. cbn [gather]. destruct (Z.ltb_spec (zlen A + 2) end_); [|lia]. cbn [negb].
  rewrite (rd8_app_r _ _ 1) by lia. change (rd8 _ 1) with (Some (zlen b)). rewrite bind_some.
  destruct (Z.leb_spec (zlen A + 2 + zlen b) end_); [|lia]. cbn [negb app].
  rewrite rd8_here, bind_some, Z.eqb_refl. cbn [negb].
  replace (A ++ frag_id :: zlen b :: b ++ R) with ((A ++ [frag_id; zlen b]) ++ b ++ R) by (by appn).
  replace (zlen A + 2) with (zlen (A ++ [frag_id; zlen b])) at 1 by (zlens; lia).
  rewrite slice_app, bind_some by done. by destruct (Z.eqb_spec (zlen b) 255).
Qed.

(** The fragment elements of what follows the first part. *)
Definition fragments (frag_id : Z) (body : list Z) : list Z :=
  match body with [] => [] | _ => fragmented frag_id frag_id body end.

Lemma fragmented_parts id frag_id b r :
  zlen b <= 255 -> (r = [] \/ zlen b = 255) ->
  fragmented id frag_id (b ++ r) = [id; zlen b] ++ b ++ fragments frag_id r.
Proof.
  intros Hb Hr. unfold fragmented. destruct r as [|x r].
  - rewrite app_nil_r, fragmented_short by done. cbn [fragments app]. by rewrite app_nil_r.
  - destruct Hr as [|Hr]; [done|]. rewrite fragmented_long by done. by rewrite Hr.
Qed.

(** Splitting off the first part. *)
Lemma first_part (body : list Z) :
  exists b r, body = b ++ r /\ zlen b <= 255 /\ (r = [] \/ zlen b = 255) /\ (body <> [] -> 0 < zlen b).
Proof.
  destruct (Z.leb_spec (zlen body) 255).
  - exists body, []. rewrite app_nil_r. split_and!; auto.
    destruct body; [done|]. zlens. pose proof (zlen_nonneg body). lia.
  - destruct (split_at body 255) as (b & r & -> & Hb); [lia|]. exists b, r. split_and!; (done || auto || lia).
Qed.

Lemma gather_fragments fuel : forall A body R end_ frag_id,
  bytes_ok (A ++ fragments frag_id body ++ R) ->
  zlen A + zlen (fragments frag_id body) <= end_ <= zlen (A ++ fragments frag_id body ++ R) ->
  end_ - zlen A < Z.of_nat fuel ->
  (zlen A + zlen (fragments frag_id body) < end_ -> R !! 0%nat <> Some frag_id) ->
  gather fuel (A ++ fragments frag_id body ++ R) (zlen A) end_ frag_id = Some body.
Proof.
  induction fuel as [|fuel IH]; intros A body R end_ frag_id Hok Hend Hf Hh; pose proof (zlen_nonneg A);
    pose proof (zlen_nonneg (fragments frag_id body)); [lia|].
  destruct (decide (body = [])) as [->|Hne].
  - apply gather_stop; [done|lia|lia|lia|]. cbn [fragments app] in *. intros Hlt.
    destruct R as [|x R]; [rewrite app_nil_r in *; cbn in *; lia|]. rewrite rd8_here. intros [= ->].
    apply Hh; [rewrite zlen_nil; lia|done].
  - destruct (first_part body) as (b & r & -> & Hb & Hr & Hb0). specialize (Hb0 Hne).
    assert (fragments frag_id (b ++ r) = [frag_id; zlen b] ++ b ++ fragments frag_id r) as Ef.
    { rewrite <- fragmented_parts by done. by destruct (b ++ r). }
    rewrite Ef in *. zlens. pose proof (zlen_nonneg (fragments frag_id r)).
    replace (A ++ ([frag_id; zlen b] ++ b ++ fragments frag_id r) ++ R)
      with (A ++ [frag_id; zlen b] ++ b ++ fragments frag_id r ++ R) in * by (by appn).
    rewrite gather_one by lia. destruct (Z.eqb_spec (zlen b) 255) as [E|E].
    2: { destruct Hr as [->|]; [|done]. by rewrite app_nil_r. }
    replace (A ++ [frag_id; zlen b] ++ b ++ fragments frag_id r ++ R)
      with ((A ++ [frag_id; zlen b] ++ b) ++ fragments frag_id r ++ R) in * by (by appn).
    replace (zlen A + 2 + zlen b) with (zlen (A ++ [frag_id; zlen b] ++ b)) by (zlens; lia).
    rewrite IH; [done|done|zlens; lia|zlens; lia|]. intros Hlt. apply Hh. zlens. lia.
Qed.

(** The element written by the sender, anywhere in memory, followed by
    anything but one of its fragments. *)
Section Written.
Variables (A R : list Z) (id frag_id : Z) (body : list Z) (end_ : Z).
Hypothesis Hok : bytes_ok (A ++ fragmented id frag_id body ++ R).
Hypothesis Hend : zlen A + zlen (fragmented id frag_id body) <= end_ <= zlen (A ++ fragmented id frag_id body ++ R).
Hypothesis Hnext : zlen A + zlen (fragmented id frag_id body) < end_ -> R !! 0%nat <> Some frag_id.
Hypothesis Hext : id = WLAN_EID_EXTENSION -> body <> [].

Lemma written_element_in ies :
  0 <= ies <= zlen A -> element_in (A ++ fragmented id frag_id body ++ R) ies end_ (zlen A).
Proof.
  intros Hies. destruct (first_part body) as (b & r & E & Hb & Hr & Hb0).
  assert (fragmented id frag_id body = [id; zlen b] ++ b ++ fragments frag_id r) as Ef
    by (rewrite E; by apply fragmented_parts).
  rewrite Ef in *. zlens. pose proof (zlen_nonneg b). pose proof (zlen_nonneg (fragments frag_id r)).
  split; [lia|]. split; [lia|]. exists id, (zlen b). split; [apply rd8_here|].
  split; [rewrite rd8_app_r by lia; done|]. split; [lia|]. intros Hx. apply Hb0. by apply Hext.
Qed.

Lemma written_body :
  body_of (A ++ fragmented id frag_id body ++ R) (zlen A) end_ frag_id =
  Some (if id =? WLAN_EID_EXTENSION then drop 1 body else body).
Proof.
  destruct (first_part body) as (b & r & E & Hb & Hr & Hb0).
  assert (fragmented id frag_id body = [id; zlen b] ++ b ++ fragments frag_id r) as Ef
    by (rewrite E; by apply fragmented_parts).
  rewrite Ef in *. zlens. pose proof (zlen_nonneg b). pose proof (zlen_nonneg (fragments frag_id r)).
  unfold body_of. assert (rd8 (A ++ ([id; zlen b] ++ b ++ fragments frag_id r) ++ R) (zlen A) = Some id) as ->
    by apply rd8_here.
  rewrite bind_some, rd8_app_r by lia. change (rd8 _ 1) with (Some (zlen b)). rewrite bind_some.
  set (ext := if id =? WLAN_EID_EXTENSION then 1 else 0).
  assert (exists x y, b = x ++ y /\ zlen x = ext /\ (if id =? WLAN_EID_EXTENSION then drop 1 body else body) = y ++ r)
    as (x & y & Exy & Hx & Ey).
  { unfold ext. destruct (Z.eqb_spec id WLAN_EID_EXTENSION) as [Hid|]; [|exists [], b; split_and!; by rewrite ?E].
    specialize (Hb0 (Hext Hid)). destruct b as [|x b]; [by destruct (Z.lt_irrefl 0)|]. exists [x], b. by rewrite E. }
  rewrite Ey.
  replace (A ++ ([id; zlen b] ++ b ++ fragments frag_id r) ++ R)
    with ((A ++ [id; zlen b] ++ x) ++ y ++ fragments frag_id r ++ R) at 1 by (rewrite Exy; by appn).
  replace (zlen A + 2 + ext) with (zlen (A ++ [id; zlen b] ++ x)) by (zlens; lia).
  assert (zlen b = ext + zlen y) as Eby by (rewrite Exy; zlens; lia).
  rewrite slice_app, bind_some by lia. destruct (Z.ltb_spec (zlen b) 255).
  { destruct Hr as [->|]; [by rewrite app_nil_r|lia]. }
  replace (A ++ ([id; zlen b] ++ b ++ fragments frag_id r) ++ R)
    with ((A ++ [id; zlen b] ++ b) ++ fragments frag_id r ++ R) in * by (by appn).
  replace (zlen A + 2 + zlen b) with (zlen (A ++ [id; zlen b] ++ b)) by (zlens; lia).
  rewrite gather_fragments; [done|done|zlens; lia|zlens; lia|]. intros Hlt. apply Hnext. zlens. lia.
Qed.
End Written.

(** ** Properties *)

Lemma slice_stored mem d bs mem' : store mem d bs = Some mem' -> slice mem' d (zlen bs) = Some bs.
Proof. intros (pre & old & post & _ & -> & <- & _)%store_Some. by apply slice_app. Qed.

(** C38: For any element inside the given elements, defragmentation does what
    reading the whole body first and storing it at the destination then would
    do, also when the destination overlaps the element; it reports the body's
    length without a destination, and refuses a destination that is too
    small.  An element that is not inside the elements is refused. *)
Theorem element_defragment_correct mem ies ieslen elem frag_id :
  bytes_ok mem -> 0 <= ies -> ies + ieslen <= zlen mem -> zlen mem < 2 ^ 63 ->
  (element_in mem ies (ies + ieslen) elem ->
   exists bs, body_of mem elem (ies + ieslen) frag_id = Some bs /\
     (forall data_len, cfg80211_defragment_element mem (Some elem) ies ieslen None data_len frag_id
        = Some (zlen bs, mem)) /\
     (forall d data_len, 0 <= d -> 0 <= data_len ->
        d <= elem + 2 \/ ies + ieslen <= d /\ d + data_len <= zlen mem ->
        exists r mem', cfg80211_defragment_element mem (Some elem) ies ieslen (Some d) data_len frag_id
            = Some (r, mem') /\
          if zlen bs <=? data_len then r = zlen bs /\ store mem d bs = Some mem' else r = - ENOSPC)) /\
  (elem < ies \/ ies + ieslen < elem + 2 \/
   (exists datalen, rd8 mem (elem + 1) = Some datalen /\ ies + ieslen < elem + 2 + datalen) ->
   forall data data_len,
     cfg80211_defragment_element mem (Some elem) ies ieslen data data_len frag_id = Some (- EINVAL, mem)).
Proof.
  intros Hok H0 Hend H63. split; [by apply defragment_element_spec|].
  intros Hout data data_len. unfold cfg80211_defragment_element, sizeof_element.
  destruct (Z.ltb_spec elem ies); [done|]. destruct (Z.ltb_spec (ies + ieslen) (elem + 2)); [done|]. cbn [orb].
  destruct Hout as [?|[?|(datalen & -> & ?)]]; [lia..|]. rewrite bind_some.
  by destruct (Z.ltb_spec (ies + ieslen) (elem + 2 + datalen)); [|lia].
Qed.

Definition sample_elements : list Z := [221; 3; 7; 8; 9] ++ fragmented 221 WLAN_EID_FRAGMENT (replicate 300 5).

Lemma element_defragment_correct_witness :
  exists bs, body_of sample_elements 5 (zlen sample_elements) WLAN_EID_FRAGMENT = Some bs /\ zlen bs = 300.
Proof.
  destruct (element_defragment_correct sample_elements 0 (zlen sample_elements) 5 WLAN_EID_FRAGMENT)
    as [H _].
  - apply (bool_decide_unpack _). vm_compute. exact I.
  - discriminate.
  - vm_compute. discriminate.
  - vm_compute. reflexivity.
  - destruct H as (bs & E & _).
    + split; [discriminate|]. split; [vm_compute; discriminate|]. exists 221, 255.
      split; [reflexivity|]. split; [reflexivity|]. split; [vm_compute; discriminate|discriminate].
    + exists bs. split; [exact E|]. vm_compute in E. injection E as <-. reflexivity.
Defined.

(** An element written at the end of a buffer with a body of any length
    and then fragmented is restored by defragmentation in place, whatever
    follows it but one of its own fragments. *)
Theorem element_fragment_roundtrip skb pre post id x body frag_id ieslen :
  data skb = pre ++ id :: x :: body ->
  2 * ((zlen body - 1) / 255) <= skb_tailroom skb -> zlen body < 2 ^ 32 ->
  (id = WLAN_EID_EXTENSION -> body <> []) ->
  exists skb', ieee80211_fragment_element skb (Some (zlen pre + 1)) frag_id = Some skb' /\
    (bytes_ok (data skb' ++ post) ->
     skb_len skb' <= ieslen <= zlen (data skb' ++ post) -> zlen (data skb' ++ post) < 2 ^ 63 ->
     (skb_len skb' < ieslen -> post !! 0%nat <> Some frag_id) ->
     let bs := if id =? WLAN_EID_EXTENSION then drop 1 body else body in
     exists mem', cfg80211_defragment_element (data skb' ++ post) (Some (zlen pre)) 0 ieslen
         (Some (zlen pre + 2)) (zlen bs) frag_id = Some (zlen bs, mem') /\
       slice mem' (zlen pre + 2) (zlen bs) = Some bs).
Proof.
  intros Hd Ht Hb Hext.
  destruct (fragment_element_spec skb (pre ++ [id]) x body frag_id) as (s & E & Ed & _);
    [rewrite Hd; by appn|done|done|].
  replace (zlen (pre ++ [id])) with (zlen pre + 1) in E by (zlens; lia). exists s. split; [done|].
  assert (data s = pre ++ fragmented id frag_id body) as Ed' by (rewrite Ed; by appn).
  unfold skb_len. rewrite Ed', <- !app_assoc. intros Hok Hlen H63 Hnext. cbn zeta.
  set (bs := if id =? WLAN_EID_EXTENSION then drop 1 body else body).
  pose proof (zlen_nonneg pre). zlens. pose proof (zlen_nonneg bs).
  pose proof (written_element_in pre post id frag_id body ieslen) as Hin.
  pose proof (written_body pre post id frag_id body ieslen) as Hbody.
  destruct (defragment_element_spec (pre ++ fragmented id frag_id body ++ post) 0 ieslen (zlen pre) frag_id)
    as (bs' & Eb & _ & Hs); [done|done|zlens; lia|zlens; lia|apply Hin; (done || zlens; lia)|].
  rewrite Z.add_0_l, Hbody in Eb by (done || zlens; lia). injection Eb as <-.
  destruct (Hs (zlen pre + 2) (zlen bs)) as (r & mem' & E1 & Hr); [lia|lia|lia|].
  fold bs in Hr. rewrite Z.leb_refl in Hr. destruct Hr as [-> Em]. exists mem'. split; [done|by eapply slice_stored].
Qed.

Lemma element_fragment_roundtrip_witness :
  exists skb', ieee80211_fragment_element
    (mk_skb [] ([1; 0] ++ 255 :: 0 :: replicate 600 7) (replicate 10 0) false) (Some 3) 242 = Some skb'.
Proof.
  destruct (element_fragment_roundtrip (mk_skb [] ([1; 0] ++ 255 :: 0 :: replicate 600 7) (replicate 10 0) false)
    [1; 0] [] 255 0 (replicate 600 7) 242 608) as (s & H & _).
  - reflexivity.
  - vm_compute. discriminate.
  - vm_compute. reflexivity.
  - discriminate.
  - exists s. exact H.
Defined.
