(* ===== verification/MleDefrag.v ===== *)
(** * MleDefrag: multi-link elements are taken apart again

    [cfg80211_defrag_mle] ([net/wireless/scan.c]) joins the fragments of a
    multi-link element in a buffer it allocates, finds the per-station
    profiles in it and joins the fragments of each in place.  For any received
    octets it stays inside the memory it was given and the memory it
    allocated; and what a sender fragmented twice, profile by profile and then
    as a whole, it returns. *)
From S2P Require Import Prelude Frame Skb Mle Element ElementProofs.

(** ** The multi-link element *)

(** The length computed before allocation is enough. *)
Lemma mle_buf_len_enough fuel mem ies end_ : forall elem acc,
  bytes_ok mem -> 0 <= ies <= elem -> end_ <= zlen mem -> Z.max 0 (end_ - elem) < Z.of_nat fuel ->
  exists n bs, mle_buf_len fuel mem elem end_ acc = Some n /\
    gather fuel mem elem end_ WLAN_EID_FRAGMENT = Some bs /\ acc + zlen bs <= n <= acc + Z.max 0 (end_ - elem).
Proof.
  induction fuel as [|fuel IH]; intros elem acc Hok Hi Hend Hf; [lia|].
  cbn [mle_buf_len gather]. unfold element_at, sizeof_element.
  destruct (Z.ltb_spec (end_ - elem) 2).
  { rewrite bind_some. destruct (Z.ltb_spec (elem + 2) end_); cbn [negb]; [lia|].
    exists acc, []. rewrite zlen_nil. split; [done|]. split; [done|lia]. }
  destruct (rd8_Some mem (elem + 1)) as [datalen Ed]; [lia|]. rewrite Ed, !bind_some.
  pose proof (rd8_ok _ _ _ Hok Ed) as Hd. unfold is_uint in Hd.
  destruct (Z.ltb_spec (end_ - elem) (2 + datalen)).
  { destruct (Z.leb_spec (elem + 2 + datalen) end_); [lia|]. cbn [negb].
    exists acc, []. split; [done|]. rewrite zlen_nil. split; [by destruct (negb _)|lia]. }
  destruct (Z.leb_spec (elem + 2 + datalen) end_); [|lia]. cbn [negb].
  destruct (rd8_Some mem elem) as [id ->]; [lia|]. rewrite !bind_some.
  destruct (id =? WLAN_EID_FRAGMENT); cbn [negb].
  2: { exists acc, []. rewrite zlen_nil. split; [done|]. split; [by destruct (negb _)|lia]. }
  destruct (IH (elem + 2 + datalen) (acc + datalen)) as (n & bs & En & Eb & Hn); [done|lia|done|lia|].
  rewrite En, Eb. destruct (slice_is_Some mem (elem + 2) datalen) as (part & Es & Hp); [lia..|].
  rewrite Es, !bind_some. exists n. pose proof (zlen_nonneg bs).
  destruct (negb (elem + 2 <? end_)); [exists []|destruct (negb (datalen =? 255)); [exists part|exists (part ++ bs)]];
    (split; [done|]; split; [done|]; zlens; lia).
Qed.

Lemma gather_len fuel mem : forall elem end_ frag_id bs,
  gather fuel mem elem end_ frag_id = Some bs -> zlen bs <= Z.max 0 (end_ - elem - 2).
Proof.
  induction fuel as [|fuel IH]; intros elem end_ frag_id bs; cbn [gather]; [done|].
  destruct (Z.ltb_spec (elem + 2) end_); cbn [negb]; [|intros [= <-]; rewrite zlen_nil; lia].
  destruct (rd8 mem (elem + 1)) as [datalen|]; [|done]. rewrite bind_some.
  destruct (Z.leb_spec (elem + 2 + datalen) end_); cbn [negb]; [|intros [= <-]; rewrite zlen_nil; lia].
  destruct (rd8 mem elem) as [id|]; [|done]. rewrite bind_some.
  destruct (negb (id =? frag_id)); [intros [= <-]; rewrite zlen_nil; lia|].
  destruct (slice mem (elem + 2) datalen) as [part|] eqn:Es; [|done]. rewrite bind_some.
  apply slice_Some in Es as (_ & _ & _ & _ & Hp).
  destruct (negb (datalen =? 255)); [intros [= <-]; lia|].
  destruct (gather fuel mem (elem + 2 + datalen) end_ frag_id) as [rest|] eqn:Eg; [|done].
  rewrite bind_some. intros [= <-]. apply IH in Eg. zlens. pose proof (zlen_nonneg part). lia.
Qed.

Lemma body_of_len mem ies end_ elem frag_id bs :
  bytes_ok mem -> 0 <= ies -> end_ <= zlen mem -> element_in mem ies end_ elem ->
  body_of mem elem end_ frag_id = Some bs -> zlen bs <= end_ - elem - 2.
Proof.
  intros Hok H0 Hend Hin Hb.
  destruct (body_of_inv mem ies end_ elem frag_id Hok H0 Hend Hin)
    as (id & datalen & ext & part & rest & _ & _ & Hd & Hfit & Hext & He & _ & Hp & Eb & Hr).
  assert (0 <= ext) by (subst ext; destruct (id =? _); lia).
  rewrite Eb in Hb. injection Hb as <-. zlens.
  destruct (datalen <? 255); [subst rest; rewrite zlen_nil; lia|].
  apply gather_len in Hr. lia.
Qed.

(** [body_of] only looks at its element's range. *)
Lemma slice_agree_in a b off n :
  0 <= off -> 0 <= n -> off + n <= zlen a -> off + n <= zlen b ->
  (forall i, off <= i < off + n -> rd8 a i = rd8 b i) -> slice a off n = slice b off n.
Proof.
  intros ? ? ? ? Ha. unfold slice, in_range. repeat (zcase; try lia). cbn [andb].
  f_equal. apply list_eq. intros k. destruct (decide (k < Z.to_nat n)%nat).
  - rewrite !lookup_take_lt, !lookup_drop by done.
    specialize (Ha (off + Z.of_nat k)). rewrite !rd8_lookup in Ha by lia.
    replace (Z.to_nat off + k)%nat with (Z.to_nat (off + Z.of_nat k)) by lia. apply Ha. lia.
  - rewrite !lookup_take_ge by lia. done.
Qed.

Section Agree.
Variables (m1 m2 : list Z) (end_ frag_id : Z).
Hypothesis Hok : bytes_ok m1.
Hypothesis H1 : end_ <= zlen m1.
Hypothesis H2 : end_ <= zlen m2.

Lemma gather_agree fuel : forall elem,
  0 <= elem -> (forall i, elem <= i < end_ -> rd8 m1 i = rd8 m2 i) ->
  gather fuel m1 elem end_ frag_id = gather fuel m2 elem end_ frag_id.
Proof.
  induction fuel as [|fuel IH]; intros elem H0 Ha; cbn [gather]; [done|].
  destruct (Z.ltb_spec (elem + 2) end_); cbn [negb]; [|done].
  rewrite <- (Ha (elem + 1)), <- (Ha elem) by lia.
  destruct (rd8 m1 (elem + 1)) as [datalen|] eqn:Ed; [|done]. rewrite !bind_some.
  pose proof (rd8_ok _ _ _ Hok Ed) as [Hd _].
  destruct (Z.leb_spec (elem + 2 + datalen) end_); cbn [negb]; [|done].
  destruct (rd8 m1 elem) as [id|]; [|done]. rewrite !bind_some. destruct (negb (id =? frag_id)); [done|].
  rewrite (slice_agree_in m1 m2) by (lia || (intros; apply Ha; lia)).
  destruct (slice m2 (elem + 2) datalen) as [part|]; [|done]. rewrite !bind_some.
  destruct (negb (datalen =? 255)); [done|]. rewrite (IH (elem + 2 + datalen)); [done|lia|].
  intros i Hi. apply Ha. lia.
Qed.

Lemma body_of_agree ies elem :
  0 <= ies -> element_in m1 ies end_ elem -> (forall i, elem <= i < end_ -> rd8 m1 i = rd8 m2 i) ->
  body_of m1 elem end_ frag_id = body_of m2 elem end_ frag_id.
Proof.
  intros H0 Hin Ha. destruct (body_of_inv m1 ies end_ elem frag_id Hok H0 H1 Hin)
    as (id & datalen & ext & part & rest & Eid & Ed & Hd & Hfit & Hext & He & Es & Hp & _ & _).
  destruct Hin as (Hi & _). assert (0 <= ext) by (subst ext; destruct (id =? _); lia).
  unfold body_of. rewrite <- (Ha elem), <- (Ha (elem + 1)), Eid, !bind_some, Ed, !bind_some by lia.
  rewrite <- Hext, (slice_agree_in m1 m2) by (lia || (intros; apply Ha; lia)).
  destruct (slice m2 _ _); [|done]. rewrite !bind_some. destruct (datalen <? 255); [done|].
  rewrite gather_agree; [done|lia|]. intros; apply Ha; lia.
Qed.
End Agree.

(** Profiles found in the sub-elements up to [end_]: their headers are in
    memory and each ends before the next one. *)
Definition profs_stop (end_ : Z) (profs : list (Z * Z)) : Z :=
  match profs with (p, _) :: _ => p - 2 | [] => end_ end.

Fixpoint chain (mem : list Z) (end_ : Z) (profs : list (Z * Z)) : Prop :=
  match profs with
  | [] => True
  | (p, len) :: profs =>
      2 <= p /\ rd8 mem (p - 2) = Some IEEE80211_MLE_SUBELEM_PER_STA_PROFILE /\ rd8 mem (p - 1) = Some len /\
      p + len <= profs_stop end_ profs /\ profs_stop end_ profs <= end_ /\ chain mem end_ profs
  end.

Lemma chain_agree m1 m2 end_ profs :
  (forall i, profs_stop end_ profs <= i < end_ -> rd8 m1 i = rd8 m2 i) ->
  bytes_ok m1 -> chain m1 end_ profs -> chain m2 end_ profs.
Proof.
  induction profs as [|[p len] profs IH]; [done|]. cbn [chain profs_stop]. intros Ha Hok (H1 & H2 & H3 & H4 & H5 & H6).
  pose proof (rd8_ok _ _ _ Hok H3) as [? _].
  rewrite <- !Ha by lia. split_and!; try done. apply IH; [|done..]. intros i Hi. apply Ha. lia.
Qed.

Lemma chain_element mem end_ p len profs :
  bytes_ok mem -> chain mem end_ ((p, len) :: profs) ->
  element_in mem (p - 2) (profs_stop end_ profs) (p - 2) /\ 0 <= len <= 255.
Proof.
  intros Hok (H1 & H2 & H3 & H4 & H5 & _). pose proof (rd8_ok _ _ _ Hok H3) as Hl. unfold is_uint in Hl.
  split; [|lia]. split; [lia|]. split; [lia|].
  exists IEEE80211_MLE_SUBELEM_PER_STA_PROFILE, len. replace (p - 2 + 1) with (p - 1) by lia.
  split_and!; (done || lia).
Qed.

(** The bodies of the profiles, read before anything is moved. *)
Fixpoint bodies (mem : list Z) (end_ : Z) (profs : list (Z * Z)) : option (list (list Z)) :=
  match profs with
  | [] => Some []
  | (p, _) :: profs =>
      b ← body_of mem (p - 2) (profs_stop end_ profs) IEEE80211_MLE_SUBELEM_FRAGMENT;
      bs ← bodies mem end_ profs; Some (b :: bs)
  end.

Lemma bodies_agree m1 m2 end_ profs :
  bytes_ok m1 -> end_ <= zlen m1 -> end_ <= zlen m2 -> chain m1 end_ profs ->
  (forall i, profs_stop end_ profs <= i < end_ -> rd8 m1 i = rd8 m2 i) ->
  bodies m1 end_ profs = bodies m2 end_ profs.
Proof.
  intros Hok H1 H2. induction profs as [|[p len] profs IH]; [done|]. intros Hc Ha.
  destruct (chain_element m1 end_ p len profs Hok Hc) as [Hin Hl].
  destruct Hc as (C1 & C2 & C3 & C4 & C5 & Hc). cbn [bodies profs_stop] in *.
  rewrite (body_of_agree m1 m2 _ _ Hok) with (ies := p - 2); [|lia|lia|lia|done|intros; apply Ha; lia].
  rewrite IH; [done|done|]. intros; apply Ha; lia.
Qed.

Lemma gather_bytes_ok fuel mem : forall elem end_ frag_id bs,
  bytes_ok mem -> gather fuel mem elem end_ frag_id = Some bs -> bytes_ok bs.
Proof.
  induction fuel as [|fuel IH]; intros elem end_ frag_id bs Hok; cbn [gather]; [done|].
  destruct (negb (elem + 2 <? end_)); [intros [= <-]; constructor|].
  destruct (rd8 mem (elem + 1)) as [datalen|]; [|done]. rewrite bind_some.
  destruct (negb (elem + 2 + datalen <=? end_)); [intros [= <-]; constructor|].
  destruct (rd8 mem elem) as [id|]; [|done]. rewrite bind_some.
  destruct (negb (id =? frag_id)); [intros [= <-]; constructor|].
  destruct (slice mem (elem + 2) datalen) as [part|] eqn:Es; [|done]. rewrite bind_some.
  apply slice_bytes_ok in Es; [|done].
  destruct (negb (datalen =? 255)); [by intros [= <-]|].
  destruct (gather fuel mem _ _ _) as [rest|] eqn:Eg; [|done]. rewrite bind_some. intros [= <-].
  apply Forall_app. split; [done|by eapply IH].
Qed.

Lemma body_of_bytes_ok mem elem end_ frag_id bs :
  bytes_ok mem -> body_of mem elem end_ frag_id = Some bs -> bytes_ok bs.
Proof.
  intros Hok. unfold body_of. destruct (rd8 mem elem) as [id|]; [|done]. rewrite bind_some.
  destruct (rd8 mem (elem + 1)) as [datalen|]; [|done]. rewrite bind_some.
  destruct (slice mem _ _) as [part|] eqn:Es; [|done]. rewrite bind_some. apply slice_bytes_ok in Es; [|done].
  destruct (datalen <? 255); [by intros [= <-]|].
  destruct (gather _ mem _ _ _) as [rest|] eqn:Eg; [|done]. rewrite bind_some. intros [= <-].
  apply Forall_app. split; [done|exact (gather_bytes_ok _ _ _ _ _ _ Hok Eg)].
Qed.

(** A short profile is its own body. *)
Lemma body_of_short mem p len stop bs :
  rd8 mem (p - 2) = Some IEEE80211_MLE_SUBELEM_PER_STA_PROFILE -> rd8 mem (p - 1) = Some len -> len < 255 ->
  body_of mem (p - 2) stop IEEE80211_MLE_SUBELEM_FRAGMENT = Some bs -> slice mem p len = Some bs.
Proof.
  intros H1 H2 Hl. unfold body_of. rewrite H1, bind_some. replace (p - 2 + 1) with (p - 1) by lia.
  rewrite H2, bind_some. change (IEEE80211_MLE_SUBELEM_PER_STA_PROFILE =? WLAN_EID_EXTENSION) with false. cbv iota.
  replace (p - 2 + 2 + 0) with p by lia. rewrite Z.sub_0_r.
  destruct (slice mem p len) as [part|]; [|done]. rewrite bind_some. destruct (Z.ltb_spec len 255); [done|lia].
Qed.

Lemma defrag_profiles_spec end_ profs : forall mem,
  bytes_ok mem -> end_ <= zlen mem -> zlen mem < 2 ^ 63 -> chain mem end_ profs ->
  exists out mem' bss, defrag_profiles mem end_ profs = Some (Some out, mem') /\
    zlen mem' = zlen mem /\ bytes_ok mem' /\
    (forall i, i < profs_stop end_ profs \/ end_ <= i -> rd8 mem' i = rd8 mem i) /\
    bodies mem end_ profs = Some bss /\ map fst out = map fst profs /\
    Forall2 (fun o bs => slice mem' (fst o) (snd o) = Some bs) out bss.
Proof.
  induction profs as [|[p len] profs IH]; intros mem Hok Hend H63 Hc.
  { exists [], mem, []. cbn. split_and!; done || constructor. }
  destruct (chain_element mem end_ p len profs Hok Hc) as [Hin Hl].
  destruct Hc as (C1 & C2 & C3 & C4 & C5 & Hc). cbn [defrag_profiles profs_stop bodies].
  set (stop := profs_stop end_ profs) in *.
  assert (exists bs mem1, body_of mem (p - 2) stop IEEE80211_MLE_SUBELEM_FRAGMENT = Some bs /\
    p + zlen bs <= stop /\ slice mem1 p (zlen bs) = Some bs /\
    zlen mem1 = zlen mem /\ bytes_ok mem1 /\
    (forall i, i < p \/ stop <= i -> rd8 mem1 i = rd8 mem i) /\
    (if len <? 255 then Some (len, mem)
     else cfg80211_defragment_element mem (Some (p - 2)) (p - 2)
            match profs with [] => end_ - (p - 2) | (prof', _) :: _ => prof' - p end (Some p)
            match profs with [] => end_ - (p - 2) | (prof', _) :: _ => prof' - p end
            IEEE80211_MLE_SUBELEM_FRAGMENT) = Some (zlen bs, mem1)) as (bs & m1 & Eb & Hfit & Esl & Hl1 & Hok1 & Ha & Ecode).
  { destruct (defragment_element_spec mem (p - 2) (stop - (p - 2)) (p - 2) IEEE80211_MLE_SUBELEM_FRAGMENT)
      as (bs & Eb & _ & Hs); [done|lia|lia|done|by replace (p - 2 + (stop - (p - 2))) with stop by lia|].
    replace (p - 2 + (stop - (p - 2))) with stop in * by lia.
    pose proof (body_of_len mem (p - 2) stop (p - 2) _ bs Hok ltac:(lia) ltac:(lia) Hin Eb) as Hlen.
    pose proof (zlen_nonneg bs). exists bs. destruct (Z.ltb_spec len 255).
    - pose proof (body_of_short mem p len stop bs C2 C3 H0 Eb) as Es.
      pose proof Es as (_ & _ & _ & _ & Hbl)%slice_Some. exists mem. rewrite Hbl. split_and!; (done || lia).
    - destruct (Hs p (stop - (p - 2))) as (r & m1 & E1 & Hr); [lia..|].
      destruct (Z.leb_spec (zlen bs) (stop - (p - 2))); [|lia]. destruct Hr as [-> Em].
      exists m1. split; [done|]. split; [lia|]. split; [by eapply slice_stored|].
      split; [by eapply store_zlen|]. split; [eapply store_bytes_ok; [done| |done]|].
      { by eapply body_of_bytes_ok. }
      split; [intros i Hi; eapply rd8_store_disjoint; [done|lia]|].
      rewrite <- E1. unfold stop. destruct profs as [|[p' len'] profs]; [done|]. cbn [profs_stop].
      by replace (p' - 2 - (p - 2)) with (p' - p) by lia. }
  rewrite Ecode, bind_some. pose proof (zlen_nonneg bs). destruct (Z.ltb_spec (zlen bs) 0); [lia|].
  destruct (IH m1) as (out & m2 & bss & E2 & Hl2 & Hok2 & Ha2 & Eb2 & Hm & Hf); [done|lia|lia|..].
  { apply (chain_agree mem); [|done..]. intros i Hi. symmetry. apply Ha. unfold stop. lia. }
  rewrite E2, bind_some, Eb, bind_some.
  rewrite (bodies_agree mem m1), Eb2, bind_some; [|done|lia|lia|done|intros i Hi; symmetry; apply Ha; unfold stop; lia].
  exists ((p, zlen bs) :: out), m2, (bs :: bss). split_and!; [done|lia|done| |done|cbn; by rewrite Hm|].
  - intros i Hi. rewrite Ha2 by (fold stop; lia). apply Ha. lia.
  - constructor; [|done]. cbn [fst snd]. rewrite <- Esl. apply slice_agree; [lia|].
    intros i Hi. apply Ha2. fold stop. lia.
Qed.

(** What [for_each_element] finds at [elem]. *)
Lemma element_at_spec mem elem end_ :
  bytes_ok mem -> 0 <= elem -> end_ <= zlen mem ->
  element_at mem elem end_ = Some None \/
  exists datalen id, element_at mem elem end_ = Some (Some datalen) /\ rd8 mem elem = Some id /\
    rd8 mem (elem + 1) = Some datalen /\ 0 <= datalen <= 255 /\ elem + 2 + datalen <= end_.
Proof.
  intros Hok H0 Hend. unfold element_at, sizeof_element. destruct (Z.ltb_spec (end_ - elem) 2); [by left|].
  destruct (rd8_Some mem (elem + 1)) as [datalen Ed]; [lia|]. rewrite Ed, bind_some.
  pose proof (rd8_ok _ _ _ Hok Ed) as Hd. unfold is_uint in Hd.
  destruct (Z.ltb_spec (end_ - elem) (2 + datalen)); [by left|right].
  destruct (rd8_Some mem elem) as [id Ei]; [lia|]. exists datalen, id. split_and!; (done || lia).
Qed.

Lemma find_profiles_spec fuel mem end_ : forall elem acc,
  bytes_ok mem -> 0 <= elem <= end_ -> end_ <= zlen mem -> end_ - elem < Z.of_nat fuel ->
  exists stop found, find_profiles fuel mem elem end_ acc = Some (stop, rev found ++ acc) /\
    chain mem end_ found /\ elem <= profs_stop end_ found <= end_.
Proof.
  induction fuel as [|fuel IH]; intros elem acc Hok He Hend Hf; [lia|]. cbn [find_profiles].
  destruct (element_at_spec mem elem end_ Hok ltac:(lia) Hend)
    as [->|(datalen & id & -> & Ei & Ed & Hd & Hfit)]; rewrite bind_some.
  { exists elem, []. cbn. split_and!; (done || lia). }
  rewrite Ei, bind_some. unfold sizeof_element.
  destruct (Z.eqb_spec id IEEE80211_MLE_SUBELEM_PER_STA_PROFILE) as [->|].
  - assert (forall found, chain mem end_ found -> elem + 2 + datalen <= profs_stop end_ found <= end_ ->
      chain mem end_ ((elem + 2, datalen) :: found)) as Hcons.
    { intros found Hc Hs. cbn [chain]. replace (elem + 2 - 2) with elem by lia.
      replace (elem + 2 - 1) with (elem + 1) by lia. split_and!; (done || lia). }
    destruct (_ <=? _).
    + exists elem, [(elem + 2, datalen)]. split; [done|]. split; [apply Hcons; [done|cbn; lia]|].
      cbn [profs_stop]. lia.
    + destruct (IH (elem + 2 + datalen) ((elem + 2, datalen) :: acc)) as (stop & found & E & Hc & Hs); [done|lia|lia|lia|].
      exists stop, ((elem + 2, datalen) :: found). rewrite E. split; [|split; [by apply Hcons|cbn [profs_stop]; lia]].
      cbn [rev]. by rewrite <- app_assoc.
  - destruct (IH (elem + 2 + datalen) acc) as (stop & found & E & Hc & Hs); [done|lia|lia|lia|].
    exists stop, found. split_and!; (done || lia).
Qed.

(** The common size of an element whose first part passed the size check. *)
Lemma mle_common_size_ok m1 p1 len m2 p2 :
  bytes_ok m1 -> 0 <= p1 -> ieee80211_mle_size_ok m1 p1 len = Some true ->
  (forall i, 0 <= i < len -> rd8 m2 (p2 + i) = rd8 m1 (p1 + i)) ->
  exists c, ieee80211_mle_common_size m2 p2 = Some c /\ 0 <= c <= len.
Proof.
  intros Hok Hp Hs Ha. unfold ieee80211_mle_size_ok, sizeof_multi_link_elem in Hs.
  destruct (Z.ltb_spec len 2); [done|].
  destruct (rd_le16 m1 p1) as [control|] eqn:Ec; [|done]. rewrite bind_some in Hs.
  unfold ieee80211_mle_common_size, sizeof_multi_link_elem.
  assert (rd_le16 m2 p2 = Some control) as ->.
  { unfold rd_le16 in *. pose proof (Ha 0 ltac:(lia)) as H0. rewrite !Z.add_0_r in H0. by rewrite H0, Ha by lia. }
  rewrite bind_some.
  destruct (Z.leb_spec (control .& IEEE80211_ML_CONTROL_TYPE) IEEE80211_ML_CONTROL_TYPE_PRIO_ACCESS).
  2: { exists 0. split; [done|lia]. }
  destruct (mle_common control) as [common|] eqn:Em.
  - apply mle_common_pos in Em. destruct (Z.ltb_spec len (2 + common)); [done|].
    destruct (rd8 m1 (p1 + 2)) as [l|] eqn:El; [|done]. rewrite bind_some in Hs.
    injection Hs as [Hc1%Z.leb_le Hc2%Z.leb_le]%andb_prop.
    rewrite Ha, El, bind_some by lia. eexists. split; [done|]. apply rd8_ok in El as [? _]; [|done].
    pose proof (wrap_range 8 (2 + l) ltac:(lia)). pose proof (Z.mod_le (2 + l) (2 ^ 8) ltac:(lia) ltac:(done)).
    unfold wrap in *. lia.
  - exfalso. unfold mle_common in Em.
    assert (0 <= control .& IEEE80211_ML_CONTROL_TYPE) by (apply land_le; done).
    unfold IEEE80211_ML_CONTROL_TYPE_PRIO_ACCESS, IEEE80211_ML_CONTROL_TYPE_BASIC, IEEE80211_ML_CONTROL_TYPE_PREQ,
      IEEE80211_ML_CONTROL_TYPE_RECONF, IEEE80211_ML_CONTROL_TYPE_TDLS in *.
    repeat (match goal with H : context [?a =? ?b] |- _ => destruct (Z.eqb_spec a b); [done|] end). lia.
Qed.

(** The first defragmentation: the length needed is allocated, and the memory
    then ends with the body. *)
Section Defrag.
Variables (mem : list Z) (elem ie ielen : Z).
Hypothesis Hok : bytes_ok mem.
Hypothesis Hie : 0 <= ie.
Hypothesis Hend : ie + ielen <= zlen mem.
Hypothesis H63 : zlen mem + ielen < 2 ^ 63.
Hypothesis Hin : element_in mem ie (ie + ielen) elem.
Hypothesis Hid : rd8 mem elem = Some WLAN_EID_EXTENSION.

Lemma defrag_first : exists datalen n bs,
  rd8 mem (elem + 1) = Some datalen /\ 1 <= datalen <= 255 /\ elem + 2 + datalen <= ie + ielen /\
  mle_buf_len (S (Z.to_nat ielen)) mem (elem + 2 + datalen) (ie + ielen) (datalen - 1) = Some n /\
  body_of mem elem (ie + ielen) WLAN_EID_FRAGMENT = Some bs /\
  datalen - 1 <= zlen bs <= n /\ n <= ielen /\
  (forall i, 0 <= i < datalen - 1 -> rd8 bs i = rd8 mem (elem + 3 + i)) /\
  exists mem2, cfg80211_defragment_element (mem ++ replicate (Z.to_nat n) 0) (Some elem) ie ielen
      (Some (zlen mem)) n WLAN_EID_FRAGMENT = Some (zlen bs, mem2) /\
    zlen mem2 = zlen mem + n /\ bytes_ok mem2 /\
    (forall i, i < zlen mem -> rd8 mem2 i = rd8 mem i) /\
    (forall i, 0 <= i < zlen bs -> rd8 mem2 (zlen mem + i) = rd8 bs i) /\
    slice mem2 (zlen mem) (zlen bs) = Some bs.
Proof.
  destruct (body_of_inv mem ie (ie + ielen) elem WLAN_EID_FRAGMENT Hok Hie Hend Hin)
    as (id & datalen & ext & part & rest & Eid & Ed & Hd & Hfit & Hext & He & Es & Hp & Eb & Hr).
  assert (ext = 1) as ->. { rewrite Hext. rewrite Hid in Eid. by simplify_eq. }
  pose proof Hin as (Hi & _).
  destruct (mle_buf_len_enough (S (Z.to_nat ielen)) mem ie (ie + ielen) (elem + 2 + datalen) (datalen - 1))
    as (n & bs & En & Eg & Hn); [done|lia|done|lia|].
  assert (zlen rest <= zlen bs) as Hrest.
  { pose proof (zlen_nonneg bs). destruct (datalen <? 255); [subst rest; done|].
    rewrite (gather_fuel mem (ie + ielen) WLAN_EID_FRAGMENT Hok _ (S (Z.to_nat ielen))) in Hr by lia.
    rewrite Hr in Eg. by simplify_eq. }
  pose proof (zlen_nonneg rest).
  set (mem1 := mem ++ replicate (Z.to_nat n) 0).
  assert (zlen mem1 = zlen mem + n) as Hl1.
  { unfold mem1. zlens. unfold zlen at 2. rewrite length_replicate. lia. }
  assert (bytes_ok mem1) as Hok1 by (apply Forall_app; split; [done|by apply Forall_replicate]).
  assert (forall i, i < zlen mem -> rd8 mem1 i = rd8 mem i) as Ha by (intros; by apply rd8_app_l).
  assert (element_in mem1 ie (ie + ielen) elem) as Hin1.
  { destruct Hin as (I1 & I2 & id' & dl' & I3 & I4 & I5 & I6). split; [done|]. split; [done|].
    exists id', dl'. rewrite !Ha by lia. done. }
  destruct (defragment_element_spec mem1 ie ielen elem WLAN_EID_FRAGMENT) as (body & Eb1 & _ & Hs);
    [done|done|lia|lia|done|].
  rewrite <- (body_of_agree mem mem1 (ie + ielen) WLAN_EID_FRAGMENT Hok Hend ltac:(lia) ie elem Hie Hin) in Eb1
    by (intros; symmetry; apply Ha; lia).
  rewrite Eb in Eb1. injection Eb1 as <-.
  destruct (Hs (zlen mem) n) as (r & mem2 & E2 & Hr2); [apply zlen_nonneg|lia|lia|].
  zlens. destruct (Z.leb_spec (zlen part + zlen rest) n); [|lia]. destruct Hr2 as [-> Em].
  exists datalen, n, (part ++ rest). zlens. do 3 (split; [done || lia|]). split; [done|]. split; [done|].
  split; [lia|]. split; [lia|]. split.
  { intros i Hi'. rewrite rd8_app_l by lia.
    destruct (slice_Some _ _ _ _ Es) as (pre & post & -> & Hpre & _).
    replace (elem + 3 + i) with (zlen pre + i) by lia. rewrite rd8_app_r, rd8_app_l by lia. done. }
  exists mem2. split; [exact E2|]. split; [by rewrite (store_zlen _ _ _ _ Em)|].
  assert (bytes_ok mem2) as Hok2.
  { eapply store_bytes_ok; [exact Hok1| |exact Em]. exact (body_of_bytes_ok _ _ _ _ _ Hok Eb). }
  split; [done|].
  split; [intros i Hi'; rewrite (rd8_store_disjoint _ _ _ _ _ Em), Ha by lia; done|].
  pose proof (slice_stored _ _ _ _ Em) as Esl. zlens. split; [|done].
  intros i Hi'. destruct (store_Some _ _ _ _ Em) as (pre & old & post & _ & -> & Hpre & _).
  rewrite <- Hpre, rd8_app_r, rd8_app_l by (zlens; lia). done.
Qed.

End Defrag.

Lemma chain_ge mem end_ profs :
  bytes_ok mem -> chain mem end_ profs -> Forall (fun p => profs_stop end_ profs <= p - 2) (map fst profs).
Proof.
  intros Hok. induction profs as [|[p len] profs IH]; [constructor|]. intros (H1 & H2 & H3 & H4 & H5 & H6).
  pose proof (rd8_ok _ _ _ Hok H3) as [? _]. cbn [profs_stop map fst]. constructor; [lia|].
  eapply Forall_impl; [by apply IH|]. cbn beta. lia.
Qed.

Lemma defrag_mle_spec alloc mem elem ie ielen :
  bytes_ok mem -> 0 <= ie -> ie + ielen <= zlen mem -> zlen mem + ielen < 2 ^ 63 ->
  element_in mem ie (ie + ielen) elem -> rd8 mem elem = Some WLAN_EID_EXTENSION ->
  exists r mem', cfg80211_defrag_mle alloc mem (Some elem) ie ielen = Some (r, mem') /\
    (forall i, i < zlen mem -> rd8 mem' i = rd8 mem i) /\
    match r with
    | None => True
    | Some m => mle m = zlen mem /\
        Forall (fun '(p, len) => zlen mem + 2 <= p /\ 0 <= len /\ p + len <= zlen mem') (sta_prof m)
    end.
Proof.
  intros Hok Hie Hend H63 Hin Hid.
  destruct (defrag_first mem elem ie ielen Hok Hie Hend H63 Hin Hid)
    as (datalen & n & bs & Ed & Hd & Hfit & En & Eb & Hbs & Hn & Hpre & mem2 & E2 & Hl2 & Hok2 & Ha2 & Hb2 & Hs2).
  pose proof Hin as (Hi & _). unfold cfg80211_defrag_mle, sizeof_element. rewrite Ed, bind_some.
  rewrite (wrap_small 64) by (unfold is_uint; lia).
  destruct (mle_size_ok_safe mem (elem + 2 + 1) (datalen - 1)) as [ok Eok]; [lia..|].
  rewrite Eok, bind_some. destruct ok; cbn [negb]; [|eexists _, _; done]. rewrite En, bind_some.
  destruct alloc; cbn [negb]; [|eexists _, _; done]. rewrite E2, bind_some.
  pose proof (zlen_nonneg bs). destruct (Z.ltb_spec (zlen bs) 0); [lia|].
  destruct (mle_common_size_ok mem (elem + 2 + 1) (datalen - 1) mem2 (zlen mem) Hok) as (c & Ec & Hc);
    [lia|done|intros i Hi'; rewrite Hb2, Hpre by lia; f_equal; lia|].
  rewrite Ec, bind_some, (wrap_small 64) by (unfold is_uint; pose proof (zlen_nonneg mem); lia).
  set (end_ := zlen mem + c + (zlen bs - c)). pose proof (zlen_nonneg mem).
  destruct (find_profiles_spec (S (Z.to_nat (zlen bs - c))) mem2 end_ (zlen mem + c) [])
    as (stop & found & E3 & Hch & Hst); [done|unfold end_; lia..|].
  rewrite E3, bind_some, app_nil_r, rev_involutive.
  destruct (negb (stop =? end_)); [eexists _, _; done|].
  destruct (defrag_profiles_spec end_ found mem2) as (out & mem3 & bss & E4 & Hl4 & Hok4 & Ha4 & _ & Hm & Hf);
    [done|unfold end_; lia|lia|done|].
  rewrite E4, bind_some. eexists _, _. split; [done|]. split.
  { intros i Hi'. rewrite Ha4, Ha2 by lia. done. }
  split; [done|]. cbn [sta_prof]. pose proof (chain_ge mem2 end_ found Hok2 Hch) as Hge. rewrite <- Hm in Hge.
  clear Hm E4. induction Hf as [|[p l] b out bss Hsl Hf IH]; [constructor|]. inversion_clear Hge.
  constructor; [|by apply IH]. cbn [fst snd] in *.
  apply slice_Some in Hsl as (x & y & E & Hx & Hl). assert (zlen mem3 = zlen (x ++ b ++ y)) as E' by (by rewrite E).
  zlens. pose proof (zlen_nonneg b). pose proof (zlen_nonneg y). lia.
Qed.

(** ** Round trip *)

Lemma find_profiles_fuel n m mem end_ : forall elem acc,
  bytes_ok mem -> 0 <= elem -> end_ <= zlen mem ->
  Z.max 0 (end_ - elem) < Z.of_nat n -> Z.max 0 (end_ - elem) < Z.of_nat m ->
  find_profiles n mem elem end_ acc = find_profiles m mem elem end_ acc.
Proof.
  revert m. induction n as [|n IH]; intros m elem acc Hok H0 Hend Hn Hm; [lia|]. destruct m as [|m]; [lia|].
  cbn [find_profiles]. destruct (element_at_spec mem elem end_ Hok H0 Hend)
    as [->|(datalen & id & -> & Ei & Ed & Hd & Hfit)]; rewrite !bind_some; [done|].
  rewrite Ei, !bind_some. unfold sizeof_element. destruct (id =? _).
  - destruct (_ <=? _); [done|]. apply IH; (done || lia).
  - apply IH; (done || lia).
Qed.

(** One written element at the current position. *)
Lemma element_at_written A id b R end_ :
  zlen A + 2 + zlen b <= end_ ->
  element_at (A ++ [id; zlen b] ++ b ++ R) (zlen A) end_ = Some (Some (zlen b)) /\
  rd8 (A ++ [id; zlen b] ++ b ++ R) (zlen A) = Some id.
Proof.
  intros Hend. pose proof (zlen_nonneg b). unfold element_at, sizeof_element.
  destruct (Z.ltb_spec (end_ - zlen A) 2); [lia|]. rewrite rd8_app_r by lia.
  change (rd8 _ 1) with (Some (zlen b)). rewrite bind_some.
  destruct (Z.ltb_spec (end_ - zlen A) (2 + zlen b)); [lia|]. split; [done|apply rd8_here].
Qed.

(** The search passes over fragment elements. *)
Lemma find_profiles_skip r : forall n A R end_ acc,
  bytes_ok (A ++ fragments IEEE80211_MLE_SUBELEM_FRAGMENT r ++ R) ->
  zlen A + zlen (fragments IEEE80211_MLE_SUBELEM_FRAGMENT r) <= end_ <=
    zlen (A ++ fragments IEEE80211_MLE_SUBELEM_FRAGMENT r ++ R) ->
  end_ - zlen A < Z.of_nat n ->
  find_profiles n (A ++ fragments IEEE80211_MLE_SUBELEM_FRAGMENT r ++ R) (zlen A) end_ acc =
  find_profiles n (A ++ fragments IEEE80211_MLE_SUBELEM_FRAGMENT r ++ R)
    (zlen A + zlen (fragments IEEE80211_MLE_SUBELEM_FRAGMENT r)) end_ acc.
Proof.
  remember (length r) as k eqn:Hk. revert r Hk.
  induction k as [k IH] using (well_founded_induction lt_wf). intros r -> n A R end_ acc Hok Hend Hn.
  pose proof (zlen_nonneg A). pose proof (zlen_nonneg (fragments IEEE80211_MLE_SUBELEM_FRAGMENT r)).
  destruct (decide (r = [])) as [->|Hne]; [cbn [fragments]; by rewrite zlen_nil, Z.add_0_r|].
  destruct (first_part r) as (b & r' & -> & Hb & Hr & Hb0). specialize (Hb0 Hne).
  assert (fragments IEEE80211_MLE_SUBELEM_FRAGMENT (b ++ r') =
    [IEEE80211_MLE_SUBELEM_FRAGMENT; zlen b] ++ b ++ fragments IEEE80211_MLE_SUBELEM_FRAGMENT r') as Ef.
  { rewrite <- fragmented_parts by done. by destruct (b ++ r'). }
  rewrite Ef in *. zlens. pose proof (zlen_nonneg (fragments IEEE80211_MLE_SUBELEM_FRAGMENT r')).
  replace (A ++ ([IEEE80211_MLE_SUBELEM_FRAGMENT; zlen b] ++ b ++ fragments IEEE80211_MLE_SUBELEM_FRAGMENT r') ++ R)
    with (A ++ [IEEE80211_MLE_SUBELEM_FRAGMENT; zlen b] ++ b ++ fragments IEEE80211_MLE_SUBELEM_FRAGMENT r' ++ R)
    in * by (by appn).
  destruct n as [|n]; [lia|].
  destruct (element_at_written A IEEE80211_MLE_SUBELEM_FRAGMENT b (fragments IEEE80211_MLE_SUBELEM_FRAGMENT r' ++ R) end_)
    as [E1 E2]; [lia|].
  match goal with |- _ = ?x => set (rhs := x) end.
  cbn [find_profiles]. rewrite E1, bind_some, E2, bind_some. unfold sizeof_element, rhs. clear rhs.
  change (IEEE80211_MLE_SUBELEM_FRAGMENT =? IEEE80211_MLE_SUBELEM_PER_STA_PROFILE) with false. cbv iota.
  set (A' := A ++ [IEEE80211_MLE_SUBELEM_FRAGMENT; zlen b] ++ b).
  replace (A ++ [IEEE80211_MLE_SUBELEM_FRAGMENT; zlen b] ++ b ++ fragments IEEE80211_MLE_SUBELEM_FRAGMENT r' ++ R)
    with (A' ++ fragments IEEE80211_MLE_SUBELEM_FRAGMENT r' ++ R) in * by (unfold A'; by appn).
  assert (zlen A + 2 + zlen b = zlen A') as -> by (unfold A'; zlens; lia).
  assert (zlen A' = zlen A + 2 + zlen b) by (unfold A'; zlens; lia).
  rewrite (IH (length r')); [|unfold zlen in *; rewrite length_app; lia|done|done|zlens; lia|lia].
  replace (zlen A + (1 + (1 + 0) + (zlen b + zlen (fragments IEEE80211_MLE_SUBELEM_FRAGMENT r'))))
    with (zlen A' + zlen (fragments IEEE80211_MLE_SUBELEM_FRAGMENT r')) by lia.
  apply find_profiles_fuel; (done || zlens; lia).
Qed.

(** A profile sub-element, and where the search finds those of a list. *)
Definition sub (prof : list Z) : list Z :=
  fragmented IEEE80211_MLE_SUBELEM_PER_STA_PROFILE IEEE80211_MLE_SUBELEM_FRAGMENT prof.

Fixpoint entries (pos : Z) (ps : list (list Z)) : list (Z * Z) :=
  match ps with
  | [] => []
  | p :: ps => (pos + 2, zlen (take 255 p)) :: entries (pos + zlen (sub p)) ps
  end.

Lemma profs_stop_entries pos ps : profs_stop (pos + zlen (concat (sub <$> ps))) (entries pos ps) = pos.
Proof. destruct ps; cbn [entries profs_stop fmap list_fmap concat]; [rewrite zlen_nil; lia|lia]. Qed.

Lemma sub_parts p : exists r, sub p = [IEEE80211_MLE_SUBELEM_PER_STA_PROFILE; zlen (take 255 p)] ++ take 255 p
    ++ fragments IEEE80211_MLE_SUBELEM_FRAGMENT r /\ zlen (take 255 p) <= 255.
Proof.
  exists (drop 255 p). assert (zlen (take 255 p) <= 255) by (unfold zlen; rewrite length_take; lia).
  split; [|done]. unfold sub. rewrite <- (take_drop 255 p) at 1. apply fragmented_parts; [done|].
  destruct (Z.leb_spec (zlen p) 255); [left; apply drop_ge; unfold zlen in *; lia|right].
  unfold zlen in *. rewrite length_take. lia.
Qed.

Lemma find_written ps : forall n A R acc,
  bytes_ok (A ++ concat (sub <$> ps) ++ R) ->
  zlen (concat (sub <$> ps)) < Z.of_nat n -> zlen acc + zlen ps < IEEE80211_MLD_MAX_NUM_LINKS ->
  find_profiles n (A ++ concat (sub <$> ps) ++ R) (zlen A) (zlen A + zlen (concat (sub <$> ps))) acc
    = Some (zlen A + zlen (concat (sub <$> ps)), rev (entries (zlen A) ps) ++ acc).
Proof.
  induction ps as [|p ps IH]; intros n A R acc Hok Hn Hacc;
    (destruct n as [|n]; [pose proof (zlen_nonneg (concat (sub <$> []))); revert Hn; set (c := concat _);
      pose proof (zlen_nonneg c); lia|]).
  - cbn [fmap list_fmap concat]. rewrite zlen_nil, Z.add_0_r. cbn [find_profiles]. unfold element_at, sizeof_element.
    destruct (Z.ltb_spec (zlen A - zlen A) 2); [|lia]. by rewrite bind_some.
  - cbn [fmap list_fmap concat] in *. set (rest := concat (sub <$> ps)) in *.
    destruct (sub_parts p) as (r & Ep & Hp). set (b := take 255 p) in *.
    pose proof (zlen_nonneg A). pose proof (zlen_nonneg b). pose proof (zlen_nonneg rest).
    pose proof (zlen_nonneg (fragments IEEE80211_MLE_SUBELEM_FRAGMENT r)). zlens.
    assert (zlen (sub p) = 2 + zlen b + zlen (fragments IEEE80211_MLE_SUBELEM_FRAGMENT r)) as Es
      by (rewrite Ep; zlens; lia).
    set (F := fragments IEEE80211_MLE_SUBELEM_FRAGMENT r) in *.
    replace (A ++ (sub p ++ rest) ++ R)
      with (A ++ [IEEE80211_MLE_SUBELEM_PER_STA_PROFILE; zlen b] ++ b ++ F ++ rest ++ R) in *
      by (rewrite Ep; by appn).
    destruct (element_at_written A IEEE80211_MLE_SUBELEM_PER_STA_PROFILE b (F ++ rest ++ R)
      (zlen A + (zlen (sub p) + zlen rest))) as [E1 E2]; [lia|].
    cbn [find_profiles]. rewrite E1, bind_some, E2, bind_some. unfold sizeof_element.
    rewrite Z.eqb_refl. destruct (Z.leb_spec IEEE80211_MLD_MAX_NUM_LINKS (zlen ((zlen A + 2, zlen b) :: acc))).
    { pose proof (zlen_nonneg ps). zlens. lia. }
    set (A' := A ++ [IEEE80211_MLE_SUBELEM_PER_STA_PROFILE; zlen b] ++ b).
    replace (A ++ [IEEE80211_MLE_SUBELEM_PER_STA_PROFILE; zlen b] ++ b ++ F ++ rest ++ R)
      with (A' ++ F ++ rest ++ R) in * by (unfold A'; by appn).
    assert (zlen A' = zlen A + 2 + zlen b) as EA by (unfold A'; zlens; lia). rewrite <- EA.
    pose proof (zlen_nonneg R).
    unfold F at 1. rewrite find_profiles_skip; fold F; [|done|zlens; lia|lia].
    replace (A' ++ F ++ rest ++ R) with ((A' ++ F) ++ rest ++ R) in * by (by appn).
    replace (zlen A' + zlen F) with (zlen (A' ++ F)) by (zlens; lia).
    replace (zlen A + (zlen (sub p) + zlen rest)) with (zlen (A' ++ F) + zlen rest) by (zlens; lia).
    unfold rest. rewrite IH; [|done|fold rest; lia|zlens; lia].
    cbn [entries rev]. replace (zlen A + zlen (sub p)) with (zlen (A' ++ F)) by (zlens; lia).
    by rewrite <- app_assoc.
Qed.

Lemma bodies_written ps : forall A R,
  bytes_ok (A ++ concat (sub <$> ps) ++ R) ->
  bodies (A ++ concat (sub <$> ps) ++ R) (zlen A + zlen (concat (sub <$> ps))) (entries (zlen A) ps) = Some ps.
Proof.
  induction ps as [|p ps IH]; intros A R Hok; [done|]. cbn [entries bodies].
  change (concat (sub <$> (p :: ps))) with (sub p ++ concat (sub <$> ps)) in *.
  rewrite zlen_app, Z.add_assoc. rewrite profs_stop_entries.
  replace (A ++ (sub p ++ concat (sub <$> ps)) ++ R) with (A ++ sub p ++ concat (sub <$> ps) ++ R) in * by (by appn).
  replace (zlen A + 2 - 2) with (zlen A) by lia.
  pose proof (zlen_nonneg (concat (sub <$> ps) ++ R)).
  assert (body_of (A ++ sub p ++ concat (sub <$> ps) ++ R) (zlen A) (zlen A + zlen (sub p))
    IEEE80211_MLE_SUBELEM_FRAGMENT = Some p) as ->.
  { unfold sub. rewrite written_body; [done|done| |fold (sub p); lia|done].
    fold (sub p). rewrite !zlen_app. pose proof (zlen_nonneg (concat (sub <$> ps))). pose proof (zlen_nonneg R).
    unfold sub in *. lia. }
  rewrite bind_some.
  replace (A ++ sub p ++ concat (sub <$> ps) ++ R) with ((A ++ sub p) ++ concat (sub <$> ps) ++ R) in * by (by appn).
  rewrite <- zlen_app, IH by done. done.
Qed.

(** A multi-link element with fragmented profiles, before it is fragmented
    itself: its extension id, its common part and its sub-elements. *)
Definition mle_body (ext : Z) (i : basic_common) (ps : list (list Z)) : list Z :=
  ext :: encode_basic i ++ concat (sub <$> ps).

Section Roundtrip.
Variables (pre post : list Z) (ext : Z) (i : basic_common) (ps : list (list Z)) (ie ielen : Z).
Let body := mle_body ext i ps.
Let elem := fragmented WLAN_EID_EXTENSION WLAN_EID_FRAGMENT body.
Let mem := pre ++ elem ++ post.
Hypothesis Hbytes : bytes_ok mem.
Hypothesis Hi : basic_ok i.
Hypothesis Hps : zlen ps < IEEE80211_MLD_MAX_NUM_LINKS.
Hypothesis Hie : 0 <= ie <= zlen pre.
Hypothesis Hend : zlen pre + zlen elem <= ie + ielen <= zlen mem.
Hypothesis Hnext : zlen pre + zlen elem < ie + ielen -> post !! 0%nat <> Some WLAN_EID_FRAGMENT.
Hypothesis H63 : zlen mem + ielen < 2 ^ 63.

Lemma body_nonempty : WLAN_EID_EXTENSION = WLAN_EID_EXTENSION -> body <> [].
Proof. done. Qed.

(** The first part of the element holds the whole common part. *)
Lemma first_part_common : exists datalen y R,
  mem = (pre ++ [WLAN_EID_EXTENSION; datalen; ext]) ++ encode_basic i ++ y ++ R /\
  datalen - 1 = zlen (encode_basic i ++ y).
Proof.
  destruct (first_part body) as (b & r & E & Hb & Hr & _).
  assert (elem = [WLAN_EID_EXTENSION; zlen b] ++ b ++ fragments WLAN_EID_FRAGMENT r) as Ee
    by (unfold elem; rewrite E; by apply fragmented_parts).
  pose proof (basic_fields_bound i Hi) as Hf. pose proof (encoded_size i) as Hs.
  assert (exists y, b = ext :: encode_basic i ++ y) as [y Ey].
  { unfold body, mle_body in E. clear Ee. generalize dependent (encode_basic i). intros eb E Hs. destruct b as [|x b]; [destruct Hr as [->|Hr]; [done|exfalso; unfold zlen in Hr; simpl in Hr; lia]|].
    injection E as <- E. destruct (app_eq_inv _ _ _ _ E) as [(k & E1 & E2)|(k & E1 & E2)].
    - destruct Hr as [->|Hr].
      + symmetry in E2. apply app_eq_nil in E2 as [-> _]. exists []. rewrite app_nil_r in *. by rewrite E1.
      + assert (zlen eb = zlen (b ++ k)) as El by (by rewrite E1). zlens.
        pose proof (zlen_nonneg k). lia.
    - exists k. by rewrite E1. }
  exists (zlen b), y, (fragments WLAN_EID_FRAGMENT r ++ post). split.
  - unfold mem. rewrite Ee, Ey. by appn.
  - rewrite Ey. zlens. lia.
Qed.

Lemma mle_size_ok_written datalen :
  rd8 mem (zlen pre + 1) = Some datalen ->
  ieee80211_mle_size_ok mem (zlen pre + 2 + 1) (datalen - 1) = Some true.
Proof.
  intros Ed. destruct first_part_common as (d & y & R & E & Hd).
  assert (d = datalen) as ->.
  { rewrite E in Ed. rewrite <- !app_assoc, rd8_app_r in Ed by lia. cbn in Ed. by injection Ed. }
  rewrite E. replace (zlen pre + 2 + 1) with (zlen (pre ++ [WLAN_EID_EXTENSION; datalen; ext])) by (zlens; lia).
  apply encoded_size_ok; [done|]. rewrite Hd. zlens. pose proof (zlen_nonneg y). lia.
Qed.

Lemma defrag_mle_roundtrip : exists m mem',
  cfg80211_defrag_mle true mem (Some (zlen pre)) ie ielen = Some (Some m, mem') /\
  slice mem' (mle m) (zlen (encode_basic i)) = Some (encode_basic i) /\
  Forall2 (fun '(p, len) prof => slice mem' p len = Some prof) (sta_prof m) ps.
Proof.
  assert (element_in mem ie (ie + ielen) (zlen pre)) as Hin by (apply written_element_in; done).
  destruct (defrag_first mem (zlen pre) ie ielen Hbytes ltac:(lia) ltac:(lia) H63 Hin)
    as (datalen & n & bs & Ed & Hd & Hfit & En & Eb & Hbs & Hn & _ & mem2 & E2 & Hl2 & Hok2 & Ha2 & _ & Hs2);
    [apply rd8_here|].
  unfold mem, elem in Eb. rewrite written_body in Eb by done.
  set (C := concat (sub <$> ps)) in *.
  assert (encode_basic i ++ C = bs) as <- by (by apply (inj Some)).
  unfold cfg80211_defrag_mle, sizeof_element. rewrite Ed, bind_some.
  rewrite (wrap_small 64) by (unfold is_uint; lia).
  rewrite mle_size_ok_written, bind_some by done. cbn [negb]. rewrite En, bind_some, E2, bind_some.
  pose proof (zlen_nonneg (encode_basic i)). pose proof (zlen_nonneg C). zlens.
  destruct (Z.ltb_spec (zlen (encode_basic i) + zlen C) 0); [lia|].
  destruct (slice_Some _ _ _ _ Hs2) as (P & Q & Em2 & HP & _).
  assert (mem2 = P ++ encode_basic i ++ C ++ Q) as Em2' by (rewrite Em2; by appn).
  rewrite <- HP in *. pose proof (zlen_nonneg P). assert (ieee80211_mle_common_size mem2 (zlen P) = Some (zlen (encode_basic i))) as ->
    by (rewrite Em2'; by apply encoded_common_size).
  rewrite bind_some.
  assert (zlen P + zlen (encode_basic i) = zlen (P ++ encode_basic i)) as EA by (by rewrite zlen_app).
  rewrite (wrap_small 64) by (unfold is_uint; lia).
  replace (zlen (encode_basic i) + zlen C - zlen (encode_basic i)) with (zlen C) by lia. rewrite EA.
  assert (mem2 = (P ++ encode_basic i) ++ C ++ Q) as Em3 by (rewrite Em2'; by appn).
  assert (find_profiles (S (Z.to_nat (zlen C))) mem2 (zlen (P ++ encode_basic i))
    (zlen (P ++ encode_basic i) + zlen C) [] = Some (zlen (P ++ encode_basic i) + zlen C,
      rev (entries (zlen (P ++ encode_basic i)) ps) ++ [])) as Ef.
  { rewrite Em3. unfold C. apply find_written; [fold C; by rewrite <- Em3|fold C; lia|rewrite zlen_nil; lia]. }
  rewrite Ef, bind_some, Z.eqb_refl, app_nil_r, rev_involutive. cbn [negb].
  destruct (find_profiles_spec (S (Z.to_nat (zlen C))) mem2 (zlen (P ++ encode_basic i) + zlen C)
    (zlen (P ++ encode_basic i)) [] Hok2) as (stop & found & Ef' & Hch & _); [zlens; lia|zlens; lia|lia|].
  rewrite Ef in Ef'. injection Ef' as _ Efound. rewrite !app_nil_r in Efound.
  apply (f_equal (@rev _)) in Efound. rewrite !rev_involutive in Efound. subst found.
  destruct (defrag_profiles_spec (zlen (P ++ encode_basic i) + zlen C) (entries (zlen (P ++ encode_basic i)) ps) mem2)
    as (out & mem3 & bss & E4 & Hl4 & _ & Ha4 & Eb4 & _ & Hf); [done|zlens; lia|lia|done|].
  rewrite E4, bind_some. eexists _, _. split; [done|]. cbn [mle sta_prof]. split.
  - transitivity (slice mem2 (zlen P) (zlen (encode_basic i))); [|rewrite Em2'; by apply slice_app].
    apply slice_agree; [lia|]. intros k Hk. apply Ha4. left. unfold C. rewrite profs_stop_entries, <- EA. lia.
  - rewrite Em3 in Eb4. unfold C in Eb4. rewrite bodies_written in Eb4 by (fold C; by rewrite <- Em3).
    injection Eb4 as <-. eapply Forall2_impl; [done|]. by intros [p len] b.
Qed.
End Roundtrip.

(** ** Properties *)

(** C37: For any received octets, taking a multi-link element apart stays
    inside the received elements and the memory it allocates, leaves the
    received elements unchanged, and every profile it returns lies in that
    memory. *)
Theorem mle_defrag_safe alloc mem elem ie ielen :
  bytes_ok mem -> 0 <= ie -> ie + ielen <= zlen mem -> zlen mem + ielen < 2 ^ 63 ->
  element_in mem ie (ie + ielen) elem -> rd8 mem elem = Some WLAN_EID_EXTENSION ->
  exists r mem', cfg80211_defrag_mle alloc mem (Some elem) ie ielen = Some (r, mem') /\
    (forall i, i < zlen mem -> rd8 mem' i = rd8 mem i) /\
    match r with
    | None => True
    | Some m => mle m = zlen mem /\
        Forall (fun '(p, len) => zlen mem + 2 <= p /\ 0 <= len /\ p + len <= zlen mem') (sta_prof m)
    end.
Proof. apply defrag_mle_spec. Qed.

(** An element with arbitrary contents after a valid control word. *)
Definition sample_received : list Z :=
  [WLAN_EID_EXTENSION; 14; 107; 0; 0; 7; 1; 2; 3; 4; 5; 6; 0; 2; 9; 9; 0].

Lemma mle_defrag_safe_witness :
  exists r, cfg80211_defrag_mle true sample_received (Some 0) 0 17 = Some r.
Proof.
  destruct (mle_defrag_safe true sample_received 0 0 17) as (r & m & E & _).
  - apply (bool_decide_unpack _). vm_compute. exact I.
  - discriminate.
  - vm_compute. discriminate.
  - vm_compute. reflexivity.
  - split; [discriminate|]. split; [discriminate|]. exists 255, 14.
    split; [reflexivity|]. split; [reflexivity|]. split; [discriminate|reflexivity].
  - reflexivity.
  - exists (r, m). exact E.
Defined.

(** C36: A multi-link element of the basic type whose profiles, fewer than
    fifteen, are fragmented one by one and which is then fragmented as a whole is
    taken apart again: the common part and the profiles, of any length, come back
    octet for octet, in order, whatever follows the element but another fragment.
    (With fifteen profiles the element is dropped, [mle_defrag_fifteen].) *)
Theorem mle_defrag_roundtrip pre post ext i ps ie ielen :
  let elem := fragmented WLAN_EID_EXTENSION WLAN_EID_FRAGMENT (mle_body ext i ps) in
  let mem := pre ++ elem ++ post in
  bytes_ok mem -> basic_ok i -> zlen ps < IEEE80211_MLD_MAX_NUM_LINKS ->
  0 <= ie <= zlen pre -> zlen pre + zlen elem <= ie + ielen <= zlen mem ->
  (zlen pre + zlen elem < ie + ielen -> post !! 0%nat <> Some WLAN_EID_FRAGMENT) ->
  zlen mem + ielen < 2 ^ 63 ->
  exists m mem',
    cfg80211_defrag_mle true mem (Some (zlen pre)) ie ielen = Some (Some m, mem') /\
    slice mem' (mle m) (zlen (encode_basic i)) = Some (encode_basic i) /\
    Forall2 (fun '(p, len) prof => slice mem' p len = Some prof) (sta_prof m) ps.
Proof. intros elem mem. apply defrag_mle_roundtrip. Qed.

Definition sample_profiles : list (list Z) := [[0x11; 0; 1]; replicate 600 4; []; replicate 255 6].

Lemma mle_defrag_roundtrip_witness :
  let elem := fragmented WLAN_EID_EXTENSION WLAN_EID_FRAGMENT (mle_body 107 sample_basic sample_profiles) in
  exists m mem', cfg80211_defrag_mle true ([1; 2] ++ elem ++ [0; 0]) (Some 2) 0 (2 + zlen elem + 2)
    = Some (Some m, mem') /\
    Forall2 (fun '(p, len) prof => slice mem' p len = Some prof) (sta_prof m) sample_profiles.
Proof.
  intros elem.
  destruct (mle_defrag_roundtrip [1; 2] [0; 0] 107 sample_basic sample_profiles 0 (2 + zlen elem + 2))
    as (m & mem' & E & _ & H).
  - apply (bool_decide_unpack _). vm_compute. exact I.
  - unfold basic_ok, opt_ok; cbn. split_and!; first [done | split; [lia|reflexivity]].
  - reflexivity.
  - split; vm_compute; discriminate.
  - split; vm_compute; discriminate.
  - intros _. discriminate.
  - vm_compute. reflexivity.
  - exists m, mem'. split; [exact E|exact H].
Defined.

(** A full array of profiles: the loop is left early, so the walk is reported
    as incomplete and the element is dropped, although there is room for all
    fifteen profiles. *)
Lemma mle_defrag_fifteen :
  let elem := fragmented WLAN_EID_EXTENSION WLAN_EID_FRAGMENT (mle_body 107 sample_basic (replicate 15 [1; 0; 1])) in
  exists mem', cfg80211_defrag_mle true elem (Some 0) 0 (zlen elem) = Some (None, mem').
Proof. eexists. vm_compute. reflexivity. Qed.
