(* ===== verification/ElemSizes.v ===== *)
(** * ElemSizes: the length checks of element contents

    The [*_size_ok] functions of [include/linux/ieee80211-he.h], [-eht.h],
    [-uhr.h] and [-mesh.h] that the element parser calls before it keeps a
    pointer to an element.  [data] is an offset [p] into [buf]; a read outside
    [buf] has no value.  [range_ok] says that the [len] octets the caller
    passes are there; under it every check has a result, and a positive one
    gives the length the accessors of the element rely on. *)
From S2P Require Import Prelude Frame Mle Ttlm.

(** [u8_get_bits] and [u16_get_bits] for a contiguous mask. *)
Definition get_bits (v mask : Z) : Z := (v .& mask) / (mask .& - mask).

Definition hweight16 (z : Z) : Z := popcount 16 z.
Definition DIV_ROUND_UP (n d : Z) : Z := (n + d - 1) / d.

(** ** HE *)

Definition IEEE80211_HE_PHY_CAP0_CHANNEL_WIDTH_SET_40MHZ_IN_2G : Z := 0x02.
Definition IEEE80211_HE_PHY_CAP0_CHANNEL_WIDTH_SET_40MHZ_80MHZ_IN_5G : Z := 0x04.
Definition IEEE80211_HE_PHY_CAP0_CHANNEL_WIDTH_SET_160MHZ_IN_5G : Z := 0x08.
Definition IEEE80211_HE_PHY_CAP0_CHANNEL_WIDTH_SET_80PLUS80_MHZ_IN_5G : Z := 0x10.
Definition IEEE80211_HE_PHY_CAP6_PPE_THRESHOLD_PRESENT : Z := 0x80.
Definition IEEE80211_PPE_THRES_NSS_POS : Z := 0.
Definition IEEE80211_PPE_THRES_NSS_MASK : Z := 7.
Definition IEEE80211_PPE_THRES_RU_INDEX_BITMASK_MASK : Z := 0x78.
Definition IEEE80211_PPE_THRES_INFO_PPET_SIZE : Z := 3.
Definition IEEE80211_HE_OPERATION_VHT_OPER_INFO : Z := 0x00004000.
Definition IEEE80211_HE_OPERATION_CO_HOSTED_BSS : Z := 0x00008000.
Definition IEEE80211_HE_OPERATION_6GHZ_OP_INFO : Z := 0x00020000.
Definition IEEE80211_HE_SPR_NON_SRG_OFFSET_PRESENT : Z := BIT 2.
Definition IEEE80211_HE_SPR_SRG_INFORMATION_PRESENT : Z := BIT 3.

(** [struct ieee80211_he_cap_elem]: six octets of MAC and eleven of PHY
    capabilities. *)
Definition sizeof_he_cap_elem : Z := 17.
Definition he_phy_cap (i : Z) : Z := 6 + i.
Definition sizeof_he_operation : Z := 6.
Definition sizeof_he_6ghz_oper : Z := 5.
Definition sizeof_he_spr : Z := 1.

Definition ieee80211_he_mcs_nss_size (buf : list Z) (p : Z) : option Z :=
  cap0 ← rd8 buf (p + he_phy_cap 0);
  let count := 4 in
  let count := if nz (cap0 .& IEEE80211_HE_PHY_CAP0_CHANNEL_WIDTH_SET_160MHZ_IN_5G) then count + 4 else count in
  let count := if nz (cap0 .& IEEE80211_HE_PHY_CAP0_CHANNEL_WIDTH_SET_80PLUS80_MHZ_IN_5G) then count + 4 else count in
  Some count.

Definition ieee80211_he_ppe_size (ppe_thres_hdr cap6 : Z) : Z :=
  if negb (nz (cap6 .& IEEE80211_HE_PHY_CAP6_PPE_THRESHOLD_PRESENT)) then 0
  else
    let n := hweight8 (ppe_thres_hdr .& IEEE80211_PPE_THRES_RU_INDEX_BITMASK_MASK) in
    let n := u8 (n * (1 + ((ppe_thres_hdr .& IEEE80211_PPE_THRES_NSS_MASK) >> IEEE80211_PPE_THRES_NSS_POS))) in
    let n := u8 (n * IEEE80211_PPE_THRES_INFO_PPET_SIZE * 2 + 7) in
    u8 (DIV_ROUND_UP n 8).

Definition ieee80211_he_capa_size_ok (buf : list Z) (p len : Z) : option bool :=
  let needed := sizeof_he_cap_elem in
  if len <? needed then Some false
  else
    mcs ← ieee80211_he_mcs_nss_size buf p;
    let needed := u8 (needed + mcs) in
    if len <? needed then Some false
    else
      cap6 ← rd8 buf (p + he_phy_cap 6);
      if nz (cap6 .& IEEE80211_HE_PHY_CAP6_PPE_THRESHOLD_PRESENT) then
        if len <? needed + 1 then Some false
        else
          hdr ← rd8 buf (p + needed);
          let needed := u8 (needed + ieee80211_he_ppe_size hdr cap6) in
          Some (needed <=? len)
      else Some (needed <=? len).

(** The caller has checked that the fixed part is there; the extension id is
    counted. *)
Definition ieee80211_he_oper_size (buf : list Z) (p : Z) : option Z :=
  params ← rd_le32 buf p;
  let oper_len := sizeof_he_operation in
  let oper_len := if nz (params .& IEEE80211_HE_OPERATION_VHT_OPER_INFO) then oper_len + 3 else oper_len in
  let oper_len := if nz (params .& IEEE80211_HE_OPERATION_CO_HOSTED_BSS) then oper_len + 1 else oper_len in
  let oper_len := if nz (params .& IEEE80211_HE_OPERATION_6GHZ_OP_INFO)
                  then oper_len + sizeof_he_6ghz_oper else oper_len in
  Some (oper_len + 1).

Definition ieee80211_he_spr_size (buf : list Z) (p : Z) : option Z :=
  params ← rd8 buf p;
  let spr_len := sizeof_he_spr in
  let spr_len := if nz (params .& IEEE80211_HE_SPR_NON_SRG_OFFSET_PRESENT) then spr_len + 1 else spr_len in
  let spr_len := if nz (params .& IEEE80211_HE_SPR_SRG_INFORMATION_PRESENT) then spr_len + 18 else spr_len in
  Some (spr_len + 1).

(** ** EHT *)

Definition IEEE80211_EHT_PHY_CAP0_320MHZ_IN_6GHZ : Z := 0x02.
Definition IEEE80211_EHT_PHY_CAP5_PPE_THRESHOLD_PRESENT : Z := 0x08.
Definition IEEE80211_EHT_PPE_THRES_NSS_MASK : Z := 0xf.
Definition IEEE80211_EHT_PPE_THRES_RU_INDEX_BITMASK_MASK : Z := 0x1f0.
Definition IEEE80211_EHT_PPE_THRES_INFO_PPET_SIZE : Z := 3.
Definition IEEE80211_EHT_PPE_THRES_INFO_HEADER_SIZE : Z := 9.
Definition IEEE80211_EHT_OPER_INFO_PRESENT : Z := 0x01.
Definition IEEE80211_EHT_OPER_DISABLED_SUBCHANNEL_BITMAP_PRESENT : Z := 0x02.
Definition IEEE80211_BW_IND_DIS_SUBCH_PRESENT : Z := BIT 1.

(** [struct ieee80211_eht_cap_elem_fixed]: two octets of MAC and nine of PHY
    capabilities. *)
Definition sizeof_eht_cap_elem_fixed : Z := 11.
Definition eht_phy_cap (i : Z) : Z := 2 + i.
Definition sizeof_eht_operation : Z := 5.
Definition sizeof_bandwidth_indication : Z := 4.

Definition ieee80211_eht_mcs_nss_size (buf : list Z) (he_cap p : Z) (from_ap : bool) : option Z :=
  cap0 ← rd8 buf (he_cap + he_phy_cap 0);
  if nz (cap0 .& IEEE80211_HE_PHY_CAP0_CHANNEL_WIDTH_SET_40MHZ_IN_2G) then Some 3
  else
    let count := 0 in
    let count := if nz (cap0 .& IEEE80211_HE_PHY_CAP0_CHANNEL_WIDTH_SET_40MHZ_80MHZ_IN_5G) then count + 3 else count in
    let count := if nz (cap0 .& IEEE80211_HE_PHY_CAP0_CHANNEL_WIDTH_SET_160MHZ_IN_5G) then count + 3 else count in
    eht0 ← rd8 buf (p + eht_phy_cap 0);
    let count := if nz (eht0 .& IEEE80211_EHT_PHY_CAP0_320MHZ_IN_6GHZ) then count + 3 else count in
    Some (if nz count then count else if from_ap then 3 else 4).

Definition ieee80211_eht_ppe_size (ppe_thres_hdr cap5 : Z) : Z :=
  if negb (nz (cap5 .& IEEE80211_EHT_PHY_CAP5_PPE_THRESHOLD_PRESENT)) then 0
  else
    let n := hweight16 (ppe_thres_hdr .& IEEE80211_EHT_PPE_THRES_RU_INDEX_BITMASK_MASK) in
    let n := n * (1 + get_bits ppe_thres_hdr IEEE80211_EHT_PPE_THRES_NSS_MASK) in
    let n := u32 (n * IEEE80211_EHT_PPE_THRES_INFO_PPET_SIZE * 2 + IEEE80211_EHT_PPE_THRES_INFO_HEADER_SIZE) in
    u8 (DIV_ROUND_UP n 8).

Definition ieee80211_eht_capa_size_ok (buf : list Z) (he_capa : option Z) (p len : Z) (from_ap : bool)
  : option bool :=
  let needed := sizeof_eht_cap_elem_fixed in
  match he_capa with
  | None => Some false
  | Some he_capa =>
      if len <? needed then Some false
      else
        mcs ← ieee80211_eht_mcs_nss_size buf he_capa p from_ap;
        let needed := u8 (needed + mcs) in
        if len <? needed then Some false
        else
          cap5 ← rd8 buf (p + eht_phy_cap 5);
          if nz (cap5 .& IEEE80211_EHT_PHY_CAP5_PPE_THRESHOLD_PRESENT) then
            if len <? needed + 2 then Some false
            else
              hdr ← rd_le16 buf (p + needed);
              let needed := u8 (needed + ieee80211_eht_ppe_size hdr cap5) in
              Some (needed <=? len)
          else Some (needed <=? len)
  end.

Definition ieee80211_eht_oper_size_ok (buf : list Z) (p len : Z) : option bool :=
  let needed := sizeof_eht_operation in
  if len <? needed then Some false
  else
    params ← rd8 buf p;
    let needed :=
      if nz (params .& IEEE80211_EHT_OPER_INFO_PRESENT) then
        if nz (params .& IEEE80211_EHT_OPER_DISABLED_SUBCHANNEL_BITMAP_PRESENT) then needed + 3 + 2
        else needed + 3
      else needed in
    Some (needed <=? len).

Definition ieee80211_bandwidth_indication_size_ok (buf : list Z) (p len : Z) : option bool :=
  if len <? sizeof_bandwidth_indication then Some false
  else
    params ← rd8 buf p;
    Some (negb (nz (params .& IEEE80211_BW_IND_DIS_SUBCH_PRESENT) && (len <? sizeof_bandwidth_indication + 2))).

(** ** UHR *)

Definition IEEE80211_UHR_OPER_PARAMS_DUO_PRES : Z := 0x0100.
Definition IEEE80211_UHR_OPER_PARAMS_DPS_PRES : Z := 0x0200.
Definition IEEE80211_UHR_OPER_PARAMS_NPCA_PRES : Z := 0x0400.
Definition IEEE80211_UHR_OPER_PARAMS_PEDCA_PRES : Z := 0x0800.
Definition IEEE80211_UHR_OPER_PARAMS_DBE_PRES : Z := 0x1000.
Definition IEEE80211_UHR_MAC_CAP1_DBE_SUPP : Z := 0x04.
Definition IEEE80211_UHR_MAC_CAP_DBE_EHT_MCS_MAP_160_PRES : Z := 0x08.
Definition IEEE80211_UHR_MAC_CAP_DBE_EHT_MCS_MAP_320_PRES : Z := 0x10.
Definition IEEE80211_UHR_PARAM_UPDATE_MODE_CTRL_MODE_ID : Z := 0x3f.
Definition IEEE80211_UHR_PARAM_UPDATE_MODE_CTRL_MODE_ENABLE : Z := 0x40.
Definition IEEE80211_UHR_PARAM_UPDATE_MODE_ID_DPS : Z := 0.
Definition IEEE80211_UHR_PARAM_UPDATE_MODE_ID_NPCA : Z := 1.
Definition IEEE80211_UHR_PARAM_UPDATE_MODE_ID_DUO : Z := 2.
Definition IEEE80211_UHR_PARAM_UPDATE_MODE_ID_P_EDCA : Z := 3.
Definition IEEE80211_UHR_PARAM_UPDATE_MODE_ID_DBE : Z := 4.

Definition sizeof_uhr_operation : Z := 2.
Definition sizeof_uhr_dps_info : Z := 4.
Definition sizeof_uhr_npca_info : Z := 4.
Definition sizeof_uhr_duo_info : Z := 1.
Definition sizeof_uhr_p_edca_info : Z := 2.
Definition sizeof_uhr_dbe_info : Z := 1.
Definition sizeof_uhr_cap : Z := 11.
Definition sizeof_uhr_cap_dbe : Z := 3.
Definition sizeof_uhr_cap_dbe_bwcap : Z := 4.

Definition ieee80211_uhr_npca_info_size (buf : list Z) (p : Z) : option Z :=
  params ← rd_le32 buf p;
  Some (if nz (params .& IEEE80211_UHR_NPCA_PARAMS_DIS_SUBCH_BMAP_PRES)
        then sizeof_uhr_npca_info + 2 else sizeof_uhr_npca_info).

Definition ieee80211_uhr_dbe_info_size (buf : list Z) (p : Z) : option Z :=
  params ← rd8 buf p;
  Some (if nz (params .& IEEE80211_UHR_DBE_OPER_DIS_SUBCHANNEL_BITMAP_PRES)
        then sizeof_uhr_dbe_info + 2 else sizeof_uhr_dbe_info).

Definition ieee80211_uhr_oper_size_ok (buf : list Z) (p len : Z) : option bool :=
  let needed := sizeof_uhr_operation in
  if len <? needed then Some false
  else
    params ← rd_le16 buf p;
    let needed := if nz (params .& IEEE80211_UHR_OPER_PARAMS_DPS_PRES) then needed + sizeof_uhr_dps_info else needed in
    if len <? needed then Some false
    else
      let needed := if nz (params .& IEEE80211_UHR_OPER_PARAMS_DUO_PRES) then needed + 1 else needed in
      if len <? needed then Some false
      else
        let npca := nz (params .& IEEE80211_UHR_OPER_PARAMS_NPCA_PRES) in
        if npca && (len <? needed + sizeof_uhr_npca_info) then Some false
        else
          size ← (if npca then ieee80211_uhr_npca_info_size buf (p + needed) else Some 0);
          let needed := needed + size in
          if len <? needed then Some false
          else
            let needed := if nz (params .& IEEE80211_UHR_OPER_PARAMS_PEDCA_PRES)
                          then needed + sizeof_uhr_p_edca_info else needed in
            if len <? needed then Some false
            else
              let dbe := nz (params .& IEEE80211_UHR_OPER_PARAMS_DBE_PRES) in
              if dbe && (len <? needed + sizeof_uhr_dbe_info) then Some false
              else
                size ← (if dbe then ieee80211_uhr_dbe_info_size buf (p + needed) else Some 0);
                Some (needed + size <=? len).

Definition ieee80211_uhr_capa_size_ok (buf : list Z) (p len : Z) (from_ap : bool) : option bool :=
  let needed := sizeof_uhr_cap in
  if len <? needed then Some false
  else
    mac1 ← rd8 buf (p + 1);
    if from_ap && nz (mac1 .& IEEE80211_UHR_MAC_CAP1_DBE_SUPP) then
      let needed := needed + sizeof_uhr_cap_dbe in
      if len <? needed then Some false
      else
        dbe ← rd8 buf (p + sizeof_uhr_cap);
        let needed := if nz (dbe .& IEEE80211_UHR_MAC_CAP_DBE_EHT_MCS_MAP_160_PRES)
                      then needed + sizeof_uhr_cap_dbe_bwcap else needed in
        let needed := if nz (dbe .& IEEE80211_UHR_MAC_CAP_DBE_EHT_MCS_MAP_320_PRES)
                      then needed + sizeof_uhr_cap_dbe_bwcap else needed in
        Some (needed <=? len)
    else Some (needed <=? len).

(** The tuples of a parameters update. *)
Definition ieee80211_uhr_param_update_tuple_size (buf : list Z) (tuple : Z) : option Z :=
  control ← rd8 buf tuple;
  if negb (nz (control .& IEEE80211_UHR_PARAM_UPDATE_MODE_CTRL_MODE_ENABLE)) then Some 1
  else len ← rd8 buf (tuple + 1); Some (1 + 1 + len).

(** The condition of [for_each_uhr_param_update_tuple]: the size of the tuple
    when a whole one is there; [end_] is the end of the element. *)
Definition uhr_param_update_tuple_at (buf : list Z) (tuple end_ : Z) : option (option Z) :=
  let rem := end_ - tuple in
  if rem <? 1 then Some None
  else
    control ← rd8 buf tuple;
    if rem <? 1 + (if nz (control .& IEEE80211_UHR_PARAM_UPDATE_MODE_CTRL_MODE_ENABLE) then 1 else 0) then Some None
    else
      size ← ieee80211_uhr_param_update_tuple_size buf tuple;
      Some (if rem <? size then None else Some size).

(** The body of the loop: whether the parameters of an enabled mode are
    complete. *)
Definition uhr_param_update_tuple_ok (buf : list Z) (tuple : Z) : option bool :=
  control ← rd8 buf tuple;
  if negb (nz (control .& IEEE80211_UHR_PARAM_UPDATE_MODE_CTRL_MODE_ENABLE)) then Some true
  else
    params_len ← rd8 buf (tuple + 1);
    let id := get_bits control IEEE80211_UHR_PARAM_UPDATE_MODE_CTRL_MODE_ID in
    if id =? IEEE80211_UHR_PARAM_UPDATE_MODE_ID_DPS then Some (sizeof_uhr_dps_info <=? params_len)
    else if id =? IEEE80211_UHR_PARAM_UPDATE_MODE_ID_NPCA then
      if params_len <? sizeof_uhr_npca_info then Some false
      else size ← ieee80211_uhr_npca_info_size buf (tuple + 2); Some (size <=? params_len)
    else if id =? IEEE80211_UHR_PARAM_UPDATE_MODE_ID_DUO then Some (sizeof_uhr_duo_info <=? params_len)
    else if id =? IEEE80211_UHR_PARAM_UPDATE_MODE_ID_P_EDCA then Some (sizeof_uhr_p_edca_info <=? params_len)
    else if id =? IEEE80211_UHR_PARAM_UPDATE_MODE_ID_DBE then
      if params_len <? sizeof_uhr_dbe_info then Some false
      else size ← ieee80211_uhr_dbe_info_size buf (tuple + 2); Some (size <=? params_len)
    else Some true.

Fixpoint uhr_param_update_loop (fuel : nat) (buf : list Z) (tuple end_ : Z) : option bool :=
  match fuel with
  | O => None
  | S fuel =>
      t ← uhr_param_update_tuple_at buf tuple end_;
      match t with
      | None => Some (tuple =? end_)
      | Some size =>
          ok ← uhr_param_update_tuple_ok buf tuple;
          if negb ok then Some false else uhr_param_update_loop fuel buf (tuple + size) end_
      end
  end.

(** [elem] is [None] for NULL; a tuple takes at least one octet, so that
    [len + 1] rounds are enough. *)
Definition ieee80211_uhr_param_update_ok (buf : list Z) (elem : option Z) (len : Z) : option bool :=
  if len <? 1 + 1 then Some false
  else match elem with
  | None => Some false
  | Some p => uhr_param_update_loop (S (Z.to_nat len)) buf (p + 1) (p + len)
  end.

(** *** Seamless mobility: block-ack parameters of a transition *)

Definition IEEE80211_ST_CONTROL_PREP_RESP_DL_BA_INFO_PRESENT : Z := 0x01.
Definition IEEE80211_ST_CONTROL_PREP_RESP_UL_BA_INFO_PRESENT : Z := 0x02.
Definition IEEE80211_ST_CONTROL_PREP_RESP_SCS_LIST_PRESENT : Z := 0x04.
Definition IEEE80211_ST_CONTROL_EXEC_RESP_NOM_MAX_DL_DRAIN_PRESENT : Z := 0x01.
Definition IEEE80211_ST_CONTROL_EXEC_RESP_UL_SN_LIST_PRESENT : Z := 0x02.

(** A variable-size part at [pos] with [remaining] octets left; the result is
    where the next part starts, [None] inside when the part is cut short. *)
Definition smd_part (size : Z -> Z) (buf : list Z) (pos remaining : Z) : option (option (Z * Z)) :=
  if remaining <? 1 then Some None
  else
    n ← rd8 buf pos;
    Some (if remaining <? size n then None else Some (pos + size n, remaining - size n)).

Definition ieee80211_smd_bss_trans_scs_list_ok : list Z -> Z -> Z -> option (option (Z * Z)) :=
  smd_part (fun n_ids => 1 + n_ids).
Definition ieee80211_smd_bss_trans_ba_info_ok : list Z -> Z -> Z -> option (option (Z * Z)) :=
  smd_part (fun tid_bitmap => 1 + hweight8 tid_bitmap * 3).
Definition ieee80211_smd_bss_trans_ul_sn_list_ok : list Z -> Z -> Z -> option (option (Z * Z)) :=
  smd_part (fun tid_bitmap => 1 + DIV_ROUND_UP (hweight8 tid_bitmap * 12) 8).

(** A part that is checked only when present; an earlier failure stays. *)
Definition smd_if (present : bool) (part : list Z -> Z -> Z -> option (option (Z * Z))) (buf : list Z)
    (at_ : option (Z * Z)) : option (option (Z * Z)) :=
  match at_ with
  | None => Some None
  | Some (pos, remaining) => if present then part buf pos remaining else Some at_
  end.

Definition ieee80211_smd_prep_resp_size_ok (buf : list Z) (p len : Z) : option bool :=
  if len <? 1 then Some false
  else
    st_control ← rd8 buf p;
    let has m := nz (st_control .& m) in
    at_ ← smd_if (has IEEE80211_ST_CONTROL_PREP_RESP_DL_BA_INFO_PRESENT) ieee80211_smd_bss_trans_ba_info_ok buf
            (Some (p + 1, len - 1));
    at_ ← smd_if (has IEEE80211_ST_CONTROL_PREP_RESP_UL_BA_INFO_PRESENT) ieee80211_smd_bss_trans_ba_info_ok buf at_;
    at_ ← smd_if (has IEEE80211_ST_CONTROL_PREP_RESP_SCS_LIST_PRESENT) ieee80211_smd_bss_trans_scs_list_ok buf at_;
    Some (bool_decide (is_Some at_)).

Definition ieee80211_smd_exec_resp_size_ok (buf : list Z) (p len : Z) : option bool :=
  if len <? 1 then Some false
  else
    st_control ← rd8 buf p;
    let drain := nz (st_control .& IEEE80211_ST_CONTROL_EXEC_RESP_NOM_MAX_DL_DRAIN_PRESENT) in
    if drain && (len - 1 <? 2) then Some false
    else
      let at_ := if drain then (p + 1 + 2, len - 1 - 2) else (p + 1, len - 1) in
      at_ ← smd_if (nz (st_control .& IEEE80211_ST_CONTROL_EXEC_RESP_UL_SN_LIST_PRESENT))
              ieee80211_smd_bss_trans_ul_sn_list_ok buf (Some at_);
      Some (bool_decide (is_Some at_)).

(** ** Mesh path selection *)

Definition AE_F : Z := BIT 6.
Definition sizeof_mesh_hwmp_preq_top : Z := 17.
Definition sizeof_mesh_hwmp_preq_bottom : Z := 9.
Definition sizeof_mesh_hwmp_preq_target : Z := 11.
Definition sizeof_mesh_hwmp_prep_top : Z := 13.
Definition sizeof_mesh_hwmp_prep_bottom : Z := 18.
Definition sizeof_mesh_hwmp_perr : Z := 2.
Definition sizeof_mesh_hwmp_perr_dst : Z := 11.

Definition ieee80211_mesh_preq_prep_ae_enabled (buf : list Z) (p : Z) : option bool :=
  flags ← rd8 buf p; Some (nz (flags .& AE_F)).

Definition ieee80211_mesh_preq_size_ok (buf : list Z) (p elen : Z) : option bool :=
  let needed := sizeof_mesh_hwmp_preq_top in
  if elen <? needed then Some false
  else
    ae ← ieee80211_mesh_preq_prep_ae_enabled buf p;
    let ext := if ae : bool then ETH_ALEN else 0 in
    let needed := needed + ext + sizeof_mesh_hwmp_preq_bottom in
    if elen <? needed then Some false
    else
      target_count ← rd8 buf (p + sizeof_mesh_hwmp_preq_top + ext + 8);
      if target_count <? 1 then Some false
      else Some (elen =? needed + target_count * sizeof_mesh_hwmp_preq_target).

Definition ieee80211_mesh_prep_size_ok (buf : list Z) (p elen : Z) : option bool :=
  let needed := sizeof_mesh_hwmp_prep_top in
  if elen <? needed then Some false
  else
    ae ← ieee80211_mesh_preq_prep_ae_enabled buf p;
    let ext := if ae : bool then ETH_ALEN else 0 in
    Some (elen =? needed + ext + sizeof_mesh_hwmp_prep_bottom).

(** [for (i = 0; i < number_of_dst; i++)]; [None] inside is the early return. *)
Fixpoint mesh_perr_loop (n : nat) (buf : list Z) (start pos needed elen : Z) : option (option Z) :=
  match n with
  | O => Some (Some needed)
  | S n =>
      if elen <? pos - start + sizeof_mesh_hwmp_perr_dst then Some None
      else
        flags ← rd8 buf pos;
        let dst_len := u8 (sizeof_mesh_hwmp_perr_dst + (if nz (flags .& AE_F) then ETH_ALEN else 0) + 2) in
        mesh_perr_loop n buf start (pos + dst_len) (needed + dst_len) elen
  end.

Definition ieee80211_mesh_perr_size_ok (buf : list Z) (p elen : Z) : option bool :=
  let needed := sizeof_mesh_hwmp_perr in
  if elen <? needed then Some false
  else
    number_of_dst ← rd8 buf (p + 1);
    r ← mesh_perr_loop (Z.to_nat number_of_dst) buf p (p + sizeof_mesh_hwmp_perr) needed elen;
    Some (match r with Some needed => elen =? needed | None => false end).

(** ** Transmit power envelopes *)

Definition IEEE80211_TPE_LOCAL_EIRP : Z := 0.
Definition IEEE80211_TPE_LOCAL_EIRP_PSD : Z := 1.
Definition IEEE80211_TPE_REG_CLIENT_EIRP : Z := 2.
Definition IEEE80211_TPE_REG_CLIENT_EIRP_PSD : Z := 3.
Definition IEEE80211_TPE_CAT_6GHZ_DEFAULT : Z := 0.
Definition IEEE80211_TPE_CAT_6GHZ_SUBORDINATE : Z := 1.
Definition IEEE80211_TX_PWR_ENV_INFO_COUNT : Z := 0x7.
Definition IEEE80211_TX_PWR_ENV_INFO_INTERPRET : Z := 0x38.
Definition IEEE80211_TX_PWR_ENV_INFO_CATEGORY : Z := 0xC0.
Definition IEEE80211_TX_PWR_ENV_EXT_COUNT : Z := 0xF.
Definition sizeof_tx_pwr_env : Z := 1.

Definition ieee80211_valid_tpe_element (buf : list Z) (p len : Z) : option bool :=
  let needed := sizeof_tx_pwr_env in
  if len <? needed then Some false
  else
    info ← rd8 buf p;
    let count := get_bits info IEEE80211_TX_PWR_ENV_INFO_COUNT in
    let interpret := get_bits info IEEE80211_TX_PWR_ENV_INFO_INTERPRET in
    let category := get_bits info IEEE80211_TX_PWR_ENV_INFO_CATEGORY in
    if negb ((category =? IEEE80211_TPE_CAT_6GHZ_DEFAULT) || (category =? IEEE80211_TPE_CAT_6GHZ_SUBORDINATE))
    then Some false
    else if (interpret =? IEEE80211_TPE_LOCAL_EIRP) || (interpret =? IEEE80211_TPE_REG_CLIENT_EIRP) then
      if 3 <? count then Some false
      else Some (negb (len <? u8 (needed + (count + 1))))
    else if (interpret =? IEEE80211_TPE_LOCAL_EIRP_PSD) || (interpret =? IEEE80211_TPE_REG_CLIENT_EIRP_PSD) then
      if 4 <? count then Some false
      else
        let N := if nz count then 1 << (count - 1) else 1 in
        let needed := u8 (needed + N) in
        if len <? needed then Some false
        else if needed <? len then
          ext ← rd8 buf (p + sizeof_tx_pwr_env + N);
          let K := get_bits ext IEEE80211_TX_PWR_ENV_EXT_COUNT in
          Some (negb (len <? u8 (needed + (1 + K))))
        else Some true
    else Some false.

(** ** The checks stay inside the element *)

Lemma get_bits_bound v m : 0 <= m -> 0 < m .& - m -> 0 <= get_bits v m <= m / (m .& - m).
Proof.
  intros Hm Hl. unfold get_bits. pose proof (land_le v m Hm).
  split; [apply Z.div_pos; lia|apply Z.div_le_mono; lia].
Qed.

Section safe.
Context (buf : list Z) (p len : Z).
Hypotheses (Hok : bytes_ok buf) (Hp : 0 <= p) (Hl : p + len <= zlen buf).

(** One read or test at a time. *)
Local Ltac rd :=
  match goal with
  | |- exists _, Some _ = Some _ => eexists; reflexivity
  | |- context [mbind _ (rd8 buf ?o)] =>
      let H := fresh "E" in let b := fresh "b" in
      destruct (rd8_Some buf o) as [b H]; [lia|]; rewrite H, bind_some; apply (rd8_ok _ _ _ Hok) in H;
      unfold is_uint in H; change (2 ^ 8) with 256 in H
  | |- context [mbind _ (rd_le16 buf ?o)] =>
      let b := fresh "b" in destruct (rd_le16_Some buf o) as [b ->]; [lia..|]; rewrite bind_some
  | |- context [mbind _ (rd_le32 buf ?o)] =>
      let b := fresh "b" in destruct (rd_le32_Some buf o) as [b ->]; [lia..|]; rewrite bind_some
  | |- context [if ?a <? ?b then _ else _] => destruct (Z.ltb_spec a b)
  | |- context [if nz ?b then _ else _] => destruct (nz b)
  | |- context [if negb (nz ?b) then _ else _] => destruct (nz b); cbn [negb]
  | |- context [mbind _ (Some _)] => rewrite bind_some
  end.

Lemma he_capa_size_ok_safe : exists b, ieee80211_he_capa_size_ok buf p len = Some b.
Proof.
  unfold ieee80211_he_capa_size_ok, ieee80211_he_mcs_nss_size, sizeof_he_cap_elem, he_phy_cap. cbv zeta.
  rd; [rd|]. rd. rewrite bind_some.
  match goal with |- context [17 + ?m] => assert (4 <= m <= 12) by (repeat case_match; lia); set (m' := m) in * end.
  rewrite (wrap_small 8 (17 + m')) by (unfold is_uint; lia). repeat rd.
Qed.

Lemma he_oper_size_safe : sizeof_he_operation <= len -> exists n, ieee80211_he_oper_size buf p = Some n.
Proof. unfold ieee80211_he_oper_size, sizeof_he_operation. intros. repeat rd. Qed.

Lemma he_spr_size_safe : sizeof_he_spr <= len -> exists n, ieee80211_he_spr_size buf p = Some n.
Proof. unfold ieee80211_he_spr_size, sizeof_he_spr. intros. repeat rd. Qed.

Lemma eht_capa_size_ok_safe he_cap ap :
  from_option (fun q => 0 <= q /\ q + sizeof_he_cap_elem <= zlen buf) True he_cap ->
  exists b, ieee80211_eht_capa_size_ok buf he_cap p len ap = Some b.
Proof.
  unfold ieee80211_eht_capa_size_ok, sizeof_eht_cap_elem_fixed, sizeof_he_cap_elem, eht_phy_cap.
  destruct he_cap as [q|]; cbn [from_option]; [intros Hq|intros; by eexists]. rd; [rd|].
  assert (exists m, ieee80211_eht_mcs_nss_size buf q p ap = Some m /\ 3 <= m <= 9) as (m & -> & Hm).
  { unfold ieee80211_eht_mcs_nss_size, he_phy_cap, eht_phy_cap. rd. destruct (nz _); [eexists; split; [done|lia]|].
    cbv zeta. rd. eexists. split; [reflexivity|]. unfold nz. repeat case_match; lia. }
  rewrite bind_some. rewrite (wrap_small 8 (11 + m)) by (unfold is_uint; lia). repeat rd.
Qed.

Lemma eht_oper_size_ok_safe : exists b, ieee80211_eht_oper_size_ok buf p len = Some b.
Proof. unfold ieee80211_eht_oper_size_ok, sizeof_eht_operation. repeat rd. Qed.

Lemma bandwidth_indication_size_ok_safe : exists b, ieee80211_bandwidth_indication_size_ok buf p len = Some b.
Proof. unfold ieee80211_bandwidth_indication_size_ok, sizeof_bandwidth_indication. repeat rd. Qed.

Lemma uhr_oper_size_ok_safe : exists b, ieee80211_uhr_oper_size_ok buf p len = Some b.
Proof.
  unfold ieee80211_uhr_oper_size_ok, ieee80211_uhr_npca_info_size, ieee80211_uhr_dbe_info_size,
    sizeof_uhr_operation, sizeof_uhr_dps_info, sizeof_uhr_npca_info, sizeof_uhr_p_edca_info, sizeof_uhr_dbe_info.
  cbv zeta. rd; [rd|]. rd.
  match goal with |- context [if len <? ?e then _ else _] =>
    assert (2 <= e) by (case_match; lia); set (n1 := e) in * end.
  rd; [rd|].
  match goal with |- context [if len <? ?e then _ else _] =>
    assert (2 <= e) by (case_match; lia); set (n2 := e) in * end.
  rd; [rd|].
  destruct (nz (b .& IEEE80211_UHR_OPER_PARAMS_NPCA_PRES)); cbn [andb]; [rd; [rd|]; rd|]; rewrite bind_some;
    (match goal with |- context [if len <? ?e then _ else _] =>
       assert (2 <= e) by (repeat case_match; lia); set (n3 := e) in * end);
    (rd; [rd|]);
    (match goal with |- context [if len <? ?e then _ else _] =>
       assert (2 <= e) by (repeat case_match; lia); set (n4 := e) in * end);
    (rd; [rd|]);
    (destruct (nz (b .& IEEE80211_UHR_OPER_PARAMS_DBE_PRES)); cbn [andb]; [rd; [rd|]; rd|]; rewrite bind_some; rd).
Qed.

Lemma uhr_capa_size_ok_safe ap : exists b, ieee80211_uhr_capa_size_ok buf p len ap = Some b.
Proof.
  unfold ieee80211_uhr_capa_size_ok, sizeof_uhr_cap, sizeof_uhr_cap_dbe, sizeof_uhr_cap_dbe_bwcap.
  rd; [rd|]. rd. destruct (ap && _); [|rd]. rd; [rd|]. repeat rd.
Qed.

Lemma smd_part_safe size pos rem :
  (forall n, 0 <= n -> 1 <= size n) -> 0 <= pos -> pos + rem <= zlen buf ->
  exists r, smd_part size buf pos rem = Some r /\
    from_option (fun '(pos, rem) => 0 <= pos /\ pos + rem <= zlen buf) True r.
Proof.
  intros Hs H0 Hr. unfold smd_part. destruct (Z.ltb_spec rem 1); [by eexists|].
  destruct (rd8_Some buf pos) as [n En]; [lia|]. rewrite En, bind_some. apply (rd8_ok _ _ _ Hok) in En.
  specialize (Hs n ltac:(apply En)). eexists. split; [done|]. destruct (Z.ltb_spec rem (size n)); cbn [from_option]; lia.
Qed.

Lemma smd_if_safe present size at_ :
  (forall n, 0 <= n -> 1 <= size n) ->
  from_option (fun '(pos, rem) => 0 <= pos /\ pos + rem <= zlen buf) True at_ ->
  exists r, smd_if present (smd_part size) buf at_ = Some r /\
    from_option (fun '(pos, rem) => 0 <= pos /\ pos + rem <= zlen buf) True r.
Proof.
  intros Hs Ha. unfold smd_if. destruct at_ as [[pos rem]|]; [|by eexists]. destruct present; [|by eexists].
  destruct Ha. by apply smd_part_safe.
Qed.

Lemma hweight8_nonneg z : 0 <= hweight8 z.
Proof. apply popcount_range. Qed.

Lemma smd_prep_resp_size_ok_safe : exists b, ieee80211_smd_prep_resp_size_ok buf p len = Some b.
Proof.
  unfold ieee80211_smd_prep_resp_size_ok, ieee80211_smd_bss_trans_ba_info_ok, ieee80211_smd_bss_trans_scs_list_ok. rd; [rd|]. rd. cbv zeta.
  assert (forall n : Z, 0 <= n -> 1 <= 1 + n) as Hs by lia.
  assert (forall n : Z, 0 <= n -> 1 <= 1 + hweight8 n * 3) as Hb by (intros n _; pose proof (hweight8_nonneg n); lia).
  edestruct smd_if_safe as (r1 & -> & H1); [exact Hb|cbn; lia|]. rewrite bind_some.
  edestruct smd_if_safe as (r2 & -> & H2); [exact Hb|exact H1|]. rewrite bind_some.
  edestruct smd_if_safe as (r3 & -> & H3); [exact Hs|exact H2|]. rewrite bind_some. rd.
Qed.

Lemma smd_exec_resp_size_ok_safe : exists b, ieee80211_smd_exec_resp_size_ok buf p len = Some b.
Proof.
  unfold ieee80211_smd_exec_resp_size_ok, ieee80211_smd_bss_trans_ul_sn_list_ok. rd; [rd|]. rd. cbv zeta.
  assert (forall n : Z, 0 <= n -> 1 <= 1 + DIV_ROUND_UP (hweight8 n * 12) 8) as Hs.
  { intros n _. pose proof (hweight8_nonneg n). unfold DIV_ROUND_UP.
    assert (0 <= (hweight8 n * 12 + 8 - 1) / 8) by (apply Z.div_pos; lia). lia. }
  destruct (nz (b .& IEEE80211_ST_CONTROL_EXEC_RESP_NOM_MAX_DL_DRAIN_PRESENT)); cbn [andb]; [rd; [rd|]|];
    (edestruct smd_if_safe as (r1 & -> & H1); [exact Hs|cbn; lia|]); rewrite bind_some; rd.
Qed.

Lemma mesh_preq_size_ok_safe : exists b, ieee80211_mesh_preq_size_ok buf p len = Some b.
Proof.
  unfold ieee80211_mesh_preq_size_ok, ieee80211_mesh_preq_prep_ae_enabled, sizeof_mesh_hwmp_preq_top,
    sizeof_mesh_hwmp_preq_bottom, ETH_ALEN. rd; [rd|]. rd. rewrite bind_some. cbv zeta.
  match goal with |- context [len <? 17 + ?e + 9] => assert (0 <= e) by (case_match; lia); set (ext := e) in * end.
  rd; [rd|]. rd. repeat rd.
Qed.

Lemma mesh_prep_size_ok_safe : exists b, ieee80211_mesh_prep_size_ok buf p len = Some b.
Proof.
  unfold ieee80211_mesh_prep_size_ok, ieee80211_mesh_preq_prep_ae_enabled, sizeof_mesh_hwmp_prep_top.
  rd; [rd|]. rd. rewrite bind_some. rd.
Qed.

Lemma mesh_perr_loop_safe n : forall pos needed,
  p <= pos -> exists r, mesh_perr_loop n buf p pos needed len = Some r.
Proof.
  induction n as [|n IH]; intros pos needed Hpos; cbn [mesh_perr_loop]; [by eexists|].
  unfold sizeof_mesh_hwmp_perr_dst. rd; [by eexists|]. rd. cbv zeta. apply IH.
  rewrite wrap_small by (unfold is_uint; case_match; unfold ETH_ALEN; lia). case_match; unfold ETH_ALEN; lia.
Qed.

Lemma mesh_perr_size_ok_safe : exists b, ieee80211_mesh_perr_size_ok buf p len = Some b.
Proof.
  unfold ieee80211_mesh_perr_size_ok, sizeof_mesh_hwmp_perr. rd; [rd|]. rd.
  edestruct mesh_perr_loop_safe as [r ->]; [|rewrite bind_some; rd]. lia.
Qed.

Lemma tid_to_link_map_size_ok_safe : exists b, ieee80211_tid_to_link_map_size_ok buf p len = Some b.
Proof.
  unfold ieee80211_tid_to_link_map_size_ok, sizeof_ttlm_elem. cbv zeta. rd; [rd|]. rd.
  destruct (negb (nz (b .& IEEE80211_TTLM_CONTROL_DEF_LINK_MAP))); [|rd].
  match goal with |- context [if len <? ?e then _ else _] =>
    assert (2 <= e) by (repeat case_match; lia); set (n1 := e) in * end.
  rd; [rd|]. rd. rd.
Qed.

Lemma uhr_param_update_tuple_at_safe tuple end_ :
  0 <= tuple -> end_ <= zlen buf ->
  uhr_param_update_tuple_at buf tuple end_ = Some None \/
  exists size control, uhr_param_update_tuple_at buf tuple end_ = Some (Some size) /\ tuple + size <= end_ /\
    rd8 buf tuple = Some control /\
    if nz (control .& IEEE80211_UHR_PARAM_UPDATE_MODE_CTRL_MODE_ENABLE)
    then exists l, rd8 buf (tuple + 1) = Some l /\ 0 <= l /\ size = 2 + l else size = 1.
Proof.
  intros H0 He. unfold uhr_param_update_tuple_at, ieee80211_uhr_param_update_tuple_size.
  destruct (Z.ltb_spec (end_ - tuple) 1); [by left|].
  destruct (rd8_Some buf tuple) as [c Ec]; [lia|]. rewrite Ec, !bind_some.
  destruct (nz (c .& IEEE80211_UHR_PARAM_UPDATE_MODE_CTRL_MODE_ENABLE)) eqn:En; cbn [negb].
  - destruct (Z.ltb_spec (end_ - tuple) (1 + 1)); [by left|].
    destruct (rd8_Some buf (tuple + 1)) as [l El]; [lia|]. rewrite El, !bind_some.
    pose proof (rd8_ok _ _ _ Hok El) as [? _].
    destruct (Z.ltb_spec (end_ - tuple) (1 + 1 + l)); [by left|right].
    exists (2 + l), c. rewrite En. split_and!; [f_equal; f_equal; lia|lia|done|]. exists l. split_and!; (done || lia).
  - destruct (Z.ltb_spec (end_ - tuple) (1 + 0)); [by left|]. rewrite bind_some.
    destruct (Z.ltb_spec (end_ - tuple) 1); [lia|right]. exists 1, c. rewrite En. split_and!; (done || lia).
Qed.

Lemma uhr_param_update_tuple_ok_safe tuple size control :
  0 <= tuple -> tuple + size <= zlen buf -> rd8 buf tuple = Some control ->
  (if nz (control .& IEEE80211_UHR_PARAM_UPDATE_MODE_CTRL_MODE_ENABLE)
   then exists l, rd8 buf (tuple + 1) = Some l /\ 0 <= l /\ size = 2 + l else size = 1) ->
  exists b, uhr_param_update_tuple_ok buf tuple = Some b.
Proof.
  intros H0 Hs Ec H. unfold uhr_param_update_tuple_ok, ieee80211_uhr_npca_info_size, ieee80211_uhr_dbe_info_size,
    sizeof_uhr_npca_info, sizeof_uhr_dbe_info. rewrite Ec, bind_some.
  destruct (nz _); cbn [negb]; [|rd]. destruct H as (l & -> & Hl0 & ->). rewrite bind_some. cbv zeta.
  repeat match goal with |- context [if ?a =? ?b then _ else _] => destruct (a =? b) end; repeat rd.
Qed.

Lemma uhr_param_update_loop_safe fuel : forall tuple end_,
  0 <= tuple <= end_ -> end_ <= zlen buf -> end_ - tuple < Z.of_nat fuel ->
  exists b, uhr_param_update_loop fuel buf tuple end_ = Some b.
Proof.
  induction fuel as [|fuel IH]; intros tuple end_ H0 He Hf; [lia|]. cbn [uhr_param_update_loop].
  destruct (uhr_param_update_tuple_at_safe tuple end_ ltac:(lia) He) as [->|(size & c & -> & Hs & Ec & Hc)];
    rewrite bind_some; [rd|].
  destruct (uhr_param_update_tuple_ok_safe tuple size c) as [b ->]; [lia..|done|done|]. rewrite bind_some.
  destruct b; cbn [negb]; [|rd]. apply IH; [|lia|];
    (destruct (nz _); [destruct Hc as (l & _ & ? & ->)|subst size]; lia).
Qed.

Lemma uhr_param_update_ok_safe : exists b, ieee80211_uhr_param_update_ok buf (Some p) len = Some b.
Proof.
  unfold ieee80211_uhr_param_update_ok. destruct (Z.ltb_spec len (1 + 1)); [rd|].
  apply uhr_param_update_loop_safe; lia.
Qed.

(** What a positive check of an envelope gives: the counts in range and the
    powers inside the element. *)
Definition tpe_fits (info : Z) : Prop :=
  let count := get_bits info IEEE80211_TX_PWR_ENV_INFO_COUNT in
  let interpret := get_bits info IEEE80211_TX_PWR_ENV_INFO_INTERPRET in
  0 <= get_bits info IEEE80211_TX_PWR_ENV_INFO_CATEGORY <= 1 /\ 0 <= count /\
  if (interpret =? IEEE80211_TPE_LOCAL_EIRP) || (interpret =? IEEE80211_TPE_REG_CLIENT_EIRP)
  then count <= 3 /\ 1 + count + 1 <= len
  else count <= 4 /\
    let N := if nz count then 2 ^ (count - 1) else 1 in
    1 + N <= len /\
    (1 + N < len -> exists ext, rd8 buf (p + 1 + N) = Some ext /\
       1 + N + 1 + get_bits ext IEEE80211_TX_PWR_ENV_EXT_COUNT <= len).


Lemma valid_tpe_element_safe : exists b, ieee80211_valid_tpe_element buf p len = Some b /\
  (b = true -> 1 <= len /\ exists info, rd8 buf p = Some info /\ tpe_fits info).
Proof.
  unfold ieee80211_valid_tpe_element, tpe_fits, sizeof_tx_pwr_env. cbv zeta.
  destruct (Z.ltb_spec len 1); [by eexists|].
  destruct (rd8_Some buf p) as [info Ei]; [lia|]. rewrite Ei, bind_some.
  pose proof (get_bits_bound info IEEE80211_TX_PWR_ENV_INFO_COUNT ltac:(done) ltac:(done)) as [Hc0 _].
  pose proof (get_bits_bound info IEEE80211_TX_PWR_ENV_INFO_CATEGORY ltac:(done) ltac:(done)) as [Hg0 _].
  set (count := get_bits info IEEE80211_TX_PWR_ENV_INFO_COUNT) in *.
  set (interpret := get_bits info IEEE80211_TX_PWR_ENV_INFO_INTERPRET) in *.
  set (category := get_bits info IEEE80211_TX_PWR_ENV_INFO_CATEGORY) in *.
  destruct (negb _) eqn:Ecat; [by eexists|].
  assert (0 <= category <= 1).
  { apply negb_false_iff, orb_true_iff in Ecat. rewrite !Z.eqb_eq in Ecat.
    unfold IEEE80211_TPE_CAT_6GHZ_DEFAULT, IEEE80211_TPE_CAT_6GHZ_SUBORDINATE in Ecat. lia. }
  destruct ((interpret =? IEEE80211_TPE_LOCAL_EIRP) || (interpret =? IEEE80211_TPE_REG_CLIENT_EIRP)) eqn:Ee.
  { destruct (Z.ltb_spec 3 count); [by eexists|]. rewrite wrap_small by (unfold is_uint; lia).
    eexists. split; [done|]. intros Hb. apply negb_true_iff, Z.ltb_ge in Hb. split; [done|]. exists info.
    fold count interpret category. rewrite Ee. split_and!; (done || lia). }
  destruct ((interpret =? IEEE80211_TPE_LOCAL_EIRP_PSD) || (interpret =? IEEE80211_TPE_REG_CLIENT_EIRP_PSD)); [|by eexists].
  destruct (Z.ltb_spec 4 count); [by eexists|].
  assert ((if nz count then 1 << (count - 1) else 1) = (if nz count then 2 ^ (count - 1) else 1)) as ->.
  { unfold nz. zcase; cbn [negb]; [done|]. by rewrite Z.shiftl_mul_pow2, Z.mul_1_l by lia. }
  assert (1 <= (if nz count then 2 ^ (count - 1) else 1) <= 8) as HN.
  { unfold nz. zcase; cbn [negb]; [lia|].
    pose proof (Z.pow_le_mono_r 2 0 (count - 1)). pose proof (Z.pow_le_mono_r 2 (count - 1) 3).
    change (2 ^ 0) with 1 in *. change (2 ^ 3) with 8 in *. lia. }
  set (N := if nz count then 2 ^ (count - 1) else 1) in *.
  rewrite (wrap_small 8 (1 + N)) by (unfold is_uint; lia).
  destruct (Z.ltb_spec len (1 + N)); [by eexists|].
  destruct (Z.ltb_spec (1 + N) len).
  - destruct (rd8_Some buf (p + 1 + N)) as [ext Ex]; [lia|]. rewrite Ex, bind_some.
    pose proof (get_bits_bound ext IEEE80211_TX_PWR_ENV_EXT_COUNT ltac:(done) ltac:(done)) as HK.
    set (K := get_bits ext IEEE80211_TX_PWR_ENV_EXT_COUNT) in *.
    change (IEEE80211_TX_PWR_ENV_EXT_COUNT / (IEEE80211_TX_PWR_ENV_EXT_COUNT .& - IEEE80211_TX_PWR_ENV_EXT_COUNT)) with 15 in HK.
    rewrite wrap_small by (unfold is_uint; lia). eexists. split; [done|].
    intros Hb. apply negb_true_iff, Z.ltb_ge in Hb. split; [done|]. exists info.
    fold count interpret category. rewrite Ee. fold N. split; [done|]. split_and!; try lia.
    intros _. exists ext. split; [done|]. fold K. lia.
  - eexists. split; [done|]. intros _. split; [done|]. exists info.
    fold count interpret category. rewrite Ee. fold N. split; [done|]. split_and!; lia.
Qed.
End safe.
