(* ===== verification/Parse.v ===== *)
(** * Parse: the element parser of mac80211

    [net/mac80211/parse.c]: the walk over the elements of a management frame
    that records, for each element mac80211 knows, a pointer into the frame,
    with the checks of [net/wireless/scan.c] for inherited elements; the
    selection of a non-transmitted BSS profile or of a per-station profile of a
    multi-link element, whose elements override those of the frame; and the
    defragmentation of the multi-link elements into the scratch buffer.

    A pointer is an offset into a list of octets.  The walk over the elements
    of one range reads the object the range lies in.  The whole parser works on
    two objects, the frame and the scratch buffer allocated with the result;
    [object] is what can be read through a pointer into either of them, so that
    a read past the end of the frame faults as one past the end of the buffer
    does.
    A field of [struct ieee802_11_elems] that points to an element is an entry
    of [refs] under the field's name: the pointer with the length of the data
    behind it (which the C structure keeps only for the fields that have a
    [_len]).  [crc32_be] is the kernel's. *)
From stdpp Require Import gmap strings.
From S2P Require Import Prelude Frame Skb Mle Ttlm Element ElemSizes.

(** ** Constants *)

Definition WLAN_EID_SSID : Z := 0.
Definition WLAN_EID_SUPP_RATES : Z := 1.
Definition WLAN_EID_FH_PARAMS : Z := 2.
Definition WLAN_EID_DS_PARAMS : Z := 3.
Definition WLAN_EID_CF_PARAMS : Z := 4.
Definition WLAN_EID_TIM : Z := 5.
Definition WLAN_EID_IBSS_PARAMS : Z := 6.
Definition WLAN_EID_COUNTRY : Z := 7.
Definition WLAN_EID_CHALLENGE : Z := 16.
Definition WLAN_EID_PWR_CONSTRAINT : Z := 32.
Definition WLAN_EID_CHANNEL_SWITCH : Z := 37.
Definition WLAN_EID_ERP_INFO : Z := 42.
Definition WLAN_EID_HT_CAPABILITY : Z := 45.
Definition WLAN_EID_RSN : Z := 48.
Definition WLAN_EID_EXT_SUPP_RATES : Z := 50.
Definition WLAN_EID_TIMEOUT_INTERVAL : Z := 56.
Definition WLAN_EID_EXT_CHANSWITCH_ANN : Z := 60.
Definition WLAN_EID_HT_OPERATION : Z := 61.
Definition WLAN_EID_SECONDARY_CHANNEL_OFFSET : Z := 62.
Definition WLAN_EID_MULTIPLE_BSSID : Z := 71.
Definition WLAN_EID_NON_TX_BSSID_CAP : Z := 83.
Definition WLAN_EID_MULTI_BSSID_IDX : Z := 85.
Definition WLAN_EID_BSS_MAX_IDLE_PERIOD : Z := 90.
Definition WLAN_EID_LINK_ID : Z := 101.
Definition WLAN_EID_CHAN_SWITCH_TIMING : Z := 104.
Definition WLAN_EID_MESH_CONFIG : Z := 113.
Definition WLAN_EID_MESH_ID : Z := 114.
Definition WLAN_EID_PEER_MGMT : Z := 117.
Definition WLAN_EID_CHAN_SWITCH_PARAM : Z := 118.
Definition WLAN_EID_MESH_AWAKE_WINDOW : Z := 119.
Definition WLAN_EID_RANN : Z := 126.
Definition WLAN_EID_EXT_CAPABILITY : Z := 127.
Definition WLAN_EID_PREQ : Z := 130.
Definition WLAN_EID_PREP : Z := 131.
Definition WLAN_EID_PERR : Z := 132.
Definition WLAN_EID_ADDBA_EXT : Z := 159.
Definition WLAN_EID_VHT_CAPABILITY : Z := 191.
Definition WLAN_EID_VHT_OPERATION : Z := 192.
Definition WLAN_EID_WIDE_BW_CHANNEL_SWITCH : Z := 194.
Definition WLAN_EID_TX_POWER_ENVELOPE : Z := 195.
Definition WLAN_EID_CHANNEL_SWITCH_WRAPPER : Z := 196.
Definition WLAN_EID_OPMODE_NOTIF : Z := 199.
Definition WLAN_EID_AID_RESPONSE : Z := 211.
Definition WLAN_EID_S1G_SHORT_BCN_INTERVAL : Z := 214.
Definition WLAN_EID_S1G_CAPABILITIES : Z := 217.
Definition WLAN_EID_VENDOR_SPECIFIC : Z := 221.
Definition WLAN_EID_S1G_OPERATION : Z := 232.
Definition WLAN_EID_RSNX : Z := 244.
Definition WLAN_EID_EXT_HE_CAPABILITY : Z := 35.
Definition WLAN_EID_EXT_HE_OPERATION : Z := 36.
Definition WLAN_EID_EXT_UORA : Z := 37.
Definition WLAN_EID_EXT_HE_MU_EDCA : Z := 38.
Definition WLAN_EID_EXT_HE_SPR : Z := 39.
Definition WLAN_EID_EXT_MAX_CHANNEL_SWITCH_TIME : Z := 52.
Definition WLAN_EID_EXT_MULTIPLE_BSSID_CONFIGURATION : Z := 55.
Definition WLAN_EID_EXT_NON_INHERITANCE : Z := 56.
Definition WLAN_EID_EXT_HE_6GHZ_CAPA : Z := 59.
Definition WLAN_EID_EXT_EHT_OPERATION : Z := 106.
Definition WLAN_EID_EXT_EHT_MULTI_LINK : Z := 107.
Definition WLAN_EID_EXT_EHT_CAPABILITY : Z := 108.
Definition WLAN_EID_EXT_BANDWIDTH_INDICATION : Z := 135.
Definition WLAN_EID_EXT_CIP_CAPA : Z := 150.
Definition WLAN_EID_EXT_UHR_OPER : Z := 151.
Definition WLAN_EID_EXT_UHR_CAPA : Z := 152.
Definition WLAN_EID_EXT_BSS_SMD_TRANS_PARAMS : Z := 155.
Definition WLAN_EID_EXT_UHR_PARAM_UPD : Z := 158.

Definition IEEE80211_PARSE_ERR_INVALID_END : Z := BIT 0.
Definition IEEE80211_PARSE_ERR_DUP_ELEM : Z := BIT 1.
Definition IEEE80211_PARSE_ERR_BAD_ELEM_SIZE : Z := BIT 2.
Definition IEEE80211_PARSE_ERR_UNEXPECTED_ELEM : Z := BIT 3.
Definition IEEE80211_PARSE_ERR_DUP_NEST_ML_BASIC : Z := BIT 4.
Definition IEEE80211_PARSE_ERR_INVALID_UHR_PARAM_UPD : Z := BIT 5.

Definition IEEE80211_CONN_MODE_S1G : Z := 0.
Definition IEEE80211_CONN_MODE_HT : Z := 2.
Definition IEEE80211_CONN_MODE_VHT : Z := 3.
Definition IEEE80211_CONN_MODE_HE : Z := 4.
Definition IEEE80211_CONN_MODE_EHT : Z := 5.
Definition IEEE80211_CONN_MODE_UHR : Z := 6.

Definition MGMT_ACTION : Z := 0x00d0.
Definition PARSE_ACTION_FRAME_ST_PREP_RESP : Z := 1.
Definition PARSE_ACTION_FRAME_ST_EXEC_RESP : Z := 2.

(** Sizes of the structures of [include/linux/ieee80211*.h]. *)
Definition sizeof_tdls_lnkie : Z := 20.
Definition sizeof_ch_switch_timing : Z := 4.
Definition sizeof_ht_cap : Z := 26.
Definition sizeof_ht_operation : Z := 22.
Definition sizeof_vht_cap : Z := 12.
Definition sizeof_vht_operation : Z := 5.
Definition sizeof_meshconf_ie : Z := 7.
Definition sizeof_rann_ie : Z := 21.
Definition sizeof_channel_sw_ie : Z := 3.
Definition sizeof_ext_chansw_ie : Z := 4.
Definition sizeof_sec_chan_offs_ie : Z := 1.
Definition sizeof_mesh_chansw_params_ie : Z := 6.
Definition sizeof_wide_bw_chansw_ie : Z := 3.
Definition sizeof_addba_ext_ie : Z := 1.
Definition sizeof_timeout_interval_ie : Z := 5.
Definition sizeof_bss_max_idle_period_ie : Z := 3.
Definition sizeof_s1g_cap : Z := 15.
Definition sizeof_s1g_oper_ie : Z := 6.
Definition sizeof_s1g_bcn_compat_ie : Z := 8.
Definition sizeof_aid_response_ie : Z := 5.
Definition sizeof_mu_edca_param_set : Z := 13.
Definition sizeof_multiple_bssid_configuration : Z := 2.
Definition sizeof_he_6ghz_capa : Z := 2.
Definition sizeof_cip_cap : Z := 1.

(** ** State *)

(** A parsed transmit power envelope: the octets of [power] are [s8]. *)
Record tpe_entry := mk_tpe_entry {
  tpe_valid : bool;
  power : list Z;
  tpe_count : Z;
  tpe_n : Z;
}.
Record ieee80211_parsed_tpe := mk_parsed_tpe {
  max_local : list tpe_entry;
  max_reg_client : list tpe_entry;
  psd_local : list tpe_entry;
  psd_reg_client : list tpe_entry;
}.

Definition IEEE80211_TPE_EIRP_ENTRIES_320MHZ : Z := 5.
Definition IEEE80211_TPE_PSD_ENTRIES_320MHZ : Z := 16.
Definition IEEE80211_TPE_MAX_TX_PWR_NO_CONSTRAINT : Z := 127.
Definition IEEE80211_TPE_PSD_NO_LIMIT : Z := 127.

(** [ieee80211_clear_tpe] of a zeroed structure. *)
Definition ieee80211_clear_tpe : ieee80211_parsed_tpe :=
  let eirp := mk_tpe_entry false (replicate 5 IEEE80211_TPE_MAX_TX_PWR_NO_CONSTRAINT) 0 0 in
  let psd := mk_tpe_entry false (replicate 16 IEEE80211_TPE_PSD_NO_LIMIT) 0 0 in
  mk_parsed_tpe [eirp; eirp] [eirp; eirp] [psd; psd] [psd; psd].

(** What the walk fills in.  [defrag] holds the elements to defragment once it
    is done: element, start and length of the container. *)
Record ieee802_11_elems := mk_elems {
  refs : gmap string (Z * Z);
  defrag : gmap string (Z * Z * Z);
  ttlm : list (Z * Z);
  tpe : ieee80211_parsed_tpe;
  csa_tpe : ieee80211_parsed_tpe;
  unrestricted_ap_mode : Z;
  parse_error : Z;
}.

Definition set_refs (f : gmap string (Z * Z) -> gmap string (Z * Z)) (e : ieee802_11_elems) : ieee802_11_elems :=
  mk_elems (f (refs e)) (defrag e) (ttlm e) (tpe e) (csa_tpe e) (unrestricted_ap_mode e) (parse_error e).
Definition set_defrag (name : string) (d : Z * Z * Z) (e : ieee802_11_elems) : ieee802_11_elems :=
  mk_elems (refs e) (<[name := d]> (defrag e)) (ttlm e) (tpe e) (csa_tpe e) (unrestricted_ap_mode e) (parse_error e).
Definition add_ttlm (t : Z * Z) (e : ieee802_11_elems) : ieee802_11_elems :=
  mk_elems (refs e) (defrag e) (ttlm e ++ [t]) (tpe e) (csa_tpe e) (unrestricted_ap_mode e) (parse_error e).
Definition set_tpe (t : ieee80211_parsed_tpe) (e : ieee802_11_elems) : ieee802_11_elems :=
  mk_elems (refs e) (defrag e) (ttlm e) t (csa_tpe e) (unrestricted_ap_mode e) (parse_error e).
Definition set_csa_tpe (t : ieee80211_parsed_tpe) (e : ieee802_11_elems) : ieee802_11_elems :=
  mk_elems (refs e) (defrag e) (ttlm e) (tpe e) t (unrestricted_ap_mode e) (parse_error e).
Definition ieee80211_update_unr_ap_mode (mode : Z) (e : ieee802_11_elems) : ieee802_11_elems :=
  mk_elems (refs e) (defrag e) (ttlm e) (tpe e) (csa_tpe e) (Z.max mode (unrestricted_ap_mode e)) (parse_error e).
Definition add_error (err : Z) (e : ieee802_11_elems) : ieee802_11_elems :=
  mk_elems (refs e) (defrag e) (ttlm e) (tpe e) (csa_tpe e) (unrestricted_ap_mode e) (parse_error e .| err).

(** [elems->name = pos] with the length of the data. *)
Definition keep (name : string) (pos len : Z) : ieee802_11_elems -> ieee802_11_elems :=
  set_refs (fun m => <[name := (pos, len)]> m).

Definition zeroed_elems : ieee802_11_elems :=
  mk_elems ∅ ∅ [] ieee80211_clear_tpe ieee80211_clear_tpe 0 0.

(** [struct ieee80211_elems_parse_params]; of [bss], the address of its
    transmitting BSS, if it has one, and its own. *)
Record ieee80211_elems_parse_params := mk_params {
  mode : Z;
  p_start : Z;
  p_len : Z;
  type : Z;
  p_filter : Z;
  p_crc : Z;
  p_bss : option (option Z * Z);
  link_id : Z;
  from_ap : bool;
  action_frame : Z;
}.

(** ** Looking for an element *)

(** [cfg80211_find_elem_match] with an offset of 0: the first element with the
    id whose data starts with [prefix]; its position and length. *)
Fixpoint find_elem_loop (fuel : nat) (mem : list Z) (eid : Z) (prefix : list Z) (elem end_ : Z)
  : option (option (Z * Z)) :=
  match fuel with
  | O => None
  | S fuel =>
      e ← element_at mem elem end_;
      match e with
      | None => Some None
      | Some datalen =>
          let next := elem + sizeof_element + datalen in
          id ← rd8 mem elem;
          if (id =? eid) && (zlen prefix <=? datalen) then
            bs ← slice mem (elem + sizeof_element) (zlen prefix);
            if bool_decide (bs = prefix) then Some (Some (elem, datalen))
            else find_elem_loop fuel mem eid prefix next end_
          else find_elem_loop fuel mem eid prefix next end_
      end
  end.

Definition cfg80211_find_elem_match (mem : list Z) (eid : Z) (ies len : Z) (prefix : list Z) : option (option (Z * Z)) :=
  find_elem_loop (S (Z.to_nat len)) mem eid prefix ies (ies + len).
Definition cfg80211_find_elem (mem : list Z) (eid ies len : Z) : option (option (Z * Z)) :=
  cfg80211_find_elem_match mem eid ies len [].
Definition cfg80211_find_ext_elem (mem : list Z) (ext_eid ies len : Z) : option (option (Z * Z)) :=
  cfg80211_find_elem_match mem WLAN_EID_EXTENSION ies len [ext_eid].

(** [cfg80211_is_element_inherited]; the non-inheritance element is given as
    its own octets, so that a read past its end has no value. *)
Definition cfg80211_is_element_inherited (mem : list Z) (elem datalen : Z) (non_inherit : option (list Z))
  : option bool :=
  elem_id ← rd8 mem elem;
  if elem_id =? WLAN_EID_MULTIPLE_BSSID then Some false
  else
    ext_id ← (if (elem_id =? WLAN_EID_EXTENSION) && (1 <? datalen) then rd8 mem (elem + sizeof_element) else Some 0);
    if (elem_id =? WLAN_EID_EXTENSION) && (1 <? datalen) && (ext_id =? WLAN_EID_EXT_EHT_MULTI_LINK) then Some false
    else match non_inherit with
    | None => Some true
    | Some ni =>
        ni_len ← rd8 ni 1;
        if ni_len <? 2 then Some true
        else
          id_len ← rd8 ni (2 + 1);
          if ni_len <? 3 + id_len then Some true
          else
            ext_id_len ← rd8 ni (2 + 2 + id_len);
            if ni_len <? 3 + id_len + ext_id_len then Some true
            else if elem_id =? WLAN_EID_EXTENSION then
              if (ext_id_len =? 0) || (datalen =? 0) then Some true
              else
                id ← rd8 mem (elem + sizeof_element);
                list ← slice ni (2 + 3 + id_len) ext_id_len;
                Some (negb (bool_decide (id ∈ list)))
            else if id_len =? 0 then Some true
            else
              list ← slice ni (2 + 2) id_len;
              Some (negb (bool_decide (elem_id ∈ list)))
    end.

(** ** Transmit power envelopes *)

Definition set_power (t : tpe_entry) (p : list Z) (count n : Z) : tpe_entry := mk_tpe_entry true p count n.

(** The table an envelope of that interpretation goes to: read and written. *)
Definition tpe_table (interpret : Z) (t : ieee80211_parsed_tpe) : list tpe_entry :=
  if interpret =? IEEE80211_TPE_LOCAL_EIRP then max_local t
  else if interpret =? IEEE80211_TPE_REG_CLIENT_EIRP then max_reg_client t
  else if interpret =? IEEE80211_TPE_LOCAL_EIRP_PSD then psd_local t
  else psd_reg_client t.
Definition set_tpe_table (interpret : Z) (l : list tpe_entry) (t : ieee80211_parsed_tpe) : ieee80211_parsed_tpe :=
  if interpret =? IEEE80211_TPE_LOCAL_EIRP then mk_parsed_tpe l (max_reg_client t) (psd_local t) (psd_reg_client t)
  else if interpret =? IEEE80211_TPE_REG_CLIENT_EIRP then
    mk_parsed_tpe (max_local t) l (psd_local t) (psd_reg_client t)
  else if interpret =? IEEE80211_TPE_LOCAL_EIRP_PSD then
    mk_parsed_tpe (max_local t) (max_reg_client t) l (psd_reg_client t)
  else mk_parsed_tpe (max_local t) (max_reg_client t) (psd_local t) l.

(** The powers of an EIRP envelope, with the separate value for 320 MHz, and
    of a power density envelope, with its extension. *)
Definition tpe_eirp (mem : list Z) (p len count : Z) (out : tpe_entry) : option tpe_entry :=
  bs ← slice mem (p + sizeof_tx_pwr_env) (count + 1);
  pw ← store (power out) 0 bs;
  if (count =? 3) && (sizeof_tx_pwr_env + count + 1 <? len) then
    b ← rd8 mem (p + sizeof_tx_pwr_env + 4);
    pw ← store pw 4 [b];
    Some (set_power out pw 5 (tpe_n out))
  else Some (set_power out pw (count + 1) (tpe_n out)).

Definition tpe_psd (mem : list Z) (p len count : Z) (out : tpe_entry) : option tpe_entry :=
  if negb (nz count) then
    b ← rd8 mem (p + sizeof_tx_pwr_env);
    pw ← store (power out) 0 (replicate (Z.to_nat IEEE80211_TPE_PSD_ENTRIES_320MHZ) b);
    Some (set_power out pw IEEE80211_TPE_PSD_ENTRIES_320MHZ (tpe_n out))
  else
    let N := u8 (1 << (count - 1)) in
    bs ← slice mem (p + sizeof_tx_pwr_env) N;
    pw ← store (power out) 0 bs;
    if sizeof_tx_pwr_env + N <? len then
      ext ← rd8 mem (p + sizeof_tx_pwr_env + N);
      let K := Z.min (get_bits ext IEEE80211_TX_PWR_ENV_EXT_COUNT) (IEEE80211_TPE_PSD_ENTRIES_320MHZ - N) in
      bs ← slice mem (p + sizeof_tx_pwr_env + N + 1) K;
      pw ← store pw N bs;
      Some (set_power out pw (u8 (N + K)) N)
    else Some (set_power out pw N N).

Definition ieee80211_parse_tpe (mem : list Z) (t : ieee80211_parsed_tpe) (p len : Z) : option ieee80211_parsed_tpe :=
  ok ← ieee80211_valid_tpe_element mem p len;
  if negb ok then Some t
  else
    info ← rd8 mem p;
    let count := get_bits info IEEE80211_TX_PWR_ENV_INFO_COUNT in
    let interpret := get_bits info IEEE80211_TX_PWR_ENV_INFO_INTERPRET in
    let category := get_bits info IEEE80211_TX_PWR_ENV_INFO_CATEGORY in
    out ← tpe_table interpret t !! Z.to_nat category;
    out ← (if (interpret =? IEEE80211_TPE_LOCAL_EIRP) || (interpret =? IEEE80211_TPE_REG_CLIENT_EIRP)
           then tpe_eirp mem p len count out else tpe_psd mem p len count out);
    Some (set_tpe_table interpret (<[Z.to_nat category := out]> (tpe_table interpret t)) t).

(** ** Extension elements *)

Section parse.
Context (crc32_be : Z -> list Z -> Z).

(** [if (calc_crc) crc = crc32_be(crc, pos - 2, elen + 2)] *)
Definition crc_element (mem : list Z) (on : bool) (crc elem datalen : Z) : option Z :=
  if on then bs ← slice mem elem (datalen + 2); Some (crc32_be crc bs) else Some crc.

(** The body of the switch: the elements, and whether the element counts for
    the CRC.  [data] points behind the extension id. *)
Definition parse_extension_he (mem : list Z) (params : ieee80211_elems_parse_params) (id data len : Z)
    (e : ieee802_11_elems) (otherwise : option (ieee802_11_elems * bool)) : option (ieee802_11_elems * bool) :=
  let he := negb (mode params <? IEEE80211_CONN_MODE_HE) in
  if id =? WLAN_EID_EXT_HE_MU_EDCA then
    if negb he then Some (e, false)
    else Some (if sizeof_mu_edca_param_set <=? len then keep "mu_edca_param_set" data len e else e, true)
  else if id =? WLAN_EID_EXT_HE_CAPABILITY then
    let e := ieee80211_update_unr_ap_mode IEEE80211_CONN_MODE_HE e in
    if negb he then Some (e, false)
    else
      ok ← ieee80211_he_capa_size_ok mem data len;
      Some (if ok : bool then keep "he_cap" data len e else e, false)
  else if id =? WLAN_EID_EXT_HE_OPERATION then
    let e := ieee80211_update_unr_ap_mode IEEE80211_CONN_MODE_HE e in
    if negb he then Some (e, false)
    else if len <? sizeof_he_operation then Some (e, true)
    else
      size ← ieee80211_he_oper_size mem data;
      Some (if size - 1 <=? len then keep "he_operation" data len e else e, true)
  else if id =? WLAN_EID_EXT_UORA then
    Some (if he && (1 <=? len) then keep "uora_element" data len e else e, false)
  else if id =? WLAN_EID_EXT_MAX_CHANNEL_SWITCH_TIME then
    Some (if len =? 3 then keep "max_channel_switch_time" data len e else e, false)
  else if id =? WLAN_EID_EXT_MULTIPLE_BSSID_CONFIGURATION then
    Some (if sizeof_multiple_bssid_configuration <=? len then keep "mbssid_config_ie" data len e else e, false)
  else if id =? WLAN_EID_EXT_HE_SPR then
    if negb he || (len <? sizeof_he_spr) then Some (e, false)
    else
      size ← ieee80211_he_spr_size mem data;
      Some (if size - 1 <=? len then keep "he_spr" data len e else e, false)
  else if id =? WLAN_EID_EXT_HE_6GHZ_CAPA then
    Some (if he && (sizeof_he_6ghz_capa <=? len) then keep "he_6ghz_capa" data len e else e, false)
  else otherwise.

Definition parse_extension_eht (mem : list Z) (params : ieee80211_elems_parse_params) (inside_multilink : bool)
    (id elem data len : Z) (e : ieee802_11_elems) (otherwise : option (ieee802_11_elems * bool))
  : option (ieee802_11_elems * bool) :=
  let eht := negb (mode params <? IEEE80211_CONN_MODE_EHT) in
  if id =? WLAN_EID_EXT_EHT_CAPABILITY then
    let e := ieee80211_update_unr_ap_mode IEEE80211_CONN_MODE_EHT e in
    if negb eht then Some (e, false)
    else
      ok ← ieee80211_eht_capa_size_ok mem (fst <$> refs e !! "he_cap") data len (from_ap params);
      Some (if ok : bool then keep "eht_cap" data len e else e, false)
  else if id =? WLAN_EID_EXT_EHT_OPERATION then
    let e := ieee80211_update_unr_ap_mode IEEE80211_CONN_MODE_EHT e in
    if negb eht then Some (e, false)
    else
      ok ← ieee80211_eht_oper_size_ok mem data len;
      Some (if ok : bool then keep "eht_operation" data len e else e, true)
  else if id =? WLAN_EID_EXT_EHT_MULTI_LINK then
    if negb eht then Some (e, false)
    else
      ok ← ieee80211_mle_size_ok mem data len;
      if negb ok then Some (e, true)
      else
        control ← rd_le16 mem data;
        let t := control .& IEEE80211_ML_CONTROL_TYPE in
        let d := (elem, p_start params, p_len params) in
        Some (if t =? IEEE80211_ML_CONTROL_TYPE_BASIC then
                if inside_multilink then add_error IEEE80211_PARSE_ERR_DUP_NEST_ML_BASIC e
                else set_defrag "ml_basic" d e
              else if t =? IEEE80211_ML_CONTROL_TYPE_RECONF then set_defrag "ml_reconf" d e
              else if t =? IEEE80211_ML_CONTROL_TYPE_PRIO_ACCESS then set_defrag "ml_epcs" d e
              else e, true)
  else if id =? WLAN_EID_EXT_BANDWIDTH_INDICATION then
    if negb eht then Some (e, false)
    else
      ok ← ieee80211_bandwidth_indication_size_ok mem data len;
      Some (if ok : bool then keep "bandwidth_indication" data len e else e, true)
  else if id =? WLAN_EID_EXT_TID_TO_LINK_MAPPING then
    if negb eht then Some (e, false)
    else
      ok ← ieee80211_tid_to_link_map_size_ok mem data len;
      Some (if ok && (zlen (ttlm e) <? IEEE80211_TTLM_MAX_CNT) then add_ttlm (data, len) e else e, true)
  else otherwise.

Definition parse_extension_uhr (mem : list Z) (params : ieee80211_elems_parse_params)
    (id elem data len : Z) (e : ieee802_11_elems) : option (ieee802_11_elems * bool) :=
  let uhr := negb (mode params <? IEEE80211_CONN_MODE_UHR) in
  if id =? WLAN_EID_EXT_CIP_CAPA then
    Some (if sizeof_cip_cap <=? len then keep "cip_cap" data len e else e, false)
  else if id =? WLAN_EID_EXT_UHR_OPER then
    let e := ieee80211_update_unr_ap_mode IEEE80211_CONN_MODE_UHR e in
    if negb uhr then Some (e, false)
    else
      ok ← ieee80211_uhr_oper_size_ok mem data len;
      Some (if ok : bool then keep "uhr_operation" data len e else e, true)
  else if id =? WLAN_EID_EXT_UHR_CAPA then
    let e := ieee80211_update_unr_ap_mode IEEE80211_CONN_MODE_UHR e in
    if negb uhr then Some (e, false)
    else
      ok ← ieee80211_uhr_capa_size_ok mem data len true;
      Some (if ok : bool then keep "uhr_cap" data len e else e, true)
  else if id =? WLAN_EID_EXT_UHR_PARAM_UPD then
    if negb uhr then Some (e, false)
    else Some (set_defrag "uhr_param_upd" (elem, p_start params, p_len params) e, true)
  else if id =? WLAN_EID_EXT_BSS_SMD_TRANS_PARAMS then
    if action_frame params =? PARSE_ACTION_FRAME_ST_PREP_RESP then
      ok ← ieee80211_smd_prep_resp_size_ok mem data len;
      Some (if ok : bool then keep "smd_prep_resp" data len e else e, false)
    else if action_frame params =? PARSE_ACTION_FRAME_ST_EXEC_RESP then
      ok ← ieee80211_smd_exec_resp_size_ok mem data len;
      Some (if ok : bool then keep "smd_exec_resp" data len e else e, false)
    else Some (e, false)
  else Some (e, false).

(** The element starts at [elem]; [crc] is [None] when no CRC is wanted. *)
Definition ieee80211_parse_extension_element (mem : list Z) (params : ieee80211_elems_parse_params)
    (inside_multilink : bool) (want_crc : bool) (crc elem datalen : Z) (e : ieee802_11_elems)
  : option (ieee802_11_elems * Z) :=
  if datalen =? 0 then Some (e, crc)
  else
    let data := elem + sizeof_element + 1 in
    let len := datalen - 1 in
    id ← rd8 mem (elem + sizeof_element);
    '(e, calc_crc) ← parse_extension_he mem params id data len e
      (parse_extension_eht mem params inside_multilink id elem data len e
        (parse_extension_uhr mem params id elem data len e));
    crc ← crc_element mem (want_crc && calc_crc) crc elem datalen;
    Some (e, crc).

(** ** The walk over the elements

    The elements of which only the first counts. *)
Definition parse_once (id : Z) : bool :=
  bool_decide (id ∈ [WLAN_EID_SSID; WLAN_EID_SUPP_RATES; WLAN_EID_FH_PARAMS; WLAN_EID_DS_PARAMS;
    WLAN_EID_CF_PARAMS; WLAN_EID_TIM; WLAN_EID_IBSS_PARAMS; WLAN_EID_CHALLENGE; WLAN_EID_RSN;
    WLAN_EID_ERP_INFO; WLAN_EID_EXT_SUPP_RATES; WLAN_EID_HT_CAPABILITY; WLAN_EID_HT_OPERATION;
    WLAN_EID_VHT_CAPABILITY; WLAN_EID_VHT_OPERATION; WLAN_EID_MESH_ID; WLAN_EID_MESH_CONFIG;
    WLAN_EID_PEER_MGMT; WLAN_EID_PREQ; WLAN_EID_PREP; WLAN_EID_PERR; WLAN_EID_RANN;
    WLAN_EID_CHANNEL_SWITCH; WLAN_EID_EXT_CHANSWITCH_ANN; WLAN_EID_COUNTRY; WLAN_EID_PWR_CONSTRAINT;
    WLAN_EID_TIMEOUT_INTERVAL; WLAN_EID_SECONDARY_CHANNEL_OFFSET; WLAN_EID_WIDE_BW_CHANNEL_SWITCH;
    WLAN_EID_CHAN_SWITCH_PARAM; WLAN_EID_EXT_CAPABILITY; WLAN_EID_CHAN_SWITCH_TIMING; WLAN_EID_LINK_ID;
    WLAN_EID_BSS_MAX_IDLE_PERIOD; WLAN_EID_RSNX; WLAN_EID_S1G_BCN_COMPAT; WLAN_EID_S1G_CAPABILITIES;
    WLAN_EID_S1G_OPERATION; WLAN_EID_AID_RESPONSE; WLAN_EID_S1G_SHORT_BCN_INTERVAL]).

(** A case of the switch gives the elements, the value of [elem_parse_failed]
    and the CRC. *)
Definition outcome : Type := ieee802_11_elems * Z * Z.

(** [if (ok) elems->name = pos; else elem_parse_failed = BAD_ELEM_SIZE;] *)
Definition sized (ok : bool) (name : string) (pos elen crc : Z) (e : ieee802_11_elems) : option outcome :=
  if ok then Some (keep name pos elen e, 0, crc) else Some (e, IEEE80211_PARSE_ERR_BAD_ELEM_SIZE, crc).
Definition plain (name : string) (pos elen crc : Z) (e : ieee802_11_elems) : option outcome :=
  sized true name pos elen crc e.
Definition skip (crc : Z) (e : ieee802_11_elems) : option outcome := Some (e, 0, crc).

(** [WLAN_EID_VENDOR_SPECIFIC]: the WMM elements. *)
Definition parse_vendor (mem : list Z) (calc_crc skip_vendor : bool) (elem pos elen crc : Z)
    (e : ieee802_11_elems) : option outcome :=
  if skip_vendor || (elen <? 4) then skip crc e
  else
    oui ← slice mem pos 3;
    if negb (bool_decide (oui = [0x00; 0x50; 0xf2])) then skip crc e
    else
      crc ← crc_element mem calc_crc crc elem elen;
      if elen <? 5 then skip crc e
      else
        t ← rd8 mem (pos + 3);
        sub ← rd8 mem (pos + 4);
        if negb (t =? 2) then skip crc e
        else if sub =? 0 then plain "wmm_info" pos elen crc e
        else if sub =? 1 then plain "wmm_param" pos elen crc e
        else skip crc e.

(** The cases from [WLAN_EID_LINK_ID] to [WLAN_EID_EXT_SUPP_RATES]. *)
Definition parse_basic (mem : list Z) (params : ieee80211_elems_parse_params) (calc_crc skip_vendor : bool)
    (id elem pos elen crc : Z) (e : ieee802_11_elems) (otherwise : option outcome) : option outcome :=
  if id =? WLAN_EID_LINK_ID then sized (sizeof_tdls_lnkie <=? elen + 2) "lnk_id" (pos - 2) (elen + 2) crc e
  else if id =? WLAN_EID_CHAN_SWITCH_TIMING then
    sized (sizeof_ch_switch_timing <=? elen) "ch_sw_timing" pos elen crc e
  else if id =? WLAN_EID_EXT_CAPABILITY then plain "ext_capab" pos elen crc e
  else if id =? WLAN_EID_SSID then plain "ssid" pos elen crc e
  else if id =? WLAN_EID_SUPP_RATES then plain "supp_rates" pos elen crc e
  else if id =? WLAN_EID_DS_PARAMS then sized (1 <=? elen) "ds_params" pos elen crc e
  else if id =? WLAN_EID_TIM then
    sized (((mode params =? IEEE80211_CONN_MODE_S1G) && (2 <=? elen)) || (sizeof_tim_ie <=? elen)) "tim" pos elen crc e
  else if id =? WLAN_EID_VENDOR_SPECIFIC then parse_vendor mem calc_crc skip_vendor elem pos elen crc e
  else if id =? WLAN_EID_RSN then plain "rsn" pos elen crc e
  else if id =? WLAN_EID_ERP_INFO then sized (1 <=? elen) "erp_info" pos elen crc e
  else if id =? WLAN_EID_EXT_SUPP_RATES then plain "ext_supp_rates" pos elen crc e
  else otherwise.

(** The cases from [WLAN_EID_HT_CAPABILITY] to [WLAN_EID_OPMODE_NOTIF]. *)
Definition parse_ht_vht (mem : list Z) (params : ieee80211_elems_parse_params) (calc_crc : bool)
    (id elem pos elen crc : Z) (e : ieee802_11_elems) (otherwise : option outcome) : option outcome :=
  let unr m := ieee80211_update_unr_ap_mode m e in
  let below m := mode params <? m in
  if id =? WLAN_EID_HT_CAPABILITY then
    if below IEEE80211_CONN_MODE_HT then skip crc (unr IEEE80211_CONN_MODE_HT)
    else sized (sizeof_ht_cap <=? elen) "ht_cap_elem" pos elen crc (unr IEEE80211_CONN_MODE_HT)
  else if id =? WLAN_EID_HT_OPERATION then
    if below IEEE80211_CONN_MODE_HT then skip crc (unr IEEE80211_CONN_MODE_HT)
    else sized (sizeof_ht_operation <=? elen) "ht_operation" pos elen crc (unr IEEE80211_CONN_MODE_HT)
  else if id =? WLAN_EID_VHT_CAPABILITY then
    if below IEEE80211_CONN_MODE_VHT then skip crc (unr IEEE80211_CONN_MODE_VHT)
    else sized (sizeof_vht_cap <=? elen) "vht_cap_elem" pos elen crc (unr IEEE80211_CONN_MODE_VHT)
  else if id =? WLAN_EID_VHT_OPERATION then
    if below IEEE80211_CONN_MODE_VHT then skip crc (unr IEEE80211_CONN_MODE_VHT)
    else
      crc ← crc_element mem (calc_crc && (sizeof_vht_operation <=? elen)) crc elem elen;
      sized (sizeof_vht_operation <=? elen) "vht_operation" pos elen crc (unr IEEE80211_CONN_MODE_VHT)
  else if id =? WLAN_EID_OPMODE_NOTIF then
    if below IEEE80211_CONN_MODE_VHT then skip crc e
    else
      crc ← crc_element mem (calc_crc && (0 <? elen)) crc elem elen;
      sized (0 <? elen) "opmode_notif" pos elen crc e
  else otherwise.

(** The cases from [WLAN_EID_MESH_ID] to [WLAN_EID_RANN]. *)
Definition parse_mesh (mem : list Z) (id pos elen crc : Z) (e : ieee802_11_elems) (otherwise : option outcome)
  : option outcome :=
  if id =? WLAN_EID_MESH_ID then plain "mesh_id" pos elen crc e
  else if id =? WLAN_EID_MESH_CONFIG then sized (sizeof_meshconf_ie <=? elen) "mesh_config" pos elen crc e
  else if id =? WLAN_EID_PEER_MGMT then plain "peering" pos elen crc e
  else if id =? WLAN_EID_MESH_AWAKE_WINDOW then
    if 2 <=? elen then plain "awake_window" pos elen crc e else skip crc e
  else if id =? WLAN_EID_PREQ then
    ok ← ieee80211_mesh_preq_size_ok mem pos elen; sized ok "preq" pos elen crc e
  else if id =? WLAN_EID_PREP then
    ok ← ieee80211_mesh_prep_size_ok mem pos elen; sized ok "prep" pos elen crc e
  else if id =? WLAN_EID_PERR then
    ok ← ieee80211_mesh_perr_size_ok mem pos elen; sized ok "perr" pos elen crc e
  else if id =? WLAN_EID_RANN then sized (sizeof_rann_ie <=? elen) "rann" pos elen crc e
  else otherwise.

(** [for_each_element_id(subelem, WLAN_EID_TX_POWER_ENVELOPE, pos, elen)] with
    the arguments the code passes: the data from its second octet on, and the
    length less one as a [u8]. *)
Fixpoint csa_tpe_loop (fuel : nat) (mem : list Z) (elem end_ : Z) (t : ieee80211_parsed_tpe)
  : option ieee80211_parsed_tpe :=
  match fuel with
  | O => None
  | S fuel =>
      s ← element_at mem elem end_;
      match s with
      | None => Some t
      | Some datalen =>
          id ← rd8 mem elem;
          t ← (if id =? WLAN_EID_TX_POWER_ENVELOPE
               then ieee80211_parse_tpe mem t (elem + sizeof_element + 1) (u8 (datalen - 1))
               else Some t);
          csa_tpe_loop fuel mem (elem + sizeof_element + datalen) end_ t
      end
  end.

(** [WLAN_EID_CHANNEL_SWITCH_WRAPPER]. *)
Definition parse_csa_wrapper (mem : list Z) (params : ieee80211_elems_parse_params) (pos elen crc : Z)
    (e : ieee802_11_elems) : option outcome :=
  if mode params <? IEEE80211_CONN_MODE_VHT then skip crc e
  else if type params =? MGMT_ACTION then Some (e, IEEE80211_PARSE_ERR_UNEXPECTED_ELEM, crc)
  else
    sub ← cfg80211_find_elem mem WLAN_EID_WIDE_BW_CHANNEL_SWITCH pos elen;
    let '(e, failed) :=
      match sub with
      | Some (s, datalen) =>
          if sizeof_wide_bw_chansw_ie <=? datalen
          then (keep "wide_bw_chansw_ie" (s + sizeof_element) datalen e, 0)
          else (e, IEEE80211_PARSE_ERR_BAD_ELEM_SIZE)
      | None => (e, 0)
      end in
    if mode params <? IEEE80211_CONN_MODE_EHT then Some (e, failed, crc)
    else
      sub ← cfg80211_find_ext_elem mem WLAN_EID_EXT_BANDWIDTH_INDICATION pos elen;
      '(e, failed) ←
        match sub with
        | Some (s, datalen) =>
            ok ← ieee80211_bandwidth_indication_size_ok mem (s + sizeof_element + 1) (datalen - 1);
            Some (if ok : bool then (keep "bandwidth_indication" (s + sizeof_element + 1) (datalen - 1) e, failed)
                  else (e, IEEE80211_PARSE_ERR_BAD_ELEM_SIZE))
        | None => Some (e, failed)
        end;
      t ← csa_tpe_loop (S (Z.to_nat elen)) mem pos (pos + elen) (csa_tpe e);
      Some (set_csa_tpe t e, failed, crc).

(** The cases from [WLAN_EID_CHANNEL_SWITCH] to [WLAN_EID_TX_POWER_ENVELOPE]. *)
Definition parse_channel (mem : list Z) (params : ieee80211_elems_parse_params)
    (id pos elen crc : Z) (e : ieee802_11_elems) (otherwise : option outcome) : option outcome :=
  let below m := mode params <? m in
  if id =? WLAN_EID_CHANNEL_SWITCH then sized (elen =? sizeof_channel_sw_ie) "ch_switch_ie" pos elen crc e
  else if id =? WLAN_EID_EXT_CHANSWITCH_ANN then
    sized (elen =? sizeof_ext_chansw_ie) "ext_chansw_ie" pos elen crc e
  else if id =? WLAN_EID_SECONDARY_CHANNEL_OFFSET then
    if below IEEE80211_CONN_MODE_HT then skip crc e
    else sized (elen =? sizeof_sec_chan_offs_ie) "sec_chan_offs" pos elen crc e
  else if id =? WLAN_EID_CHAN_SWITCH_PARAM then
    sized (sizeof_mesh_chansw_params_ie <=? elen) "mesh_chansw_params_ie" pos elen crc e
  else if id =? WLAN_EID_WIDE_BW_CHANNEL_SWITCH then
    if below IEEE80211_CONN_MODE_VHT then skip crc e
    else if negb (type params =? MGMT_ACTION) then Some (e, IEEE80211_PARSE_ERR_UNEXPECTED_ELEM, crc)
    else sized (sizeof_wide_bw_chansw_ie <=? elen) "wide_bw_chansw_ie" pos elen crc e
  else if id =? WLAN_EID_CHANNEL_SWITCH_WRAPPER then parse_csa_wrapper mem params pos elen crc e
  else if id =? WLAN_EID_COUNTRY then plain "country_elem" pos elen crc e
  else if id =? WLAN_EID_PWR_CONSTRAINT then sized (elen =? 1) "pwr_constr_elem" pos elen crc e
  else if id =? WLAN_EID_ADDBA_EXT then sized (sizeof_addba_ext_ie <=? elen) "addba_ext_ie" pos elen crc e
  else if id =? WLAN_EID_TIMEOUT_INTERVAL then
    sized (sizeof_timeout_interval_ie <=? elen) "timeout_int" pos elen crc e
  else if id =? WLAN_EID_BSS_MAX_IDLE_PERIOD then
    if sizeof_bss_max_idle_period_ie <=? elen then plain "max_idle_period_ie" pos elen crc e else skip crc e
  else if id =? WLAN_EID_RSNX then plain "rsnx" pos elen crc e
  else if id =? WLAN_EID_TX_POWER_ENVELOPE then
    if below IEEE80211_CONN_MODE_HE then skip crc e
    else t ← ieee80211_parse_tpe mem (tpe e) pos elen; skip crc (set_tpe t e)
  else otherwise.

(** The S1G cases. *)
Definition parse_s1g (params : ieee80211_elems_parse_params) (id pos elen crc : Z) (e : ieee802_11_elems)
  : option outcome :=
  if negb (mode params =? IEEE80211_CONN_MODE_S1G) then skip crc e
  else if id =? WLAN_EID_S1G_CAPABILITIES then sized (sizeof_s1g_cap <=? elen) "s1g_capab" pos elen crc e
  else if id =? WLAN_EID_S1G_OPERATION then sized (elen =? sizeof_s1g_oper_ie) "s1g_oper" pos elen crc e
  else if id =? WLAN_EID_S1G_BCN_COMPAT then sized (elen =? sizeof_s1g_bcn_compat_ie) "s1g_bcn_compat" pos elen crc e
  else if id =? WLAN_EID_AID_RESPONSE then sized (elen =? sizeof_aid_response_ie) "aid_resp" pos elen crc e
  else skip crc e.

(** The switch. *)
Definition parse_element (mem : list Z) (params : ieee80211_elems_parse_params) (inside_multilink skip_vendor : bool)
    (id elem elen crc : Z) (e : ieee802_11_elems) : option outcome :=
  let calc_crc := nz (p_filter params) in
  let pos := elem + sizeof_element in
  parse_basic mem params calc_crc skip_vendor id elem pos elen crc e
    (parse_ht_vht mem params calc_crc id elem pos elen crc e
      (parse_mesh mem id pos elen crc e
        (parse_channel mem params id pos elen crc e
          (if id =? WLAN_EID_EXTENSION then
             '(e, crc) ← ieee80211_parse_extension_element mem params inside_multilink calc_crc crc elem elen e;
             skip crc e
           else parse_s1g params id pos elen crc e)))).

(** The loop; [seen] is [seen_elems].  The result is the elements and the CRC. *)
Fixpoint parse_loop (fuel : nat) (mem : list Z) (params : ieee80211_elems_parse_params)
    (inside_multilink skip_vendor : bool) (check_inherit : option (list Z)) (elem end_ : Z)
    (seen : gset Z) (crc : Z) (e : ieee802_11_elems) : option (ieee802_11_elems * Z) :=
  match fuel with
  | O => None
  | S fuel =>
      w ← element_at mem elem end_;
      match w with
      | None =>
          Some (if elem =? end_ then e else add_error IEEE80211_PARSE_ERR_INVALID_END e, crc)
      | Some elen =>
          let continue := parse_loop fuel mem params inside_multilink skip_vendor check_inherit
                            (elem + sizeof_element + elen) end_ in
          id ← rd8 mem elem;
          inherited ← match check_inherit with
                      | None => Some true
                      | Some _ => cfg80211_is_element_inherited mem elem elen check_inherit
                      end;
          if negb inherited then continue seen crc e
          else if parse_once id && bool_decide (id ∈ seen) then
            continue seen crc (add_error IEEE80211_PARSE_ERR_DUP_ELEM e)
          else
            crc ← crc_element mem (nz (p_filter params) && (id <? 64) && Z.testbit (p_filter params) id) crc elem elen;
            '(e, failed, crc) ← parse_element mem params inside_multilink skip_vendor id elem elen crc e;
            if nz failed then continue seen crc (add_error failed e)
            else continue ({[id]} ∪ seen) crc e
      end
  end.

Definition _ieee802_11_parse_elems_full (mem : list Z) (params : ieee80211_elems_parse_params)
    (inside_multilink skip_vendor : bool) (check_inherit : option (list Z)) (e : ieee802_11_elems)
  : option (ieee802_11_elems * Z) :=
  parse_loop (S (Z.to_nat (p_len params))) mem params inside_multilink skip_vendor check_inherit
    (p_start params) (p_start params + p_len params) ∅ (p_crc params) e.
End parse.

(** ** The frame and the scratch buffer

    The frame is at the addresses below [frame_len], the scratch buffer at
    those above it: [frame_len] itself is the address of no octet, so that the
    pointer one past the frame and the one to the scratch buffer differ.  The
    octets that can be read through a pointer into the frame, the one past its
    end included, are the frame's. *)
Section objects.
Context (frame_len : Z).

Definition object (mem : list Z) (p : Z) : list Z :=
  if p <=? frame_len then take (Z.to_nat frame_len) mem else mem.

(** [memcpy] of octets read through [p] into the scratch buffer. *)
Definition copy_to_scratch (mem : list Z) (dst p src n : Z) : option (list Z) :=
  bs ← slice (object mem p) src n; store mem dst bs.

(** ** Non-transmitted BSS profiles *)

(** [cfg80211_iter_profile_continuation]: the next part of a profile that is
    spread over several multiple-BSSID elements, as the element and the
    sub-element with their lengths. *)
Definition cfg80211_iter_profile_continuation (mem : list Z) (ie ielen mbssid mbssid_len sub sub_len : Z)
  : option (option (Z * Z * (Z * Z))) :=
  let mbssid_end := mbssid + sizeof_element + mbssid_len in
  next ← cfg80211_find_elem mem WLAN_EID_MULTIPLE_BSSID mbssid_end (ielen - (mbssid_end - ie));
  match next with
  | None => Some None
  | Some (next, next_len) =>
      if sub + sizeof_element + sub_len <? mbssid_end - 1 then Some None
      else if next_len <? 4 then Some None
      else
        let next_sub := next + sizeof_element + 1 in
        next_sub_len ← rd8 mem (next_sub + 1);
        if next + sizeof_element + next_len <? next_sub + sizeof_element + next_sub_len then Some None
        else
          id ← rd8 mem next_sub;
          if negb (id =? 0) || (next_sub_len <? 2) then Some None
          else
            b ← rd8 mem (next_sub + sizeof_element);
            Some (if b =? WLAN_EID_NON_TX_BSSID_CAP then None
                  else Some (next, next_len, (next_sub, next_sub_len)))
  end.

Fixpoint merge_profile_loop (fuel : nat) (mem : list Z) (ie ielen mbssid mbssid_len sub sub_len merged_ie
    max_copy_len copied_len : Z) : option (Z * list Z) :=
  match fuel with
  | O => None
  | S fuel =>
      r ← cfg80211_iter_profile_continuation (object mem ie) ie ielen mbssid mbssid_len sub sub_len;
      match r with
      | None => Some (copied_len, mem)
      | Some (mbssid, mbssid_len, (sub, sub_len)) =>
          if max_copy_len <? copied_len + sub_len then Some (copied_len, mem)
          else
            mem ← copy_to_scratch mem (merged_ie + copied_len) ie (sub + sizeof_element) sub_len;
            merge_profile_loop fuel mem ie ielen mbssid mbssid_len sub sub_len merged_ie max_copy_len
              (copied_len + sub_len)
      end
  end.

Definition cfg80211_merge_profile (mem : list Z) (ie ielen mbssid mbssid_len sub sub_len merged_ie max_copy_len : Z)
  : option (Z * list Z) :=
  if max_copy_len <? sub_len then Some (0, mem)
  else
    mem ← copy_to_scratch mem merged_ie ie (sub + sizeof_element) sub_len;
    merge_profile_loop (S (Z.to_nat ielen)) mem ie ielen mbssid mbssid_len sub sub_len merged_ie max_copy_len sub_len.

(** Addresses as 48-bit numbers, [ether_addr_to_u64]. *)
Definition cfg80211_gen_new_bssid (bssid max_bssid mbssid_index : Z) : Z :=
  let mask := GENMASK (max_bssid - 1) 0 in
  (bssid .& Z.lnot mask) .| (((bssid .& mask) + mbssid_index) .& mask).

(** The walk over the sub-elements of one multiple-BSSID element: the profile's
    length with its index element when it is the one of [bss], and the
    memory. *)
Fixpoint bssid_profile_subs (fuel : nat) (mem : list Z) (start len elem datalen sub end_ : Z)
    (transmitted own : Z) (profile : Z) : option (option (Z * (Z * Z)) * list Z) :=
  match fuel with
  | O => None
  | S fuel =>
      s ← element_at (object mem start) sub end_;
      match s with
      | None => Some (None, mem)
      | Some sub_len =>
          let continue mem := bssid_profile_subs fuel mem start len elem datalen (sub + sizeof_element + sub_len) end_
                                transmitted own profile in
          id ← rd8 (object mem start) sub;
          if negb (id =? 0) || (sub_len <? 4) then continue mem
          else
            b0 ← rd8 (object mem start) (sub + sizeof_element);
            b1 ← rd8 (object mem start) (sub + sizeof_element + 1);
            if negb (b0 =? WLAN_EID_NON_TX_BSSID_CAP) || negb (b1 =? 2) then continue mem
            else
              mem ← store mem profile (replicate (Z.to_nat len) 0);
              '(profile_len, mem) ← cfg80211_merge_profile mem start len elem datalen sub sub_len profile len;
              index ← cfg80211_find_elem (object mem profile) WLAN_EID_MULTI_BSSID_IDX profile profile_len;
              match index with
              | None => continue mem
              | Some (index, index_len) =>
                  if index_len <? 1 then continue mem
                  else
                    i ← rd8 (object mem profile) (index + 2);
                    if i =? 0 then continue mem
                    else
                      max ← rd8 (object mem start) (elem + sizeof_element);
                      if cfg80211_gen_new_bssid transmitted max i =? own
                      then Some (Some (profile_len, (index + 2, index_len)), mem)
                      else continue mem
              end
      end
  end.

Fixpoint bssid_profile_loop (fuel : nat) (mem : list Z) (start len elem : Z) (transmitted own profile : Z)
  : option (option (Z * (Z * Z)) * list Z) :=
  match fuel with
  | O => None
  | S fuel =>
      w ← element_at (object mem start) elem (start + len);
      match w with
      | None => Some (None, mem)
      | Some datalen =>
          let next := elem + sizeof_element + datalen in
          id ← rd8 (object mem start) elem;
          if negb (id =? WLAN_EID_MULTIPLE_BSSID) || (datalen <? 2) then
            bssid_profile_loop fuel mem start len next transmitted own profile
          else
            max ← rd8 (object mem start) (elem + sizeof_element);
            if (max <? 1) || (8 <? max) then bssid_profile_loop fuel mem start len next transmitted own profile
            else
              '(r, mem) ← bssid_profile_subs (S (Z.to_nat datalen)) mem start len elem datalen
                            (elem + sizeof_element + 1) next transmitted own profile;
              match r with
              | Some r => Some (Some r, mem)
              | None => bssid_profile_loop fuel mem start len next transmitted own profile
              end
      end
  end.

(** The length of the profile, 0 when there is none, and the index element. *)
Definition ieee802_11_find_bssid_profile (mem : list Z) (start len : Z) (bss : option (option Z * Z)) (profile : Z)
  : option (Z * option (Z * Z) * list Z) :=
  match bss with
  | Some (Some transmitted, own) =>
      '(r, mem) ← bssid_profile_loop (S (Z.to_nat len)) mem start len start transmitted own profile;
      Some (match r with Some (n, index) => (n, Some index) | None => (0, None) end, mem)
  | _ => Some (0, None, mem)
  end.

(** ** Per-station profiles of a multi-link element *)

(** The scratch buffer is used from [scratch_pos] on; [scratch_end] is its end. *)
Record mle_parse := mk_mle_parse {
  scratch_pos : Z;
  scratch_end : Z;
  ml_basic : option (Z * Z);
  prof : option (Z * Z);
  inside_multilink : bool;
}.
Definition set_scratch_pos (s : mle_parse) (n : Z) : mle_parse :=
  mk_mle_parse n (scratch_end s) (ml_basic s) (prof s) (inside_multilink s).
Definition set_ml_basic (s : mle_parse) (m : option (Z * Z)) : mle_parse :=
  mk_mle_parse (scratch_pos s) (scratch_end s) m (prof s) (inside_multilink s).
Definition set_prof (s : mle_parse) (p : option (Z * Z)) : mle_parse :=
  mk_mle_parse (scratch_pos s) (scratch_end s) (ml_basic s) p (inside_multilink s).
Definition set_inside (s : mle_parse) (b : bool) : mle_parse :=
  mk_mle_parse (scratch_pos s) (scratch_end s) (ml_basic s) (prof s) b.


(** Defragmentation of elements of the frame into the scratch buffer: done with
    the frame put last, so that running off its end faults. *)
Definition defragment_frame (mem : list Z) (elem : option Z) (ies ieslen dst data_len frag_id : Z)
  : option (Z * list Z) :=
  let frame := take (Z.to_nat frame_len) mem in
  let gap := take 1 (drop (Z.to_nat frame_len) mem) in
  let scratch := drop (Z.to_nat (frame_len + 1)) mem in
  let size := zlen scratch in
  '(n, l) ← cfg80211_defragment_element (scratch ++ frame) (Z.add size <$> elem) (size + ies) ieslen
              (Some (dst - (frame_len + 1))) data_len frag_id;
  Some (n, drop (Z.to_nat size) l ++ gap ++ take (Z.to_nat size) l).

(** Defragmentation into the scratch buffer, which is consumed on success. *)
Definition defrag_to_scratch (mem : list Z) (s : mle_parse) (elem : option Z) (ies ieslen frag_id : Z)
  : option (option (Z * Z) * mle_parse * list Z) :=
  let room := scratch_end s - scratch_pos s in
  '(n, mem) ← (if ies <=? frame_len then defragment_frame mem elem ies ieslen (scratch_pos s) room frag_id
               else cfg80211_defragment_element mem elem ies ieslen (Some (scratch_pos s)) room frag_id);
  Some (if n <? 0 then (None, s, mem) else (Some (scratch_pos s, n), set_scratch_pos s (scratch_pos s + n), mem)).

(** The loop of [ieee80211_mle_get_sta_prof] over the sub-elements of [ml]. *)
Fixpoint get_sta_prof_loop (fuel : nat) (mem : list Z) (s : mle_parse) (ml ml_len sub : Z) (want : Z)
  : option (Z * mle_parse * list Z) :=
  match fuel with
  | O => None
  | S fuel =>
      w ← element_at (object mem ml) sub (ml + ml_len);
      match w with
      | None => Some (-1, s, mem)
      | Some datalen =>
          let next := sub + sizeof_element + datalen in
          id ← rd8 (object mem ml) sub;
          if negb (id =? IEEE80211_MLE_SUBELEM_PER_STA_PROFILE) then
            get_sta_prof_loop fuel mem s ml ml_len next want
          else
            ok ← ieee80211_mle_basic_sta_prof_size_ok (object mem ml) (sub + sizeof_element) datalen;
            if negb ok then Some (-1, s, mem)
            else
              control ← rd_le16 (object mem ml) (sub + sizeof_element);
              let prof_link_id := get_bits control IEEE80211_MLE_STA_CONTROL_LINK_ID in
              if negb (want =? -1) && negb (want =? prof_link_id) then
                get_sta_prof_loop fuel mem s ml ml_len next want
              else if negb (nz (control .& IEEE80211_MLE_STA_CONTROL_COMPLETE_PROFILE)) then Some (-1, s, mem)
              else
                '(p, s, mem) ← defrag_to_scratch mem s (Some sub) ml ml_len IEEE80211_MLE_SUBELEM_FRAGMENT;
                Some (match p with
                      | None => (-1, s, mem)
                      | Some p => (prof_link_id, set_prof s (Some p), mem)
                      end)
      end
  end.

Definition ieee80211_mle_get_sta_prof (mem : list Z) (s : mle_parse) (want : Z) : option (Z * mle_parse * list Z) :=
  match ml_basic s with
  | None => Some (-1, s, mem)
  | Some (ml, ml_len) =>
      ok ← ieee80211_mle_size_ok (object mem ml) ml ml_len;
      if negb ok then Some (-1, s, mem)
      else
        common ← ieee80211_mle_common_size (object mem ml) ml;
        get_sta_prof_loop (S (Z.to_nat ml_len)) mem s ml ml_len (ml + common) want
  end.

(** The first basic multi-link element between [elem] and [end_]. *)
Fixpoint find_basic_mle (fuel : nat) (mem : list Z) (elem end_ : Z) : option (option Z) :=
  match fuel with
  | O => None
  | S fuel =>
      w ← element_at mem elem end_;
      match w with
      | None => Some None
      | Some datalen =>
          let next := elem + sizeof_element + datalen in
          id ← rd8 mem elem;
          if negb (id =? WLAN_EID_EXTENSION) || negb (0 <? datalen) then find_basic_mle fuel mem next end_
          else
            ext ← rd8 mem (elem + sizeof_element);
            if negb (ext =? WLAN_EID_EXT_EHT_MULTI_LINK) then find_basic_mle fuel mem next end_
            else
              ok ← ieee80211_mle_size_ok mem (elem + sizeof_element + 1) (datalen - 1);
              if negb ok then find_basic_mle fuel mem next end_
              else
                control ← rd_le16 mem (elem + sizeof_element + 1);
                if (control .& IEEE80211_ML_CONTROL_TYPE) =? IEEE80211_ML_CONTROL_TYPE_BASIC
                then Some (Some elem) else find_basic_mle fuel mem next end_
      end
  end.

(** Where the elements of the profile [p] start and how long they are, when
    the profile holds the fixed fields. *)
Definition prof_elements (mem : list Z) (p : option (Z * Z)) (fixed_len : Z) : option (option (Z * Z)) :=
  match p with
  | None => Some None
  | Some (p, len) =>
      sta_info_len ← rd8 (object mem p) (p + 2);
      let skip := sizeof_mle_per_sta_profile + sta_info_len - 1 + fixed_len in
      Some (if len <? skip then None else Some (p + skip, len - skip))
  end.

Definition empty_non_inheritance : list Z := [WLAN_EID_EXTENSION; 1; WLAN_EID_EXT_NON_INHERITANCE].

(** The octets of the element found at [e]. *)
Definition element_bytes (mem : list Z) (e : Z * Z) : option (list Z) := slice (object mem e.1) e.1 (2 + e.2).

Definition set_range (p : ieee80211_elems_parse_params) (start len link : Z) : ieee80211_elems_parse_params :=
  mk_params (mode p) start len (type p) (p_filter p) (p_crc p) (p_bss p) link (from_ap p) (action_frame p).

(** [sub], zeroed before, when the profile is found. *)
Definition no_sub : ieee80211_elems_parse_params := mk_params 0 0 0 0 0 0 None 0 false 0.
Definition sub_params (p : ieee80211_elems_parse_params) (start len : Z) : ieee80211_elems_parse_params :=
  mk_params (mode p) start len (type p) 0 0 None (-1) (from_ap p) 0.

(** The result of [ieee80211_prep_mle_link_parse] with [sub] and [base]. *)
Record link_parse := mk_link_parse {
  lp_non_inherit : option (list Z);
  lp_sub : ieee80211_elems_parse_params;
  lp_base : ieee80211_elems_parse_params;
  lp_mle : mle_parse;
  lp_mem : list Z;
}.

Definition ieee80211_prep_mle_link_parse (mem : list Z) (params : ieee80211_elems_parse_params) (s : mle_parse)
  : option link_parse :=
  let fixed_len := if action_frame params =? PARSE_ACTION_FRAME_ST_PREP_RESP then 4 + 2 else 4 in
  let none s mem := Some (mk_link_parse None no_sub params s mem) in
  if mode params <? IEEE80211_CONN_MODE_EHT then none s mem
  else
    ml_basic_elem ← find_basic_mle (S (Z.to_nat (p_len params))) (object mem (p_start params)) (p_start params) (p_start params + p_len params);
    '(ml, s, mem) ← defrag_to_scratch mem s ml_basic_elem (p_start params) (p_len params) WLAN_EID_FRAGMENT;
    match ml with
    | None => none s mem
    | Some ml =>
        let s := set_ml_basic s (Some ml) in
        if link_id params =? -1 then none s mem
        else
          '(first_link_id, first, s, mem) ←
            (if (action_frame params =? PARSE_ACTION_FRAME_ST_PREP_RESP)
                || (action_frame params =? PARSE_ACTION_FRAME_ST_EXEC_RESP) then
               '(first_link_id, s, mem) ← ieee80211_mle_get_sta_prof mem s (-1);
               first ← (if first_link_id <? 0 then Some None else prof_elements mem (prof s) fixed_len);
               Some (first_link_id, first, s, mem)
             else Some (-1, None, s, mem));
          let new_base := match first with
                          | Some (start, len) => set_range params start len (-1)
                          | None => params
                          end in
          if bool_decide (is_Some first) && (first_link_id =? link_id params) then
            Some (mk_link_parse None no_sub new_base (set_inside s true) mem)
          else
            '(found, s, mem) ← ieee80211_mle_get_sta_prof mem s (link_id params);
            if found <? 0 then none (set_prof s None) mem
            else
              elems ← prof_elements mem (prof s) fixed_len;
              match elems with
              | None => none (set_prof s None) mem
              | Some (start, len) =>
                  let moved := negb (p_start new_base =? p_start params) in
                  let base := if moved then new_base else params in
                  let s := if moved then set_inside s true else s in
                  ret ← cfg80211_find_ext_elem (object mem start) WLAN_EID_EXT_NON_INHERITANCE start len;
                  non_inherit ← (match ret with
                                 | Some e => element_bytes mem e
                                 | None => Some empty_non_inheritance
                                 end);
                  Some (mk_link_parse (Some non_inherit) (sub_params params start len) base s mem)
              end
    end.

(** ** The whole parser *)

(** The fields set after the walk. *)
Record parsed := mk_parsed {
  elems : ieee802_11_elems;
  crc : Z;
  mles : gmap string (Z * Z);
  profile : option (Z * Z);
  bssid_index : option (Z * Z);
  mbssid_nontx_profile_missing : bool;
  dtim_period : Z;
  dtim_count : Z;
}.

(** [ieee80211_mle_defrag] of the element kept under the name. *)
Definition ieee80211_mle_defrag (mem : list Z) (s : mle_parse) (e : ieee802_11_elems) (name : string)
    (out : gmap string (Z * Z)) : option (gmap string (Z * Z) * mle_parse * list Z) :=
  let '(elem, start, len) := match defrag e !! name with
                             | Some (elem, start, len) => (Some elem, start, len)
                             | None => (None, 0, 0)
                             end in
  '(r, s, mem) ← defrag_to_scratch mem s elem start len WLAN_EID_FRAGMENT;
  Some (match r with Some r => <[name := r]> out | None => out end, s, mem).

(** The period and count: from the TIM, overridden by the index element. *)
Definition dtim_fields (mem : list Z) (e : ieee802_11_elems) (index : option (Z * Z)) : option (Z * Z) :=
  '(period, count) ←
    (if bool_decide (is_Some (refs e !! "tim")) && (parse_error e =? 0) then
       match refs e !! "tim" with
       | Some (tim, _) =>
           count ← rd8 (object mem tim) tim;
           period ← rd8 (object mem tim) (tim + 1);
           Some (period, count)
       | None => Some (0, 0)
       end
     else Some (0, 0));
  match index with
  | None => Some (period, count)
  | Some (index, len) =>
      period ← (if 2 <=? len then rd8 (object mem index) (index + 1) else Some period);
      count ← (if 3 <=? len then rd8 (object mem index) (index + 2) else Some count);
      Some (period, count)
  end.

(** Which part of the frame to parse: the sub-profile, the non-inheritance
    element, the profile and index of a non-transmitted BSS. *)
Definition select_profile (mem : list Z) (params : ieee80211_elems_parse_params) (s : mle_parse)
  : option (link_parse * option (Z * Z) * bool) :=
  match p_bss params with
  | Some (transmitted, _) =>
      '(nontx_len, index, mem) ←
        ieee802_11_find_bssid_profile mem (p_start params) (p_len params) (p_bss params) (scratch_pos s);
      let sub := mk_params (mode params) (scratch_pos s) nontx_len (type params) 0 0 None (link_id params) false 0 in
      let s := set_scratch_pos s (scratch_pos s + nontx_len) in
      ret ← cfg80211_find_ext_elem (object mem (p_start sub)) WLAN_EID_EXT_NON_INHERITANCE (p_start sub) nontx_len;
      non_inherit ← (match ret with
                     | Some e => b ← element_bytes mem e; Some (Some b)
                     | None => Some (if transmitted then Some empty_non_inheritance else None)
                     end);
      Some (mk_link_parse non_inherit sub params s mem, index, bool_decide (is_Some transmitted) && (nontx_len =? 0))
  | None =>
      lp ← ieee80211_prep_mle_link_parse mem params s;
      Some (lp, None, false)
  end.

(** The part after the allocation of the scratch buffer, of which [s] is the
    state. *)
Definition parse_elems_in (crc32_be : Z -> list Z -> Z) (mem : list Z) (params : ieee80211_elems_parse_params)
  (s : mle_parse) : option (option parsed * list Z) :=
  '(lp, index, missing) ← select_profile mem params s;
  let mem := lp_mem lp in
  let s := lp_mle lp in
  let sub := lp_sub lp in
  vendor ← cfg80211_find_elem (object mem (p_start sub)) WLAN_EID_VENDOR_SPECIFIC (p_start sub) (p_len sub);
  '(e, crc) ← _ieee802_11_parse_elems_full crc32_be (object mem (p_start (lp_base lp))) (lp_base lp) (inside_multilink s)
                (bool_decide (is_Some vendor)) (lp_non_inherit lp) zeroed_elems;
  let inside := negb (bool_decide (is_Some (p_bss params))) in
  '(e, _) ← (if nz (p_len sub)
             then _ieee802_11_parse_elems_full crc32_be (object mem (p_start sub)) sub inside false None e
             else Some (e, 0));
  '(out, s, mem) ← ieee80211_mle_defrag mem s e "ml_reconf" ∅;
  '(out, s, mem) ← ieee80211_mle_defrag mem s e "ml_epcs" out;
  '(out, s, mem) ← (match ml_basic s with
                    | Some ml => Some (<["ml_basic" := ml]> out, s, mem)
                    | None => ieee80211_mle_defrag mem s e "ml_basic" out
                    end);
  '(out, s, mem) ← ieee80211_mle_defrag mem s e "uhr_param_upd" out;
  let upd := out !! "uhr_param_upd" in
  ok ← ieee80211_uhr_param_update_ok (object mem (from_option fst 0 upd)) (fst <$> upd) (from_option snd 0 upd);
  let bad := bool_decide (is_Some (defrag e !! "uhr_param_upd")) && negb ok in
  let out := if bad then delete "uhr_param_upd" out else out in
  let e := if bad then add_error IEEE80211_PARSE_ERR_INVALID_UHR_PARAM_UPD e else e in
  '(period, count) ← dtim_fields mem e index;
  Some (Some (mk_parsed e crc out (prof s) index missing period count), mem).
End objects.

(** The memory and the state of the scratch buffer: [kzalloc_flex] gives
    [3 * len] zeroed octets. *)
Definition with_scratch (frame : list Z) (params : ieee80211_elems_parse_params) : list Z * mle_parse :=
  (frame ++ 0 :: replicate (Z.to_nat (3 * p_len params)) 0,
   mk_mle_parse (zlen frame + 1) (zlen frame + 1 + 3 * p_len params) None None false).

(** The result is the elements and the memory. *)
Definition ieee802_11_parse_elems_full (crc32_be : Z -> list Z -> Z) (alloc : bool) (frame : list Z)
    (params : ieee80211_elems_parse_params) : option (option parsed * list Z) :=
  if negb (link_id params <? 0) && bool_decide (is_Some (p_bss params)) then Some (None, frame)
  else if negb alloc then Some (None, frame)
  else
    let '(mem, s) := with_scratch frame params in
    parse_elems_in (zlen frame) crc32_be mem params s.

(** ** Supported rates

    The bit rates of the band in units of 100 kb/s, the received octets in
    units of 500 kb/s: the number of octets that name a rate of the band, and
    the bitmap of these rates. *)
Fixpoint find_bitrate (bitrates : list Z) (rate : Z) (j : Z) : option Z :=
  match bitrates with
  | [] => None
  | bitrate :: bitrates =>
      if DIV_ROUND_UP bitrate 5 =? rate then Some j else find_bitrate bitrates rate (j + 1)
  end.

Fixpoint parse_bitrates_loop (bitrates srates : list Z) (rates count : Z) : Z * Z :=
  match srates with
  | [] => (count, rates)
  | srate :: srates =>
      match find_bitrate bitrates (srate .& 0x7f) 0 with
      | Some j => parse_bitrates_loop bitrates srates (u32 (rates .| BIT j)) (count + 1)
      | None => parse_bitrates_loop bitrates srates rates count
      end
  end.

Definition ieee80211_parse_bitrates (bitrates srates : list Z) : Z * Z := parse_bitrates_loop bitrates srates 0 0.
