(* ===== verification/ParseProofs.v ===== *)
(** * ParseProofs: the element parser stays inside the frame

    Every pointer the parser records lies, with all the data behind it that
    its users read, inside the elements it was given; the tables it fills keep
    their size; and it always comes to an end.  The one place where the code
    looks past an element, the empty transmit power envelope inside a channel
    switch wrapper, is excluded by [tpe_nonempty] and shown separately. *)
From stdpp Require Import gmap strings.
From S2P Require Import Prelude Frame Skb Mle Ttlm Element ElementProofs MleDefrag ElemSizes Parse.

(** What the users of a field rely on: the size of its structure. *)
Definition field_sizes : gmap string Z := list_to_map
  [("lnk_id", sizeof_tdls_lnkie); ("ch_sw_timing", sizeof_ch_switch_timing); ("ds_params", 1); ("tim", 2);
   ("wmm_info", 5); ("wmm_param", 5);
   ("erp_info", 1); ("ht_cap_elem", sizeof_ht_cap); ("ht_operation", sizeof_ht_operation);
   ("vht_cap_elem", sizeof_vht_cap); ("vht_operation", sizeof_vht_operation); ("opmode_notif", 1);
   ("mesh_config", sizeof_meshconf_ie); ("awake_window", 2); ("rann", sizeof_rann_ie);
   ("ch_switch_ie", sizeof_channel_sw_ie); ("ext_chansw_ie", sizeof_ext_chansw_ie);
   ("sec_chan_offs", sizeof_sec_chan_offs_ie); ("mesh_chansw_params_ie", sizeof_mesh_chansw_params_ie);
   ("wide_bw_chansw_ie", sizeof_wide_bw_chansw_ie); ("pwr_constr_elem", 1); ("addba_ext_ie", sizeof_addba_ext_ie);
   ("timeout_int", sizeof_timeout_interval_ie); ("max_idle_period_ie", sizeof_bss_max_idle_period_ie);
   ("s1g_capab", sizeof_s1g_cap); ("s1g_oper", sizeof_s1g_oper_ie); ("s1g_bcn_compat", sizeof_s1g_bcn_compat_ie);
   ("aid_resp", sizeof_aid_response_ie); ("mu_edca_param_set", sizeof_mu_edca_param_set);
   ("he_cap", sizeof_he_cap_elem); ("he_operation", sizeof_he_operation); ("uora_element", 1);
   ("max_channel_switch_time", 3); ("mbssid_config_ie", sizeof_multiple_bssid_configuration);
   ("he_spr", sizeof_he_spr); ("he_6ghz_capa", sizeof_he_6ghz_capa); ("eht_cap", sizeof_eht_cap_elem_fixed);
   ("eht_operation", sizeof_eht_operation); ("bandwidth_indication", sizeof_bandwidth_indication);
   ("cip_cap", sizeof_cip_cap); ("uhr_operation", sizeof_uhr_operation); ("uhr_cap", sizeof_uhr_cap);
   ("smd_prep_resp", 1); ("smd_exec_resp", 1)].
Definition field_size (name : string) : Z := default 0 (field_sizes !! name).

Definition tpe_entries_ok (n : nat) (l : list tpe_entry) : Prop :=
  length l = 2%nat /\ Forall (fun t => length (power t) = n) l.
Definition tpe_tables_ok (t : ieee80211_parsed_tpe) : Prop :=
  tpe_entries_ok 5 (max_local t) /\ tpe_entries_ok 5 (max_reg_client t) /\
  tpe_entries_ok 16 (psd_local t) /\ tpe_entries_ok 16 (psd_reg_client t).

(** ** Transmit power envelopes *)

Lemma store_length b off bs b' : store b off bs = Some b' -> length b' = length b.
Proof. intros E%store_zlen. unfold zlen in E. lia. Qed.

Lemma tpe_table_ok interpret t :
  tpe_tables_ok t ->
  tpe_entries_ok (if (interpret =? IEEE80211_TPE_LOCAL_EIRP) || (interpret =? IEEE80211_TPE_REG_CLIENT_EIRP)
                  then 5 else 16) (tpe_table interpret t).
Proof.
  intros (? & ? & ? & ?). unfold tpe_table.
  destruct (interpret =? IEEE80211_TPE_LOCAL_EIRP); [done|]. destruct (interpret =? IEEE80211_TPE_REG_CLIENT_EIRP); [done|].
  by destruct (interpret =? IEEE80211_TPE_LOCAL_EIRP_PSD).
Qed.

Lemma set_tpe_table_ok interpret l t :
  tpe_tables_ok t ->
  tpe_entries_ok (if (interpret =? IEEE80211_TPE_LOCAL_EIRP) || (interpret =? IEEE80211_TPE_REG_CLIENT_EIRP)
                  then 5 else 16) l ->
  tpe_tables_ok (set_tpe_table interpret l t).
Proof.
  intros (? & ? & ? & ?). unfold set_tpe_table, tpe_tables_ok.
  destruct (interpret =? IEEE80211_TPE_LOCAL_EIRP); [done|]. destruct (interpret =? IEEE80211_TPE_REG_CLIENT_EIRP); [done|].
  by destruct (interpret =? IEEE80211_TPE_LOCAL_EIRP_PSD).
Qed.

Section tpe.
Context (mem : list Z) (p len : Z).
Hypotheses (Hok : bytes_ok mem) (Hp : 0 <= p) (Hl : p + len <= zlen mem).

Lemma tpe_eirp_safe count out :
  0 <= count <= 3 -> 1 + count + 1 <= len -> length (power out) = 5%nat ->
  exists out', tpe_eirp mem p len count out = Some out' /\ length (power out') = 5%nat.
Proof.
  intros Hc Hn Ho. unfold tpe_eirp, sizeof_tx_pwr_env.
  destruct (slice_is_Some mem (p + 1) (count + 1)) as (bs & -> & Hb); [lia..|]. rewrite bind_some.
  destruct (store_is_Some (power out) 0 bs) as [pw Ew]; [lia|unfold zlen in *; lia|]. rewrite Ew, bind_some.
  apply store_length in Ew.
  destruct (Z.eqb_spec count 3) as [->|]; cbn [andb]; [|eexists; split; [done|cbn; lia]].
  destruct (Z.ltb_spec (1 + 3 + 1) len); [|eexists; split; [done|cbn; lia]].
  cbn [andb]. destruct (rd8_Some mem (p + 1 + 4)) as [b ->]; [lia|]. rewrite bind_some.
  destruct (store_is_Some pw 4 [b]) as [pw' Ew']; [lia|unfold zlen; cbn [length]; lia|]. rewrite Ew', bind_some.
  apply store_length in Ew'. eexists. split; [done|]. cbn. lia.
Qed.

Lemma tpe_psd_safe count out :
  0 <= count <= 4 -> length (power out) = 16%nat ->
  1 + (if nz count then 2 ^ (count - 1) else 1) <= len ->
  (1 + (if nz count then 2 ^ (count - 1) else 1) < len ->
   exists ext, rd8 mem (p + 1 + (if nz count then 2 ^ (count - 1) else 1)) = Some ext /\
     1 + (if nz count then 2 ^ (count - 1) else 1) + 1 + get_bits ext IEEE80211_TX_PWR_ENV_EXT_COUNT <= len) ->
  exists out', tpe_psd mem p len count out = Some out' /\ length (power out') = 16%nat.
Proof.
  intros Hc Ho Hn Hx. unfold tpe_psd, sizeof_tx_pwr_env, IEEE80211_TPE_PSD_ENTRIES_320MHZ.
  destruct (nz count) eqn:Ec; cbn [negb].
  - assert (1 <= count) by (unfold nz in Ec; apply negb_true_iff, Z.eqb_neq in Ec; lia).
    rewrite Z.shiftl_mul_pow2, Z.mul_1_l by lia.
    pose proof (Z.pow_le_mono_r 2 0 (count - 1) ltac:(lia) ltac:(lia)).
    pose proof (Z.pow_le_mono_r 2 (count - 1) 3 ltac:(lia) ltac:(lia)).
    change (2 ^ 0) with 1 in *. change (2 ^ 3) with 8 in *. set (N := 2 ^ (count - 1)) in *.
    rewrite (wrap_small 8 N) by (unfold is_uint; lia).
    destruct (slice_is_Some mem (p + 1) N) as (bs & -> & Hb); [lia..|]. rewrite bind_some.
    destruct (store_is_Some (power out) 0 bs) as [pw Ew]; [lia|unfold zlen in *; lia|]. rewrite Ew, bind_some.
    apply store_length in Ew. destruct (Z.ltb_spec (1 + N) len); [|eexists; split; [done|cbn; lia]].
    destruct Hx as (ext & -> & Hk); [done|]. rewrite bind_some.
    pose proof (get_bits_bound ext IEEE80211_TX_PWR_ENV_EXT_COUNT ltac:(done) ltac:(done)) as [HK0 _].
    set (K := Z.min (get_bits ext IEEE80211_TX_PWR_ENV_EXT_COUNT) (16 - N)) in *.
    destruct (slice_is_Some mem (p + 1 + N + 1) K) as (bs' & -> & Hb'); [lia..|]. rewrite bind_some.
    destruct (store_is_Some pw N bs') as [pw' Ew']; [lia|unfold zlen in *; lia|]. rewrite Ew', bind_some.
    apply store_length in Ew'. eexists. split; [done|]. cbn. lia.
  - destruct (rd8_Some mem (p + 1)) as [b ->]; [lia|]. rewrite bind_some.
    destruct (store_is_Some (power out) 0 (replicate (Z.to_nat 16) b)) as [pw Ew];
      [lia|unfold zlen; rewrite length_replicate; lia|].
    rewrite Ew, bind_some. apply store_length in Ew. eexists. split; [done|]. cbn. lia.
Qed.

Lemma parse_tpe_safe t :
  tpe_tables_ok t -> exists t', ieee80211_parse_tpe mem t p len = Some t' /\ tpe_tables_ok t'.
Proof.
  intros Ht. unfold ieee80211_parse_tpe.
  destruct (valid_tpe_element_safe mem p len) as (b & -> & Hb); [done..|]. rewrite bind_some.
  destruct b; cbn [negb]; [|by eexists]. destruct (Hb eq_refl) as (H1 & info & -> & Hg & Hc & Hfit). rewrite bind_some.
  set (count := get_bits info IEEE80211_TX_PWR_ENV_INFO_COUNT) in *.
  set (interpret := get_bits info IEEE80211_TX_PWR_ENV_INFO_INTERPRET) in *.
  set (category := get_bits info IEEE80211_TX_PWR_ENV_INFO_CATEGORY) in *.
  pose proof (tpe_table_ok interpret t Ht) as [Hl2 Hall].
  destruct (lookup_lt_is_Some_2 (tpe_table interpret t) (Z.to_nat category)) as [out Eo]; [lia|]. rewrite Eo, bind_some.
  pose proof (Forall_lookup_1 _ _ _ _ Hall Eo) as Hlo. cbn beta in Hlo.
  pose proof (set_tpe_table_ok interpret) as Hset.
  assert (forall out', length (power out') =
      (if (interpret =? IEEE80211_TPE_LOCAL_EIRP) || (interpret =? IEEE80211_TPE_REG_CLIENT_EIRP) then 5%nat else 16%nat) ->
    tpe_tables_ok (set_tpe_table interpret (<[Z.to_nat category := out']> (tpe_table interpret t)) t)) as Hdone.
  { intros out' Ho'. apply Hset; [done|]. split; [by rewrite length_insert|]. by apply Forall_insert. }
  destruct ((interpret =? IEEE80211_TPE_LOCAL_EIRP) || (interpret =? IEEE80211_TPE_REG_CLIENT_EIRP)).
  - destruct (tpe_eirp_safe count out) as (out' & -> & Ho'); [lia..|done|]. rewrite bind_some. eexists.
    split; [done|]. by apply Hdone.
  - destruct Hfit as (H4 & HN & HK).
    destruct (tpe_psd_safe count out) as (out' & -> & Ho'); [lia|done|done|done|]. rewrite bind_some. eexists.
    split; [done|]. by apply Hdone.
Qed.
End tpe.

(** ** Looking for elements *)

(** [e] is an element of the given id with [datalen] octets of data between
    [lo] and [hi]. *)
Definition whole (mem : list Z) (lo hi e datalen id : Z) : Prop :=
  lo <= e /\ 0 <= datalen <= 255 /\ e + 2 + datalen <= hi /\
  rd8 mem e = Some id /\ rd8 mem (e + 1) = Some datalen.

(** What [for_each_element] finds. *)
Lemma element_at_whole mem elem end_ :
  bytes_ok mem -> 0 <= elem -> end_ <= zlen mem ->
  element_at mem elem end_ = Some None \/
  exists datalen id, element_at mem elem end_ = Some (Some datalen) /\ whole mem elem end_ elem datalen id.
Proof.
  intros Hok H0 He. destruct (element_at_spec mem elem end_ Hok H0 He)
    as [->|(datalen & id & -> & Ei & Ed & Hd & Hfit)]; [by left|right].
  exists datalen, id. split; [done|]. unfold whole. split_and!; (done || lia).
Qed.

(** ** The envelopes inside channel switch wrappers

    No transmit power envelope between [elem] and [end_] is empty; and the same
    for the sub-elements of every channel switch wrapper of a range. *)
Fixpoint tpe_subs_nonempty (fuel : nat) (mem : list Z) (elem end_ : Z) : bool :=
  match fuel, element_at mem elem end_ with
  | S fuel, Some (Some datalen) =>
      negb (bool_decide (rd8 mem elem = Some WLAN_EID_TX_POWER_ENVELOPE) && (datalen =? 0)) &&
      tpe_subs_nonempty fuel mem (elem + sizeof_element + datalen) end_
  | _, _ => true
  end.

Fixpoint wrappers_ok (fuel : nat) (mem : list Z) (elem end_ : Z) : bool :=
  match fuel, element_at mem elem end_ with
  | S fuel, Some (Some datalen) =>
      (negb (bool_decide (rd8 mem elem = Some WLAN_EID_CHANNEL_SWITCH_WRAPPER)) ||
       tpe_subs_nonempty (S (Z.to_nat datalen)) mem (elem + sizeof_element) (elem + sizeof_element + datalen)) &&
      wrappers_ok fuel mem (elem + sizeof_element + datalen) end_
  | _, _ => true
  end.

Definition tpe_nonempty (mem : list Z) (start len : Z) : bool := wrappers_ok (S (Z.to_nat len)) mem start (start + len).

Section walk.
Context (mem : list Z).
Hypothesis Hok : bytes_ok mem.

Lemma find_elem_loop_safe eid prefix end_ fuel : forall elem,
  0 <= elem <= end_ -> end_ <= zlen mem -> end_ - elem < Z.of_nat fuel ->
  exists r, find_elem_loop fuel mem eid prefix elem end_ = Some r /\
    from_option (fun '(e, datalen) => whole mem elem end_ e datalen eid /\ zlen prefix <= datalen /\
                   slice mem (e + 2) (zlen prefix) = Some prefix) True r.
Proof.
  induction fuel as [|fuel IH]; intros elem H0 He Hf; [lia|]. cbn [find_elem_loop].
  destruct (element_at_whole mem elem end_ Hok ltac:(lia) He) as [->|(datalen & id & -> & Hw)]; rewrite bind_some;
    [by eexists|]. pose proof Hw as (_ & Hd & Hfit & Ei & Ed). rewrite Ei, bind_some. unfold sizeof_element.
  assert (exists r, find_elem_loop fuel mem eid prefix (elem + 2 + datalen) end_ = Some r /\
    from_option (fun '(e, datalen) => whole mem elem end_ e datalen eid /\ zlen prefix <= datalen /\
                   slice mem (e + 2) (zlen prefix) = Some prefix) True r) as Hnext.
  { destruct (IH (elem + 2 + datalen)) as (r & -> & Hr); [lia..|]. exists r. split; [done|].
    destruct r as [[e d]|]; [|done]. destruct Hr as ((? & ? & ? & ? & ?) & ? & ?). unfold whole. split_and!; (done || lia). }
  destruct (Z.eqb_spec id eid) as [->|]; cbn [andb]; [|done].
  destruct (Z.leb_spec (zlen prefix) datalen); [|done].
  destruct (slice_is_Some mem (elem + 2) (zlen prefix)) as (bs & Es & _); [lia|apply zlen_nonneg|lia|].
  rewrite Es, bind_some. destruct (bool_decide_reflect (bs = prefix)) as [->|]; [|done].
  eexists. split; [done|]. cbn [from_option]. done.
Qed.

Lemma find_elem_safe eid ies len prefix :
  0 <= ies -> 0 <= len -> ies + len <= zlen mem ->
  exists r, cfg80211_find_elem_match mem eid ies len prefix = Some r /\
    from_option (fun '(e, datalen) => whole mem ies (ies + len) e datalen eid /\ zlen prefix <= datalen) True r.
Proof.
  intros. unfold cfg80211_find_elem_match.
  destruct (find_elem_loop_safe eid prefix (ies + len) (S (Z.to_nat len)) ies) as (r & -> & Hr); [lia..|].
  exists r. split; [done|]. destruct r as [[]|]; [|done]. cbn in *. tauto.
Qed.

(** A non-inheritance element as the parser holds it: complete. *)
Definition element_octets (l : list Z) : Prop :=
  bytes_ok l /\ exists n, rd8 l 1 = Some n /\ zlen l = 2 + n.

Lemma inherited_safe hi elem datalen id ni :
  whole mem elem hi elem datalen id -> 0 <= elem -> hi <= zlen mem -> from_option element_octets True ni ->
  exists b, cfg80211_is_element_inherited mem elem datalen ni = Some b.
Proof.
  intros (_ & Hd & Hfit & Ei & _) H0 Hhi Hni. unfold cfg80211_is_element_inherited, sizeof_element.
  rewrite Ei, bind_some. destruct (id =? _); [by eexists|].
  assert (exists x, (if (id =? WLAN_EID_EXTENSION) && (1 <? datalen) then rd8 mem (elem + 2) else Some 0) = Some x)
    as [x ->].
  { destruct (_ =? _); cbn [andb]; [|by eexists]. destruct (Z.ltb_spec 1 datalen); [|by eexists].
    apply rd8_Some. lia. }
  rewrite bind_some. destruct (_ && _ && _); [by eexists|]. destruct ni as [ni|]; [|by eexists].
  destruct Hni as (Hb & n & En & Hn). rewrite En, bind_some. destruct (Z.ltb_spec n 2); [by eexists|].
  destruct (rd8_Some ni (2 + 1)) as [a Ea]; [lia|]. rewrite Ea, bind_some.
  pose proof (rd8_ok _ _ _ Hb Ea) as [Ha _]. destruct (Z.ltb_spec n (3 + a)); [by eexists|].
  destruct (rd8_Some ni (2 + 2 + a)) as [b Eb]; [lia|]. rewrite Eb, bind_some.
  pose proof (rd8_ok _ _ _ Hb Eb) as [Hb0 _]. destruct (Z.ltb_spec n (3 + a + b)); [by eexists|].
  destruct (id =? WLAN_EID_EXTENSION).
  - destruct (b =? 0); cbn [orb]; [by eexists|]. destruct (Z.eqb_spec datalen 0); [by eexists|].
    destruct (rd8_Some mem (elem + 2)) as [y ->]; [lia|]. rewrite bind_some.
    destruct (slice_is_Some ni (2 + 3 + a) b) as (l & -> & _); [lia..|]. rewrite bind_some. by eexists.
  - destruct (a =? 0); [by eexists|].
    destruct (slice_is_Some ni (2 + 2) a) as (l & -> & _); [lia..|]. rewrite bind_some. by eexists.
Qed.

(** ** The state *)

Context (lo lim : Z).
Hypotheses (Hlo : 0 <= lo) (Hlim : lim <= zlen mem).

Definition ref_ok (name : string) (r : Z * Z) : Prop :=
  lo <= r.1 /\ 0 <= r.2 /\ r.1 + r.2 <= lim /\ field_size name <= r.2.
Definition defrag_ok (d : Z * Z * Z) : Prop :=
  let '(elem, start, len) := d in lo <= start /\ start + len <= lim /\ element_in mem start (start + len) elem.

Record elems_ok (e : ieee802_11_elems) : Prop := {
  eo_refs : map_Forall ref_ok (refs e);
  eo_defrag : map_Forall (fun _ => defrag_ok) (defrag e);
  eo_ttlm : zlen (ttlm e) <= IEEE80211_TTLM_MAX_CNT /\ Forall (fun t => lo <= t.1 /\ 1 <= t.2 /\ t.1 + t.2 <= lim) (ttlm e);
  eo_tpe : tpe_tables_ok (tpe e);
  eo_csa_tpe : tpe_tables_ok (csa_tpe e);
}.

Lemma keep_ok name pos len e :
  elems_ok e -> lo <= pos -> 0 <= len -> pos + len <= lim -> field_size name <= len -> elems_ok (keep name pos len e).
Proof. intros [] ????. split; try done. cbn. apply map_Forall_insert_2; [|done]. unfold ref_ok. cbn. lia. Qed.

Lemma set_defrag_ok name d e : elems_ok e -> defrag_ok d -> elems_ok (set_defrag name d e).
Proof. intros [] ?. split; try done. cbn. by apply map_Forall_insert_2. Qed.

Lemma unr_ok m e : elems_ok e -> elems_ok (ieee80211_update_unr_ap_mode m e).
Proof. by intros []. Qed.
Lemma add_error_ok m e : elems_ok e -> elems_ok (add_error m e).
Proof. by intros []. Qed.
Lemma set_tpe_ok t e : elems_ok e -> tpe_tables_ok t -> elems_ok (set_tpe t e).
Proof. by intros []. Qed.
Lemma set_csa_tpe_ok t e : elems_ok e -> tpe_tables_ok t -> elems_ok (set_csa_tpe t e).
Proof. by intros []. Qed.

Lemma add_ttlm_ok t e :
  elems_ok e -> zlen (ttlm e) < IEEE80211_TTLM_MAX_CNT -> lo <= t.1 -> 1 <= t.2 -> t.1 + t.2 <= lim ->
  elems_ok (add_ttlm t e).
Proof.
  intros [? ? [? Ht] ? ?] ????. split; try done. cbn [ttlm add_ttlm]. split; [zlens; cbn; lia|].
  apply Forall_app. split; [done|]. constructor; [done|constructor].
Qed.

(** Updates inside [lo, lim) keep the property. *)
Record elems_kept (P : ieee802_11_elems -> Prop) : Prop := {
  inv_keep name pos len e :
    P e -> lo <= pos -> 0 <= len -> pos + len <= lim -> field_size name <= len -> P (keep name pos len e);
  inv_defrag name d e : P e -> defrag_ok d -> P (set_defrag name d e);
  inv_unr m e : P e -> P (ieee80211_update_unr_ap_mode m e);
  inv_error m e : P e -> P (add_error m e);
  inv_tpe t e : P e -> tpe_tables_ok t -> P (set_tpe t e);
  inv_csa_tpe t e : P e -> tpe_tables_ok t -> P (set_csa_tpe t e);
  inv_ttlm t e : P e -> zlen (ttlm e) < IEEE80211_TTLM_MAX_CNT -> lo <= t.1 -> 1 <= t.2 -> t.1 + t.2 <= lim ->
    P (add_ttlm t e);
}.

Lemma elems_ok_kept : elems_kept elems_ok.
Proof.
  split; auto using keep_ok, set_defrag_ok, unr_ok, add_error_ok, set_tpe_ok, set_csa_tpe_ok, add_ttlm_ok.
Qed.
End walk.

Lemma elems_ok_mono mem lo lim lo' lim' e :
  lo' <= lo -> lim <= lim' -> elems_ok mem lo lim e -> elems_ok mem lo' lim' e.
Proof.
  intros Hlo Hlim [Hrefs Hdef [Hn Ht] ? ?]. split; [| |split; [done|]|done|done].
  - eapply map_Forall_impl; [done|]. intros name r (? & ? & ? & ?). unfold ref_ok. lia.
  - eapply map_Forall_impl; [done|]. intros ? [[elem start] len] (? & ? & Hin). cbn. split; [lia|]. split; [lia|done].
  - eapply Forall_impl; [done|]. cbn beta. lia.
Qed.

(** A property of the state that every update the parser makes keeps, and that
    implies that all fields lie in memory. *)
Record elems_inv (mem : list Z) (lo lim : Z) (P : ieee802_11_elems -> Prop) : Prop := {
  inv_kept : elems_kept mem lo lim P;
  inv_ok e : P e -> elems_ok mem 0 (zlen mem) e;
}.

Lemma elems_ok_inv mem lo lim : 0 <= lo -> lim <= zlen mem -> elems_inv mem lo lim (elems_ok mem lo lim).
Proof. intros. split; [apply elems_ok_kept|]. intros e. by apply elems_ok_mono. Qed.

Section parsing.
Context (mem : list Z) (lo lim : Z) (P : ieee802_11_elems -> Prop).
Hypotheses (Hok : bytes_ok mem) (Hlo : 0 <= lo) (Hlim : lim <= zlen mem) (HP : elems_inv mem lo lim P).
Let HK : elems_kept mem lo lim P := inv_kept _ _ _ _ HP.

(** ** Extension elements *)

(** The least length a positive check implies. *)
Lemma he_capa_min p len : ieee80211_he_capa_size_ok mem p len = Some true -> sizeof_he_cap_elem <= len.
Proof. unfold ieee80211_he_capa_size_ok. by destruct (Z.ltb_spec len sizeof_he_cap_elem). Qed.
Lemma eht_capa_min h p len ap : ieee80211_eht_capa_size_ok mem h p len ap = Some true -> sizeof_eht_cap_elem_fixed <= len.
Proof. unfold ieee80211_eht_capa_size_ok. destruct h; [|done]. by destruct (Z.ltb_spec len sizeof_eht_cap_elem_fixed). Qed.
Lemma eht_oper_min p len : ieee80211_eht_oper_size_ok mem p len = Some true -> sizeof_eht_operation <= len.
Proof. unfold ieee80211_eht_oper_size_ok. by destruct (Z.ltb_spec len sizeof_eht_operation). Qed.
Lemma bandwidth_min p len :
  ieee80211_bandwidth_indication_size_ok mem p len = Some true -> sizeof_bandwidth_indication <= len.
Proof. unfold ieee80211_bandwidth_indication_size_ok. by destruct (Z.ltb_spec len sizeof_bandwidth_indication). Qed.
Lemma uhr_oper_min p len : ieee80211_uhr_oper_size_ok mem p len = Some true -> sizeof_uhr_operation <= len.
Proof. unfold ieee80211_uhr_oper_size_ok. by destruct (Z.ltb_spec len sizeof_uhr_operation). Qed.
Lemma uhr_capa_min p len ap : ieee80211_uhr_capa_size_ok mem p len ap = Some true -> sizeof_uhr_cap <= len.
Proof. unfold ieee80211_uhr_capa_size_ok. by destruct (Z.ltb_spec len sizeof_uhr_cap). Qed.
Lemma smd_prep_min p len : ieee80211_smd_prep_resp_size_ok mem p len = Some true -> 1 <= len.
Proof. unfold ieee80211_smd_prep_resp_size_ok. by destruct (Z.ltb_spec len 1). Qed.
Lemma smd_exec_min p len : ieee80211_smd_exec_resp_size_ok mem p len = Some true -> 1 <= len.
Proof. unfold ieee80211_smd_exec_resp_size_ok. by destruct (Z.ltb_spec len 1). Qed.
Lemma ttlm_min p len : ieee80211_tid_to_link_map_size_ok mem p len = Some true -> 1 <= len.
Proof. unfold ieee80211_tid_to_link_map_size_ok. by destruct (Z.ltb_spec len sizeof_ttlm_elem). Qed.

Definition ext_good (r : option (ieee802_11_elems * bool)) : Prop := exists e b, r = Some (e, b) /\ P e.

Lemma ext_none e b : P e -> ext_good (Some (e, b)).
Proof. intros. by exists e, b. Qed.

Section extension.
Context (params : ieee80211_elems_parse_params) (elem datalen : Z).
Hypotheses (Hps : lo <= p_start params) (Hpl : p_start params + p_len params <= lim)
  (Hw : whole mem (p_start params) (p_start params + p_len params) elem datalen WLAN_EID_EXTENSION) (Hd : 0 < datalen).

Abbreviation data := (elem + 2 + 1).
Abbreviation len := (datalen - 1).

Lemma ext_range : 0 <= data /\ 0 <= len /\ data + len <= zlen mem /\ lo <= data /\ data + len <= lim.
Proof. destruct Hw as (? & ? & ? & _). lia. Qed.

Lemma ext_keep name (ok : bool) b e :
  P e -> (ok = true -> field_size name <= len) -> ext_good (Some (if ok then keep name data len e else e, b)).
Proof.
  intros He Hs. pose proof ext_range. apply ext_none. destruct ok; [|done].
  apply (inv_keep _ _ _ _ HK); [done|lia..|by apply Hs].
Qed.

Lemma ext_defrag name b e : P e -> ext_good (Some (set_defrag name (elem, p_start params, p_len params) e, b)).
Proof.
  intros He. apply ext_none, (inv_defrag _ _ _ _ HK); [done|]. cbn. split; [done|]. split; [done|].
  destruct Hw as (? & ? & ? & ? & ?). split; [done|]. split; [lia|]. eauto 10 with lia.
Qed.

Lemma parse_extension_he_safe id e otherwise :
  P e -> ext_good otherwise -> ext_good (parse_extension_he mem params id data len e otherwise).
Proof.
  intros He Ho. pose proof ext_range as (H1 & H2 & H3 & H4 & H5). unfold parse_extension_he. cbv zeta.
  destruct (_ =? _). { destruct (negb _); [by apply ext_none|]. apply ext_keep; [done|]. by intros ?%Z.leb_le. }
  destruct (_ =? _).
  { destruct (negb _); [by apply ext_none, (inv_unr _ _ _ _ HK)|].
    destruct (he_capa_size_ok_safe mem data len) as [ok E]; [done..|]. rewrite E, bind_some.
    apply ext_keep; [by apply (inv_unr _ _ _ _ HK)|]. intros ->. by apply he_capa_min in E. }
  destruct (_ =? _).
  { destruct (negb _); [by apply ext_none, (inv_unr _ _ _ _ HK)|]. destruct (Z.ltb_spec len sizeof_he_operation); [by apply ext_none, (inv_unr _ _ _ _ HK)|].
    destruct (he_oper_size_safe mem data len) as [n ->]; [done..|]. rewrite bind_some.
    apply ext_keep; [by apply (inv_unr _ _ _ _ HK)|]. by intros _. }
  destruct (_ =? _). { apply ext_keep; [done|]. by intros [_ ?%Z.leb_le]%andb_prop. }
  destruct (_ =? _). { apply ext_keep; [done|]. intros ->%Z.eqb_eq. done. }
  destruct (_ =? _). { apply ext_keep; [done|]. by intros ?%Z.leb_le. }
  destruct (_ =? _).
  { destruct (negb _); cbn [orb]; [by apply ext_none|]. destruct (Z.ltb_spec len sizeof_he_spr); [by apply ext_none|].
    destruct (he_spr_size_safe mem data len) as [n ->]; [done..|]. rewrite bind_some. apply ext_keep; [done|]. by intros _. }
  destruct (_ =? _). { apply ext_keep; [done|]. by intros [_ ?%Z.leb_le]%andb_prop. }
  done.
Qed.

Lemma he_cap_ok e : P e ->
  from_option (fun q => 0 <= q /\ q + sizeof_he_cap_elem <= zlen mem) True (fst <$> refs e !! "he_cap").
Proof.
  intros He%(inv_ok _ _ _ _ HP). destruct He as [Hr _ _ _ _]. destruct (refs e !! "he_cap") as [[q n]|] eqn:E; cbn [fmap option_fmap option_map from_option fst]; [|done].
  apply Hr in E. destruct E as (H1 & H2 & H3 & H4). cbn [fst snd] in *.
  change (field_size "he_cap") with sizeof_he_cap_elem in H4. lia.
Qed.

Lemma mle_min p n : ieee80211_mle_size_ok mem p n = Some true -> 2 <= n.
Proof. unfold ieee80211_mle_size_ok. by destruct (Z.ltb_spec n sizeof_multi_link_elem). Qed.

Lemma ext_ttlm (ok : bool) b e :
  P e -> (ok = true -> 1 <= len) ->
  ext_good (Some (if ok && (zlen (ttlm e) <? IEEE80211_TTLM_MAX_CNT) then add_ttlm (data, len) e else e, b)).
Proof.
  intros He H. pose proof ext_range. apply ext_none. destruct ok; [|done]. cbn [andb].
  destruct (Z.ltb_spec (zlen (ttlm e)) IEEE80211_TTLM_MAX_CNT); [|done]. specialize (H eq_refl).
  apply (inv_ttlm _ _ _ _ HK); (done || cbn; lia).
Qed.

Lemma parse_extension_eht_safe inside id e otherwise :
  P e -> ext_good otherwise -> ext_good (parse_extension_eht mem params inside id elem data len e otherwise).
Proof.
  intros He Ho. pose proof ext_range as (H1 & H2 & H3 & H4 & H5). unfold parse_extension_eht. cbv zeta.
  destruct (_ =? _).
  { destruct (negb _); [by apply ext_none, (inv_unr _ _ _ _ HK)|].
    destruct (eht_capa_size_ok_safe mem data len Hok H1 H3 (fst <$> refs e !! "he_cap") (from_ap params)) as [ok E];
      [by apply he_cap_ok|]. cbn [refs ieee80211_update_unr_ap_mode]. rewrite E, bind_some.
    apply ext_keep; [by apply (inv_unr _ _ _ _ HK)|]. intros ->. by apply eht_capa_min in E. }
  destruct (_ =? _).
  { destruct (negb _); [by apply ext_none, (inv_unr _ _ _ _ HK)|].
    destruct (eht_oper_size_ok_safe mem data len) as [ok E]; [done..|]. rewrite E, bind_some.
    apply ext_keep; [by apply (inv_unr _ _ _ _ HK)|]. intros ->. by apply eht_oper_min in E. }
  destruct (_ =? _).
  { destruct (negb _); [by apply ext_none|].
    destruct (mle_size_ok_safe mem data len) as [ok E]; [done..|]. rewrite E, bind_some.
    destruct ok; cbn [negb]; [|by apply ext_none]. apply mle_min in E.
    destruct (rd_le16_Some mem data) as [c ->]; [lia..|]. rewrite bind_some.
    destruct (_ =? _); [destruct inside; [by apply ext_none, (inv_error _ _ _ _ HK)|by apply ext_defrag]|].
    destruct (_ =? _); [by apply ext_defrag|]. destruct (_ =? _); [by apply ext_defrag|by apply ext_none]. }
  destruct (_ =? _).
  { destruct (negb _); [by apply ext_none|].
    destruct (bandwidth_indication_size_ok_safe mem data len) as [ok E]; [done..|]. rewrite E, bind_some.
    apply ext_keep; [done|]. intros ->. by apply bandwidth_min in E. }
  destruct (_ =? _).
  { destruct (negb _); [by apply ext_none|].
    destruct (tid_to_link_map_size_ok_safe mem data len) as [ok E]; [done..|]. rewrite E, bind_some.
    apply ext_ttlm; [done|]. intros ->. by apply ttlm_min in E. }
  done.
Qed.

Lemma parse_extension_uhr_safe id e :
  P e -> ext_good (parse_extension_uhr mem params id elem data len e).
Proof.
  intros He. pose proof ext_range as (H1 & H2 & H3 & H4 & H5). unfold parse_extension_uhr. cbv zeta.
  destruct (_ =? _). { apply ext_keep; [done|]. by intros ?%Z.leb_le. }
  destruct (_ =? _).
  { destruct (negb _); [by apply ext_none, (inv_unr _ _ _ _ HK)|].
    destruct (uhr_oper_size_ok_safe mem data len) as [ok E]; [done..|]. rewrite E, bind_some.
    apply ext_keep; [by apply (inv_unr _ _ _ _ HK)|]. intros ->. by apply uhr_oper_min in E. }
  destruct (_ =? _).
  { destruct (negb _); [by apply ext_none, (inv_unr _ _ _ _ HK)|].
    destruct (uhr_capa_size_ok_safe mem data len Hok H1 H3 true) as [ok E]. rewrite E, bind_some.
    apply ext_keep; [by apply (inv_unr _ _ _ _ HK)|]. intros ->. by apply uhr_capa_min in E. }
  destruct (_ =? _). { destruct (negb _); [by apply ext_none|by apply ext_defrag]. }
  destruct (_ =? _); [|by apply ext_none].
  destruct (_ =? _).
  { destruct (smd_prep_resp_size_ok_safe mem data len) as [ok E]; [done..|]. rewrite E, bind_some.
    apply ext_keep; [done|]. intros ->. by apply smd_prep_min in E. }
  destruct (_ =? _); [|by apply ext_none].
  destruct (smd_exec_resp_size_ok_safe mem data len) as [ok E]; [done..|]. rewrite E, bind_some.
  apply ext_keep; [done|]. intros ->. by apply smd_exec_min in E.
Qed.
End extension.

(** ** The switch *)

Section switch.
Context (crc32_be : Z -> list Z -> Z).

Definition good (r : option outcome) : Prop := exists e f c, r = Some (e, f, c) /\ P e.

Lemma good_some e f c : P e -> good (Some (e, f, c)).
Proof. intros. by exists e, f, c. Qed.

Context (params : ieee80211_elems_parse_params) (elem elen id : Z).
Hypotheses (Hps : lo <= p_start params) (Hpl : p_start params + p_len params <= lim)
  (Hw : whole mem (p_start params) (p_start params + p_len params) elem elen id).
Abbreviation pos := (elem + 2).

Lemma elem_range : 0 <= elem /\ 0 <= elen <= 255 /\ elem + 2 + elen <= lim /\ lo <= elem.
Proof. destruct Hw as (? & ? & ? & _). lia. Qed.

Lemma crc_element_safe on c : exists c', crc_element crc32_be mem on c elem elen = Some c'.
Proof.
  pose proof elem_range. unfold crc_element. destruct on; [|by eexists].
  destruct (slice_is_Some mem elem (elen + 2)) as (bs & -> & _); [lia..|]. by eexists.
Qed.

Lemma sized_ok (ok : bool) name c e :
  P e -> (ok = true -> field_size name <= elen) -> good (sized ok name pos elen c e).
Proof.
  intros He H. pose proof elem_range. unfold sized. destruct ok; apply good_some; [|done].
  apply (inv_keep _ _ _ _ HK); [done|lia..|by apply H].
Qed.

Lemma plain_ok name c e : P e -> field_size name = 0 -> good (plain name pos elen c e).
Proof. intros He H. pose proof elem_range. apply sized_ok; [done|]. lia. Qed.

(** The tests of [sized]. *)
Local Ltac size_test :=
  apply sized_ok; [done|];
  first [by intros ->|by intros ?%Z.leb_le|by intros ?%Z.ltb_lt|by intros ->%Z.eqb_eq
        |intros ?%Z.ltb_lt; cbn; lia].

Lemma parse_vendor_safe calc_crc sv c e :
  P e -> good (parse_vendor crc32_be mem calc_crc sv elem pos elen c e).
Proof.
  intros He. pose proof elem_range. unfold parse_vendor. destruct sv; cbn [orb]; [by apply good_some|].
  destruct (Z.ltb_spec elen 4); [by apply good_some|].
  destruct (slice_is_Some mem pos 3) as (bs & -> & _); [lia..|]. rewrite bind_some.
  destruct (negb _); [by apply good_some|]. destruct (crc_element_safe calc_crc c) as [c' ->]. rewrite bind_some.
  destruct (Z.ltb_spec elen 5); [by apply good_some|].
  destruct (rd8_Some mem (pos + 3)) as [t ->]; [lia|]. rewrite bind_some.
  destruct (rd8_Some mem (pos + 4)) as [u ->]; [lia|]. rewrite bind_some.
  destruct (negb _); [by apply good_some|].
  destruct (u =? 0); [apply sized_ok; [done|by intros _]|].
  destruct (u =? 1); [apply sized_ok; [done|by intros _]|by apply good_some].
Qed.

Lemma parse_basic_safe calc_crc sv c e otherwise :
  P e -> good otherwise -> good (parse_basic crc32_be mem params calc_crc sv id elem pos elen c e otherwise).
Proof.
  intros He Ho. pose proof elem_range as (H1 & H2 & H3 & H4). unfold parse_basic.
  destruct (_ =? _).
  { unfold sized. destruct (Z.leb_spec sizeof_tdls_lnkie (elen + 2)) as [Hs|]; apply good_some; [|done].
    apply (inv_keep _ _ _ _ HK); [done|lia..|exact Hs]. }
  destruct (_ =? _); [size_test|].
  do 3 (destruct (_ =? _); [by apply plain_ok|]).
  destruct (_ =? _); [size_test|].
  destruct (_ =? _).
  { apply sized_ok; [done|]. intros [[_ ?%Z.leb_le]%andb_prop|?%Z.leb_le]%orb_true_iff; [done|].
    change (field_size "tim") with 2. unfold sizeof_tim_ie in *. lia. }
  destruct (_ =? _); [by apply parse_vendor_safe|].
  destruct (_ =? _); [by apply plain_ok|]. destruct (_ =? _); [size_test|].
  destruct (_ =? _); [by apply plain_ok|done].
Qed.

Lemma parse_ht_vht_safe calc_crc c e otherwise :
  P e -> good otherwise -> good (parse_ht_vht crc32_be mem params calc_crc id elem pos elen c e otherwise).
Proof.
  intros He Ho. unfold parse_ht_vht. cbv zeta.
  do 3 (destruct (_ =? _); [destruct (_ <? _); [by apply good_some, (inv_unr _ _ _ _ HK)|];
    apply sized_ok; [by apply (inv_unr _ _ _ _ HK)|]; by intros ?%Z.leb_le|]).
  destruct (_ =? _).
  { destruct (_ <? _); [by apply good_some, (inv_unr _ _ _ _ HK)|]. edestruct crc_element_safe as [c' ->]. rewrite bind_some.
    apply sized_ok; [by apply (inv_unr _ _ _ _ HK)|]. by intros ?%Z.leb_le. }
  destruct (_ =? _).
  { destruct (_ <? _); [by apply good_some|]. edestruct crc_element_safe as [c' ->]. rewrite bind_some.
    apply sized_ok; [done|]. intros ?%Z.ltb_lt. change (field_size "opmode_notif") with 1. lia. }
  done.
Qed.

Lemma parse_mesh_safe c e otherwise :
  P e -> good otherwise -> good (parse_mesh mem id pos elen c e otherwise).
Proof.
  intros He Ho. pose proof elem_range as (H1 & H2 & H3 & H4). unfold parse_mesh.
  destruct (_ =? _); [by apply plain_ok|]. destruct (_ =? _); [size_test|]. destruct (_ =? _); [by apply plain_ok|].
  destruct (_ =? _); [destruct (Z.leb_spec 2 elen); [apply sized_ok; [done|by intros _]|by apply good_some]|].
  destruct (_ =? _).
  { destruct (mesh_preq_size_ok_safe mem pos elen) as [ok ->]; [done|lia..|]. rewrite bind_some.
    apply sized_ok; [done|]. intros _. apply H2. }
  destruct (_ =? _).
  { destruct (mesh_prep_size_ok_safe mem pos elen) as [ok ->]; [done|lia..|]. rewrite bind_some.
    apply sized_ok; [done|]. intros _. apply H2. }
  destruct (_ =? _).
  { destruct (mesh_perr_size_ok_safe mem pos elen) as [ok ->]; [done|lia..|]. rewrite bind_some.
    apply sized_ok; [done|]. intros _. apply H2. }
  destruct (_ =? _); [size_test|done].
Qed.

Lemma csa_tpe_loop_safe end_ fuel : forall s t,
  0 <= s <= end_ -> end_ <= zlen mem -> end_ - s < Z.of_nat fuel ->
  tpe_subs_nonempty fuel mem s end_ = true -> tpe_tables_ok t ->
  exists t', csa_tpe_loop fuel mem s end_ t = Some t' /\ tpe_tables_ok t'.
Proof.
  induction fuel as [|fuel IH]; intros s t Hs He Hf Hn Ht; [lia|]. cbn [csa_tpe_loop tpe_subs_nonempty] in *.
  destruct (element_at_whole mem s end_ Hok ltac:(lia) He) as [E|(d & i & E & Hws)]; rewrite E in *; rewrite bind_some;
    [by eexists|]. destruct Hws as (_ & Hd & Hfit & Ei & Ed). rewrite Ei in *. rewrite bind_some. unfold sizeof_element in *.
  apply andb_prop in Hn as [Hn Hrest].
  assert (exists t', (if i =? WLAN_EID_TX_POWER_ENVELOPE then ieee80211_parse_tpe mem t (s + 2 + 1) (u8 (d - 1))
                      else Some t) = Some t' /\ tpe_tables_ok t') as (t' & -> & Ht').
  { destruct (Z.eqb_spec i WLAN_EID_TX_POWER_ENVELOPE) as [->|]; [|by eexists].
    rewrite bool_decide_true in Hn by done. cbn [andb] in Hn. apply negb_true_iff, Z.eqb_neq in Hn.
    rewrite wrap_small by (unfold is_uint; lia). apply parse_tpe_safe; (done || lia). }
  rewrite bind_some. apply IH; [lia..|done|done].
Qed.

Lemma parse_csa_wrapper_safe c e :
  P e -> tpe_subs_nonempty (S (Z.to_nat elen)) mem pos (pos + elen) = true ->
  good (parse_csa_wrapper mem params pos elen c e).
Proof.
  intros He Hn. pose proof elem_range as (H1 & H2 & H3 & H4). unfold parse_csa_wrapper, cfg80211_find_elem, cfg80211_find_ext_elem.
  destruct (_ <? _); [by apply good_some|]. destruct (_ =? _); [by apply good_some|].
  destruct (find_elem_safe mem Hok WLAN_EID_WIDE_BW_CHANNEL_SWITCH pos elen []) as (r & -> & Hr); [lia..|]. rewrite bind_some.
  assert (exists e' f, match r with
      | Some (s, datalen) => if sizeof_wide_bw_chansw_ie <=? datalen
                             then (keep "wide_bw_chansw_ie" (s + sizeof_element) datalen e, 0)
                             else (e, IEEE80211_PARSE_ERR_BAD_ELEM_SIZE)
      | None => (e, 0) end = (e', f) /\ P e') as (e1 & f1 & -> & He1).
  { destruct r as [[s d]|]; [|by eexists _, _]. destruct Hr as [(? & ? & ? & _) _].
    destruct (Z.leb_spec sizeof_wide_bw_chansw_ie d); eexists _, _; (split; [done|]); [|done].
    unfold sizeof_element. apply (inv_keep _ _ _ _ HK); [done|lia..|done]. }
  destruct (_ <? _); [by apply good_some|].
  destruct (find_elem_safe mem Hok WLAN_EID_EXTENSION pos elen [WLAN_EID_EXT_BANDWIDTH_INDICATION]) as (r2 & -> & Hr2); [lia..|].
  rewrite bind_some.
  assert (exists e' f, match r2 with
      | Some (s, datalen) =>
          ok ← ieee80211_bandwidth_indication_size_ok mem (s + sizeof_element + 1) (datalen - 1);
          Some (if ok : bool then (keep "bandwidth_indication" (s + sizeof_element + 1) (datalen - 1) e1, f1)
                else (e1, IEEE80211_PARSE_ERR_BAD_ELEM_SIZE))
      | None => Some (e1, f1) end = Some (e', f) /\ P e') as (e2 & f2 & -> & He2).
  { destruct r2 as [[s d]|]; [|by eexists _, _]. destruct Hr2 as [(? & ? & ? & _) Hz]. cbn beta iota in Hz. change (zlen [WLAN_EID_EXT_BANDWIDTH_INDICATION]) with 1 in Hz. unfold sizeof_element.
    destruct (bandwidth_indication_size_ok_safe mem (s + 2 + 1) (d - 1)) as [ok E]; [try (done || lia)..|]. rewrite E, bind_some.
    destruct ok; eexists _, _; (split; [done|]); [|done]. apply bandwidth_min in E. apply (inv_keep _ _ _ _ HK); [done|lia..|done]. }
  rewrite bind_some.
  destruct (csa_tpe_loop_safe (pos + elen) (S (Z.to_nat elen)) pos (csa_tpe e2)) as (t & -> & Ht); [lia..|done|by apply (inv_ok _ _ _ _ HP)|].
  rewrite bind_some. by apply good_some, (inv_csa_tpe _ _ _ _ HK).
Qed.

Lemma parse_channel_safe c e otherwise :
  P e -> good otherwise ->
  (id = WLAN_EID_CHANNEL_SWITCH_WRAPPER -> tpe_subs_nonempty (S (Z.to_nat elen)) mem pos (pos + elen) = true) ->
  good (parse_channel mem params id pos elen c e otherwise).
Proof.
  intros He Ho Hn. pose proof elem_range as (H1 & H2 & H3 & H4). unfold parse_channel. cbv zeta.
  do 2 (destruct (_ =? _); [size_test|]).
  destruct (_ =? _); [destruct (_ <? _); [by apply good_some|size_test]|].
  destruct (_ =? _); [size_test|].
  destruct (_ =? _); [destruct (_ <? _); [by apply good_some|]; destruct (negb _); [by apply good_some|size_test]|].
  destruct (Z.eqb_spec id WLAN_EID_CHANNEL_SWITCH_WRAPPER); [apply parse_csa_wrapper_safe; [done|by apply Hn]|].
  destruct (_ =? _); [by apply plain_ok|]. do 3 (destruct (_ =? _); [size_test|]).
  destruct (_ =? _).
  { destruct (Z.leb_spec sizeof_bss_max_idle_period_ie elen); [apply sized_ok; [done|by intros _]|by apply good_some]. }
  destruct (_ =? _); [by apply plain_ok|].
  destruct (_ =? _); [|done]. destruct (_ <? _); [by apply good_some|].
  destruct (parse_tpe_safe mem pos elen) with (t := tpe e) as (t & -> & Ht); [try (done || lia)..|]; [by apply (inv_ok _ _ _ _ HP)|]. rewrite bind_some.
  by apply good_some, (inv_tpe _ _ _ _ HK).
Qed.

Lemma parse_s1g_safe c e : P e -> good (parse_s1g params id pos elen c e).
Proof.
  intros He. unfold parse_s1g. destruct (negb _); [by apply good_some|].
  do 4 (destruct (_ =? _); [size_test|]). by apply good_some.
Qed.

Lemma parse_element_safe inside sv c e :
  P e ->
  (id = WLAN_EID_CHANNEL_SWITCH_WRAPPER -> tpe_subs_nonempty (S (Z.to_nat elen)) mem pos (pos + elen) = true) ->
  good (parse_element crc32_be mem params inside sv id elem elen c e).
Proof.
  intros He Hn. unfold parse_element, sizeof_element. cbv zeta.
  apply parse_basic_safe, parse_ht_vht_safe, parse_mesh_safe, parse_channel_safe; try done.
  destruct (Z.eqb_spec id WLAN_EID_EXTENSION) as [E|]; [|by apply parse_s1g_safe].
  unfold ieee80211_parse_extension_element, sizeof_element. pose proof elem_range.
  destruct (Z.eqb_spec elen 0); [rewrite bind_some; by apply good_some|].
  destruct (rd8_Some mem (elem + 2)) as [x ->]; [lia|]. rewrite bind_some. cbv zeta.
  destruct (parse_extension_he_safe params elem elen Hps Hpl ltac:(by rewrite <- E) ltac:(lia) x e
    (parse_extension_eht mem params inside x elem (elem + 2 + 1) (elen - 1) e
       (parse_extension_uhr mem params x elem (elem + 2 + 1) (elen - 1) e))) as (e' & b & -> & He'); [done| |].
  { apply parse_extension_eht_safe; [done|done|by rewrite <- E|lia|done|].
    apply parse_extension_uhr_safe; [done|done|by rewrite <- E|lia|done]. }
  rewrite bind_some. edestruct crc_element_safe as [c' ->]. rewrite !bind_some. by apply good_some.
Qed.
End switch.

(** ** The walk *)

Lemma parse_loop_safe crc32_be params inside sv ni fuel : forall elem seen c e,
  lo <= p_start params -> p_start params + p_len params <= lim -> from_option element_octets True ni ->
  p_start params <= elem <= p_start params + p_len params ->
  p_start params + p_len params - elem < Z.of_nat fuel ->
  wrappers_ok fuel mem elem (p_start params + p_len params) = true -> P e ->
  exists e' c', parse_loop crc32_be fuel mem params inside sv ni elem (p_start params + p_len params) seen c e
    = Some (e', c') /\ P e'.
Proof.
  induction fuel as [|fuel IH]; intros elem seen c e Hps Hpl Hni Hel Hf Hn He; [lia|].
  cbn [parse_loop wrappers_ok] in *.
  destruct (element_at_whole mem elem (p_start params + p_len params) Hok) as [E|(d & i & E & Hw)]; [lia|lia| |];
    rewrite E in *; rewrite bind_some.
  { eexists _, _. split; [done|]. case_match; [done|by apply (inv_error _ _ _ _ HK)]. }
  assert (whole mem (p_start params) (p_start params + p_len params) elem d i) as Hw'
    by (destruct Hw as (? & ? & ? & ? & ?); unfold whole; split_and!; (done || lia)).
  pose proof Hw as (_ & Hd & Hfit & Ei & Ed). rewrite Ei in *. rewrite bind_some. unfold sizeof_element in *.
  apply andb_prop in Hn as [Hn Hrest].
  assert (forall seen c e, P e -> exists e' c',
    parse_loop crc32_be fuel mem params inside sv ni (elem + 2 + d) (p_start params + p_len params) seen c e
    = Some (e', c') /\ P e') as Hnext by (intros; apply IH; (done || lia)).
  assert (exists b, (match ni with Some _ => cfg80211_is_element_inherited mem elem d ni | None => Some true end) = Some b)
    as [b Eb].
  { destruct ni as [ni|]; [|by eexists].
    apply (inherited_safe mem (p_start params + p_len params) elem d i (Some ni)); (done || lia). }
  rewrite Eb, bind_some. destruct b; cbn [negb]; [|by apply Hnext].
  destruct (_ && _); [by apply Hnext, (inv_error _ _ _ _ HK)|].
  edestruct (crc_element_safe crc32_be params elem d i Hps Hpl Hw') as [c' ->]. rewrite bind_some.
  destruct (parse_element_safe crc32_be params elem d i Hps Hpl Hw' inside sv c' e) as (e1 & f & c1 & -> & He1);
    [done| |].
  { intros ->. rewrite bool_decide_true in Hn by done. exact Hn. }
  rewrite bind_some. destruct (nz f); [by apply Hnext, (inv_error _ _ _ _ HK)|by apply Hnext].
Qed.
End parsing.

Lemma zeroed_elems_ok mem lo lim : elems_ok mem lo lim zeroed_elems.
Proof.
  split; [by apply map_Forall_empty|by apply map_Forall_empty|split; [by vm_compute|constructor]|..];
    repeat split; repeat constructor.
Qed.

(** On any elements, whatever their contents, the parser comes to an end
    without leaving them, and every pointer it records has behind it, inside
    the elements, the octets its users read: the whole structure for fields of
    fixed size, the recorded length for the others, a whole element for those
    to be defragmented.  (An empty transmit power envelope inside a channel
    switch wrapper is excluded.) *)
Theorem parse_elems_safe crc32_be mem params inside skip_vendor ni :
  bytes_ok mem -> 0 <= p_start params -> 0 <= p_len params -> p_start params + p_len params <= zlen mem ->
  from_option element_octets True ni -> tpe_nonempty mem (p_start params) (p_len params) = true ->
  exists e crc,
    _ieee802_11_parse_elems_full crc32_be mem params inside skip_vendor ni zeroed_elems = Some (e, crc) /\
    elems_ok mem (p_start params) (p_start params + p_len params) e.
Proof.
  intros Hok Hs Hl Hfit Hni Hn. set (end_ := p_start params + p_len params) in *.
  apply (parse_loop_safe mem (p_start params) end_ (elems_ok mem (p_start params) end_)); try done;
    [by apply elems_ok_inv|unfold end_; lia..|apply zeroed_elems_ok].
Qed.

(** ** What a parse without errors means *)

(** The elements of a range, as identifier, position and length; they fill
    it. *)
Inductive tiled (mem : list Z) (end_ : Z) : Z -> list (Z * Z * Z) -> Prop :=
| tiled_end : tiled mem end_ end_ []
| tiled_elem p d id l : whole mem p end_ p d id -> tiled mem end_ (p + 2 + d) l -> tiled mem end_ p ((id, p, d) :: l).

Definition elem_id (x : Z * Z * Z) : Z := x.1.1.

(** The lengths the parser insists on, for a station of the mode and in a frame
    of the type. *)
Definition elem_len_ok (params : ieee80211_elems_parse_params) (id len : Z) : bool :=
  let below m := mode params <? m in
  let s1g := mode params =? IEEE80211_CONN_MODE_S1G in
  if id =? WLAN_EID_LINK_ID then 18 <=? len
  else if id =? WLAN_EID_CHAN_SWITCH_TIMING then 4 <=? len
  else if id =? WLAN_EID_DS_PARAMS then 1 <=? len
  else if id =? WLAN_EID_TIM then (if s1g then 2 else 4) <=? len
  else if id =? WLAN_EID_ERP_INFO then 1 <=? len
  else if id =? WLAN_EID_HT_CAPABILITY then below IEEE80211_CONN_MODE_HT || (26 <=? len)
  else if id =? WLAN_EID_HT_OPERATION then below IEEE80211_CONN_MODE_HT || (22 <=? len)
  else if id =? WLAN_EID_VHT_CAPABILITY then below IEEE80211_CONN_MODE_VHT || (12 <=? len)
  else if id =? WLAN_EID_VHT_OPERATION then below IEEE80211_CONN_MODE_VHT || (5 <=? len)
  else if id =? WLAN_EID_OPMODE_NOTIF then below IEEE80211_CONN_MODE_VHT || (1 <=? len)
  else if id =? WLAN_EID_MESH_CONFIG then 7 <=? len
  else if id =? WLAN_EID_RANN then 21 <=? len
  else if id =? WLAN_EID_CHANNEL_SWITCH then len =? 3
  else if id =? WLAN_EID_EXT_CHANSWITCH_ANN then len =? 4
  else if id =? WLAN_EID_SECONDARY_CHANNEL_OFFSET then below IEEE80211_CONN_MODE_HT || (len =? 1)
  else if id =? WLAN_EID_CHAN_SWITCH_PARAM then 6 <=? len
  else if id =? WLAN_EID_WIDE_BW_CHANNEL_SWITCH then
    below IEEE80211_CONN_MODE_VHT || ((type params =? MGMT_ACTION) && (3 <=? len))
  else if id =? WLAN_EID_CHANNEL_SWITCH_WRAPPER then
    below IEEE80211_CONN_MODE_VHT || negb (type params =? MGMT_ACTION)
  else if id =? WLAN_EID_PWR_CONSTRAINT then len =? 1
  else if id =? WLAN_EID_ADDBA_EXT then 1 <=? len
  else if id =? WLAN_EID_TIMEOUT_INTERVAL then 5 <=? len
  else if id =? WLAN_EID_S1G_CAPABILITIES then negb s1g || (15 <=? len)
  else if id =? WLAN_EID_S1G_OPERATION then negb s1g || (len =? 6)
  else if id =? WLAN_EID_S1G_BCN_COMPAT then negb s1g || (len =? 8)
  else if id =? WLAN_EID_AID_RESPONSE then negb s1g || (len =? 5)
  else true.

(** The mesh elements, whose length depends on what they hold. *)
Definition mesh_elem_ok (mem : list Z) (id pos len : Z) : bool :=
  if id =? WLAN_EID_PREQ then bool_decide (ieee80211_mesh_preq_size_ok mem pos len = Some true)
  else if id =? WLAN_EID_PREP then bool_decide (ieee80211_mesh_prep_size_ok mem pos len = Some true)
  else if id =? WLAN_EID_PERR then bool_decide (ieee80211_mesh_perr_size_ok mem pos len = Some true)
  else true.

(** An element of [l] is of an allowed length. *)
Definition elem_ok (mem : list Z) (params : ieee80211_elems_parse_params) (x : Z * Z * Z) : bool :=
  elem_len_ok params (elem_id x) x.2 && mesh_elem_ok mem (elem_id x) (x.1.2 + 2) x.2.

(** An error recorded is never lost. *)
Lemma noerr_inv mem lo lim e0 :
  0 <= lo -> lim <= zlen mem ->
  elems_inv mem lo lim (fun e => elems_ok mem lo lim e /\ (parse_error e = 0 -> parse_error e0 = 0)).
Proof.
  intros Hlo Hlim. pose proof (elems_ok_kept mem lo lim) as HK.
  split; [|intros e [He _]; by apply (inv_ok _ _ _ _ (elems_ok_inv mem lo lim Hlo Hlim))].
  split; intros *; intros [He Hz]; intros;
    (split; [first [by apply (inv_keep _ _ _ _ HK)|by apply (inv_defrag _ _ _ _ HK)|by apply (inv_unr _ _ _ _ HK)
                   |by apply (inv_error _ _ _ _ HK)|by apply (inv_tpe _ _ _ _ HK)|by apply (inv_csa_tpe _ _ _ _ HK)
                   |by apply (inv_ttlm _ _ _ _ HK)]|];
     first [exact Hz|cbn; intros [? _]%Z.lor_eq_0_iff; by apply Hz]).
Qed.

Section accepts.
Context (crc32_be : Z -> list Z -> Z) (mem : list Z) (params : ieee80211_elems_parse_params) (inside sv : bool).

(** A case that does not fail has a length that is allowed: the conditions of
    the case, or the ones the table has for it. *)
Local Ltac open_case H :=
  cbv [parse_element parse_basic parse_ht_vht parse_mesh parse_channel parse_s1g parse_csa_wrapper sized plain skip] in H;
  repeat match type of H with
  | context [if ?x =? ?y then _ else _] =>
      let b := eval vm_compute in (x =? y) in
      match b with true => change (x =? y) with true in H | false => change (x =? y) with false in H end; cbv iota in H
  end.

Lemma parse_element_len id elem d c e e' c' :
  parse_element crc32_be mem params inside sv id elem d c e = Some (e', 0, c') -> elem_len_ok params id d = true.
Proof.
  unfold elem_len_ok.
  repeat match goal with
  | |- context [if id =? ?x then _ else _] => destruct (Z.eqb_spec id x) as [->|]; [intros H|]
  end; [..|done].
  all: open_case H; cbv [sizeof_tdls_lnkie sizeof_ch_switch_timing sizeof_tim_ie sizeof_ht_cap sizeof_ht_operation
    sizeof_vht_cap sizeof_vht_operation sizeof_meshconf_ie sizeof_rann_ie sizeof_channel_sw_ie sizeof_ext_chansw_ie
    sizeof_sec_chan_offs_ie sizeof_mesh_chansw_params_ie sizeof_wide_bw_chansw_ie sizeof_addba_ext_ie
    sizeof_timeout_interval_ie sizeof_s1g_cap sizeof_s1g_oper_ie sizeof_s1g_bcn_compat_ie sizeof_aid_response_ie] in H.
  all: repeat first
    [discriminate H
    |lazymatch type of H with
     | crc_element ?a ?b ?c ?d ?e ?f ≫= _ = _ => destruct (crc_element a b c d e f); [rewrite bind_some in H|done]
     | (if ?b then _ else _) = _ => destruct b eqn:?; cbn [negb orb andb] in H |- *
     end].
  all: clear H; try reflexivity; try (exfalso; congruence); try lia.
  by destruct (mode params =? _); cbn [andb orb] in *; lia.
Qed.

Lemma parse_element_mesh id elem d c e e' c' :
  parse_element crc32_be mem params inside sv id elem d c e = Some (e', 0, c') -> mesh_elem_ok mem id (elem + 2) d = true.
Proof.
  unfold mesh_elem_ok.
  repeat match goal with
  | |- context [if id =? ?x then _ else _] => destruct (Z.eqb_spec id x) as [->|]; [intros H; open_case H|]
  end; [..|done].
  all: unfold sizeof_element in H; match type of H with ?o ≫= _ = _ => destruct o as [[]|] eqn:E; try done end.
Qed.

Lemma parse_loop_accepts end_ fuel : forall elem seen c e e' c',
  bytes_ok mem -> 0 <= p_start params -> end_ = p_start params + p_len params -> end_ <= zlen mem ->
  p_start params <= elem <= end_ -> end_ - elem < Z.of_nat fuel ->
  wrappers_ok fuel mem elem end_ = true -> elems_ok mem (p_start params) end_ e ->
  parse_loop crc32_be fuel mem params inside sv None elem end_ seen c e = Some (e', c') -> parse_error e' = 0 ->
  parse_error e = 0 /\
  exists l, tiled mem end_ elem l /\ Forall (fun x => elem_ok mem params x = true) l /\
    NoDup (filter (fun id => parse_once id = true) (elem_id <$> l)) /\
    (forall x, x ∈ l -> parse_once (elem_id x) = true -> elem_id x ∉ seen).
Proof.
  induction fuel as [|fuel IH]; intros elem seen c e e' c' Hok Hs0 Hend Hfit Hel Hf Hn He HE H0; [done|].
  cbn [parse_loop wrappers_ok] in *.
  destruct (element_at_whole mem elem end_ Hok) as [E|(d & i & E & Hw)]; [lia|lia| |]; rewrite E in *;
    rewrite bind_some in HE.
  { simplify_eq HE. intros <- <-. destruct (Z.eqb_spec elem end_) as [->|].
    - split; [done|]. exists []. split_and!; [constructor..|]. by intros x ?%elem_of_nil.
    - cbn in H0. apply Z.lor_eq_0_iff in H0 as [_ H0]. done. }
  assert (whole mem (p_start params) (p_start params + p_len params) elem d i) as Hw'
    by (destruct Hw as (? & ? & ? & ? & ?); unfold whole; split_and!; (done || lia)).
  pose proof Hw as (_ & Hd & Hfit' & Ei & Ed). rewrite Ei in *. rewrite !bind_some in HE. unfold sizeof_element in *.
  apply andb_prop in Hn as [Hn Hrest]. cbn [negb] in HE.
  destruct (parse_once i && bool_decide (i ∈ seen)) eqn:Edup.
  { eapply IH in HE as [HE _]; try done; try lia;
      [|by apply (inv_error _ _ _ _ (elems_ok_kept mem _ _))].
    cbn in HE. by apply Z.lor_eq_0_iff in HE as [_ HE]. }
  destruct (crc_element _ _ _ _ _ _) as [c1|]; [|done]. rewrite bind_some in HE.
  subst end_.
  destruct (parse_element_safe mem (p_start params) (p_start params + p_len params) _ Hok Hs0 Hfit
    (noerr_inv mem _ _ e Hs0 Hfit) crc32_be params elem d i (Z.le_refl _) (Z.le_refl _) Hw' inside sv c1 e)
    as (e1 & f & c2 & E1 & He1 & Herr); [by split| |].
  { intros ->. rewrite bool_decide_true in Hn by done. exact Hn. }
  rewrite E1, bind_some in HE. unfold nz in HE. destruct (Z.eqb_spec f 0) as [->|]; cbn [negb] in HE.
  - eapply IH in HE as (Hz & l & Ht & Hlen & Hnd & Hseen); try done; try lia. split; [by apply Herr|].
    exists ((i, elem, d) :: l). split; [by apply tiled_elem|]. split; [|split].
    + constructor; [|done]. unfold elem_ok. cbn [elem_id fst snd].
      by rewrite (parse_element_len _ _ _ _ _ _ _ E1), (parse_element_mesh _ _ _ _ _ _ _ E1).
    + cbn [fmap list_fmap elem_id fst]. destruct (decide (parse_once i = true)) as [Ho|Ho].
      * rewrite filter_cons_True by done. constructor; [|done]. intros [_ Hin]%list_elem_of_filter.
        apply list_elem_of_fmap in Hin as (x & -> & Hx). eapply (Hseen x); [done..|].
        by apply elem_of_union_l, elem_of_singleton.
      * by rewrite filter_cons_False.
    + intros x [->|Hx]%elem_of_cons Ho.
      * cbn in *. rewrite Ho in Edup. by apply bool_decide_eq_false in Edup.
      * intros Hin. by apply (Hseen x Hx Ho), elem_of_union_r.
  - eapply IH in HE as [HE _]; try done; try lia;
      [|by apply (inv_error _ _ _ _ (elems_ok_kept mem _ _))].
    cbn in HE. by apply Z.lor_eq_0_iff in HE as [_ HE].
Qed.
End accepts.

(** C13: When the parser, run over a range with no elements left out by
    non-inheritance and no empty power envelope in a channel switch wrapper,
    reports no error, the range is exactly a sequence of whole elements, no
    element of which only one is allowed occurs twice, and every element has a
    length the table [elem_len_ok] has for it: the sizes of the elements of
    mac80211, some exact and most of them least sizes, for the mode and the
    type of frame, and no element a frame of the type must not have; the mesh
    path elements have the size their counts and flags imply. *)
Theorem parse_elems_accepts crc32_be mem params inside skip_vendor e crc :
  bytes_ok mem -> 0 <= p_start params -> 0 <= p_len params -> p_start params + p_len params <= zlen mem ->
  tpe_nonempty mem (p_start params) (p_len params) = true ->
  _ieee802_11_parse_elems_full crc32_be mem params inside skip_vendor None zeroed_elems = Some (e, crc) ->
  parse_error e = 0 ->
  exists l, tiled mem (p_start params + p_len params) (p_start params) l /\
    Forall (fun x => elem_ok mem params x = true) l /\
    NoDup (filter (fun id => parse_once id = true) (elem_id <$> l)).
Proof.
  intros Hok Hs Hl Hfit Hn HE H0.
  eapply parse_loop_accepts in HE as (_ & l & ? & ? & ? & _); try done; [by exists l|lia..|apply zeroed_elems_ok].
Qed.

(** ** Supported rates *)

Lemma find_bitrate_range bitrates rate : forall j k,
  find_bitrate bitrates rate j = Some k -> j <= k < j + zlen bitrates.
Proof.
  induction bitrates as [|b l IH]; intros j k; cbn [find_bitrate]; [done|]. rewrite zlen_cons. pose proof (zlen_nonneg l).
  destruct (_ =? _); [intros [= <-]; lia|]. intros ?%IH. lia.
Qed.

Lemma parse_bitrates_loop_spec bitrates srates : forall rates count k,
  zlen bitrates <= 32 -> is_uint 32 rates -> 0 <= k ->
  Z.testbit (parse_bitrates_loop bitrates srates rates count).2 k = true <->
  Z.testbit rates k = true \/ exists s, s ∈ srates /\ find_bitrate bitrates (s .& 0x7f) 0 = Some k.
Proof.
  induction srates as [|s srates IH]; intros rates count k Hb Hr Hk; cbn [parse_bitrates_loop].
  { split; [by left|]. intros [|(? & []%elem_of_nil & _)]. done. }
  destruct (find_bitrate bitrates (s .& 0x7f) 0) as [j|] eqn:E.
  - pose proof (find_bitrate_range _ _ _ _ E).
    rewrite IH by (done || apply wrap_is_uint; lia). rewrite wrap_testbit by lia. unfold BIT.
    rewrite Z.lor_spec, Z.shiftl_1_l, Z.pow2_bits_eqb by lia.
    split.
    + intros [[_ Ht]%andb_prop|(s' & Hs & Ek)]; [|right; exists s'; by split; [right|]].
      apply orb_prop in Ht as [Ht|Ht%Z.eqb_eq]; [by left|subst k]. right. exists s. by split; [left|].
    + intros [Ht|(s' & Hs & Ek)]; [left|apply elem_of_cons in Hs as [->|Hs]; [left|right; by exists s']].
      * assert (k < 32) by (destruct (Z.ltb_spec k 32); [done|]; by rewrite (uint_testbit_high 32 rates k) in Ht by (done || lia)).
        rewrite Ht. destruct (Z.ltb_spec k 32); [done|lia].
      * rewrite E in Ek. injection Ek as ->. rewrite Z.eqb_refl, orb_true_r.
        destruct (Z.ltb_spec k 32); [done|lia].
  - rewrite IH by done. split; (intros [|(s' & Hs & Ek)]; [by left|right]).
    + exists s'. split; [by right|done].
    + apply elem_of_cons in Hs as [->|Hs]; [by rewrite E in Ek|by exists s'].
Qed.

(** A rate of the band is in the bitmap exactly if one of the octets names it
    first. *)
Lemma parse_bitrates_spec bitrates srates k :
  zlen bitrates <= 32 -> 0 <= k ->
  Z.testbit (ieee80211_parse_bitrates bitrates srates).2 k = true <->
  exists s, s ∈ srates /\ find_bitrate bitrates (s .& 0x7f) 0 = Some k.
Proof.
  intros Hb Hk. unfold ieee80211_parse_bitrates. rewrite parse_bitrates_loop_spec by done. rewrite Z.bits_0.
  split; [by intros [|]|by right].
Qed.

(** ** Concrete frames *)

(** The body of a beacon after its fixed part, with any checksum. *)
Module Sample.
Definition beacon : list Z :=
  [0; 4; 104; 111; 109; 101] ++                          (* SSID *)
  [3; 1; 36] ++                                          (* DS parameters *)
  [5; 4; 0; 1; 0; 0] ++                                  (* TIM *)
  [196; 10; 195; 3; 0; 1; 20; 194; 3; 1; 42; 0] ++       (* channel switch wrapper *)
  [195; 3; 1; 20; 20].                                   (* transmit power envelope *)
Definition params (l : list Z) : ieee80211_elems_parse_params :=
  mk_params IEEE80211_CONN_MODE_EHT 0 (zlen l) 0x80 0 0 None (-1) true 0.
Definition crc32_be (crc : Z) (l : list Z) : Z := wrap 32 (crc + foldr Z.add 0 l).
Definition run (l : list Z) : option ieee802_11_elems :=
  fst <$> _ieee802_11_parse_elems_full crc32_be l (params l) false false None zeroed_elems.
End Sample.

Lemma parse_elems_safe_witness :
  exists e crc,
    _ieee802_11_parse_elems_full Sample.crc32_be Sample.beacon (Sample.params Sample.beacon) false false None
      zeroed_elems = Some (e, crc) /\
    elems_ok Sample.beacon 0 (zlen Sample.beacon) e.
Proof.
  apply (parse_elems_safe Sample.crc32_be Sample.beacon (Sample.params Sample.beacon) false false None);
    [by (eapply bool_decide_unpack; vm_compute)|done|done|done|exact I|by vm_compute].
Defined.

Lemma parse_elems_accepts_witness :
  exists l, tiled Sample.beacon (zlen Sample.beacon) 0 l /\
    Forall (fun x => elem_ok Sample.beacon (Sample.params Sample.beacon) x = true) l /\
    NoDup (filter (fun id => parse_once id = true) (elem_id <$> l)).
Proof.
  destruct (_ieee802_11_parse_elems_full Sample.crc32_be Sample.beacon (Sample.params Sample.beacon) false false None
    zeroed_elems) as [[e crc]|] eqn:E; [|vm_compute in E; discriminate E].
  apply (parse_elems_accepts Sample.crc32_be Sample.beacon (Sample.params Sample.beacon) false false e crc);
    [by (eapply bool_decide_unpack; vm_compute)|done|done|done|by vm_compute|exact E|].
  apply (f_equal (fmap (parse_error ∘ fst))) in E. vm_compute in E. by simplify_eq E.
Defined.

(** The subelements of a channel switch wrapper are no extension elements, but
    their first octet is skipped as if they were: an envelope without contents
    is taken to have 255 octets, and a valid one is not found. *)
Lemma csa_tpe_overread : Sample.run [196; 2; 195; 0] = None.
Proof. by vm_compute. Qed.

Lemma csa_tpe_misaligned :
  (tpe_valid <$> (e ← Sample.run [195; 3; 1; 20; 20]; max_local (tpe e) !! 0%nat)) = Some true /\
  (tpe_valid <$> (e ← Sample.run [196; 5; 195; 3; 1; 20; 20]; max_local (csa_tpe e) !! 0%nat)) = Some false.
Proof. by vm_compute. Qed.
