(* ===== verification/ParseFull.v ===== *)
(** * ParseFull: the whole parser stays inside the frame and its scratch buffer

    [ieee802_11_parse_elems_full] first looks for the profile of the BSS or
    link it was asked for, reassembling it in a scratch buffer, then parses the
    frame and the profile and reassembles the elements that may be fragmented.
    Whatever the frame holds, all of this stays inside the frame and the
    buffer, leaves the frame alone, and ends. *)
From stdpp Require Import gmap strings.
From S2P Require Import Prelude Frame Skb Mle Ttlm Element ElementProofs MleDefrag ElemSizes Parse ParseProofs.

Lemma rd8_slice m p n bs i : slice m p n = Some bs -> 0 <= i < n -> rd8 bs i = rd8 m (p + i).
Proof.
  intros (pre & post & -> & <- & <-)%slice_Some Hi. by rewrite rd8_app_r, rd8_app_l by lia.
Qed.

(** A range of octets in the frame of [n] octets, or in the scratch buffer
    behind it up to the address [hi]. *)
Definition in_object (n hi : Z) (r : Z * Z) : Prop :=
  0 <= r.1 /\ 0 <= r.2 /\ (r.1 + r.2 <= n \/ n < r.1 /\ r.1 + r.2 <= hi).

(** What the elements point to: each field to a range in one of the objects
    with the octets its users read, each element to be reassembled to a whole
    element of such a range. *)
Record fields_ok (n : Z) (m : list Z) (hi : Z) (e : ieee802_11_elems) : Prop := {
  fo_refs : map_Forall (fun name r => in_object n hi r /\ field_size name <= r.2) (refs e);
  fo_defrag : map_Forall (fun _ '(elem, start, len) => in_object n hi (start, len) /\
                element_in (object n m start) start (start + len) elem) (defrag e);
  fo_ttlm : zlen (ttlm e) <= IEEE80211_TTLM_MAX_CNT /\ Forall (fun t => in_object n hi t /\ 1 <= t.2) (ttlm e);
  fo_tpe : tpe_tables_ok (tpe e);
  fo_csa_tpe : tpe_tables_ok (csa_tpe e);
}.

(** What the caller relies on: the elements of the frame and of the profile,
    the reassembled elements, the profile and the index element lie in the
    frame or in the scratch buffer. *)
Record parsed_ok (n : Z) (m : list Z) (r : parsed) : Prop := {
  po_elems : fields_ok n m (zlen m) (elems r);
  po_mles : map_Forall (fun _ => in_object n (zlen m)) (mles r);
  po_profile : from_option (in_object n (zlen m)) True (profile r);
  po_index : from_option (in_object n (zlen m)) True (bssid_index r);
}.

(** Two memories of the same size that differ in [lo, hi) only. *)
Record changed_within (lo hi : Z) (l l' : list Z) : Prop := {
  cw_bytes : bytes_ok l';
  cw_len : zlen l' = zlen l;
  cw_same i : i < lo \/ hi <= i -> rd8 l' i = rd8 l i;
}.

Lemma changed_refl lo hi l : bytes_ok l -> changed_within lo hi l l.
Proof. by split. Qed.

Lemma changed_trans lo hi lo' hi' l l' l'' :
  lo <= lo' -> hi' <= hi -> changed_within lo hi l l' -> changed_within lo' hi' l' l'' -> changed_within lo hi l l''.
Proof. intros ?? [] [Hb Hl Hs]. split; [done|congruence|]. intros i ?. rewrite Hs by lia. auto. Qed.

Lemma memmove_within lo hi l d src n l' :
  bytes_ok l -> memmove l d src n = Some l' -> 0 <= n -> lo <= d -> d + n <= hi -> changed_within lo hi l l'.
Proof.
  intros Hok E Hn Hlo Hhi. unfold memmove in E. destruct (slice l src n) as [bs|] eqn:Es; [|done].
  rewrite bind_some in E. pose proof (slice_bytes_ok _ _ _ _ Hok Es) as Hb.
  apply slice_Some in Es as (? & ? & _ & _ & Ebs).
  split; [exact (store_bytes_ok _ _ _ _ Hok Hb E)|exact (store_zlen _ _ _ _ E)|].
  intros i Hi. eapply rd8_store_disjoint; [done|]. lia.
Qed.

Lemma u64_fits x n : 0 <= x < 2 ^ 64 -> ~ n < u64 x -> x <= n.
Proof. intros Hx Hn. rewrite (wrap_small 64 x Hx) in Hn. lia. Qed.

(** Wherever it ends, only the destination has changed. *)
Lemma defragment_loop_within fuel d data_len : forall l elem end_ frag_id copied r l',
  bytes_ok l -> 0 <= copied <= data_len -> data_len < 2 ^ 63 ->
  defragment_loop fuel l elem end_ (Some d) data_len frag_id copied = Some (r, l') ->
  changed_within d (d + data_len) l l'.
Proof.
  induction fuel as [|fuel IH]; intros l elem end_ frag_id copied r l' Hok Hc H63; cbn [defragment_loop]; [done|].
  destruct (negb _); [intros [= _ <-]; by apply changed_refl|]. destruct (rd8 l (elem + 1)) as [n|] eqn:En; [|done]. rewrite bind_some.
  apply rd8_ok in En as [Hn0 Hn1]; [|done].
  destruct (negb _); [intros [= _ <-]; by apply changed_refl|]. destruct (rd8 l elem) as [id|]; [|done]. rewrite bind_some.
  destruct (negb _); [intros [= _ <-]; by apply changed_refl|].
  destruct (Z.ltb_spec data_len (u64 (copied + n))) as [|Hfit]; [intros [= _ <-]; by apply changed_refl|].
  apply Z.nlt_ge, u64_fits in Hfit; [|lia].
  destruct (memmove _ _ _ _) as [l1|] eqn:E; [|done]. rewrite bind_some.
  apply (memmove_within d (d + data_len)) in E; [|done|lia..].
  destruct (negb _); [intros [= _ <-]; done|]. intros E2. apply IH in E2; [|apply E|lia|done].
  by eapply changed_trans.
Qed.

Lemma defragment_element_within l elem ies ieslen d data_len frag_id r l' :
  bytes_ok l -> 0 <= data_len < 2 ^ 63 ->
  cfg80211_defragment_element l elem ies ieslen (Some d) data_len frag_id = Some (r, l') ->
  changed_within d (d + data_len) l l'.
Proof.
  intros Hok Hl. unfold cfg80211_defragment_element. destruct elem as [elem|]; [|intros [= _ <-]; by apply changed_refl].
  destruct (_ || _); [intros [= _ <-]; by apply changed_refl|].
  destruct (rd8 l (elem + 1)) as [n|] eqn:En; [|done]. rewrite bind_some.
  apply rd8_ok in En as [En0 En1]; [|done].
  destruct (_ <? _); [intros [= _ <-]; by apply changed_refl|]. destruct (rd8 l elem) as [id|]; [|done]. rewrite bind_some.
  set (copied := if id =? WLAN_EID_EXTENSION then n - 1 else n).
  destruct (Z.ltb_spec data_len (u64 copied)) as [|Hfit]; [intros [= _ <-]; by apply changed_refl|].
  assert (0 <= copied) as Hc0.
  { destruct (Z.leb_spec 0 copied); [done|]. assert (copied = -1) as E by (unfold copied in *; destruct (_ =? _); lia).
    rewrite E in Hfit. change (u64 (-1)) with (2 ^ 64 - 1) in Hfit. lia. }
  apply Z.nlt_ge, u64_fits in Hfit; [|split; [done|unfold copied; destruct (_ =? _); lia]].
  destruct (memmove _ _ _ _) as [l1|] eqn:E; [|done]. rewrite bind_some.
  apply (memmove_within d (d + data_len)) in E; [|done|lia..].
  destruct (_ <? _); [intros [= _ <-]; done|]. intros E2. apply defragment_loop_within in E2; [|apply E|lia..].
  eapply changed_trans; [..|done|done]; lia.
Qed.

(** Defragmentation between two ranges of a memory that are apart. *)
Lemma defragment_apart l e start len d room frag_id :
  bytes_ok l -> 0 <= start -> start + len <= zlen l -> zlen l < 2 ^ 63 -> element_in l start (start + len) e ->
  0 <= d -> 0 <= room -> d + room <= zlen l -> d + room <= start \/ start + len <= d ->
  exists r l', cfg80211_defragment_element l (Some e) start len (Some d) room frag_id = Some (r, l') /\
    changed_within d (d + room) l l' /\
    (r < 0 \/ 0 <= r <= room /\ forall id n, rd8 l e = Some id -> rd8 l (e + 1) = Some n -> id <> WLAN_EID_EXTENSION -> n <= r).
Proof.
  intros Hok H0 Hfit H63 Hin Hd Hr Hroom Hapart. pose proof Hin as (? & ? & _).
  destruct (defragment_element_spec l start len e frag_id) as (bs & Eb & _ & Hstore); [done..|].
  destruct (body_of_inv l start (start + len) e frag_id) as (id & n & ext & part & rest & Ei & Ed & Hn & _ & Ee & _ & _ & Hp & Eb' & _);
    [done..|].
  destruct (Hstore d room) as (r & l' & E & Hr'); [lia..|]. exists r, l'. split; [done|].
  split; [eapply defragment_element_within; [done| |done]; lia|].
  destruct (Z.leb_spec (zlen bs) room); [right|left; by rewrite Hr'].
  destruct Hr' as [-> _]. pose proof (zlen_nonneg bs). split; [lia|]. intros id' n' Ei' Ed' Hne.
  rewrite Ei in Ei'. rewrite Ed in Ed'. rewrite Eb in Eb'. injection Ei' as <-. injection Ed' as <-.
  injection Eb' as ->. rewrite (proj2 (Z.eqb_neq id _) Hne) in Ee. subst ext. zlens.
  pose proof (zlen_nonneg rest). lia.
Qed.

Section full.
Context (frame : list Z) (total : Z).
Hypotheses (Htotal : zlen frame + 1 <= total) (H63 : total < 2 ^ 63).
Abbreviation n := (zlen frame).

(** ** Memory: the frame, which does not change, and the scratch buffer *)

Record memory_ok (m : list Z) : Prop := {
  mo_bytes : bytes_ok m;
  mo_len : zlen m = total;
  mo_frame : take (length frame) m = frame;
  mo_gap : rd8 m n = Some 0;
}.

(** Two memories with the same contents below [hi]. *)
Definition same_below (hi : Z) (m m' : list Z) : Prop := forall i, i < hi -> rd8 m' i = rd8 m i.

Lemma same_below_trans k k' m m' m'' : same_below k m m' -> same_below k' m' m'' -> k <= k' -> same_below k m m''.
Proof. intros H H' ? i Hi. by rewrite H', H by lia. Qed.

(** Writing to the scratch buffer. *)
Lemma changed_memory lo hi m m' :
  memory_ok m -> n < lo -> changed_within lo hi m m' -> memory_ok m' /\ same_below lo m m'.
Proof.
  intros Hm Hlo [Hb Hl Hs]. split; [|intros i ?; apply Hs; lia].
  split; [done|rewrite Hl; exact (mo_len _ Hm)| |rewrite Hs by lia; exact (mo_gap _ Hm)]. transitivity (take (length frame) m); [|exact (mo_frame _ Hm)].
  pose proof (mo_len _ Hm). unfold zlen in *. apply list_eq. intros i.
  destruct (decide (i < length frame)%nat); [|by rewrite !lookup_take_ge by lia].
  rewrite !lookup_take_lt by lia. pose proof (Hs (Z.of_nat i) ltac:(lia)) as E.
  rewrite !rd8_lookup, !Nat2Z.id in E by lia. exact E.
Qed.

Lemma store_total m d bs :
  memory_ok m -> bytes_ok bs -> n < d -> d + zlen bs <= total ->
  exists m', store m d bs = Some m' /\ memory_ok m' /\ same_below d m m'.
Proof.
  intros Hm Hb Hd Hl. pose proof (zlen_nonneg frame).
  destruct (store_is_Some m d bs) as [m' E]; [lia|by rewrite (mo_len _ Hm)|].
  exists m'. split; [done|]. apply (changed_memory d (d + zlen bs)); [done..|].
  split; [exact (store_bytes_ok _ _ _ _ (mo_bytes _ Hm) Hb E)|exact (store_zlen _ _ _ _ E)|].
  intros i Hi. by eapply rd8_store_disjoint.
Qed.

(** ** Reading *)

(** What can be read through a pointer into a range in use. *)
Lemma object_read m hi r :
  memory_ok m -> hi <= total -> in_object n hi r ->
  bytes_ok (object n m r.1) /\ 0 <= r.1 /\ 0 <= r.2 /\ r.1 + r.2 <= zlen (object n m r.1) /\
  (forall i, i < r.1 + r.2 -> rd8 (object n m r.1) i = rd8 m i) /\ zlen (object n m r.1) <= total.
Proof.
  intros Hm Hhi (H0 & H1 & Hr). unfold object. pose proof (mo_len _ Hm) as Hl.
  destruct (Z.leb_spec r.1 n).
  - assert (zlen (take (Z.to_nat n) m) = n) as E by (unfold zlen in *; rewrite length_take; lia).
    split; [exact (Forall_take _ _ _ (mo_bytes _ Hm))|]. split; [done|]. split; [done|]. rewrite E. split; [lia|]. split; [|lia]. intros i Hi.
    rewrite <- (take_drop (Z.to_nat n) m) at 2. by rewrite rd8_app_l by lia.
  - split; [exact (mo_bytes _ Hm)|]. split_and!; (done || lia).
Qed.

(** Writes behind the range change nothing in it. *)
Lemma object_same hi m m' r i :
  memory_ok m -> memory_ok m' -> n <= hi <= total -> same_below hi m m' -> in_object n hi r -> i < r.1 + r.2 ->
  rd8 (object n m' r.1) i = rd8 (object n m r.1) i.
Proof.
  intros Hm Hm' Hhi Hs Hr Hi. destruct (object_read m hi r) as (_ & ? & ? & _ & E & _); [done|lia|done|].
  destruct (object_read m' hi r) as (_ & _ & _ & _ & E' & _); [done|lia|done|]. rewrite E, E' by done. apply Hs.
  destruct Hr as (? & ? & [|]); pose proof (zlen_nonneg frame); lia.
Qed.

Lemma element_in_same hi m m' start len e :
  memory_ok m -> memory_ok m' -> n <= hi <= total -> same_below hi m m' -> in_object n hi (start, len) ->
  element_in (object n m start) start (start + len) e -> element_in (object n m' start) start (start + len) e.
Proof.
  intros Hm Hm' Hhi Hs Hr (? & ? & id & d & Ei & Ed & ? & ?). split; [done|]. split; [done|].
  exists id, d. rewrite !(object_same hi m m' (start, len)) by (done || cbn; lia). done.
Qed.

Lemma element_in_object m hi start len e :
  memory_ok m -> hi <= total -> in_object n hi (start, len) ->
  element_in m start (start + len) e -> element_in (object n m start) start (start + len) e.
Proof.
  intros Hm Hhi Hr (? & ? & id & d & Ei & Ed & ? & ?). split; [done|]. split; [done|].
  destruct (object_read m hi (start, len)) as (_ & _ & _ & _ & Hs & _); [done..|]. cbn [fst snd] in Hs.
  exists id, d. rewrite !Hs by lia. done.
Qed.

(** ** Defragmentation into the scratch buffer *)

(** The memory as a frame, the octet that is none and the scratch buffer. *)
Lemma memory_split m : memory_ok m -> exists x scratch, m = frame ++ x :: scratch /\ zlen scratch = total - (n + 1).
Proof.
  intros Hm. pose proof (mo_len _ Hm) as Hl. pose proof (mo_frame _ Hm) as Hf. rewrite <- (take_drop (length frame) m), Hf in Hl |- *.
  destruct (drop (length frame) m) as [|x scratch]; zlens; [lia|]. exists x, scratch. split; [done|lia].
Qed.

(** From the frame: the objects are put the other way round. *)
Lemma defragment_frame_safe m e start len d room frag_id :
  memory_ok m -> 0 <= start -> start + len <= n -> element_in (object n m start) start (start + len) e ->
  n < d -> 0 <= room -> d + room = total ->
  exists r m', defragment_frame n m (Some e) start len d room frag_id = Some (r, m') /\
    changed_within d total m m' /\
    (r < 0 \/ 0 <= r <= room /\ forall id k, rd8 m e = Some id -> rd8 m (e + 1) = Some k -> id <> WLAN_EID_EXTENSION -> k <= r).
Proof.
  intros Hm H0 Hfit Hin Hd Hr Hroom. pose proof (mo_bytes _ Hm) as Hok.
  destruct (memory_split m Hm) as (x & scratch & -> & Hsc). apply Forall_app in Hok as [Hf Hok].
  apply Forall_cons in Hok as [Hx Hs]. pose proof Hin as (He0 & He1 & id & k & Ei & Ed & Hfit' & Hx').
  assert (object n (frame ++ x :: scratch) start = frame) as Eo.
  { unfold object. destruct (Z.leb_spec start n); [|pose proof Hin as (? & ? & ?); lia].
    unfold zlen. by rewrite Nat2Z.id, take_app_length. }
  rewrite Eo in *. pose proof (rd8_range _ _ _ Ei). pose proof (rd8_range _ _ _ Ed).
  unfold defragment_frame. cbv zeta.
  replace (take (Z.to_nat n) (frame ++ x :: scratch)) with frame by (unfold zlen; by rewrite Nat2Z.id, take_app_length).
  replace (drop (Z.to_nat (n + 1)) (frame ++ x :: scratch)) with scratch
    by (unfold zlen; rewrite Z2Nat.inj_add, Nat2Z.id by lia; change (Z.to_nat 1) with 1%nat;
        by rewrite drop_app_add).
  replace (take 1 (drop (Z.to_nat n) (frame ++ x :: scratch))) with [x]
    by (unfold zlen; by rewrite Nat2Z.id, drop_app_length).
  cbn [fmap option_fmap option_map].
  assert (forall i, 0 <= i -> rd8 (scratch ++ frame) (zlen scratch + i) = rd8 frame i) as Hrd by (intros; by apply rd8_app_r).
  destruct (defragment_apart (scratch ++ frame) (zlen scratch + e) (zlen scratch + start) len (d - (n + 1)) room frag_id)
    as (r & l & -> & Hch & Hres); [by apply Forall_app|zlens; pose proof (zlen_nonneg scratch); try lia..|].
  { split; [lia|]. split; [lia|]. exists id, k. rewrite <- Z.add_assoc, !Hrd by lia. split_and!; (done || lia). }
  rewrite bind_some. destruct Hch as [Hlb Hll Hls].
  assert (drop (Z.to_nat (zlen scratch)) l = frame) as Edrop.
  { apply list_eq. intros i. rewrite lookup_drop. pose proof (Hls (zlen scratch + Z.of_nat i) ltac:(lia)) as E.
    rewrite Hrd, !rd8_lookup in E by lia. rewrite Nat2Z.id, Z2Nat.inj_add, Nat2Z.id in E by lia. exact E. }
  assert (zlen (take (Z.to_nat (zlen scratch)) l) = zlen scratch) as Et
    by (rewrite zlen_app in Hll; unfold zlen in *; rewrite length_take; lia).
  rewrite Edrop, app_assoc. eexists _, _. split; [done|]. split.
  - split.
    + apply Forall_app. split; [by apply Forall_app; split; [|by constructor]|by apply Forall_take].
    + rewrite zlen_app, Et. zlens. lia.
    + intros i Hi. destruct (Z.leb_spec i n).
      * rewrite (rd8_app_l (frame ++ [x])) by (zlens; lia).
        destruct (Z.eqb_spec i n) as [->|]; [|by rewrite !rd8_app_l by lia].
        by rewrite !rd8_here.
      * replace i with (zlen (frame ++ [x]) + (i - (n + 1))) by (zlens; lia).
        rewrite rd8_app_r by lia. change (x :: scratch) with ([x] ++ scratch). rewrite (assoc app), rd8_app_r by lia.
        specialize (Hls (i - (n + 1)) ltac:(lia)).
        destruct Hi as [Hi|Hi].
        -- rewrite (rd8_app_l scratch) in Hls by lia. rewrite <- Hls.
           rewrite <- (take_drop (Z.to_nat (zlen scratch)) l) at 2. rewrite rd8_app_l; [done|lia].
        -- destruct (rd8 scratch _) as [y|] eqn:E1; [apply rd8_range in E1; lia|].
           destruct (rd8 (take _ _) _) as [y|] eqn:E2; [|done]. apply rd8_range in E2. lia.
  - destruct Hres as [|[? Hres]]; [by left|right]. split; [done|]. intros id' k' Ei' Ed' Hne.
    rewrite rd8_app_l in Ei', Ed' by lia. apply (Hres id' k'); [| |done]; rewrite <- ?Z.add_assoc, Hrd by lia; done.
Qed.

Record scratch_ok (s : mle_parse) : Prop := {
  so_pos : n < scratch_pos s;
  so_end : scratch_pos s <= scratch_end s;
  so_total : scratch_end s = total;
}.

Definition same_fields (s s' : mle_parse) : Prop :=
  ml_basic s' = ml_basic s /\ prof s' = prof s /\ inside_multilink s' = inside_multilink s.

Record step (m : list Z) (s : mle_parse) (m' : list Z) (s' : mle_parse) : Prop := {
  st_memory : memory_ok m';
  st_scratch : scratch_ok s';
  st_pos : scratch_pos s <= scratch_pos s';
  st_same : same_below (scratch_pos s) m m';
}.

Lemma step_refl m s : memory_ok m -> scratch_ok s -> step m s m s.
Proof. intros. by split. Qed.

Lemma step_trans m s m' s' m'' s'' : step m s m' s' -> step m' s' m'' s'' -> step m s m'' s''.
Proof. intros [] []. split; [done..|lia|by eapply same_below_trans]. Qed.

(** A range of the frame or of the part of the scratch buffer in use. *)
Definition used (s : mle_parse) (r : Z * Z) : Prop := in_object n (scratch_pos s) r.

Lemma in_object_mono hi hi' r : hi <= hi' -> in_object n hi r -> in_object n hi' r.
Proof. intros ? (? & ? & ?). split; [done|]. split; [done|lia]. Qed.

Lemma used_step m s m' s' r : step m s m' s' -> used s r -> used s' r.
Proof. intros []. by apply in_object_mono. Qed.

Lemma used_new s k : scratch_ok s -> 0 <= k -> used (set_scratch_pos s (scratch_pos s + k)) (scratch_pos s, k).
Proof. intros [] ?. pose proof (zlen_nonneg frame). split; cbn; [lia|]. split; [done|]. right. lia. Qed.

(** What can be read of a range in use. *)
Lemma used_read m s r :
  memory_ok m -> scratch_ok s -> used s r ->
  bytes_ok (object n m r.1) /\ 0 <= r.1 /\ 0 <= r.2 /\ r.1 + r.2 <= zlen (object n m r.1) /\
  (forall i, i < r.1 + r.2 -> rd8 (object n m r.1) i = rd8 m i) /\ zlen (object n m r.1) <= total.
Proof. intros Hm [] Hu. apply (object_read m (scratch_pos s)); (done || lia). Qed.

Lemma defrag_to_scratch_safe m s oe start len frag_id :
  memory_ok m -> scratch_ok s -> used s (start, len) ->
  from_option (element_in (object n m start) start (start + len)) True oe ->
  exists r s' m', defrag_to_scratch n m s oe start len frag_id = Some (r, s', m') /\ step m s m' s' /\
    same_fields s s' /\
    match r with
    | None => True
    | Some r => used s' r /\ n < r.1 /\
        exists e, oe = Some e /\ forall id d, rd8 (object n m start) e = Some id ->
          rd8 (object n m start) (e + 1) = Some d -> id <> WLAN_EID_EXTENSION -> d <= r.2
    end.
Proof.
  intros Hm Hs Hu Hin. pose proof Hs as [Hp1 Hp2 Hp3]. pose proof (zlen_nonneg frame). unfold defrag_to_scratch.
  destruct (used_read m s (start, len)) as (Hok & H0 & Hl0 & Hfit & Hrd & _); [done..|]. cbn [fst snd] in *. cbv zeta.
  destruct oe as [e|].
  2: { exists None, s, m. split; [|by split; [apply step_refl|]].
       destruct (start <=? n); [unfold defragment_frame|]; cbn [cfg80211_defragment_element fmap option_fmap option_map];
         rewrite bind_some; [|done]. cbv zeta.
       destruct (memory_split m Hm) as (x & scratch & -> & _).
       assert (drop (Z.to_nat (n + 1)) (frame ++ x :: scratch) = scratch) as ->
         by (rewrite (cons_middle x), (assoc app); apply drop_app_length'; rewrite length_app; unfold zlen; cbn; lia).
       assert (take 1 (drop (Z.to_nat n) (frame ++ x :: scratch)) = [x]) as ->
         by (rewrite drop_app_length' by (unfold zlen; lia); done).
       rewrite (take_app_length' frame), (drop_app_length' scratch), (take_app_length' scratch) by (unfold zlen; lia).
       rewrite bind_some. change (- EINVAL <? 0) with true. done. }
  cbn [from_option] in Hin.
  assert (exists r m', (if start <=? n then defragment_frame n m (Some e) start len (scratch_pos s) (scratch_end s - scratch_pos s) frag_id
     else cfg80211_defragment_element m (Some e) start len (Some (scratch_pos s)) (scratch_end s - scratch_pos s) frag_id) = Some (r, m') /\
     changed_within (scratch_pos s) total m m' /\
     (r < 0 \/ 0 <= r <= scratch_end s - scratch_pos s /\ forall id k, rd8 m e = Some id -> rd8 m (e + 1) = Some k ->
        id <> WLAN_EID_EXTENSION -> k <= r)) as (r & m' & -> & Hch & Hr).
  { pose proof Hu as (_ & _ & Hwhere). cbn [fst snd] in Hwhere. destruct (Z.leb_spec start n).
    - apply defragment_frame_safe; (done || lia).
    - destruct (defragment_apart m e start len (scratch_pos s) (scratch_end s - scratch_pos s) frag_id)
        as (r & m' & E & Hch & Hr); [exact (mo_bytes _ Hm)|lia|rewrite (mo_len _ Hm); lia..| |lia|lia|rewrite (mo_len _ Hm); lia|lia|].
      { unfold object in Hin. by destruct (Z.leb_spec start n); [lia|]. }
      exists r, m'. split; [done|]. split; [|done]. by replace total with (scratch_pos s + (scratch_end s - scratch_pos s)) by lia. }
  rewrite bind_some. apply changed_memory in Hch as [Hm' Hsame]; [|done..].
  destruct (Z.ltb_spec r 0).
  - exists None, s, m'. split; [done|]. by split.
  - destruct Hr as [|[Hr Hres]]; [lia|]. eexists _, _, _. split; [done|].
    split; [split; [done|split; cbn; lia|cbn; lia|done]|]. split; [done|]. split; [by apply used_new|]. split; [done|].
    exists e. split; [done|]. cbn [snd]. destruct Hin as (? & ? & _).
    intros id d. rewrite !Hrd by lia. apply Hres.
Qed.

(** ** The profile of a non-transmitted BSS *)

Lemma object_frame m p : memory_ok m -> p <= n -> object n m p = frame.
Proof.
  intros Hm Hp. unfold object. destruct (Z.leb_spec p n); [|lia]. unfold zlen. rewrite Nat2Z.id. exact (mo_frame _ Hm).
Qed.

Lemma frame_ok m : memory_ok m -> bytes_ok frame.
Proof. intros Hm. rewrite <- (mo_frame _ Hm). exact (Forall_take _ _ _ (mo_bytes _ Hm)). Qed.

Lemma object_scratch m p : n < p -> object n m p = m.
Proof. intros. unfold object. by destruct (Z.leb_spec p n); [lia|]. Qed.

Lemma copy_total m d p src k :
  memory_ok m -> p <= n -> n < d -> 0 <= k -> d + k <= total -> 0 <= src -> src + k <= n ->
  exists m', copy_to_scratch n m d p src k = Some m' /\ memory_ok m' /\ same_below d m m'.
Proof.
  intros Hm Hp Hd Hk Hdk Hs Hsk. unfold copy_to_scratch. rewrite object_frame by done.
  destruct (slice_is_Some frame src k) as (bs & E & Hb); [lia..|]. rewrite E, bind_some.
  apply store_total; [done| |done|lia]. exact (slice_bytes_ok _ _ _ _ (frame_ok _ Hm) E).
Qed.

Section profile.
Context (ie ielen out : Z).
Hypotheses (Hie : 0 <= ie) (Hielen : 0 <= ielen) (Hin : ie + ielen <= n)
  (Hout : n < out) (Hroom : out + ielen <= total).

(** A part of a profile: inside the elements. *)
Definition part_in (sub sub_len : Z) : Prop := 0 <= sub /\ 0 <= sub_len /\ sub + 2 + sub_len <= ie + ielen.

Lemma iter_profile_safe mbssid mbssid_len sub sub_len :
  bytes_ok frame -> ie <= mbssid -> 0 <= mbssid_len -> mbssid + 2 + mbssid_len <= ie + ielen ->
  exists r, cfg80211_iter_profile_continuation frame ie ielen mbssid mbssid_len sub sub_len = Some r /\
    from_option (fun '(next, next_len, (next_sub, next_sub_len)) =>
      mbssid + 2 <= next /\ 0 <= next_len /\ next + 2 + next_len <= ie + ielen /\ part_in next_sub next_sub_len) True r.
Proof.
  intros Hok Hmb Hml Hfit. unfold cfg80211_iter_profile_continuation, cfg80211_find_elem, sizeof_element. cbv zeta.
  destruct (find_elem_safe frame Hok WLAN_EID_MULTIPLE_BSSID (mbssid + 2 + mbssid_len)
    (ielen - (mbssid + 2 + mbssid_len - ie)) []) as (r & -> & Hr); [lia..|]. rewrite bind_some.
  destruct r as [[next k]|]; [|by eexists]. destruct Hr as [(Hn & Hd & Hf & _) _].
  destruct (_ <? _); [by eexists|]. destruct (Z.ltb_spec k 4); [by eexists|].
  destruct (rd8_Some frame (next + 2 + 1 + 1)) as [l El]; [lia|]. rewrite El, bind_some. apply rd8_ok in El as [El _]; [|done].
  destruct (Z.ltb_spec (next + 2 + k) (next + 2 + 1 + 2 + l)); [by eexists|].
  destruct (rd8_Some frame (next + 2 + 1)) as [id ->]; [lia|]. rewrite bind_some.
  destruct (negb (id =? 0)); cbn [orb]; [by eexists|]. destruct (Z.ltb_spec l 2); [by eexists|].
  destruct (rd8_Some frame (next + 2 + 1 + 2)) as [b ->]; [lia|]. rewrite bind_some.
  destruct (_ =? _); eexists; (split; [done|]); [done|]. cbn [from_option]. unfold part_in. lia.
Qed.

Lemma merge_profile_loop_safe fuel : forall m mbssid mbssid_len sub sub_len copied,
  memory_ok m -> ie <= mbssid -> 0 <= mbssid_len -> mbssid + 2 + mbssid_len <= ie + ielen ->
  ie + ielen - mbssid < Z.of_nat fuel -> 0 <= copied <= ielen ->
  exists k m', merge_profile_loop n fuel m ie ielen mbssid mbssid_len sub sub_len out ielen copied = Some (k, m') /\
    memory_ok m' /\ 0 <= k <= ielen.
Proof.
  induction fuel as [|fuel IH]; intros m mbssid mbssid_len sub sub_len copied Hm Hmb Hml Hfit Hf Hc; [lia|].
  cbn [merge_profile_loop]. rewrite object_frame by (done || lia).
  destruct (iter_profile_safe mbssid mbssid_len sub sub_len) as (r & -> & Hr); [by eapply frame_ok|done..|]. rewrite bind_some.
  destruct r as [[[next k] [nsub nlen]]|]; [|by eexists _, _]. destruct Hr as (? & ? & ? & Hp0 & Hp1 & Hp2).
  destruct (Z.ltb_spec ielen (copied + nlen)); [by eexists _, _|]. unfold sizeof_element.
  destruct (copy_total m (out + copied) ie (nsub + 2) nlen) as (m1 & -> & Hm1 & _); [done|lia..|].
  rewrite bind_some. apply IH; (done || lia).
Qed.

Lemma merge_profile_safe m mbssid mbssid_len sub sub_len :
  memory_ok m -> ie <= mbssid -> 0 <= mbssid_len -> mbssid + 2 + mbssid_len <= ie + ielen -> part_in sub sub_len ->
  exists k m', cfg80211_merge_profile n m ie ielen mbssid mbssid_len sub sub_len out ielen = Some (k, m') /\
    memory_ok m' /\ 0 <= k <= ielen.
Proof.
  intros Hm Hmb Hml Hfit (Hp0 & Hp1 & Hp2). unfold cfg80211_merge_profile, sizeof_element.
  destruct (Z.ltb_spec ielen sub_len); [eexists _, _; split; [done|]; split; [done|lia]|].
  destruct (copy_total m out ie (sub + 2) sub_len) as (m1 & -> & Hm1 & _); [done|lia..|]. rewrite bind_some.
  apply merge_profile_loop_safe; (done || lia).
Qed.

(** What the search finds: the length of the profile and its index element. *)
Definition found_ok (r : option (Z * (Z * Z))) : Prop :=
  from_option (fun '(k, (index, index_len)) => 0 <= k <= ielen /\ out <= index /\ 0 <= index_len /\
                 index + index_len <= out + k) True r.

Lemma bssid_profile_subs_safe fuel : forall m elem datalen sub transmitted own,
  memory_ok m -> ie <= elem -> 1 <= datalen -> elem + 2 + datalen <= ie + ielen ->
  elem + 2 <= sub <= elem + 2 + datalen -> elem + 2 + datalen - sub < Z.of_nat fuel ->
  exists r m', bssid_profile_subs n fuel m ie ielen elem datalen sub (elem + 2 + datalen) transmitted own out
    = Some (r, m') /\ memory_ok m' /\ found_ok r.
Proof.
  induction fuel as [|fuel IH]; intros m elem datalen sub transmitted own Hm He Hd Hfit Hs Hf; [lia|].
  cbn [bssid_profile_subs]. pose proof (frame_ok _ Hm) as Hok. rewrite (object_frame m ie) by (done || lia).
  destruct (element_at_whole frame sub (elem + 2 + datalen) Hok) as [->|(sl & id & -> & _ & Hsl & Hsfit & Ei & Ed)];
    [lia|lia|rewrite bind_some; by eexists _, _|]. rewrite bind_some. unfold sizeof_element.
  assert (forall m, memory_ok m -> exists r m',
    bssid_profile_subs n fuel m ie ielen elem datalen (sub + 2 + sl) (elem + 2 + datalen) transmitted own out
    = Some (r, m') /\ memory_ok m' /\ found_ok r) as Hnext by (intros; apply IH; (done || lia)).
  rewrite Ei, bind_some. destruct (negb (id =? 0)); cbn [orb]; [by apply Hnext|].
  destruct (Z.ltb_spec sl 4); [by apply Hnext|].
  destruct (rd8_Some frame (sub + 2)) as [b0 ->]; [lia|]. destruct (rd8_Some frame (sub + 2 + 1)) as [b1 ->]; [lia|].
  rewrite !bind_some. destruct (_ || _); [by apply Hnext|].
  destruct (store_total m out (replicate (Z.to_nat ielen) 0)) as (m1 & -> & Hm1 & _);
    [done|by apply Forall_replicate|lia|unfold zlen; rewrite length_replicate; unfold zlen in *; lia|]. rewrite bind_some.
  destruct (merge_profile_safe m1 elem datalen sub sl) as (k & m2 & -> & Hm2 & Hn); [done|lia..|unfold part_in; lia|].
  rewrite bind_some. unfold cfg80211_find_elem. pose proof (mo_len _ Hm2) as Hlen2.
  rewrite (object_scratch m2 out), (object_frame m2 ie) by (done || lia). pose proof (zlen_nonneg frame).
  destruct (find_elem_safe m2 (mo_bytes _ Hm2) WLAN_EID_MULTI_BSSID_IDX out k []) as (r & -> & Hr); [lia..|].
  rewrite bind_some. destruct r as [[index il]|]; [|by apply Hnext]. destruct Hr as [(Hi & Hil & Hifit & _) _].
  destruct (Z.ltb_spec il 1); [by apply Hnext|]. destruct (rd8_Some m2 (index + 2)) as [i ->]; [lia|]. rewrite bind_some.
  destruct (i =? 0); [by apply Hnext|]. destruct (rd8_Some frame (elem + 2)) as [mx ->]; [lia|]. rewrite bind_some.
  destruct (_ =? own); [|by apply Hnext]. eexists _, _. split; [done|]. split; [done|]. cbn. lia.
Qed.

Lemma bssid_profile_loop_safe fuel : forall m elem transmitted own,
  memory_ok m -> ie <= elem <= ie + ielen -> ie + ielen - elem < Z.of_nat fuel ->
  exists r m', bssid_profile_loop n fuel m ie ielen elem transmitted own out = Some (r, m') /\
    memory_ok m' /\ found_ok r.
Proof.
  induction fuel as [|fuel IH]; intros m elem transmitted own Hm He Hf; [lia|]. cbn [bssid_profile_loop].
  pose proof (frame_ok _ Hm) as Hok. rewrite (object_frame m ie) by (done || lia).
  destruct (element_at_whole frame elem (ie + ielen) Hok) as [->|(d & id & -> & _ & Hd & Hfit & Ei & Ed)];
    [lia|lia|rewrite bind_some; by eexists _, _|]. rewrite bind_some. unfold sizeof_element.
  assert (forall m, memory_ok m -> exists r m',
    bssid_profile_loop n fuel m ie ielen (elem + 2 + d) transmitted own out = Some (r, m') /\
    memory_ok m' /\ found_ok r) as Hnext by (intros; apply IH; (done || lia)).
  rewrite Ei, bind_some. destruct (negb _); cbn [orb]; [by apply Hnext|].
  destruct (Z.ltb_spec d 2); [by apply Hnext|]. destruct (rd8_Some frame (elem + 2)) as [mx ->]; [lia|]. rewrite bind_some.
  destruct (_ || _); [by apply Hnext|].
  destruct (bssid_profile_subs_safe (S (Z.to_nat d)) m elem d (elem + 2 + 1) transmitted own)
    as (r & m1 & -> & Hm1 & Hr); [done|lia..|]. rewrite bind_some.
  destruct r as [r|]; [by eexists _, _|by apply Hnext].
Qed.

Lemma find_bssid_profile_safe m bss :
  memory_ok m ->
  exists k index m', ieee802_11_find_bssid_profile n m ie ielen bss out = Some (k, index, m') /\ memory_ok m' /\
    0 <= k <= ielen /\
    from_option (fun '(i, il) => out <= i /\ 0 <= il /\ i + il <= out + k) True index.
Proof.
  intros Hm. unfold ieee802_11_find_bssid_profile.
  destruct bss as [[[transmitted|] own]|]; [|eexists _, _, _; (split; [done|]); split; [done|split; [lia|done]]..].
  destruct (bssid_profile_loop_safe (S (Z.to_nat ielen)) m ie transmitted own) as (r & m1 & -> & Hm1 & Hr); [done|lia..|].
  rewrite bind_some. destruct r as [[k [i il]]|]; eexists _, _, _; (split; [done|]); (split; [done|]); [|split; [lia|done]].
  destruct Hr as (? & ? & ? & ?). split; [done|]. cbn. lia.
Qed.
End profile.

(** ** The per-station profiles *)

(** A profile that was found: reassembled, with its fixed fields. *)
Definition prof_ok (s : mle_parse) : Prop :=
  from_option (fun p => used s p /\ n < p.1 /\ 3 <= p.2) True (prof s).

Lemma element_in_whole m start end_ e d id :
  whole m start end_ e d id -> (id = WLAN_EID_EXTENSION -> 0 < d) -> element_in m start end_ e.
Proof. intros (? & ? & ? & Ei & Ed) Hx. split; [done|]. split; [lia|]. by exists id, d. Qed.

Lemma get_sta_prof_loop_safe fuel : forall m s ml ml_len sub want,
  memory_ok m -> scratch_ok s -> used s (ml, ml_len) -> ml <= sub <= ml + ml_len ->
  ml + ml_len - sub < Z.of_nat fuel -> prof_ok s ->
  exists link s' m', get_sta_prof_loop n fuel m s ml ml_len sub want = Some (link, s', m') /\ step m s m' s' /\
    ml_basic s' = ml_basic s /\ prof_ok s' /\ (0 <= link -> is_Some (prof s')).
Proof.
  induction fuel as [|fuel IH]; intros m s ml ml_len sub want Hm Hs Hu Hsub Hf Hp; [lia|].
  destruct (used_read m s (ml, ml_len)) as (Hok & Hml & Hmll & Hlen & _ & _); [done..|]. pose proof Hs as [Hs0 Hs1 Hs2].
  cbn [fst snd] in *. cbn [get_sta_prof_loop]. set (v := object n m ml) in *.
  assert (forall link, link < 0 -> exists link' s' m', Some (link, s, m) = Some (link', s', m') /\ step m s m' s' /\
    ml_basic s' = ml_basic s /\ prof_ok s' /\ (0 <= link' -> is_Some (prof s'))) as Hstop.
  { intros link ?. eexists _, _, _. split; [done|]. split; [by apply step_refl|]. split; [done|]. split; [done|lia]. }
  destruct (element_at_whole v sub (ml + ml_len) Hok) as [->|(d & id & -> & Hw)]; [lia|lia|rewrite bind_some; apply Hstop; lia|].
  rewrite bind_some. pose proof Hw as (_ & Hd & Hfit & Ei & Ed). unfold sizeof_element.
  assert (exists link s' m', get_sta_prof_loop n fuel m s ml ml_len (sub + 2 + d) want = Some (link, s', m') /\
    step m s m' s' /\ ml_basic s' = ml_basic s /\ prof_ok s' /\ (0 <= link -> is_Some (prof s'))) as Hnext
    by (apply IH; [done|done|done|lia|lia|done]).
  rewrite Ei, bind_some. destruct (Z.eqb_spec id IEEE80211_MLE_SUBELEM_PER_STA_PROFILE) as [Eid|]; cbn [negb]; [|done].
  destruct (sta_prof_size_ok_safe v (sub + 2) d) as [[ok E] _]; [lia..|]. rewrite E, bind_some.
  destruct ok; cbn [negb]; [|apply Hstop; lia].
  assert (3 <= d) as Hd3.
  { unfold ieee80211_mle_basic_sta_prof_size_ok, sizeof_mle_per_sta_profile in E. by destruct (Z.ltb_spec d 3). }
  destruct (rd_le16_Some v (sub + 2)) as [control ->]; [lia..|]. rewrite bind_some.
  destruct (_ && _); [done|]. destruct (negb _); [apply Hstop; lia|].
  destruct (defrag_to_scratch_safe m s (Some sub) ml ml_len IEEE80211_MLE_SUBELEM_FRAGMENT)
    as (r & s1 & m1 & -> & Hstep & (Hb & Hpr & _) & Hr); [done|done|done| |].
  { apply (element_in_whole v ml (ml + ml_len) sub d id); [|by rewrite Eid].
    destruct Hw as (? & ? & ? & ? & ?). unfold whole. split_and!; (done || lia). }
  rewrite bind_some. destruct r as [r|].
  - destruct Hr as (Hru & Hrs & e & [= <-] & Hrd). eexists _, _, _. split; [done|]. split; [destruct Hstep as [? [] ? ?]; split; [done|by split|done|done]|].
    split; [done|]. split; [|by eexists]. split; [done|]. split; [done|]. specialize (Hrd id d Ei Ed). rewrite Eid in Hrd.
    specialize (Hrd ltac:(done)). lia.
  - eexists _, _, _. split; [done|]. split; [done|]. split; [done|]. split; [|lia].
    unfold prof_ok in *. rewrite Hpr. destruct (prof s); [|done]. destruct Hp as [Hp ?]. split; [by eapply used_step|done].
Qed.

Lemma mle_get_sta_prof_safe m s want :
  memory_ok m -> scratch_ok s -> from_option (used s) True (ml_basic s) -> prof_ok s ->
  exists link s' m', ieee80211_mle_get_sta_prof n m s want = Some (link, s', m') /\ step m s m' s' /\
    ml_basic s' = ml_basic s /\ prof_ok s' /\ (0 <= link -> is_Some (prof s')).
Proof.
  intros Hm Hs Hu Hp. unfold ieee80211_mle_get_sta_prof.
  assert (exists link s' m', Some (-1, s, m) = Some (link, s', m') /\ step m s m' s' /\
    ml_basic s' = ml_basic s /\ prof_ok s' /\ (0 <= link -> is_Some (prof s'))) as Hstop.
  { eexists _, _, _. split; [done|]. split; [by apply step_refl|]. split; [done|]. split; [done|lia]. }
  destruct (ml_basic s) as [[ml ml_len]|] eqn:Eb; [|by rewrite <- Eb in *]. destruct (used_read m s (ml, ml_len)) as (Hok & ? & ? & Hlen & _ & _); [done..|]. cbn [fst snd] in *.
  pose proof Hs as [Hs0 Hs1 Hs2]. set (v := object n m ml) in *.
  destruct (mle_size_ok_safe v ml ml_len) as [ok E]; [lia..|]. rewrite E, bind_some. destruct ok; cbn [negb]; [|done].
  destruct (mle_common_size_ok v ml ml_len v ml) as (c & -> & Hc); [done|lia|done..|]. rewrite bind_some, <- Eb.
  apply get_sta_prof_loop_safe; (done || lia).
Qed.

Lemma find_basic_mle_safe fuel m : forall elem end_,
  bytes_ok m -> 0 <= elem <= end_ -> end_ <= zlen m -> end_ - elem < Z.of_nat fuel ->
  exists r, find_basic_mle fuel m elem end_ = Some r /\ from_option (element_in m elem end_) True r.
Proof.
  induction fuel as [|fuel IH]; intros elem end_ Hok He Hend Hf; [lia|]. cbn [find_basic_mle].
  destruct (element_at_whole m elem end_ Hok) as [->|(d & id & -> & Hw)]; [lia|lia|rewrite bind_some; by eexists|].
  rewrite bind_some. pose proof Hw as (_ & Hd & Hfit & Ei & Ed). unfold sizeof_element.
  assert (exists r, find_basic_mle fuel m (elem + 2 + d) end_ = Some r /\ from_option (element_in m elem end_) True r)
    as Hnext.
  { destruct (IH (elem + 2 + d) end_) as (r & -> & Hr); [done|lia..|]. exists r. split; [done|].
    destruct r as [e|]; [|done]. destruct Hr as (? & Hr). split; [lia|done]. }
  rewrite Ei, bind_some. destruct (Z.eqb_spec id WLAN_EID_EXTENSION) as [->|]; cbn [negb orb]; [|done].
  destruct (Z.ltb_spec 0 d); cbn [negb]; [|done].
  destruct (rd8_Some m (elem + 2)) as [x ->]; [lia|]. rewrite bind_some. destruct (negb _); [done|].
  destruct (mle_size_ok_safe m (elem + 2 + 1) (d - 1)) as [ok E]; [lia..|]. rewrite E, bind_some.
  destruct ok; cbn [negb]; [|done]. apply mle_min in E.
  destruct (rd_le16_Some m (elem + 2 + 1)) as [c ->]; [lia..|]. rewrite bind_some.
  destruct (_ =? _); [|done]. eexists. split; [done|]. by eapply element_in_whole.
Qed.

Lemma prof_elements_safe m s fixed :
  memory_ok m -> scratch_ok s -> prof_ok s -> 0 <= fixed ->
  exists r, prof_elements n m (prof s) fixed = Some r /\ from_option (fun r => used s r /\ n < r.1) True r.
Proof.
  intros Hm Hs Hp Hfix. unfold prof_elements, prof_ok in *. destruct (prof s) as [[p len]|]; [|by eexists].
  destruct Hp as (Hu & ? & ?). destruct (used_read m s (p, len)) as (Hok & ? & ? & ? & _ & _); [done..|]. cbn [fst snd] in *.
  destruct (rd8_Some (object n m p) (p + 2)) as [l El]; [lia|]. rewrite El, bind_some.
  apply rd8_ok in El as [? _]; [|done]. unfold sizeof_mle_per_sta_profile.
  destruct (Z.ltb_spec len (3 + l - 1 + fixed)); eexists; (split; [done|]); [done|].
  destruct Hu as (? & ? & ?). cbn [fst snd] in *. split; [split; [|split]; cbn; lia|cbn; lia].
Qed.

(** The non-inheritance element in use: the one found or the empty one. *)
Lemma find_non_inherit_safe m s start len :
  memory_ok m -> scratch_ok s -> used s (start, len) ->
  exists r, cfg80211_find_ext_elem (object n m start) WLAN_EID_EXT_NON_INHERITANCE start len = Some r /\
    from_option (fun e => exists bs, element_bytes n m e = Some bs /\ element_octets bs) True r.
Proof.
  intros Hm Hs Hu. destruct (used_read m s (start, len)) as (Hok & ? & ? & ? & _ & _); [done..|]. cbn [fst snd] in *.
  unfold cfg80211_find_ext_elem. destruct (find_elem_safe _ Hok WLAN_EID_EXTENSION start len [WLAN_EID_EXT_NON_INHERITANCE]) as (r & -> & Hr); [lia..|].
  exists r. split; [done|]. destruct r as [[e d]|]; [|done]. destruct Hr as [(He & Hd & Hf & Ei & Ed) _].
  cbn [from_option]. unfold element_bytes. cbn [fst snd].
  assert (object n m e = object n m start) as ->.
  { destruct Hu as (_ & _ & Hw). cbn [fst snd] in Hw.
    destruct (Z.leb_spec e n); [by rewrite !object_frame by (done || lia)|by rewrite !object_scratch by lia]. }
  destruct (slice_is_Some (object n m start) e (2 + d)) as (bs & Es & Hb); [lia..|]. exists bs. split; [done|].
  split; [by eapply slice_bytes_ok|]. exists d. split; [|done].
  by rewrite (rd8_slice _ _ _ _ _ Es) by lia.
Qed.

(** What is ready for parsing: ranges in memory behind which nothing changes. *)
Record ready (m : list Z) (s : mle_parse) (lp : link_parse) : Prop := {
  rd_step : step m s (lp_mem lp) (lp_mle lp);
  rd_base : used (lp_mle lp) (p_start (lp_base lp), p_len (lp_base lp));
  rd_sub : used (lp_mle lp) (p_start (lp_sub lp), p_len (lp_sub lp));
  rd_behind : p_len (lp_sub lp) = 0 \/ n < p_start (lp_sub lp);
  rd_inherit : from_option element_octets True (lp_non_inherit lp);
  rd_basic : from_option (used (lp_mle lp)) True (ml_basic (lp_mle lp));
  rd_prof : from_option (used (lp_mle lp)) True (prof (lp_mle lp));
}.

(** Steps that only change the fields of [s] which hold no position. *)
Lemma step_fields m s m' s' s'' :
  step m s m' s' -> scratch_pos s'' = scratch_pos s' -> scratch_end s'' = scratch_end s' -> step m s m' s''.
Proof. intros [? [] ? ?] Ep Ee. split; [done|split; lia|lia|done]. Qed.

Section prep.
Context (m : list Z) (s : mle_parse) (params : ieee80211_elems_parse_params).
Hypotheses (Hm : memory_ok m) (Hs : scratch_ok s) (Hr : used s (p_start params, p_len params))
  (Hb : ml_basic s = None) (Hp : prof s = None).

Definition prepared (r : option link_parse) : Prop := exists lp, r = Some lp /\ ready m s lp.

Lemma prepared_none m' s' :
  step m s m' s' -> from_option (used s') True (ml_basic s') -> from_option (used s') True (prof s') ->
  prepared (Some (mk_link_parse None no_sub params s' m')).
Proof.
  intros Hst Hb' Hp'. eexists. split; [done|]. pose proof Hst as [_ [] ? _].
  split; cbn; try done; [by eapply used_step| |by left]. unfold used, in_object. cbn. pose proof (zlen_nonneg frame). lia.
Qed.

Lemma prof_used s' : prof_ok s' -> from_option (used s') True (prof s').
Proof. unfold prof_ok. destruct (prof s'); [by intros []|done]. Qed.

Lemma used_keep m' s' m'' s'' (r : option (Z * Z)) :
  step m' s' m'' s'' -> from_option (used s') True r -> from_option (used s'') True r.
Proof. destruct r; [apply used_step|done]. Qed.

(** The choice of the base profile: the first one, for the responses of a
    transition. *)
Lemma first_profile_safe m' s' (wanted : bool) fixed :
  memory_ok m' -> scratch_ok s' -> from_option (used s') True (ml_basic s') -> prof_ok s' -> 0 <= fixed ->
  exists link first s'' m'',
    (if wanted then
       '(first_link_id, s, mem) ← ieee80211_mle_get_sta_prof n m' s' (-1);
       first ← (if first_link_id <? 0 then Some None else prof_elements n mem (prof s) fixed);
       Some (first_link_id, first, s, mem)
     else Some (-1, None, s', m')) = Some (link, first, s'', m'') /\
    step m' s' m'' s'' /\ ml_basic s'' = ml_basic s' /\ prof_ok s'' /\ from_option (used s'') True first.
Proof.
  intros Hm' Hs' Hb' Hp' Hf. destruct wanted.
  2: { eexists _, _, _, _. split; [done|]. split; [by apply step_refl|done]. }
  destruct (mle_get_sta_prof_safe m' s' (-1)) as (link & s1 & m1 & -> & Hst & Hb1 & Hp1 & _); [done..|].
  rewrite bind_some. pose proof Hst as [Hm1 Hs1 _ _].
  destruct (link <? 0); [rewrite bind_some; by eexists _, _, _, _|].
  destruct (prof_elements_safe m1 s1 fixed) as (r & -> & Hru); [done..|]. rewrite bind_some. eexists _, _, _, _. split; [done|].
  split_and!; try done. by destruct r; [destruct Hru|].
Qed.

(** The profile of the wanted link, and what does not apply to it. *)
Lemma link_profile_safe m' s' base fixed :
  step m s m' s' -> from_option (used s') True (ml_basic s') -> prof_ok s' -> 0 <= fixed ->
  used s' (p_start base, p_len base) ->
  prepared
    ('(found, s, mem) ← ieee80211_mle_get_sta_prof n m' s' (link_id params);
     if found <? 0 then Some (mk_link_parse None no_sub params (set_prof s None) mem)
     else
       elems ← prof_elements n mem (prof s) fixed;
       match elems with
       | None => Some (mk_link_parse None no_sub params (set_prof s None) mem)
       | Some (start, len) =>
           let moved := negb (p_start base =? p_start params) in
           let base := if moved then base else params in
           let s := if moved then set_inside s true else s in
           ret ← cfg80211_find_ext_elem (object n mem start) WLAN_EID_EXT_NON_INHERITANCE start len;
           non_inherit ← (match ret with
                          | Some e => element_bytes n mem e
                          | None => Some empty_non_inheritance
                          end);
           Some (mk_link_parse (Some non_inherit) (sub_params params start len) base s mem)
       end).
Proof.
  intros Hst Hb' Hp' Hf Hbase. pose proof Hst as [Hm' Hs' _ _].
  destruct (mle_get_sta_prof_safe m' s' (link_id params)) as (link & s1 & m1 & -> & Hst1 & Hb1 & Hp1 & _); [done..|].
  rewrite bind_some. pose proof (step_trans _ _ _ _ _ _ Hst Hst1) as Hst2. pose proof Hst1 as [Hm1 Hs1 _ _].
  assert (from_option (used s1) True (ml_basic s1)) as Hbu by (rewrite Hb1; exact (used_keep _ _ _ _ _ Hst1 Hb')).
  assert (prepared (Some (mk_link_parse None no_sub params (set_prof s1 None) m1))) as Hnone
    by (apply prepared_none; [by eapply step_fields|done|done]).
  destruct (link <? 0); [done|].
  destruct (prof_elements_safe m1 s1 fixed) as (r & -> & Hru); [done..|]. rewrite bind_some.
  destruct r as [[start len]|]; [|done]. destruct Hru as [Hru Hbehind]. cbv zeta.
  destruct (find_non_inherit_safe m1 s1 start len) as (ret & -> & Hret); [done..|]. rewrite bind_some.
  assert (exists bs, match ret with Some e => element_bytes n m1 e | None => Some empty_non_inheritance end = Some bs /\
    element_octets bs) as (bs & -> & Hbs).
  { destruct ret as [e|]; [done|]. eexists. split; [done|]. split; [by repeat constructor|]. by exists 1. }
  rewrite bind_some. eexists. split; [done|].
  set (s2 := if negb (p_start base =? p_start params) then set_inside s1 true else s1).
  assert (scratch_pos s2 = scratch_pos s1 /\ scratch_end s2 = scratch_end s1 /\ ml_basic s2 = ml_basic s1 /\
    prof s2 = prof s1) as (E1 & E2 & E3 & E4) by (unfold s2; by destruct (negb _)).
  assert (forall r, used s1 r -> used s2 r) as Hu by (intros r; unfold used; by rewrite E1).
  split; cbn [lp_mem lp_mle lp_base lp_sub lp_non_inherit].
  - by eapply step_fields.
  - apply Hu. destruct (negb _); [exact (used_step _ _ _ _ _ Hst1 Hbase)|exact (used_step _ _ _ _ _ Hst2 Hr)].
  - by apply Hu.
  - by right.
  - done.
  - rewrite E3. destruct (ml_basic s1); [by apply Hu|done].
  - rewrite E4. apply prof_used in Hp1. destruct (prof s1); [by apply Hu|done].
Qed.

Lemma prep_mle_link_parse_safe : prepared (ieee80211_prep_mle_link_parse n m params s).
Proof.
  unfold ieee80211_prep_mle_link_parse. cbv zeta.
  set (fixed := if action_frame params =? PARSE_ACTION_FRAME_ST_PREP_RESP then 4 + 2 else 4).
  assert (0 <= fixed) as Hf by (unfold fixed; destruct (_ =? _); lia).
  destruct (_ <? _); [apply prepared_none; [by apply step_refl|by rewrite Hb|by rewrite Hp]|].
  destruct (used_read m s (p_start params, p_len params)) as (Hok & H0 & H1 & H2 & _ & _); [done..|]. cbn [fst snd] in *.
  pose proof Hs as [Hs0 Hs1 Hs2].
  destruct (find_basic_mle_safe (S (Z.to_nat (p_len params))) (object n m (p_start params)) (p_start params) (p_start params + p_len params))
    as (e & -> & He); [done|lia..|]. rewrite bind_some.
  destruct (defrag_to_scratch_safe m s e (p_start params) (p_len params) WLAN_EID_FRAGMENT)
    as (ml & s1 & m1 & -> & Hst & (Eb & Ep & _) & Hml); [done..|]. rewrite bind_some.
  pose proof Hst as [Hm1 Hsc1 _ _].
  destruct ml as [ml|]; [|apply prepared_none; [done|by rewrite Eb, Hb|by rewrite Ep, Hp]].
  destruct Hml as [Hml _]. set (s2 := set_ml_basic s1 (Some ml)).
  assert (step m s m1 s2) as Hst2 by (by eapply step_fields). pose proof Hst2 as [_ Hsc2 _ _].
  assert (from_option (used s2) True (ml_basic s2)) as Hb2 by done.
  assert (prof s2 = None) as Hp2 by (cbn; by rewrite Ep).
  destruct (_ =? -1); [apply prepared_none; [done|done|by rewrite Hp2]|].
  destruct (first_profile_safe m1 s2 ((action_frame params =? PARSE_ACTION_FRAME_ST_PREP_RESP)
    || (action_frame params =? PARSE_ACTION_FRAME_ST_EXEC_RESP)) fixed)
    as (link & first & s3 & m3 & -> & Hst3 & Eb3 & Hp3 & Hfu); [done|done|done|unfold prof_ok; by rewrite Hp2|done|].
  rewrite bind_some. pose proof (step_trans _ _ _ _ _ _ Hst2 Hst3) as Hst4.
  assert (from_option (used s3) True (ml_basic s3)) as Hb3 by (rewrite Eb3; exact (used_keep _ _ _ _ _ Hst3 Hb2)).
  set (base := match first with Some (start, len) => set_range params start len (-1) | None => params end).
  assert (used s3 (p_start base, p_len base)) as Hbase
    by (unfold base; destruct first as [[]|]; [done|exact (used_step _ _ _ _ _ Hst4 Hr)]).
  destruct (_ && _); [|by apply link_profile_safe].
  eexists. split; [done|].
  split; cbn [lp_mem lp_mle lp_base lp_sub lp_non_inherit]; unfold used, in_object; cbn [scratch_pos set_inside ml_basic prof];
    [by eapply step_fields|done| |by left|done|done|by apply prof_used].
  pose proof Hst4 as [_ [] _ _]. cbn. pose proof (zlen_nonneg frame). lia.
Qed.
End prep.

(** ** Reassembling the elements that were found *)

Abbreviation fields s m := (fields_ok n m (scratch_pos s)).

Lemma fields_same hi hi' m m' e :
  memory_ok m -> memory_ok m' -> n <= hi <= total -> same_below hi m m' -> hi <= hi' ->
  fields_ok n m hi e -> fields_ok n m' hi' e.
Proof.
  intros Hm Hm' Hhi Hsame Hp [Hrefs Hdef [Hn Ht] ? ?]. split; [| |split; [done|]|done|done].
  - eapply map_Forall_impl; [done|]. intros name r [? ?]. split; [by eapply in_object_mono|done].
  - eapply map_Forall_impl; [done|]. intros ? [[elem start] len] [Hr Hin]. split; [by eapply in_object_mono|].
    by apply (element_in_same hi m).
  - eapply Forall_impl; [done|]. intros r [? ?]. split; [by eapply in_object_mono|done].
Qed.

Lemma fields_step m s m' s' e :
  memory_ok m -> scratch_ok s -> step m s m' s' -> fields s m e -> fields s' m' e.
Proof. intros Hm [] [? _ Hp Hsame]. apply fields_same; (done || lia). Qed.

Lemma mle_defrag_to_safe m s e name out :
  memory_ok m -> scratch_ok s -> fields s m e -> map_Forall (fun _ => used s) out ->
  exists out' s' m', ieee80211_mle_defrag n m s e name out = Some (out', s', m') /\ step m s m' s' /\
    fields s' m' e /\ map_Forall (fun _ => used s') out' /\ same_fields s s'.
Proof.
  intros Hm Hs He Ho. unfold ieee80211_mle_defrag.
  set (d := match defrag e !! name with Some (elem, start, len) => (Some elem, start, len) | None => (None, 0, 0) end).
  assert (used s (d.1.2, d.2) /\ from_option (element_in (object n m d.1.2) d.1.2 (d.1.2 + d.2)) True d.1.1) as [Hu Hin].
  { unfold d. destruct (defrag e !! name) as [[[elem start] len]|] eqn:E; cbn.
    - by destruct (fo_defrag _ _ _ _ He name _ E).
    - split; [|done]. pose proof (zlen_nonneg frame). split; cbn; lia. }
  destruct d as [[oe start] len]. cbn [fst snd] in *.
  destruct (defrag_to_scratch_safe m s oe start len WLAN_EID_FRAGMENT) as (r & s' & m' & -> & Hst & Hsf & Hr); [done..|].
  rewrite bind_some. eexists _, _, _. split; [done|]. split; [done|]. split; [by eapply fields_step|].
  split; [|done]. assert (map_Forall (fun _ => used s') out) as Ho'.
  { eapply map_Forall_impl; [done|]. intros ? x Hx. by eapply used_step. }
  destruct r as [r|]; [|done]. destruct Hr as [Hr _]. by apply map_Forall_insert_2.
Qed.

Lemma dtim_fields_safe m s e index :
  memory_ok m -> scratch_ok s -> fields s m e -> from_option (used s) True index ->
  exists r, dtim_fields n m e index = Some r.
Proof.
  intros Hm Hs He Hi. unfold dtim_fields.
  assert (exists r, (if bool_decide (is_Some (refs e !! "tim"%string)) && (parse_error e =? 0) then
       match refs e !! "tim"%string with
       | Some (tim, _) => count ← rd8 (object n m tim) tim; period ← rd8 (object n m tim) (tim + 1); Some (period, count)
       | None => Some (0, 0)
       end
     else Some (0, 0)) = Some r) as [[period count] ->].
  { destruct (_ && _); [|by eexists]. destruct (refs e !! "tim"%string) as [[tim tl]|] eqn:E; [|by eexists].
    destruct (fo_refs _ _ _ _ He _ _ E) as [Hu Hsz]. change (field_size "tim"%string) with 2 in Hsz.
    destruct (used_read m s _ Hm Hs Hu) as (_ & ? & ? & ? & _ & _). cbn [fst snd] in *.
    destruct (rd8_Some (object n m tim) tim) as [? ->]; [lia|].
    destruct (rd8_Some (object n m tim) (tim + 1)) as [? ->]; [lia|]. by eexists. }
  rewrite bind_some. destruct index as [[index il]|]; [|by eexists].
  destruct (used_read m s _ Hm Hs Hi) as (_ & ? & ? & ? & _ & _). cbn [fst snd] in *.
  assert (exists x, (if 2 <=? il then rd8 (object n m index) (index + 1) else Some period) = Some x) as [? ->].
  { destruct (Z.leb_spec 2 il); [apply rd8_Some; lia|by eexists]. }
  assert (exists x, (if 3 <=? il then rd8 (object n m index) (index + 2) else Some count) = Some x) as [? ->].
  { destruct (Z.leb_spec 3 il); [apply rd8_Some; lia|by eexists]. }
  by eexists.
Qed.

Lemma uhr_param_update_safe m s (upd : option (Z * Z)) :
  memory_ok m -> scratch_ok s -> from_option (used s) True upd ->
  exists b, ieee80211_uhr_param_update_ok (object n m (from_option fst 0 upd)) (fst <$> upd) (from_option snd 0 upd) = Some b.
Proof.
  intros Hm Hs Hu. destruct upd as [[p len]|]; [|by eexists].
  destruct (used_read m s _ Hm Hs Hu) as (Hok & ? & ? & ? & _ & _). cbn [fst snd] in *.
  by apply uhr_param_update_ok_safe.
Qed.

(** ** Choosing what to parse *)

Lemma select_profile_safe m s params :
  memory_ok m -> scratch_ok s -> used s (p_start params, p_len params) ->
  ml_basic s = None -> prof s = None -> p_start params + p_len params <= n ->
  scratch_pos s = n + 1 -> scratch_pos s + p_len params <= total ->
  exists lp index missing, select_profile n m params s = Some (lp, index, missing) /\ ready m s lp /\
    from_option (used (lp_mle lp)) True index.
Proof.
  intros Hm Hs Hr Hb Hp Hin Hstart Hroom. unfold select_profile. pose proof Hr as (H0 & H1 & H2). cbn [fst snd] in *.
  destruct (p_bss params) as [[transmitted own]|] eqn:Ebss.
  2: { destruct (prep_mle_link_parse_safe m s params) as (lp & -> & Hlp); [done..|]. by eexists _, _, _. }
  destruct (find_bssid_profile_safe (p_start params) (p_len params) (scratch_pos s) H0 H1 Hin (so_pos _ Hs) Hroom
    m (Some (transmitted, own)) Hm) as (k & index & m1 & -> & Hm1 & Hn & Hi). rewrite bind_some. cbv zeta.
  set (s1 := set_scratch_pos s (scratch_pos s + k)). pose proof Hs as [Hs0 Hs1 Hs2].
  assert (step m s m1 s1) as Hst.
  { split; [done|split; cbn; lia|cbn; lia|]. rewrite Hstart. intros i Hi1.
    destruct (Z.eqb_spec i n) as [->|]; [by rewrite (mo_gap _ Hm), (mo_gap _ Hm1)|].
    destruct (memory_split m Hm) as (x & sc & -> & _). destruct (memory_split m1 Hm1) as (x1 & sc1 & -> & _).
    by rewrite !rd8_app_l by lia. }
  pose proof Hst as [_ Hsc1 _ _].
  assert (used s1 (scratch_pos s, k)) as Hu by (apply used_new; [done|lia]).
  destruct (find_non_inherit_safe m1 s1 (scratch_pos s) k) as (ret & E & Hret); [done..|].
  cbn [p_start]. rewrite E, bind_some.
  assert (exists ni, match ret with
      | Some e => b ← element_bytes n m1 e; Some (Some b)
      | None => Some (if transmitted then Some empty_non_inheritance else None)
      end = Some ni /\ from_option element_octets True ni) as (ni & -> & Hni).
  { destruct ret as [e|]; [destruct Hret as (bs & -> & ?); rewrite bind_some; by eexists|].
    eexists. split; [done|]. destruct transmitted; [|done]. split; [by repeat constructor|]. by exists 1. }
  rewrite bind_some. eexists _, _, _. split; [done|]. cbn [lp_mle]. split.
  - split; cbn [lp_mem lp_mle lp_base lp_sub lp_non_inherit p_start p_len]; [done| |done|right; lia|done|by cbn; rewrite Hb|by cbn; rewrite Hp].
    by eapply used_step.
  - destruct index as [[i il]|]; [|done]. destruct Hi as (? & ? & ?). split; cbn; lia.
Qed.

(** ** Parsing both ranges *)

Lemma object_start m start len p : memory_ok m ->
  start + len <= n \/ n < start -> start <= p <= start + len -> object n m p = object n m start.
Proof.
  intros Hm Hw Hp. destruct (Z.leb_spec p n); [by rewrite !object_frame by (done || lia)|by rewrite !object_scratch by lia].
Qed.

(** What the walk over one range keeps, in terms of the objects. *)
Lemma fields_of_range m hi start len e :
  memory_ok m -> in_object n hi (start, len) -> elems_ok (object n m start) start (start + len) e -> fields_ok n m hi e.
Proof.
  intros Hm (? & ? & Hw) [Hrefs Hdef [Hn Ht] ? ?]. cbn [fst snd] in *.
  split; [| |split; [done|]|done|done].
  - eapply map_Forall_impl; [done|]. intros name r (? & ? & ? & ?). unfold in_object. lia.
  - eapply map_Forall_impl; [done|]. intros ? [[elem start'] len'] (? & ? & Hin). pose proof Hin as (? & ? & _).
    split; [unfold in_object; cbn; lia|]. by rewrite (object_start m start len) by (done || lia).
  - eapply Forall_impl; [done|]. cbn beta. intros r ?. unfold in_object. lia.
Qed.

Lemma parse_base_safe crc32_be m s params inside sv ni :
  memory_ok m -> scratch_ok s -> used s (p_start params, p_len params) -> from_option element_octets True ni ->
  tpe_nonempty (object n m (p_start params)) (p_start params) (p_len params) = true ->
  exists e c, _ieee802_11_parse_elems_full crc32_be (object n m (p_start params)) params inside sv ni zeroed_elems
      = Some (e, c) /\ fields s m e.
Proof.
  intros Hm Hs Hu Hni Hn. destruct (used_read m s _ Hm Hs Hu) as (Hok & ? & ? & ? & _ & _). cbn [fst snd] in *.
  destruct (parse_elems_safe crc32_be (object n m (p_start params)) params inside sv ni) as (e & c & E & He); [done..|].
  exists e, c. split; [done|]. by apply (fields_of_range _ _ (p_start params) (p_len params)).
Qed.

(** The walk over the profile, with the elements of the frame already there. *)
Lemma fields_inv m s : memory_ok m -> scratch_ok s -> elems_inv m (n + 1) (scratch_pos s) (fields s m).
Proof.
  intros Hm [Hp1 Hp2 Hp3]. pose proof (mo_len _ Hm). pose proof (zlen_nonneg frame).
  assert (forall r, n + 1 <= r.1 -> 0 <= r.2 -> r.1 + r.2 <= scratch_pos s -> in_object n (scratch_pos s) r) as Hr
    by (intros r; unfold in_object; lia).
  split; [split; try (by intros ? ? []; split); try (by intros ? []; split)|].
  - intros name pos len e [] ????. split; try done. cbn. apply map_Forall_insert_2; [|done]. split; [by apply Hr|done].
  - intros name [[elem start] len] e [] (? & ? & Hin). pose proof Hin as (? & ? & _). split; try done.
    apply map_Forall_insert_2; [|done]. split; [apply Hr; cbn; lia|]. by rewrite object_scratch by lia.
  - intros t e [? ? [? ?] ? ?] ????. split; try done. cbn [ttlm add_ttlm]. split; [zlens; cbn; lia|].
    apply Forall_app. split; [done|]. constructor; [|constructor]. split; [apply Hr; lia|done].
  - intros e [Hrefs Hdef [Hn Ht] ? ?]. split; [| |split; [done|]|done|done].
    + eapply map_Forall_impl; [done|]. intros name r [(? & ? & ?) ?]. unfold ref_ok. lia.
    + eapply map_Forall_impl; [done|]. intros ? [[elem start] len] [Hu Hin].
      destruct (object_read m (scratch_pos s) (start, len)) as (_ & ? & ? & _ & Hrd & _); [done|lia|done|].
      destruct Hu as (_ & _ & ?). destruct Hin as (? & ? & id & d & Ei & Ed & ? & ?). cbn [fst snd] in *.
      rewrite !Hrd in * by lia. unfold defrag_ok. split; [done|]. split; [lia|]. split; [done|]. split; [done|]. by exists id, d.
    + eapply Forall_impl; [done|]. intros t [(? & ? & ?) ?]. cbn. lia.
Qed.

Lemma parse_profile_safe crc32_be m s params inside sv ni e :
  memory_ok m -> scratch_ok s -> used s (p_start params, p_len params) -> n < p_start params ->
  from_option element_octets True ni -> tpe_nonempty (object n m (p_start params)) (p_start params) (p_len params) = true ->
  fields s m e ->
  exists e' c, _ieee802_11_parse_elems_full crc32_be (object n m (p_start params)) params inside sv ni e = Some (e', c) /\
    fields s m e'.
Proof.
  intros Hm Hs (? & ? & Hw) Hp Hni. rewrite object_scratch by done. intros Hn He. cbn [fst snd] in *.
  pose proof Hs as [Hp1 Hp2 Hp3]. pose proof (mo_len _ Hm). pose proof (zlen_nonneg frame).
  apply (parse_loop_safe m (n + 1) (scratch_pos s) (fields s m)) with (1 := mo_bytes _ Hm);
    [lia|lia|by apply fields_inv|lia|lia|done|lia|lia|done|done].
Qed.

(** [elems->ml_basic] is already set, or reassembled now. *)
Lemma basic_defrag_safe m s e out :
  memory_ok m -> scratch_ok s -> fields s m e -> map_Forall (fun _ => used s) out ->
  from_option (used s) True (ml_basic s) ->
  exists out' s' m',
    (match ml_basic s with
     | Some ml => Some (<["ml_basic"%string := ml]> out, s, m)
     | None => ieee80211_mle_defrag n m s e "ml_basic" out
     end) = Some (out', s', m') /\ step m s m' s' /\
    fields s' m' e /\ map_Forall (fun _ => used s') out' /\ same_fields s s'.
Proof.
  intros Hm Hs He Ho Hb. destruct (ml_basic s) as [ml|]; [|by apply mle_defrag_to_safe].
  eexists _, _, _. split; [done|]. split; [by apply step_refl|]. split; [done|]. split; [by apply map_Forall_insert_2|done].
Qed.

(** The end of the function: the fields that may be fragmented. *)
Lemma reassemble_safe m s e crc index missing :
  memory_ok m -> scratch_ok s -> fields s m e ->
  from_option (used s) True (ml_basic s) -> from_option (used s) True (prof s) -> from_option (used s) True index ->
  exists r m',
    ('(out, s, m) ← ieee80211_mle_defrag n m s e "ml_reconf" ∅;
     '(out, s, m) ← ieee80211_mle_defrag n m s e "ml_epcs" out;
     '(out, s, m) ← (match ml_basic s with
                     | Some ml => Some (<["ml_basic"%string := ml]> out, s, m)
                     | None => ieee80211_mle_defrag n m s e "ml_basic" out
                     end);
     '(out, s, m) ← ieee80211_mle_defrag n m s e "uhr_param_upd" out;
     ok ← ieee80211_uhr_param_update_ok (object n m (from_option fst 0 (out !! "uhr_param_upd"%string)))
            (fst <$> out !! "uhr_param_upd"%string)
            (from_option snd 0 (out !! "uhr_param_upd"%string));
     '(period, count) ← dtim_fields n m
         (if bool_decide (is_Some (defrag e !! "uhr_param_upd"%string)) && negb ok
          then add_error IEEE80211_PARSE_ERR_INVALID_UHR_PARAM_UPD e else e) index;
     Some (Some (mk_parsed (if bool_decide (is_Some (defrag e !! "uhr_param_upd"%string)) && negb ok
          then add_error IEEE80211_PARSE_ERR_INVALID_UHR_PARAM_UPD e else e) crc
         (if bool_decide (is_Some (defrag e !! "uhr_param_upd"%string)) && negb ok
          then delete "uhr_param_upd"%string out else out) (prof s) index missing period count), m)) = Some (Some r, m') /\
    memory_ok m' /\ parsed_ok n m' r /\ ttlm (elems r) = ttlm e.
Proof.
  intros Hm Hs He Hb Hp Hi.
  destruct (mle_defrag_to_safe m s e "ml_reconf" ∅) as (o1 & s1 & m1 & -> & St1 & He1 & Ho1 & Eb1 & Ep1 & _);
    [done..|apply map_Forall_empty|]. rewrite bind_some. pose proof St1 as [Hm1 Hs1 _ _].
  destruct (mle_defrag_to_safe m1 s1 e "ml_epcs" o1) as (o2 & s2 & m2 & -> & St2 & He2 & Ho2 & Eb2 & Ep2 & _);
    [done..|]. rewrite bind_some. pose proof (step_trans _ _ _ _ _ _ St1 St2) as St02. pose proof St2 as [Hm2 Hs2 _ _].
  destruct (basic_defrag_safe m2 s2 e o2) as (o3 & s3 & m3 & -> & St3 & He3 & Ho3 & Eb3 & Ep3 & _);
    [done..|rewrite Eb2, Eb1; exact (used_keep _ _ _ _ _ St02 Hb)|]. rewrite bind_some.
  pose proof (step_trans _ _ _ _ _ _ St02 St3) as St03. pose proof St3 as [Hm3 Hs3 _ _].
  destruct (mle_defrag_to_safe m3 s3 e "uhr_param_upd" o3) as (o4 & s4 & m4 & -> & St4 & He4 & Ho4 & Eb4 & Ep4 & _);
    [done..|]. rewrite bind_some. pose proof (step_trans _ _ _ _ _ _ St03 St4) as St04. pose proof St4 as [Hm4 Hs4 _ _].
  destruct (uhr_param_update_safe m4 s4 (o4 !! "uhr_param_upd"%string)) as [ok ->]; [done..| |].
  { destruct (o4 !! _) as [x|] eqn:E; [|done]. exact (Ho4 _ _ E). }
  rewrite bind_some. set (bad := bool_decide _ && negb ok).
  assert (fields s4 m4 (if bad then add_error IEEE80211_PARSE_ERR_INVALID_UHR_PARAM_UPD e else e))
    as He5 by (destruct bad; [by destruct He4; split|done]).
  pose proof (used_keep _ _ _ _ _ St04 Hi) as Hi4. pose proof (used_keep _ _ _ _ _ St04 Hp) as Hp4.
  destruct (dtim_fields_safe m4 s4 _ index Hm4 Hs4 He5 Hi4) as [[period count] ->]. rewrite bind_some.
  assert (forall r, used s4 r -> in_object n total r) as Hall by (intros r; apply in_object_mono; destruct Hs4; lia).
  eexists _, _. split; [done|]. split; [done|]. split; [|cbn [elems]; by destruct bad].
  split; cbn [elems mles profile bssid_index]; rewrite (mo_len _ Hm4).
  - apply (fields_same (scratch_pos s4) _ m4); try done; destruct Hs4; lia.
  - assert (map_Forall (fun _ => in_object n total) o4) as Ho by (eapply map_Forall_impl; [done|]; auto).
    destruct bad; [by apply map_Forall_delete|done].
  - rewrite Ep4, Ep3, Ep2, Ep1. destruct (prof s); [by apply Hall|done].
  - destruct index; [by apply Hall|done].
Qed.
End full.

(** ** The whole parser *)

(** No channel switch wrapper of the two ranges that are parsed holds an empty
    transmit power envelope. *)
Definition envelopes_nonempty (frame : list Z) (params : ieee80211_elems_parse_params) : bool :=
  let '(m, s) := with_scratch frame params in
  match select_profile (zlen frame) m params s with
  | Some (lp, _, _) =>
      let nonempty p := tpe_nonempty (object (zlen frame) (lp_mem lp) (p_start p)) (p_start p) (p_len p) in
      nonempty (lp_base lp) && nonempty (lp_sub lp)
  | None => true
  end.

Lemma with_scratch_ok frame params total m s :
  bytes_ok frame -> 0 <= p_len params -> total = zlen frame + 1 + 3 * p_len params -> with_scratch frame params = (m, s) ->
  memory_ok frame total m /\ scratch_ok frame total s /\ scratch_pos s = zlen frame + 1 /\ ml_basic s = None /\ prof s = None.
Proof.
  intros Hok Hl -> [= <- <-]. split; [split|split; [split; cbn; lia|done]].
  - apply Forall_app. split; [done|]. constructor; [done|by apply Forall_replicate].
  - zlens. unfold zlen. rewrite length_replicate. lia.
  - by apply take_app_length.
  - apply rd8_here.
Qed.

(** The parser runs to its end. *)
Lemma parse_elems_full_run crc32_be alloc frame params :
  bytes_ok frame -> 0 <= p_start params -> 0 <= p_len params -> p_start params + p_len params <= zlen frame ->
  zlen frame + 1 + 3 * p_len params < 2 ^ 63 -> envelopes_nonempty frame params = true ->
  exists r m, ieee802_11_parse_elems_full crc32_be alloc frame params = Some (r, m) /\
    take (length frame) m = frame /\
    from_option (fun r => parsed_ok (zlen frame) m r /\ memory_ok frame (zlen m) m /\ zlen frame + 1 <= zlen m) True r.
Proof.
  intros Hok H0 Hl Hfit H63 Hne. unfold ieee802_11_parse_elems_full, envelopes_nonempty, parse_elems_in in *.
  pose proof (firstn_all frame). destruct (_ && _); [by eexists _, _|]. destruct alloc; cbn [negb]; [|by eexists _, _].
  destruct (with_scratch frame params) as [m s] eqn:Ews. set (total := zlen frame + 1 + 3 * p_len params) in *.
  destruct (with_scratch_ok frame params total m s) as (Hm & Hs & Hpos & Hb & Hp); [done..|]. pose proof Hs as [? ? ?].
  assert (zlen frame + 1 <= total) as Ht by (unfold total; lia).
  destruct (select_profile_safe frame total Ht H63 m s params) as (lp & index & missing & E & Hlp & Hix);
    [done|done|split; cbn; lia|done|done|done|done|lia|].
  rewrite E in *. rewrite bind_some. apply andb_prop in Hne as [Hnb Hns].
  destruct Hlp as [[Hm1 Hs1 _ _] Hbase Hsub Hbehind Hni Hml Hpr].
  destruct lp as [ni sub base s1 m1]. cbn [lp_non_inherit lp_sub lp_base lp_mle lp_mem] in *. unfold cfg80211_find_elem at 1.
  destruct (used_read frame total Ht m1 s1 _ Hm1 Hs1 Hsub) as (Hvb & ? & ? & ? & _ & _). cbn [fst snd] in *.
  destruct (find_elem_safe _ Hvb WLAN_EID_VENDOR_SPECIFIC (p_start sub) (p_len sub) []) as (vendor & -> & _); [lia..|].
  rewrite bind_some.
  destruct (parse_base_safe frame total Ht crc32_be m1 s1 base (inside_multilink s1) (bool_decide (is_Some vendor)) ni)
    as (e1 & c & -> & He1); [done..|]. rewrite bind_some.
  assert (exists e2 c2, (if nz (p_len sub)
    then _ieee802_11_parse_elems_full crc32_be (object (zlen frame) m1 (p_start sub)) sub
           (negb (bool_decide (is_Some (p_bss params)))) false None e1
    else Some (e1, 0)) = Some (e2, c2) /\ fields_ok (zlen frame) m1 (scratch_pos s1) e2) as (e2 & c2 & -> & He2).
  { unfold nz. destruct (Z.eqb_spec (p_len sub) 0); cbn [negb]; [by eexists _, _|].
    destruct Hbehind; [done|]. by apply (parse_profile_safe frame total Ht). }
  rewrite bind_some.
  destruct (reassemble_safe frame total Ht H63 m1 s1 e2 c index missing) as (r & m2 & -> & Hm2 & Hr & _); [done..|].
  eexists _, _. split; [done|]. split; [exact (mo_frame _ _ _ Hm2)|]. cbn.
  by rewrite (mo_len _ _ _ Hm2).
Qed.


(** What a field points to can be read. *)
Lemma field_read frame m name r e :
  memory_ok frame (zlen m) m -> zlen frame + 1 <= zlen m -> fields_ok (zlen frame) m (zlen m) e ->
  refs e !! name = Some r ->
  bytes_ok (object (zlen frame) m r.1) /\ 0 <= r.1 /\ 0 <= r.2 /\ field_size name <= r.2 /\
  r.1 + r.2 <= zlen (object (zlen frame) m r.1).
Proof.
  intros Hm Hl He Hr. destruct (fo_refs _ _ _ _ He _ _ Hr) as [Hin Hsz].
  destruct (object_read frame (zlen m) Hl m (zlen m) r Hm (Z.le_refl _) Hin) as (? & ? & ? & ? & _). done.
Qed.

(** ** A concrete frame

    The elements of a probe response with a multi-link element whose profile
    for link 1 has an SSID of its own. *)
Module Full.
Definition sta_profile : list Z :=
  [0x11; 0x00; 1; 1; 4; 0; 0] ++         (* complete profile of link 1, capabilities *)
  [0; 2; 104; 105] ++                    (* SSID *)
  [255; 3; 56; 0; 0].                    (* non-inheritance *)
Definition frame : list Z :=
  [0; 4; 104; 111; 109; 101] ++          (* SSID *)
  [3; 1; 36; 5; 4; 0; 1; 0; 0] ++        (* DS parameters, TIM *)
  [255; 12 + zlen sta_profile; 107; 0; 0; 7; 2; 0; 0; 0; 0; 1] ++
  [0; zlen sta_profile] ++ sta_profile.
Definition params : ieee80211_elems_parse_params :=
  mk_params IEEE80211_CONN_MODE_EHT 0 (zlen frame) 0x50 0 0 None 1 true 0.
Definition run : option ieee802_11_elems :=
  r ← ieee802_11_parse_elems_full Sample.crc32_be true frame params; elems <$> r.1.
End Full.

(** The SSID is the one of the profile, in the scratch buffer behind the
    multi-link element; the channel is inherited from the frame. *)
Lemma full_sample_ssid :
  (e ← Full.run; refs e !! "ssid"%string) = Some (zlen Full.frame + 1 + 27 + 9, 2) /\
  (e ← Full.run; refs e !! "ds_params"%string) = Some (8, 1).
Proof. by vm_compute. Qed.

(** The scratch buffer does not hide a read past the end of the frame: with an
    empty envelope in a wrapper at its end the parser faults. *)
Lemma full_csa_tpe_overread :
  let frame := [196; 2; 195; 0] in
  let params := mk_params IEEE80211_CONN_MODE_EHT 0 (zlen frame) 0x80 0 0 None (-1) true 0 in
  envelopes_nonempty frame params = false /\
  ieee802_11_parse_elems_full Sample.crc32_be true frame params = None.
Proof. by vm_compute. Qed.

