(* ===== verification/Key.v ===== *)
(** * Key: key configuration, flags and handler results

    The data the cipher handlers of [net/mac80211] share: the key
    configuration and flags of [include/net/mac80211.h], the cipher suites and
    field lengths of [include/linux/ieee80211.h], and the handler results of
    [net/mac80211/drop.h]. *)
From S2P Require Import Prelude Frame Skb.

(** ** Lengths *)

Definition IEEE80211_NUM_TIDS : Z := 16.
Definition IEEE80211_WEP_IV_LEN : Z := 4.
Definition IEEE80211_WEP_ICV_LEN : Z := 4.
Definition IEEE80211_CCMP_HDR_LEN : Z := 8.
Definition IEEE80211_CCMP_MIC_LEN : Z := 8.
Definition IEEE80211_CCMP_PN_LEN : Z := 6.
Definition IEEE80211_TKIP_IV_LEN : Z := 8.
Definition IEEE80211_TKIP_ICV_LEN : Z := 4.
Definition IEEE80211_GCMP_HDR_LEN : Z := 8.
Definition IEEE80211_GCMP_MIC_LEN : Z := 16.
Definition IEEE80211_GCMP_PN_LEN : Z := 6.
Definition IEEE80211_CMAC_128_MIC_LEN : Z := 8.
Definition IEEE80211_CMAC_256_MIC_LEN : Z := 16.
Definition IEEE80211_GMAC_MIC_LEN : Z := 16.
Definition MICHAEL_MIC_LEN : Z := 8.
Definition WLAN_KEY_LEN_WEP40 : Z := 5.
Definition WLAN_KEY_LEN_WEP104 : Z := 13.
Definition WLAN_KEY_LEN_CCMP : Z := 16.
Definition WLAN_KEY_LEN_CCMP_256 : Z := 32.
Definition WLAN_KEY_LEN_TKIP : Z := 32.
Definition WLAN_KEY_LEN_AES_CMAC : Z := 16.
Definition WLAN_KEY_LEN_SMS4 : Z := 32.
Definition WLAN_KEY_LEN_GCMP : Z := 16.
Definition WLAN_KEY_LEN_GCMP_256 : Z := 32.
Definition WLAN_KEY_LEN_BIP_CMAC_256 : Z := 32.
Definition WLAN_KEY_LEN_BIP_GMAC_128 : Z := 16.
Definition WLAN_KEY_LEN_BIP_GMAC_256 : Z := 32.

Definition NL80211_TKIP_DATA_OFFSET_ENCR_KEY : Z := 0.
Definition NL80211_TKIP_DATA_OFFSET_TX_MIC_KEY : Z := 16.
Definition NL80211_TKIP_DATA_OFFSET_RX_MIC_KEY : Z := 24.

(** ** Cipher suites *)

Definition SUITE (oui id : Z) : Z := (oui << 8) .| id.
Definition WLAN_CIPHER_SUITE_USE_GROUP : Z := SUITE 0x000FAC 0.
Definition WLAN_CIPHER_SUITE_WEP40 : Z := SUITE 0x000FAC 1.
Definition WLAN_CIPHER_SUITE_TKIP : Z := SUITE 0x000FAC 2.
Definition WLAN_CIPHER_SUITE_CCMP : Z := SUITE 0x000FAC 4.
Definition WLAN_CIPHER_SUITE_WEP104 : Z := SUITE 0x000FAC 5.
Definition WLAN_CIPHER_SUITE_AES_CMAC : Z := SUITE 0x000FAC 6.
Definition WLAN_CIPHER_SUITE_GCMP : Z := SUITE 0x000FAC 8.
Definition WLAN_CIPHER_SUITE_GCMP_256 : Z := SUITE 0x000FAC 9.
Definition WLAN_CIPHER_SUITE_CCMP_256 : Z := SUITE 0x000FAC 10.
Definition WLAN_CIPHER_SUITE_BIP_GMAC_128 : Z := SUITE 0x000FAC 11.
Definition WLAN_CIPHER_SUITE_BIP_GMAC_256 : Z := SUITE 0x000FAC 12.
Definition WLAN_CIPHER_SUITE_BIP_CMAC_256 : Z := SUITE 0x000FAC 13.
Definition WLAN_CIPHER_SUITE_SMS4 : Z := SUITE 0x001472 1.

(** ** Flags *)

Definition IEEE80211_KEY_FLAG_GENERATE_IV_MGMT : Z := BIT 0.
Definition IEEE80211_KEY_FLAG_GENERATE_IV : Z := BIT 1.
Definition IEEE80211_KEY_FLAG_GENERATE_MMIC : Z := BIT 2.
Definition IEEE80211_KEY_FLAG_PUT_IV_SPACE : Z := BIT 5.
Definition IEEE80211_KEY_FLAG_PUT_MIC_SPACE : Z := BIT 8.
Definition IEEE80211_KEY_FLAG_GENERATE_MMIE : Z := BIT 10.
Definition IEEE80211_KEY_FLAG_SPP_AMSDU : Z := BIT 11.

Definition RX_FLAG_MMIC_ERROR : Z := BIT 0.
Definition RX_FLAG_DECRYPTED : Z := BIT 1.
Definition RX_FLAG_MMIC_STRIPPED : Z := BIT 3.
Definition RX_FLAG_IV_STRIPPED : Z := BIT 4.
Definition RX_FLAG_PN_VALIDATED : Z := BIT 10.
Definition RX_FLAG_AMSDU_MORE : Z := BIT 19.
Definition RX_FLAG_MIC_STRIPPED : Z := BIT 21.
Definition RX_FLAG_ALLOW_SAME_PN : Z := BIT 22.
Definition RX_FLAG_ICV_STRIPPED : Z := BIT 23.

Definition IEEE80211_TX_INTFL_TKIP_MIC_FAILURE : Z := BIT 26.
Definition IEEE80211_TX_CTL_DONTFRAG : Z := BIT 30.

Definition flag_set (flags f : Z) : bool := nz (flags .& f).

(** ** Key configuration

    [key] is the key material, [tx_pn] the 64-bit transmit counter. *)
Record ieee80211_key_conf := mk_key_conf {
  keyidx : Z;
  keylen : Z;
  flags : Z;
  cipher : Z;
  key : list Z;
}.

(** [info->control.hw_key]: [None] for NULL, otherwise its flags word. *)
Definition hw_key_flag (hw_key : option Z) (f : Z) : bool :=
  match hw_key with Some fl => flag_set fl f | None => false end.

(** ** Handler results *)

Inductive rx_result :=
| RX_CONTINUE
| RX_QUEUED
| RX_DROP_U_MIC_FAIL | RX_DROP_U_REPLAY | RX_DROP_U_BAD_MMIE | RX_DROP_U_DUP
| RX_DROP_U_SPURIOUS | RX_DROP_U_DECRYPT_FAIL | RX_DROP_U_NO_KEY_ID | RX_DROP_U_BAD_CIPHER
| RX_DROP_U_OOM | RX_DROP_U_NONSEQ_PN | RX_DROP_U_BAD_KEY_COLOR | RX_DROP_U_BAD_4ADDR
| RX_DROP_U_BAD_AMSDU | RX_DROP_U_BAD_AMSDU_CIPHER | RX_DROP_U_INVALID_8023
| RX_DROP_U_RUNT_ACTION | RX_DROP_U_UNPROT_ACTION | RX_DROP_U_UNPROT_DUAL
| RX_DROP_U_UNPROT_UCAST_MGMT | RX_DROP_U_UNPROT_MCAST_MGMT | RX_DROP_U_UNPROT_BEACON
| RX_DROP_U_UNPROT_UNICAST_PUB_ACTION | RX_DROP_U_UNPROT_ROBUST_ACTION
| RX_DROP_U_ACTION_UNKNOWN_SRC | RX_DROP_U_REJECTED_ACTION_RESPONSE
| RX_DROP_U_EXPECT_DEFRAG_PROT | RX_DROP_U_WEP_DEC_FAIL | RX_DROP_U_NO_IV
| RX_DROP_U_NO_ICV | RX_DROP_U_AP_RX_GROUPCAST | RX_DROP_U_SHORT_MMIC
| RX_DROP_U_MMIC_FAIL | RX_DROP_U_SHORT_TKIP | RX_DROP_U_TKIP_FAIL | RX_DROP_U_SHORT_CCMP
| RX_DROP_U_SHORT_CCMP_MIC | RX_DROP_U_SHORT_GCMP | RX_DROP_U_SHORT_GCMP_MIC
| RX_DROP_U_SHORT_CMAC | RX_DROP_U_SHORT_CMAC256 | RX_DROP_U_SHORT_GMAC
| RX_DROP_U_UNEXPECTED_VLAN_4ADDR | RX_DROP_U_UNEXPECTED_STA_4ADDR
| RX_DROP_U_UNEXPECTED_VLAN_MCAST | RX_DROP_U_NOT_PORT_CONTROL
| RX_DROP_U_UNEXPECTED_4ADDR_FRAME | RX_DROP_U_BAD_BCN_KEYIDX | RX_DROP_U_BAD_MGMT_KEYIDX
| RX_DROP_U_UNKNOWN_ACTION_REJECTED | RX_DROP_U_MESH_DS_BITS | RX_DROP_U_MESH_A3_MISMATCH
| RX_DROP_U_MESH_NO_A4 | RX_DROP_U_MESH_A4_MISMATCH | RX_DROP_U_MESH_UNEXP_DATA
| RX_DROP_U_MESH_WRONG_ACTION | RX_DROP_U_MESH_UNEXP_MGMT | RX_DROP_U_SPURIOUS_NOTIF
| RX_DROP_U_RUNT_DATA | RX_DROP_U_KEY_TAINTED | RX_DROP_U_UNPROTECTED
| RX_DROP_U_MCAST_FRAGMENT | RX_DROP_U_DEFRAG_MISMATCH | RX_DROP_U_RUNT_MESH_DATA
| RX_DROP_U_MESH_NO_TTL | RX_DROP_U_MESH_RMC | RX_DROP_U_MESH_BAD_AE
| RX_DROP_U_MESH_TTL_EXPIRED | RX_DROP_U_MESH_NOT_FORWARDING
| RX_DROP_U_AMSDU_WITHOUT_DATA | RX_DROP_U_NULL_DATA | RX_DROP_U_UNEXPECTED_4ADDR
| RX_DROP_U_PORT_CONTROL | RX_DROP_U_UNKNOWN_STA | RX_DROP_U_RUNT_BAR
| RX_DROP_U_BAR_OUTSIDE_SESSION | RX_DROP_U_CTRL_FRAME | RX_DROP_U_RUNT_MGMT
| RX_DROP_U_EXPECTED_MGMT | RX_DROP_U_NONBCAST_BEACON | RX_DROP_U_MALFORMED_ACTION
| RX_DROP_U_UNKNOWN_MCAST_ACTION | RX_DROP_U_UNEXPECTED_EXT_FRAME
| RX_DROP_U_UNHANDLED_MGMT | RX_DROP_U_MCAST_DEAUTH | RX_DROP_U_UNHANDLED_DEAUTH
| RX_DROP_U_MCAST_DISASSOC | RX_DROP_U_UNHANDLED_DISASSOC | RX_DROP_U_UNHANDLED_PREQ
| RX_DROP_U_UNHANDLED_MGMT_STYPE | RX_DROP_U_NO_LINK | RX_DROP_U_DEFRAG_OVERFLOW.

Inductive tx_result := TX_CONTINUE | TX_DROP.

#[global] Instance rx_result_eq_dec : EqDecision rx_result.
Proof. solve_decision. Defined.
#[global] Instance tx_result_eq_dec : EqDecision tx_result.
Proof. solve_decision. Defined.

(** ** Protected frames *)

(** [hdr->frame_control |= cpu_to_le16(IEEE80211_FCTL_PROTECTED)]. *)
Definition set_protected (frame : list Z) : option (list Z) :=
  fc ← hdr_frame_control frame;
  store frame 0 (le16_bytes (fc .| IEEE80211_FCTL_PROTECTED)).

(** A fragment on the transmit queue: [info->control.hw_key] and its buffer. *)
Abbreviation tx_skb := (option Z * sk_buff)%type.

Definition ieee80211_tx_set_protected (skbs : list tx_skb) : option (list tx_skb) :=
  mapM (fun '(hw_key, skb) =>
    d ← set_protected (data skb); Some (hw_key, set_data skb d)) skbs.

(** [skb_queue_walk(&tx->skbs, skb) if (f(tx, skb) < 0) return TX_DROP]: run
    [f], which threads the state [S], over the fragments in order. *)
Fixpoint tx_walk {S} (f : S -> tx_skb -> option (Z * S * tx_skb)) (s : S) (skbs : list tx_skb)
  : option (tx_result * S * list tx_skb) :=
  match skbs with
  | [] => Some (TX_CONTINUE, s, [])
  | skb :: rest =>
      '(r, s, skb) ← f s skb;
      if r <? 0 then Some (TX_DROP, s, skb :: rest)
      else
        '(res, s, rest) ← tx_walk f s rest;
        Some (res, s, skb :: rest)
  end.

(** Run [f] on the bytes of the frame from [off] on. *)
Definition at_offset {A} (frame : list Z) (off : Z) (f : list Z -> option (A * list Z))
  : option (A * list Z) :=
  rest ← slice frame off (zlen frame - off);
  '(r, rest) ← f rest;
  frame ← store frame off rest;
  Some (r, frame).

(** ** Lemmas *)

Lemma at_offset_app {A} pre rest (f : list Z -> option (A * list Z)) r rest' :
  f rest = Some (r, rest') -> length rest' = length rest ->
  at_offset (pre ++ rest) (zlen pre) f = Some (r, pre ++ rest').
Proof.
  intros Hf El. unfold at_offset. rewrite <- (app_nil_r rest) at 1. rewrite slice_app by (zlens; lia).
  cbn [mbind option_bind]. rewrite Hf. cbn [mbind option_bind].
  rewrite <- (app_nil_r rest), store_app, app_nil_r by done. done.
Qed.

Lemma at_offset_total {A} (frame : list Z) off (f : list Z -> option (A * list Z)) :
  0 <= off <= zlen frame ->
  (forall rest, zlen rest = zlen frame - off ->
     exists r rest', f rest = Some (r, rest') /\ length rest' = length rest) ->
  exists r frame', at_offset frame off f = Some (r, frame') /\ zlen frame' = zlen frame.
Proof.
  intros Ho Hf. destruct (split_at frame off) as (a & b & -> & <-); [lia|].
  destruct (Hf b) as (r & b' & Hb & El); [zlens; lia|].
  exists r, (a ++ b'). split; [by apply at_offset_app|]. zlens. unfold zlen. lia.
Qed.

(** Marking a frame protected rewrites its first two bytes. *)
Lemma set_protected_app hdr body fc :
  hdr_frame_control hdr = Some fc -> is_uint 16 fc ->
  exists hdr', set_protected (hdr ++ body) = Some (hdr' ++ body) /\
    (length hdr' = length hdr /\ drop 2 hdr' = drop 2 hdr) /\
    (forall l, hdr_frame_control (hdr' ++ l) = Some (fc .| IEEE80211_FCTL_PROTECTED)).
Proof.
  intros Hfc Hu. destruct hdr as [|b0 [|b1 hdr]]; [discriminate Hfc..|].
  exists (le16_bytes (fc .| IEEE80211_FCTL_PROTECTED) ++ hdr). split_and!.
  - unfold set_protected.
    replace (hdr_frame_control ((b0 :: b1 :: hdr) ++ body)) with (Some fc) by done.
    cbn [mbind option_bind].
    change ((b0 :: b1 :: hdr) ++ body) with ([b0; b1] ++ (hdr ++ body)).
    rewrite store_prefix by done. by rewrite app_assoc.
  - done.
  - done.
  - intros l. rewrite <- app_assoc. apply rd_le16_bytes.
    apply lor_is_uint; [lia|done|]. unfold is_uint, IEEE80211_FCTL_PROTECTED. lia.
Qed.

(** Opening a gap of the headroom's bytes between header and body: the
    [skb_push]/[memmove] pair of every cipher. *)
Lemma push_header_gap s pre h4 hdr body n :
  data s = hdr ++ body -> head s = pre ++ h4 -> zlen h4 = n ->
  exists gap, length gap = length h4 /\
    (s ← skb_push s n; d ← memmove (data s) 0 n (zlen hdr); Some (set_data s d)) =
      Some (mk_skb pre (hdr ++ gap ++ body) (tail s) (cloned s)).
Proof.
  intros Hd Hh <-. rewrite (skb_push_app pre h4) by done. cbn [mbind option_bind data].
  rewrite Hd. unfold memmove. rewrite slice_app by done. cbn [mbind option_bind].
  destruct (split_at (h4 ++ hdr) (zlen hdr)) as (a & b & Eab & Ha).
  { zlens. pose proof (zlen_nonneg h4). pose proof (zlen_nonneg hdr). lia. }
  rewrite app_assoc, Eab, <- app_assoc. exists b.
  assert (length b = length h4) as Hb.
  { apply (f_equal length) in Eab. rewrite !length_app in Eab. unfold zlen in *. lia. }
  split; [done|]. rewrite store_prefix by (unfold zlen in *; lia). done.
Qed.

(** Closing it again: the [memmove]/[skb_pull] pair. *)
Lemma pull_header_gap s hdr gap body n :
  data s = hdr ++ gap ++ body -> zlen gap = n ->
  exists pre, (d ← memmove (data s) n 0 (zlen hdr); skb_pull (set_data s d) n) =
    Some (mk_skb (head s ++ pre) (hdr ++ body) (tail s) (cloned s)).
Proof.
  intros Hd <-. rewrite Hd. unfold memmove. rewrite slice_prefix by done. cbn [mbind option_bind].
  destruct (split_at (hdr ++ gap) (zlen gap)) as (a & b & Eab & Ha).
  { zlens. pose proof (zlen_nonneg hdr). pose proof (zlen_nonneg gap). lia. }
  rewrite app_assoc, Eab, <- app_assoc. rewrite <- Ha.
  assert (length b = length hdr) as Hb.
  { apply (f_equal length) in Eab. rewrite !length_app in Eab. unfold zlen in *. lia. }
  rewrite store_app by lia. cbn [mbind option_bind]. exists a.
  rewrite (skb_pull_app _ a (hdr ++ body)) by done. done.
Qed.

Lemma pull_gap_total s n k :
  0 <= n -> 0 <= k -> n + k <= skb_len s ->
  exists s', (d ← memmove (data s) k 0 n; skb_pull (set_data s d) k) = Some s' /\
    skb_len s' = skb_len s - k.
Proof.
  intros Hn Hk Hs. unfold skb_len in *.
  destruct (split_at (data s) n) as (hdr & r & Er & Hh); [lia|].
  destruct (split_at r k) as (gap & body & -> & Hi).
  { rewrite Er, zlen_app in Hs. lia. }
  destruct (pull_header_gap s hdr gap body k) as [pre Hp]; [done..|].
  rewrite Hh in Hp. rewrite Hp. eexists. split; [reflexivity|]. cbn [data]. rewrite Er. zlens. lia.
Qed.

Lemma split_suffix (l : list Z) n :
  0 <= n <= zlen l -> exists a b, l = a ++ b /\ zlen b = n.
Proof.
  intros H. destruct (split_at l (zlen l - n)) as (a & b & E & Ha); [lia|].
  exists a, b. split; [done|]. apply (f_equal zlen) in E. zlens. lia.
Qed.

(** ** The header survives the handlers' buffer surgery *)

Definition same_prefix (h : Z) (a b : list Z) : Prop :=
  h <= zlen a /\ h <= zlen b /\ take (Z.to_nat h) a = take (Z.to_nat h) b.

Lemma same_prefix_trans h a b c : same_prefix h a b -> same_prefix h b c -> same_prefix h a c.
Proof. unfold same_prefix. intros (?&?&E1) (?&?&E2). rewrite E1, E2. done. Qed.

Lemma same_prefix_refl h a : h <= zlen a -> same_prefix h a a.
Proof. done. Qed.

Lemma store_same_prefix buf off bs d : store buf off bs = Some d -> same_prefix off buf d.
Proof.
  unfold store, in_range. repeat (zcase; try done). cbn [andb]. intros [= <-].
  pose proof (zlen_nonneg bs). unfold same_prefix, zlen in *.
  rewrite length_app, length_take. split_and!; [lia..|].
  rewrite take_app_le by (rewrite length_take; lia). by rewrite take_take, Nat.min_id.
Qed.

Lemma trim_same_prefix h s n : h <= skb_len (skb_trim s n) -> same_prefix h (data s) (data (skb_trim s n)).
Proof.
  unfold skb_trim, skb_len. zcase; [|done]. cbn [data]. unfold same_prefix, zlen.
  rewrite length_take. intros Hh. split_and!; [lia..|]. rewrite take_take. f_equal. lia.
Qed.

Lemma pull_same_prefix s n h s' :
  0 <= n -> 0 <= h ->
  (d ← memmove (data s) n 0 h; skb_pull (set_data s d) n) = Some s' ->
  same_prefix h (data s) (data s').
Proof.
  intros Hn Hh Hs. destruct (memmove (data s) n 0 h) as [d|] eqn:Em; [|discriminate Hs].
  unfold memmove in Em. obind Em. apply slice_Some in E as (pre & post & Ed & Hp & Hx).
  destruct pre; [|zlens; pose proof (zlen_nonneg pre); lia]. cbn [app] in Ed.
  assert (n + h <= zlen (data s)) as Hnh.
  { unfold store, in_range in Em. repeat (zcase; try done). lia. }
  destruct (split_at (drop (Z.to_nat h) (data s)) n) as (gap & body & Eg & Hg).
  { unfold zlen in *. rewrite length_drop. lia. }
  assert (data s = x ++ gap ++ body) as E3.
  { rewrite <- Eg, Ed. assert (Z.to_nat h = length x) as -> by (unfold zlen in Hx; lia).
    by rewrite drop_app_length. }
  destruct (pull_header_gap s x gap body n) as [q Hq]; [done..|].
  rewrite Hx in Hq. unfold memmove in Hq. rewrite E3 in Hq. rewrite E3 in Em.
  rewrite slice_prefix in Hq by done. cbn [mbind option_bind] in Hq. rewrite Em in Hq.
  cbn [mbind option_bind] in Hq, Hs. rewrite Hs in Hq. injection Hq as ->. cbn [data].
  rewrite E3. unfold same_prefix. zlens. pose proof (zlen_nonneg body).
  assert (Z.to_nat h = length x) as -> by (unfold zlen in Hx; lia).
  rewrite !take_app_length. split_and!; [lia..|done].
Qed.

Lemma same_prefix_frame_control h a b :
  2 <= h -> same_prefix h a b -> hdr_frame_control a = hdr_frame_control b.
Proof.
  intros Hh (Ha & Hb & E). unfold hdr_frame_control, rd_le16.
  assert (forall k, 0 <= k < 2 -> rd8 a k = rd8 b k) as H.
  { intros k Hk. rewrite !rd8_lookup by lia.
    rewrite <- (lookup_take_lt a (Z.to_nat h)), <- (lookup_take_lt b (Z.to_nat h)) by lia.
    by rewrite E. }
  by rewrite !H by lia.
Qed.
