(* ===== verification/Wep.v ===== *)
(** * Wep: software WEP

    Models [net/mac80211/wep.c]: IV allocation with weak-IV avoidance, the IV
    header's insertion and removal, the data-level and frame-level encryption
    and decryption, and the handlers' treatment of hardware offload.  RC4,
    CRC-32 and buffer reallocation are the interfaces of [Skb]. *)
From S2P Require Import Prelude Frame Skb Key.

(** The part of [struct ieee80211_local] this code keeps: [wep_iv], a u32. *)
Record ieee80211_local := mk_local { wep_iv : Z }.

Definition ieee80211_wep_weak_iv (iv keylen : Z) : bool :=
  if iv .& 0xff00 =? 0xff00 then
    let B := u8 ((iv >> 16) .& 0xff) in
    (3 <=? B) && (B <? 3 + keylen)
  else false.

(** The four bytes stored when [iv] is not NULL. *)
Definition wep_iv_bytes (wep_iv keyidx : Z) : list Z :=
  [u8 ((wep_iv >> 16) .& 0xff); u8 ((wep_iv >> 8) .& 0xff); u8 (wep_iv .& 0xff);
   u8 (keyidx << 6)].

Definition wep_next_iv (keylen : Z) (iv : Z) : Z :=
  let iv := u32 (iv + 1) in
  if ieee80211_wep_weak_iv iv keylen then u32 (iv + 0x0100) else iv.

(** [iv] is the offset in the frame the IV is written to, [None] for NULL. *)
Definition ieee80211_wep_get_iv (local : ieee80211_local) (keylen keyidx : Z)
    (frame : list Z) (iv : option Z) : option (ieee80211_local * list Z) :=
  let local := mk_local (wep_next_iv keylen (wep_iv local)) in
  match iv with
  | None => Some (local, frame)
  | Some iv =>
      frame ← store frame iv (wep_iv_bytes (wep_iv local) keyidx);
      Some (local, frame)
  end.

(** The result carries the offset of the IV in the frame, [None] for NULL.
    [hw_key] is the flags word of [info->control.hw_key], [None] for NULL. *)
Definition ieee80211_wep_add_iv (local : ieee80211_local) (hw_key : option Z) (skb : sk_buff)
    (keylen keyidx : Z) : option (ieee80211_local * sk_buff * option Z) :=
  d ← set_protected (data skb);
  let skb := set_data skb d in
  if skb_headroom skb <? IEEE80211_WEP_IV_LEN then Some (local, skb, None)
  else
    fc ← hdr_frame_control (data skb);
    let hdrlen := ieee80211_hdrlen fc in
    skb ← skb_push skb IEEE80211_WEP_IV_LEN;
    d ← memmove (data skb) 0 IEEE80211_WEP_IV_LEN hdrlen;
    let skb := set_data skb d in
    if hw_key_flag hw_key IEEE80211_KEY_FLAG_PUT_IV_SPACE then Some (local, skb, Some hdrlen)
    else
      '(local, d) ← ieee80211_wep_get_iv local keylen keyidx (data skb) (Some hdrlen);
      Some (local, set_data skb d, Some hdrlen).

Definition ieee80211_wep_remove_iv (skb : sk_buff) : option sk_buff :=
  fc ← hdr_frame_control (data skb);
  let hdrlen := ieee80211_hdrlen fc in
  d ← memmove (data skb) IEEE80211_WEP_IV_LEN 0 hdrlen;
  skb_pull (set_data skb d) IEEE80211_WEP_IV_LEN.

Section wep.
Context `{Arc4} `{Crc32} `{SkbAlloc}.

(** [cpu_to_le32(~crc32_le(~0, data, data_len))]. *)
Definition wep_icv (data : list Z) : list Z :=
  le32_bytes (u32 (Z.lnot (crc32_le 0xffffffff data))).

(** [data] is the memory from the [data] pointer on; the return value is 0. *)
Definition ieee80211_wep_encrypt_data (rc4key data : list Z) (data_len : Z)
  : option (list Z) :=
  text ← slice data 0 data_len;
  data ← store data data_len (wep_icv text);
  arc4_crypt rc4key data (data_len + IEEE80211_WEP_ICV_LEN).

Definition ieee80211_wep_decrypt_data (rc4key data : list Z) (data_len : Z)
  : option (Z * list Z) :=
  data ← arc4_crypt rc4key data (data_len + IEEE80211_WEP_ICV_LEN);
  text ← slice data 0 data_len;
  icv ← slice data data_len IEEE80211_WEP_ICV_LEN;
  Some (if decide (wep_icv text = icv) then 0 else -1, data).

(** [rc4key] is [u8 rc4key[3 + WLAN_KEY_LEN_WEP104]]: copying a longer key
    overflows it. *)
Definition wep_rc4key (iv : list Z) (key : list Z) (keylen : Z) : option (list Z) :=
  k ← slice key 0 keylen;
  if 3 + keylen <=? 3 + WLAN_KEY_LEN_WEP104 then Some (iv ++ k) else None.

Definition ieee80211_wep_encrypt (local : ieee80211_local) (hw_key : option Z) (skb : sk_buff)
    (key : list Z) (keylen keyidx : Z) : option (Z * ieee80211_local * sk_buff) :=
  let '(r, skb) := ieee80211_crypto_tx_tailroom skb IEEE80211_WEP_ICV_LEN in
  if nz r then Some (-1, local, skb)
  else
    '(local, skb, iv) ← ieee80211_wep_add_iv local hw_key skb keylen keyidx;
    match iv with
    | None => Some (-1, local, skb)
    | Some iv =>
        let len := skb_len skb - (iv + IEEE80211_WEP_IV_LEN) in
        iv3 ← slice (data skb) iv 3;
        rc4key ← wep_rc4key iv3 key keylen;
        skb ← skb_put skb IEEE80211_WEP_ICV_LEN;
        '(r, d) ← at_offset (data skb) (iv + IEEE80211_WEP_IV_LEN) (fun b =>
                    b ← ieee80211_wep_encrypt_data rc4key b len; Some (0, b));
        Some (r, local, set_data skb d)
    end.

Definition ieee80211_wep_decrypt (skb : sk_buff) (key_ : option ieee80211_key_conf)
  : option (Z * sk_buff) :=
  fc ← hdr_frame_control (data skb);
  if negb (ieee80211_has_protected fc) then Some (-1, skb)
  else
    let hdrlen := ieee80211_hdrlen fc in
    if skb_len skb <? hdrlen + IEEE80211_WEP_IV_LEN + IEEE80211_WEP_ICV_LEN then Some (-1, skb)
    else
      let len := skb_len skb - hdrlen - IEEE80211_WEP_IV_LEN - IEEE80211_WEP_ICV_LEN in
      b ← rd8 (data skb) (hdrlen + 3);
      let kidx := b >> 6 in
      match key_ with
      | None => Some (-1, skb)
      | Some conf =>
          if negb (kidx =? keyidx conf) then Some (-1, skb)
          else
            iv3 ← slice (data skb) hdrlen 3;
            rc4key ← wep_rc4key iv3 (key conf) (keylen conf);
            '(ret, d) ← at_offset (data skb) (hdrlen + IEEE80211_WEP_IV_LEN)
                          (fun b => ieee80211_wep_decrypt_data rc4key b len);
            let skb := set_data skb d in
            let skb := skb_trim skb (skb_len skb - IEEE80211_WEP_ICV_LEN) in
            d ← memmove (data skb) IEEE80211_WEP_IV_LEN 0 hdrlen;
            skb ← skb_pull (set_data skb d) IEEE80211_WEP_IV_LEN;
            Some (if nz ret then -1 else 0, skb)
      end.

(** [skb_linearize] and [pskb_may_pull] on a linear buffer: the first
    succeeds, the second compares the length; [pskb_trim] trims. *)
Definition ieee80211_crypto_wep_decrypt (flag : Z) (skb : sk_buff)
    (key : option ieee80211_key_conf) : option (rx_result * sk_buff) :=
  fc ← hdr_frame_control (data skb);
  if negb (ieee80211_is_data fc) && negb (ieee80211_is_auth fc) then Some (RX_CONTINUE, skb)
  else if negb (flag_set flag RX_FLAG_DECRYPTED) then
    '(r, skb) ← ieee80211_wep_decrypt skb key;
    Some (if nz r then RX_DROP_U_WEP_DEC_FAIL else RX_CONTINUE, skb)
  else if negb (flag_set flag RX_FLAG_IV_STRIPPED) then
    if skb_len skb <? ieee80211_hdrlen fc + IEEE80211_WEP_IV_LEN then
      Some (RX_DROP_U_NO_IV, skb)
    else
      skb ← ieee80211_wep_remove_iv skb;
      if negb (flag_set flag RX_FLAG_ICV_STRIPPED) then
        Some (RX_CONTINUE, skb_trim skb (skb_len skb - IEEE80211_WEP_ICV_LEN))
      else Some (RX_CONTINUE, skb)
  else Some (RX_CONTINUE, skb).

Definition wep_encrypt_skb (conf : ieee80211_key_conf) (local : ieee80211_local) (ts : tx_skb)
  : option (Z * ieee80211_local * tx_skb) :=
  let '(hw_key, skb) := ts in
  match hw_key with
  | None =>
      '(r, local, skb) ← ieee80211_wep_encrypt local hw_key skb (key conf) (keylen conf)
                           (keyidx conf);
      Some (if nz r then -1 else 0, local, (hw_key, skb))
  | Some f =>
      if flag_set f IEEE80211_KEY_FLAG_GENERATE_IV || flag_set f IEEE80211_KEY_FLAG_PUT_IV_SPACE
      then
        '(local, skb, iv) ← ieee80211_wep_add_iv local hw_key skb (keylen conf) (keyidx conf);
        Some (match iv with None => -1 | Some _ => 0 end, local, (hw_key, skb))
      else Some (0, local, (hw_key, skb))
  end.

Definition ieee80211_crypto_wep_encrypt (local : ieee80211_local) (conf : ieee80211_key_conf)
    (skbs : list tx_skb) : option (tx_result * ieee80211_local * list tx_skb) :=
  skbs ← ieee80211_tx_set_protected skbs;
  tx_walk (wep_encrypt_skb conf) local skbs.

End wep.

(** ** IV allocation *)

Lemma land_ff00 x : x .& 0xff00 = (x / 256) mod 256 * 256.
Proof.
  change 0xff00 with (Z.ones 8 << 8). change 256 with (2 ^ 8).
  rewrite <- Z.shiftl_mul_pow2, <- Z.shiftr_div_pow2, <- Z.land_ones by lia.
  apply Z.bits_inj'; intros i Hi. rewrite Z.land_spec.
  destruct (decide (i < 8)); [rewrite !Z.shiftl_spec_low by lia; btauto|].
  rewrite !Z.shiftl_spec, Z.land_spec, Z.shiftr_spec by lia. do 2 f_equal. lia.
Qed.

Lemma u32_div256_mod y : (u32 y / 256) mod 256 = (y / 256) mod 256.
Proof.
  unfold wrap. change (2 ^ 32) with (256 * (256 * 65536)).
  rewrite Z.rem_mul_r by lia. rewrite Z.mul_comm, Z.div_add by lia.
  rewrite (Z.div_small (y mod 256)) by (apply Z.mod_pos_bound; lia).
  rewrite Z.add_0_l, Z.rem_mul_r by lia. rewrite Z.mul_comm, Z.mod_add by lia.
  apply Z.mod_mod. lia.
Qed.

Lemma wep_next_iv_strong iv keylen : ieee80211_wep_weak_iv (wep_next_iv keylen iv) keylen = false.
Proof.
  unfold wep_next_iv. destruct (ieee80211_wep_weak_iv (u32 (iv + 1)) keylen) eqn:E; [|done].
  revert E. unfold ieee80211_wep_weak_iv. rewrite !land_ff00.
  generalize (u32 (iv + 1)). intros x. rewrite u32_div256_mod.
  replace (x + 256) with (x + 1 * 256) by lia. rewrite Z.div_add, Z.add_mod by lia.
  destruct (Z.eqb_spec ((x / 256) mod 256 * 256) 0xff00) as [Hw|]; [intros _|done].
  assert ((x / 256) mod 256 = 255) as -> by lia. done.
Qed.

Lemma wep_next_iv_advance keylen iv :
  exists d, 1 <= d <= 257 /\ wep_next_iv keylen iv = u32 (iv + d).
Proof.
  unfold wep_next_iv. destruct (ieee80211_wep_weak_iv _ _).
  - exists 257. rewrite wrap_add_l. split; [lia|]. f_equal. lia.
  - exists 1. split; [lia|done].
Qed.

(** The IV counter after [n] frames. *)
Definition wep_iv_after (keylen : Z) (n : nat) (iv : Z) : Z := Nat.iter n (wep_next_iv keylen) iv.

Lemma wep_iv_after_advance keylen n iv :
  is_uint 32 iv ->
  exists d, Z.of_nat n <= d <= 257 * Z.of_nat n /\ wep_iv_after keylen n iv = u32 (iv + d).
Proof.
  intros Hiv. induction n as [|n (d & Hd & IH)].
  - exists 0. split; [lia|]. rewrite Z.add_0_r. symmetry. by apply wrap_small.
  - destruct (wep_next_iv_advance keylen (wep_iv_after keylen n iv)) as (e & He & E).
    exists (d + e). split; [lia|].
    transitivity (wep_next_iv keylen (wep_iv_after keylen n iv)); [done|].
    rewrite E, IH, wrap_add_l. f_equal. lia.
Qed.

(** The first three bytes of the IV determine its low 24 bits. *)
Lemma wep_iv_bytes_inj a b k k' :
  take 3 (wep_iv_bytes a k) = take 3 (wep_iv_bytes b k') -> a mod 2 ^ 24 = b mod 2 ^ 24.
Proof.
  unfold wep_iv_bytes. cbn [take]. intros [= H1 H2 H3].
  rewrite <- !Z.land_ones by lia. apply Z.bits_inj'; intros i Hi. rewrite !Z.land_spec.
  destruct (decide (i < 24)); [|rewrite Z.ones_spec_high by lia; btauto].
  f_equal.
  assert (forall f g, u8 f = u8 g -> forall j, 0 <= j < 8 -> Z.testbit f j = Z.testbit g j) as Hb.
  { intros f g E j Hj. apply (f_equal (fun z => Z.testbit z j)) in E.
    rewrite !wrap_testbit in E by lia. by destruct (Z.ltb_spec j 8); [|lia]. }
  assert (forall j, 0 <= j < 8 -> Z.testbit 255 j = true) as H255.
  { intros j Hj. change 255 with (Z.ones 8). apply Z.ones_spec_low. lia. }
  destruct (decide (i < 8)); [|destruct (decide (i < 16))].
  - specialize (Hb _ _ H3 i ltac:(lia)). by rewrite !Z.land_spec, H255, !andb_true_r in Hb by lia.
  - specialize (Hb _ _ H2 (i - 8) ltac:(lia)).
    rewrite !Z.land_spec, H255, !andb_true_r, !Z.shiftr_spec in Hb by lia.
    by replace (i - 8 + 8) with i in Hb by lia.
  - specialize (Hb _ _ H1 (i - 16) ltac:(lia)).
    rewrite !Z.land_spec, H255, !andb_true_r, !Z.shiftr_spec in Hb by lia.
    by replace (i - 16 + 16) with i in Hb by lia.
Qed.

Lemma wep_iv_after_add keylen m n iv :
  wep_iv_after keylen (m + n) iv = wep_iv_after keylen m (wep_iv_after keylen n iv).
Proof. apply Nat.iter_add. Qed.

Lemma mod24_add_ne x d : 0 < d < 2 ^ 24 -> x mod 2 ^ 24 <> (x + d) mod 2 ^ 24.
Proof.
  intros Hd E. assert ((x + d - x) mod 2 ^ 24 = 0) as H0.
  { rewrite Zminus_mod, <- E, Z.sub_diag. done. }
  replace (x + d - x) with d in H0 by lia. rewrite Z.mod_small in H0; lia.
Qed.

Lemma u32_mod24 x : u32 x mod 2 ^ 24 = x mod 2 ^ 24.
Proof.
  unfold wrap. change (2 ^ 32) with (2 ^ 24 * 256). rewrite Z.rem_mul_r by lia.
  rewrite Z.mul_comm, Z.mod_add by lia. apply Z.mod_mod. lia.
Qed.

(** ** Encryption and decryption are inverse *)

Section roundtrip.
Context `{Arc4Laws} `{Crc32} `{SkbAllocLaws}.

Lemma wep_icv_length text : length (wep_icv text) = 4%nat.
Proof. done. Qed.

Lemma wep_encrypt_data_eq key text pad :
  length pad = 4%nat ->
  ieee80211_wep_encrypt_data key (text ++ pad) (zlen text) =
    Some (xor_bytes (text ++ wep_icv text) (arc4_keystream key (length text + 4))).
Proof.
  intros Hp. unfold ieee80211_wep_encrypt_data.
  rewrite slice_prefix by done. cbn [mbind option_bind].
  rewrite <- (app_nil_r pad), store_app, app_nil_r by done. cbn [mbind option_bind].
  rewrite arc4_crypt_all by (unfold IEEE80211_WEP_ICV_LEN; zlens; done).
  by rewrite length_app, wep_icv_length.
Qed.

Lemma wep_decrypt_data_eq key text ct :
  ct = xor_bytes (text ++ wep_icv text) (arc4_keystream key (length text + 4)) ->
  ieee80211_wep_decrypt_data key ct (zlen text) = Some (0, text ++ wep_icv text).
Proof.
  intros ->. unfold ieee80211_wep_decrypt_data, IEEE80211_WEP_ICV_LEN.
  assert (forall k, length k = (length text + 4)%nat -> length (xor_bytes (text ++ wep_icv text) k) = (length text + 4)%nat) as Hlen.
  { intros k Hk. rewrite xor_bytes_length; rewrite length_app, wep_icv_length; done. }
  rewrite arc4_crypt_all by (unfold zlen; rewrite Hlen by apply keystream_length; lia).
  rewrite Hlen by apply keystream_length. rewrite xor_bytes_involutive
    by (rewrite keystream_length, length_app, wep_icv_length; done).
  cbn [mbind option_bind]. rewrite slice_prefix by done. cbn [mbind option_bind].
  rewrite <- (app_nil_r (wep_icv text)) at 1. rewrite slice_app by done. cbn [mbind option_bind].
  by rewrite decide_True.
Qed.

(** Inserting an IV between header and body. *)
Lemma wep_add_iv_eq local skb hdr body pre h4 fc klen kidx :
  data skb = hdr ++ body -> head skb = pre ++ h4 -> length h4 = 4%nat ->
  hdr_frame_control hdr = Some fc -> is_uint 16 fc -> zlen hdr = ieee80211_hdrlen fc ->
  exists hdr', (length hdr' = length hdr /\ drop 2 hdr' = drop 2 hdr) /\
    (forall l, hdr_frame_control (hdr' ++ l) = Some (fc .| IEEE80211_FCTL_PROTECTED)) /\
    ieee80211_wep_add_iv local None skb klen kidx =
      (let iv := wep_next_iv klen (wep_iv local) in
       Some (mk_local iv, mk_skb pre (hdr' ++ wep_iv_bytes iv kidx ++ body) (tail skb) (cloned skb),
         Some (zlen hdr))).
Proof.
  intros Hd Hh H4 Hfc Hu Hl.
  destruct (set_protected_app hdr body fc Hfc Hu) as (hdr' & Hp & [Hl' Hdr] & Hfc').
  exists hdr'. split; [done|]. split; [done|]. unfold ieee80211_wep_add_iv, IEEE80211_WEP_IV_LEN.
  rewrite Hd, Hp. cbn [mbind option_bind set_data data head skb_headroom].
  unfold skb_headroom, set_data. cbn [head data tail cloned]. rewrite Hh. zlens. pose proof (zlen_nonneg pre).
  assert (zlen h4 = 4) as E4 by (unfold zlen; lia). zcase; [lia|].
  rewrite Hfc'. cbn [mbind option_bind]. rewrite hdrlen_protected, <- Hl.
  rewrite <- E4, (skb_push_app pre h4) by done. cbn [mbind option_bind data tail cloned set_data head].
  unfold memmove. assert (zlen hdr' = zlen hdr) as Ez by (unfold zlen; lia).
  rewrite slice_app by done. cbn [mbind option_bind].
  destruct (split_at (h4 ++ hdr') (zlen hdr)) as (a & b & Eab & Ha).
  { zlens. pose proof (zlen_nonneg hdr'). lia. }
  rewrite app_assoc, Eab, <- app_assoc.
  assert (length b = 4%nat) as Hb.
  { apply (f_equal length) in Eab. rewrite !length_app in Eab. unfold zlen in *. lia. }
  rewrite store_prefix by (unfold zlen in *; lia). cbn [mbind option_bind data set_data].
  unfold ieee80211_wep_get_iv. rewrite <- Ez, store_app by (rewrite Hb; done).
  done.
Qed.

End roundtrip.

Section frames.
Context `{Arc4Laws} `{Crc32} `{SkbAllocLaws}.

(** The RC4 key for a frame: the 24-bit IV, then the secret. *)
Definition wep_frame_key (iv kidx : Z) (key : list Z) (klen : Z) : list Z :=
  take 3 (wep_iv_bytes iv kidx) ++ take (Z.to_nat klen) key.

Definition wep_ciphertext (k body : list Z) : list Z :=
  xor_bytes (body ++ wep_icv body) (arc4_keystream k (length body + 4)).

(** A frame the WEP code can be handed: its header is the one its frame
    control announces and there is headroom for the IV. *)
Definition wep_frame (skb : sk_buff) (hdr body : list Z) (fc : Z) : Prop :=
  data skb = hdr ++ body /\ hdr_frame_control hdr = Some fc /\ is_uint 16 fc /\
  zlen hdr = ieee80211_hdrlen fc /\ 4 <= skb_headroom skb.

Definition wep_key_ok (key : list Z) (klen : Z) : Prop :=
  0 <= klen <= WLAN_KEY_LEN_WEP104 /\ klen <= zlen key.

Lemma wep_rc4key_eq iv kidx key klen :
  wep_key_ok key klen ->
  wep_rc4key (take 3 (wep_iv_bytes iv kidx)) key klen = Some (wep_frame_key iv kidx key klen).
Proof.
  intros [Hk1 Hk2]. unfold wep_rc4key, slice, in_range, WLAN_KEY_LEN_WEP104 in *.
  repeat (zcase; try lia). cbn [andb mbind option_bind]. done.
Qed.

Lemma wep_ciphertext_length k body : length (wep_ciphertext k body) = (length body + 4)%nat.
Proof.
  unfold wep_ciphertext. rewrite xor_bytes_length;
    rewrite ?keystream_length, length_app, wep_icv_length; done.
Qed.

Lemma wep_encrypt_eq local skb skb1 hdr body fc key klen kidx :
  wep_frame skb hdr body fc -> wep_key_ok key klen ->
  ieee80211_crypto_tx_tailroom skb IEEE80211_WEP_ICV_LEN = (0, skb1) ->
  let iv := wep_next_iv klen (wep_iv local) in
  exists hdr' skb', (length hdr' = length hdr /\ drop 2 hdr' = drop 2 hdr) /\
    (forall l, hdr_frame_control (hdr' ++ l) = Some (fc .| IEEE80211_FCTL_PROTECTED)) /\
    ieee80211_wep_encrypt local None skb key klen kidx = Some (0, mk_local iv, skb') /\
    data skb' = hdr' ++ wep_iv_bytes iv kidx ++ wep_ciphertext (wep_frame_key iv kidx key klen) body.
Proof.
  intros (Hd & Hfc & Hu & Hl & Hh) Hk Ht iv.
  destruct (crypto_tx_tailroom_ok skb 4 skb1) as (E1 & E2 & E3); [lia|done|].
  destruct (split_at (head skb1) (zlen (head skb1) - 4)) as (pre & h4 & Eh & Hp).
  { rewrite E1. unfold skb_headroom in Hh. lia. }
  assert (length h4 = 4%nat) as H4 by (rewrite Eh, zlen_app in Hp; unfold zlen in *; lia).
  destruct (split_at (tail skb1) 4) as (t4 & post & Et & Ht4).
  { unfold skb_tailroom in E3. lia. }
  destruct (wep_add_iv_eq local skb1 hdr body pre h4 fc klen kidx) as (hdr' & [Hl' Hdr] & Hfc' & Ha);
    [congruence|done..|]. cbv zeta in Ha. fold iv in Ha.
  eexists hdr', _. split; [done|]. split; [done|]. unfold ieee80211_wep_encrypt. rewrite Ht.
  cbn [nz negb Z.eqb]. rewrite Ha. cbn [mbind option_bind data]. unfold skb_len. cbn [data].
  assert (zlen hdr' = zlen hdr) as Ez by (unfold zlen; lia). rewrite <- Ez.
  change (wep_iv_bytes iv kidx ++ body) with
    (take 3 (wep_iv_bytes iv kidx) ++ (drop 3 (wep_iv_bytes iv kidx) ++ body)).
  rewrite slice_app by done. cbn [mbind option_bind].
  rewrite wep_rc4key_eq by done. cbn [mbind option_bind].
  replace IEEE80211_WEP_ICV_LEN with (zlen t4) by done. rewrite (skb_put_app _ t4 post) by done. cbn [mbind option_bind data].
  change (take 3 (wep_iv_bytes iv kidx) ++ drop 3 (wep_iv_bytes iv kidx) ++ body) with
    (wep_iv_bytes iv kidx ++ body).
  rewrite (app_assoc hdr'), <- (app_assoc (hdr' ++ _)).
  unfold IEEE80211_WEP_IV_LEN.
  replace (zlen hdr' + 4) with (zlen (hdr' ++ wep_iv_bytes iv kidx)) by (zlens; done).
  replace (zlen _ - zlen _) with (zlen body) by (zlens; lia).
  erewrite at_offset_app; cycle 1.
  - rewrite wep_encrypt_data_eq by (unfold zlen in *; lia). reflexivity.
  - unfold zlen in Ht4. rewrite xor_bytes_length; rewrite ?keystream_length, !length_app, ?wep_icv_length; lia.
  - cbn [mbind option_bind]. split; [reflexivity|]. cbn [data set_data]. by rewrite <- app_assoc.
Qed.

Lemma wep_decrypt_eq skb hdr body fc iv conf :
  data skb = hdr ++ wep_iv_bytes iv (keyidx conf) ++
    wep_ciphertext (wep_frame_key iv (keyidx conf) (key conf) (keylen conf)) body ->
  hdr_frame_control (data skb) = Some fc -> ieee80211_has_protected fc = true ->
  zlen hdr = ieee80211_hdrlen fc -> wep_key_ok (key conf) (keylen conf) ->
  0 <= keyidx conf < 4 -> zlen hdr + zlen body + 8 < 2 ^ 32 ->
  exists skb', ieee80211_wep_decrypt skb (Some conf) = Some (0, skb') /\ data skb' = hdr ++ body.
Proof.
  intros Hd Hfc Hp Hl Hk Hi Hlen. unfold ieee80211_wep_decrypt. rewrite Hfc.
  cbn [mbind option_bind]. rewrite Hp, <- Hl. cbn [negb]. unfold skb_len. rewrite Hd.
  set (ct := wep_ciphertext _ _). assert (zlen ct = zlen body + 4) as Ect.
  { unfold zlen, ct. rewrite wep_ciphertext_length. lia. }
  unfold IEEE80211_WEP_IV_LEN, IEEE80211_WEP_ICV_LEN. zlens.
  assert (zlen (wep_iv_bytes iv (keyidx conf)) = 4) as E4 by done. rewrite E4, Ect.
  pose proof (zlen_nonneg body). zcase; [lia|].
  rewrite rd8_app_r by lia.
  replace (rd8 _ 3) with (Some (u8 (keyidx conf << 6))) by done. cbn [mbind option_bind].
  assert (u8 (keyidx conf << 6) >> 6 = keyidx conf) as ->.
  { rewrite Z.shiftl_mul_pow2 by lia. rewrite wrap_small by (unfold is_uint; lia).
    rewrite Z.shiftr_div_pow2 by lia. apply Z.div_mul. lia. }
  rewrite Z.eqb_refl. cbn [negb].
  change (wep_iv_bytes iv (keyidx conf) ++ ct) with
    (take 3 (wep_iv_bytes iv (keyidx conf)) ++ (drop 3 (wep_iv_bytes iv (keyidx conf)) ++ ct)).
  rewrite slice_app by done. cbn [mbind option_bind]. rewrite wep_rc4key_eq by done.
  change (take 3 (wep_iv_bytes iv (keyidx conf)) ++ drop 3 (wep_iv_bytes iv (keyidx conf)) ++ ct)
    with (wep_iv_bytes iv (keyidx conf) ++ ct).
  cbn [mbind option_bind]. rewrite app_assoc.
  replace (zlen hdr + 4) with (zlen (hdr ++ wep_iv_bytes iv (keyidx conf))) by (zlens; done).
  replace (zlen hdr + (4 + (zlen body + 4)) - zlen hdr - 4 - 4) with (zlen body) by lia.
  erewrite at_offset_app; cycle 1.
  - apply wep_decrypt_data_eq. reflexivity.
  - unfold ct. rewrite wep_ciphertext_length, length_app. done.
  - cbn [mbind option_bind data set_data nz]. unfold skb_len. cbn [data set_data].
    replace (zlen _ - 4) with (zlen (hdr ++ wep_iv_bytes iv (keyidx conf) ++ body))
      by (zlens; assert (zlen (wep_icv body) = 4) as -> by done; lia).
    rewrite (skb_trim_app _ (hdr ++ wep_iv_bytes iv (keyidx conf) ++ body) (wep_icv body));
      [|cbn [data set_data]; by rewrite <- !app_assoc|done|zlens; rewrite E4; lia].
    edestruct (pull_header_gap (mk_skb (head skb) (hdr ++ wep_iv_bytes iv (keyidx conf) ++ body)
      (wep_icv body ++ tail skb) (cloned skb)) hdr (wep_iv_bytes iv (keyidx conf)) body 4) as [q Hs];
      [done..|].
    cbn [head tail cloned] in *. cbn [head tail cloned set_data].
    destruct (memmove _ 4 0 (zlen hdr)) as [d|] eqn:Em; [|discriminate Hs].
    cbn [mbind option_bind] in *. rewrite Hs. cbn [mbind option_bind]. eexists. split; [reflexivity|done].
Qed.
End frames.

(** ** Memory safety of decryption *)

Section safety.
Context `{Arc4Laws} `{Crc32} `{SkbAllocLaws}.

Lemma wep_decrypt_data_total k buf n :
  zlen buf = n + 4 -> 0 <= n ->
  exists r buf', ieee80211_wep_decrypt_data k buf n = Some (r, buf') /\ length buf' = length buf.
Proof.
  intros Hb Hn. unfold ieee80211_wep_decrypt_data, IEEE80211_WEP_ICV_LEN.
  rewrite arc4_crypt_all by done. cbn [mbind option_bind].
  set (x := xor_bytes _ _). assert (length x = length buf) as El.
  { apply xor_bytes_length, keystream_length. }
  destruct (split_at x n) as (a & b & -> & <-); [unfold zlen in *; lia|].
  rewrite slice_prefix by done. cbn [mbind option_bind].
  assert (zlen b = 4) as Eb by (rewrite length_app in El; unfold zlen in *; lia).
  replace (slice (a ++ b) (zlen a) 4) with (Some b)
    by (rewrite <- (app_nil_r b) at 2; by rewrite slice_app). cbn [mbind option_bind]. eauto.
Qed.

Lemma wep_decrypt_total skb conf fc :
  hdr_frame_control (data skb) = Some fc -> wep_key_ok (key conf) (keylen conf) ->
  skb_len skb < 2 ^ 32 ->
  exists r skb', ieee80211_wep_decrypt skb (Some conf) = Some (r, skb') /\
    skb_len skb' <= skb_len skb.
Proof.
  intros Hfc Hk H32. unfold ieee80211_wep_decrypt. rewrite Hfc. cbn [mbind option_bind].
  pose proof (hdrlen_range fc) as Hr. set (n := ieee80211_hdrlen fc) in *.
  unfold IEEE80211_WEP_IV_LEN, IEEE80211_WEP_ICV_LEN.
  destruct (negb _); [eauto with lia|]. destruct (Z.ltb_spec (skb_len skb) (n + 4 + 4)); [eauto with lia|].
  unfold skb_len in *. destruct (rd8_Some (data skb) (n + 3)) as [b ->]; [lia|].
  cbn [mbind option_bind]. destruct (negb _); [eauto with lia|].
  destruct (split_at (data skb) n) as (a & r & Ea & Ha); [lia|].
  destruct (split_at r 3) as (i3 & r' & -> & Hi3); [rewrite Ea, zlen_app in *; lia|].
  rewrite <- Ha in *.
  assert (slice (data skb) (zlen a) 3 = Some i3) as -> by (rewrite Ea; by apply slice_app).
  cbn [mbind option_bind].
  destruct Hk as [Hk1 Hk2]. unfold wep_rc4key, WLAN_KEY_LEN_WEP104 in *.
  unfold slice at 1, in_range. repeat (zcase; try lia). cbn [andb mbind option_bind].
  destruct (at_offset_total (data skb) (zlen a + 4) (fun b0 => ieee80211_wep_decrypt_data
      (i3 ++ take (Z.to_nat (keylen conf)) (drop (Z.to_nat 0) (key conf))) b0
      (zlen (data skb) - zlen a - 4 - 4))) as (res & d & -> & Hd); [lia| |].
  { intros rest Hrest. apply wep_decrypt_data_total; lia. }
  cbn [mbind option_bind].
  set (s2 := skb_trim _ _).
  assert (skb_len s2 = zlen (data skb) - 4) as Es2.
  { destruct (split_at d (zlen d - 4)) as (u & v & Ed & Hu); [lia|].
    unfold s2. unfold skb_len. cbn [data set_data]. rewrite <- Hu.
    rewrite (skb_trim_app _ u v); [|done|rewrite Ed, zlen_app in *; lia|lia].
    cbn [data]. lia. }
  destruct (pull_gap_total s2 (zlen a) 4) as (s3 & Hs3 & E3); [lia..|].
  destruct (memmove _ 4 0 (zlen a)) as [d2|]; [|discriminate Hs3]. cbn [mbind option_bind] in *.
  rewrite Hs3. cbn [mbind option_bind]. do 2 eexists. split; [reflexivity|].
  unfold skb_len in *. lia.
Qed.
End safety.

(** ** Properties *)

Section properties.
Context `{Arc4Laws} `{Crc32} `{SkbAllocLaws}.

(** The WEP transmit and receive handlers are inverse.  A data frame that
    the software path encrypts grows by the IV and the ICV, carries the
    advanced IV, and is decrypted by the receive handler under the same key
    back to the same body behind the same header (with Protected set). *)
Theorem wep_frame_roundtrip local conf skb skb1 hdr body fc :
  wep_frame skb hdr body fc -> ieee80211_is_data fc = true ->
  wep_key_ok (key conf) (keylen conf) -> 0 <= keyidx conf < 4 ->
  ieee80211_crypto_tx_tailroom skb IEEE80211_WEP_ICV_LEN = (0, skb1) ->
  skb_len skb + 8 < 2 ^ 32 ->
  exists hdr' skb' skb'',
    wep_encrypt_skb conf local (None, skb) =
      Some (0, mk_local (wep_next_iv (keylen conf) (wep_iv local)), (None, skb')) /\
    skb_len skb' = skb_len skb + IEEE80211_WEP_IV_LEN + IEEE80211_WEP_ICV_LEN /\
    ieee80211_crypto_wep_decrypt 0 skb' (Some conf) = Some (RX_CONTINUE, skb'') /\
    data skb'' = hdr' ++ body /\
    hdr_frame_control hdr' = Some (fc .| IEEE80211_FCTL_PROTECTED) /\ drop 2 hdr' = drop 2 hdr.
Proof.
  intros Hf Hdt Hk Hi Ht Hlen.
  destruct (wep_encrypt_eq local skb skb1 hdr body fc (key conf) (keylen conf) (keyidx conf))
    as (hdr' & skb' & [Hl' Hdr] & Hfc & He & Hd); [done..|].
  destruct Hf as (Hd0 & _ & _ & Hl & _). assert (zlen hdr' = zlen hdr) as Ez by (unfold zlen; lia).
  assert (skb_len skb = zlen hdr + zlen body) as El by (unfold skb_len; rewrite Hd0; zlens; lia).
  destruct (wep_decrypt_eq skb' hdr' body (fc .| IEEE80211_FCTL_PROTECTED) _ conf Hd) as (skb'' & Hx & Hy).
  { by rewrite Hd, Hfc. } { apply has_protected_set. } { by rewrite hdrlen_protected, Ez. }
  { done. } { done. } { lia. }
  exists hdr', skb', skb''. split_and!; [| | |done| |done].
  - unfold wep_encrypt_skb. rewrite He. done.
  - unfold skb_len. rewrite Hd, Hd0. zlens.
    assert (forall k, zlen (wep_ciphertext k body) = zlen body + 4) as ->.
    { intros k. unfold zlen. rewrite wep_ciphertext_length. lia. }
    rewrite Ez. unfold IEEE80211_WEP_IV_LEN, IEEE80211_WEP_ICV_LEN.
    assert (forall a b, zlen (wep_iv_bytes a b) = 4) as -> by done. lia.
  - unfold ieee80211_crypto_wep_decrypt. rewrite Hd at 1. rewrite Hfc. cbn [mbind option_bind].
    rewrite is_data_protected, Hdt. cbn [negb andb]. replace (flag_set 0 RX_FLAG_DECRYPTED) with false by done.
    cbn [negb]. rewrite Hx. done.
  - specialize (Hfc []). by rewrite app_nil_r in Hfc.
Qed.

(** Decryption never reads or writes outside the received frame, nor
    overflows its RC4 key buffer, whatever the frame holds and whatever the
    receive flags are; and it never lengthens the frame. *)
Theorem wep_decrypt_safe flag skb conf fc :
  hdr_frame_control (data skb) = Some fc -> wep_key_ok (key conf) (keylen conf) ->
  skb_len skb < 2 ^ 32 ->
  exists res skb', ieee80211_crypto_wep_decrypt flag skb (Some conf) = Some (res, skb') /\
    skb_len skb' <= skb_len skb.
Proof.
  intros Hfc Hk H32. unfold ieee80211_crypto_wep_decrypt. rewrite Hfc. cbn [mbind option_bind].
  destruct (_ && _); [eauto with lia|]. destruct (negb _).
  { destruct (wep_decrypt_total skb conf fc) as (r & s & -> & Hs); [done..|].
    cbn [mbind option_bind]. eauto. }
  destruct (negb _); [|eauto with lia]. unfold IEEE80211_WEP_IV_LEN.
  destruct (Z.ltb_spec (skb_len skb) (ieee80211_hdrlen fc + 4)); [eauto with lia|].
  pose proof (hdrlen_range fc). unfold ieee80211_wep_remove_iv. rewrite Hfc. cbn [mbind option_bind].
  destruct (pull_gap_total skb (ieee80211_hdrlen fc) 4) as (s & Hs & E); [lia..|].
  unfold IEEE80211_WEP_IV_LEN. rewrite Hs. cbn [mbind option_bind].
  destruct (negb _); [|eauto with lia]. do 2 eexists. split; [reflexivity|].
  unfold skb_trim. zcase; [|lia]. unfold skb_len at 1. cbn [data].
  unfold skb_len, zlen in *. rewrite length_take. lia.
Qed.
End properties.

(** No frame is sent with an IV of the weak class (B+3, 0xff, N) for its
    key length, and any two frames at most 65,280 apart carry different IVs. *)
Theorem wep_iv_sequence keylen iv :
  is_uint 32 iv ->
  (forall n, (0 < n)%nat ->
     ieee80211_wep_weak_iv (wep_iv_after keylen n iv) keylen = false) /\
  (forall n m k k', (0 < m)%nat -> Z.of_nat m <= 65280 ->
     take 3 (wep_iv_bytes (wep_iv_after keylen n iv) k) <>
     take 3 (wep_iv_bytes (wep_iv_after keylen (m + n) iv) k')).
Proof.
  intros Hiv. split.
  - intros [|n] Hn; [lia|]. apply wep_next_iv_strong.
  - intros n m k k' Hm Hm' E%wep_iv_bytes_inj. rewrite wep_iv_after_add in E.
    assert (is_uint 32 (wep_iv_after keylen n iv)) as Hn.
    { destruct (wep_iv_after_advance keylen n iv Hiv) as (? & _ & ->). by apply wrap_is_uint. }
    destruct (wep_iv_after_advance keylen m _ Hn) as (d & Hd & Ed).
    rewrite Ed, u32_mod24 in E. revert E. apply mod24_add_ne. lia.
Qed.

(** ** The hypotheses hold on a concrete frame *)

Section witness.
#[local] Existing Instances Sample.arc4 Sample.crc32 Sample.alloc Sample.arc4_laws Sample.alloc_laws.

Let conf : ieee80211_key_conf := mk_key_conf 2 5 0 WLAN_CIPHER_SUITE_WEP40 [1; 2; 3; 4; 5].
Let hdr : list Z := [0x08; 0x01; 0; 0] ++ replicate 20 7.
Let body : list Z := [0xaa; 0xaa; 3; 0; 0; 0; 8; 0].
Let skb : sk_buff := mk_skb (replicate 8 0) (hdr ++ body) [1; 2] false.

Lemma wep_frame_roundtrip_witness :
  exists hdr' skb' skb'',
    wep_encrypt_skb conf (mk_local 0x03feff) (None, skb) =
      Some (0, mk_local 0x040000, (None, skb')) /\
    skb_len skb' = skb_len skb + 8 /\
    ieee80211_crypto_wep_decrypt 0 skb' (Some conf) = Some (RX_CONTINUE, skb'') /\
    data skb'' = hdr' ++ body /\
    hdr_frame_control hdr' = Some 0x4108 /\ drop 2 hdr' = drop 2 hdr.
Proof.
  refine (wep_frame_roundtrip (mk_local 0x03feff) conf skb _ hdr body 0x0108 _ _ _ _ _ _);
    [|done| |done|reflexivity|done]; [|by vm_compute].
  split_and!; by vm_compute.
Defined.

Lemma wep_decrypt_safe_witness :
  exists res skb', ieee80211_crypto_wep_decrypt 0 skb (Some conf) = Some (res, skb') /\
    skb_len skb' <= skb_len skb.
Proof. apply (wep_decrypt_safe 0 skb conf 0x0108); [done|by vm_compute|done]. Defined.
End witness.

Lemma wep_iv_sequence_witness :
  (forall n, (0 < n)%nat -> ieee80211_wep_weak_iv (wep_iv_after 13 n 0xfffffffe) 13 = false) /\
  (forall n m k k', (0 < m)%nat -> Z.of_nat m <= 65280 ->
     take 3 (wep_iv_bytes (wep_iv_after 13 n 0xfffffffe) k) <>
     take 3 (wep_iv_bytes (wep_iv_after 13 (m + n) 0xfffffffe) k')).
Proof. apply wep_iv_sequence. by vm_compute. Defined.
