(* ===== verification/Tkip.v ===== *)
(** * Tkip: TKIP key mixing, IVs, replay protection and data encryption

    Models [net/mac80211/tkip.c].  The per-key transmit context caches the
    phase 1 key (P1K) for the current high 32 bits of the sequence counter;
    each receive queue has its own context and its replay counter. *)
From S2P Require Import Prelude Frame Skb Key Wep.

Definition PHASE1_LOOP_COUNT : Z := 8.

(** [static const u16 tkip_sbox[256]]. *)
Definition tkip_sbox : list Z :=
  [
     0xC6A5; 0xF884; 0xEE99; 0xF68D; 0xFF0D; 0xD6BD; 0xDEB1; 0x9154;
     0x6050; 0x0203; 0xCEA9; 0x567D; 0xE719; 0xB562; 0x4DE6; 0xEC9A;
     0x8F45; 0x1F9D; 0x8940; 0xFA87; 0xEF15; 0xB2EB; 0x8EC9; 0xFB0B;
     0x41EC; 0xB367; 0x5FFD; 0x45EA; 0x23BF; 0x53F7; 0xE496; 0x9B5B;
     0x75C2; 0xE11C; 0x3DAE; 0x4C6A; 0x6C5A; 0x7E41; 0xF502; 0x834F;
     0x685C; 0x51F4; 0xD134; 0xF908; 0xE293; 0xAB73; 0x6253; 0x2A3F;
     0x080C; 0x9552; 0x4665; 0x9D5E; 0x3028; 0x37A1; 0x0A0F; 0x2FB5;
     0x0E09; 0x2436; 0x1B9B; 0xDF3D; 0xCD26; 0x4E69; 0x7FCD; 0xEA9F;
     0x121B; 0x1D9E; 0x5874; 0x342E; 0x362D; 0xDCB2; 0xB4EE; 0x5BFB;
     0xA4F6; 0x764D; 0xB761; 0x7DCE; 0x527B; 0xDD3E; 0x5E71; 0x1397;
     0xA6F5; 0xB968; 0x0000; 0xC12C; 0x4060; 0xE31F; 0x79C8; 0xB6ED;
     0xD4BE; 0x8D46; 0x67D9; 0x724B; 0x94DE; 0x98D4; 0xB0E8; 0x854A;
     0xBB6B; 0xC52A; 0x4FE5; 0xED16; 0x86C5; 0x9AD7; 0x6655; 0x1194;
     0x8ACF; 0xE910; 0x0406; 0xFE81; 0xA0F0; 0x7844; 0x25BA; 0x4BE3;
     0xA2F3; 0x5DFE; 0x80C0; 0x058A; 0x3FAD; 0x21BC; 0x7048; 0xF104;
     0x63DF; 0x77C1; 0xAF75; 0x4263; 0x2030; 0xE51A; 0xFD0E; 0xBF6D;
     0x814C; 0x1814; 0x2635; 0xC32F; 0xBEE1; 0x35A2; 0x88CC; 0x2E39;
     0x9357; 0x55F2; 0xFC82; 0x7A47; 0xC8AC; 0xBAE7; 0x322B; 0xE695;
     0xC0A0; 0x1998; 0x9ED1; 0xA37F; 0x4466; 0x547E; 0x3BAB; 0x0B83;
     0x8CCA; 0xC729; 0x6BD3; 0x283C; 0xA779; 0xBCE2; 0x161D; 0xAD76;
     0xDB3B; 0x6456; 0x744E; 0x141E; 0x92DB; 0x0C0A; 0x486C; 0xB8E4;
     0x9F5D; 0xBD6E; 0x43EF; 0xC4A6; 0x39A8; 0x31A4; 0xD337; 0xF28B;
     0xD532; 0x8B43; 0x6E59; 0xDAB7; 0x018C; 0xB164; 0x9CD2; 0x49E0;
     0xD8B4; 0xACFA; 0xF307; 0xCF25; 0xCAAF; 0xF48E; 0x47E9; 0x1018;
     0x6FD5; 0xF088; 0x4A6F; 0x5C72; 0x3824; 0x57F1; 0x73C7; 0x9751;
     0xCB23; 0xA17C; 0xE89C; 0x3E21; 0x96DD; 0x61DC; 0x0D86; 0x0F85;
     0xE090; 0x7C42; 0x71C4; 0xCCAA; 0x90D8; 0x0605; 0xF701; 0x1C12;
     0xC2A3; 0x6A5F; 0xAEF9; 0x69D0; 0x1791; 0x9958; 0x3A27; 0x27B9;
     0xD938; 0xEB13; 0x2BB3; 0x2233; 0xD2BB; 0xA970; 0x0789; 0x33A7;
     0x2DB6; 0x3C22; 0x1592; 0xC920; 0x8749; 0xAAFF; 0x5078; 0xA57A;
     0x038F; 0x59F8; 0x0980; 0x1A17; 0x65DA; 0xD731; 0x84C6; 0xD0B8;
     0x82C3; 0x29B0; 0x5A77; 0x1E11; 0x7BCB; 0xA8FC; 0x6DD6; 0x2C3A].

(** Indexing with a value below 256 (see [tkipS_bounds]). *)
Definition tkip_sbox_at (i : Z) : Z := nth (Z.to_nat i) tkip_sbox 0.

Definition tkipS (val : Z) : Z :=
  tkip_sbox_at (val .& 0xff) .^ swab16 (tkip_sbox_at (val >> 8)).

Definition write_tkip_iv (iv16 : Z) : list Z :=
  [u8 (iv16 >> 8); u8 (((iv16 >> 8) .| 0x20) .& 0x7f); u8 (iv16 .& 0xFF)].

(** [u16 p1k[5]]. *)
Record p1k_t := mk_p1k { p1k0 : Z; p1k1 : Z; p1k2 : Z; p1k3 : Z; p1k4 : Z }.

Inductive tkip_state := TKIP_STATE_NOT_INIT | TKIP_STATE_PHASE1_DONE | TKIP_STATE_PHASE1_HW_UPLOADED.

#[global] Instance tkip_state_eq_dec : EqDecision tkip_state.
Proof. solve_decision. Defined.

Record tkip_ctx := mk_tkip_ctx { p1k : p1k_t; p1k_iv32 : Z; state : tkip_state }.

(** [struct tkip_ctx_rx]: the current iv32 and iv16 are the last validated. *)
Record tkip_ctx_rx := mk_tkip_ctx_rx { rx_ctx : tkip_ctx; rx_iv32 : Z; rx_iv16 : Z }.

(** One pass of the phase 1 loop; [tk] is the 128-bit temporal key. *)
Definition phase1_round (tk : list Z) (i : Z) (p : p1k_t) : option p1k_t :=
  let j := 2 * (i .& 1) in
  t0 ← rd_le16 tk (0 + j);
  t4 ← rd_le16 tk (4 + j);
  t8 ← rd_le16 tk (8 + j);
  t12 ← rd_le16 tk (12 + j);
  let p0 := u16 (p1k0 p + tkipS (p1k4 p .^ t0)) in
  let p1 := u16 (p1k1 p + tkipS (p0 .^ t4)) in
  let p2 := u16 (p1k2 p + tkipS (p1 .^ t8)) in
  let p3 := u16 (p1k3 p + tkipS (p2 .^ t12)) in
  let p4 := u16 (p1k4 p + tkipS (p3 .^ t0) + i) in
  Some (mk_p1k p0 p1 p2 p3 p4).

Fixpoint phase1_loop (tk : list Z) (i : Z) (n : nat) (p : p1k_t) : option p1k_t :=
  match n with
  | O => Some p
  | S n => p ← phase1_round tk i p; phase1_loop tk (i + 1) n p
  end.

Definition tkip_mixing_phase1 (tk ta : list Z) (tsc_IV32 : Z) : option tkip_ctx :=
  a0 ← rd_le16 ta 0;
  a2 ← rd_le16 ta 2;
  a4 ← rd_le16 ta 4;
  p ← phase1_loop tk 0 (Z.to_nat PHASE1_LOOP_COUNT)
        (mk_p1k (u16 (tsc_IV32 .& 0xFFFF)) (u16 (tsc_IV32 >> 16)) a0 a2 a4);
  Some (mk_tkip_ctx p tsc_IV32 TKIP_STATE_PHASE1_DONE).

(** The 16-byte RC4 key of a frame. *)
Definition tkip_mixing_phase2 (tk : list Z) (ctx : tkip_ctx) (tsc_IV16 : Z) : option (list Z) :=
  t0 ← rd_le16 tk 0; t2 ← rd_le16 tk 2; t4 ← rd_le16 tk 4; t6 ← rd_le16 tk 6;
  t8 ← rd_le16 tk 8; t10 ← rd_le16 tk 10; t12 ← rd_le16 tk 12; t14 ← rd_le16 tk 14;
  let k := p1k ctx in
  let ppk5 := u16 (p1k4 k + tsc_IV16) in
  let ppk0 := u16 (p1k0 k + tkipS (ppk5 .^ t0)) in
  let ppk1 := u16 (p1k1 k + tkipS (ppk0 .^ t2)) in
  let ppk2 := u16 (p1k2 k + tkipS (ppk1 .^ t4)) in
  let ppk3 := u16 (p1k3 k + tkipS (ppk2 .^ t6)) in
  let ppk4 := u16 (p1k4 k + tkipS (ppk3 .^ t8)) in
  let ppk5 := u16 (ppk5 + tkipS (ppk4 .^ t10)) in
  let ppk0 := u16 (ppk0 + ror16 (ppk5 .^ t12) 1) in
  let ppk1 := u16 (ppk1 + ror16 (ppk0 .^ t14) 1) in
  let ppk2 := u16 (ppk2 + ror16 ppk1 1) in
  let ppk3 := u16 (ppk3 + ror16 ppk2 1) in
  let ppk4 := u16 (ppk4 + ror16 ppk3 1) in
  let ppk5 := u16 (ppk5 + ror16 ppk4 1) in
  Some (write_tkip_iv tsc_IV16 ++ [u8 (((ppk5 .^ t0) >> 1) .& 0xFF)] ++
        concat (le16_bytes <$> [ppk0; ppk1; ppk2; ppk3; ppk4; ppk5])).

Definition TKIP_PN_TO_IV16 (pn : Z) : Z := u16 (pn .& 0xffff).
Definition TKIP_PN_TO_IV32 (pn : Z) : Z := u32 ((pn >> 16) .& 0xffffffff).

(** The eight bytes written at [pos]. *)
Definition ieee80211_tkip_add_iv (conf : ieee80211_key_conf) (pn : Z) : list Z :=
  write_tkip_iv (TKIP_PN_TO_IV16 pn) ++ [u8 ((keyidx conf << 6) .| (1 << 5))] ++
  le32_bytes (TKIP_PN_TO_IV32 pn).

(** The temporal key inside the key material. *)
Definition tkip_tk (conf : ieee80211_key_conf) : option (list Z) :=
  slice (key conf) NL80211_TKIP_DATA_OFFSET_ENCR_KEY 16.

(** [addr] is [sdata->vif.addr]. *)
Definition ieee80211_compute_tkip_p1k (conf : ieee80211_key_conf) (addr : list Z)
    (ctx : tkip_ctx) (iv32 : Z) : option tkip_ctx :=
  tk ← tkip_tk conf;
  if negb (p1k_iv32 ctx =? iv32) || bool_decide (state ctx = TKIP_STATE_NOT_INIT) then
    tkip_mixing_phase1 tk addr iv32
  else Some ctx.

Definition ieee80211_get_tkip_p1k_iv (conf : ieee80211_key_conf) (addr : list Z)
    (ctx : tkip_ctx) (iv32 : Z) : option (tkip_ctx * p1k_t) :=
  ctx ← ieee80211_compute_tkip_p1k conf addr ctx iv32;
  Some (ctx, p1k ctx).

Definition ieee80211_get_tkip_rx_p1k (conf : ieee80211_key_conf) (ta : list Z) (iv32 : Z)
  : option p1k_t :=
  tk ← tkip_tk conf;
  ctx ← tkip_mixing_phase1 tk ta iv32;
  Some (p1k ctx).

Definition ieee80211_get_tkip_p2k (conf : ieee80211_key_conf) (addr : list Z) (ctx : tkip_ctx)
    (frame : list Z) : option (tkip_ctx * list Z) :=
  tk ← tkip_tk conf;
  fc ← hdr_frame_control frame;
  let data := ieee80211_hdrlen fc in
  iv32 ← rd_le32 frame (data + 4);
  d2 ← rd8 frame (data + 2);
  d0 ← rd8 frame data;
  let iv16 := u16 (d2 .| (d0 << 8)) in
  ctx ← ieee80211_compute_tkip_p1k conf addr ctx iv32;
  p2k ← tkip_mixing_phase2 tk ctx iv16;
  Some (ctx, p2k).

Definition TKIP_DECRYPT_OK : Z := 0.
Definition TKIP_DECRYPT_NO_EXT_IV : Z := -1.
Definition TKIP_DECRYPT_INVALID_KEYIDX : Z := -2.
Definition TKIP_DECRYPT_REPLAY : Z := -3.

(** The replay test against a receive context. *)
Definition tkip_replay (rx : tkip_ctx_rx) (iv32 iv16 : Z) : bool :=
  (iv32 <? rx_iv32 rx) ||
  ((iv32 =? rx_iv32 rx) &&
   ((iv16 <? rx_iv16 rx) ||
    ((iv16 =? rx_iv16 rx) &&
     (nz (rx_iv32 rx) || nz (rx_iv16 rx) ||
      negb (bool_decide (state (rx_ctx rx) = TKIP_STATE_NOT_INIT)))))).

(** The driver side of a key: whether the driver has [update_tkip_key] and
    the key is uploaded to hardware. *)
Record tkip_hw := mk_tkip_hw { has_update_tkip_key : bool; uploaded_to_hardware : bool }.

(** [drv_update_tkip_key(..., iv32, p1k)]. *)
Inductive drv_call := Drv_update_tkip_key (iv32 : Z) (p : p1k_t).

(** What [ieee80211_tkip_decrypt_data] leaves behind: its result, the receive
    context, the payload, the IV reported to the caller, and driver calls. *)
Record tkip_rx_out := mk_tkip_rx_out {
  out_res : Z;
  out_rx : tkip_ctx_rx;
  out_payload : list Z;
  out_iv : option (Z * Z);
  out_drv : list drv_call;
}.

Section tkip.
Context `{Arc4} `{Crc32}.

(** [payload] points into the frame the key stream is derived from; it is
    the memory from there to the end of the frame. *)
Definition ieee80211_tkip_encrypt_data (conf : ieee80211_key_conf) (addr : list Z)
    (ctx : tkip_ctx) (frame payload : list Z) (payload_len : Z) : option (tkip_ctx * list Z) :=
  '(ctx, rc4key) ← ieee80211_get_tkip_p2k conf addr ctx frame;
  payload ← ieee80211_wep_encrypt_data rc4key payload payload_len;
  Some (ctx, payload).

Definition set_state (ctx : tkip_ctx) (s : tkip_state) : tkip_ctx :=
  mk_tkip_ctx (p1k ctx) (p1k_iv32 ctx) s.
Definition set_rx_ctx (rx : tkip_ctx_rx) (ctx : tkip_ctx) : tkip_ctx_rx :=
  mk_tkip_ctx_rx ctx (rx_iv32 rx) (rx_iv16 rx).

Definition ieee80211_tkip_decrypt_data (conf : ieee80211_key_conf) (hw : tkip_hw)
    (rx : tkip_ctx_rx) (payload : list Z) (payload_len : Z) (ta : list Z) (only_iv : bool)
  : option tkip_rx_out :=
  tk ← tkip_tk conf;
  if payload_len <? 12 then Some (mk_tkip_rx_out (-1) rx payload None [])
  else
    b0 ← rd8 payload 0;
    b2 ← rd8 payload 2;
    let iv16 := (b0 << 8) .| b2 in
    keyid ← rd8 payload 3;
    iv32 ← rd_le32 payload 4;
    if negb (nz (keyid .& (1 << 5))) then
      Some (mk_tkip_rx_out TKIP_DECRYPT_NO_EXT_IV rx payload None [])
    else if negb (keyid >> 6 =? keyidx conf) then
      Some (mk_tkip_rx_out TKIP_DECRYPT_INVALID_KEYIDX rx payload None [])
    else if tkip_replay rx iv32 iv16 then
      Some (mk_tkip_rx_out TKIP_DECRYPT_REPLAY rx payload None [])
    else if only_iv then
      Some (mk_tkip_rx_out TKIP_DECRYPT_OK
              (set_rx_ctx rx (set_state (rx_ctx rx) TKIP_STATE_PHASE1_HW_UPLOADED))
              payload (Some (iv32, iv16)) [])
    else
      ctx ← (if bool_decide (state (rx_ctx rx) = TKIP_STATE_NOT_INIT) || negb (rx_iv32 rx =? iv32)
             then tkip_mixing_phase1 tk ta iv32 else Some (rx_ctx rx));
      let upload := has_update_tkip_key hw && uploaded_to_hardware hw &&
        negb (bool_decide (state ctx = TKIP_STATE_PHASE1_HW_UPLOADED)) in
      let drv := if upload then [Drv_update_tkip_key iv32 (p1k ctx)] else [] in
      let ctx := if upload then set_state ctx TKIP_STATE_PHASE1_HW_UPLOADED else ctx in
      rc4key ← tkip_mixing_phase2 tk ctx iv16;
      '(res, payload) ← at_offset payload 8 (fun b =>
                          ieee80211_wep_decrypt_data rc4key b (payload_len - 12));
      Some (mk_tkip_rx_out res (set_rx_ctx rx ctx) payload
              (if res =? TKIP_DECRYPT_OK then Some (iv32, iv16) else None) drv).

End tkip.

(** ** The S-box table *)

(** AES arithmetic in GF(2^8) modulo x^8+x^4+x^3+x+1. *)
Definition xtime (a : Z) : Z := u8 (a << 1) .^ (if Z.testbit a 7 then 0x1b else 0).

Fixpoint gf_mul_bits (n : nat) (a b : Z) : Z :=
  match n with
  | O => 0
  | S n => (if Z.odd b then a else 0) .^ gf_mul_bits n (xtime a) (Z.div2 b)
  end.
Definition gf_mul (a b : Z) : Z := gf_mul_bits 8 a b.

(** The inverse is the 254th power: 2 + 4 + ... + 128. *)
Fixpoint gf_inv_loop (n : nat) (sq acc : Z) : Z :=
  match n with
  | O => acc
  | S n => gf_inv_loop n (gf_mul sq sq) (gf_mul acc sq)
  end.
Definition gf_inv (a : Z) : Z := gf_inv_loop 7 (gf_mul a a) 1.

Definition rotl8 (x n : Z) : Z := u8 (x << n) .| (x >> (8 - n)).
Definition aes_sbox (x : Z) : Z :=
  let b := gf_inv x in
  b .^ rotl8 b 1 .^ rotl8 b 2 .^ rotl8 b 3 .^ rotl8 b 4 .^ 0x63.

Lemma forallb_range (P : Z -> bool) n :
  forallb P (map Z.of_nat (seq 0 n)) = true -> forall x, 0 <= x < Z.of_nat n -> P x = true.
Proof.
  intros H x Hx. rewrite forallb_forall in H. apply H. apply in_map_iff.
  exists (Z.to_nat x). split; [lia|]. apply in_seq. lia.
Qed.

Lemma tkip_sbox_aes_check :
  forallb (fun x => tkip_sbox_at x =? (gf_mul 2 (aes_sbox x) << 8) .| gf_mul 3 (aes_sbox x))
    (map Z.of_nat (seq 0 256)) = true.
Proof. vm_compute. reflexivity. Qed.

Lemma tkip_sbox_at_ok i : is_uint 16 (tkip_sbox_at i).
Proof.
  unfold tkip_sbox_at. assert (Forall (is_uint 16) tkip_sbox) as H.
  { apply (bool_decide_unpack _). by vm_compute. }
  destruct (decide (Z.to_nat i < length tkip_sbox)%nat) as [Hi|Hi].
  - rewrite Forall_forall in H. apply H, list_elem_of_In, nth_In. done.
  - rewrite nth_overflow by lia. done.
Qed.

(** A 16-bit argument indexes inside the table. *)
Lemma tkipS_bounds val :
  is_uint 16 val -> 0 <= val .& 0xff < zlen tkip_sbox /\ 0 <= val >> 8 < zlen tkip_sbox.
Proof.
  intros Hv. change (zlen tkip_sbox) with 256. split.
  - pose proof (land_le val 0xff). lia.
  - apply (shiftr_is_uint 16 8); [lia|done].
Qed.

(** ** The IV *)

Lemma tkip_iv16_split v : is_uint 16 v -> (u8 (v >> 8) << 8) .| u8 (v .& 0xFF) = v.
Proof.
  intros Hv. rewrite <- (byte_split_join v Hv) at 3. rewrite Z.lor_comm. f_equal.
  change 0xFF with (Z.ones 8). rewrite <- wrap_land_ones, wrap_wrap by lia. done.
Qed.

Lemma ext_iv_bit k : 0 <= k < 4 ->
  nz (u8 ((k << 6) .| (1 << 5)) .& (1 << 5)) = true /\ u8 ((k << 6) .| (1 << 5)) >> 6 = k.
Proof.
  intros Hk. assert (k = 0 \/ k = 1 \/ k = 2 \/ k = 3) as [->|[->|[->| ->]]] by lia; done.
Qed.

Lemma pn_split pn : 0 <= pn ->
  (TKIP_PN_TO_IV32 pn << 16) .| TKIP_PN_TO_IV16 pn = pn mod 2 ^ 48.
Proof.
  intros Hpn. unfold TKIP_PN_TO_IV32, TKIP_PN_TO_IV16.
  change 0xffffffff with (Z.ones 32). change 0xffff with (Z.ones 16).
  rewrite <- !wrap_land_ones, !wrap_wrap by lia. change (pn mod 2 ^ 48) with (wrap 48 pn).
  apply Z.bits_inj'; intros i Hi. rewrite Z.lor_spec, !wrap_testbit by lia.
  destruct (decide (i < 16)).
  - rewrite Z.shiftl_spec_low by lia. repeat zcase; lia || btauto.
  - rewrite Z.shiftl_spec, wrap_testbit, Z.shiftr_spec by lia.
    replace (i - 16 + 16) with i by lia. repeat zcase; lia || btauto.
Qed.

Lemma write_tkip_iv_not_weak iv16 keylen rest :
  exists b0 b1 b2, write_tkip_iv iv16 ++ rest = b0 :: b1 :: b2 :: rest /\
    Z.testbit b1 5 = true /\ Z.testbit b1 7 = false /\
    ieee80211_wep_weak_iv ((b0 << 16) .| (b1 << 8) .| b2) keylen = false.
Proof.
  do 3 eexists. split; [reflexivity|].
  set (b1 := u8 (((iv16 >> 8) .| 0x20) .& 0x7f)).
  assert (Z.testbit b1 5 = true) as H5.
  { unfold b1. rewrite wrap_testbit, Z.land_spec, Z.lor_spec by lia.
    change (Z.testbit 32 5) with true. rewrite orb_true_r. done. }
  assert (Z.testbit b1 7 = false) as H7.
  { unfold b1. rewrite wrap_testbit, Z.land_spec by lia.
    change (Z.testbit 127 7) with false. rewrite andb_false_r. done. }
  split; [done|]. split; [done|]. unfold ieee80211_wep_weak_iv.
  destruct (Z.eqb_spec (((u8 (iv16 >> 8) << 16 .| (b1 << 8)) .| u8 (iv16 .& 255)) .& 0xff00) 0xff00) as [H|]; [|done].
  exfalso. apply (f_equal (fun z => Z.testbit z 15)) in H.
  rewrite Z.land_spec, !Z.lor_spec, !Z.shiftl_spec in H by lia.
  change (15 - 8) with 7 in H. rewrite H7 in H. change (Z.testbit 65280 15) with true in H.
  rewrite Z.testbit_neg_r in H by lia. rewrite (uint_testbit_high 8) in H by (by apply wrap_is_uint || lia).
  discriminate.
Qed.

(** ** Totality of the mixing functions *)

Lemma phase1_loop_total tk i n p : zlen tk = 16 -> exists p', phase1_loop tk i n p = Some p'.
Proof.
  intros Hk. revert i p. induction n as [|n IH]; intros i p; [by eexists|]. cbn [phase1_loop].
  unfold phase1_round. assert (0 <= i .& 1 <= 1) as Hi by (apply land_le; lia).
  destruct (rd_le16_Some tk (0 + 2 * (i .& 1))) as [? ->]; [lia..|].
  destruct (rd_le16_Some tk (4 + 2 * (i .& 1))) as [? ->]; [lia..|].
  destruct (rd_le16_Some tk (8 + 2 * (i .& 1))) as [? ->]; [lia..|].
  destruct (rd_le16_Some tk (12 + 2 * (i .& 1))) as [? ->]; [lia..|].
  cbn [mbind option_bind]. apply IH.
Qed.

Lemma phase1_total tk ta iv32 :
  zlen tk = 16 -> zlen ta = 6 ->
  exists ctx, tkip_mixing_phase1 tk ta iv32 = Some ctx /\
    p1k_iv32 ctx = iv32 /\ state ctx = TKIP_STATE_PHASE1_DONE.
Proof.
  intros Hk Ha. unfold tkip_mixing_phase1.
  destruct (rd_le16_Some ta 0) as [? ->]; [lia..|].
  destruct (rd_le16_Some ta 2) as [? ->]; [lia..|].
  destruct (rd_le16_Some ta 4) as [? ->]; [lia..|]. cbn [mbind option_bind].
  destruct (phase1_loop_total tk 0 (Z.to_nat PHASE1_LOOP_COUNT)
    (mk_p1k (u16 (iv32 .& 65535)) (u16 (iv32 >> 16)) x x0 x1)) as [p ->]; [done|].
  eexists. split; [reflexivity|done].
Qed.

Lemma phase2_total tk ctx iv16 :
  zlen tk = 16 -> exists k, tkip_mixing_phase2 tk ctx iv16 = Some k /\ length k = 16%nat /\
    take 3 k = write_tkip_iv iv16.
Proof.
  intros Hk. unfold tkip_mixing_phase2.
  destruct (rd_le16_Some tk 0) as [? ->]; [lia..|]. destruct (rd_le16_Some tk 2) as [? ->]; [lia..|].
  destruct (rd_le16_Some tk 4) as [? ->]; [lia..|]. destruct (rd_le16_Some tk 6) as [? ->]; [lia..|].
  destruct (rd_le16_Some tk 8) as [? ->]; [lia..|]. destruct (rd_le16_Some tk 10) as [? ->]; [lia..|].
  destruct (rd_le16_Some tk 12) as [? ->]; [lia..|]. destruct (rd_le16_Some tk 14) as [? ->]; [lia..|].
  cbn [mbind option_bind]. eexists. split; [reflexivity|done].
Qed.

(** Phase 2 only depends on the phase 1 key. *)
Lemma phase2_p1k tk ctx ctx' iv16 :
  p1k ctx = p1k ctx' -> tkip_mixing_phase2 tk ctx iv16 = tkip_mixing_phase2 tk ctx' iv16.
Proof. intros E. unfold tkip_mixing_phase2. by rewrite E. Qed.

(** ** The transmit cache *)

Section tx_cache.
Context (conf : ieee80211_key_conf) (addr : list Z).

(** What a key derivation without any cache gives. *)
Definition tkip_p2k_spec (frame : list Z) : option (list Z) :=
  tk ← tkip_tk conf;
  fc ← hdr_frame_control frame;
  let data := ieee80211_hdrlen fc in
  iv32 ← rd_le32 frame (data + 4);
  d2 ← rd8 frame (data + 2);
  d0 ← rd8 frame data;
  ctx ← tkip_mixing_phase1 tk addr iv32;
  tkip_mixing_phase2 tk ctx (u16 (d2 .| (d0 << 8))).

(** The transmit contexts the code can reach from a fresh key. *)
Inductive tx_reachable : tkip_ctx -> Prop :=
| tx_init ctx : state ctx = TKIP_STATE_NOT_INIT -> tx_reachable ctx
| tx_get_p1k ctx iv32 ctx' p :
    tx_reachable ctx -> ieee80211_get_tkip_p1k_iv conf addr ctx iv32 = Some (ctx', p) ->
    tx_reachable ctx'
| tx_get_p2k ctx frame ctx' k :
    tx_reachable ctx -> ieee80211_get_tkip_p2k conf addr ctx frame = Some (ctx', k) ->
    tx_reachable ctx'.

(** A cached P1K is the phase 1 key for its recorded iv32. *)
Definition tx_coherent (ctx : tkip_ctx) : Prop :=
  state ctx = TKIP_STATE_NOT_INIT \/
  exists tk, tkip_tk conf = Some tk /\ tkip_mixing_phase1 tk addr (p1k_iv32 ctx) = Some ctx.

Lemma phase1_iv32 tk ta iv32 ctx :
  tkip_mixing_phase1 tk ta iv32 = Some ctx -> p1k_iv32 ctx = iv32.
Proof.
  unfold tkip_mixing_phase1. intros H.
  destruct (rd_le16 ta 0); [|done]; destruct (rd_le16 ta 2); [|done];
    destruct (rd_le16 ta 4); [|done]; cbn [mbind option_bind] in H.
  destruct (phase1_loop _ _ _ _); [|done]. by injection H as <-.
Qed.

Lemma compute_p1k_coherent ctx iv32 :
  tx_coherent ctx ->
  ieee80211_compute_tkip_p1k conf addr ctx iv32 =
    (tk ← tkip_tk conf; tkip_mixing_phase1 tk addr iv32).
Proof.
  intros Hc. unfold ieee80211_compute_tkip_p1k. destruct (tkip_tk conf) as [tk|] eqn:E; [|done].
  cbn [mbind option_bind]. destruct (Z.eqb_spec (p1k_iv32 ctx) iv32) as [<-|]; [|done].
  destruct Hc as [-> | (tk' & E' & H)]; [done|]. rewrite E in E'. injection E' as <-. cbn [negb orb].
  case_bool_decide; congruence.
Qed.

Lemma compute_p1k_preserves ctx iv32 ctx' :
  tx_coherent ctx -> ieee80211_compute_tkip_p1k conf addr ctx iv32 = Some ctx' -> tx_coherent ctx'.
Proof.
  intros Hc. rewrite compute_p1k_coherent by done.
  destruct (tkip_tk conf) as [tk|] eqn:E; [|done]. cbn [mbind option_bind]. intros H.
  right. exists tk. split; [done|]. by rewrite (phase1_iv32 _ _ _ _ H).
Qed.

Lemma tx_reachable_coherent ctx : tx_reachable ctx -> tx_coherent ctx.
Proof.
  induction 1 as [ctx H|ctx iv32 ctx' p _ IH H|ctx frame ctx' k _ IH H]; [by left| |].
  - unfold ieee80211_get_tkip_p1k_iv in H.
    destruct (ieee80211_compute_tkip_p1k _ _ _ _) eqn:E; [|done]. injection H as <- <-.
    by eapply compute_p1k_preserves.
  - unfold ieee80211_get_tkip_p2k in H.
    obind H. injection H as <- <-.
    by eapply compute_p1k_preserves.
Qed.

Lemma get_p2k_coherent ctx frame :
  tx_coherent ctx ->
  (snd <$> ieee80211_get_tkip_p2k conf addr ctx frame) = tkip_p2k_spec frame.
Proof.
  intros Hc. unfold ieee80211_get_tkip_p2k, tkip_p2k_spec.
  destruct (tkip_tk conf) as [tk|] eqn:Ek; [|done]; cbn [mbind option_bind].
  destruct (hdr_frame_control frame) as [fc|]; [|done]; cbn [mbind option_bind].
  destruct (rd_le32 frame (ieee80211_hdrlen fc + 4)) as [iv32|]; [|done]; cbn [mbind option_bind].
  destruct (rd8 frame (ieee80211_hdrlen fc + 2)); [|done]; cbn [mbind option_bind].
  destruct (rd8 frame (ieee80211_hdrlen fc)); [|done]; cbn [mbind option_bind].
  rewrite compute_p1k_coherent by done. rewrite Ek. cbn [mbind option_bind].
  destruct (tkip_mixing_phase1 _ _ _); [|done]; cbn [mbind option_bind].
  by destruct (tkip_mixing_phase2 _ _ _).
Qed.
End tx_cache.

(** ** The receive path *)

Section receive.
Context `{Arc4Laws} `{Crc32}.

(** The IV fields of a payload, as the code extracts them. *)
Definition tkip_iv_of (payload : list Z) : option (Z * Z * Z) :=
  b0 ← rd8 payload 0;
  b2 ← rd8 payload 2;
  keyid ← rd8 payload 3;
  iv32 ← rd_le32 payload 4;
  Some (iv32, (b0 << 8) .| b2, keyid).

(** The phase 1 context the receive path uses for [iv32]. *)
Definition tkip_rx_phase1 (tk ta : list Z) (rx : tkip_ctx_rx) (iv32 : Z) : option tkip_ctx :=
  if bool_decide (state (rx_ctx rx) = TKIP_STATE_NOT_INIT) || negb (rx_iv32 rx =? iv32)
  then tkip_mixing_phase1 tk ta iv32 else Some (rx_ctx rx).

(** A frame whose fields pass the checks is decrypted with the phase 2 key of
    that context. *)
Lemma tkip_decrypt_data_run conf hw rx payload n ta iv32 iv16 keyid tk ctx k res payload' :
  tkip_tk conf = Some tk -> 12 <= n -> tkip_iv_of payload = Some (iv32, iv16, keyid) ->
  nz (keyid .& (1 << 5)) = true -> keyid >> 6 = keyidx conf -> tkip_replay rx iv32 iv16 = false ->
  tkip_rx_phase1 tk ta rx iv32 = Some ctx -> tkip_mixing_phase2 tk ctx iv16 = Some k ->
  at_offset payload 8 (fun b => ieee80211_wep_decrypt_data k b (n - 12)) = Some (res, payload') ->
  exists out, ieee80211_tkip_decrypt_data conf hw rx payload n ta false = Some out /\
    out_res out = res /\ out_payload out = payload' /\
    out_iv out = (if res =? 0 then Some (iv32, iv16) else None) /\
    p1k (rx_ctx (out_rx out)) = p1k ctx /\
    (state ctx <> TKIP_STATE_NOT_INIT -> state (rx_ctx (out_rx out)) <> TKIP_STATE_NOT_INIT) /\
    rx_iv32 (out_rx out) = rx_iv32 rx /\ rx_iv16 (out_rx out) = rx_iv16 rx.
Proof.
  intros Htk Hn Hiv He Hi Hr Hp Hk Hd. unfold ieee80211_tkip_decrypt_data. rewrite Htk.
  cbn [mbind option_bind]. destruct (Z.ltb_spec n 12); [lia|].
  unfold tkip_iv_of in Hiv. obind Hiv. injection Hiv as -> <- ->.
  cbn [mbind option_bind]. rewrite He, Hi, Z.eqb_refl, Hr. cbn [negb].
  unfold tkip_rx_phase1 in Hp. rewrite Hp. cbn [mbind option_bind].
  destruct (_ && _); [rewrite (phase2_p1k tk (set_state ctx _) ctx) by done|];
    rewrite Hk; cbn [mbind option_bind]; rewrite Hd;
    cbn [mbind option_bind]; eexists; (split; [reflexivity|]); split_and!; done.
Qed.

(** The IV bytes of a frame read back as its packet number. *)
Lemma tkip_iv_of_add_iv conf pn rest :
  0 <= keyidx conf < 4 ->
  exists keyid, tkip_iv_of (ieee80211_tkip_add_iv conf pn ++ rest) =
    Some (TKIP_PN_TO_IV32 pn, TKIP_PN_TO_IV16 pn, keyid) /\
    nz (keyid .& (1 << 5)) = true /\ keyid >> 6 = keyidx conf.
Proof.
  intros Hk. destruct (ext_iv_bit _ Hk) as [Hb Hs]. eexists. split; [|split; [exact Hb|exact Hs]].
  unfold tkip_iv_of, ieee80211_tkip_add_iv. rewrite <- !app_assoc.
  set (v := TKIP_PN_TO_IV16 pn).
  replace (rd_le32 _ 4) with (rd_le32 (le32_bytes (TKIP_PN_TO_IV32 pn) ++ rest) 0) by done.
  rewrite rd_le32_bytes by (by apply wrap_is_uint).
  replace (rd8 _ 0) with (Some (u8 (v >> 8))) by done.
  replace (rd8 _ 2) with (Some (u8 (v .& 0xFF))) by done.
  replace (rd8 _ 3) with (Some (u8 ((keyidx conf << 6) .| (1 << 5)))) by done.
  cbn [mbind option_bind]. rewrite tkip_iv16_split by (by apply wrap_is_uint). done.
Qed.

Lemma at_offset_decrypt pre text k :
  at_offset (pre ++ wep_ciphertext k text) (zlen pre)
    (fun b => ieee80211_wep_decrypt_data k b (zlen text)) =
  Some (0, pre ++ text ++ wep_icv text).
Proof.
  apply at_offset_app; [by apply wep_decrypt_data_eq|].
  by rewrite wep_ciphertext_length, length_app.
Qed.
End receive.

Section lemmas.
Context `{Arc4Laws} `{Crc32}.

(** The receive context would be given the right P1K for [iv32]. *)
Definition tkip_rx_coherent (tk ta : list Z) (rx : tkip_ctx_rx) (iv32 : Z) : Prop :=
  exists ctx ctx', tkip_mixing_phase1 tk ta iv32 = Some ctx /\
    tkip_rx_phase1 tk ta rx iv32 = Some ctx' /\ p1k ctx' = p1k ctx.

Lemma tkip_p2k_spec_frame conf addr hdr pn rest fc tk ctx :
  tkip_tk conf = Some tk -> hdr_frame_control hdr = Some fc -> zlen hdr = ieee80211_hdrlen fc ->
  tkip_mixing_phase1 tk addr (TKIP_PN_TO_IV32 pn) = Some ctx ->
  hdr_frame_control (hdr ++ ieee80211_tkip_add_iv conf pn ++ rest) = Some fc ->
  tkip_p2k_spec conf addr (hdr ++ ieee80211_tkip_add_iv conf pn ++ rest) =
    tkip_mixing_phase2 tk ctx (TKIP_PN_TO_IV16 pn).
Proof.
  intros Htk _ Hl Hp Hfc. unfold tkip_p2k_spec. rewrite Htk, Hfc. cbn [mbind option_bind].
  rewrite <- Hl. set (v := TKIP_PN_TO_IV16 pn).
  assert (rd_le32 (hdr ++ ieee80211_tkip_add_iv conf pn ++ rest) (zlen hdr + 4) =
    Some (TKIP_PN_TO_IV32 pn)) as ->.
  { rewrite rd_le32_app_r by lia. unfold ieee80211_tkip_add_iv. rewrite <- !app_assoc.
    replace (rd_le32 _ 4) with (rd_le32 (le32_bytes (TKIP_PN_TO_IV32 pn) ++ rest) 0) by done.
    by rewrite rd_le32_bytes by (by apply wrap_is_uint). }
  rewrite rd8_app_r by lia. replace (rd8 _ 2) with (Some (u8 (v .& 0xFF))) by done.
  rewrite <- (Z.add_0_r (zlen hdr)), rd8_app_r by lia.
  replace (rd8 _ 0) with (Some (u8 (v >> 8))) by done. cbn [mbind option_bind].
  rewrite Hp. cbn [mbind option_bind]. rewrite Z.lor_comm.
  assert (is_uint 16 v) by (by apply wrap_is_uint). rewrite tkip_iv16_split by done.
  by rewrite (wrap_small 16 v).
Qed.

(** What encryption under [pn] produces, in terms of the uncached keys. *)
Lemma tkip_encrypt_data_eq conf addr ctx tk hdr fc pn text pad c k :
  tx_reachable conf addr ctx -> tkip_tk conf = Some tk -> zlen hdr = ieee80211_hdrlen fc ->
  (forall l, hdr_frame_control (hdr ++ l) = Some fc) -> length pad = 4%nat ->
  tkip_mixing_phase1 tk addr (TKIP_PN_TO_IV32 pn) = Some c ->
  tkip_mixing_phase2 tk c (TKIP_PN_TO_IV16 pn) = Some k ->
  exists ctx', ieee80211_tkip_encrypt_data conf addr ctx
      (hdr ++ ieee80211_tkip_add_iv conf pn ++ text ++ pad) (text ++ pad) (zlen text) =
    Some (ctx', wep_ciphertext k text).
Proof.
  intros Hr Htk Hl Hfc Hpad Hc Hk2.
  pose proof (get_p2k_coherent conf addr ctx (hdr ++ ieee80211_tkip_add_iv conf pn ++ text ++ pad)
    (tx_reachable_coherent _ _ _ Hr)) as Hg.
  rewrite (tkip_p2k_spec_frame conf addr hdr pn _ fc tk c) in Hg; [|done| |done..].
  - rewrite Hk2 in Hg. unfold ieee80211_tkip_encrypt_data.
    destruct (ieee80211_get_tkip_p2k _ _ _ _) as [[ctx' k']|]; [|discriminate Hg].
    cbn in Hg. injection Hg as ->. cbn [mbind option_bind]. exists ctx'.
    by rewrite wep_encrypt_data_eq.
  - specialize (Hfc []). by rewrite app_nil_r in Hfc.
Qed.

(** Decryption of a frame that is not a replay, under a coherent context. *)
Lemma tkip_decrypt_data_eq conf addr tk pn text hw rx c k :
  tkip_tk conf = Some tk -> 0 <= keyidx conf < 4 ->
  tkip_replay rx (TKIP_PN_TO_IV32 pn) (TKIP_PN_TO_IV16 pn) = false ->
  tkip_rx_coherent tk addr rx (TKIP_PN_TO_IV32 pn) ->
  tkip_mixing_phase1 tk addr (TKIP_PN_TO_IV32 pn) = Some c ->
  tkip_mixing_phase2 tk c (TKIP_PN_TO_IV16 pn) = Some k ->
  exists out,
    ieee80211_tkip_decrypt_data conf hw rx
      (ieee80211_tkip_add_iv conf pn ++ wep_ciphertext k text)
      (zlen (ieee80211_tkip_add_iv conf pn ++ wep_ciphertext k text)) addr false = Some out /\
    out_res out = TKIP_DECRYPT_OK /\
    out_payload out = ieee80211_tkip_add_iv conf pn ++ text ++ wep_icv text /\
    out_iv out = Some (TKIP_PN_TO_IV32 pn, TKIP_PN_TO_IV16 pn).
Proof.
  intros Htk Hi Hnr (c0 & c' & Hc0 & Hc' & Ec) Hc Hk2. rewrite Hc0 in Hc. injection Hc as ->.
  destruct (tkip_iv_of_add_iv conf pn (wep_ciphertext k text) Hi) as (keyid & Hiv & Hx & Hid).
  assert (zlen (ieee80211_tkip_add_iv conf pn) = 8) as E8 by done.
  assert (zlen (wep_ciphertext k text) = zlen text + 4) as Ect.
  { unfold zlen. rewrite wep_ciphertext_length. lia. }
  pose proof (zlen_nonneg text).
  edestruct (tkip_decrypt_data_run conf hw rx (ieee80211_tkip_add_iv conf pn ++ wep_ciphertext k text)
    (zlen (ieee80211_tkip_add_iv conf pn ++ wep_ciphertext k text)) addr (TKIP_PN_TO_IV32 pn)
    (TKIP_PN_TO_IV16 pn) keyid tk c' k 0
    (ieee80211_tkip_add_iv conf pn ++ text ++ wep_icv text)) as (out & Ho & Ho1 & Ho2 & Ho3 & _);
    [done|zlens; lia|exact Hiv|done..|by rewrite (phase2_p1k tk c' c)| |].
  { rewrite zlen_app, E8, Ect. replace (8 + (zlen text + 4) - 12) with (zlen text) by lia.
    rewrite <- E8. apply at_offset_decrypt. }
  exists out. done.
Qed.
End lemmas.

(** ** Properties *)

(** Every entry of the S-box table is the column (2·S(x), 3·S(x)) of the
    AES S-box S, computed from inversion in GF(2^8) and the affine map. *)
Theorem tkip_sbox_is_aes x :
  0 <= x < 256 ->
  tkip_sbox_at x = (gf_mul 2 (aes_sbox x) << 8) .| gf_mul 3 (aes_sbox x).
Proof.
  intros Hx. apply Z.eqb_eq. revert x Hx. apply (forallb_range _ 256), tkip_sbox_aes_check.
Qed.

Lemma tkip_sbox_is_aes_witness :
  tkip_sbox_at 0x53 = (gf_mul 2 (aes_sbox 0x53) << 8) .| gf_mul 3 (aes_sbox 0x53).
Proof. apply (tkip_sbox_is_aes 0x53). lia. Defined.

(** The transmit cache is transparent.  In any context the code can
    reach, however the queries for P1K and P2K with different iv32 interleave,
    the RC4 key of a frame is the one derived from scratch by both phases. *)
Theorem tkip_tx_p2k_correct conf addr ctx frame :
  tx_reachable conf addr ctx ->
  (snd <$> ieee80211_get_tkip_p2k conf addr ctx frame) = tkip_p2k_spec conf addr frame.
Proof. intros Hr. by apply get_p2k_coherent, tx_reachable_coherent. Qed.

Lemma tkip_tx_p2k_correct_witness :
  let conf := mk_key_conf 0 32 0 WLAN_CIPHER_SUITE_TKIP (replicate 32 0x11) in
  let ctx := mk_tkip_ctx (mk_p1k 1 2 3 4 5) 7 TKIP_STATE_NOT_INIT in
  let frame := [0x08; 0x41; 0; 0] ++ replicate 20 9 ++ [0; 0x20; 1; 0x20; 7; 0; 0; 0] in
  (snd <$> ieee80211_get_tkip_p2k conf [1; 2; 3; 4; 5; 6] ctx frame) =
    tkip_p2k_spec conf [1; 2; 3; 4; 5; 6] frame.
Proof. intros conf ctx frame. apply tkip_tx_p2k_correct. by apply tx_init. Defined.

Section properties.
Context `{Arc4Laws} `{Crc32}.

(** TKIP data encryption and decryption are inverse.  A payload encrypted
    under packet number [pn] is accepted by a receiver whose counter is
    behind it, decrypts to the same payload, and reports [pn]'s IV. *)
Theorem tkip_data_roundtrip conf addr ctx tk hdr fc pn text pad hw rx :
  tx_reachable conf addr ctx -> tkip_tk conf = Some tk -> zlen addr = 6 ->
  0 <= keyidx conf < 4 -> zlen hdr = ieee80211_hdrlen fc ->
  (forall l, hdr_frame_control (hdr ++ l) = Some fc) -> length pad = 4%nat ->
  tkip_replay rx (TKIP_PN_TO_IV32 pn) (TKIP_PN_TO_IV16 pn) = false ->
  tkip_rx_coherent tk addr rx (TKIP_PN_TO_IV32 pn) ->
  exists ctx' ct out,
    ieee80211_tkip_encrypt_data conf addr ctx
      (hdr ++ ieee80211_tkip_add_iv conf pn ++ text ++ pad) (text ++ pad) (zlen text) =
      Some (ctx', ct) /\
    ieee80211_tkip_decrypt_data conf hw rx (ieee80211_tkip_add_iv conf pn ++ ct)
      (zlen (ieee80211_tkip_add_iv conf pn ++ ct)) addr false = Some out /\
    out_res out = TKIP_DECRYPT_OK /\
    out_payload out = ieee80211_tkip_add_iv conf pn ++ text ++ wep_icv text /\
    out_iv out = Some (TKIP_PN_TO_IV32 pn, TKIP_PN_TO_IV16 pn).
Proof.
  intros Hr Htk Ha Hi Hl Hfc Hpad Hnr Hco.
  assert (zlen tk = 16) as Hk by (by apply slice_Some in Htk as (? & ? & _ & _ & ?)).
  destruct (phase1_total tk addr (TKIP_PN_TO_IV32 pn) Hk Ha) as (c & Hc & _).
  destruct (phase2_total tk c (TKIP_PN_TO_IV16 pn) Hk) as (k & Hk2 & _).
  destruct (tkip_encrypt_data_eq conf addr ctx tk hdr fc pn text pad c k) as [ctx' He]; [done..|].
  destruct (tkip_decrypt_data_eq conf addr tk pn text hw rx c k) as (out & Ho & Hout); [done..|].
  by exists ctx', (wep_ciphertext k text), out.
Qed.

(** A forged frame poisons the receive phase 1 key.  The receive path
    decides whether to run phase 1 by comparing with the last validated iv32
    instead of the iv32 the cached P1K was computed for.  After one forged
    frame with a higher iv32 [B], which fails its ICV, the genuine frames at
    the current iv32 are decrypted with the phase 1 key of [B]. *)
Theorem tkip_rx_stale_p1k conf hw rx tk ta forged n B iv16 keyid cB k res payload' :
  tkip_tk conf = Some tk -> state (rx_ctx rx) <> TKIP_STATE_NOT_INIT ->
  12 <= n -> tkip_iv_of forged = Some (B, iv16, keyid) -> rx_iv32 rx < B ->
  nz (keyid .& (1 << 5)) = true -> keyid >> 6 = keyidx conf ->
  tkip_mixing_phase1 tk ta B = Some cB -> tkip_mixing_phase2 tk cB iv16 = Some k ->
  at_offset forged 8 (fun b => ieee80211_wep_decrypt_data k b (n - 12)) = Some (res, payload') ->
  res <> 0 ->
  exists out, ieee80211_tkip_decrypt_data conf hw rx forged n ta false = Some out /\
    out_res out <> TKIP_DECRYPT_OK /\ out_iv out = None /\
    rx_iv32 (out_rx out) = rx_iv32 rx /\
    (forall iv16', exists ctx, tkip_rx_phase1 tk ta (out_rx out) (rx_iv32 rx) = Some ctx /\
       tkip_mixing_phase2 tk ctx iv16' = tkip_mixing_phase2 tk cB iv16').
Proof.
  intros Htk Hs Hn Hiv HB He Hi Hp Hk Hd Hres.
  assert (state cB <> TKIP_STATE_NOT_INIT) as HsB.
  { unfold tkip_mixing_phase1 in Hp. obind Hp. by injection Hp as <-. }
  destruct (tkip_decrypt_data_run conf hw rx forged n ta B iv16 keyid tk cB k res payload')
    as (out & Ho & Q1 & Q2 & Q3 & Q4 & Q5 & Q6 & Q7); try done.
  - unfold tkip_replay. destruct (Z.ltb_spec B (rx_iv32 rx)); [lia|].
    destruct (Z.eqb_spec B (rx_iv32 rx)); [lia|done].
  - unfold tkip_rx_phase1. destruct (Z.eqb_spec (rx_iv32 rx) B); [lia|].
    by rewrite orb_true_r.
  - exists out. split; [done|]. rewrite Q1, Q3. destruct (Z.eqb_spec res 0); [lia|].
    split_and!; [done..|]. intros iv16'. exists (rx_ctx (out_rx out)). split.
    + unfold tkip_rx_phase1. rewrite Q6, Z.eqb_refl, bool_decide_false by auto. done.
    + by apply phase2_p1k.
Qed.
End properties.

(** ** The hypotheses hold on concrete frames *)

Section witness.
#[local] Existing Instances Sample.arc4 Sample.crc32 Sample.arc4_laws.

Let conf : ieee80211_key_conf := mk_key_conf 1 32 0 WLAN_CIPHER_SUITE_TKIP (replicate 32 0x2b).
Let tk : list Z := replicate 16 0x2b.
Let addr : list Z := [2; 0; 0; 1; 2; 3].
Let ctx0 : tkip_ctx := mk_tkip_ctx (mk_p1k 0 0 0 0 0) 0 TKIP_STATE_NOT_INIT.
Let rx0 : tkip_ctx_rx := mk_tkip_ctx_rx ctx0 0 0.
Let hdr : list Z := [0x08; 0x41; 0; 0] ++ replicate 20 9.
Let pn : Z := 0x300007.
Let text : list Z := [0xaa; 0xaa; 3; 0].
Let hw : tkip_hw := mk_tkip_hw true true.

Lemma tkip_data_roundtrip_witness :
  exists ctx' ct out,
    ieee80211_tkip_encrypt_data conf addr ctx0
      (hdr ++ ieee80211_tkip_add_iv conf pn ++ text ++ [0; 0; 0; 0]) (text ++ [0; 0; 0; 0]) 4 =
      Some (ctx', ct) /\
    ieee80211_tkip_decrypt_data conf hw rx0 (ieee80211_tkip_add_iv conf pn ++ ct)
      (zlen (ieee80211_tkip_add_iv conf pn ++ ct)) addr false = Some out /\
    out_res out = TKIP_DECRYPT_OK /\
    out_payload out = ieee80211_tkip_add_iv conf pn ++ text ++ wep_icv text /\
    out_iv out = Some (0x30, 7).
Proof.
  refine (tkip_data_roundtrip conf addr ctx0 tk hdr 0x4108 pn text [0; 0; 0; 0] hw rx0
    _ _ _ _ _ _ _ _ _); try done; [by apply tx_init|].
  unfold tkip_rx_coherent. vm_compute. do 2 eexists. split; [reflexivity|]. split; reflexivity.
Defined.

Let rx1 : tkip_ctx_rx :=
  mk_tkip_ctx_rx (mk_tkip_ctx (mk_p1k 1 2 3 4 5) 3 TKIP_STATE_PHASE1_DONE) 3 9.
Let forged : list Z := ieee80211_tkip_add_iv conf (5 * 65536 + 1) ++ replicate 12 0.

Lemma tkip_rx_stale_p1k_witness :
  exists cB out, ieee80211_tkip_decrypt_data conf hw rx1 forged 20 addr false = Some out /\
    out_res out <> TKIP_DECRYPT_OK /\ out_iv out = None /\
    rx_iv32 (out_rx out) = 3 /\
    (forall iv16', exists ctx, tkip_rx_phase1 tk addr (out_rx out) 3 = Some ctx /\
       tkip_mixing_phase2 tk ctx iv16' = tkip_mixing_phase2 tk cB iv16').
Proof.
  destruct (tkip_mixing_phase1 tk addr 5) as [cB|] eqn:EB; [|by vm_compute in EB].
  exists cB. vm_compute in EB. injection EB as <-.
  eapply (tkip_rx_stale_p1k conf hw rx1 tk addr forged 20 5 1 0x60); try (vm_compute; reflexivity);
    vm_compute; done.
Defined.
End witness.
