(* ===== verification/TkipFrame.v ===== *)
(** * TkipFrame: the TKIP transmit and receive handlers

    Models the TKIP part of [net/mac80211/wpa.c]: the Michael MIC handlers and
    the frame-level encryption and decryption, on top of [Michael] and
    [Tkip].  Notable state: the key's transmit packet number, its per-queue
    receive contexts and its count of MIC failures. *)
From Stdlib Require Import Sorting.Sorted.
From S2P Require Import Prelude Frame Skb Key Michael Wep Tkip.

(** [struct ieee80211_key] of a TKIP key. *)
Record tkip_key := mk_tkip_key {
  conf : ieee80211_key_conf;
  hw : tkip_hw;
  vif_addr : list Z;
  tx : tkip_ctx;
  rx : list tkip_ctx_rx;        (* indexed by queue *)
  mic_failures : Z;
  tx_pn : Z;
}.

Definition set_tx (k : tkip_key) (c : tkip_ctx) (pn : Z) : tkip_key :=
  mk_tkip_key (conf k) (hw k) (vif_addr k) c (rx k) (mic_failures k) pn.
Definition set_rx (k : tkip_key) (q : Z) (c : tkip_ctx_rx) : tkip_key :=
  mk_tkip_key (conf k) (hw k) (vif_addr k) (tx k) (<[Z.to_nat q := c]> (rx k)) (mic_failures k)
    (tx_pn k).
Definition set_mic_failures (k : tkip_key) (n : Z) : tkip_key :=
  mk_tkip_key (conf k) (hw k) (vif_addr k) (tx k) (rx k) n (tx_pn k).

(** [key->u.tkip.rx[queue]]. *)
Definition rx_queue (k : tkip_key) (q : Z) : option tkip_ctx_rx :=
  if q <? 0 then None else rx k !! Z.to_nat q.

(** The fields of [struct ieee80211_rx_data] and of the frame's status the
    handlers use; [rx_tkip] is [rx->tkip], [sta] the transmitter's address. *)
Record rx_data := mk_rx_data {
  status_flag : Z;
  rx_key : option tkip_key;
  security_idx : Z;
  vif_is_ap : bool;
  sta : option (list Z);
  rx_tkip : Z * Z;
}.

Definition set_rx_key (r : rx_data) (k : tkip_key) : rx_data :=
  mk_rx_data (status_flag r) (Some k) (security_idx r) (vif_is_ap r) (sta r) (rx_tkip r).

(** [cfg80211_michael_mic_failure(dev, addr2, group ?, keyidx or -1)]. *)
Inductive mic_report := Michael_mic_failure (addr2 : list Z) (group : bool) (keyidx : Z).

Section tkip_handlers.
Context `{Arc4} `{Crc32} `{SkbAlloc}.

(** Returns the result, the possibly cleared [info->control.hw_key], and the
    buffer. *)
Definition ieee80211_tx_h_michael_mic_add (key_ : option ieee80211_key_conf) (hw_key : option Z)
    (info_flags : Z) (supports_tx_frag : bool) (skb : sk_buff)
  : option (tx_result * option Z * sk_buff) :=
  match key_ with
  | None => Some (TX_CONTINUE, hw_key, skb)
  | Some kc =>
      if negb (cipher kc =? WLAN_CIPHER_SUITE_TKIP) || (skb_len skb <? 24) then
        Some (TX_CONTINUE, hw_key, skb)
      else
        fc ← hdr_frame_control (data skb);
        if negb (ieee80211_is_data_present fc) then Some (TX_CONTINUE, hw_key, skb)
        else
          let hdrlen := ieee80211_hdrlen fc in
          if skb_len skb <? hdrlen then Some (TX_DROP, hw_key, skb)
          else
            let mic_failure := flag_set info_flags IEEE80211_TX_INTFL_TKIP_MIC_FAILURE in
            let hw_key := if mic_failure then None else hw_key in
            let hwaccel := match hw_key with Some _ => true | None => false end in
            if hwaccel && (flag_set info_flags IEEE80211_TX_CTL_DONTFRAG || supports_tx_frag) &&
               negb (flag_set (flags kc) (IEEE80211_KEY_FLAG_GENERATE_MMIC .|
                                          IEEE80211_KEY_FLAG_PUT_MIC_SPACE))
            then Some (TX_CONTINUE, hw_key, skb)
            else
              let tail := if hwaccel then MICHAEL_MIC_LEN
                          else MICHAEL_MIC_LEN + IEEE80211_TKIP_ICV_LEN in
              let '(r, skb) := ieee80211_crypto_tx_tailroom skb tail in
              if nz r then Some (TX_DROP, hw_key, skb)
              else if skb_headroom skb <? IEEE80211_TKIP_IV_LEN then Some (TX_DROP, hw_key, skb)
              else
                let data_len := skb_len skb - hdrlen in
                let mic_off := skb_len skb in
                skb ← skb_put skb MICHAEL_MIC_LEN;
                if flag_set (flags kc) IEEE80211_KEY_FLAG_PUT_MIC_SPACE then
                  d ← store (data skb) mic_off (replicate 8 0);
                  Some (TX_CONTINUE, hw_key, set_data skb d)
                else
                  k ← slice (key kc) NL80211_TKIP_DATA_OFFSET_TX_MIC_KEY 8;
                  body ← slice (data skb) hdrlen data_len;
                  mic ← michael_mic k (data skb) body data_len;
                  let mic := if mic_failure then
                               match mic with m0 :: m => u8 (m0 + 1) :: m | [] => [] end
                             else mic in
                  d ← store (data skb) mic_off mic;
                  Some (TX_CONTINUE, hw_key, set_data skb d)
  end.

(** The two failure exits of the verify handler. *)
Definition mic_fail_no_key (r : rx_data) (skb : sk_buff)
  : option (rx_result * rx_data * sk_buff * list mic_report) :=
  addr2 ← slice (data skb) ADDR2 ETH_ALEN;
  a1 ← rd8 (data skb) ADDR1;
  let kidx := match rx_key r with Some k => keyidx (conf k) | None => -1 end in
  Some (RX_DROP_U_MMIC_FAIL, r, skb, [Michael_mic_failure addr2 (is_multicast_ether_addr a1) kidx]).

Definition mic_fail (r : rx_data) (k : tkip_key) (skb : sk_buff) :=
  mic_fail_no_key (set_rx_key r (set_mic_failures k (u32 (mic_failures k + 1)))) skb.

(** The exit [update_iv]. *)
Definition update_iv (r : rx_data) (k : tkip_key) : option rx_data :=
  c ← rx_queue k (security_idx r);
  Some (set_rx_key r (set_rx k (security_idx r)
    (mk_tkip_ctx_rx (rx_ctx c) (fst (rx_tkip r)) (snd (rx_tkip r))))).

Definition ieee80211_rx_h_michael_mic_verify (r : rx_data) (skb : sk_buff)
  : option (rx_result * rx_data * sk_buff * list mic_report) :=
  fc ← hdr_frame_control (data skb);
  let flag := status_flag r in
  let tkip_conf := match rx_key r with
                   | Some k => cipher (conf k) =? WLAN_CIPHER_SUITE_TKIP | None => false end in
  if negb (ieee80211_is_data_present fc) then Some (RX_CONTINUE, r, skb, [])
  else if flag_set flag (RX_FLAG_MMIC_STRIPPED .| RX_FLAG_IV_STRIPPED) then
    if flag_set flag RX_FLAG_MMIC_ERROR then mic_fail_no_key r skb
    else match rx_key r with
         | Some k =>
             if negb (flag_set flag RX_FLAG_IV_STRIPPED) && tkip_conf then
               r ← update_iv r k; Some (RX_CONTINUE, r, skb, [])
             else Some (RX_CONTINUE, r, skb, [])
         | None => Some (RX_CONTINUE, r, skb, [])
         end
  else
    match rx_key r with
    | None => Some (RX_CONTINUE, r, skb, [])
    | Some k =>
        if negb tkip_conf || negb (flag_set flag RX_FLAG_DECRYPTED) then
          Some (RX_CONTINUE, r, skb, [])
        else if vif_is_ap r && nz (keyidx (conf k)) then
          Some (RX_DROP_U_AP_RX_GROUPCAST, r, skb, [])
        else if flag_set flag RX_FLAG_MMIC_ERROR then mic_fail r k skb
        else
          let hdrlen := ieee80211_hdrlen fc in
          if skb_len skb <? hdrlen + MICHAEL_MIC_LEN then Some (RX_DROP_U_SHORT_MMIC, r, skb, [])
          else
            let data_len := skb_len skb - hdrlen - MICHAEL_MIC_LEN in
            body ← slice (data skb) hdrlen data_len;
            mkey ← slice (key (conf k)) NL80211_TKIP_DATA_OFFSET_RX_MIC_KEY 8;
            mic ← michael_mic mkey (data skb) body data_len;
            sent ← slice (data skb) (hdrlen + data_len) MICHAEL_MIC_LEN;
            if negb (bool_decide (mic = sent)) then mic_fail r k skb
            else
              let skb := skb_trim skb (skb_len skb - MICHAEL_MIC_LEN) in
              r ← update_iv r k;
              Some (RX_CONTINUE, r, skb, [])
    end.

(** [tx_pn] is an atomic64: the increment wraps at 64 bits. *)
Definition tkip_encrypt_skb (k : tkip_key) (ts : tx_skb) : option (Z * tkip_key * tx_skb) :=
  let '(hw_key, skb) := ts in
  let hwaccel := match hw_key with Some _ => true | None => false end in
  if hwaccel && negb (hw_key_flag hw_key IEEE80211_KEY_FLAG_GENERATE_IV) &&
     negb (hw_key_flag hw_key IEEE80211_KEY_FLAG_PUT_IV_SPACE)
  then Some (0, k, (hw_key, skb))
  else
    fc ← hdr_frame_control (data skb);
    let hdrlen := ieee80211_hdrlen fc in
    let len := skb_len skb - hdrlen in
    let tail := if hwaccel then 0 else IEEE80211_TKIP_ICV_LEN in
    let '(r, skb) := ieee80211_crypto_tx_tailroom skb tail in
    if nz r then Some (-1, k, (hw_key, skb))
    else if skb_headroom skb <? IEEE80211_TKIP_IV_LEN then Some (-1, k, (hw_key, skb))
    else
      skb ← (s ← skb_push skb IEEE80211_TKIP_IV_LEN;
             d ← memmove (data s) 0 IEEE80211_TKIP_IV_LEN hdrlen;
             Some (set_data s d));
      if hw_key_flag hw_key IEEE80211_KEY_FLAG_PUT_IV_SPACE then Some (0, k, (hw_key, skb))
      else
        let pn := u64 (tx_pn k + 1) in
        let k := set_tx k (tx k) pn in
        d ← store (data skb) hdrlen (ieee80211_tkip_add_iv (conf k) pn);
        let skb := set_data skb d in
        if hwaccel then Some (0, k, (hw_key, skb))
        else
          skb ← skb_put skb IEEE80211_TKIP_ICV_LEN;
          '(ctx, d) ← at_offset (data skb) (hdrlen + IEEE80211_TKIP_IV_LEN) (fun b =>
            ieee80211_tkip_encrypt_data (conf k) (vif_addr k) (tx k) (data skb) b len);
          Some (0, set_tx k ctx pn, (hw_key, set_data skb d)).

Definition ieee80211_crypto_tkip_encrypt (k : tkip_key) (skbs : list tx_skb)
  : option (tx_result * tkip_key * list tx_skb) :=
  skbs ← ieee80211_tx_set_protected skbs;
  tx_walk tkip_encrypt_skb k skbs.

(** [skb->len - hdrlen] is computed in [unsigned int]. *)
Definition ieee80211_crypto_tkip_decrypt (r : rx_data) (k : tkip_key) (skb : sk_buff)
  : option (rx_result * rx_data * sk_buff * list drv_call) :=
  fc ← hdr_frame_control (data skb);
  let hdrlen := ieee80211_hdrlen fc in
  if negb (ieee80211_is_data fc) then Some (RX_CONTINUE, r, skb, [])
  else
    match sta r with
    | None => Some (RX_DROP_U_SHORT_TKIP, r, skb, [])
    | Some sta_addr =>
        if u32 (skb_len skb - hdrlen) <? 12 then Some (RX_DROP_U_SHORT_TKIP, r, skb, [])
        else
          let hwaccel := flag_set (status_flag r) RX_FLAG_DECRYPTED in
          c ← rx_queue k (security_idx r);
          payload ← slice (data skb) hdrlen (skb_len skb - hdrlen);
          out ← ieee80211_tkip_decrypt_data (conf k) (hw k) c payload (skb_len skb - hdrlen)
                  sta_addr hwaccel;
          d ← store (data skb) hdrlen (out_payload out);
          let skb := set_data skb d in
          let k := set_rx k (security_idx r) (out_rx out) in
          let r := mk_rx_data (status_flag r) (Some k) (security_idx r) (vif_is_ap r) (sta r)
                     (default (rx_tkip r) (out_iv out)) in
          if negb (out_res out =? TKIP_DECRYPT_OK) then Some (RX_DROP_U_TKIP_FAIL, r, skb, out_drv out)
          else
            let skb := if flag_set (status_flag r) RX_FLAG_ICV_STRIPPED then skb
                       else skb_trim skb (skb_len skb - IEEE80211_TKIP_ICV_LEN) in
            d ← memmove (data skb) IEEE80211_TKIP_IV_LEN 0 hdrlen;
            skb ← skb_pull (set_data skb d) IEEE80211_TKIP_IV_LEN;
            Some (RX_CONTINUE, r, skb, out_drv out)
    end.

(** The receive path of an unfragmented frame: the decrypt handler, the
    marking of the frame as decrypted by [ieee80211_rx_h_decrypt]
    ([net/mac80211/rx.c]), the MIC handler. *)
Definition set_decrypted (r : rx_data) : rx_data :=
  mk_rx_data (status_flag r .| RX_FLAG_DECRYPTED) (rx_key r) (security_idx r) (vif_is_ap r) (sta r)
    (rx_tkip r).

Definition tkip_rx_frame (r : rx_data) (k : tkip_key) (skb : sk_buff)
  : option (rx_result * rx_data * sk_buff) :=
  '(res, r, skb, _) ← ieee80211_crypto_tkip_decrypt r k skb;
  if negb (bool_decide (res = RX_CONTINUE)) then Some (res, r, skb)
  else
    '(res, r, skb, _) ← ieee80211_rx_h_michael_mic_verify (set_decrypted r) skb;
    Some (res, r, skb).

(** A sequence of frames received on one queue, none of them touched by the
    hardware.  The result is the key and the sequence counters of the data
    frames delivered, in order. *)
Fixpoint tkip_rx_run (q : Z) (ap : bool) (addr : list Z) (k : tkip_key) (skbs : list sk_buff)
  : option (tkip_key * list (Z * Z)) :=
  match skbs with
  | [] => Some (k, [])
  | skb :: skbs =>
      fc ← hdr_frame_control (data skb);
      '(res, r, _) ← tkip_rx_frame (mk_rx_data 0 (Some k) q ap (Some addr) (0, 0)) k skb;
      k ← rx_key r;
      '(k, l) ← tkip_rx_run q ap addr k skbs;
      Some (k, if bool_decide (res = RX_CONTINUE) && ieee80211_is_data_present fc
               then rx_tkip r :: l else l)
  end.

End tkip_handlers.

(** ** The handlers on a well-formed frame *)

Section lemmas.
Context `{Arc4Laws} `{Crc32} `{SkbAllocLaws}.

(** A data frame with a body: [hdr] is its whole header. *)
Definition data_frame (hdr : list Z) (fc : Z) : Prop :=
  (forall l, hdr_frame_control (hdr ++ l) = Some fc) /\ is_uint 16 fc /\
  ieee80211_is_data_present fc = true /\ zlen hdr = ieee80211_hdrlen fc.

Lemma data_present_protected fc :
  ieee80211_is_data_present (fc .| IEEE80211_FCTL_PROTECTED) = ieee80211_is_data_present fc.
Proof. unfold ieee80211_is_data_present. fc_away. Qed.

Definition tx_mic_key (kc : ieee80211_key_conf) : option (list Z) :=
  slice (key kc) NL80211_TKIP_DATA_OFFSET_TX_MIC_KEY 8.
Definition rx_mic_key (kc : ieee80211_key_conf) : option (list Z) :=
  slice (key kc) NL80211_TKIP_DATA_OFFSET_RX_MIC_KEY 8.

(** The MIC of a body under a MIC key: the digest of the specification. *)
Definition tkip_mic (mk hdr body : list Z) : option (list Z) :=
  c ← michael_mic_hdr mk hdr; Some (michael_digest (michael_spec c body)).

Lemma tkip_mic_length mk hdr body mic : tkip_mic mk hdr body = Some mic -> length mic = 8%nat.
Proof. unfold tkip_mic. intros Hm. obind Hm. by injection Hm as <-. Qed.

Lemma same_header_app hdr fc l l' :
  (forall l, hdr_frame_control (hdr ++ l) = Some fc) -> zlen hdr = ieee80211_hdrlen fc ->
  same_header (hdr ++ l) (hdr ++ l') fc.
Proof.
  intros Hf Hl. split; [done|]. split; [by left|].
  intros k Hk. rewrite !rd8_app_l by lia. done.
Qed.

Lemma mic_add_eq kc skb skb1 hdr body fc mk mic :
  data_frame hdr fc -> data skb = hdr ++ body -> bytes_ok body ->
  cipher kc = WLAN_CIPHER_SUITE_TKIP -> flag_set (flags kc) IEEE80211_KEY_FLAG_PUT_MIC_SPACE = false ->
  IEEE80211_TKIP_IV_LEN <= skb_headroom skb ->
  ieee80211_crypto_tx_tailroom skb 12 = (0, skb1) ->
  tx_mic_key kc = Some mk -> tkip_mic mk hdr body = Some mic -> 24 <= zlen hdr ->
  exists t, ieee80211_tx_h_michael_mic_add (Some kc) None 0 false skb =
      Some (TX_CONTINUE, None, mk_skb (head skb) (hdr ++ body ++ mic) t false) /\ 4 <= zlen t.
Proof.
  intros (Hfc & Hu & Hp & Hl) Hd Hok Hc Hput Hh Ht Hmk Hmic H24.
  destruct (crypto_tx_tailroom_ok skb 12 skb1) as (E1 & E2 & E3); [lia|done|].
  assert (cloned skb1 = false) as E4 by (by apply (crypto_tx_tailroom_unclones skb 12)).
  pose proof (tkip_mic_length _ _ _ _ Hmic) as Hml.
  destruct (split_at (tail skb1) 8) as (t8 & t & Et & Ht8); [unfold skb_tailroom in E3; lia|].
  exists t. unfold ieee80211_tx_h_michael_mic_add. rewrite Hc. cbn [Z.eqb negb orb].
  rewrite Z.eqb_refl. cbn [negb orb]. unfold skb_len at 1. rewrite Hd. zlens.
  pose proof (zlen_nonneg body). destruct (Z.ltb_spec (zlen hdr + zlen body) 24); [lia|].
  rewrite Hfc. cbn [mbind option_bind]. rewrite Hp. cbn [negb]. rewrite <- Hl.
  unfold skb_len at 1. rewrite Hd, zlen_app. zcase; [lia|].
  assert (forall f, flag_set 0 f = false) as Hf0 by done. rewrite !Hf0. cbn [andb].
  change (MICHAEL_MIC_LEN + IEEE80211_TKIP_ICV_LEN) with 12. rewrite Ht. cbn [nz negb Z.eqb].
  unfold skb_headroom in *. rewrite E1. destruct (Z.ltb_spec (zlen (head skb)) IEEE80211_TKIP_IV_LEN); [lia|].
  unfold skb_len. rewrite E2, Hd, zlen_app. change MICHAEL_MIC_LEN with 8. rewrite <- Ht8 at 1.
  rewrite (skb_put_app _ t8 t) by done. cbn [mbind option_bind data]. rewrite Hput, E2, Hd.
  unfold tx_mic_key in Hmk. rewrite Hmk. cbn [mbind option_bind].
  replace (zlen hdr + zlen body - zlen hdr) with (zlen body) by lia.
  rewrite <- !app_assoc, slice_app by done. cbn [mbind option_bind].
  rewrite michael_mic_eq by done.
  rewrite (michael_mic_hdr_same mk (hdr ++ body ++ t8) (hdr ++ []) fc);
    [|by apply data_present_is_data|by apply same_header_app].
  rewrite app_nil_r. unfold tkip_mic in Hmic. rewrite Hmic. cbn [mbind option_bind].
  assert (zlen t = zlen (tail skb1) - 8) as Hzt by (rewrite Et; zlens; lia).
  rewrite app_assoc, <- (app_nil_r t8), <- zlen_app, store_app, app_nil_r;
    [|rewrite Hml; unfold zlen in Ht8; lia].
  cbn [mbind option_bind set_data head tail cloned]. rewrite E1, E4, <- app_assoc.
  split; [unfold set_data; cbn [head tail cloned]; by rewrite app_nil_r, <- app_assoc|]. unfold skb_tailroom in E3. lia.
Qed.

Lemma tkip_encrypt_skb_eq k skb hdr text fc pre h8 tk c kk :
  data skb = hdr ++ text -> (forall l, hdr_frame_control (hdr ++ l) = Some fc) ->
  zlen hdr = ieee80211_hdrlen fc -> head skb = pre ++ h8 -> zlen h8 = 8 ->
  4 <= zlen (tail skb) -> cloned skb = false ->
  tx_reachable (conf k) (vif_addr k) (tx k) -> tkip_tk (conf k) = Some tk ->
  tkip_mixing_phase1 tk (vif_addr k) (TKIP_PN_TO_IV32 (u64 (tx_pn k + 1))) = Some c ->
  tkip_mixing_phase2 tk c (TKIP_PN_TO_IV16 (u64 (tx_pn k + 1))) = Some kk ->
  exists k' skb', tkip_encrypt_skb k (None, skb) = Some (0, k', (None, skb')) /\
    data skb' = hdr ++ ieee80211_tkip_add_iv (conf k) (u64 (tx_pn k + 1)) ++ wep_ciphertext kk text /\
    tx_pn k' = u64 (tx_pn k + 1).
Proof.
  intros Hd Hfc Hl Hh H8 Ht Hc Hr Htk Hp1 Hp2. unfold tkip_encrypt_skb. cbn [andb].
  rewrite Hd, Hfc. cbn [mbind option_bind]. rewrite <- Hl.
  rewrite crypto_tx_tailroom_have by (unfold skb_tailroom; done). cbn [nz negb Z.eqb].
  unfold skb_headroom. rewrite Hh. zlens. pose proof (zlen_nonneg pre).
  destruct (Z.ltb_spec (zlen pre + zlen h8) IEEE80211_TKIP_IV_LEN); [unfold IEEE80211_TKIP_IV_LEN in *; lia|].
  destruct (push_header_gap skb pre h8 hdr text IEEE80211_TKIP_IV_LEN) as (gap & Hg & ->); [done..|].
  cbn [mbind option_bind hw_key_flag data]. set (pn := u64 (tx_pn k + 1)) in *.
  rewrite store_app by (unfold zlen in H8; rewrite Hg; change (length (ieee80211_tkip_add_iv _ _)) with 8%nat; lia).
  cbn [mbind option_bind]. destruct (split_at (tail skb) 4) as (t4 & t & Et & Ht4); [lia|].
  unfold set_data at 1. cbn [head data tail cloned conf set_tx vif_addr tx].
  rewrite (skb_put_at _ t4 t) by done. cbn [mbind option_bind]. unfold set_data. cbn [data head tail cloned].
  rewrite <- !app_assoc, (app_assoc hdr).
  unfold skb_len. rewrite Hd, zlen_app. replace (zlen hdr + zlen text - zlen hdr) with (zlen text) by lia.
  replace (zlen hdr + IEEE80211_TKIP_IV_LEN) with (zlen (hdr ++ ieee80211_tkip_add_iv (conf k) pn))
    by (zlens; done).
  destruct (tkip_encrypt_data_eq (conf k) (vif_addr k) (tx k) tk hdr fc pn text t4 c kk) as [ctx' He];
    [done..|unfold zlen in Ht4; lia|done|done|].
  erewrite at_offset_app; cycle 1.
  - rewrite <- app_assoc. exact He.
  - rewrite wep_ciphertext_length, length_app. unfold zlen in Ht4. lia.
  - cbn [mbind option_bind]. do 2 eexists. split; [reflexivity|]. cbn [data].
    by rewrite <- app_assoc.
Qed.

Lemma tkip_decrypt_eq r k q skb hdr text fc tk addr pn c kk cx :
  status_flag r = 0 -> security_idx r = q -> sta r = Some addr -> rx_queue k q = Some cx ->
  data skb = hdr ++ ieee80211_tkip_add_iv (conf k) pn ++ wep_ciphertext kk text ->
  (forall l, hdr_frame_control (hdr ++ l) = Some fc) -> ieee80211_is_data fc = true ->
  zlen hdr = ieee80211_hdrlen fc -> skb_len skb < 2 ^ 32 ->
  tkip_tk (conf k) = Some tk -> 0 <= keyidx (conf k) < 4 ->
  tkip_replay cx (TKIP_PN_TO_IV32 pn) (TKIP_PN_TO_IV16 pn) = false ->
  tkip_rx_coherent tk addr cx (TKIP_PN_TO_IV32 pn) ->
  tkip_mixing_phase1 tk addr (TKIP_PN_TO_IV32 pn) = Some c ->
  tkip_mixing_phase2 tk c (TKIP_PN_TO_IV16 pn) = Some kk ->
  exists cx' skb' drv, ieee80211_crypto_tkip_decrypt r k skb =
    Some (RX_CONTINUE,
      mk_rx_data 0 (Some (set_rx k q cx')) q (vif_is_ap r) (Some addr)
        (TKIP_PN_TO_IV32 pn, TKIP_PN_TO_IV16 pn), skb', drv) /\
    data skb' = hdr ++ text.
Proof.
  intros Hflag Hq Hs Hcx Hd Hfc Hdt Hl H32 Htk Hi Hnr Hco Hp1 Hp2.
  unfold ieee80211_crypto_tkip_decrypt. rewrite Hs, Hflag, Hq, Hcx.
  assert (zlen (wep_ciphertext kk text) = zlen text + 4) as Ect.
  { unfold zlen. rewrite wep_ciphertext_length. lia. }
  pose proof (zlen_nonneg text). pose proof (zlen_nonneg hdr).
  set (iv := ieee80211_tkip_add_iv (conf k) pn) in *. assert (zlen iv = 8) as E8 by done.
  unfold skb_len in *. rewrite Hd in *. rewrite Hfc. cbn [mbind option_bind]. rewrite Hdt, <- Hl.
  cbn [negb].
  replace (zlen (hdr ++ iv ++ wep_ciphertext kk text) - zlen hdr) with (zlen (iv ++ wep_ciphertext kk text))
    by (zlens; lia).
  rewrite wrap_small by (unfold is_uint; zlens; lia).
  destruct (Z.ltb_spec (zlen (iv ++ wep_ciphertext kk text)) 12); [zlens; lia|].
  replace (flag_set 0 RX_FLAG_DECRYPTED) with false by done.
  rewrite slice_suffix by done.
  cbn [mbind option_bind].
  destruct (tkip_decrypt_data_eq (conf k) addr tk pn text (hw k) cx c kk) as (out & Ho & O1 & O2 & O3);
    [done..|]. fold iv in Ho, O2. rewrite Ho.
  cbn [mbind option_bind]. rewrite O1, O2, O3.
  rewrite store_suffix by (rewrite !length_app, wep_ciphertext_length; done).
  cbn [mbind option_bind default from_option].
  cbn [status_flag id]. replace (flag_set 0 RX_FLAG_ICV_STRIPPED) with false by done.
  change (negb (TKIP_DECRYPT_OK =? TKIP_DECRYPT_OK)) with false. cbv iota.
  cbn [data set_data].
  assert (zlen (wep_icv text) = 4) as Eicv by done.
  rewrite (skb_trim_at _ (hdr ++ iv ++ text) (wep_icv text));
    [|cbn [data set_data]; by rewrite <- !app_assoc|unfold IEEE80211_TKIP_ICV_LEN, skb_len;
      cbn [data set_data]; zlens; lia|lia|unfold IEEE80211_TKIP_ICV_LEN, skb_len;
      cbn [data set_data]; zlens; lia].
  edestruct (pull_header_gap (mk_skb (head skb) (hdr ++ iv ++ text) (wep_icv text ++ tail skb)
    (cloned skb)) hdr iv text IEEE80211_TKIP_IV_LEN) as [g Hg]; [done..|].
  unfold set_data in *. cbn [data head tail cloned] in *.
  destruct (memmove _ _ _ _) as [d|]; [|discriminate Hg]. cbn [mbind option_bind] in *.
  rewrite Hg. cbn [mbind option_bind]. do 3 eexists. split; [reflexivity|done].
Qed.

Lemma rx_queue_set k q c : 0 <= q < zlen (rx k) -> rx_queue (set_rx k q c) q = Some c.
Proof.
  intros Hq. unfold rx_queue, set_rx, zlen in *. cbn [rx]. destruct (Z.ltb_spec q 0); [lia|].
  apply list_lookup_insert_eq. lia.
Qed.

Lemma rx_queue_range k q c : rx_queue k q = Some c -> 0 <= q < zlen (rx k).
Proof.
  unfold rx_queue, zlen. destruct (Z.ltb_spec q 0); [done|]. intros Hlt%lookup_lt_Some. lia.
Qed.

Lemma tkip_mic_protected mk hdr hdr' body fc :
  data_frame hdr fc -> drop 2 hdr' = drop 2 hdr ->
  (forall l, hdr_frame_control (hdr' ++ l) = Some (fc .| IEEE80211_FCTL_PROTECTED)) ->
  tkip_mic mk hdr' body = tkip_mic mk hdr body.
Proof.
  intros (Hfc & _ & Hp & Hl) Hdr Hfc'. unfold tkip_mic.
  rewrite (michael_mic_hdr_same mk hdr hdr' fc); [done|by apply data_present_is_data|].
  specialize (Hfc []). specialize (Hfc' []). rewrite app_nil_r in *.
  split; [done|]. split; [by right|]. intros k Hk. rewrite !rd8_lookup by lia.
  replace (Z.to_nat k) with (2 + (Z.to_nat k - 2))%nat by lia.
  by rewrite <- !lookup_drop, Hdr.
Qed.

Lemma mic_verify_eq r k q skb hdr body fc mk mic cx :
  data_frame hdr fc -> status_flag r = RX_FLAG_DECRYPTED -> rx_key r = Some k ->
  security_idx r = q -> rx_queue k q = Some cx -> (vif_is_ap r = true -> keyidx (conf k) = 0) ->
  cipher (conf k) = WLAN_CIPHER_SUITE_TKIP -> rx_mic_key (conf k) = Some mk ->
  data skb = hdr ++ body ++ mic -> bytes_ok body -> tkip_mic mk hdr body = Some mic ->
  skb_len skb < 2 ^ 32 ->
  exists skb', ieee80211_rx_h_michael_mic_verify r skb =
    Some (RX_CONTINUE,
      set_rx_key r (set_rx k q (mk_tkip_ctx_rx (rx_ctx cx) (fst (rx_tkip r)) (snd (rx_tkip r)))),
      skb', []) /\ data skb' = hdr ++ body.
Proof.
  intros (Hfc & _ & Hp & Hl) Hflag Hk Hq Hcx Hap Hc Hmk Hd Hok Hmic H32.
  pose proof (tkip_mic_length _ _ _ _ Hmic) as Hml. assert (zlen mic = 8) as Ezm by (unfold zlen; lia).
  unfold ieee80211_rx_h_michael_mic_verify. unfold skb_len in *. rewrite Hd in *. rewrite Hfc.
  cbn [mbind option_bind]. rewrite Hp, Hflag, Hk, Hc. cbn [negb].
  replace (flag_set RX_FLAG_DECRYPTED (RX_FLAG_MMIC_STRIPPED .| RX_FLAG_IV_STRIPPED)) with false by done.
  replace (flag_set RX_FLAG_DECRYPTED RX_FLAG_DECRYPTED) with true by done.
  replace (flag_set RX_FLAG_DECRYPTED RX_FLAG_MMIC_ERROR) with false by done.
  rewrite Z.eqb_refl. cbn [negb orb].
  assert (vif_is_ap r && nz (keyidx (conf k)) = false) as ->.
  { destruct (vif_is_ap r); [|done]. by rewrite Hap. }
  rewrite <- Hl. rewrite !zlen_app, Ezm. unfold MICHAEL_MIC_LEN.
  pose proof (zlen_nonneg body). pose proof (zlen_nonneg hdr).
  destruct (Z.ltb_spec (zlen hdr + (zlen body + 8)) (zlen hdr + 8)); [lia|].
  replace (zlen hdr + (zlen body + 8) - zlen hdr - 8) with (zlen body) by lia.
  rewrite slice_app by done. cbn [mbind option_bind]. unfold rx_mic_key in Hmk. rewrite Hmk.
  cbn [mbind option_bind]. rewrite michael_mic_eq by done.
  rewrite (michael_mic_hdr_same mk (hdr ++ body ++ mic) (hdr ++ []) fc);
    [|by apply data_present_is_data|by apply same_header_app].
  rewrite app_nil_r. unfold tkip_mic in Hmic. rewrite Hmic. cbn [mbind option_bind].
  rewrite <- zlen_app, app_assoc, slice_suffix by done. cbn [mbind option_bind].
  rewrite bool_decide_true by done. cbn [negb].
  rewrite (skb_trim_at skb (hdr ++ body) mic);
    [|by rewrite <- app_assoc|zlens; lia|lia|zlens; lia].
  unfold update_iv. rewrite Hq, Hcx. cbn [mbind option_bind]. eexists. split; [reflexivity|done].
Qed.


(** ** Replay *)

Definition tsc_lt (p p' : Z * Z) : Prop := fst p < fst p' \/ (fst p = fst p' /\ snd p < snd p').

Definition refused (c : tkip_ctx_rx) (p : Z * Z) : Prop := tkip_replay c (fst p) (snd p) = true.

(** What the replay test means. *)
Lemma replay_false_spec c iv32 iv16 :
  tkip_replay c iv32 iv16 = false ->
  tsc_lt (rx_iv32 c, rx_iv16 c) (iv32, iv16) \/
  (iv32 = 0 /\ iv16 = 0 /\ rx_iv32 c = 0 /\ rx_iv16 c = 0 /\ state (rx_ctx c) = TKIP_STATE_NOT_INIT).
Proof.
  unfold tkip_replay, tsc_lt, nz. cbn [fst snd].
  repeat (zcase; cbn [andb orb negb]; try done; try (by left; lia)).
  case_bool_decide; [|done]. intros _. right. lia || (split_and!; lia || done).
Qed.

Lemma replay_true_of_lt c p :
  tsc_lt p (rx_iv32 c, rx_iv16 c) -> refused c p.
Proof.
  unfold refused, tkip_replay, tsc_lt. cbn [fst snd]. intros [H'|[E H']].
  - destruct (Z.ltb_spec (fst p) (rx_iv32 c)); [done|lia].
  - rewrite E, Z.ltb_irrefl, Z.eqb_refl. destruct (Z.ltb_spec (snd p) (rx_iv16 c)); [done|lia].
Qed.

Lemma replay_true_of_eq c :
  state (rx_ctx c) <> TKIP_STATE_NOT_INIT -> refused c (rx_iv32 c, rx_iv16 c).
Proof.
  intros Hs. unfold refused, tkip_replay. cbn [fst snd].
  rewrite !Z.ltb_irrefl, !Z.eqb_refl, bool_decide_false by done. cbn [orb andb negb].
  by rewrite orb_true_r.
Qed.

Lemma refused_accept c p iv32 iv16 :
  refused c p -> tkip_replay c iv32 iv16 = false -> tsc_lt p (iv32, iv16).
Proof.
  intros Hp Ha. unfold refused, tkip_replay in *. unfold tsc_lt. cbn [fst snd].
  revert Hp Ha. generalize (nz (rx_iv32 c) || nz (rx_iv16 c)
    || negb (bool_decide (state (rx_ctx c) = TKIP_STATE_NOT_INIT))).
  intros b. repeat (zcase; cbn [andb orb]; try (intros; done || lia)).
  all: destruct b; intros; done || lia.
Qed.

(** A context that keeps the counter and does not forget a first frame
    refuses everything it did. *)
Lemma refused_keep c c' p :
  rx_iv32 c' = rx_iv32 c -> rx_iv16 c' = rx_iv16 c ->
  (state (rx_ctx c) <> TKIP_STATE_NOT_INIT -> state (rx_ctx c') <> TKIP_STATE_NOT_INIT) ->
  refused c p -> refused c' p.
Proof.
  intros E1 E2 Hs. unfold refused, tkip_replay. rewrite E1, E2.
  repeat case_bool_decide; try done; [|tauto].
  repeat (zcase; cbn [andb orb negb]; try done). by rewrite ?orb_true_r.
Qed.

Lemma tkip_decrypt_data_inv cf h c payload n ta hwaccel out :
  ieee80211_tkip_decrypt_data cf h c payload n ta hwaccel = Some out ->
  rx_iv32 (out_rx out) = rx_iv32 c /\ rx_iv16 (out_rx out) = rx_iv16 c /\
  (state (rx_ctx c) <> TKIP_STATE_NOT_INIT ->
   state (rx_ctx (out_rx out)) <> TKIP_STATE_NOT_INIT) /\
  (out_res out = TKIP_DECRYPT_OK -> exists p, out_iv out = Some p /\
     tkip_replay c (fst p) (snd p) = false /\
     state (rx_ctx (out_rx out)) <> TKIP_STATE_NOT_INIT).
Proof.
  unfold ieee80211_tkip_decrypt_data. intros Ho. obind Ho.
  destruct (n <? 12); [by injection Ho as <-|]. obind Ho.
  destruct (negb _); [by injection Ho as <-|]. destruct (negb _); [by injection Ho as <-|].
  destruct (tkip_replay _ _ _) eqn:Er; [by injection Ho as <-|].
  destruct hwaccel.
  { injection Ho as <-. cbn. split_and!; [done..|]. intros _. eexists (_, _). split; [reflexivity|done]. }
  obind Ho.
  match goal with E' : (if _ then _ else _) = Some ?ctx |- _ =>
    assert (state ctx <> TKIP_STATE_NOT_INIT) as Hs end.
  { match goal with E' : (if ?b || _ then _ else _) = Some _ |- _ =>
      destruct b eqn:Eb; cbn [orb] in E'; [|destruct (negb _)] end;
    try (match goal with E' : tkip_mixing_phase1 _ _ _ = Some _ |- _ =>
      unfold tkip_mixing_phase1 in E'; obind E'; injection E' as <-; done end).
    simplify_eq. by apply bool_decide_eq_false in Eb. }
  match type of Ho with (let '(_, _) := ?e in _) = _ => destruct e as [res pl] end.
  injection Ho as <-. cbn.
  destruct (_ && _); cbn; (split_and!; [done..|]); intros ->; eexists (_, _);
    (split; [reflexivity|done]).
Qed.


(** The effect of one handler on a queue's context. *)
Definition kept (c c' : tkip_ctx_rx) : Prop :=
  rx_iv32 c' = rx_iv32 c /\ rx_iv16 c' = rx_iv16 c /\
  (state (rx_ctx c) <> TKIP_STATE_NOT_INIT -> state (rx_ctx c') <> TKIP_STATE_NOT_INIT).

Definition accepted (c c' : tkip_ctx_rx) (p : Z * Z) : Prop :=
  tkip_replay c (fst p) (snd p) = false /\ rx_iv32 c' = fst p /\ rx_iv16 c' = snd p /\
  state (rx_ctx c') <> TKIP_STATE_NOT_INIT.

Lemma tkip_decrypt_inv q ap addr p k skb fc res r skb' drv c :
  rx_queue k q = Some c -> hdr_frame_control (data skb) = Some fc ->
  ieee80211_crypto_tkip_decrypt (mk_rx_data 0 (Some k) q ap (Some addr) p) k skb =
    Some (res, r, skb', drv) ->
  exists k' c' p', r = mk_rx_data 0 (Some k') q ap (Some addr) p' /\
    conf k' = conf k /\ rx_queue k' q = Some c' /\ kept c c' /\
    (res = RX_CONTINUE -> ieee80211_is_data fc = true ->
       hdr_frame_control (data skb') = Some fc /\
       tkip_replay c (fst p') (snd p') = false /\ state (rx_ctx c') <> TKIP_STATE_NOT_INIT) /\
    (ieee80211_is_data fc = false -> skb' = skb).
Proof.
  intros Hc Hfc. unfold ieee80211_crypto_tkip_decrypt. rewrite Hfc.
  cbn [mbind option_bind sta security_idx status_flag vif_is_ap rx_key rx_tkip]. intros Hd.
  assert (kept c c) as Hkc by done.
  destruct (ieee80211_is_data fc) eqn:Edt; cbn [negb] in Hd;
    [|injection Hd as <- <- <- _; exists k, c, p; split_and!; done].
  destruct (_ <? 12); [injection Hd as <- <- <- _; exists k, c, p; split_and!; done|].
  rewrite Hc in Hd. cbn [mbind option_bind] in Hd. obind Hd.
  destruct (tkip_decrypt_data_inv _ _ _ _ _ _ _ _ E0) as (I1 & I2 & I3 & I4).
  pose proof (rx_queue_range _ _ _ Hc) as Hq.
  destruct (negb _) eqn:Er.
  - injection Hd as <- <- <- _. eexists _, (out_rx x0), _. split; [reflexivity|].
    split_and!; first [by apply rx_queue_set|done|intros ->; done].
  - assert (out_res x0 = TKIP_DECRYPT_OK) as Hok by (apply negb_false_iff, Z.eqb_eq in Er; done).
    destruct (I4 Hok) as (p' & Hp & Hr & Hs). obind Hd. injection Hd as <- <- <- _.
    rewrite Hp. eexists _, (out_rx x0), p'. split; [reflexivity|].
    split; [done|]. split; [by apply rx_queue_set|]. split; [done|]. split; [|done].
    intros _ _. split; [|done]. rewrite <- Hfc. symmetry. pose proof (hdrlen_range fc).
    replace (flag_set 0 RX_FLAG_ICV_STRIPPED) with false in * by done.
    apply (same_prefix_frame_control (ieee80211_hdrlen fc)); [lia|].
    eapply same_prefix_trans; [by eapply store_same_prefix|].
    assert (same_prefix (ieee80211_hdrlen fc)
      (data (skb_trim (set_data skb x1) (skb_len (set_data skb x1) - IEEE80211_TKIP_ICV_LEN)))
      (data x3)) as Hpre.
    { apply (pull_same_prefix _ IEEE80211_TKIP_IV_LEN); [done|lia|].
      match goal with E' : memmove _ _ _ _ = Some _ |- _ => rewrite E' end. done. }
    eapply same_prefix_trans; [|exact Hpre].
    apply (trim_same_prefix _ (set_data skb x1)). by destruct Hpre.
Qed.

Lemma mic_verify_inv k q ap addr p skb fc res r skb' ev c :
  rx_queue k q = Some c -> cipher (conf k) = WLAN_CIPHER_SUITE_TKIP ->
  hdr_frame_control (data skb) = Some fc ->
  ieee80211_rx_h_michael_mic_verify
    (set_decrypted (mk_rx_data 0 (Some k) q ap (Some addr) p)) skb = Some (res, r, skb', ev) ->
  exists k' c', rx_key r = Some k' /\ rx_tkip r = p /\ conf k' = conf k /\ rx_queue k' q = Some c' /\
    (if bool_decide (res = RX_CONTINUE) && ieee80211_is_data_present fc
     then rx_iv32 c' = fst p /\ rx_iv16 c' = snd p /\ rx_ctx c' = rx_ctx c
     else kept c c').
Proof.
  intros Hc Hcip Hfc. unfold ieee80211_rx_h_michael_mic_verify, set_decrypted. rewrite Hfc.
  cbn [mbind option_bind sta security_idx status_flag vif_is_ap rx_key rx_tkip].
  change (0 .| RX_FLAG_DECRYPTED) with RX_FLAG_DECRYPTED. intros Hv.
  assert (kept c c) as Hkc by done. pose proof (rx_queue_range _ _ _ Hc) as Hq.
  destruct (ieee80211_is_data_present fc); cbn [negb] in Hv;
    [|injection Hv as <- <- _ _; exists k, c; rewrite andb_false_r; done].
  rewrite Hcip in Hv.
  replace (flag_set RX_FLAG_DECRYPTED (RX_FLAG_MMIC_STRIPPED .| RX_FLAG_IV_STRIPPED)) with false in Hv by done.
  replace (flag_set RX_FLAG_DECRYPTED RX_FLAG_DECRYPTED) with true in Hv by done.
  replace (flag_set RX_FLAG_DECRYPTED RX_FLAG_MMIC_ERROR) with false in Hv by done.
  rewrite Z.eqb_refl in Hv. cbn [negb orb] in Hv.
  destruct (ap && _); [injection Hv as <- <- _ _; by exists k, c|].
  destruct (_ <? _); [injection Hv as <- <- _ _; by exists k, c|].
  obind Hv. destruct (negb _).
  - unfold mic_fail, mic_fail_no_key in Hv. obind Hv. injection Hv as <- <- _ _.
    eexists _, c. split; [reflexivity|]. done.
  - obind Hv. injection Hv as <- <- _ _.
    match goal with E' : update_iv _ _ = Some _ |- _ => unfold update_iv in E';
      cbn [security_idx] in E'; rewrite Hc in E'; cbn [mbind option_bind] in E';
      injection E' as <- end.
    eexists _, _. split; [reflexivity|]. split_and!; [done..|by apply rx_queue_set|done].
Qed.

Lemma tkip_rx_frame_step q ap addr k skb fc res r skb' c :
  rx_queue k q = Some c -> cipher (conf k) = WLAN_CIPHER_SUITE_TKIP ->
  hdr_frame_control (data skb) = Some fc ->
  tkip_rx_frame (mk_rx_data 0 (Some k) q ap (Some addr) (0, 0)) k skb = Some (res, r, skb') ->
  exists k' c', rx_key r = Some k' /\ conf k' = conf k /\ rx_queue k' q = Some c' /\
    (if bool_decide (res = RX_CONTINUE) && ieee80211_is_data_present fc
     then accepted c c' (rx_tkip r) else kept c c').
Proof.
  intros Hc Hcip Hfc Hf. unfold tkip_rx_frame in Hf.
  destruct (ieee80211_crypto_tkip_decrypt _ _ _) as [[[[res1 r1] skb1] drv]|] eqn:Ed; [|discriminate Hf].
  cbn [mbind option_bind] in Hf.
  destruct (tkip_decrypt_inv _ _ _ _ _ _ _ _ _ _ _ _ Hc Hfc Ed) as
    (k1 & c1 & p1 & -> & Hk1 & Hc1 & Hkept & Hok & Hnd).
  case_bool_decide as E1; cbn [negb] in Hf; [|by injection Hf as <- <- _; exists k1, c1;
    rewrite bool_decide_false by done].
  destruct (ieee80211_rx_h_michael_mic_verify _ _) as [[[[res2 r2] skb2] ev]|] eqn:Ev; [|discriminate Hf].
  cbn [mbind option_bind] in Hf. injection Hf as <- <- _.
  assert (hdr_frame_control (data skb1) = Some fc) as Hfc1.
  { destruct (ieee80211_is_data fc) eqn:Edt; [by apply Hok|]. by rewrite Hnd. }
  destruct (mic_verify_inv _ _ _ _ _ _ fc _ _ _ _ _ Hc1 ltac:(by rewrite Hk1) Hfc1 Ev) as
    (k2 & c2 & Hk2 & Hp2 & Hconf & Hc2 & Hres).
  exists k2, c2. split; [done|]. split; [congruence|]. split; [done|].
  destruct (ieee80211_is_data_present fc) eqn:Edp.
  - destruct (Hok E1 (data_present_is_data _ Edp)) as (_ & Hr & Hs).
    destruct (bool_decide (res2 = RX_CONTINUE)); cbn [andb] in *.
    + destruct Hres as (R1 & R2 & R3). unfold accepted. rewrite Hp2, R3. done.
    + unfold kept in *. destruct Hkept as (?&?&?), Hres as (?&?&?). split_and!; [congruence..|auto].
  - rewrite andb_false_r in *. unfold kept in *.
    destruct Hkept as (?&?&?), Hres as (?&?&?). split_and!; [congruence..|auto].
Qed.

Lemma kept_refused c c' p : kept c c' -> refused c p -> refused c' p.
Proof. intros (?&?&?). by apply refused_keep. Qed.

Lemma accepted_refused c c' p p' : accepted c c' p' -> refused c p -> refused c' p.
Proof.
  intros (Ha & E1 & E2 & Hs) Hr. apply replay_true_of_lt. rewrite E1, E2.
  destruct p'. by apply (refused_accept c).
Qed.

(** Everything delivered after a point is newer than everything refused at
    that point, and in order. *)
Lemma tkip_rx_run_sorted q ap addr skbs k k' l c :
  rx_queue k q = Some c -> cipher (conf k) = WLAN_CIPHER_SUITE_TKIP ->
  tkip_rx_run q ap addr k skbs = Some (k', l) ->
  StronglySorted tsc_lt l /\ (forall p, refused c p -> Forall (tsc_lt p) l).
Proof.
  revert k c l. induction skbs as [|skb skbs IH]; intros k c l Hc Hcip Hrun; cbn [tkip_rx_run] in Hrun.
  { injection Hrun as _ <-. split; [constructor|]. intros; constructor. }
  destruct (hdr_frame_control (data skb)) as [fc|] eqn:Hfc; [|discriminate Hrun].
  cbn [mbind option_bind] in Hrun.
  destruct (tkip_rx_frame _ _ _) as [[[res r] skb']|] eqn:Ef; [|discriminate Hrun].
  cbn [mbind option_bind] in Hrun.
  destruct (tkip_rx_frame_step _ _ _ _ _ _ _ _ _ _ Hc Hcip Hfc Ef) as (k1 & c1 & Hk1 & Hconf & Hc1 & Hstep).
  rewrite Hk1 in Hrun. cbn [mbind option_bind] in Hrun.
  destruct (tkip_rx_run q ap addr k1 skbs) as [[k2 l2]|] eqn:Er; [|discriminate Hrun].
  cbn [mbind option_bind] in Hrun. injection Hrun as -> <-.
  destruct (IH k1 c1 l2) as [Hs Hf]; [done|by rewrite Hconf|done|].
  destruct (_ && _).
  - pose proof Hstep as (Ha & E1 & E2 & Hst). split.
    + constructor; [done|]. apply Hf. destruct (rx_tkip r) as [a b]. cbn [fst snd] in *.
      rewrite <- E1, <- E2. by apply replay_true_of_eq.
    + intros p Hp. constructor; [|by apply Hf, (accepted_refused c c1 p (rx_tkip r))].
      destruct (rx_tkip r) as [a b]. by apply (refused_accept c).
  - split; [done|]. intros p Hp. by apply Hf, (kept_refused c c1).
Qed.

End lemmas.

(** ** Properties *)

Section properties.
Context `{Arc4Laws} `{Crc32} `{SkbAllocLaws}.

(** Both ends hold the same TKIP key: same key index and temporal key, and
    the sender's transmit MIC key is the receiver's receive MIC key. *)
Definition tkip_link (ks kr : tkip_key) (tk mk : list Z) : Prop :=
  cipher (conf ks) = WLAN_CIPHER_SUITE_TKIP /\ cipher (conf kr) = WLAN_CIPHER_SUITE_TKIP /\
  keyidx (conf ks) = keyidx (conf kr) /\ 0 <= keyidx (conf kr) < 4 /\
  tkip_tk (conf ks) = Some tk /\ tkip_tk (conf kr) = Some tk /\
  tx_mic_key (conf ks) = Some mk /\ rx_mic_key (conf kr) = Some mk /\
  flag_set (flags (conf ks)) IEEE80211_KEY_FLAG_PUT_MIC_SPACE = false.

(** C28: A data frame through the whole TKIP path.  Sent by the MIC handler
    and the encryption handler, and received by the decryption handler and the
    MIC handler of a station holding the same key whose replay counter is
    behind the sender's packet number, it is delivered with the same body,
    behind the same header with Protected set, and the receiver's counter for
    the queue becomes the packet number used.  The receiver's cached phase 1 key
    must be right for that packet number, if the receiver takes it to be
    ([tkip_rx_coherent]); after a forged frame it may not be, and the frame is
    dropped ([tkip_rx_stale_p1k]). *)
Theorem tkip_end_to_end ks kr tk mk skb skb1 hdr body fc q ap cx :
  let pn := u64 (tx_pn ks + 1) in
  tkip_link ks kr tk mk -> data_frame hdr fc -> data skb = hdr ++ body -> bytes_ok body ->
  24 <= zlen hdr -> IEEE80211_TKIP_IV_LEN <= skb_headroom skb -> skb_len skb + 20 < 2 ^ 32 ->
  ieee80211_crypto_tx_tailroom skb 12 = (0, skb1) ->
  zlen (vif_addr ks) = 6 -> tx_reachable (conf ks) (vif_addr ks) (tx ks) ->
  (ap = true -> keyidx (conf kr) = 0) -> rx_queue kr q = Some cx ->
  tkip_replay cx (TKIP_PN_TO_IV32 pn) (TKIP_PN_TO_IV16 pn) = false ->
  tkip_rx_coherent tk (vif_addr ks) cx (TKIP_PN_TO_IV32 pn) ->
  exists t ks' skb2 r skb3 kr' cx' hdr' skbm,
    skbm = mk_skb (head skb) (hdr ++ body ++ t) (tail skbm) false /\
    ieee80211_tx_h_michael_mic_add (Some (conf ks)) None 0 false skb =
      Some (TX_CONTINUE, None, skbm) /\
    ieee80211_crypto_tkip_encrypt ks [(None, skbm)] = Some (TX_CONTINUE, ks', [(None, skb2)]) /\
    tkip_rx_frame (mk_rx_data 0 (Some kr) q ap (Some (vif_addr ks)) (0, 0)) kr skb2 =
      Some (RX_CONTINUE, r, skb3) /\
    data skb3 = hdr' ++ body /\ drop 2 hdr' = drop 2 hdr /\
    hdr_frame_control (hdr' ++ body) = Some (fc .| IEEE80211_FCTL_PROTECTED) /\
    tx_pn ks' = pn /\ rx_key r = Some kr' /\ rx_queue kr' q = Some cx' /\
    rx_iv32 cx' = TKIP_PN_TO_IV32 pn /\ rx_iv16 cx' = TKIP_PN_TO_IV16 pn.
Proof.
  intros pn (C1 & C2 & Ei & Hi & T1 & T2 & M1 & M2 & Hput) Hdf Hd Hok H24 Hh H32 Ht Ha Hre Hap
    Hcx Hnr Hco. pose proof Hdf as (Hfc & Hu & Hdp & Hl).
  assert (zlen mk = 8) as Hmk by (by apply slice_Some in M1 as (? & ? & _ & _ & ?)).
  assert (zlen tk = 16) as Htk by (by apply slice_Some in T1 as (? & ? & _ & _ & ?)).
  destruct (michael_mic_hdr_total mk hdr fc) as [c0 Hc0];
    [specialize (Hfc []); by rewrite app_nil_r in Hfc; exact Hfc|by apply data_present_is_data|lia|done|].
  assert (tkip_mic mk hdr body = Some (michael_digest (michael_spec c0 body))) as Hmic.
  { unfold tkip_mic. by rewrite Hc0. }
  set (mic := michael_digest _) in *. pose proof (tkip_mic_length _ _ _ _ Hmic) as Hml.
  destruct (mic_add_eq (conf ks) skb skb1 hdr body fc mk mic) as (t & Hadd & Htl); [done..|].
  destruct (set_protected_app hdr (body ++ mic) fc) as (hdr' & Hprot & [Hlen Hdrop] & Hfc');
    [specialize (Hfc []); by rewrite app_nil_r in Hfc; exact Hfc|done|].
  assert (zlen hdr' = zlen hdr) as Ez by (unfold zlen; lia).
  destruct (phase1_total tk (vif_addr ks) (TKIP_PN_TO_IV32 pn)) as (c & Hp1 & _); [done..|].
  destruct (phase2_total tk c (TKIP_PN_TO_IV16 pn)) as (kk & Hp2 & _); [done|].
  destruct (split_suffix (head skb) 8) as (pre & h8 & Eh & H8).
  { unfold skb_headroom, IEEE80211_TKIP_IV_LEN in Hh. lia. }
  destruct (tkip_encrypt_skb_eq ks (mk_skb (head skb) (hdr' ++ body ++ mic) t false) hdr' (body ++ mic)
    (fc .| IEEE80211_FCTL_PROTECTED) pre h8 tk c kk) as (ks' & skb2 & He & Hd2 & Hpn);
    try done; [by rewrite hdrlen_protected, Ez|].
  fold pn in Hd2, Hpn.
  assert (ieee80211_tkip_add_iv (conf ks) pn = ieee80211_tkip_add_iv (conf kr) pn) as Eiv.
  { unfold ieee80211_tkip_add_iv. by rewrite Ei. }
  rewrite Eiv in Hd2.
  destruct (tkip_decrypt_eq (mk_rx_data 0 (Some kr) q ap (Some (vif_addr ks)) (0, 0)) kr q skb2 hdr'
    (body ++ mic) (fc .| IEEE80211_FCTL_PROTECTED) tk (vif_addr ks) pn c kk cx)
    as (cx1 & skb3 & drv & Hdec & Hd3); try done.
  { rewrite is_data_protected. by apply data_present_is_data. }
  { by rewrite hdrlen_protected, Ez. }
  { unfold skb_len in *. rewrite Hd2. rewrite Hd in H32. zlens. unfold zlen in *.
    rewrite wep_ciphertext_length, length_app. cbn [length ieee80211_tkip_add_iv app write_tkip_iv le32_bytes]. lia. }
  pose proof (rx_queue_range _ _ _ Hcx) as Hq.
  destruct (mic_verify_eq (set_decrypted (mk_rx_data 0 (Some (set_rx kr q cx1)) q ap
      (Some (vif_addr ks)) (TKIP_PN_TO_IV32 pn, TKIP_PN_TO_IV16 pn))) (set_rx kr q cx1) q skb3 hdr' body
      (fc .| IEEE80211_FCTL_PROTECTED) mk mic cx1) as (skb4 & Hver & Hd4); try done.
  { split; [done|]. split; [|split].
    - apply lor_is_uint; [lia|done|]. unfold is_uint, IEEE80211_FCTL_PROTECTED. lia.
    - by rewrite data_present_protected.
    - by rewrite hdrlen_protected, Ez. }
  { by apply rx_queue_set. }
  { by rewrite (tkip_mic_protected mk hdr hdr' body fc). }
  { unfold skb_len in *. rewrite Hd3. rewrite Hd in H32. zlens. unfold zlen in *. lia. }
  eexists mic, ks', skb2, _, skb4, _, (mk_tkip_ctx_rx (rx_ctx cx1) (TKIP_PN_TO_IV32 pn)
    (TKIP_PN_TO_IV16 pn)), hdr', _.
  split; [|split; [exact Hadd|]]; [done|]. split.
  { unfold ieee80211_crypto_tkip_encrypt, ieee80211_tx_set_protected. cbn [mapM]. cbn [data].
    rewrite Hprot. cbn [mbind option_bind mret option_ret set_data head tail cloned tx_walk].
    unfold set_data. cbn [head tail cloned]. rewrite He. cbn [mbind option_bind Z.ltb Z.compare]. reflexivity. }
  split.
  { cbn [vif_is_ap] in Hdec. unfold tkip_rx_frame. rewrite Hdec. cbn [mbind option_bind].
    rewrite bool_decide_true by done. cbn [negb]. rewrite Hver. cbn [mbind option_bind]. reflexivity. }
  split_and!; [exact Hd4|done|apply Hfc'|done|reflexivity| |reflexivity|reflexivity].
  cbn. apply rx_queue_set. unfold zlen in *. cbn. rewrite length_insert. lia.
Qed.

(** C29: TKIP replay protection, in software decryption.  Whatever sequence of
    frames arrives unfragmented on one queue, forged, replayed or reordered, and
    without a word from the hardware about any of them (status flags zero), the
    sequence counters of the data frames delivered are strictly increasing, and
    every one of them is above any counter the receive context of that queue
    refused at the start. *)
Theorem tkip_replay_protection q ap addr skbs k k' l c :
  rx_queue k q = Some c -> cipher (conf k) = WLAN_CIPHER_SUITE_TKIP ->
  tkip_rx_run q ap addr k skbs = Some (k', l) ->
  StronglySorted tsc_lt l /\ (forall p, refused c p -> Forall (tsc_lt p) l).
Proof. apply tkip_rx_run_sorted. Qed.
End properties.

(** ** The hypotheses hold on a concrete link *)

Section witness.
#[local] Existing Instances Sample.arc4 Sample.crc32 Sample.alloc Sample.arc4_laws Sample.alloc_laws.

Let mkey : list Z := [9; 8; 7; 6; 5; 4; 3; 2].
Let kcs : ieee80211_key_conf :=
  mk_key_conf 0 32 0 WLAN_CIPHER_SUITE_TKIP (replicate 16 0x2b ++ mkey ++ replicate 8 1).
Let kcr : ieee80211_key_conf :=
  mk_key_conf 0 32 0 WLAN_CIPHER_SUITE_TKIP (replicate 16 0x2b ++ replicate 8 1 ++ mkey).
Let ctx0 : tkip_ctx := mk_tkip_ctx (mk_p1k 0 0 0 0 0) 0 TKIP_STATE_NOT_INIT.
Let rx0 : tkip_ctx_rx := mk_tkip_ctx_rx ctx0 0 5.
Let ks : tkip_key := mk_tkip_key kcs (mk_tkip_hw false false) [2; 0; 0; 1; 2; 3] ctx0 [] 0 6.
Let kr : tkip_key :=
  mk_tkip_key kcr (mk_tkip_hw true true) [2; 0; 0; 1; 2; 4] ctx0 (replicate 16 rx0) 0 0.
Let hdr : list Z := [0x08; 0x01; 0; 0] ++ replicate 20 9.
Let body : list Z := [0xaa; 0xaa; 3; 0; 0].
Let skb : sk_buff := mk_skb (replicate 16 0) (hdr ++ body) [] true.

Lemma tkip_end_to_end_witness :
  exists skbm ks' skb2 r skb3 hdr',
    ieee80211_tx_h_michael_mic_add (Some kcs) None 0 false skb = Some (TX_CONTINUE, None, skbm) /\
    ieee80211_crypto_tkip_encrypt ks [(None, skbm)] = Some (TX_CONTINUE, ks', [(None, skb2)]) /\
    tkip_rx_frame (mk_rx_data 0 (Some kr) 3 true (Some (vif_addr ks)) (0, 0)) kr skb2 =
      Some (RX_CONTINUE, r, skb3) /\ data skb3 = hdr' ++ body.
Proof.
  edestruct (tkip_end_to_end ks kr (replicate 16 0x2b) mkey skb
    (mk_skb (head skb) (data skb) (replicate 12 0) false) hdr body 0x0108 3 true rx0)
    as (t & ks' & skb2 & r & skb3 & kr' & cx' & hdr' & skbm & _ & H1 & H2 & H3 & H4 & _).
  - unfold tkip_link. split_and!; vm_compute; first [reflexivity|discriminate].
  - split; [done|]. split_and!; first [vm_compute; reflexivity|vm_compute; intros [=]|done].
  - reflexivity.
  - by repeat constructor.
  - vm_compute. discriminate.
  - vm_compute. discriminate.
  - vm_compute. reflexivity.
  - vm_compute. reflexivity.
  - reflexivity.
  - apply tx_init. reflexivity.
  - reflexivity.
  - reflexivity.
  - vm_compute. reflexivity.
  - unfold tkip_rx_coherent. vm_compute. do 2 eexists. split; [reflexivity|]. split; reflexivity.
  - by exists skbm, ks', skb2, r, skb3, hdr'.
Defined.

Lemma tkip_replay_protection_witness :
  exists k' l, tkip_rx_run 3 true (vif_addr ks) kr [skb; skb] = Some (k', l) /\
    StronglySorted tsc_lt l /\ (forall p, refused rx0 p -> Forall (tsc_lt p) l).
Proof.
  destruct (tkip_rx_run 3 true (vif_addr ks) kr [skb; skb]) as [[k' l]|] eqn:E;
    [|vm_compute in E; discriminate E].
  exists k', l. split; [done|].
  exact (tkip_replay_protection 3 true (vif_addr ks) [skb; skb] kr k' l rx0 eq_refl eq_refl E).
Defined.
End witness.
