(* ===== verification/Ccmp.v ===== *)
(** * Ccmp: CCMP and GCMP frame protection

    Models the CCMP and GCMP handlers of [net/mac80211/wpa.c] and the AEAD
    glue of [net/mac80211/aead_api.c], [aes_ccm.h] and [aes_gcm.h]: additional
    data, nonce, packet numbers, replay detection, header insertion and
    removal.  The two ciphers' handlers are the same code up to the nonce
    layout and the drop reasons, so they are two instances of one definition.
    The AES modes themselves are an interface. *)
From Stdlib Require Import Sorting.Sorted.
From S2P Require Import Prelude Frame Skb Key.

Definition IEEE80211_QOS_CTL_A_MSDU_PRESENT : Z := 0x0080.

(** An AEAD transform with its key and tag length set: sealing gives the
    ciphertext and the tag. *)
Class Aead := {
  aead_seal : list Z -> Z -> list Z -> list Z -> list Z -> list Z * list Z;
    (* key, tag length, nonce, additional data, plaintext *)
  aead_open : list Z -> Z -> list Z -> list Z -> list Z -> list Z -> option (list Z);
    (* key, tag length, nonce, additional data, ciphertext, tag *)
  kzalloc : Z -> bool;   (* does the request's allocation succeed? *)
}.

Class AeadLaws `{Aead} := {
  aead_open_seal key n nonce aad pt :
    aead_open key n nonce aad (aead_seal key n nonce aad pt).1 (aead_seal key n nonce aad pt).2 = Some pt;
  aead_seal_length key n nonce aad pt : length (aead_seal key n nonce aad pt).1 = length pt;
  aead_tag_length key n nonce aad pt : 0 <= n -> zlen (aead_seal key n nonce aad pt).2 = n;
  aead_open_length key n nonce aad ct tag pt :
    aead_open key n nonce aad ct tag = Some pt -> length pt = length ct;
}.

(** ** Additional data and packet numbers *)

(** [ccmp_gcmp_aad]: the 32 bytes of [aad] and [qos_tid].  [addrs] are the
    three addresses the buffer holds at offset 4: those of the header, or the
    link addresses the caller has put there. *)
Definition ccmp_gcmp_aad (frame : list Z) (addrs : option (list Z)) (spp_amsdu : bool)
  : option (list Z * Z) :=
  fc ← hdr_frame_control frame;
  let mgmt := ieee80211_is_mgmt fc in
  let mask_fc := fc .& Z.lnot (IEEE80211_FCTL_RETRY .| IEEE80211_FCTL_PM .|
                               IEEE80211_FCTL_MOREDATA) in
  let mask_fc := if mgmt then mask_fc else mask_fc .& Z.lnot 0x0070 in
  let mask_fc := mask_fc .| IEEE80211_FCTL_PROTECTED in
  let a4_included := ieee80211_has_a4 fc in
  let len_a := if a4_included then 22 + 6 else 22 in
  '(qos_tid, mask_fc, len_a) ←
    (if ieee80211_is_data_qos fc then
       qc ← ieee80211_get_qos_ctl frame;
       q ← rd8 frame qc;
       Some (if spp_amsdu then q .& (IEEE80211_QOS_CTL_TID_MASK .| IEEE80211_QOS_CTL_A_MSDU_PRESENT)
             else q .& IEEE80211_QOS_CTL_TID_MASK,
             mask_fc .& Z.lnot IEEE80211_FCTL_ORDER, len_a + 2)
     else Some (0, mask_fc, len_a));
  addrs ← (match addrs with Some a => Some a | None => slice frame ADDR1 (3 * ETH_ALEN) end);
  seq0 ← rd8 frame 22;
  rest ← (if a4_included then
            a4 ← slice frame ADDR4 ETH_ALEN; Some (a4 ++ [qos_tid; 0])
          else Some ([qos_tid] ++ replicate 7 0));
  Some ([u8 (len_a >> 8); u8 len_a] ++ le16_bytes mask_fc ++ addrs ++
        [seq0 .& 0x0f; 0] ++ rest, qos_tid).

(** The six bytes [pn[0..5]] of a packet number, most significant first. *)
Definition pn_bytes (pn64 : Z) : list Z :=
  [u8 (pn64 >> 40); u8 (pn64 >> 32); u8 (pn64 >> 24); u8 (pn64 >> 16); u8 (pn64 >> 8); u8 pn64].

Definition ccmp_pn2hdr (pn : list Z) (key_id : Z) : option (list Z) :=
  match pn with
  | [p0; p1; p2; p3; p4; p5] => Some [p5; p4; 0; u8 (0x20 .| (key_id << 6)); p3; p2; p1; p0]
  | _ => None
  end.

Definition ccmp_hdr2pn (frame : list Z) (hdr : Z) : option (list Z) :=
  h0 ← rd8 frame hdr; h1 ← rd8 frame (hdr + 1);
  h4 ← rd8 frame (hdr + 4); h5 ← rd8 frame (hdr + 5);
  h6 ← rd8 frame (hdr + 6); h7 ← rd8 frame (hdr + 7);
  Some [h7; h6; h5; h4; h1; h0].

(** [memcmp] of equally long byte strings, as the sign of its result. *)
Fixpoint memcmp (a b : list Z) : comparison :=
  match a, b with
  | x :: a, y :: b => match x ?= y with Eq => memcmp a b | c => c end
  | _, _ => Eq
  end.

(** ** The two ciphers

    What CCMP and GCMP differ in: the nonce, made from the priority and
    management bit, A2 and the packet number, and the drop reasons. *)
Record aead_mode := mk_mode {
  am_nonce : Z -> bool -> list Z -> list Z -> list Z;
  am_short : rx_result;
  am_short_mic : rx_result;
}.

(** [b_0]: the two trailing bytes are the CCM layer's. *)
Definition ccmp_mode : aead_mode :=
  mk_mode (fun qos_tid mgmt a2 pn => [0x1; qos_tid .| (Z.b2z mgmt << 4)] ++ a2 ++ pn)
    RX_DROP_U_SHORT_CCMP RX_DROP_U_SHORT_CCMP_MIC.
(** [j_0]: likewise the GCM layer's counter. *)
Definition gcmp_mode : aead_mode :=
  mk_mode (fun _ _ a2 pn => a2 ++ pn) RX_DROP_U_SHORT_GCMP RX_DROP_U_SHORT_GCMP_MIC.

(** [ccmp_special_blocks], [gcmp_special_blocks]: nonce and additional data.
    [link] are the link addresses when [aad_nonce_computed]. *)
Definition special_blocks (mode : aead_mode) (frame pn : list Z) (link : option (list Z))
    (spp_amsdu : bool) : option (list Z * list Z) :=
  fc ← hdr_frame_control frame;
  '(aad, qos_tid) ← ccmp_gcmp_aad frame link spp_amsdu;
  a2 ← (match link with
        | Some l => slice l ETH_ALEN ETH_ALEN
        | None => slice frame ADDR2 ETH_ALEN
        end);
  Some (am_nonce mode qos_tid (ieee80211_is_mgmt fc) a2 pn, aad).

(** ** Keys and handlers *)

Record aead_key := mk_aead_key {
  conf : ieee80211_key_conf;
  tfm : list Z;
  tx_pn : Z;
  rx_pn : list (list Z);      (* one packet number per queue *)
  replays : Z;
}.

Definition set_tx_pn (k : aead_key) (pn : Z) : aead_key :=
  mk_aead_key (conf k) (tfm k) pn (rx_pn k) (replays k).
Definition set_rx_pn (k : aead_key) (q : Z) (pn : list Z) : aead_key :=
  mk_aead_key (conf k) (tfm k) (tx_pn k) (<[Z.to_nat q := pn]> (rx_pn k)) (replays k).
Definition set_replays (k : aead_key) (n : Z) : aead_key :=
  mk_aead_key (conf k) (tfm k) (tx_pn k) (rx_pn k) n.

Definition rx_pn_of (k : aead_key) (q : Z) : option (list Z) :=
  if q <? 0 then None else rx_pn k !! Z.to_nat q.

(** The receive data used here: [epp_peer] of the station if there is one,
    the link addresses, and [rx->ccm_gcm.pn]. *)
Record rx_data := mk_rx_data {
  status_flag : Z;
  security_idx : Z;
  sta_epp : option bool;
  link_addrs : list Z;
  ccm_gcm_pn : list Z;
}.

Definition ieee80211_require_encrypted_assoc (fc : Z) (sta : option bool) : bool :=
  match sta with Some epp_peer => epp_peer && ieee80211_is_assoc fc | None => false end.

Section aead.
Context `{Aead} `{SkbAlloc}.

(** [aead_encrypt] through [ieee80211_aes_ccm_encrypt]: the additional data
    is the [be16] at the start of [aad] and that many bytes after it. *)
Definition aad_data (aad : list Z) : option (list Z) :=
  n ← rd_be16 aad 0; slice aad 2 n.

(** The text and the tag are in place on success; the value is the C result. *)
Definition aes_aead_encrypt (tfm : list Z) (mic_len : Z) (nonce aad text : list Z)
  : option (Z * list Z * option (list Z)) :=
  ad ← aad_data aad;
  if negb (kzalloc (zlen ad)) then Some (- ENOMEM, text, None)
  else
    let '(ct, mic) := aead_seal tfm mic_len nonce ad text in
    Some (0, ct, Some mic).

(** The value of a failed authentication is some negative error. *)
Definition aes_aead_decrypt (tfm : list Z) (mic_len : Z) (nonce aad text mic : list Z)
  : option (Z * list Z) :=
  ad ← aad_data aad;
  if zlen text =? 0 then Some (- EINVAL, text)
  else if negb (kzalloc (zlen ad)) then Some (- ENOMEM, text)
  else match aead_open tfm mic_len nonce ad text mic with
       | Some pt => Some (0, pt)
       | None => Some (- EBADMSG, text)
       end.

(** [ccmp_encrypt_skb] and [gcmp_encrypt_skb] ([mic_len] is
    [IEEE80211_GCMP_MIC_LEN] for GCMP). *)
Definition aead_encrypt_skb (mode : aead_mode) (mic_len : Z) (k : aead_key) (ts : tx_skb)
  : option (Z * aead_key * tx_skb) :=
  let '(hw_key, skb) := ts in
  let hwaccel := match hw_key with Some _ => true | None => false end in
  fc ← hdr_frame_control (data skb);
  if hwaccel && negb (hw_key_flag hw_key IEEE80211_KEY_FLAG_GENERATE_IV) &&
     negb (hw_key_flag hw_key IEEE80211_KEY_FLAG_PUT_IV_SPACE) &&
     negb (hw_key_flag hw_key IEEE80211_KEY_FLAG_GENERATE_IV_MGMT && ieee80211_is_mgmt fc)
  then Some (0, k, (hw_key, skb))
  else
    let hdrlen := ieee80211_hdrlen fc in
    let len := skb_len skb - hdrlen in
    let tail := if hwaccel then 0 else mic_len in
    let '(r, skb) := ieee80211_crypto_tx_tailroom skb tail in
    if nz r then Some (-1, k, (hw_key, skb))
    else if skb_headroom skb <? IEEE80211_CCMP_HDR_LEN then Some (-1, k, (hw_key, skb))
    else
      skb ← (s ← skb_push skb IEEE80211_CCMP_HDR_LEN;
             d ← memmove (data s) 0 IEEE80211_CCMP_HDR_LEN hdrlen;
             Some (set_data s d));
      if hw_key_flag hw_key IEEE80211_KEY_FLAG_PUT_IV_SPACE then Some (0, k, (hw_key, skb))
      else
        let pn64 := u64 (tx_pn k + 1) in
        let k := set_tx_pn k pn64 in
        let pn := pn_bytes pn64 in
        h ← ccmp_pn2hdr pn (keyidx (conf k));
        d ← store (data skb) hdrlen h;
        let skb := set_data skb d in
        if hwaccel then Some (0, k, (hw_key, skb))
        else
          '(nonce, aad) ← special_blocks mode (data skb) pn None
                            (flag_set (flags (conf k)) IEEE80211_KEY_FLAG_SPP_AMSDU);
          let mic_off := skb_len skb in
          skb ← skb_put skb mic_len;
          text ← slice (data skb) (hdrlen + IEEE80211_CCMP_HDR_LEN) len;
          '(r, ct, mic) ← aes_aead_encrypt (tfm k) mic_len nonce aad text;
          d ← store (data skb) (hdrlen + IEEE80211_CCMP_HDR_LEN) ct;
          d ← (match mic with Some m => store d mic_off m | None => Some d end);
          Some (r, k, (hw_key, set_data skb d)).

Definition aead_crypto_encrypt (mode : aead_mode) (mic_len : Z) (k : aead_key)
    (skbs : list tx_skb) : option (tx_result * aead_key * list tx_skb) :=
  skbs ← ieee80211_tx_set_protected skbs;
  tx_walk (aead_encrypt_skb mode mic_len) k skbs.

(** [if (ieee80211_is_frag(hdr)) memcpy(rx->ccm_gcm.pn, pn, ...)]. *)
Definition note_frag_pn (frag : bool) (r : rx_data) (pn : list Z) : rx_data :=
  if frag then mk_rx_data (status_flag r) (security_idx r) (sta_epp r) (link_addrs r) pn else r.

(** The packet number check and the decryption, when the packet number has
    not been validated by the hardware: a drop, or the updated state. *)
Definition aead_check_and_open (mode : aead_mode) (mic_len : Z) (r : rx_data) (k : aead_key)
    (frame : list Z) (hdrlen data_len : Z)
  : option ((rx_result * aead_key * list Z) + (rx_data * aead_key * list Z)) :=
  pn ← ccmp_hdr2pn frame hdrlen;
  last ← rx_pn_of k (security_idx r);
  let res := memcmp pn last in
  if bool_decide (res = Lt) ||
     (bool_decide (res = Eq) && negb (flag_set (status_flag r) RX_FLAG_ALLOW_SAME_PN))
  then Some (inl (RX_DROP_U_REPLAY, set_replays k (u32 (replays k + 1)), frame))
  else
    '(ok, frame) ←
      (if flag_set (status_flag r) RX_FLAG_DECRYPTED then Some (0, frame) : option (Z * list Z)
       else
         fc ← hdr_frame_control frame;
         a1 ← rd8 frame ADDR1;
         let link := if negb (is_multicast_ether_addr a1) && negb (ieee80211_is_data fc)
                     then Some (link_addrs r) else None in
         '(nonce, aad) ← special_blocks mode frame pn link
                           (flag_set (flags (conf k)) IEEE80211_KEY_FLAG_SPP_AMSDU);
         text ← slice frame (hdrlen + IEEE80211_CCMP_HDR_LEN) data_len;
         mic ← slice frame (zlen frame - mic_len) mic_len;
         '(ok, pt) ← aes_aead_decrypt (tfm k) mic_len nonce aad text mic;
         frame ← store frame (hdrlen + IEEE80211_CCMP_HDR_LEN) pt;
         Some (ok, frame));
    if nz ok then Some (inl (RX_DROP_U_MIC_FAIL, k, frame))
    else
      let k := set_rx_pn k (security_idx r) pn in
      frag ← ieee80211_is_frag frame;
      Some (inr (note_frag_pn frag r pn, k, frame)).

(** [ieee80211_crypto_ccmp_decrypt], [ieee80211_crypto_gcmp_decrypt].
    [data_len] is an [int]. *)
Definition aead_crypto_decrypt (mode : aead_mode) (mic_len : Z) (r : rx_data) (k : aead_key)
    (skb : sk_buff) : option (rx_result * rx_data * aead_key * sk_buff) :=
  fc ← hdr_frame_control (data skb);
  robust ← (if ieee80211_is_data fc then Some false else ieee80211_is_robust_mgmt_frame (data skb));
  let hdrlen := ieee80211_hdrlen fc in
  if negb (ieee80211_is_data fc) && negb robust &&
     negb (ieee80211_require_encrypted_assoc fc (sta_epp r))
  then Some (RX_CONTINUE, r, k, skb)
  else
    let decrypted := flag_set (status_flag r) RX_FLAG_DECRYPTED in
    if decrypted && (skb_len skb <? hdrlen + IEEE80211_CCMP_HDR_LEN) then
      Some (am_short mode, r, k, skb)
    else
      let mic_len := if decrypted && flag_set (status_flag r) RX_FLAG_MIC_STRIPPED
                     then 0 else mic_len in
      let data_len := s32 (skb_len skb - hdrlen - IEEE80211_CCMP_HDR_LEN - mic_len) in
      if (match sta_epp r with None => true | Some _ => false end) || (data_len <? 0) then
        Some (am_short mode, r, k, skb)
      else
        res ← (if flag_set (status_flag r) RX_FLAG_PN_VALIDATED then Some (inr (r, k, data skb))
               else aead_check_and_open mode mic_len r k (data skb) hdrlen data_len);
        match res with
        | inl (drop, k, d) => Some (drop, r, k, set_data skb d)
        | inr (r, k, d) =>
            let skb := set_data skb d in
            let skb := skb_trim skb (skb_len skb - mic_len) in
            d ← memmove (data skb) IEEE80211_CCMP_HDR_LEN 0 hdrlen;
            skb ← skb_pull (set_data skb d) IEEE80211_CCMP_HDR_LEN;
            Some (RX_CONTINUE, r, k, skb)
        end.

(** The entry points. *)
Definition ccmp_special_blocks := special_blocks ccmp_mode.
Definition gcmp_special_blocks := special_blocks gcmp_mode.
Definition gcmp_pn2hdr := ccmp_pn2hdr.
Definition gcmp_hdr2pn := ccmp_hdr2pn.
Definition ccmp_encrypt_skb := aead_encrypt_skb ccmp_mode.
Definition gcmp_encrypt_skb := aead_encrypt_skb gcmp_mode IEEE80211_GCMP_MIC_LEN.
Definition ieee80211_crypto_ccmp_encrypt (k : aead_key) (skbs : list tx_skb) (mic_len : Z) :=
  aead_crypto_encrypt ccmp_mode mic_len k skbs.
Definition ieee80211_crypto_gcmp_encrypt (k : aead_key) (skbs : list tx_skb) :=
  aead_crypto_encrypt gcmp_mode IEEE80211_GCMP_MIC_LEN k skbs.
Definition ieee80211_crypto_ccmp_decrypt (r : rx_data) (k : aead_key) (skb : sk_buff) (mic_len : Z) :=
  aead_crypto_decrypt ccmp_mode mic_len r k skb.
Definition ieee80211_crypto_gcmp_decrypt (r : rx_data) (k : aead_key) (skb : sk_buff) :=
  aead_crypto_decrypt gcmp_mode IEEE80211_GCMP_MIC_LEN r k skb.

End aead.

(** ** Packet numbers as numbers *)

Fixpoint be_value (l : list Z) : Z :=
  match l with [] => 0 | x :: l => x * 256 ^ zlen l + be_value l end.

Lemma be_value_range l : bytes_ok l -> 0 <= be_value l < 256 ^ zlen l.
Proof.
  induction 1 as [|x l Hx _ IH]; cbn [be_value]; [done|]. zlens.
  rewrite Z.pow_add_r by (pose proof (zlen_nonneg l); lia). unfold is_uint in Hx. nia.
Qed.

(** [memcmp] on byte strings of one length compares the numbers. *)
Lemma memcmp_value a b :
  length a = length b -> bytes_ok a -> bytes_ok b -> memcmp a b = (be_value a ?= be_value b).
Proof.
  revert b. induction a as [|x a IH]; intros [|y b] El Ha Hb; simplify_eq/=; [done|].
  inversion_clear Ha as [|?? Hx Ha']. inversion_clear Hb as [|?? Hy Hb'].
  pose proof (be_value_range a Ha') as Ra. pose proof (be_value_range b Hb') as Rb.
  assert (zlen a = zlen b) as Ez by (unfold zlen; lia). rewrite Ez in *.
  set (w := 256 ^ zlen b) in *. destruct (Z.compare_spec x y) as [->|Hlt|Hgt].
  - rewrite IH by done. destruct (Z.compare_spec (be_value a) (be_value b));
      symmetry; [apply Z.compare_eq_iff|apply Z.compare_lt_iff|apply Z.compare_gt_iff]; lia.
  - symmetry. apply Z.compare_lt_iff. nia.
  - symmetry. apply Z.compare_gt_iff. nia.
Qed.

Lemma pn_bytes_ok pn : bytes_ok (pn_bytes pn).
Proof. repeat constructor; by apply wrap_is_uint. Qed.

Lemma u8_shift_mod pn n : 0 <= n -> u8 (pn >> n) = (pn / 2 ^ n) mod 256.
Proof. intros. unfold wrap. by rewrite Z.shiftr_div_pow2. Qed.

Lemma be_value_pn_bytes pn : be_value (pn_bytes pn) = pn mod 2 ^ 48.
Proof.
  unfold pn_bytes. rewrite !u8_shift_mod by lia. unfold wrap.
  cbn [be_value]. unfold zlen. cbn [length]. 
  change (256 ^ Z.of_nat 5) with (2 ^ 40). change (256 ^ Z.of_nat 4) with (2 ^ 32).
  change (256 ^ Z.of_nat 3) with (2 ^ 24). change (256 ^ Z.of_nat 2) with (2 ^ 16).
  change (256 ^ Z.of_nat 1) with (2 ^ 8). change (256 ^ Z.of_nat 0) with 1. change (2 ^ 8) with 256.
  change (2 ^ 48) with (256 * (256 * (256 * (256 * (256 * 256))))).
  rewrite !Z.rem_mul_r by lia. rewrite !Z.div_div by lia.
  change (256 * 256) with (2 ^ 16). change (256 * 2 ^ 16) with (2 ^ 24).
  change (2 ^ 16 * 256) with (2 ^ 24). change (2 ^ 24 * 256) with (2 ^ 32).
  change (2 ^ 32 * 256) with (2 ^ 40).
  generalize ((pn / 2 ^ 40) mod 256) ((pn / 2 ^ 32) mod 256) ((pn / 2 ^ 24) mod 256)
    ((pn / 2 ^ 16) mod 256) ((pn / 256) mod 256) (pn mod 256). intros. lia.
Qed.

Lemma ccmp_pn2hdr_bytes pn kid :
  exists h, ccmp_pn2hdr (pn_bytes pn) kid = Some h /\ zlen h = 8 /\
    forall pre post, ccmp_hdr2pn (pre ++ h ++ post) (zlen pre) = Some (pn_bytes pn).
Proof.
  eexists. split; [reflexivity|]. split; [done|]. intros pre post. unfold ccmp_hdr2pn.
  rewrite !rd8_app_r by lia. rewrite <- (Z.add_0_r (zlen pre)), rd8_app_r by lia. done.
Qed.

Lemma ccmp_hdr2pn_ok frame off pn :
  bytes_ok frame -> ccmp_hdr2pn frame off = Some pn -> bytes_ok pn /\ length pn = 6%nat.
Proof.
  intros Hok Hp. unfold ccmp_hdr2pn in Hp. obind Hp. injection Hp as <-.
  split; [|done]. repeat constructor; by eapply rd8_ok.
Qed.

(** ** The additional data only depends on the protected part of the header *)

(** Frame-control bits the additional data ignores. *)
Definition fc_mutable : Z :=
  IEEE80211_FCTL_RETRY .| IEEE80211_FCTL_PM .| IEEE80211_FCTL_MOREDATA .| IEEE80211_FCTL_PROTECTED.

Lemma ldiff_eq_land a b m n :
  Z.ldiff a m = Z.ldiff b m -> n .& m = 0 -> a .& n = b .& n.
Proof.
  intros E Hn. apply Z.bits_inj'; intros i Hi.
  apply (f_equal (fun z => Z.testbit z i)) in E, Hn.
  rewrite !Z.ldiff_spec in E. rewrite Z.land_spec, Z.bits_0 in Hn. rewrite !Z.land_spec.
  destruct (Z.testbit a i), (Z.testbit b i), (Z.testbit m i), (Z.testbit n i); done.
Qed.

(** Two frames whose headers differ only where the standard lets them change
    in flight: the mutable frame-control bits and the sequence number. *)
Record aad_equiv (f g : list Z) (fc fc' : Z) : Prop := {
  ae_f : hdr_frame_control f = Some fc;
  ae_g : hdr_frame_control g = Some fc';
  ae_fc : Z.ldiff fc fc_mutable = Z.ldiff fc' fc_mutable;
  ae_addrs : slice f ADDR1 (3 * ETH_ALEN) = slice g ADDR1 (3 * ETH_ALEN);
  ae_frag : (b ← rd8 f 22; Some (b .& 0x0f)) = (b ← rd8 g 22; Some (b .& 0x0f));
  ae_a4 : ieee80211_has_a4 fc = true -> slice f ADDR4 ETH_ALEN = slice g ADDR4 ETH_ALEN;
  ae_qos : ieee80211_is_data_qos fc = true ->
    rd8 f (if ieee80211_has_a4 fc then 30 else 24) = rd8 g (if ieee80211_has_a4 fc then 30 else 24);
}.

Lemma mask_mutable a b extra :
  Z.ldiff a fc_mutable = Z.ldiff b fc_mutable ->
  ((a .& Z.lnot (IEEE80211_FCTL_RETRY .| IEEE80211_FCTL_PM .| IEEE80211_FCTL_MOREDATA)) .& Z.lnot extra)
    .| IEEE80211_FCTL_PROTECTED =
  ((b .& Z.lnot (IEEE80211_FCTL_RETRY .| IEEE80211_FCTL_PM .| IEEE80211_FCTL_MOREDATA)) .& Z.lnot extra)
    .| IEEE80211_FCTL_PROTECTED.
Proof.
  intros E. apply Z.bits_inj'; intros i Hi. apply (f_equal (fun z => Z.testbit z i)) in E.
  revert E. unfold fc_mutable. rewrite !Z.ldiff_spec, !Z.lor_spec, !Z.land_spec, !Z.lnot_spec, !Z.lor_spec by lia.
  destruct (Z.testbit a i), (Z.testbit b i), (Z.testbit IEEE80211_FCTL_RETRY i),
    (Z.testbit IEEE80211_FCTL_PM i), (Z.testbit IEEE80211_FCTL_MOREDATA i),
    (Z.testbit IEEE80211_FCTL_PROTECTED i), (Z.testbit extra i); done.
Qed.

Lemma aad_equiv_same f g fc fc' link spp :
  aad_equiv f g fc fc' -> ccmp_gcmp_aad f link spp = ccmp_gcmp_aad g link spp.
Proof.
  intros [Ef Eg Efc Ea Efr E4 Eq].
  assert (forall n, n .& fc_mutable = 0 -> fc .& n = fc' .& n) as Hl by (intros; by eapply ldiff_eq_land).
  assert (ieee80211_has_a4 fc' = ieee80211_has_a4 fc) as H4.
  { unfold ieee80211_has_a4. by rewrite Hl by done. }
  assert (ieee80211_is_data_qos fc' = ieee80211_is_data_qos fc) as Hq.
  { unfold ieee80211_is_data_qos. by rewrite !Hl by done. }
  assert (ieee80211_is_mgmt fc' = ieee80211_is_mgmt fc) as Hm.
  { unfold ieee80211_is_mgmt. by rewrite !Hl by done. }
  unfold ccmp_gcmp_aad, ieee80211_get_qos_ctl. rewrite Ef, Eg. cbn [mbind option_bind].
  rewrite H4, Hq, Hm.
  pose proof (mask_mutable fc fc' 0 Efc) as M0. rewrite !Z.lnot_0, !Z.land_m1_r in M0.
  pose proof (mask_mutable fc fc' 0x70 Efc) as M7.
  destruct (rd8 f 22) as [sf|], (rd8 g 22) as [sg|]; cbn [mbind option_bind] in Efr; try discriminate Efr;
    [injection Efr as Efr|].
  all: destruct (ieee80211_is_mgmt fc), (ieee80211_is_data_qos fc), (ieee80211_has_a4 fc); cbn [mbind option_bind];
    rewrite ?M0, ?M7, ?Ea, ?Eq, ?E4, ?Efr by done; done.
Qed.

Lemma slice_app_l a x off n : off + n <= zlen a -> slice (a ++ x) off n = slice a off n.
Proof.
  intros H. unfold slice, in_range. zlens. pose proof (zlen_nonneg x).
  destruct (Z.leb_spec 0 off), (Z.leb_spec 0 n); cbn [andb]; try done.
  destruct (Z.leb_spec (off + n) (zlen a + zlen x)), (Z.leb_spec (off + n) (zlen a)); try lia.
  cbn [andb]. f_equal. unfold zlen in *. rewrite drop_app_le by lia.
  rewrite take_app_le; [done|]. rewrite length_drop. lia.
Qed.

(** A data frame with its whole header. *)
Definition data_hdr (hdr : list Z) (fc : Z) : Prop :=
  (forall l, hdr_frame_control (hdr ++ l) = Some fc) /\ ieee80211_is_data fc = true /\
  zlen hdr = ieee80211_hdrlen fc.

Lemma data_hdr_bounds hdr fc : data_hdr hdr fc ->
  24 <= zlen hdr <= 36 /\ (ieee80211_has_a4 fc = true -> 30 <= zlen hdr) /\
  (ieee80211_is_data_qos fc = true -> (if ieee80211_has_a4 fc then 32 else 26) <= zlen hdr).
Proof.
  intros (_ & Hd & ->). pose proof (hdrlen_range fc). rewrite (hdrlen_data fc Hd) in *.
  destruct (ieee80211_has_a4 fc), (ieee80211_is_data_qos fc), (ieee80211_has_order fc);
    split_and!; (lia || (intros; discriminate || lia)).
Qed.

Lemma aad_equiv_prefix hdr fc x y : data_hdr hdr fc -> aad_equiv (hdr ++ x) (hdr ++ y) fc fc.
Proof.
  intros Hd. destruct (data_hdr_bounds hdr fc Hd) as (B1 & B2 & B3). destruct Hd as (Hfc & _ & _).
  unfold ADDR1, ADDR4, ETH_ALEN. split; [apply Hfc|apply Hfc|done| | | |].
  - rewrite !slice_app_l by (unfold ADDR1, ETH_ALEN; lia). done.
  - rewrite !rd8_app_l by lia. done.
  - intros H4. specialize (B2 H4). rewrite !slice_app_l by (unfold ADDR4, ETH_ALEN; lia). done.
  - intros Hq. specialize (B3 Hq). rewrite !rd8_app_l by (destruct (ieee80211_has_a4 fc); lia). done.
Qed.

Lemma slice_total buf off n :
  0 <= off -> 0 <= n -> off + n <= zlen buf -> exists bs, slice buf off n = Some bs /\ zlen bs = n.
Proof.
  intros. assert (exists bs, slice buf off n = Some bs) as [bs Hb].
  { unfold slice, in_range. repeat (zcase; try lia). cbn [andb]. eauto. }
  exists bs. split; [done|]. by apply slice_Some in Hb as (? & ? & _ & _ & ?).
Qed.

Lemma ccmp_gcmp_aad_total hdr fc l spp :
  data_hdr hdr fc ->
  exists aad tid, ccmp_gcmp_aad (hdr ++ l) None spp = Some (aad, tid) /\ zlen aad = 32 /\
    exists n, rd_be16 aad 0 = Some n /\ 22 <= n <= 30.
Proof.
  intros Hd. destruct (data_hdr_bounds hdr fc Hd) as (B1 & B2 & B3). destruct Hd as (Hfc & _ & _).
  unfold ccmp_gcmp_aad, ieee80211_get_qos_ctl. rewrite Hfc. cbn [mbind option_bind].
  pose proof (zlen_nonneg l).
  destruct (slice_total (hdr ++ l) ADDR1 (3 * ETH_ALEN)) as (a & -> & Ha);
    [done|done|unfold ADDR1, ETH_ALEN; zlens; lia|].
  destruct (rd8_Some (hdr ++ l) 22) as [s ->]; [zlens; lia|].
  assert (exists q, (if ieee80211_is_data_qos fc then exists qb,
    rd8 (hdr ++ l) (if ieee80211_has_a4 fc then 30 else 24) = Some qb /\ q = qb else q = 0)) as [q Hq].
  { destruct (ieee80211_is_data_qos fc); [|by exists 0]. specialize (B3 eq_refl).
    destruct (rd8_Some (hdr ++ l) (if ieee80211_has_a4 fc then 30 else 24)) as [qb Hqb];
      [zlens; destruct (ieee80211_has_a4 fc); lia|]. by exists qb, qb. }
  assert (exists a4, (if ieee80211_has_a4 fc then slice (hdr ++ l) ADDR4 ETH_ALEN = Some a4 /\ zlen a4 = 6
    else True)) as [a4 H4].
  { destruct (ieee80211_has_a4 fc); [|by exists []]. specialize (B2 eq_refl).
    destruct (slice_total (hdr ++ l) ADDR4 ETH_ALEN) as (x & -> & Hx);
      [done|done|unfold ADDR4, ETH_ALEN; zlens; lia|]. by exists x. }
  assert (forall n : Z, 22 <= n <= 30 -> forall t, rd_be16 ([u8 (n >> 8); u8 n] ++ t) 0 = Some n) as Hbe.
  { intros n Hn t. assert (n = 22 \/ n = 23 \/ n = 24 \/ n = 25 \/ n = 26 \/ n = 27 \/ n = 28 \/ n = 29
      \/ n = 30) as C by lia. destruct C as [->|[->|[->|[->|[->|[->|[->|[->| ->]]]]]]]]; done. }
  assert (forall m x y, zlen (le16_bytes m ++ a ++ [x; y]) = 22) as Hz.
  { intros. zlens. rewrite Ha. done. }
  destruct (ieee80211_is_data_qos fc), (ieee80211_has_a4 fc); cbn [mbind option_bind];
    try (destruct Hq as (qb & -> & ->)); try (destruct H4 as (H4a & H4b); rewrite H4a); cbn [mbind option_bind];
    do 2 eexists; (split; [reflexivity|]); rewrite Hbe by lia; (split; [|eexists; split; [reflexivity|lia]]);
    zlens; rewrite ?Ha, ?H4b; done.
Qed.

Lemma special_blocks_total mode hdr fc pn spp :
  data_hdr hdr fc ->
  exists nonce aad ad, (forall l', special_blocks mode (hdr ++ l') pn None spp = Some (nonce, aad)) /\
    aad_data aad = Some ad.
Proof.
  intros Hd. destruct (ccmp_gcmp_aad_total hdr fc [] spp Hd) as (aad & tid & E & El & n & Hn & Hr).
  destruct (data_hdr_bounds hdr fc Hd) as (B1 & _).
  destruct (slice_total hdr ADDR2 ETH_ALEN) as (a2 & Ha2 & _); [done|done|unfold ADDR2, ETH_ALEN; lia|].
  destruct (slice_total aad 2 n) as (ad & Had & _); [lia..|].
  exists (am_nonce mode tid (ieee80211_is_mgmt fc) a2 pn), aad, ad. split.
  - intros l'. unfold special_blocks. pose proof Hd as (Hfc & _ & _). rewrite Hfc. cbn [mbind option_bind].
    rewrite <- (aad_equiv_same _ _ _ _ None spp (aad_equiv_prefix hdr fc [] l' Hd)), E.
    cbn [mbind option_bind]. rewrite slice_app_l, Ha2 by (unfold ADDR2, ETH_ALEN; lia). done.
  - unfold aad_data. rewrite Hn. cbn [mbind option_bind]. done.
Qed.

(** ** The handlers on a well-formed frame *)

Section handlers.
Context `{AeadLaws} `{SkbAllocLaws}.

(** What sealing a body under a packet number gives: nonce and additional
    data come from the frame's own header. *)
Definition sealed (mode : aead_mode) (mic_len : Z) (k : aead_key) (hdr : list Z) (pn : Z)
    (body : list Z) : option (list Z * list Z) :=
  '(nonce, aad) ← special_blocks mode hdr (pn_bytes pn) None
                    (flag_set (flags (conf k)) IEEE80211_KEY_FLAG_SPP_AMSDU);
  ad ← aad_data aad;
  Some (aead_seal (tfm k) mic_len nonce ad body).

Lemma aead_encrypt_skb_eq mode mic_len k skb skb1 hdr body fc :
  data_hdr hdr fc -> data skb = hdr ++ body -> 0 <= mic_len -> (forall n, kzalloc n = true) ->
  8 <= skb_headroom skb -> ieee80211_crypto_tx_tailroom skb mic_len = (0, skb1) ->
  let pn := u64 (tx_pn k + 1) in
  exists h ct mic skb', sealed mode mic_len k hdr pn body = Some (ct, mic) /\
    ccmp_pn2hdr (pn_bytes pn) (keyidx (conf k)) = Some h /\
    aead_encrypt_skb mode mic_len k (None, skb) = Some (0, set_tx_pn k pn, (None, skb')) /\
    data skb' = hdr ++ h ++ ct ++ mic.
Proof.
  intros Hh Hd Hm Hkz Hhr Ht pn. pose proof Hh as (Hfc & Hdt & Hl).
  destruct (crypto_tx_tailroom_ok skb mic_len skb1) as (E1 & E2 & E3); [lia|done|].
  destruct (ccmp_pn2hdr_bytes pn (keyidx (conf k))) as (h & Eh & Hz & _).
  destruct (special_blocks_total mode hdr fc (pn_bytes pn)
    (flag_set (flags (conf k)) IEEE80211_KEY_FLAG_SPP_AMSDU) Hh) as (nonce & aad & ad & Hsb & Had).
  destruct (aead_seal (tfm k) mic_len nonce ad body) as [ct mic] eqn:Es.
  pose proof (aead_seal_length (tfm k) mic_len nonce ad body) as Lct. rewrite Es in Lct. cbn [fst] in Lct.
  pose proof (aead_tag_length (tfm k) mic_len nonce ad body Hm) as Lmic. rewrite Es in Lmic. cbn [snd] in Lmic.
  destruct (split_suffix (head skb1) 8) as (pre & h8 & Ehd & H8).
  { rewrite E1. unfold skb_headroom in Hhr. lia. }
  destruct (split_at (tail skb1) mic_len) as (tm & t & Et & Htm); [unfold skb_tailroom in E3; lia|].
  exists h, ct, mic. eexists. split; [|split; [done|]].
  { unfold sealed. specialize (Hsb []). rewrite app_nil_r in Hsb. rewrite Hsb. cbn [mbind option_bind].
    rewrite Had. cbn [mbind option_bind]. by rewrite Es. }
  unfold aead_encrypt_skb. rewrite Hd, Hfc. cbn [mbind option_bind andb]. rewrite Ht. cbn [nz negb Z.eqb].
  unfold skb_headroom in *. rewrite E1. destruct (Z.ltb_spec (zlen (head skb)) IEEE80211_CCMP_HDR_LEN) as [Hlt|];
    [unfold IEEE80211_CCMP_HDR_LEN in Hlt; lia|].
  rewrite <- Hl.
  destruct (push_header_gap skb1 pre h8 hdr body IEEE80211_CCMP_HDR_LEN) as (gap & Hg & ->);
    [congruence|done..|].
  cbn [mbind option_bind hw_key_flag data conf set_tx_pn tfm]. fold pn. rewrite Eh. cbn [mbind option_bind].
  rewrite store_app by (unfold zlen in *; lia). cbn [mbind option_bind].
  unfold set_data. cbn [data head tail cloned]. rewrite Hsb. cbn [mbind option_bind].
  rewrite (skb_put_at _ tm t) by done. cbn [mbind option_bind data head tail cloned].
  unfold skb_len. cbn [data]. rewrite Hd.
  replace (zlen (hdr ++ body) - zlen hdr) with (zlen body) by (zlens; lia).
  replace (zlen hdr + IEEE80211_CCMP_HDR_LEN) with (zlen (hdr ++ h))
    by (zlens; unfold IEEE80211_CCMP_HDR_LEN; lia).
  assert (zlen (hdr ++ h ++ body) = zlen ((hdr ++ h) ++ ct)) as -> by (zlens; unfold zlen in *; lia).
  rewrite <- !app_assoc, !(app_assoc hdr h). rewrite slice_app by done. cbn [mbind option_bind].
  unfold aes_aead_encrypt. rewrite Had. cbn [mbind option_bind]. rewrite Hkz. cbn [negb]. rewrite Es.
  cbn [mbind option_bind]. rewrite store_app by done. cbn [mbind option_bind].
  rewrite (app_assoc (hdr ++ h)), store_suffix by (unfold zlen in *; lia). cbn [mbind option_bind].
  split; [reflexivity|]. cbn [data]. by rewrite <- !app_assoc.
Qed.

Lemma aead_crypto_decrypt_eq mode mic_len r k skb hdr fc h ct mic pn body last epp :
  data_hdr hdr fc -> data skb = hdr ++ h ++ ct ++ mic -> 0 <= mic_len -> (forall n, kzalloc n = true) ->
  sealed mode mic_len k hdr pn body = Some (ct, mic) ->
  ccmp_pn2hdr (pn_bytes pn) (keyidx (conf k)) = Some h ->
  status_flag r = 0 -> sta_epp r = Some epp -> rx_pn_of k (security_idx r) = Some last ->
  memcmp (pn_bytes pn) last = Gt -> body <> [] -> skb_len skb < 2 ^ 31 ->
  exists r' skb', aead_crypto_decrypt mode mic_len r k skb =
      Some (RX_CONTINUE, r', set_rx_pn k (security_idx r) (pn_bytes pn), skb') /\
    data skb' = hdr ++ body.
Proof.
  intros Hh Hd Hm Hkz Hsl Hpn Hflag Hepp Hlast Hgt Hne H31. pose proof Hh as (Hfc & Hdt & Hl).
  destruct (ccmp_pn2hdr_bytes pn (keyidx (conf k))) as (h' & Eh & Hz & Hrd).
  rewrite Eh in Hpn. injection Hpn as ->.
  destruct (special_blocks_total mode hdr fc (pn_bytes pn)
    (flag_set (flags (conf k)) IEEE80211_KEY_FLAG_SPP_AMSDU) Hh) as (nonce & aad & ad & Hsb & Had).
  unfold sealed in Hsl. pose proof (Hsb []) as Hsb0. rewrite app_nil_r in Hsb0. rewrite Hsb0 in Hsl.
  cbn [mbind option_bind] in Hsl. rewrite Had in Hsl. cbn [mbind option_bind] in Hsl. injection Hsl as Es.
  pose proof (aead_seal_length (tfm k) mic_len nonce ad body) as Lct. rewrite Es in Lct. cbn [fst] in Lct.
  pose proof (aead_tag_length (tfm k) mic_len nonce ad body Hm) as Lmic. rewrite Es in Lmic. cbn [snd] in Lmic.
  pose proof (aead_open_seal (tfm k) mic_len nonce ad body) as Ho. rewrite Es in Ho. cbn [fst snd] in Ho.
  assert (zlen ct = zlen body) as Zct by (unfold zlen; lia).
  assert (0 < zlen body) as Hb by (destruct body; [done|unfold zlen; simpl; lia]).
  destruct (data_hdr_bounds hdr fc Hh) as (B1 & _).
  unfold aead_crypto_decrypt. unfold skb_len in *. rewrite Hd in *. rewrite Hfc. cbn [mbind option_bind].
  rewrite Hdt, Hflag, Hepp, <- Hl. cbn [mbind option_bind negb andb].
  assert (forall f, flag_set 0 f = false) as Hf0 by done. rewrite !Hf0. cbn [andb orb].
  assert (zlen (hdr ++ h ++ ct ++ mic) - zlen hdr - IEEE80211_CCMP_HDR_LEN - mic_len = zlen body) as ->.
  { zlens. unfold IEEE80211_CCMP_HDR_LEN. lia. }
  assert (s32 (zlen body) = zlen body) as ->.
  { unfold swrap. zlens. pose proof (zlen_nonneg mic). rewrite Z.mod_small by lia. zcase; lia. }
  destruct (Z.ltb_spec (zlen body) 0); [lia|].
  unfold aead_check_and_open. rewrite Hrd, Hlast. cbn [mbind option_bind]. rewrite Hgt, Hflag, !Hf0, Hfc.
  cbn [mbind option_bind negb andb orb bool_decide decide]. rewrite !bool_decide_false by done. cbn [orb andb].
  destruct (rd8_Some (hdr ++ h ++ ct ++ mic) ADDR1) as [a1 ->].
  { unfold ADDR1. zlens. pose proof (zlen_nonneg mic). pose proof (zlen_nonneg ct). lia. }
  cbn [mbind option_bind]. rewrite Hdt. cbn [negb]. rewrite andb_false_r, Hsb. cbn [mbind option_bind].
  replace (zlen hdr + IEEE80211_CCMP_HDR_LEN) with (zlen (hdr ++ h))
    by (zlens; unfold IEEE80211_CCMP_HDR_LEN; lia).
  rewrite app_assoc, slice_app by done. cbn [mbind option_bind].
  replace (zlen ((hdr ++ h) ++ ct ++ mic) - mic_len) with (zlen ((hdr ++ h) ++ ct)) by (zlens; lia).
  rewrite (app_assoc (hdr ++ h)), slice_suffix by done. cbn [mbind option_bind].
  unfold aes_aead_decrypt. rewrite Had. cbn [mbind option_bind].
  destruct (Z.eqb_spec (zlen ct) 0); [lia|]. rewrite Hkz. cbn [negb]. rewrite Ho. cbn [mbind option_bind].
  rewrite <- (app_assoc (hdr ++ h)), store_app by (unfold zlen in *; lia). cbn [mbind option_bind nz negb Z.eqb].
  unfold ieee80211_is_frag. rewrite <- app_assoc, Hfc. cbn [mbind option_bind].
  assert (exists b : bool, (if ieee80211_has_morefrags fc then Some true
    else hdr_seq_ctrl (hdr ++ h ++ body ++ mic) ≫= (fun seq => Some (nz (seq .& IEEE80211_SCTL_FRAG)))) = Some b) as [b ->].
  { destruct (ieee80211_has_morefrags fc); [eauto|]. unfold hdr_seq_ctrl.
    destruct (rd_le16_Some (hdr ++ h ++ body ++ mic) 22) as [s ->]; [lia|zlens; pose proof (zlen_nonneg mic); lia|].
    cbn [mbind option_bind]. eauto. }
  cbn [mbind option_bind]. set (s2 := skb_trim _ _).
  assert (data s2 = hdr ++ h ++ body) as Es2.
  { apply (skb_trim_data _ _ mic).
    - unfold set_data. cbn [data]. by rewrite <- !app_assoc.
    - unfold skb_len, set_data. cbn [data]. zlens. lia.
    - unfold skb_len, set_data. cbn [data]. zlens. pose proof (zlen_nonneg mic). lia. }
  destruct (pull_header_gap s2 hdr h body IEEE80211_CCMP_HDR_LEN Es2 Hz) as [g Hg].
  destruct (memmove (data s2) _ _ _) as [d|]; [|discriminate Hg]. cbn [mbind option_bind] in *.
  rewrite Hg. cbn [mbind option_bind]. do 2 eexists. split; [reflexivity|done].
Qed.

(** ** Replay *)

Definition pn_ok (pn : list Z) : Prop := bytes_ok pn /\ length pn = 6%nat.

Lemma rx_pn_of_set k q pn : 0 <= q < zlen (rx_pn k) -> rx_pn_of (set_rx_pn k q pn) q = Some pn.
Proof.
  intros Hq. unfold rx_pn_of, set_rx_pn, zlen in *. cbn [rx_pn]. destruct (Z.ltb_spec q 0); [lia|].
  apply list_lookup_insert_eq. lia.
Qed.

Lemma rx_pn_of_range k q pn : rx_pn_of k q = Some pn -> 0 <= q < zlen (rx_pn k).
Proof.
  unfold rx_pn_of, zlen. destruct (Z.ltb_spec q 0); [done|]. intros Hl%lookup_lt_Some. lia.
Qed.

(** What a check that passes does to the queue's packet number, and one that
    does not. *)
Lemma aead_check_and_open_inv mode mic_len r k frame hdrlen n res last :
  bytes_ok frame -> rx_pn_of k (security_idx r) = Some last -> pn_ok last ->
  flag_set (status_flag r) RX_FLAG_ALLOW_SAME_PN = false ->
  aead_check_and_open mode mic_len r k frame hdrlen n = Some res ->
  match res with
  | inl (drop, k', _) => drop <> RX_CONTINUE /\ rx_pn_of k' (security_idx r) = Some last
  | inr (_, k', _) => exists pn, rx_pn_of k' (security_idx r) = Some pn /\ pn_ok pn /\
      be_value last < be_value pn
  end.
Proof.
  intros Hok Hlast [Lok Llen] Hsame Hc. unfold aead_check_and_open in Hc.
  destruct (ccmp_hdr2pn frame hdrlen) as [pn|] eqn:Epn; [|discriminate Hc]. cbn [mbind option_bind] in Hc.
  destruct (ccmp_hdr2pn_ok _ _ _ Hok Epn) as [Pok Plen].
  rewrite Hlast in Hc. cbn [mbind option_bind] in Hc. rewrite Hsame in Hc.
  destruct (_ || _) eqn:Er; [by injection Hc as <-|].
  apply orb_false_iff in Er as [E1%bool_decide_eq_false E2]. cbn [negb] in E2. rewrite andb_true_r in E2.
  apply bool_decide_eq_false in E2.
  assert (be_value last < be_value pn) as Hlt.
  { rewrite memcmp_value in E1, E2 by (done || lia).
    destruct (Z.compare_spec (be_value pn) (be_value last)); congruence || lia. }
  match type of Hc with mbind _ ?e = _ => destruct e as [[ok fr]|]; [|discriminate Hc] end.
  cbn [mbind option_bind] in Hc. destruct (nz ok); [by injection Hc as <-|]. obind Hc.
  injection Hc as <-. exists pn. split; [|done]. apply rx_pn_of_set. by eapply rx_pn_of_range.
Qed.

Lemma aead_crypto_decrypt_inv mode mic_len r k skb res r' k' skb' fc last :
  bytes_ok (data skb) -> hdr_frame_control (data skb) = Some fc ->
  rx_pn_of k (security_idx r) = Some last -> pn_ok last ->
  flag_set (status_flag r) RX_FLAG_ALLOW_SAME_PN = false ->
  flag_set (status_flag r) RX_FLAG_PN_VALIDATED = false ->
  aead_crypto_decrypt mode mic_len r k skb = Some (res, r', k', skb') ->
  am_short mode <> RX_CONTINUE ->
  exists pn, rx_pn_of k' (security_idx r) = Some pn /\ pn_ok pn /\ be_value last <= be_value pn /\
    (res = RX_CONTINUE -> ieee80211_is_data fc = true -> be_value last < be_value pn).
Proof.
  intros Hok Hfc Hlast Hpok Hsame Hval Hd Hmode. unfold aead_crypto_decrypt in Hd. rewrite Hfc in Hd.
  cbn [mbind option_bind] in Hd.
  match type of Hd with mbind _ ?e = _ => destruct e as [robust|]; [|discriminate Hd] end.
  cbn [mbind option_bind] in Hd.
  assert (forall k0 : aead_key, k0 = k -> exists pn, rx_pn_of k0 (security_idx r) = Some pn /\ pn_ok pn /\
    be_value last <= be_value pn) as Hsamek.
  { intros k0 ->. exists last. split; [done|]. split; [done|lia]. }
  destruct (ieee80211_is_data fc) eqn:Edt; cbn [negb andb] in Hd.
  2: destruct (negb robust && _) eqn:Eg;
       [injection Hd as <- _ <- _; destruct (Hsamek k eq_refl) as (pn & P1 & P2 & P3);
        exists pn; by split_and!|].
  all: destruct (_ && (_ <? _)); [injection Hd as <- _ <- _;
         destruct (Hsamek k eq_refl) as (pn & P1 & P2 & P3); exists pn; by split_and!|].
  all: destruct (_ || _); [injection Hd as <- _ <- _;
         destruct (Hsamek k eq_refl) as (pn & P1 & P2 & P3); exists pn; by split_and!|].
  all: rewrite Hval in Hd;
       match type of Hd with mbind _ ?e = _ => destruct e as [cres|] eqn:Ec; [|discriminate Hd] end;
       cbn [mbind option_bind] in Hd;
       pose proof (aead_check_and_open_inv _ _ _ _ _ _ _ _ _ Hok Hlast Hpok Hsame Ec) as Hinv;
       destruct cres as [[[drop k1] d]|[[r1 k1] d]].
  all: try (injection Hd as <- _ <- _; destruct Hinv as [Hdrop Hk1]; exists last; split_and!;
            [done|apply Hpok..|lia|done]).
  all: obind Hd; injection Hd as <- _ <- _; destruct Hinv as (pn & Hk1 & Hp & Hlt); exists pn;
       split; [done|]; split; [done|]; split; [lia|done].
Qed.

(** A run over frames of one queue; each comes with its status flags.  The
    result lists the packet numbers of the data frames accepted. *)
Fixpoint aead_rx_run (mode : aead_mode) (mic_len q : Z) (epp : option bool) (links : list Z)
    (k : aead_key) (frames : list (Z * sk_buff)) : option (aead_key * list Z) :=
  match frames with
  | [] => Some (k, [])
  | (flag, skb) :: frames =>
      fc ← hdr_frame_control (data skb);
      '(res, _, k, _) ← aead_crypto_decrypt mode mic_len (mk_rx_data flag q epp links []) k skb;
      pn ← rx_pn_of k q;
      '(k, l) ← aead_rx_run mode mic_len q epp links k frames;
      Some (k, if bool_decide (res = RX_CONTINUE) && ieee80211_is_data fc
               then be_value pn :: l else l)
  end.

Definition frame_plain (f : Z * sk_buff) : Prop :=
  bytes_ok (data f.2) /\ flag_set f.1 RX_FLAG_ALLOW_SAME_PN = false /\
  flag_set f.1 RX_FLAG_PN_VALIDATED = false.

Lemma aead_rx_run_sorted mode mic_len q epp links frames k k' l last :
  am_short mode <> RX_CONTINUE -> Forall frame_plain frames ->
  rx_pn_of k q = Some last -> pn_ok last ->
  aead_rx_run mode mic_len q epp links k frames = Some (k', l) ->
  StronglySorted Z.lt l /\ Forall (Z.lt (be_value last)) l.
Proof.
  intros Hmode Hall. revert k last l. induction Hall as [|[flag skb] frames (Hb & Hs & Hv) _ IH];
    intros k last l Hlast Hok Hrun; cbn [aead_rx_run] in Hrun.
  { injection Hrun as _ <-. split; constructor. }
  cbn [fst snd] in *.
  destruct (hdr_frame_control (data skb)) as [fc|] eqn:Hfc; [|discriminate Hrun].
  cbn [mbind option_bind] in Hrun.
  destruct (aead_crypto_decrypt _ _ _ _ _) as [[[[res r1] k1] s1]|] eqn:Ed; [|discriminate Hrun].
  cbn [mbind option_bind] in Hrun.
  destruct (aead_crypto_decrypt_inv _ _ (mk_rx_data flag q epp links []) _ _ _ _ _ _ fc last Hb Hfc Hlast Hok Hs Hv Ed Hmode)
    as (pn & Hpn & Hpok & Hle & Hlt).
  cbn [security_idx] in Hpn. rewrite Hpn in Hrun. cbn [mbind option_bind] in Hrun.
  destruct (aead_rx_run _ _ _ _ _ k1 frames) as [[k2 l2]|] eqn:Er; [|discriminate Hrun].
  cbn [mbind option_bind] in Hrun. injection Hrun as -> <-.
  destruct (IH k1 pn l2 Hpn Hpok Er) as [Hsort Hfor].
  assert (Forall (Z.lt (be_value last)) l2) as Hfor'.
  { eapply Forall_impl; [exact Hfor|]. intros x Hx. simpl in *. lia. }
  destruct (bool_decide (res = RX_CONTINUE) && ieee80211_is_data fc) eqn:Eacc; [|done].
  apply andb_true_iff in Eacc as [E1%bool_decide_eq_true E2].
  split; constructor; try done. by apply Hlt.
Qed.
End handlers.

(** ** Properties *)

Section properties.
Context `{AeadLaws} `{SkbAllocLaws}.

(** C23: CCMP and GCMP protect and unprotect are inverse.  A data frame with a
    non-empty body passed through the encryption handler ([mode] is CCMP with
    either MIC length, or GCMP), and received by a station with the same key
    whose packet number for the queue is behind, is accepted with the same
    body behind the same header, Protected set, and the queue's packet number
    becomes the one sent. *)
Theorem aead_frame_roundtrip mode mic_len ks kr r skb hdr body fc last epp :
  let pn := u64 (tx_pn ks + 1) in
  data skb = hdr ++ body -> (forall l, hdr_frame_control (hdr ++ l) = Some fc) -> is_uint 16 fc ->
  ieee80211_is_data fc = true -> zlen hdr = ieee80211_hdrlen fc -> body <> [] ->
  0 <= mic_len -> (forall n, kzalloc n = true) -> 8 <= skb_headroom skb ->
  mic_len <= skb_tailroom skb -> cloned skb = false ->
  tfm kr = tfm ks -> keyidx (conf kr) = keyidx (conf ks) ->
  flag_set (flags (conf kr)) IEEE80211_KEY_FLAG_SPP_AMSDU =
    flag_set (flags (conf ks)) IEEE80211_KEY_FLAG_SPP_AMSDU ->
  status_flag r = 0 -> sta_epp r = Some epp -> rx_pn_of kr (security_idx r) = Some last ->
  memcmp (pn_bytes pn) last = Gt -> skb_len skb + 8 + mic_len < 2 ^ 31 ->
  exists ks' skb2 r' kr' skb3 hdr',
    aead_crypto_encrypt mode mic_len ks [(None, skb)] = Some (TX_CONTINUE, ks', [(None, skb2)]) /\
    tx_pn ks' = pn /\
    aead_crypto_decrypt mode mic_len r kr skb2 = Some (RX_CONTINUE, r', kr', skb3) /\
    data skb3 = hdr' ++ body /\ drop 2 hdr' = drop 2 hdr /\
    hdr_frame_control (hdr' ++ body) = Some (fc .| IEEE80211_FCTL_PROTECTED) /\
    rx_pn_of kr' (security_idx r) = Some (pn_bytes pn).
Proof.
  intros pn Hd Hfc Hu Hdt Hl Hne Hm Hkz Hhr Htail Hcl Et Ei Espp Hflag Hepp Hlast Hgt H31.
  destruct (set_protected_app hdr body fc) as (hdr' & Hprot & [Hlen Hdrop] & Hfc');
    [specialize (Hfc []); by rewrite app_nil_r in Hfc|done|].
  assert (zlen hdr' = zlen hdr) as Ez by (unfold zlen; lia).
  assert (data_hdr hdr' (fc .| IEEE80211_FCTL_PROTECTED)) as Hh.
  { split; [done|]. by rewrite is_data_protected, hdrlen_protected, Ez. }
  destruct (aead_encrypt_skb_eq mode mic_len ks (set_data skb (hdr' ++ body))
    (set_data skb (hdr' ++ body)) hdr' body _ Hh) as (h & ct & mic & skb2 & Hsl & Hpn & He & Hd2);
    [done..|by apply crypto_tx_tailroom_have|].
  fold pn in Hsl, Hpn, He.
  assert (sealed mode mic_len kr hdr' pn body = Some (ct, mic)) as Hsr.
  { unfold sealed in *. by rewrite Espp, Et. }
  pose proof Hsl as Hsl'. unfold sealed in Hsl'. obind Hsl'.
  match type of Hsl' with (let '(_, _) := ?e in _) = _ => destruct e as [nonce aad] end.
  obind Hsl'. injection Hsl' as Es.
  pose proof (aead_seal_length (tfm ks) mic_len nonce x body) as Lct.
  pose proof (aead_tag_length (tfm ks) mic_len nonce x body Hm) as Lmic.
  destruct (aead_crypto_decrypt_eq mode mic_len r kr skb2 hdr' _ h ct mic pn body last epp Hh Hd2)
    as (r' & skb3 & Hdec & Hd3); try done.
  { by rewrite Ei. }
  { destruct (ccmp_pn2hdr_bytes pn (keyidx (conf ks))) as (h' & Eh & Hz & _).
    rewrite Hpn in Eh. injection Eh as <-. rewrite Es in Lct, Lmic. cbn [fst snd] in *.
    unfold skb_len in *. rewrite Hd2. rewrite Hd in H31. zlens. unfold zlen in *. lia. }
  exists (set_tx_pn ks pn), skb2, r', (set_rx_pn kr (security_idx r) (pn_bytes pn)), skb3, hdr'. split_and!; [| |exact Hdec|done|done|done|].
  - unfold aead_crypto_encrypt, ieee80211_tx_set_protected. cbn [mapM]. rewrite Hd, Hprot.
    cbn [mbind option_bind mret option_ret tx_walk]. rewrite He. done.
  - done.
  - apply rx_pn_of_set. by eapply rx_pn_of_range.
Qed.

(** C24: CCMP and GCMP replay protection.  Over any sequence of frames on one
    queue, genuine, forged, replayed or reordered, for which the hardware neither
    vouches for packet numbers ([RX_FLAG_PN_VALIDATED]) nor allows repeats
    ([RX_FLAG_ALLOW_SAME_PN]), the packet numbers of the accepted data frames are
    strictly increasing and above the last one accepted before on that queue. *)
Theorem aead_replay_protection mode mic_len q epp links frames k k' l last :
  am_short mode <> RX_CONTINUE -> Forall frame_plain frames ->
  rx_pn_of k q = Some last -> pn_ok last ->
  aead_rx_run mode mic_len q epp links k frames = Some (k', l) ->
  StronglySorted Z.lt l /\ Forall (Z.lt (be_value last)) l.
Proof. apply aead_rx_run_sorted. Qed.

(** The additional authenticated data is insensitive to exactly what may
    change on the air: frames whose headers agree outside the Retry, Power
    Management, More Data and Protected bits and the sequence number have the
    same additional data and priority, in four-address and QoS frames alike. *)
Theorem aad_ignores_mutable_fields f g fc fc' link spp :
  aad_equiv f g fc fc' -> ccmp_gcmp_aad f link spp = ccmp_gcmp_aad g link spp.
Proof. apply aad_equiv_same. Qed.
End properties.

(** ** The hypotheses hold on concrete frames *)

(** A transform that satisfies the AEAD laws. *)
Definition sample_aead : Aead := {|
  aead_seal := fun key n nonce aad pt =>
    (map (fun x => x .^ 0x33) pt, replicate (Z.to_nat n) (u8 (foldr Z.add 1 (nonce ++ aad ++ pt))));
  aead_open := fun key n nonce aad ct tag =>
    let pt := map (fun x => x .^ 0x33) ct in
    if decide (tag = replicate (Z.to_nat n) (u8 (foldr Z.add 1 (nonce ++ aad ++ pt)))) then Some pt
    else None;
  kzalloc := fun _ => true;
|}.

Lemma sample_aead_laws : @AeadLaws sample_aead.
Proof.
  assert (forall l : list Z, map (fun x => x .^ 0x33) (map (fun x => x .^ 0x33) l) = l) as Hinv.
  { intros l. rewrite map_map. rewrite <- (map_id l) at 2. apply map_ext. intros x.
    by rewrite Z.lxor_assoc, Z.lxor_nilpotent, Z.lxor_0_r. }
  split; intros; cbn [aead_seal aead_open sample_aead fst snd] in *.
  - rewrite Hinv. by rewrite decide_True.
  - by rewrite length_map.
  - unfold zlen. rewrite length_replicate. lia.
  - revert H. case_decide; [|done]. intros [= <-]. by rewrite length_map.
Qed.

Section witness.
#[local] Existing Instances sample_aead sample_aead_laws Sample.alloc Sample.alloc_laws.

Let kc : ieee80211_key_conf := mk_key_conf 0 16 0 WLAN_CIPHER_SUITE_CCMP (replicate 16 1).
Let ks : aead_key := mk_aead_key kc (replicate 16 1) 41 [] 0.
Let kr : aead_key := mk_aead_key kc (replicate 16 1) 0 (replicate 17 [0; 0; 0; 0; 0; 9]) 0.
Let hdr : list Z := [0x88; 0x01; 0; 0] ++ replicate 20 9 ++ [5; 0].
Let body : list Z := [0xaa; 0xaa; 3].
Let skb : sk_buff := mk_skb (replicate 8 0) (hdr ++ body) (replicate 8 0) false.

Lemma aead_frame_roundtrip_witness :
  exists ks' skb2 r' kr' skb3 hdr',
    aead_crypto_encrypt ccmp_mode 8 ks [(None, skb)] = Some (TX_CONTINUE, ks', [(None, skb2)]) /\
    tx_pn ks' = 42 /\
    aead_crypto_decrypt ccmp_mode 8 (mk_rx_data 0 5 (Some true) [] []) kr skb2 =
      Some (RX_CONTINUE, r', kr', skb3) /\
    data skb3 = hdr' ++ body /\ drop 2 hdr' = drop 2 hdr /\
    hdr_frame_control (hdr' ++ body) = Some (0x0188 .| IEEE80211_FCTL_PROTECTED) /\
    rx_pn_of kr' 5 = Some (pn_bytes 42).
Proof.
  apply (aead_frame_roundtrip ccmp_mode 8 ks kr (mk_rx_data 0 5 (Some true) [] []) skb hdr body
    0x0188 [0; 0; 0; 0; 0; 9] true); try done; try (vm_compute; reflexivity).
  all: vm_compute; done.
Defined.

Lemma aead_replay_protection_witness :
  exists k' l, aead_rx_run ccmp_mode 8 5 (Some true) [] kr [(RX_FLAG_DECRYPTED, skb); (0, skb)] =
      Some (k', l) /\
    StronglySorted Z.lt l /\ Forall (Z.lt (be_value [0; 0; 0; 0; 0; 9])) l.
Proof.
  destruct (aead_rx_run ccmp_mode 8 5 (Some true) [] kr [(RX_FLAG_DECRYPTED, skb); (0, skb)])
    as [[k' l]|] eqn:E; [|vm_compute in E; discriminate E].
  exists k', l. split; [done|].
  refine (aead_replay_protection ccmp_mode 8 5 (Some true) [] _ kr k' l [0; 0; 0; 0; 0; 9] _ _ _ _ E).
  - done.
  - repeat constructor; cbn [fst snd data]; vm_compute; done.
  - reflexivity.
  - split; [by repeat constructor|done].
Defined.

Lemma aad_ignores_mutable_fields_witness :
  ccmp_gcmp_aad hdr None false =
  ccmp_gcmp_aad ([0x88; 0x79; 0; 0] ++ replicate 18 9 ++ [0xf9; 3] ++ [5; 0]) None false.
Proof.
  apply (aad_ignores_mutable_fields _ _ 0x0188 0x7988).
  split; vm_compute; reflexivity.
Defined.
End witness.
