(* ===== verification/Bip.v ===== *)
(** * Bip: broadcast integrity protection of management frames

    Models the BIP handlers of [net/mac80211/wpa.c] (CMAC-128, CMAC-256, GMAC)
    and the message construction of [net/mac80211/aes_cmac.c] and
    [aes_gmac.c].  AES-CMAC and the AES-GCM transform are interfaces. *)
From S2P Require Import Prelude Frame Skb Key Ccmp.

Definition WLAN_EID_MMIE : Z := 76.
(** Fixed part of [struct ieee80211_mmie_var]. *)
Definition sizeof_mmie_var : Z := 10.
Definition sizeof_mmie_16 : Z := 26.
Definition GMAC_AAD_LEN : Z := 20.

(** AES-CMAC of a message: 16 bytes. *)
Class Cmac := aes_cmac : list Z -> list Z -> list Z.
Class CmacLaws `{Cmac} := aes_cmac_length key msg : length (aes_cmac key msg) = 16%nat.

Definition bip_aad (frame : list Z) : option (list Z) :=
  fc ← hdr_frame_control frame;
  let mask_fc := fc .& Z.lnot (IEEE80211_FCTL_RETRY .| IEEE80211_FCTL_PM .|
                               IEEE80211_FCTL_MOREDATA) in
  addrs ← slice frame ADDR1 (3 * ETH_ALEN);
  Some (le16_bytes mask_fc ++ addrs).

Definition bip_ipn_set64 (pn : Z) : list Z :=
  [u8 pn; u8 (pn >> 8); u8 (pn >> 16); u8 (pn >> 24); u8 (pn >> 32); u8 (pn >> 40)].

Definition bip_ipn_swap (s : list Z) : list Z := reverse s.

Record bip_key := mk_bip_key {
  conf : ieee80211_key_conf;
  kmat : list Z;           (* the CMAC key, or the GMAC transform's key *)
  tx_pn : Z;
  rx_pn : list Z;
  replays : Z;
  icverrors : Z;
}.

Definition set_tx_pn (k : bip_key) (pn : Z) : bip_key :=
  mk_bip_key (conf k) (kmat k) pn (rx_pn k) (replays k) (icverrors k).
Definition set_rx_pn (k : bip_key) (pn : list Z) : bip_key :=
  mk_bip_key (conf k) (kmat k) (tx_pn k) pn (replays k) (icverrors k).
Definition inc_replays (k : bip_key) : bip_key :=
  mk_bip_key (conf k) (kmat k) (tx_pn k) (rx_pn k) (u32 (replays k + 1)) (icverrors k).
Definition inc_icverrors (k : bip_key) : bip_key :=
  mk_bip_key (conf k) (kmat k) (tx_pn k) (rx_pn k) (replays k) (u32 (icverrors k + 1)).

(** The message both MACs authenticate: the additional data, the frame body
    with the MIC field (its last [mic_len] bytes) and, in a beacon, the
    timestamp masked to zero. *)
Definition bip_message (aad data : list Z) (data_len mic_len : Z) : option (list Z) :=
  fc ← rd_le16 aad 0;
  body ← (if ieee80211_is_beacon fc then
            b ← slice data 8 (data_len - 8 - mic_len); Some (replicate 8 0 ++ b)
          else slice data 0 (data_len - mic_len));
  Some (aad ++ body ++ replicate (Z.to_nat mic_len) 0).

(** The MMIE up to the MIC. *)
Definition mmie_head (len keyidx pn : Z) : list Z :=
  [WLAN_EID_MMIE; u8 (len - 2)] ++ le16_bytes keyidx ++ bip_ipn_set64 pn.

Section bip.
Context `{Cmac} `{Aead}.

Definition ieee80211_aes_cmac (key aad data : list Z) (data_len mic_len : Z) : option (list Z) :=
  m ← bip_message aad data data_len mic_len;
  Some (take (Z.to_nat mic_len) (aes_cmac key m)).

(** The frames are the transmit queue, which must hold exactly one. *)
Definition ieee80211_crypto_aes_cmac_encrypt (k : bip_key) (skbs : list tx_skb) (mic_len : Z)
  : option (tx_result * bip_key * list tx_skb) :=
  match skbs with
  | [(hw_key, skb)] =>
      let hwaccel := match hw_key with Some _ => true | None => false end in
      if hwaccel && negb (flag_set (flags (conf k)) IEEE80211_KEY_FLAG_GENERATE_MMIE) then
        Some (TX_CONTINUE, k, skbs)
      else
        let mmie_len := sizeof_mmie_var + mic_len in
        if skb_tailroom skb <? mmie_len then Some (TX_DROP, k, skbs)
        else
          let mmie := skb_len skb in
          skb ← skb_put skb mmie_len;
          let pn64 := u64 (tx_pn k + 1) in
          let k := set_tx_pn k pn64 in
          d ← store (data skb) mmie (mmie_head mmie_len (keyidx (conf k)) pn64);
          let skb := set_data skb d in
          if hwaccel then Some (TX_CONTINUE, k, [(hw_key, skb)])
          else
            aad ← bip_aad (data skb);
            body ← slice (data skb) 24 (skb_len skb - 24);
            mic ← ieee80211_aes_cmac (kmat k) aad body (skb_len skb - 24) mic_len;
            d ← store (data skb) (mmie + sizeof_mmie_var) mic;
            Some (TX_CONTINUE, k, [(hw_key, set_data skb d)])
  | _ => Some (TX_DROP, k, skbs)
  end.

Definition ieee80211_crypto_aes_cmac_decrypt (flag : Z) (k : bip_key) (skb : sk_buff) (mic_len : Z)
  : option (rx_result * bip_key * sk_buff) :=
  fc ← hdr_frame_control (data skb);
  if negb (ieee80211_is_mgmt fc) then Some (RX_CONTINUE, k, skb)
  else
    let mmie_len := sizeof_mmie_var + mic_len in
    if skb_len skb <? 24 + mmie_len then
      Some (if mic_len =? IEEE80211_CMAC_128_MIC_LEN then RX_DROP_U_SHORT_CMAC
            else RX_DROP_U_SHORT_CMAC256, k, skb)
    else
      let mmie := skb_len skb - mmie_len in
      eid ← rd8 (data skb) mmie;
      len ← rd8 (data skb) (mmie + 1);
      if negb (eid =? WLAN_EID_MMIE) || negb (len =? mmie_len - 2) then
        Some (RX_DROP_U_BAD_MMIE, k, skb)
      else
        seq ← slice (data skb) (mmie + 4) 6;
        let ipn := bip_ipn_swap seq in
        if negb (bool_decide (memcmp ipn (rx_pn k) = Gt)) then
          Some (RX_DROP_U_REPLAY, inc_replays k, skb)
        else
          good ← (if flag_set flag RX_FLAG_DECRYPTED then Some true
                  else
                    aad ← bip_aad (data skb);
                    body ← slice (data skb) 24 (skb_len skb - 24);
                    mic ← ieee80211_aes_cmac (kmat k) aad body (skb_len skb - 24) mic_len;
                    sent ← slice (data skb) (mmie + sizeof_mmie_var) mic_len;
                    Some (bool_decide (mic = sent)));
          if negb good then Some (RX_DROP_U_MIC_FAIL, inc_icverrors k, skb)
          else Some (RX_CONTINUE, set_rx_pn k ipn, skb_trim skb (skb_len skb - mmie_len)).

(** The C result and, on success, the MIC.  The GCM transform runs with no
    plaintext over [GMAC_AAD_LEN + data_len] bytes of additional data. *)
Definition ieee80211_aes_gmac (tfm aad nonce data : list Z) (data_len : Z)
  : option (Z * list Z) :=
  if data_len <? IEEE80211_GMAC_MIC_LEN then Some (- EINVAL, [])
  else if negb (kzalloc (IEEE80211_GMAC_MIC_LEN + GMAC_AAD_LEN)) then Some (- ENOMEM, [])
  else
    m ← bip_message aad data data_len IEEE80211_GMAC_MIC_LEN;
    Some (0, (aead_seal tfm IEEE80211_GMAC_MIC_LEN (nonce ++ [0; 0; 0; 1]) m []).2).

Definition ieee80211_crypto_aes_gmac_encrypt (k : bip_key) (skbs : list tx_skb)
  : option (tx_result * bip_key * list tx_skb) :=
  match skbs with
  | [(hw_key, skb)] =>
      let hwaccel := match hw_key with Some _ => true | None => false end in
      if hwaccel && negb (flag_set (flags (conf k)) IEEE80211_KEY_FLAG_GENERATE_MMIE) then
        Some (TX_CONTINUE, k, skbs)
      else if skb_tailroom skb <? sizeof_mmie_16 then Some (TX_DROP, k, skbs)
      else
        let mmie := skb_len skb in
        skb ← skb_put skb sizeof_mmie_16;
        let pn64 := u64 (tx_pn k + 1) in
        let k := set_tx_pn k pn64 in
        d ← store (data skb) mmie (mmie_head sizeof_mmie_16 (keyidx (conf k)) pn64);
        let skb := set_data skb d in
        if hwaccel then Some (TX_CONTINUE, k, [(hw_key, skb)])
        else
          aad ← bip_aad (data skb);
          a2 ← slice (data skb) ADDR2 ETH_ALEN;
          body ← slice (data skb) 24 (skb_len skb - 24);
          '(r, mic) ← ieee80211_aes_gmac (kmat k) aad (a2 ++ bip_ipn_swap (bip_ipn_set64 pn64)) body
                        (skb_len skb - 24);
          if r <? 0 then Some (TX_DROP, k, [(hw_key, skb)])
          else
            d ← store (data skb) (mmie + sizeof_mmie_var) mic;
            Some (TX_CONTINUE, k, [(hw_key, set_data skb d)])
  | _ => Some (TX_DROP, k, skbs)
  end.

Definition ieee80211_crypto_aes_gmac_decrypt (flag : Z) (k : bip_key) (skb : sk_buff)
  : option (rx_result * bip_key * sk_buff) :=
  fc ← hdr_frame_control (data skb);
  if negb (ieee80211_is_mgmt fc) then Some (RX_CONTINUE, k, skb)
  else if skb_len skb <? 24 + sizeof_mmie_16 then Some (RX_DROP_U_SHORT_GMAC, k, skb)
  else
    let mmie := skb_len skb - sizeof_mmie_16 in
    eid ← rd8 (data skb) mmie;
    len ← rd8 (data skb) (mmie + 1);
    if negb (eid =? WLAN_EID_MMIE) || negb (len =? sizeof_mmie_16 - 2) then
      Some (RX_DROP_U_BAD_MMIE, k, skb)
    else
      seq ← slice (data skb) (mmie + 4) 6;
      let ipn := bip_ipn_swap seq in
      if negb (bool_decide (memcmp ipn (rx_pn k) = Gt)) then
        Some (RX_DROP_U_REPLAY, inc_replays k, skb)
      else
        let accept := (RX_CONTINUE, set_rx_pn k ipn, skb_trim skb (skb_len skb - sizeof_mmie_16)) in
        if flag_set flag RX_FLAG_DECRYPTED then Some accept
        else
          aad ← bip_aad (data skb);
          a2 ← slice (data skb) ADDR2 ETH_ALEN;
          if negb (kzalloc IEEE80211_GMAC_MIC_LEN) then Some (RX_DROP_U_OOM, k, skb)
          else
            body ← slice (data skb) 24 (skb_len skb - 24);
            '(r, mic) ← ieee80211_aes_gmac (kmat k) aad (a2 ++ ipn) body (skb_len skb - 24);
            sent ← slice (data skb) (mmie + sizeof_mmie_var) IEEE80211_GMAC_MIC_LEN;
            if (r <? 0) || negb (bool_decide (mic = sent)) then
              Some (RX_DROP_U_MIC_FAIL, inc_icverrors k, skb)
            else Some accept.

End bip.

(** ** Lemmas *)

Lemma bip_ipn_swap_set64 pn : bip_ipn_swap (bip_ipn_set64 pn) = pn_bytes pn.
Proof. reflexivity. Qed.

(** The message ignores the contents of the MIC field. *)
Lemma bip_message_mic aad b m m' n :
  zlen m = n -> zlen m' = n ->
  bip_message aad (b ++ m) (zlen (b ++ m)) n = bip_message aad (b ++ m') (zlen (b ++ m')) n.
Proof.
  intros Hm Hm'. unfold bip_message. destruct (rd_le16 aad 0) as [fc|]; [|done]. cbn [mbind option_bind].
  zlens. rewrite Hm, Hm'. rewrite !(slice_app_l b) by lia. done.
Qed.

Lemma bip_message_total aad b m n fc :
  rd_le16 aad 0 = Some fc -> zlen m = n -> 0 <= n -> 8 <= zlen b ->
  exists msg, bip_message aad (b ++ m) (zlen (b ++ m)) n = Some msg.
Proof.
  intros Hfc Hm Hn Hb. unfold bip_message. rewrite Hfc. cbn [mbind option_bind]. zlens. rewrite Hm.
  destruct (ieee80211_is_beacon fc).
  - destruct (slice_total (b ++ m) 8 (zlen b + n - 8 - n)) as (x & -> & _); [lia|lia|zlens; lia|].
    cbn [mbind option_bind]. eauto.
  - destruct (slice_total (b ++ m) 0 (zlen b + n - n)) as (x & -> & _); [lia|lia|zlens; lia|].
    cbn [mbind option_bind]. eauto.
Qed.

Lemma frame_control_app F l : 2 <= zlen F -> hdr_frame_control (F ++ l) = hdr_frame_control F.
Proof.
  intros H. unfold hdr_frame_control, rd_le16. by rewrite !rd8_app_l by lia.
Qed.

(** A management frame's additional data comes from its header. *)
Lemma bip_aad_total F :
  24 <= zlen F -> exists aad fc, (forall l, bip_aad (F ++ l) = Some aad) /\ rd_le16 aad 0 = Some fc.
Proof.
  intros H. destruct (rd_le16_Some F 0) as [fc Hfc]; [lia..|].
  destruct (slice_total F ADDR1 (3 * ETH_ALEN)) as (a & Ha & _); [done|done|unfold ADDR1, ETH_ALEN; lia|].
  set (m := fc .& Z.lnot (IEEE80211_FCTL_RETRY .| IEEE80211_FCTL_PM .| IEEE80211_FCTL_MOREDATA)).
  exists (le16_bytes m ++ a). eexists. split; [|reflexivity].
  intros l. unfold bip_aad. rewrite frame_control_app by lia. unfold hdr_frame_control. rewrite Hfc.
  cbn [mbind option_bind]. rewrite slice_app_l, Ha by (unfold ADDR1, ETH_ALEN; lia). done.
Qed.

Lemma mmie_head_len len kid pn : zlen (mmie_head len kid pn) = 10.
Proof. done. Qed.

(** Reading the fields of a trailing MMIE back. *)
Lemma mmie_fields F len kid pn mic :
  2 <= len < 258 ->
  rd8 (F ++ mmie_head len kid pn ++ mic) (zlen F) = Some WLAN_EID_MMIE /\
  rd8 (F ++ mmie_head len kid pn ++ mic) (zlen F + 1) = Some (len - 2) /\
  slice (F ++ mmie_head len kid pn ++ mic) (zlen F + 4) 6 = Some (bip_ipn_set64 pn).
Proof.
  intros Hl. split; [|split].
  - rewrite <- (Z.add_0_r (zlen F)), rd8_app_r by lia. done.
  - rewrite rd8_app_r by lia. transitivity (Some (u8 (len - 2))); [done|].
    rewrite wrap_small; [done|]. unfold is_uint. lia.
  - unfold mmie_head. rewrite <- !app_assoc.
    rewrite (app_assoc F), (app_assoc (F ++ _)).
    replace (zlen F + 4) with (zlen ((F ++ [WLAN_EID_MMIE; u8 (len - 2)]) ++ le16_bytes kid))
      by (zlens; change (zlen (le16_bytes kid)) with 2; lia).
    by rewrite slice_app.
Qed.

(** The buffer after the MMIE has been appended. *)
Lemma append_mmie s F len kid pn :
  data s = F -> 10 <= len -> len <= skb_tailroom s ->
  exists s' t2 t, skb_put s len = Some s' /\ zlen t2 = len - 10 /\
    store (data s') (zlen F) (mmie_head len kid pn) = Some (F ++ mmie_head len kid pn ++ t2) /\
    s' = mk_skb (head s) (data s') t (cloned s).
Proof.
  intros Hd H10 Hl.
  destruct (split_at (tail s) len) as (a & t & Ea & Ha); [unfold skb_tailroom in Hl; lia|].
  destruct (split_at a 10) as (h & t2 & -> & Hh); [lia|].
  eexists _, t2, t. split; [by apply (skb_put_at s (h ++ t2) t)|]. cbn [data]. rewrite Hd.
  split; [zlens; lia|]. split; [|done].
  rewrite store_app; [done|]. unfold zlen in Hh. change (length (mmie_head len kid pn)) with 10%nat. lia.
Qed.

Lemma slice_from F x y : zlen F = x -> slice (F ++ y) x (zlen (F ++ y) - x) = Some y.
Proof. intros <-. rewrite slice_suffix; [done|zlens; lia]. Qed.

Lemma is_mgmt_app F l fc :
  24 <= zlen F -> hdr_frame_control F = Some fc -> hdr_frame_control (F ++ l) = Some fc.
Proof. intros ? <-. apply frame_control_app. lia. Qed.

(** Receiving a frame that ends in a well-formed MMIE. *)
Record mmie_frame (F : list Z) (len kid pn : Z) (mic d : list Z) : Prop := {
  mf_data : d = F ++ mmie_head len kid pn ++ mic;
  mf_len : zlen mic = len - 10;
  mf_body : 24 <= zlen F;
  mf_small : 10 <= len < 258;
}.

Lemma mmie_frame_len F len kid pn mic d : mmie_frame F len kid pn mic d -> zlen d = zlen F + len.
Proof. intros [-> Hl _ _]. zlens. rewrite mmie_head_len. lia. Qed.

Section handlers.
Context `{CmacLaws} `{AeadLaws}.

(** What both MACs run over: header-derived data and the bytes after the header. *)
Lemma mmie_frame_mac_input F len kid pn :
  24 <= zlen F -> 10 <= len ->
  exists aad msg, (forall l, bip_aad (F ++ l) = Some aad) /\
    (forall mic, zlen mic = len - 10 -> exists body,
      let d := F ++ mmie_head len kid pn ++ mic in
      slice d 24 (zlen d - 24) = Some body /\ zlen body = zlen d - 24 /\
      bip_message aad body (zlen body) (len - 10) = Some msg).
Proof.
  intros HF Hl. destruct (bip_aad_total F HF) as (aad & fc & Haad & Hfc).
  destruct (split_at F 24) as (h & b & -> & Hh); [lia|].
  set (z := replicate (Z.to_nat (len - 10)) 0).
  assert (zlen z = len - 10) as Hz by (unfold z, zlen; rewrite length_replicate; lia).
  destruct (bip_message_total aad (b ++ mmie_head len kid pn) z (len - 10) fc) as [msg Hmsg];
    [done|done|lia|zlens; rewrite mmie_head_len; pose proof (zlen_nonneg b); lia|].
  exists aad, msg. split; [done|]. intros mic Hm. exists ((b ++ mmie_head len kid pn) ++ mic). cbv zeta.
  split; [|split].
  - rewrite <- app_assoc, (app_assoc b). by apply slice_from.
  - zlens. lia.
  - rewrite <- Hmsg. by apply bip_message_mic.
Qed.

(** Sending: the MMIE is appended and its MIC is that of the frame. *)
Lemma aes_cmac_encrypt_eq ks skb F mic_len aad msg :
  let pn := u64 (tx_pn ks + 1) in
  let mic := take (Z.to_nat mic_len) (aes_cmac (kmat ks) msg) in
  data skb = F -> 24 <= zlen F -> 0 <= mic_len <= 16 -> sizeof_mmie_var + mic_len <= skb_tailroom skb ->
  (forall l, bip_aad (F ++ l) = Some aad) ->
  (forall t, zlen t = mic_len -> exists body,
     let d := F ++ mmie_head (10 + mic_len) (keyidx (conf ks)) pn ++ t in
     slice d 24 (zlen d - 24) = Some body /\ zlen body = zlen d - 24 /\
     bip_message aad body (zlen body) mic_len = Some msg) ->
  exists skb2,
    ieee80211_crypto_aes_cmac_encrypt ks [(None, skb)] mic_len =
      Some (TX_CONTINUE, set_tx_pn ks pn, [(None, skb2)]) /\
    mmie_frame F (10 + mic_len) (keyidx (conf ks)) pn mic (data skb2).
Proof.
  intros pn mic Hd HF Hm Ht Haad Hmac. unfold sizeof_mmie_var in *.
  destruct (append_mmie skb F (10 + mic_len) (keyidx (conf ks)) pn Hd) as (s1 & t2 & t & Hp & Hz & Hst & E1);
    [lia..|].
  destruct (Hmac t2) as (body & Hsl & Hb & Hmsg); [lia|].
  unfold ieee80211_crypto_aes_cmac_encrypt. cbn [andb]. unfold sizeof_mmie_var. fold pn.
  zcase; [lia|]. rewrite Hp. cbn [mbind option_bind conf set_tx_pn]. 
  assert (skb_len skb = zlen F) as Hsk by (unfold skb_len; by rewrite Hd). rewrite Hsk, Hst.
  cbn [mbind option_bind set_data data kmat set_tx_pn]. rewrite Haad. cbn [mbind option_bind].
  unfold skb_len. cbn [data set_data]. rewrite Hsl. cbn [mbind option_bind]. rewrite <- Hb.
  unfold ieee80211_aes_cmac. rewrite Hmsg. cbn [mbind option_bind].
  fold mic. rewrite (app_assoc F).
  replace (zlen F + 10) with (zlen (F ++ mmie_head (10 + mic_len) (keyidx (conf ks)) pn))
    by (zlens; rewrite mmie_head_len; lia).
  assert (zlen mic = mic_len) as Hmic.
  { unfold mic, zlen. rewrite length_take, aes_cmac_length. lia. }
  rewrite store_suffix by (unfold zlen in *; lia). cbn [mbind option_bind].
  eexists. split; [reflexivity|]. split; cbn [data set_data]; [by rewrite <- app_assoc|lia..].
Qed.

Definition gmac_nonce (a2 ipn : list Z) : list Z := (a2 ++ ipn) ++ [0; 0; 0; 1].

Lemma aes_gmac_encrypt_eq ks skb F aad msg a2 :
  let pn := u64 (tx_pn ks + 1) in
  let mic := (aead_seal (kmat ks) 16 (gmac_nonce a2 (pn_bytes pn)) msg []).2 in
  data skb = F -> 24 <= zlen F -> sizeof_mmie_16 <= skb_tailroom skb -> (forall n, kzalloc n = true) ->
  (forall l, bip_aad (F ++ l) = Some aad) -> (forall l, slice (F ++ l) ADDR2 ETH_ALEN = Some a2) ->
  (forall t, zlen t = 16 -> exists body,
     let d := F ++ mmie_head 26 (keyidx (conf ks)) pn ++ t in
     slice d 24 (zlen d - 24) = Some body /\ zlen body = zlen d - 24 /\
     bip_message aad body (zlen body) 16 = Some msg) ->
  exists skb2,
    ieee80211_crypto_aes_gmac_encrypt ks [(None, skb)] =
      Some (TX_CONTINUE, set_tx_pn ks pn, [(None, skb2)]) /\
    mmie_frame F 26 (keyidx (conf ks)) pn mic (data skb2).
Proof.
  intros pn mic Hd HF Ht Hkz Haad Ha2 Hmac. unfold sizeof_mmie_16 in *.
  destruct (append_mmie skb F 26 (keyidx (conf ks)) pn Hd) as (s1 & t2 & t & Hp & Hz & Hst & E1);
    [lia..|].
  destruct (Hmac t2) as (body & Hsl & Hb & Hmsg); [lia|].
  unfold ieee80211_crypto_aes_gmac_encrypt. cbn [andb]. unfold sizeof_mmie_16. fold pn.
  zcase; [lia|]. rewrite Hp. cbn [mbind option_bind conf set_tx_pn].
  assert (skb_len skb = zlen F) as Hsk by (unfold skb_len; by rewrite Hd). rewrite Hsk, Hst.
  cbn [mbind option_bind set_data data kmat set_tx_pn]. rewrite Haad. cbn [mbind option_bind].
  rewrite Ha2. cbn [mbind option_bind].
  unfold skb_len. cbn [data set_data]. rewrite Hsl. cbn [mbind option_bind]. rewrite <- Hb.
  unfold ieee80211_aes_gmac. unfold IEEE80211_GMAC_MIC_LEN in *. zcase.
  { exfalso. rewrite Hb in *. zlens. rewrite mmie_head_len in *. lia. }
  rewrite Hkz, Hmsg. cbn [negb mbind option_bind]. rewrite bip_ipn_swap_set64.
  fold (gmac_nonce a2 (pn_bytes pn)). fold mic. change (0 <? 0) with false. cbn beta iota.
  rewrite (app_assoc F). change sizeof_mmie_var with 10.
  replace (zlen F + 10) with (zlen (F ++ mmie_head 26 (keyidx (conf ks)) pn))
    by (zlens; rewrite mmie_head_len; lia).
  assert (zlen mic = 16) as Hmic by (by apply aead_tag_length).
  rewrite store_suffix by (unfold zlen in *; lia). cbn [mbind option_bind].
  eexists. split; [reflexivity|]. split; cbn [data set_data]; [by rewrite <- app_assoc|lia..].
Qed.

(** Receiving: the checks before the MIC. *)
Lemma mmie_frame_checks F len kid pn mic d :
  mmie_frame F len kid pn mic d ->
  zlen d - len = zlen F /\ 24 + len <= zlen d /\
  rd8 d (zlen F) = Some WLAN_EID_MMIE /\ rd8 d (zlen F + 1) = Some (len - 2) /\
  slice d (zlen F + 4) 6 = Some (bip_ipn_set64 pn) /\
  slice d (zlen F + sizeof_mmie_var) (len - 10) = Some mic /\ slice d 0 (zlen F) = Some F.
Proof.
  intros Hf. pose proof (mmie_frame_len _ _ _ _ _ _ Hf) as Hl. destruct Hf as [-> Hm HF Hs].
  destruct (mmie_fields F len kid pn mic) as (? & ? & ?); [lia|]. split_and!; try done; try lia.
  - rewrite (app_assoc F). replace (zlen F + sizeof_mmie_var) with (zlen (F ++ mmie_head len kid pn))
      by (zlens; rewrite mmie_head_len; done).
    by apply slice_suffix.
  - by apply slice_prefix.
Qed.

Lemma aes_cmac_decrypt_eq flag kr skb F mic_len kid pn mic aad body msg fc :
  mmie_frame F (10 + mic_len) kid pn mic (data skb) -> skb_len skb < 2 ^ 32 ->
  hdr_frame_control (data skb) = Some fc -> ieee80211_is_mgmt fc = true ->
  flag_set flag RX_FLAG_DECRYPTED = false ->
  bip_aad (data skb) = Some aad -> slice (data skb) 24 (skb_len skb - 24) = Some body ->
  bip_message aad body (skb_len skb - 24) mic_len = Some msg ->
  mic = take (Z.to_nat mic_len) (aes_cmac (kmat kr) msg) ->
  exists skb3,
    ieee80211_crypto_aes_cmac_decrypt flag kr skb mic_len =
      Some (if bool_decide (memcmp (pn_bytes pn) (rx_pn kr) = Gt) then
              (RX_CONTINUE, set_rx_pn kr (pn_bytes pn), skb3)
            else (RX_DROP_U_REPLAY, inc_replays kr, skb)) /\ data skb3 = F.
Proof.
  intros Hf H32 Hfc Hmg Hfl Haad Hbody Hmsg Hmic.
  destruct (mmie_frame_checks _ _ _ _ _ _ Hf) as (Hl & Hge & Heid & Hlen & Hseq & Hsent & _).
  replace (10 + mic_len - 10) with mic_len in Hsent by lia.
  exists (skb_trim skb (skb_len skb - (10 + mic_len))). split.
  - unfold ieee80211_crypto_aes_cmac_decrypt. rewrite Hfc. cbn [mbind option_bind]. rewrite Hmg.
    cbn [negb]. unfold sizeof_mmie_var in *. unfold skb_len in *.
    zcase; [lia|]. rewrite Hl, Heid. cbn [mbind option_bind]. rewrite Hlen. cbn [mbind option_bind].
    rewrite !Z.eqb_refl. cbn [negb orb]. rewrite Hseq. cbn [mbind option_bind].
    rewrite bip_ipn_swap_set64.
    destruct (bool_decide _); cbn [negb]; [|done]. rewrite Hfl, Haad. cbn [mbind option_bind].
    rewrite Hbody. cbn [mbind option_bind]. unfold ieee80211_aes_cmac. rewrite Hmsg.
    cbn [mbind option_bind]. rewrite Hsent. cbn [mbind option_bind].
    rewrite (bool_decide_eq_true_2 _ (eq_sym Hmic)). cbn [negb]. done.
  - destruct Hf as [Ed _ _ Hs]. unfold skb_len in *. rewrite Hl. eapply skb_trim_data; [exact Ed|done|].
    pose proof (zlen_nonneg (data skb)). lia.
Qed.

Lemma aes_gmac_decrypt_eq flag kr skb F kid pn mic aad body msg fc a2 :
  mmie_frame F 26 kid pn mic (data skb) -> skb_len skb < 2 ^ 32 ->
  hdr_frame_control (data skb) = Some fc -> ieee80211_is_mgmt fc = true ->
  flag_set flag RX_FLAG_DECRYPTED = false -> (forall n, kzalloc n = true) ->
  bip_aad (data skb) = Some aad -> slice (data skb) ADDR2 ETH_ALEN = Some a2 ->
  slice (data skb) 24 (skb_len skb - 24) = Some body ->
  bip_message aad body (skb_len skb - 24) 16 = Some msg ->
  mic = (aead_seal (kmat kr) 16 (gmac_nonce a2 (pn_bytes pn)) msg []).2 ->
  exists skb3,
    ieee80211_crypto_aes_gmac_decrypt flag kr skb =
      Some (if bool_decide (memcmp (pn_bytes pn) (rx_pn kr) = Gt) then
              (RX_CONTINUE, set_rx_pn kr (pn_bytes pn), skb3)
            else (RX_DROP_U_REPLAY, inc_replays kr, skb)) /\ data skb3 = F.
Proof.
  intros Hf H32 Hfc Hmg Hfl Hkz Haad Ha2 Hbody Hmsg Hmic.
  destruct (mmie_frame_checks _ _ _ _ _ _ Hf) as (Hl & Hge & Heid & Hlen & Hseq & Hsent & _).
  change (26 - 10) with 16 in Hsent. change (26 - 2) with 24 in Hlen.
  exists (skb_trim skb (skb_len skb - 26)). split.
  - unfold ieee80211_crypto_aes_gmac_decrypt. rewrite Hfc. cbn [mbind option_bind]. rewrite Hmg.
    cbn [negb]. unfold sizeof_mmie_16, skb_len in *.
    zcase; [lia|]. rewrite Hl, Heid. cbn [mbind option_bind]. rewrite Hlen. cbn [mbind option_bind].
    rewrite !Z.eqb_refl. cbn [negb orb]. rewrite Hseq. cbn [mbind option_bind].
    rewrite bip_ipn_swap_set64.
    destruct (bool_decide _); cbn [negb]; [|done]. rewrite Hfl, Haad. cbn [mbind option_bind].
    rewrite Ha2, Hkz. cbn [mbind option_bind negb]. rewrite Hbody. cbn [mbind option_bind].
    unfold ieee80211_aes_gmac, IEEE80211_GMAC_MIC_LEN in *. zcase; [lia|].
    rewrite Hkz, Hmsg. cbn [mbind option_bind negb]. rewrite Hsent. cbn [mbind option_bind].
    fold (gmac_nonce a2 (pn_bytes pn)). rewrite <- Hmic, bool_decide_eq_true_2 by done. done.
  - destruct Hf as [Ed _ _ Hs]. unfold skb_len in *. rewrite Hl. eapply skb_trim_data; [exact Ed|done|].
    pose proof (zlen_nonneg (data skb)). lia.
Qed.
End handlers.

Lemma memcmp_refl l : memcmp l l = Eq.
Proof. induction l as [|x l IH]; cbn [memcmp]; [done|]. by rewrite Z.compare_refl. Qed.

(** ** Properties *)

Section properties.
Context `{CmacLaws} `{AeadLaws}.

(** C27: BIP-CMAC protect and verify are inverse, and a frame is accepted once.
    A management frame sent through [ieee80211_crypto_aes_cmac_encrypt] (with
    a MIC of 8 or 16 bytes) leaves with the next packet number and an MMIE
    appended; a receiver with the same key whose packet number is behind
    accepts it, strips the MMIE to give back exactly the frame, and moves its
    packet number to the one sent; the same frame presented again is dropped
    as a replay and counted. *)
Theorem bip_cmac_roundtrip ks kr skb fc flag mic_len :
  let pn := u64 (tx_pn ks + 1) in
  24 <= skb_len skb -> skb_len skb + 10 + mic_len < 2 ^ 32 -> 0 <= mic_len <= 16 ->
  hdr_frame_control (data skb) = Some fc -> ieee80211_is_mgmt fc = true ->
  sizeof_mmie_var + mic_len <= skb_tailroom skb -> flag_set flag RX_FLAG_DECRYPTED = false ->
  kmat kr = kmat ks -> memcmp (pn_bytes pn) (rx_pn kr) = Gt ->
  exists ks' skb2 kr' skb3,
    ieee80211_crypto_aes_cmac_encrypt ks [(None, skb)] mic_len =
      Some (TX_CONTINUE, ks', [(None, skb2)]) /\ tx_pn ks' = pn /\
    ieee80211_crypto_aes_cmac_decrypt flag kr skb2 mic_len = Some (RX_CONTINUE, kr', skb3) /\
    data skb3 = data skb /\ rx_pn kr' = pn_bytes pn /\
    ieee80211_crypto_aes_cmac_decrypt flag kr' skb2 mic_len =
      Some (RX_DROP_U_REPLAY, inc_replays kr', skb2).
Proof.
  intros pn HF H32 Hm Hfc Hmg Ht Hfl Ek Hgt. unfold skb_len in *.
  destruct (mmie_frame_mac_input (data skb) (10 + mic_len) (keyidx (conf ks)) pn HF)
    as (aad & msg & Haad & Hmac); [lia|].
  replace (10 + mic_len - 10) with mic_len in Hmac by lia.
  destruct (aes_cmac_encrypt_eq ks skb (data skb) mic_len aad msg) as (skb2 & He & Hf); [done..|].
  fold pn in He, Hf. set (mic := take (Z.to_nat mic_len) (aes_cmac (kmat ks) msg)) in *.
  destruct (Hmac mic) as (body & Hsl & Hb & Hmsg); [destruct Hf; lia|].
  pose proof (mmie_frame_len _ _ _ _ _ _ Hf) as Hlen2.
  assert (data skb2 = data skb ++ mmie_head (10 + mic_len) (keyidx (conf ks)) pn ++ mic) as Ed
    by (by destruct Hf).
  rewrite <- Ed in Hsl, Hb. rewrite Hb in Hmsg.
  assert (forall k, kmat k = kmat ks -> exists skb3,
    ieee80211_crypto_aes_cmac_decrypt flag k skb2 mic_len =
      Some (if bool_decide (memcmp (pn_bytes pn) (rx_pn k) = Gt) then
              (RX_CONTINUE, set_rx_pn k (pn_bytes pn), skb3)
            else (RX_DROP_U_REPLAY, inc_replays k, skb2)) /\ data skb3 = data skb) as Hdec.
  { intros k Hk. eapply (aes_cmac_decrypt_eq flag k skb2 (data skb) mic_len _ pn mic aad body msg fc);
      try done; unfold skb_len; try lia.
    - rewrite Ed. by apply is_mgmt_app.
    - rewrite Ed. apply Haad.
    - by rewrite Hk. }
  destruct (Hdec kr Ek) as (skb3 & Hd1 & Hd3). rewrite bool_decide_eq_true_2 in Hd1 by done.
  destruct (Hdec (set_rx_pn kr (pn_bytes pn)) Ek) as (skb4 & Hd2 & _).
  cbn [rx_pn set_rx_pn] in Hd2. rewrite memcmp_refl, bool_decide_eq_false_2 in Hd2 by done.
  exists (set_tx_pn ks pn), skb2, (set_rx_pn kr (pn_bytes pn)), skb3. split_and!; done.
Qed.

(** BIP-GMAC protect and verify are inverse, and a frame is accepted once,
    for the GMAC handlers: the MIC there depends on the transmitter address
    and packet number through the nonce, which the receiver rebuilds from the
    frame. *)
Theorem bip_gmac_roundtrip ks kr skb fc flag :
  let pn := u64 (tx_pn ks + 1) in
  24 <= skb_len skb -> skb_len skb + 26 < 2 ^ 32 -> (forall n, kzalloc n = true) ->
  hdr_frame_control (data skb) = Some fc -> ieee80211_is_mgmt fc = true ->
  sizeof_mmie_16 <= skb_tailroom skb -> flag_set flag RX_FLAG_DECRYPTED = false ->
  kmat kr = kmat ks -> memcmp (pn_bytes pn) (rx_pn kr) = Gt ->
  exists ks' skb2 kr' skb3,
    ieee80211_crypto_aes_gmac_encrypt ks [(None, skb)] =
      Some (TX_CONTINUE, ks', [(None, skb2)]) /\ tx_pn ks' = pn /\
    ieee80211_crypto_aes_gmac_decrypt flag kr skb2 = Some (RX_CONTINUE, kr', skb3) /\
    data skb3 = data skb /\ rx_pn kr' = pn_bytes pn /\
    ieee80211_crypto_aes_gmac_decrypt flag kr' skb2 =
      Some (RX_DROP_U_REPLAY, inc_replays kr', skb2).
Proof.
  intros pn HF H32 Hkz Hfc Hmg Ht Hfl Ek Hgt. unfold skb_len in *.
  destruct (mmie_frame_mac_input (data skb) 26 (keyidx (conf ks)) pn HF)
    as (aad & msg & Haad & Hmac); [lia|]. change (26 - 10) with 16 in Hmac.
  destruct (slice_total (data skb) ADDR2 ETH_ALEN) as (a2 & Ha2 & _);
    [done|done|unfold ADDR2, ETH_ALEN; lia|].
  assert (forall l, slice (data skb ++ l) ADDR2 ETH_ALEN = Some a2) as Ha2l.
  { intros l. by rewrite slice_app_l by (unfold ADDR2, ETH_ALEN; lia). }
  destruct (aes_gmac_encrypt_eq ks skb (data skb) aad msg a2) as (skb2 & He & Hf); [done..|].
  fold pn in He, Hf.
  set (mic := (aead_seal (kmat ks) 16 (gmac_nonce a2 (pn_bytes pn)) msg []).2) in *.
  destruct (Hmac mic) as (body & Hsl & Hb & Hmsg); [destruct Hf; lia|].
  pose proof (mmie_frame_len _ _ _ _ _ _ Hf) as Hlen2.
  assert (data skb2 = data skb ++ mmie_head 26 (keyidx (conf ks)) pn ++ mic) as Ed
    by (by destruct Hf).
  rewrite <- Ed in Hsl, Hb. rewrite Hb in Hmsg.
  assert (forall k, kmat k = kmat ks -> exists skb3,
    ieee80211_crypto_aes_gmac_decrypt flag k skb2 =
      Some (if bool_decide (memcmp (pn_bytes pn) (rx_pn k) = Gt) then
              (RX_CONTINUE, set_rx_pn k (pn_bytes pn), skb3)
            else (RX_DROP_U_REPLAY, inc_replays k, skb2)) /\ data skb3 = data skb) as Hdec.
  { intros k Hk. eapply (aes_gmac_decrypt_eq flag k skb2 (data skb) _ pn mic aad body msg fc a2);
      try done; unfold skb_len; try lia.
    - rewrite Ed. by apply is_mgmt_app.
    - rewrite Ed. apply Haad.
    - rewrite Ed. apply Ha2l.
    - by rewrite Hk. }
  destruct (Hdec kr Ek) as (skb3 & Hd1 & Hd3). rewrite bool_decide_eq_true_2 in Hd1 by done.
  destruct (Hdec (set_rx_pn kr (pn_bytes pn)) Ek) as (skb4 & Hd2 & _).
  cbn [rx_pn set_rx_pn] in Hd2. rewrite memcmp_refl, bool_decide_eq_false_2 in Hd2 by done.
  exists (set_tx_pn ks pn), skb2, (set_rx_pn kr (pn_bytes pn)), skb3. split_and!; done.
Qed.
End properties.

(** ** The hypotheses hold on concrete frames *)

Definition sample_cmac : Cmac := fun key msg => replicate 16 (u8 (foldr Z.add 7 (key ++ msg))).

Lemma sample_cmac_laws : @CmacLaws sample_cmac.
Proof. intros key msg. apply length_replicate. Qed.

Section witness.
#[local] Existing Instances sample_aead sample_aead_laws sample_cmac sample_cmac_laws.

Let kc : ieee80211_key_conf := mk_key_conf 4 16 0 WLAN_CIPHER_SUITE_CCMP (replicate 16 1).
Let ks : bip_key := mk_bip_key kc (replicate 16 1) 41 [] 0 0.
Let kr : bip_key := mk_bip_key kc (replicate 16 1) 0 [0; 0; 0; 0; 0; 9] 0 0.
(** A deauthentication frame: reason 7. *)
Let frame : list Z := [0xc0; 0; 0; 0] ++ replicate 20 0xff ++ [7; 0].
Let skb : sk_buff := mk_skb [] frame (replicate 26 0) false.

Lemma bip_cmac_roundtrip_witness :
  exists ks' skb2 kr' skb3,
    ieee80211_crypto_aes_cmac_encrypt ks [(None, skb)] 8 =
      Some (TX_CONTINUE, ks', [(None, skb2)]) /\ tx_pn ks' = 42 /\
    ieee80211_crypto_aes_cmac_decrypt 0 kr skb2 8 = Some (RX_CONTINUE, kr', skb3) /\
    data skb3 = frame /\ rx_pn kr' = pn_bytes 42 /\
    ieee80211_crypto_aes_cmac_decrypt 0 kr' skb2 8 = Some (RX_DROP_U_REPLAY, inc_replays kr', skb2).
Proof. apply (bip_cmac_roundtrip ks kr skb 0xc0 0 8); done. Defined.

Lemma bip_gmac_roundtrip_witness :
  exists ks' skb2 kr' skb3,
    ieee80211_crypto_aes_gmac_encrypt ks [(None, skb)] =
      Some (TX_CONTINUE, ks', [(None, skb2)]) /\ tx_pn ks' = 42 /\
    ieee80211_crypto_aes_gmac_decrypt 0 kr skb2 = Some (RX_CONTINUE, kr', skb3) /\
    data skb3 = frame /\ rx_pn kr' = pn_bytes 42 /\
    ieee80211_crypto_aes_gmac_decrypt 0 kr' skb2 = Some (RX_DROP_U_REPLAY, inc_replays kr', skb2).
Proof. apply (bip_gmac_roundtrip ks kr skb 0xc0 0); done. Defined.
End witness.
