(* ===== verification/Reorder.v ===== *)
(** * Reorder: the receive A-MPDU reorder buffer

    The block-acknowledgment receive path of [net/mac80211/rx.c]: the ring of
    slots of [struct tid_ampdu_rx], the release of frames in sequence order,
    the release timeout, block-ack requests and driver-filtered frames.  Frames
    are byte strings; [HZ] is the kernel's tick rate.  Every loop of the C code
    is a [Fixpoint] on fuel that returns [None] when the fuel runs out. *)
From S2P Require Import Prelude Frame Key.

Definition IEEE80211_RX_DEFERRED_RELEASE : Z := BIT 5.
Definition IEEE80211_QOS_CTL_ACK_POLICY_NOACK : Z := 0x0020.
Definition IEEE80211_QOS_CTL_ACK_POLICY_BLOCKACK : Z := 0x0060.
Definition IEEE80211_QOS_CTL_ACK_POLICY_MASK : Z := 0x0060.

(** ** State *)

(** A received frame with the [flag] and [rx_flags] words of its status. *)
Record rx_mpdu := mk_mpdu {
  mdata : list Z;
  mflag : Z;
  rx_flags : Z;
}.

(** An entry of [reorder[]]. *)
Record reorder_slot := mk_slot {
  buf : list rx_mpdu;
  time : Z;
}.

(** [struct tid_ampdu_rx]; the timers are [Some] expiry when armed. *)
Record tid_ampdu_rx := mk_tid_rx {
  reorder_buf_filtered : Z;
  session_timer : option Z;
  reorder_timer : option Z;
  last_rx : Z;
  head_seq_num : Z;
  stored_mpdu_num : Z;
  ssn : Z;
  buf_size : Z;
  timeout : Z;
  auto_seq : bool;
  removed : bool;
  started : bool;
  reorder : list reorder_slot;
}.

Definition set_filtered (t : tid_ampdu_rx) (x : Z) : tid_ampdu_rx :=
  mk_tid_rx x (session_timer t) (reorder_timer t) (last_rx t) (head_seq_num t) (stored_mpdu_num t)
    (ssn t) (buf_size t) (timeout t) (auto_seq t) (removed t) (started t) (reorder t).
Definition set_session_timer (t : tid_ampdu_rx) (x : option Z) : tid_ampdu_rx :=
  mk_tid_rx (reorder_buf_filtered t) x (reorder_timer t) (last_rx t) (head_seq_num t)
    (stored_mpdu_num t) (ssn t) (buf_size t) (timeout t) (auto_seq t) (removed t) (started t) (reorder t).
Definition set_reorder_timer (t : tid_ampdu_rx) (x : option Z) : tid_ampdu_rx :=
  mk_tid_rx (reorder_buf_filtered t) (session_timer t) x (last_rx t) (head_seq_num t)
    (stored_mpdu_num t) (ssn t) (buf_size t) (timeout t) (auto_seq t) (removed t) (started t) (reorder t).
Definition set_last_rx (t : tid_ampdu_rx) (x : Z) : tid_ampdu_rx :=
  mk_tid_rx (reorder_buf_filtered t) (session_timer t) (reorder_timer t) x (head_seq_num t)
    (stored_mpdu_num t) (ssn t) (buf_size t) (timeout t) (auto_seq t) (removed t) (started t) (reorder t).
Definition set_head (t : tid_ampdu_rx) (x : Z) : tid_ampdu_rx :=
  mk_tid_rx (reorder_buf_filtered t) (session_timer t) (reorder_timer t) (last_rx t) x
    (stored_mpdu_num t) (ssn t) (buf_size t) (timeout t) (auto_seq t) (removed t) (started t) (reorder t).
Definition set_stored (t : tid_ampdu_rx) (x : Z) : tid_ampdu_rx :=
  mk_tid_rx (reorder_buf_filtered t) (session_timer t) (reorder_timer t) (last_rx t) (head_seq_num t)
    x (ssn t) (buf_size t) (timeout t) (auto_seq t) (removed t) (started t) (reorder t).
Definition set_auto (t : tid_ampdu_rx) (sn : Z) : tid_ampdu_rx :=
  mk_tid_rx (reorder_buf_filtered t) (session_timer t) (reorder_timer t) (last_rx t) sn
    (stored_mpdu_num t) sn (buf_size t) (timeout t) false (removed t) (started t) (reorder t).
Definition set_started (t : tid_ampdu_rx) : tid_ampdu_rx :=
  mk_tid_rx (reorder_buf_filtered t) (session_timer t) (reorder_timer t) (last_rx t) (head_seq_num t)
    (stored_mpdu_num t) (ssn t) (buf_size t) (timeout t) (auto_seq t) (removed t) true (reorder t).
Definition set_slot (t : tid_ampdu_rx) (i : Z) (s : reorder_slot) : tid_ampdu_rx :=
  mk_tid_rx (reorder_buf_filtered t) (session_timer t) (reorder_timer t) (last_rx t) (head_seq_num t)
    (stored_mpdu_num t) (ssn t) (buf_size t) (timeout t) (auto_seq t) (removed t) (started t)
    (<[Z.to_nat i := s]> (reorder t)).

(** [reorder[i]]; [None] out of range. *)
Definition slot_at (t : tid_ampdu_rx) (i : Z) : option reorder_slot :=
  if i <? 0 then None else reorder t !! Z.to_nat i.

(** ** Operations *)

Section reorder.
Context (HZ : Z).

Definition HT_RX_REORDER_BUF_TIMEOUT : Z := HZ / 10.

Definition ieee80211_rx_reorder_ready (t : tid_ampdu_rx) (index : Z) : option bool :=
  frames ← slot_at t index;
  if nz (reorder_buf_filtered t) && nz (reorder_buf_filtered t .& BIT index) then Some true
  else match last (buf frames) with
       | None => Some false
       | Some tail => Some (negb (flag_set (mflag tail) RX_FLAG_AMSDU_MORE))
       end.

Definition defer_release (f : rx_mpdu) : rx_mpdu :=
  mk_mpdu (mdata f) (mflag f) (rx_flags f .| IEEE80211_RX_DEFERRED_RELEASE).

Definition ieee80211_release_reorder_frame (t : tid_ampdu_rx) (index : Z) (frames : list rx_mpdu)
  : option (tid_ampdu_rx * list rx_mpdu) :=
  s ← slot_at t index;
  ready ← ieee80211_rx_reorder_ready t index;
  let '(t, frames) :=
    if bool_decide (buf s = []) then (t, frames)
    else if negb ready then (set_slot t index (mk_slot [] (time s)), frames)
    else (set_slot (set_stored t (u16 (stored_mpdu_num t - 1))) index (mk_slot [] (time s)),
          frames ++ map defer_release (buf s)) in
  let t := if nz (reorder_buf_filtered t) then
             set_filtered t (reorder_buf_filtered t .& Z.lnot (BIT index)) else t in
  Some (set_head t (ieee80211_sn_inc (head_seq_num t)), frames).

Fixpoint release_frames_loop (fuel : nat) (t : tid_ampdu_rx) (target : Z) (frames : list rx_mpdu)
  : option (tid_ampdu_rx * list rx_mpdu) :=
  if ieee80211_sn_less (head_seq_num t) target then
    match fuel with
    | O => None
    | S fuel =>
        let index := head_seq_num t mod buf_size t in
        '(t, frames) ← ieee80211_release_reorder_frame t index frames;
        release_frames_loop fuel t target frames
    end
  else Some (t, frames).

(** The loop runs less than half the sequence space. *)
Definition ieee80211_release_reorder_frames (t : tid_ampdu_rx) (target : Z) (frames : list rx_mpdu)
  : option (tid_ampdu_rx * list rx_mpdu) :=
  release_frames_loop (Z.to_nat 2048) t target frames.

(** [while (ready(index))]: release from the head on. *)
Fixpoint release_ready_loop (fuel : nat) (t : tid_ampdu_rx) (index : Z) (frames : list rx_mpdu)
  : option (tid_ampdu_rx * list rx_mpdu) :=
  ready ← ieee80211_rx_reorder_ready t index;
  if ready : bool then
    match fuel with
    | O => None
    | S fuel =>
        '(t, frames) ← ieee80211_release_reorder_frame t index frames;
        release_ready_loop fuel t (head_seq_num t mod buf_size t) frames
    end
  else Some (t, frames).

(** [for (; i != j; i = (i + 1) % buf_size) __skb_queue_purge(...)]. *)
Fixpoint purge_loop (fuel : nat) (t : tid_ampdu_rx) (i j : Z) : option tid_ampdu_rx :=
  if i =? j then Some t
  else match fuel with
       | O => None
       | S fuel =>
           s ← slot_at t i;
           purge_loop fuel (set_slot t i (mk_slot [] (time s))) ((i + 1) mod buf_size t) j
       end.

(** The timeout scan from slot [j] to slot [index].  The last component is the
    slot of the jump to [set_release_timer], if it is taken. *)
Fixpoint timeout_scan (fuel : nat) (jiffies : Z) (t : tid_ampdu_rx) (index j skipped : Z)
    (frames : list rx_mpdu) : option (tid_ampdu_rx * list rx_mpdu * option Z) :=
  if j =? index then Some (t, frames, None)
  else match fuel with
  | O => None
  | S fuel =>
      ready ← ieee80211_rx_reorder_ready t j;
      if negb ready then
        timeout_scan fuel jiffies t index ((j + 1) mod buf_size t) (skipped + 1) frames
      else
        s ← slot_at t j;
        if nz skipped && negb (time_after jiffies (u64 (time s + HT_RX_REORDER_BUF_TIMEOUT))) then
          Some (t, frames, Some j)
        else
          t ← purge_loop (Z.to_nat (buf_size t)) t ((index + 1) mod buf_size t) j;
          '(t, frames) ← ieee80211_release_reorder_frame t j frames;
          let t := set_head t ((head_seq_num t + skipped) .& IEEE80211_SN_MASK) in
          timeout_scan fuel jiffies t index ((j + 1) mod buf_size t) 0 frames
  end.

(** [for (; j != (index - 1) % buf_size; ...) if (ready(j)) break;]: the
    remainder of an [int], -1 for [index] 0. *)
Fixpoint find_ready (fuel : nat) (t : tid_ampdu_rx) (stop j : Z) : option Z :=
  if j =? stop then Some j
  else
    ready ← ieee80211_rx_reorder_ready t j;
    if ready : bool then Some j
    else match fuel with
         | O => None
         | S fuel => find_ready fuel t stop ((j + 1) mod buf_size t)
         end.

Definition set_release_timer (t : tid_ampdu_rx) (j : Z) : option tid_ampdu_rx :=
  s ← slot_at t j;
  Some (if removed t then t
        else set_reorder_timer t (Some (u64 (time s + 1 + HT_RX_REORDER_BUF_TIMEOUT)))).

Definition ieee80211_sta_reorder_release (jiffies : Z) (t : tid_ampdu_rx) (frames : list rx_mpdu)
  : option (tid_ampdu_rx * list rx_mpdu) :=
  let index := head_seq_num t mod buf_size t in
  let fuel := Z.to_nat (buf_size t) in
  ready ← ieee80211_rx_reorder_ready t index;
  '(t, frames, goto) ←
    (if negb ready && nz (stored_mpdu_num t) then
       timeout_scan fuel jiffies t index ((index + 1) mod buf_size t) 1 frames
     else
       '(t, frames) ← release_ready_loop fuel t index frames; Some (t, frames, None));
  match goto with
  | Some j => t ← set_release_timer t j; Some (t, frames)
  | None =>
      if nz (stored_mpdu_num t) then
        let index := head_seq_num t mod buf_size t in
        j ← find_ready fuel t (Z.rem (index - 1) (buf_size t)) index;
        t ← set_release_timer t j; Some (t, frames)
      else Some (set_reorder_timer t None, frames)
  end.

(** [true]: the frame was consumed. *)
Definition ieee80211_sta_manage_reorder_buf (jiffies : Z) (t : tid_ampdu_rx) (skb : rx_mpdu)
    (frames : list rx_mpdu) : option (bool * tid_ampdu_rx * list rx_mpdu) :=
  sn ← ieee80211_get_sn (mdata skb);
  let t := if auto_seq t then set_auto t sn else t in
  let head := head_seq_num t in
  if negb (started t) && ieee80211_sn_less sn head then Some (false, t, frames)
  else
    let t := set_started t in
    if ieee80211_sn_less sn head then Some (true, t, frames)
    else
      '(t, frames) ←
        (if negb (ieee80211_sn_less sn (u16 (head + buf_size t))) then
           ieee80211_release_reorder_frames t
             (ieee80211_sn_inc (ieee80211_sn_sub sn (buf_size t))) frames
         else Some (t, frames));
      let index := sn mod buf_size t in
      ready ← ieee80211_rx_reorder_ready t index;
      if ready : bool then Some (true, t, frames)
      else if (sn =? head_seq_num t) && (stored_mpdu_num t =? 0) then
        Some (false,
              if flag_set (mflag skb) RX_FLAG_AMSDU_MORE then t
              else set_head t (ieee80211_sn_inc (head_seq_num t)), frames)
      else
        s ← slot_at t index;
        if flag_set (mflag skb) RX_FLAG_AMSDU_MORE then
          Some (true, set_slot t index (mk_slot (buf s ++ [skb]) (time s)), frames)
        else
          let t := set_stored (set_slot t index (mk_slot (buf s ++ [skb]) jiffies))
                     (u16 (stored_mpdu_num t + 1)) in
          '(t, frames) ← ieee80211_sta_reorder_release jiffies t frames;
          Some (true, t, frames).

(** ** The receive path around the buffer *)

(** The aggregation state of a station that this path reads and writes. *)
Record sta_ampdu_mlme := mk_ampdu_mlme {
  tid_rx : list (option tid_ampdu_rx);
  agg_session_valid : list bool;
  unexpected_agg : list bool;
}.

Definition set_tid_rx (m : sta_ampdu_mlme) (tid : Z) (t : tid_ampdu_rx) : sta_ampdu_mlme :=
  mk_ampdu_mlme (<[Z.to_nat tid := Some t]> (tid_rx m)) (agg_session_valid m) (unexpected_agg m).

(** What the path does besides queueing frames. *)
Inductive reorder_event :=
| send_delba (tid : Z)              (* ieee80211_send_delba(..., WLAN_BACK_RECIPIENT, ...) *)
| queue_to_iface (skb : rx_mpdu)    (* terminates the session *)
| bar_rx_event (tid start_seq_num : Z)
| ba_frame_timeout (tid : Z).

Definition test_bit (i : Z) (l : list bool) : bool := default false (l !! Z.to_nat i).

(** [!test_bit(valid) && !test_and_set_bit(unexpected)]: a DELBA, once. *)
Definition check_unexpected (m : sta_ampdu_mlme) (tid : Z) : sta_ampdu_mlme * list reorder_event :=
  if negb (test_bit tid (agg_session_valid m)) then
    if negb (test_bit tid (unexpected_agg m)) then
      (mk_ampdu_mlme (tid_rx m) (agg_session_valid m) (<[Z.to_nat tid := true]> (unexpected_agg m)),
       [send_delba tid])
    else (m, [])
  else (m, []).

Definition ieee80211_rx_reorder_ampdu (jiffies : Z) (sta : option sta_ampdu_mlme) (skb : rx_mpdu)
    (frames : list rx_mpdu)
  : option (option sta_ampdu_mlme * list rx_mpdu * list reorder_event) :=
  let hdr := mdata skb in
  let dont_reorder sta ev := Some (sta, frames ++ [skb], ev) in
  fc ← hdr_frame_control hdr;
  a1 ← rd8 hdr ADDR1;
  if negb (ieee80211_is_data_qos fc) || is_multicast_ether_addr a1 then dont_reorder sta []
  else match sta with
  | None => dont_reorder None []
  | Some m =>
      qc ← ieee80211_get_qos_ctl hdr;
      qos ← rd8 hdr qc;
      let ack_policy := qos .& IEEE80211_QOS_CTL_ACK_POLICY_MASK in
      tid ← ieee80211_get_tid hdr;
      entry ← tid_rx m !! Z.to_nat tid;
      match entry with
      | None =>
          if ack_policy =? IEEE80211_QOS_CTL_ACK_POLICY_BLOCKACK then
            let '(m, ev) := check_unexpected m tid in dont_reorder (Some m) ev
          else dont_reorder sta []
      | Some t =>
          if nz (fc .& IEEE80211_STYPE_NULLFUNC) then dont_reorder sta []
          else if ack_policy =? IEEE80211_QOS_CTL_ACK_POLICY_NOACK then dont_reorder sta []
          else
            let t := if nz (timeout t) then set_last_rx t jiffies else t in
            sc ← hdr_seq_ctrl hdr;
            if nz (sc .& IEEE80211_SCTL_FRAG) then
              Some (Some (set_tid_rx m tid t), frames, [queue_to_iface skb])
            else
              '(ret, t, frames) ← ieee80211_sta_manage_reorder_buf jiffies t skb frames;
              Some (Some (set_tid_rx m tid t), if ret : bool then frames else frames ++ [skb], [])
      end
  end.

(** [struct ieee80211_bar]: control and start sequence number at 16 and 18.
    [tu_exp] is [TU_TO_EXP_TIME]. *)
Definition ieee80211_rx_h_ctrl (tu_exp : Z -> Z) (sta : option sta_ampdu_mlme) (skb : rx_mpdu)
    (frames : list rx_mpdu)
  : option (rx_result * option sta_ampdu_mlme * list rx_mpdu * list reorder_event) :=
  let bar := mdata skb in
  fc ← hdr_frame_control bar;
  if negb (ieee80211_is_ctl fc) then Some (RX_CONTINUE, sta, frames, [])
  else if negb (ieee80211_is_back_req fc) then Some (RX_DROP_U_CTRL_FRAME, sta, frames, [])
  else match sta with
  | None => Some (RX_DROP_U_UNKNOWN_STA, None, frames, [])
  | Some m =>
      match rd_le16 bar 16, rd_le16 bar 18 with
      | Some control, Some ssn =>
          let tid := control >> 12 in
          let '(m, ev) := check_unexpected m tid in
          entry ← tid_rx m !! Z.to_nat tid;
          match entry with
          | None => Some (RX_DROP_U_BAR_OUTSIDE_SESSION, Some m, frames, ev)
          | Some t =>
              let start_seq_num := ssn >> 4 in
              let t := if nz (timeout t) then set_session_timer t (Some (tu_exp (timeout t))) else t in
              '(t, frames) ← ieee80211_release_reorder_frames t start_seq_num frames;
              Some (RX_QUEUED, Some (set_tid_rx m tid t), frames, ev ++ [bar_rx_event tid start_seq_num])
          end
      | _, _ => Some (RX_DROP_U_RUNT_BAR, sta, frames, [])
      end
  end.

(** The reorder timer of [tid]; the frames go to the receive handlers. *)
Definition ieee80211_release_reorder_timeout (jiffies : Z) (m : sta_ampdu_mlme) (tid : Z)
  : option (sta_ampdu_mlme * list rx_mpdu * list reorder_event) :=
  entry ← tid_rx m !! Z.to_nat tid;
  match entry with
  | None => Some (m, [], [])
  | Some t =>
      '(t, frames) ← ieee80211_sta_reorder_release jiffies t [];
      Some (set_tid_rx m tid t, frames,
            if bool_decide (frames = []) then [] else [ba_frame_timeout tid])
  end.

(** The bitmap update of [ieee80211_mark_rx_ba_filtered_frames], [n] entries
    from [i] on. *)
Fixpoint update_filtered (n : nat) (t : tid_ampdu_rx) (filtered ssn i : Z) : tid_ampdu_rx :=
  match n with
  | O => t
  | S n =>
      let index := (ssn + i) mod buf_size t in
      let bits := reorder_buf_filtered t .& Z.lnot (BIT index) in
      let bits := if nz (filtered .& BIT i) then bits .| BIT index else bits in
      update_filtered n (set_filtered t bits) filtered ssn (i + 1)
  end.

Definition ieee80211_mark_rx_ba_filtered_frames (jiffies : Z) (m : sta_ampdu_mlme)
    (tid ssn filtered received_mpdus : Z) : option (sta_ampdu_mlme * list rx_mpdu) :=
  if IEEE80211_NUM_TIDS <=? tid then Some (m, [])
  else
    entry ← tid_rx m !! Z.to_nat tid;
    match entry with
    | None => Some (m, [])
    | Some t =>
        '(t, frames) ←
          (if IEEE80211_SN_MODULO >> 1 <=? received_mpdus then
             let release := (head_seq_num t + buf_size t) mod IEEE80211_SN_MODULO in
             '(t, frames) ← ieee80211_release_reorder_frames t release [];
             Some (set_head t ssn, frames)
           else ieee80211_release_reorder_frames t ssn []);
        let diff := (head_seq_num t - ssn) .& IEEE80211_SN_MASK in
        if buf_size t <=? diff then Some (set_tid_rx m tid (set_filtered t 0), frames)
        else
          let t := update_filtered (Z.to_nat (buf_size t)) t (filtered >> diff) (u16 (ssn + diff)) 0 in
          '(t, frames) ← ieee80211_sta_reorder_release jiffies t frames;
          Some (set_tid_rx m tid t, frames)
    end.

End reorder.

(** ** Sessions and runs *)

(** The state [__ieee80211_start_rx_ba_session] sets up; the session timer is
    armed when the peer gave a timeout. *)
Definition start_rx_ba_session (tu_exp : Z -> Z) (jiffies start_seq_num size tmo : Z) (auto : bool)
  : tid_ampdu_rx :=
  mk_tid_rx 0 (if nz tmo then Some (tu_exp tmo) else None) None (if nz tmo then jiffies else 0)
    start_seq_num 0 start_seq_num size tmo auto false false
    (replicate (Z.to_nat size) (mk_slot [] 0)).

(** What can happen to a session. *)
Inductive rx_event :=
| ev_mpdu (jiffies : Z) (skb : rx_mpdu)
| ev_bar (start_seq_num : Z)
| ev_timer (jiffies : Z).

(** One event; the result is the frames handed to the receive handlers. *)
Definition ring_step (HZ : Z) (t : tid_ampdu_rx) (ev : rx_event)
  : option (tid_ampdu_rx * list (list Z)) :=
  match ev with
  | ev_mpdu jiffies skb =>
      '(ret, t, frames) ← ieee80211_sta_manage_reorder_buf HZ jiffies t skb [];
      Some (t, map mdata (frames ++ if ret : bool then [] else [skb]))
  | ev_bar sn =>
      '(t, frames) ← ieee80211_release_reorder_frames t sn []; Some (t, map mdata frames)
  | ev_timer jiffies =>
      '(t, frames) ← ieee80211_sta_reorder_release HZ jiffies t []; Some (t, map mdata frames)
  end.

Fixpoint ring_run (HZ : Z) (t : tid_ampdu_rx) (evs : list rx_event)
  : option (tid_ampdu_rx * list (list Z)) :=
  match evs with
  | [] => Some (t, [])
  | ev :: evs =>
      '(t, out) ← ring_step HZ t ev; '(t, out') ← ring_run HZ t evs; Some (t, out ++ out')
  end.
