(* ===== verification/ReorderSpec.v ===== *)
(** * ReorderSpec: what the reorder buffer promises

    The abstract reorder buffer: frames are filed under unbounded sequence
    numbers, the head only moves up, and moving it over a number delivers the
    frame stored there.  Ring slots, modular comparison, counters and timers
    are absent.  [ReorderRefine] shows that [Reorder] implements it. *)
From Stdlib Require Import Sorted.
From stdpp Require Import gmap.
From S2P Require Import Prelude Frame.

(** A stored frame is its bytes and the time it was stored. *)
Record rbuf := mk_rbuf {
  rb_head : Z;
  rb_store : gmap Z (list Z * Z);
}.

(** Delivered frames, each with its sequence number. *)
Abbreviation rlog := (list (Z * list Z)).

Definition rb_pop (b : rbuf) : rbuf * rlog :=
  (mk_rbuf (rb_head b + 1) (delete (rb_head b) (rb_store b)),
   match rb_store b !! rb_head b with Some (d, _) => [(rb_head b, d)] | None => [] end).

Fixpoint rb_advance (k : nat) (b : rbuf) : rbuf * rlog :=
  match k with
  | O => (b, [])
  | S k => let '(b1, o1) := rb_pop b in let '(b2, o2) := rb_advance k b1 in (b2, o1 ++ o2)
  end.

(** Number of consecutive frames stored from [n] on. *)
Fixpoint rb_run (fuel : nat) (m : gmap Z (list Z * Z)) (n : Z) : nat :=
  match fuel with
  | O => O
  | S fuel => match m !! n with Some _ => S (rb_run fuel m (n + 1)) | None => O end
  end.

(** Give up on missing frames in front of frames that have expired. *)
Fixpoint rb_timeout (fuel : nat) (expired : Z -> bool) (b : rbuf) (j : Z) : rbuf * rlog :=
  match fuel with
  | O => (b, [])
  | S fuel =>
      match rb_store b !! j with
      | None => rb_timeout fuel expired b (j + 1)
      | Some (_, tm) =>
          if (rb_head b <? j) && negb (expired tm) then (b, [])
          else
            let '(b1, o1) := rb_advance (Z.to_nat (j + 1 - rb_head b)) b in
            let '(b2, o2) := rb_timeout fuel expired b1 (j + 1) in
            (b2, o1 ++ o2)
      end
  end.

Definition rb_release (size : Z) (expired : Z -> bool) (b : rbuf) : rbuf * rlog :=
  match rb_store b !! rb_head b with
  | Some _ => rb_advance (rb_run (Z.to_nat size) (rb_store b) (rb_head b)) b
  | None =>
      if bool_decide (rb_store b = ∅) then (b, [])
      else rb_timeout (Z.to_nat (size - 1)) expired b (rb_head b + 1)
  end.

(** Receive the frame [d] with number [n] at time [now]. *)
Definition rb_receive (size : Z) (expired : Z -> bool) (now n : Z) (d : list Z) (b : rbuf)
  : rbuf * rlog :=
  if n <? rb_head b then (b, [])
  else
    let '(b1, o1) := rb_advance (Z.to_nat (n - size + 1 - rb_head b)) b in
    match rb_store b1 !! n with
    | Some _ => (b1, o1)
    | None =>
        let '(b2, o2) := rb_release size expired (mk_rbuf (rb_head b1) (<[n := (d, now)]> (rb_store b1))) in
        (b2, o1 ++ o2)
    end.

(** The unbounded number of a 12-bit sequence number next to the head [h]. *)
Definition unwrap (h sn : Z) : Z :=
  if ieee80211_sn_less sn (h mod 4096) then h - (h - sn) mod 4096 else h + (sn - h) mod 4096.

(** A block-ack request for [sn]. *)
Definition rb_bar (sn : Z) (b : rbuf) : rbuf * rlog :=
  let d := (sn - rb_head b) mod 4096 in
  if d <? 2048 then rb_advance (Z.to_nat d) b else (b, []).

(** ** Lemmas *)

Definition rb_keys (lo hi : Z) (m : gmap Z (list Z * Z)) : Prop :=
  forall n x, m !! n = Some x -> lo <= n < hi.

Lemma rb_advance_head k b : rb_head (rb_advance k b).1 = rb_head b + Z.of_nat k.
Proof.
  revert b. induction k as [|k IH]; intros b; cbn [rb_advance]; [cbn; lia|].
  unfold rb_pop. cbn beta iota. specialize (IH (mk_rbuf (rb_head b + 1) (delete (rb_head b) (rb_store b)))).
  destruct (rb_advance k _) as [b2 o2] eqn:E. cbn [fst rb_head] in *. lia.
Qed.

Lemma rb_advance_store k b n :
  rb_store (rb_advance k b).1 !! n =
    if (rb_head b <=? n) && (n <? rb_head b + Z.of_nat k) then None else rb_store b !! n.
Proof.
  revert b. induction k as [|k IH]; intros b; cbn [rb_advance].
  { cbn [fst]. repeat zcase; cbn [andb]; try done. lia. }
  unfold rb_pop. cbn beta iota. specialize (IH (mk_rbuf (rb_head b + 1) (delete (rb_head b) (rb_store b)))).
  destruct (rb_advance k _) as [b2 o2] eqn:E. cbn [fst rb_head rb_store] in *. rewrite IH.
  destruct (decide (n = rb_head b)) as [->|Hn].
  - rewrite lookup_delete_eq. repeat zcase; cbn [andb]; try done; lia.
  - rewrite lookup_delete_ne by done. repeat zcase; cbn [andb]; try done; lia.
Qed.

Lemma rb_advance_app j k b :
  rb_advance (j + k) b =
    ((rb_advance k (rb_advance j b).1).1, (rb_advance j b).2 ++ (rb_advance k (rb_advance j b).1).2).
Proof.
  revert b. induction j as [|j IH]; intros b; cbn [rb_advance Nat.add].
  { cbn [fst snd]. by destruct (rb_advance k b). }
  unfold rb_pop. cbn beta iota. rewrite IH.
  destruct (rb_advance j _) as [b1 o1]. cbn [fst snd].
  destruct (rb_advance k _) as [b2 o2]. cbn [fst snd]. by rewrite app_assoc.
Qed.

(** The delivered numbers lie in [lo, hi) in increasing order, each with the
    frame's own sequence number. *)
Record log_ok (lo hi : Z) (o : rlog) : Prop := {
  lo_sorted : StronglySorted Z.lt (map fst o);
  lo_range : Forall (fun n => lo <= n < hi) (map fst o);
  lo_sn : Forall (fun x => ieee80211_get_sn x.2 = Some (x.1 mod 4096)) o;
}.

Lemma log_ok_nil lo hi : log_ok lo hi [].
Proof. repeat constructor. Qed.

Lemma log_ok_app lo mid hi o1 o2 :
  log_ok lo mid o1 -> log_ok mid hi o2 -> lo <= mid <= hi -> log_ok lo hi (o1 ++ o2).
Proof.
  intros [S1 R1 N1] [S2 R2 N2] Hm. split; rewrite ?map_app.
  - clear N1 N2. induction o1 as [|[n d] o1 IH]; [done|]. cbn [map app fst] in *.
    apply StronglySorted_inv in S1 as [S1 H1]. apply Forall_cons in R1 as [Hn R1].
    constructor; [by apply IH|]. apply Forall_app. split; [done|].
    eapply Forall_impl; [exact R2|]. cbn. lia.
  - apply Forall_app. split; eapply Forall_impl; [exact R1| |exact R2|]; cbn; lia.
  - by apply Forall_app.
Qed.

(** Stored frames are inside the window and carry their number. *)
Record rb_wf (size : Z) (b : rbuf) : Prop := {
  rw_keys : rb_keys (rb_head b) (rb_head b + size) (rb_store b);
  rw_sn : forall n x, rb_store b !! n = Some x -> ieee80211_get_sn x.1 = Some (n mod 4096);
}.

Lemma rb_pop_wf size b : rb_wf size b -> rb_wf size (rb_pop b).1.
Proof.
  intros [Hk Hs]. split; cbn.
  - intros n x [Hn Hx]%lookup_delete_Some. specialize (Hk _ _ Hx). lia.
  - intros n x [Hn Hx]%lookup_delete_Some. by apply Hs.
Qed.

Lemma rb_advance_wf size k b : rb_wf size b -> rb_wf size (rb_advance k b).1.
Proof.
  revert b. induction k as [|k IH]; intros b Hb; cbn [rb_advance]; [done|].
  apply rb_pop_wf in Hb. destruct (rb_pop b) as [b1 o1]. specialize (IH b1 Hb).
  by destruct (rb_advance k b1).
Qed.

Lemma rb_advance_log size k b :
  rb_wf size b -> log_ok (rb_head b) (rb_head b + Z.of_nat k) (rb_advance k b).2.
Proof.
  revert b. induction k as [|k IH]; intros b Hb; cbn [rb_advance]; [apply log_ok_nil|].
  pose proof (rb_pop_wf _ _ Hb) as Hb1. unfold rb_pop in *. cbn [fst] in Hb1. cbn beta iota.
  specialize (IH _ Hb1). destruct (rb_advance k _) as [b2 o2]. cbn [snd rb_head] in *.
  apply log_ok_app with (mid := rb_head b + 1); [|by replace (rb_head b + Z.of_nat (S k)) with
    (rb_head b + 1 + Z.of_nat k) by lia|lia].
  destruct (rb_store b !! rb_head b) as [[d tm]|] eqn:E; [|apply log_ok_nil].
  split; cbn [map fst].
  - repeat constructor.
  - repeat constructor; lia.
  - repeat constructor. by apply (rw_sn _ _ Hb) in E.
Qed.

(** What every operation keeps: well-formedness, a head that does not move
    back, and a log between the two heads. *)
Record rb_ok (size : Z) (b : rbuf) (r : rbuf * rlog) : Prop := {
  ro_wf : rb_wf size r.1;
  ro_head : rb_head b <= rb_head r.1;
  ro_log : log_ok (rb_head b) (rb_head r.1) r.2;
}.

Lemma rb_ok_refl size b : rb_wf size b -> rb_ok size b (b, []).
Proof. intros H. split; [done|cbn; lia|apply log_ok_nil]. Qed.

Lemma rb_ok_trans size b b1 o1 b2 o2 :
  rb_ok size b (b1, o1) -> rb_ok size b1 (b2, o2) -> rb_ok size b (b2, o1 ++ o2).
Proof.
  intros [W1 H1 L1] [W2 H2 L2]. cbn [fst snd] in *. split; [done|cbn; lia|].
  cbn [fst snd]. eapply log_ok_app; [done..|lia].
Qed.

Lemma rb_advance_ok size k b : rb_wf size b -> rb_ok size b (rb_advance k b).
Proof.
  intros H. pose proof (rb_advance_head k b). split.
  - by apply rb_advance_wf.
  - lia.
  - rewrite rb_advance_head. by eapply rb_advance_log.
Qed.

Lemma rb_timeout_ok size fuel expired b j : rb_wf size b -> rb_ok size b (rb_timeout fuel expired b j).
Proof.
  revert b j. induction fuel as [|fuel IH]; intros b j Hb; cbn [rb_timeout]; [by apply rb_ok_refl|].
  destruct (rb_store b !! j) as [[d tm]|]; [|by apply IH].
  destruct (_ && _); [by apply rb_ok_refl|].
  pose proof (rb_advance_ok size (Z.to_nat (j + 1 - rb_head b)) b Hb) as H1.
  destruct (rb_advance _ b) as [b1 o1]. specialize (IH b1 (j + 1) (ro_wf _ _ _ H1)).
  destruct (rb_timeout fuel expired b1 (j + 1)) as [b2 o2]. by eapply rb_ok_trans.
Qed.

Lemma rb_release_ok size expired b : rb_wf size b -> rb_ok size b (rb_release size expired b).
Proof.
  intros Hb. unfold rb_release. destruct (rb_store b !! rb_head b); [by apply rb_advance_ok|].
  case_bool_decide; [by apply rb_ok_refl|by apply rb_timeout_ok].
Qed.

Lemma rb_bar_ok size sn b : rb_wf size b -> rb_ok size b (rb_bar sn b).
Proof. intros Hb. unfold rb_bar. destruct (_ <? _); [by apply rb_advance_ok|by apply rb_ok_refl]. Qed.

Lemma rb_receive_ok size expired now n d b :
  0 < size -> rb_wf size b -> ieee80211_get_sn d = Some (n mod 4096) ->
  rb_ok size b (rb_receive size expired now n d b).
Proof.
  intros Hs Hb Hd. unfold rb_receive. zcase; [by apply rb_ok_refl|].
  pose proof (rb_advance_ok size (Z.to_nat (n - size + 1 - rb_head b)) b Hb) as H1.
  pose proof (rb_advance_head (Z.to_nat (n - size + 1 - rb_head b)) b) as Hh.
  destruct (rb_advance _ b) as [b1 o1]. cbn [fst] in Hh.
  destruct (rb_store b1 !! n) eqn:En; [done|].
  assert (rb_wf size (mk_rbuf (rb_head b1) (<[n:=(d, now)]> (rb_store b1)))) as Hw.
  { destruct (ro_wf _ _ _ H1) as [Hk Hsn]. split; cbn [rb_head rb_store].
    - intros n' x. destruct (decide (n' = n)) as [->|?]; [lia|]. rewrite lookup_insert_ne by done. apply Hk.
    - intros n' x. destruct (decide (n' = n)) as [->|?]; [|rewrite lookup_insert_ne by done; apply Hsn].
      rewrite lookup_insert_eq. by intros [= <-]. }
  pose proof (rb_release_ok size expired _ Hw) as H2.
  destruct (rb_release size expired _) as [b2 o2]. eapply rb_ok_trans; [done|].
  destruct H2 as [W2 Hh2 L2]. by split.
Qed.

Lemma unwrap_mod h sn : is_uint 12 sn -> unwrap h sn mod 4096 = sn.
Proof.
  intros Hs. unfold unwrap, is_uint in *. destruct (ieee80211_sn_less _ _).
  - rewrite Zminus_mod_idemp_r. replace (h - (h - sn)) with sn by lia. apply Z.mod_small. lia.
  - rewrite Zplus_mod_idemp_r. replace (h + (sn - h)) with sn by lia. apply Z.mod_small. lia.
Qed.
