(* ===== verification/ReorderRefine.v ===== *)
(** * ReorderRefine: the ring buffer implements the abstract reorder buffer

    The slot ring, modular head and counter of [Reorder] simulate the unbounded
    buffer of [ReorderSpec], for window sizes that divide the sequence space,
    frames that are not partial A-MSDUs and no driver-filtered frames.  The
    theorems on order, progress and losslessness follow; the last section
    shows what happens when these conditions fail. *)
From Stdlib Require Import Sorted Permutation Znumtheory.
From stdpp Require Import gmap.
From S2P Require Import Prelude Frame Key Reorder ReorderSpec.

(** ** The simulation relation *)

Definition slot_holds (s : reorder_slot) (e : option (list Z * Z)) : Prop :=
  match e with
  | None => buf s = []
  | Some (d, tm) =>
      exists f, buf s = [f] /\ mdata f = d /\ flag_set (mflag f) RX_FLAG_AMSDU_MORE = false /\
        time s = tm
  end.

Definition armed (t : tid_ampdu_rx) : Prop :=
  stored_mpdu_num t <> 0 -> removed t = false -> reorder_timer t <> None.

Record rel (size : Z) (t : tid_ampdu_rx) (b : rbuf) : Prop := {
  rl_size : buf_size t = size;
  rl_len : zlen (reorder t) = size;
  rl_filtered : reorder_buf_filtered t = 0;
  rl_head : head_seq_num t = rb_head b mod 4096;
  rl_stored : stored_mpdu_num t = Z.of_nat (base.size (rb_store b));
  rl_slots : forall n, rb_head b <= n < rb_head b + size ->
    exists s, slot_at t (n mod size) = Some s /\ slot_holds s (rb_store b !! n);
  rl_wf : rb_wf size b;
}.

(** Windows the ring handles: a power of two up to 2048 in effect. *)
Definition good_size (size : Z) : Prop := 1 < size <= 1024 /\ (size | 4096).

Section lemmas.
Context (HZ size : Z) (Hsize : good_size size).

Lemma size_pos : 1 < size. Proof. destruct Hsize; lia. Qed.

Lemma head_index t b : rel size t b -> head_seq_num t mod buf_size t = rb_head b mod size.
Proof.
  intros H. rewrite (rl_head _ _ _ H), (rl_size _ _ _ H). symmetry.
  apply Zmod_div_mod; [destruct Hsize; lia|lia|by destruct Hsize].
Qed.

Lemma sn_index n : (n mod 4096) mod size = n mod size.
Proof. symmetry. apply Zmod_div_mod; [destruct Hsize; lia|lia|by destruct Hsize]. Qed.

Lemma mod_window_inj i j : -size < i - j < size -> i mod size = j mod size -> i = j.
Proof.
  pose proof size_pos. intros Hw E.
  pose proof (Z_div_mod_eq_full i size). pose proof (Z_div_mod_eq_full j size).
  rewrite E in *. assert (i - j = size * (i / size - j / size)) as Hq by lia.
  assert (i / size - j / size = 0) by nia. lia.
Qed.

Lemma mod_succ i : (i mod size + 1) mod size = (i + 1) mod size.
Proof. apply Zplus_mod_idemp_l. Qed.

Lemma slot_at_range t i s : slot_at t i = Some s -> 0 <= i < zlen (reorder t).
Proof.
  unfold slot_at. zcase; [done|]. intros Hs%lookup_lt_Some. unfold zlen. lia.
Qed.

Lemma slot_at_set_same t i s s0 : slot_at t i = Some s0 -> slot_at (set_slot t i s) i = Some s.
Proof.
  intros Hr%slot_at_range. unfold slot_at. zcase; [lia|]. cbn [reorder set_slot].
  apply list_lookup_insert_eq. unfold zlen in *. lia.
Qed.

Lemma slot_at_set_other t i j s : 0 <= i -> i <> j -> slot_at (set_slot t i s) j = slot_at t j.
Proof.
  intros Hi Hij. unfold slot_at. zcase; [done|]. cbn [reorder set_slot].
  apply list_lookup_insert_ne. lia.
Qed.

Lemma slot_set_id t i s : slot_at t i = Some s -> buf s = [] -> set_slot t i (mk_slot [] (time s)) = t.
Proof.
  intros Hs Hb. assert (mk_slot [] (time s) = s) as -> by (destruct s; cbn in *; by rewrite Hb).
  unfold slot_at in Hs. destruct (i <? 0); [done|]. unfold set_slot. rewrite list_insert_id by done.
  by destruct t.
Qed.

Lemma store_size_le b : rb_wf size b -> Z.of_nat (base.size (rb_store b)) <= size.
Proof.
  intros [Hk _]. rewrite <- size_dom.
  transitivity (Z.of_nat (base.size (list_to_set (seqZ (rb_head b) size) : gset Z))).
  - apply inj_le, subseteq_size. intros n [x Hx]%elem_of_dom. apply elem_of_list_to_set, elem_of_seqZ.
    by apply Hk in Hx.
  - rewrite size_list_to_set by apply NoDup_seqZ. rewrite length_seqZ. pose proof size_pos. lia.
Qed.

Lemma stored_range t b : rel size t b -> 0 <= stored_mpdu_num t <= size.
Proof.
  intros H. rewrite (rl_stored _ _ _ H). pose proof (store_size_le b (rl_wf _ _ _ H)). lia.
Qed.

Lemma stored_zero t b : rel size t b -> nz (stored_mpdu_num t) = negb (bool_decide (rb_store b = ∅)).
Proof.
  intros H. unfold nz. rewrite (rl_stored _ _ _ H). f_equal.
  case_bool_decide as E.
  - by rewrite E, map_size_empty.
  - apply map_size_non_empty_iff in E. zcase; lia.
Qed.

Lemma ready_spec t b n :
  rel size t b -> rb_head b <= n < rb_head b + size ->
  ieee80211_rx_reorder_ready t (n mod size) =
    Some (match rb_store b !! n with Some _ => true | None => false end).
Proof.
  intros H Hn. destruct (rl_slots _ _ _ H n Hn) as (s & Hs & Hh).
  unfold ieee80211_rx_reorder_ready. rewrite Hs. cbn [mbind option_bind].
  rewrite (rl_filtered _ _ _ H). change (nz 0) with false. cbn [andb].
  destruct (rb_store b !! n) as [[d tm]|]; cbn [slot_holds] in Hh.
  - destruct Hh as (f & -> & _ & Hf & _). cbn. by rewrite Hf.
  - by rewrite Hh.
Qed.

(** Frames handed over by the ring and log entries of the buffer. *)
Definition outs (fs : list rx_mpdu) (o : rlog) : Prop := map mdata fs = map snd o.

Lemma outs_app fs1 o1 fs2 o2 : outs fs1 o1 -> outs fs2 o2 -> outs (fs1 ++ fs2) (o1 ++ o2).
Proof. unfold outs. rewrite !map_app. by intros -> ->. Qed.

Lemma rel_set_timer t b x : rel size t b -> rel size (set_reorder_timer t x) b.
Proof. intros []. by split. Qed.

(** Moving the head over an empty number. *)
Lemma rel_skip t b :
  rel size t b -> rb_store b !! rb_head b = None ->
  rel size (set_head t ((rb_head b + 1) mod 4096)) (mk_rbuf (rb_head b + 1) (rb_store b)).
Proof.
  intros H Hn. pose proof (rl_wf _ _ _ H) as Hw.
  destruct H as [H1 H2 H3 H4 H5 H6 [H7 H8]]. split; cbn [rb_head rb_store]; try done.
  - intros n Hr. destruct (decide (n = rb_head b + size)) as [->|].
    + destruct (H6 (rb_head b)) as (s & Hs & Hh); [pose proof size_pos; lia|].
      rewrite Hn in Hh. exists s. change (slot_at (set_head t _)) with (slot_at t).
      replace (rb_head b + size) with (rb_head b + 1 * size) by lia. rewrite Z.mod_add by (pose proof size_pos; lia).
      split; [done|]. destruct (rb_store b !! (rb_head b + 1 * size)) as [x|] eqn:E; [|exact Hh].
      apply H7 in E. lia.
    + change (slot_at (set_head t _)) with (slot_at t). apply H6. lia.
  - split; cbn [rb_head rb_store]; [|done]. intros n x E. specialize (H7 _ _ E).
    destruct (decide (n = rb_head b)) as [->|]; [congruence|lia].
Qed.

Lemma rel_skips k t b :
  rel size t b -> (forall n, rb_head b <= n < rb_head b + Z.of_nat k -> rb_store b !! n = None) ->
  rel size (set_head t ((rb_head b + Z.of_nat k) mod 4096)) (mk_rbuf (rb_head b + Z.of_nat k) (rb_store b)).
Proof.
  revert t b. induction k as [|k IH]; intros t b H Hn.
  - change (Z.of_nat 0) with 0. rewrite Z.add_0_r, <- (rl_head _ _ _ H). destruct b, t; exact H.
  - assert (rel size (set_head t ((rb_head b + 1) mod 4096)) (mk_rbuf (rb_head b + 1) (rb_store b))) as H1.
    { apply rel_skip; [done|]. apply Hn. lia. }
    apply IH in H1; cbn [rb_head rb_store] in *.
    + by replace (rb_head b + Z.of_nat (S k)) with (rb_head b + 1 + Z.of_nat k) by lia.
    + intros n Hr. apply Hn. lia.
Qed.

Lemma sn_inc_head t b : rel size t b -> ieee80211_sn_inc (head_seq_num t) = (rb_head b + 1) mod 4096.
Proof. intros H. rewrite (rl_head _ _ _ H), sn_inc_mod. apply Zplus_mod_idemp_l. Qed.

(** Frozen parts of the state. *)
Definition frame_same (t t' : tid_ampdu_rx) : Prop :=
  reorder_timer t' = reorder_timer t /\ removed t' = removed t /\ auto_seq t' = auto_seq t /\
  started t' = started t.

(** The result [r] of a concrete operation implements the abstract result [a]. *)
Definition simulates (t : tid_ampdu_rx) (fr : list rx_mpdu) (a : rbuf * rlog)
    (r : option (tid_ampdu_rx * list rx_mpdu)) : Prop :=
  exists t' fs, r = Some (t', fr ++ fs) /\ rel size t' a.1 /\ outs fs a.2 /\ frame_same t t'.

Lemma frame_same_trans t1 t2 t3 : frame_same t1 t2 -> frame_same t2 t3 -> frame_same t1 t3.
Proof. unfold frame_same. intros (-> & -> & -> & ->) (-> & -> & -> & ->). done. Qed.

Lemma sim_ret t b fr : rel size t b -> simulates t fr (b, []) (Some (t, fr)).
Proof. intros H. exists t, []. rewrite app_nil_r. done. Qed.

Lemma sim_bind t fr b1 o1 b2 o2 r k :
  simulates t fr (b1, o1) r ->
  (forall t1 fr1, rel size t1 b1 -> frame_same t t1 -> simulates t1 fr1 (b2, o2) (k (t1, fr1))) ->
  simulates t fr (b2, o1 ++ o2) (r ≫= k).
Proof.
  intros (t1 & fs1 & -> & H1 & Ho1 & Hf1) Hk. cbn [mbind option_bind].
  destruct (Hk t1 (fr ++ fs1) H1 Hf1) as (t2 & fs2 & -> & H2 & Ho2 & Hf2).
  exists t2, (fs1 ++ fs2). rewrite app_assoc. split; [done|]. split; [done|].
  split; [by apply outs_app|]. by eapply frame_same_trans.
Qed.

(** Releasing the head slot pops the head number. *)
Lemma release_frame_spec t b fr :
  rel size t b ->
  simulates t fr (rb_pop b) (ieee80211_release_reorder_frame t (rb_head b mod size) fr).
Proof.
  intros H. pose proof size_pos.
  destruct (rl_slots _ _ _ H (rb_head b)) as (s & Hs & Hh); [lia|].
  unfold ieee80211_release_reorder_frame. rewrite Hs. cbn [mbind option_bind].
  rewrite (ready_spec t b) by (done || lia). cbn [mbind option_bind].
  destruct (rb_store b !! rb_head b) as [[d tm]|] eqn:E; cbn [slot_holds] in Hh.
  - destruct Hh as (f & Hb & Hd & Hf & Htm). rewrite Hb, bool_decide_eq_false_2 by done.
    cbn [negb]. cbn beta iota zeta. cbn [reorder_buf_filtered set_slot set_stored].
    rewrite (rl_filtered _ _ _ H). change (nz 0) with false. cbn beta iota.
    eexists _, [defer_release f]. split; [reflexivity|]. 
    unfold rb_pop. rewrite E. cbn [fst snd]. split; [|split; [by unfold outs; cbn; rewrite Hd|by unfold frame_same]].
    pose proof (stored_range _ _ H) as Hsr.
    assert (0 < stored_mpdu_num t) as Hpos.
    { rewrite (rl_stored _ _ _ H). assert (rb_store b <> ∅) by (intros E0; by rewrite E0, lookup_empty in E).
      apply map_size_non_empty_iff in H1. lia. }
    split; cbn [buf_size reorder reorder_buf_filtered head_seq_num stored_mpdu_num set_head set_slot set_stored
      rb_head rb_store]; try (by apply H).
    + unfold zlen. rewrite length_insert. apply H.
    + by apply sn_inc_head.
    + rewrite wrap_small by (destruct Hsize; unfold is_uint; lia).
      rewrite map_size_delete, E, (rl_stored _ _ _ H). cbn. rewrite (rl_stored _ _ _ H) in Hpos. lia.
    + intros n Hr. cbn [set_head].
      destruct (decide (n = rb_head b + size)) as [->|Hne].
      * replace ((rb_head b + size) mod size) with (rb_head b mod size)
          by (rewrite <- (Z.mod_add (rb_head b) 1 size) by lia; f_equal; lia).
        exists (mk_slot [] (time s)). split; [eapply (slot_at_set_same _ _ _ s); done|].
        destruct (delete (rb_head b) (rb_store b) !! (rb_head b + size)) as [x|] eqn:E1; [|done].
        apply lookup_delete_Some in E1 as [_ E1]. apply (rw_keys _ _ (rl_wf _ _ _ H)) in E1. lia.
      * destruct (rl_slots _ _ _ H n) as (s1 & Hs1 & Hh1); [lia|]. exists s1. split.
        -- transitivity (slot_at (set_stored t (u16 (stored_mpdu_num t - 1))) (n mod size)); [|done].
           apply slot_at_set_other; [apply Z.mod_pos_bound; lia|].
           intros E1. apply mod_window_inj in E1; lia.
        -- rewrite lookup_delete_ne by lia. done.
    + pose proof (rb_pop_wf _ _ (rl_wf _ _ _ H)). done.
  - rewrite Hh, bool_decide_eq_true_2 by done. cbn beta iota zeta.
    rewrite (rl_filtered _ _ _ H). change (nz 0) with false. cbn beta iota.
    eexists _, []. rewrite app_nil_r. split; [reflexivity|].
    unfold rb_pop. rewrite E. cbn [fst snd]. rewrite delete_id by done.
    rewrite (sn_inc_head _ _ H). split; [by apply rel_skip|by unfold outs, frame_same].
Qed.
Lemma release_frame_at t b fr :
  rel size t b ->
  simulates t fr (rb_pop b)
    (ieee80211_release_reorder_frame t (head_seq_num t mod buf_size t) fr).
Proof. intros H. rewrite (head_index t b H). by apply release_frame_spec. Qed.

Lemma rb_advance_S k b : rb_advance (S k) b = ((rb_advance k (rb_pop b).1).1,
  (rb_pop b).2 ++ (rb_advance k (rb_pop b).1).2).
Proof.
  cbn [rb_advance]. rewrite (surjective_pairing (rb_pop b)). cbn [fst snd].
  by rewrite (surjective_pairing (rb_advance k (rb_pop b).1)).
Qed.

Lemma rb_advance_missing k b :
  (forall n, rb_head b <= n < rb_head b + Z.of_nat k -> rb_store b !! n = None) ->
  rb_advance k b = (mk_rbuf (rb_head b + Z.of_nat k) (rb_store b), []).
Proof.
  revert b. induction k as [|k IH]; intros b Hn.
  - change (Z.of_nat 0) with 0. rewrite Z.add_0_r. by destruct b.
  - rewrite rb_advance_S. unfold rb_pop. rewrite Hn, delete_id by (apply Hn || idtac; lia).
    cbn [fst snd]. rewrite IH; cbn [rb_head rb_store].
    + cbn [fst snd app]. f_equal. f_equal. lia.
    + intros n Hr. apply Hn. lia.
Qed.

(** Releasing up to a number at most half the sequence space ahead. *)
Lemma release_frames_loop_spec fuel k t b fr :
  rel size t b -> (k <= fuel)%nat -> Z.of_nat k < 2048 ->
  simulates t fr (rb_advance k b)
    (release_frames_loop fuel t ((rb_head b + Z.of_nat k) mod 4096) fr).
Proof.
  revert k t b fr. induction fuel as [|fuel IH]; intros k t b fr H Hk H2.
  - assert (k = O) as -> by lia. cbn [release_frames_loop rb_advance].
    change (Z.of_nat 0) with 0. rewrite Z.add_0_r, <- (rl_head _ _ _ H), sn_less_irrefl. by apply sim_ret.
  - cbn [release_frames_loop]. rewrite (rl_head _ _ _ H) at 1.
    destruct k as [|k].
    + change (Z.of_nat 0) with 0. rewrite Z.add_0_r, sn_less_irrefl. by apply sim_ret.
    + assert (ieee80211_sn_less (rb_head b mod 4096) ((rb_head b + Z.of_nat (S k)) mod 4096) = true) as ->.
      { apply sn_less_spec. rewrite Zminus_mod_idemp_l, Zminus_mod_idemp_r.
        replace (rb_head b + Z.of_nat (S k) - rb_head b) with (Z.of_nat (S k)) by lia.
        rewrite Z.mod_small; lia. }
      rewrite rb_advance_S. eapply sim_bind; [rewrite <- surjective_pairing; by apply release_frame_at|].
      intros t1 fr1 H1 _. rewrite <- surjective_pairing.
      replace (rb_head b + Z.of_nat (S k)) with (rb_head (rb_pop b).1 + Z.of_nat k) by (cbn; lia).
      apply IH; [done|lia|lia].
Qed.

Lemma rb_pop_store b n : rb_head b < n -> rb_store (rb_pop b).1 !! n = rb_store b !! n.
Proof. intros Hn. unfold rb_pop. cbn. apply lookup_delete_ne. lia. Qed.

Lemma rb_run_ext fuel m m' n :
  (forall k, n <= k -> m !! k = m' !! k) -> rb_run fuel m n = rb_run fuel m' n.
Proof.
  revert n. induction fuel as [|fuel IH]; intros n Hm; cbn [rb_run]; [done|].
  rewrite Hm by lia. destruct (m' !! n); [|done]. f_equal. apply IH. intros k Hk. apply Hm. lia.
Qed.

Lemma release_ready_loop_spec fuel t b fr :
  rel size t b -> (base.size (rb_store b) <= fuel)%nat ->
  simulates t fr (rb_advance (rb_run fuel (rb_store b) (rb_head b)) b)
    (release_ready_loop fuel t (rb_head b mod size) fr).
Proof.
  revert t b fr. induction fuel as [|fuel IH]; intros t b fr H Hf; cbn [release_ready_loop rb_run];
    rewrite (ready_spec t b) by (done || pose proof size_pos; lia); cbn [mbind option_bind];
    destruct (rb_store b !! rb_head b) as [x|] eqn:E; try by apply sim_ret.
  - assert (rb_store b = ∅) as E0 by (apply map_size_empty_inv; lia). by rewrite E0, lookup_empty in E.
  - rewrite rb_advance_S. eapply sim_bind; [rewrite <- surjective_pairing; by apply release_frame_spec|].
    intros t1 fr1 H1 _. rewrite <- surjective_pairing. cbn beta iota.
    rewrite (head_index t1 _ H1).
    rewrite (rb_run_ext fuel (rb_store b) (rb_store (rb_pop b).1) (rb_head b + 1))
      by (intros k Hk; symmetry; apply rb_pop_store; lia).
    apply (IH t1 (rb_pop b).1 fr1 H1). unfold rb_pop. cbn. rewrite map_size_delete, E. lia.
Qed.

(** The slots the timeout path purges are empty. *)
Lemma purge_loop_id fuel t b i j :
  rel size t b -> Z.of_nat fuel >= j - i -> i <= j -> j - i < size -> rb_head b + size > j ->
  (forall n, i <= n < j -> n < rb_head b \/ rb_store b !! n = None) ->
  (forall n, i <= n < j -> rb_head b <= n + size /\ rb_store b !! (n + size) = None) ->
  purge_loop fuel t (i mod size) (j mod size) = Some t.
Proof.
  revert i. induction fuel as [|fuel IH]; intros i H Hf Hij Hw Hj Hlo Hhi; cbn [purge_loop].
  { assert (i = j) as -> by lia. by rewrite Z.eqb_refl. }
  zcase; [done|]. assert (i <> j) as Hne by congruence.
  assert (exists s, slot_at t (i mod size) = Some s /\ buf s = []) as (s & Hs & Hb).
  { destruct (Z.lt_ge_cases i (rb_head b)) as [Hi|Hi].
    - destruct (Hhi i) as [H1 H2]; [lia|].
      destruct (rl_slots _ _ _ H (i + size)) as (s & Hs & Hh); [lia|].
      exists s. rewrite <- (Z.mod_add i 1 size), Z.mul_1_l by (pose proof size_pos; lia).
      rewrite H2 in Hh. done.
    - destruct (rl_slots _ _ _ H i) as (s & Hs & Hh); [lia|]. exists s.
      destruct (Hlo i) as [?|Hn]; [lia|lia|]. rewrite Hn in Hh. done. }
  rewrite Hs. cbn [mbind option_bind]. rewrite (slot_set_id _ _ _ Hs Hb), (rl_size _ _ _ H), mod_succ.
  apply IH; try done; try lia; intros q Hq; [apply Hlo|apply Hhi]; lia.
Qed.

Lemma release_frame_set_head t i fr x t' fr' :
  ieee80211_release_reorder_frame (set_head t x) i fr = Some (t', fr') ->
  exists t'', ieee80211_release_reorder_frame t i fr = Some (t'', fr') /\
    head_seq_num t'' = ieee80211_sn_inc (head_seq_num t) /\
    forall y, set_head t'' y = set_head t' y.
Proof.
  unfold ieee80211_release_reorder_frame. change (slot_at (set_head t x)) with (slot_at t).
  destruct (slot_at t i) as [s|]; [|done]. cbn [mbind option_bind].
  change (ieee80211_rx_reorder_ready (set_head t x)) with (ieee80211_rx_reorder_ready t).
  destruct (ieee80211_rx_reorder_ready t i) as [r|]; [|done]. cbn [mbind option_bind].
  destruct (bool_decide _), (negb r); cbn beta iota zeta;
    cbn [reorder_buf_filtered set_slot set_stored set_head];
    destruct (nz (reorder_buf_filtered t)); intros [= <- <-]; eexists; split_and!; try reflexivity.
Qed.

(** Releasing the first stored number [j], over the missing ones before it. *)
Lemma timeout_release_spec t b j fr :
  rel size t b -> rb_head b <= j < rb_head b + size ->
  (forall n, rb_head b <= n < j -> rb_store b !! n = None) ->
  simulates t fr (rb_advance (Z.to_nat (j + 1 - rb_head b)) b)
    ('(t, frames) ← ieee80211_release_reorder_frame t (j mod size) fr;
     Some (set_head t ((head_seq_num t + (j - rb_head b)) .& IEEE80211_SN_MASK), frames)).
Proof.
  intros H Hj Hn. set (k := Z.to_nat (j - rb_head b)).
  assert (rel size (set_head t (j mod 4096)) (mk_rbuf j (rb_store b))) as Hj1.
  { replace j with (rb_head b + Z.of_nat k) by lia. apply rel_skips; [done|]. intros n Hr. apply Hn. lia. }
  destruct (release_frame_spec _ _ fr Hj1) as (t' & fs & Hr & H' & Ho & Hs).
  cbn [rb_head] in Hr. destruct (release_frame_set_head _ _ _ _ _ _ Hr) as (t'' & -> & Hh & Hy).
  cbn [mbind option_bind]. rewrite Hy, Hh, sn_mask_mod, (rl_head _ _ _ H), sn_inc_mod.
  replace (((rb_head b mod 4096 + 1) mod 4096 + (j - rb_head b)) mod 4096) with ((j + 1) mod 4096).
  2:{ rewrite Zplus_mod_idemp_l, <- Z.add_assoc, Zplus_mod_idemp_l. f_equal. lia. }
  replace ((j + 1) mod 4096) with (head_seq_num t') by (rewrite (rl_head _ _ _ H'); done).
  assert (rb_advance (Z.to_nat (j + 1 - rb_head b)) b = rb_pop (mk_rbuf j (rb_store b))) as ->.
  { replace (Z.to_nat (j + 1 - rb_head b)) with (k + 1)%nat by lia. rewrite rb_advance_app.
    assert (rb_advance k b = (mk_rbuf j (rb_store b), [])) as ->.
    { rewrite rb_advance_missing by (intros n Hr'; apply Hn; lia). f_equal. f_equal. lia. }
    cbn [fst snd app]. rewrite rb_advance_S. cbn [rb_advance fst snd]. rewrite app_nil_r.
    by rewrite <- surjective_pairing. }
  exists t', fs. split; [by destruct t'|]. done.
Qed.

Definition expired_at (jiffies tm : Z) : bool :=
  time_after jiffies (u64 (tm + HT_RX_REORDER_BUF_TIMEOUT HZ)).

Definition goto_ok (b : rbuf) (g : option Z) : Prop :=
  match g with
  | Some i => exists n, rb_head b <= n < rb_head b + size /\ i = n mod size
  | None => True
  end.

Definition simulates_scan (t : tid_ampdu_rx) (fr : list rx_mpdu) (a : rbuf * rlog)
    (r : option (tid_ampdu_rx * list rx_mpdu * option Z)) : Prop :=
  exists t' fs g, r = Some (t', fr ++ fs, g) /\ rel size t' a.1 /\ outs fs a.2 /\ frame_same t t' /\
    goto_ok a.1 g.

Lemma sim_scan_ret t b fr g : rel size t b -> goto_ok b g -> simulates_scan t fr (b, []) (Some (t, fr, g)).
Proof. intros H Hg. exists t, [], g. rewrite app_nil_r. done. Qed.

Lemma sim_scan_bind t fr b1 o1 b2 o2 r k :
  simulates t fr (b1, o1) r ->
  (forall t1 fr1, rel size t1 b1 -> frame_same t t1 -> simulates_scan t1 fr1 (b2, o2) (k (t1, fr1))) ->
  simulates_scan t fr (b2, o1 ++ o2) (r ≫= k).
Proof.
  intros (t1 & fs1 & -> & H1 & Ho1 & Hf1) Hk. cbn [mbind option_bind].
  destruct (Hk t1 (fr ++ fs1) H1 Hf1) as (t2 & fs2 & g & -> & H2 & Ho2 & Hf2 & Hg).
  exists t2, (fs1 ++ fs2), g. rewrite app_assoc. split; [done|]. split; [done|].
  split; [by apply outs_app|]. split; [by eapply frame_same_trans|done].
Qed.

Lemma timeout_scan_spec fuel e jiffies h0 t b j fr :
  rel size t b -> h0 < j -> Z.of_nat fuel = h0 + size - j -> h0 <= rb_head b <= j ->
  (forall n x, rb_store b !! n = Some x -> n < h0 + size) ->
  (forall n, rb_head b <= n < j -> rb_store b !! n = None) ->
  simulates_scan t fr (rb_timeout fuel (expired_at jiffies) b j)
    (timeout_scan HZ (fuel + e) jiffies t (h0 mod size) (j mod size) (j - rb_head b) fr).
Proof.
  pose proof size_pos as Hs1.
  revert t b j fr. induction fuel as [|fuel IH]; intros t b j fr H Hj Hf Hh Hk Hn;
    cbn [timeout_scan rb_timeout Nat.add].
  { replace j with (h0 + 1 * size) by lia. destruct e; cbn [timeout_scan];
      rewrite Z.mod_add, Z.eqb_refl by lia; by apply sim_scan_ret. }
  destruct (Z.eqb_spec (j mod size) (h0 mod size)) as [Ej|_];
    [exfalso; assert (j = h0) by (apply mod_window_inj; [lia|done]); lia|].
  destruct (Z.lt_ge_cases j (rb_head b + size)) as [Hjw|Hjw].
  2:{ assert (rb_store b !! j = None) as ->.
      { destruct (rb_store b !! j) eqn:E; [|done]. apply (rw_keys _ _ (rl_wf _ _ _ H)) in E. lia. }
      lia. }
  rewrite (ready_spec t b) by (done || lia). cbn [mbind option_bind].
  destruct (rb_store b !! j) as [[d tm]|] eqn:E; cbn [negb].
  2:{ rewrite (rl_size _ _ _ H), mod_succ.
      replace (j - rb_head b + 1) with (j + 1 - rb_head b) by lia.
      apply IH; [done|lia|lia|lia|done|].
      intros q Hq. destruct (decide (q = j)) as [->|]; [done|]. apply Hn. lia. }
  destruct (rl_slots _ _ _ H j) as (s & Hs & Hsh); [lia|]. rewrite Hs. cbn [mbind option_bind].
  rewrite E in Hsh. destruct Hsh as (f & _ & _ & _ & ->). fold (expired_at jiffies tm).
  assert (nz (j - rb_head b) = (rb_head b <? j)) as -> by (unfold nz; repeat zcase; cbn; (done || lia)).
  destruct (_ && _) eqn:Ec; [apply sim_scan_ret; [done|]; cbn; exists j; split; [lia|done]|].
  rewrite !(rl_size _ _ _ H), mod_succ.
  rewrite (purge_loop_id _ t b (h0 + 1) j) by (done || lia || (intros q Hq; first
    [ destruct (Z.lt_ge_cases q (rb_head b)); [by left|right; apply Hn; lia]
    | split; [lia|]; destruct (rb_store b !! (q + size)) eqn:Eq; [apply Hk in Eq; lia|done] ])).
  cbn [mbind option_bind].
  pose proof (timeout_release_spec t b j fr H ltac:(lia) Hn) as Hsim.
  pose proof (rb_advance_head (Z.to_nat (j + 1 - rb_head b)) b) as Hh1.
  pose proof (rb_advance_store (Z.to_nat (j + 1 - rb_head b)) b) as Hst.
  destruct (rb_advance _ b) as [b1 o1]. cbn [fst] in Hh1, Hst.
  destruct (ieee80211_release_reorder_frame t (j mod size) fr) as [[tx frx]|] eqn:Er;
    [|by destruct Hsim as (? & ? & ? & _)].
  cbn [mbind option_bind] in *.
  destruct Hsim as (t1 & fs1 & [= <- ->] & H1 & Ho1 & Hf1). cbn [fst snd] in *.
  set (t1 := set_head tx _) in *.
  assert (simulates_scan t1 (fr ++ fs1) (rb_timeout fuel (expired_at jiffies) b1 (j + 1))
    (timeout_scan HZ (fuel + e) jiffies t1 (h0 mod size) ((j + 1) mod size) (j + 1 - rb_head b1) (fr ++ fs1)))
    as (t2 & fs2 & g & He & H2 & Ho2 & Hf2 & Hg).
  { apply IH; [done|lia|lia|lia| |].
    - intros q x. rewrite Hst. destruct ((rb_head b <=? q) && _); [done|]. apply Hk.
    - intros q Hq. rewrite Hst. repeat zcase; cbn [andb]; (done || lia). }
  replace (j + 1 - rb_head b1) with 0 in He by lia.
  assert (buf_size t1 = size) as Hbs by apply H1. rewrite Hbs, mod_succ, He.
  destruct (rb_timeout fuel _ b1 (j + 1)) as [b2 o2]. cbn [fst snd] in *.
  exists t2, (fs1 ++ fs2), g. rewrite app_assoc. split; [done|]. split; [done|].
  split; [by apply outs_app|]. split; [by eapply frame_same_trans|done].
Qed.

(** The search for the next ready slot ends: a stored frame is at most a
    window away. *)
Lemma find_ready_spec fuel t b stop i n x :
  rel size t b -> rb_store b !! n = Some x -> rb_head b <= i <= n -> Z.of_nat fuel >= n - i ->
  exists m, find_ready fuel t stop (i mod size) = Some (m mod size) /\ rb_head b <= m < rb_head b + size.
Proof.
  intros H Hx. pose proof (rw_keys _ _ (rl_wf _ _ _ H) _ _ Hx) as Hn.
  revert i. induction fuel as [|fuel IH]; intros i Hi Hf; cbn [find_ready];
    (destruct (Z.eqb_spec (i mod size) stop) as [_|_]; [exists i; split; [done|lia]|]);
    rewrite (ready_spec t b) by (done || lia); cbn [mbind option_bind];
    (destruct (rb_store b !! i) eqn:E; [exists i; split; [done|lia]|]).
  - assert (i = n) as -> by lia. congruence.
  - rewrite (rl_size _ _ _ H), mod_succ. apply IH; [|lia].
    destruct (decide (i = n)) as [->|]; [congruence|lia].
Qed.

Lemma set_release_timer_spec t b m :
  rel size t b -> rb_head b <= m < rb_head b + size ->
  exists t', set_release_timer HZ t (m mod size) = Some t' /\ rel size t' b /\ armed t' /\
    auto_seq t' = auto_seq t /\ started t' = started t /\ removed t' = removed t.
Proof.
  intros H Hm. destruct (rl_slots _ _ _ H m Hm) as (s & Hs & _).
  unfold set_release_timer. rewrite Hs. cbn [mbind option_bind].
  destruct (removed t) eqn:Er; eexists; (split; [reflexivity|]).
  - split; [done|]. unfold armed. by rewrite Er.
  - split; [by apply rel_set_timer|]. done.
Qed.

(** The result of an operation that may rearm the release timer. *)
Definition implements (t : tid_ampdu_rx) (fr : list rx_mpdu) (a : rbuf * rlog)
    (r : option (tid_ampdu_rx * list rx_mpdu)) : Prop :=
  exists t' fs, r = Some (t', fr ++ fs) /\ rel size t' a.1 /\ outs fs a.2 /\ armed t' /\
    auto_seq t' = auto_seq t /\ started t' = started t /\ removed t' = removed t.

Lemma rel_keys t b n x : rel size t b -> rb_store b !! n = Some x -> rb_head b <= n < rb_head b + size.
Proof. intros H. apply (rl_wf _ _ _ H). Qed.

Lemma store_nonempty (m : gmap Z (list Z * Z)) : m <> ∅ -> exists n x, m !! n = Some x.
Proof. intros Hm. apply map_choose in Hm as (n & x & Hx). eauto. Qed.

(** The release step and its timer. *)
Lemma sta_reorder_release_spec jiffies t b fr :
  rel size t b ->
  implements t fr (rb_release size (expired_at jiffies) b)
    (ieee80211_sta_reorder_release HZ jiffies t fr).
Proof.
  intros H. pose proof size_pos as Hs1.
  unfold ieee80211_sta_reorder_release. rewrite (head_index t b H), (rl_size _ _ _ H).
  assert (simulates_scan t fr (rb_release size (expired_at jiffies) b)
    (ready ← ieee80211_rx_reorder_ready t (rb_head b mod size);
     if negb ready && nz (stored_mpdu_num t) then
       timeout_scan HZ (Z.to_nat size) jiffies t (rb_head b mod size)
         ((rb_head b mod size + 1) mod size) 1 fr
     else '(t, frames) ← release_ready_loop (Z.to_nat size) t (rb_head b mod size) fr;
          Some (t, frames, None))) as (t1 & fs1 & g & Hr & H1 & Ho1 & Hf1 & Hg).
  { rewrite (ready_spec t b) by (done || lia). cbn [mbind option_bind].
    rewrite (stored_zero t b H). unfold rb_release.
    destruct (rb_store b !! rb_head b) as [x|] eqn:E; cbn [negb andb].
    2: case_bool_decide as E0; cbn [negb].
    - destruct (release_ready_loop_spec (Z.to_nat size) t b fr H) as (t1 & fs1 & -> & H1 & Ho1 & Hf1).
      { pose proof (store_size_le b (rl_wf _ _ _ H)). lia. }
      exists t1, fs1, None. done.
    - destruct (Z.to_nat size) as [|n] eqn:En; [lia|]. cbn [release_ready_loop].
      rewrite (ready_spec t b), E by (done || lia). cbn [mbind option_bind]. by apply sim_scan_ret.
    - rewrite mod_succ.
      pose proof (timeout_scan_spec (Z.to_nat (size - 1)) 1 jiffies (rb_head b) t b (rb_head b + 1) fr H)
        as Hscan.
      replace (rb_head b + 1 - rb_head b) with 1 in Hscan by lia.
      replace (Z.to_nat (size - 1) + 1)%nat with (Z.to_nat size) in Hscan by lia.
      apply Hscan; try lia.
      + intros q y Hq. pose proof (rel_keys _ _ _ _ H Hq). lia.
      + intros q Hq. by replace q with (rb_head b) by lia. }
  destruct (ieee80211_rx_reorder_ready t (rb_head b mod size)) as [ready|]; [|done].
  cbn [mbind option_bind] in *. rewrite Hr. cbn [mbind option_bind].
  destruct (rb_release size _ b) as [b1 o1]. cbn [fst snd] in *.
  destruct Hf1 as (_ & Hf2 & Hf3 & Hf4).
  assert (forall m, rb_head b1 <= m < rb_head b1 + size ->
    implements t fr (b1, o1) (t ← set_release_timer HZ t1 (m mod size); Some (t, fr ++ fs1))) as Harm.
  { intros m Hm. destruct (set_release_timer_spec t1 b1 m H1 Hm) as (t2 & -> & H2 & Ha & E1 & E2 & E3).
    exists t2, fs1. cbn [mbind option_bind fst snd]. split_and!; (done || congruence). }
  destruct g as [i|]; [destruct Hg as (m & Hm & ->); by apply Harm|].
  rewrite (stored_zero t1 b1 H1). case_bool_decide as E; cbn [negb].
  - exists (set_reorder_timer t1 None), fs1. split; [done|]. split; [by apply rel_set_timer|].
    split; [done|]. split; [|done]. unfold armed. cbn [stored_mpdu_num set_reorder_timer].
    rewrite (rl_stored _ _ _ H1). cbn [fst]. by rewrite E, map_size_empty.
  - destruct (store_nonempty _ E) as (n & x & Hx). pose proof (rel_keys _ _ _ _ H1 Hx) as Hn.
    rewrite (head_index t1 b1 H1), (rl_size _ _ _ H1).
    destruct (find_ready_spec (Z.to_nat size) t1 b1 (Z.rem (rb_head b1 mod size - 1) size) (rb_head b1) n x)
      as (m & -> & Hm); [done|done|lia|lia|]. cbn [mbind option_bind]. by apply Harm.
Qed.

(** Filing a frame under a number of the window. *)
Lemma rel_insert t b n s skb jiffies :
  rel size t b -> rb_head b <= n < rb_head b + size -> rb_store b !! n = None ->
  slot_at t (n mod size) = Some s ->
  ieee80211_get_sn (mdata skb) = Some (n mod 4096) ->
  flag_set (mflag skb) RX_FLAG_AMSDU_MORE = false ->
  rel size (set_stored (set_slot t (n mod size) (mk_slot (buf s ++ [skb]) jiffies))
              (u16 (stored_mpdu_num t + 1)))
    (mk_rbuf (rb_head b) (<[n := (mdata skb, jiffies)]> (rb_store b))).
Proof.
  intros H Hn Hx Hs Hsn Hf. pose proof size_pos. pose proof (stored_range t b H) as Hr.
  split; cbn [buf_size reorder reorder_buf_filtered head_seq_num stored_mpdu_num set_stored set_slot
    rb_head rb_store]; try (by apply H).
  - unfold zlen. rewrite length_insert. apply H.
  - rewrite wrap_small by (destruct Hsize; unfold is_uint; lia).
    rewrite map_size_insert, Hx, (rl_stored _ _ _ H). lia.
  - intros q Hq. destruct (decide (q = n)) as [->|Hne].
    + rewrite lookup_insert_eq. exists (mk_slot (buf s ++ [skb]) jiffies).
      split; [eapply (slot_at_set_same _ _ _ s); done|].
      destruct (rl_slots _ _ _ H n Hn) as (s' & Hs' & Hh). rewrite Hs in Hs'. injection Hs' as <-.
      rewrite Hx in Hh. cbn [slot_holds] in *. exists skb. rewrite Hh. done.
    + rewrite lookup_insert_ne by done. destruct (rl_slots _ _ _ H q Hq) as (s' & Hs' & Hh).
      exists s'. split; [|done]. transitivity (slot_at t (q mod size)); [|done].
      apply slot_at_set_other; [apply Z.mod_pos_bound; lia|]. intros E. apply mod_window_inj in E; lia.
  - pose proof (rl_wf _ _ _ H) as [Hk Hw]. split; cbn [rb_head rb_store].
    + intros q x. destruct (decide (q = n)) as [->|]; [lia|]. rewrite lookup_insert_ne by done. apply Hk.
    + intros q x. destruct (decide (q = n)) as [->|]; [|rewrite lookup_insert_ne by done; apply Hw].
      rewrite lookup_insert_eq. by intros [= <-].
Qed.

(** Delivering the head frame of an empty buffer at once. *)
Lemma receive_direct expired now b d :
  rb_store b = ∅ ->
  rb_release size expired (mk_rbuf (rb_head b) (<[rb_head b := (d, now)]> (rb_store b))) =
    (mk_rbuf (rb_head b + 1) ∅, [(rb_head b, d)]).
Proof.
  intros E. pose proof size_pos. unfold rb_release. cbn [rb_head rb_store].
  rewrite E, lookup_insert_eq. assert (exists n, Z.to_nat size = S (S n)) as [n ->].
  { exists (Z.to_nat size - 2)%nat. lia. }
  cbn [rb_run]. rewrite lookup_insert_eq, lookup_insert_ne, lookup_empty by lia.
  rewrite rb_advance_S. cbn [rb_advance]. unfold rb_pop. cbn [rb_head rb_store].
  rewrite lookup_insert_eq. cbn [fst snd app]. by rewrite delete_insert_id.
Qed.

Lemma sn_less_mod a b : ieee80211_sn_less a (b mod 4096) = ieee80211_sn_less a b.
Proof. unfold ieee80211_sn_less. by rewrite !sn_mask_mod, Zminus_mod_idemp_r. Qed.

Lemma unwrap_ahead h sn :
  ieee80211_sn_less sn (h mod 4096) = false -> 0 <= unwrap h sn - h <= 2048.
Proof.
  intros E. unfold unwrap. rewrite E. rewrite sn_less_mod in E.
  assert (~ 0 < (h - sn) mod 4096 < 2048) as Hn by (intros Hn; apply sn_less_spec in Hn; congruence).
  pose proof (Z.mod_pos_bound (sn - h) 4096). pose proof (Z.mod_pos_bound (h - sn) 4096).
  destruct (decide ((sn - h) mod 4096 = 0)); [lia|].
  replace (h - sn) with (- (sn - h)) in * by lia. rewrite Z.mod_opp_l_nz in Hn by lia. lia.
Qed.

Lemma unwrap_behind h sn : ieee80211_sn_less sn (h mod 4096) = true -> unwrap h sn < h.
Proof.
  intros E. unfold unwrap. rewrite E. rewrite sn_less_mod in E. apply sn_less_spec in E. lia.
Qed.

Lemma window_test h sn :
  is_uint 12 sn -> ieee80211_sn_less sn (h mod 4096) = false ->
  ieee80211_sn_less sn (u16 (h mod 4096 + size)) = (unwrap h sn <? h + size).
Proof.
  intros Hu E. pose proof (unwrap_ahead _ _ E) as Hd. destruct Hsize as [Hs _].
  pose proof (Z.mod_pos_bound h 4096) as Hh. pose proof (unwrap_mod h sn Hu) as Hm.
  rewrite wrap_small by (unfold is_uint; lia). apply eq_iff_eq_true.
  rewrite sn_less_spec, Z.ltb_lt. revert Hd Hm. generalize (unwrap h sn). intros n Hd <-.
  rewrite Zminus_mod_idemp_r. replace (h mod 4096 + size - n) with (h mod 4096 + (size - n)) by lia.
  rewrite Zplus_mod_idemp_l. replace (h + (size - n)) with (size - (n - h)) by lia.
  destruct (Z.lt_ge_cases (n - h) size) as [Hlt|Hge].
  - rewrite Z.mod_small by lia. lia.
  - destruct (decide (size - (n - h) = 0)) as [->|]; [rewrite Zmod_0_l; lia|].
    rewrite <- (Z.mod_add _ 1), Z.mod_small by lia. lia.
Qed.

(** A frame the buffer may hold: whole, with a readable sequence number. *)
Definition whole_frame (skb : rx_mpdu) (sn : Z) : Prop :=
  ieee80211_get_sn (mdata skb) = Some sn /\ is_uint 12 sn /\
  flag_set (mflag skb) RX_FLAG_AMSDU_MORE = false.

(** A live session past its first frame, with its timer armed while it stores
    frames. *)
Record session (t : tid_ampdu_rx) (b : rbuf) : Prop := {
  ss_rel : rel size t b;
  ss_armed : armed t;
  ss_auto : auto_seq t = false;
  ss_started : started t = true;
  ss_live : removed t = false;
}.

Definition receives (t : tid_ampdu_rx) (skb : rx_mpdu) (fr : list rx_mpdu) (a : rbuf * rlog)
    (r : option (bool * tid_ampdu_rx * list rx_mpdu)) : Prop :=
  exists ret t' fs, r = Some (ret, t', fr ++ fs) /\ session t' a.1 /\
    outs (fs ++ if ret then [] else [skb]) a.2.

Lemma frame_same_session t t' b b' :
  session t b -> rel size t' b' -> frame_same t t' ->
  (stored_mpdu_num t' <> 0 -> stored_mpdu_num t <> 0) -> session t' b'.
Proof.
  intros [H Ha Hau Hst Hl] H' (E1 & E2 & E3 & E4) Hs. split; [done| |congruence..].
  unfold armed in *. rewrite E1, E2. auto.
Qed.

Lemma stored_pos t b : rel size t b -> stored_mpdu_num t <> 0 <-> rb_store b <> ∅.
Proof. intros H. rewrite (rl_stored _ _ _ H). rewrite <- map_size_non_empty_iff. lia. Qed.

Lemma sim_session t b fr k r :
  session t b -> simulates t fr (rb_advance k b) r ->
  exists t' fs, r = Some (t', fr ++ fs) /\ session t' (rb_advance k b).1 /\ outs fs (rb_advance k b).2.
Proof.
  intros Hs (t' & fs & -> & H' & Ho & Hf). exists t', fs. split; [done|]. split; [|done].
  eapply frame_same_session; [done..|]. rewrite (stored_pos _ _ H'), (stored_pos _ _ (ss_rel _ _ Hs)).
  intros Hne E. apply Hne, map_eq. intros n. rewrite rb_advance_store, E, lookup_empty.
  by destruct (_ && _).
Qed.

Lemma manage_reorder_spec jiffies t b skb sn fr :
  session t b -> whole_frame skb sn ->
  receives t skb fr (rb_receive size (expired_at jiffies) jiffies (unwrap (rb_head b) sn) (mdata skb) b)
    (ieee80211_sta_manage_reorder_buf HZ jiffies t skb fr).
Proof.
  intros Hss (Hsn & Hu & Hf). pose proof (ss_rel _ _ Hss) as H. pose proof size_pos as Hs1.
  unfold ieee80211_sta_manage_reorder_buf. rewrite Hsn. cbn [mbind option_bind].
  rewrite (ss_auto _ _ Hss), (ss_started _ _ Hss). cbn [negb andb].
  assert (set_started t = t) as -> by (pose proof (ss_started _ _ Hss); destruct t; cbn in *; by subst).
  rewrite (rl_head _ _ _ H), (rl_size _ _ _ H). unfold rb_receive.
  destruct (ieee80211_sn_less sn (rb_head b mod 4096)) eqn:El.
  { apply unwrap_behind in El. zcase; [|lia]. exists true, t, []. by rewrite app_nil_r. }
  pose proof (unwrap_ahead _ _ El) as Hd. rewrite (window_test _ _ Hu El).
  pose proof (unwrap_mod (rb_head b) sn Hu) as Hmod.
  set (n := unwrap (rb_head b) sn) in *. destruct (Z.ltb_spec n (rb_head b)) as [|_]; [lia|].
  set (k := Z.to_nat (n - size + 1 - rb_head b)).
  assert (exists t1 fs1,
    (if negb (n <? rb_head b + size) then
       ieee80211_release_reorder_frames t (ieee80211_sn_inc (ieee80211_sn_sub sn size)) fr
     else Some (t, fr)) = Some (t1, fr ++ fs1) /\
    session t1 (rb_advance k b).1 /\ outs fs1 (rb_advance k b).2) as (t1 & fs1 & -> & Hss1 & Ho1).
  { apply (sim_session t b fr k _ Hss). zcase; cbn [negb].
    - assert (k = O) as -> by lia. by apply sim_ret.
    - unfold ieee80211_release_reorder_frames. rewrite sn_inc_mod, sn_sub_mod, Zplus_mod_idemp_l, <- Hmod.
      replace ((n mod 4096 - size + 1) mod 4096) with ((rb_head b + Z.of_nat k) mod 4096).
      2:{ replace (n mod 4096 - size + 1) with (n mod 4096 + (1 - size)) by lia.
          rewrite Zplus_mod_idemp_l. f_equal. lia. }
      apply release_frames_loop_spec; [done|lia|lia]. }
  cbn [mbind option_bind]. pose proof (rb_advance_head k b) as Hh1.
  destruct (rb_advance k b) as [b1 o1]. cbn [fst snd] in *.
  pose proof (ss_rel _ _ Hss1) as H1. assert (rb_head b1 <= n < rb_head b1 + size) as Hw by lia.
  rewrite (rl_size _ _ _ H1). rewrite <- Hmod, sn_index, Hmod.
  rewrite (ready_spec t1 b1) by done. cbn [mbind option_bind].
  destruct (rb_store b1 !! n) as [x|] eqn:E.
  { exists true, t1, fs1. by rewrite app_nil_r. }
  destruct ((sn =? head_seq_num t1) && (stored_mpdu_num t1 =? 0)) eqn:Ed.
  - apply andb_true_iff in Ed as [Ea%Z.eqb_eq Eb%Z.eqb_eq].
    assert (rb_store b1 = ∅) as Em.
    { destruct (decide (rb_store b1 = ∅)) as [|Hne]; [done|]. by apply (stored_pos _ _ H1) in Hne. }
    assert (n = rb_head b1) as ->.
    { rewrite (rl_head _ _ _ H1), <- Hmod in Ea. apply mod_window_inj; [lia|].
      rewrite <- sn_index, Ea, sn_index. done. }
    rewrite receive_direct by done. rewrite Hf. cbn [fst snd].
    exists false, (set_head t1 (ieee80211_sn_inc (head_seq_num t1))), fs1. split; [done|].
    split; [|cbn [snd]; by apply outs_app].
    eapply (frame_same_session t1 _ b1); [done| |by unfold frame_same|done].
    rewrite (sn_inc_head _ _ H1), <- Em. apply rel_skip; [done|]. by rewrite Em, lookup_empty.
  - destruct (rl_slots _ _ _ H1 n Hw) as (s & Hs & _). rewrite Hs, Hf. cbn [mbind option_bind].
    assert (ieee80211_get_sn (mdata skb) = Some (n mod 4096)) as Hsn' by congruence.
    pose proof (rel_insert t1 b1 n s skb jiffies H1 Hw E Hs Hsn' Hf) as H2.
    destruct (sta_reorder_release_spec jiffies _ _ (fr ++ fs1) H2)
      as (t3 & fs3 & -> & H3 & Ho3 & Ha3 & E1 & E2 & E3).
    cbn [mbind option_bind]. destruct (rb_release size _ _) as [b3 o3]. cbn [fst snd] in *.
    exists true, t3, (fs1 ++ fs3). rewrite !app_assoc, app_nil_r. split; [done|].
    split; [|by apply outs_app].
    split; [done|done|rewrite E1; exact (ss_auto _ _ Hss1)|rewrite E2; exact (ss_started _ _ Hss1)
           |rewrite E3; exact (ss_live _ _ Hss1)].
Qed.

(** A block-ack request. *)
Lemma bar_spec t b sn fr :
  session t b -> is_uint 12 sn ->
  exists t' fs, ieee80211_release_reorder_frames t sn fr = Some (t', fr ++ fs) /\
    session t' (rb_bar sn b).1 /\ outs fs (rb_bar sn b).2.
Proof.
  intros Hss Hu. pose proof (ss_rel _ _ Hss) as H. unfold rb_bar, ieee80211_release_reorder_frames.
  pose proof (Z.mod_pos_bound (sn - rb_head b) 4096) as Hd.
  zcase.
  - apply (sim_session t b fr _ _ Hss). set (k := Z.to_nat ((sn - rb_head b) mod 4096)).
    replace sn with ((rb_head b + Z.of_nat k) mod 4096) at 1.
    2:{ unfold k. rewrite Z2Nat.id, Zplus_mod_idemp_r by lia. replace (rb_head b + (sn - rb_head b)) with sn by lia.
        apply Z.mod_small. apply Hu. }
    apply release_frames_loop_spec; [done|lia|lia].
  - assert (ieee80211_sn_less (head_seq_num t) sn = false) as El.
    { apply not_true_is_false. rewrite sn_less_spec, (rl_head _ _ _ H), Zminus_mod_idemp_r. lia. }
    exists t, []. rewrite app_nil_r. destruct (Z.to_nat 2048); cbn [release_frames_loop]; by rewrite El.
Qed.

(** The release timer. *)
Lemma timer_spec jiffies t b fr :
  session t b ->
  exists t' fs, ieee80211_sta_reorder_release HZ jiffies t fr = Some (t', fr ++ fs) /\
    session t' (rb_release size (expired_at jiffies) b).1 /\
    outs fs (rb_release size (expired_at jiffies) b).2.
Proof.
  intros Hss. destruct (sta_reorder_release_spec jiffies t b fr (ss_rel _ _ Hss))
    as (t' & fs & -> & H' & Ho & Ha & E1 & E2 & E3).
  exists t', fs. split; [done|]. split; [|done]. destruct Hss. split; [done|done|congruence..].
Qed.
End lemmas.

(** ** Runs *)

Definition buf_step (HZ size : Z) (b : rbuf) (ev : rx_event) : rbuf * rlog :=
  match ev with
  | ev_mpdu jiffies skb =>
      let sn := default 0 (ieee80211_get_sn (mdata skb)) in
      rb_receive size (expired_at HZ jiffies) jiffies (unwrap (rb_head b) sn) (mdata skb) b
  | ev_bar sn => rb_bar sn b
  | ev_timer jiffies => rb_release size (expired_at HZ jiffies) b
  end.

Fixpoint buf_run (HZ size : Z) (b : rbuf) (evs : list rx_event) : rbuf * rlog :=
  match evs with
  | [] => (b, [])
  | ev :: evs =>
      let '(b1, o1) := buf_step HZ size b ev in
      let '(b2, o2) := buf_run HZ size b1 evs in (b2, o1 ++ o2)
  end.

(** Whole frames and readable block-ack requests. *)
Definition event_ok (ev : rx_event) : Prop :=
  match ev with
  | ev_mpdu _ skb => exists sn, whole_frame skb sn
  | ev_bar sn => is_uint 12 sn
  | ev_timer _ => True
  end.

Section runs.
Context (HZ size : Z) (Hsize : good_size size).

Lemma ring_step_spec t b ev :
  session size t b -> event_ok ev ->
  exists t', ring_step HZ t ev = Some (t', map snd (buf_step HZ size b ev).2) /\
    session size t' (buf_step HZ size b ev).1.
Proof.
  intros Hs He. destruct ev as [j skb|sn|j]; cbn [ring_step buf_step].
  - destruct He as (sn & Hw). assert (ieee80211_get_sn (mdata skb) = Some sn) as -> by apply Hw.
    cbn [default]. destruct (manage_reorder_spec HZ size Hsize j t b skb sn [] Hs Hw) as (r & t' & fs & -> & Hs' & Ho).
    cbn [mbind option_bind app]. exists t'. by rewrite Ho.
  - destruct (bar_spec size Hsize t b sn [] Hs He) as (t' & fs & -> & Hs' & Ho).
    cbn [mbind option_bind app]. exists t'. by rewrite Ho.
  - destruct (timer_spec HZ size Hsize j t b [] Hs) as (t' & fs & -> & Hs' & Ho).
    cbn [mbind option_bind app]. exists t'. by rewrite Ho.
Qed.

Lemma ring_run_spec evs t b :
  session size t b -> Forall event_ok evs ->
  exists t', ring_run HZ t evs = Some (t', map snd (buf_run HZ size b evs).2) /\
    session size t' (buf_run HZ size b evs).1.
Proof.
  intros Hs He. revert t b Hs. induction He as [|ev evs Hev He IH]; intros t b Hs; cbn [ring_run buf_run].
  { by exists t. }
  destruct (ring_step_spec t b ev Hs Hev) as (t1 & -> & H1). cbn [mbind option_bind].
  destruct (buf_step HZ size b ev) as [b1 o1]. cbn [fst snd] in *.
  destruct (IH t1 b1 H1) as (t2 & -> & H2). cbn [mbind option_bind].
  destruct (buf_run HZ size b1 evs) as [b2 o2]. cbn [fst snd] in *. exists t2. by rewrite map_app.
Qed.

Lemma buf_step_ok b ev : rb_wf size b -> event_ok ev -> rb_ok size b (buf_step HZ size b ev).
Proof.
  intros Hw He. pose proof (size_pos size Hsize). destruct ev as [j skb|sn|j]; cbn [buf_step].
  - destruct He as (sn & Hsn & Hu & _). rewrite Hsn. cbn [default].
    apply rb_receive_ok; [lia|done|]. by rewrite unwrap_mod.
  - by apply rb_bar_ok.
  - by apply rb_release_ok.
Qed.

Lemma buf_run_ok evs b : rb_wf size b -> Forall event_ok evs -> rb_ok size b (buf_run HZ size b evs).
Proof.
  intros Hw He. revert b Hw. induction He as [|ev evs Hev He IH]; intros b Hw; cbn [buf_run].
  { by apply rb_ok_refl. }
  pose proof (buf_step_ok b ev Hw Hev) as H1. destruct (buf_step HZ size b ev) as [b1 o1].
  specialize (IH b1 (ro_wf _ _ _ H1)). destruct (buf_run HZ size b1 evs) as [b2 o2].
  by eapply rb_ok_trans.
Qed.

(** A session as it is started, once its first frame is in. *)
Lemma start_session tu_exp jiffies ssn tmo :
  is_uint 12 ssn ->
  session size (set_started (start_rx_ba_session tu_exp jiffies ssn size tmo false)) (mk_rbuf ssn ∅).
Proof.
  intros Hu. pose proof (size_pos size Hsize). split; [|by unfold armed|done..]. split; cbn; try done.
  - unfold zlen. rewrite length_replicate. lia.
  - symmetry. apply Z.mod_small, Hu.
  - intros n Hn. exists (mk_slot [] 0). split; [|by rewrite lookup_empty].
    pose proof (Z.mod_pos_bound n size). unfold slot_at. zcase; [lia|]. cbn.
    rewrite lookup_replicate. split; [done|lia].
Qed.
End runs.
