(* ===== verification/ReorderProps.v ===== *)
(** * ReorderProps: order, progress and losslessness of the reorder buffer

    Properties of the concrete ring of [Reorder] for any sequence of frames,
    block-ack requests and timer expiries, derived from the refinement of
    [ReorderRefine], and three concrete runs outside its conditions. *)
From Stdlib Require Import Sorted Permutation.
From stdpp Require Import gmap.
From S2P Require Import Prelude Frame Key Reorder ReorderSpec ReorderRefine.

(** ** Lemmas: reception without loss *)

Lemma unwrap_id h n : -2048 < n - h <= 2047 -> unwrap h (n mod 4096) = n.
Proof.
  intros Hr. unfold unwrap. rewrite sn_less_mod.
  rewrite Zminus_mod_idemp_l, Zminus_mod_idemp_r.
  destruct (ieee80211_sn_less (n mod 4096) h) eqn:E.
  - apply sn_less_spec in E. rewrite Zminus_mod_idemp_r in E.
    destruct (Z.lt_ge_cases n h); [rewrite Z.mod_small by lia; lia|].
    destruct (decide (n = h)) as [->|]; [rewrite Z.sub_diag, Zmod_0_l in E; lia|].
    rewrite <- (Z.mod_add _ 1), Z.mod_small in E by lia. lia.
  - assert (~ 0 < (h - n) mod 4096 < 2048) as Hn.
    { intros H. rewrite <- Zminus_mod_idemp_r in H. apply sn_less_spec in H. congruence. }
    destruct (Z.lt_ge_cases n h); [rewrite Z.mod_small in Hn by lia; lia|].
    rewrite Z.mod_small by lia. lia.
Qed.

Lemma rb_run_spec fuel m n :
  let r := rb_run fuel m n in
  (r <= fuel)%nat /\ (forall k, n <= k < n + Z.of_nat r -> is_Some (m !! k)) /\
  (r = fuel \/ m !! (n + Z.of_nat r) = None).
Proof.
  revert n. induction fuel as [|fuel IH]; intros n; cbn [rb_run].
  { split; [done|]. split; [lia|by left]. }
  destruct (m !! n) as [x|] eqn:E.
  - destruct (IH (n + 1)) as (H1 & H2 & H3). split; [lia|]. split.
    + intros k Hk. destruct (decide (k = n)) as [->|]; [by rewrite E|]. apply H2. lia.
    + destruct H3 as [->|H3]; [by left|]. right. by replace (n + Z.of_nat (S _)) with
        (n + 1 + Z.of_nat (rb_run fuel m (n + 1))) by lia.
  - split; [lia|]. split; [lia|]. right. by replace (n + Z.of_nat 0) with n by lia.
Qed.

Lemma rb_timeout_waits fuel expired b j :
  (forall n x, rb_store b !! n = Some x -> expired x.2 = false) -> rb_head b < j ->
  rb_timeout fuel expired b j = (b, []).
Proof.
  intros He. revert j. induction fuel as [|fuel IH]; intros j Hj; cbn [rb_timeout]; [done|].
  destruct (rb_store b !! j) as [[d tm]|] eqn:E; [|apply IH; lia].
  zcase; [|lia]. apply He in E. cbn in E. by rewrite E.
Qed.

(** The log of popping [k] stored numbers. *)
Lemma rb_advance_full k b (g : Z -> list Z) :
  (forall n, rb_head b <= n < rb_head b + Z.of_nat k -> exists tm, rb_store b !! n = Some (g n, tm)) ->
  (rb_advance k b).2 = map (fun n => (n, g n)) (seqZ (rb_head b) (Z.of_nat k)).
Proof.
  revert b. induction k as [|k IH]; intros b Hs; [done|].
  rewrite rb_advance_S. cbn [snd].
  rewrite (seqZ_cons (rb_head b)) by lia. cbn [map].
  destruct (Hs (rb_head b)) as [tm Hh]; [lia|]. unfold rb_pop. rewrite Hh. cbn [fst snd app].
  f_equal. rewrite IH; cbn [rb_head rb_store].
  - f_equal. replace (Z.pred (Z.of_nat (S k))) with (Z.of_nat k) by lia. done.
  - intros n Hn. rewrite lookup_delete_ne by lia. apply Hs. lia.
Qed.

Section lossless.
Context (HZ size h k : Z) (g : Z -> list Z) (tau : Z -> Z).
Context (Hsize : good_size size) (Hk : 0 <= k <= size).

(** After receiving the numbers [seen]: they are delivered up to the first
    missing one, the others are stored. *)
Record filed (seen : list Z) (b : rbuf) (log : rlog) : Prop := {
  fl_head : h <= rb_head b;
  fl_gap : rb_store b !! rb_head b = None;
  fl_below : forall n, h <= n < rb_head b -> n ∈ seen;
  fl_store : forall n, rb_store b !! n =
    if bool_decide (n ∈ seen) && (rb_head b <=? n) then Some (g n, tau n) else None;
  fl_log : log = map (fun n => (n, g n)) (seqZ h (rb_head b - h));
}.

Lemma filed_receive expd seen b log n :
  (forall j, expd (tau j) = false) ->
  filed seen b log -> (forall i, i ∈ n :: seen -> h <= i < h + k) -> n ∉ seen ->
  let r := rb_receive size expd (tau n) n (g n) b in
  filed (n :: seen) r.1 (log ++ r.2).
Proof.
  intros Hexp [H1 H2 H3 H4 H5] Hin Hnew. assert (h <= n < h + k) as Hn by (apply Hin; left).
  assert (rb_head b <= n) as Hhn.
  { destruct (Z.lt_ge_cases n (rb_head b)); [|done]. destruct Hnew. apply H3. lia. }
  unfold rb_receive. zcase; [lia|]. replace (Z.to_nat (n - size + 1 - rb_head b)) with O by lia.
  cbn [rb_advance]. rewrite H4, bool_decide_eq_false_2 by done. cbn [andb].
  set (b2 := mk_rbuf (rb_head b) (<[n:=(g n, tau n)]> (rb_store b))).
  assert (forall m, rb_store b2 !! m =
    if bool_decide (m ∈ n :: seen) && (rb_head b <=? m) then Some (g m, tau m) else None) as Hb2.
  { intros m. cbn [b2 rb_store]. destruct (decide (m = n)) as [->|Hne].
    - rewrite lookup_insert_eq, bool_decide_eq_true_2 by left. zcase; [done|lia].
    - rewrite lookup_insert_ne, H4 by done. by rewrite (bool_decide_ext (m ∈ n :: seen) (m ∈ seen)) by
        (rewrite elem_of_cons; split; [by intros [?|?]|by right]). }
  unfold rb_release. change (rb_head b2) with (rb_head b). destruct (decide (n = rb_head b)) as [E|Hne].
  - rewrite Hb2, bool_decide_eq_true_2 by (rewrite E; left). zcase; [|lia]. cbn [andb].
    destruct (rb_run_spec (Z.to_nat size) (rb_store b2) (rb_head b)) as (R1 & R2 & R3).
    set (r := rb_run (Z.to_nat size) (rb_store b2) (rb_head b)) in *.
    pose proof (rb_advance_head r b2) as Hh. pose proof (rb_advance_store r b2) as Hst.
    assert (forall m, rb_head b <= m < rb_head b + Z.of_nat r -> m ∈ n :: seen) as Hmem.
    { intros m Hm. destruct (R2 m Hm) as [x Hx]. rewrite Hb2 in Hx.
      by destruct (bool_decide_reflect (m ∈ n :: seen)). }
    assert ((rb_advance r b2).2 = map (fun n => (n, g n)) (seqZ (rb_head b2) (Z.of_nat r))) as Hlog.
    { apply rb_advance_full. intros m Hm. exists (tau m). rewrite Hb2, bool_decide_eq_true_2 by (by apply Hmem).
      zcase; [done|cbn in Hm; lia]. }
    destruct (rb_advance r b2) as [b3 o3]. cbn [fst snd app] in *. change (rb_head b2) with (rb_head b) in *.
    split.
    + lia.
    + rewrite Hst, Hh. rewrite (proj2 (Z.ltb_ge _ _)), andb_false_r by lia.
      destruct R3 as [R3|R3]; [|done].
      rewrite Hb2. destruct (bool_decide_reflect (rb_head b + Z.of_nat r ∈ n :: seen)) as [Hi|]; [|done].
      apply Hin in Hi. lia.
    + intros m Hm. destruct (Z.lt_ge_cases m (rb_head b)); [right; apply H3; lia|]. apply Hmem. lia.
    + intros m. rewrite Hst, Hb2, Hh.
      destruct (bool_decide_reflect (m ∈ n :: seen)); cbn [andb]; repeat zcase; cbn [andb]; (done || lia).
    + rewrite H5, Hlog, Hh. rewrite <- map_app. f_equal.
      replace (rb_head b + Z.of_nat r - h) with ((rb_head b - h) + Z.of_nat r) by lia.
      rewrite seqZ_app by lia. f_equal. f_equal. lia.
  - assert (rb_store b2 !! rb_head b = None) as ->.
    { cbn [b2 rb_store]. by rewrite lookup_insert_ne. }
    rewrite bool_decide_eq_false_2.
    2:{ intros E. assert (rb_store b2 !! n = None) as E2 by (by rewrite E, lookup_empty).
        cbn [b2 rb_store] in E2. by rewrite lookup_insert_eq in E2. }
    rewrite rb_timeout_waits; cbn [fst snd app]; [|intros m x; rewrite Hb2; destruct (_ && _);
      [intros [= <-]; apply Hexp|done]|cbn; lia].
    rewrite app_nil_r. split; cbn [rb_head b2]; try done.
    + cbn [b2 rb_store]. by rewrite lookup_insert_ne.
    + intros m Hm. right. by apply H3.
Qed.

Context (Hlive : forall i j, expired_at HZ (tau i) (tau j) = false).
Context (f : Z -> rx_mpdu) (Hf : forall n, h <= n < h + k -> whole_frame (f n) (n mod 4096) /\ mdata (f n) = g n).

Lemma filed_head seen b log :
  filed seen b log -> (forall i, i ∈ seen -> h <= i < h + k) -> rb_head b <= h + k.
Proof.
  intros [H1 H2 H3 H4 H5] Hin. destruct (Z.lt_ge_cases (h + k) (rb_head b)) as [Hlt|]; [|done].
  assert (h + k ∈ seen) as Hs by (apply H3; lia). apply Hin in Hs. lia.
Qed.

Lemma filed_run ns seen b log :
  filed seen b log -> NoDup (ns ++ seen) -> (forall i, i ∈ ns ++ seen -> h <= i < h + k) ->
  let r := buf_run HZ size b (map (fun n => ev_mpdu (tau n) (f n)) ns) in
  exists seen', filed seen' r.1 (log ++ r.2) /\ seen' ≡ₚ ns ++ seen.
Proof.
  revert seen b log. induction ns as [|n ns IH]; intros seen b log Hfl Hnd Hin; cbn [map buf_run].
  { exists seen. cbn [fst snd]. by rewrite app_nil_r. }
  cbn [buf_step]. cbn [app] in Hnd. apply NoDup_cons in Hnd as [Hnew Hnd].
  rewrite elem_of_app in Hnew.
  assert (h <= n < h + k) as Hn by (apply Hin; left). destruct (Hf n Hn) as [(Hsn & _ & _) Hg].
  rewrite Hsn. change (default 0 (Some (n mod 4096))) with (n mod 4096). pose proof (fl_head _ _ _ Hfl).
  assert (rb_head b <= h + k).
  { eapply filed_head; [done|]. intros i Hi. apply Hin. right. apply elem_of_app. by right. }
  rewrite unwrap_id by (destruct Hsize; lia). rewrite Hg.
  pose proof (filed_receive (expired_at HZ (tau n)) seen b log n (Hlive n) Hfl) as Hr. cbv zeta in Hr.
  destruct (rb_receive size _ (tau n) n (g n) b) as [b1 o1]. cbn [fst snd] in Hr.
  destruct (IH (n :: seen) b1 (log ++ o1)) as (seen' & Hfl' & Hp).
  - apply Hr.
    + intros i [->|Hi]%elem_of_cons; [done|]. apply Hin. right. apply elem_of_app. by right.
    + intros Hs. apply Hnew. by right.
  - rewrite <- Permutation_middle. apply NoDup_cons. split; [by rewrite elem_of_app|done].
  - intros i Hi. apply Hin. revert Hi. rewrite <- Permutation_middle. done.
  - destruct (buf_run HZ size b1 _) as [b2 o2]. cbn [fst snd] in *. exists seen'.
    rewrite app_assoc. split; [done|]. by rewrite Hp, <- Permutation_middle.
Qed.

Lemma filed_end seen b log : filed seen b log -> seen ≡ₚ seqZ h k -> rb_head b = h + k.
Proof.
  intros Hfl Hp. assert (rb_head b <= h + k) as Hle.
  { eapply filed_head; [done|]. intros i. rewrite Hp, elem_of_seqZ. done. }
  destruct Hfl as [H1 H2 H3 H4 H5].
  destruct (decide (rb_head b = h + k)) as [|Hne]; [done|]. exfalso.
  rewrite H4, bool_decide_eq_true_2 in H2.
  - rewrite Z.leb_refl in H2. discriminate H2.
  - rewrite Hp, elem_of_seqZ. lia.
Qed.

Lemma filed_all seen b log :
  filed seen b log -> seen ≡ₚ seqZ h k -> log = map (fun n => (n, g n)) (seqZ h k).
Proof.
  intros Hfl Hp. rewrite (fl_log _ _ _ Hfl), (filed_end seen b log Hfl Hp).
  by replace (h + k - h) with k by lia.
Qed.

Lemma filed_empty seen b log : filed seen b log -> seen ≡ₚ seqZ h k -> rb_store b = ∅.
Proof.
  intros Hfl Hp. pose proof (filed_end seen b log Hfl Hp) as Eh. apply map_eq. intros n.
  rewrite (fl_store _ _ _ Hfl), lookup_empty. destruct (bool_decide_reflect (n ∈ seen)) as [Hn|]; [|done].
  rewrite Hp, elem_of_seqZ in Hn. zcase; [lia|done].
Qed.
End lossless.

Lemma not_expired HZ t0 i j :
  0 <= HT_RX_REORDER_BUF_TIMEOUT HZ -> 0 <= t0 -> t0 + 2 * HT_RX_REORDER_BUF_TIMEOUT HZ < 2 ^ 63 ->
  t0 <= i <= t0 + HT_RX_REORDER_BUF_TIMEOUT HZ -> t0 <= j <= t0 + HT_RX_REORDER_BUF_TIMEOUT HZ ->
  expired_at HZ i j = false.
Proof.
  intros Hto H0 Hb Hi Hj. unfold expired_at, time_after.
  rewrite (wrap_small 64 (j + _)) by (unfold is_uint; lia).
  rewrite wrap_small by (unfold is_uint; lia).
  apply (uint_testbit_high 63); [unfold is_uint; lia|lia].
Qed.

(** Something is delivered once everything stored has expired. *)
Lemma rb_timeout_delivers fuel expired b j n x :
  rb_store b !! n = Some x -> j <= n < j + Z.of_nat fuel -> rb_head b <= j ->
  (forall n x, rb_store b !! n = Some x -> expired x.2 = true) ->
  (rb_timeout fuel expired b j).2 <> [].
Proof.
  revert j. induction fuel as [|fuel IH]; intros j Hx Hj Hh He; cbn [rb_timeout]; [lia|].
  destruct (rb_store b !! j) as [[d tm]|] eqn:E.
  - pose proof (He _ _ E) as Et. cbn in Et. rewrite Et, andb_false_r.
    pose proof (rb_advance_app (Z.to_nat (j - rb_head b)) 1 b) as Ha.
    replace (Z.to_nat (j - rb_head b) + 1)%nat with (Z.to_nat (j + 1 - rb_head b)) in Ha by lia.
    rewrite Ha. destruct (rb_timeout fuel expired _ (j + 1)) as [b2 o2]. cbn [snd].
    rewrite rb_advance_S. cbn [rb_advance snd]. unfold rb_pop. cbn [snd].
    rewrite rb_advance_head, rb_advance_store.
    replace (rb_head b + Z.of_nat (Z.to_nat (j - rb_head b))) with j by lia.
    rewrite Z.ltb_irrefl, andb_false_r, E. intros Hnil. apply app_eq_nil in Hnil as [Hnil _].
    apply app_eq_nil in Hnil as [_ Hnil]. discriminate Hnil.
  - apply IH; try done; [|lia]. destruct (decide (n = j)) as [->|]; [congruence|lia].
Qed.

Lemma rb_release_delivers size expired b n x :
  1 < size -> rb_store b !! n = Some x -> rb_wf size b ->
  (forall n x, rb_store b !! n = Some x -> expired x.2 = true) ->
  (rb_release size expired b).2 <> [].
Proof.
  intros Hs Hx Hw He. pose proof (rw_keys _ _ Hw _ _ Hx) as Hn. unfold rb_release.
  destruct (rb_store b !! rb_head b) as [[d tm]|] eqn:E.
  - assert (exists q, Z.to_nat size = S q) as [q ->] by (exists (Z.to_nat size - 1)%nat; lia).
    cbn [rb_run]. rewrite E, rb_advance_S. unfold rb_pop. rewrite E. done.
  - rewrite bool_decide_eq_false_2 by (intros E0; by rewrite E0, lookup_empty in Hx).
    destruct (decide (n = rb_head b)) as [->|]; [congruence|].
    eapply rb_timeout_delivers; [done|lia|lia|done].
Qed.

(** ** Properties *)

Section properties.
Context (HZ size : Z) (Hsize : good_size size).

(** C1: The reorder ring implements the abstract reorder buffer, for a window
    size that divides the sequence space and frames that arrive whole.  From any
    live session without partial A-MSDUs and without frames the driver marked as
    filtered, every sequence of whole frames, block-ack requests and timer
    expiries runs to completion (no loop of the code runs on), hands over exactly
    the frames the abstract buffer delivers, in its order, and ends in a state
    that again represents the abstract one.  What happens outside these
    conditions is [reorder_wrap_loss], [reorder_stale_head] and
    [reorder_filtered_hang]. *)
Theorem reorder_refines t b evs :
  session size t b -> Forall event_ok evs ->
  exists t', ring_run HZ t evs = Some (t', map snd (buf_run HZ size b evs).2) /\
    session size t' (buf_run HZ size b evs).1.
Proof. apply (ring_run_spec HZ size Hsize). Qed.

(** C3: Frames leave the reorder ring in sequence order and at most once, for a
    window size that divides the sequence space and frames that arrive whole.  In
    any run of a session without partial A-MSDUs and filtered frames, every frame
    handed over has the sequence number of its place in the log, the unbounded
    numbers of the log strictly increase between the old and the new head, and
    the count of stored frames stays within the window. *)
Theorem reorder_in_order t b evs :
  session size t b -> Forall event_ok evs ->
  exists t' log, ring_run HZ t evs = Some (t', map snd log) /\ log = (buf_run HZ size b evs).2 /\
    log_ok (rb_head b) (rb_head (buf_run HZ size b evs).1) log /\
    head_seq_num t' = rb_head (buf_run HZ size b evs).1 mod 4096 /\
    0 <= stored_mpdu_num t' <= size.
Proof.
  intros Hs He. destruct (ring_run_spec HZ size Hsize evs t b Hs He) as (t' & Hr & Hs').
  exists t', (buf_run HZ size b evs).2. split; [done|]. split; [done|].
  split; [apply (buf_run_ok HZ size Hsize); [apply Hs|done]|].
  split; [apply (ss_rel _ _ _ Hs')|]. eapply stored_range; [done|apply (ss_rel _ _ _ Hs')].
Qed.

(** C2: Reordering loses nothing, for a window size that divides the sequence
    space.  When a session is started at [ssn] and the next [k] frames, [k] at
    most the window, whole and not marked as filtered, arrive in any order within
    the release timeout, all of them are handed over, in sequence order. *)
Theorem reorder_lossless tu_exp now ssn tmo k ns f tau t0 :
  is_uint 12 ssn -> 0 <= k <= size -> ns ≡ₚ seqZ ssn k ->
  (forall n, ssn <= n < ssn + k -> whole_frame (f n) (n mod 4096)) ->
  0 <= HT_RX_REORDER_BUF_TIMEOUT HZ -> 0 <= t0 -> t0 + 2 * HT_RX_REORDER_BUF_TIMEOUT HZ < 2 ^ 63 ->
  (forall n, t0 <= tau n <= t0 + HT_RX_REORDER_BUF_TIMEOUT HZ) ->
  exists t', ring_run HZ (set_started (start_rx_ba_session tu_exp now ssn size tmo false))
      (map (fun n => ev_mpdu (tau n) (f n)) ns) =
    Some (t', map (fun n => mdata (f n)) (seqZ ssn k)).
Proof.
  intros Hu Hk Hp Hf Hto H0 Hb Htau.
  pose proof (start_session size Hsize tu_exp now ssn tmo Hu) as Hs.
  assert (forall n, n ∈ ns -> ssn <= n < ssn + k) as Hin by (intros n; rewrite Hp, elem_of_seqZ; lia).
  destruct (ring_run_spec HZ size Hsize (map (fun n => ev_mpdu (tau n) (f n)) ns) _ _ Hs) as (t' & Hr & _).
  { apply Forall_map, Forall_forall. intros n Hn. exists (n mod 4096). by apply Hf, Hin. }
  exists t'. rewrite Hr. do 2 f_equal.
  destruct (filed_run HZ size ssn k (fun n => mdata (f n)) tau Hsize Hk
    (fun i j => not_expired HZ t0 _ _ Hto H0 Hb (Htau i) (Htau j)) f
    (fun n Hn => conj (Hf n Hn) eq_refl) ns [] (mk_rbuf ssn ∅) []) as (seen & Hfl & Hsp).
  - split; cbn [rb_head rb_store]; try done.
    + intros n Hn. lia.
    + by rewrite Z.sub_diag.
  - rewrite app_nil_r, Hp. apply NoDup_seqZ.
  - intros i. rewrite app_nil_r. apply Hin.
  - cbn [app] in Hfl. rewrite app_nil_r, Hp in Hsp.
    eapply filed_all in Hfl; [|done..]. rewrite Hfl, map_map. done.
Qed.

(** The handler of the release timer delivers once everything stored has
    expired. *)
Lemma timer_delivers t b jiffies :
  session size t b -> stored_mpdu_num t <> 0 ->
  (forall i s, slot_at t i = Some s -> buf s <> [] ->
     time_after jiffies (u64 (time s + HT_RX_REORDER_BUF_TIMEOUT HZ)) = true) ->
  exists t' frames, ieee80211_sta_reorder_release HZ jiffies t [] = Some (t', frames) /\ frames <> [].
Proof.
  intros Hs Hn Ht. destruct (timer_spec HZ size Hsize jiffies t b [] Hs) as (t' & fs & E & _ & Ho).
  exists t', fs. split; [done|]. intros ->. pose proof (ss_rel _ _ _ Hs) as H.
  apply (stored_pos _ _ _ H) in Hn. destruct (store_nonempty _ Hn) as (n & x & Hx).
  eapply (rb_release_delivers size (expired_at HZ jiffies) b n x).
  - apply (size_pos size Hsize).
  - done.
  - apply H.
  - intros m [d tm] Hm. destruct (rl_slots _ _ _ H m) as (s & Hsl & Hh); [by eapply rel_keys|].
    rewrite Hm in Hh. destruct Hh as (g & Hb & _ & _ & <-). apply (Ht _ _ Hsl). by rewrite Hb.
  - unfold outs in Ho. cbn [map] in Ho. by destruct (rb_release _ _ _).2.
Qed.

(** C4: Stored frames are not stuck.  Start a session with a window that divides
    the sequence space and, once its first frame is in, let any whole frames,
    block-ack requests and timer expiries happen in any order: while frames are
    stored then, the release timer is armed, and its handler, run when every
    stored frame has waited longer than the timeout, hands over at least one
    frame. *)
Theorem reorder_timer_progress tu_exp now ssn tmo evs :
  is_uint 12 ssn -> Forall event_ok evs ->
  exists t out, ring_run HZ (set_started (start_rx_ba_session tu_exp now ssn size tmo false)) evs = Some (t, out) /\
    (stored_mpdu_num t <> 0 ->
     reorder_timer t <> None /\
     forall jiffies,
       (forall i s, slot_at t i = Some s -> buf s <> [] ->
          time_after jiffies (u64 (time s + HT_RX_REORDER_BUF_TIMEOUT HZ)) = true) ->
       exists t' frames, ieee80211_sta_reorder_release HZ jiffies t [] = Some (t', frames) /\ frames <> []).
Proof.
  intros Hu He. destruct (ring_run_spec HZ size Hsize evs _ _ (start_session size Hsize tu_exp now ssn tmo Hu) He)
    as (t & Hr & Hs).
  eexists t, _. split; [exact Hr|]. intros Hn. split; [by apply (ss_armed _ _ _ Hs); [|apply (ss_live _ _ _ Hs)]|].
  intros jiffies. by eapply timer_delivers.
Qed.

(** The first frame of a session.  Until a frame at or ahead of the start
    has been seen, frames behind it are passed on unbuffered without changing
    the session; the first one that is not behind opens the session. *)
Theorem reorder_session_start jiffies t skb sn frames :
  auto_seq t = false -> started t = false -> ieee80211_get_sn (mdata skb) = Some sn ->
  ieee80211_sta_manage_reorder_buf HZ jiffies t skb frames =
    if ieee80211_sn_less sn (head_seq_num t) then Some (false, t, frames)
    else ieee80211_sta_manage_reorder_buf HZ jiffies (set_started t) skb frames.
Proof.
  intros Ha Hst Hsn. unfold ieee80211_sta_manage_reorder_buf. rewrite Hsn. cbn [mbind option_bind].
  change (auto_seq (set_started t)) with (auto_seq t). rewrite Ha.
  change (started (set_started t)) with true. change (head_seq_num (set_started t)) with (head_seq_num t).
  rewrite Hst. cbn [negb andb]. destruct (ieee80211_sn_less sn (head_seq_num t)); done.
Qed.
End properties.

(** ** Outside the conditions *)

(** A QoS data frame to a unicast receiver; [more] marks a partial A-MSDU. *)
Definition sample_mpdu (sn : Z) (more : bool) : rx_mpdu :=
  mk_mpdu ([0x88; 1; 0; 0] ++ replicate 18 2 ++ le16_bytes (sn << 4) ++ [0; 0])
    (if more then RX_FLAG_AMSDU_MORE else 0) 0.

Definition sample_session (size ssn : Z) : tid_ampdu_rx :=
  set_started (start_rx_ba_session (fun x => x) 0 ssn size 0 false).

Definition delivered (r : option (tid_ampdu_rx * list (list Z))) : option (list (option Z)) :=
  '(_, out) ← r; Some (map ieee80211_get_sn out).

(** A frame that is the only one in its slot is ready. *)
Lemma ready_insert t i s :
  reorder_buf_filtered t = 0 -> 0 <= i < zlen (reorder t) ->
  ieee80211_rx_reorder_ready (set_slot t i s) i =
    match last (buf s) with
    | None => Some false
    | Some tail => Some (negb (flag_set (mflag tail) RX_FLAG_AMSDU_MORE))
    end.
Proof.
  intros Hf Hi. unfold ieee80211_rx_reorder_ready, slot_at, zlen in *. zcase; [lia|]. cbn [set_slot reorder reorder_buf_filtered].
  by rewrite list_lookup_insert_eq, Hf by lia.
Qed.

Lemma slot_insert t i s : 0 <= i < zlen (reorder t) -> slot_at (set_slot t i s) i = Some s.
Proof. unfold slot_at, zlen. intros Hi. zcase; [lia|]. cbn. rewrite list_lookup_insert_eq; [done|lia]. Qed.

(** The state of a session whose slots are all empty. *)
Lemma ready_empty t i :
  reorder_buf_filtered t = 0 -> 0 <= i < zlen (reorder t) -> Forall (fun s => buf s = []) (reorder t) ->
  ieee80211_rx_reorder_ready t i = Some false.
Proof.
  intros Hf Hi He. unfold ieee80211_rx_reorder_ready, slot_at, zlen in *. zcase; [lia|].
  destruct (lookup_lt_is_Some_2 (reorder t) (Z.to_nat i)) as [s Hs]; [lia|].
  rewrite Hs, Hf. cbn [mbind option_bind]. by rewrite (Forall_lookup_1 _ _ _ _ He Hs).
Qed.

(** A frame in the slot of the head is handed over, whatever its number. *)
Lemma release_head HZ jiffies t x :
  reorder_buf_filtered t = 0 -> Forall (fun s => buf s = []) (reorder t) -> zlen (reorder t) = buf_size t ->
  1 < buf_size t -> flag_set (mflag x) RX_FLAG_AMSDU_MORE = false -> stored_mpdu_num t = 1 ->
  let i := head_seq_num t mod buf_size t in
  let t' := set_head (set_slot (set_stored t 0) i (mk_slot [] jiffies)) (ieee80211_sn_inc (head_seq_num t)) in
  ieee80211_sta_reorder_release HZ jiffies (set_slot t i (mk_slot [x] jiffies)) [] =
    Some (set_reorder_timer t' None, [defer_release x]).
Proof.
  intros Hf He Hl Hs Hx Hn i t'. pose proof (Z.mod_pos_bound (head_seq_num t) (buf_size t) ltac:(lia)) as Hi.
  fold i in Hi. unfold ieee80211_sta_reorder_release.
  change (head_seq_num (set_slot t i (mk_slot [x] jiffies))) with (head_seq_num t).
  change (buf_size (set_slot t i (mk_slot [x] jiffies))) with (buf_size t). fold i.
  rewrite ready_insert by (done || lia). cbn [buf last]. rewrite Hx. cbn [negb mbind option_bind andb].
  destruct (Z.to_nat (buf_size t)) as [|k] eqn:Ek; [lia|]. cbn [release_ready_loop].
  rewrite ready_insert by (done || lia). cbn [buf last]. rewrite Hx. cbn [negb mbind option_bind].
  unfold ieee80211_release_reorder_frame. rewrite slot_insert, ready_insert by (done || lia).
  cbn [buf last mbind option_bind time]. rewrite Hx. cbn [negb]. rewrite bool_decide_eq_false_2 by done.
  cbn [reorder_buf_filtered set_slot set_stored stored_mpdu_num head_seq_num reorder]. rewrite Hf, Hn. cbn [nz].
  assert (set_head (set_slot (set_stored (set_slot t i (mk_slot [x] jiffies)) (u16 (1 - 1))) i (mk_slot [] jiffies))
    (ieee80211_sn_inc (head_seq_num t)) = t') as E.
  { unfold t', set_head, set_slot, set_stored. cbn. by rewrite list_insert_insert_eq. }
  change (nz 0) with false. cbv iota. cbn [mbind option_bind].
  match goal with |- context [release_ready_loop k ?u] => change u with
    (set_head (set_slot (set_stored (set_slot t i (mk_slot [x] jiffies)) (u16 (1 - 1))) i (mk_slot [] jiffies))
      (ieee80211_sn_inc (head_seq_num t))) end.
  rewrite E. change (buf_size t') with (buf_size t).
  assert (forall j, 0 <= j < buf_size t -> ieee80211_rx_reorder_ready t' j = Some false) as Hready.
  { intros j Hj. apply ready_empty; [done|cbn; unfold zlen in *; rewrite length_insert; lia|].
    cbn. by apply Forall_insert. }
  pose proof (Z.mod_pos_bound (head_seq_num t') (buf_size t) ltac:(lia)).
  destruct k; cbn [release_ready_loop]; rewrite Hready by lia; cbn [mbind option_bind app map]; done.
Qed.

(** C35: A window size that does not divide 4096 loses frames at the wrap.  Take
    any such size up to 1024, the largest a peer may ask for, and a session whose
    window starts at 4095: the frame with the number 4095 mod the size is in the
    window too, but in the slot of 4095.  When it arrives first it is handed
    over at once in place of 4095, and 4095, received once and inside the
    window, is then discarded as old. *)
Theorem reorder_wrap_loss HZ tu_exp now tmo size f g j1 j2 :
  1 < size <= 1024 -> 4096 mod size <> 0 ->
  whole_frame f (4095 mod size) -> whole_frame g 4095 ->
  0 < (4095 mod size - 4095) mod 4096 < size /\
  exists t1, ring_run HZ (set_started (start_rx_ba_session tu_exp now 4095 size tmo false)) [ev_mpdu j1 f]
      = Some (t1, [mdata f]) /\
    ieee80211_sta_manage_reorder_buf HZ j2 t1 g [] = Some (true, t1, []).
Proof.
  intros Hs Hd (Hf & Hu & Hfm) (Hg & _ & Hgm).
  pose proof (Z.mod_pos_bound 4095 size ltac:(lia)) as Hn. set (n := 4095 mod size) in *.
  assert (n <> size - 1) as Hne.
  { intros E. apply Hd. unfold n in E. change 4096 with (4095 + 1). rewrite <- Zplus_mod_idemp_l, E.
    replace (size - 1 + 1) with size by lia. by rewrite Z_mod_same_full. }
  assert ((n - 4095) mod 4096 = n + 1) as Ew.
  { rewrite <- (Z.mod_add _ 1), Z.mod_small by lia. lia. }
  split; [lia|]. set (t0 := set_started _).
  assert (forall i, 0 <= i < size -> ieee80211_rx_reorder_ready t0 i = Some false) as Hready.
  { intros i Hi. apply ready_empty; [done|cbn; unfold zlen; rewrite length_replicate; lia|by apply Forall_replicate]. }
  pose proof (release_head HZ j1 (set_stored t0 1) f ltac:(done) ltac:(by apply Forall_replicate)) as Hr.
  cbv zeta in Hr. change (buf_size (set_stored t0 1)) with size in Hr.
  change (head_seq_num (set_stored t0 1)) with 4095 in Hr. fold n in Hr.
  specialize (Hr ltac:(cbn; unfold zlen; rewrite length_replicate; lia) ltac:(lia) Hfm eq_refl).
  eexists. split.
  - cbn [ring_run ring_step]. unfold ieee80211_sta_manage_reorder_buf. rewrite Hf. cbn [mbind option_bind].
    change (auto_seq t0) with false. change (started t0) with true. cbv iota. cbn [negb andb].
    change (set_started t0) with t0. change (head_seq_num t0) with 4095. change (buf_size t0) with size.
    assert (ieee80211_sn_less n 4095 = false) as ->.
    { apply not_true_iff_false. rewrite sn_less_spec.
      replace (4095 - n) with (- (n - 4095)) by lia. rewrite Z.mod_opp_l_nz by lia. lia. }
    assert (ieee80211_sn_less n (u16 (4095 + size)) = true) as ->.
    { rewrite wrap_small by (unfold is_uint; lia). apply sn_less_spec.
      rewrite <- (Z.mod_add _ (-1)), Z.mod_small by lia. lia. }
    cbn [negb mbind option_bind]. change (buf_size t0) with size. change (head_seq_num t0) with 4095. rewrite (Z.mod_small n size) by lia. rewrite Hready by lia. cbn [mbind option_bind].
    destruct (Z.eqb_spec n 4095) as [|_]; [lia|]. cbn [andb].
    assert (slot_at t0 n = Some (mk_slot [] 0)) as ->.
    { unfold slot_at. zcase; [lia|]. cbn. apply lookup_replicate. split; [done|lia]. }
    cbn [mbind option_bind buf app]. rewrite Hfm.
    change (started t0) with true. cbn [negb andb].
    change (set_stored (set_slot t0 n (mk_slot [f] j1)) (u16 (stored_mpdu_num t0 + 1)))
      with (set_slot (set_stored t0 1) n (mk_slot [f] j1)).
    rewrite Hr. cbn [mbind option_bind app map]. reflexivity.
  - unfold ieee80211_sta_manage_reorder_buf. rewrite Hg. cbn [mbind option_bind].
    match goal with |- context [auto_seq ?t] => set (t1 := t) end.
    change (auto_seq t1) with false. change (started t1) with true. change (head_seq_num t1) with 0. cbv iota.
    cbn [negb andb]. by change (ieee80211_sn_less 4095 0) with true.
Qed.

(** With a window of 48, slot 10 serves both 4090 and 10: with the head at 4090,
    frame 10 of the window is delivered in place of 4090, and frame 15 is
    discarded because 4095 is in its slot. *)
Lemma wrap_loss_sample :
  delivered (ring_run 1000 (sample_session 48 4090)
    (map (fun n => ev_mpdu 5 (sample_mpdu n false)) [4091; 4092; 4095; 15; 10; 11])) =
  Some [Some 10; Some 4091; Some 4092] /\
  (exists t, ring_run 1000 (sample_session 48 4090)
     (map (fun n => ev_mpdu 5 (sample_mpdu n false)) [4091; 4092; 4095]) = Some (t, []) /\
   ieee80211_sta_manage_reorder_buf 1000 5 t (sample_mpdu 15 false) [] = Some (true, t, [])).
Proof.
  split; [by vm_compute|]. eexists. split; [vm_compute; reflexivity|by vm_compute].
Qed.

(** A partial A-MSDU at the head survives the release timeout.  The timeout
    purges the incomplete slots it skips except the head slot, so the stale
    subframe of 8 is delivered together with frame 12, the next to use the
    slot, after 9, 10 and 11. *)
Theorem reorder_stale_head :
  delivered (ring_run 1000 (sample_session 4 8)
    [ev_mpdu 5 (sample_mpdu 9 false); ev_mpdu 5 (sample_mpdu 8 true); ev_timer 200;
     ev_mpdu 200 (sample_mpdu 11 false); ev_mpdu 200 (sample_mpdu 12 false);
     ev_mpdu 200 (sample_mpdu 10 false)]) =
  Some [Some 9; Some 10; Some 11; Some 8; Some 12].
Proof. by vm_compute. Qed.

(** C34: Marking a partial A-MSDU as filtered hangs the receive path.  Releasing
    it decrements the count of complete frames, which did not include it; the
    count wraps to 65535 with an empty ring and head slot 0, and the search for
    the next ready slot, whose stop value is -1, runs forever. *)
Theorem reorder_filtered_hang :
  exists t m t1 fr,
    ring_run 1000 (sample_session 2 0)
      [ev_mpdu 5 (sample_mpdu 1 false); ev_mpdu 5 (sample_mpdu 0 true)] = Some (t, []) /\
    m = mk_ampdu_mlme [Some t] [true] [false] /\
    (* the driver reports frame 0 as filtered *)
    release_ready_loop 2 (update_filtered 2 t 1 0 0) 0 [] = Some (t1, fr) /\
    stored_mpdu_num t1 = 65535 /\ head_seq_num t1 mod buf_size t1 = 0 /\
    (forall fuel, find_ready fuel t1 (Z.rem (0 - 1) (buf_size t1)) 0 = None) /\
    ieee80211_mark_rx_ba_filtered_frames 1000 5 m 0 0 1 0 = None.
Proof.
  eexists _, _, _, _. split; [vm_compute; reflexivity|]. split; [reflexivity|].
  split; [vm_compute; reflexivity|]. split; [reflexivity|]. split; [reflexivity|].
  split; [|vm_compute; reflexivity].
  assert (forall fuel t i, buf_size t = 2 -> reorder_buf_filtered t = 0 ->
    reorder t = [mk_slot [] 0; mk_slot [] 5] -> (i = 0 \/ i = 1) -> find_ready fuel t (-1) i = None) as Hh.
  { induction fuel as [|fuel IH]; intros t i Hs Hfl Hr Hi; cbn [find_ready];
      (zcase; [lia|]); unfold ieee80211_rx_reorder_ready, slot_at; rewrite Hr, Hfl, ?Hs;
      destruct Hi as [-> | ->]; cbn; try done; apply IH; auto. }
  intros fuel. apply Hh; auto.
Qed.

(** ** The hypotheses hold on concrete sessions *)

Lemma good_size_64 : good_size 64.
Proof. split; [lia|]. exists 64. reflexivity. Qed.

Lemma sample_whole n : 0 <= n < 4096 -> whole_frame (sample_mpdu n false) n.
Proof.
  intros Hn. split; [|split; [done|done]]. unfold ieee80211_get_sn, hdr_seq_ctrl, sample_mpdu. cbn [mdata].
  rewrite app_assoc. change 22 with (zlen ([136; 1; 0; 0] ++ replicate 18 2) + 0) at 1.
  rewrite rd_le16_app_r, rd_le16_bytes by (try lia; unfold is_uint; rewrite Z.shiftl_mul_pow2; lia).
  cbn [mbind option_bind]. f_equal. unfold IEEE80211_SCTL_SEQ.
  change 0xfff0 with (Z.ones 12 << 4). rewrite <- Z.shiftl_land, Z.shiftr_shiftl_l by lia.
  rewrite Z.sub_diag, Z.shiftl_0_r, Z.land_ones, Z.mod_small by lia. done.
Qed.

Lemma reorder_wrap_loss_witness :
  0 < (4095 mod 48 - 4095) mod 4096 < 48 /\
  exists t1, ring_run 1000 (sample_session 48 4095) [ev_mpdu 5 (sample_mpdu 15 false)]
      = Some (t1, [mdata (sample_mpdu 15 false)]) /\
    ieee80211_sta_manage_reorder_buf 1000 6 t1 (sample_mpdu 4095 false) [] = Some (true, t1, []).
Proof.
  apply (reorder_wrap_loss 1000 (fun x => x) 0 0 48); [done|done|by apply sample_whole..].
Defined.

Lemma reorder_refines_witness :
  exists t', ring_run 1000 (sample_session 64 10)
      [ev_mpdu 5 (sample_mpdu 11 false); ev_bar 11; ev_timer 200] =
    Some (t', map snd (buf_run 1000 64 (mk_rbuf 10 ∅)
      [ev_mpdu 5 (sample_mpdu 11 false); ev_bar 11; ev_timer 200]).2) /\
    session 64 t' (buf_run 1000 64 (mk_rbuf 10 ∅)
      [ev_mpdu 5 (sample_mpdu 11 false); ev_bar 11; ev_timer 200]).1.
Proof.
  apply (reorder_refines 1000 64 good_size_64).
  - apply (start_session 64 good_size_64). done.
  - repeat constructor; [exists 11; by apply sample_whole|done..].
Defined.

Lemma reorder_in_order_witness :
  exists t' log, ring_run 1000 (sample_session 64 10) [ev_mpdu 5 (sample_mpdu 11 false); ev_timer 200] =
      Some (t', map snd log) /\
    log = (buf_run 1000 64 (mk_rbuf 10 ∅) [ev_mpdu 5 (sample_mpdu 11 false); ev_timer 200]).2 /\
    log_ok 10 (rb_head (buf_run 1000 64 (mk_rbuf 10 ∅)
      [ev_mpdu 5 (sample_mpdu 11 false); ev_timer 200]).1) log /\
    head_seq_num t' = rb_head (buf_run 1000 64 (mk_rbuf 10 ∅)
      [ev_mpdu 5 (sample_mpdu 11 false); ev_timer 200]).1 mod 4096 /\
    0 <= stored_mpdu_num t' <= 64.
Proof.
  apply (reorder_in_order 1000 64 good_size_64 (sample_session 64 10) (mk_rbuf 10 ∅)).
  - apply (start_session 64 good_size_64). done.
  - repeat constructor; [exists 11; by apply sample_whole|done..].
Defined.

Lemma reorder_lossless_witness :
  exists t', ring_run 1000 (sample_session 64 4094)
      (map (fun n => ev_mpdu 7 (sample_mpdu (n mod 4096) false)) [4096; 4094; 4095]) =
    Some (t', map (fun n => mdata (sample_mpdu (n mod 4096) false)) (seqZ 4094 3)).
Proof.
  apply (reorder_lossless 1000 64 good_size_64 (fun x => x) 0 4094 0 3 [4096; 4094; 4095]
    (fun n => sample_mpdu (n mod 4096) false) (fun _ => 7) 0); try done.
  - change (seqZ 4094 3) with ([4094; 4095] ++ [4096]). by rewrite Permutation_app_comm.
  - intros n _. apply sample_whole, Z.mod_pos_bound. lia.
Defined.

(** Frame 11 is stored in front of the missing 10. *)
Lemma reorder_timer_progress_witness :
  exists t out, ring_run 1000 (sample_session 64 10) [ev_mpdu 5 (sample_mpdu 11 false); ev_timer 20] = Some (t, out) /\
    (stored_mpdu_num t <> 0 ->
     reorder_timer t <> None /\
     forall jiffies,
       (forall i s, slot_at t i = Some s -> buf s <> [] ->
          time_after jiffies (u64 (time s + HT_RX_REORDER_BUF_TIMEOUT 1000)) = true) ->
       exists t' frames, ieee80211_sta_reorder_release 1000 jiffies t [] = Some (t', frames) /\ frames <> []).
Proof.
  apply (reorder_timer_progress 1000 64 good_size_64 (fun x => x) 0 10 0).
  - done.
  - repeat constructor. exists 11. by apply sample_whole.
Defined.

Lemma sample_stored :
  (fun r => (stored_mpdu_num r.1, reorder_timer r.1)) <$>
    ring_run 1000 (sample_session 64 10) [ev_mpdu 5 (sample_mpdu 11 false); ev_timer 20] = Some (1, Some 106).
Proof. by vm_compute. Qed.

Lemma reorder_session_start_witness :
  ieee80211_sta_manage_reorder_buf 1000 5 (start_rx_ba_session (fun x => x) 0 10 64 0 false)
    (sample_mpdu 7 false) [] = Some (false, start_rx_ba_session (fun x => x) 0 10 64 0 false, []).
Proof.
  rewrite (reorder_session_start 1000 5 _ _ 7) by (done || by apply sample_whole). reflexivity.
Defined.
