(* ===== verification/TxQueue.v ===== *)
(** * TxQueue: the PCIe transmit ring

    The driver-side state of a transmit queue of iwlwifi
    ([pcie/internal.h], [pcie/tx.c], [pcie/tx-gen2.c]): index arithmetic, free
    space, transmission on second-generation devices, reclaim with the overflow
    queue, and the host-command queue's index handling.  Building the transfer
    descriptor (DMA mapping) is a parameter that may fail; the byte-count
    tables and the descriptors themselves are the device's. *)
From S2P Require Import Prelude.

Definition IWL_MAX_TVQM_QUEUES : Z := 512.

(** ** State *)

(** The queue, with its bits of [queue_used] and [queue_stopped].  An entry is
    the [skb] of [struct iwl_pcie_txq_entry], [None] for NULL. *)
Record iwl_txq (A : Type) := mk_txq {
  id : Z;
  entries : list (option A);
  n_window : Z;
  write_ptr : Z;
  read_ptr : Z;
  low_mark : Z;
  high_mark : Z;
  overflow_q : list A;
  overflow_tx : bool;
  wd_timeout : Z;
  frozen : bool;
  stuck_timer : option Z;
  queue_used : bool;
  queue_stopped : bool;
}.
Arguments mk_txq {A}. Arguments id {A}. Arguments entries {A}. Arguments n_window {A}.
Arguments write_ptr {A}. Arguments read_ptr {A}. Arguments low_mark {A}. Arguments high_mark {A}.
Arguments overflow_q {A}. Arguments overflow_tx {A}. Arguments wd_timeout {A}. Arguments frozen {A}.
Arguments stuck_timer {A}. Arguments queue_used {A}. Arguments queue_stopped {A}.

(** The configuration and status of the transport that the queue code reads. *)
Record iwl_trans := mk_trans {
  max_tfd_queue_size : Z;
  cmd_queue : Z;
  fw_error : bool;       (* STATUS_FW_ERROR *)
  fw_alive : bool;       (* state == IWL_TRANS_FW_ALIVE *)
  has_tx_op : bool;      (* trans->ops->tx is set *)
}.

(** Calls out of the queue code: the operation mode's queue callbacks and the
    write-pointer register. *)
Inductive txq_event :=
| op_mode_queue_full (q : Z)
| op_mode_queue_not_full (q : Z)
| write32_HBUS_TARG_WRPTR (v : Z)
| force_nmi.

Section txq.
Context {A : Type}.
(** [skb_is_nonlinear && nr_frags > max && __skb_linearize()] does not fail,
    and building the descriptor succeeds. *)
Context (linearize_ok tfd_ok : A -> bool).
Implicit Types (q : iwl_txq A) (skb : A).

Definition set_entry q (i : Z) (e : option A) : iwl_txq A :=
  mk_txq (id q) (<[Z.to_nat i := e]> (entries q)) (n_window q) (write_ptr q) (read_ptr q) (low_mark q)
    (high_mark q) (overflow_q q) (overflow_tx q) (wd_timeout q) (frozen q) (stuck_timer q) (queue_used q)
    (queue_stopped q).
Definition set_write q (w : Z) : iwl_txq A :=
  mk_txq (id q) (entries q) (n_window q) w (read_ptr q) (low_mark q)
    (high_mark q) (overflow_q q) (overflow_tx q) (wd_timeout q) (frozen q) (stuck_timer q) (queue_used q)
    (queue_stopped q).
Definition set_read q (r : Z) : iwl_txq A :=
  mk_txq (id q) (entries q) (n_window q) (write_ptr q) r (low_mark q)
    (high_mark q) (overflow_q q) (overflow_tx q) (wd_timeout q) (frozen q) (stuck_timer q) (queue_used q)
    (queue_stopped q).
Definition set_overflow q (o : list A) : iwl_txq A :=
  mk_txq (id q) (entries q) (n_window q) (write_ptr q) (read_ptr q) (low_mark q)
    (high_mark q) o (overflow_tx q) (wd_timeout q) (frozen q) (stuck_timer q) (queue_used q)
    (queue_stopped q).
Definition set_overflow_tx q (b : bool) : iwl_txq A :=
  mk_txq (id q) (entries q) (n_window q) (write_ptr q) (read_ptr q) (low_mark q)
    (high_mark q) (overflow_q q) b (wd_timeout q) (frozen q) (stuck_timer q) (queue_used q)
    (queue_stopped q).
Definition set_stuck q (t : option Z) : iwl_txq A :=
  mk_txq (id q) (entries q) (n_window q) (write_ptr q) (read_ptr q) (low_mark q)
    (high_mark q) (overflow_q q) (overflow_tx q) (wd_timeout q) (frozen q) t (queue_used q)
    (queue_stopped q).
Definition set_stopped q (b : bool) : iwl_txq A :=
  mk_txq (id q) (entries q) (n_window q) (write_ptr q) (read_ptr q) (low_mark q)
    (high_mark q) (overflow_q q) (overflow_tx q) (wd_timeout q) (frozen q) (stuck_timer q) (queue_used q) b.

(** ** Indices and space *)

Definition iwl_txq_get_cmd_index q (index : Z) : Z := index .& (n_window q - 1).

Definition iwl_txq_inc_wrap (trans : iwl_trans) (index : Z) : Z :=
  (index + 1) .& (max_tfd_queue_size trans - 1).
Definition iwl_txq_dec_wrap (trans : iwl_trans) (index : Z) : Z :=
  (index - 1) .& (max_tfd_queue_size trans - 1).

Definition iwl_txq_space (trans : iwl_trans) q : Z :=
  let max := if n_window q <? max_tfd_queue_size trans then n_window q
             else max_tfd_queue_size trans - 1 in
  let used := u32 (write_ptr q - read_ptr q) .& (max_tfd_queue_size trans - 1) in
  if max <? used then 0 else max - used.

Definition iwl_txq_used q (i read_ptr write_ptr : Z) : bool :=
  let index := iwl_txq_get_cmd_index q i in
  let r := iwl_txq_get_cmd_index q read_ptr in
  let w := iwl_txq_get_cmd_index q write_ptr in
  if r <=? w then (r <=? index) && (index <? w)
  else negb ((index <? r) && (w <=? index)).

Definition is_power_of_2 (n : Z) : bool := nz n && negb (nz (n .& (n - 1))).

(** [iwl_queue_init]: the C result and the queue. *)
Definition iwl_queue_init q (slots_num : Z) : Z * iwl_txq A :=
  let q0 := mk_txq (id q) (entries q) slots_num (write_ptr q) (read_ptr q) (low_mark q) (high_mark q)
              (overflow_q q) (overflow_tx q) (wd_timeout q) (frozen q) (stuck_timer q) (queue_used q)
              (queue_stopped q) in
  if negb (is_power_of_2 slots_num) then (- EINVAL, q0)
  else
    let low := Z.quot slots_num 4 in
    let high := Z.quot slots_num 8 in
    (0, mk_txq (id q) (entries q) slots_num 0 0 (if low <? 4 then 4 else low)
          (if high <? 2 then 2 else high) (overflow_q q) (overflow_tx q) (wd_timeout q) (frozen q)
          (stuck_timer q) (queue_used q) (queue_stopped q)).

(** The queue's part of [iwl_txq_init] (its locks are not state). *)
Definition iwl_txq_init (trans : iwl_trans) q (slots_num : Z) : Z * iwl_txq A :=
  let size := max_tfd_queue_size trans in
  if nz (size .& (size - 1)) then (- EINVAL, q)
  else
    let '(ret, q) := iwl_queue_init q slots_num in
    if nz ret then (ret, q) else (0, set_overflow q []).

(** ** Flow control *)

Definition iwl_txq_stop q : iwl_txq A * list txq_event :=
  if queue_stopped q then (q, []) else (set_stopped q true, [op_mode_queue_full (id q)]).

Definition iwl_trans_pcie_wake_queue q : iwl_txq A * list txq_event :=
  if queue_stopped q then (set_stopped q false, [op_mode_queue_not_full (id q)]) else (q, []).

Definition iwl_txq_progress (jiffies : Z) q : iwl_txq A :=
  if negb (nz (wd_timeout q)) then q
  else if frozen q then q
  else if read_ptr q =? write_ptr q then set_stuck q None
  else set_stuck q (Some (u64 (jiffies + wd_timeout q))).

Definition iwl_txq_inc_wr_ptr q : list txq_event :=
  [write32_HBUS_TARG_WRPTR (write_ptr q .| (id q << 16))].

(** ** Transmission *)

(** The C result, the queue and the calls. *)
Definition iwl_txq_gen2_tx (trans : iwl_trans) (jiffies : Z) q skb
  : Z * iwl_txq A * list txq_event :=
  if IWL_MAX_TVQM_QUEUES <=? id q then (- EINVAL, q, [])
  else if negb (queue_used q) then (- EINVAL, q, [])
  else if negb (linearize_ok skb) then (- ENOMEM, q, [])
  else
    let '(q, ev) := if iwl_txq_space trans q <? high_mark q then iwl_txq_stop q else (q, []) in
    if (iwl_txq_space trans q <? high_mark q) && (iwl_txq_space trans q <? 3) then
      (0, set_overflow q (overflow_q q ++ [skb]), ev)
    else
      let idx := iwl_txq_get_cmd_index q (write_ptr q) in
      let q := set_entry q idx (Some skb) in
      if negb (tfd_ok skb) then (-1, set_entry q idx None, ev)
      else
        let q := if (read_ptr q =? write_ptr q) && nz (wd_timeout q) then
                   set_stuck q (Some (u64 (jiffies + wd_timeout q))) else q in
        let q := set_write q (iwl_txq_inc_wrap trans (write_ptr q)) in
        (0, q, ev ++ iwl_txq_inc_wr_ptr q).

Definition iwl_trans_tx (trans : iwl_trans) (jiffies : Z) q skb : Z * iwl_txq A * list txq_event :=
  if fw_error trans then (- EIO, q, [])
  else if negb (fw_alive trans) then (- EIO, q, [])
  else if negb (has_tx_op trans) then (- EOPNOTSUPP, q, [])
  else iwl_txq_gen2_tx trans jiffies q skb.

(** ** Reclaim *)

(** The loop of [iwl_pcie_reclaim]: [None] out of fuel or out of the array. *)
Fixpoint reclaim_loop (fuel : nat) (trans : iwl_trans) q (txq_read_ptr tfd_num : Z) (skbs : list A)
  : option (iwl_txq A * Z * list A) :=
  let read_ptr := iwl_txq_get_cmd_index q txq_read_ptr in
  if read_ptr =? tfd_num then Some (q, txq_read_ptr, skbs)
  else match fuel with
  | O => None
  | S fuel =>
      e ← entries q !! Z.to_nat read_ptr;
      match e with
      | None => reclaim_loop fuel trans q (iwl_txq_inc_wrap trans txq_read_ptr) tfd_num skbs
      | Some skb =>
          reclaim_loop fuel trans (set_entry q read_ptr None) (iwl_txq_inc_wrap trans txq_read_ptr)
            tfd_num (skbs ++ [skb])
      end
  end.

(** [while ((skb = __skb_dequeue(&overflow_skbs))) iwl_trans_tx(...)]: the
    result of [iwl_trans_tx] is ignored. *)
Fixpoint overflow_loop (trans : iwl_trans) (jiffies : Z) q (skbs : list A) : iwl_txq A * list txq_event :=
  match skbs with
  | [] => (q, [])
  | skb :: skbs =>
      let '(_, q, ev) := iwl_trans_tx trans jiffies q skb in
      let '(q, ev') := overflow_loop trans jiffies q skbs in
      (q, ev ++ ev')
  end.

Definition iwl_pcie_reclaim (trans : iwl_trans) (jiffies : Z) q (ssn : Z) (skbs : list A)
    (is_flush : bool) : option (iwl_txq A * list A * list txq_event) :=
  if id q =? cmd_queue trans then Some (q, skbs, [])
  else
    let tfd_num := iwl_txq_get_cmd_index q ssn in
    if is_flush && (write_ptr q =? read_ptr q) then Some (q, skbs, [])
    else if negb (queue_used q) then Some (q, skbs, [])
    else if iwl_txq_get_cmd_index q (read_ptr q) =? tfd_num then Some (q, skbs, [])
    else
      let last_to_free := iwl_txq_dec_wrap trans tfd_num in
      if negb (iwl_txq_used q last_to_free (read_ptr q) (write_ptr q)) then Some (q, skbs, [])
      else if negb (bool_decide (length skbs = O)) then Some (q, skbs, [])
      else
        '(q, txq_read_ptr, skbs) ← reclaim_loop (Z.to_nat (n_window q)) trans q (read_ptr q) tfd_num skbs;
        let q := iwl_txq_progress jiffies (set_read q txq_read_ptr) in
        if (low_mark q <? iwl_txq_space trans q) && queue_stopped q then
          let overflow := overflow_q q in
          let q := set_overflow_tx (set_overflow q []) true in
          let skbs := if is_flush then skbs ++ overflow else skbs in
          let '(q, ev) := overflow_loop trans jiffies q (if is_flush then [] else overflow) in
          let '(q, ev') := if low_mark q <? iwl_txq_space trans q then iwl_trans_pcie_wake_queue q
                           else (q, []) in
          Some (set_overflow_tx q false, skbs, ev ++ ev')
        else Some (q, skbs, []).

(** ** Freeing *)

(** The loops of [iwl_txq_gen2_unmap] and [iwl_pcie_txq_unmap] over a data
    queue: free what is between the pointers.  The first-generation loop skips
    an entry without [skb] by [continue], without moving [read_ptr]. *)
Fixpoint gen2_unmap_loop (fuel : nat) (trans : iwl_trans) q (freed : list A) : option (iwl_txq A * list A) :=
  if write_ptr q =? read_ptr q then Some (q, freed)
  else match fuel with
  | O => None
  | S fuel =>
      let idx := iwl_txq_get_cmd_index q (read_ptr q) in
      e ← entries q !! Z.to_nat idx;
      let '(q, freed) := match e with
                         | Some skb => (set_entry q idx None, freed ++ [skb])
                         | None => (q, freed)
                         end in
      gen2_unmap_loop fuel trans (set_read q (iwl_txq_inc_wrap trans (read_ptr q))) freed
  end.

Definition iwl_txq_gen2_unmap (trans : iwl_trans) q (freed : list A)
  : option (iwl_txq A * list A * list txq_event) :=
  '(q, freed) ← gen2_unmap_loop (Z.to_nat (max_tfd_queue_size trans)) trans q freed;
  let freed := freed ++ overflow_q q in
  let '(q, ev) := iwl_trans_pcie_wake_queue (set_overflow q []) in
  Some (q, freed, ev).

Fixpoint gen1_unmap_loop (fuel : nat) (trans : iwl_trans) q (freed : list A) : option (iwl_txq A * list A) :=
  if write_ptr q =? read_ptr q then Some (q, freed)
  else match fuel with
  | O => None
  | S fuel =>
      e ← entries q !! Z.to_nat (read_ptr q);
      match e with
      | None => gen1_unmap_loop fuel trans q freed
      | Some skb =>
          let idx := iwl_txq_get_cmd_index q (read_ptr q) in
          e' ← entries q !! Z.to_nat idx;
          let freed := match e' with Some skb => freed ++ [skb] | None => freed end in
          gen1_unmap_loop fuel trans (set_read (set_entry q idx None) (iwl_txq_inc_wrap trans (read_ptr q)))
            freed
      end
  end.

(** ** Host commands *)

(** The ring's part of [iwl_pcie_gen2_enqueue_hcmd]: the space check, the index
    the command gets, and the pointer update. *)
Definition enqueue_hcmd (trans : iwl_trans) (jiffies : Z) q (async : bool) : Z * iwl_txq A * list txq_event :=
  if iwl_txq_space trans q <? (if async then 2 else 1) then (- ENOSPC, q, [])
  else
    let idx := iwl_txq_get_cmd_index q (write_ptr q) in
    let q := if (read_ptr q =? write_ptr q) && nz (wd_timeout q) then
               set_stuck q (Some (u64 (jiffies + wd_timeout q))) else q in
    let q := set_write q (iwl_txq_inc_wrap trans (write_ptr q)) in
    (idx, q, iwl_txq_inc_wr_ptr q).

Fixpoint cmdq_reclaim_loop (fuel : nat) (trans : iwl_trans) q (r idx nfreed : Z) (ev : list txq_event)
  : option (iwl_txq A * list txq_event) :=
  if r =? idx then Some (q, ev)
  else match fuel with
  | O => None
  | S fuel =>
      let q := set_read q (iwl_txq_inc_wrap trans (read_ptr q)) in
      let ev := if 0 <? nfreed then ev ++ [force_nmi] else ev in
      cmdq_reclaim_loop fuel trans q (iwl_txq_inc_wrap trans r) idx (nfreed + 1) ev
  end.

(** [iwl_pcie_cmdq_reclaim]; clearing the device's keep-awake request is not
    part of the ring. *)
Definition iwl_pcie_cmdq_reclaim (trans : iwl_trans) (jiffies : Z) q (idx : Z)
  : option (iwl_txq A * list txq_event) :=
  let idx := iwl_txq_get_cmd_index q idx in
  let r := iwl_txq_get_cmd_index q (read_ptr q) in
  if (max_tfd_queue_size trans <=? idx) || negb (iwl_txq_used q idx (read_ptr q) (write_ptr q)) then
    Some (q, [])
  else
    '(q, ev) ← cmdq_reclaim_loop (Z.to_nat (max_tfd_queue_size trans)) trans q r
                 (iwl_txq_inc_wrap trans idx) 0 [];
    Some (iwl_txq_progress jiffies q, ev).

End txq.
