(* ===== verification/TxQueueProofs.v ===== *)
(** * TxQueueProofs: the transmit ring is a bounded first-in first-out queue

    Invariant of the ring of [TxQueue], the specification of transmission and
    reclaim against a pair of lists (the frames on the ring and the overflow
    frames), order over whole runs, and the host-command queue's behaviour when
    it is full. *)
From Stdlib Require Import Permutation Znumtheory.
From S2P Require Import Prelude TxQueue.

(** ** Indices *)

Lemma land_pred x n : 0 <= n -> x .& (2 ^ n - 1) = x mod 2 ^ n.
Proof. intros Hn. rewrite <- Z.land_ones, Z.ones_equiv by done. done. Qed.

Lemma pow2_divide a b : 0 <= a <= b -> (2 ^ a | 2 ^ b).
Proof. intros H. exists (2 ^ (b - a)). rewrite <- Z.pow_add_r by lia. f_equal. lia. Qed.

(** The sizes of a queue: powers of two, the window inside the ring. *)
Record geometry {A} (trans : iwl_trans) (q : iwl_txq A) : Prop := {
  gm_sizes : exists w m, n_window q = 2 ^ w /\ max_tfd_queue_size trans = 2 ^ m /\ 2 <= w <= m /\ m <= 16;
}.

(** Frames the ring can hold. *)
Definition capacity {A} (trans : iwl_trans) (q : iwl_txq A) : Z :=
  if n_window q <? max_tfd_queue_size trans then n_window q else max_tfd_queue_size trans - 1.

Section ring.
Context {A : Type} (trans : iwl_trans).
Implicit Types (q : iwl_txq A) (l o : list A).

Abbreviation nw q := (n_window q).
Abbreviation mx := (max_tfd_queue_size trans).

Lemma sizes_pos q : geometry trans q -> 4 <= nw q <= mx /\ mx <= 65536 /\ (nw q | mx).
Proof.
  intros [(w & m & -> & -> & Hw & Hm)]. split; [split|split].
  - change 4 with (2 ^ 2). apply Z.pow_le_mono_r; lia.
  - apply Z.pow_le_mono_r; lia.
  - change 65536 with (2 ^ 16). apply Z.pow_le_mono_r; lia.
  - apply pow2_divide. lia.
Qed.

Lemma cmd_index_mod q i : geometry trans q -> iwl_txq_get_cmd_index q i = i mod nw q.
Proof.
  intros [(w & m & E & _ & Hw & _)]. unfold iwl_txq_get_cmd_index. rewrite E. apply land_pred. lia.
Qed.

Lemma inc_wrap_mod q i : geometry trans q -> iwl_txq_inc_wrap trans i = (i + 1) mod mx.
Proof. intros [(w & m & _ & E & Hw & _)]. unfold iwl_txq_inc_wrap. rewrite E. apply land_pred. lia. Qed.

Lemma dec_wrap_mod q i : geometry trans q -> iwl_txq_dec_wrap trans i = (i - 1) mod mx.
Proof. intros [(w & m & _ & E & Hw & _)]. unfold iwl_txq_dec_wrap. rewrite E. apply land_pred. lia. Qed.

Lemma mod_window q i : geometry trans q -> (i mod mx) mod nw q = i mod nw q.
Proof.
  intros H. destruct (sizes_pos q H) as (H1 & H2 & H3). symmetry.
  apply Zmod_div_mod; [lia|lia|done].
Qed.

(** ** The ring *)

(** The ring holds exactly the frames [l], oldest first. *)
Record ring q l : Prop := {
  rg_geom : geometry trans q;
  rg_read : 0 <= read_ptr q < mx;
  rg_write : write_ptr q = (read_ptr q + zlen l) mod mx;
  rg_entries : zlen (entries q) = nw q;
  rg_cap : zlen l < nw q /\ zlen l <= capacity trans q;
  rg_slots : forall i x, l !! i = Some x ->
    entries q !! Z.to_nat ((read_ptr q + Z.of_nat i) mod nw q) = Some (Some x);
}.

Lemma ring_used q l : ring q l -> u32 (write_ptr q - read_ptr q) .& (mx - 1) = zlen l.
Proof.
  intros H. destruct (sizes_pos q (rg_geom _ _ H)) as (H1 & H2 & _).
  pose proof (rg_cap _ _ H) as [Hc _]. pose proof (zlen_nonneg l).
  destruct (rg_geom _ _ H) as [(w & m & _ & E & Hw & Hm)].
  rewrite E, land_pred by lia. unfold wrap. rewrite <- Zmod_div_mod; [|lia|lia|apply pow2_divide; lia].
  rewrite (rg_write _ _ H), E, Zminus_mod_idemp_l. replace (read_ptr q + zlen l - read_ptr q) with (zlen l) by lia.
  apply Z.mod_small. lia.
Qed.

Lemma ring_space q l : ring q l -> iwl_txq_space trans q = capacity trans q - zlen l.
Proof.
  intros H. unfold iwl_txq_space. fold (capacity trans q). rewrite (ring_used q l H).
  pose proof (rg_cap _ _ H). zcase; lia.
Qed.

Lemma ring_empty q l : ring q l -> (read_ptr q =? write_ptr q) = bool_decide (l = []).
Proof.
  intros H. pose proof (sizes_pos q (rg_geom _ _ H)) as (H1 & H2 & _). pose proof (rg_cap _ _ H).
  pose proof (rg_read _ _ H). rewrite (rg_write _ _ H). case_bool_decide as E.
  - subst l. change (zlen []) with 0. rewrite Z.add_0_r, Z.mod_small by lia. apply Z.eqb_refl.
  - assert (0 < zlen l) by (destruct l; [done|rewrite zlen_cons; pose proof (zlen_nonneg l); lia]).
    apply Z.eqb_neq. intros E2. assert ((read_ptr q + zlen l) mod mx - read_ptr q = 0) by lia.
    destruct (Z.lt_ge_cases (read_ptr q + zlen l) mx); [rewrite Z.mod_small in * by lia; lia|].
    rewrite <- (Z.mod_add _ (-1)), Z.mod_small in * by lia. lia.
Qed.

(** An index counts as used when its distance from the read pointer, modulo
    the window, is below the number of frames. *)
Lemma used_spec q l i :
  ring q l -> iwl_txq_used q i (read_ptr q) (write_ptr q) = ((i - read_ptr q) mod nw q <? zlen l).
Proof.
  intros H. pose proof (rg_geom _ _ H) as Hg. destruct (sizes_pos q Hg) as (H1 & H2 & _).
  pose proof (rg_cap _ _ H) as [Hc _]. pose proof (zlen_nonneg l).
  unfold iwl_txq_used. rewrite !cmd_index_mod, (rg_write _ _ H), mod_window by done.
  rewrite <- (Zminus_mod_idemp_l i), <- (Zminus_mod_idemp_r (i mod nw q)), <- (Zplus_mod_idemp_l (read_ptr q)).
  pose proof (Z.mod_pos_bound (read_ptr q) (nw q)). pose proof (Z.mod_pos_bound i (nw q)).
  set (r := read_ptr q mod nw q) in *. set (j := i mod nw q) in *.
  assert (Hw : (r + zlen l < nw q /\ (r + zlen l) mod nw q = r + zlen l) \/
               (nw q <= r + zlen l /\ (r + zlen l) mod nw q = r + zlen l - nw q)).
  { destruct (Z.lt_ge_cases (r + zlen l) (nw q)); [left|right]; (split; [done|]).
    - apply Z.mod_small. lia.
    - rewrite <- (Z.mod_add _ (-1)), Z.mod_small by lia. lia. }
  assert (Hj : (r <= j /\ (j - r) mod nw q = j - r) \/ (j < r /\ (j - r) mod nw q = j - r + nw q)).
  { destruct (Z.lt_ge_cases j r); [right|left]; (split; [done|]).
    - rewrite <- (Z.mod_add _ 1), Z.mod_small by lia. lia.
    - apply Z.mod_small. lia. }
  destruct Hw as [[Hw1 ->]|[Hw1 ->]], Hj as [[Hj1 ->]|[Hj1 ->]];
    repeat zcase; cbn [andb negb]; (done || lia).
Qed.

Lemma index_inj q a b : 0 < nw q -> -nw q < a - b < nw q -> a mod nw q = b mod nw q -> a = b.
Proof.
  intros Hp Hw E. pose proof (Z_div_mod_eq_full a (nw q)). pose proof (Z_div_mod_eq_full b (nw q)).
  rewrite E in *. assert (a - b = nw q * (a / nw q - b / nw q)) by lia.
  assert (a / nw q - b / nw q = 0) by nia. lia.
Qed.

(** Adding a frame at the write pointer. *)
Lemma ring_push q l x :
  ring q l -> zlen l + 1 < nw q -> zlen l + 1 <= capacity trans q ->
  ring (set_write (set_entry q (iwl_txq_get_cmd_index q (write_ptr q)) (Some x))
          (iwl_txq_inc_wrap trans (write_ptr q))) (l ++ [x]).
Proof.
  intros H Hn Hc. pose proof (rg_geom _ _ H) as Hg. destruct (sizes_pos q Hg) as (H1 & H2 & _).
  pose proof (zlen_nonneg l). destruct Hg as [Hg]. assert (geometry trans q) as Hg' by by split.
  rewrite (cmd_index_mod q), (inc_wrap_mod q), (rg_write _ _ H), (mod_window q) by done.
  split; cbn [n_window read_ptr write_ptr entries set_write set_entry capacity].
  - split. done.
  - apply H.
  - rewrite Zplus_mod_idemp_l. zlens. f_equal. change (zlen [x]) with 1. lia.
  - unfold zlen. rewrite length_insert. apply H.
  - zlens. change (zlen [x]) with 1. unfold capacity in *. cbn. split; lia.
  - intros i y Hi. destruct (decide (i = length l)) as [->|Hne].
    + rewrite lookup_app_r, Nat.sub_diag in Hi by lia. cbn in Hi. injection Hi as <-.
      unfold zlen. rewrite list_lookup_insert_eq; [done|].
      pose proof (rg_entries _ _ H) as He. unfold zlen in He.
      pose proof (Z.mod_pos_bound (read_ptr q + Z.of_nat (length l)) (nw q)). lia.
    + assert (i < length l)%nat as Hlt.
      { apply lookup_lt_Some in Hi. rewrite length_app in Hi. cbn in Hi. lia. }
      rewrite lookup_app_l in Hi by done. rewrite list_lookup_insert_ne; [by apply H|].
      pose proof (Z.mod_pos_bound (read_ptr q + zlen l) (nw q)).
      pose proof (Z.mod_pos_bound (read_ptr q + Z.of_nat i) (nw q)).
      intros E. assert ((read_ptr q + zlen l) mod nw q = (read_ptr q + Z.of_nat i) mod nw q) as E2 by lia.
      apply index_inj in E2; [|lia|]; unfold zlen in *; lia.
Qed.

(** Taking the oldest frame. *)
Lemma ring_pop q x l :
  ring q (x :: l) ->
  entries q !! Z.to_nat (read_ptr q mod nw q) = Some (Some x) /\
  ring (set_read (set_entry q (read_ptr q mod nw q) None) ((read_ptr q + 1) mod mx)) l.
Proof.
  intros H. pose proof (rg_geom _ _ H) as Hg. destruct (sizes_pos q Hg) as (H1 & H2 & _).
  pose proof (rg_cap _ _ H) as Hc. rewrite zlen_cons in Hc. pose proof (zlen_nonneg l).
  split; [pose proof (rg_slots _ _ H O x eq_refl) as Hs; by rewrite Z.add_0_r in Hs|].
  destruct Hg as [Hg]. split; cbn [n_window read_ptr write_ptr entries set_read set_entry].
  - by split.
  - apply Z.mod_pos_bound. lia.
  - rewrite (rg_write _ _ H), Zplus_mod_idemp_l, zlen_cons. f_equal. lia.
  - unfold zlen. rewrite length_insert. apply H.
  - unfold capacity in *. cbn. lia.
  - intros i y Hi. pose proof (rg_slots _ _ H (S i) y Hi) as Hs. apply lookup_lt_Some in Hi.
    assert (((read_ptr q + 1) mod mx + Z.of_nat i) mod nw q = (read_ptr q + Z.of_nat (S i)) mod nw q) as ->.
    { rewrite <- Zplus_mod_idemp_l, mod_window, Zplus_mod_idemp_l by by split. f_equal. lia. }
    rewrite list_lookup_insert_ne; [done|].
    pose proof (Z.mod_pos_bound (read_ptr q) (nw q)).
    pose proof (Z.mod_pos_bound (read_ptr q + Z.of_nat (S i)) (nw q)).
    intros E. assert (read_ptr q mod nw q = (read_ptr q + Z.of_nat (S i)) mod nw q) as E2 by lia.
    apply index_inj in E2; unfold zlen in *; lia.
Qed.

Definition with_entries q (es : list (option A)) : iwl_txq A :=
  mk_txq (id q) es (n_window q) (write_ptr q) (read_ptr q) (low_mark q) (high_mark q) (overflow_q q)
    (overflow_tx q) (wd_timeout q) (frozen q) (stuck_timer q) (queue_used q) (queue_stopped q).

Lemma ring_geom_read q l r : ring (set_read q r) l -> geometry trans q.
Proof. intros H. destruct (rg_geom _ _ H) as [Hg]. by split. Qed.

(** The reclaim loop takes the oldest [k] frames, in order. *)
Lemma reclaim_loop_spec k fuel q r l skbs :
  ring (set_read q r) l -> (k <= length l)%nat -> (k <= fuel)%nat ->
  exists es,
    reclaim_loop fuel trans q r ((r + Z.of_nat k) mod nw q) skbs =
      Some (with_entries q es, (r + Z.of_nat k) mod mx, skbs ++ take k l) /\
    ring (set_read (with_entries q es) ((r + Z.of_nat k) mod mx)) (drop k l).
Proof.
  revert fuel q r l skbs. induction k as [|k IH]; intros fuel q r l skbs H Hl Hf;
    pose proof (ring_geom_read _ _ _ H) as Hg; destruct (sizes_pos q Hg) as (H1 & H2 & _);
    pose proof (rg_read _ _ H) as Hr; cbn [read_ptr set_read] in Hr.
  - exists (entries q). replace (r + Z.of_nat 0) with r by lia. rewrite (Z.mod_small r mx) by lia.
    assert (with_entries q (entries q) = q) as -> by by destruct q.
    cbn [take drop]. rewrite app_nil_r. split; [|done].
    destruct fuel; cbn [reclaim_loop]; by rewrite (cmd_index_mod q), Z.eqb_refl by done.
  - destruct l as [|x l]; [cbn in Hl; lia|]. destruct fuel as [|fuel]; [lia|].
    cbn [length] in Hl. pose proof (rg_cap _ _ H) as [Hc _]. cbn [n_window set_read] in Hc.
    rewrite zlen_cons in Hc. destruct (ring_pop _ _ _ H) as [He Hp].
    cbn [read_ptr entries set_read n_window] in He, Hp.
    cbn [reclaim_loop]. rewrite (cmd_index_mod q), (inc_wrap_mod q) by done.
    destruct (Z.eqb_spec (r mod nw q) ((r + Z.of_nat (S k)) mod nw q)) as [E|_].
    { apply index_inj in E; unfold zlen in Hc; lia. }
    rewrite He. cbn [mbind option_bind].
    assert (ring (set_read (set_entry q (r mod nw q) None) ((r + 1) mod mx)) l) as Hp'.
    { destruct Hp as [[G] ? ? ? ? ?]. split; try done. }
    destruct (IH fuel (set_entry q (r mod nw q) None) ((r + 1) mod mx) l (skbs ++ [x]) Hp')
      as (es & He' & Hr'); [lia|lia|].
    exists es. cbn [n_window set_entry] in He'.
    assert ((r + 1) mod mx + Z.of_nat k = (r + 1) mod mx + Z.of_nat k) as _ by done.
    assert (((r + 1) mod mx + Z.of_nat k) mod nw q = (r + Z.of_nat (S k)) mod nw q) as E1.
    { rewrite <- Zplus_mod_idemp_l, mod_window, Zplus_mod_idemp_l by done. f_equal. lia. }
    assert (((r + 1) mod mx + Z.of_nat k) mod mx = (r + Z.of_nat (S k)) mod mx) as E2.
    { rewrite Zplus_mod_idemp_l. f_equal. lia. }
    rewrite E1, E2 in He'. rewrite E2 in Hr'. cbn [take drop]. rewrite <- app_assoc in He'.
    split; [exact He'|exact Hr'].
Qed.

(** ** Transmission *)

Context (linearize_ok tfd_ok : A -> bool).
Context (Hlin : forall x, linearize_ok x = true) (Htfd : forall x, tfd_ok x = true).

Abbreviation tx := (iwl_txq_gen2_tx linearize_ok tfd_ok trans).
Abbreviation trans_tx := (iwl_trans_tx linearize_ok tfd_ok trans).
Abbreviation overflow := (overflow_loop linearize_ok tfd_ok trans).
Abbreviation reclaim := (iwl_pcie_reclaim linearize_ok tfd_ok trans).

(** A live data queue with [l] on the ring and [o] waiting: frames wait only
    while the queue is stopped.  Marks are those of a queue of 32 or more. *)
Record txq_inv q l o : Prop := {
  ti_ring : ring q l;
  ti_over : overflow_q q = o;
  ti_stopped : o <> [] -> queue_stopped q = true;
  ti_room : zlen l + 2 <= capacity trans q;
  ti_marks : 3 <= high_mark q /\ 3 <= low_mark q;
  ti_used : queue_used q = true;
  ti_id : id q < IWL_MAX_TVQM_QUEUES /\ id q <> cmd_queue trans;
}.

Context (Hlive : fw_error trans = false) (Halive : fw_alive trans = true) (Hop : has_tx_op trans = true).

Lemma capacity_window q : geometry trans q -> capacity trans q <= nw q.
Proof. intros H. destruct (sizes_pos q H) as (H1 & _). unfold capacity. zcase; lia. Qed.

Lemma ring_irrel q q' l :
  ring q l -> n_window q' = n_window q -> read_ptr q' = read_ptr q -> write_ptr q' = write_ptr q ->
  entries q' = entries q -> ring q' l.
Proof.
  intros [[G] H2 H3 H4 H5 H6] E1 E2 E3 E4. unfold capacity in *.
  split; unfold capacity; rewrite ?E1, ?E2, ?E3, ?E4; try done. split. by rewrite E1.
Qed.

(** A frame goes on the ring, or to the overflow list of a stopped queue. *)
Lemma tx_spec jiffies q l o x :
  txq_inv q l o -> (o <> [] -> iwl_txq_space trans q < 3) ->
  exists q' ev l' o', tx jiffies q x = (0, q', ev) /\ txq_inv q' l' o' /\ l' ++ o' = l ++ o ++ [x] /\
    (o' <> [] -> iwl_txq_space trans q' < 3) /\ (queue_stopped q = true -> queue_stopped q' = true) /\
    low_mark q' = low_mark q.
Proof.
  intros [H Ho Hst Hroom [Hhi Hlo] Hu [Hid Hid2]] Hfull. unfold iwl_txq_gen2_tx.
  destruct (Z.leb_spec IWL_MAX_TVQM_QUEUES (id q)) as [?|_]; [lia|].
  rewrite Hu, Hlin. cbn [negb]. pose proof (ring_space q l H) as Hsp. rewrite Hsp in Hfull.
  pose proof (capacity_window q (rg_geom _ _ H)) as Hcw.
  set (q1 := if iwl_txq_space trans q <? high_mark q then fst (iwl_txq_stop q) else q).
  assert (exists ev1, (if iwl_txq_space trans q <? high_mark q then iwl_txq_stop q else (q, [])) = (q1, ev1)) as [ev1 ->].
  { unfold q1. destruct (_ <? _); [|by eexists]. by destruct (iwl_txq_stop q); eexists. }
  assert (q1 = set_stopped q (queue_stopped q1) /\ (queue_stopped q = true -> queue_stopped q1 = true) /\
          (iwl_txq_space trans q < high_mark q -> queue_stopped q1 = true)) as (Eq1 & Hq1 & Hq2).
  { unfold q1, iwl_txq_stop. destruct (Z.ltb_spec (iwl_txq_space trans q) (high_mark q)).
    - destruct (queue_stopped q) eqn:E; cbn [fst]; (split; [|done]); destruct q; cbn in *; by subst.
    - split; [by destruct q|]. split; [done|lia]. }
  assert (ring q1 l) as H1 by (rewrite Eq1; by eapply ring_irrel).
  assert (low_mark q1 = low_mark q /\ high_mark q1 = high_mark q /\ overflow_q q1 = o /\ id q1 = id q /\
    queue_used q1 = true /\ capacity trans q1 = capacity trans q) as (E1 & E2 & E3 & E4 & E5 & E6)
    by (rewrite Eq1; done).
  clearbody q1. clear Eq1. rewrite (ring_space q1 l H1), E6, E2. rewrite Hsp in Hq2.
  destruct (Z.ltb_spec (capacity trans q - zlen l) 3) as [Hs|Hs].
  - rewrite andb_true_r. destruct (Z.ltb_spec (capacity trans q - zlen l) (high_mark q)); [|lia].
    eexists _, ev1, l, (o ++ [x]). split; [by rewrite E3|].
    assert (ring (set_overflow q1 (o ++ [x])) l) as H2 by by eapply ring_irrel.
    split; [split|split; [done|split; [|split; [done|done]]]]; try done; cbn.
    + intros _. apply Hq2. lia.
    + change (capacity trans _) with (capacity trans q1). lia.
    + by rewrite E1, E2.
    + by rewrite E4.
    + intros _. rewrite (ring_space _ _ H2). change (capacity trans _) with (capacity trans q1). lia.
  - rewrite andb_false_r. assert (o = []) as -> by (destruct o; [done|exfalso; assert (capacity trans q - zlen l < 3) by (by apply Hfull); lia]).
    rewrite Htfd. cbn [negb].
    pose proof (ring_push q1 l x H1) as Hp. pose proof (capacity_window q1 (rg_geom _ _ H1)) as Hcw1.
    set (q2 := set_entry q1 (iwl_txq_get_cmd_index q1 (write_ptr q1)) (Some x)) in *.
    set (q3 := if (read_ptr q2 =? write_ptr q2) && nz (wd_timeout q2) then
                 set_stuck q2 (Some (u64 (jiffies + wd_timeout q2))) else q2).
    assert (write_ptr q3 = write_ptr q1 /\ low_mark q3 = low_mark q1 /\ high_mark q3 = high_mark q1 /\
      overflow_q q3 = [] /\ id q3 = id q1 /\ queue_used q3 = true /\ queue_stopped q3 = queue_stopped q1 /\
      n_window q3 = n_window q2 /\ read_ptr q3 = read_ptr q2 /\ entries q3 = entries q2)
      as (F1 & F2 & F3 & F4 & F5 & F6 & F7 & F8 & F9 & F10)
      by (unfold q3; destruct (_ && _); done).
    clearbody q3.
    assert (ring (set_write q3 (iwl_txq_inc_wrap trans (write_ptr q3))) (l ++ [x])) as H3.
    { eapply ring_irrel; [apply Hp; lia|..]; cbn; rewrite ?F1, ?F8, ?F9, ?F10; reflexivity. }
    eexists _, _, (l ++ [x]), []. split; [done|].
    split; [|split; [by rewrite app_nil_r|split; [done|split; [cbn; rewrite F7; done|cbn; congruence]]]].
    split; cbn; try done.
    + zlens. change (zlen [x]) with 1. unfold capacity in *. cbn. rewrite F8. cbn. lia.
    + rewrite F2, F3, E1, E2. done.
    + rewrite F5, E4. done.
Qed.

(** Draining a list of overflow frames into the queue keeps their order. *)
Lemma overflow_loop_spec jiffies os q l o :
  txq_inv q l o -> (o <> [] -> iwl_txq_space trans q < 3) ->
  exists q' ev l' o', overflow jiffies q os = (q', ev) /\ txq_inv q' l' o' /\ l' ++ o' = l ++ o ++ os /\
    (o' <> [] -> iwl_txq_space trans q' < 3) /\ (queue_stopped q = true -> queue_stopped q' = true) /\
    low_mark q' = low_mark q.
Proof.
  revert q l o. induction os as [|x os IH]; intros q l o Hi Hf; cbn [overflow_loop].
  { exists q, [], l, o. rewrite app_nil_r. done. }
  unfold iwl_trans_tx. rewrite Hlive, Halive, Hop. cbn [negb].
  destruct (tx_spec jiffies q l o x Hi Hf) as (q1 & ev1 & l1 & o1 & -> & H1 & E1 & F1 & S1 & M1).
  destruct (IH q1 l1 o1 H1 F1) as (q2 & ev2 & l2 & o2 & -> & H2 & E2 & F2 & S2 & M2).
  eexists q2, _, l2, o2. split; [done|]. split; [done|].
  split; [|split; [done|split; [auto|congruence]]].
  rewrite E2, app_assoc, E1. by rewrite <- !app_assoc.
Qed.

Lemma txq_inv_irrel q q' l o :
  txq_inv q l o -> n_window q' = n_window q -> read_ptr q' = read_ptr q -> write_ptr q' = write_ptr q ->
  entries q' = entries q -> overflow_q q' = overflow_q q -> (o <> [] -> queue_stopped q' = true) ->
  high_mark q' = high_mark q -> low_mark q' = low_mark q -> queue_used q' = queue_used q -> id q' = id q ->
  txq_inv q' l o.
Proof.
  intros [H1 H2 H3 H4 H5 H6 H7] E1 E2 E3 E4 E5 E6 E7 E8 E9 E10.
  split; rewrite ?E5, ?E7, ?E8, ?E9, ?E10; try done; [by eapply ring_irrel|].
  unfold capacity in *. by rewrite E1.
Qed.

Lemma progress_fields jiffies q :
  let q' := iwl_txq_progress jiffies q in
  (id q', entries q', n_window q', write_ptr q', read_ptr q', low_mark q', high_mark q') =
  (id q, entries q, n_window q, write_ptr q, read_ptr q, low_mark q, high_mark q) /\
  overflow_q q' = overflow_q q /\ queue_used q' = queue_used q /\ queue_stopped q' = queue_stopped q.
Proof.
  unfold iwl_txq_progress. destruct (nz _); cbn [negb]; [|done]. destruct (frozen q); [done|].
  by destruct (_ =? _).
Qed.

(** Frames between the read pointer and the index [ssn]. *)
Definition reclaimable q (ssn : Z) : nat := Z.to_nat ((ssn - read_ptr q) mod nw q).

Lemma wake_queue_stopped q : (iwl_trans_pcie_wake_queue q).1 = set_stopped q false.
Proof.
  unfold iwl_trans_pcie_wake_queue. destruct (queue_stopped q) eqn:E; [done|]. destruct q; cbn in *. by subst.
Qed.

(** Reclaim for any index the firmware reports. *)
Lemma reclaim_spec jiffies q l o ssn :
  txq_inv q l o ->
  let k := reclaimable q ssn in
  exists q' skbs ev, reclaim jiffies q ssn [] false = Some (q', skbs, ev) /\
    if (0 <? k)%nat && (k <=? length l)%nat then
      exists l' o', txq_inv q' l' o' /\ skbs = take k l /\ l' ++ o' = drop k l ++ o /\
        (queue_stopped q' = true -> iwl_txq_space trans q' <= low_mark q')
    else q' = q /\ skbs = [].
Proof.
  intros Hi k. pose proof (ti_ring _ _ _ Hi) as H. pose proof (rg_geom _ _ H) as Hg.
  destruct (sizes_pos q Hg) as (Hs1 & Hs2 & Hs3). destruct (ti_id _ _ _ Hi) as [Hid Hcmd].
  pose proof (rg_cap _ _ H) as [Hcap _]. pose proof (Z.mod_pos_bound (ssn - read_ptr q) (nw q)) as Hkb.
  unfold iwl_pcie_reclaim. destruct (Z.eqb_spec (id q) (cmd_queue trans)) as [?|_]; [done|].
  cbn [andb]. rewrite (ti_used _ _ _ Hi). cbn [negb]. rewrite !(cmd_index_mod q) by done.
  destruct (Z.eqb_spec (read_ptr q mod nw q) (ssn mod nw q)) as [E|Hne].
  { assert (k = O) as ->.
    { unfold k, reclaimable. rewrite <- Zminus_mod_idemp_l, <- E, Zminus_mod_idemp_l, Z.sub_diag. done. }
    eexists _, _, _. done. }
  assert ((ssn - read_ptr q) mod nw q <> 0) as Hk0.
  { intros E. apply Hne. replace ssn with (read_ptr q + (ssn - read_ptr q)) by lia.
    by rewrite <- Zplus_mod_idemp_r, E, Z.add_0_r. }
  rewrite (dec_wrap_mod q), (used_spec q l) by done.
  replace (((ssn mod nw q - 1) mod mx - read_ptr q) mod nw q) with ((ssn - read_ptr q) mod nw q - 1).
  2:{ rewrite <- (Zminus_mod_idemp_l ((ssn mod nw q - 1) mod mx)), (mod_window q), Zminus_mod_idemp_l by done.
      replace (ssn mod nw q - 1 - read_ptr q) with (ssn mod nw q - (1 + read_ptr q)) by lia.
      rewrite Zminus_mod_idemp_l. replace (ssn - (1 + read_ptr q)) with ((ssn - read_ptr q) - 1) by lia.
      rewrite <- (Zminus_mod_idemp_l (ssn - read_ptr q) 1), (Z.mod_small (_ - 1)); [done|lia]. }
  destruct (Z.ltb_spec ((ssn - read_ptr q) mod nw q - 1) (zlen l)) as [Hlt|Hge]; cbn [negb].
  2:{ assert (k <=? length l = false)%nat as -> by (apply Nat.leb_gt; unfold k, reclaimable, zlen in *; lia).
      rewrite andb_false_r. eexists _, _, _. done. }
  assert (0 <? k = true)%nat as -> by (apply Nat.ltb_lt; unfold k, reclaimable; lia).
  assert (k <= length l)%nat as Hkl by (unfold k, reclaimable, zlen in *; lia).
  rewrite (proj2 (Nat.leb_le _ _)) by done. rewrite bool_decide_eq_true_2 by done. cbn [andb negb].
  assert (ring (set_read q (read_ptr q)) l) as Hr by by eapply ring_irrel.
  destruct (reclaim_loop_spec k (Z.to_nat (nw q)) q (read_ptr q) l [] Hr Hkl) as (es & Hloop & Hring).
  { unfold k, reclaimable. lia. }
  replace ((read_ptr q + Z.of_nat k) mod nw q) with (ssn mod nw q) in Hloop.
  2:{ unfold k, reclaimable. rewrite Z2Nat.id by lia. rewrite Zplus_mod_idemp_r. f_equal. lia. }
  rewrite Hloop. cbn [mbind option_bind app]. set (rp := (read_ptr q + Z.of_nat k) mod mx) in *.
  pose proof (progress_fields jiffies (set_read (with_entries q es) rp)) as (P1 & P2 & P3 & P4).
  set (q1 := iwl_txq_progress jiffies _) in *. injection P1 as P5 P6 P7 P8 P9 P10 P11.
  cbn in P2, P3, P4, P5, P7, P10, P11.
  assert (txq_inv q1 (drop k l) o) as Hi1.
  { destruct Hi as [? Ho Hst Hroom Hm Hu Hid']. split; rewrite ?P2, ?P3, ?P4, ?P5, ?P10, ?P11; try done.
    - eapply ring_irrel; [exact Hring|..]; done.
    - unfold capacity in *. rewrite P7. unfold zlen in *. rewrite length_drop. lia. }
  destruct ((low_mark q1 <? iwl_txq_space trans q1) && queue_stopped q1) eqn:Ew.
  - apply andb_true_iff in Ew as [Ew1%Z.ltb_lt Ew2].
    assert (txq_inv (set_overflow_tx (set_overflow q1 []) true) (drop k l) []) as Hi2.
    { destruct Hi1 as [R1 R2 R3 R4 R5 R6 R7]. split; try done. by eapply ring_irrel. }
    destruct (overflow_loop_spec jiffies (overflow_q q1) _ _ _ Hi2) as
      (q2 & ev & l' & o' & -> & Hi3 & El & Hf & _ & Hm); [done|].
    cbn [app] in El. rewrite (ti_over _ _ _ Hi1) in El. cbn [low_mark set_overflow_tx set_overflow] in Hm.
    destruct (Z.ltb_spec (low_mark q2) (iwl_txq_space trans q2)) as [Hw|Hw].
    + assert (o' = []) as ->.
      { destruct o'; [done|]. exfalso. destruct (ti_marks _ _ _ Hi3).
        assert (iwl_txq_space trans q2 < 3) by (by apply Hf). lia. }
      destruct (iwl_trans_pcie_wake_queue q2) as [q3 ev3] eqn:E3.
      assert (q3 = set_stopped q2 false) as ->.
      { rewrite <- wake_queue_stopped, E3. done. }
      eexists _, _, _. split; [done|]. exists l', []. split; [by eapply txq_inv_irrel|]. done.
    + eexists _, _, _. split; [done|]. exists l', o'. split; [eapply txq_inv_irrel; try done; apply Hi3|].
      split; [done|]. split; [done|]. intros _. exact Hw.
  - eexists _, _, _. split; [done|]. exists (drop k l), o. split; [done|]. split; [done|]. split; [done|].
    intros Hst. rewrite Hst, andb_true_r in Ew. apply Z.ltb_ge in Ew. done.
Qed.

(** ** Runs *)

(** The operation mode transmits only while the queue is not stopped. *)
Inductive txq_action :=
| act_tx (jiffies : Z) (skb : A)
| act_reclaim (jiffies ssn : Z).

(** The queue after the actions, the frames accepted and the frames returned. *)
Fixpoint txq_run q (acts : list txq_action) : option (iwl_txq A * list A * list A) :=
  match acts with
  | [] => Some (q, [], [])
  | act_tx jiffies skb :: acts =>
      if queue_stopped q then txq_run q acts
      else
        let '(_, q, _) := trans_tx jiffies q skb in
        '(q, acc, out) ← txq_run q acts; Some (q, skb :: acc, out)
  | act_reclaim jiffies ssn :: acts =>
      '(q, skbs, _) ← reclaim jiffies q ssn [] false;
      '(q, acc, out) ← txq_run q acts; Some (q, acc, skbs ++ out)
  end.

Lemma txq_run_spec acts q l o :
  txq_inv q l o ->
  exists q' acc out l' o', txq_run q acts = Some (q', acc, out) /\ txq_inv q' l' o' /\
    (l ++ o) ++ acc = out ++ l' ++ o'.
Proof.
  revert q l o. induction acts as [|[j x|j ssn] acts IH]; intros q l o Hi; cbn [txq_run].
  - exists q, [], [], l, o. by rewrite app_nil_r.
  - destruct (queue_stopped q) eqn:Es; [by apply IH|].
    assert (o = []) as ->.
    { destruct o; [done|]. assert (queue_stopped q = true) by (by apply (ti_stopped _ _ _ Hi)). congruence. }
    unfold iwl_trans_tx. rewrite Hlive, Halive, Hop. cbn [negb].
    destruct (tx_spec j q l [] x Hi) as (q1 & ev1 & l1 & o1 & -> & H1 & E1 & _); [done|].
    destruct (IH q1 l1 o1 H1) as (q2 & acc & out & l2 & o2 & -> & H2 & E2). cbn [mbind option_bind].
    exists q2, (x :: acc), out, l2, o2. split; [done|]. split; [done|].
    rewrite <- E2, E1. cbn [app]. rewrite app_nil_r. by rewrite <- app_assoc.
  - destruct (reclaim_spec j q l o ssn Hi) as (q1 & skbs & ev & -> & Hr). cbn [mbind option_bind].
    destruct (_ && _).
    + destruct Hr as (l1 & o1 & H1 & -> & E1 & _).
      destruct (IH q1 l1 o1 H1) as (q2 & acc & out & l2 & o2 & -> & H2 & E2). cbn [mbind option_bind].
      eexists q2, acc, _, l2, o2. split; [done|]. split; [done|].
      rewrite <- (app_assoc (take _ l)), <- E2, E1, !app_assoc. by rewrite take_drop.
    + destruct Hr as [-> ->]. destruct (IH q l o Hi) as (q2 & acc & out & l2 & o2 & -> & H2 & E2).
      cbn [mbind option_bind app]. exists q2, acc, out, l2, o2. done.
Qed.
End ring.

(** ** Properties *)

(** The device and operation mode the run properties assume. *)
Record live_trans (trans : iwl_trans) : Prop := {
  lt_error : fw_error trans = false;
  lt_alive : fw_alive trans = true;
  lt_op : has_tx_op trans = true;
}.

Section properties.
Context {A : Type} (trans : iwl_trans) (linearize_ok tfd_ok : A -> bool).
Context (Hlive : live_trans trans).
Context (Hlin : forall x, linearize_ok x = true) (Htfd : forall x, tfd_ok x = true).

(** C18: The transmit queue is first-in first-out and loses nothing, as long as
    the firmware is alive and each frame can be linearised and mapped for the
    device.  Over any sequence of transmissions (while the queue is not stopped)
    and reclaims with arbitrary indices, the frames returned, followed by those
    on the ring and those waiting in the overflow list, are exactly the frames
    that were queued and accepted, in order; the queue always keeps two free
    slots.  Without the condition a frame of the overflow list can be lost
    ([overflow_tx_leak]). *)
Theorem txq_fifo acts (q : iwl_txq A) l o :
  txq_inv trans q l o ->
  exists q' acc out l' o', txq_run trans linearize_ok tfd_ok q acts = Some (q', acc, out) /\
    txq_inv trans q' l' o' /\ (l ++ o) ++ acc = out ++ l' ++ o'.
Proof. destruct Hlive. by apply txq_run_spec. Qed.

(** C19: Reclaim is safe for every index the firmware can report and restarts
    the queue.  With [k] the distance from the read pointer to [ssn] in the
    window: when [k] frames are on the ring they are returned oldest first, the
    overflow list is moved up behind the rest in order, and a queue still
    stopped afterwards has no more room than its low mark; otherwise nothing
    changes. *)
Theorem txq_reclaim_safe jiffies (q : iwl_txq A) l o ssn :
  txq_inv trans q l o ->
  let k := reclaimable q ssn in
  exists q' skbs ev,
    iwl_pcie_reclaim linearize_ok tfd_ok trans jiffies q ssn [] false = Some (q', skbs, ev) /\
    if (0 <? k)%nat && (k <=? length l)%nat then
      exists l' o', txq_inv trans q' l' o' /\ skbs = take k l /\ l' ++ o' = drop k l ++ o /\
        (queue_stopped q' = true -> iwl_txq_space trans q' <= low_mark q')
    else q' = q /\ skbs = [].
Proof. destruct Hlive. by apply reclaim_spec. Qed.
End properties.

Lemma gen2_unmap_loop_spec {A} trans fuel (q : iwl_txq A) l freed :
  ring trans q l -> (length l <= fuel)%nat ->
  exists q', gen2_unmap_loop fuel trans q freed = Some (q', freed ++ l) /\
    write_ptr q' = read_ptr q' /\ overflow_q q' = overflow_q q /\ queue_stopped q' = queue_stopped q.
Proof.
  revert q l freed. induction fuel as [|fuel IH]; intros q l freed H Hl;
    pose proof (ring_empty trans q l H) as He; rewrite Z.eqb_sym in He; cbn [gen2_unmap_loop]; rewrite He.
  - destruct l; [|cbn in Hl; lia]. rewrite app_nil_r. exists q. split; [done|]. split; [by apply Z.eqb_eq|done].
  - destruct l as [|x l].
    { rewrite app_nil_r. exists q. split; [done|]. split; [by apply Z.eqb_eq|done]. }
    rewrite bool_decide_eq_false_2 by done. destruct (ring_pop trans q x l H) as [Hx Hp].
    rewrite (cmd_index_mod trans q) by apply (rg_geom _ _ _ H). rewrite Hx. cbn [mbind option_bind].
    change (read_ptr (set_entry q _ None)) with (read_ptr q).
    rewrite (inc_wrap_mod trans q) by apply (rg_geom _ _ _ H). cbn [length] in Hl.
    destruct (IH _ l (freed ++ [x]) Hp) as (q' & -> & E1 & E2 & E3); [lia|].
    exists q'. rewrite <- app_assoc. done.
Qed.

(** Freeing a queue terminates and frees every frame.  The loop of
    [iwl_txq_gen2_unmap] ends, frees the frames on the ring in order and then
    those in the overflow list, and leaves the queue empty and not stopped. *)
Theorem txq_unmap_complete {A} trans (q : iwl_txq A) l freed :
  ring trans q l ->
  exists q' ev, iwl_txq_gen2_unmap trans q freed = Some (q', (freed ++ l) ++ overflow_q q, ev) /\
    write_ptr q' = read_ptr q' /\ overflow_q q' = [] /\ queue_stopped q' = false.
Proof.
  intros H. destruct (gen2_unmap_loop_spec trans (Z.to_nat (max_tfd_queue_size trans)) q l freed H)
    as (q1 & E & E1 & E2 & E3).
  { pose proof (rg_cap _ _ _ H) as [Hc _]. pose proof (sizes_pos trans q (rg_geom _ _ _ H)). unfold zlen in *. lia. }
  unfold iwl_txq_gen2_unmap. rewrite E. cbn [mbind option_bind]. rewrite E2.
  pose proof (wake_queue_stopped (set_overflow q1 [])) as Hw.
  destruct (iwl_trans_pcie_wake_queue _) as [q2 ev]. cbn [fst] in Hw. subst q2.
  eexists _, _. split; [done|]. done.
Qed.

(** A full host-command queue is never reclaimed.  [iwl_txq_space] lets a
    queue whose window is smaller than the ring fill its whole window, but then
    the read and write pointers agree modulo the window, [iwl_txq_used] holds
    of no index, and [iwl_pcie_cmdq_reclaim] ignores every completion. *)
Theorem cmdq_full_stuck {A} trans jiffies (q : iwl_txq A) idx :
  geometry trans q -> n_window q < max_tfd_queue_size trans ->
  0 <= read_ptr q < max_tfd_queue_size trans ->
  write_ptr q = (read_ptr q + n_window q) mod max_tfd_queue_size trans ->
  iwl_txq_space trans q = 0 /\ iwl_txq_used q idx (read_ptr q) (write_ptr q) = false /\
  iwl_pcie_cmdq_reclaim trans jiffies q idx = Some (q, []).
Proof.
  intros Hg Hn Hr Hw. destruct (sizes_pos trans q Hg) as (H1 & H2 & H3).
  assert (forall i, iwl_txq_used q i (read_ptr q) (write_ptr q) = false) as Hu.
  { intros i. unfold iwl_txq_used. rewrite !(cmd_index_mod trans q), Hw, (mod_window trans q) by done.
    assert ((read_ptr q + n_window q) mod n_window q = read_ptr q mod n_window q) as ->.
    { rewrite <- (Z.mod_add (read_ptr q) 1), Z.mul_1_l by lia. done. }
    rewrite Z.leb_refl.
    repeat zcase; cbn [andb]; (done || lia). }
  split; [|split; [apply Hu|]].
  - unfold iwl_txq_space. rewrite (proj2 (Z.ltb_lt _ _) Hn).
    assert (u32 (write_ptr q - read_ptr q) .& (max_tfd_queue_size trans - 1) = n_window q) as ->.
    { destruct Hg as [(w & m & _ & E & Hw1 & Hm)]. rewrite E, land_pred by lia. unfold wrap.
      rewrite <- Zmod_div_mod; [|lia|lia|apply pow2_divide; lia].
      rewrite Hw, E, Zminus_mod_idemp_l. replace (read_ptr q + n_window q - read_ptr q) with (n_window q) by lia.
      apply Z.mod_small. lia. }
    rewrite Z.ltb_irrefl. lia.
  - unfold iwl_pcie_cmdq_reclaim. rewrite Hu, orb_true_r. done.
Qed.

(** ** Concrete queues *)

(** A device with rings of [size] descriptors; queue 0 is the command queue. *)
Definition sample_trans (size : Z) : iwl_trans := mk_trans size 0 false true true.

Definition sample_txq (qid window : Z) : iwl_txq Z :=
  (iwl_queue_init (mk_txq qid (replicate (Z.to_nat window) None) window 0 0 0 0 [] false 0 false None
     true false) window).2.

Lemma sample_ring qid : ring (sample_trans 256) (sample_txq qid 32) [].
Proof.
  split.
  - split. exists 5, 8. split_and!; (reflexivity || lia).
  - done.
  - reflexivity.
  - reflexivity.
  - done.
  - done.
Qed.

Lemma sample_inv : txq_inv (sample_trans 256) (sample_txq 1 32) [] [].
Proof. split; cbn; try done; try (unfold capacity; cbn; lia). apply sample_ring. Qed.

Lemma sample_live : live_trans (sample_trans 256).
Proof. done. Qed.

(** The overflow path ignores the result of [iwl_trans_tx]: a frame whose
    descriptor cannot be built is dropped without being freed or returned.
    Frames 1 to 30 fill the ring, 99 waits; reclaiming 20 frames moves 99 out
    of the overflow list, and it is nowhere afterwards. *)
Theorem overflow_tx_leak :
  let tfd_ok x := negb (x =? 99) in
  let tx q x := (iwl_trans_tx (fun _ => true) tfd_ok (sample_trans 256) 0 q x).1.2 in
  let q := foldl tx (sample_txq 1 32) (seqZ 1 30 ++ [99]) in
  overflow_q q = [99] /\
  exists q' ev, iwl_pcie_reclaim (fun _ => true) tfd_ok (sample_trans 256) 0 q 20 [] false =
    Some (q', seqZ 1 20, ev) /\
    overflow_q q' = [] /\ omap (fun e => e) (entries q') = seqZ 21 10.
Proof. cbv zeta. split; [by vm_compute|]. eexists _, _. split; [vm_compute; reflexivity|]. by vm_compute. Qed.

(** A completion that skips commands over the end of the window overshoots:
    with commands 30 to 33 pending on a window of 32, completing index 1 (33)
    should move the read pointer to 34 and moves it to 2. *)
Theorem cmdq_reclaim_overshoot :
  let q := set_write (set_read (sample_txq 0 32) 30) 34 in
  (fun r => (read_ptr r.1, write_ptr r.1)) <$> iwl_pcie_cmdq_reclaim (sample_trans 256) 0 q 33 =
  Some (2, 34).
Proof. by vm_compute. Qed.

(** An entry without a frame makes the first-generation unmap loop spin: its
    [continue] skips the update of the read pointer. *)
Theorem gen1_unmap_hang {A} trans fuel (q : iwl_txq A) freed :
  write_ptr q <> read_ptr q -> entries q !! Z.to_nat (read_ptr q) = Some None ->
  gen1_unmap_loop fuel trans q freed = None.
Proof.
  intros Hw He. induction fuel as [|fuel IH]; cbn [gen1_unmap_loop]; (zcase; [done|]); [done|].
  rewrite He. cbn [mbind option_bind]. apply IH.
Qed.

(** ** The hypotheses hold *)

Lemma txq_fifo_witness :
  exists q' acc out l' o',
    txq_run (sample_trans 256) (fun _ => true) (fun _ => true) (sample_txq 1 32)
      (map (act_tx 0) (seqZ 1 40) ++ [act_reclaim 0 25; act_tx 0 41]) = Some (q', acc, out) /\
    txq_inv (sample_trans 256) q' l' o' /\ ([] ++ []) ++ acc = out ++ l' ++ o'.
Proof.
  exact (txq_fifo (sample_trans 256) (fun _ : Z => true) (fun _ => true) sample_live
    (fun _ => eq_refl) (fun _ => eq_refl) _ (sample_txq 1 32) [] [] sample_inv).
Defined.

Lemma txq_reclaim_safe_witness :
  exists q' skbs ev,
    iwl_pcie_reclaim (fun _ : Z => true) (fun _ => true) (sample_trans 256) 0 (sample_txq 1 32) 5 [] false =
      Some (q', skbs, ev) /\ q' = sample_txq 1 32 /\ skbs = [].
Proof.
  exact (txq_reclaim_safe (sample_trans 256) (fun _ : Z => true) (fun _ => true) sample_live
    (fun _ => eq_refl) (fun _ => eq_refl) 0 (sample_txq 1 32) [] [] 5 sample_inv).
Defined.

Lemma txq_unmap_complete_witness :
  exists q' ev, iwl_txq_gen2_unmap (sample_trans 256) (sample_txq 1 32) [7] =
      Some (q', ([7] ++ []) ++ [], ev) /\
    write_ptr q' = read_ptr q' /\ overflow_q q' = [] /\ queue_stopped q' = false.
Proof. apply (txq_unmap_complete (sample_trans 256) (sample_txq 1 32) [] [7]), sample_ring. Defined.

(** Thirty-one asynchronous commands and a synchronous one fill the queue. *)
Definition full_cmdq : iwl_txq Z :=
  foldl (fun q async => (enqueue_hcmd (sample_trans 256) 0 q async).1.2) (sample_txq 0 32)
    (replicate 31 true ++ [false]).

Lemma cmdq_full_stuck_witness :
  iwl_txq_space (sample_trans 256) full_cmdq = 0 /\
  iwl_txq_used full_cmdq 0 (read_ptr full_cmdq) (write_ptr full_cmdq) = false /\
  iwl_pcie_cmdq_reclaim (sample_trans 256) 0 full_cmdq 0 = Some (full_cmdq, []).
Proof.
  apply (cmdq_full_stuck (sample_trans 256) 0 full_cmdq 0).
  - split. exists 5, 8. vm_compute. done.
  - by vm_compute.
  - by vm_compute.
  - by vm_compute.
Defined.
