(* ===== verification/MldReorder.v ===== *)
(** * MldReorder: the reorder buffer of the iwlmld driver

    Receive reordering as [drivers/net/wireless/intel/iwlwifi/mld/agg.c] does
    it: the firmware decides (duplicate, outdated, next sequence number to
    release) and the driver keeps one buffer per receive queue.  Frames are
    byte strings; the entries of a queue are the queue's part of the session's
    [entries] array. *)
From stdpp Require Import base.
From S2P Require Import Prelude Frame.

Definition IWL_MAX_BAID : Z := 32.
Definition IWL_RX_REORDER_DATA_INVALID_BAID : Z := 0x7f.
Definition IWL_RX_MPDU_REORDER_NSSN_MASK : Z := 0x00000fff.
Definition IWL_RX_MPDU_REORDER_SN_MASK : Z := 0x00fff000.
Definition IWL_RX_MPDU_REORDER_BAID_MASK : Z := 0x7f000000.
Definition IWL_RX_MPDU_REORDER_BA_OLD_SN : Z := 0x80000000.
Definition IWL_RX_MPDU_MFLG2_AMSDU : Z := 0x40.
Definition IWL_RX_MPDU_AMSDU_LAST_SUBFRAME : Z := 0x80.
Definition IWL_RX_MPDU_STATUS_DUPLICATE : Z := BIT 22.
Definition IWL_BAR_FRAME_RELEASE_TID_MASK : Z := 0x0000000f.
Definition IWL_BAR_FRAME_RELEASE_STA_MASK : Z := 0x000001f0.
Definition IWL_BAR_FRAME_RELEASE_NSSN_MASK : Z := 0x00000fff.
Definition IWL_BAR_FRAME_RELEASE_BAID_MASK : Z := 0x3f000000.

(** [u32_get_bits(v, mask)] for the masks above: the mask's lowest bit is at
    [shift]. *)
Definition u32_get_bits (v mask shift : Z) : Z := (v .& mask) >> shift.

(** ** State *)

(** [struct iwl_mld_reorder_buffer] with the queue's entries. *)
Record iwl_mld_reorder_buffer := mk_buffer {
  head_sn : Z;
  num_stored : Z;
  queue : Z;
  valid : bool;
  entries : list (list (list Z));
}.

Record iwl_mld_baid_data := mk_baid {
  sta_mask : Z;
  btid : Z;
  buf_size : Z;
  reorder_buf : list iwl_mld_reorder_buffer;
}.

(** The driver state this code reads: sessions by BAID, which station ids have
    a link station, and the firmware's station count. *)
Record iwl_mld := mk_mld {
  fw_id_to_ba : list (option iwl_mld_baid_data);
  link_sta_valid : Z -> bool;
  num_stations : Z;
}.

Definition set_ba (mld : iwl_mld) (baid : Z) (d : iwl_mld_baid_data) : iwl_mld :=
  mk_mld (<[Z.to_nat baid := Some d]> (fw_id_to_ba mld)) (link_sta_valid mld) (num_stations mld).
Definition set_buffer (d : iwl_mld_baid_data) (q : Z) (b : iwl_mld_reorder_buffer) : iwl_mld_baid_data :=
  mk_baid (sta_mask d) (btid d) (buf_size d) (<[Z.to_nat q := b]> (reorder_buf d)).

Definition set_head (b : iwl_mld_reorder_buffer) (sn : Z) : iwl_mld_reorder_buffer :=
  mk_buffer sn (num_stored b) (queue b) (valid b) (entries b).
Definition set_valid (b : iwl_mld_reorder_buffer) : iwl_mld_reorder_buffer :=
  mk_buffer (head_sn b) (num_stored b) (queue b) true (entries b).
Definition set_entries (b : iwl_mld_reorder_buffer) (n : Z) (es : list (list (list Z)))
  : iwl_mld_reorder_buffer :=
  mk_buffer (head_sn b) n (queue b) (valid b) es.

(** The fields of [struct iwl_rx_mpdu_desc] this code reads. *)
Record iwl_rx_mpdu_desc := mk_desc {
  reorder_data : Z;
  status : Z;
  mac_flags2 : Z;
  amsdu_info : Z;
}.

Inductive iwl_mld_reorder_result :=
| IWL_MLD_PASS_SKB
| IWL_MLD_BUFFERED_SKB
| IWL_MLD_DROP_SKB.

(** ** Release *)

(** The loop from [ssn] to [nssn]; frames go to mac80211 in the order of the
    list. *)
Fixpoint release_loop (fuel : nat) (size ssn nssn : Z) (n : Z) (es : list (list (list Z)))
    (out : list (list Z)) : option (Z * list (list (list Z)) * list (list Z)) :=
  if ieee80211_sn_less ssn nssn then
    match fuel with
    | O => None
    | S fuel =>
        let index := ssn mod size in
        skbs ← es !! Z.to_nat index;
        release_loop fuel size (ieee80211_sn_inc ssn) nssn (u16 (n - Z.of_nat (length skbs)))
          (<[Z.to_nat index := []]> es) (out ++ skbs)
    end
  else Some (n, es, out).

(** The loop runs less than half the sequence space. *)
Definition iwl_mld_reorder_release_frames (size : Z) (b : iwl_mld_reorder_buffer) (nssn : Z)
  : option (iwl_mld_reorder_buffer * list (list Z)) :=
  '(n, es, out) ← release_loop (Z.to_nat 2048) size (head_sn b) nssn (num_stored b) (entries b) [];
  Some (set_head (set_entries b n es) nssn, out).

(** [ffs(sta_mask) - 1] of a non-zero mask. *)
Fixpoint ffs_from (fuel : nat) (i v : Z) : Z :=
  match fuel with
  | O => i
  | S fuel => if Z.testbit v i then i else ffs_from fuel (i + 1) v
  end.
Definition first_sta (mask : Z) : Z := ffs_from 32 0 mask.

(** Release on queue [q] of the session [baid], if it and its station exist. *)
Definition release_session (mld : iwl_mld) (baid q : Z) (d : iwl_mld_baid_data)
    (nssn : iwl_mld_reorder_buffer -> Z) : option (iwl_mld * list (list Z)) :=
  if sta_mask d =? 0 then Some (mld, [])
  else if negb (link_sta_valid mld (first_sta (sta_mask d))) then Some (mld, [])
  else
    b ← reorder_buf d !! Z.to_nat q;
    '(b, out) ← iwl_mld_reorder_release_frames (buf_size d) b (nssn b);
    Some (set_ba mld baid (set_buffer d q b), out).

Definition iwl_mld_release_frames_from_notif (mld : iwl_mld) (baid nssn q : Z)
  : option (iwl_mld * list (list Z)) :=
  if (baid =? IWL_RX_REORDER_DATA_INVALID_BAID) || (IWL_MAX_BAID <=? baid) then Some (mld, [])
  else
    e ← fw_id_to_ba mld !! Z.to_nat baid;
    match e with
    | None => Some (mld, [])
    | Some d => release_session mld baid q d (fun _ => nssn)
    end.

(** [struct iwl_frame_release]: BAID at 0, NSSN at 2. *)
Definition iwl_mld_handle_frame_release_notif (mld : iwl_mld) (pkt : list Z) (q : Z)
  : option (iwl_mld * list (list Z)) :=
  if zlen pkt <? 4 then Some (mld, [])
  else
    baid ← rd8 pkt 0;
    nssn ← rd_le16 pkt 2;
    iwl_mld_release_frames_from_notif mld baid nssn q.

(** [struct iwl_bar_frame_release]: station and TID at 0, BA information at 4. *)
Definition iwl_mld_handle_bar_frame_release_notif (mld : iwl_mld) (pkt : list Z) (q : Z)
  : option (iwl_mld * list (list Z)) :=
  if zlen pkt <? 8 then Some (mld, [])
  else
    sta_tid ← rd_le32 pkt 0;
    ba_info ← rd_le32 pkt 4;
    let baid := u32_get_bits ba_info IWL_BAR_FRAME_RELEASE_BAID_MASK 24 in
    let nssn := u32_get_bits ba_info IWL_BAR_FRAME_RELEASE_NSSN_MASK 0 in
    let sta_id := u32_get_bits sta_tid IWL_BAR_FRAME_RELEASE_STA_MASK 4 in
    let tid := u32_get_bits sta_tid IWL_BAR_FRAME_RELEASE_TID_MASK 0 in
    if IWL_MAX_BAID <=? baid then Some (mld, [])
    else
      e ← fw_id_to_ba mld !! Z.to_nat baid;
      match e with
      | None => Some (mld, [])
      | Some d =>
          if negb (tid =? btid d) || (num_stations mld <? sta_id) || negb (nz (sta_mask d .& BIT sta_id))
          then Some (mld, [])
          else iwl_mld_release_frames_from_notif mld baid nssn q
      end.

(** Session removal on one queue: release a whole window. *)
Definition iwl_mld_del_ba (mld : iwl_mld) (q baid : Z) : option (iwl_mld * list (list Z)) :=
  let baid := u8 baid in
  if IWL_MAX_BAID <=? baid then Some (mld, [])
  else
    e ← fw_id_to_ba mld !! Z.to_nat baid;
    match e with
    | None => Some (mld, [])
    | Some d => release_session mld baid q d (fun b => ieee80211_sn_add (head_sn b) (buf_size d))
    end.

(** ** Reception *)

(** The part of [iwl_mld_reorder] from the session's buffer on. *)
Definition reorder_in_buffer (size : Z) (b : iwl_mld_reorder_buffer) (skb : list Z)
    (desc : iwl_rx_mpdu_desc)
  : option (iwl_mld_reorder_result * iwl_mld_reorder_buffer * list (list Z)) :=
  let reorder := reorder_data desc in
  let is_old_sn := nz (reorder .& IWL_RX_MPDU_REORDER_BA_OLD_SN) in
  if negb (valid b) && is_old_sn then Some (IWL_MLD_PASS_SKB, b, [])
  else
    let b := set_valid b in
    let is_dup := nz (status desc .& IWL_RX_MPDU_STATUS_DUPLICATE) in
    if is_dup || is_old_sn then Some (IWL_MLD_DROP_SKB, b, [])
    else
      let sn := u32_get_bits reorder IWL_RX_MPDU_REORDER_SN_MASK 12 in
      let nssn := u32_get_bits reorder IWL_RX_MPDU_REORDER_NSSN_MASK 0 in
      let amsdu := nz (mac_flags2 desc .& IWL_RX_MPDU_MFLG2_AMSDU) in
      let last_subframe := nz (amsdu_info desc .& IWL_RX_MPDU_AMSDU_LAST_SUBFRAME) in
      let complete := negb amsdu || last_subframe in
      if (num_stored b =? 0) && ieee80211_sn_less sn nssn then
        Some (IWL_MLD_PASS_SKB, if complete then set_head b nssn else b, [])
      else if (num_stored b =? 0) && (sn =? head_sn b) then
        Some (IWL_MLD_PASS_SKB,
              if complete then set_head b (ieee80211_sn_inc (head_sn b)) else b, [])
      else
        let index := sn mod size in
        frames ← entries b !! Z.to_nat index;
        let b := set_entries b (u16 (num_stored b + 1))
                   (<[Z.to_nat index := frames ++ [skb]]> (entries b)) in
        if complete then
          '(b, out) ← iwl_mld_reorder_release_frames size b nssn;
          Some (IWL_MLD_BUFFERED_SKB, b, out)
        else
          Some (IWL_MLD_BUFFERED_SKB, if num_stored b =? 1 then set_head b nssn else b, []).

(** [link_sta]: the mask of the station's link ids, [None] for NULL. *)
Definition iwl_mld_reorder (mld : iwl_mld) (q : Z) (link_sta : option Z) (skb : list Z)
    (desc : iwl_rx_mpdu_desc) : option (iwl_mld_reorder_result * iwl_mld * list (list Z)) :=
  let pass := Some (IWL_MLD_PASS_SKB, mld, []) in
  tid ← ieee80211_get_tid skb;
  let baid := u32_get_bits (reorder_data desc) IWL_RX_MPDU_REORDER_BAID_MASK 24 in
  if baid =? IWL_RX_REORDER_DATA_INVALID_BAID then pass
  else if IWL_MAX_BAID <=? baid then pass
  else match link_sta with
  | None => pass
  | Some mask =>
      fc ← hdr_frame_control skb;
      a1 ← rd8 skb ADDR1;
      if negb (ieee80211_is_data_qos fc) || is_multicast_ether_addr a1 then pass
      else if negb (ieee80211_is_data_present fc) then pass
      else
        e ← fw_id_to_ba mld !! Z.to_nat baid;
        match e with
        | None => pass
        | Some d =>
            if negb (tid =? btid d) || negb (nz (mask .& sta_mask d)) then pass
            else
              b ← reorder_buf d !! Z.to_nat q;
              '(res, b, out) ← reorder_in_buffer (buf_size d) b skb desc;
              Some (res, set_ba mld baid (set_buffer d q b), out)
        end
  end.

(** [iwl_mld_init_reorder_buffer] for one queue of a zeroed session. *)
Definition init_reorder_buffer (size ssn i : Z) : iwl_mld_reorder_buffer :=
  mk_buffer ssn 0 i false (replicate (Z.to_nat size) []).
