(* ===== verification/MldReorderProofs.v ===== *)
(** * MldReorderProofs: the iwlmld buffer implements the abstract reorder buffer

    The driver's buffer of [MldReorder], driven by a firmware that reports the
    first missing number as NSSN, simulates the abstract buffer of
    [ReorderSpec]; the release notifications advance it and removal of the
    session empties it.  Frames here are whole (no A-MSDU in parts). *)
From Stdlib Require Import Permutation Znumtheory.
From stdpp Require Import gmap.
From S2P Require Import Prelude Frame Key Reorder ReorderSpec ReorderRefine ReorderProps MldReorder.

(** ** The simulation relation *)

Definition entry_of (e : option (list Z * Z)) : list (list Z) :=
  match e with Some (d, _) => [d] | None => [] end.

Record mrel (size : Z) (m : iwl_mld_reorder_buffer) (b : rbuf) : Prop := {
  mr_len : zlen (entries m) = size;
  mr_head : head_sn m = rb_head b mod 4096;
  mr_stored : num_stored m = Z.of_nat (base.size (rb_store b));
  mr_entries : forall n, rb_head b <= n < rb_head b + size ->
    entries m !! Z.to_nat (n mod size) = Some (entry_of (rb_store b !! n));
  mr_wf : rb_wf size b;
}.

(** The release loop's view: the head is the loop's [ssn]. *)
Definition with_state (m : iwl_mld_reorder_buffer) (sn n : Z) (es : list (list (list Z))) :=
  MldReorder.set_head (set_entries m n es) sn.

Section lemmas.
Context (size : Z) (Hsize : good_size size).

Let Hpos : 1 < size := size_pos size Hsize.

Lemma mstored_range m b : mrel size m b -> 0 <= num_stored m <= size.
Proof.
  intros H. rewrite (mr_stored _ _ _ H). pose proof (store_size_le size Hsize b (mr_wf _ _ _ H)). lia.
Qed.

Lemma mstored_zero m b : mrel size m b -> (num_stored m =? 0) = bool_decide (rb_store b = ∅).
Proof.
  intros H. rewrite (mr_stored _ _ _ H). case_bool_decide as E.
  - by rewrite E, map_size_empty.
  - apply map_size_non_empty_iff in E. zcase; lia.
Qed.

Lemma mrel_index m b : mrel size m b -> head_sn m mod size = rb_head b mod size.
Proof. intros H. rewrite (mr_head _ _ _ H). by apply sn_index. Qed.

(** The slot of the head after the head has moved on. *)
Lemma slot_wrap h : (h + size) mod size = h mod size.
Proof. rewrite <- (Z.mod_add h 1 size) by lia. f_equal. lia. Qed.

Lemma slot_ne i j : i <> j -> -size < i - j < size -> Z.to_nat (i mod size) <> Z.to_nat (j mod size).
Proof.
  intros Hne Hr E. apply Hne, (mod_window_inj size Hsize); [done|].
  pose proof (Z.mod_pos_bound i size). pose proof (Z.mod_pos_bound j size). lia.
Qed.

(** One iteration empties the head's entry: [rb_pop]. *)
Lemma pop_spec m b :
  mrel size m b ->
  exists skbs, entries m !! Z.to_nat (head_sn m mod size) = Some skbs /\
    skbs = map snd (rb_pop b).2 /\
    mrel size (with_state m (ieee80211_sn_inc (head_sn m)) (u16 (num_stored m - Z.of_nat (length skbs)))
      (<[Z.to_nat (head_sn m mod size) := []]> (entries m))) (rb_pop b).1.
Proof.
  intros H. pose proof (mr_entries _ _ _ H (rb_head b)) as He. rewrite (mrel_index m b H).
  exists (entry_of (rb_store b !! rb_head b)). split; [apply He; lia|].
  pose proof (mstored_range _ _ H) as Hr. pose proof (mr_stored _ _ _ H) as Hst.
  split; [unfold rb_pop; by destruct (rb_store b !! rb_head b) as [[d tm]|]|].
  assert (base.size (delete (rb_head b) (rb_store b)) + length (entry_of (rb_store b !! rb_head b)) =
    base.size (rb_store b))%nat as Hsz.
  { rewrite map_size_delete. destruct (rb_store b !! rb_head b) as [[d tm]|] eqn:E; cbn; [|lia].
    assert (rb_store b <> ∅) by (intros E0; by rewrite E0, lookup_empty in E).
    assert (base.size (rb_store b) <> O) by (by apply map_size_non_empty_iff). lia. }
  split; cbn [with_state entries head_sn num_stored set_entries MldReorder.set_head rb_pop fst rb_head rb_store].
  - unfold zlen. rewrite length_insert. apply H.
  - rewrite (mr_head _ _ _ H), sn_inc_mod. apply Zplus_mod_idemp_l.
  - rewrite wrap_small by (destruct Hsize; unfold is_uint; lia). lia.
  - intros n Hn. destruct (decide (n = rb_head b + size)) as [->|Hne].
    + rewrite slot_wrap, list_lookup_insert_eq.
      * destruct (delete _ _ !! _) as [x|] eqn:E; [|done].
        apply lookup_delete_Some in E as [_ E]. apply (rw_keys _ _ (mr_wf _ _ _ H)) in E. lia.
      * pose proof (mr_len _ _ _ H) as Hl. unfold zlen in Hl.
        pose proof (Z.mod_pos_bound (rb_head b) size). lia.
    + rewrite list_lookup_insert_ne by (apply slot_ne; lia).
      rewrite lookup_delete_ne by lia. apply H. lia.
  - apply (rb_pop_wf _ _ (mr_wf _ _ _ H)).
Qed.

Lemma release_loop_spec fuel k m b out :
  mrel size m b -> (k <= fuel)%nat -> Z.of_nat k < 2048 ->
  exists n es,
    release_loop fuel size (head_sn m) ((rb_head b + Z.of_nat k) mod 4096) (num_stored m) (entries m) out =
      Some (n, es, out ++ map snd (rb_advance k b).2) /\
    mrel size (with_state m ((rb_head b + Z.of_nat k) mod 4096) n es) (rb_advance k b).1.
Proof.
  revert k m b out. induction fuel as [|fuel IH]; intros k m b out H Hk H2.
  - assert (k = O) as -> by lia. exists (num_stored m), (entries m). cbn [release_loop rb_advance fst snd map].
    change (Z.of_nat 0) with 0. rewrite Z.add_0_r, <- (mr_head _ _ _ H), sn_less_irrefl, app_nil_r.
    split; [done|]. by destruct m.
  - cbn [release_loop]. destruct k as [|k].
    + exists (num_stored m), (entries m). cbn [rb_advance fst snd map].
      change (Z.of_nat 0) with 0. rewrite Z.add_0_r, <- (mr_head _ _ _ H), sn_less_irrefl, app_nil_r.
      split; [done|]. by destruct m.
    + assert (ieee80211_sn_less (head_sn m) ((rb_head b + Z.of_nat (S k)) mod 4096) = true) as ->.
      { rewrite (mr_head _ _ _ H). apply sn_less_spec. rewrite Zminus_mod_idemp_l, Zminus_mod_idemp_r.
        replace (rb_head b + Z.of_nat (S k) - rb_head b) with (Z.of_nat (S k)) by lia.
        rewrite Z.mod_small; lia. }
      destruct (pop_spec m b H) as (skbs & Hl & Hs & H1). rewrite Hl. cbn [mbind option_bind].
      rewrite rb_advance_S. cbn [fst snd]. rewrite map_app, app_assoc, <- Hs.
      replace (rb_head b + Z.of_nat (S k)) with (rb_head (rb_pop b).1 + Z.of_nat k) by (cbn; lia).
      destruct (IH k _ _ (out ++ skbs) H1) as (n & es & E & H'); [lia|lia|].
      exists n, es. split; [exact E|exact H'].
Qed.

Lemma release_frames_spec m b k :
  mrel size m b -> 0 <= k < 2048 ->
  exists m', iwl_mld_reorder_release_frames size m ((rb_head b + k) mod 4096) =
      Some (m', map snd (rb_advance (Z.to_nat k) b).2) /\
    mrel size m' (rb_advance (Z.to_nat k) b).1 /\ valid m' = valid m.
Proof.
  intros H Hk. unfold iwl_mld_reorder_release_frames.
  destruct (release_loop_spec (Z.to_nat 2048) (Z.to_nat k) m b [] H) as (n & es & E & H'); [lia|lia|].
  rewrite Z2Nat.id in * by lia. rewrite E. cbn [mbind option_bind app].
  exists (with_state m ((rb_head b + k) mod 4096) n es). done.
Qed.

(** Storing a frame inside the window. *)
Lemma store_spec m b n d tm :
  mrel size m b -> rb_head b <= n < rb_head b + size -> rb_store b !! n = None ->
  ieee80211_get_sn d = Some (n mod 4096) ->
  entries m !! Z.to_nat ((n mod 4096) mod size) = Some [] /\
  mrel size (set_entries m (u16 (num_stored m + 1))
      (<[Z.to_nat ((n mod 4096) mod size) := [d]]> (entries m)))
    (mk_rbuf (rb_head b) (<[n := (d, tm)]> (rb_store b))).
Proof.
  intros H Hn Hnone Hd. rewrite sn_index by done. pose proof (mstored_range _ _ H).
  pose proof (mr_entries _ _ _ H n Hn) as He. rewrite Hnone in He. split; [exact He|].
  split; cbn [entries head_sn num_stored set_entries rb_head rb_store].
  - unfold zlen. rewrite length_insert. apply H.
  - apply H.
  - rewrite wrap_small by (destruct Hsize; unfold is_uint; lia).
    rewrite map_size_insert, Hnone, (mr_stored _ _ _ H). cbn. lia.
  - intros i Hi. destruct (decide (i = n)) as [->|Hne].
    + rewrite lookup_insert_eq, list_lookup_insert_eq by (by apply lookup_lt_Some in He). done.
    + rewrite lookup_insert_ne, list_lookup_insert_ne by (done || apply slot_ne; lia). by apply H.
  - destruct (mr_wf _ _ _ H) as [Hk Hs]. split; cbn [rb_head rb_store]; intros i x;
      (destruct (decide (i = n)) as [->|Hne]; [rewrite lookup_insert_eq; intros [= <-]
        |rewrite lookup_insert_ne by done]); [lia|apply Hk|done|apply Hs].
Qed.

Lemma mskip_spec m b :
  mrel size m b -> rb_store b = ∅ ->
  mrel size (MldReorder.set_head m ((rb_head b + 1) mod 4096)) (mk_rbuf (rb_head b + 1) ∅).
Proof.
  intros H E. split; cbn [entries head_sn num_stored MldReorder.set_head rb_head rb_store].
  - apply H.
  - done.
  - rewrite (mr_stored _ _ _ H), E. done.
  - intros i Hi. rewrite lookup_empty. destruct (decide (i = rb_head b + size)) as [->|Hne].
    + rewrite slot_wrap. pose proof (mr_entries _ _ _ H (rb_head b)) as He.
      rewrite E, lookup_empty in He. apply He. lia.
    + pose proof (mr_entries _ _ _ H i) as He. rewrite E, lookup_empty in He. apply He. lia.
  - split; cbn; intros i x Hx; by rewrite lookup_empty in Hx.
Qed.

(** With no timeout in play, release is the run of stored frames at the head. *)
Definition never : Z -> bool := fun _ => false.

Lemma rb_release_never b :
  rb_release size never b = rb_advance (rb_run (Z.to_nat size) (rb_store b) (rb_head b)) b.
Proof.
  unfold rb_release. assert (exists q, Z.to_nat size = S q) as [q ->] by (exists (Z.to_nat size - 1)%nat; lia).
  cbn [rb_run]. destruct (rb_store b !! rb_head b) as [x|] eqn:E; [done|].
  case_bool_decide; [done|]. rewrite rb_timeout_waits; [done|done|lia].
Qed.

Lemma rb_run_le fuel m n : (rb_run fuel m n <= fuel)%nat.
Proof. apply (rb_run_spec fuel m n). Qed.

(** The firmware's descriptor of a new frame that is not part of an A-MSDU. *)
Record fw_reports (desc : iwl_rx_mpdu_desc) (sn nssn : Z) : Prop := {
  fr_new : nz (reorder_data desc .& IWL_RX_MPDU_REORDER_BA_OLD_SN) = false;
  fr_once : nz (status desc .& IWL_RX_MPDU_STATUS_DUPLICATE) = false;
  fr_whole : nz (mac_flags2 desc .& IWL_RX_MPDU_MFLG2_AMSDU) = false;
  fr_sn : u32_get_bits (reorder_data desc) IWL_RX_MPDU_REORDER_SN_MASK 12 = sn;
  fr_nssn : u32_get_bits (reorder_data desc) IWL_RX_MPDU_REORDER_NSSN_MASK 0 = nssn;
}.

(** The frames mac80211 gets: the released ones, then the frame itself when
    the caller is told to pass it on. *)
Definition handed (r : iwl_mld_reorder_result) (out : list (list Z)) (skb : list Z) : list (list Z) :=
  out ++ match r with IWL_MLD_PASS_SKB => [skb] | _ => [] end.

Lemma set_valid_rel m b : mrel size m b -> mrel size (set_valid m) b.
Proof. intros []. by split. Qed.

Lemma sn_less_window h i j : h <= i <= h + 1024 -> h <= j <= h + 1024 ->
  ieee80211_sn_less (i mod 4096) (j mod 4096) = (i <? j).
Proof.
  intros Hi Hj. apply eq_true_iff_eq. rewrite sn_less_spec, Zminus_mod_idemp_l, Zminus_mod_idemp_r, Z.ltb_lt.
  destruct (Z.lt_ge_cases i j).
  - rewrite Z.mod_small by lia. lia.
  - split; [|lia]. destruct (decide (i = j)) as [->|]; [rewrite Z.sub_diag, Zmod_0_l; lia|].
    rewrite <- (Z.mod_add _ 1), Z.mod_small by lia. lia.
Qed.

Lemma run_one n x h :
  rb_run (Z.to_nat size) {[n := x]} h = if h =? n then 1%nat else O.
Proof.
  assert (exists q, Z.to_nat size = S (S q)) as [q ->] by (exists (Z.to_nat size - 2)%nat; lia).
  cbn [rb_run]. zcase.
  - subst. rewrite lookup_singleton_eq, lookup_singleton_ne by lia. done.
  - by rewrite lookup_singleton_ne by lia.
Qed.

(** The number of frames a new frame lets the buffer release. *)
Definition new_run (b : rbuf) (n : Z) (d : list Z) : nat :=
  rb_run (Z.to_nat size) (<[n := (d, 0)]> (rb_store b)) (rb_head b).

Lemma new_run_le b n d : Z.of_nat (new_run b n d) <= size.
Proof. pose proof (rb_run_le (Z.to_nat size) (<[n := (d, 0)]> (rb_store b)) (rb_head b)). unfold new_run. lia. Qed.

Lemma rb_receive_new b n d :
  rb_head b <= n < rb_head b + size -> rb_store b !! n = None ->
  rb_receive size never 0 n d b =
    rb_advance (new_run b n d) (mk_rbuf (rb_head b) (<[n := (d, 0)]> (rb_store b))).
Proof.
  intros Hn Hnone. unfold rb_receive. zcase; [lia|].
  replace (Z.to_nat (n - size + 1 - rb_head b)) with O by lia.
  cbn [rb_advance]. rewrite Hnone, rb_release_never. unfold new_run. cbn [rb_head rb_store].
  by destruct (rb_advance _ _).
Qed.

(** The storing path of the reception. *)
Lemma handed_buffered m' out d (P : iwl_mld_reorder_buffer -> Prop) l :
  P m' -> out = l ->
  exists r m2 out2, Some (IWL_MLD_BUFFERED_SKB, m', out) = Some (r, m2, out2) /\
    r <> IWL_MLD_DROP_SKB /\ P m2 /\ handed r out2 d = l.
Proof. intros H <-. exists IWL_MLD_BUFFERED_SKB, m', out. split_and!; [done..|]. apply app_nil_r. Qed.

Lemma mld_receive m b n d desc :
  mrel size m b -> rb_head b <= n < rb_head b + size -> rb_store b !! n = None ->
  ieee80211_get_sn d = Some (n mod 4096) ->
  fw_reports desc (n mod 4096) ((rb_head b + Z.of_nat (new_run b n d)) mod 4096) ->
  exists r m' out,
    reorder_in_buffer size m d desc = Some (r, m', out) /\ r <> IWL_MLD_DROP_SKB /\
    mrel size m' (rb_receive size never 0 n d b).1 /\
    handed r out d = map snd (rb_receive size never 0 n d b).2.
Proof.
  intros H Hn Hnone Hd [F1 F2 F3 F4 F5]. rewrite rb_receive_new by done.
  pose proof (new_run_le b n d) as Hk. assert (size <= 1024) as Hs by (destruct Hsize; lia).
  apply set_valid_rel in H. unfold reorder_in_buffer. rewrite F1, F2, F3, F4, F5, andb_false_r. cbn [orb negb].
  set (m1 := set_valid m) in *.
  destruct (store_spec m1 b n d 0 H Hn Hnone Hd) as (Hl & H2).
  (* the storing path *)
  destruct (release_frames_spec _ _ (Z.of_nat (new_run b n d)) H2) as (m' & Em & Hm' & _); [lia|].
  rewrite Nat2Z.id in *. cbn [rb_head] in Em.
  rewrite (mstored_zero _ _ H), (mr_head _ _ _ H), (sn_less_window (rb_head b)) by lia.
  case_bool_decide as E; cbn [andb].
  - destruct (decide (n = rb_head b)) as [En|Hne].
    + (* the next frame, nothing stored *)
      unfold new_run in *. rewrite E, insert_empty, run_one in *. rewrite En, Z.eqb_refl in *.
      destruct (Z.ltb_spec (rb_head b) (rb_head b + Z.of_nat 1)); [|lia].
      eexists _, _, _. split; [reflexivity|]. split; [done|]. rewrite rb_advance_S. unfold rb_pop.
      cbn [rb_head rb_store rb_advance fst snd]. rewrite lookup_singleton_eq, delete_singleton_eq.
      split; [by apply mskip_spec|done].
    + assert (new_run b n d = O) as Ek.
      { unfold new_run. rewrite E, insert_empty, run_one. zcase; [lia|done]. }
      destruct (Z.ltb_spec n (rb_head b + Z.of_nat (new_run b n d))); [lia|].
      destruct (Z.eqb_spec (n mod 4096) (rb_head b mod 4096)) as [Eq|_].
      { destruct Hne. apply (mod_window_inj size Hsize); [lia|].
        by rewrite <- (sn_index size Hsize n), Eq, sn_index. }
      rewrite Hl, bind_some. cbn [app]. rewrite Em, bind_some. by apply (handed_buffered _ _ _ (fun m2 => mrel size m2 _)).
  - rewrite Hl, bind_some. cbn [app]. rewrite Em, bind_some. by apply (handed_buffered _ _ _ (fun m2 => mrel size m2 _)).
Qed.
End lemmas.

(** ** Sessions of the driver *)

Section session.
Context (size : Z) (Hsize : good_size size).
Context (baid q smask stid mask : Z) (Hbaid : 0 <= baid < IWL_MAX_BAID) (Hq : 0 <= q).
Context (Hmask : nz (mask .& smask) = true).

(** Queue [q] of the session [baid] represents [b]. *)
Definition mld_session (mld : iwl_mld) (b : rbuf) : Prop :=
  exists d m, fw_id_to_ba mld !! Z.to_nat baid = Some (Some d) /\ sta_mask d = smask /\ btid d = stid /\
    MldReorder.buf_size d = size /\ reorder_buf d !! Z.to_nat q = Some m /\ mrel size m b.

Lemma session_update mld d m m' b' :
  fw_id_to_ba mld !! Z.to_nat baid = Some (Some d) -> sta_mask d = smask -> btid d = stid ->
  MldReorder.buf_size d = size -> reorder_buf d !! Z.to_nat q = Some m -> mrel size m' b' ->
  mld_session (set_ba mld baid (set_buffer d q m')) b'.
Proof.
  intros H1 H2 H3 H4 H5 H6. exists (set_buffer d q m'), m'.
  apply lookup_lt_Some in H1, H5. cbn.
  rewrite list_lookup_insert_eq, list_lookup_insert_eq by done. done.
Qed.

(** A frame the session reorders: unicast QoS data with the session's TID. *)
Definition session_frame (skb : list Z) : Prop :=
  ieee80211_get_tid skb = Some stid /\
  (exists fc, hdr_frame_control skb = Some fc /\ ieee80211_is_data_qos fc = true /\
    ieee80211_is_data_present fc = true) /\
  (exists a1, rd8 skb ADDR1 = Some a1 /\ is_multicast_ether_addr a1 = false).

Lemma reorder_step mld b n d desc :
  mld_session mld b -> session_frame d ->
  u32_get_bits (reorder_data desc) IWL_RX_MPDU_REORDER_BAID_MASK 24 = baid ->
  rb_head b <= n < rb_head b + size -> rb_store b !! n = None ->
  ieee80211_get_sn d = Some (n mod 4096) ->
  fw_reports desc (n mod 4096) ((rb_head b + Z.of_nat (new_run size b n d)) mod 4096) ->
  exists r mld' out,
    iwl_mld_reorder mld q (Some mask) d desc = Some (r, mld', out) /\ r <> IWL_MLD_DROP_SKB /\
    mld_session mld' (rb_receive size never 0 n d b).1 /\
    handed r out d = map snd (rb_receive size never 0 n d b).2.
Proof.
  intros (ba & m & H1 & H2 & H3 & H4 & H5 & H6) (Ht & (fc & Hfc & Hqos & Hpr) & (a1 & Ha1 & Hmc)) Hb Hn Hnone Hsn Hfw.
  unfold iwl_mld_reorder. rewrite Ht, bind_some, Hb.
  unfold IWL_RX_REORDER_DATA_INVALID_BAID, IWL_MAX_BAID in *. zcase; [lia|]. zcase; [lia|].
  rewrite Hfc, bind_some, Ha1, bind_some, Hqos, Hmc, Hpr, H1, bind_some, H2, H3, Hmask, Z.eqb_refl.
  cbn [negb orb]. rewrite H5, bind_some, H4.
  destruct (mld_receive size Hsize m b n d desc H6 Hn Hnone Hsn Hfw) as (r & m' & out & E & Hr & Hm & Ho).
  rewrite E, bind_some. eexists _, _, _. split; [reflexivity|]. split; [done|].
  split; [|done]. by eapply session_update.
Qed.

(** Frames one after the other; the result is what mac80211 gets. *)
Fixpoint mld_run (mld : iwl_mld) (l : list (list Z * iwl_rx_mpdu_desc)) : option (iwl_mld * list (list Z)) :=
  match l with
  | [] => Some (mld, [])
  | (d, desc) :: l =>
      '(r, mld, out) ← iwl_mld_reorder mld q (Some mask) d desc;
      '(mld, rest) ← mld_run mld l;
      Some (mld, handed r out d ++ rest)
  end.

(** The firmware's descriptors for the frames [ns] after [seen]: NSSN is the
    first number from [h] on that has not arrived. *)
Fixpoint fw_run (h : Z) (seen ns : list Z) (descs : list iwl_rx_mpdu_desc) : Prop :=
  match ns, descs with
  | [], [] => True
  | n :: ns, desc :: descs =>
      u32_get_bits (reorder_data desc) IWL_RX_MPDU_REORDER_BAID_MASK 24 = baid /\
      (exists nssn, h <= nssn /\ nssn ∉ n :: seen /\ (forall i, h <= i < nssn -> i ∈ n :: seen) /\
         fw_reports desc (n mod 4096) (nssn mod 4096)) /\
      fw_run h (n :: seen) ns descs
  | _, _ => False
  end.

Context (h k : Z) (g : Z -> list Z) (Hk : 0 <= k <= size).
Context (Hg : forall n, h <= n < h + k -> session_frame (g n) /\ ieee80211_get_sn (g n) = Some (n mod 4096)).

Lemma fw_nssn seen b log n nssn :
  filed h g (fun _ => 0) (n :: seen) b log ->
  h <= nssn -> nssn ∉ n :: seen -> (forall i, h <= i < nssn -> i ∈ n :: seen) -> nssn = rb_head b.
Proof.
  intros [H1 H2 H3 H4 H5] Hh Hn Hb. destruct (Z.lt_trichotomy nssn (rb_head b)) as [Hlt|[->|Hlt]].
  - destruct Hn. apply H3. lia.
  - done.
  - rewrite H4, bool_decide_eq_true_2 in H2 by (apply Hb; lia). by rewrite Z.leb_refl in H2.
Qed.

Lemma mld_run_filed ns descs seen b log mld :
  mld_session mld b -> filed h g (fun _ => 0) seen b log -> NoDup (ns ++ seen) ->
  (forall i, i ∈ ns ++ seen -> h <= i < h + k) -> fw_run h seen ns descs ->
  exists mld' b' seen' out,
    mld_run mld (zip (map g ns) descs) = Some (mld', map snd out) /\ mld_session mld' b' /\
    filed h g (fun _ => 0) seen' b' (log ++ out) /\ seen' ≡ₚ ns ++ seen.
Proof.
  revert descs seen b log mld. induction ns as [|n ns IH]; intros descs seen b log mld Hs Hfl Hnd Hin Hfw;
    destruct descs as [|desc descs]; try done.
  { exists mld, b, seen, []. rewrite app_nil_r. done. }
  destruct Hfw as (Hb & (nssn & Hh & Hn1 & Hn2 & Hr) & Hfw). cbn [app] in Hnd.
  apply NoDup_cons in Hnd as [Hnew Hnd]. rewrite elem_of_app in Hnew.
  assert (h <= n < h + k) as Hn by (apply Hin; left). destruct (Hg n Hn) as [Hfr Hsn].
  assert (n ∉ seen) as Hns by (intros Hx; apply Hnew; by right).
  pose proof (filed_receive size h k g (fun _ => 0) Hk never seen b log n (fun _ => eq_refl) Hfl) as Hfl'.
  cbv zeta in Hfl'. assert (forall i, i ∈ n :: seen -> h <= i < h + k) as Hseen.
  { intros i [->|Hi]%elem_of_cons; [done|]. apply Hin. right. apply elem_of_app. by right. }
  specialize (Hfl' Hseen Hns).
  assert (rb_store b !! n = None) as Hnone.
  { rewrite (fl_store _ _ _ _ _ _ Hfl), bool_decide_eq_false_2 by done. done. }
  pose proof (fl_head _ _ _ _ _ _ Hfl). 
  assert (rb_head b <= n) as Hle.
  { destruct (Z.lt_ge_cases n (rb_head b)); [|done]. destruct Hns. eapply (fl_below _ _ _ _ _ _ Hfl). lia. }
  apply (fw_nssn _ _ _ _ _ Hfl' Hh Hn1) in Hn2.
  rewrite rb_receive_new, rb_advance_head in Hn2 by (done || lia). cbn [rb_head] in Hn2.
  destruct (reorder_step mld b n (g n) desc Hs Hfr Hb) as (r & mld1 & out & E & _ & Hs1 & Ho);
    [lia|done|done|by rewrite <- Hn2|].
  cbn [map zip zip_with mld_run]. rewrite E, bind_some.
  destruct (IH descs (n :: seen) _ _ mld1 Hs1 Hfl') as (mld2 & b2 & seen2 & out2 & E2 & Hs2 & Hfl2 & Hp2).
  - rewrite <- Permutation_middle. apply NoDup_cons. split; [by rewrite elem_of_app|done].
  - intros i Hi. apply Hin. revert Hi. rewrite <- Permutation_middle. done.
  - done.
  - rewrite E2, bind_some. exists mld2, b2, seen2, ((rb_receive size never 0 n (g n) b).2 ++ out2).
    rewrite map_app, Ho. split; [done|]. split; [done|]. rewrite app_assoc. split; [done|].
    by rewrite Hp2, <- Permutation_middle.
Qed.

(** Release of [n] numbers on the session's queue. *)
Lemma release_session_spec mld b n (nssn : iwl_mld_reorder_buffer -> Z) :
  mld_session mld b -> smask <> 0 -> link_sta_valid mld (first_sta smask) = true -> 0 <= n < 2048 ->
  (forall m, mrel size m b -> nssn m = (rb_head b + n) mod 4096) ->
  exists d mld', fw_id_to_ba mld !! Z.to_nat baid = Some (Some d) /\ MldReorder.buf_size d = size /\
    release_session mld baid q d nssn = Some (mld', map snd (rb_advance (Z.to_nat n) b).2) /\
    mld_session mld' (rb_advance (Z.to_nat n) b).1.
Proof.
  intros (d & m & H1 & H2 & H3 & H4 & H5 & H6) Hs Hl Hn Hf. exists d. unfold release_session.
  destruct (release_frames_spec size Hsize m b n H6 Hn) as (m' & E & Hm & _).
  rewrite H2, Hl. zcase; [done|]. cbn [negb]. rewrite H5, bind_some, H4, (Hf m H6), E, bind_some.
  eexists. split; [done|]. split; [done|]. split; [reflexivity|]. by eapply session_update.
Qed.
End session.

(** The log of an advance is what was stored in the range. *)
Lemma rb_advance_elem k b n d :
  (n, d) ∈ (rb_advance k b).2 <->
  rb_head b <= n < rb_head b + Z.of_nat k /\ exists tm, rb_store b !! n = Some (d, tm).
Proof.
  revert b. induction k as [|k IH]; intros b.
  { cbn. split; [by intros ?%elem_of_nil|lia]. }
  rewrite rb_advance_S. cbn [snd]. rewrite elem_of_app, IH. unfold rb_pop. cbn [rb_head rb_store fst snd].
  split.
  - intros [Hin|(Hr & tm & Hx)].
    + destruct (rb_store b !! rb_head b) as [[d' tm]|] eqn:E; [|by apply elem_of_nil in Hin].
      apply list_elem_of_singleton in Hin as [= -> ->]. split; [lia|eauto].
    + apply lookup_delete_Some in Hx as [_ Hx]. split; [lia|eauto].
  - intros (Hr & tm & Hx). destruct (decide (n = rb_head b)) as [->|Hne].
    + left. rewrite Hx. by apply list_elem_of_singleton.
    + right. split; [lia|]. exists tm. by rewrite lookup_delete_ne.
Qed.

Lemma init_mrel size ssn q : good_size size -> is_uint 12 ssn ->
  mrel size (init_reorder_buffer size ssn q) (mk_rbuf ssn ∅).
Proof.
  intros Hs Hu. pose proof (size_pos size Hs). split; cbn.
  - unfold zlen. rewrite length_replicate. lia.
  - unfold is_uint in Hu. symmetry. apply Z.mod_small. lia.
  - done.
  - intros n Hn. rewrite lookup_replicate_2; [by rewrite lookup_empty|].
    pose proof (Z.mod_pos_bound n size). lia.
  - split; cbn; intros n x Hx; by rewrite lookup_empty in Hx.
Qed.

(** ** Properties *)

Section properties.
Context (size : Z) (Hsize : good_size size).
Context (baid q smask stid : Z) (Hbaid : 0 <= baid < IWL_MAX_BAID) (Hq : 0 <= q).

(** C14: The iwlmld reorder buffer loses nothing, for a window size that divides
    the sequence space and frames that are not A-MSDUs.  A session starts at
    [ssn]; the next [k] frames, [k] at most the window, unicast QoS data frames of
    the TID and station of the session, arrive in any order on one queue, and the
    firmware reports with each, for the session, as NSSN the first number that
    has not arrived.  Then mac80211 gets each frame once, in sequence order, no
    frame is dropped and the buffer ends empty with its head after the last
    one. *)
Theorem mld_reorder_lossless mld bufs mask ssn k ns descs g :
  nz (mask .& smask) = true -> is_uint 12 ssn -> 0 <= k <= size -> ns ≡ₚ seqZ ssn k ->
  fw_id_to_ba mld !! Z.to_nat baid = Some (Some (mk_baid smask stid size bufs)) ->
  bufs !! Z.to_nat q = Some (init_reorder_buffer size ssn q) ->
  (forall n, ssn <= n < ssn + k -> session_frame stid (g n) /\ ieee80211_get_sn (g n) = Some (n mod 4096)) ->
  fw_run baid ssn [] ns descs ->
  exists mld', mld_run q mask mld (zip (map g ns) descs) = Some (mld', map g (seqZ ssn k)) /\
    mld_session size baid q smask stid mld' (mk_rbuf (ssn + k) ∅).
Proof.
  intros Hm Hu Hk Hp Hd Hb Hg Hfw.
  assert (mld_session size baid q smask stid mld (mk_rbuf ssn ∅)) as Hs.
  { eexists _, _. do 4 (split; [done|]). split; [exact Hb|by apply init_mrel]. }
  destruct (mld_run_filed size Hsize baid q smask stid mask Hbaid Hm ssn k g Hk Hg ns descs [] _ [] mld Hs)
    as (mld' & b' & seen & out & E & Hs' & Hfl & Hps).
  - split; cbn [rb_head rb_store]; try done; [intros n Hn; lia|by rewrite Z.sub_diag].
  - rewrite app_nil_r, Hp. apply NoDup_seqZ.
  - intros i. rewrite app_nil_r, Hp, elem_of_seqZ. done.
  - done.
  - cbn [app] in Hfl. rewrite app_nil_r, Hp in Hps. exists mld'. rewrite E.
    rewrite (filed_all size ssn k g (fun _ => 0) Hk seen b' out Hfl Hps), map_map. split; [done|].
    pose proof (filed_end size ssn k g (fun _ => 0) Hk seen b' out Hfl Hps) as Eh.
    pose proof (filed_empty size ssn k g (fun _ => 0) Hk seen b' out Hfl Hps) as Ee.
    destruct b'. cbn in *. by subst.
Qed.

(** The firmware's frame release and the removal of a session hand over
    exactly what is due.  A frame release notification for a number [n] ahead
    of the head hands over the stored frames below it, in sequence order, and
    keeps the others; removing the session hands over all of them and leaves
    the buffer empty. *)
Theorem mld_release_exact mld b pkt n :
  mld_session size baid q smask stid mld b -> smask <> 0 ->
  link_sta_valid mld (first_sta smask) = true -> 0 <= n < 2048 ->
  4 <= zlen pkt -> rd8 pkt 0 = Some baid -> rd_le16 pkt 2 = Some ((rb_head b + n) mod 4096) ->
  (exists mld' log b', iwl_mld_handle_frame_release_notif mld pkt q = Some (mld', map snd log) /\
     log_ok (rb_head b) (rb_head b + n) log /\
     (forall i d, (i, d) ∈ log <-> i < rb_head b + n /\ exists tm, rb_store b !! i = Some (d, tm)) /\
     mld_session size baid q smask stid mld' b' /\ rb_head b' = rb_head b + n /\
     (forall i, rb_store b' !! i = if i <? rb_head b + n then None else rb_store b !! i)) /\
  (exists mld' log, iwl_mld_del_ba mld q baid = Some (mld', map snd log) /\
     log_ok (rb_head b) (rb_head b + size) log /\
     (forall i d, (i, d) ∈ log <-> exists tm, rb_store b !! i = Some (d, tm)) /\
     mld_session size baid q smask stid mld' (mk_rbuf (rb_head b + size) ∅)).
Proof.
  intros Hs Hm Hl Hn Hz Hb Hr. assert (rb_wf size b) as Hw by (destruct Hs as (? & ? & H); apply H).
  pose proof (rw_keys _ _ Hw) as Hkeys. assert (1 < size <= 1024) as Hsz by apply Hsize.
  unfold IWL_MAX_BAID in Hbaid. split.
  - destruct (release_session_spec size Hsize baid q smask stid mld b n
      (fun _ => (rb_head b + n) mod 4096) Hs Hm Hl Hn (fun _ _ => eq_refl)) as (d & mld' & Hd & _ & E & Hs').
    exists mld', (rb_advance (Z.to_nat n) b).2, (rb_advance (Z.to_nat n) b).1.
    unfold iwl_mld_handle_frame_release_notif, iwl_mld_release_frames_from_notif,
      IWL_RX_REORDER_DATA_INVALID_BAID, IWL_MAX_BAID.
    zcase; [lia|]. rewrite Hb, bind_some, Hr, bind_some. do 2 (zcase; [lia|]). cbn [orb].
    rewrite Hd, bind_some. split; [exact E|]. split; [|split; [|split; [done|split]]].
    + pose proof (rb_advance_log size (Z.to_nat n) b Hw) as Hlog. by rewrite Z2Nat.id in Hlog by lia.
    + intros i x. rewrite rb_advance_elem, Z2Nat.id by lia. split; intros (Hi & tm & Hx).
      * split; [lia|eauto].
      * specialize (Hkeys _ _ Hx). split; [lia|eauto].
    + rewrite rb_advance_head. lia.
    + intros i. rewrite rb_advance_store, Z2Nat.id by lia. destruct (Z.leb_spec (rb_head b) i); [done|]. cbn [andb].
      destruct (i <? _); [|done]. destruct (rb_store b !! i) as [x|] eqn:Ex; [|done]. specialize (Hkeys _ _ Ex). lia.
  - destruct (release_session_spec size Hsize baid q smask stid mld b size
      (fun m => ieee80211_sn_add (head_sn m) size) Hs Hm Hl) as (d & mld' & Hd & Hbs & E & Hs'); [lia| |].
    { intros m Hmr. rewrite (mr_head _ _ _ Hmr), sn_add_mod. apply Zplus_mod_idemp_l. }
    exists mld', (rb_advance (Z.to_nat size) b).2. unfold iwl_mld_del_ba, IWL_MAX_BAID.
    rewrite (wrap_small 8) by (unfold is_uint; lia). zcase; [lia|].
    rewrite Hd, bind_some, Hbs. split; [exact E|]. split; [|split].
    + pose proof (rb_advance_log size (Z.to_nat size) b Hw) as Hlog. by rewrite Z2Nat.id in Hlog by lia.
    + intros i x. rewrite rb_advance_elem, Z2Nat.id by lia. split; [by intros [_ ?]|].
      intros (tm & Hx). split; [|eauto]. by specialize (Hkeys _ _ Hx).
    + replace (mk_rbuf (rb_head b + size) ∅) with (rb_advance (Z.to_nat size) b).1; [done|].
      destruct (rb_advance (Z.to_nat size) b).1 as [h' s'] eqn:E1.
      pose proof (rb_advance_head (Z.to_nat size) b) as Eh. rewrite E1 in Eh. cbn in Eh. f_equal; [lia|].
      apply map_eq. intros i. pose proof (rb_advance_store (Z.to_nat size) b i) as Ei. rewrite E1 in Ei.
      cbn [fst rb_store] in Ei. rewrite Ei, Z2Nat.id, lookup_empty by lia.
      destruct (rb_store b !! i) as [x|] eqn:Ex; [|by destruct ((rb_head b <=? i) && (i <? rb_head b + size))]. specialize (Hkeys _ _ Ex).
      destruct (Z.leb_spec (rb_head b) i), (Z.ltb_spec i (rb_head b + size)); (done || lia).
Qed.
End properties.

(** ** Concrete sessions *)

Definition sample_frame (n : Z) : list Z := mdata (sample_mpdu (n mod 4096) false).

(** Session 3, TID 0, one station and one queue. *)
Definition sample_mld (m : iwl_mld_reorder_buffer) : iwl_mld :=
  mk_mld (<[3%nat := Some (mk_baid 1 0 64 [m])]> (replicate 32 None)) (fun sta => sta =? 0) 16.

Definition sample_desc (sn nssn : Z) : iwl_rx_mpdu_desc :=
  mk_desc ((3 << 24) .| (sn << 12) .| nssn) 0 0 0.

Lemma sample_frame_ok n : session_frame 0 (sample_frame n) /\
  ieee80211_get_sn (sample_frame n) = Some (n mod 4096).
Proof.
  split; [|apply sample_whole, Z.mod_pos_bound; lia].
  split; [done|]. split; [exists 0x188|exists 2]; done.
Qed.

Lemma mld_reorder_lossless_witness :
  exists mld', mld_run 0 1 (sample_mld (init_reorder_buffer 64 4094 0))
      (zip (map sample_frame [4096; 4094; 4095]) [sample_desc 0 4094; sample_desc 4094 4095; sample_desc 4095 1]) =
    Some (mld', map sample_frame (seqZ 4094 3)) /\
    mld_session 64 3 0 1 0 mld' (mk_rbuf (4094 + 3) ∅).
Proof.
  apply (mld_reorder_lossless 64 good_size_64 3 0 1 0 ltac:(done) (sample_mld (init_reorder_buffer 64 4094 0))
    [init_reorder_buffer 64 4094 0] 1 4094 3); try done.
  - change (seqZ 4094 3) with ([4094; 4095] ++ [4096]). by rewrite Permutation_app_comm.
  - intros n _. apply sample_frame_ok.
  - cbn [fw_run]. split; [done|]. split; [exists 4094|split; [done|split; [exists 4095|split; [done|split; [exists 4097|done]]]]];
      (split; [lia|]; split; [rewrite !elem_of_cons, elem_of_nil; lia|];
       split; [intros i Hi; rewrite !elem_of_cons, elem_of_nil; lia|split; done]).
Defined.

(** Number 11 stored in front of the missing 10. *)
Definition stored_buffer : iwl_mld_reorder_buffer :=
  set_entries (init_reorder_buffer 64 10 0) 1 (<[11%nat := [sample_frame 11]]> (replicate 64 [])).

Lemma stored_session :
  mld_session 64 3 0 1 0 (sample_mld stored_buffer) (mk_rbuf 10 {[11 := (sample_frame 11, 0)]}).
Proof.
  exists (mk_baid 1 0 64 [stored_buffer]), stored_buffer. do 5 (split; [done|]).
  apply (store_spec 64 good_size_64 _ (mk_rbuf 10 ∅) 11 (sample_frame 11) 0
    (init_mrel 64 10 0 good_size_64 ltac:(done))); [cbn; lia|done|apply sample_frame_ok].
Qed.

Lemma mld_release_exact_witness :
  (exists mld' log b', iwl_mld_handle_frame_release_notif (sample_mld stored_buffer) [3; 0; 12; 0] 0 =
       Some (mld', map snd log) /\ log_ok 10 12 log /\
     (forall i d, (i, d) ∈ log <-> i < 12 /\
        exists tm, ({[11 := (sample_frame 11, 0)]} : gmap Z (list Z * Z)) !! i = Some (d, tm)) /\
     mld_session 64 3 0 1 0 mld' b' /\ rb_head b' = 12 /\
     (forall i, rb_store b' !! i = if i <? 12 then None else
        ({[11 := (sample_frame 11, 0)]} : gmap Z (list Z * Z)) !! i)) /\
  (exists mld' log, iwl_mld_del_ba (sample_mld stored_buffer) 0 3 = Some (mld', map snd log) /\
     log_ok 10 74 log /\
     (forall i d, (i, d) ∈ log <->
        exists tm, ({[11 := (sample_frame 11, 0)]} : gmap Z (list Z * Z)) !! i = Some (d, tm)) /\
     mld_session 64 3 0 1 0 mld' (mk_rbuf 74 ∅)).
Proof.
  apply (mld_release_exact 64 good_size_64 3 0 1 0 ltac:(done) _ _ [3; 0; 12; 0] 2 stored_session); done.
Defined.

(** Outside the window the driver relies on the firmware to have released
    first: frame 75 of a window of 64 lands in the slot of the stored 11 and
    is handed over with it, in front of 12. *)
Lemma mld_window_jump :
  (fun r => map (fun d => ieee80211_get_sn d) r.2) <$>
    mld_run 0 1 (sample_mld (init_reorder_buffer 64 10 0))
      [(sample_frame 11, sample_desc 11 10); (sample_frame 12, sample_desc 12 10);
       (sample_frame 75, sample_desc 75 13)] =
  Some [Some 11; Some 75; Some 12].
Proof. by vm_compute. Qed.
