(* ===== verification/Fragment.v ===== *)
(** * Fragment: sequence numbers, fragmentation, duplicates, reassembly

    The transmit handlers [ieee80211_tx_h_sequence] and
    [ieee80211_tx_h_fragment] of [net/mac80211/tx.c] and the receive handlers
    [ieee80211_rx_h_check_dup] and [ieee80211_rx_h_defragment] of
    [net/mac80211/rx.c] with the fragment cache. *)
From S2P Require Import Prelude Frame Skb Key.

Definition FCS_LEN : Z := 4.
Definition IEEE80211_ENCRYPT_TAILROOM : Z := 18.
Definition IEEE80211_TX_CTL_ASSIGN_SEQ : Z := BIT 1.
Definition IEEE80211_TX_CTL_CLEAR_PS_FILT : Z := BIT 3.
Definition IEEE80211_TX_CTL_FIRST_FRAGMENT : Z := BIT 4.
Definition IEEE80211_TX_CTL_AMPDU : Z := BIT 6.
Definition IEEE80211_TX_CTL_RATE_CTRL_PROBE : Z := BIT 12.
Definition IEEE80211_TX_CTL_MORE_FRAMES : Z := BIT 18.
Definition IEEE80211_TX_CTRL_NO_SEQNO : Z := BIT 7.
Definition IEEE80211_TX_CTRL_MCAST_MLO_FIRST_TX : Z := BIT 9.
Definition RX_FLAG_DUP_VALIDATED : Z := BIT 11.
Definition IEEE80211_FRAGMENT_MAX : Z := 4.
Definition U16_MAX : Z := 0xffff.

(** ** Transmit *)

(** A frame on the transmit path: bytes, [info->flags] and the indices of
    [info->control.rates]. *)
Record tx_frag := mk_frag { fbuf : list Z; fflags : Z; frates : list Z }.

(** The counters: [sdata->sequence_number], [sdata->mld_mcast_seq], and the
    station's [tid_seq] and [tx_stats.msdu]. *)
Record seq_state := mk_seq {
  sequence_number : Z;
  mld_mcast_seq : Z;
  tid_seq : list Z;
  msdu : list Z;
}.

Definition count_msdu (s : seq_state) (i : Z) : seq_state :=
  mk_seq (sequence_number s) (mld_mcast_seq s) (tid_seq s) (alter (fun x => u64 (x + 1)) (Z.to_nat i) (msdu s)).

Definition ieee80211_tx_next_seq (s : seq_state) (tid : Z) : option (Z * seq_state) :=
  seq ← tid_seq s !! Z.to_nat tid;
  Some (seq, mk_seq (sequence_number s) (mld_mcast_seq s)
               (<[Z.to_nat tid := u16 (seq + 0x10) .& IEEE80211_SCTL_SEQ]> (tid_seq s)) (msdu s)).

(** The interface: a monitor, an MLD, an AP. *)
Record tx_vif := mk_vif { vif_monitor : bool; vif_is_mld : bool; vif_ap : bool }.

(** [ctrl] is [info->control.flags]; [has_sta]: [tx->sta] is not NULL. *)
Definition ieee80211_tx_h_sequence (vif : tx_vif) (has_sta : bool) (ctrl : Z) (s : seq_state) (f : tx_frag)
  : option (seq_state * tx_frag) :=
  fc ← hdr_frame_control (fbuf f);
  if vif_monitor vif then Some (s, f)
  else if ieee80211_is_ctl fc then Some (s, f)
  else if ieee80211_hdrlen fc <? 24 then Some (s, f)
  else if ieee80211_is_qos_nullfunc fc then Some (s, f)
  else if flag_set ctrl IEEE80211_TX_CTRL_NO_SEQNO then Some (s, f)
  else
    a1 ← rd8 (fbuf f) ADDR1;
    if is_multicast_ether_addr a1 && vif_is_mld vif && vif_ap vif then
      let s := if flag_set ctrl IEEE80211_TX_CTRL_MCAST_MLO_FIRST_TX then
                 mk_seq (sequence_number s) (u16 (mld_mcast_seq s + 0x10)) (tid_seq s) (msdu s)
               else s in
      d ← store (fbuf f) 22 (le16_bytes (mld_mcast_seq s));
      Some (s, mk_frag d (fflags f) (frates f))
    else if negb (ieee80211_is_data_qos fc) || is_multicast_ether_addr a1 then
      d ← store (fbuf f) 22 (le16_bytes (sequence_number s));
      let s := mk_seq (u16 (sequence_number s + 0x10)) (mld_mcast_seq s) (tid_seq s) (msdu s) in
      Some (if has_sta then count_msdu s IEEE80211_NUM_TIDS else s,
            mk_frag d (fflags f .| IEEE80211_TX_CTL_ASSIGN_SEQ) (frates f))
    else if negb has_sta then Some (s, f)
    else
      tid ← ieee80211_get_tid (fbuf f);
      '(seq, s) ← ieee80211_tx_next_seq (count_msdu s tid) tid;
      d ← store (fbuf f) 22 (le16_bytes seq);
      Some (s, mk_frag d (fflags f) (frates f)).

Section tx.
(** [alloc i]: the [i]-th [dev_alloc_skb] of a call succeeds. *)
Context (alloc : nat -> bool).

(** [while (rem)]: append the fragments after the first one; [i] counts them.
    [None]: a read or write outside a buffer, or the loop runs on. *)
Fixpoint fragment_loop (fuel : nat) (i : nat) (skb : tx_frag) (hdrlen frag_threshold per_fragm pos rem : Z)
    (skbs : list tx_frag) : option (Z * list tx_frag) :=
  if rem =? 0 then Some (0, skbs)
  else match fuel with
  | O => None
  | S fuel =>
      let fraglen := if rem <? per_fragm then rem else per_fragm in
      let rem := rem - fraglen in
      if negb (alloc i) then Some (- ENOMEM, skbs)
      else
        let fl := fflags skb .& Z.lnot (IEEE80211_TX_CTL_CLEAR_PS_FILT .| IEEE80211_TX_CTL_FIRST_FRAGMENT) in
        let fl := if nz rem then fl .| IEEE80211_TX_CTL_MORE_FRAMES else fl in
        h ← slice (fbuf skb) 0 hdrlen;
        d ← slice (fbuf skb) pos fraglen;
        if frag_threshold + IEEE80211_ENCRYPT_TAILROOM <? hdrlen + fraglen then None
        else fragment_loop fuel (S i) skb hdrlen frag_threshold per_fragm (pos + fraglen) rem
               (skbs ++ [mk_frag (h ++ d) fl (frates skb)])
  end.

(** The C result and [tx->skbs], whose first element is [skb]. *)
Definition ieee80211_fragment (skb : tx_frag) (hdrlen frag_threshold : Z) : option (Z * list tx_frag) :=
  let per_fragm := frag_threshold - hdrlen - FCS_LEN in
  let pos := hdrlen + per_fragm in
  let rem := zlen (fbuf skb) - hdrlen - per_fragm in
  if rem <? 0 then Some (- EINVAL, [skb])
  else
    '(ret, rest) ← fragment_loop (Z.to_nat rem) 0 skb hdrlen frag_threshold per_fragm pos rem [];
    Some (ret, (if ret =? 0
                then mk_frag (take (Z.to_nat (hdrlen + per_fragm)) (fbuf skb)) (fflags skb) (frates skb)
                else skb) :: rest).

Definition update_frag (fragnum : Z) (is_last : bool) (f : tx_frag) : option tx_frag :=
  fc ← hdr_frame_control (fbuf f);
  d ← store (fbuf f) 0 (le16_bytes (if is_last then fc .& Z.lnot IEEE80211_FCTL_MOREFRAGS
                                    else fc .| IEEE80211_FCTL_MOREFRAGS));
  sc ← hdr_seq_ctrl d;
  d ← store d 22 (le16_bytes (sc .| (fragnum .& IEEE80211_SCTL_FRAG)));
  Some (if is_last then mk_frag d (fflags f) (frates f)
        else mk_frag d (fflags f .& Z.lnot IEEE80211_TX_CTL_RATE_CTRL_PROBE)
               (match frates f with r0 :: _ => [r0; -1; -1; -1] | [] => [] end)).

(** [skb_queue_walk]: duration, sequence control and flags of the fragments. *)
Fixpoint update_walk (fragnum : Z) (skbs : list tx_frag) : option (list tx_frag) :=
  match skbs with
  | [] => Some []
  | f :: rest =>
      f ← update_frag fragnum (bool_decide (rest = [])) f;
      rest ← update_walk (fragnum + 1) rest;
      Some (f :: rest)
  end.

Definition ieee80211_tx_h_fragment (supports_tx_frag : bool) (frag_threshold : Z) (skb : tx_frag)
  : option (tx_result * list tx_frag) :=
  fc ← hdr_frame_control (fbuf skb);
  if flag_set (fflags skb) IEEE80211_TX_CTL_DONTFRAG then Some (TX_CONTINUE, [skb])
  else if supports_tx_frag then Some (TX_CONTINUE, [skb])
  else if flag_set (fflags skb) IEEE80211_TX_CTL_AMPDU then Some (TX_DROP, [skb])
  else if zlen (fbuf skb) + FCS_LEN <=? frag_threshold then Some (TX_DROP, [skb])
  else
    '(ret, skbs) ← ieee80211_fragment skb (ieee80211_hdrlen fc) frag_threshold;
    if nz ret then Some (TX_DROP, skbs)
    else skbs ← update_walk 0 skbs; Some (TX_CONTINUE, skbs).
End tx.

(** ** Duplicate detection *)

(** [sta->last_seq_ctrl], the duplicate count, and [mcast_seq_last] of a
    station interface. *)
Record dup_state := mk_dup {
  last_seq_ctrl : list Z;
  num_duplicates : Z;
  mcast_seq_last : Z;
}.

Definition set_last_seq (s : dup_state) (i sc : Z) : dup_state :=
  mk_dup (<[Z.to_nat i := sc]> (last_seq_ctrl s)) (num_duplicates s) (mcast_seq_last s).

(** [mld_sta]: the interface is an MLD in station mode. *)
Definition ieee80211_rx_h_check_dup (has_sta mld_sta : bool) (seqno_idx flag : Z) (skb : list Z) (s : dup_state)
  : option (rx_result * dup_state) :=
  if flag_set flag RX_FLAG_DUP_VALIDATED then Some (RX_CONTINUE, s)
  else
    fc ← hdr_frame_control skb;
    if ieee80211_is_ext fc then Some (RX_CONTINUE, s)
    else if zlen skb <? 24 then Some (RX_CONTINUE, s)
    else if ieee80211_is_ctl fc || ieee80211_is_any_nullfunc fc then Some (RX_CONTINUE, s)
    else if negb has_sta then Some (RX_CONTINUE, s)
    else
      a1 ← rd8 skb ADDR1;
      if is_multicast_ether_addr a1 then
        sn ← ieee80211_get_sn skb;
        if negb (ieee80211_is_data_present fc) then Some (RX_CONTINUE, s)
        else if negb mld_sta then Some (RX_CONTINUE, s)
        else if negb (mcast_seq_last s =? IEEE80211_SN_MODULO) && ieee80211_sn_less_eq sn (mcast_seq_last s)
        then Some (RX_DROP_U_DUP, s)
        else Some (RX_CONTINUE, mk_dup (last_seq_ctrl s) (num_duplicates s) sn)
      else
        sc ← hdr_seq_ctrl skb;
        last ← last_seq_ctrl s !! Z.to_nat seqno_idx;
        if ieee80211_has_retry fc && (last =? sc) then
          Some (RX_DROP_U_DUP, mk_dup (last_seq_ctrl s) (u64 (num_duplicates s + 1)) (mcast_seq_last s))
        else if negb (flag_set flag RX_FLAG_AMSDU_MORE) then
          Some (RX_CONTINUE, set_last_seq s seqno_idx sc)
        else Some (RX_CONTINUE, s).

(** ** Reassembly *)

Record ieee80211_fragment_entry := mk_fentry {
  skb_list : list sk_buff;
  first_frag_time : Z;
  seq : Z;
  extra_len : Z;
  last_frag : Z;
  rx_queue : Z;
  check_sequential_pn : bool;
  is_protected : bool;
  last_pn : list Z;
  key_color : Z;
}.

Record ieee80211_fragment_cache := mk_fcache {
  entries : list ieee80211_fragment_entry;
  next : Z;
}.

Definition set_fentry (c : ieee80211_fragment_cache) (i : Z) (e : ieee80211_fragment_entry)
  : ieee80211_fragment_cache := mk_fcache (<[Z.to_nat i := e]> (entries c)) (next c).

(** [__skb_queue_purge(&entry->skb_list)]. *)
Definition purge_entry (e : ieee80211_fragment_entry) : ieee80211_fragment_entry :=
  mk_fentry [] (first_frag_time e) (seq e) (extra_len e) (last_frag e) (rx_queue e) (check_sequential_pn e)
    (is_protected e) (last_pn e) (key_color e).

(** Protection of the entry's first fragment. *)
Definition set_protection (e : ieee80211_fragment_entry) (sequential : bool) (pn : list Z) (color : Z) :=
  mk_fentry (skb_list e) (first_frag_time e) (seq e) (extra_len e) (last_frag e) (rx_queue e) sequential true
    pn color.
Definition set_last_pn (e : ieee80211_fragment_entry) (pn : list Z) : ieee80211_fragment_entry :=
  mk_fentry (skb_list e) (first_frag_time e) (seq e) (extra_len e) (last_frag e) (rx_queue e)
    (check_sequential_pn e) (is_protected e) pn (key_color e).
(** Queueing a further fragment. *)
Definition add_fragment (e : ieee80211_fragment_entry) (frag : Z) (skb : sk_buff) : ieee80211_fragment_entry :=
  mk_fentry (skb_list e ++ [skb]) (first_frag_time e) (seq e) (u16 (extra_len e + skb_len skb)) frag
    (rx_queue e) (check_sequential_pn e) (is_protected e) (last_pn e) (key_color e).

(** The key a frame was received with: its cipher, color and [rx_pn] of the
    frame's queue. *)
Record rx_key := mk_rx_key { rk_cipher : Z; rk_color : Z; rk_rx_pn : list Z }.

(** What the handler reads of [rx] and the frame's status: the key, the queues'
    index for sequence numbers, the frame's CCMP/GCMP packet number, the status
    flags, and whether [skb_linearize] succeeds. *)
Record rx_meta := mk_meta {
  rx_key_of : option rx_key;
  rx_seqno_idx : Z;
  rx_pn : list Z;
  rx_flag : Z;
  linearize_ok : bool;
}.

Definition requires_sequential_pn (k : option rx_key) (fc : Z) : bool :=
  match k with
  | None => false
  | Some k =>
      ((rk_cipher k =? WLAN_CIPHER_SUITE_CCMP) || (rk_cipher k =? WLAN_CIPHER_SUITE_CCMP_256) ||
       (rk_cipher k =? WLAN_CIPHER_SUITE_GCMP) || (rk_cipher k =? WLAN_CIPHER_SUITE_GCMP_256)) &&
      ieee80211_has_protected fc
  end.

(** The loop that increments a packet number, from octet [i] down. *)
Fixpoint pn_inc (i : nat) (pn : list Z) : list Z :=
  let pn' := alter (fun b => u8 (b + 1)) i pn in
  if nz (default 0 (pn' !! i)) then pn'
  else match i with O => pn' | S i => pn_inc i pn' end.

(** The slot written and the cache. *)
Definition ieee80211_reassemble_add (jiffies : Z) (c : ieee80211_fragment_cache) (frag seq rx_queue : Z)
    (skb : sk_buff) : option (Z * ieee80211_fragment_entry * ieee80211_fragment_cache) :=
  let idx := next c in
  e ← entries c !! Z.to_nat idx;
  let next := u32 (idx + 1) in
  let next := if IEEE80211_FRAGMENT_MAX <=? next then 0 else next in
  let e := mk_fentry [skb] jiffies seq 0 frag rx_queue false false (last_pn e) (key_color e) in
  Some (idx, e, mk_fcache (<[Z.to_nat idx := e]> (entries c)) next).

Definition init_fentry : ieee80211_fragment_entry := mk_fentry [] 0 0 0 0 0 false false (replicate 6 0) 0.
Definition ieee80211_init_frag_cache : ieee80211_fragment_cache :=
  mk_fcache (replicate (Z.to_nat IEEE80211_FRAGMENT_MAX) init_fentry) 0.
Definition ieee80211_destroy_frag_cache (c : ieee80211_fragment_cache) : ieee80211_fragment_cache :=
  mk_fcache (map purge_entry (entries c)) (next c).

Section rx.
Context (HZ : Z) `{SkbAlloc}.

(** The frame [hdr] has the type and addresses of the entry's first fragment. *)
Definition same_header (hdr f_hdr : list Z) : option bool :=
  fc ← hdr_frame_control hdr;
  f_fc ← hdr_frame_control f_hdr;
  if nz ((fc .^ f_fc) .& IEEE80211_FCTL_FTYPE) then Some false
  else
    a1 ← slice hdr ADDR1 6; f_a1 ← slice f_hdr ADDR1 6;
    if negb (bool_decide (a1 = f_a1)) then Some false
    else
      a2 ← slice hdr ADDR2 6; f_a2 ← slice f_hdr ADDR2 6;
      Some (bool_decide (a2 = f_a2)).

(** The loop with [n] rounds left; the found slot and the cache after the
    purges. *)
Fixpoint find_loop (n : nat) (jiffies idx : Z) (c : ieee80211_fragment_cache) (frag sn queue : Z) (hdr : list Z)
  : option (option Z * ieee80211_fragment_cache) :=
  match n with
  | O => Some (None, c)
  | S n =>
      let idx := idx - 1 in
      let idx := if idx <? 0 then IEEE80211_FRAGMENT_MAX - 1 else idx in
      e ← entries c !! Z.to_nat idx;
      match skb_list e with
      | [] => find_loop n jiffies idx c frag sn queue hdr
      | f_skb :: _ =>
          if negb (seq e =? sn) || negb (rx_queue e =? queue) || negb (last_frag e + 1 =? frag) then
            find_loop n jiffies idx c frag sn queue hdr
          else
            same ← same_header hdr (data f_skb);
            if negb same then find_loop n jiffies idx c frag sn queue hdr
            else if time_after jiffies (u64 (first_frag_time e + 2 * HZ)) then
              find_loop n jiffies idx (set_fentry c idx (purge_entry e)) frag sn queue hdr
            else Some (Some idx, c)
      end
  end.

Definition ieee80211_reassemble_find (jiffies : Z) (c : ieee80211_fragment_cache) (frag sn queue : Z)
    (hdr : list Z) : option (option Z * ieee80211_fragment_cache) :=
  find_loop (Z.to_nat IEEE80211_FRAGMENT_MAX) jiffies (next c) c frag sn queue hdr.

(** The security checks on a further fragment: the drop reason or the entry
    with its new [last_pn]. *)
Definition check_fragment (m : rx_meta) (fc : Z) (e : ieee80211_fragment_entry)
  : rx_result + ieee80211_fragment_entry :=
  if check_sequential_pn e then
    if negb (requires_sequential_pn (rx_key_of m) fc) then inl RX_DROP_U_NONSEQ_PN
    else if negb (bool_decide (rk_color <$> rx_key_of m = Some (key_color e))) then inl RX_DROP_U_BAD_KEY_COLOR
    else
      let pn := pn_inc 5 (last_pn e) in
      if negb (bool_decide (pn = rx_pn m)) then inl RX_DROP_U_REPLAY
      else inr (set_last_pn e pn)
  else if is_protected e &&
          match rx_key_of m with
          | None => true
          | Some k => (negb (ieee80211_has_protected fc) && negb (flag_set (rx_flag m) RX_FLAG_DECRYPTED)) ||
                      negb (rk_color k =? key_color e)
          end then inl RX_DROP_U_EXPECT_DEFRAG_PROT
  else if is_protected e &&
          match rx_key_of m with
          | None => false
          | Some k => negb (key_color e =? rk_color k) && flag_set (rx_flag m) RX_FLAG_DECRYPTED
          end then inl RX_DROP_U_BAD_KEY_COLOR
  else inr e.

Fixpoint put_all (s : sk_buff) (l : list sk_buff) : option sk_buff :=
  match l with
  | [] => Some s
  | f :: l => s ← skb_put_data s (data f); put_all s l
  end.

(** Joining the fragments of slot [idx] after the last one arrived. *)
Definition join_fragments (c : ieee80211_fragment_cache) (idx : Z) (e : ieee80211_fragment_entry)
  : option (rx_result * option sk_buff * ieee80211_fragment_cache) :=
  match skb_list e with
  | [] => None
  | first :: rest =>
      let c := set_fentry c idx (purge_entry e) in
      let expanded := if skb_tailroom first <? extra_len e then pskb_expand_head first (extra_len e)
                      else Some first in
      match expanded with
      | None => Some (RX_DROP_U_OOM, Some first, c)
      | Some skb => skb ← put_all skb rest; Some (RX_CONTINUE, Some skb, c)
      end
  end.

(** The C result, [rx->skb] ([None] for NULL) and the cache.  Receive counters
    and the LED are not modelled. *)
Definition ieee80211_rx_h_defragment (jiffies : Z) (m : rx_meta) (c : ieee80211_fragment_cache) (skb : sk_buff)
  : option (rx_result * option sk_buff * ieee80211_fragment_cache) :=
  let hdr := data skb in
  fc ← hdr_frame_control hdr;
  if ieee80211_is_ctl fc || ieee80211_is_ext fc then Some (RX_CONTINUE, Some skb, c)
  else
    sc ← hdr_seq_ctrl hdr;
    let frag := sc .& IEEE80211_SCTL_FRAG in
    if negb (ieee80211_has_morefrags fc) && (frag =? 0) then Some (RX_CONTINUE, Some skb, c)
    else
      a1 ← rd8 hdr ADDR1;
      if is_multicast_ether_addr a1 then Some (RX_DROP_U_MCAST_FRAGMENT, Some skb, c)
      else if negb (linearize_ok m) then Some (RX_DROP_U_OOM, Some skb, c)
      else
        let sn := (sc .& IEEE80211_SCTL_SEQ) >> 4 in
        if frag =? 0 then
          '(idx, e, c) ← ieee80211_reassemble_add jiffies c frag sn (rx_seqno_idx m) skb;
          let e := match rx_key_of m with
                   | Some k =>
                       if requires_sequential_pn (Some k) fc then
                         set_protection e true (rk_rx_pn k) (rk_color k)
                       else if ieee80211_has_protected fc || flag_set (rx_flag m) RX_FLAG_DECRYPTED then
                         set_protection e false (last_pn e) (rk_color k)
                       else e
                   | None => e
                   end in
          Some (RX_QUEUED, None, set_fentry c idx e)
        else
          '(found, c) ← ieee80211_reassemble_find jiffies c frag sn (rx_seqno_idx m) hdr;
          match found with
          | None => Some (RX_DROP_U_DEFRAG_MISMATCH, Some skb, c)
          | Some idx =>
              e ← entries c !! Z.to_nat idx;
              match check_fragment m fc e with
              | inl drop => Some (drop, Some skb, c)
              | inr e =>
                  skb ← skb_pull skb (ieee80211_hdrlen fc);
                  if U16_MAX <? u32 (extra_len e + skb_len skb) then
                    Some (RX_DROP_U_DEFRAG_OVERFLOW, Some skb, set_fentry c idx (purge_entry e))
                  else
                    let e := add_fragment e frag skb in
                    if ieee80211_has_morefrags fc then Some (RX_QUEUED, None, set_fentry c idx e)
                    else join_fragments c idx e
              end
          end.
End rx.
