(* ===== verification/FragmentProofs.v ===== *)
(** * FragmentProofs: what reassembly accepts, and round trips

    Every frame the reassembly handler of [Fragment] delivers is made of the
    consecutive fragments of one transmission, received in order with one key
    and consecutive packet numbers; the transmit and receive handlers are
    inverse; duplicate detection drops exactly the retransmissions. *)
From stdpp Require Import list.
From S2P Require Import Prelude Frame Skb Key Ccmp Fragment.

(** ** Lemmas *)

Lemma hdrlen_long fc :
  ieee80211_is_ctl fc = false -> ieee80211_is_ext fc = false -> 24 <= ieee80211_hdrlen fc.
Proof.
  unfold ieee80211_hdrlen, IEEE80211_QOS_CTL_LEN, IEEE80211_HT_CTL_LEN. intros -> ->.
  repeat match goal with |- context [if ?b then _ else _] => destruct b end; lia.
Qed.

Lemma u8_succ b : is_uint 8 b -> u8 (b + 1) = if b =? 255 then 0 else b + 1.
Proof. intros Hb. unfold is_uint in Hb. zcase; [by subst|]. apply wrap_small. unfold is_uint. lia. Qed.

Lemma be_value6 a b c d e f :
  be_value [a; b; c; d; e; f] =
    a * 1099511627776 + (b * 4294967296 + (c * 16777216 + (d * 65536 + (e * 256 + f)))).
Proof. cbn [be_value]. unfold zlen. cbn [length]. change (256 ^ Z.of_nat 0) with 1. lia. Qed.

(** The increment loop adds one to the 48-bit number. *)
Lemma pn_inc_value pn :
  length pn = 6%nat -> bytes_ok pn ->
  length (pn_inc 5 pn) = 6%nat /\ bytes_ok (pn_inc 5 pn) /\
  be_value (pn_inc 5 pn) = (be_value pn + 1) mod 2 ^ 48.
Proof.
  intros El Hok. destruct pn as [|b0 [|b1 [|b2 [|b3 [|b4 [|b5 [|]]]]]]]; try discriminate El.
  repeat match goal with H : Forall _ (_ :: _) |- _ => inversion_clear H end.
  cbn [pn_inc alter list_alter lookup list_lookup from_option id].
  rewrite !u8_succ by done. unfold is_uint, nz in *. rewrite be_value6.
  assert (forall v r, v = r \/ v = r + 2 ^ 48 -> 0 <= r < 2 ^ 48 -> v mod 2 ^ 48 = r) as Hmod.
  { intros v r [-> | ->] Hr; [by apply Z.mod_small|]. rewrite <- (Z.mul_1_l (2 ^ 48)), Z.mod_add at 1 by lia.
    by apply Z.mod_small. }
  repeat match goal with |- context [?b =? 255] =>
    destruct (Z.eqb_spec b 255); cbn [Z.eqb negb];
    [|destruct (Z.eqb_spec (b + 1) 0); [lia|]; cbn [negb]] end.
  all: split; [done|]; split; [repeat (apply Forall_cons; split; [unfold is_uint; lia|]); apply Forall_nil_2|];
    rewrite be_value6; symmetry; apply Hmod; lia.
Qed.

(** ** What a reassembled frame is made of *)

(** A frame as the handler gets it. *)
Record received := mk_received { rc_time : Z; rc_meta : rx_meta; rc_skb : sk_buff }.

Definition rc_data (r : received) : list Z := data (rc_skb r).
Definition rc_fc (r : received) : Z := default 0 (hdr_frame_control (rc_data r)).
Definition rc_sc (r : received) : Z := default 0 (hdr_seq_ctrl (rc_data r)).
Definition rc_frag (r : received) : Z := rc_sc r .& IEEE80211_SCTL_FRAG.
Definition rc_sn (r : received) : Z := (rc_sc r .& IEEE80211_SCTL_SEQ) >> 4.
Definition rc_body (r : received) : list Z := drop (Z.to_nat (ieee80211_hdrlen (rc_fc r))) (rc_data r).
Definition rc_color (r : received) : option Z := rk_color <$> rx_key_of (rc_meta r).

(** CCMP or GCMP protected; protected by any key. *)
Definition rc_sequential (r : received) : bool := requires_sequential_pn (rx_key_of (rc_meta r)) (rc_fc r).
Definition rc_secured (r : received) : bool :=
  match rx_key_of (rc_meta r) with
  | None => false
  | Some _ => ieee80211_has_protected (rc_fc r) || flag_set (rx_flag (rc_meta r)) RX_FLAG_DECRYPTED
  end.

(** The packet number the key held when the first fragment arrived. *)
Definition first_pn (r : received) : list Z := default [] (rk_rx_pn <$> rx_key_of (rc_meta r)).

(** [r], the fragment number [i] of the transmission that [first] starts, has
    the protection of [first]. *)
Definition same_protection (first : received) (i : Z) (r : received) : Prop :=
  if rc_sequential first then
    rc_sequential r = true /\ rc_color r = rc_color first /\
    be_value (rx_pn (rc_meta r)) = (be_value (first_pn first) + i) mod 2 ^ 48
  else if rc_secured first then rc_secured r = true /\ rc_color r = rc_color first
  else True.

Definition not_too_late (HZ : Z) (first r : received) : Prop :=
  time_after (rc_time r) (u64 (rc_time first + 2 * HZ)) = false.

(** [r] is the fragment number [i] of the transmission that [first] starts. *)
Record continues (HZ : Z) (first : received) (i : Z) (r : received) : Prop := {
  ct_frag : rc_frag r = i;
  ct_sn : rc_sn r = rc_sn first;
  ct_queue : rx_seqno_idx (rc_meta r) = rx_seqno_idx (rc_meta first);
  ct_type : rc_fc r .& IEEE80211_FCTL_FTYPE = rc_fc first .& IEEE80211_FCTL_FTYPE;
  ct_addr1 : slice (rc_data r) ADDR1 6 = slice (rc_data first) ADDR1 6;
  ct_addr2 : slice (rc_data r) ADDR2 6 = slice (rc_data first) ADDR2 6;
  ct_time : not_too_late HZ first r;
  ct_protection : same_protection first i r;
}.

(** The fragments [first :: rest] are the first ones of one transmission. *)
Record chain (HZ : Z) (first : received) (rest : list received) : Prop := {
  ch_first : rc_frag first = 0;
  ch_more : Forall (fun r => ieee80211_has_morefrags (rc_fc r) = true) (removelast (first :: rest));
  ch_rest : forall i r, rest !! i = Some r -> continues HZ first (Z.of_nat i + 1) r;
}.

(** A frame of well-formed length, with packet numbers of six octets. *)
Record frame_ok (r : received) : Prop := {
  fk_fc : exists fc, hdr_frame_control (rc_data r) = Some fc /\ is_uint 16 fc /\
    (ieee80211_is_ctl fc = false -> ieee80211_is_ext fc = false -> ieee80211_hdrlen fc <= zlen (rc_data r));
  fk_len : zlen (rc_data r) < 2 ^ 31;
  fk_pn : length (rx_pn (rc_meta r)) = 6%nat /\ bytes_ok (rx_pn (rc_meta r));
  fk_key_pn : forall k, rx_key_of (rc_meta r) = Some k -> length (rk_rx_pn k) = 6%nat /\ bytes_ok (rk_rx_pn k);
}.

Section invariant.
Context (HZ : Z).

(** An entry of the cache holds the fragments of one transmission, received in
    this order. *)
Record entry_holds (e : ieee80211_fragment_entry) (first : received) (rest : list received) : Prop := {
  eh_chain : chain HZ first rest;
  eh_more : Forall (fun r => ieee80211_has_morefrags (rc_fc r) = true) (first :: rest);
  eh_ok : frame_ok first;
  eh_frame : ieee80211_is_ctl (rc_fc first) = false /\ ieee80211_is_ext (rc_fc first) = false;
  eh_list : exists skbs, skb_list e = rc_skb first :: skbs /\ map data skbs = map rc_body rest;
  eh_time : first_frag_time e = rc_time first;
  eh_seq : seq e = rc_sn first;
  eh_queue : rx_queue e = rx_seqno_idx (rc_meta first);
  eh_last : last_frag e = zlen rest;
  eh_extra : extra_len e = zlen (concat (map rc_body rest)) /\ extra_len e <= U16_MAX;
  eh_sequential : check_sequential_pn e = rc_sequential first;
  eh_protected : is_protected e = rc_secured first;
  eh_color : rc_secured first = true -> Some (key_color e) = rc_color first;
  eh_pn : rc_sequential first = true ->
    length (last_pn e) = 6%nat /\ bytes_ok (last_pn e) /\
    be_value (last_pn e) = (be_value (first_pn first) + zlen rest) mod 2 ^ 48;
}.

Definition entry_inv (hist : list received) (e : ieee80211_fragment_entry) : Prop :=
  skb_list e = [] \/ exists first rest, entry_holds e first rest /\ first :: rest `sublist_of` hist.

Record cache_inv (hist : list received) (c : ieee80211_fragment_cache) : Prop := {
  ci_entries : Forall (entry_inv hist) (entries c);
  ci_length : length (entries c) = 4%nat;
  ci_next : 0 <= next c < 4;
}.

Lemma entry_inv_grow hist r e : entry_inv hist e -> entry_inv (hist ++ [r]) e.
Proof.
  intros [H|(first & rest & H & Hs)]; [by left|]. right. exists first, rest. split; [done|].
  by apply sublist_inserts_r.
Qed.

Lemma cache_inv_grow hist r c : cache_inv hist c -> cache_inv (hist ++ [r]) c.
Proof.
  intros [H1 H2 H3]. split; [|done..]. eapply Forall_impl; [exact H1|]. intros e. apply entry_inv_grow.
Qed.

Lemma cache_inv_grow_with hist r c i e n :
  cache_inv hist c -> 0 <= i < 4 -> 0 <= n < 4 -> entry_inv (hist ++ [r]) e ->
  cache_inv (hist ++ [r]) (mk_fcache (<[Z.to_nat i := e]> (entries c)) n).
Proof.
  intros Hc Hi Hn He. apply (cache_inv_grow hist r) in Hc. destruct Hc as [H1 H2 H3].
  split; cbn [entries next]; [by apply Forall_insert|by rewrite length_insert|done].
Qed.

Lemma cache_inv_set hist c i e : cache_inv hist c -> entry_inv hist e -> cache_inv hist (set_fentry c i e).
Proof.
  intros [H1 H2 H3] He. split; cbn [set_fentry entries next]; [|by rewrite length_insert|done].
  by apply Forall_insert.
Qed.

Lemma cache_entry hist c i : cache_inv hist c -> 0 <= i < 4 ->
  exists e, entries c !! Z.to_nat i = Some e /\ entry_inv hist e.
Proof.
  intros [H1 H2 H3] Hi. destruct (lookup_lt_is_Some_2 (entries c) (Z.to_nat i)) as [e He]; [lia|].
  exists e. split; [done|]. by eapply Forall_lookup_1.
Qed.

Lemma purge_inv hist e : entry_inv hist (purge_entry e).
Proof. by left. Qed.

Lemma init_inv : cache_inv [] ieee80211_init_frag_cache.
Proof. split; [|done..]. apply Forall_replicate. by left. Qed.

Lemma secured_of_sequential r : rc_sequential r = true -> rc_secured r = true.
Proof.
  unfold rc_sequential, rc_secured, requires_sequential_pn. destruct (rx_key_of _) as [k|]; [|done].
  intros [_ ->]%andb_true_iff. done.
Qed.

Lemma frame_fc r : frame_ok r -> hdr_frame_control (rc_data r) = Some (rc_fc r).
Proof. intros [(fc & E & _) _ _ _]. unfold rc_fc. by rewrite E. Qed.

Lemma frame_hdrlen r : frame_ok r -> ieee80211_is_ctl (rc_fc r) = false -> ieee80211_is_ext (rc_fc r) = false ->
  24 <= ieee80211_hdrlen (rc_fc r) <= zlen (rc_data r).
Proof.
  intros H Hc He. pose proof (frame_fc r H) as Hf. destruct H as [(fc & E & _ & Hl) _ _ _].
  rewrite E in Hf. injection Hf as ->. split; [by apply hdrlen_long|by apply Hl].
Qed.

Lemma frame_sc r : 24 <= zlen (rc_data r) -> hdr_seq_ctrl (rc_data r) = Some (rc_sc r).
Proof.
  intros H. unfold rc_sc. destruct (rd_le16_Some (rc_data r) 22) as [v E]; [lia|lia|].
  unfold hdr_seq_ctrl. by rewrite E.
Qed.

Lemma land_lxor_eq a b m : nz ((a .^ b) .& m) = negb (bool_decide (a .& m = b .& m)).
Proof.
  unfold nz. f_equal. apply eq_bool_prop_intro. rewrite bool_decide_spec, Is_true_true, Z.eqb_eq.
  rewrite <- (Z.lxor_eq_0_iff (a .& m)). split; intros <-; zbits.
Qed.

Lemma slice_some d off n : 0 <= off -> 0 <= n -> off + n <= zlen d -> exists x, slice d off n = Some x.
Proof.
  intros. unfold slice, in_range. repeat (zcase; try lia). cbn [andb]. eauto.
Qed.

Lemma same_header_spec r first :
  24 <= zlen (rc_data r) -> 24 <= zlen (rc_data first) -> frame_ok r -> frame_ok first ->
  same_header (rc_data r) (rc_data first) =
    Some (bool_decide (rc_fc r .& IEEE80211_FCTL_FTYPE = rc_fc first .& IEEE80211_FCTL_FTYPE /\
      slice (rc_data r) ADDR1 6 = slice (rc_data first) ADDR1 6 /\
      slice (rc_data r) ADDR2 6 = slice (rc_data first) ADDR2 6)).
Proof.
  intros Hr Hf Okr Okf. unfold same_header. rewrite (frame_fc r), (frame_fc first), !bind_some by done.
  rewrite land_lxor_eq.
  destruct (slice_some (rc_data r) ADDR1 6) as [x1 E1]; [unfold ADDR1; lia..|].
  destruct (slice_some (rc_data first) ADDR1 6) as [y1 F1]; [unfold ADDR1; lia..|].
  destruct (slice_some (rc_data r) ADDR2 6) as [x2 E2]; [unfold ADDR2; lia..|].
  destruct (slice_some (rc_data first) ADDR2 6) as [y2 F2]; [unfold ADDR2; lia..|].
  rewrite E1, F1, E2, F2, !bind_some.
  repeat case_bool_decide; cbn [negb]; try done; f_equal; exfalso; destruct_and?;
    first [congruence|match goal with H : ~ (_ /\ _) |- _ => apply H; split_and!; congruence end].
Qed.

(** The checks on a further fragment accept exactly the same protection. *)
Lemma check_fragment_spec e first rest r :
  entry_holds e first rest -> frame_ok r ->
  match check_fragment (rc_meta r) (rc_fc r) e with
  | inl _ => ~ same_protection first (zlen rest + 1) r
  | inr e' => same_protection first (zlen rest + 1) r /\ exists pn, e' = set_last_pn e pn /\
      (rc_sequential first = true -> length pn = 6%nat /\ bytes_ok pn /\
        be_value pn = (be_value (first_pn first) + (zlen rest + 1)) mod 2 ^ 48)
  end.
Proof.
  intros H Hr. unfold check_fragment, same_protection. 
  rewrite (eh_sequential _ _ _ H), (eh_protected _ _ _ H).
  change (requires_sequential_pn (rx_key_of (rc_meta r)) (rc_fc r)) with (rc_sequential r).
  change (rk_color <$> rx_key_of (rc_meta r)) with (rc_color r).
  destruct (rc_sequential first) eqn:Es.
  - pose proof (secured_of_sequential _ Es) as Hsec. pose proof (eh_color _ _ _ H Hsec) as Hc.
    destruct (eh_pn _ _ _ H Es) as (Hl & Hb & Hv).
    destruct (pn_inc_value (last_pn e) Hl Hb) as (Hl' & Hb' & Hv').
    rewrite Hv, Zplus_mod_idemp_l, <- Z.add_assoc in Hv'.
    destruct (rc_sequential r); cbn [negb]; [|by intros [? _]]. rewrite Hc.
    case_bool_decide as Ec; cbn [negb]; [|by intros (_ & ? & _)].
    destruct (fk_pn _ Hr) as [Hrl Hrb].
    case_bool_decide as Ep; cbn [negb].
    + split; [rewrite <- Ep; by split_and!|]. exists (pn_inc 5 (last_pn e)). done.
    + intros (_ & _ & Ev). apply Ep. rewrite <- Hv' in Ev.
      assert (memcmp (rx_pn (rc_meta r)) (pn_inc 5 (last_pn e)) = Eq) as Em.
      { rewrite memcmp_value by (done || lia). by apply Z.compare_eq_iff. }
      clear -Em Hl' Hrl. revert Em Hl' Hrl. generalize (rx_pn (rc_meta r)) (pn_inc 5 (last_pn e)).
      intros a b. generalize 6%nat. intros n. revert a b. induction n as [|n IH]; intros [|x a] [|y b]; try done.
      cbn [memcmp length]. intros Em E1 E2. destruct (Z.compare_spec x y) as [->| |]; [|done..].
      f_equal. apply IH; [done|lia..].
  - destruct (rc_secured first) eqn:Hsec; cbn [andb].
    + pose proof (eh_color _ _ _ H Hsec) as Hc. rewrite <- Hc. unfold rc_secured, rc_color.
      destruct (rx_key_of (rc_meta r)) as [k|]; [|by intros [? _]]. cbn [fmap option_fmap option_map] in *.
      destruct (Z.eqb_spec (rk_color k) (key_color e)) as [Ek|Ek]; cbn [negb].
      * rewrite orb_false_r. rewrite Ek, Z.eqb_refl. cbn [negb andb].
        destruct (ieee80211_has_protected (rc_fc r)), (flag_set (rx_flag (rc_meta r)) RX_FLAG_DECRYPTED);
          cbn [negb andb orb]; try (by intros [? _]);
          (split; [done|exists (last_pn e); split; [by destruct e|done]]).
      * rewrite orb_true_r. intros [_ [= E2]]. congruence.
    + split; [done|]. exists (last_pn e). split; [by destruct e|done].
Qed.

(** What the search in the cache returns. *)
Definition found_in (hist : list received) (c : ieee80211_fragment_cache) (r : received) (i : Z) : Prop :=
  0 <= i < 4 /\ exists e first rest,
    entries c !! Z.to_nat i = Some e /\ entry_holds e first rest /\ first :: rest `sublist_of` hist /\
    (same_protection first (zlen rest + 1) r -> continues HZ first (zlen rest + 1) r).

Lemma find_loop_spec n hist idx c r :
  cache_inv hist c -> 0 <= idx <= 4 -> frame_ok r -> 24 <= zlen (rc_data r) ->
  exists found c', find_loop HZ n (rc_time r) idx c (rc_frag r) (rc_sn r) (rx_seqno_idx (rc_meta r)) (rc_data r) =
      Some (found, c') /\ cache_inv hist c' /\
    match found with None => True | Some i => found_in hist c' r i end.
Proof.
  revert idx c. induction n as [|n IH]; intros idx c Hc Hi Hr Hl; cbn [find_loop].
  { by exists None, c. }
  set (idx' := if idx - 1 <? 0 then IEEE80211_FRAGMENT_MAX - 1 else idx - 1).
  assert (0 <= idx' < 4) as Hi' by (unfold idx', IEEE80211_FRAGMENT_MAX; zcase; lia).
  destruct (cache_entry hist c idx' Hc Hi') as (e & He & Hinv). rewrite He, bind_some.
  destruct Hinv as [E|(first & rest & H & Hsub)]; [rewrite E; apply IH; (done || lia)|].
  destruct (eh_list _ _ _ H) as (skbs & El & _). rewrite El.
  rewrite (eh_seq _ _ _ H), (eh_queue _ _ _ H), (eh_last _ _ _ H).
  destruct (Z.eqb_spec (rc_sn first) (rc_sn r)) as [Es|]; cbn [negb orb]; [|apply IH; (done || lia)].
  destruct (Z.eqb_spec (rx_seqno_idx (rc_meta first)) (rx_seqno_idx (rc_meta r))) as [Eq|]; cbn [negb orb];
    [|apply IH; (done || lia)].
  destruct (Z.eqb_spec (zlen rest + 1) (rc_frag r)) as [Ef|]; cbn [negb orb]; [|apply IH; (done || lia)].
  change (data (rc_skb first)) with (rc_data first).
  destruct (eh_frame _ _ _ H) as [Fc Fe].
  pose proof (frame_hdrlen first (eh_ok _ _ _ H) Fc Fe) as Hlf.
  rewrite same_header_spec by (done || lia || apply (eh_ok _ _ _ H)). rewrite bind_some.
  case_bool_decide as Eh; cbn [negb]; [|apply IH; (done || lia)]. destruct Eh as (E1 & E2 & E3).
  rewrite (eh_time _ _ _ H).
  destruct (time_after (rc_time r) (u64 (rc_time first + 2 * HZ))) eqn:Et.
  - apply IH; try done; [|lia]. apply cache_inv_set; [done|apply purge_inv].
  - exists (Some idx'), c. split; [done|]. split; [done|]. split; [done|].
    exists e, first, rest. split; [done|]. split; [done|]. split; [done|]. intros Hp. by split.
Qed.

Context `{SkbAlloc, !SkbAllocLaws}.

Lemma put_all_spec s l :
  zlen (concat (map data l)) <= skb_tailroom s ->
  exists s', put_all s l = Some s' /\ data s' = data s ++ concat (map data l).
Proof.
  revert s. induction l as [|f l IH]; intros s Hs; cbn [map concat put_all] in *.
  { exists s. by rewrite app_nil_r. }
  zlens. pose proof (zlen_nonneg (concat (map data l))).
  destruct (skb_put_data_spec s (data f)) as (s' & E & Ed & Et); [lia|]. rewrite E, bind_some.
  destruct (IH s') as (s2 & E2 & Ed2); [lia|]. exists s2. split; [done|]. by rewrite Ed2, Ed, app_assoc.
Qed.

(** The entry a first fragment starts. *)
Lemma first_entry_holds e0 r :
  frame_ok r -> ieee80211_is_ctl (rc_fc r) = false -> ieee80211_is_ext (rc_fc r) = false ->
  ieee80211_has_morefrags (rc_fc r) = true -> rc_frag r = 0 ->
  let e := mk_fentry [rc_skb r] (rc_time r) (rc_sn r) 0 0 (rx_seqno_idx (rc_meta r)) false false
             (last_pn e0) (key_color e0) in
  entry_holds (match rx_key_of (rc_meta r) with
               | Some k =>
                   if requires_sequential_pn (Some k) (rc_fc r) then
                     set_protection e true (rk_rx_pn k) (rk_color k)
                   else if ieee80211_has_protected (rc_fc r) || flag_set (rx_flag (rc_meta r)) RX_FLAG_DECRYPTED
                     then set_protection e false (last_pn e) (rk_color k)
                   else e
               | None => e
               end) r [].
Proof.
  intros Hr Hc He Hm Hf e.
  assert (chain HZ r []) as Hch by (split; [done|constructor|done]).
  pose proof (secured_of_sequential r) as Hsec. pose proof (fk_key_pn _ Hr) as Hkp.
  assert (forall k, rx_key_of (rc_meta r) = Some k -> rc_sequential r = true ->
    length (rk_rx_pn k) = 6%nat /\ bytes_ok (rk_rx_pn k) /\
    be_value (rk_rx_pn k) = (be_value (first_pn r) + 0) mod 2 ^ 48) as Hpn.
  { intros k Ek _. destruct (Hkp k Ek) as [Hl Hb]. split; [done|]. split; [done|].
    unfold first_pn. rewrite Ek. cbn [fmap option_fmap option_map default from_option id]. rewrite Z.add_0_r.
    symmetry. apply Z.mod_small. pose proof (be_value_range _ Hb) as Hrange. unfold zlen in Hrange.
    rewrite Hl in Hrange. exact Hrange. }
  unfold rc_sequential, rc_secured, rc_color in *.
  destruct (rx_key_of (rc_meta r)) as [k|] eqn:Ek;
    [destruct (requires_sequential_pn (Some k) (rc_fc r)) eqn:Es;
       [|destruct (ieee80211_has_protected (rc_fc r) || _) eqn:Ep]|];
    (split; cbn; unfold rc_sequential, rc_secured, rc_color, U16_MAX; rewrite ?Ek, ?Es, ?Ep;
      try done; try (by constructor); try (by exists [])).
  - by rewrite Hsec.
  - intros _. by apply Hpn.
Qed.

Lemma chain_snoc first rest r :
  chain HZ first rest -> Forall (fun r => ieee80211_has_morefrags (rc_fc r) = true) (first :: rest) ->
  continues HZ first (zlen rest + 1) r -> chain HZ first (rest ++ [r]).
Proof.
  intros [C1 C2 C3] Hm Hct. split; [done| |].
  - change (first :: rest ++ [r]) with ((first :: rest) ++ [r]). by rewrite removelast_last.
  - intros i x. rewrite lookup_app_Some. intros [Hx|[Hi Hx]]; [by apply C3|].
    destruct (i - length rest)%nat eqn:Ei; [|done]. injection Hx as <-.
    replace (Z.of_nat i) with (zlen rest) by (unfold zlen; lia). done.
Qed.

(** The entry after a further fragment, and the reassembled frame. *)
Lemma add_fragment_holds e first rest r pn s :
  entry_holds e first rest -> continues HZ first (zlen rest + 1) r ->
  ieee80211_has_morefrags (rc_fc r) = true -> data s = rc_body r -> 
  extra_len e + skb_len s <= U16_MAX ->
  (rc_sequential first = true -> length pn = 6%nat /\ bytes_ok pn /\
     be_value pn = (be_value (first_pn first) + (zlen rest + 1)) mod 2 ^ 48) ->
  entry_holds (add_fragment (set_last_pn e pn) (zlen rest + 1) s) first (rest ++ [r]).
Proof.
  intros He Hct Hm Hs Hlen Hpn. destruct (eh_list _ _ _ He) as (skbs & El & Em). destruct (eh_extra _ _ _ He) as [Ex Ex2].
  pose proof (zlen_nonneg (concat (map rc_body rest))). pose proof (zlen_nonneg (data s)).
  split; try apply He; cbn [add_fragment set_last_pn skb_list first_frag_time seq rx_queue last_frag
    extra_len check_sequential_pn is_protected last_pn key_color].
  - apply chain_snoc; [apply He..|done].
  - change (first :: rest ++ [r]) with ((first :: rest) ++ [r]). apply Forall_app. split; [apply He|].
    by constructor.
  - exists (skbs ++ [s]). rewrite El, !map_app, Em. cbn [map]. by rewrite Hs.
  - by zlens.
  - rewrite map_app, concat_app. zlens. cbn [map concat]. rewrite app_nil_r, <- Hs, <- Ex. unfold skb_len in *.
    rewrite wrap_small by (unfold is_uint, U16_MAX in *; lia). lia.
  - intros Es. zlens. by apply Hpn.
Qed.

(** A frame that goes through the cache. *)
Definition is_fragment (r : received) : bool :=
  negb (ieee80211_is_ctl (rc_fc r)) && negb (ieee80211_is_ext (rc_fc r)) &&
  (ieee80211_has_morefrags (rc_fc r) || negb (rc_frag r =? 0)).

(** The result of a call after [hist]: nothing faults, the invariant is kept,
    and a frame that is delivered is [r] itself or the body of a whole
    transmission that [r] completes. *)
Definition step_ok (hist : list received) (r : received)
    (res : option (rx_result * option sk_buff * ieee80211_fragment_cache)) : Prop :=
  exists v oskb c', res = Some (v, oskb, c') /\ cache_inv (hist ++ [r]) c' /\
    (v = RX_CONTINUE ->
       (is_fragment r = false /\ oskb = Some (rc_skb r)) \/
       exists first rest s, oskb = Some s /\ first :: rest `sublist_of` hist /\
         chain HZ first (rest ++ [r]) /\ ieee80211_has_morefrags (rc_fc r) = false /\
         data s = rc_data first ++ concat (map rc_body (rest ++ [r]))).

Lemma step_other hist r c v oskb :
  cache_inv hist c -> v <> RX_CONTINUE -> step_ok hist r (Some (v, oskb, c)).
Proof. intros Hc Hv. exists v, oskb, c. split; [done|]. split; [by apply cache_inv_grow|done]. Qed.

Lemma pull_body r :
  frame_ok r -> ieee80211_is_ctl (rc_fc r) = false -> ieee80211_is_ext (rc_fc r) = false ->
  exists s, skb_pull (rc_skb r) (ieee80211_hdrlen (rc_fc r)) = Some s /\ data s = rc_body r /\
    skb_len s < 2 ^ 31.
Proof.
  intros Hr Hc He. pose proof (frame_hdrlen r Hr Hc He) as Hl. pose proof (fk_len _ Hr) as Hlen.
  unfold skb_pull, skb_len, rc_data in *. repeat (zcase; [|lia]). cbn [andb].
  eexists. split; [done|]. split; [done|]. cbn [data]. unfold zlen in *. rewrite length_drop. lia.
Qed.

(** Joining fails for want of memory or yields the whole frame. *)
Lemma join_core c idx e first rest r pn s :
  entry_holds e first rest -> data s = rc_body r -> extra_len e + skb_len s <= U16_MAX ->
  exists c', c' = set_fentry c idx (purge_entry (add_fragment (set_last_pn e pn) (zlen rest + 1) s)) /\
    ((join_fragments c idx (add_fragment (set_last_pn e pn) (zlen rest + 1) s) =
        Some (RX_DROP_U_OOM, Some (rc_skb first), c') /\ exists n, pskb_expand_head (rc_skb first) n = None) \/
     exists s', join_fragments c idx (add_fragment (set_last_pn e pn) (zlen rest + 1) s) =
        Some (RX_CONTINUE, Some s', c') /\ data s' = rc_data first ++ concat (map rc_body (rest ++ [r]))).
Proof.
  intros He Hs Hlen. destruct (eh_list _ _ _ He) as (skbs & El & Em). destruct (eh_extra _ _ _ He) as [Ex Ex2].
  pose proof (zlen_nonneg (concat (map rc_body rest))). pose proof (zlen_nonneg (data s)).
  eexists. split; [reflexivity|]. unfold join_fragments. cbn [add_fragment set_last_pn skb_list extra_len].
  rewrite El. cbn [app]. set (c' := set_fentry c idx _). unfold skb_len in *.
  rewrite (wrap_small 16) by (unfold is_uint, U16_MAX in *; lia).
  set (total := extra_len e + zlen (data s)) in *.
  assert (concat (map data (skbs ++ [s])) = concat (map rc_body (rest ++ [r]))) as Ecat.
  { by rewrite !map_app, Em; cbn [map]; rewrite Hs. }
  assert (zlen (concat (map data (skbs ++ [s]))) = total) as Etot.
  { rewrite map_app, concat_app, Em. zlens. cbn [map concat]. rewrite app_nil_r. unfold total. lia. }
  assert (forall skb, data skb = rc_data first -> total <= skb_tailroom skb ->
    exists s', (skb' ← put_all skb (skbs ++ [s]); Some (RX_CONTINUE, Some skb', c')) =
      Some (RX_CONTINUE, Some s', c') /\ data s' = rc_data first ++ concat (map rc_body (rest ++ [r]))) as Hput.
  { intros skb Hd Ht. destruct (put_all_spec skb (skbs ++ [s])) as (s' & E & Ed); [lia|].
    rewrite E, bind_some. exists s'. split; [done|]. by rewrite Ed, Hd, Ecat. }
  destruct (skb_tailroom (rc_skb first) <? total) eqn:Et.
  - destruct (pskb_expand_head (rc_skb first) total) as [skb|] eqn:Ea; [right|left; eauto].
    apply Hput; [by rewrite (expand_data _ _ _ Ea)|]. pose proof (expand_tail _ _ _ Ea).
    pose proof (zlen_nonneg (tail (rc_skb first))). unfold skb_tailroom in *. lia.
  - right. apply Hput; [done|]. apply Z.ltb_ge in Et. lia.
Qed.

Lemma join_spec hist c idx e first rest r pn s :
  cache_inv hist c -> entry_holds e first rest -> first :: rest `sublist_of` hist ->
  continues HZ first (zlen rest + 1) r -> ieee80211_has_morefrags (rc_fc r) = false ->
  data s = rc_body r -> extra_len e + skb_len s <= U16_MAX ->
  step_ok hist r (join_fragments c idx (add_fragment (set_last_pn e pn) (zlen rest + 1) s)).
Proof.
  intros Hc He Hsub Hct Hm Hs Hlen.
  destruct (join_core c idx e first rest r pn s He Hs Hlen) as (c' & Ec & Hj).
  assert (cache_inv hist c') as Hc' by (rewrite Ec; apply cache_inv_set; [done|apply purge_inv]).
  destruct Hj as [[E _]|(s' & E & Hd)]; rewrite E; [by apply step_other|].
  exists RX_CONTINUE, (Some s'), c'. split; [done|]. split; [by apply cache_inv_grow|].
  intros _. right. exists first, rest, s'. do 2 (split; [done|]). split; [|done].
  apply chain_snoc; [apply He..|done].
Qed.

(** A further fragment. *)
Lemma further_fragment hist c r :
  cache_inv hist c -> frame_ok r -> ieee80211_is_ctl (rc_fc r) = false -> ieee80211_is_ext (rc_fc r) = false ->
  step_ok hist r (
    '(found, c) ← ieee80211_reassemble_find HZ (rc_time r) c (rc_frag r) (rc_sn r)
                    (rx_seqno_idx (rc_meta r)) (rc_data r);
    match found with
    | None => Some (RX_DROP_U_DEFRAG_MISMATCH, Some (rc_skb r), c)
    | Some idx =>
        e ← entries c !! Z.to_nat idx;
        match check_fragment (rc_meta r) (rc_fc r) e with
        | inl drop => Some (drop, Some (rc_skb r), c)
        | inr e =>
            skb ← skb_pull (rc_skb r) (ieee80211_hdrlen (rc_fc r));
            if U16_MAX <? u32 (extra_len e + skb_len skb) then
              Some (RX_DROP_U_DEFRAG_OVERFLOW, Some skb, set_fentry c idx (purge_entry e))
            else
              let e := add_fragment e (rc_frag r) skb in
              if ieee80211_has_morefrags (rc_fc r) then Some (RX_QUEUED, None, set_fentry c idx e)
              else join_fragments c idx e
        end
    end).
Proof.
  intros Hc Hr Hctl Hext. pose proof (frame_hdrlen r Hr Hctl Hext) as Hl.
  destruct (find_loop_spec (Z.to_nat IEEE80211_FRAGMENT_MAX) hist (next c) c r Hc) as (found & c1 & E & Hc1 & Hf);
    [pose proof (ci_next _ _ Hc); lia|done|lia|].
  unfold ieee80211_reassemble_find. rewrite E, bind_some.
  destruct found as [i|]; [|by apply step_other]. destruct Hf as (Hi & e & first & rest & He & Hh & Hsub & Hct).
  rewrite He, bind_some. pose proof (check_fragment_spec e first rest r Hh Hr) as Hchk.
  destruct (check_fragment _ _ e) as [v|e'] eqn:Echk.
  { apply step_other; [done|]. intros ->. revert Echk. clear. unfold check_fragment.
    repeat match goal with |- context [if ?b then _ else _] => destruct b end; discriminate. }
  destruct Hchk as (Hprot & pn & -> & Hpn). specialize (Hct Hprot).
  destruct (pull_body r Hr Hctl Hext) as (s & Es & Hd & Hls). rewrite Es, bind_some.
  change (extra_len (set_last_pn e pn)) with (extra_len e).
  destruct (eh_extra _ _ _ Hh) as [Hx1 Hx2]. pose proof (zlen_nonneg (concat (map rc_body rest))).
  pose proof (zlen_nonneg (data s)).
  rewrite (wrap_small 32) by (unfold is_uint, U16_MAX, skb_len in *; lia).
  destruct (Z.ltb_spec U16_MAX (extra_len e + skb_len s)).
  { apply step_other; [|done]. apply cache_inv_set; [done|by left]. }
  rewrite (ct_frag _ _ _ _ Hct). cbv zeta. destruct (ieee80211_has_morefrags (rc_fc r)) eqn:Em.
  - eexists RX_QUEUED, None, _. split; [done|]. split; [|done]. apply cache_inv_set; [by apply cache_inv_grow|].
    right. exists first, (rest ++ [r]). split; [by apply add_fragment_holds|].
    change (first :: rest ++ [r]) with ((first :: rest) ++ [r]). by apply sublist_app.
  - by eapply (join_spec hist).
Qed.

Lemma defragment_step hist c r :
  cache_inv hist c -> frame_ok r ->
  step_ok hist r (ieee80211_rx_h_defragment HZ (rc_time r) (rc_meta r) c (rc_skb r)).
Proof.
  intros Hc Hr. unfold ieee80211_rx_h_defragment.
  change (data (rc_skb r)) with (rc_data r). rewrite (frame_fc r), bind_some by done.
  assert (is_fragment r = false -> step_ok hist r (Some (RX_CONTINUE, Some (rc_skb r), c))) as Hpass.
  { intros Hn. exists RX_CONTINUE, (Some (rc_skb r)), c. split; [done|]. split; [by apply cache_inv_grow|].
    intros _. by left. }
  unfold is_fragment in Hpass.
  destruct (ieee80211_is_ctl (rc_fc r)) eqn:Ec; [by apply Hpass|].
  destruct (ieee80211_is_ext (rc_fc r)) eqn:Ee; [by apply Hpass|]. cbn [orb negb andb] in *.
  pose proof (frame_hdrlen r Hr Ec Ee) as Hl.
  rewrite (frame_sc r), bind_some by lia. cbv zeta. change (rc_sc r .& IEEE80211_SCTL_FRAG) with (rc_frag r).
  change ((rc_sc r .& IEEE80211_SCTL_SEQ) >> 4) with (rc_sn r).
  destruct (negb (ieee80211_has_morefrags (rc_fc r)) && (rc_frag r =? 0)) eqn:Enf.
  { apply Hpass. by destruct (ieee80211_has_morefrags (rc_fc r)), (rc_frag r =? 0). }
  destruct (rd8_Some (rc_data r) ADDR1) as [a1 E1]; [unfold ADDR1; lia|]. rewrite E1, bind_some.
  destruct (is_multicast_ether_addr a1); [by apply step_other|].
  destruct (linearize_ok (rc_meta r)); cbn [negb]; [|by apply step_other].
  destruct (Z.eqb_spec (rc_frag r) 0) as [Ef|Ef]; [|by apply further_fragment].
  rewrite andb_true_r in Enf. apply negb_false_iff in Enf.
  unfold ieee80211_reassemble_add. pose proof (ci_next _ _ Hc) as Hn.
  destruct (cache_entry hist c (next c) Hc Hn) as (e0 & He0 & _). rewrite He0, bind_some.
  eexists RX_QUEUED, None, _. split; [done|]. split; [|done]. unfold set_fentry. cbn [entries next].
  rewrite list_insert_insert_eq. rewrite Ef. apply cache_inv_grow_with; [done|done| |].
  - rewrite wrap_small by (unfold is_uint; lia). unfold IEEE80211_FRAGMENT_MAX. zcase; lia.
  - right. exists r, []. split; [by apply (first_entry_holds e0 r)|]. by apply sublist_inserts_l.
Qed.
End invariant.

(** ** Runs of the reassembly handler *)

Section run.
Context (HZ : Z) `{SkbAlloc}.

Fixpoint defrag_run (c : ieee80211_fragment_cache) (l : list received)
  : option (list (rx_result * option sk_buff) * ieee80211_fragment_cache) :=
  match l with
  | [] => Some ([], c)
  | r :: l =>
      '(v, oskb, c) ← ieee80211_rx_h_defragment HZ (rc_time r) (rc_meta r) c (rc_skb r);
      '(outs, c) ← defrag_run c l;
      Some ((v, oskb) :: outs, c)
  end.

Lemma defrag_run_ok `{!SkbAllocLaws} hist c l :
  cache_inv HZ hist c -> Forall frame_ok l ->
  exists outs c', defrag_run c l = Some (outs, c') /\ length outs = length l /\ cache_inv HZ (hist ++ l) c' /\
    forall i r s, l !! i = Some r -> outs !! i = Some (RX_CONTINUE, Some s) -> is_fragment r = true ->
      exists first rest, (first :: rest) ++ [r] `sublist_of` hist ++ take (S i) l /\
        chain HZ first (rest ++ [r]) /\ ieee80211_has_morefrags (rc_fc r) = false /\
        data s = rc_data first ++ concat (map rc_body (rest ++ [r])).
Proof.
  revert hist c. induction l as [|r l IH]; intros hist c Hc Hl; cbn [defrag_run].
  { exists [], c. rewrite app_nil_r. split_and!; done. }
  apply Forall_cons in Hl as [Hr Hl].
  destruct (defragment_step HZ hist c r Hc Hr) as (v & oskb & c1 & E & Hc1 & Hv). rewrite E, bind_some.
  destruct (IH (hist ++ [r]) c1 Hc1 Hl) as (outs & c2 & E2 & Hlen & Hc2 & Ho). rewrite E2, bind_some.
  exists ((v, oskb) :: outs), c2. split; [done|]. split; [cbn; by rewrite Hlen|].
  rewrite <- app_assoc in Hc2. split; [done|]. intros [|i] x s Hx Hs Hf.
  - cbn in Hx, Hs. injection Hx as ->. injection Hs as -> ->.
    destruct (Hv eq_refl) as [[Hn _]|(first & rest & s' & [= <-] & Hsub & Hch & Hm & Hd)]; [congruence|].
    exists first, rest. split; [|done]. by apply sublist_app.
  - destruct (Ho i x s Hx Hs Hf) as (first & rest & Hsub & Hrest). exists first, rest. split; [|done].
    rewrite <- app_assoc in Hsub. exact Hsub.
Qed.
End run.

(** ** Transmit fragments *)

(** A management or data frame: frame control, duration and addresses,
    sequence control, the rest of the header, the body. *)
Definition frame_bytes (fc : Z) (mid : list Z) (sc : Z) (tl body : list Z) : list Z :=
  le16_bytes fc ++ mid ++ le16_bytes sc ++ tl ++ body.

Record header_ok (fc : Z) (mid : list Z) (sc : Z) (tl : list Z) : Prop := {
  ho_fc : is_uint 16 fc;
  ho_sc : is_uint 16 sc;
  ho_mid : length mid = 20%nat;
  ho_tl : 24 + zlen tl = ieee80211_hdrlen fc;
  ho_type : ieee80211_is_ctl fc = false /\ ieee80211_is_ext fc = false;
}.

Lemma frame_bytes_fc fc mid sc tl body : is_uint 16 fc ->
  hdr_frame_control (frame_bytes fc mid sc tl body) = Some fc.
Proof. apply rd_le16_bytes. Qed.

Lemma frame_bytes_sc fc mid sc tl body : length mid = 20%nat -> is_uint 16 sc ->
  hdr_seq_ctrl (frame_bytes fc mid sc tl body) = Some sc.
Proof.
  intros Hm Hs. unfold hdr_seq_ctrl, frame_bytes. rewrite app_assoc.
  replace 22 with (zlen (le16_bytes fc ++ mid) + 0) by (zlens; unfold zlen; rewrite Hm; done).
  rewrite rd_le16_app_r by lia. by apply rd_le16_bytes.
Qed.

Lemma frame_bytes_slice fc mid sc tl body off n fc' sc' body' : length mid = 20%nat ->
  2 <= off -> 0 <= n -> off + n <= 22 ->
  slice (frame_bytes fc mid sc tl body) off n = slice (frame_bytes fc' mid sc' tl body') off n.
Proof.
  intros Hm Ho Hn Hon. unfold frame_bytes.
  destruct (split_at mid (off - 2)) as (a & r & -> & Ha); [unfold zlen; lia|].
  destruct (split_at r n) as (b & c & -> & Hb).
  { rewrite length_app in Hm. unfold zlen in *. lia. }
  rewrite <- !app_assoc. rewrite !(app_assoc _ a).
  assert (forall x, zlen (le16_bytes x ++ a) = off) as Hpre by (intros x; zlens; unfold zlen in *; cbn; lia).
  rewrite <- (Hpre fc) at 1. rewrite slice_app by done. rewrite <- (Hpre fc'), slice_app by done. done.
Qed.

Lemma frame_bytes_a1 fc mid sc tl body fc' sc' body' : length mid = 20%nat ->
  rd8 (frame_bytes fc mid sc tl body) ADDR1 = rd8 (frame_bytes fc' mid sc' tl body') ADDR1.
Proof.
  intros Hm. unfold frame_bytes. change ADDR1 with (zlen (le16_bytes fc) + 2) at 1.
  change ADDR1 with (zlen (le16_bytes fc') + 2).
  rewrite !rd8_app_r by lia. by rewrite !rd8_app_l by (unfold zlen; lia).
Qed.

Lemma frame_bytes_body fc mid sc tl body : header_ok fc mid sc tl ->
  drop (Z.to_nat (ieee80211_hdrlen fc)) (frame_bytes fc mid sc tl body) = body.
Proof.
  intros [_ _ Hm Ht _]. unfold frame_bytes. rewrite !app_assoc. rewrite drop_app_length'; [done|].
  rewrite !length_app, Hm. unfold zlen in Ht. cbn [length le16_bytes]. lia.
Qed.

Lemma frame_bytes_len fc mid sc tl body : header_ok fc mid sc tl ->
  zlen (frame_bytes fc mid sc tl body) = ieee80211_hdrlen fc + zlen body.
Proof.
  intros [_ _ Hm Ht _]. unfold frame_bytes. zlens. rewrite <- Ht. unfold zlen. rewrite Hm. cbn [length le16_bytes]. lia.
Qed.

Lemma fragment_loop_spec alloc fuel i skb h pre rest thr per skbs :
  (forall n, alloc n = true) -> fbuf skb = h ++ pre ++ rest -> 1 <= per ->
  zlen h + per <= thr + IEEE80211_ENCRYPT_TAILROOM -> zlen rest <= Z.of_nat fuel ->
  exists ps, fragment_loop alloc fuel i skb (zlen h) thr per (zlen (h ++ pre)) (zlen rest) skbs =
      Some (0, skbs ++ map (fun p => mk_frag (h ++ p.1) p.2 (frates skb)) ps) /\
    concat (map fst ps) = rest /\ Forall (fun p => 1 <= zlen p.1 <= per) ps /\
    Z.of_nat (length ps) * per < zlen rest + per.
Proof.
  intros Ha. revert i pre rest skbs. induction fuel as [|fuel IH]; intros i pre rest skbs Hb Hper Hthr Hf;
    cbn [fragment_loop]; pose proof (zlen_nonneg rest) as Hrest.
  - destruct rest; [|zlens; pose proof (zlen_nonneg rest); lia]. exists []. rewrite app_nil_r.
    split_and!; [done..|cbn; lia].
  - destruct (Z.eqb_spec (zlen rest) 0) as [E0|E0].
    { destruct rest; [|zlens; pose proof (zlen_nonneg rest); lia]. exists []. rewrite app_nil_r.
      split_and!; [done..|cbn; lia]. }
    set (fraglen := if zlen rest <? per then zlen rest else per).
    assert (1 <= fraglen <= per /\ fraglen <= zlen rest) as [Hfl Hfl2] by (unfold fraglen; zcase; lia).
    assert (fraglen = zlen rest \/ fraglen = per) as Hcase by (unfold fraglen; zcase; auto).
    destruct (split_at rest fraglen) as (d & rest' & Er & Hd); [lia|].
    rewrite Ha. cbn [negb]. rewrite Hb, slice_prefix, bind_some by done.
    replace (h ++ pre ++ rest) with ((h ++ pre) ++ d ++ rest') by (rewrite Er; by rewrite !app_assoc).
    rewrite slice_app, bind_some by done. destruct (Z.ltb_spec (thr + IEEE80211_ENCRYPT_TAILROOM) (zlen h + fraglen)); [lia|].
    replace (zlen (h ++ pre) + fraglen) with (zlen (h ++ (pre ++ d))) by (zlens; lia).
    replace (zlen rest - fraglen) with (zlen rest') by (rewrite Er; zlens; lia).
    set (fl := if nz (zlen rest') then _ else _).
    destruct (IH (S i) (pre ++ d) rest' (skbs ++ [mk_frag (h ++ d) fl (frates skb)])) as (ps & E & Hc & Hp & Hn).
    { rewrite Hb, Er. by rewrite !app_assoc. }
    { done. } { done. } { rewrite Er in Hf. zlens. lia. }
    exists ((d, fl) :: ps). rewrite E, <- app_assoc. split; [done|]. cbn [map concat fst]. rewrite Hc. split; [done|].
    split; [constructor; [cbn; lia|done]|]. cbn [length]. rewrite Er, zlen_app, Hd.
    destruct (decide (rest' = [])) as [->|Hne].
    + destruct ps as [|[x y] ps]; [cbn [length]; rewrite zlen_nil; lia|]. exfalso. apply Forall_cons in Hp as [Hp _]. cbn in Hc, Hp.
      apply app_eq_nil in Hc as [-> _]. rewrite zlen_nil in Hp. lia.
    + assert (0 < zlen rest') by (destruct rest'; [done|zlens; pose proof (zlen_nonneg rest'); lia]).
      assert (zlen rest = fraglen + zlen rest') by (rewrite Er; zlens; lia). destruct Hcase; [lia|].
      rewrite Nat2Z.inj_succ, Z.mul_succ_l. lia.
Qed.

Section tx.
Context (fc sc : Z) (mid tl : list Z) (Hh : header_ok fc mid sc tl).

(** The frames sent for the pieces [ds], numbered from [n]. *)
Fixpoint frag_bufs (n : Z) (ds : list (list Z)) : list (list Z) :=
  match ds with
  | [] => []
  | d :: ds' =>
      frame_bytes (if bool_decide (ds' = []) then fc .& Z.lnot IEEE80211_FCTL_MOREFRAGS
                   else fc .| IEEE80211_FCTL_MOREFRAGS) mid (sc .| (n .& IEEE80211_SCTL_FRAG)) tl d
        :: frag_bufs (n + 1) ds'
  end.

Lemma store_fc fc' d v : store (frame_bytes fc' mid sc tl d) 0 (le16_bytes v) = Some (frame_bytes v mid sc tl d).
Proof. unfold frame_bytes. by rewrite store_prefix. Qed.

Lemma store_sc fc' d v : store (frame_bytes fc' mid sc tl d) 22 (le16_bytes v) = Some (frame_bytes fc' mid v tl d).
Proof.
  unfold frame_bytes. rewrite app_assoc.
  replace 22 with (zlen (le16_bytes fc' ++ mid)) by (zlens; unfold zlen; rewrite (ho_mid _ _ _ _ Hh); done).
  rewrite store_app by done. by rewrite <- app_assoc.
Qed.

Lemma update_walk_spec n ps rates :
  exists frs, update_walk n (map (fun p => mk_frag (frame_bytes fc mid sc tl p.1) p.2 rates) ps) = Some frs /\
    map fbuf frs = frag_bufs n (map fst ps).
Proof.
  destruct Hh as [Hfc Hsc Hm Ht Hty]. revert n. induction ps as [|[d fl] ps IH]; intros n; cbn [map update_walk].
  { by exists []. }
  unfold update_frag. cbn [fbuf fst snd].
  rewrite frame_bytes_fc, bind_some, store_fc, bind_some, frame_bytes_sc, bind_some, store_sc, bind_some by done.
  set (f := if bool_decide _ then mk_frag _ _ _ else mk_frag _ _ _). rewrite bind_some.
  destruct (IH (n + 1)) as (frs & E & Ef). rewrite E, bind_some. exists (f :: frs). split; [done|].
  cbn [map frag_bufs]. rewrite Ef. f_equal. unfold f.
  rewrite (bool_decide_ext (map fst ps = []) (map (fun p => mk_frag (frame_bytes fc mid sc tl p.1) p.2 rates) ps = [])).
  - by destruct (bool_decide _).
  - destruct ps; cbn; done.
Qed.
End tx.

Lemma tx_fragment_spec alloc thr f fc mid sc tl body :
  (forall n, alloc n = true) -> header_ok fc mid sc tl -> fbuf f = frame_bytes fc mid sc tl body ->
  flag_set (fflags f) IEEE80211_TX_CTL_DONTFRAG = false -> flag_set (fflags f) IEEE80211_TX_CTL_AMPDU = false ->
  let per := thr - ieee80211_hdrlen fc - FCS_LEN in
  1 <= per -> per < zlen body ->
  exists d0 ds frs,
    ieee80211_tx_h_fragment alloc false thr f = Some (TX_CONTINUE, frs) /\
    map fbuf frs = frag_bufs fc sc mid tl 0 (d0 :: ds) /\ ds <> [] /\ d0 ++ concat ds = body /\
    zlen d0 = per /\ Forall (fun d => 1 <= zlen d <= per) ds /\ Z.of_nat (length ds) * per < zlen body.
Proof.
  intros Ha Hh Hf Hd Hamp per Hper Hbody. unfold ieee80211_tx_h_fragment.
  rewrite Hf, frame_bytes_fc, bind_some, Hd, Hamp by apply Hh.
  pose proof (frame_bytes_len fc mid sc tl body Hh) as Hlen. rewrite Hlen.
  destruct (Z.leb_spec (ieee80211_hdrlen fc + zlen body + FCS_LEN) thr); [lia|].
  unfold ieee80211_fragment. fold per. rewrite Hf, Hlen. destruct (Z.ltb_spec (ieee80211_hdrlen fc + zlen body - ieee80211_hdrlen fc - per) 0); [lia|].
  destruct (split_at body per) as (d0 & r & -> & Hd0); [lia|].
  set (h := le16_bytes fc ++ mid ++ le16_bytes sc ++ tl).
  assert (zlen h = ieee80211_hdrlen fc) as Hhl.
  { pose proof (frame_bytes_len fc mid sc tl [] Hh) as Hx. unfold frame_bytes in Hx. rewrite app_nil_r in Hx.
    unfold h. rewrite Hx. zlens. lia. }
  assert (forall x, frame_bytes fc mid sc tl x = h ++ x) as Hfb.
  { intros x. unfold frame_bytes, h. by rewrite <- !app_assoc. }
  zlens. replace (ieee80211_hdrlen fc + (zlen d0 + zlen r) - ieee80211_hdrlen fc - per) with (zlen r) by lia.
  replace (ieee80211_hdrlen fc + per) with (zlen (h ++ d0)) by (zlens; lia). rewrite <- Hhl.
  destruct (fragment_loop_spec alloc (Z.to_nat (zlen r)) 0 f h d0 r thr per []) as (ps & E & Hc & Hp & Hn).
  { done. } { by rewrite Hf, Hfb. } { done. }
  { unfold per, IEEE80211_ENCRYPT_TAILROOM, FCS_LEN. lia. } { pose proof (zlen_nonneg r). lia. }
  rewrite E, bind_some. cbn [app]. rewrite bind_some. change (nz 0) with false. cbn [Z.eqb]. cbv iota.
  assert (take (Z.to_nat (zlen (h ++ d0))) (frame_bytes fc mid sc tl (d0 ++ r)) = frame_bytes fc mid sc tl d0) as ->.
  { rewrite !Hfb, app_assoc. unfold zlen. by rewrite Nat2Z.id, take_app_length. }
  destruct (update_walk_spec fc sc mid tl Hh 0 ((d0, fflags f) :: ps) (frates f)) as (frs & Eu & Ef).
  exists d0, (map fst ps), frs. cbn [map fst snd] in Eu.
  assert (map (fun p => mk_frag (h ++ p.1) p.2 (frates f)) ps =
    map (fun p => mk_frag (frame_bytes fc mid sc tl p.1) p.2 (frates f)) ps) as ->.
  { apply map_ext. intros p. by rewrite Hfb. }
  rewrite Eu, bind_some. split; [done|]. split; [exact Ef|]. split; [|split; [by rewrite Hc|split; [lia|split]]].
  - intros En. apply map_eq_nil in En. subst ps. cbn in Hc. subst r. zlens. lia.
  - by apply Forall_map.
  - rewrite length_map. lia.
Qed.

(** ** Frame control and sequence control of fragments *)

(** The MOREFRAGS bit is only read by [ieee80211_has_morefrags]. *)
Lemma morefrags_other fc m : IEEE80211_FCTL_MOREFRAGS .& m = 0 -> (fc .| IEEE80211_FCTL_MOREFRAGS) .& m = fc .& m.
Proof. apply land_lor_away. Qed.

Lemma morefrags_hdrlen fc : ieee80211_hdrlen (fc .| IEEE80211_FCTL_MOREFRAGS) = ieee80211_hdrlen fc.
Proof.
  unfold ieee80211_hdrlen, ieee80211_is_ext, ieee80211_is_data, ieee80211_has_a4, ieee80211_is_data_qos,
    ieee80211_has_order, ieee80211_is_mgmt, ieee80211_is_ctl.
  by rewrite !morefrags_other by done.
Qed.

Lemma morefrags_set fc : ieee80211_has_morefrags (fc .| IEEE80211_FCTL_MOREFRAGS) = true.
Proof.
  unfold ieee80211_has_morefrags. change IEEE80211_FCTL_MOREFRAGS with (2 ^ 10).
  rewrite nz_land_pow2, Z.lor_spec, Z.pow2_bits_true by lia. apply orb_true_r.
Qed.

Lemma morefrags_clear fc :
  ieee80211_has_morefrags fc = false -> fc .& Z.lnot IEEE80211_FCTL_MOREFRAGS = fc.
Proof.
  unfold ieee80211_has_morefrags. change IEEE80211_FCTL_MOREFRAGS with (2 ^ 10). rewrite nz_land_pow2 by lia.
  intros Hb. apply Z.bits_inj'. intros i Hi. rewrite Z.land_spec, Z.lnot_spec, Z.pow2_bits_eqb by lia.
  destruct (Z.eqb_spec 10 i) as [<-|]; [by rewrite Hb|]. apply andb_true_r.
Qed.

Lemma header_ok_more fc mid sc tl : header_ok fc mid sc tl -> header_ok (fc .| IEEE80211_FCTL_MOREFRAGS) mid sc tl.
Proof.
  intros [H1 H2 H3 H4 [H5 H6]]. split; [apply lor_is_uint; [lia|done|done]|done|done|by rewrite morefrags_hdrlen|].
  unfold ieee80211_is_ctl, ieee80211_is_ext in *. by rewrite !morefrags_other by done.
Qed.

Lemma frag_number sc n :
  sc .& IEEE80211_SCTL_FRAG = 0 -> 0 <= n < 16 ->
  (sc .| (n .& IEEE80211_SCTL_FRAG)) .& IEEE80211_SCTL_FRAG = n /\
  (sc .| (n .& IEEE80211_SCTL_FRAG)) .& IEEE80211_SCTL_SEQ = sc .& IEEE80211_SCTL_SEQ.
Proof.
  intros Hs Hn. change IEEE80211_SCTL_FRAG with (Z.ones 4) in *.
  assert (n .& Z.ones 4 = n) as -> by (rewrite Z.land_ones, Z.mod_small by lia; done). split.
  - rewrite Z.land_lor_distr_l, Hs, Z.lor_0_l, Z.land_ones, Z.mod_small by lia. done.
  - apply land_lor_away. apply Z.bits_inj'. intros i Hi. rewrite Z.land_spec, Z.bits_0.
    destruct (Z.lt_ge_cases i 4).
    + assert (i = 0 \/ i = 1 \/ i = 2 \/ i = 3) as [-> | [-> | [-> | ->]]] by lia; apply andb_false_r.
    + rewrite (uint_testbit_high 4 n) by (unfold is_uint; lia). done.
Qed.

Lemma frag_sc_uint sc n : is_uint 16 sc -> is_uint 16 (sc .| (n .& IEEE80211_SCTL_FRAG)).
Proof.
  intros Hs. apply lor_is_uint; [lia|done|]. apply land_is_uint; [lia|]. done.
Qed.

Lemma header_ok_sc fc mid sc sc' tl : header_ok fc mid sc tl -> is_uint 16 sc' -> header_ok fc mid sc' tl.
Proof. intros [] ?. by split. Qed.

(** ** Receiving the fragments in order *)

Section feed.
Context (HZ : Z) `{SkbAlloc, !SkbAllocLaws}.

(** The slot filled last is the first one the search looks at. *)
Definition latest (c : ieee80211_fragment_cache) : Z :=
  if next c - 1 <? 0 then IEEE80211_FRAGMENT_MAX - 1 else next c - 1.

Lemma find_latest c e first rest r :
  entries c !! Z.to_nat (latest c) = Some e -> entry_holds HZ e first rest ->
  continues HZ first (zlen rest + 1) r -> frame_ok r ->
  24 <= zlen (rc_data r) ->
  ieee80211_reassemble_find HZ (rc_time r) c (rc_frag r) (rc_sn r) (rx_seqno_idx (rc_meta r)) (rc_data r) =
    Some (Some (latest c), c).
Proof.
  intros He Hh [C1 C2 C3 C4 C5 C6 C7 C8] Hr Hl. unfold ieee80211_reassemble_find.
  change (Z.to_nat IEEE80211_FRAGMENT_MAX) with 4%nat. cbn [find_loop]. fold (latest c).
  rewrite He, bind_some. destruct (eh_list _ _ _ _ Hh) as (skbs & El & _). rewrite El.
  rewrite (eh_seq _ _ _ _ Hh), (eh_queue _ _ _ _ Hh), (eh_last _ _ _ _ Hh), C1, C2, C3, !Z.eqb_refl.
  cbn [negb orb]. change (data (rc_skb first)) with (rc_data first).
  destruct (eh_frame _ _ _ _ Hh) as [Fc Fe].
  pose proof (frame_hdrlen first (eh_ok _ _ _ _ Hh) Fc Fe) as Hlf.
  rewrite same_header_spec by (done || lia || apply (eh_ok _ _ _ _ Hh)). rewrite bind_some.
  rewrite bool_decide_eq_true_2 by done. cbn [negb]. rewrite (eh_time _ _ _ _ Hh).
  unfold not_too_late in C7. by rewrite C7.
Qed.

(** A fragment that continues the latest transmission. *)
Lemma next_fragment c e first rest r a1 :
  entries c !! Z.to_nat (latest c) = Some e -> entry_holds HZ e first rest ->
  continues HZ first (zlen rest + 1) r -> frame_ok r ->
  ieee80211_is_ctl (rc_fc r) = false -> ieee80211_is_ext (rc_fc r) = false ->
  rd8 (rc_data r) ADDR1 = Some a1 -> is_multicast_ether_addr a1 = false -> linearize_ok (rc_meta r) = true ->
  zlen (concat (map rc_body rest)) + zlen (rc_body r) <= U16_MAX ->
  (forall s n, pskb_expand_head s n <> None) ->
  exists c' out, ieee80211_rx_h_defragment HZ (rc_time r) (rc_meta r) c (rc_skb r) = Some (out, c') /\
    if ieee80211_has_morefrags (rc_fc r) then
      out = (RX_QUEUED, None) /\ next c' = next c /\
      exists e', entries c' !! Z.to_nat (latest c) = Some e' /\ entry_holds HZ e' first (rest ++ [r])
    else exists s, out = (RX_CONTINUE, Some s) /\
      data s = rc_data first ++ concat (map rc_body (rest ++ [r])).
Proof.
  intros He Hh Hct Hr Hctl Hext Ha Hmc Hlin Htot Hexp. pose proof (frame_hdrlen r Hr Hctl Hext) as Hl.
  pose proof (zlen_nonneg rest). unfold ieee80211_rx_h_defragment.
  change (data (rc_skb r)) with (rc_data r). rewrite (frame_fc r), bind_some, Hctl, Hext by done. cbn [orb].
  rewrite (frame_sc r), bind_some by lia. cbv zeta. change (rc_sc r .& IEEE80211_SCTL_FRAG) with (rc_frag r).
  change ((rc_sc r .& IEEE80211_SCTL_SEQ) >> 4) with (rc_sn r).
  destruct (Z.eqb_spec (rc_frag r) 0) as [E0|_]; [rewrite (ct_frag _ _ _ _ Hct) in E0; lia|].
  rewrite andb_false_r, Ha, bind_some, Hmc, Hlin. cbn [negb].
  rewrite (find_latest c e first rest r) by (done || lia). rewrite bind_some, He, bind_some.
  pose proof (check_fragment_spec HZ e first rest r Hh Hr) as Hchk.
  destruct (check_fragment _ _ e) as [v|e']; [by destruct Hchk; apply Hct|]. destruct Hchk as (_ & pn & -> & Hpn).
  destruct (pull_body r Hr Hctl Hext) as (s & Es & Hd & Hls). rewrite Es, bind_some.
  change (extra_len (set_last_pn e pn)) with (extra_len e).
  destruct (eh_extra _ _ _ _ Hh) as [Hx1 Hx2]. pose proof (zlen_nonneg (concat (map rc_body rest))).
  pose proof (zlen_nonneg (data s)).
  assert (extra_len e + skb_len s <= U16_MAX) as Hlen by (unfold skb_len; rewrite Hd; lia).
  rewrite (wrap_small 32) by (unfold is_uint, U16_MAX, skb_len in *; lia).
  destruct (Z.ltb_spec U16_MAX (extra_len e + skb_len s)); [lia|]. rewrite (ct_frag _ _ _ _ Hct).
  destruct (ieee80211_has_morefrags (rc_fc r)) eqn:Em.
  - eexists _, (RX_QUEUED, None). split; [reflexivity|]. split; [done|]. split; [done|].
    eexists. cbn [set_fentry entries]. rewrite list_lookup_insert_eq by (by apply lookup_lt_Some in He).
    split; [done|]. by apply add_fragment_holds.
  - destruct (join_core HZ c (latest c) e first rest r pn s Hh Hd Hlen) as (c' & _ & [[_ [n Hn]]|(s' & E & Hds)]);
      [by destruct (Hexp (rc_skb first) n)|].
    exists c', (RX_CONTINUE, Some s'). split; [exact E|]. by exists s'.
Qed.
End feed.

Section roundtrip.
Context (HZ : Z) `{SkbAlloc, !SkbAllocLaws} (Hexp : forall s n, pskb_expand_head s n <> None).
Context (fc sc : Z) (mid tl : list Z) (Hh : header_ok fc mid sc tl).
Context (Hmore : ieee80211_has_morefrags fc = false) (Hfrag : sc .& IEEE80211_SCTL_FRAG = 0).
Context (a1 : Z) (Ha1 : rd8 (frame_bytes fc mid sc tl []) ADDR1 = Some a1).
Context (Hmc : is_multicast_ether_addr a1 = false).

(** The facts about a received frame of known bytes. *)
Record piece (r : received) (more : bool) (n : Z) (d : list Z) : Prop := {
  pc_more : ieee80211_has_morefrags (rc_fc r) = more;
  pc_type : rc_fc r .& IEEE80211_FCTL_FTYPE = fc .& IEEE80211_FCTL_FTYPE;
  pc_ctl : ieee80211_is_ctl (rc_fc r) = false;
  pc_ext : ieee80211_is_ext (rc_fc r) = false;
  pc_frag : rc_frag r = n;
  pc_sn : rc_sn r = (sc .& IEEE80211_SCTL_SEQ) >> 4;
  pc_body : rc_body r = d;
  pc_a1 : rd8 (rc_data r) ADDR1 = Some a1;
  pc_addr1 : slice (rc_data r) ADDR1 6 = slice (frame_bytes fc mid sc tl []) ADDR1 6;
  pc_addr2 : slice (rc_data r) ADDR2 6 = slice (frame_bytes fc mid sc tl []) ADDR2 6;
}.

Lemma piece_of r (more : bool) n d :
  rc_data r = frame_bytes (if more then fc .| IEEE80211_FCTL_MOREFRAGS
                           else fc .& Z.lnot IEEE80211_FCTL_MOREFRAGS) mid (sc .| (n .& IEEE80211_SCTL_FRAG)) tl d ->
  0 <= n < 16 -> piece r more n d.
Proof.
  intros Ed Hn. set (fc' := if more then _ else _) in Ed.
  assert (header_ok fc' mid (sc .| (n .& IEEE80211_SCTL_FRAG)) tl) as Hh'.
  { apply (header_ok_sc _ _ sc); [|apply frag_sc_uint, Hh].
    unfold fc'. destruct more; [by apply header_ok_more|by rewrite morefrags_clear]. }
  assert (rc_fc r = fc') as Efc by (unfold rc_fc; rewrite Ed, frame_bytes_fc; [done|apply Hh']).
  assert (rc_sc r = sc .| (n .& IEEE80211_SCTL_FRAG)) as Esc.
  { unfold rc_sc. rewrite Ed, frame_bytes_sc; [done|apply Hh'|apply Hh']. }
  destruct (frag_number sc n Hfrag Hn) as [Hf Hs]. destruct (ho_type _ _ _ _ Hh') as [Hc He].
  split; unfold rc_frag, rc_sn, rc_body; rewrite ?Efc, ?Esc, ?Hf, ?Hs; try done.
  - unfold fc'. destruct more; [apply morefrags_set|by rewrite morefrags_clear].
  - unfold fc'. destruct more; [by apply morefrags_other|by rewrite morefrags_clear].
  - rewrite Ed. by apply (frame_bytes_body fc' mid (sc .| (n .& IEEE80211_SCTL_FRAG))).
  - rewrite Ed, <- Ha1. apply frame_bytes_a1, Hh.
  - rewrite Ed. unfold ADDR1. apply frame_bytes_slice; [apply Hh|lia..].
  - rewrite Ed. unfold ADDR2. apply frame_bytes_slice; [apply Hh|lia..].
Qed.

(** How the fragments reach the handler: in time, on one queue, with one
    protection, in buffers the kernel can linearise. *)
Record arrives (first : received) (n : Z) (r : received) : Prop := {
  ar_ok : frame_ok r;
  ar_lin : linearize_ok (rc_meta r) = true;
  ar_queue : rx_seqno_idx (rc_meta r) = rx_seqno_idx (rc_meta first);
  ar_time : not_too_late HZ first r;
  ar_protection : same_protection first n r;
}.

Lemma feed_rest ds first d0 rest c e rs :
  piece first true 0 d0 -> ds <> [] -> zlen rest + 1 + zlen ds <= 16 ->
  entries c !! Z.to_nat (latest c) = Some e -> entry_holds HZ e first rest ->
  map rc_data rs = frag_bufs fc sc mid tl (zlen rest + 1) ds ->
  (forall i r, rs !! i = Some r -> arrives first (zlen rest + 1 + Z.of_nat i) r) ->
  zlen (concat (map rc_body rest)) + zlen (concat ds) <= U16_MAX ->
  exists outs s c', defrag_run HZ c rs = Some (outs ++ [(RX_CONTINUE, Some s)], c') /\
    Forall (eq (RX_QUEUED, None)) outs /\
    data s = rc_data first ++ concat (map rc_body rest) ++ concat ds.
Proof.
  intros Hf. revert rest c e rs. induction ds as [|d ds IH]; intros rest c e rs Hne Hn He Hholds Hrs Har Htot; [done|].
  destruct rs as [|r rs]; [done|]. cbn [map frag_bufs] in Hrs. injection Hrs as Hr Hrs.
  pose proof (zlen_nonneg rest). pose proof (zlen_nonneg ds). cbn [concat] in Htot. zlens.
  pose proof (zlen_nonneg (concat ds)).
  assert (piece r (negb (bool_decide (ds = []))) (zlen rest + 1) d) as Hp.
  { apply piece_of; [|lia]. rewrite Hr. by destruct (bool_decide (ds = [])). }
  destruct (Har O r eq_refl) as [A1 A2 A3 A4 A5]. rewrite Z.add_0_r in A5.
  assert (continues HZ first (zlen rest + 1) r) as Hct.
  { split; rewrite ?(pc_frag _ _ _ _ Hp), ?(pc_sn _ _ _ _ Hp), ?(pc_sn _ _ _ _ Hf), ?(pc_type _ _ _ _ Hp),
      ?(pc_type _ _ _ _ Hf), ?(pc_addr1 _ _ _ _ Hp), ?(pc_addr1 _ _ _ _ Hf), ?(pc_addr2 _ _ _ _ Hp),
      ?(pc_addr2 _ _ _ _ Hf); done. }
  destruct (next_fragment HZ c e first rest r a1) as (c1 & out & E & Hout); try done; try apply Hp.
  { rewrite (pc_body _ _ _ _ Hp). lia. }
  cbn [defrag_run]. rewrite E, bind_some. destruct out as [v oskb]. rewrite (pc_more _ _ _ _ Hp) in Hout.
  case_bool_decide as Eds; cbn [negb] in Hout.
  - subst ds. destruct rs; [|done]. cbn [defrag_run]. rewrite bind_some. destruct Hout as (s & [= -> ->] & Hs).
    exists [], s, c1. split; [done|]. split; [constructor|]. rewrite Hs, map_app, concat_app. cbn [map concat].
    by rewrite (pc_body _ _ _ _ Hp).
  - destruct Hout as ([= -> ->] & Hnext & e' & He' & Hh').
    assert (latest c1 = latest c) as El by (unfold latest; by rewrite Hnext).
    destruct (IH (rest ++ [r]) c1 e' rs) as (outs & s & c' & E2 & Ho & Hs).
    + done.
    + zlens. lia.
    + by rewrite El.
    + done.
    + zlens. by replace (zlen rest + (1 + 0) + 1) with (zlen rest + 1 + 1) by lia.
    + intros i x Hx. zlens. replace (zlen rest + (1 + 0) + 1 + Z.of_nat i) with (zlen rest + 1 + Z.of_nat (S i)) by lia.
      by apply Har.
    + rewrite map_app, concat_app. zlens. cbn [map concat]. rewrite app_nil_r, (pc_body _ _ _ _ Hp). lia.
    + rewrite E2, bind_some. exists ((RX_QUEUED, None) :: outs), s, c'. split; [done|]. split; [by constructor|].
      rewrite Hs, map_app, concat_app. cbn [map concat]. by rewrite app_nil_r, (pc_body _ _ _ _ Hp), <- app_assoc.
Qed.

Lemma first_fragment hist c r d :
  cache_inv HZ hist c -> piece r true 0 d -> frame_ok r -> linearize_ok (rc_meta r) = true ->
  exists c' e', ieee80211_rx_h_defragment HZ (rc_time r) (rc_meta r) c (rc_skb r) = Some (RX_QUEUED, None, c') /\
    entries c' !! Z.to_nat (latest c') = Some e' /\ entry_holds HZ e' r [].
Proof.
  intros Hc Hp Hr Hlin. pose proof (ci_next _ _ _ Hc) as Hn.
  pose proof (frame_hdrlen r Hr (pc_ctl _ _ _ _ Hp) (pc_ext _ _ _ _ Hp)) as Hl.
  destruct (cache_entry HZ hist c (next c) Hc Hn) as (e0 & He0 & _).
  unfold ieee80211_rx_h_defragment, ieee80211_reassemble_add. change (data (rc_skb r)) with (rc_data r).
  rewrite (frame_fc r), bind_some, (pc_ctl _ _ _ _ Hp), (pc_ext _ _ _ _ Hp) by done. cbn [orb].
  rewrite (frame_sc r), bind_some by lia. cbv zeta. change (rc_sc r .& IEEE80211_SCTL_FRAG) with (rc_frag r).
  change ((rc_sc r .& IEEE80211_SCTL_SEQ) >> 4) with (rc_sn r).
  rewrite (pc_more _ _ _ _ Hp), (pc_frag _ _ _ _ Hp), (pc_a1 _ _ _ _ Hp), bind_some, Hmc, Hlin. cbn [negb andb Z.eqb].
  rewrite He0, bind_some, bind_some. eexists _, _. split; [reflexivity|]. unfold set_fentry. cbn [entries next].
  set (e' := match rx_key_of (rc_meta r) with Some _ => _ | None => _ end).
  assert (latest (mk_fcache (<[Z.to_nat (next c) := e']> (entries c))
    (if IEEE80211_FRAGMENT_MAX <=? u32 (next c + 1) then 0 else u32 (next c + 1))) = next c) as El.
  { unfold latest. cbn [next]. rewrite wrap_small by (unfold is_uint; lia). unfold IEEE80211_FRAGMENT_MAX.
    destruct (Z.leb_spec 4 (next c + 1)); zcase; lia. }
  rewrite list_insert_insert_eq, El, list_lookup_insert_eq by (rewrite (ci_length _ _ _ Hc); lia).
  split; [reflexivity|]. apply (first_entry_holds HZ e0 r); try done; apply Hp.
Qed.
End roundtrip.

Lemma frag_bufs_length fc sc mid tl n ds : length (frag_bufs fc sc mid tl n ds) = length ds.
Proof. revert n. induction ds as [|d ds IH]; intros n; [done|]. cbn [frag_bufs length]. by rewrite IH. Qed.

Lemma frag_bufs_size fc sc mid tl n ds per :
  header_ok fc mid sc tl -> Forall (fun d => zlen d <= per) ds ->
  Forall (fun b => zlen b <= ieee80211_hdrlen fc + per) (frag_bufs fc sc mid tl n ds).
Proof.
  intros Hh Hd. revert n. induction Hd as [|d ds Hd _ IH]; intros n; cbn [frag_bufs]; constructor; [|apply IH].
  pose proof (ho_mid _ _ _ _ Hh) as Hm. pose proof (ho_tl _ _ _ _ Hh) as Ht.
  unfold frame_bytes. zlens. unfold zlen in *. rewrite Hm. cbn [length le16_bytes]. lia.
Qed.

(** ** Properties *)

(** C15: Reassembly cannot be tricked into mixing transmissions.  For any
    sequence of received frames, starting with an empty cache, the handler
    never faults, and every fragment that completes a frame yields the header
    of a fragment number 0 followed by the bodies of fragments received in
    this order and numbered 0, 1, 2, ..., all with one sequence number, frame
    type, transmitter, receiver and queue, each received within two seconds of
    the first one; if the first was protected, all were protected by a key of
    the same color, and under CCMP and GCMP with consecutive packet numbers. *)
Theorem reassembly_safe HZ `{SkbAllocLaws} rs :
  Forall frame_ok rs ->
  exists outs c, defrag_run HZ ieee80211_init_frag_cache rs = Some (outs, c) /\ length outs = length rs /\
    forall i r s, rs !! i = Some r -> outs !! i = Some (RX_CONTINUE, Some s) -> is_fragment r = true ->
      exists first rest, (first :: rest) ++ [r] `sublist_of` take (S i) rs /\
        chain HZ first (rest ++ [r]) /\ ieee80211_has_morefrags (rc_fc r) = false /\
        data s = rc_data first ++ concat (map rc_body (rest ++ [r])).
Proof.
  intros Hok. destruct (defrag_run_ok HZ [] ieee80211_init_frag_cache rs (init_inv HZ) Hok)
    as (outs & c & E & Hl & _ & Ho).
  exists outs, c. split; [done|]. split; [done|]. exact Ho.
Qed.

(** C16: Fragmentation and reassembly are inverse.  A unicast data or management
    frame too long for the fragmentation threshold is sent as at most sixteen
    fragments, none longer than the threshold; a receiver that gets them in
    order, in time, on one queue and with one protection, queues all but the
    last, and on the last delivers the frame with its whole body, whatever is
    in its fragment cache. *)
Theorem fragment_roundtrip HZ `{SkbAllocLaws} alloc thr f fc mid sc tl body a1 :
  (forall n, alloc n = true) -> (forall s n, pskb_expand_head s n <> None) ->
  header_ok fc mid sc tl -> fbuf f = frame_bytes fc mid sc tl body ->
  flag_set (fflags f) IEEE80211_TX_CTL_DONTFRAG = false -> flag_set (fflags f) IEEE80211_TX_CTL_AMPDU = false ->
  ieee80211_has_morefrags fc = false -> sc .& IEEE80211_SCTL_FRAG = 0 ->
  rd8 (frame_bytes fc mid sc tl []) ADDR1 = Some a1 -> is_multicast_ether_addr a1 = false ->
  let per := thr - ieee80211_hdrlen fc - FCS_LEN in
  1 <= per -> per < zlen body <= 16 * per -> zlen body <= U16_MAX ->
  exists frs, ieee80211_tx_h_fragment alloc false thr f = Some (TX_CONTINUE, frs) /\
    (2 <= length frs <= 16)%nat /\ Forall (fun f => zlen (fbuf f) + FCS_LEN <= thr) frs /\
    forall hist c first rs,
      cache_inv HZ hist c -> map rc_data (first :: rs) = map fbuf frs ->
      frame_ok first -> linearize_ok (rc_meta first) = true ->
      (forall i r, rs !! i = Some r -> arrives HZ first (Z.of_nat i + 1) r) ->
      exists outs s c', defrag_run HZ c (first :: rs) = Some (outs ++ [(RX_CONTINUE, Some s)], c') /\
        Forall (eq (RX_QUEUED, None)) outs /\
        data s = frame_bytes (fc .| IEEE80211_FCTL_MOREFRAGS) mid sc tl body.
Proof.
  intros Ha Hexp Hh Hf Hd Hamp Hmore Hfrag Ha1 Hmc per Hper Hbody Hmax.
  destruct (tx_fragment_spec alloc thr f fc mid sc tl body Ha Hh Hf Hd Hamp)
    as (d0 & ds & frs & E & Hb & Hds & Hcat & Hd0 & Hsz & Hn); [done|apply Hbody|]. fold per in Hd0, Hsz, Hn.
  assert (length frs = S (length ds)) as Hlen.
  { rewrite <- (length_map fbuf frs), Hb, frag_bufs_length. done. }
  assert (Z.of_nat (length ds) <= 15) as Hds15 by nia.
  exists frs. split; [done|]. split; [destruct ds; [done|cbn [length] in *; lia]|]. split.
  { assert (Forall (fun b => zlen b + FCS_LEN <= thr) (map fbuf frs)) as Hx; [|exact (proj1 (Forall_map _ _ _) Hx)].
    rewrite Hb. eapply Forall_impl.
    - apply (frag_bufs_size fc sc mid tl 0 (d0 :: ds) per Hh). constructor; [lia|].
      eapply Forall_impl; [exact Hsz|]. cbn. lia.
    - cbn. intros b Hbl. unfold per in Hbl. lia. }
  intros hist c first rs Hc Hrs Hok Hlin Har. rewrite Hb in Hrs. cbn [map frag_bufs] in Hrs.
  injection Hrs as Hr0 Hrs. rewrite bool_decide_eq_false_2 in Hr0 by done.
  assert (piece fc sc mid tl a1 first true 0 d0) as Hp by (apply piece_of; (done || lia)).
  destruct (first_fragment HZ fc sc mid tl a1 Hmc hist c first d0 Hc Hp Hok Hlin) as (c1 & e & E1 & He & Hholds).
  cbn [defrag_run]. rewrite E1, bind_some.
  destruct (feed_rest HZ Hexp fc sc mid tl Hh Hmore Hfrag a1 Ha1 Hmc ds first d0 [] c1 e rs Hp Hds)
    as (outs & s & c' & E2 & Ho & Hs).
  - unfold zlen. cbn [length]. lia.
  - done.
  - done.
  - exact Hrs.
  - intros i r Hr. replace (zlen [] + 1 + Z.of_nat i) with (Z.of_nat i + 1) by (rewrite zlen_nil; lia). by apply Har.
  - cbn [map concat]. rewrite zlen_nil. pose proof (f_equal zlen Hcat) as Hz. zlens. lia.
  - rewrite E2, bind_some. exists ((RX_QUEUED, None) :: outs), s, c'. split; [done|]. split; [by constructor|].
    rewrite Hs, Hr0. cbn [map concat app]. rewrite <- Hcat. unfold frame_bytes. rewrite <- !app_assoc.
    change (0 .& IEEE80211_SCTL_FRAG) with 0. by rewrite Z.lor_0_r.
Qed.

(** A key of another color is reported as an expected-protection drop unless
    the packet numbers are checked: the last check of the chain never fires. *)
Theorem bad_color_check_unreachable m fc e :
  check_sequential_pn e = false -> check_fragment m fc e <> inl RX_DROP_U_BAD_KEY_COLOR.
Proof.
  intros Hs. unfold check_fragment. rewrite Hs. destruct (is_protected e); cbn [andb]; [|done].
  destruct (rx_key_of m) as [k|]; [|done]. rewrite (Z.eqb_sym (key_color e)).
  destruct (rk_color k =? key_color e), (_ && negb _); done.
Qed.

(** ** Concrete runs *)

Definition sample_mid : list Z := [0; 0] ++ replicate 18 2.

(** A received frame with the key color [color] and packet number [pn]. *)
Definition sample_rx (color pn : Z) (d : list Z) : received :=
  mk_received 5 (mk_meta (Some (mk_rx_key WLAN_CIPHER_SUITE_CCMP color [0; 0; 0; 0; 0; pn])) 0
    [0; 0; 0; 0; 0; pn] RX_FLAG_DECRYPTED true) (mk_skb [] d [] false).

Lemma sample_rx_ok color pn fc sc d :
  is_uint 8 pn -> is_uint 16 fc -> zlen d < 2 ^ 30 ->
  (ieee80211_is_ctl fc = false -> ieee80211_is_ext fc = false -> ieee80211_hdrlen fc = 24) ->
  frame_ok (sample_rx color pn (frame_bytes fc sample_mid sc [] d)).
Proof.
  intros Hp Hf Hd Hh.
  assert (zlen (frame_bytes fc sample_mid sc [] d) = 24 + zlen d) as Hl.
  { unfold frame_bytes. zlens. change (zlen sample_mid) with 20. change (zlen (le16_bytes _)) with 2. lia. }
  split.
  - exists fc. split; [by apply frame_bytes_fc|]. split; [done|]. intros Hc He. unfold rc_data. cbn [rc_skb data sample_rx].
    pose proof (zlen_nonneg d). rewrite Hl, Hh by done. lia.
  - unfold rc_data. cbn [rc_skb data sample_rx]. lia.
  - split; [done|]. repeat (apply Forall_cons; split; [done|]). apply Forall_nil_2.
  - intros k [= <-]. split; [done|]. repeat (apply Forall_cons; split; [done|]). apply Forall_nil_2.
Qed.

(** A protected data frame with the fragments 0 and 1 of number 7. *)
Definition sample_frag0 : list Z := frame_bytes 0x4408 sample_mid 0x70 [] [1; 2].
Definition sample_frag1 : list Z := frame_bytes 0x4008 sample_mid 0x71 [] [3].

(** The fragments of one transmission are joined; a fragment under a key of
    another color is refused. *)
Lemma reassembly_safe_witness :
  (exists outs c, defrag_run (H := Sample.alloc) 1000 ieee80211_init_frag_cache
      [sample_rx 1 9 sample_frag0; sample_rx 2 10 sample_frag1; sample_rx 1 10 sample_frag1] = Some (outs, c) /\
    length outs = 3%nat /\
    forall i r s, [sample_rx 1 9 sample_frag0; sample_rx 2 10 sample_frag1; sample_rx 1 10 sample_frag1] !! i = Some r ->
      outs !! i = Some (RX_CONTINUE, Some s) -> is_fragment r = true ->
      exists first rest, (first :: rest) ++ [r] `sublist_of`
          take (S i) [sample_rx 1 9 sample_frag0; sample_rx 2 10 sample_frag1; sample_rx 1 10 sample_frag1] /\
        chain 1000 first (rest ++ [r]) /\ ieee80211_has_morefrags (rc_fc r) = false /\
        data s = rc_data first ++ concat (map rc_body (rest ++ [r]))) /\
  (fun r => map fst r.1) <$> defrag_run (H := Sample.alloc) 1000 ieee80211_init_frag_cache
      [sample_rx 1 9 sample_frag0; sample_rx 2 10 sample_frag1; sample_rx 1 10 sample_frag1] =
    Some [RX_QUEUED; RX_DROP_U_BAD_KEY_COLOR; RX_CONTINUE].
Proof.
  split; [|by vm_compute].
  apply (reassembly_safe 1000 (H := Sample.alloc) (H0 := Sample.alloc_laws)).
  repeat (apply Forall_cons; split; [by apply sample_rx_ok|]). apply Forall_nil_2.
Defined.

(** A frame of 30 octets and a threshold of 40: three fragments. *)
Definition sample_long : tx_frag := mk_frag (frame_bytes 0x08 sample_mid 0x70 [] (replicate 30 7)) 0 [0].
Definition sample_fragments : list (list Z) :=
  match ieee80211_tx_h_fragment (fun _ => true) false 40 sample_long with
  | Some (_, frs) => map fbuf frs
  | None => []
  end.

Definition sample_clear (d : list Z) : received :=
  mk_received 5 (mk_meta None 0 (replicate 6 0) 0 true) (mk_skb [] d [] false).

Lemma sample_clear_ok fc sc d : is_uint 16 fc -> zlen d < 2 ^ 30 ->
  (ieee80211_is_ctl fc = false -> ieee80211_is_ext fc = false -> ieee80211_hdrlen fc = 24) ->
  frame_ok (sample_clear (frame_bytes fc sample_mid sc [] d)).
Proof.
  intros Hf Hd Hh. destruct (sample_rx_ok 0 0 fc sc d) as [H1 H2 _ _]; [done..|].
  split; [exact H1|exact H2|split; [done|by repeat constructor]|done].
Qed.

Lemma fragment_roundtrip_witness :
  exists outs s c', length sample_fragments = 3%nat /\
    defrag_run (H := Sample.alloc) 1000 ieee80211_init_frag_cache (map sample_clear sample_fragments) =
      Some (outs ++ [(RX_CONTINUE, Some s)], c') /\
    data s = frame_bytes 0x408 sample_mid 0x70 [] (replicate 30 7).
Proof.
  destruct (fragment_roundtrip 1000 (H := Sample.alloc) (H0 := Sample.alloc_laws) (fun _ => true) 40 sample_long 0x08
    sample_mid 0x70 [] (replicate 30 7) 2) as (frs & E & _ & _ & Hrx); try done.
  destruct (Hrx [] ieee80211_init_frag_cache (sample_clear (frame_bytes 0x408 sample_mid 0x70 [] (replicate 12 7)))
    [sample_clear (frame_bytes 0x408 sample_mid 0x71 [] (replicate 12 7));
     sample_clear (frame_bytes 0x08 sample_mid 0x72 [] (replicate 6 7))]) as (outs & s & c' & Er & _ & Hs).
  - apply init_inv.
  - assert (sample_fragments = map fbuf frs) as <- by (unfold sample_fragments; by rewrite E). by vm_compute.
  - by apply sample_clear_ok.
  - done.
  - intros [|[|i]] r [= <-]; (split; [by apply sample_clear_ok|done..]).
  - exists outs, s, c'. split; [by vm_compute|]. split; [|exact Hs].
    rewrite <- Er. by vm_compute.
Defined.
