(* ===== verification/SequenceProofs.v ===== *)
(** * SequenceProofs: sequence numbers against duplicates

    The transmitter's numbering ([ieee80211_tx_h_sequence]) and the receiver's
    duplicate detection ([ieee80211_rx_h_check_dup]) together: however often
    frames are retransmitted or lost, each one that arrives is passed on
    exactly once. *)
From Stdlib Require Import Znumtheory.
From S2P Require Import Prelude Frame Skb Key Ccmp Fragment FragmentProofs.

(** ** Numbered frames *)

(** A frame without its sequence number. *)
Record unnumbered := mk_unnumbered { u_fc : Z; u_mid : list Z; u_tl : list Z; u_body : list Z }.

Definition numbered (u : unnumbered) (sc : Z) : list Z :=
  frame_bytes (u_fc u) (u_mid u) sc (u_tl u) (u_body u).

(** The copy of a frame with the retry bit as given. *)
Definition copy (u : unnumbered) (sc : Z) (retry : bool) : list Z :=
  frame_bytes (if retry then u_fc u .| IEEE80211_FCTL_RETRY else u_fc u) (u_mid u) sc (u_tl u) (u_body u).

(** A unicast QoS data frame of traffic class [tid], sent for the first time. *)
Record qos_frame (tid : Z) (u : unnumbered) : Prop := {
  qf_header : header_ok (u_fc u) (u_mid u) 0 (u_tl u);
  qf_qos : ieee80211_is_data_qos (u_fc u) = true;
  qf_data : ieee80211_is_any_nullfunc (u_fc u) = false;
  qf_tid : ieee80211_get_tid (numbered u 0) = Some tid;
  qf_unicast : exists a1, rd8 (numbered u 0) ADDR1 = Some a1 /\ is_multicast_ether_addr a1 = false;
  qf_first : ieee80211_has_retry (u_fc u) = false;
}.

(** The sequence control the [k]-th frame after [s] gets. *)
Definition nth_seq (s : Z) (k : nat) : Z := (s + 16 * Z.of_nat k) mod 65536.

Lemma numbered_fc u sc : is_uint 16 (u_fc u) -> hdr_frame_control (numbered u sc) = Some (u_fc u).
Proof. apply frame_bytes_fc. Qed.

Lemma copy_fc u sc r : is_uint 16 (if r : bool then u_fc u .| IEEE80211_FCTL_RETRY else u_fc u) ->
  hdr_frame_control (copy u sc r) = Some (if r then u_fc u .| IEEE80211_FCTL_RETRY else u_fc u).
Proof. apply frame_bytes_fc. Qed.

Lemma copy_sc u sc r : length (u_mid u) = 20%nat -> is_uint 16 sc -> hdr_seq_ctrl (copy u sc r) = Some sc.
Proof. apply frame_bytes_sc. Qed.

Lemma numbered_store u sc v : length (u_mid u) = 20%nat ->
  store (numbered u sc) 22 (le16_bytes v) = Some (numbered u v).
Proof.
  intros Hm. unfold numbered, frame_bytes. rewrite app_assoc.
  replace 22 with (zlen (le16_bytes (u_fc u) ++ u_mid u)) by (zlens; unfold zlen; rewrite Hm; done).
  rewrite store_app by done. by rewrite <- app_assoc.
Qed.

Lemma retry_other fc m : IEEE80211_FCTL_RETRY .& m = 0 -> (fc .| IEEE80211_FCTL_RETRY) .& m = fc .& m.
Proof. apply land_lor_away. Qed.

Lemma retry_set fc : ieee80211_has_retry (fc .| IEEE80211_FCTL_RETRY) = true.
Proof.
  unfold ieee80211_has_retry. change IEEE80211_FCTL_RETRY with (2 ^ 11).
  rewrite nz_land_pow2, Z.lor_spec, Z.pow2_bits_true by lia. apply orb_true_r.
Qed.

Lemma numbered_drop u sc sc' : header_ok (u_fc u) (u_mid u) 0 (u_tl u) ->
  drop 24 (numbered u sc) = drop 24 (numbered u sc').
Proof.
  intros Hh. unfold numbered, frame_bytes. rewrite !app_assoc.
  rewrite <- !app_assoc. rewrite !(app_assoc (le16_bytes (u_fc u))), !(app_assoc (_ ++ u_mid u)).
  rewrite !drop_app_length'; [done|..]; rewrite !length_app, (ho_mid _ _ _ _ Hh); done.
Qed.

Lemma rd8_drop d k off : 0 <= k <= off -> rd8 d off = rd8 (drop (Z.to_nat k) d) (off - k).
Proof. intros Hk. rewrite !rd8_lookup by lia. rewrite lookup_drop. f_equal. lia. Qed.

(** The traffic class does not depend on the sequence number. *)
Lemma numbered_tid u sc sc' : header_ok (u_fc u) (u_mid u) 0 (u_tl u) ->
  ieee80211_get_tid (numbered u sc) = ieee80211_get_tid (numbered u sc').
Proof.
  intros Hh. pose proof (ho_fc _ _ _ _ Hh) as Hf. unfold ieee80211_get_tid, ieee80211_get_qos_ctl.
  assert (forall x, hdr_frame_control (numbered u x) = Some (u_fc u)) as E by (intros x; by apply numbered_fc).
  rewrite !E, !bind_some.
  set (off := if ieee80211_has_a4 (u_fc u) then _ else _).
  assert (24 <= off) by (unfold off; destruct (ieee80211_has_a4 _); lia).
  rewrite (rd8_drop _ 24), (rd8_drop (numbered u sc') 24) by lia.
  change (Z.to_nat 24) with 24%nat. by rewrite (numbered_drop u sc sc').
Qed.

(** ** Transmission *)

Lemma seq_mask x : is_uint 16 x -> x mod 16 = 0 -> x .& IEEE80211_SCTL_SEQ = x.
Proof.
  intros Hx Hm. assert (x = (x / 16) << 4) as E.
  { rewrite Z.shiftl_mul_pow2 by lia. pose proof (Z_div_mod_eq_full x 16). lia. }
  rewrite E. change IEEE80211_SCTL_SEQ with (Z.ones 12 << 4). rewrite <- Z.shiftl_land.
  rewrite Z.land_ones, Z.mod_small by (unfold is_uint in Hx; pose proof (Z_div_mod_eq_full x 16); lia). done.
Qed.

Lemma nth_seq_ok s k : is_uint 16 (nth_seq s k) /\ (s mod 16 = 0 -> nth_seq s k mod 16 = 0).
Proof.
  unfold nth_seq, is_uint. split; [apply Z.mod_pos_bound; lia|]. intros Hs.
  rewrite <- Zmod_div_mod by (try lia; by exists 4096). rewrite Z.mul_comm, Z.mod_add by lia. done.
Qed.

Section tx.
Context (vif : tx_vif) (ctrl tid : Z) (Hvif : vif_monitor vif = false).
Context (Hctrl : flag_set ctrl IEEE80211_TX_CTRL_NO_SEQNO = false).

Lemma tx_sequence_step st f u sc0 s :
  fbuf f = numbered u sc0 -> is_uint 16 sc0 -> qos_frame tid u ->
  tid_seq st !! Z.to_nat tid = Some s -> is_uint 16 s -> s mod 16 = 0 ->
  exists st', ieee80211_tx_h_sequence vif true ctrl st f = Some (st', mk_frag (numbered u s) (fflags f) (frates f)) /\
    tid_seq st' !! Z.to_nat tid = Some (nth_seq s 1).
Proof.
  intros Hf Hsc Hu Ht Hs Hm. destruct Hu as [Hh Hq Hn Htid (a1 & Ha & Hmc) _].
  destruct (ho_type _ _ _ _ Hh) as [Hc He]. pose proof (hdrlen_long _ Hc He).
  unfold ieee80211_tx_h_sequence. rewrite Hf.
  rewrite numbered_fc, bind_some, Hvif, Hc by apply Hh. destruct (Z.ltb_spec (ieee80211_hdrlen (u_fc u)) 24); [lia|].
  unfold ieee80211_is_any_nullfunc in Hn. apply orb_false_iff in Hn as [Hn1 Hn2]. rewrite Hn2, Hctrl.
  assert (rd8 (numbered u sc0) ADDR1 = Some a1) as ->.
  { rewrite <- Ha. apply frame_bytes_a1, Hh. }
  rewrite bind_some, Hmc, Hq. cbn [andb negb orb]. rewrite (numbered_tid u sc0 0), Htid, bind_some by done.
  unfold ieee80211_tx_next_seq. change (tid_seq (count_msdu st tid)) with (tid_seq st). rewrite Ht, bind_some, bind_some.
  rewrite numbered_store, bind_some by apply Hh. eexists. split; [reflexivity|]. cbn [tid_seq].
  rewrite list_lookup_insert_eq by (by apply lookup_lt_Some in Ht). f_equal.
  change (u16 (s + 0x10)) with (nth_seq s 1). apply seq_mask; by apply nth_seq_ok.
Qed.

(** The frames [us], sent one after the other. *)
Fixpoint tx_run (st : seq_state) (fs : list tx_frag) : option (list (list Z)) :=
  match fs with
  | [] => Some []
  | f :: fs =>
      '(st, f) ← ieee80211_tx_h_sequence vif true ctrl st f;
      rest ← tx_run st fs;
      Some (fbuf f :: rest)
  end.

Lemma nth_seq_add s j k : nth_seq (nth_seq s j) k = nth_seq s (j + k).
Proof. unfold nth_seq. rewrite Zplus_mod_idemp_l. f_equal. lia. Qed.

Lemma tx_run_spec us sc0 st fs s :
  map fbuf fs = map (fun u => numbered u sc0) us -> is_uint 16 sc0 -> Forall (qos_frame tid) us ->
  tid_seq st !! Z.to_nat tid = Some s -> is_uint 16 s -> s mod 16 = 0 ->
  tx_run st fs = Some (imap (fun k u => numbered u (nth_seq s k)) us).
Proof.
  intros Hfs Hsc. revert st fs s Hfs. induction us as [|u us IH]; intros st [|f fs] s Hfs Hu Ht Hs Hm; try done.
  cbn [map] in Hfs. injection Hfs as Hf Hfs. apply Forall_cons in Hu as [Hu Hus].
  destruct (tx_sequence_step st f u sc0 s Hf Hsc Hu Ht Hs Hm) as (st' & E & Ht').
  cbn [tx_run]. rewrite E, bind_some. destruct (nth_seq_ok s 1) as [Hs' Hm'].
  rewrite (IH st' fs (nth_seq s 1) Hfs Hus Ht' Hs' (Hm' Hm)), bind_some. cbn [fbuf].
  rewrite imap_cons. f_equal. f_equal.
  - f_equal. unfold nth_seq. change (16 * Z.of_nat 0) with 0. rewrite Z.add_0_r, Z.mod_small; [done|exact Hs].
  - apply imap_ext. intros i x _. by rewrite nth_seq_add.
Qed.
End tx.

(** ** Reception *)

Section rx.
Context (mld : bool) (idx tid : Z).

Lemma rx_copy_step u sc r st last :
  qos_frame tid u -> is_uint 16 sc -> last_seq_ctrl st !! Z.to_nat idx = Some last ->
  ieee80211_rx_h_check_dup true mld idx 0 (copy u sc r) st =
    if r && (last =? sc)
    then Some (RX_DROP_U_DUP, mk_dup (last_seq_ctrl st) (u64 (num_duplicates st + 1)) (mcast_seq_last st))
    else Some (RX_CONTINUE, set_last_seq st idx sc).
Proof.
  intros [Hh Hq Hn Htid (a1 & Ha & Hmc) Hr] Hsc Hl. set (fc := if r then u_fc u .| IEEE80211_FCTL_RETRY else u_fc u).
  assert (forall m, IEEE80211_FCTL_RETRY .& m = 0 -> fc .& m = u_fc u .& m) as Hm.
  { intros m E. unfold fc. destruct r; [by apply retry_other|done]. }
  assert (is_uint 16 fc) as Hfc.
  { unfold fc. destruct r; [apply lor_is_uint; [lia|apply Hh|done]|apply Hh]. }
  assert (ieee80211_has_retry fc = r) as Hret by (unfold fc; destruct r; [apply retry_set|done]).
  destruct (ho_type _ _ _ _ Hh) as [Hc He].
  assert (24 <= zlen (copy u sc r)) as Hlen.
  { unfold copy, frame_bytes. pose proof (ho_mid _ _ _ _ Hh). zlens. unfold zlen. cbn [length le16_bytes]. lia. }
  unfold ieee80211_rx_h_check_dup. change (flag_set 0 RX_FLAG_DUP_VALIDATED) with false. cbv iota.
  rewrite copy_fc, bind_some by done. fold fc.
  unfold ieee80211_is_ext, ieee80211_is_ctl, ieee80211_is_any_nullfunc, ieee80211_is_nullfunc,
    ieee80211_is_qos_nullfunc in *. rewrite !Hm by done. rewrite He, Hc, Hn. cbn [orb negb].
  destruct (Z.ltb_spec (zlen (copy u sc r)) 24); [lia|].
  assert (rd8 (copy u sc r) ADDR1 = Some a1) as -> by (rewrite <- Ha; apply frame_bytes_a1, Hh).
  rewrite bind_some, Hmc, copy_sc, bind_some, Hl, bind_some by (apply Hh || done).
  rewrite Hret. destruct (r && (last =? sc)); [done|]. reflexivity.
Qed.

Fixpoint rx_run (st : dup_state) (frames : list (list Z)) : option (list rx_result * dup_state) :=
  match frames with
  | [] => Some ([], st)
  | d :: frames =>
      '(r, st) ← ieee80211_rx_h_check_dup true mld idx 0 d st;
      '(rs, st) ← rx_run st frames;
      Some (r :: rs, st)
  end.

Lemma rx_run_app st l1 l2 :
  rx_run st (l1 ++ l2) =
    '(r1, st) ← rx_run st l1; '(r2, st) ← rx_run st l2; Some (r1 ++ r2, st).
Proof.
  revert st. induction l1 as [|d l1 IH]; intros st; cbn [app rx_run].
  { rewrite bind_some. by destruct (rx_run st l2) as [[]|]. }
  destruct (ieee80211_rx_h_check_dup _ _ _ _ _ _) as [[r st1]|]; [|done]. cbn [mbind option_bind]. rewrite IH.
  destruct (rx_run st1 l1) as [[r1 st2]|]; [|done]. cbn [mbind option_bind].
  by destruct (rx_run st2 l2) as [[]|].
Qed.

(** Further copies of the frame received last are dropped. *)
Lemma rx_copies u sc n st :
  qos_frame tid u -> is_uint 16 sc -> last_seq_ctrl st !! Z.to_nat idx = Some sc ->
  exists st', rx_run st (replicate n (copy u sc true)) = Some (replicate n RX_DROP_U_DUP, st') /\
    last_seq_ctrl st' = last_seq_ctrl st.
Proof.
  intros Hu Hsc. revert st. induction n as [|n IH]; intros st Hl; cbn [replicate rx_run]; [by exists st|].
  rewrite (rx_copy_step u sc true st sc) by done. rewrite Z.eqb_refl. cbn [andb]. rewrite bind_some.
  set (st1 := mk_dup _ _ _). destruct (IH st1) as (st' & E & El); [done|]. rewrite E, bind_some. by exists st'.
Qed.
End rx.

(** ** From transmitter to receiver *)

(** A retransmission of the frame [d]. *)
Definition with_retry (d : list Z) : list Z :=
  match hdr_frame_control d with
  | Some fc => le16_bytes (fc .| IEEE80211_FCTL_RETRY) ++ drop 2 d
  | None => d
  end.

Lemma with_retry_copy u sc : is_uint 16 (u_fc u) -> with_retry (numbered u sc) = copy u sc true.
Proof. intros Hf. unfold with_retry. by rewrite numbered_fc. Qed.

(** The frame number [k] arrives [n + 1] times; [r]: its first transmission was
    not among them. *)
Record arrival := mk_arrival { ar_index : nat; ar_retry : bool; ar_extra : nat }.

Definition burst (sent : list (list Z)) (a : arrival) : list (list Z) :=
  match sent !! ar_index a with
  | Some d => (if ar_retry a then with_retry d else d) :: replicate (ar_extra a) (with_retry d)
  | None => []
  end.

Definition verdicts (a : arrival) : list rx_result := RX_CONTINUE :: replicate (ar_extra a) RX_DROP_U_DUP.

(** Arrivals in order, with fewer than 4096 numbers between neighbours. *)
Fixpoint in_order (prev : option nat) (arr : list arrival) : Prop :=
  match arr with
  | [] => True
  | a :: arr =>
      match prev with Some p => (p < ar_index a < p + 4096)%nat | None => True end /\
      in_order (Some (ar_index a)) arr
  end.

Lemma nth_seq_ne s j k : (j < k < j + 4096)%nat -> nth_seq s j <> nth_seq s k.
Proof.
  intros Hjk E. unfold nth_seq in E.
  assert ((16 * Z.of_nat k - 16 * Z.of_nat j) mod 65536 = 0) as Hz.
  { replace (16 * Z.of_nat k - 16 * Z.of_nat j) with ((s + 16 * Z.of_nat k) - (s + 16 * Z.of_nat j)) by lia.
    rewrite Zminus_mod, E, Z.sub_diag. done. }
  rewrite Z.mod_small in Hz by lia. lia.
Qed.

Section link.
Context (mld : bool) (idx tid s : Z) (us : list unnumbered) (Hus : Forall (qos_frame tid) us).

Let sent := imap (fun k u => numbered u (nth_seq s k)) us.

Lemma rx_burst a st last :
  (ar_index a < length us)%nat -> last_seq_ctrl st !! Z.to_nat idx = Some last ->
  last <> nth_seq s (ar_index a) ->
  exists st', rx_run mld idx st (burst sent a) = Some (verdicts a, st') /\
    last_seq_ctrl st' !! Z.to_nat idx = Some (nth_seq s (ar_index a)).
Proof.
  intros Hk Hl Hne. destruct (lookup_lt_is_Some_2 us (ar_index a) Hk) as [u Eu].
  assert (qos_frame tid u) as Hu by (by eapply Forall_lookup_1). pose proof (qf_header _ _ Hu) as Hh.
  unfold burst, sent. rewrite list_lookup_imap, Eu. cbn [fmap option_fmap option_map].
  set (sc := nth_seq s (ar_index a)) in *. assert (is_uint 16 sc) as Hsc by apply nth_seq_ok.
  rewrite with_retry_copy by apply Hh.
  assert ((if ar_retry a then copy u sc true else numbered u sc) = copy u sc (ar_retry a)) as ->
    by (by destruct (ar_retry a)).
  cbn [rx_run]. rewrite (rx_copy_step mld idx tid u sc (ar_retry a) st last) by done.
  destruct (Z.eqb_spec last sc); [done|]. rewrite andb_false_r, bind_some.
  assert (last_seq_ctrl (set_last_seq st idx sc) !! Z.to_nat idx = Some sc) as Hl1.
  { cbn. rewrite list_lookup_insert_eq; [done|]. by apply lookup_lt_Some in Hl. }
  destruct (rx_copies mld idx tid u sc (ar_extra a) _ Hu Hsc Hl1) as (st' & E & El).
  rewrite E, bind_some. exists st'. split; [done|]. by rewrite El.
Qed.

Lemma rx_bursts arr prev st last :
  Forall (fun a => (ar_index a < length us)%nat) arr -> in_order prev arr ->
  last_seq_ctrl st !! Z.to_nat idx = Some last ->
  match prev with Some p => last = nth_seq s p | None => forall k, last <> nth_seq s k end ->
  exists st', rx_run mld idx st (concat (map (burst sent) arr)) = Some (concat (map verdicts arr), st').
Proof.
  revert prev st last. induction arr as [|a arr IH]; intros prev st last Hb Ho Hl Hp; cbn [map concat].
  { by exists st. }
  apply Forall_cons in Hb as [Ha Hb]. destruct Ho as [Hk Ho].
  assert (last <> nth_seq s (ar_index a)) as Hne.
  { destruct prev as [p|]; [|done]. rewrite Hp. by apply nth_seq_ne. }
  destruct (rx_burst a st last Ha Hl Hne) as (st1 & E1 & Hl1).
  destruct (IH (Some (ar_index a)) st1 _ Hb Ho Hl1 eq_refl) as (st2 & E2).
  exists st2. by rewrite rx_run_app, E1, bind_some, E2, bind_some.
Qed.
End link.

(** ** Property *)

(** C17: Retransmissions are filtered, fresh frames never.  A station sends
    unicast QoS data frames of one traffic class; the sequence handler numbers
    them.  The receiver, whose counter starts at its initial value, gets any
    of them in order, each any number of times (the first copy that arrives may
    itself be a retransmission), with fewer than 4096 lost in a row.  Then the
    duplicate check passes exactly one copy of each frame that arrives, the
    first one, and drops the others. *)
Theorem numbered_exactly_once vif ctrl tid st s fs us sc0 mld idx rst arr :
  vif_monitor vif = false -> flag_set ctrl IEEE80211_TX_CTRL_NO_SEQNO = false ->
  map fbuf fs = map (fun u => numbered u sc0) us -> is_uint 16 sc0 -> Forall (qos_frame tid) us ->
  tid_seq st !! Z.to_nat tid = Some s -> is_uint 16 s -> s mod 16 = 0 ->
  last_seq_ctrl rst !! Z.to_nat idx = Some 0xffff ->
  Forall (fun a => (ar_index a < length us)%nat) arr -> in_order None arr ->
  exists sent rst', tx_run vif ctrl st fs = Some sent /\ length sent = length us /\
    rx_run mld idx rst (concat (map (burst sent) arr)) = Some (concat (map verdicts arr), rst').
Proof.
  intros Hv Hc Hfs Hsc Hus Ht Hs Hm Hl Hb Ho.
  pose proof (tx_run_spec vif ctrl tid Hv Hc us sc0 st fs s Hfs Hsc Hus Ht Hs Hm) as E.
  destruct (rx_bursts mld idx tid s us Hus arr None rst 0xffff Hb Ho Hl) as (rst' & Er).
  - intros k Ek. pose proof (proj2 (nth_seq_ok s k) Hm) as H16. rewrite <- Ek in H16. discriminate H16.
  - eexists _, rst'. split; [exact E|]. split; [by rewrite length_imap|exact Er].
Qed.

Definition sample_qos (body : list Z) : unnumbered := mk_unnumbered 0x88 (replicate 20 2) [5; 0] body.

Lemma sample_qos_ok body : qos_frame 5 (sample_qos body).
Proof. split; [by split|done|done|done|by exists 2|done]. Qed.

(** Three frames across the wrap of the sequence number; the second one is lost. *)
Lemma numbered_exactly_once_witness :
  exists sent rst', tx_run (mk_vif false false false) 0 (mk_seq 0 0 (replicate 16 0xffe0) (replicate 17 0))
      (map (fun b => mk_frag (numbered (sample_qos [b]) 0) 0 []) [1; 2; 3]) = Some sent /\ length sent = 3%nat /\
    rx_run false 5 (mk_dup (replicate 17 0xffff) 0 4096)
      (concat (map (burst sent) [mk_arrival 0 true 1; mk_arrival 2 false 2])) =
    Some ([RX_CONTINUE; RX_DROP_U_DUP; RX_CONTINUE; RX_DROP_U_DUP; RX_DROP_U_DUP], rst').
Proof.
  apply (numbered_exactly_once (mk_vif false false false) 0 5 (mk_seq 0 0 (replicate 16 0xffe0) (replicate 17 0)) 0xffe0
    _ [sample_qos [1]; sample_qos [2]; sample_qos [3]] 0 false 5 (mk_dup (replicate 17 0xffff) 0 4096)
    [mk_arrival 0 true 1; mk_arrival 2 false 2]); try done.
  - repeat (apply Forall_cons; split; [apply sample_qos_ok|]). apply Forall_nil_2.
  - repeat (apply Forall_cons; split; [cbn; lia|]). apply Forall_nil_2.
  - split; [done|]. split; [cbn; lia|done].
Defined.
