(* ===== verification/Agg.v ===== *)
(** * Agg: block-acknowledgment sessions of one station, data and interrupts

    A transmit session is set up by the work of the station and by frames of
    the peer, which run one after the other under the wiphy mutex; between and
    inside them the driver, the rate control algorithm, the transmit path and
    timers set bits and queue frames ([net/mac80211/agg-tx.c], [agg-rx.c],
    [ht.c], [tx.c]).  This file has the state, the operations that may
    interrupt, and the monad in which [AggTx] and [AggRx] write the handlers:
    [preempt] marks the places where interrupts can happen.  What happens under
    the spin lock of the station is not interrupted. *)
From stdpp Require Import gmap strings.
From S2P Require Import Prelude Frame Key Amsdu Reorder.

(** ** State

    Bits of [tid_ampdu_tx.state]. *)
Definition HT_AGG_STATE_DRV_READY : Z := 0.
Definition HT_AGG_STATE_RESPONSE_RECEIVED : Z := 1.
Definition HT_AGG_STATE_OPERATIONAL : Z := 2.
Definition HT_AGG_STATE_STOPPING : Z := 3.
Definition HT_AGG_STATE_WANT_START : Z := 4.
Definition HT_AGG_STATE_WANT_STOP : Z := 5.
Definition HT_AGG_STATE_START_CB : Z := 6.
Definition HT_AGG_STATE_STOP_CB : Z := 7.
Definition HT_AGG_STATE_SENT_ADDBA : Z := 8.

Definition HT_AGG_MAX_RETRIES : Z := 15.
Definition HT_AGG_BURST_RETRIES : Z := 3.
Definition STA_MAX_TX_BUFFER : Z := 64.
Definition IEEE80211_FIRST_TSPEC_TSID : Z := 8.
Definition EALREADY : Z := 114.
Definition EAGAIN : Z := 11.
Definition EBUSY : Z := 16.

(** [struct tid_ampdu_tx]: a transmit session.  A timer is the time it is armed
    for.  [state] holds the bits below. *)
Record tid_ampdu_tx := mk_tid_tx {
  state : Z;
  last_tx : Z;
  tx_timeout : Z;
  dialog_token : Z;
  stop_initiator : Z;
  tx_stop : bool;
  tx_buf_size : Z;
  tx_ssn : Z;
  amsdu : bool;
  ndp : bool;
  pending : list Z;
  addba_resp_timer : option Z;
  tx_session_timer : option Z;
}.

Definition set_state (x : Z) (a : tid_ampdu_tx) : tid_ampdu_tx :=
  mk_tid_tx x (last_tx a) (tx_timeout a) (dialog_token a) (stop_initiator a) (tx_stop a) (tx_buf_size a) (tx_ssn
    a) (amsdu a) (ndp a) (pending a) (addba_resp_timer a) (tx_session_timer a).
Definition set_last_tx (x : Z) (a : tid_ampdu_tx) : tid_ampdu_tx :=
  mk_tid_tx (state a) x (tx_timeout a) (dialog_token a) (stop_initiator a) (tx_stop a) (tx_buf_size a) (tx_ssn a)
    (amsdu a) (ndp a) (pending a) (addba_resp_timer a) (tx_session_timer a).
Definition set_tx_timeout (x : Z) (a : tid_ampdu_tx) : tid_ampdu_tx :=
  mk_tid_tx (state a) (last_tx a) x (dialog_token a) (stop_initiator a) (tx_stop a) (tx_buf_size a) (tx_ssn a)
    (amsdu a) (ndp a) (pending a) (addba_resp_timer a) (tx_session_timer a).
Definition set_stop_initiator (x : Z) (a : tid_ampdu_tx) : tid_ampdu_tx :=
  mk_tid_tx (state a) (last_tx a) (tx_timeout a) (dialog_token a) x (tx_stop a) (tx_buf_size a) (tx_ssn a)
    (amsdu a) (ndp a) (pending a) (addba_resp_timer a) (tx_session_timer a).
Definition set_tx_stop (x : bool) (a : tid_ampdu_tx) : tid_ampdu_tx :=
  mk_tid_tx (state a) (last_tx a) (tx_timeout a) (dialog_token a) (stop_initiator a) x (tx_buf_size a) (tx_ssn a)
    (amsdu a) (ndp a) (pending a) (addba_resp_timer a) (tx_session_timer a).
Definition set_tx_buf_size (x : Z) (a : tid_ampdu_tx) : tid_ampdu_tx :=
  mk_tid_tx (state a) (last_tx a) (tx_timeout a) (dialog_token a) (stop_initiator a) (tx_stop a) x (tx_ssn a)
    (amsdu a) (ndp a) (pending a) (addba_resp_timer a) (tx_session_timer a).
Definition set_amsdu (x : bool) (a : tid_ampdu_tx) : tid_ampdu_tx :=
  mk_tid_tx (state a) (last_tx a) (tx_timeout a) (dialog_token a) (stop_initiator a) (tx_stop a) (tx_buf_size a) (tx_ssn a)
    x (ndp a) (pending a) (addba_resp_timer a) (tx_session_timer a).
Definition set_tx_ssn (x : Z) (a : tid_ampdu_tx) : tid_ampdu_tx :=
  mk_tid_tx (state a) (last_tx a) (tx_timeout a) (dialog_token a) (stop_initiator a) (tx_stop a) (tx_buf_size a) x
    (amsdu a) (ndp a) (pending a) (addba_resp_timer a) (tx_session_timer a).
Definition set_ndp (x : bool) (a : tid_ampdu_tx) : tid_ampdu_tx :=
  mk_tid_tx (state a) (last_tx a) (tx_timeout a) (dialog_token a) (stop_initiator a) (tx_stop a) (tx_buf_size a)
    (tx_ssn a) (amsdu a) x (pending a) (addba_resp_timer a) (tx_session_timer a).
Definition set_pending (x : list Z) (a : tid_ampdu_tx) : tid_ampdu_tx :=
  mk_tid_tx (state a) (last_tx a) (tx_timeout a) (dialog_token a) (stop_initiator a) (tx_stop a) (tx_buf_size a)
    (tx_ssn a) (amsdu a) (ndp a) x (addba_resp_timer a) (tx_session_timer a).
Definition set_addba_resp_timer (x : option Z) (a : tid_ampdu_tx) : tid_ampdu_tx :=
  mk_tid_tx (state a) (last_tx a) (tx_timeout a) (dialog_token a) (stop_initiator a) (tx_stop a) (tx_buf_size a)
    (tx_ssn a) (amsdu a) (ndp a) (pending a) x (tx_session_timer a).
Definition set_tx_session_timer (x : option Z) (a : tid_ampdu_tx) : tid_ampdu_tx :=
  mk_tid_tx (state a) (last_tx a) (tx_timeout a) (dialog_token a) (stop_initiator a) (tx_stop a) (tx_buf_size a)
    (tx_ssn a) (amsdu a) (ndp a) (pending a) (addba_resp_timer a) x.

(** [struct txq_info]: three of its flags and the fragments waiting in front of
    the queue proper. *)
Record txq_info := mk_txqi {
  TXQ_STOP : bool;
  TXQ_AMPDU : bool;
  TXQ_NO_AMSDU : bool;
  frags : list Z;
}.

Definition set_TXQ_STOP (x : bool) (q : txq_info) : txq_info :=
  mk_txqi x (TXQ_AMPDU q) (TXQ_NO_AMSDU q) (frags q).
Definition set_TXQ_AMPDU (x : bool) (q : txq_info) : txq_info :=
  mk_txqi (TXQ_STOP q) x (TXQ_NO_AMSDU q) (frags q).
Definition set_TXQ_NO_AMSDU (x : bool) (q : txq_info) : txq_info :=
  mk_txqi (TXQ_STOP q) (TXQ_AMPDU q) x (frags q).
Definition set_frags (x : list Z) (q : txq_info) : txq_info :=
  mk_txqi (TXQ_STOP q) (TXQ_AMPDU q) (TXQ_NO_AMSDU q) x.

(** The entries of the arrays of [struct sta_ampdu_mlme] for one TID, with
    [tid_seq] and the queue of the TID.  A session lives in the entry that
    points to it; [None] is NULL, also after the session is freed. *)
Record tid_mlme := mk_tid {
  tid_tx : option tid_ampdu_tx;
  tid_start_tx : option tid_ampdu_tx;
  last_addba_req_time : Z;
  addba_req_num : Z;
  tid_seq : Z;
  txq : option txq_info;
  tid_rx : option tid_ampdu_rx;
  tid_rx_token : Z;
  tid_rx_timer_expired : bool;
  tid_rx_stop_requested : bool;
  tid_rx_manage_start : bool;
  tid_rx_manage_stop : bool;
  agg_session_valid : bool;
  unexpected_agg : bool;
}.

Definition set_tid_tx (x : option tid_ampdu_tx) (t : tid_mlme) : tid_mlme :=
  mk_tid x (tid_start_tx t) (last_addba_req_time t) (addba_req_num t) (tid_seq t) (txq t) (tid_rx t) (tid_rx_token
    t) (tid_rx_timer_expired t) (tid_rx_stop_requested t) (tid_rx_manage_start t) (tid_rx_manage_stop t)
    (agg_session_valid t) (unexpected_agg t).
Definition set_tid_start_tx (x : option tid_ampdu_tx) (t : tid_mlme) : tid_mlme :=
  mk_tid (tid_tx t) x (last_addba_req_time t) (addba_req_num t) (tid_seq t) (txq t) (tid_rx t) (tid_rx_token t)
    (tid_rx_timer_expired t) (tid_rx_stop_requested t) (tid_rx_manage_start t) (tid_rx_manage_stop t)
    (agg_session_valid t) (unexpected_agg t).
Definition set_last_addba_req_time (x : Z) (t : tid_mlme) : tid_mlme :=
  mk_tid (tid_tx t) (tid_start_tx t) x (addba_req_num t) (tid_seq t) (txq t) (tid_rx t) (tid_rx_token t)
    (tid_rx_timer_expired t) (tid_rx_stop_requested t) (tid_rx_manage_start t) (tid_rx_manage_stop t)
    (agg_session_valid t) (unexpected_agg t).
Definition set_addba_req_num (x : Z) (t : tid_mlme) : tid_mlme :=
  mk_tid (tid_tx t) (tid_start_tx t) (last_addba_req_time t) x (tid_seq t) (txq t) (tid_rx t) (tid_rx_token t)
    (tid_rx_timer_expired t) (tid_rx_stop_requested t) (tid_rx_manage_start t) (tid_rx_manage_stop t)
    (agg_session_valid t) (unexpected_agg t).
Definition set_tid_seq (x : Z) (t : tid_mlme) : tid_mlme :=
  mk_tid (tid_tx t) (tid_start_tx t) (last_addba_req_time t) (addba_req_num t) x (txq t) (tid_rx t) (tid_rx_token t)
    (tid_rx_timer_expired t) (tid_rx_stop_requested t) (tid_rx_manage_start t) (tid_rx_manage_stop t)
    (agg_session_valid t) (unexpected_agg t).
Definition set_txq (x : option txq_info) (t : tid_mlme) : tid_mlme :=
  mk_tid (tid_tx t) (tid_start_tx t) (last_addba_req_time t) (addba_req_num t) (tid_seq t) x (tid_rx t)
    (tid_rx_token t) (tid_rx_timer_expired t) (tid_rx_stop_requested t) (tid_rx_manage_start t)
    (tid_rx_manage_stop t) (agg_session_valid t) (unexpected_agg t).
Definition set_tid_rx (x : option tid_ampdu_rx) (t : tid_mlme) : tid_mlme :=
  mk_tid (tid_tx t) (tid_start_tx t) (last_addba_req_time t) (addba_req_num t) (tid_seq t) (txq t) x (tid_rx_token
    t) (tid_rx_timer_expired t) (tid_rx_stop_requested t) (tid_rx_manage_start t) (tid_rx_manage_stop t)
    (agg_session_valid t) (unexpected_agg t).
Definition set_tid_rx_token (x : Z) (t : tid_mlme) : tid_mlme :=
  mk_tid (tid_tx t) (tid_start_tx t) (last_addba_req_time t) (addba_req_num t) (tid_seq t) (txq t) (tid_rx t) x
    (tid_rx_timer_expired t) (tid_rx_stop_requested t) (tid_rx_manage_start t) (tid_rx_manage_stop t)
    (agg_session_valid t) (unexpected_agg t).
Definition set_tid_rx_timer_expired (x : bool) (t : tid_mlme) : tid_mlme :=
  mk_tid (tid_tx t) (tid_start_tx t) (last_addba_req_time t) (addba_req_num t) (tid_seq t) (txq t) (tid_rx t)
    (tid_rx_token t) x (tid_rx_stop_requested t) (tid_rx_manage_start t) (tid_rx_manage_stop t)
    (agg_session_valid t) (unexpected_agg t).
Definition set_tid_rx_stop_requested (x : bool) (t : tid_mlme) : tid_mlme :=
  mk_tid (tid_tx t) (tid_start_tx t) (last_addba_req_time t) (addba_req_num t) (tid_seq t) (txq t) (tid_rx t)
    (tid_rx_token t) (tid_rx_timer_expired t) x (tid_rx_manage_start t) (tid_rx_manage_stop t) (agg_session_valid
    t) (unexpected_agg t).
Definition set_tid_rx_manage_start (x : bool) (t : tid_mlme) : tid_mlme :=
  mk_tid (tid_tx t) (tid_start_tx t) (last_addba_req_time t) (addba_req_num t) (tid_seq t) (txq t) (tid_rx t)
    (tid_rx_token t) (tid_rx_timer_expired t) (tid_rx_stop_requested t) x (tid_rx_manage_stop t)
    (agg_session_valid t) (unexpected_agg t).
Definition set_tid_rx_manage_stop (x : bool) (t : tid_mlme) : tid_mlme :=
  mk_tid (tid_tx t) (tid_start_tx t) (last_addba_req_time t) (addba_req_num t) (tid_seq t) (txq t) (tid_rx t)
    (tid_rx_token t) (tid_rx_timer_expired t) (tid_rx_stop_requested t) (tid_rx_manage_start t) x
    (agg_session_valid t) (unexpected_agg t).
Definition set_agg_session_valid (x : bool) (t : tid_mlme) : tid_mlme :=
  mk_tid (tid_tx t) (tid_start_tx t) (last_addba_req_time t) (addba_req_num t) (tid_seq t) (txq t) (tid_rx t)
    (tid_rx_token t) (tid_rx_timer_expired t) (tid_rx_stop_requested t) (tid_rx_manage_start t)
    (tid_rx_manage_stop t) x (unexpected_agg t).
Definition set_unexpected_agg (x : bool) (t : tid_mlme) : tid_mlme :=
  mk_tid (tid_tx t) (tid_start_tx t) (last_addba_req_time t) (addba_req_num t) (tid_seq t) (txq t) (tid_rx t)
    (tid_rx_token t) (tid_rx_timer_expired t) (tid_rx_stop_requested t) (tid_rx_manage_start t)
    (tid_rx_manage_stop t) (agg_session_valid t) x.

(** The rest of [struct sta_info], the clock, and of [struct ieee80211_local]
    the stop counts and pending frames of the queues. *)
Record station := mk_station {
  tids : list tid_mlme;
  dialog_token_allocator : Z;
  work_queued : bool;
  jiffies : Z;
  block_ba : bool;
  authorized : bool;
  agg_queue_stop : gmap Z Z;
  local_pending : gmap Z (list Z);
}.

Definition set_tids (x : list tid_mlme) (s : station) : station :=
  mk_station x (dialog_token_allocator s) (work_queued s) (jiffies s) (block_ba s) (authorized s) (agg_queue_stop
    s) (local_pending s).
Definition set_dialog_token_allocator (x : Z) (s : station) : station :=
  mk_station (tids s) x (work_queued s) (jiffies s) (block_ba s) (authorized s) (agg_queue_stop s) (local_pending
    s).
Definition set_work_queued (x : bool) (s : station) : station :=
  mk_station (tids s) (dialog_token_allocator s) x (jiffies s) (block_ba s) (authorized s) (agg_queue_stop s)
    (local_pending s).
Definition set_jiffies (x : Z) (s : station) : station :=
  mk_station (tids s) (dialog_token_allocator s) (work_queued s) x (block_ba s) (authorized s) (agg_queue_stop s)
    (local_pending s).
Definition set_block_ba (x : bool) (s : station) : station :=
  mk_station (tids s) (dialog_token_allocator s) (work_queued s) (jiffies s) x (authorized s) (agg_queue_stop s)
    (local_pending s).
Definition set_agg_queue_stop (x : gmap Z Z) (s : station) : station :=
  mk_station (tids s) (dialog_token_allocator s) (work_queued s) (jiffies s) (block_ba s) (authorized s) x
    (local_pending s).
Definition set_local_pending (x : gmap Z (list Z)) (s : station) : station :=
  mk_station (tids s) (dialog_token_allocator s) (work_queued s) (jiffies s) (block_ba s) (authorized s)
    (agg_queue_stop s) x.

(** What does not change while sessions are set up: capabilities of the peer
    and of the device, the interface, and the units of the clock. *)
Record config := mk_config {
  reserved_tid : Z;
  valid_links : bool;
  ht_supported : bool;
  vht_supported : bool;
  has_he : bool;
  has_eht : bool;
  has_s1g : bool;
  ht_delay_ba : bool;
  s1g_delayed_ba : bool;
  vif_type : nl80211_iftype;
  mfp : bool;
  has_ampdu_action : bool;
  AMPDU_AGGREGATION : bool;
  TX_AMPDU_SETUP_IN_HW : bool;
  STRICT : bool;
  SUPPORTS_REORDERING_BUFFER : bool;
  SUPPORTS_AMSDU_IN_AMPDU : bool;
  use_ndp_ba : bool;
  in_driver : bool;
  max_tx_aggregation_subframes : Z;
  max_rx_aggregation_subframes : Z;
  hw_queue : Z -> Z;
  HZ : Z;
  TU_TO_JIFFIES : Z -> Z;
}.

(** [enum ieee80211_ampdu_mlme_action] with the parameters that are valid for
    it. *)
Inductive ampdu_action :=
| AMPDU_RX_START (ssn buf_size timeout : Z)
| AMPDU_RX_STOP
| AMPDU_TX_START (ssn : Z)
| AMPDU_TX_STOP_CONT
| AMPDU_TX_STOP_FLUSH
| AMPDU_TX_STOP_FLUSH_CONT
| AMPDU_TX_OPERATIONAL (buf_size : Z) (amsdu : bool).

(** What the station does that others see: calls of the driver and their
    answers, action frames (from the category on), warnings, queues stopped and
    woken, frames dropped, frames given to the driver with their sequence number
    and whether they are marked for aggregation, fragments of an earlier frame. *)
Inductive event :=
| ev_driver (tid : Z) (action : ampdu_action) (ret : Z)
| ev_action_frame (body : list Z)
| ev_warn
| ev_stop_queue (queue : Z)
| ev_wake_queue (queue : Z)
| ev_wake_txq (tid : Z)
| ev_purge (tid skb : Z)
| ev_tx (tid skb seq : Z) (ampdu : bool)
| ev_frag (tid skb : Z).

(** ** Bits *)

Definition test_bit (n : Z) (a : tid_ampdu_tx) : bool := Z.testbit (state a) n.
Definition set_bit (n : Z) (a : tid_ampdu_tx) : tid_ampdu_tx := set_state (Z.setbit (state a) n) a.
Definition clear_bit (n : Z) (a : tid_ampdu_tx) : tid_ampdu_tx := set_state (Z.clearbit (state a) n) a.

(** ** What may interrupt *)

Inductive interrupt :=
| irq_start_tx_ba_cb (tid : Z)
| irq_stop_tx_ba_cb (tid : Z)
| irq_start_session (tid timeout : Z) (alloc : bool)
| irq_stop_session (tid : Z)
| irq_refresh (tid : Z)
| irq_addba_resp_timer (tid : Z)
| irq_tx_session_timer (tid : Z)
| irq_prep_agg (tid skb : Z)
| irq_dequeue (tid skb : Z) (rest : list Z)
| irq_rx_session_timer (tid : Z)
| irq_stop_rx (bitmap : Z)
| irq_manage_rx_offl (n : Z)
| irq_rx_timer_expired (tid : Z)
| irq_rx_frame (tid : Z)
| irq_tick (n : Z).

(** What a handler runs in: the station, the interrupts still to come, the
    answers of the driver (return value and starting sequence number), the
    outcomes of allocations, and what happened so far. *)
Record world := mk_world {
  sta : station;
  schedule : list (list interrupt);
  driver : list (Z * Z);
  allocs : list bool;
  log : list event;
}.

Definition set_sta (x : station) (w : world) : world :=
  mk_world x (schedule w) (driver w) (allocs w) (log w).
Definition set_schedule (x : list (list interrupt)) (w : world) : world :=
  mk_world (sta w) x (driver w) (allocs w) (log w).
Definition set_driver (x : list (Z * Z)) (w : world) : world :=
  mk_world (sta w) (schedule w) x (allocs w) (log w).
Definition set_allocs (x : list bool) (w : world) : world :=
  mk_world (sta w) (schedule w) (driver w) x (log w).
Definition set_log (x : list event) (w : world) : world :=
  mk_world (sta w) (schedule w) (driver w) (allocs w) x.

Definition warn (w : world) : world := set_log (log w ++ [ev_warn]) w.
Definition emit (e : event) (w : world) : world := set_log (log w ++ [e]) w.
Definition queue_work (w : world) : world := set_sta (set_work_queued true (sta w)) w.

(** One entry of the arrays; interrupts leave the others alone. *)
Definition tid_at (s : station) (tid : Z) : option tid_mlme :=
  if tid <? 0 then None else tids s !! Z.to_nat tid.
Definition put_tid (tid : Z) (t : tid_mlme) (w : world) : world :=
  set_sta (set_tids (<[Z.to_nat tid := t]> (tids (sta w))) (sta w)) w.
Definition put_tx (tid : Z) (t : tid_mlme) (a : tid_ampdu_tx) (w : world) : world :=
  put_tid tid (set_tid_tx (Some a) t) w.

(** [time_before(a, b)], and [time_is_after_jiffies(t)]. *)
Definition time_before (a b : Z) : bool := time_after b a.

Section interrupts.
Context (c : config).

Definition HT_AGG_RETRIES_PERIOD : Z := 15 * HZ c.
Definition ADDBA_RESP_INTERVAL : Z := HZ c.

(** [ieee80211_start_tx_ba_cb_irqsafe] and [ieee80211_stop_tx_ba_cb_irqsafe]:
    the driver has set up, or torn down. *)
Definition tx_ba_cb_irqsafe (bit : Z) (tid : Z) (w : world) : world :=
  if IEEE80211_NUM_TIDS <=? tid then w
  else match tid_at (sta w) tid with
  | None => w
  | Some t =>
      match tid_tx t with
      | None => warn w
      | Some a => queue_work (put_tx tid t (set_bit bit a) w)
      end
  end.
Definition ieee80211_start_tx_ba_cb_irqsafe : Z -> world -> world := tx_ba_cb_irqsafe HT_AGG_STATE_START_CB.
Definition ieee80211_stop_tx_ba_cb_irqsafe : Z -> world -> world := tx_ba_cb_irqsafe HT_AGG_STATE_STOP_CB.

Definition ieee80211_stop_tx_ba_session (tid : Z) (w : world) : Z * world :=
  if negb (has_ampdu_action c) then (- EINVAL, w)
  else if IEEE80211_NUM_TIDS <=? tid then (- EINVAL, w)
  else match tid_at (sta w) tid with
  | None => (- EINVAL, w)
  | Some t =>
      match tid_tx t with
      | None => (- ENOENT, w)
      | Some a =>
          let w := if reserved_tid c =? tid then warn w else w in
          if test_bit HT_AGG_STATE_STOPPING a then (0, w)
          else (0, queue_work (put_tx tid t (set_bit HT_AGG_STATE_WANT_STOP a) w))
      end
  end.

(** A session that is only requested: it goes to the start array. *)
Definition new_session (tmo token : Z) : tid_ampdu_tx :=
  mk_tid_tx (Z.setbit 0 HT_AGG_STATE_WANT_START) 0 tmo token 0 false 0 0 false false [] None None.

Definition vif_may_aggregate : bool :=
  match vif_type c with
  | NL80211_IFTYPE_STATION | NL80211_IFTYPE_MESH_POINT | NL80211_IFTYPE_AP_VLAN | NL80211_IFTYPE_AP
  | NL80211_IFTYPE_ADHOC | NL80211_IFTYPE_NAN_DATA => true
  | _ => false
  end.

Definition ieee80211_start_tx_ba_session (tid tmo : Z) (alloc : bool) (w : world) : Z * world :=
  if reserved_tid c =? tid then (- EINVAL, warn w)
  else if negb (valid_links c) && negb (ht_supported c) && negb (vht_supported c) && negb (has_he c) &&
          negb (has_eht c) && negb (has_s1g c) then (- EINVAL, w)
  else if negb (has_ampdu_action c) then (- EINVAL, warn w)
  else if (IEEE80211_NUM_TIDS <=? tid) || negb (AMPDU_AGGREGATION c) || TX_AMPDU_SETUP_IN_HW c then (- EINVAL, w)
  else if IEEE80211_FIRST_TSPEC_TSID <=? tid then (- EINVAL, warn w)
  else if negb vif_may_aggregate then (- EINVAL, w)
  else if block_ba (sta w) then (- EINVAL, w)
  else if mfp c && negb (authorized (sta w)) then (- EINVAL, w)
  else if bool_decide (vif_type c = NL80211_IFTYPE_ADHOC) && negb (ht_supported c) then (- EINVAL, w)
  else match tid_at (sta w) tid with
  | None => (- EINVAL, w)
  | Some t =>
      if HT_AGG_MAX_RETRIES <? addba_req_num t then (- EBUSY, w)
      else if (HT_AGG_BURST_RETRIES <? addba_req_num t) &&
              time_before (jiffies (sta w)) (u64 (last_addba_req_time t + HT_AGG_RETRIES_PERIOD))
      then (- EBUSY, w)
      else if bool_decide (is_Some (tid_tx t)) || bool_decide (is_Some (tid_start_tx t)) then (- EAGAIN, w)
      else if negb alloc then (- ENOMEM, w)
      else
        let token := u8 (dialog_token_allocator (sta w) + 1) in
        let w := set_sta (set_dialog_token_allocator token (sta w)) w in
        (0, queue_work (put_tid tid (set_tid_start_tx (Some (new_session tmo token)) t) w))
  end.

Definition ieee80211_refresh_tx_agg_session_timer (tid : Z) (w : world) : world :=
  if IEEE80211_NUM_TIDS <=? tid then warn w
  else match tid_at (sta w) tid with
  | Some t => match tid_tx t with
              | Some a => put_tx tid t (set_last_tx (jiffies (sta w)) a) w
              | None => w
              end
  | None => w
  end.

(** The timers of the session of a TID; a timer that is not armed does not
    fire. *)
Definition sta_addba_resp_timer_expired (tid : Z) (w : world) : world :=
  match tid_at (sta w) tid with
  | Some t =>
      match tid_tx t with
      | Some a =>
          match addba_resp_timer a with
          | None => w
          | Some expires =>
              if time_before (jiffies (sta w)) expires then w
              else
                let w := put_tx tid t (set_addba_resp_timer None a) w in
                if test_bit HT_AGG_STATE_RESPONSE_RECEIVED a then w
                else (ieee80211_stop_tx_ba_session tid w).2
          end
      | None => w
      end
  | None => w
  end.

Definition sta_tx_agg_session_timer_expired (tid : Z) (w : world) : world :=
  match tid_at (sta w) tid with
  | Some t =>
      match tid_tx t with
      | Some a =>
          match tx_session_timer a with
          | None => w
          | Some expires =>
              if time_before (jiffies (sta w)) expires then w
              else
                let w := put_tx tid t (set_tx_session_timer None a) w in
                if test_bit HT_AGG_STATE_STOPPING a then w
                else
                  let timeout := u64 (last_tx a + TU_TO_JIFFIES c (tx_timeout a)) in
                  if time_before (jiffies (sta w)) timeout then
                    put_tx tid t (set_tx_session_timer (Some timeout) a) w
                  else (ieee80211_stop_tx_ba_session tid w).2
          end
      | None => w
      end
  | None => w
  end.

(** [ieee80211_tx_next_seq] *)
Definition next_seq (t : tid_mlme) : tid_mlme := set_tid_seq (u16 (tid_seq t + 0x10) .& IEEE80211_SCTL_SEQ) t.

(** A frame of a TID without a queue is given to the driver. *)
Definition send_unqueued (tid skb : Z) (t : tid_mlme) (w : world) : world :=
  match txq t with
  | Some _ => put_tid tid t w
  | None => emit (ev_tx tid skb (tid_seq t) false) (put_tid tid (next_seq t) w)
  end.

(** [ieee80211_tx_prep_agg], for a new frame of a TID.  A frame that is not
    kept in the session goes on: to the queue of the TID, if it has one. *)
Definition ieee80211_tx_prep_agg (tid skb : Z) (w : world) : world :=
  match tid_at (sta w) tid with
  | Some t =>
      match tid_tx t with
      | None => send_unqueued tid skb t w
      | Some a =>
          if test_bit HT_AGG_STATE_OPERATIONAL a then
            send_unqueued tid skb (set_tid_tx (Some (set_last_tx (jiffies (sta w)) a)) t) w
          else if test_bit HT_AGG_STATE_WANT_START a then send_unqueued tid skb t w
          else match txq t with
          | Some _ => w
          | None =>
              let l := pending a ++ [skb] in
              match l with
              | purged :: l' =>
                  if STA_MAX_TX_BUFFER <? zlen l then
                    emit (ev_purge tid purged) (put_tx tid t (set_pending l' a) w)
                  else put_tx tid t (set_pending l a) w
              | [] => w
              end
          end
      end
  | None => w
  end.

(** [ieee80211_tx_dequeue]: fragments of the frame before come first; a stopped
    queue gives nothing else; [skb] is the first frame of the queue proper and
    [rest] its further fragments, none if it is marked for aggregation.  A frame
    gets its sequence number here. *)
Definition ieee80211_tx_dequeue (tid skb : Z) (rest : list Z) (w : world) : world :=
  match tid_at (sta w) tid with
  | Some t =>
      match txq t with
      | None => w
      | Some q =>
          match frags q with
          | frag :: l => emit (ev_frag tid frag) (put_tid tid (set_txq (Some (set_frags l q)) t) w)
          | [] =>
              if TXQ_STOP q then w
              else
                let rest := if TXQ_AMPDU q then [] else rest in
                emit (ev_tx tid skb (tid_seq t) (TXQ_AMPDU q))
                  (put_tid tid (next_seq (set_txq (Some (set_frags rest q)) t)) w)
          end
      end
  | None => w
  end.

(** Interrupts of the receive side set bits for the work. *)
Definition update_tid (tid : Z) (f : tid_mlme -> tid_mlme) (w : world) : world :=
  match tid_at (sta w) tid with Some t => put_tid tid (f t) w | None => w end.

Definition sta_rx_agg_session_timer_expired (tid : Z) (w : world) : world :=
  match tid_at (sta w) tid with
  | Some t =>
      match tid_rx t with
      | Some r =>
          match session_timer r with
          | None => w
          | Some expires =>
              if time_before (jiffies (sta w)) expires then w
              else
                let t := set_tid_rx (Some (set_session_timer r None)) t in
                let w := put_tid tid t w in
                let timeout := u64 (last_rx r + TU_TO_JIFFIES c (timeout r)) in
                if time_before (jiffies (sta w)) timeout then
                  put_tid tid (set_tid_rx (Some (set_session_timer r (Some timeout))) t) w
                else queue_work (put_tid tid (set_tid_rx_timer_expired true t) w)
          end
      | None => w
      end
  | None => w
  end.

Definition ieee80211_stop_rx_ba_session (bitmap : Z) (w : world) : world :=
  let stop i t := if Z.testbit bitmap (Z.of_nat i) then set_tid_rx_stop_requested true t else t in
  queue_work (set_sta (set_tids (imap stop (tids (sta w))) (sta w)) w).

(** [n] is a TID, or a TID plus the number of TIDs for the end of a session. *)
Definition ieee80211_manage_rx_ba_offl (n : Z) (w : world) : world :=
  queue_work
    (if n <? IEEE80211_NUM_TIDS then update_tid n (set_tid_rx_manage_start true) w
     else update_tid (n - IEEE80211_NUM_TIDS) (set_tid_rx_manage_stop true) w).

Definition ieee80211_rx_ba_timer_expired (tid : Z) (w : world) : world :=
  queue_work (update_tid tid (set_tid_rx_timer_expired true) w).

(** A frame of the session arrives. *)
Definition rx_activity (tid : Z) (w : world) : world :=
  update_tid tid (fun t => match tid_rx t with
                           | Some r => set_tid_rx (Some (set_last_rx r (jiffies (sta w)))) t
                           | None => t
                           end) w.

Definition run_interrupt (i : interrupt) (w : world) : world :=
  match i with
  | irq_start_tx_ba_cb tid => ieee80211_start_tx_ba_cb_irqsafe tid w
  | irq_stop_tx_ba_cb tid => ieee80211_stop_tx_ba_cb_irqsafe tid w
  | irq_start_session tid tmo alloc => (ieee80211_start_tx_ba_session tid tmo alloc w).2
  | irq_stop_session tid => (ieee80211_stop_tx_ba_session tid w).2
  | irq_refresh tid => ieee80211_refresh_tx_agg_session_timer tid w
  | irq_addba_resp_timer tid => sta_addba_resp_timer_expired tid w
  | irq_tx_session_timer tid => sta_tx_agg_session_timer_expired tid w
  | irq_prep_agg tid skb => ieee80211_tx_prep_agg tid skb w
  | irq_dequeue tid skb rest => ieee80211_tx_dequeue tid skb rest w
  | irq_rx_session_timer tid => sta_rx_agg_session_timer_expired tid w
  | irq_stop_rx bitmap => ieee80211_stop_rx_ba_session bitmap w
  | irq_manage_rx_offl n => ieee80211_manage_rx_ba_offl n w
  | irq_rx_timer_expired tid => ieee80211_rx_ba_timer_expired tid w
  | irq_rx_frame tid => rx_activity tid w
  | irq_tick n => set_sta (set_jiffies (u64 (jiffies (sta w) + n)) (sta w)) w
  end.
End interrupts.

(** ** The monad of the handlers

    [None] is a fault: a use of a session that is gone. *)
Definition M (A : Type) : Type := world -> option (A * world).
Definition ret {A} (x : A) : M A := fun w => Some (x, w).
Definition bind {A B} (m : M A) (k : A -> M B) : M B :=
  fun w => match m w with Some (x, w) => k x w | None => None end.
Definition fault {A} : M A := fun _ => None.
Definition modify (f : world -> world) : M unit := fun w => Some (tt, f w).
Definition gets {A} (f : world -> A) : M A := fun w => Some (f w, w).

Declare Scope agg_scope.
Delimit Scope agg_scope with agg.
Notation "x <- m ;; k" := (bind m (fun x => k)) (at level 100, m at next level, right associativity) : agg_scope.
Notation "m ;;; k" := (bind m (fun _ => k)) (at level 100, right associativity) : agg_scope.
#[global] Open Scope agg_scope.

Definition get_tid (tid : Z) : M tid_mlme :=
  fun w => match tid_at (sta w) tid with Some t => Some (t, w) | None => None end.
Definition upd_tid (tid : Z) (f : tid_mlme -> tid_mlme) : M unit :=
  t <- get_tid tid ;; modify (put_tid tid (f t)).

(** A read and an update through the pointer to the session. *)
Definition get_tx (tid : Z) : M tid_ampdu_tx :=
  t <- get_tid tid ;; match tid_tx t with Some a => ret a | None => fault end.
Definition upd_tx (tid : Z) (f : tid_ampdu_tx -> tid_ampdu_tx) : M unit :=
  a <- get_tx tid ;; upd_tid tid (set_tid_tx (Some (f a))).
Definition test (bit tid : Z) : M bool := a <- get_tx tid ;; ret (test_bit bit a).
(** [test_and_set_bit] and [test_and_clear_bit]. *)
Definition test_and_set (bit tid : Z) : M bool :=
  b <- test bit tid ;; upd_tx tid (set_bit bit) ;;; ret b.
Definition test_and_clear (bit tid : Z) : M bool :=
  b <- test bit tid ;; upd_tx tid (clear_bit bit) ;;; ret b.

Definition warn_on (b : bool) : M unit := if b then modify warn else ret tt.

Definition next_alloc : M bool :=
  fun w => match allocs w with
           | [] => Some (true, w)
           | b :: l => Some (b, set_allocs l w)
           end.

Section monad.
Context (c : config).

(** The interrupts that come at this place. *)
Definition preempt : M unit :=
  fun w => match schedule w with
           | [] => Some (tt, w)
           | irqs :: l => Some (tt, fold_left (fun w i => run_interrupt c i w) irqs (set_schedule l w))
           end.

(** [drv_ampdu_action]: the value returned and the starting sequence number
    the driver leaves. *)
Definition drv_ampdu_action (tid ssn : Z) (action : ampdu_action) : M (Z * Z) :=
  if negb (in_driver c) then ret (- EIO, ssn)
  else if negb (has_ampdu_action c) then ret (- EOPNOTSUPP, ssn)
  else
    r <- (fun w => match driver w with
                   | [] => Some ((0, ssn), w)
                   | r :: l => Some (r, set_driver l w)
                   end) ;;
    modify (emit (ev_driver tid action r.1)) ;;;
    preempt ;;;
    ret r.
End monad.
