(* ===== verification/AggFrames.v ===== *)
(** * AggFrames: the action frames of block-acknowledgment agreements

    The ADDBA request, ADDBA response and DELBA frames of [agg-tx.c],
    [agg-rx.c] and [ht.c]: what the senders write and what the receivers read,
    with the ADDBA extension element found by the element parser. *)
From stdpp Require Import gmap strings.
From S2P Require Import Prelude Frame Key ElemSizes Parse Agg.

Definition WLAN_CATEGORY_BACK : Z := 3.
Definition WLAN_ACTION_ADDBA_REQ : Z := 0.
Definition WLAN_ACTION_ADDBA_RESP : Z := 1.
Definition WLAN_ACTION_DELBA : Z := 2.
Definition WLAN_ACTION_NDP_ADDBA_REQ : Z := 128.
Definition WLAN_ACTION_NDP_ADDBA_RESP : Z := 129.
Definition WLAN_ACTION_NDP_DELBA : Z := 130.
Definition WLAN_BACK_RECIPIENT : Z := 0.
Definition WLAN_BACK_INITIATOR : Z := 1.

Definition IEEE80211_ADDBA_PARAM_AMSDU_MASK : Z := 0x0001.
Definition IEEE80211_ADDBA_PARAM_POLICY_MASK : Z := 0x0002.
Definition IEEE80211_ADDBA_PARAM_TID_MASK : Z := 0x003C.
Definition IEEE80211_ADDBA_PARAM_BUF_SIZE_MASK : Z := 0xFFC0.
Definition IEEE80211_DELBA_PARAM_TID_MASK : Z := 0xF000.
Definition IEEE80211_DELBA_PARAM_INITIATOR_MASK : Z := 0x0800.
Definition IEEE80211_ADDBA_EXT_NO_FRAG : Z := BIT 0.
Definition IEEE80211_ADDBA_EXT_BUF_SIZE_MASK : Z := GENMASK 7 5.
Definition IEEE80211_ADDBA_EXT_BUF_SIZE_SHIFT : Z := 10.
Definition IEEE80211_MAX_AMPDU_BUF_HT : Z := 0x40.
Definition IEEE80211_MAX_AMPDU_BUF_HE : Z := 0x100.
Definition IEEE80211_MAX_AMPDU_BUF_EHT : Z := 0x400.

(** [u8_encode_bits] and [u16_encode_bits]. *)
Definition encode_bits (v mask : Z) : Z := (v .& (mask / (mask .& - mask))) * (mask .& - mask).

(** ** Writers: the frame body from the category on *)

Definition ieee80211_add_addbaext (req_addba_ext_data buf_size : Z) : list Z :=
  let data := if nz req_addba_ext_data then IEEE80211_ADDBA_EXT_NO_FRAG .& req_addba_ext_data
              else IEEE80211_ADDBA_EXT_NO_FRAG in
  [WLAN_EID_ADDBA_EXT; sizeof_addba_ext_ie;
   data .| encode_bits (buf_size >> IEEE80211_ADDBA_EXT_BUF_SIZE_SHIFT) IEEE80211_ADDBA_EXT_BUF_SIZE_MASK].

(** The body [ieee80211_send_addba_request] sends. *)
Definition addba_request (he : bool) (tid token start_seq_num agg_size tmo : Z) (use_ndp : bool) : list Z :=
  let capab := IEEE80211_ADDBA_PARAM_AMSDU_MASK .| IEEE80211_ADDBA_PARAM_POLICY_MASK
               .| encode_bits tid IEEE80211_ADDBA_PARAM_TID_MASK
               .| encode_bits agg_size IEEE80211_ADDBA_PARAM_BUF_SIZE_MASK in
  [WLAN_CATEGORY_BACK; if use_ndp then WLAN_ACTION_NDP_ADDBA_REQ else WLAN_ACTION_ADDBA_REQ; token] ++
  le16_bytes capab ++ le16_bytes tmo ++ le16_bytes (u16 (start_seq_num << 4)) ++
  (if he then ieee80211_add_addbaext 0 agg_size else []).

(** The body [ieee80211_send_addba_resp] sends. *)
Definition addba_response (ext in_ampdu : bool) (tid token status policy size tmo req_addba_ext_data : Z)
    (use_ndp : bool) : list Z :=
  let capab := encode_bits (Z.b2z in_ampdu) IEEE80211_ADDBA_PARAM_AMSDU_MASK
               .| encode_bits policy IEEE80211_ADDBA_PARAM_POLICY_MASK
               .| encode_bits tid IEEE80211_ADDBA_PARAM_TID_MASK
               .| encode_bits size IEEE80211_ADDBA_PARAM_BUF_SIZE_MASK in
  [WLAN_CATEGORY_BACK; if use_ndp then WLAN_ACTION_NDP_ADDBA_RESP else WLAN_ACTION_ADDBA_RESP; token] ++
  le16_bytes status ++ le16_bytes capab ++ le16_bytes tmo ++
  (if ext then ieee80211_add_addbaext req_addba_ext_data size else []).

(** The body [ieee80211_send_delba] sends. *)
Definition delba (tid initiator reason_code : Z) (use_ndp : bool) : list Z :=
  let params := u16 (initiator << 11) .| u16 (tid << 12) in
  [WLAN_CATEGORY_BACK; if use_ndp then WLAN_ACTION_NDP_DELBA else WLAN_ACTION_DELBA] ++
  le16_bytes params ++ le16_bytes reason_code.

(** ** Readers *)

(** [ieee802_11_parse_elems] of an action frame. *)
Definition action_params (elems_len : Z) : ieee80211_elems_parse_params :=
  mk_params IEEE80211_CONN_MODE_UHR 0 elems_len MGMT_ACTION 0 0 None (-1) false 0.

(** [ieee80211_retrieve_addba_ext_data]: the octet of the extension element and
    the buffer size with the high bits from it.  [elem_data] is the rest of the
    frame. *)
Definition ieee80211_retrieve_addba_ext_data (crc32_be : Z -> list Z -> Z) (c : config) (alloc : bool)
    (elem_data : list Z) (size : Z) : option (Z * Z) :=
  if negb (has_he c) then Some (0, size)
  else if zlen elem_data <=? 0 then Some (0, size)
  else
    '(r, mem) ← ieee802_11_parse_elems_full crc32_be alloc elem_data (action_params (zlen elem_data));
    match r with
    | None => Some (0, size)
    | Some p =>
        if nz (parse_error (elems p)) then Some (0, size)
        else match refs (elems p) !! "addba_ext_ie"%string with
        | None => Some (0, size)
        | Some (ptr, _) =>
            data ← rd8 (object (zlen elem_data) mem ptr) ptr;
            Some (data,
                  if valid_links c || has_eht c
                  then size .| (get_bits data IEEE80211_ADDBA_EXT_BUF_SIZE_MASK
                                << IEEE80211_ADDBA_EXT_BUF_SIZE_SHIFT)
                  else size)
        end
    end.

(** What [ieee80211_process_addba_request] extracts. *)
Record addba_req := mk_addba_req {
  req_ndp : bool;
  req_token : Z;
  req_timeout : Z;
  req_start_seq_num : Z;
  req_policy : Z;
  req_tid : Z;
  req_buf_size : Z;
  req_ext_data : Z;
}.
Definition read_addba_req crc32_be (c : config) (alloc : bool) (body : list Z) : option addba_req :=
  action_code ← rd8 body 1;
  token ← rd8 body 2;
  tmo ← rd_le16 body 5;
  seq ← rd_le16 body 7;
  capab ← rd_le16 body 3;
  '(data, size) ← ieee80211_retrieve_addba_ext_data crc32_be c alloc (drop 9 body)
                    ((capab .& IEEE80211_ADDBA_PARAM_BUF_SIZE_MASK) >> 6);
  Some (mk_addba_req (action_code =? WLAN_ACTION_NDP_ADDBA_REQ) token tmo (seq >> 4)
          ((capab .& IEEE80211_ADDBA_PARAM_POLICY_MASK) >> 1) ((capab .& IEEE80211_ADDBA_PARAM_TID_MASK) >> 2)
          size data).

(** What [ieee80211_process_addba_resp] extracts. *)
Record addba_resp := mk_addba_resp {
  resp_token : Z;
  resp_status : Z;
  resp_amsdu : bool;
  resp_tid : Z;
  resp_buf_size : Z;
  resp_timeout : Z;
}.
Definition read_addba_resp crc32_be (c : config) (alloc : bool) (body : list Z) : option addba_resp :=
  token ← rd8 body 2;
  status ← rd_le16 body 3;
  capab ← rd_le16 body 5;
  tmo ← rd_le16 body 7;
  '(_, size) ← ieee80211_retrieve_addba_ext_data crc32_be c alloc (drop 9 body)
                 (get_bits capab IEEE80211_ADDBA_PARAM_BUF_SIZE_MASK);
  Some (mk_addba_resp token status (nz (capab .& IEEE80211_ADDBA_PARAM_AMSDU_MASK))
          (get_bits capab IEEE80211_ADDBA_PARAM_TID_MASK) (Z.min size (max_tx_aggregation_subframes c)) tmo).

(** What [ieee80211_process_delba] extracts: the TID and the initiator. *)
Definition read_delba (body : list Z) : option (Z * Z) :=
  params ← rd_le16 body 2;
  Some ((params .& IEEE80211_DELBA_PARAM_TID_MASK) >> 12, (params .& IEEE80211_DELBA_PARAM_INITIATOR_MASK) >> 11).
