(* ===== verification/AggFrameProofs.v ===== *)
(** * AggFrameProofs: reading block-ack action frames

    Every frame of at least the lengths that the receive path asks for is read
    without leaving it, and gives a TID and numbers in range; what one side
    writes is what the other reads. *)
From stdpp Require Import gmap strings.
From S2P Require Import Prelude Frame Key Skb Amsdu ElemSizes Parse ParseProofs ParseFull Agg AggFrames.

(** A received frame body: octets, no empty envelope in a channel switch
    wrapper (see [ParseFull.parse_elems_full_safe]). *)
Definition frame_ok (body : list Z) : Prop :=
  bytes_ok body /\ 4 * zlen body < 2 ^ 63 /\
  envelopes_nonempty (drop 9 body) (action_params (zlen (drop 9 body))) = true.

Section read.
Context (crc32_be : Z -> list Z -> Z) (c : config).

Lemma get_bits_range v m n : 0 <= m -> 0 < m .& - m -> m / (m .& - m) = n -> 0 <= get_bits v m <= n.
Proof. intros ?? <-. by apply get_bits_bound. Qed.

Lemma retrieve_total alloc body size :
  frame_ok body -> 0 <= size ->
  exists d n, ieee80211_retrieve_addba_ext_data crc32_be c alloc (drop 9 body) size = Some (d, n) /\ 0 <= n.
Proof.
  intros (Hb & Hl & He) Hs. unfold ieee80211_retrieve_addba_ext_data.
  destruct (negb _); [by exists 0, size|]. destruct (zlen (drop 9 body) <=? 0) eqn:E0; [by exists 0, size|].
  apply Z.leb_gt in E0.
  assert (zlen (drop 9 body) + 1 <= zlen body) as Hd by (unfold zlen in E0 |- *; rewrite length_drop in *; lia).
  destruct (parse_elems_full_run crc32_be alloc (drop 9 body) (action_params (zlen (drop 9 body))))
    as (r & m & -> & _ & Hr); [by apply Forall_drop|cbn [action_params p_start p_len]; lia..|done|].
  cbn [mbind option_bind]. destruct r as [p|]; [|by exists 0, size]. destruct (nz _); [by exists 0, size|].
  destruct (refs (elems p) !! "addba_ext_ie"%string) as [[ptr len]|] eqn:Er; [|by exists 0, size].
  destruct Hr as ([He' _ _ _] & Hm & Hlm). destruct (field_read _ m _ _ _ Hm Hlm He' Er) as (_ & H0 & H1 & H3 & H2).
  cbn [fst snd] in *. change (1 <= len) in H3. destruct (rd8_Some (object (zlen (drop 9 body)) m ptr) ptr) as [d Ed]; [lia|].
  rewrite Ed. cbn [mbind option_bind].
  eexists _, _. split; [done|]. destruct (_ || _); [|done]. apply Z.lor_nonneg. split; [done|].
  apply Z.shiftl_nonneg. eapply (get_bits_range d _ 7); done.
Qed.

Lemma read_addba_req_total alloc body :
  frame_ok body -> 9 <= zlen body ->
  exists q, read_addba_req crc32_be c alloc body = Some q /\ 0 <= req_tid q < 16 /\ 0 <= req_buf_size q /\
    0 <= req_start_seq_num q < 4096.
Proof.
  intros Hf Hl. pose proof Hf as (Hb & _). unfold read_addba_req.
  destruct (rd8_Some body 1) as [act ->]; [lia|]. destruct (rd8_Some body 2) as [tok ->]; [lia|].
  destruct (rd_le16_Some body 5) as [tmo ->]; [lia..|]. destruct (rd_le16_Some body 7) as [seq Es]; [lia..|].
  destruct (rd_le16_Some body 3) as [cap Ec]; [lia..|]. rewrite Es, Ec. cbn [mbind option_bind].
  pose proof (rd_le16_ok _ _ _ Hb Es) as Hseq.
  pose proof (land_le cap IEEE80211_ADDBA_PARAM_TID_MASK ltac:(done)) as Ht.
  pose proof (land_le cap IEEE80211_ADDBA_PARAM_BUF_SIZE_MASK ltac:(done)) as Hz.
  destruct (retrieve_total alloc body ((cap .& IEEE80211_ADDBA_PARAM_BUF_SIZE_MASK) >> 6)) as (d & n & -> & Hn);
    [done|apply Z.shiftr_nonneg; lia|].
  cbn [mbind option_bind]. eexists. split; [done|]. cbn [req_tid req_buf_size req_start_seq_num].
  unfold IEEE80211_ADDBA_PARAM_TID_MASK, is_uint in *. rewrite !Z.shiftr_div_pow2 by done.
  change (2 ^ 2) with 4. change (2 ^ 4) with 16. change (2 ^ 16) with 65536 in *. split_and!; try done.
  all: Z.div_mod_to_equations; lia.
Qed.

Lemma read_addba_resp_total alloc body :
  frame_ok body -> 9 <= zlen body -> 0 <= max_tx_aggregation_subframes c ->
  exists q, read_addba_resp crc32_be c alloc body = Some q /\ 0 <= resp_tid q < 16 /\
    0 <= resp_buf_size q <= max_tx_aggregation_subframes c.
Proof.
  intros Hf Hl Hm. unfold read_addba_resp.
  destruct (rd8_Some body 2) as [tok ->]; [lia|]. destruct (rd_le16_Some body 3) as [st ->]; [lia..|].
  destruct (rd_le16_Some body 5) as [cap ->]; [lia..|]. destruct (rd_le16_Some body 7) as [tmo ->]; [lia..|].
  cbn [mbind option_bind].
  pose proof (get_bits_range cap IEEE80211_ADDBA_PARAM_TID_MASK 15 ltac:(done) ltac:(done) ltac:(done)).
  pose proof (get_bits_range cap IEEE80211_ADDBA_PARAM_BUF_SIZE_MASK 1023 ltac:(done) ltac:(done) ltac:(done)).
  destruct (retrieve_total alloc body (get_bits cap IEEE80211_ADDBA_PARAM_BUF_SIZE_MASK)) as (d & n & -> & Hn); [done|lia|].
  cbn [mbind option_bind]. eexists. split; [done|]. cbn. lia.
Qed.

(** ** Round trips *)

Lemma parse_addba_ext d : exists p m,
  ieee802_11_parse_elems_full crc32_be true [WLAN_EID_ADDBA_EXT; 1; d] (action_params 3) = Some (Some p, m) /\
  nz (parse_error (elems p)) = false /\ refs (elems p) !! "addba_ext_ie"%string = Some (2, 1) /\ rd8 (object 3 m 2) 2 = Some d.
Proof. eexists _, _. split; [vm_compute; reflexivity|]. by vm_compute. Qed.

Lemma retrieve_ext d size : has_he c = true ->
  ieee80211_retrieve_addba_ext_data crc32_be c true [WLAN_EID_ADDBA_EXT; 1; d] size =
  Some (d, if valid_links c || has_eht c
           then size .| (get_bits d IEEE80211_ADDBA_EXT_BUF_SIZE_MASK << IEEE80211_ADDBA_EXT_BUF_SIZE_SHIFT) else size).
Proof.
  intros Hhe. unfold ieee80211_retrieve_addba_ext_data. rewrite Hhe. cbn [negb].
  destruct (parse_addba_ext d) as (p & m & E & Herr & Hr & Hd).
  change (zlen [WLAN_EID_ADDBA_EXT; 1; d]) with 3. rewrite E. cbn [Z.leb Z.compare mbind option_bind]. by rewrite Herr, Hr, Hd.
Qed.
End read.

Lemma read_delba_total body : 6 <= zlen body -> exists q, read_delba body = Some q /\ 0 <= q.1 < 16.
Proof.
  intros Hl. unfold read_delba. destruct (rd_le16_Some body 2) as [p ->]; [lia..|]. cbn [mbind option_bind].
  eexists. split; [done|]. cbn [fst]. pose proof (land_le p IEEE80211_DELBA_PARAM_TID_MASK ltac:(done)) as Ht.
  unfold IEEE80211_DELBA_PARAM_TID_MASK in *. rewrite Z.shiftr_div_pow2 by done. change (2 ^ 12) with 4096.
  Z.div_mod_to_equations. lia.
Qed.

Lemma read_fields x y z a b d l : is_uint 16 a -> is_uint 16 b -> is_uint 16 d ->
  let body := x :: y :: z :: le16_bytes a ++ le16_bytes b ++ le16_bytes d ++ l in
  rd8 body 1 = Some y /\ rd8 body 2 = Some z /\ rd_le16 body 3 = Some a /\ rd_le16 body 5 = Some b /\
  rd_le16 body 7 = Some d /\ drop 9 body = l.
Proof.
  intros Ha Hb Hd body. split_and!; [done|done|..|done]; unfold body.
  - transitivity (Some (u8 a .| (u8 (a >> 8) << 8))); [done|by rewrite byte_split_join].
  - transitivity (Some (u8 b .| (u8 (b >> 8) << 8))); [done|by rewrite byte_split_join].
  - transitivity (Some (u8 d .| (u8 (d >> 8) << 8))); [done|by rewrite byte_split_join].
Qed.

(** The parameter field, for every TID and every buffer size it holds. *)
Definition addba_param (amsdu policy tid size : Z) : Z :=
  encode_bits amsdu IEEE80211_ADDBA_PARAM_AMSDU_MASK .| encode_bits policy IEEE80211_ADDBA_PARAM_POLICY_MASK
  .| encode_bits tid IEEE80211_ADDBA_PARAM_TID_MASK .| encode_bits size IEEE80211_ADDBA_PARAM_BUF_SIZE_MASK.

Definition param_check (amsdu tid size : Z) : bool :=
  let capab := addba_param amsdu 1 tid size in
  bool_decide (is_uint 16 capab) && eqb (nz (capab .& IEEE80211_ADDBA_PARAM_AMSDU_MASK)) (nz amsdu) &&
  ((capab .& IEEE80211_ADDBA_PARAM_POLICY_MASK) >> 1 =? 1) &&
  ((capab .& IEEE80211_ADDBA_PARAM_TID_MASK) >> 2 =? tid) && (get_bits capab IEEE80211_ADDBA_PARAM_TID_MASK =? tid) &&
  ((capab .& IEEE80211_ADDBA_PARAM_BUF_SIZE_MASK) >> 6 =? size) && (get_bits capab IEEE80211_ADDBA_PARAM_BUF_SIZE_MASK =? size).

Lemma param_checked :
  forallb (fun amsdu => forallb (fun tid => forallb (param_check amsdu tid) (seqZ 0 1024)) (seqZ 0 16)) [0; 1] = true.
Proof. by vm_compute. Qed.

Lemma encode_size_low size :
  encode_bits size IEEE80211_ADDBA_PARAM_BUF_SIZE_MASK = encode_bits (size .& 1023) IEEE80211_ADDBA_PARAM_BUF_SIZE_MASK.
Proof.
  unfold encode_bits. f_equal. change (IEEE80211_ADDBA_PARAM_BUF_SIZE_MASK / _) with 1023.
  by rewrite <- Z.land_assoc.
Qed.

Lemma param_fields amsdu tid size :
  (amsdu = 0 \/ amsdu = 1) -> 0 <= tid < 16 -> param_check amsdu tid (size .& 1023) = true.
Proof.
  intros Ha Ht. pose proof param_checked as H. rewrite forallb_forall in H.
  assert (In amsdu [0; 1]) as Hin by (destruct Ha as [-> | ->]; cbn; auto). specialize (H _ Hin).
  rewrite forallb_forall in H. specialize (H tid). rewrite forallb_forall in H. apply H.
  - apply list_elem_of_In, elem_of_seqZ. lia.
  - apply list_elem_of_In, elem_of_seqZ. pose proof (land_le size 1023). lia.
Qed.

Lemma param_size amsdu tid size :
  addba_param amsdu 1 tid size = addba_param amsdu 1 tid (size .& 1023).
Proof. unfold addba_param. by rewrite encode_size_low. Qed.

(** The buffer size as the receiver puts it together. *)
Definition ext_octet (size : Z) : Z :=
  IEEE80211_ADDBA_EXT_NO_FRAG .| encode_bits (size >> IEEE80211_ADDBA_EXT_BUF_SIZE_SHIFT) IEEE80211_ADDBA_EXT_BUF_SIZE_MASK.

Lemma ext_size_checked :
  forallb (fun size => (size .& 1023) .| (get_bits (ext_octet size) IEEE80211_ADDBA_EXT_BUF_SIZE_MASK
                                          << IEEE80211_ADDBA_EXT_BUF_SIZE_SHIFT) =? size) (seqZ 0 8192) = true.
Proof. by vm_compute. Qed.

Lemma ext_size size : 0 <= size < 8192 ->
  (size .& 1023) .| (get_bits (ext_octet size) IEEE80211_ADDBA_EXT_BUF_SIZE_MASK << IEEE80211_ADDBA_EXT_BUF_SIZE_SHIFT) = size.
Proof.
  intros Hs. pose proof ext_size_checked as H. rewrite forallb_forall in H. apply Z.eqb_eq, H.
  apply list_elem_of_In, elem_of_seqZ. lia.
Qed.

Section roundtrip.
Context (crc32_be : Z -> list Z -> Z) (c : config).

(** What the receiver of the size reads: 13 bits between stations with EHT, ten
    bits otherwise. *)
Definition size_read (ext : bool) (size : Z) : Z :=
  if ext && has_he c && (valid_links c || has_eht c) then size else size .& 1023.

Lemma retrieve_written (ext : bool) size : 0 <= size < 8192 ->
  ieee80211_retrieve_addba_ext_data crc32_be c true
    (if ext then [WLAN_EID_ADDBA_EXT; sizeof_addba_ext_ie; ext_octet size] else []) (size .& 1023) =
  Some (if ext && has_he c then ext_octet size else 0, size_read ext size).
Proof.
  intros Hs. unfold size_read. destruct ext; cbn [andb].
  - destruct (has_he c) eqn:Hhe; cbn [andb].
    + change sizeof_addba_ext_ie with 1. rewrite retrieve_ext by done. destruct (_ || _); [|done]. by rewrite ext_size.
    + unfold ieee80211_retrieve_addba_ext_data. by rewrite Hhe.
  - unfold ieee80211_retrieve_addba_ext_data. by destruct (has_he c).
Qed.

(** An ADDBA request is read as it was written; the buffer size with 13 bits if
    both use EHT and with ten bits otherwise. *)
Lemma read_request he tid token start_seq_num size tmo use_ndp :
  is_uint 8 token -> 0 <= tid < 16 -> 0 <= start_seq_num < 4096 -> 0 <= size < 8192 -> is_uint 16 tmo ->
  read_addba_req crc32_be c true (addba_request he tid token start_seq_num size tmo use_ndp) =
  Some (mk_addba_req use_ndp token tmo start_seq_num 1 tid (size_read he size)
          (if he && has_he c then ext_octet size else 0)).
Proof.
  intros Htok Htid Hssn Hsize Htmo. unfold addba_request. cbv zeta.
  change (IEEE80211_ADDBA_PARAM_AMSDU_MASK .| IEEE80211_ADDBA_PARAM_POLICY_MASK) with (encode_bits 1 IEEE80211_ADDBA_PARAM_AMSDU_MASK .| encode_bits 1 IEEE80211_ADDBA_PARAM_POLICY_MASK).
  fold (addba_param 1 1 tid size). rewrite param_size.
  pose proof (param_fields 1 tid size (or_intror eq_refl) Htid) as Hp. unfold param_check in Hp. cbv zeta in Hp.
  set (cap := addba_param 1 1 tid (size .& 1023)) in *.
  rewrite !andb_true_iff, !Z.eqb_eq, bool_decide_eq_true in Hp. destruct Hp as ((((((Hc & _) & Hpol) & Ht) & _) & Hs) & _).
  assert (is_uint 16 (u16 (start_seq_num << 4)) /\ u16 (start_seq_num << 4) >> 4 = start_seq_num) as [Hq1 Hq2].
  { split; [by apply wrap_is_uint|]. rewrite wrap_small by (unfold is_uint; rewrite Z.shiftl_mul_pow2; lia).
    rewrite Z.shiftr_shiftl_l, Z.sub_diag by lia. apply Z.shiftl_0_r. }
  unfold read_addba_req. cbn [app].
  edestruct (read_fields WLAN_CATEGORY_BACK (if use_ndp then WLAN_ACTION_NDP_ADDBA_REQ else WLAN_ACTION_ADDBA_REQ) token
    cap tmo (u16 (start_seq_num << 4))) as (-> & -> & -> & -> & -> & ->); [done..|]. cbn [mbind option_bind].
  rewrite Hpol, Ht, Hs, Hq2. unfold ieee80211_add_addbaext. cbn [nz Z.eqb negb]. fold (ext_octet size).
  rewrite retrieve_written by done. cbn [mbind option_bind]. do 2 f_equal. by destruct use_ndp.
Qed.

(** C8: An ADDBA response is read by the peer as it was written: dialog token,
    status, TID, timeout and whether A-MSDUs may be aggregated; the buffer size,
    up to what the reader's device can send. *)
Theorem addba_response_roundtrip ext in_ampdu tid token status size tmo req_data use_ndp :
  is_uint 8 token -> is_uint 16 status -> 0 <= tid < 16 -> 0 <= size < 8192 -> is_uint 16 tmo ->
  req_data = 0 \/ Z.testbit req_data 0 = true ->
  read_addba_resp crc32_be c true (addba_response ext in_ampdu tid token status 1 size tmo req_data use_ndp) =
  Some (mk_addba_resp token status in_ampdu tid (Z.min (size_read ext size) (max_tx_aggregation_subframes c)) tmo).
Proof.
  intros Htok Hst Htid Hsize Htmo Hreq. unfold addba_response. cbv zeta. fold (addba_param (Z.b2z in_ampdu) 1 tid size).
  rewrite param_size. assert (Z.b2z in_ampdu = 0 \/ Z.b2z in_ampdu = 1) as Ha by (destruct in_ampdu; auto).
  pose proof (param_fields (Z.b2z in_ampdu) tid size Ha Htid) as Hp. unfold param_check in Hp. cbv zeta in Hp.
  set (cap := addba_param _ 1 tid (size .& 1023)) in *.
  rewrite !andb_true_iff, !Z.eqb_eq, bool_decide_eq_true, eqb_true_iff in Hp.
  destruct Hp as ((((((Hc & Ham) & _) & _) & Ht) & _) & Hs).
  unfold read_addba_resp. cbn [app].
  edestruct (read_fields WLAN_CATEGORY_BACK (if use_ndp then WLAN_ACTION_NDP_ADDBA_RESP else WLAN_ACTION_ADDBA_RESP) token
    status cap tmo) as (_ & -> & -> & -> & -> & ->); [done..|]. cbn [mbind option_bind].
  rewrite Ham, Ht, Hs. unfold ieee80211_add_addbaext.
  assert ((if nz req_data then IEEE80211_ADDBA_EXT_NO_FRAG .& req_data else IEEE80211_ADDBA_EXT_NO_FRAG) = IEEE80211_ADDBA_EXT_NO_FRAG) as ->.
  { destruct Hreq as [-> |Hb]; [done|]. destruct (nz req_data); [|done]. unfold IEEE80211_ADDBA_EXT_NO_FRAG, BIT.
    change (1 << 0) with (2 ^ 0). rewrite Z.land_comm, land_pow2, Hb by done. done. }
  fold (ext_octet size). rewrite retrieve_written by done. cbn [mbind option_bind]. do 2 f_equal. by destruct in_ampdu.
Qed.
End roundtrip.

(** Two stations with EHT agree on the largest buffer. *)
Definition eht_config : config :=
  mk_config 16 true true true true true false false false NL80211_IFTYPE_STATION false true true false false
    false true false true 1024 1024 (fun q => q) 1000 (fun tu => tu).
Lemma addba_response_roundtrip_witness :
  read_addba_resp (fun x _ => x) eht_config true (addba_response true true 6 200 0 1 1024 5000 0 false) =
  Some (mk_addba_resp 200 0 true 6 1024 5000).
Proof. refine (addba_response_roundtrip (fun x _ => x) eht_config true true 6 200 0 1024 5000 0 false _ _ _ _ _ _); [done|done|lia|lia|done|by left]. Defined.
