(* ===== verification/TtlmFrame.v ===== *)
(** * TtlmFrame: the request for a TID-to-link mapping on the air

    [ieee80211_send_neg_ttlm_req] ([net/mac80211/mlme.c]) builds the action
    frame that asks a peer for a mapping; the receiver has the element parser
    look for mapping elements and hands them to the request handler of [Ttlm].
    What is sent arrives, when it is sent: the buffer is allocated five octets
    short of the longest request. *)
From stdpp Require Import gmap strings.
From S2P Require Import Prelude Frame Skb Amsdu Mle Ttlm Element MleDefrag Parse ParseProofs ParseFull Agg AggFrames.

Definition WLAN_CATEGORY_PROTECTED_EHT : Z := 37.
Definition WLAN_PROTECTED_EHT_ACTION_TTLM_REQ : Z := 0.

(** [IEEE80211_MIN_ACTION_SIZE(ttlm_req)]: up to the dialog token. *)
Definition min_action_size_ttlm_req : Z := 27.

(** What the senders reserve for the elements. *)
Definition ttlm_max_len : Z := 2 + 1 + sizeof_ttlm_elem + 1 + 2 * 2 * IEEE80211_TTLM_NUM_TIDS.

(** [None]: the kernel panics; [Some None]: no memory. *)
Definition ieee80211_send_neg_ttlm_req `{RxMem} (tx_headroom : Z) (ap_addr addr : list Z) (neg_ttlm : ieee80211_neg_ttlm)
    (dialog_token : Z) : option (option sk_buff) :=
  let hdr_len := min_action_size_ttlm_req in
  match dev_alloc_skb (tx_headroom + hdr_len + ttlm_max_len) with
  | None => Some None
  | Some skb =>
      skb ← skb_reserve skb tx_headroom;
      skb ← skb_put_data skb (replicate (Z.to_nat hdr_len) 0);
      d ← store (data skb) 0 (le16_bytes (IEEE80211_FTYPE_MGMT .| IEEE80211_STYPE_ACTION));
      d ← store d 4 ap_addr;
      d ← store d 10 addr;
      d ← store d 16 ap_addr;
      d ← store d 24 [WLAN_CATEGORY_PROTECTED_EHT];
      d ← store d 25 [WLAN_PROTECTED_EHT_ACTION_TTLM_REQ];
      d ← store d 26 [dialog_token];
      skb ← ieee80211_neg_ttlm_add_suggested_map (set_data skb d) neg_ttlm;
      Some (Some skb)
  end.

(** The handler from the frame on: the elements found by the parser, which are
    in the frame as no profile is asked for, and the decision on them. *)
Definition process_neg_ttlm_frame (crc32_be : Z -> list Z -> Z) (alloc : bool)
    (drv_can_neg_ttlm : ieee80211_neg_ttlm -> ieee80211_neg_ttlm_res * ieee80211_neg_ttlm) (valid_links : Z)
    (frame : list Z) : option (ieee80211_neg_ttlm_res * ieee80211_neg_ttlm) :=
  let ies := drop (Z.to_nat min_action_size_ttlm_req) frame in
  '(r, mem) ← ieee802_11_parse_elems_full crc32_be alloc ies (action_params (zlen ies));
  match r with
  | None => Some (NEG_TTLM_RES_REJECT, init_neg_ttlm)
  | Some p => ieee80211_process_neg_ttlm_req drv_can_neg_ttlm valid_links (object (zlen ies) mem 0) (fst <$> ttlm (elems p))
  end.

(** ** The elements of a request *)

(** What is written for a mapping. *)
Definition ttlm_elems (t : ieee80211_neg_ttlm) : list Z :=
  if bool_decide (downlink t = uplink t) then ttlm_elem_bytes IEEE80211_TTLM_DIRECTION_BOTH (downlink t)
  else ttlm_elem_bytes IEEE80211_TTLM_DIRECTION_DOWN (downlink t) ++
       ttlm_elem_bytes IEEE80211_TTLM_DIRECTION_UP (uplink t).

Definition maps_ok (t : ieee80211_neg_ttlm) : Prop :=
  length (downlink t) = 8%nat /\ length (uplink t) = 8%nat /\
  Forall (is_uint 16) (downlink t) /\ Forall (is_uint 16) (uplink t).

Lemma zlen_ttlm_elem d l : zlen (ttlm_elem_bytes d l) = 5 + zlen (map_bytes l).
Proof. unfold ttlm_elem_bytes, ttlm_body. zlens. lia. Qed.

Lemma suggested_map_spec t skb :
  maps_ok t ->
  match ieee80211_neg_ttlm_add_suggested_map skb t with
  | Some skb' => zlen (ttlm_elems t) <= skb_tailroom skb /\ data skb' = data skb ++ ttlm_elems t
  | None => skb_tailroom skb < zlen (ttlm_elems t)
  end.
Proof.
  intros (H1 & H2 & _). unfold ieee80211_neg_ttlm_add_suggested_map, ttlm_elems.
  destruct (bool_decide_reflect (downlink t = uplink t)) as [E|E]; cbn [negb].
  - rewrite zlen_ttlm_elem.
    destruct (Z.ltb_spec (skb_tailroom skb) (5 + zlen (map_bytes (downlink t)))).
    { by rewrite suggested_map_element_over. }
    destruct (suggested_map_element_spec IEEE80211_TTLM_DIRECTION_BOTH t skb) as (s & -> & Ed & _); [by right; right|done|done|].
    done.
  - rewrite zlen_app, !zlen_ttlm_elem. pose proof (zlen_nonneg (map_bytes (uplink t))).
    destruct (Z.ltb_spec (skb_tailroom skb) (5 + zlen (map_bytes (downlink t)))).
    { rewrite suggested_map_element_over; [|done|done]. cbn. lia. }
    destruct (suggested_map_element_spec IEEE80211_TTLM_DIRECTION_DOWN t skb) as (s1 & -> & Ed1 & Er1); [by left|done|done|].
    rewrite bind_some. change (dir_maps _ t) with (downlink t) in Er1, Ed1.
    destruct (Z.ltb_spec (skb_tailroom s1) (5 + zlen (map_bytes (uplink t)))).
    { rewrite suggested_map_element_over; [|done|done]. lia. }
    destruct (suggested_map_element_spec IEEE80211_TTLM_DIRECTION_UP t s1) as (s & -> & Ed & _); [by right; left|done|done|].
    split; [lia|]. by rewrite Ed, Ed1, <- app_assoc.
Qed.

(** ** Parsing them *)

Section parse.
Context (crc32_be : Z -> list Z -> Z).

(** One mapping element, in the walk for the elements and in the search for a
    multi-link element. *)
Section element.
Context (D R : list Z) (d : Z) (l : list Z).
Hypotheses (Hd : valid_direction d) (Hl : length l = 8%nat).
Let mem := D ++ ttlm_elem_bytes d l ++ R.

Lemma elem_split :
  mem = D ++ [WLAN_EID_EXTENSION; zlen (WLAN_EID_EXT_TID_TO_LINK_MAPPING :: ttlm_body d l)] ++
        (WLAN_EID_EXT_TID_TO_LINK_MAPPING :: ttlm_body d l) ++ R.
Proof. unfold mem, ttlm_elem_bytes. rewrite zlen_cons, <- app_assoc. done. Qed.

Lemma elem_at :
  element_at mem (zlen D) (zlen mem) = Some (Some (1 + zlen (ttlm_body d l))) /\
  rd8 mem (zlen D) = Some WLAN_EID_EXTENSION /\
  rd8 mem (zlen D + sizeof_element) = Some WLAN_EID_EXT_TID_TO_LINK_MAPPING.
Proof.
  rewrite elem_split. pose proof (zlen_nonneg R). rewrite <- zlen_cons with (x := WLAN_EID_EXT_TID_TO_LINK_MAPPING).
  destruct (element_at_written D WLAN_EID_EXTENSION (WLAN_EID_EXT_TID_TO_LINK_MAPPING :: ttlm_body d l) R
    (zlen mem)) as [E1 E2]; [rewrite elem_split; zlens; lia|].
  rewrite elem_split in E1. split; [done|]. split; [done|].
  unfold sizeof_element. by rewrite rd8_app_r by lia.
Qed.

Lemma elem_size_ok :
  ieee80211_tid_to_link_map_size_ok mem (zlen D + 3) (zlen (ttlm_body d l)) = Some true.
Proof.
  unfold mem, ttlm_elem_bytes. set (h := [WLAN_EID_EXTENSION; _; _]).
  replace (D ++ (h ++ ttlm_body d l) ++ R) with ((D ++ h) ++ ttlm_body d l ++ R) by (by rewrite <- !app_assoc).
  replace (zlen D + 3) with (zlen (D ++ h)) by (zlens; unfold h; zlens; lia). by apply size_ok_written.
Qed.

Lemma elem_next : zlen D + sizeof_element + (1 + zlen (ttlm_body d l)) = zlen (D ++ ttlm_elem_bytes d l).
Proof. unfold ttlm_elem_bytes, sizeof_element. zlens. lia. Qed.

Lemma parse_loop_elem fuel len inside sv seen c e :
  zlen (ttlm e) < IEEE80211_TTLM_MAX_CNT ->
  parse_loop crc32_be (S fuel) mem (action_params len) inside sv None (zlen D) (zlen mem) seen c e =
  parse_loop crc32_be fuel mem (action_params len) inside sv None (zlen (D ++ ttlm_elem_bytes d l)) (zlen mem)
    ({[WLAN_EID_EXTENSION]} ∪ seen) c (add_ttlm (zlen D + 3, zlen (ttlm_body d l)) e).
Proof.
  intros Hn. destruct elem_at as (E1 & E2 & E3). cbn [parse_loop]. rewrite E1, bind_some, E2, bind_some, bind_some.
  cbn [negb]. change (parse_once WLAN_EID_EXTENSION) with false. cbn [andb].
  change (nz (p_filter (action_params len)) && _ && _) with false. cbn [crc_element]. rewrite bind_some, elem_next.
  assert (parse_element crc32_be mem (action_params len) inside sv WLAN_EID_EXTENSION (zlen D) (1 + zlen (ttlm_body d l)) c e
    = Some (add_ttlm (zlen D + 3, zlen (ttlm_body d l)) e, 0, c)) as ->.
  { change (parse_element crc32_be mem (action_params len) inside sv WLAN_EID_EXTENSION (zlen D) (1 + zlen (ttlm_body d l)) c e)
      with ('(e, crc) ← ieee80211_parse_extension_element crc32_be mem (action_params len) inside false c (zlen D)
              (1 + zlen (ttlm_body d l)) e; skip crc e).
    unfold ieee80211_parse_extension_element. pose proof (zlen_nonneg (ttlm_body d l)).
    destruct (Z.eqb_spec (1 + zlen (ttlm_body d l)) 0); [lia|]. rewrite E3, bind_some.
    replace (1 + zlen (ttlm_body d l) - 1) with (zlen (ttlm_body d l)) by lia.
    replace (zlen D + sizeof_element + 1) with (zlen D + 3) by (unfold sizeof_element; lia).
    match goal with |- context [parse_extension_he ?m ?p ?i ?x ?y ?z ?o] =>
      change (parse_extension_he m p i x y z o) with
        (ok ← ieee80211_tid_to_link_map_size_ok m x y;
         Some (if ok && (zlen (ttlm z) <? IEEE80211_TTLM_MAX_CNT) then add_ttlm (x, y) z else z, true)) end.
    rewrite elem_size_ok, bind_some. destruct (Z.ltb_spec (zlen (ttlm e)) IEEE80211_TTLM_MAX_CNT); [|lia].
    done. }
  done.
Qed.

Lemma find_basic_elem fuel :
  find_basic_mle (S fuel) mem (zlen D) (zlen mem) = find_basic_mle fuel mem (zlen (D ++ ttlm_elem_bytes d l)) (zlen mem).
Proof.
  destruct elem_at as (E1 & E2 & E3). cbn [find_basic_mle]. rewrite E1, bind_some, E2, bind_some, elem_next.
  change (negb (WLAN_EID_EXTENSION =? WLAN_EID_EXTENSION)) with false. pose proof (zlen_nonneg (ttlm_body d l)).
  destruct (Z.ltb_spec 0 (1 + zlen (ttlm_body d l))); [|lia]. cbn [negb orb]. by rewrite E3.
Qed.
End element.

(** The end of the list. *)
Lemma element_at_end mem : element_at mem (zlen mem) (zlen mem) = Some None.
Proof. unfold element_at. by rewrite Z.sub_diag. Qed.

Lemma parse_loop_end fuel mem params inside sv seen c e :
  parse_loop crc32_be (S fuel) mem params inside sv None (zlen mem) (zlen mem) seen c e = Some (e, c).
Proof. cbn [parse_loop]. rewrite element_at_end, bind_some. by rewrite Z.eqb_refl. Qed.

Lemma find_basic_end fuel mem : find_basic_mle (S fuel) mem (zlen mem) (zlen mem) = Some None.
Proof. cbn [find_basic_mle]. by rewrite element_at_end. Qed.

(** The elements of a request: what is found, and that it lies in the frame. *)
Definition ttlm_refs (t : ieee80211_neg_ttlm) : list (Z * Z) :=
  let first := zlen (ttlm_elem_bytes IEEE80211_TTLM_DIRECTION_DOWN (downlink t)) in
  if bool_decide (downlink t = uplink t) then [(3, 2 + zlen (map_bytes (downlink t)))]
  else [(3, 2 + zlen (map_bytes (downlink t))); (first + 3, 2 + zlen (map_bytes (uplink t)))].

Lemma zlen_body d l : zlen (ttlm_body d l) = 2 + zlen (map_bytes l).
Proof. unfold ttlm_body. zlens. lia. Qed.

Lemma parse_request t inside sv :
  maps_ok t ->
  exists e, _ieee802_11_parse_elems_full crc32_be (ttlm_elems t) (action_params (zlen (ttlm_elems t))) inside sv None zeroed_elems
      = Some (e, 0) /\ e = foldl (fun e r => add_ttlm r e) zeroed_elems (ttlm_refs t) /\
    find_basic_mle (S (Z.to_nat (zlen (ttlm_elems t)))) (ttlm_elems t) 0 (zlen (ttlm_elems t)) = Some None.
Proof.
  intros (H1 & H2 & _). eexists. split; [|split; [reflexivity|]]; unfold _ieee802_11_parse_elems_full.
  - cbn [action_params p_start p_len p_crc]. rewrite Z.add_0_l. unfold ttlm_elems, ttlm_refs.
    destruct (bool_decide_reflect (downlink t = uplink t)) as [E|E].
    + set (b := ttlm_elem_bytes _ _). assert (5 <= zlen b) as Hb by (unfold b; rewrite zlen_ttlm_elem; pose proof (zlen_nonneg (map_bytes (downlink t))); lia).
      replace (S (Z.to_nat (zlen b))) with (S (S (Z.to_nat (zlen b) - 1))) by lia.
      pose proof (parse_loop_elem [] [] IEEE80211_TTLM_DIRECTION_BOTH (downlink t) ltac:(by right; right) H1
        (S (Z.to_nat (zlen b) - 1)) (zlen b) inside sv ∅ 0 zeroed_elems ltac:(done)) as Es.
      cbn [app] in Es. rewrite app_nil_r in Es. fold b in Es. change (zlen []) with 0 in Es. rewrite Es, parse_loop_end.
      by rewrite zlen_body.
    + set (b1 := ttlm_elem_bytes _ _). set (b2 := ttlm_elem_bytes IEEE80211_TTLM_DIRECTION_UP _).
      assert (5 <= zlen b1) as Hb1 by (unfold b1; rewrite zlen_ttlm_elem; pose proof (zlen_nonneg (map_bytes (downlink t))); lia).
      pose proof (zlen_nonneg b2).
      replace (S (Z.to_nat (zlen (b1 ++ b2)))) with (S (S (S (Z.to_nat (zlen (b1 ++ b2)) - 2)))) by (rewrite zlen_app; lia).
      set (k := (Z.to_nat (zlen (b1 ++ b2)) - 2)%nat).
      pose proof (parse_loop_elem [] b2 IEEE80211_TTLM_DIRECTION_DOWN (downlink t) ltac:(by left) H1
        (S (S k)) (zlen (b1 ++ b2)) inside sv ∅ 0 zeroed_elems ltac:(done)) as Es1.
      cbn [app] in Es1. fold b1 in Es1. change (zlen []) with 0 in Es1. rewrite Es1.
      pose proof (parse_loop_elem b1 [] IEEE80211_TTLM_DIRECTION_UP (uplink t) ltac:(by right; left) H2
        (S k) (zlen (b1 ++ b2)) inside sv ({[WLAN_EID_EXTENSION]} ∪ ∅) 0
        (add_ttlm (0 + 3, zlen (ttlm_body IEEE80211_TTLM_DIRECTION_DOWN (downlink t))) zeroed_elems) ltac:(done)) as Es2.
      fold b2 in Es2. rewrite app_nil_r in Es2. rewrite Es2, parse_loop_end. by rewrite !zlen_body.
  - unfold ttlm_elems. destruct (bool_decide_reflect (downlink t = uplink t)) as [E|E].
    + set (b := ttlm_elem_bytes _ _). assert (5 <= zlen b) as Hb by (unfold b; rewrite zlen_ttlm_elem; pose proof (zlen_nonneg (map_bytes (downlink t))); lia).
      replace (S (Z.to_nat (zlen b))) with (S (S (Z.to_nat (zlen b) - 1))) by lia.
      pose proof (find_basic_elem [] [] IEEE80211_TTLM_DIRECTION_BOTH (downlink t) H1) as Es.
      cbn [app] in Es. rewrite app_nil_r in Es. fold b in Es. change (zlen []) with 0 in Es. by rewrite Es, find_basic_end.
    + set (b1 := ttlm_elem_bytes _ _). set (b2 := ttlm_elem_bytes IEEE80211_TTLM_DIRECTION_UP _).
      assert (5 <= zlen b1) as Hb1 by (unfold b1; rewrite zlen_ttlm_elem; pose proof (zlen_nonneg (map_bytes (downlink t))); lia).
      pose proof (zlen_nonneg b2).
      replace (S (Z.to_nat (zlen (b1 ++ b2)))) with (S (S (S (Z.to_nat (zlen (b1 ++ b2)) - 2)))) by (rewrite zlen_app; lia).
      pose proof (find_basic_elem [] b2 IEEE80211_TTLM_DIRECTION_DOWN (downlink t) H1) as Es1.
      cbn [app] in Es1. fold b1 in Es1. change (zlen []) with 0 in Es1. rewrite Es1.
      pose proof (find_basic_elem b1 [] IEEE80211_TTLM_DIRECTION_UP (uplink t) H2) as Es2.
      fold b2 in Es2. rewrite app_nil_r in Es2. by rewrite Es2, find_basic_end.
Qed.
End parse.

Lemma map_bytes_ok l : bytes_ok (map_bytes l).
Proof.
  induction l as [|m l IH]; [constructor|]. rewrite map_bytes_cons. apply Forall_app. split; [|done].
  destruct (m =? 0); [constructor|]. repeat constructor; apply wrap_is_uint; lia.
Qed.

Lemma ttlm_elem_bytes_ok d l : valid_direction d -> length l = 8%nat -> bytes_ok (ttlm_elem_bytes d l).
Proof.
  intros Hd Hl. pose proof (zlen_map_bytes l). unfold ttlm_elem_bytes. rewrite zlen_body.
  assert (zlen l = 8) as E by (unfold zlen; lia). pose proof (map_bits_uint 0 l ltac:(lia)) as Hb.
  rewrite E in *. assert (is_uint 8 d) as H8 by (destruct Hd as [-> | [-> | ->]]; by unfold is_uint).
  assert (is_uint 8 (1 + (2 + zlen (map_bytes l)))) as H8' by (unfold is_uint; lia).
  apply Forall_app. split; [by constructor; [|constructor; [|constructor; [|constructor]]]|].
  constructor; [done|]. constructor; [exact Hb|apply map_bytes_ok].
Qed.

Lemma ttlm_elems_ok t : maps_ok t -> bytes_ok (ttlm_elems t) /\ 5 <= zlen (ttlm_elems t) <= 42.
Proof.
  intros (H1 & H2 & _). unfold ttlm_elems. pose proof (zlen_map_bytes (downlink t)). pose proof (zlen_map_bytes (uplink t)).
  assert (zlen (downlink t) = 8 /\ zlen (uplink t) = 8) as [E1 E2] by (unfold zlen; lia).
  destruct (bool_decide_reflect (downlink t = uplink t)).
  - rewrite zlen_ttlm_elem. split; [apply ttlm_elem_bytes_ok; [by right; right|done]|lia].
  - rewrite zlen_app, !zlen_ttlm_elem. split; [|lia].
    apply Forall_app. split; apply ttlm_elem_bytes_ok; try done; [by left|by right; left].
Qed.

Lemma ttlm_found_ok t :
  maps_ok t -> elems_ok (ttlm_elems t) 0 (zlen (ttlm_elems t)) (foldl (fun e r => add_ttlm r e) zeroed_elems (ttlm_refs t)).
Proof.
  intros _. pose proof (zlen_nonneg (map_bytes (downlink t))). pose proof (zlen_nonneg (map_bytes (uplink t))).
  unfold ttlm_elems, ttlm_refs. destruct (bool_decide _); rewrite ?zlen_app, !zlen_ttlm_elem; cbn [foldl].
  - apply add_ttlm_ok; [apply zeroed_elems_ok|done|cbn; lia..].
  - apply add_ttlm_ok; [apply add_ttlm_ok; [apply zeroed_elems_ok|done|cbn; lia..]|done|cbn; lia..].
Qed.

(** The whole parser finds them. *)
Lemma parse_full_request crc32_be t :
  maps_ok t ->
  exists p m, ieee802_11_parse_elems_full crc32_be true (ttlm_elems t) (action_params (zlen (ttlm_elems t))) = Some (Some p, m) /\
    object (zlen (ttlm_elems t)) m 0 = ttlm_elems t /\ ttlm (elems p) = ttlm_refs t.
Proof.
  intros Ht. destruct (ttlm_elems_ok t Ht) as [Hok Hlen]. pose proof (ttlm_found_ok t Ht) as He.
  destruct (parse_request crc32_be t false false Ht) as (e & Ee & -> & Eb).
  set (ies := ttlm_elems t) in *. set (params := action_params (zlen ies)) in *.
  unfold ieee802_11_parse_elems_full, parse_elems_in. cbn [link_id params action_params Z.ltb Z.compare negb andb].
  destruct (with_scratch ies params) as [m s] eqn:Ews. set (total := zlen ies + 1 + 3 * zlen ies).
  destruct (with_scratch_ok ies params total m s) as (Hm & Hs & Hpos & Hb & Hp); [done|cbn; lia|done|done|].
  assert (zlen ies + 1 <= total) as Htot by (unfold total; lia). assert (total < 2 ^ 63) as H63 by (unfold total; lia).
  assert (used ies s (0, zlen ies)) as Hu by (split; cbn; lia).
  unfold select_profile. cbn [p_bss params action_params]. unfold ieee80211_prep_mle_link_parse.
  change (mode params <? IEEE80211_CONN_MODE_EHT) with false. cbv iota zeta.
  change (p_start params) with 0. change (p_len params) with (zlen ies). rewrite Z.add_0_l.
  rewrite (object_frame ies total m 0) by (done || lia). rewrite Eb, bind_some.
  destruct (defrag_to_scratch_safe ies total Htot H63 m s None 0 (zlen ies) WLAN_EID_FRAGMENT Hm Hs Hu I)
    as (r & s1 & m1 & -> & Hst & (Fb & Fp & Fi) & Hr). rewrite bind_some.
  destruct r as [r|]; [by destruct Hr as (_ & _ & ? & ? & _)|]. rewrite !bind_some.
  destruct Hst as [Hm1 Hs1 _ _]. cbn [lp_mem lp_mle lp_sub lp_base lp_non_inherit no_sub p_start p_len].
  change (p_start params) with 0. rewrite (object_frame ies total m1 0) by (done || lia).
  change (cfg80211_find_elem ies WLAN_EID_VENDOR_SPECIFIC 0 0) with (Some (@None (Z * Z))). rewrite bind_some.
  assert (inside_multilink s1 = false) as -> by (rewrite Fi; by injection Ews as _ <-).
  change (bool_decide (is_Some (@None (Z * Z)))) with false. rewrite Ee, bind_some.
  change (nz 0) with false. cbv iota. rewrite bind_some.
  set (e := foldl _ _ _) in *.
  assert (fields_ok (zlen ies) m1 (scratch_pos s1) e) as Hf.
  { apply (fields_of_range ies total m1 _ 0 (zlen ies)); [done|split; cbn; lia|].
    rewrite (object_frame ies total m1 0), Z.add_0_l by (done || lia). done. }
  destruct (reassemble_safe ies total Htot H63 m1 s1 e 0 None false) as (p & m2 & -> & Hm2 & _ & Ep);
    [done|done|done|by rewrite Fb, Hb|by rewrite Fp, Hp|done|].
  exists p, m2. split; [done|]. split; [by rewrite (object_frame ies total m2 0) by (done || lia)|].
  rewrite Ep. unfold e, ttlm_refs. by destruct (bool_decide _).
Qed.

(** ** From the sender to the receiver *)

Definition request_header (ap_addr addr : list Z) (token : Z) : list Z :=
  le16_bytes (IEEE80211_FTYPE_MGMT .| IEEE80211_STYPE_ACTION) ++ [0; 0] ++ ap_addr ++ addr ++ ap_addr ++ [0; 0] ++
  [WLAN_CATEGORY_PROTECTED_EHT; WLAN_PROTECTED_EHT_ACTION_TTLM_REQ; token].

Lemma reserve_spec s n :
  0 <= n <= skb_tailroom s ->
  exists s', skb_reserve s n = Some s' /\ data s' = data s /\ skb_tailroom s' = skb_tailroom s - n.
Proof.
  intros Hn. unfold skb_reserve, skb_tailroom in *. replace (in_range (tail s) 0 n) with true by (symmetry; unfold in_range; lia).
  eexists. split; [done|]. split; [done|]. unfold zlen in *. cbn [tail]. rewrite length_drop. lia.
Qed.

(** The room behind the header and the elements decide what is sent. *)
Lemma send_request_spec `{RxMemLaws} tx_headroom ap_addr addr t token s0 :
  0 <= tx_headroom -> length ap_addr = 6%nat -> length addr = 6%nat -> maps_ok t ->
  dev_alloc_skb (tx_headroom + min_action_size_ttlm_req + ttlm_max_len) = Some s0 ->
  let room := skb_tailroom s0 - tx_headroom - min_action_size_ttlm_req in
  ttlm_max_len <= room /\
  match ieee80211_send_neg_ttlm_req tx_headroom ap_addr addr t token with
  | Some (Some skb) => zlen (ttlm_elems t) <= room /\ data skb = request_header ap_addr addr token ++ ttlm_elems t
  | Some None => False
  | None => room < zlen (ttlm_elems t)
  end.
Proof.
  intros Hh Ha Hb Ht E room. pose proof (alloc_room _ _ E) as Hr. pose proof (alloc_empty _ _ E) as Hd.
  unfold min_action_size_ttlm_req in *. split; [unfold room; lia|].
  assert (0 <= ttlm_max_len) as Hpos by done.
  unfold ieee80211_send_neg_ttlm_req, min_action_size_ttlm_req. rewrite E.
  destruct (reserve_spec s0 tx_headroom) as (s1 & -> & Hd1 & Hr1); [lia|]. rewrite bind_some.
  destruct (skb_put_data_spec s1 (replicate (Z.to_nat 27) 0)) as (s2 & -> & Hd2 & Hr2);
    [change (zlen (replicate (Z.to_nat 27) 0)) with 27; lia|].
  change (zlen (replicate (Z.to_nat 27) 0)) with 27 in Hr2. rewrite bind_some, Hd2, Hd1, Hd.
  do 6 (destruct ap_addr as [|? ap_addr]; [discriminate|]). destruct ap_addr; [|discriminate].
  do 6 (destruct addr as [|? addr]; [discriminate|]). destruct addr; [|discriminate].
  pose proof (suggested_map_spec t (set_data s2 (request_header [z; z0; z1; z2; z3; z4] [z5; z6; z7; z8; z9; z10] token)) Ht) as Hs.
  assert (skb_tailroom (set_data s2 (request_header [z; z0; z1; z2; z3; z4] [z5; z6; z7; z8; z9; z10] token)) = room) as Er
    by (unfold room; rewrite <- Hr1 in *; unfold skb_tailroom in *; cbn [tail set_data]; lia).
  rewrite Er in Hs.
  match goal with |- match ?x with Some _ => _ | None => _ end => change x with
    (skb ← ieee80211_neg_ttlm_add_suggested_map
       (set_data s2 (request_header [z; z0; z1; z2; z3; z4] [z5; z6; z7; z8; z9; z10] token)) t; Some (Some skb)) end.
  destruct (ieee80211_neg_ttlm_add_suggested_map _ t) as [skb|]; [rewrite bind_some; exact Hs|exact Hs].
Qed.

Lemma drop_header ap_addr addr token l :
  length ap_addr = 6%nat -> length addr = 6%nat ->
  drop (Z.to_nat min_action_size_ttlm_req) (request_header ap_addr addr token ++ l) = l.
Proof.
  intros Ha Hb. apply drop_app_length'. unfold request_header. rewrite !length_app, Ha, Hb. done.
Qed.

(** C39: A request for a TID-to-link mapping arrives intact.  Whatever the eight
    maps of each direction, the request is sent when its elements, one of 5
    octets and 2 per TID with links or two such, fit the 37 octets the sender
    reserves for them; the receiver's element parser then finds them in the
    frame and its request handler reads back exactly the sender's maps, leaving
    the decision to the driver, provided they only name its links.  When the
    elements do not fit, as two elements of more than 13 maps altogether do
    not, and the allocator gave no more than was asked for, writing them runs
    over the end of the buffer and the sender panics. *)
Theorem ttlm_request_roundtrip `{RxMemLaws} tx_headroom ap_addr addr t token s0 :
  0 <= tx_headroom -> length ap_addr = 6%nat -> length addr = 6%nat -> maps_ok t ->
  dev_alloc_skb (tx_headroom + min_action_size_ttlm_req + ttlm_max_len) = Some s0 ->
  (zlen (ttlm_elems t) <= ttlm_max_len ->
   exists skb, ieee80211_send_neg_ttlm_req tx_headroom ap_addr addr t token = Some (Some skb) /\
     forall crc32_be drv valid_links,
       forallb (in_links valid_links) (downlink t) = true -> forallb (in_links valid_links) (uplink t) = true ->
       process_neg_ttlm_frame crc32_be true drv valid_links (data skb) = Some (drv (same_maps t))) /\
  (ttlm_max_len < zlen (ttlm_elems t) ->
   skb_tailroom s0 = tx_headroom + min_action_size_ttlm_req + ttlm_max_len ->
   ieee80211_send_neg_ttlm_req tx_headroom ap_addr addr t token = None).
Proof.
  intros Hh Ha Hb Ht E. destruct (send_request_spec tx_headroom ap_addr addr t token s0 Hh Ha Hb Ht E) as [Hroom Hs].
  split; intros Hfit.
  - destruct (ieee80211_send_neg_ttlm_req _ _ _ _ _) as [[skb|]|]; [|done|lia]. destruct Hs as [_ Hd].
    exists skb. split; [done|]. intros crc32_be drv vl H1 H2. unfold process_neg_ttlm_frame.
    rewrite Hd, drop_header by done. cbv zeta.
    destruct (parse_full_request crc32_be t Ht) as (p & m & -> & Ho & Ep). rewrite bind_some, Ho, Ep.
    destruct Ht as (L1 & L2 & O1 & O2). unfold ttlm_elems, ttlm_refs.
    destruct (bool_decide_reflect (downlink t = uplink t)) as [Em|Em]; cbn [fmap list_fmap fst].
    + rewrite <- (app_nil_r (ttlm_elem_bytes _ _)). by apply (process_written_both drv vl [] []).
    + apply (process_written_two drv vl [] (ttlm_elem_bytes IEEE80211_TTLM_DIRECTION_DOWN (downlink t))
        (ttlm_elem_bytes IEEE80211_TTLM_DIRECTION_UP (uplink t)) []); try done. by rewrite app_nil_r.
  - intros Et. destruct (ieee80211_send_neg_ttlm_req _ _ _ _ _) as [[skb|]|]; [lia|done|done].
Qed.

(** ** Concrete requests *)

(** An allocator that gives exactly what it is asked for. *)
Definition exact_mem : RxMem := {|
  dev_alloc_skb n := Some (mk_skb [] [] (replicate (Z.to_nat n) 0) false);
  pskb_pull_tail _ _ := None;
  shinfo := replicate 8 0;
  max_skb_frags := 17;
|}.

Lemma exact_mem_laws : @RxMemLaws exact_mem.
Proof.
  split; [by intros n s [= <-]|..|by intros|by intros|done].
  intros n s [= <-]. unfold skb_tailroom, zlen. cbn [tail]. rewrite length_replicate. lia.
Qed.

(** Seven and six maps are sent and accepted; sixteen different ones run over
    the end. *)
Lemma ttlm_request_roundtrip_witness :
  let send t := @ieee80211_send_neg_ttlm_req exact_mem 8 (replicate 6 2) (replicate 6 4) t 9 in
  let t := mk_neg_ttlm [1; 1; 0; 2; 3; 3; 3; 1] [3; 3; 0; 3; 3; 0; 3; 3] false in
  (exists skb, send t = Some (Some skb) /\
     process_neg_ttlm_frame Sample.crc32_be true (fun t => (NEG_TTLM_RES_ACCEPT, t)) 3 (data skb)
       = Some (NEG_TTLM_RES_ACCEPT, t)) /\
  send (mk_neg_ttlm (replicate 8 1) (replicate 8 2) false) = None.
Proof.
  pose proof exact_mem_laws as Hlaws. cbv zeta. split.
  - destruct (@ttlm_request_roundtrip exact_mem Hlaws 8 (replicate 6 2) (replicate 6 4)
      (mk_neg_ttlm [1; 1; 0; 2; 3; 3; 3; 1] [3; 3; 0; 3; 3; 0; 3; 3] false) 9
      (mk_skb [] [] (replicate (Z.to_nat (8 + 27 + 37)) 0) false)) as [H _]; [done..| |done|].
    { split_and!; [done|done|..]; by (eapply bool_decide_unpack; vm_compute). }
    destruct H as (skb & E & H); [by vm_compute|]. exists skb. split; [exact E|]. by apply H.
  - destruct (@ttlm_request_roundtrip exact_mem Hlaws 8 (replicate 6 2) (replicate 6 4)
      (mk_neg_ttlm (replicate 8 1) (replicate 8 2) false) 9
      (mk_skb [] [] (replicate (Z.to_nat (8 + 27 + 37)) 0) false)) as [_ H]; [done..| |done|].
    { split_and!; [done|done|..]; by (eapply bool_decide_unpack; vm_compute). }
    apply H; by vm_compute.
Defined.
