(* ===== verification/AggRx.v ===== *)
(** * AggRx: receive sessions

    [net/mac80211/agg-rx.c]: the end and the start of the session of a TID, and
    the ADDBA request of the peer.  [jiffies] is the clock when a handler reads
    it.  The session timer of a session that ends may still fire while the
    driver is told; what it does then is what [ieee80211_rx_ba_timer_expired]
    does, an interrupt that can come at any time. *)
From stdpp Require Import gmap strings.
From S2P Require Import Prelude Frame Key Amsdu Reorder Parse Agg AggFrames.

Definition WLAN_STATUS_SUCCESS : Z := 0.
Definition WLAN_STATUS_UNSPECIFIED_QOS : Z := 32.
Definition WLAN_STATUS_REQUEST_DECLINED : Z := 37.
Definition WLAN_STATUS_INVALID_QOS_PARAM : Z := 38.
Definition WLAN_STATUS_REJECTED_NDP_BLOCK_ACK_SUGGESTED : Z := 109.
Definition WLAN_REASON_UNSPECIFIED : Z := 1.
Definition WLAN_REASON_QSTA_LEAVE_QBSS : Z := 36.
Definition WLAN_REASON_QSTA_NOT_USE : Z := 37.
Definition WLAN_REASON_QSTA_TIMEOUT : Z := 39.

Section rx.
Context (crc32_be : Z -> list Z -> Z) (c : config).

(** A frame that cannot be allocated is not sent. *)
Definition send_action (body : list Z) : M unit :=
  alloc <- next_alloc ;; if alloc : bool then modify (emit (ev_action_frame body)) else ret tt.

Definition ieee80211_send_delba (tid initiator reason_code : Z) (use_ndp : bool) : M unit :=
  send_action (delba tid initiator reason_code use_ndp).

Definition __ieee80211_stop_rx_ba_session (tid initiator reason : Z) (tx : bool) : M unit :=
  t <- get_tid tid ;;
  if negb (agg_session_valid t) then ret tt
  else
    upd_tid tid (set_tid_rx None) ;;;
    upd_tid tid (set_agg_session_valid false) ;;;
    _ <- drv_ampdu_action c tid 0 AMPDU_RX_STOP ;;
    if (initiator =? WLAN_BACK_RECIPIENT) && tx
    then ieee80211_send_delba tid WLAN_BACK_RECIPIENT reason (use_ndp_ba c)
    else ret tt.

Definition ieee80211_send_addba_resp (tid token status policy size tmo req_addba_ext_data : Z) : M unit :=
  send_action (addba_response (valid_links c || has_he c) (SUPPORTS_AMSDU_IN_AMPDU c) tid token status policy
                 size tmo req_addba_ext_data (use_ndp_ba c)).

(** The largest buffer the peer may ask for. *)
Definition max_buf_size : Z :=
  if valid_links c || has_eht c then IEEE80211_MAX_AMPDU_BUF_EHT
  else if has_he c then IEEE80211_MAX_AMPDU_BUF_HE
  else IEEE80211_MAX_AMPDU_BUF_HT.

(** The buffer size that is used for a request. *)
Definition rx_buf_size (size : Z) : Z :=
  Z.min (if size =? 0 then max_buf_size else size) (max_rx_aggregation_subframes c).

Definition bad_params (policy size : Z) : bool :=
  (negb (policy =? 1) && (valid_links c || negb (ht_delay_ba c) || negb (s1g_delayed_ba c))) || (max_buf_size <? size).

(** The new session, once nothing is in its way; the result is the status. *)
Definition start_new_rx_session (tmo start_seq_num tid size : Z) (auto_seq : bool) : M Z :=
  let declined := WLAN_STATUS_REQUEST_DECLINED in
  let start := AMPDU_RX_START start_seq_num size tmo in
  if SUPPORTS_REORDERING_BUFFER c then
    r <- drv_ampdu_action c tid start_seq_num start ;;
    ret (if r.1 =? 0 then WLAN_STATUS_SUCCESS else declined)
  else
    alloc <- next_alloc ;;
    if negb alloc then ret declined
    else
      r <- drv_ampdu_action c tid start_seq_num start ;;
      if nz r.1 then ret declined
      else
        now <- gets (fun w => jiffies (sta w)) ;;
        let tu_exp t := u64 (now + TU_TO_JIFFIES c t) in
        upd_tid tid (set_tid_rx (Some (start_rx_ba_session tu_exp now start_seq_num size tmo auto_seq))) ;;;
        ret WLAN_STATUS_SUCCESS.

(** The status of a request and the buffer size of the response. *)
Definition rx_request_status (token tmo start_seq_num policy tid size : Z) (tx auto_seq ndp : bool) : M (Z * Z) :=
  t <- get_tid tid ;;
  blocked <- gets (fun w => block_ba (sta w)) ;;
  if IEEE80211_FIRST_TSPEC_TSID <=? tid then ret (WLAN_STATUS_REQUEST_DECLINED, size)
  else if tx && use_ndp_ba c && negb ndp then ret (WLAN_STATUS_REJECTED_NDP_BLOCK_ACK_SUGGESTED, size)
  else if negb (valid_links c) && negb (ht_supported c) && negb (has_he c) && negb (has_s1g c)
  then ret (WLAN_STATUS_REQUEST_DECLINED, size)
  else if blocked : bool then ret (WLAN_STATUS_REQUEST_DECLINED, size)
  else if bad_params policy size then ret (WLAN_STATUS_INVALID_QOS_PARAM, size)
  else
    let size := rx_buf_size size in
    if agg_session_valid t && (tid_rx_token t =? token) then
      ret (match tid_rx t with
           | Some r => if timeout r =? tmo then WLAN_STATUS_SUCCESS else WLAN_STATUS_REQUEST_DECLINED
           | None => WLAN_STATUS_REQUEST_DECLINED
           end, size)
    else
      (if agg_session_valid t
       then __ieee80211_stop_rx_ba_session tid WLAN_BACK_RECIPIENT WLAN_STATUS_UNSPECIFIED_QOS false
       else ret tt) ;;;
      status <- start_new_rx_session tmo start_seq_num tid size auto_seq ;;
      ret (status, size).

Definition __ieee80211_start_rx_ba_session (token tmo start_seq_num policy tid size : Z)
    (tx auto_seq ndp : bool) (addba_ext_data : Z) : M unit :=
  r <- rx_request_status token tmo start_seq_num policy tid size tx auto_seq ndp ;;
  (if r.1 =? WLAN_STATUS_SUCCESS then
     upd_tid tid (set_agg_session_valid true) ;;;
     upd_tid tid (set_unexpected_agg false) ;;;
     upd_tid tid (set_tid_rx_token token)
   else ret tt) ;;;
  if tx then ieee80211_send_addba_resp tid token r.1 1 r.2 tmo addba_ext_data else ret tt.

(** A value read from the frame; reading beyond it is a fault. *)
Definition load {A} (o : option A) : M A := match o with Some x => ret x | None => fault end.

Definition ieee80211_process_addba_request (body : list Z) : M unit :=
  alloc <- next_alloc ;;
  q <- load (read_addba_req crc32_be c alloc body) ;;
  __ieee80211_start_rx_ba_session (req_token q) (req_timeout q) (req_start_seq_num q) (req_policy q) (req_tid q)
    (req_buf_size q) true false (req_ndp q) (req_ext_data q).
End rx.
