(* ===== verification/AggTx.v ===== *)
(** * AggTx: transmit sessions

    [net/mac80211/agg-tx.c] and the DELBA, work and tear-down functions of
    [ht.c].  The handlers run under the wiphy mutex; [preempt] stands where the
    code lets go of the spin lock of the station, or does not hold it, and at
    each wait for readers ([synchronize_net], [timer_delete_sync]). *)
From stdpp Require Import gmap strings.
From S2P Require Import Prelude Frame Key Amsdu Reorder ElemSizes Agg AggFrames AggRx.

Definition IEEE80211_AMPDU_TX_START_IMMEDIATE : Z := 1.
Definition IEEE80211_AMPDU_TX_START_DELAY_ADDBA : Z := 2.

Inductive agg_stop_reason :=
| AGG_STOP_DECLINED
| AGG_STOP_LOCAL_REQUEST
| AGG_STOP_PEER_REQUEST
| AGG_STOP_DESTROY_STA.
#[global] Instance agg_stop_reason_eq_dec : EqDecision agg_stop_reason.
Proof. solve_decision. Defined.

(** [enum ieee80211_ac_numbers] and [ieee802_1d_to_ac]. *)
Definition IEEE80211_AC_VO : Z := 0.
Definition IEEE80211_AC_VI : Z := 1.
Definition IEEE80211_AC_BE : Z := 2.
Definition IEEE80211_AC_BK : Z := 3.
Definition ieee802_1d_to_ac : list Z :=
  [IEEE80211_AC_BE; IEEE80211_AC_BK; IEEE80211_AC_BK; IEEE80211_AC_BE;
   IEEE80211_AC_VI; IEEE80211_AC_VI; IEEE80211_AC_VO; IEEE80211_AC_VO].
Definition ieee80211_ac_from_tid (tid : Z) : Z := nth (Z.to_nat (tid .& 7)) ieee802_1d_to_ac 0.

Section tx.
Context (crc32_be : Z -> list Z -> Z) (c : config).

Definition agg_queue (tid : Z) : Z := hw_queue c (ieee80211_ac_from_tid tid).

(** ** Stopping queues *)

Definition stop_count (s : station) (queue : Z) : Z := default 0 (agg_queue_stop s !! queue).

Definition ieee80211_stop_queue_agg (tid : Z) : M unit :=
  let queue := agg_queue tid in
  n <- gets (fun w => stop_count (sta w) queue + 1) ;;
  modify (fun w => set_sta (set_agg_queue_stop (<[queue := n]> (agg_queue_stop (sta w))) (sta w)) w) ;;;
  if n =? 1 then modify (emit (ev_stop_queue queue)) else ret tt.

Definition ieee80211_wake_queue_agg (tid : Z) : M unit :=
  let queue := agg_queue tid in
  n <- gets (fun w => stop_count (sta w) queue - 1) ;;
  modify (fun w => set_sta (set_agg_queue_stop (<[queue := n]> (agg_queue_stop (sta w))) (sta w)) w) ;;;
  if n =? 0 then modify (emit (ev_wake_queue queue)) else ret tt.

Definition upd_txq (tid : Z) (f : txq_info -> txq_info) : M unit :=
  upd_tid tid (fun t => set_txq (f <$> txq t) t).

Definition ieee80211_agg_stop_txq (tid : Z) : M unit := upd_txq tid (set_TXQ_STOP true).

Definition ieee80211_agg_start_txq (tid : Z) (enable : bool) : M unit :=
  t <- get_tid tid ;;
  if bool_decide (txq t = None) then ret tt
  else
    upd_txq tid (set_TXQ_AMPDU enable) ;;;
    preempt c ;;;
    upd_txq tid (set_TXQ_STOP false) ;;;
    modify (emit (ev_wake_txq tid)).

(** [tid_tx] is the session of the TID. *)
Definition ieee80211_agg_splice_packets (tid : Z) : M unit :=
  ieee80211_stop_queue_agg tid ;;;
  t <- get_tid tid ;;
  match tid_tx t with
  | None => modify warn
  | Some a =>
      match pending a with
      | [] => ret tt
      | l =>
          upd_tx tid (set_pending []) ;;;
          let queue := agg_queue tid in
          modify (fun w =>
            let old := default [] (local_pending (sta w) !! queue) in
            set_sta (set_local_pending (<[queue := old ++ l]> (local_pending (sta w))) (sta w)) w)
      end
  end.

Definition ieee80211_agg_splice_finish (tid : Z) : M unit := ieee80211_wake_queue_agg tid.

Definition ieee80211_assign_tid_tx (tid : Z) (tx : option tid_ampdu_tx) : M unit := upd_tid tid (set_tid_tx tx).

(** The warnings of [timer_shutdown]. *)
Definition timers_shutdown (a : tid_ampdu_tx) : M unit :=
  warn_on (bool_decide (is_Some (addba_resp_timer a))) ;;;
  warn_on (bool_decide (is_Some (tx_session_timer a))).

Definition ieee80211_remove_tid_tx (tid : Z) : M unit :=
  a <- get_tx tid ;;
  ieee80211_agg_splice_packets tid ;;;
  ieee80211_assign_tid_tx tid None ;;;
  ieee80211_agg_splice_finish tid ;;;
  timers_shutdown a.

(** ** Ending a session *)

Definition __ieee80211_stop_tx_ba_session (tid : Z) (reason : agg_stop_reason) : M Z :=
  let destroy := bool_decide (reason = AGG_STOP_DESTROY_STA) in
  let action := if destroy then AMPDU_TX_STOP_FLUSH else AMPDU_TX_STOP_CONT in
  upd_tid tid (set_tid_start_tx None) ;;;
  t <- get_tid tid ;;
  match tid_tx t with
  | None => ret (- ENOENT)
  | Some a =>
      if test_bit HT_AGG_STATE_STOPPING a then
        if negb destroy then ret (- EALREADY)
        else
          preempt c ;;;
          r <- drv_ampdu_action c tid 0 AMPDU_TX_STOP_FLUSH_CONT ;;
          warn_on (nz r.1) ;;;
          ret 0
      else if test_bit HT_AGG_STATE_WANT_START a then
        ieee80211_assign_tid_tx tid None ;;;
        timers_shutdown a ;;;
        ret 0
      else
        upd_tx tid (set_bit HT_AGG_STATE_STOPPING) ;;;
        ieee80211_agg_stop_txq tid ;;;
        preempt c ;;;
        upd_tx tid (set_addba_resp_timer None) ;;;
        preempt c ;;;
        upd_tx tid (set_tx_session_timer None) ;;;
        preempt c ;;;
        upd_tx tid (clear_bit HT_AGG_STATE_OPERATIONAL) ;;;
        preempt c ;;;
        upd_tx tid (set_stop_initiator (if bool_decide (reason = AGG_STOP_PEER_REQUEST)
                                        then WLAN_BACK_RECIPIENT else WLAN_BACK_INITIATOR)) ;;;
        upd_tx tid (set_tx_stop (bool_decide (reason = AGG_STOP_LOCAL_REQUEST))) ;;;
        r <- drv_ampdu_action c tid 0 action ;;
        warn_on (nz r.1) ;;;
        ret 0
  end.

Definition ieee80211_stop_tx_ba_cb (tid : Z) : M unit :=
  a <- get_tx tid ;;
  let use_ndp := ndp a in
  if negb (test_bit HT_AGG_STATE_STOPPING a) then ret tt
  else
    let send_delba := (stop_initiator a =? WLAN_BACK_INITIATOR) && tx_stop a in
    ieee80211_remove_tid_tx tid ;;;
    preempt c ;;;
    ieee80211_agg_start_txq tid false ;;;
    if send_delba
    then ieee80211_send_delba tid WLAN_BACK_INITIATOR WLAN_REASON_QSTA_NOT_USE use_ndp
    else ret tt.

(** ** Starting a session *)

(** The buffer size that is asked for. *)
Definition addba_buf_size : Z :=
  if valid_links c || has_eht c || (STRICT c && has_he c) then max_tx_aggregation_subframes c
  else if has_he c then Z.min (max_tx_aggregation_subframes c) IEEE80211_MAX_AMPDU_BUF_HE
  else IEEE80211_MAX_AMPDU_BUF_HT.

Definition ieee80211_send_addba_request (tid token start_seq_num agg_size tmo : Z) (use_ndp : bool) : M unit :=
  send_action (addba_request (has_he c) tid token start_seq_num agg_size tmo use_ndp).

Definition ieee80211_send_addba_with_timeout (tid : Z) : M unit :=
  a <- get_tx tid ;;
  if test_bit HT_AGG_STATE_STOPPING a || test_bit HT_AGG_STATE_WANT_STOP a then modify warn
  else
    now <- gets (fun w => jiffies (sta w)) ;;
    upd_tx tid (set_addba_resp_timer (Some (u64 (now + ADDBA_RESP_INTERVAL c)))) ;;;
    preempt c ;;;
    now <- gets (fun w => jiffies (sta w)) ;;
    upd_tid tid (set_last_addba_req_time now) ;;;
    upd_tid tid (fun t => set_addba_req_num (u8 (addba_req_num t + 1)) t) ;;;
    preempt c ;;;
    a <- get_tx tid ;;
    ieee80211_send_addba_request tid (dialog_token a) (tx_ssn a) addba_buf_size (tx_timeout a) (ndp a) ;;;
    preempt c ;;;
    sent <- test_and_set HT_AGG_STATE_SENT_ADDBA tid ;;
    warn_on sent.

Definition ieee80211_tx_ba_session_handle_start (tid : Z) : M unit :=
  upd_tx tid (clear_bit HT_AGG_STATE_WANT_START) ;;;
  preempt c ;;;
  upd_tx tid (set_ndp (use_ndp_ba c)) ;;;
  t <- get_tid tid ;;
  let ssn := tid_seq t >> 4 in
  r <- drv_ampdu_action c tid ssn (AMPDU_TX_START ssn) ;;
  upd_tx tid (set_tx_ssn r.2) ;;;
  if r.1 =? IEEE80211_AMPDU_TX_START_DELAY_ADDBA then ret tt
  else if r.1 =? IEEE80211_AMPDU_TX_START_IMMEDIATE then
    upd_tx tid (set_bit HT_AGG_STATE_DRV_READY) ;;;
    preempt c ;;;
    ieee80211_send_addba_with_timeout tid
  else if nz r.1 then
    a <- get_tx tid ;;
    ieee80211_agg_splice_packets tid ;;;
    ieee80211_assign_tid_tx tid None ;;;
    ieee80211_agg_splice_finish tid ;;;
    preempt c ;;;
    ieee80211_agg_start_txq tid false ;;;
    timers_shutdown a
  else ieee80211_send_addba_with_timeout tid.

Definition ieee80211_agg_tx_operational (tid : Z) : M unit :=
  a <- get_tx tid ;;
  _ <- drv_ampdu_action c tid 0 (AMPDU_TX_OPERATIONAL (tx_buf_size a) (amsdu a)) ;;
  ieee80211_agg_splice_packets tid ;;;
  upd_tx tid (set_bit HT_AGG_STATE_OPERATIONAL) ;;;
  ieee80211_agg_splice_finish tid ;;;
  preempt c ;;;
  ieee80211_agg_start_txq tid true.

Definition ieee80211_start_tx_ba_cb (tid : Z) : M unit :=
  ready <- test_and_set HT_AGG_STATE_DRV_READY tid ;;
  if ready : bool then modify warn
  else
    preempt c ;;;
    a <- get_tx tid ;;
    if test_bit HT_AGG_STATE_STOPPING a || test_bit HT_AGG_STATE_WANT_STOP a then ret tt
    else
      preempt c ;;;
      sent <- test HT_AGG_STATE_SENT_ADDBA tid ;;
      if negb sent then ieee80211_send_addba_with_timeout tid
      else
        received <- test HT_AGG_STATE_RESPONSE_RECEIVED tid ;;
        if received : bool then ieee80211_agg_tx_operational tid else ret tt.

(** ** Frames of the peer *)

(** The session is accepted. *)
Definition addba_accepted (q : addba_resp) (tid : Z) : M unit :=
  dup <- test_and_set HT_AGG_STATE_RESPONSE_RECEIVED tid ;;
  if dup : bool then ret tt
  else
    upd_tx tid (set_tx_buf_size (resp_buf_size q)) ;;;
    upd_tx tid (set_amsdu (resp_amsdu q)) ;;;
    preempt c ;;;
    ready <- test HT_AGG_STATE_DRV_READY tid ;;
    (if ready : bool then ieee80211_agg_tx_operational tid else ret tt) ;;;
    upd_tid tid (set_addba_req_num 0) ;;;
    upd_tx tid (set_tx_timeout (resp_timeout q)) ;;;
    if nz (resp_timeout q) then
      now <- gets (fun w => jiffies (sta w)) ;;
      upd_tx tid (set_tx_session_timer (Some (u64 (now + TU_TO_JIFFIES c (resp_timeout q))))) ;;;
      preempt c ;;;
      now <- gets (fun w => jiffies (sta w)) ;;
      upd_tx tid (set_last_tx now)
    else ret tt.

Definition ieee80211_process_addba_resp (body : list Z) : M unit :=
  alloc <- next_alloc ;;
  q <- load (read_addba_resp crc32_be c alloc body) ;;
  let tid := resp_tid q in
  (if resp_amsdu q then ret tt else upd_txq tid (set_TXQ_NO_AMSDU true)) ;;;
  t <- get_tid tid ;;
  match tid_tx t with
  | None => ret tt
  | Some a =>
      if negb (resp_token q =? dialog_token a) then ret tt
      else
        upd_tx tid (set_addba_resp_timer None) ;;;
        preempt c ;;;
        a <- get_tx tid ;;
        if test_bit HT_AGG_STATE_WANT_STOP a || test_bit HT_AGG_STATE_STOPPING a then ret tt
        else
          preempt c ;;;
          if (resp_status q =? WLAN_STATUS_SUCCESS) && nz (resp_buf_size q) then addba_accepted q tid
          else _ <- __ieee80211_stop_tx_ba_session tid AGG_STOP_DECLINED ;; ret tt
  end.

Definition ieee80211_process_delba (body : list Z) : M unit :=
  q <- load (read_delba body) ;;
  if q.2 =? WLAN_BACK_INITIATOR then __ieee80211_stop_rx_ba_session c q.1 WLAN_BACK_INITIATOR 0 true
  else _ <- __ieee80211_stop_tx_ba_session q.1 AGG_STOP_PEER_REQUEST ;; ret tt.
End tx.
