(* ===== verification/AggWork.v ===== *)
(** * AggWork: the work of a station, and what can happen to it

    [ieee80211_ba_session_work] and [ieee80211_sta_tear_down_BA_sessions] of
    [net/mac80211/ht.c], the frames that [rx.c] accepts and [iface.c] hands to
    the handlers, and runs: sequences of handlers with interrupts between them. *)
From stdpp Require Import gmap strings.
From S2P Require Import Prelude Frame Key Amsdu Reorder ElemSizes Parse Agg AggFrames AggRx AggTx.

Section work.
Context (crc32_be : Z -> list Z -> Z) (c : config).

(** [test_and_clear_bit] of the bit of a TID in a bitmap. *)
Definition test_and_clear_tid (get : tid_mlme -> bool) (clear : tid_mlme -> tid_mlme) (tid : Z) : M bool :=
  t <- get_tid tid ;; upd_tid tid clear ;;; ret (get t).
Definition when_cleared (get : tid_mlme -> bool) (clear : tid_mlme -> tid_mlme) (tid : Z) (m : M unit) : M unit :=
  b <- test_and_clear_tid get clear tid ;; if b : bool then m else ret tt.

(** The receive sessions of a TID. *)
Definition work_rx (blocked : bool) (tid : Z) : M unit :=
  when_cleared tid_rx_timer_expired (set_tid_rx_timer_expired false) tid
    (__ieee80211_stop_rx_ba_session c tid WLAN_BACK_RECIPIENT WLAN_REASON_QSTA_TIMEOUT true) ;;;
  when_cleared tid_rx_stop_requested (set_tid_rx_stop_requested false) tid
    (__ieee80211_stop_rx_ba_session c tid WLAN_BACK_RECIPIENT WLAN_REASON_UNSPECIFIED true) ;;;
  (if blocked then ret tt
   else when_cleared tid_rx_manage_start (set_tid_rx_manage_start false) tid
     (__ieee80211_start_rx_ba_session c 0 0 0 1 tid IEEE80211_MAX_AMPDU_BUF_HT false true false 0)) ;;;
  when_cleared tid_rx_manage_stop (set_tid_rx_manage_stop false) tid
    (__ieee80211_stop_rx_ba_session c tid WLAN_BACK_RECIPIENT 0 false).

(** A session that is requested goes live; the result is whether fragments are
    still to be sent, for which the work is queued again and returns. *)
Definition work_start (tid : Z) (a : tid_ampdu_tx) : M bool :=
  t <- get_tid tid ;;
  match txq t with
  | None => fault
  | Some q =>
      upd_txq tid (set_TXQ_STOP true) ;;;
      if negb (bool_decide (frags q = [])) then
        preempt c ;;;
        modify queue_work ;;;
        ret true
      else
        upd_tid tid (set_tid_start_tx None) ;;;
        t <- get_tid tid ;;
        (match tid_tx t with
         | Some _ => ret tt
         | None => ieee80211_assign_tid_tx tid (Some a)
         end) ;;;
        preempt c ;;;
        ieee80211_tx_ba_session_handle_start c tid ;;;
        ret false
  end.

Definition test_and_clear_if (b : bool) (bit tid : Z) : M bool := if b then test_and_clear bit tid else ret false.

(** What is pending for the session of a TID. *)
Definition work_tx (blocked : bool) (tid : Z) : M unit :=
  start <- test_and_clear_if (negb blocked) HT_AGG_STATE_START_CB tid ;;
  (if start : bool then ieee80211_start_tx_ba_cb c tid else ret tt) ;;;
  preempt c ;;;
  stop <- test_and_clear HT_AGG_STATE_WANT_STOP tid ;;
  (if stop : bool
   then _ <- __ieee80211_stop_tx_ba_session c tid AGG_STOP_LOCAL_REQUEST ;; ret tt
   else ret tt) ;;;
  preempt c ;;;
  stop <- test_and_clear HT_AGG_STATE_STOP_CB tid ;;
  if stop : bool then ieee80211_stop_tx_ba_cb c tid else ret tt.

(** One round of the loop; [true] ends it. *)
Definition work_tid (blocked : bool) (tid : Z) : M bool :=
  work_rx blocked tid ;;;
  preempt c ;;;
  t <- get_tid tid ;;
  match tid_start_tx t with
  | Some a =>
      if blocked then
        (if bool_decide (is_Some (tid_tx t)) then work_tx blocked tid else ret tt) ;;; ret false
      else work_start tid a
  | None =>
      (if bool_decide (is_Some (tid_tx t)) then work_tx blocked tid else ret tt) ;;; ret false
  end.

Fixpoint work_loop (blocked : bool) (l : list Z) : M unit :=
  match l with
  | [] => ret tt
  | tid :: l => done <- work_tid blocked tid ;; if done : bool then ret tt else work_loop blocked l
  end.

Definition all_tids : list Z := seqZ 0 IEEE80211_NUM_TIDS.

Definition ieee80211_ba_session_work : M unit :=
  blocked <- gets (fun w => block_ba (sta w)) ;; work_loop blocked all_tids.

Fixpoint for_tids (f : Z -> M unit) (l : list Z) : M unit :=
  match l with
  | [] => ret tt
  | tid :: l => f tid ;;; for_tids f l
  end.

Definition ieee80211_sta_tear_down_BA_sessions (reason : agg_stop_reason) : M unit :=
  let destroy := bool_decide (reason = AGG_STOP_DESTROY_STA) in
  for_tids (fun i =>
    __ieee80211_stop_rx_ba_session c i WLAN_BACK_RECIPIENT WLAN_REASON_QSTA_LEAVE_QBSS
      (negb destroy && negb (bool_decide (reason = AGG_STOP_PEER_REQUEST)))) all_tids ;;;
  for_tids (fun i => _ <- __ieee80211_stop_tx_ba_session c i reason ;; ret tt) all_tids ;;;
  if destroy then
    modify (fun w => set_sta (set_work_queued false (sta w)) w) ;;;
    for_tids (fun i =>
      preempt c ;;;
      t <- get_tid i ;;
      if bool_decide (is_Some (tid_tx t)) then
        stop <- test_and_clear HT_AGG_STATE_STOP_CB i ;;
        if stop : bool then ieee80211_stop_tx_ba_cb c i else ret tt
      else ret tt) all_tids
  else ret tt.

(** ** Frames *)

(** The lengths [ieee80211_rx_h_action] asks for, from the category on. *)
Definition action_size (action_code : Z) : option Z :=
  if (action_code =? WLAN_ACTION_ADDBA_REQ) || (action_code =? WLAN_ACTION_NDP_ADDBA_REQ) then Some 9
  else if (action_code =? WLAN_ACTION_ADDBA_RESP) || (action_code =? WLAN_ACTION_NDP_ADDBA_RESP) then Some 9
  else if (action_code =? WLAN_ACTION_DELBA) || (action_code =? WLAN_ACTION_NDP_DELBA) then Some 6
  else None.

(** The interfaces that negotiate. *)
Definition rx_h_action_accepts (body : list Z) : bool :=
  vif_may_aggregate c &&
  match rd8 body 1 with
  | Some action_code => match action_size action_code with Some n => n <=? zlen body | None => false end
  | None => false
  end.

(** A block-ack action frame of the station, received and queued for the
    interface ([ieee80211_iface_process_skb]). *)
Definition ieee80211_iface_process_skb (body : list Z) : M unit :=
  if negb (rx_h_action_accepts body) then ret tt
  else
    action_code <- load (rd8 body 1) ;;
    if (action_code =? WLAN_ACTION_ADDBA_REQ) || (action_code =? WLAN_ACTION_NDP_ADDBA_REQ)
    then ieee80211_process_addba_request crc32_be c body
    else if (action_code =? WLAN_ACTION_ADDBA_RESP) || (action_code =? WLAN_ACTION_NDP_ADDBA_RESP)
    then ieee80211_process_addba_resp crc32_be c body
    else ieee80211_process_delba c body.

(** ** Runs *)

(** What happens to a station: interrupts, its work when it is queued, a
    block-ack action frame, the end of all its sessions, a change of
    [WLAN_STA_BLOCK_BA]. *)
Inductive step :=
| do_irqs (l : list interrupt)
| do_work
| do_frame (body : list Z)
| do_tear_down (reason : agg_stop_reason)
| do_block (b : bool).

Definition run_step (s : step) : M unit :=
  match s with
  | do_irqs l => modify (fun w => fold_left (fun w i => run_interrupt c i w) l w)
  | do_work =>
      queued <- gets (fun w => work_queued (sta w)) ;;
      if queued : bool then
        modify (fun w => set_sta (set_work_queued false (sta w)) w) ;;; ieee80211_ba_session_work
      else ret tt
  | do_frame body => ieee80211_iface_process_skb body
  | do_tear_down reason => ieee80211_sta_tear_down_BA_sessions reason
  | do_block b => modify (fun w => set_sta (set_block_ba b (sta w)) w)
  end.

Fixpoint run (l : list step) : M unit :=
  match l with
  | [] => ret tt
  | s :: l => run_step s ;;; run l
  end.
End work.

(** A station without sessions. *)
Definition fresh_tid (seq : Z) : tid_mlme :=
  mk_tid None None 0 0 seq (Some (mk_txqi false false false [])) None 0 false false false false false false.
Definition fresh_station : station :=
  mk_station (replicate 16 (fresh_tid 0)) 0 false 0 false true ∅ ∅.
Definition fresh_world (schedule : list (list interrupt)) (driver : list (Z * Z)) (allocs : list bool) : world :=
  mk_world fresh_station schedule driver allocs [].
