(* ===== verification/AggLogic.v ===== *)
(** * AggLogic: what the driver may see, and what interrupts leave alone

    Two automata read the events of a TID: the calls of the driver that start,
    use and end its transmit session, with the frames in between, and those for
    its receive session.  A [view] is what a handler knows about the TID it
    works on: everything in it stays true whatever interrupts.  [wp] runs a
    handler from a world in which the other TIDs are as they are between
    handlers. *)
From stdpp Require Import gmap strings.
From S2P Require Import Prelude Frame Key Amsdu Reorder ElemSizes Parse Agg AggFrames AggRx AggTx AggWork.

(** ** The driver's side

    A transmit session: the driver has been told to start it with a starting
    sequence number; then that it is operational, and the sequence number of the
    next frame; then to end it. *)
Inductive tx_phase :=
| tx_idle
| tx_started (ssn : Z)
| tx_operational (next : Z)
| tx_ending.

Definition start_accepted (r : Z) : bool :=
  (r =? 0) || (r =? IEEE80211_AMPDU_TX_START_IMMEDIATE) || (r =? IEEE80211_AMPDU_TX_START_DELAY_ADDBA).

(** A frame is marked for aggregation exactly if the session is operational, and
    the marked frames have consecutive sequence numbers from the starting one
    on. *)
Definition tx_phase_step (tid : Z) (p : tx_phase) (e : event) : option tx_phase :=
  match e with
  | ev_driver tid' action r =>
      if negb (tid' =? tid) then Some p
      else match action, p with
      | AMPDU_TX_START ssn, (tx_idle | tx_ending) => Some (if start_accepted r then tx_started ssn else tx_idle)
      | AMPDU_TX_OPERATIONAL _ _, tx_started ssn => Some (tx_operational ssn)
      | (AMPDU_TX_STOP_CONT | AMPDU_TX_STOP_FLUSH), (tx_started _ | tx_operational _) => Some tx_ending
      | AMPDU_TX_STOP_FLUSH_CONT, tx_ending => Some tx_ending
      | (AMPDU_RX_START _ _ _ | AMPDU_RX_STOP), _ => Some p
      | _, _ => None
      end
  | ev_tx tid' _ seq ampdu =>
      if negb (tid' =? tid) then Some p
      else match ampdu, p with
      | true, tx_operational next => if seq >> 4 =? next then Some (tx_operational ((next + 1) mod 4096)) else None
      | false, (tx_idle | tx_ending) => Some p
      | _, _ => None
      end
  | _ => Some p
  end.

(** A receive session is started and stopped in turn. *)
Definition rx_phase_step (tid : Z) (p : bool) (e : event) : option bool :=
  match e with
  | ev_driver tid' action r =>
      if negb (tid' =? tid) then Some p
      else match action, p with
      | AMPDU_RX_START _ _ _, false => Some (r =? 0)
      | AMPDU_RX_STOP, true => Some false
      | (AMPDU_RX_START _ _ _ | AMPDU_RX_STOP), _ => None
      | _, _ => Some p
      end
  | _ => Some p
  end.

Definition phases {P} (step : P -> event -> option P) (init : P) (l : list event) : option P :=
  fold_left (fun p e => p ≫= fun p => step p e) l (Some init).
Definition tx_phase_of (tid : Z) : list event -> option tx_phase := phases (tx_phase_step tid) tx_idle.
Definition rx_phase_of (tid : Z) : list event -> option bool := phases (rx_phase_step tid) false.

Lemma phases_snoc {P} (step : P -> event -> option P) init l e :
  phases step init (l ++ [e]) = (phases step init l ≫= fun p => step p e).
Proof. unfold phases. by rewrite fold_left_app. Qed.

(** ** Views *)

Inductive kind := Idle | Started | Oper | Ending.
Definition phase_at (k : kind) (n : Z) : tx_phase :=
  match k with Idle => tx_idle | Started => tx_started n | Oper => tx_operational n | Ending => tx_ending end.

(** What is known of the session: bits that only handlers change; whether a stop
    is known to be requested; whether the timers may be armed. *)
Record sess := mk_sess {
  s_ready : bool;
  s_received : bool;
  s_oper : bool;
  s_stopping : bool;
  s_want_start : bool;
  s_sent : bool;
  s_want_stop : bool;
  s_resp_timer : bool;
  s_tx_timer : bool;
  s_size : Z;
}.

Record sess_view (s : sess) (a : tid_ampdu_tx) : Prop := {
  sv_ready : test_bit HT_AGG_STATE_DRV_READY a = s_ready s;
  sv_received : test_bit HT_AGG_STATE_RESPONSE_RECEIVED a = s_received s;
  sv_oper : test_bit HT_AGG_STATE_OPERATIONAL a = s_oper s;
  sv_stopping : test_bit HT_AGG_STATE_STOPPING a = s_stopping s;
  sv_want_start : test_bit HT_AGG_STATE_WANT_START a = s_want_start s;
  sv_sent : test_bit HT_AGG_STATE_SENT_ADDBA a = s_sent s;
  sv_want_stop : s_want_stop s = true -> test_bit HT_AGG_STATE_WANT_STOP a = true;
  sv_resp_timer : s_resp_timer s = false -> addba_resp_timer a = None;
  sv_tx_timer : s_tx_timer s = false -> tx_session_timer a = None;
  sv_size : tx_buf_size a = s_size s;
}.

(** The session, the phase, the flags of the queue, the number of requests. *)
Record view := mk_view {
  v_sess : option sess;
  v_kind : kind;
  v_stop : bool;
  v_ampdu : bool;
  v_num : Z;
}.

Definition waiting_ok (t : tid_mlme) : Prop :=
  forall b, tid_start_tx t = Some b -> addba_req_num t <= HT_AGG_MAX_RETRIES /\ exists tmo token, b = new_session tmo token.

Record tx_view (v : view) (t : tid_mlme) (p : option tx_phase) : Prop := {
  tv_sess : match v_sess v with
            | Some s => tid_start_tx t = None /\ exists a, tid_tx t = Some a /\ sess_view s a
            | None => tid_tx t = None /\ waiting_ok t
            end;
  tv_phase : p = Some (phase_at (v_kind v) (tid_seq t >> 4));
  tv_seq : is_uint 16 (tid_seq t);
  tv_num : addba_req_num t = v_num v;
  tv_txq : exists q, txq t = Some q /\ TXQ_STOP q = v_stop v /\ TXQ_AMPDU q = v_ampdu v;
}.

(** Frames may leave only if they are right for the phase. *)
Definition stable (v : view) : bool :=
  v_stop v ||
  match v_kind v with
  | Oper => v_ampdu v
  | Started => false
  | _ => negb (v_ampdu v)
  end.

(** The receive session: none; being stopped; being started; active.  Whether it
    is valid for mac80211, started in the driver, and whether there may be a
    reorder buffer. *)
Inductive rx_state := RxNone | RxStopping | RxStarting | RxActive.
Definition rx_valid (x : rx_state) : bool := match x with RxActive => true | _ => false end.
Definition rx_started (x : rx_state) : bool := match x with RxNone => false | _ => true end.
Definition rx_present (x : rx_state) : bool := match x with RxStarting | RxActive => true | _ => false end.

Record rx_view (c : config) (x : rx_state) (t : tid_mlme) (p : option bool) : Prop := {
  rv_valid : agg_session_valid t = rx_valid x;
  rv_phase : p = Some (rx_started x);
  rv_session : forall r, tid_rx t = Some r ->
    rx_present x = true /\ 1 <= buf_size r <= max_buf_size c /\ length (reorder r) = Z.to_nat (buf_size r);
}.

(** ** Between handlers *)

Definition quiet_sess (c : config) (v : view) (s : sess) : Prop :=
  s_want_start s = false /\
  (if s_stopping s then
     v_kind v = Ending /\ v_stop v = true /\ s_oper s = false /\ s_resp_timer s = false /\ s_tx_timer s = false
   else if s_oper s then
     v_kind v = Oper /\ v_stop v = false /\ v_ampdu v = true /\ s_ready s = true /\ s_received s = true /\ s_sent s = true
   else v_kind v = Started /\ v_stop v = true) /\
  (s_ready s = true -> s_sent s = false -> s_stopping s = false -> s_want_stop s = true) /\
  (s_received s = true -> 1 <= s_size s <= max_tx_aggregation_subframes c) /\
  (s_sent s = false -> v_num v <= HT_AGG_MAX_RETRIES).

Definition quiet (c : config) (v : view) : Prop :=
  0 <= v_num v <= HT_AGG_MAX_RETRIES + 1 /\
  match v_sess v with
  | Some s => quiet_sess c v s
  | None => (v_kind v = Idle \/ v_kind v = Ending) /\ v_ampdu v = false
  end.

Definition tid_ok (c : config) (tid : Z) (t : tid_mlme) (l : list event) : Prop :=
  (exists v, tx_view v t (tx_phase_of tid l) /\ quiet c v) /\
  exists x, rx_view c x t (rx_phase_of tid l) /\ (x = RxNone \/ x = RxActive).

Lemma quiet_stable c v : quiet c v -> stable v = true.
Proof.
  unfold quiet, quiet_sess, stable. intros [_ H]. destruct (v_sess v) as [s|].
  - destruct H as (_ & H & _). destruct (s_stopping s).
    + destruct H as (_ & -> & _). done.
    + destruct (s_oper s); [destruct H as (-> & -> & -> & _)|destruct H as [-> ->]]; done.
  - destruct H as [H ->]. by destruct H as [-> | ->], (v_stop v).
Qed.

(** ** Bits and arrays *)

Lemma test_set n m a : 0 <= n -> 0 <= m -> test_bit n (set_bit m a) = (m =? n) || test_bit n a.
Proof. intros. unfold test_bit, set_bit. cbn [state set_state]. by rewrite Z.setbit_eqb, Z.eqb_sym by done. Qed.

Lemma test_clear n m a : 0 <= n -> 0 <= m -> test_bit n (clear_bit m a) = negb (m =? n) && test_bit n a.
Proof.
  intros. unfold test_bit, clear_bit. cbn [state set_state].
  rewrite Z.clearbit_eqb by done. btauto.
Qed.

Lemma tid_at_put_eq tid t t' w : tid_at (sta w) tid = Some t -> tid_at (sta (put_tid tid t' w)) tid = Some t'.
Proof.
  unfold tid_at, put_tid. cbn. destruct (tid <? 0); [done|]. intros Ht.
  apply list_lookup_insert_eq. by eapply lookup_lt_Some.
Qed.

Lemma tid_at_put_ne tid i t' w : 0 <= tid -> tid <> i -> tid_at (sta (put_tid tid t' w)) i = tid_at (sta w) i.
Proof.
  unfold tid_at, put_tid. cbn. intros. destruct (Z.ltb_spec i 0); [done|].
  apply list_lookup_insert_ne. lia.
Qed.

Lemma tid_at_nonneg s tid t : tid_at s tid = Some t -> 0 <= tid.
Proof. unfold tid_at. destruct (Z.ltb_spec tid 0); [done|lia]. Qed.

(** ** What interrupts keep *)

Definition kept (c : config) (w w' : world) : Prop :=
  length (tids (sta w')) = length (tids (sta w)) /\
  forall tid t, tid_at (sta w) tid = Some t -> exists t', tid_at (sta w') tid = Some t' /\
    (forall v, stable v = true -> tx_view v t (tx_phase_of tid (log w)) -> tx_view v t' (tx_phase_of tid (log w'))) /\
    (forall x, rx_view c x t (rx_phase_of tid (log w)) -> rx_view c x t' (rx_phase_of tid (log w'))).

#[global] Instance kept_preorder c : PreOrder (kept c).
Proof.
  split.
  - intros w. split; [done|]. intros tid t Ht. exists t. auto.
  - intros w1 w2 w3 [L1 K1] [L2 K2]. split; [congruence|]. intros tid t Ht.
    destruct (K1 tid t Ht) as (t' & Ht' & T1 & R1). destruct (K2 tid t' Ht') as (t'' & Ht'' & T2 & R2).
    exists t''. auto 10.
Qed.

(** Events that say nothing about sessions. *)
Definition silent (e : event) : bool :=
  match e with ev_driver _ _ _ | ev_tx _ _ _ _ => false | _ => true end.

Lemma tx_phase_silent tid l e : silent e = true -> tx_phase_of tid (l ++ [e]) = tx_phase_of tid l.
Proof. intros. unfold tx_phase_of. rewrite phases_snoc. destruct (phases _ _ l); [|done]. by destruct e. Qed.
Lemma rx_phase_silent tid l e : silent e = true -> rx_phase_of tid (l ++ [e]) = rx_phase_of tid l.
Proof. intros. unfold rx_phase_of. rewrite phases_snoc. destruct (phases _ _ l); [|done]. by destruct e. Qed.
Lemma rx_phase_frame tid l i skb seq b : rx_phase_of tid (l ++ [ev_tx i skb seq b]) = rx_phase_of tid l.
Proof. unfold rx_phase_of. rewrite phases_snoc. by destruct (phases _ _ l). Qed.
