(* ===== verification/AggInterrupts.v ===== *)
(** * AggInterrupts: nothing that interrupts a handler changes what it knows

    Every operation that may run between two steps of a handler keeps the view
    of every TID ([kept]); the frames it gives to the driver fit the phase. *)
From stdpp Require Import gmap strings.
From S2P Require Import Prelude Frame Key Amsdu Reorder ElemSizes Parse Agg AggFrames AggRx AggTx AggWork AggLogic.

Section interrupts.
Context (c : config).
Implicit Types (w : world) (t : tid_mlme) (a : tid_ampdu_tx).

Lemma kept_put w i t t' :
  tid_at (sta w) i = Some t ->
  (forall v p, tx_view v t p -> tx_view v t' p) ->
  (forall x p, rx_view c x t p -> rx_view c x t' p) -> kept c w (put_tid i t' w).
Proof.
  intros Ht Htx Hrx. split; [cbn; apply length_insert|]. intros tid t0 Ht0.
  change (log (put_tid i t' w)) with (log w). destruct (decide (i = tid)) as [->|Hne].
  - rewrite Ht in Ht0. injection Ht0 as <-. exists t'. split; [by eapply tid_at_put_eq|]. auto.
  - exists t0. split; [|auto]. rewrite tid_at_put_ne; [done|by eapply tid_at_nonneg|done].
Qed.

Lemma put_put tid t t' w : put_tid tid t (put_tid tid t' w) = put_tid tid t w.
Proof. unfold put_tid. cbn. unfold set_tids. cbn. by rewrite list_insert_insert_eq. Qed.

Lemma kept_same w w' : tids (sta w') = tids (sta w) -> log w' = log w -> kept c w w'.
Proof.
  intros E El. split; [by rewrite E|]. intros tid t Ht. exists t. rewrite El. split; [|auto].
  unfold tid_at in *. by rewrite E.
Qed.

Lemma kept_emit w e : silent e = true -> kept c w (emit e w).
Proof.
  intros He. split; [done|]. intros tid t Ht. exists t. split; [done|]. cbn [emit log set_log].
  by rewrite tx_phase_silent, rx_phase_silent by done.
Qed.

Lemma kept_queue_work w w' : kept c w w' -> kept c w (queue_work w').
Proof. intros H. etrans; [exact H|]. by apply kept_same. Qed.

(** A change of the session that no view sees. *)
Definition same_sess a a' : Prop := forall s, sess_view s a -> sess_view s a'.

Lemma same_sess_bit a n :
  n = HT_AGG_STATE_WANT_STOP \/ n = HT_AGG_STATE_START_CB \/ n = HT_AGG_STATE_STOP_CB -> same_sess a (set_bit n a).
Proof.
  intros Hn s []. destruct Hn as [-> |[-> | ->]]; split; rewrite ?test_set by done; cbn -[test_bit] in *; auto.
Qed.

Lemma same_sess_last_tx a x : same_sess a (set_last_tx x a).
Proof. intros s []. by split. Qed.

Lemma same_sess_pending a x : same_sess a (set_pending x a).
Proof. intros s []. by split. Qed.

Lemma same_sess_resp_timer a : same_sess a (set_addba_resp_timer None a).
Proof. intros s []. by split. Qed.

Lemma same_sess_tx_timer a x :
  (tx_session_timer a = None -> x = None) -> same_sess a (set_tx_session_timer x a).
Proof. intros Hx s []. split; try done. intros. by apply Hx, sv_tx_timer. Qed.

Lemma same_sess_trans a1 a2 a3 : same_sess a1 a2 -> same_sess a2 a3 -> same_sess a1 a3.
Proof. unfold same_sess. auto. Qed.

Lemma tx_view_sess v t p a a' :
  tid_tx t = Some a -> same_sess a a' -> tx_view v t p -> tx_view v (set_tid_tx (Some a') t) p.
Proof.
  intros Ha Hs [Hv Hp Hq Hn Hx]. split; try done. destruct (v_sess v) as [s|].
  - destruct Hv as (? & a0 & Ha0 & Hsv). rewrite Ha in Ha0. injection Ha0 as <-. eauto 10.
  - destruct Hv as [Hv _]. congruence.
Qed.

Lemma rx_view_tx x t p o : rx_view c x t p -> rx_view c x (set_tid_tx o t) p.
Proof. by intros []. Qed.

Lemma kept_put_tx w i t a a' :
  tid_at (sta w) i = Some t -> tid_tx t = Some a -> same_sess a a' -> kept c w (put_tx i t a' w).
Proof. intros Ht Ha Hs. eapply kept_put; eauto using tx_view_sess, rx_view_tx. Qed.

(** ** Callbacks, requests and timers *)

Lemma cb_kept bit tid w :
  bit = HT_AGG_STATE_START_CB \/ bit = HT_AGG_STATE_STOP_CB -> kept c w (tx_ba_cb_irqsafe bit tid w).
Proof.
  intros Hb. unfold tx_ba_cb_irqsafe. destruct (IEEE80211_NUM_TIDS <=? tid); [done|].
  destruct (tid_at (sta w) tid) as [t|] eqn:Ht; [|done]. destruct (tid_tx t) as [a|] eqn:Ha; [|by apply kept_emit].
  apply kept_queue_work. eapply kept_put_tx; [done..|]. apply same_sess_bit. auto.
Qed.

Lemma stop_session_kept tid w : kept c w (ieee80211_stop_tx_ba_session c tid w).2.
Proof.
  unfold ieee80211_stop_tx_ba_session. destruct (negb _); [done|]. destruct (IEEE80211_NUM_TIDS <=? tid); [done|].
  destruct (tid_at (sta w) tid) as [t|] eqn:Ht; [|done]. destruct (tid_tx t) as [a|] eqn:Ha; [|done].
  set (w1 := if reserved_tid c =? tid then warn w else w).
  assert (tid_at (sta w1) tid = Some t /\ kept c w w1) as [Ht1 K].
  { unfold w1. destruct (_ =? _); [|done]. split; [done|by apply kept_emit]. }
  destruct (test_bit _ a); [done|]. cbn [snd]. apply kept_queue_work. etrans; [done|].
  eapply kept_put_tx; [done..|]. apply same_sess_bit. auto.
Qed.

Lemma refresh_kept tid w : kept c w (ieee80211_refresh_tx_agg_session_timer tid w).
Proof.
  unfold ieee80211_refresh_tx_agg_session_timer. destruct (_ <=? _); [by apply kept_emit|].
  destruct (tid_at (sta w) tid) as [t|] eqn:Ht; [|done]. destruct (tid_tx t) as [a|] eqn:Ha; [|done].
  eapply kept_put_tx; eauto using same_sess_last_tx.
Qed.

Lemma resp_timer_kept tid w : kept c w (sta_addba_resp_timer_expired c tid w).
Proof.
  unfold sta_addba_resp_timer_expired.
  destruct (tid_at (sta w) tid) as [t|] eqn:Ht; [|done]. destruct (tid_tx t) as [a|] eqn:Ha; [|done].
  destruct (addba_resp_timer a); [|done]. destruct (time_before _ _); [done|]. cbv zeta.
  assert (kept c w (put_tx tid t (set_addba_resp_timer None a) w)) as K
    by eauto using kept_put_tx, same_sess_resp_timer.
  destruct (test_bit _ a); [done|]. etrans; [done|apply stop_session_kept].
Qed.

Lemma tx_timer_kept tid w : kept c w (sta_tx_agg_session_timer_expired c tid w).
Proof.
  unfold sta_tx_agg_session_timer_expired.
  destruct (tid_at (sta w) tid) as [t|] eqn:Ht; [|done]. destruct (tid_tx t) as [a|] eqn:Ha; [|done].
  destruct (tx_session_timer a) eqn:Hs; [|done]. destruct (time_before _ _); [done|]. cbv zeta.
  assert (kept c w (put_tx tid t (set_tx_session_timer None a) w)) as K.
  { eapply kept_put_tx; [done..|]. by apply same_sess_tx_timer. }
  destruct (test_bit _ a); [exact K|]. destruct (time_before _ _); [|etrans; [exact K|apply stop_session_kept]].
  unfold put_tx at 1 2. rewrite put_put. eapply kept_put_tx; [done..|]. apply same_sess_tx_timer. congruence.
Qed.

(** A request puts a session into the empty start array. *)
Lemma start_session_kept tid tmo alloc w : kept c w (ieee80211_start_tx_ba_session c tid tmo alloc w).2.
Proof.
  unfold ieee80211_start_tx_ba_session.
  repeat match goal with |- kept _ _ (if ?b then (_, ?x) else _).2 =>
    destruct b; [first [done | by apply kept_emit]|] end.
  destruct (tid_at (sta w) tid) as [t|] eqn:Ht; [|done]. destruct (Z.ltb_spec HT_AGG_MAX_RETRIES (addba_req_num t)); [done|].
  destruct (_ && _); [done|]. destruct (bool_decide (is_Some (tid_tx t)) || _) eqn:Hi; [done|].
  destruct alloc; [|done]. cbn [negb snd]. cbv zeta. apply kept_queue_work.
  apply orb_false_iff in Hi as [Hn Hs]. apply bool_decide_eq_false, eq_None_not_Some in Hn, Hs.
  set (token := u8 _). set (w1 := set_sta (set_dialog_token_allocator token (sta w)) w).
  trans w1; [by apply kept_same|]. apply (kept_put w1 tid t); [done|..].
  - intros v p [Hv Hp Hq Hm Hx]. split; try done. destruct (v_sess v) as [s|].
    + destruct Hv as (_ & a & Ha & _). congruence.
    + split; [done|]. intros b [= <-]. split; [done|]. eauto.
  - by intros x p [].
Qed.

(** ** Frames *)

Lemma next_seq_sn seq : is_uint 16 seq ->
  (u16 (seq + 0x10) .& IEEE80211_SCTL_SEQ) >> 4 = ((seq >> 4) + 1) mod 4096.
Proof.
  intros Hs. unfold IEEE80211_SCTL_SEQ. rewrite Z.shiftr_land. change (0xfff0 >> 4) with (Z.ones 12).
  rewrite Z.land_ones, !Z.shiftr_div_pow2 by lia. unfold wrap, is_uint in *. change (2 ^ 4) with 16.
  change (2 ^ 12) with 4096. change (2 ^ 16) with 65536 in *. Z.div_mod_to_equations. lia.
Qed.

Lemma next_seq_range t : is_uint 16 (tid_seq t) -> is_uint 16 (tid_seq (next_seq t)).
Proof. intros. cbn [next_seq tid_seq set_tid_seq]. apply land_is_uint; [lia|]. unfold is_uint, IEEE80211_SCTL_SEQ. lia. Qed.

Lemma kept_send w tid t t' skb b :
  tid_at (sta w) tid = Some t ->
  (forall v, stable v = true -> tx_view v t (tx_phase_of tid (log w)) ->
    tx_view v t' (tx_phase_of tid (log w) ≫= fun p => tx_phase_step tid p (ev_tx tid skb (tid_seq t) b))) ->
  (forall x p, rx_view c x t p -> rx_view c x t' p) ->
  kept c w (emit (ev_tx tid skb (tid_seq t) b) (put_tid tid t' w)).
Proof.
  intros Ht Htx Hrx. split; [cbn; apply length_insert|]. intros i t0 Ht0.
  cbn [emit log set_log]. rewrite rx_phase_frame. change (log (put_tid tid t' w)) with (log w).
  unfold tx_phase_of. rewrite phases_snoc. destruct (decide (tid = i)) as [->|Hne].
  - rewrite Ht in Ht0. injection Ht0 as <-. exists t'. split; [by eapply tid_at_put_eq|]. auto.
  - exists t0. split; [|split; [|auto]].
    + change (tid_at (sta (put_tid tid t' w)) i = Some t0). rewrite tid_at_put_ne; [done|by eapply tid_at_nonneg|done].
    + intros v _ Hv. destruct (phases _ _ _); [|done]. cbn. destruct (Z.eqb_spec tid i); [lia|done].
Qed.

(** A frame of the queue proper leaves only if the phase allows it. *)
Lemma tx_view_send v t p q l tid skb :
  stable v = true -> txq t = Some q -> TXQ_STOP q = false -> tx_view v t p ->
  tx_view v (next_seq (set_txq (Some (set_frags l q)) t))
    (p ≫= fun p => tx_phase_step tid p (ev_tx tid skb (tid_seq t) (TXQ_AMPDU q))).
Proof.
  intros Hst Hq Hs [Hv Hp Hr Hn (q0 & Hq0 & E1 & E2)]. rewrite Hq in Hq0. injection Hq0 as <-.
  rewrite Hs in E1. unfold stable in Hst. rewrite <- E1 in Hst. cbn [orb] in Hst. split.
  - done.
  - rewrite Hp, E2. cbn [mbind option_bind tx_phase_step]. rewrite Z.eqb_refl. cbn [negb].
    cbn [next_seq set_tid_seq tid_seq set_txq]. rewrite next_seq_sn by done.
    destruct (v_kind v), (v_ampdu v); try done. cbn. by rewrite Z.eqb_refl.
  - by apply next_seq_range.
  - done.
  - eexists. cbn. split; [done|]. cbn. split; [congruence|done].
Qed.

Lemma rx_view_next_seq x t p : rx_view c x t p -> rx_view c x (next_seq t) p.
Proof. by intros []. Qed.
Lemma rx_view_txq x t p q : rx_view c x t p -> rx_view c x (set_txq q t) p.
Proof. by intros []. Qed.

Lemma dequeue_kept tid skb rest w : kept c w (ieee80211_tx_dequeue tid skb rest w).
Proof.
  unfold ieee80211_tx_dequeue. destruct (tid_at (sta w) tid) as [t|] eqn:Ht; [|done].
  destruct (txq t) as [q|] eqn:Hq; [|done]. destruct (frags q) as [|frag l].
  - destruct (TXQ_STOP q) eqn:Hs; [done|]. cbv zeta. apply kept_send; [done| |].
    + intros v Hv Htv. by apply tx_view_send.
    + intros. by apply rx_view_next_seq, rx_view_txq.
  - etrans; [|by apply kept_emit]. apply (kept_put w tid t); [done| |intros; by apply rx_view_txq].
    intros v p [? ? ? ? (q0 & Hq0 & ? & ?)]. split; try done. rewrite Hq in Hq0. injection Hq0 as <-.
    eexists. cbn. eauto.
Qed.

(** A frame of a TID without queue: views are of TIDs with a queue. *)
Lemma unqueued_kept tid skb t0 t w :
  tid_at (sta w) tid = Some t0 -> txq t = txq t0 ->
  (forall v p, tx_view v t0 p -> tx_view v t p) ->
  (forall x p, rx_view c x t0 p -> rx_view c x t p) -> kept c w (send_unqueued tid skb t w).
Proof.
  intros Ht Hq Htx Hrx. unfold send_unqueued. destruct (txq t) as [q|] eqn:E.
  - eapply kept_put; [exact Ht|auto..].
  - trans (put_tid tid t w); [by eapply kept_put|].
    replace (put_tid tid (next_seq t) w) with (put_tid tid (next_seq t) (put_tid tid t w)) by apply put_put.
    apply kept_send.
    + by eapply tid_at_put_eq.
    + intros v _ [_ _ _ _ (q & Hq' & _)]. congruence.
    + intros. by apply rx_view_next_seq.
Qed.

Lemma prep_agg_kept tid skb w : kept c w (ieee80211_tx_prep_agg tid skb w).
Proof.
  unfold ieee80211_tx_prep_agg. destruct (tid_at (sta w) tid) as [t|] eqn:Ht; [|done].
  destruct (tid_tx t) as [a|] eqn:Ha; [|by eapply unqueued_kept; eauto].
  destruct (test_bit _ a).
  { eapply unqueued_kept; [done|done| |intros; by apply rx_view_tx].
    intros v p. eapply tx_view_sess; [done|apply same_sess_last_tx]. }
  destruct (test_bit _ a); [by eapply unqueued_kept; eauto|]. destruct (txq t); [done|]. cbv zeta.
  destruct (pending a ++ [skb]) as [|purged l]; [done|]. destruct (_ <? _).
  - etrans; [|by apply kept_emit]. eapply kept_put_tx; [done..|apply same_sess_pending].
  - eapply kept_put_tx; [done..|apply same_sess_pending].
Qed.

(** ** The receive side *)

Lemma kept_update_tid tid f w :
  (forall v p t, tx_view v t p -> tx_view v (f t) p) ->
  (forall x p t, rx_view c x t p -> rx_view c x (f t) p) -> kept c w (update_tid tid f w).
Proof. intros. unfold update_tid. destruct (tid_at (sta w) tid) as [t|] eqn:Ht; [|done]. eapply kept_put; eauto. Qed.

Ltac by_fields := intros; match goal with H : tx_view _ _ _ |- _ => by destruct H | H : rx_view _ _ _ _ |- _ => by destruct H end.

Lemma rx_timer_kept tid w : kept c w (sta_rx_agg_session_timer_expired c tid w).
Proof.
  unfold sta_rx_agg_session_timer_expired. destruct (tid_at (sta w) tid) as [t|] eqn:Ht; [|done].
  destruct (tid_rx t) as [r|] eqn:Hr; [|done]. destruct (session_timer r); [|done].
  destruct (time_before _ _); [done|]. cbv zeta.
  assert (forall y x p, rx_view c x t p -> rx_view c x (set_tid_rx (Some (set_session_timer r y)) t) p) as Hrx.
  { intros y x p [? ? H]. split; try done. intros r' [= <-]. by apply (H r). }
  destruct (time_before _ _).
  - rewrite put_put. apply (kept_put w tid t); [done|by_fields|]. intros. by apply Hrx.
  - apply kept_queue_work. rewrite put_put. apply (kept_put w tid t); [done|by_fields|].
    intros x p H. apply (Hrx None) in H. by destruct H.
Qed.

Lemma kept_all_tids w f :
  (forall i v p t, tx_view v t p -> tx_view v (f i t) p) ->
  (forall i x p t, rx_view c x t p -> rx_view c x (f i t) p) ->
  kept c w (set_sta (set_tids (imap f (tids (sta w))) (sta w)) w).
Proof.
  intros Htx Hrx. split; [cbn; apply length_imap|]. intros tid t Ht. exists (f (Z.to_nat tid) t). split; [|split; auto].
  unfold tid_at in *. destruct (tid <? 0); [done|]. cbn. by rewrite list_lookup_imap, Ht.
Qed.

Lemma interrupt_kept i w : kept c w (run_interrupt c i w).
Proof.
  destruct i; cbn [run_interrupt].
  - apply cb_kept. auto.
  - apply cb_kept. auto.
  - apply start_session_kept.
  - apply stop_session_kept.
  - apply refresh_kept.
  - apply resp_timer_kept.
  - apply tx_timer_kept.
  - apply prep_agg_kept.
  - apply dequeue_kept.
  - apply rx_timer_kept.
  - unfold ieee80211_stop_rx_ba_session. apply kept_queue_work, kept_all_tids; intros; destruct (Z.testbit _ _); by_fields.
  - unfold ieee80211_manage_rx_ba_offl. apply kept_queue_work.
    destruct (_ <? _); apply kept_update_tid; by_fields.
  - apply kept_queue_work, kept_update_tid; by_fields.
  - apply kept_update_tid; intros; [destruct (tid_rx t); by_fields|].
    destruct (tid_rx t) as [r|] eqn:Hr; [|done]. match goal with H : rx_view _ _ _ _ |- _ => destruct H as [? ? Hs] end.
    split; try done. intros r' [= <-]. by apply (Hs r).
  - by apply kept_same.
Qed.

Lemma interrupts_kept l w : kept c w (fold_left (fun w i => run_interrupt c i w) l w).
Proof. revert w. induction l as [|i l IH]; intros w; [done|]. cbn. etrans; [apply interrupt_kept|apply IH]. Qed.
End interrupts.
