(* ===== verification/AggWp.v ===== *)
(** * AggWp: running a handler from a view

    [holds tid v x w]: the handler works on [tid] and knows [v] of its transmit
    session and [x] of its receive session, and the other TIDs are as between
    handlers.  One rule per primitive of the handlers; [preempt] keeps a stable
    view, and a call of the driver moves the phase. *)
From stdpp Require Import gmap strings.
From S2P Require Import Prelude Frame Key Amsdu Reorder ElemSizes Parse Agg AggFrames AggRx AggTx AggWork AggLogic AggInterrupts.

(** ** Worlds *)

Definition inv (c : config) (w : world) : Prop :=
  length (tids (sta w)) = 16%nat /\
  forall i t, tid_at (sta w) i = Some t -> tid_ok c i t (log w).

Record holds (c : config) (tid : Z) (v : view) (x : rx_state) (w : world) : Prop := {
  h_length : length (tids (sta w)) = 16%nat;
  h_others : forall i t, i <> tid -> tid_at (sta w) i = Some t -> tid_ok c i t (log w);
  h_view : exists t, tid_at (sta w) tid = Some t /\
    tx_view v t (tx_phase_of tid (log w)) /\ rx_view c x t (rx_phase_of tid (log w));
}.

(** What a handler for one TID asks for and leaves behind. *)
Definition quiet_at (c : config) (tid : Z) (w : world) : Prop :=
  exists v x, holds c tid v x w /\ quiet c v /\ (x = RxNone \/ x = RxActive).

Definition with_sess (s : option sess) (v : view) : view := mk_view s (v_kind v) (v_stop v) (v_ampdu v) (v_num v).
Definition with_kind (k : kind) (v : view) : view := mk_view (v_sess v) k (v_stop v) (v_ampdu v) (v_num v).

Section wp.
Context (c : config).
Implicit Types (w : world) (t : tid_mlme) (a : tid_ampdu_tx) (v : view) (x : rx_state).

Lemma tid_at_valid w tid : length (tids (sta w)) = 16%nat -> 0 <= tid < 16 -> exists t, tid_at (sta w) tid = Some t.
Proof.
  intros Hl Ht. unfold tid_at. destruct (Z.ltb_spec tid 0); [lia|]. apply lookup_lt_is_Some. lia.
Qed.

Lemma inv_quiet_at w tid : inv c w -> 0 <= tid < 16 -> quiet_at c tid w.
Proof.
  intros [Hl Hi] Ht. destruct (tid_at_valid w tid Hl Ht) as [t E].
  destruct (Hi _ _ E) as ((v & Hv & Hq) & x & Hx & Hxq). exists v, x. split; [|done]. split; eauto.
Qed.

Lemma quiet_at_inv w tid : quiet_at c tid w -> inv c w.
Proof.
  intros (v & x & [Hl Ho (t & Ht & Hv & Hx)] & Hq & Hxq). split; [done|]. intros i t' E.
  destruct (decide (i = tid)) as [->|]; [|by apply Ho]. rewrite Ht in E. injection E as <-. split; eauto.
Qed.

Lemma quiet_at_any w tid tid' : quiet_at c tid w -> 0 <= tid' < 16 -> quiet_at c tid' w.
Proof. intros. eapply inv_quiet_at; [by eapply quiet_at_inv|done]. Qed.

Lemma tid_ok_kept w w' : kept c w w' -> (forall i t, tid_at (sta w) i = Some t -> tid_ok c i t (log w)) ->
  forall i t', tid_at (sta w') i = Some t' -> (exists t, tid_at (sta w) i = Some t) -> tid_ok c i t' (log w').
Proof.
  intros [_ K] Hok i t' Ht' [t Ht]. destruct (K _ _ Ht) as (t1 & Ht1 & Ktx & Krx).
  rewrite Ht' in Ht1. injection Ht1 as <-. destruct (Hok _ _ Ht) as ((v & Hv & Hq) & x & Hx & Hxq).
  split; [|eauto]. exists v. split; [|done]. apply Ktx; [by eapply quiet_stable|done].
Qed.

Lemma tid_at_kept w w' i t' : kept c w w' -> tid_at (sta w') i = Some t' -> exists t, tid_at (sta w) i = Some t.
Proof.
  intros [L _]. unfold tid_at. destruct (i <? 0); [done|]. intros H%lookup_lt_Some.
  apply lookup_lt_is_Some. lia.
Qed.

Lemma inv_kept w w' : kept c w w' -> inv c w -> inv c w'.
Proof.
  intros K [Hl Hi]. split; [by destruct K; congruence|]. intros i t' Ht'.
  eapply tid_ok_kept; eauto using tid_at_kept.
Qed.

Lemma holds_kept tid v x w w' : stable v = true -> kept c w w' -> holds c tid v x w -> holds c tid v x w'.
Proof.
  intros Hs K [Hl Ho (t & Ht & Hv & Hx)]. pose proof K as [L K']. split; [congruence| |].
  - intros i t' Hne Ht'. destruct (tid_at_kept _ _ _ _ K Ht') as [t1 Ht1].
    destruct (K' _ _ Ht1) as (t2 & Ht2 & Ktx & Krx). rewrite Ht' in Ht2. injection Ht2 as <-.
    destruct (Ho _ _ Hne Ht1) as ((v1 & Hv1 & Hq) & x1 & Hx1 & Hxq). split; [|eauto].
    exists v1. split; [|done]. apply Ktx; [by eapply quiet_stable|done].
  - destruct (K' _ _ Ht) as (t' & Ht' & Ktx & Krx). eauto 10.
Qed.

(** ** Weakest preconditions *)

Definition wp {A} (m : M A) (Q : A -> world -> Prop) w : Prop := exists r w', m w = Some (r, w') /\ Q r w'.

Lemma wp_ret {A} (r : A) (Q : A -> world -> Prop) w : Q r w -> wp (ret r) Q w.
Proof. intros. by exists r, w. Qed.

Lemma wp_bind {A B} (m : M A) (k : A -> M B) Q w : wp m (fun r => wp (k r) Q) w -> wp (bind m k) Q w.
Proof. intros (r & w1 & E & r' & w2 & E' & HQ). exists r', w2. unfold bind. by rewrite E. Qed.

Lemma wp_mono {A} (m : M A) (Q Q' : A -> world -> Prop) w :
  (forall r w', Q r w' -> Q' r w') -> wp m Q w -> wp m Q' w.
Proof. intros H (r & w1 & E & HQ). exists r, w1. auto. Qed.

Lemma wp_gets {A} (f : world -> A) (Q : A -> world -> Prop) w : Q (f w) w -> wp (gets f) Q w.
Proof. intros. by exists (f w), w. Qed.

Lemma wp_if {A} (b : bool) (m m' : M A) Q w :
  (b = true -> wp m Q w) -> (b = false -> wp m' Q w) -> wp (if b then m else m') Q w.
Proof. destruct b; auto. Qed.

Section rules.
Context {tid : Z} {v : view} {x : rx_state} {w : world} (H : holds c tid v x w).

Lemma wp_kept (f : world -> world) Q :
  stable v = true -> kept c w (f w) -> (forall w', holds c tid v x w' -> Q tt w') -> wp (modify f) Q w.
Proof. intros Hs K HQ. exists tt, (f w). split; [done|]. apply HQ. by eapply holds_kept. Qed.

Lemma wp_preempt Q : stable v = true -> (forall w', holds c tid v x w' -> Q tt w') -> wp (preempt c) Q w.
Proof.
  intros Hs HQ. unfold wp, preempt. destruct (schedule w) as [|l s]; eexists tt, _; (split; [done|]); apply HQ; [done|].
  eapply holds_kept; [done| |done]. etrans; [|apply interrupts_kept]. by apply kept_same.
Qed.

Lemma wp_get_tid (Q : tid_mlme -> world -> Prop) :
  (forall t, tid_at (sta w) tid = Some t -> tx_view v t (tx_phase_of tid (log w)) ->
    rx_view c x t (rx_phase_of tid (log w)) -> Q t w) -> wp (get_tid tid) Q w.
Proof.
  intros HQ. destruct H as [_ _ (t & Ht & Hv & Hx)]. exists t, w. unfold get_tid. rewrite Ht. auto.
Qed.

Lemma wp_get_tx_at s Q : v_sess v = Some s ->
  (forall a, sess_view s a -> (forall t, tid_at (sta w) tid = Some t -> tid_tx t = Some a) -> Q a w) ->
  wp (get_tx tid) Q w.
Proof.
  intros Hs HQ. destruct H as [_ _ (t & Ht & [Hv _ _ _ _] & Hx)]. rewrite Hs in Hv. destruct Hv as (_ & a & Ha & Hsv).
  exists a, w. unfold get_tx, bind, get_tid. rewrite Ht, Ha. split; [done|]. apply HQ; [done|]. intros t' Ht'. congruence.
Qed.

Lemma wp_get_tx s Q : v_sess v = Some s -> (forall a, sess_view s a -> Q a w) -> wp (get_tx tid) Q w.
Proof. intros Hs HQ. eapply wp_get_tx_at; eauto. Qed.

Lemma holds_put t t' v' x' :
  tid_at (sta w) tid = Some t ->
  (forall p, tx_view v t p -> tx_view v' t' p) -> (forall p, rx_view c x t p -> rx_view c x' t' p) ->
  holds c tid v' x' (put_tid tid t' w).
Proof.
  intros Ht Htx Hrx. destruct H as [Hl Ho (t0 & Ht0 & Hv & Hx)]. rewrite Ht in Ht0. injection Ht0 as <-. split.
  - cbn. by rewrite length_insert.
  - intros i t1 Hne Ht1. rewrite tid_at_put_ne in Ht1 by (try done; by eapply tid_at_nonneg). by apply Ho.
  - exists t'. split; [by eapply tid_at_put_eq|]. cbn. auto.
Qed.

Lemma wp_upd_tid_at t f (Q : unit -> world -> Prop) :
  tid_at (sta w) tid = Some t -> Q tt (put_tid tid (f t) w) -> wp (upd_tid tid f) Q w.
Proof. intros Ht HQ. exists tt, (put_tid tid (f t) w). split; [|done]. unfold upd_tid, bind, get_tid. by rewrite Ht. Qed.

Lemma wp_upd_tid f v' x' Q :
  (forall t p, tx_view v t p -> tx_view v' (f t) p) ->
  (forall t p, rx_view c x t p -> rx_view c x' (f t) p) ->
  (forall w', holds c tid v' x' w' -> Q tt w') -> wp (upd_tid tid f) Q w.
Proof.
  intros Htx Hrx HQ. pose proof H as [_ _ (t & Ht & _)]. eapply wp_upd_tid_at; [done|]. apply HQ. eapply holds_put; eauto.
Qed.

Lemma wp_upd_tx f s s' Q :
  v_sess v = Some s -> (forall a, sess_view s a -> sess_view s' (f a)) ->
  (forall w', holds c tid (with_sess (Some s') v) x w' -> Q tt w') -> wp (upd_tx tid f) Q w.
Proof.
  intros Hs Hf HQ. pose proof H as [_ _ (t & Ht & [Hv _ _ _ _] & _)]. rewrite Hs in Hv. destruct Hv as (_ & a & Ha & _).
  exists tt, (put_tid tid (set_tid_tx (Some (f a)) t) w).
  split; [unfold upd_tx, get_tx, upd_tid, bind, get_tid, ret; by rewrite Ht, Ha, Ht|]. apply HQ.
  eapply holds_put; [done| |intros; by apply rx_view_tx].
  intros p [Hvs Hvp Hvr Hvn Hvq]. rewrite Hs in Hvs. destruct Hvs as (? & a' & Ha' & Hsv).
  rewrite Ha in Ha'. injection Ha' as <-. split; try done. cbn. eauto.
Qed.

Lemma wp_upd_txq f stop ampdu Q :
  (forall q, TXQ_STOP q = v_stop v -> TXQ_AMPDU q = v_ampdu v -> TXQ_STOP (f q) = stop /\ TXQ_AMPDU (f q) = ampdu) ->
  (forall w', holds c tid (mk_view (v_sess v) (v_kind v) stop ampdu (v_num v)) x w' -> Q tt w') ->
  wp (upd_txq tid f) Q w.
Proof.
  intros Hf HQ. apply (wp_upd_tid _ (mk_view (v_sess v) (v_kind v) stop ampdu (v_num v)) x); [| |done].
  - intros t p [Hv Hp Hr Hn (q & Hq & E1 & E2)]. split; try done. exists (f q). cbn. rewrite Hq. by destruct (Hf q E1 E2).
  - intros. by apply rx_view_txq.
Qed.

Lemma wp_next_alloc Q : (forall b w', holds c tid v x w' -> Q b w') -> wp next_alloc Q w.
Proof.
  intros HQ. unfold wp, next_alloc. destruct (allocs w); eexists _, _; (split; [done|]); apply HQ; [done|].
  by destruct H.
Qed.

(** A call of the driver: the phases move, and interrupts may come. *)
Lemma wp_drv ssn action (k : Z -> kind) (x' : Z -> rx_state) Q :
  in_driver c = true -> has_ampdu_action c = true ->
  (forall t r, tid_at (sta w) tid = Some t ->
    tx_phase_step tid (phase_at (v_kind v) (tid_seq t >> 4)) (ev_driver tid action r) =
      Some (phase_at (k r) (tid_seq t >> 4))) ->
  (forall r, rx_phase_step tid (rx_started x) (ev_driver tid action r) = Some (rx_started (x' r))) ->
  (forall r, rx_valid (x' r) = rx_valid x /\ (rx_present x = true -> rx_present (x' r) = true)) ->
  (forall r, stable (with_kind (k r) v) = true) ->
  (forall r w', holds c tid (with_kind (k r.1) v) (x' r.1) w' -> Q r w') ->
  wp (drv_ampdu_action c tid ssn action) Q w.
Proof.
  intros Hd Ha Hk Hx1 Hx2 Hst HQ. unfold drv_ampdu_action. rewrite Hd, Ha. cbn [negb].
  apply wp_bind. set (m := fun w => match driver w with [] => _ | _ :: _ => _ end).
  assert (exists r w1, m w = Some (r, w1) /\ sta w1 = sta w /\ log w1 = log w) as (r & w1 & E & Es & El).
  { unfold m. destruct (driver w); eexists _, _; done. }
  exists r, w1. split; [done|]. apply wp_bind. exists tt, (emit (ev_driver tid action r.1) w1). split; [done|].
  assert (holds c tid (with_kind (k r.1) v) (x' r.1) (emit (ev_driver tid action r.1) w1)) as H1.
  { destruct H as [Hl Ho (t & Ht & [Hv Hp Hr Hn Hq] & [Rv Rp Rs])]. split.
    - cbn. by rewrite Es.
    - cbn [emit set_log sta log]. rewrite Es, El. intros i t' Hne Ht'. destruct (Ho i t' Hne Ht') as ((v1 & Hv1 & Hq1) & x1 & Hx1' & Hxq).
      unfold tid_ok. unfold tx_phase_of, rx_phase_of in *. rewrite !phases_snoc.
      pose proof Hv1 as [_ -> _ _ _]. pose proof Hx1' as [_ -> _]. cbn [mbind option_bind tx_phase_step rx_phase_step].
      destruct (Z.eqb_spec tid i) as [?|_]; [congruence|]. cbn [negb]. split.
      + exists v1. split; [|done]. by destruct Hv1.
      + exists x1. split; [|done]. by destruct Hx1'.
    - exists t. cbn [emit set_log sta log]. rewrite Es, El. split; [done|]. unfold tx_phase_of, rx_phase_of in *.
      rewrite !phases_snoc, Hp, Rp. split; (split; try done).
      + cbn [mbind option_bind]. by rewrite Hk.
      + rewrite Rv. symmetry. apply Hx2.
      + cbn [mbind option_bind]. by rewrite Hx1.
      + intros r' Hr'. destruct (Rs r' Hr') as (? & ?). split; [by apply Hx2|done]. }
  apply wp_bind. unfold wp, preempt.
  assert (kept c (emit (ev_driver tid action r.1) w1)
    (match schedule (emit (ev_driver tid action r.1) w1) with [] => emit (ev_driver tid action r.1) w1
     | irqs :: l => fold_left (fun w i => run_interrupt c i w) irqs (set_schedule l (emit (ev_driver tid action r.1) w1)) end)) as K.
  { destruct (schedule _); [done|]. etrans; [|apply interrupts_kept]. by apply kept_same. }
  destruct (schedule _); eexists tt, _; (split; [done|]); apply wp_ret, HQ; (eapply holds_kept; [apply Hst|exact K|exact H1]).
Qed.
End rules.
End wp.
