(* ===== verification/AggHandlers.v ===== *)
(** * AggHandlers: every handler keeps the invariant

    Each handler, run with any interrupts, any answers of the driver and any
    failed allocations, ends without a fault and leaves every TID as it is
    between handlers.  The proofs run the handler on what it knows. *)
From stdpp Require Import gmap strings.
From S2P Require Import Prelude Frame Key Amsdu Reorder ElemSizes Parse Agg AggFrames AggRx AggTx AggWork AggLogic.
From S2P Require Import AggInterrupts AggWp.

Ltac solve_sess :=
  let a := fresh "a" in intros a [];
  split; rewrite ?test_set, ?test_clear by done; cbn -[test_bit] in *; first [congruence | auto].

(** One step of a handler: the next world replaces the one before. *)
Ltac w_intro := match goal with H : holds _ _ _ _ ?w |- _ => clear H; try clear w end; intros ?w ?H; unfold with_sess, with_kind in *; cbn [v_sess v_kind v_stop v_ampdu v_num] in *.
Ltac w_bind := apply wp_bind.
Ltac w_preempt := match goal with H : holds _ _ _ _ _ |- _ => apply (wp_preempt _ H); [reflexivity|]; w_intro end.
Ltac w_tx s := match goal with H : holds _ _ _ _ _ |- _ => eapply (wp_upd_tx _ H _ _ s); [reflexivity|solve_sess|]; w_intro end.

Ltac w_txq stop ampdu := match goal with H : holds _ _ _ _ _ |- _ =>
  apply (wp_upd_txq _ H _ stop ampdu); [intros ? ? ?; cbn in *; split; congruence|]; w_intro end.

(** The invariant from what is known, once the flags that matter are rewritten. *)
Ltac quiet_goal :=
  unfold quiet, quiet_sess; unfold HT_AGG_MAX_RETRIES in *; cbn in *;
  repeat match goal with H : ?f ?s = ?b |- context [?f ?s] => rewrite H end;
  repeat split; intros; first
    [done | lia | by auto | congruence | match goal with H : _ -> _ <= _ <= _ |- _ => by apply H end | idtac].

Section handlers.
Context (crc32_be : Z -> list Z -> Z) (c : config).
Hypothesis usable : in_driver c = true /\ has_ampdu_action c = true.

Section queues.
Context {tid : Z} {v : view} {x : rx_state} {w : world} (H : holds c tid v x w).
Hypothesis Hst : stable v = true.
Implicit Types Q : unit -> world -> Prop.

Lemma wp_emit e Q : silent e = true -> (forall w', holds c tid v x w' -> Q tt w') -> wp (modify (emit e)) Q w.
Proof. intros. eapply wp_kept; eauto using kept_emit. Qed.

Lemma wp_warn_on b Q : (forall w', holds c tid v x w' -> Q tt w') -> wp (warn_on b) Q w.
Proof. intros HQ. unfold warn_on. destruct b; [by apply wp_emit|]. by apply wp_ret, HQ. Qed.

Lemma wp_send_action body Q : (forall w', holds c tid v x w' -> Q tt w') -> wp (send_action body) Q w.
Proof.
  intros HQ. unfold send_action. apply wp_bind, (wp_next_alloc _ H). intros b w' H'.
  destruct b; [|by apply wp_ret, HQ]. by eapply (wp_kept _ H'), HQ; [|apply kept_emit].
Qed.

Lemma wp_stop_queue Q : (forall w', holds c tid v x w' -> Q tt w') -> wp (ieee80211_stop_queue_agg c tid) Q w.
Proof.
  intros HQ. unfold ieee80211_stop_queue_agg. cbv zeta. apply wp_bind, wp_gets, wp_bind.
  eapply (wp_kept _ H); [done|by apply kept_same|]. intros w' H'.
  destruct (_ =? _); [|by apply wp_ret, HQ]. by eapply (wp_kept _ H'), HQ; [|apply kept_emit].
Qed.

Lemma wp_wake_queue Q : (forall w', holds c tid v x w' -> Q tt w') -> wp (ieee80211_wake_queue_agg c tid) Q w.
Proof.
  intros HQ. unfold ieee80211_wake_queue_agg. cbv zeta. apply wp_bind, wp_gets, wp_bind.
  eapply (wp_kept _ H); [done|by apply kept_same|]. intros w' H'.
  destruct (_ =? _); [|by apply wp_ret, HQ]. by eapply (wp_kept _ H'), HQ; [|apply kept_emit].
Qed.

Lemma wp_timers_shutdown a Q : (forall w', holds c tid v x w' -> Q tt w') -> wp (timers_shutdown a) Q w.
Proof.
  intros HQ. unfold timers_shutdown. apply wp_bind, wp_warn_on. intros w' H'.
  unfold warn_on. destruct (bool_decide _); [|by apply wp_ret, HQ]. by eapply (wp_kept _ H'), HQ; [|apply kept_emit].
Qed.
End queues.

Lemma with_sess_id v s : v_sess v = Some s -> with_sess (Some s) v = v.
Proof. destruct v. cbn. by intros ->. Qed.

Lemma wp_splice tid v x w s (Q : unit -> world -> Prop) :
  holds c tid v x w -> stable v = true -> v_sess v = Some s ->
  (forall w', holds c tid v x w' -> Q tt w') -> wp (ieee80211_agg_splice_packets c tid) Q w.
Proof.
  intros H Hst Hs HQ. unfold ieee80211_agg_splice_packets. apply wp_bind, (wp_stop_queue H Hst). clear w H. intros w H.
  apply wp_bind, (wp_get_tid _ H). intros t Ht [Hv _ _ _ _] _. rewrite Hs in Hv. destruct Hv as (_ & a & -> & _).
  destruct (pending a) as [|skb l]; [by apply wp_ret, HQ|].
  apply wp_bind. eapply (wp_upd_tx _ H _ _ s); [done|intros ? []; by split|]. rewrite with_sess_id by done.
  clear w H Ht. intros w H. eapply (wp_kept _ H); [done|by apply kept_same|done].
Qed.

(** [ieee80211_agg_start_txq] when the flag fits the phase. *)
Lemma wp_start_txq tid v x w enable (Q : unit -> world -> Prop) :
  holds c tid v x w -> v_stop v = true ->
  stable (mk_view (v_sess v) (v_kind v) false enable (v_num v)) = true ->
  (forall w', holds c tid (mk_view (v_sess v) (v_kind v) false enable (v_num v)) x w' -> Q tt w') ->
  wp (ieee80211_agg_start_txq c tid enable) Q w.
Proof.
  intros H Hstop Hst HQ. unfold ieee80211_agg_start_txq. apply wp_bind, (wp_get_tid _ H).
  intros t _ [_ _ _ _ (q & -> & _)] _. rewrite bool_decide_eq_false_2 by done.
  apply wp_bind, (wp_upd_txq _ H _ true enable); [intros q' E _; cbn; split; congruence|]. clear w H. intros w H.
  apply wp_bind, (wp_preempt _ H); [done|]. clear w H. intros w H.
  apply wp_bind, (wp_upd_txq _ H _ false enable); [intros q' _ E; cbn in *; split; congruence|]. clear w H. intros w H. cbn [v_sess v_kind v_num] in *.
  eapply (wp_kept _ H); [done|by apply kept_emit|done].
Qed.
(** ** Ending a session *)

(** The session is told to stop; the driver has still to call back. *)
Definition stopped (s : sess) : sess :=
  mk_sess (s_ready s) (s_received s) false true false (s_sent s) (s_want_stop s) false false (s_size s).

(** What is known once a stop is requested, and that is enough to end a session. *)
Definition with_want_stop (s : sess) : sess :=
  mk_sess (s_ready s) (s_received s) (s_oper s) (s_stopping s) (s_want_start s) (s_sent s) true (s_resp_timer s) (s_tx_timer s) (s_size s).

Lemma quiet_want_stop v s :
  quiet c v -> v_sess v = Some s -> quiet c (with_sess (Some (with_want_stop s)) v).
Proof. intros [Hn Hq] Hs. rewrite Hs in Hq. destruct Hq as (? & ? & ? & ? & ?). by split. Qed.

Lemma wp_stop_sess tid v x w s reason (Q : Z -> world -> Prop) :
  holds c tid v x w -> v_sess v = Some s -> quiet c (with_sess (Some (with_want_stop s)) v) ->
  (forall r w' v' s', holds c tid v' x w' -> quiet c v' -> v_sess v' = Some s' -> Q r w') ->
  wp (__ieee80211_stop_tx_ba_session c tid reason) Q w.
Proof.
  intros H Hs Hq HQ. destruct usable as [Hin Hop]. unfold __ieee80211_stop_tx_ba_session. cbv zeta.
  destruct v as [s0 k stop ampdu num]. cbn [v_sess] in Hs. subst s0. pose proof Hq as [Hnum (Hws & Hph & Hr & Hrec & Hsent)].
  cbn [v_kind v_stop v_ampdu v_num with_sess with_want_stop s_want_start s_stopping s_oper s_ready s_received s_sent s_size
    s_resp_timer s_tx_timer] in *.
  apply wp_bind. eapply (wp_upd_tid _ H).
  { intros t p [[_ Hv] ? ? ? ?]. split; try done. exact (conj eq_refl Hv). }
  { intros t p []. by split. }
  clear w H. intros w H. apply wp_bind, (wp_get_tid _ H). intros t Ht [Hv _ _ _ _] _.
  cbn [v_sess] in Hv. destruct Hv as (_ & a & -> & [_ _ _ Hvs Hvw _ _ _ _ _]). rewrite Hvs. destruct (s_stopping s) eqn:Est.
  - destruct Hph as (-> & -> & Ho & Hrt & Htt).
    assert (quiet c (mk_view (Some s) Ending true ampdu num)) as Hq'.
    { split; [done|]. split; [done|]. cbn. rewrite Est. by split_and!. }
    destruct (negb _); [apply wp_ret; eapply HQ; done|].
    apply wp_bind, (wp_preempt _ H); [done|]. clear w Ht H. intros w H.
    apply wp_bind, (wp_drv _ H _ _ (fun _ => Ending) (fun _ => x)); [done|done|..].
    { intros t' r Ht'. cbn. by rewrite Z.eqb_refl. }
    { intros r. cbn. by rewrite Z.eqb_refl. }
    { done. }
    { done. }
    clear w H. intros r w H. apply wp_bind, (wp_warn_on H); [done|]. clear w H. intros w H. apply wp_ret. eapply HQ; done.
  - rewrite Hvw, Hws. clear t Ht a Hvs Hvw.
    apply wp_bind. w_tx (mk_sess (s_ready s) (s_received s) (s_oper s) true false (s_sent s) (s_want_stop s)
      (s_resp_timer s) (s_tx_timer s) (s_size s)).
    w_bind. w_txq true ampdu.
    w_bind. w_preempt. w_bind. w_tx (mk_sess (s_ready s) (s_received s) (s_oper s) true false (s_sent s) (s_want_stop s)
      false (s_tx_timer s) (s_size s)).
    w_bind. w_preempt. w_bind. w_tx (mk_sess (s_ready s) (s_received s) (s_oper s) true false (s_sent s) (s_want_stop s)
      false false (s_size s)).
    w_bind. w_preempt. w_bind. w_tx (stopped s). w_bind. w_preempt. w_bind. w_tx (stopped s). w_bind. w_tx (stopped s).
    w_bind. apply (wp_drv _ H _ _ (fun _ => Ending) (fun _ => x)); [done|done|..].
    { intros t' r Ht'. destruct (bool_decide _), (s_oper s); [destruct Hph as (-> & _)|destruct Hph as (-> & _)
        |destruct Hph as (-> & _)|destruct Hph as (-> & _)]; cbn; by rewrite Z.eqb_refl. }
    { intros r. destruct (bool_decide _); cbn; by rewrite Z.eqb_refl. }
    { done. }
    { done. }
    clear w H. intros r w H. apply wp_bind, (wp_warn_on H); [done|]. clear w H. intros w H. apply wp_ret.
    eapply HQ; [done| |done]. split; [done|]. cbn. split; [done|]. split; [done|]. split; [done|]. done.
Qed.

Lemma wp_stop_tx tid v x w reason (Q : Z -> world -> Prop) :
  holds c tid v x w -> quiet c v -> (x = RxNone \/ x = RxActive) ->
  (forall r w', quiet_at c tid w' -> Q r w') -> wp (__ieee80211_stop_tx_ba_session c tid reason) Q w.
Proof.
  intros H Hq Hx HQ. destruct (v_sess v) as [s|] eqn:Hs.
  - eapply wp_stop_sess; [done|done|by apply quiet_want_stop|]. intros. apply HQ. eexists _, _. eauto.
  - unfold __ieee80211_stop_tx_ba_session. cbv zeta. apply wp_bind. eapply (wp_upd_tid _ H).
    { intros t p [Hv ? ? ? ?]. split; try done. rewrite Hs in *. destruct Hv as [? _]. split; [done|]. by intros b [=]. }
    { intros t p []. by split. }
    clear w H. intros w H. apply wp_bind, (wp_get_tid _ H). intros t Ht [Hv _ _ _ _] _. rewrite Hs in Hv.
    destruct Hv as [-> _]. apply wp_ret, HQ. eexists _, _. eauto.
Qed.
(** The session leaves the array. *)
Lemma wp_assign_none tid v x w s (Q : unit -> world -> Prop) :
  holds c tid v x w -> v_sess v = Some s ->
  (forall w', holds c tid (with_sess None v) x w' -> Q tt w') -> wp (ieee80211_assign_tid_tx tid None) Q w.
Proof.
  intros H Hs HQ. eapply (wp_upd_tid _ H); [|intros; by apply rx_view_tx|exact HQ].
  intros t p [Hv ? ? ? ?]. rewrite Hs in Hv. destruct Hv as [Hn _]. split; try done.
  split; [done|]. intros b Hb. cbn in Hb. congruence.
Qed.

(** The queue starts again without aggregation; no session is left. *)
Lemma wp_start_txq_idle tid x w k ampdu num (Q : unit -> world -> Prop) :
  holds c tid (mk_view None k true ampdu num) x w -> (k = Idle \/ k = Ending) ->
  0 <= num <= HT_AGG_MAX_RETRIES + 1 ->
  (forall w' v', holds c tid v' x w' -> quiet c v' -> Q tt w') -> wp (ieee80211_agg_start_txq c tid false) Q w.
Proof.
  intros H Hk Hn HQ. eapply wp_start_txq; [done|done| |].
  - by destruct Hk as [-> | ->].
  - intros w' H'. eapply HQ; [done|]. by split.
Qed.

Lemma wp_stop_cb tid v x w s (Q : unit -> world -> Prop) :
  holds c tid v x w -> quiet c v -> v_sess v = Some s -> (x = RxNone \/ x = RxActive) ->
  (forall r w', quiet_at c tid w' -> Q r w') -> wp (ieee80211_stop_tx_ba_cb c tid) Q w.
Proof.
  intros H Hq Hs Hx HQ. unfold ieee80211_stop_tx_ba_cb, ieee80211_remove_tid_tx. cbv zeta.
  assert (stable v = true) as Hst by (by eapply quiet_stable).
  pose proof Hq as [Hnum Hqs]. rewrite Hs in Hqs. destruct Hqs as (_ & Hph & _).
  apply wp_bind, (wp_get_tx _ H s); [done|]. intros a [_ _ _ Hv _ _ _ _ _ _]. rewrite Hv.
  destruct (s_stopping s); cbn [negb]; [|apply wp_ret, HQ; eexists _, _; eauto].
  destruct Hph as (Hk & Hstop & _). apply wp_bind, wp_bind, (wp_get_tx _ H s); [done|]. intros a' _.
  apply wp_bind. eapply wp_splice; [done..|]. clear w H. intros w H.
  apply wp_bind. eapply wp_assign_none; [done..|]. clear w H. intros w H.
  destruct v as [s0 k stop ampdu num]. cbn in Hs, Hk, Hstop. subst. cbn [with_sess v_kind v_stop v_ampdu v_num] in *.
  apply wp_bind, (wp_wake_queue H); [done|]. clear w H. intros w H.
  apply (wp_timers_shutdown H); [done|]. clear w H. intros w H. w_bind. w_preempt.
  w_bind. eapply wp_start_txq_idle; [done|auto|done|]. clear w H. intros w v H Hq'.
  destruct (_ && _); [|apply wp_ret, HQ; eexists _, _; eauto].
  apply (wp_send_action H); [by eapply quiet_stable|]. intros w' H'. apply HQ. eexists _, _. eauto.
Qed.

(** ** Starting a session *)

(** The request is sent unless the session is being stopped. *)
Definition requested (s : sess) : sess :=
  mk_sess (s_ready s) (s_received s) (s_oper s) (s_stopping s) (s_want_start s) true (s_want_stop s) true (s_tx_timer s) (s_size s).
Definition armed (s : sess) : sess :=
  mk_sess (s_ready s) (s_received s) (s_oper s) (s_stopping s) (s_want_start s) (s_sent s) (s_want_stop s) true (s_tx_timer s) (s_size s).
(** A session that is started and waits for the peer or the driver. *)
Definition pending_start (v : view) (s : sess) : Prop :=
  v_sess v = Some s /\ v_kind v = Started /\ v_stop v = true /\ 0 <= v_num v <= HT_AGG_MAX_RETRIES /\
  s_oper s = false /\ s_stopping s = false /\ s_want_start s = false /\ s_sent s = false /\
  (s_received s = true -> 1 <= s_size s <= max_tx_aggregation_subframes c).

Lemma same_want_stop s a : test_bit HT_AGG_STATE_WANT_STOP a = true -> sess_view s a -> sess_view (with_want_stop s) a.
Proof. intros Ha []. by split. Qed.

Lemma holds_want_stop tid v x w s a :
  holds c tid v x w -> v_sess v = Some s -> test_bit HT_AGG_STATE_WANT_STOP a = true ->
  (forall t, tid_at (sta w) tid = Some t -> tid_tx t = Some a) ->
  holds c tid (with_sess (Some (with_want_stop s)) v) x w.
Proof.
  intros [Hl Ho (t & Ht & [Hv Hp Hr Hn Hq] & Hx)] Hs Hw Ha. split; [done..|]. exists t. split; [done|]. split; [|done].
  split; try done. rewrite Hs in Hv. destruct Hv as (? & a' & Ha' & Hsv). cbn. split; [done|]. exists a. split; [by apply Ha|].
  rewrite (Ha t Ht) in Ha'. injection Ha' as <-. by apply same_want_stop.
Qed.
(** A look at the session that also tells whether a stop is requested. *)
Lemma wp_get_tx_stop tid v x w s (Q : tid_ampdu_tx -> world -> Prop) :
  holds c tid v x w -> v_sess v = Some s ->
  (forall a, sess_view s a -> test_bit HT_AGG_STATE_WANT_STOP a = false -> s_want_stop s = false -> Q a w) ->
  (forall a, sess_view s a -> test_bit HT_AGG_STATE_WANT_STOP a = true ->
    holds c tid (with_sess (Some (with_want_stop s)) v) x w -> Q a w) -> wp (get_tx tid) Q w.
Proof.
  intros H Hs Hno Hyes. apply (wp_get_tx_at _ H s); [done|]. intros a Ha Hat.
  destruct (test_bit HT_AGG_STATE_WANT_STOP a) eqn:E; [|apply Hno; [done..|]].
  - apply Hyes; [done..|]. by eapply holds_want_stop.
  - destruct (s_want_stop s) eqn:Es; [|done]. apply (sv_want_stop s a Ha) in Es. congruence.
Qed.

Lemma wp_test_and_set tid v x w s s' bit (Q : bool -> world -> Prop) :
  holds c tid v x w -> v_sess v = Some s -> (forall a, sess_view s a -> sess_view s' (set_bit bit a)) ->
  (forall a w', sess_view s a -> holds c tid (with_sess (Some s') v) x w' -> Q (test_bit bit a) w') ->
  wp (test_and_set bit tid) Q w.
Proof.
  intros H Hs Hs' HQ. unfold test_and_set, test. apply wp_bind, wp_bind, (wp_get_tx _ H s); [done|]. intros a Ha.
  apply wp_ret, wp_bind, (wp_upd_tx _ H _ s s'); [done|done|]. intros. by apply wp_ret, HQ.
Qed.

Lemma wp_send_addba tid v x w s (Q : unit -> world -> Prop) :
  holds c tid v x w -> pending_start v s ->
  (forall w' v' s', holds c tid v' x w' -> quiet c v' -> v_sess v' = Some s' -> Q tt w') ->
  wp (ieee80211_send_addba_with_timeout c tid) Q w.
Proof.
  intros H (Hs & Hk & Hstop & Hnum & Ho & Hsp & Hws & Hsent & Hrec) HQ.
  destruct v as [s0 k stop ampdu num]. cbn in Hs, Hk, Hstop, Hnum. subst.
  unfold ieee80211_send_addba_with_timeout. apply wp_bind. eapply wp_get_tx_stop; [done|done| |].
  - intros a [_ _ _ -> _ _ _ _ _ _] -> _. rewrite Hsp. cbn [orb].
    w_bind. apply wp_gets. w_bind. w_tx (armed s). w_bind. w_preempt. w_bind. apply wp_gets.
    w_bind. eapply (wp_upd_tid _ H); [by intros t p []|by intros t p []|]. clear w H. intros w H.
    w_bind. eapply (wp_upd_tid _ H _ (mk_view (Some (armed s)) Started true ampdu (num + 1))).
    { intros t p [Hv ? ? Hn ?]. split; try done. cbn in *. rewrite Hn. apply wrap_small.
      unfold is_uint, HT_AGG_MAX_RETRIES in *. lia. }
    { by intros t p []. }
    clear w H. intros w H. w_bind. w_preempt. w_bind. apply (wp_get_tx _ H _ _ eq_refl). intros a' _.
    w_bind. apply (wp_send_action H); [done|]. w_intro. w_bind. w_preempt.
    w_bind. eapply (wp_test_and_set _ _ _ _ _ (requested s)); [done|done|solve_sess|]. intros a'' w' _ H'.
    apply (wp_warn_on H'); [done|]. intros w'' H''. eapply HQ; [done| |done].
    quiet_goal.
  - intros a [_ _ _ -> _ _ _ _ _ _] -> H'. rewrite Hsp. cbn [orb]. apply (wp_emit H'); [done|done|].
    intros w' Hw. eapply HQ; [done| |done]. quiet_goal.
Qed.
(** A session that goes live. *)
Definition new_sess (want_start : bool) : sess := mk_sess false false false false want_start false false false false 0.
Definition at_rest (x : rx_state) : Prop := x = RxNone \/ x = RxActive.

Lemma wp_start_refused tid x w s ampdu num (Q : unit -> world -> Prop) :
  holds c tid (mk_view (Some s) Idle true ampdu num) x w -> at_rest x -> 0 <= num <= HT_AGG_MAX_RETRIES ->
  (forall r w', quiet_at c tid w' -> Q r w') ->
  wp (a <- get_tx tid ;;
      ieee80211_agg_splice_packets c tid ;;; ieee80211_assign_tid_tx tid None ;;; ieee80211_agg_splice_finish c tid ;;;
      preempt c ;;; ieee80211_agg_start_txq c tid false ;;; timers_shutdown a) Q w.
Proof.
  intros H Hx Hn HQ. apply wp_bind, (wp_get_tx _ H _ _ eq_refl). intros a _.
  w_bind. eapply wp_splice; [exact H|done|done|]. w_intro. w_bind. eapply wp_assign_none; [exact H|done|]. w_intro.
  w_bind. apply (wp_wake_queue H); [done|]. w_intro. w_bind. w_preempt.
  w_bind. eapply wp_start_txq_idle; [exact H|by left|lia|].
  clear w H. intros w v H Hq. apply (wp_timers_shutdown H); [by eapply quiet_stable|]. intros w' H'. apply HQ.
  eexists _, _. eauto.
Qed.

Lemma wp_handle_start tid x w k ampdu num (Q : unit -> world -> Prop) :
  holds c tid (mk_view (Some (new_sess true)) k true ampdu num) x w ->
  (k = Idle \/ k = Ending) -> at_rest x -> 0 <= num <= HT_AGG_MAX_RETRIES ->
  (forall r w', quiet_at c tid w' -> Q r w') -> wp (ieee80211_tx_ba_session_handle_start c tid) Q w.
Proof.
  intros H Hk Hx Hn HQ. destruct usable as [Hin Hop]. unfold ieee80211_tx_ba_session_handle_start. cbv zeta.
  w_bind. w_tx (new_sess false). w_bind. w_preempt. w_bind. w_tx (new_sess false).
  w_bind. apply (wp_get_tid _ H). intros t Ht _ _.
  w_bind. apply (wp_drv _ H _ _ (fun r => if start_accepted r then Started else Idle) (fun _ => x)); [done|done|..].
  { intros t' r Ht'. rewrite Ht in Ht'. injection Ht' as <-. cbn. rewrite Z.eqb_refl. cbn.
    destruct Hk as [-> | ->], (start_accepted r); done. }
  { intros r. cbn. by rewrite Z.eqb_refl. }
  { done. }
  { intros r. by destruct (start_accepted r). }
  clear w Ht H. intros r w H. cbn [with_kind v_sess v_stop v_ampdu v_num] in H. w_bind. w_tx (new_sess false).
  assert (forall s ampdu, s = new_sess false \/ s = mk_sess true false false false false false false false false 0 ->
    pending_start (mk_view (Some s) Started true ampdu num) s) as Hp.
  { intros s ampdu' [-> | ->]; unfold pending_start; cbn; split_and!; first [done|lia]. }
  unfold start_accepted in H. apply wp_if; intros E2; [|apply wp_if; intros E1; [|unfold nz; apply wp_if; intros E0]];
    rewrite ?E2, ?E1 in H.
  - rewrite orb_true_r in H. apply wp_ret, HQ. eexists _, _. split; [exact H|]. split; [quiet_goal|done].
  - rewrite orb_true_r in H. w_bind. w_tx (mk_sess true false false false false false false false false 0). w_bind. w_preempt.
    eapply wp_send_addba; [exact H|by apply Hp; auto|]. intros w' v' s' H' Hq' _. apply HQ. eexists _, _. eauto.
  - apply negb_true_iff in E0. rewrite E0 in H. eapply wp_start_refused; eauto.
  - apply negb_false_iff in E0. rewrite E0 in H.
    eapply wp_send_addba; [exact H|by apply Hp; auto|]. intros w' v' s' H' Hq' _. apply HQ. eexists _, _. eauto.
Qed.
(** ** The session becomes operational *)

Definition operating (s : sess) : sess :=
  mk_sess (s_ready s) (s_received s) true (s_stopping s) (s_want_start s) (s_sent s) (s_want_stop s) (s_resp_timer s) (s_tx_timer s) (s_size s).

Lemma wp_operational tid x w s ampdu num (Q : unit -> world -> Prop) :
  holds c tid (mk_view (Some s) Started true ampdu num) x w ->
  (forall w', holds c tid (mk_view (Some (operating s)) Oper false true num) x w' -> Q tt w') ->
  wp (ieee80211_agg_tx_operational c tid) Q w.
Proof.
  intros H HQ. destruct usable as [Hin Hop]. unfold ieee80211_agg_tx_operational.
  w_bind. apply (wp_get_tx _ H _ _ eq_refl). intros a _.
  w_bind. apply (wp_drv _ H _ _ (fun _ => Oper) (fun _ => x)); [done|done|..].
  { intros t' r Ht'. cbn. by rewrite Z.eqb_refl. }
  { intros r. cbn. by rewrite Z.eqb_refl. }
  { done. }
  { done. }
  clear w H. intros r w H. unfold with_kind in H. cbn in H.
  w_bind. eapply wp_splice; [exact H|done|done|]. w_intro. w_bind. w_tx (operating s).
  w_bind. apply (wp_wake_queue H); [done|]. w_intro. w_bind. w_preempt. eapply wp_start_txq; [exact H|done|done|exact HQ].
Qed.

Definition made_ready (s : sess) : sess :=
  mk_sess true (s_received s) (s_oper s) (s_stopping s) (s_want_start s) (s_sent s) (s_want_stop s) (s_resp_timer s) (s_tx_timer s) (s_size s).

Lemma wp_start_cb tid v x w s (Q : unit -> world -> Prop) :
  holds c tid v x w -> quiet c v -> v_sess v = Some s ->
  (forall w' v' s', holds c tid v' x w' -> quiet c v' -> v_sess v' = Some s' -> Q tt w') ->
  wp (ieee80211_start_tx_ba_cb c tid) Q w.
Proof.
  intros H Hq Hs HQ. destruct v as [s0 k stop ampdu num]. cbn in Hs. subst s0. unfold ieee80211_start_tx_ba_cb.
  pose proof Hq as [Hnum (Hws & Hph & Hr & Hrec & Hsent)]. cbn [v_kind v_stop v_ampdu v_num] in *.
  assert (stable (mk_view (Some (made_ready s)) k stop ampdu num) = true) as Hst.
  { eapply (quiet_stable c) in Hq. exact Hq. }
  w_bind. eapply (wp_test_and_set _ _ _ _ _ (made_ready s)); [exact H|done|solve_sess|]. intros a w' [-> _ _ _ _ _ _ _ _ _].
  clear w H. intros H. unfold with_sess in H. cbn [v_kind v_stop v_ampdu v_num] in H. rename w' into w. destruct (s_ready s) eqn:Er.
  { apply (wp_emit H); [done|done|]. w_intro. eapply HQ; [exact H| |done].
    unfold quiet, quiet_sess. cbn. split_and!; try done. lia. lia. }
  w_bind. apply (wp_preempt _ H); [done|]. w_intro. w_bind. eapply wp_get_tx_stop; [exact H|done| |].
  - clear a. intros a [_ _ _ -> _ _ _ _ _ _] -> Hw. cbn [made_ready s_stopping s_want_stop] in *.
    destruct (s_stopping s) eqn:Est; cbn [orb].
    { apply wp_ret. eapply HQ; [exact H| |done]. unfold quiet, quiet_sess. cbn. rewrite Est. done. }
    destruct (s_oper s) eqn:Eo; [by destruct Hph as (_ & _ & _ & ? & _)|]. destruct Hph as [-> ->].
    w_bind. w_preempt. w_bind. unfold test. w_bind. apply (wp_get_tx _ H _ _ eq_refl).
    clear a. intros a [_ Erec _ _ _ Esent _ _ _ _]. apply wp_ret. rewrite Esent. cbn [made_ready s_sent].
    destruct (s_sent s) eqn:Es; cbn [negb].
    + w_bind. w_bind. apply (wp_get_tx _ H _ _ eq_refl). clear a Erec Esent. intros a [_ -> _ _ _ _ _ _ _ _].
      apply wp_ret. cbn [made_ready s_received]. destruct (s_received s) eqn:Ec.
      * eapply wp_operational; [exact H|]. intros w' H'. eapply HQ; [exact H'| |done]. quiet_goal.
      * apply wp_ret. eapply HQ; [exact H| |done]. quiet_goal.
    + eapply wp_send_addba; [exact H| |exact HQ]. unfold pending_start. cbn. split_and!; auto; try done. lia.
  - clear a. intros a [_ _ _ -> _ _ _ _ _ _] -> Hw. cbn [made_ready s_stopping]. rewrite orb_true_r.
    apply wp_ret. eapply HQ; [exact Hw| |done]. unfold quiet, quiet_sess. cbn.
    split_and!; try done; try lia. destruct (s_stopping s); [done|]. destruct (s_oper s); [|done].
    by destruct Hph as (_ & _ & _ & ? & _).
Qed.
(** ** Frames of the peer *)

Definition accepted (size : Z) (s : sess) : sess :=
  mk_sess (s_ready s) true (s_oper s) (s_stopping s) (s_want_start s) (s_sent s) (s_want_stop s) (s_resp_timer s) (s_tx_timer s) size.
Definition timed (s : sess) : sess :=
  mk_sess (s_ready s) (s_received s) (s_oper s) (s_stopping s) (s_want_start s) (s_sent s) (s_want_stop s) (s_resp_timer s) true (s_size s).

(** The end of [process_addba_resp]: the session is accepted. *)
Lemma wp_accept_rest tid x w v s q (Q : unit -> world -> Prop) :
  holds c tid v x w -> v_sess v = Some s -> at_rest x -> quiet c (mk_view (Some (timed s)) (v_kind v) (v_stop v) (v_ampdu v) 0) ->
  quiet c (mk_view (Some s) (v_kind v) (v_stop v) (v_ampdu v) 0) ->
  (forall r w', quiet_at c tid w' -> Q r w') ->
  wp (upd_tid tid (set_addba_req_num 0) ;;;
      upd_tx tid (set_tx_timeout (resp_timeout q)) ;;;
      if nz (resp_timeout q) then
        now <- gets (fun w => jiffies (sta w)) ;;
        upd_tx tid (set_tx_session_timer (Some (u64 (now + TU_TO_JIFFIES c (resp_timeout q))))) ;;;
        preempt c ;;;
        now <- gets (fun w => jiffies (sta w)) ;;
        upd_tx tid (set_last_tx now)
      else ret tt) Q w.
Proof.
  intros H Hs Hx Hq1 Hq2 HQ. destruct v as [s0 k stop ampdu num]. cbn in Hs. subst s0. cbn [v_kind v_stop v_ampdu] in *.
  w_bind. eapply (wp_upd_tid _ H _ (mk_view (Some s) k stop ampdu 0)).
  { intros t p [Hv ? ? Hn ?]. by split. }
  { by intros t p []. }
  clear w H. intros w H. w_bind. w_tx s. apply wp_if; intros _.
  - w_bind. apply wp_gets. w_bind. w_tx (timed s). w_bind. apply (wp_preempt _ H); [by eapply quiet_stable|]. w_intro.
    w_bind. apply wp_gets. w_tx (timed s). apply HQ. eexists _, _. eauto.
  - apply wp_ret, HQ. eexists _, _. eauto.
Qed.

Lemma wp_accepted tid v x w s q (Q : unit -> world -> Prop) :
  holds c tid v x w -> quiet c v -> at_rest x -> v_sess v = Some s -> s_stopping s = false -> s_want_stop s = false ->
  1 <= resp_buf_size q <= max_tx_aggregation_subframes c ->
  (forall r w', quiet_at c tid w' -> Q r w') -> wp (addba_accepted c q tid) Q w.
Proof.
  intros H Hq Hx Hs Hst Hwstop Hsize HQ. destruct v as [s0 k stop ampdu num]. cbn in Hs. subst s0.
  pose proof Hq as [Hnum (Hws & Hph & Hr & Hrec & Hsent)]. cbn [v_kind v_stop v_ampdu v_num] in *. rewrite Hst in *.
  assert (forall s' num, stable (mk_view (Some s') k stop ampdu num) = true) as Hstab.
  { intros s' num'. eapply (quiet_stable c) in Hq. exact Hq. }
  unfold addba_accepted. w_bind. eapply (wp_test_and_set _ _ _ _ _ (accepted (s_size s) s)); [exact H|done|solve_sess|].
  intros a w' [_ -> _ _ _ _ _ _ _ _]. clear w H. intros H. unfold with_sess in H. cbn [v_kind v_stop v_ampdu v_num] in H.
  rename w' into w. destruct (s_received s) eqn:Ec.
  { apply wp_ret, HQ. eexists _, _. split; [exact H|]. split; [|done]. unfold quiet, quiet_sess. cbn. rewrite Hst.
    split_and!; try done; lia. }
  assert (s_oper s = false) as Eo by (destruct (s_oper s); [by destruct Hph as (_ & _ & _ & _ & ? & _)|done]).
  rewrite Eo in Hph. destruct Hph as [-> ->].
  w_bind. w_tx (accepted (resp_buf_size q) s). w_bind. w_tx (accepted (resp_buf_size q) s). w_bind. w_preempt. w_bind.
  unfold test. w_bind. apply (wp_get_tx _ H _ _ eq_refl). clear a. intros a [-> _ _ _ _ _ _ _ _ _]. apply wp_ret.
  cbn [accepted s_ready]. w_bind. destruct (s_ready s) eqn:Er.
  - eapply wp_operational; [exact H|]. clear w H. intros w H. eapply wp_accept_rest; [exact H|done|done| | |exact HQ].
    all: assert (s_sent s = true) as Es by (destruct (s_sent s) eqn:?; [done|rewrite Hr in Hwstop by done; done]).
    all: unfold quiet, quiet_sess, HT_AGG_MAX_RETRIES; cbn; rewrite Hst; split_and!; try done; try lia; congruence.
  - apply wp_ret. eapply wp_accept_rest; [exact H|done|done| | |exact HQ].
    all: unfold quiet, quiet_sess, HT_AGG_MAX_RETRIES; cbn; rewrite Hst, Eo; split_and!; try done; try lia; congruence.
Qed.

Lemma wp_process_resp tid w q (Q : unit -> world -> Prop) :
  quiet_at c tid w -> 0 <= tid < 16 -> resp_tid q = tid -> resp_buf_size q <= max_tx_aggregation_subframes c ->
  0 <= resp_buf_size q -> (forall r w', quiet_at c tid w' -> Q r w') ->
  wp ((if resp_amsdu q then ret tt else upd_txq tid (set_TXQ_NO_AMSDU true)) ;;;
      t <- get_tid tid ;;
      match tid_tx t with
      | None => ret tt
      | Some a =>
          if negb (resp_token q =? dialog_token a) then ret tt
          else
            upd_tx tid (set_addba_resp_timer None) ;;;
            preempt c ;;;
            a <- get_tx tid ;;
            if test_bit HT_AGG_STATE_WANT_STOP a || test_bit HT_AGG_STATE_STOPPING a then ret tt
            else
              preempt c ;;;
              if (resp_status q =? WLAN_STATUS_SUCCESS) && nz (resp_buf_size q) then addba_accepted c q tid
              else _ <- __ieee80211_stop_tx_ba_session c tid AGG_STOP_DECLINED ;; ret tt
      end) Q w.
Proof.
  intros (v & x & H & Hq & Hx) Htid Hqt Hmax Hmin HQ. pose proof (quiet_stable _ _ Hq) as Hst.
  assert (forall w', holds c tid v x w' -> Q tt w') as HQ' by (intros; apply HQ; eexists _, _; eauto).
  w_bind. assert (forall R : unit -> world -> Prop, (forall w', holds c tid v x w' -> R tt w') ->
    wp (if resp_amsdu q then ret tt else upd_txq tid (set_TXQ_NO_AMSDU true)) R w) as Hna.
  { intros R HR. apply wp_if; intros _; [by apply wp_ret, HR|]. apply (wp_upd_txq _ H _ (v_stop v) (v_ampdu v)); [done|].
    destruct v. exact HR. }
  apply Hna. clear w H Hna. intros w H. w_bind. apply (wp_get_tid _ H). intros t _ [Hv _ _ _ _] _.
  destruct v as [s0 k stop ampdu num]. cbn [v_sess] in Hv. destruct s0 as [s|]; [|destruct Hv as [-> _]; by apply wp_ret, HQ'].
  destruct Hv as (_ & a & -> & _). apply wp_if; intros _; [by apply wp_ret, HQ'|].
  pose (s1 := mk_sess (s_ready s) (s_received s) (s_oper s) (s_stopping s) (s_want_start s) (s_sent s) (s_want_stop s) false
    (s_tx_timer s) (s_size s)).
  assert (quiet c (mk_view (Some s1) k stop ampdu num)) as Hq1.
  { destruct Hq as (? & Hws & Hph & ? & ? & ?). split; [done|]. split; [done|]. split; [|done]. cbn in *.
    destruct (s_stopping s); [|done]. split_and!; try done; by destruct Hph as (? & ? & ? & ? & ?). }
  w_bind. w_tx s1. w_bind. apply (wp_preempt _ H); [done|]. w_intro. w_bind.
  eapply wp_get_tx_stop; [exact H|done| |].
  - intros a' [_ _ _ -> _ _ _ _ _ _] -> Hw. cbn [orb]. apply wp_if; intros Est.
    { apply wp_ret, HQ. eexists _, _. eauto. }
    w_bind. apply (wp_preempt _ H); [done|]. w_intro. apply wp_if; intros Eok.
    + apply andb_prop in Eok as [_ Enz]. unfold nz in Enz. apply negb_true_iff, Z.eqb_neq in Enz.
      eapply wp_accepted; [exact H|done|done|done|done|done|lia|done].
    + w_bind. eapply wp_stop_tx; [exact H|done|done|]. intros r w' Hw'. by apply wp_ret, HQ.
  - intros a' _ -> H'. cbn [orb]. apply wp_ret, HQ. eexists _, _. split; [exact H'|]. split; [|done].
    destruct Hq1 as (? & Hws & Hph & ? & ? & ?). split; [done|]. split; [done|]. split; [exact Hph|]. by split.
Qed.
(** ** Receive sessions *)

Hypothesis Hrx : 1 <= max_rx_aggregation_subframes c.

Lemma wp_stop_rx_active tid v w initiator reason tx (Q : unit -> world -> Prop) :
  holds c tid v RxActive w -> stable v = true -> (forall w', holds c tid v RxNone w' -> Q tt w') ->
  wp (__ieee80211_stop_rx_ba_session c tid initiator reason tx) Q w.
Proof.
  intros H Hst HQ. destruct usable as [Hin Hop]. unfold __ieee80211_stop_rx_ba_session.
  w_bind. apply (wp_get_tid _ H). intros t Ht _ [-> _ _]. cbn [rx_valid negb].
  w_bind. eapply wp_upd_tid_at; [exact Ht|]. w_bind. eapply wp_upd_tid_at; [by eapply tid_at_put_eq|]. rewrite put_put.
  assert (holds c tid v RxStopping (put_tid tid (set_agg_session_valid false (set_tid_rx None t)) w)) as H1.
  { eapply holds_put; [exact H|done|by intros p []|]. intros p [_ Hp _]. by split. }
  clear H Ht. set (w1 := put_tid _ _ w) in *. w_bind.
  apply (wp_drv _ H1 _ _ (fun _ => v_kind v) (fun _ => RxNone)); [done|done|..].
  { intros t' r Ht'. cbn. by rewrite Z.eqb_refl. }
  { intros r. cbn. by rewrite Z.eqb_refl. }
  { done. }
  { intros _. by destruct v. }
  intros r w2 H2. assert (holds c tid v RxNone w2) as H3 by (destruct v; exact H2).
  apply wp_if; intros _; [|by apply wp_ret, HQ]. by apply (wp_send_action H3).
Qed.

Lemma wp_stop_rx tid v x w initiator reason tx (Q : unit -> world -> Prop) :
  holds c tid v x w -> stable v = true -> at_rest x -> (forall x' w', holds c tid v x' w' -> at_rest x' -> Q tt w') ->
  wp (__ieee80211_stop_rx_ba_session c tid initiator reason tx) Q w.
Proof.
  intros H Hst [-> | ->] HQ.
  - unfold __ieee80211_stop_rx_ba_session. w_bind. apply (wp_get_tid _ H). intros t Ht _ [-> _ _].
    cbn [rx_valid negb]. apply wp_ret. eapply HQ; [exact H|by left].
  - eapply wp_stop_rx_active; [done..|]. intros w' H'. eapply HQ; [done|by left].
Qed.

Lemma rx_buf_size_ok size : 0 <= size -> (max_buf_size c <? size) = false -> 1 <= rx_buf_size c size <= max_buf_size c.
Proof.
  intros H0 Hm. apply Z.ltb_ge in Hm. assert (1 <= max_buf_size c) by (unfold max_buf_size; repeat case_match; done).
  unfold rx_buf_size. destruct (Z.eqb_spec size 0); lia.
Qed.

(** The status decides whether there is a session the code does not know yet. *)
Definition rx_outcome (status : Z) (x : rx_state) : Prop :=
  if status =? WLAN_STATUS_SUCCESS then x = RxStarting \/ x = RxActive else at_rest x.

Lemma wp_start_new_rx tid v w tmo start_seq_num size auto_seq (Q : Z -> world -> Prop) :
  holds c tid v RxNone w -> stable v = true -> 1 <= size <= max_buf_size c ->
  (forall status x w', holds c tid v x w' -> rx_outcome status x -> Q status w') ->
  wp (start_new_rx_session c tmo start_seq_num tid size auto_seq) Q w.
Proof.
  intros H Hst Hsize HQ. destruct usable as [Hin Hop]. unfold start_new_rx_session. cbv zeta.
  assert (forall (R : Z * Z -> world -> Prop) w, holds c tid v RxNone w ->
    (forall r w', holds c tid v (if r.1 =? 0 then RxStarting else RxNone) w' -> R r w') ->
    wp (drv_ampdu_action c tid start_seq_num (AMPDU_RX_START start_seq_num size tmo)) R w) as Hdrv.
  { clear w H. intros R w H HR.
    apply (wp_drv _ H _ _ (fun _ => v_kind v) (fun r => if r =? 0 then RxStarting else RxNone)); [done|done|..].
    - intros t' r Ht'. cbn. by rewrite Z.eqb_refl.
    - intros r. cbn. rewrite Z.eqb_refl. cbn. by destruct (r =? 0).
    - intros r. by destruct (r =? 0).
    - intros _. by destruct v.
    - intros r w' H'. apply HR. destruct v. exact H'. }
  apply wp_if; intros _.
  - w_bind. apply Hdrv; [exact H|]. intros r w' H'. apply wp_ret. eapply HQ; [exact H'|]. destruct (r.1 =? 0); by left.
  - w_bind. apply (wp_next_alloc _ H). clear w H. intros b w H. apply wp_if; intros _.
    { apply wp_ret. eapply HQ; [exact H|]. by left. }
    w_bind. apply Hdrv; [exact H|]. clear w H. intros r w H. unfold nz. destruct (r.1 =? 0); cbn [negb].
    + w_bind. apply wp_gets. w_bind. eapply (wp_upd_tid _ H); [by intros t p []| |].
      { intros t p [Hv Hp _]. split; [exact Hv|exact Hp|]. intros r' [= <-]. split; [done|].
        cbn [start_rx_ba_session buf_size reorder]. rewrite length_replicate. done. }
      intros w' H'. apply wp_ret. eapply HQ; [exact H'|]. by left.
    + apply wp_ret. eapply HQ; [exact H|]. by left.
Qed.

Lemma wp_rx_request tid v x w token tmo start_seq_num policy size tx auto_seq ndp (Q : Z * Z -> world -> Prop) :
  holds c tid v x w -> stable v = true -> at_rest x -> 0 <= size ->
  (forall r x' w', holds c tid v x' w' -> rx_outcome r.1 x' -> Q r w') ->
  wp (rx_request_status c token tmo start_seq_num policy tid size tx auto_seq ndp) Q w.
Proof.
  intros H Hst Hx Hsize HQ. unfold rx_request_status. w_bind. apply (wp_get_tid _ H). intros t Ht _ [Hv _ _].
  w_bind. apply wp_gets.
  do 4 (apply wp_if; intros _; [apply wp_ret; eapply HQ; [exact H|exact Hx]|]).
  apply wp_if; intros Hbad; [apply wp_ret; eapply HQ; [exact H|exact Hx]|].
  apply orb_false_iff in Hbad as [_ Hbad]. pose proof (rx_buf_size_ok size Hsize Hbad) as Hs. cbv zeta. rewrite Hv.
  destruct Hx as [-> | ->]; cbn [rx_valid andb].
  - w_bind. apply wp_ret. w_bind. eapply wp_start_new_rx; [exact H|done|done|]. intros status x w' H' Ho.
    apply wp_ret. eapply HQ; [exact H'|done].
  - apply wp_if; intros _.
    + apply wp_ret. eapply HQ; [exact H|]. unfold rx_outcome. cbn [fst]. destruct (tid_rx t) as [r|]; [destruct (_ =? _)|]; by right.
    + w_bind. eapply wp_stop_rx_active; [exact H|done|]. clear w Ht H. intros w H.
      w_bind. eapply wp_start_new_rx; [exact H|done|done|]. intros status x w' H' Ho. apply wp_ret. eapply HQ; [exact H'|done].
Qed.

Lemma wp_start_rx tid v x w token tmo start_seq_num policy size tx auto_seq ndp data (Q : unit -> world -> Prop) :
  holds c tid v x w -> stable v = true -> at_rest x -> 0 <= size ->
  (forall x' w', holds c tid v x' w' -> at_rest x' -> Q tt w') ->
  wp (__ieee80211_start_rx_ba_session c token tmo start_seq_num policy tid size tx auto_seq ndp data) Q w.
Proof.
  intros H Hst Hx Hsize HQ. unfold __ieee80211_start_rx_ba_session. w_bind. eapply wp_rx_request; [done..|].
  clear w x H Hx. intros r x w H Ho. unfold rx_outcome in Ho.
  assert (forall x' w', holds c tid v x' w' -> at_rest x' ->
    wp (if tx : bool then ieee80211_send_addba_resp c tid token r.1 1 r.2 tmo data else ret tt) Q w') as Hlast.
  { intros x' w' H' Hx'. apply wp_if; intros _; [|apply wp_ret; by eapply HQ].
    apply (wp_send_action H'); [done|]. intros. by eapply HQ. }
  w_bind. destruct (r.1 =? WLAN_STATUS_SUCCESS).
  - w_bind. eapply (wp_upd_tid _ H _ v RxActive); [by intros t p []| |].
    { intros t p [_ Hp Hs]. split; [done|by destruct Ho as [-> | ->]|]. intros r' Hr'. by apply Hs in Hr' as [_ ?]. }
    clear w H. intros w H. w_bind. eapply (wp_upd_tid _ H _ v RxActive); [by intros t p []|by intros t p []|].
    clear w H. intros w H. eapply (wp_upd_tid _ H _ v RxActive); [by intros t p []|by intros t p []|].
    intros w' H'. eapply Hlast; [exact H'|by right].
  - apply wp_ret. by eapply Hlast.
Qed.
End handlers.
