(* ===== verification/AggProofs.v ===== *)
(** * AggProofs: the invariant of block-acknowledgment sessions

    The work, the tear-down and the frames of a station keep the invariant from
    any reachable state, whatever interrupts and whatever the driver answers;
    what follows from it for the driver, the queues and the peer. *)
From stdpp Require Import gmap strings.
From S2P Require Import Prelude Frame Key Amsdu Reorder ElemSizes Parse Agg AggFrames AggRx AggTx AggWork AggLogic.
From S2P Require Import AggInterrupts AggWp AggHandlers AggFrameProofs.

Section proofs.
Context (crc32_be : Z -> list Z -> Z) (c : config).
Hypothesis usable : in_driver c = true /\ has_ampdu_action c = true.
Hypothesis Hrx : 1 <= max_rx_aggregation_subframes c.
Hypothesis Htx : 0 <= max_tx_aggregation_subframes c.

(** ** The work *)

Lemma wp_when_cleared tid v x w get clear m (Q : unit -> world -> Prop) :
  holds c tid v x w ->
  (forall t p, tx_view v t p -> tx_view v (clear t) p) -> (forall t p, rx_view c x t p -> rx_view c x (clear t) p) ->
  (forall w', holds c tid v x w' -> wp m Q w') -> (forall w', holds c tid v x w' -> Q tt w') ->
  wp (when_cleared get clear tid m) Q w.
Proof.
  intros H H1 H2 Hm HQ. unfold when_cleared, test_and_clear_tid. w_bind. w_bind. apply (wp_get_tid _ H). intros t _ _ _.
  w_bind. eapply (wp_upd_tid _ H); [exact H1|exact H2|]. intros w' H'. apply wp_ret. destruct (get t); [by apply Hm|].
  by apply wp_ret, HQ.
Qed.

Lemma wp_work_rx blocked tid v x w (Q : unit -> world -> Prop) :
  holds c tid v x w -> stable v = true -> at_rest x -> (forall x' w', holds c tid v x' w' -> at_rest x' -> Q tt w') ->
  wp (work_rx c blocked tid) Q w.
Proof.
  intros H Hst Hx HQ. unfold work_rx.
  assert (forall get clear (m : M unit) x w (R : unit -> world -> Prop), holds c tid v x w -> at_rest x ->
    (forall t p, tx_view v t p -> tx_view v (clear t) p) -> (forall x t p, rx_view c x t p -> rx_view c x (clear t) p) ->
    (forall x w (S : unit -> world -> Prop), holds c tid v x w -> at_rest x ->
      (forall x' w', holds c tid v x' w' -> at_rest x' -> S tt w') -> wp m S w) ->
    (forall x' w', holds c tid v x' w' -> at_rest x' -> R tt w') -> wp (when_cleared get clear tid m) R w) as Hwhen.
  { clear - Hst. intros get clear m x w R H Hx H1 H2 Hm HR. eapply wp_when_cleared; [exact H|exact H1|auto| |].
    - intros w' H'. by eapply Hm.
    - intros w' H'. by eapply HR. }
  assert (forall initiator reason tx x w (S : unit -> world -> Prop), holds c tid v x w -> at_rest x ->
    (forall x' w', holds c tid v x' w' -> at_rest x' -> S tt w') ->
    wp (__ieee80211_stop_rx_ba_session c tid initiator reason tx) S w) as Hstop.
  { clear - Hst usable. intros. by eapply wp_stop_rx. }
  w_bind. apply (Hwhen _ _ _ x w); [done|done|by intros t p []|by intros ? t p []|apply Hstop|].
  clear x w H Hx. intros x w H Hx.
  w_bind. apply (Hwhen _ _ _ x w); [done|done|by intros t p []|by intros ? t p []|apply Hstop|].
  clear x w H Hx. intros x w H Hx. w_bind.
  assert (forall x' w', holds c tid v x' w' -> at_rest x' ->
    wp (when_cleared tid_rx_manage_stop (set_tid_rx_manage_stop false) tid
      (__ieee80211_stop_rx_ba_session c tid WLAN_BACK_RECIPIENT 0 false)) Q w') as Hlast.
  { intros x' w' H' Hx'.
    apply (Hwhen _ _ _ x' w'); [done|done|by intros t p []|by intros ? t p []|apply Hstop|exact HQ]. }
  destruct blocked; [by apply wp_ret, (Hlast x)|].
  apply (Hwhen _ _ _ x w); [done|done|by intros t p []|by intros ? t p []| |exact Hlast].
  intros x' w' S H' Hx' HS. by eapply wp_start_rx.
Qed.

Lemma wp_work_start tid v x w t a (Q : bool -> world -> Prop) :
  holds c tid v x w -> quiet c v -> at_rest x -> tid_at (sta w) tid = Some t -> tid_start_tx t = Some a ->
  (forall r w', quiet_at c tid w' -> Q r w') -> wp (work_start c tid a) Q w.
Proof.
  intros H Hq Hx Ht Ha HQ. unfold work_start. w_bind. apply (wp_get_tid _ H). intros t' Ht' [Hv Hp Hs Hn Hq'] Hrv.
  rewrite Ht in Ht'. injection Ht' as <-. destruct Hq' as (q & Hxq & E1 & E2). rewrite Hxq.
  destruct v as [[s|] k stop ampdu num]; cbn [v_sess v_kind v_stop v_ampdu v_num] in *; [destruct Hv; congruence|].
  destruct Hv as [Hnone Hwait]. destruct (Hwait _ Ha) as (Hnum & tmo & token & ->). destruct Hq as [Hnr [Hk Ham]].
  cbn [v_kind v_ampdu v_num] in *. subst ampdu. w_bind. unfold upd_txq. eapply wp_upd_tid_at; [exact Ht|].
  set (t1 := set_txq _ t). set (w1 := put_tid tid t1 w).
  assert (tid_at (sta w1) tid = Some t1) as Ht1 by (by eapply tid_at_put_eq).
  assert (holds c tid (mk_view None k true false num) x w1) as H1.
  { eapply holds_put; [exact H|done| |intros p []; by split]. intros p [? ? ? ? _]. split; try done.
    eexists. cbn. rewrite Hxq. by split. }
  destruct (bool_decide (frags q = [])); cbn [negb].
  - w_bind. eapply wp_upd_tid_at; [exact Ht1|].
    w_bind. set (t2 := set_tid_start_tx None t1). set (w2 := put_tid tid t2 w1).
    assert (tid_at (sta w2) tid = Some t2) as Ht2 by (by eapply tid_at_put_eq).
    exists t2, w2. split; [unfold get_tid; by rewrite Ht2|]. w_bind. change (tid_tx t2) with (tid_tx t). rewrite Hnone.
    unfold ieee80211_assign_tid_tx. eapply wp_upd_tid_at; [exact Ht2|]. unfold w2. rewrite put_put.
    assert (holds c tid (mk_view (Some (new_sess true)) k true false num) x
      (put_tid tid (set_tid_tx (Some (new_session tmo token)) t2) w1)) as H2.
    { eapply holds_put; [exact H1|done| |intros p []; by split]. intros p [? ? ? ? ?]. split; try done.
      cbn. split; [done|]. eexists. split; [done|]. split; done. }
    clear - H2 Hk Hx HQ usable Hn Hnr Hnum. set (w2 := put_tid _ _ _) in *. clearbody w2. w_bind. w_preempt.
    w_bind. eapply wp_handle_start; [done|done|done|done|lia|]. intros r w' Hw'. by apply wp_ret, HQ.
  - w_bind. apply (wp_preempt _ H1); [by destruct Hk as [-> | ->]|]. clear - HQ Hk Hnr Hx. intros w H.
    w_bind. eapply (wp_kept _ H); [by destruct Hk as [-> | ->]|by apply kept_same|].
    intros w' H'. apply wp_ret, HQ. eexists _, _. split; [exact H'|]. split; [|exact Hx]. split; [exact Hnr|by split].
Qed.

(** Clearing a callback bit, and the bit of a stop request. *)
Lemma wp_clear_cb tid v x w s bit (Q : bool -> world -> Prop) :
  holds c tid v x w -> v_sess v = Some s -> bit = HT_AGG_STATE_START_CB \/ bit = HT_AGG_STATE_STOP_CB ->
  (forall b w', holds c tid v x w' -> Q b w') -> wp (test_and_clear bit tid) Q w.
Proof.
  intros H Hs Hb HQ. unfold test_and_clear, test. w_bind. w_bind. apply (wp_get_tx _ H s); [done|]. intros a _. apply wp_ret.
  w_bind. eapply (wp_upd_tx _ H _ s s); [done|destruct Hb as [-> | ->]; solve_sess|]. rewrite with_sess_id by done.
  intros w' H'. by apply wp_ret, HQ.
Qed.

Definition without_want_stop (s : sess) : sess :=
  mk_sess (s_ready s) (s_received s) (s_oper s) (s_stopping s) (s_want_start s) (s_sent s) false (s_resp_timer s) (s_tx_timer s) (s_size s).

Lemma wp_clear_want_stop tid v x w s (Q : bool -> world -> Prop) :
  holds c tid v x w -> v_sess v = Some s ->
  (forall w', holds c tid (with_sess (Some (without_want_stop s)) v) x w' -> Q true w') ->
  (forall w', holds c tid v x w' -> Q false w') -> wp (test_and_clear HT_AGG_STATE_WANT_STOP tid) Q w.
Proof.
  intros H Hs Hyes Hno. unfold test_and_clear, test. w_bind. w_bind. eapply wp_get_tx_stop; [exact H|done| |].
  - intros a _ -> Hw. apply wp_ret. w_bind. eapply (wp_upd_tx _ H _ s s); [done|solve_sess|].
    rewrite with_sess_id by done. intros w' H'. by apply wp_ret, Hno.
  - intros a _ -> _. apply wp_ret. w_bind. eapply (wp_upd_tx _ H _ s (without_want_stop s)); [done|solve_sess|].
    intros w' H'. by apply wp_ret, Hyes.
Qed.

Lemma wp_work_tx blocked tid v x w s (Q : unit -> world -> Prop) :
  holds c tid v x w -> quiet c v -> at_rest x -> v_sess v = Some s ->
  (forall r w', quiet_at c tid w' -> Q r w') -> wp (work_tx c blocked tid) Q w.
Proof.
  intros H Hq Hx Hs HQ. unfold work_tx.
  assert (forall w v s, holds c tid v x w -> quiet c v -> v_sess v = Some s ->
    wp (preempt c ;;; stop <- test_and_clear HT_AGG_STATE_WANT_STOP tid ;;
        (if stop : bool then _ <- __ieee80211_stop_tx_ba_session c tid AGG_STOP_LOCAL_REQUEST ;; ret tt else ret tt) ;;;
        preempt c ;;; stop <- test_and_clear HT_AGG_STATE_STOP_CB tid ;;
        if stop : bool then ieee80211_stop_tx_ba_cb c tid else ret tt) Q w) as Hrest.
  { clear w v s H Hq Hs. intros w v s H Hq Hs.
    assert (forall w v s, holds c tid v x w -> quiet c v -> v_sess v = Some s ->
      wp (preempt c ;;; stop <- test_and_clear HT_AGG_STATE_STOP_CB tid ;;
          if stop : bool then ieee80211_stop_tx_ba_cb c tid else ret tt) Q w) as Hcb.
    { clear w v s H Hq Hs. intros w v s H Hq Hs. w_bind. apply (wp_preempt _ H); [by eapply quiet_stable|]. w_intro.
      w_bind. eapply wp_clear_cb; [exact H|done|by right|]. clear w H. intros b w H. apply wp_if; intros _.
      - eapply wp_stop_cb; eauto.
      - apply wp_ret, HQ. eexists _, _. eauto. }
    w_bind. apply (wp_preempt _ H); [by eapply quiet_stable|]. w_intro. w_bind.
    eapply wp_clear_want_stop; [exact H|done| |].
    - clear w H. intros w H. w_bind. w_bind. eapply wp_stop_sess; [exact usable|exact H|done| |].
      + exact (quiet_want_stop c _ s Hq Hs).
      + intros r w' v' s' H' Hq' Hs'. apply wp_ret. by eapply Hcb.
    - clear w H. intros w H. w_bind. apply wp_ret. by eapply Hcb. }
  w_bind. assert (forall b w', holds c tid v x w' ->
    wp ((if b : bool then ieee80211_start_tx_ba_cb c tid else ret tt) ;;; preempt c ;;;
        stop <- test_and_clear HT_AGG_STATE_WANT_STOP tid ;;
        (if stop : bool then _ <- __ieee80211_stop_tx_ba_session c tid AGG_STOP_LOCAL_REQUEST ;; ret tt else ret tt) ;;;
        preempt c ;;; stop <- test_and_clear HT_AGG_STATE_STOP_CB tid ;;
        if stop : bool then ieee80211_stop_tx_ba_cb c tid else ret tt) Q w') as Hgo.
  { intros b w' H'. w_bind. destruct b.
    - eapply wp_start_cb; [exact usable|exact H'|done..|]. intros w2 v2 s2 H2 Hq2 Hs2. by eapply Hrest.
    - apply wp_ret. by eapply Hrest. }
  unfold test_and_clear_if. destruct (negb blocked); [|by apply wp_ret, (Hgo false)]. eapply wp_clear_cb; [exact H|done|by left|exact Hgo].
Qed.

Lemma wp_work_tid blocked tid w (Q : bool -> world -> Prop) :
  quiet_at c tid w -> (forall r w', quiet_at c tid w' -> Q r w') -> wp (work_tid c blocked tid) Q w.
Proof.
  intros (v & x & H & Hq & Hx) HQ. pose proof (quiet_stable _ _ Hq) as Hst. unfold work_tid.
  w_bind. eapply wp_work_rx; [exact H|done|done|]. clear w x H Hx. intros x w H Hx.
  w_bind. apply (wp_preempt _ H); [done|]. w_intro. w_bind. apply (wp_get_tid _ H). intros t Ht [Hv _ _ _ _] _.
  assert (wp ((if bool_decide (is_Some (tid_tx t)) then work_tx c blocked tid else ret tt) ;;; ret false) Q w) as Htx'.
  { w_bind. destruct (v_sess v) as [s|] eqn:Es.
    - destruct Hv as (_ & a & -> & _). rewrite bool_decide_eq_true_2 by done.
      eapply wp_work_tx; [done..|]. intros r w' Hw'. by apply wp_ret, HQ.
    - destruct Hv as [-> _]. rewrite bool_decide_eq_false_2 by (by intros [? ?]).
      apply wp_ret, wp_ret, HQ. eexists _, _. eauto. }
  destruct (tid_start_tx t) as [a|] eqn:Ea; [|exact Htx']. destruct blocked; [exact Htx'|]. by eapply wp_work_start.
Qed.
(** ** From one TID to the station *)

Lemma wp_inv {A} tid (m : M A) w (Q : A -> world -> Prop) :
  0 <= tid < 16 -> inv c w ->
  (forall w, quiet_at c tid w -> forall R : A -> world -> Prop, (forall r w', quiet_at c tid w' -> R r w') -> wp m R w) ->
  (forall r w', inv c w' -> Q r w') -> wp m Q w.
Proof.
  intros Ht Hi Hm HQ. apply Hm; [by apply inv_quiet_at|]. intros r w' Hw'. by apply HQ, (quiet_at_inv c w' tid).
Qed.

Lemma wp_for_tids f l w (Q : unit -> world -> Prop) :
  Forall (fun tid => 0 <= tid < 16) l -> inv c w ->
  (forall tid w, 0 <= tid < 16 -> quiet_at c tid w ->
    forall R : unit -> world -> Prop, (forall r w', quiet_at c tid w' -> R r w') -> wp (f tid) R w) ->
  (forall w', inv c w' -> Q tt w') -> wp (for_tids f l) Q w.
Proof.
  intros Hl Hi Hf HQ. revert w Hi. induction Hl as [|tid l Ht _ IH]; intros w Hi; cbn [for_tids].
  - by apply wp_ret, HQ.
  - w_bind. eapply (wp_inv tid); [done..| |].
    + intros w1 H1 R HR. by apply Hf.
    + intros r w' Hw'. by apply IH.
Qed.

Lemma all_tids_ok : Forall (fun tid => 0 <= tid < 16) all_tids.
Proof. apply Forall_forall. intros tid Ht%elem_of_seqZ. unfold IEEE80211_NUM_TIDS in Ht. lia. Qed.

Lemma wp_work_loop blocked l w (Q : unit -> world -> Prop) :
  Forall (fun tid => 0 <= tid < 16) l -> inv c w -> (forall w', inv c w' -> Q tt w') -> wp (work_loop c blocked l) Q w.
Proof.
  intros Hl Hi HQ. revert w Hi. induction Hl as [|tid l Ht _ IH]; intros w Hi; cbn [work_loop].
  - by apply wp_ret, HQ.
  - w_bind. eapply (wp_inv tid); [done..|intros; by apply wp_work_tid|].
    intros b w' Hw'. apply wp_if; intros _; [by apply wp_ret, HQ|by apply IH].
Qed.

Lemma wp_work w (Q : unit -> world -> Prop) :
  inv c w -> (forall w', inv c w' -> Q tt w') -> wp (ieee80211_ba_session_work c) Q w.
Proof.
  intros Hi HQ. unfold ieee80211_ba_session_work. w_bind. apply wp_gets. apply wp_work_loop; [apply all_tids_ok|done..].
Qed.

Lemma wp_tear_down reason w (Q : unit -> world -> Prop) :
  inv c w -> (forall w', inv c w' -> Q tt w') -> wp (ieee80211_sta_tear_down_BA_sessions c reason) Q w.
Proof.
  intros Hi HQ. unfold ieee80211_sta_tear_down_BA_sessions. cbv zeta.
  w_bind. apply wp_for_tids; [apply all_tids_ok|exact Hi| |].
  { clear - usable. intros tid w _ (v & x & H & Hq & Hx) R HR. eapply wp_stop_rx; [done..|by eapply quiet_stable|done|].
    intros x' w' H' Hx'. apply HR. eexists _, _. eauto. }
  clear w Hi. intros w Hi. w_bind. apply wp_for_tids; [apply all_tids_ok|exact Hi| |].
  { clear - usable. intros tid w _ (v & x & H & Hq & Hx) R HR. w_bind. eapply wp_stop_tx; [done..|].
    intros r w' Hw'. by apply wp_ret, HR. }
  clear w Hi. intros w Hi. apply wp_if; intros _; [|by apply wp_ret, HQ].
  w_bind. eexists tt, _. split; [done|]. apply wp_for_tids; [apply all_tids_ok|exact Hi| |exact HQ].
  clear - usable. intros tid w _ (v & x & H & Hq & Hx) R HR.
  w_bind. apply (wp_preempt _ H); [by eapply quiet_stable|]. w_intro. w_bind. apply (wp_get_tid _ H). intros t Ht [Hv _ _ _ _] _.
  destruct (v_sess v) as [s|] eqn:Es.
  - destruct Hv as (_ & a & -> & _). rewrite bool_decide_eq_true_2 by done.
    w_bind. eapply wp_clear_cb; [exact H|done|by right|]. intros b w' H'. apply wp_if; intros _.
    + eapply wp_stop_cb; eauto.
    + apply wp_ret, HR. eexists _, _. eauto.
  - destruct Hv as [-> _]. rewrite bool_decide_eq_false_2 by (by intros [? ?]). apply wp_ret, HR. eexists _, _. eauto.
Qed.

(** ** Frames *)

Lemma inv_alloc w b w' : inv c w -> next_alloc w = Some (b, w') -> inv c w'.
Proof. unfold next_alloc. intros H. destruct (allocs w); intros [= <- <-]; exact H. Qed.

Lemma wp_next_alloc_inv w (Q : bool -> world -> Prop) :
  inv c w -> (forall b w', inv c w' -> Q b w') -> wp next_alloc Q w.
Proof.
  intros H HQ. destruct (next_alloc w) as [[b w']|] eqn:E; [|unfold next_alloc in E; by destruct (allocs w)].
  exists b, w'. split; [done|]. eapply HQ, inv_alloc; done.
Qed.

Lemma wp_load {A} (o : option A) r (Q : A -> world -> Prop) w : o = Some r -> Q r w -> wp (load o) Q w.
Proof. intros -> HQ. by apply wp_ret. Qed.

Lemma wp_frame body w (Q : unit -> world -> Prop) :
  inv c w -> frame_ok body -> (forall w', inv c w' -> Q tt w') -> wp (ieee80211_iface_process_skb crc32_be c body) Q w.
Proof.
  intros Hi Hf HQ. unfold ieee80211_iface_process_skb. apply wp_if; intros Hacc; [by apply wp_ret, HQ|].
  apply negb_false_iff in Hacc. unfold rx_h_action_accepts in Hacc. apply andb_prop in Hacc as [_ Hacc].
  destruct (rd8 body 1) as [act|] eqn:Eact; [|done]. w_bind. eapply wp_load; [done|]. unfold action_size in Hacc.
  destruct ((act =? WLAN_ACTION_ADDBA_REQ) || _).
  - apply Z.leb_le in Hacc. unfold ieee80211_process_addba_request. w_bind. apply wp_next_alloc_inv; [done|].
    clear w Hi. intros alloc w Hi. destruct (read_addba_req_total crc32_be c alloc body Hf Hacc) as (q & Eq & Ht & Hs & _).
    w_bind. eapply wp_load; [exact Eq|]. eapply (wp_inv (req_tid q)); [done..| |intros [] w' Hw'; by apply HQ].
    clear - Ht Hs usable Hrx. intros w (v & x & H & Hq & Hx) R HR. eapply wp_start_rx; [done..|by eapply quiet_stable|done|done|].
    intros x' w' H' Hx'. apply HR. eexists _, _. eauto.
  - destruct ((act =? WLAN_ACTION_ADDBA_RESP) || _).
    + apply Z.leb_le in Hacc. unfold ieee80211_process_addba_resp. w_bind. apply wp_next_alloc_inv; [done|].
      clear w Hi. intros alloc w Hi. destruct (read_addba_resp_total crc32_be c alloc body Hf Hacc Htx) as (q & Eq & Ht & Hs).
      w_bind. eapply wp_load; [exact Eq|]. eapply (wp_inv (resp_tid q)); [done..| |intros [] w' Hw'; by apply HQ].
      clear - Ht Hs usable. intros w Hw R HR. cbv zeta. eapply wp_process_resp; [done..|lia|lia|done].
    + destruct (_ || _); [|done]. apply Z.leb_le in Hacc. unfold ieee80211_process_delba.
      destruct (read_delba_total body Hacc) as (q & Eq & Ht). w_bind. eapply wp_load; [exact Eq|].
      eapply (wp_inv q.1); [done..| |intros [] w' Hw'; by apply HQ].
      clear - usable. intros w (v & x & H & Hq & Hx) R HR. apply wp_if; intros _.
      * eapply wp_stop_rx; [done..|by eapply quiet_stable|done|]. intros x' w' H' Hx'. apply HR. eexists _, _. eauto.
      * w_bind. eapply wp_stop_tx; [done..|]. intros r w' Hw'. by apply wp_ret, HR.
Qed.

(** ** Runs *)

Definition step_ok (s : step) : Prop := match s with do_frame body => frame_ok body | _ => True end.

Lemma wp_run_step s w (Q : unit -> world -> Prop) :
  inv c w -> step_ok s -> (forall w', inv c w' -> Q tt w') -> wp (run_step crc32_be c s) Q w.
Proof.
  intros Hi Hs HQ. destruct s as [l| |body|reason|b]; cbn [run_step].
  - eexists tt, _. split; [done|]. apply HQ. eapply inv_kept; [apply interrupts_kept|done].
  - w_bind. apply wp_gets, wp_if; intros _; [|by apply wp_ret, HQ].
    w_bind. eexists tt, _. split; [done|]. by apply wp_work.
  - by apply wp_frame.
  - by apply wp_tear_down.
  - eexists tt, _. split; [done|]. apply HQ. exact Hi.
Qed.

Lemma wp_run l w (Q : unit -> world -> Prop) :
  inv c w -> Forall step_ok l -> (forall w', inv c w' -> Q tt w') -> wp (run crc32_be c l) Q w.
Proof.
  intros Hi Hl HQ. revert w Hi. induction Hl as [|s l Hs _ IH]; intros w Hi; cbn [run].
  - by apply wp_ret, HQ.
  - w_bind. apply wp_run_step; [done..|]. intros w' Hw'. by apply IH.
Qed.
End proofs.
