(* ===== verification/AggProps.v ===== *)
(** * AggProps: what holds of every run

    From a station without sessions, any sequence of handlers with any
    interrupts, answers of the driver and failed allocations: the calls of the
    driver and the frames it gets fit together, and the state is consistent.
    Then the request of a peer, and runs in which the code does not do what it
    means to. *)
From stdpp Require Import gmap strings.
From S2P Require Import Prelude Frame Key Skb Amsdu Reorder ReorderSpec ReorderRefine ElemSizes Parse ParseFull Agg AggFrames AggRx.
From S2P Require Import AggTx AggWork AggLogic AggInterrupts AggWp AggHandlers AggFrameProofs AggProofs.

(** An interface the driver knows, and a device that can hold a frame. *)
Record usable (c : config) : Prop := {
  us_driver : in_driver c = true;
  us_action : has_ampdu_action c = true;
  us_rx : 1 <= max_rx_aggregation_subframes c;
  us_tx : 0 <= max_tx_aggregation_subframes c;
}.

(** A station without sessions, its sequence numbers anywhere. *)
Definition fresh (s : station) : Prop :=
  length (tids s) = 16%nat /\ Forall (fun t => exists seq, is_uint 16 seq /\ t = fresh_tid seq) (tids s).

Lemma fresh_inv c s schedule driver allocs : fresh s -> inv c (mk_world s schedule driver allocs []).
Proof.
  intros [Hl Hf]. split; [done|]. intros i t Ht. cbn [sta log] in *.
  assert (exists seq, is_uint 16 seq /\ t = fresh_tid seq) as (seq & Hs & ->).
  { unfold tid_at in Ht. destruct (i <? 0); [done|]. rewrite Forall_lookup in Hf. by eapply Hf. }
  split.
  - exists (mk_view None Idle false false 0). split; [|by repeat split; auto]. split; try done.
    eexists. by split.
  - exists RxNone. split; [|by left]. by split.
Qed.

(** C5: Whatever happens to a station - frames of the peer, requests and
    callbacks at any moment, expired timers, tear-down - and whatever the driver
    answers, the handlers never use a session that is gone, and the driver sees
    each TID's sessions in order: a transmit session is started, becomes
    operational and is stopped, in this order, and a receive session is started
    and stopped in turn.  Frames are marked for aggregation exactly while the
    session is operational, with consecutive sequence numbers from the starting
    number the driver was given; while a session is set up or torn down no
    frame of the TID is sent. *)
Theorem agg_driver_protocol crc32_be c s schedule driver allocs steps :
  usable c -> fresh s -> Forall step_ok steps ->
  exists w, run crc32_be c steps (mk_world s schedule driver allocs []) = Some (tt, w) /\
    forall tid, 0 <= tid < 16 -> is_Some (tx_phase_of tid (log w)) /\ is_Some (rx_phase_of tid (log w)).
Proof.
  intros [Hd Ha Hr Ht] Hf Hs.
  destruct (wp_run crc32_be c (conj Hd Ha) Hr Ht steps (mk_world s schedule driver allocs []) (fun _ w => inv c w))
    as ([] & w & E & Hi); [by apply fresh_inv|done|done|].
  exists w. split; [done|]. intros tid Htid. destruct Hi as [Hl Hi]. destruct (tid_at_valid w tid Hl Htid) as [t E'].
  destruct (Hi _ _ E') as ((v & [_ -> _ _ _] & _) & x & [_ -> _] & _). split; by eexists.
Qed.

(** The sessions of a TID between handlers. *)
Record session_wf (c : config) (t : tid_mlme) : Prop := {
  wf_one : tid_tx t = None \/ tid_start_tx t = None;
  wf_requests : 0 <= addba_req_num t <= HT_AGG_MAX_RETRIES + 1;
  wf_waiting a : tid_start_tx t = Some a -> exists tmo token, a = new_session tmo token;
  wf_started a : tid_tx t = Some a -> test_bit HT_AGG_STATE_WANT_START a = false;
  wf_operational a : tid_tx t = Some a -> test_bit HT_AGG_STATE_OPERATIONAL a = true ->
    test_bit HT_AGG_STATE_STOPPING a = false /\ test_bit HT_AGG_STATE_DRV_READY a = true /\
    test_bit HT_AGG_STATE_SENT_ADDBA a = true /\ test_bit HT_AGG_STATE_RESPONSE_RECEIVED a = true /\
    1 <= tx_buf_size a <= max_tx_aggregation_subframes c;
  wf_stopping a : tid_tx t = Some a -> test_bit HT_AGG_STATE_STOPPING a = true ->
    addba_resp_timer a = None /\ tx_session_timer a = None;
  wf_queue q : txq t = Some q ->
    match tid_tx t with
    | Some a => if test_bit HT_AGG_STATE_OPERATIONAL a then TXQ_STOP q = false /\ TXQ_AMPDU q = true
                else TXQ_STOP q = true
    | None => TXQ_AMPDU q = false
    end;
  wf_rx r : tid_rx t = Some r ->
    agg_session_valid t = true /\ 1 <= buf_size r <= max_buf_size c /\ length (reorder r) = Z.to_nat (buf_size r);
}.

Lemma tid_ok_wf c tid t l : tid_ok c tid t l -> session_wf c t.
Proof.
  intros ((v & [Hv _ _ Hn (q & Hq & E1 & E2)] & Hnum & Hquiet) & x & [Hva _ Hs] & Hx).
  assert (forall r, tid_rx t = Some r -> agg_session_valid t = true /\ 1 <= buf_size r <= max_buf_size c /\
    length (reorder r) = Z.to_nat (buf_size r)) as Hrx.
  { intros r Hr. destruct (Hs r Hr) as (Hp & ?). split; [|done]. rewrite Hva. by destruct Hx as [-> | ->]. }
  destruct (v_sess v) as [s|].
  - destruct Hv as (Hnone & a & Ha & []). destruct Hquiet as (Hws & Hph & _ & Hrec & _).
    split; rewrite ?Ha, ?Hq, ?Hnone; try done; try (by right); try congruence.
    all: try (intros a' [= <-]).
    + rewrite sv_oper, sv_stopping, sv_ready, sv_sent, sv_received, sv_size. intros Ho. rewrite Ho in Hph.
      destruct (s_stopping s); [by destruct Hph as (_ & _ & ? & _)|]. destruct Hph as (_ & _ & _ & -> & Hc & ->). pose proof (Hrec Hc). split_and!; first [done|lia].
    + rewrite sv_stopping. intros Hst. rewrite Hst in Hph. destruct Hph as (_ & _ & _ & ? & ?). auto.
    + rewrite sv_oper, E1, E2. destruct (s_stopping s); [by destruct Hph as (_ & -> & -> & _)|].
      destruct (s_oper s); [by destruct Hph as (_ & -> & -> & _)|by destruct Hph as [_ ->]].
  - destruct Hv as (Ha & Hwait). destruct Hquiet as [_ Ham].
    split; rewrite ?Ha, ?Hq; try done; try (by left); try congruence.
    + intros a Hst. by destruct (Hwait a Hst) as (_ & ?).
Qed.

(** C6: Between handlers every session is consistent: a TID has one session,
    waiting or live; an operational session was asked for, accepted by the peer
    with a buffer size in range and confirmed by the driver, and its queue runs
    and aggregates, while the queue of a session that is set up or torn down is
    stopped; a session that ends has no timer left; at most 16 requests are
    counted; a receive session is valid and its ring has the size agreed. *)
Theorem agg_session_invariant crc32_be c s schedule driver allocs steps w tid t :
  usable c -> fresh s -> Forall step_ok steps ->
  run crc32_be c steps (mk_world s schedule driver allocs []) = Some (tt, w) ->
  tid_at (sta w) tid = Some t -> session_wf c t.
Proof.
  intros [Hd Ha Hr Ht] Hf Hs Hrun Htid.
  destruct (wp_run crc32_be c (conj Hd Ha) Hr Ht steps (mk_world s schedule driver allocs []) (fun _ w => inv c w))
    as ([] & w' & E & Hi); [by apply fresh_inv|done|done|].
  rewrite Hrun in E. injection E as <-. destruct Hi as [_ Hi]. eapply tid_ok_wf. by apply Hi.
Qed.

(** ** The request of a peer *)

(** Nothing interrupts, the driver accepts, memory suffices. *)
Definition undisturbed (w : world) : Prop := schedule w = [] /\ driver w = [] /\ allocs w = [].

Definition add_log (l : list event) (w : world) : world := set_log (log w ++ l) w.

Lemma add_log_put tid t l w : add_log l (put_tid tid t w) = put_tid tid t (add_log l w).
Proof. done. Qed.

Section undisturbed.
Context (crc32_be : Z -> list Z -> Z) (c : config) (Hc : usable c).

Lemma drv_undisturbed tid ssn action w :
  undisturbed w -> drv_ampdu_action c tid ssn action w = Some ((0, ssn), add_log [ev_driver tid action 0] w).
Proof.
  intros (Hs & Hd & _). unfold drv_ampdu_action. rewrite (us_driver c Hc), (us_action c Hc). cbn [negb].
  unfold bind. rewrite Hd. unfold modify. cbn [fst]. unfold preempt. cbn [emit set_log schedule]. by rewrite Hs.
Qed.

Lemma send_undisturbed body w : undisturbed w -> send_action body w = Some (tt, add_log [ev_action_frame body] w).
Proof. intros (_ & _ & Ha). unfold send_action, bind, next_alloc. by rewrite Ha. Qed.

Lemma upd_tid_eq tid f t w : tid_at (sta w) tid = Some t -> upd_tid tid f w = Some (tt, put_tid tid (f t) w).
Proof. intros Ht. unfold upd_tid, bind, get_tid. by rewrite Ht. Qed.

(** The entry of the TID once the session is active. *)
Definition with_rx_session (r : tid_ampdu_rx) (token : Z) (t : tid_mlme) : tid_mlme :=
  set_tid_rx_token token (set_unexpected_agg false (set_agg_session_valid true (set_tid_rx (Some r) t))).

(** C7: The request a station writes, processed by a peer that has no session
    for the TID: the driver is told, the ring starts with the starting sequence
    number and timeout of the request and with the smaller of the sizes asked
    for and supported, the response accepts with that size and the token of the
    request; and if the size divides the sequence space, the ring is the empty
    reorder buffer at that number. *)
Theorem addba_request_starts_session he tid token start_seq_num size tmo use_ndp t w :
  undisturbed w -> tid_at (sta w) tid = Some t -> agg_session_valid t = false -> block_ba (sta w) = false ->
  valid_links c || ht_supported c || has_he c || has_s1g c = true -> (use_ndp_ba c = true -> use_ndp = true) ->
  SUPPORTS_REORDERING_BUFFER c = false ->
  is_uint 8 token -> 0 <= tid < 8 -> 0 <= start_seq_num < 4096 -> 0 <= size < 8192 -> is_uint 16 tmo ->
  size_read c he size <= max_buf_size c ->
  let n := rx_buf_size c (size_read c he size) in
  let r := start_rx_ba_session (fun t => u64 (jiffies (sta w) + TU_TO_JIFFIES c t)) (jiffies (sta w)) start_seq_num n tmo false in
  ieee80211_process_addba_request crc32_be c (addba_request he tid token start_seq_num size tmo use_ndp) w =
    Some (tt, put_tid tid (with_rx_session r token t) (add_log
      [ev_driver tid (AMPDU_RX_START start_seq_num n tmo) 0;
       ev_action_frame (addba_response (valid_links c || has_he c) (SUPPORTS_AMSDU_IN_AMPDU c) tid token
         WLAN_STATUS_SUCCESS 1 n tmo (if he && has_he c then ext_octet size else 0) (use_ndp_ba c))] w)) /\
  1 <= n <= max_buf_size c /\
  (good_size n -> session n (set_started r) (mk_rbuf start_seq_num ∅)).
Proof.
  intros Hu Ht Hv Hb Hcap Hndp Hro Htok Htid Hssn Hsize Htmo Hmax n r.
  assert (0 <= size_read c he size) as Hn0.
  { unfold size_read. destruct (_ && _); [lia|]. apply Z.land_nonneg. lia. }
  assert (1 <= n <= max_buf_size c) as Hn.
  { apply rx_buf_size_ok; [apply Hc|done|by apply Z.ltb_ge]. }
  split; [|split; [exact Hn|]].
  2: { intros Hg. apply start_session; [done|]. unfold is_uint. change (2 ^ 12) with 4096. exact Hssn. }
  pose proof Hu as (Hs & Hd & Ha). unfold ieee80211_process_addba_request. unfold bind at 1. unfold next_alloc. rewrite Ha.
  unfold bind at 1. rewrite read_request by (done || lia). cbn [load ret].
  cbn [req_token req_timeout req_start_seq_num req_policy req_tid req_buf_size req_ndp req_ext_data].
  unfold __ieee80211_start_rx_ba_session. unfold bind at 1.
  assert (rx_request_status c token tmo start_seq_num 1 tid (size_read c he size) true false use_ndp w =
    Some ((WLAN_STATUS_SUCCESS, n), put_tid tid (set_tid_rx (Some r) t)
      (add_log [ev_driver tid (AMPDU_RX_START start_seq_num n tmo) 0] w))) as ->.
  { unfold rx_request_status. unfold bind at 1. unfold get_tid. rewrite Ht. unfold bind at 1, gets. rewrite Hb, Hv.
    destruct (Z.leb_spec IEEE80211_FIRST_TSPEC_TSID tid) as [Hl|_]; [unfold IEEE80211_FIRST_TSPEC_TSID in Hl; lia|].
    replace (true && use_ndp_ba c && negb use_ndp) with false by (destruct (use_ndp_ba c); [by rewrite Hndp|done]).
    replace (negb (valid_links c) && negb (ht_supported c) && negb (has_he c) && negb (has_s1g c)) with false
      by (destruct (valid_links c), (ht_supported c), (has_he c), (has_s1g c); done).
    unfold bad_params. cbn [Z.eqb Pos.eqb negb andb orb]. replace (max_buf_size c <? size_read c he size) with false
      by (symmetry; by apply Z.ltb_ge). cbn [andb]. cbv zeta. fold n. unfold bind at 1, ret at 1. unfold bind at 1.
    unfold start_new_rx_session. rewrite Hro. unfold bind at 1, next_alloc. rewrite Ha. cbn [negb].
    unfold bind at 1. rewrite drv_undisturbed by done. cbn [fst nz Z.eqb negb]. unfold bind at 1, gets. cbn [add_log set_log sta].
    unfold bind at 1. rewrite (upd_tid_eq _ _ t) by exact Ht. done. }
  cbn [fst snd]. change (WLAN_STATUS_SUCCESS =? WLAN_STATUS_SUCCESS) with true. cbn iota.
  unfold bind at 1 2. rewrite (upd_tid_eq _ _ (set_tid_rx (Some r) t)) by (by eapply tid_at_put_eq). rewrite put_put.
  unfold bind at 1. rewrite (upd_tid_eq _ _ (set_agg_session_valid true (set_tid_rx (Some r) t))) by (by eapply tid_at_put_eq).
  rewrite put_put.
  rewrite (upd_tid_eq _ _ (set_unexpected_agg false (set_agg_session_valid true (set_tid_rx (Some r) t))))
    by (by eapply tid_at_put_eq). rewrite put_put. unfold ieee80211_send_addba_resp.
  rewrite send_undisturbed by done. rewrite add_log_put. unfold add_log at 1. cbn [add_log set_log log].
  unfold add_log, set_log. cbn. by rewrite <- app_assoc.
Qed.
End undisturbed.

(** ** Concrete runs *)

Module Runs.
(** A station with HT, VHT and HE on a device with rings of 64 frames. *)
Definition config : config :=
  mk_config 16 false true true true false false false false NL80211_IFTYPE_STATION false true true false false
    false true false true 64 64 (fun q => q) 1000 (fun tu => tu).
Definition crc (x : Z) (l : list Z) : Z := x.
Definition run_from (driver : list (Z * Z)) (steps : list step) : world :=
  match run crc config steps (fresh_world [] driver []) with Some (_, w) => w | None => fresh_world [] driver [] end.
Definition accept (tid token : Z) : step :=
  do_frame (addba_response true true tid token WLAN_STATUS_SUCCESS 1 64 0 0 false).

(** A session for TID 3 from the request to the end, with frames in between. *)
Definition steps : list step :=
  [do_irqs [irq_dequeue 3 7 []; irq_start_session 3 0 true]; do_work; do_irqs [irq_dequeue 3 8 []; irq_start_tx_ba_cb 3];
   do_work; accept 3 1; do_irqs [irq_dequeue 3 8 []; irq_dequeue 3 9 []; irq_stop_session 3]; do_work;
   do_irqs [irq_dequeue 3 10 []; irq_stop_tx_ba_cb 3]; do_work].
Definition set_up : list step := take 5 steps.
End Runs.

Lemma runs_usable : usable Runs.config.
Proof. by split. Qed.
Lemma runs_fresh : fresh fresh_station.
Proof. split; [done|]. apply Forall_replicate. by exists 0. Qed.
Lemma runs_ok : Forall step_ok Runs.steps.
Proof.
  repeat (constructor; [first [exact I | split; [by (eapply bool_decide_unpack; vm_compute)|split; [done|by vm_compute]]]|]).
  constructor.
Qed.

Lemma agg_driver_protocol_witness :
  exists w, run Runs.crc Runs.config Runs.steps (mk_world fresh_station [[irq_refresh 3]] [(0, 0)] [true] []) = Some (tt, w) /\
    forall tid, 0 <= tid < 16 -> is_Some (tx_phase_of tid (log w)) /\ is_Some (rx_phase_of tid (log w)).
Proof.
  apply (agg_driver_protocol Runs.crc Runs.config fresh_station [[irq_refresh 3]] [(0, 0)] [true] Runs.steps);
    [apply runs_usable|apply runs_fresh|apply runs_ok].
Defined.

(** After the set-up the session is operational; at the end it is gone and the
    driver has seen all of it. *)
Lemma runs_operational :
  (t ← tid_at (sta (Runs.run_from [] Runs.set_up)) 3; a ← tid_tx t; q ← txq t;
   Some (test_bit HT_AGG_STATE_OPERATIONAL a, tx_buf_size a, TXQ_STOP q, TXQ_AMPDU q)) = Some (true, 64, false, true).
Proof. by vm_compute. Qed.
Lemma runs_protocol :
  List.filter (fun e => match e with ev_driver _ _ _ | ev_tx _ _ _ _ => true | _ => false end)
    (log (Runs.run_from [] Runs.steps)) =
  [ev_tx 3 7 0 false; ev_driver 3 (AMPDU_TX_START 1) 0; ev_driver 3 (AMPDU_TX_OPERATIONAL 64 true) 0;
   ev_tx 3 8 16 true; ev_tx 3 9 32 true; ev_driver 3 AMPDU_TX_STOP_CONT 0].
Proof. by vm_compute. Qed.

Lemma agg_session_invariant_witness : exists t,
  tid_at (sta (Runs.run_from [] Runs.set_up)) 3 = Some t /\ is_Some (tid_tx t) /\ session_wf Runs.config t.
Proof.
  eexists. split; [vm_compute; reflexivity|]. split; [by eexists|].
  apply (agg_session_invariant Runs.crc Runs.config fresh_station [] [] [] Runs.set_up (Runs.run_from [] Runs.set_up) 3);
    [apply runs_usable|apply runs_fresh|exact (Forall_take _ 5 _ runs_ok)|by vm_compute|by vm_compute].
Defined.

(** Whichever of callback and response comes first, and whether the driver
    accepts at once, later, or wants the request delayed: the session becomes
    operational. *)
Definition operational_at (tid : Z) (w : world) : bool :=
  match tid_at (sta w) tid with
  | Some t => match tid_tx t, txq t with
              | Some a, Some q => test_bit HT_AGG_STATE_OPERATIONAL a && TXQ_AMPDU q && negb (TXQ_STOP q)
              | _, _ => false
              end
  | None => false
  end.
Definition set_up_orders (tid : Z) : list (list (Z * Z) * list step) :=
  let request := [do_irqs [irq_start_session tid 0 true]; do_work] in
  let callback := [do_irqs [irq_start_tx_ba_cb tid]; do_work] in
  let response := [Runs.accept tid 1] in
  [([(0, 0)], request ++ callback ++ response); ([(0, 0)], request ++ response ++ callback);
   ([(IEEE80211_AMPDU_TX_START_IMMEDIATE, 0)], request ++ response);
   ([(IEEE80211_AMPDU_TX_START_DELAY_ADDBA, 0)], request ++ callback ++ response)].
Lemma agg_set_up_completes tid : 0 <= tid < 8 ->
  Forall (fun o => operational_at tid (Runs.run_from o.1 o.2) = true) (set_up_orders tid).
Proof.
  intros Ht. assert (forallb (fun tid => forallb (fun o => operational_at tid (Runs.run_from o.1 o.2)) (set_up_orders tid))
    (seqZ 0 8) = true) as H by (by vm_compute).
  rewrite forallb_forall in H. apply Forall_forall. intros o Ho. specialize (H tid).
  rewrite forallb_forall in H. apply H; apply list_elem_of_In; [apply elem_of_seqZ; lia|done].
Qed.

Lemma addba_request_starts_session_witness :
  exists r, let w := fresh_world [] [] [] in
  ieee80211_process_addba_request Runs.crc Runs.config (addba_request true 5 9 100 64 0 false) w =
    Some (tt, put_tid 5 (with_rx_session r 9 (fresh_tid 0)) (add_log
      [ev_driver 5 (AMPDU_RX_START 100 64 0) 0;
       ev_action_frame (addba_response true true 5 9 WLAN_STATUS_SUCCESS 1 64 0 1 false)] w)) /\
  session 64 (set_started r) (mk_rbuf 100 ∅).
Proof.
  destruct (addba_request_starts_session Runs.crc Runs.config runs_usable true 5 9 100 64 0 false (fresh_tid 0)
    (fresh_world [] [] [])) as (H & _ & Hs); try done.
  eexists. split; [exact H|]. apply Hs. change (good_size 64). split; [lia|]. by exists 64.
Defined.

(** ** Queues that stay stopped *)

Definition queue_stopped (tid : Z) (w : world) : Prop :=
  exists t q, tid_at (sta w) tid = Some t /\ txq t = Some q /\ TXQ_STOP q = true.

(** A stopped queue stays stopped until a handler starts it. *)
Lemma stopped_through_interrupts c tid v w l :
  v_stop v = true -> (exists t, tid_at (sta w) tid = Some t /\ tx_view v t (tx_phase_of tid (log w))) ->
  queue_stopped tid (fold_left (fun w i => run_interrupt c i w) l w).
Proof.
  intros Hs (t & Ht & Hv). destruct (interrupts_kept c l w) as [_ K]. destruct (K _ _ Ht) as (t' & Ht' & Ktx & _).
  assert (stable v = true) as Hst by (unfold stable; by rewrite Hs).
  destruct (Ktx v Hst Hv) as [_ _ _ _ (q & Hq & Hqs & _)]. exists t', q. by rewrite <- Hs.
Qed.

(** The first fragment of a frame is sent, a session is requested, the work
    finds the second fragment waiting and stops the queue; then the peer sends a
    DELBA, and the last fragment goes out. *)
Definition cancelled_steps (tid : Z) : list step :=
  [do_irqs [irq_dequeue tid 7 [71]; irq_start_session tid 0 true]; do_work;
   do_frame (delba tid WLAN_BACK_RECIPIENT WLAN_REASON_QSTA_TIMEOUT false); do_irqs [irq_dequeue tid 0 []]; do_work].

(** A DELBA of the peer for a TID whose session waits for the last fragment
    of a frame frees the waiting session but leaves its queue stopped: the
    station has no session, no fragment and no work left for the TID, and no
    callback, timer or transmission starts the queue again; only the end of a
    later session would. *)
Theorem agg_cancelled_start_stops_queue tid : 0 <= tid < 8 ->
  exists w t, run Runs.crc Runs.config (cancelled_steps tid) (fresh_world [] [] []) = Some (tt, w) /\
    tid_at (sta w) tid = Some t /\ tid_tx t = None /\ tid_start_tx t = None /\ work_queued (sta w) = false /\
    (exists q, txq t = Some q /\ frags q = []) /\
    forall irqs, queue_stopped tid (fold_left (fun w i => run_interrupt Runs.config i w) irqs w).
Proof.
  intros Ht. assert (tid ∈ seqZ 0 8) as Hin by (apply elem_of_seqZ; lia). clear Ht.
  assert (Forall (fun tid => exists w t, run Runs.crc Runs.config (cancelled_steps tid) (fresh_world [] [] []) = Some (tt, w) /\
    tid_at (sta w) tid = Some t /\ tid_tx t = None /\ tid_start_tx t = None /\ work_queued (sta w) = false /\
    (exists q, txq t = Some q /\ frags q = []) /\
    tx_view (mk_view None Idle true false 0) t (tx_phase_of tid (log w))) (seqZ 0 8)) as H.
  { repeat (constructor; [eexists _, _; split; [vm_compute; reflexivity|]; split; [vm_compute; reflexivity|];
      do 3 (split; [reflexivity|]); split; [by eexists|];
      split; [split; [done|by intros b [=]]|by vm_compute|done|done|by eexists]|]). constructor. }
  rewrite Forall_forall in H. destruct (H _ Hin) as (w & t & Hr & Hat & H1 & H2 & H3 & H4 & Hv).
  exists w, t. split_and!; try done. intros irqs. eapply (stopped_through_interrupts _ _ _ w irqs); [|by eexists]. done.
Qed.

Lemma agg_cancelled_start_stops_queue_witness :
  exists w t, run Runs.crc Runs.config (cancelled_steps 3) (fresh_world [] [] []) = Some (tt, w) /\
    tid_at (sta w) 3 = Some t /\ tid_tx t = None /\ tid_start_tx t = None /\ work_queued (sta w) = false /\
    (exists q, txq t = Some q /\ frags q = []) /\
    forall irqs, queue_stopped 3 (fold_left (fun w i => run_interrupt Runs.config i w) irqs w).
Proof. apply (agg_cancelled_start_stops_queue 3). lia. Defined.

(** A driver that delays the request; the response comes before the driver's
    callback, so before the request is sent. *)
Definition early_steps : list step :=
  [do_irqs [irq_start_session 3 0 true]; do_work; Runs.accept 3 1; do_irqs [irq_start_tx_ba_cb 3]; do_work;
   Runs.accept 3 1; do_irqs [irq_tick 5000; irq_addba_resp_timer 3; irq_tx_session_timer 3]; do_work].

(** The session never becomes operational: the callback only sends the request,
    later responses are duplicates, no timer is armed, and the queue is
    stopped. *)
Lemma early_response_stuck :
  let w := Runs.run_from [(IEEE80211_AMPDU_TX_START_DELAY_ADDBA, 0)] early_steps in
  match tid_at (sta w) 3 with
  | Some t => match tid_tx t, txq t with
              | Some a, Some q =>
                  test_bit HT_AGG_STATE_DRV_READY a && test_bit HT_AGG_STATE_RESPONSE_RECEIVED a &&
                  test_bit HT_AGG_STATE_SENT_ADDBA a && negb (test_bit HT_AGG_STATE_OPERATIONAL a) &&
                  negb (test_bit HT_AGG_STATE_WANT_STOP a) && TXQ_STOP q && negb (work_queued (sta w)) &&
                  bool_decide (addba_resp_timer a = None /\ tx_session_timer a = None)
              | _, _ => false
              end
  | None => false
  end = true.
Proof. by vm_compute. Qed.

(** A stop that is requested while the driver is asked to start: the request is
    not sent, with a warning. *)
Lemma stop_during_start_warns :
  match run Runs.crc Runs.config [do_irqs [irq_start_session 3 0 true]; do_work]
          (fresh_world (replicate 6 [] ++ [[irq_stop_session 3]]) [] []) with
  | Some (_, w) => log w = [ev_driver 3 (AMPDU_TX_START 0) 0; ev_warn] /\ work_queued (sta w) = true
  | None => False
  end.
Proof. by vm_compute. Qed.
