(* ===== verification/StateMonad.v ===== *)
(** * StateMonad: state passing with faults

    [M S A] is a computation over a state [S] that returns an [A] or faults
    ([None]: a dereference of NULL, a division by zero, a loop that does not
    end).  [wp] is its weakest precondition: the computation does not fault and
    its result and final state are as asked. *)
From S2P Require Import Prelude.

Definition M (S A : Type) : Type := S -> option (A * S).

Section monad.
Context {S : Type}.

Definition ret {A} (x : A) : M S A := fun s => Some (x, s).
Definition bind {A B} (m : M S A) (k : A -> M S B) : M S B :=
  fun s => match m s with Some (x, s) => k x s | None => None end.
Definition fault {A} : M S A := fun _ => None.
Definition modify (f : S -> S) : M S unit := fun s => Some (tt, f s).
Definition gets {A} (f : S -> A) : M S A := fun s => Some (f s, s).
Definition from_option {A} (o : option A) : M S A :=
  fun s => match o with Some x => Some (x, s) | None => None end.
(** Run a list of computations in order. *)
Fixpoint iter {A} (f : A -> M S unit) (l : list A) : M S unit :=
  match l with
  | [] => ret tt
  | x :: l => bind (f x) (fun _ => iter f l)
  end.
Definition when (b : bool) (m : M S unit) : M S unit := if b then m else ret tt.

Definition wp {A} (m : M S A) (Q : A -> S -> Prop) (s : S) : Prop :=
  match m s with Some (x, s') => Q x s' | None => False end.
End monad.

Declare Scope state_scope.
Delimit Scope state_scope with st.
Notation "x <- m ;; k" := (bind m (fun x => k)) (at level 100, m at next level, right associativity) : state_scope.
Notation "m ;;; k" := (bind m (fun _ => k)) (at level 100, right associativity) : state_scope.

(** ** Rules *)

Section rules.
Context {S : Type}.
Implicit Types (s : S).

Lemma swp_ret {A} (x : A) (Q : A -> S -> Prop) s : wp (ret x) Q s <-> Q x s.
Proof. done. Qed.

Lemma swp_bind {A B} (m : M S A) (k : A -> M S B) Q s :
  wp (bind m k) Q s <-> wp m (fun x => wp (k x) Q) s.
Proof. unfold wp, bind. by destruct (m s) as [[x s']|]. Qed.

Lemma swp_mono {A} (m : M S A) (Q Q' : A -> S -> Prop) s :
  wp m Q s -> (forall x s', Q x s' -> Q' x s') -> wp m Q' s.
Proof. unfold wp. destruct (m s) as [[x s']|]; auto. Qed.

Lemma swp_modify (f : S -> S) (Q : unit -> S -> Prop) s : wp (modify f) Q s <-> Q tt (f s).
Proof. done. Qed.

Lemma swp_gets {A} (f : S -> A) (Q : A -> S -> Prop) s : wp (gets f) Q s <-> Q (f s) s.
Proof. done. Qed.

Lemma swp_if {A} (b : bool) (m m' : M S A) Q s :
  (b = true -> wp m Q s) -> (b = false -> wp m' Q s) -> wp (if b then m else m') Q s.
Proof. destruct b; auto. Qed.

Lemma swp_when (b : bool) (m : M S unit) Q s :
  (b = true -> wp m Q s) -> (b = false -> Q tt s) -> wp (when b m) Q s.
Proof. destruct b; [auto|]. intros _ H. by apply H. Qed.

Lemma swp_run {A} (m : M S A) Q s x s' : wp m Q s -> m s = Some (x, s') -> Q x s'.
Proof. unfold wp. intros H E. by rewrite E in H. Qed.

(** An invariant of each computation of a list is one of the list. *)
Lemma swp_iter {A} (f : A -> M S unit) (I : S -> Prop) l s :
  (forall x s, I s -> wp (f x) (fun _ => I) s) -> I s -> wp (iter f l) (fun _ => I) s.
Proof.
  intros Hf. revert s. induction l as [|x l IH]; intros s Hs; simpl; [done|].
  apply swp_bind. eapply swp_mono; [by apply Hf|]. intros [] s'. apply IH.
Qed.
End rules.
