(* ===== verification/Mesh.v ===== *)
(** * Mesh: the state of a mesh interface and its peers

    What [net/mac80211/mesh_plink.c] keeps for each peer ([struct mesh_sta] of
    [sta_info.h]) and for the interface ([struct ieee80211_if_mesh]), the link
    counters of [mesh.h], the power-save bookkeeping of [mesh_ps.c] that a change
    of peering state triggers, and what can happen between two accesses of a
    handler: timers, the rest of timer handlers, frames that carry a power mode.

    [jiffies] is taken not to wrap.  The stations of the interface are a finite
    map; where the code walks [sta_list], no result depends on its order. *)
From stdpp Require Import gmap.
From S2P Require Import Prelude Frame Chandef StateMonad.

#[global] Open Scope state_scope.

(** ** Data *)

Inductive nl80211_plink_state :=
  | NL80211_PLINK_LISTEN | NL80211_PLINK_OPN_SNT | NL80211_PLINK_OPN_RCVD
  | NL80211_PLINK_CNF_RCVD | NL80211_PLINK_ESTAB | NL80211_PLINK_HOLDING
  | NL80211_PLINK_BLOCKED.

#[global] Instance nl80211_plink_state_eq_dec : EqDecision nl80211_plink_state.
Proof. solve_decision. Defined.

Inductive nl80211_mesh_power_mode :=
  | NL80211_MESH_POWER_UNKNOWN | NL80211_MESH_POWER_ACTIVE
  | NL80211_MESH_POWER_LIGHT_SLEEP | NL80211_MESH_POWER_DEEP_SLEEP.

#[global] Instance nl80211_mesh_power_mode_eq_dec : EqDecision nl80211_mesh_power_mode.
Proof. solve_decision. Defined.

(** The action codes of peering frames. *)
Inductive plink_action :=
  | WLAN_SP_MESH_PEERING_OPEN | WLAN_SP_MESH_PEERING_CONFIRM | WLAN_SP_MESH_PEERING_CLOSE.

#[global] Instance plink_action_eq_dec : EqDecision plink_action.
Proof. solve_decision. Defined.

Definition IEEE80211_STA_NONE : Z := 1.
Definition IEEE80211_STA_AUTH : Z := 2.
Definition IEEE80211_STA_ASSOC : Z := 3.
Definition IEEE80211_STA_AUTHORIZED : Z := 4.

Definition BSS_CHANGED_ERP_SLOT : Z := 1 << 3.
Definition BSS_CHANGED_HT : Z := 1 << 4.
Definition BSS_CHANGED_BEACON : Z := 1 << 8.

Definition IEEE80211_HT_OP_MODE_PROTECTION_NONE : Z := 0.
Definition IEEE80211_HT_OP_MODE_PROTECTION_20MHZ : Z := 2.
Definition IEEE80211_HT_OP_MODE_PROTECTION_NONHT_MIXED : Z := 3.
Definition IEEE80211_STA_RX_BW_20 : Z := 0.
Definition IEEE80211_RATE_ERP_G : Z := BIT 4.

Definition WLAN_REASON_MESH_PEER_CANCELED : Z := 52.
Definition WLAN_REASON_MESH_CONFIG : Z := 54.
Definition WLAN_REASON_MESH_CLOSE : Z := 55.
Definition WLAN_REASON_MESH_MAX_RETRIES : Z := 56.
Definition WLAN_REASON_MESH_CONFIRM_TIMEOUT : Z := 57.

Definition MESH_MAX_PLINKS : Z := 256.
Definition IEEE80211_MAX_AID : Z := 2007.
Definition IEEE80211_MESH_SEC_NONE : Z := 0.
Definition IEEE80211_MESH_SEC_AUTHED : Z := 1.
Definition ENOBUFS : Z := 105.

(** ** State *)

Record mesh_sta := mk_mesh_sta {
  plink_state : nl80211_plink_state;
  llid : Z;   (* local link ID *)
  plid : Z;   (* peer link ID *)
  mesh_aid : Z;   (* [aid], the AID the peer gave us *)
  reason : Z;
  plink_retries : Z;
  plink_timeout : Z;   (* ms *)
  timer_pending : bool;   (* [plink_timer] waits for [timer_expires] *)
  timer_fired : bool;   (* it has expired, its handler has not run *)
  timer_expires : Z;
  processed_beacon : bool;
  connected_to_gate : bool;
  local_pm : nl80211_mesh_power_mode;
  peer_pm : nl80211_mesh_power_mode;
  nonpeer_pm : nl80211_mesh_power_mode;
}.

Record sta_info := mk_sta {
  mesh : mesh_sta;
  sta_state : Z;
  sta_aid : Z;
  ps_sta : bool;   (* [WLAN_STA_PS_STA] *)
  mpsp_owner : bool;
  mpsp_recipient : bool;
  supp_rates : Z;
  bandwidth : Z;
  ht_supported : bool;
  last_rx : Z;
  avg_signal : Z;   (* [ewma_signal_read] *)
  listed : bool;   (* on [sta_list] and in the hash table *)
}.

Record mesh_config := mk_config {
  dot11MeshRetryTimeout : Z;
  dot11MeshConfirmTimeout : Z;
  dot11MeshHoldingTimeout : Z;
  dot11MeshMaxPeerLinks : Z;
  dot11MeshMaxRetries : Z;
  auto_open_plinks : bool;
  rssi_threshold : Z;
  power_mode : nl80211_mesh_power_mode;
  conf_ht_opmode : Z;   (* [ht_opmode] *)
  conf_plink_timeout : Z;   (* [plink_timeout] *)
}.

(** A band as far as the slot time depends on it: the flags of its rates. *)
Record supported_band := mk_band { sb_band : nl80211_band; bitrates : list Z }.

(** What does not change while the interface is up. *)
Record params := mk_params {
  user_mpm : bool;
  security : Z;
  mesh_id : list Z;
  mesh_pp_id : Z; mesh_pm_id : Z; mesh_cc_id : Z; mesh_sp_id : Z; mesh_auth_id : Z;
  sband : option supported_band;         (* [ieee80211_get_sband] *)
  basic_rates : Z;
  oper : cfg80211_chan_def;              (* [bss_conf.chanreq.oper] *)
  msecs_to_jiffies : Z -> Z;
  HZ : Z;
}.

(** A peering frame: its action code, the AID of a CONFIRM and the body of the
    Mesh Peering Management element. *)
Record plink_frame := mk_frame { f_action : plink_action; f_aid : option Z; f_ie : list Z }.

Inductive event :=
  | ev_frame (da : list Z) (f : plink_frame)       (* handed to the transmit path *)
  | ev_llid (a : list Z) (id : Z)                  (* chosen for the peer *)
  | ev_candidate (a : list Z)                      (* [cfg80211_notify_new_peer_candidate] *)
  | ev_flush (a : list Z)                          (* [mesh_path_flush_by_nexthop] *)
  | ev_qos_null (a : list Z)                       (* [mps_qos_null_tx] *)
  | ev_wakeup (a : list Z)                         (* buffered frames are released *)
  | ev_notify (changed : Z).                       (* [ieee80211_mbss_info_change_notify] *)

Inductive interrupt :=
  | irq_tick (n : Z)                               (* [jiffies] advances *)
  | irq_expire (a : list Z)                        (* the peering timer of a peer expires *)
  | irq_timer (a : list Z)                         (* its handler runs *)
  | irq_late                                       (* a timer handler sends its frame *)
  | irq_mps_rx (a : list Z) (peer : bool) (pm : nl80211_mesh_power_mode).
      (* a frame of the peer carries its power mode towards us, or towards non-peers *)

Record mesh_if := mk_if {
  stas : gmap (list Z) sta_info;   (* the stations of the interface *)
  num_sta : Z;   (* of all interfaces of the device *)
  mshcfg : mesh_config;
  estab_plinks : Z;
  accepting_plinks : bool;
  if_nonpeer_pm : nl80211_mesh_power_mode;   (* [nonpeer_pm] *)
  ps_peers_light_sleep : Z;
  ps_peers_deep_sleep : Z;
  num_sta_ps : Z;
  use_short_slot : bool;
  ht_operation_mode : Z;
  jiffies : Z;
  quiescing : bool;
  late : list (list Z * plink_action * Z);   (* frames timer handlers are about to send *)
  rand16 : list Z;   (* numbers [get_random_bytes] will give *)
  rand32 : list Z;   (* numbers [get_random_u32] will give *)
  allocs : list bool;   (* outcomes of allocations; they succeed after that *)
  schedule : list (list interrupt);   (* interrupts at the coming points *)
  log : list event;   (* newest first *)
}.

Definition set_plink_state (x : nl80211_plink_state) (m : mesh_sta) : mesh_sta :=
  mk_mesh_sta x (llid m) (plid m) (mesh_aid m) (reason m) (plink_retries m) (plink_timeout m) (timer_pending m) (timer_fired m) (timer_expires m) (processed_beacon m) (connected_to_gate m) (local_pm m) (peer_pm m) (nonpeer_pm m).
Definition set_llid (x : Z) (m : mesh_sta) : mesh_sta :=
  mk_mesh_sta (plink_state m) x (plid m) (mesh_aid m) (reason m) (plink_retries m) (plink_timeout m) (timer_pending m) (timer_fired m) (timer_expires m) (processed_beacon m) (connected_to_gate m) (local_pm m) (peer_pm m) (nonpeer_pm m).
Definition set_plid (x : Z) (m : mesh_sta) : mesh_sta :=
  mk_mesh_sta (plink_state m) (llid m) x (mesh_aid m) (reason m) (plink_retries m) (plink_timeout m) (timer_pending m) (timer_fired m) (timer_expires m) (processed_beacon m) (connected_to_gate m) (local_pm m) (peer_pm m) (nonpeer_pm m).
Definition set_mesh_aid (x : Z) (m : mesh_sta) : mesh_sta :=
  mk_mesh_sta (plink_state m) (llid m) (plid m) x (reason m) (plink_retries m) (plink_timeout m) (timer_pending m) (timer_fired m) (timer_expires m) (processed_beacon m) (connected_to_gate m) (local_pm m) (peer_pm m) (nonpeer_pm m).
Definition set_reason (x : Z) (m : mesh_sta) : mesh_sta :=
  mk_mesh_sta (plink_state m) (llid m) (plid m) (mesh_aid m) x (plink_retries m) (plink_timeout m) (timer_pending m) (timer_fired m) (timer_expires m) (processed_beacon m) (connected_to_gate m) (local_pm m) (peer_pm m) (nonpeer_pm m).
Definition set_plink_retries (x : Z) (m : mesh_sta) : mesh_sta :=
  mk_mesh_sta (plink_state m) (llid m) (plid m) (mesh_aid m) (reason m) x (plink_timeout m) (timer_pending m) (timer_fired m) (timer_expires m) (processed_beacon m) (connected_to_gate m) (local_pm m) (peer_pm m) (nonpeer_pm m).
Definition set_plink_timeout (x : Z) (m : mesh_sta) : mesh_sta :=
  mk_mesh_sta (plink_state m) (llid m) (plid m) (mesh_aid m) (reason m) (plink_retries m) x (timer_pending m) (timer_fired m) (timer_expires m) (processed_beacon m) (connected_to_gate m) (local_pm m) (peer_pm m) (nonpeer_pm m).
Definition set_timer_pending (x : bool) (m : mesh_sta) : mesh_sta :=
  mk_mesh_sta (plink_state m) (llid m) (plid m) (mesh_aid m) (reason m) (plink_retries m) (plink_timeout m) x (timer_fired m) (timer_expires m) (processed_beacon m) (connected_to_gate m) (local_pm m) (peer_pm m) (nonpeer_pm m).
Definition set_timer_fired (x : bool) (m : mesh_sta) : mesh_sta :=
  mk_mesh_sta (plink_state m) (llid m) (plid m) (mesh_aid m) (reason m) (plink_retries m) (plink_timeout m) (timer_pending m) x (timer_expires m) (processed_beacon m) (connected_to_gate m) (local_pm m) (peer_pm m) (nonpeer_pm m).
Definition set_timer_expires (x : Z) (m : mesh_sta) : mesh_sta :=
  mk_mesh_sta (plink_state m) (llid m) (plid m) (mesh_aid m) (reason m) (plink_retries m) (plink_timeout m) (timer_pending m) (timer_fired m) x (processed_beacon m) (connected_to_gate m) (local_pm m) (peer_pm m) (nonpeer_pm m).
Definition set_processed_beacon (x : bool) (m : mesh_sta) : mesh_sta :=
  mk_mesh_sta (plink_state m) (llid m) (plid m) (mesh_aid m) (reason m) (plink_retries m) (plink_timeout m) (timer_pending m) (timer_fired m) (timer_expires m) x (connected_to_gate m) (local_pm m) (peer_pm m) (nonpeer_pm m).
Definition set_connected_to_gate (x : bool) (m : mesh_sta) : mesh_sta :=
  mk_mesh_sta (plink_state m) (llid m) (plid m) (mesh_aid m) (reason m) (plink_retries m) (plink_timeout m) (timer_pending m) (timer_fired m) (timer_expires m) (processed_beacon m) x (local_pm m) (peer_pm m) (nonpeer_pm m).
Definition set_local_pm (x : nl80211_mesh_power_mode) (m : mesh_sta) : mesh_sta :=
  mk_mesh_sta (plink_state m) (llid m) (plid m) (mesh_aid m) (reason m) (plink_retries m) (plink_timeout m) (timer_pending m) (timer_fired m) (timer_expires m) (processed_beacon m) (connected_to_gate m) x (peer_pm m) (nonpeer_pm m).
Definition set_peer_pm (x : nl80211_mesh_power_mode) (m : mesh_sta) : mesh_sta :=
  mk_mesh_sta (plink_state m) (llid m) (plid m) (mesh_aid m) (reason m) (plink_retries m) (plink_timeout m) (timer_pending m) (timer_fired m) (timer_expires m) (processed_beacon m) (connected_to_gate m) (local_pm m) x (nonpeer_pm m).
Definition set_nonpeer_pm (x : nl80211_mesh_power_mode) (m : mesh_sta) : mesh_sta :=
  mk_mesh_sta (plink_state m) (llid m) (plid m) (mesh_aid m) (reason m) (plink_retries m) (plink_timeout m) (timer_pending m) (timer_fired m) (timer_expires m) (processed_beacon m) (connected_to_gate m) (local_pm m) (peer_pm m) x.

Definition set_mesh (x : mesh_sta) (s : sta_info) : sta_info :=
  mk_sta x (sta_state s) (sta_aid s) (ps_sta s) (mpsp_owner s) (mpsp_recipient s) (supp_rates s) (bandwidth s) (ht_supported s) (last_rx s) (avg_signal s) (listed s).
Definition set_sta_state (x : Z) (s : sta_info) : sta_info :=
  mk_sta (mesh s) x (sta_aid s) (ps_sta s) (mpsp_owner s) (mpsp_recipient s) (supp_rates s) (bandwidth s) (ht_supported s) (last_rx s) (avg_signal s) (listed s).
Definition set_sta_aid (x : Z) (s : sta_info) : sta_info :=
  mk_sta (mesh s) (sta_state s) x (ps_sta s) (mpsp_owner s) (mpsp_recipient s) (supp_rates s) (bandwidth s) (ht_supported s) (last_rx s) (avg_signal s) (listed s).
Definition set_ps_sta (x : bool) (s : sta_info) : sta_info :=
  mk_sta (mesh s) (sta_state s) (sta_aid s) x (mpsp_owner s) (mpsp_recipient s) (supp_rates s) (bandwidth s) (ht_supported s) (last_rx s) (avg_signal s) (listed s).
Definition set_mpsp_owner (x : bool) (s : sta_info) : sta_info :=
  mk_sta (mesh s) (sta_state s) (sta_aid s) (ps_sta s) x (mpsp_recipient s) (supp_rates s) (bandwidth s) (ht_supported s) (last_rx s) (avg_signal s) (listed s).
Definition set_mpsp_recipient (x : bool) (s : sta_info) : sta_info :=
  mk_sta (mesh s) (sta_state s) (sta_aid s) (ps_sta s) (mpsp_owner s) x (supp_rates s) (bandwidth s) (ht_supported s) (last_rx s) (avg_signal s) (listed s).
Definition set_supp_rates (x : Z) (s : sta_info) : sta_info :=
  mk_sta (mesh s) (sta_state s) (sta_aid s) (ps_sta s) (mpsp_owner s) (mpsp_recipient s) x (bandwidth s) (ht_supported s) (last_rx s) (avg_signal s) (listed s).
Definition set_bandwidth (x : Z) (s : sta_info) : sta_info :=
  mk_sta (mesh s) (sta_state s) (sta_aid s) (ps_sta s) (mpsp_owner s) (mpsp_recipient s) (supp_rates s) x (ht_supported s) (last_rx s) (avg_signal s) (listed s).
Definition set_ht_supported (x : bool) (s : sta_info) : sta_info :=
  mk_sta (mesh s) (sta_state s) (sta_aid s) (ps_sta s) (mpsp_owner s) (mpsp_recipient s) (supp_rates s) (bandwidth s) x (last_rx s) (avg_signal s) (listed s).
Definition set_last_rx (x : Z) (s : sta_info) : sta_info :=
  mk_sta (mesh s) (sta_state s) (sta_aid s) (ps_sta s) (mpsp_owner s) (mpsp_recipient s) (supp_rates s) (bandwidth s) (ht_supported s) x (avg_signal s) (listed s).
Definition set_avg_signal (x : Z) (s : sta_info) : sta_info :=
  mk_sta (mesh s) (sta_state s) (sta_aid s) (ps_sta s) (mpsp_owner s) (mpsp_recipient s) (supp_rates s) (bandwidth s) (ht_supported s) (last_rx s) x (listed s).
Definition set_listed (x : bool) (s : sta_info) : sta_info :=
  mk_sta (mesh s) (sta_state s) (sta_aid s) (ps_sta s) (mpsp_owner s) (mpsp_recipient s) (supp_rates s) (bandwidth s) (ht_supported s) (last_rx s) (avg_signal s) x.

Definition set_conf_ht_opmode (x : Z) (k : mesh_config) : mesh_config :=
  mk_config (dot11MeshRetryTimeout k) (dot11MeshConfirmTimeout k) (dot11MeshHoldingTimeout k) (dot11MeshMaxPeerLinks k) (dot11MeshMaxRetries k) (auto_open_plinks k) (rssi_threshold k) (power_mode k) x (conf_plink_timeout k).

Definition set_stas (x : gmap (list Z) sta_info) (w : mesh_if) : mesh_if :=
  mk_if x (num_sta w) (mshcfg w) (estab_plinks w) (accepting_plinks w) (if_nonpeer_pm w) (ps_peers_light_sleep w) (ps_peers_deep_sleep w) (num_sta_ps w) (use_short_slot w) (ht_operation_mode w) (jiffies w) (quiescing w) (late w) (rand16 w) (rand32 w) (allocs w) (schedule w) (log w).
Definition set_num_sta (x : Z) (w : mesh_if) : mesh_if :=
  mk_if (stas w) x (mshcfg w) (estab_plinks w) (accepting_plinks w) (if_nonpeer_pm w) (ps_peers_light_sleep w) (ps_peers_deep_sleep w) (num_sta_ps w) (use_short_slot w) (ht_operation_mode w) (jiffies w) (quiescing w) (late w) (rand16 w) (rand32 w) (allocs w) (schedule w) (log w).
Definition set_mshcfg (x : mesh_config) (w : mesh_if) : mesh_if :=
  mk_if (stas w) (num_sta w) x (estab_plinks w) (accepting_plinks w) (if_nonpeer_pm w) (ps_peers_light_sleep w) (ps_peers_deep_sleep w) (num_sta_ps w) (use_short_slot w) (ht_operation_mode w) (jiffies w) (quiescing w) (late w) (rand16 w) (rand32 w) (allocs w) (schedule w) (log w).
Definition set_estab_plinks (x : Z) (w : mesh_if) : mesh_if :=
  mk_if (stas w) (num_sta w) (mshcfg w) x (accepting_plinks w) (if_nonpeer_pm w) (ps_peers_light_sleep w) (ps_peers_deep_sleep w) (num_sta_ps w) (use_short_slot w) (ht_operation_mode w) (jiffies w) (quiescing w) (late w) (rand16 w) (rand32 w) (allocs w) (schedule w) (log w).
Definition set_accepting_plinks (x : bool) (w : mesh_if) : mesh_if :=
  mk_if (stas w) (num_sta w) (mshcfg w) (estab_plinks w) x (if_nonpeer_pm w) (ps_peers_light_sleep w) (ps_peers_deep_sleep w) (num_sta_ps w) (use_short_slot w) (ht_operation_mode w) (jiffies w) (quiescing w) (late w) (rand16 w) (rand32 w) (allocs w) (schedule w) (log w).
Definition set_if_nonpeer_pm (x : nl80211_mesh_power_mode) (w : mesh_if) : mesh_if :=
  mk_if (stas w) (num_sta w) (mshcfg w) (estab_plinks w) (accepting_plinks w) x (ps_peers_light_sleep w) (ps_peers_deep_sleep w) (num_sta_ps w) (use_short_slot w) (ht_operation_mode w) (jiffies w) (quiescing w) (late w) (rand16 w) (rand32 w) (allocs w) (schedule w) (log w).
Definition set_ps_peers_light_sleep (x : Z) (w : mesh_if) : mesh_if :=
  mk_if (stas w) (num_sta w) (mshcfg w) (estab_plinks w) (accepting_plinks w) (if_nonpeer_pm w) x (ps_peers_deep_sleep w) (num_sta_ps w) (use_short_slot w) (ht_operation_mode w) (jiffies w) (quiescing w) (late w) (rand16 w) (rand32 w) (allocs w) (schedule w) (log w).
Definition set_ps_peers_deep_sleep (x : Z) (w : mesh_if) : mesh_if :=
  mk_if (stas w) (num_sta w) (mshcfg w) (estab_plinks w) (accepting_plinks w) (if_nonpeer_pm w) (ps_peers_light_sleep w) x (num_sta_ps w) (use_short_slot w) (ht_operation_mode w) (jiffies w) (quiescing w) (late w) (rand16 w) (rand32 w) (allocs w) (schedule w) (log w).
Definition set_num_sta_ps (x : Z) (w : mesh_if) : mesh_if :=
  mk_if (stas w) (num_sta w) (mshcfg w) (estab_plinks w) (accepting_plinks w) (if_nonpeer_pm w) (ps_peers_light_sleep w) (ps_peers_deep_sleep w) x (use_short_slot w) (ht_operation_mode w) (jiffies w) (quiescing w) (late w) (rand16 w) (rand32 w) (allocs w) (schedule w) (log w).
Definition set_use_short_slot (x : bool) (w : mesh_if) : mesh_if :=
  mk_if (stas w) (num_sta w) (mshcfg w) (estab_plinks w) (accepting_plinks w) (if_nonpeer_pm w) (ps_peers_light_sleep w) (ps_peers_deep_sleep w) (num_sta_ps w) x (ht_operation_mode w) (jiffies w) (quiescing w) (late w) (rand16 w) (rand32 w) (allocs w) (schedule w) (log w).
Definition set_ht_operation_mode (x : Z) (w : mesh_if) : mesh_if :=
  mk_if (stas w) (num_sta w) (mshcfg w) (estab_plinks w) (accepting_plinks w) (if_nonpeer_pm w) (ps_peers_light_sleep w) (ps_peers_deep_sleep w) (num_sta_ps w) (use_short_slot w) x (jiffies w) (quiescing w) (late w) (rand16 w) (rand32 w) (allocs w) (schedule w) (log w).
Definition set_jiffies (x : Z) (w : mesh_if) : mesh_if :=
  mk_if (stas w) (num_sta w) (mshcfg w) (estab_plinks w) (accepting_plinks w) (if_nonpeer_pm w) (ps_peers_light_sleep w) (ps_peers_deep_sleep w) (num_sta_ps w) (use_short_slot w) (ht_operation_mode w) x (quiescing w) (late w) (rand16 w) (rand32 w) (allocs w) (schedule w) (log w).
Definition set_quiescing (x : bool) (w : mesh_if) : mesh_if :=
  mk_if (stas w) (num_sta w) (mshcfg w) (estab_plinks w) (accepting_plinks w) (if_nonpeer_pm w) (ps_peers_light_sleep w) (ps_peers_deep_sleep w) (num_sta_ps w) (use_short_slot w) (ht_operation_mode w) (jiffies w) x (late w) (rand16 w) (rand32 w) (allocs w) (schedule w) (log w).
Definition set_late (x : list (list Z * plink_action * Z)) (w : mesh_if) : mesh_if :=
  mk_if (stas w) (num_sta w) (mshcfg w) (estab_plinks w) (accepting_plinks w) (if_nonpeer_pm w) (ps_peers_light_sleep w) (ps_peers_deep_sleep w) (num_sta_ps w) (use_short_slot w) (ht_operation_mode w) (jiffies w) (quiescing w) x (rand16 w) (rand32 w) (allocs w) (schedule w) (log w).
Definition set_rand16 (x : list Z) (w : mesh_if) : mesh_if :=
  mk_if (stas w) (num_sta w) (mshcfg w) (estab_plinks w) (accepting_plinks w) (if_nonpeer_pm w) (ps_peers_light_sleep w) (ps_peers_deep_sleep w) (num_sta_ps w) (use_short_slot w) (ht_operation_mode w) (jiffies w) (quiescing w) (late w) x (rand32 w) (allocs w) (schedule w) (log w).
Definition set_rand32 (x : list Z) (w : mesh_if) : mesh_if :=
  mk_if (stas w) (num_sta w) (mshcfg w) (estab_plinks w) (accepting_plinks w) (if_nonpeer_pm w) (ps_peers_light_sleep w) (ps_peers_deep_sleep w) (num_sta_ps w) (use_short_slot w) (ht_operation_mode w) (jiffies w) (quiescing w) (late w) (rand16 w) x (allocs w) (schedule w) (log w).
Definition set_allocs (x : list bool) (w : mesh_if) : mesh_if :=
  mk_if (stas w) (num_sta w) (mshcfg w) (estab_plinks w) (accepting_plinks w) (if_nonpeer_pm w) (ps_peers_light_sleep w) (ps_peers_deep_sleep w) (num_sta_ps w) (use_short_slot w) (ht_operation_mode w) (jiffies w) (quiescing w) (late w) (rand16 w) (rand32 w) x (schedule w) (log w).
Definition set_schedule (x : list (list interrupt)) (w : mesh_if) : mesh_if :=
  mk_if (stas w) (num_sta w) (mshcfg w) (estab_plinks w) (accepting_plinks w) (if_nonpeer_pm w) (ps_peers_light_sleep w) (ps_peers_deep_sleep w) (num_sta_ps w) (use_short_slot w) (ht_operation_mode w) (jiffies w) (quiescing w) (late w) (rand16 w) (rand32 w) (allocs w) x (log w).
Definition set_log (x : list event) (w : mesh_if) : mesh_if :=
  mk_if (stas w) (num_sta w) (mshcfg w) (estab_plinks w) (accepting_plinks w) (if_nonpeer_pm w) (ps_peers_light_sleep w) (ps_peers_deep_sleep w) (num_sta_ps w) (use_short_slot w) (ht_operation_mode w) (jiffies w) (quiescing w) (late w) (rand16 w) (rand32 w) (allocs w) (schedule w) x.


(** ** Access *)

Definition peer (a : list Z) (w : mesh_if) : option sta_info := stas w !! a.
(** [sta_info_get]: by the hash table, which [__sta_info_destroy] leaves first. *)
Definition sta_info_get (a : list Z) (w : mesh_if) : option sta_info :=
  match peer a w with Some s => if listed s then Some s else None | None => None end.
(** The entries of [sta_list]. *)
Definition sta_list (w : mesh_if) : list sta_info := filter (fun s => listed s = true) (map snd (map_to_list (stas w))).

Definition emit (e : event) (w : mesh_if) : mesh_if := set_log (e :: log w) w.
Definition put_sta (a : list Z) (s : sta_info) (w : mesh_if) : mesh_if := set_stas (<[a := s]> (stas w)) w.

(** A read and an update through a pointer to the station. *)
Definition get_sta (a : list Z) : M mesh_if sta_info := fun w => from_option (peer a w) w.
Definition upd_sta (a : list Z) (f : sta_info -> sta_info) : M mesh_if unit :=
  s <- get_sta a ;; modify (put_sta a (f s)).
Definition upd_mesh (a : list Z) (f : mesh_sta -> mesh_sta) : M mesh_if unit :=
  upd_sta a (fun s => set_mesh (f (mesh s)) s).
Definition state_of (s : sta_info) : nl80211_plink_state := plink_state (mesh s).
Definition is_estab (s : sta_info) : bool := bool_decide (state_of s = NL80211_PLINK_ESTAB).

Definition next_alloc : M mesh_if bool :=
  fun w => match allocs w with [] => Some (true, w) | b :: l => Some (b, set_allocs l w) end.
Definition get_random_u32 : M mesh_if Z :=
  fun w => match rand32 w with [] => Some (0, w) | r :: l => Some (u32 r, set_rand32 l w) end.

(** ** [mesh.h] and [mesh.c] *)

Definition mesh_plink_free_count (w : mesh_if) : Z := dot11MeshMaxPeerLinks (mshcfg w) - estab_plinks w.
Definition mesh_plink_availables (w : mesh_if) : bool :=
  0 <? Z.min (mesh_plink_free_count w) (MESH_MAX_PLINKS - num_sta w).

Definition mesh_accept_plinks_update : M mesh_if Z :=
  free_plinks <- gets mesh_plink_availables ;;
  accepting <- gets accepting_plinks ;;
  if eqb free_plinks accepting then ret 0
  else modify (set_accepting_plinks free_plinks) ;;; ret BSS_CHANGED_BEACON.

Definition mesh_plink_inc_estab_count : M mesh_if Z :=
  modify (fun w => set_estab_plinks (estab_plinks w + 1) w) ;;;
  changed <- mesh_accept_plinks_update ;;
  ret (changed .| BSS_CHANGED_BEACON).

Definition mesh_plink_dec_estab_count : M mesh_if Z :=
  modify (fun w => set_estab_plinks (estab_plinks w - 1) w) ;;;
  changed <- mesh_accept_plinks_update ;;
  ret (changed .| BSS_CHANGED_BEACON).

Definition ieee80211_mbss_info_change_notify (changed : Z) : M mesh_if unit :=
  when (nz changed) (modify (emit (ev_notify changed))).

(** ** [mesh_ps.c] *)

Definition is_peering (s : sta_info) : bool :=
  bool_decide (state_of s ∈ [NL80211_PLINK_OPN_SNT; NL80211_PLINK_OPN_RCVD; NL80211_PLINK_CNF_RCVD]).
Definition sleeps (pm : nl80211_mesh_power_mode) (s : sta_info) : bool :=
  is_estab s && bool_decide (local_pm (mesh s) = pm).
Definition count (f : sta_info -> bool) (l : list sta_info) : Z := Z.of_nat (length (filter (fun s => f s = true) l)).

Definition local_nonpeer_pm (w : mesh_if) : nl80211_mesh_power_mode :=
  if existsb is_peering (sta_list w) then NL80211_MESH_POWER_ACTIVE
  else if nz (count (sleeps NL80211_MESH_POWER_LIGHT_SLEEP) (sta_list w)) ||
          nz (count (sleeps NL80211_MESH_POWER_DEEP_SLEEP) (sta_list w)) then NL80211_MESH_POWER_DEEP_SLEEP
  else power_mode (mshcfg w).

Definition ieee80211_mps_local_status_update : M mesh_if Z :=
  w <- gets id ;;
  let light_sleep_cnt := count (sleeps NL80211_MESH_POWER_LIGHT_SLEEP) (sta_list w) in
  let deep_sleep_cnt := count (sleeps NL80211_MESH_POWER_DEEP_SLEEP) (sta_list w) in
  let pm := local_nonpeer_pm w in
  let changed :=
    if negb (bool_decide (if_nonpeer_pm w = pm)) ||
       negb (eqb (nz (ps_peers_light_sleep w)) (nz light_sleep_cnt)) ||
       negb (eqb (nz (ps_peers_deep_sleep w)) (nz deep_sleep_cnt)) then BSS_CHANGED_BEACON else 0 in
  modify (fun w => set_if_nonpeer_pm pm (set_ps_peers_light_sleep light_sleep_cnt
                     (set_ps_peers_deep_sleep deep_sleep_cnt w))) ;;;
  ret changed.

Definition ieee80211_mps_set_sta_local_pm (a : list Z) (pm : nl80211_mesh_power_mode) : M mesh_if Z :=
  s <- get_sta a ;;
  if bool_decide (local_pm (mesh s) = pm) then ret 0
  else
    upd_mesh a (set_local_pm pm) ;;;
    when (is_estab s) (modify (emit (ev_qos_null a))) ;;;
    ieee80211_mps_local_status_update.

(** The release of the buffered frames ([ieee80211_sta_ps_deliver_wakeup]) does
    not touch [WLAN_STA_PS_STA]. *)
Definition ieee80211_sta_ps_deliver_wakeup (a : list Z) (w : mesh_if) : mesh_if :=
  emit (ev_wakeup a) (set_num_sta_ps (num_sta_ps w - 1) w).

Definition sta_power_mode (s : sta_info) : nl80211_mesh_power_mode :=
  if is_estab s && negb (bool_decide (peer_pm (mesh s) = NL80211_MESH_POWER_UNKNOWN))
  then peer_pm (mesh s) else nonpeer_pm (mesh s).

Definition sta_status_update (a : list Z) (w : mesh_if) : mesh_if :=
  match peer a w with
  | None => w
  | Some s =>
      if sta_state s <? IEEE80211_STA_ASSOC then w
      else
        let do_buffer := negb (bool_decide (sta_power_mode s = NL80211_MESH_POWER_ACTIVE)) in
        let s := if negb (is_estab s) then set_mpsp_recipient false (set_mpsp_owner false s)
                 else if negb do_buffer then set_mpsp_owner false s else s in
        let w' := put_sta a s w in
        if eqb (ps_sta s) do_buffer then w'
        else if do_buffer then set_num_sta_ps (num_sta_ps w + 1) (put_sta a (set_ps_sta true s) w')
        else ieee80211_sta_ps_deliver_wakeup a w'
  end.

(** [sta] is not NULL here; [get_sta] looks once at the pointer. *)
Definition ieee80211_mps_sta_status_update (a : list Z) : M mesh_if unit :=
  _ <- get_sta a ;; modify (sta_status_update a).

(** [ieee80211_mps_rx_h_sta_process] with the mode the header gives: towards us
    for an individually addressed QoS data frame, towards non-peers otherwise. *)
Definition ieee80211_mps_rx_h_sta_process (a : list Z) (peer_frame : bool) (pm : nl80211_mesh_power_mode)
    (w : mesh_if) : mesh_if :=
  match sta_info_get a w with
  | None => w
  | Some s =>
      let m := mesh s in
      if peer_frame then
        if bool_decide (peer_pm m = pm) then w
        else sta_status_update a (put_sta a (set_mesh (set_peer_pm pm m) s) w)
      else if bool_decide (nonpeer_pm m = pm) then w
      else sta_status_update a (put_sta a (set_mesh (set_nonpeer_pm pm m) s) w)
  end.

(** ** The timer of a peer *)

Definition mod_timer (expires : Z) (m : mesh_sta) : mesh_sta := set_timer_expires expires (set_timer_pending true m).
Definition timer_delete : mesh_sta -> mesh_sta := set_timer_pending false.

Definition mesh_plink_fsm_restart (m : mesh_sta) : mesh_sta :=
  set_plink_retries 0 (set_reason 0 (set_plid 0 (set_llid 0 (set_plink_state NL80211_PLINK_LISTEN m)))).

Section timer.
Context (p : params).

Definition mod_plink_timer (a : list Z) (t : Z) : M mesh_if unit :=
  now <- gets jiffies ;; upd_mesh a (mod_timer (now + msecs_to_jiffies p t)).

(** What the handler does under the lock: the action and reason of the frame it
    sends once it has released the lock. *)
Definition plink_timer_locked (a : list Z) : M mesh_if (option (plink_action * Z)) :=
  s <- get_sta a ;;
  w <- gets id ;;
  let m := mesh s in
  let hold reason :=
    upd_mesh a (set_plink_state NL80211_PLINK_HOLDING) ;;;
    mod_plink_timer a (dot11MeshHoldingTimeout (mshcfg w)) ;;;
    ret (Some (WLAN_SP_MESH_PEERING_CLOSE, reason)) in
  if jiffies w <? timer_expires m then ret None
  else
    match plink_state m with
    | NL80211_PLINK_LISTEN | NL80211_PLINK_ESTAB => ret None
    | NL80211_PLINK_OPN_RCVD | NL80211_PLINK_OPN_SNT =>
        if plink_retries m <? dot11MeshMaxRetries (mshcfg w) then
          rand <- get_random_u32 ;;
          if plink_timeout m =? 0 then fault
          else
            let t := u32 (plink_timeout m + rand mod plink_timeout m) in
            upd_mesh a (fun m => set_plink_retries (u8 (plink_retries m + 1)) (set_plink_timeout t m)) ;;;
            mod_plink_timer a t ;;;
            ret (Some (WLAN_SP_MESH_PEERING_OPEN, 0))
        else hold WLAN_REASON_MESH_MAX_RETRIES
    | NL80211_PLINK_CNF_RCVD => hold WLAN_REASON_MESH_CONFIRM_TIMEOUT
    | NL80211_PLINK_HOLDING => upd_mesh a (fun m => mesh_plink_fsm_restart (timer_delete m)) ;;; ret None
    | NL80211_PLINK_BLOCKED => ret None
    end.

(** Up to the release of the lock; the frame is left in [late]. *)
Definition mesh_plink_timer (a : list Z) : M mesh_if unit :=
  q <- gets quiescing ;;
  if q then ret tt
  else
    r <- plink_timer_locked a ;;
    match r with
    | Some (action, reason) => modify (fun w => set_late (late w ++ [(a, action, reason)]) w)
    | None => ret tt
    end.

(** ** Peering frames *)

(** The body of the Mesh Peering Management element. *)
Definition peering_ie (action : plink_action) (llid plid reason : Z) : list Z :=
  let include_plid := match action with
                      | WLAN_SP_MESH_PEERING_OPEN => false
                      | WLAN_SP_MESH_PEERING_CONFIRM => true
                      | WLAN_SP_MESH_PEERING_CLOSE => nz plid
                      end in
  [0; 0] ++ le16_bytes llid ++ (if include_plid then le16_bytes plid else []) ++
  (if bool_decide (action = WLAN_SP_MESH_PEERING_CLOSE) then le16_bytes reason else []).

Definition mesh_plink_frame_tx (sta : option (list Z)) (action : plink_action) (da : list Z)
    (llid plid reason : Z) : M mesh_if Z :=
  ok <- next_alloc ;;
  if negb ok then ret (- ENOMEM)
  else if negb (bool_decide (action = WLAN_SP_MESH_PEERING_CLOSE)) && bool_decide (sband p = None) then ret (- EINVAL)
  else
    aid <- (if bool_decide (action = WLAN_SP_MESH_PEERING_CONFIRM) then
              a <- from_option sta ;; s <- get_sta a ;; ret (Some (sta_aid s))
            else ret None) ;;
    modify (emit (ev_frame da (mk_frame action aid (peering_ie action llid plid reason)))) ;;;
    ret 0.

(** A frame to the peer with the link IDs it has now. *)
Definition plink_frame_tx (a : list Z) (action : plink_action) (reason : Z) : M mesh_if unit :=
  s <- get_sta a ;;
  _ <- mesh_plink_frame_tx (Some a) action a (llid (mesh s)) (plid (mesh s)) reason ;;
  ret tt.

(** ** Interrupts *)

Definition run_irq (i : interrupt) : M mesh_if unit :=
  match i with
  | irq_tick n => modify (fun w => set_jiffies (jiffies w + Z.max 0 n) w)
  | irq_expire a =>
      fun w => match peer a w with
               | Some s =>
                   let m := mesh s in
                   if timer_pending m && (timer_expires m <=? jiffies w)
                   then Some (tt, put_sta a (set_mesh (set_timer_fired true (set_timer_pending false m)) s) w)
                   else Some (tt, w)
               | None => Some (tt, w)
               end
  | irq_timer a =>
      fun w => match peer a w with
               | Some s =>
                   if timer_fired (mesh s)
                   then mesh_plink_timer a (put_sta a (set_mesh (set_timer_fired false (mesh s)) s) w)
                   else Some (tt, w)
               | None => Some (tt, w)
               end
  | irq_late =>
      fun w => match late w with
               | (a, action, reason) :: l => plink_frame_tx a action reason (set_late l w)
               | [] => Some (tt, w)
               end
  | irq_mps_rx a peer_frame pm => modify (ieee80211_mps_rx_h_sta_process a peer_frame pm)
  end.

(** The interrupts that come at this place. *)
Definition preempt : M mesh_if unit :=
  fun w => match schedule w with
           | [] => Some (tt, w)
           | irqs :: l => iter run_irq irqs (set_schedule l w)
           end.

(** The first frame for [a] that a timer handler is about to send is sent. *)
Fixpoint take_late (a : list Z) (l : list (list Z * plink_action * Z))
    : option ((plink_action * Z) * list (list Z * plink_action * Z)) :=
  match l with
  | [] => None
  | (b, action, reason) :: l =>
      if bool_decide (b = a) then Some ((action, reason), l)
      else '(x, l') ← take_late a l; Some (x, (b, action, reason) :: l')
  end.

Definition send_late (a : list Z) : M mesh_if unit :=
  l <- gets late ;;
  match take_late a l with
  | Some ((action, reason), l') => modify (set_late l') ;;; plink_frame_tx a action reason
  | None => ret tt
  end.

(** [timer_delete_sync]: a handler that has started runs to its end. *)
Definition timer_delete_sync (a : list Z) : M mesh_if unit :=
  run_irq (irq_timer a) ;;;
  l <- gets late ;;
  iter (fun _ => send_late a) l ;;;
  upd_mesh a timer_delete.
End timer.
