(* ===== verification/MeshPlink.v ===== *)
(** * MeshPlink: mesh peer link management

    [net/mac80211/mesh_plink.c] as a whole, except that a frame is its action
    code and the body of its Mesh Peering Management element, and what its other
    elements mean is part of [elems]; [mesh_sta_cleanup], [mesh_matches_local]
    and the housekeeping of [mesh.c]; how stations are added and removed
    ([sta_info.c]); what user space can change ([cfg.c], and the checks of
    [net/wireless/nl80211.c]).  The interface is the only one of its device with
    stations.

    A handler runs under the lock of the device, so handlers do not overlap;
    [preempt] stands where a handler holds no [plink_lock]. *)
From stdpp Require Import gmap.
From S2P Require Import Prelude Frame Chandef StateMonad Mesh.

(** ** Received elements *)

Record meshconf := mk_meshconf {
  meshconf_psel : Z; meshconf_pmetric : Z; meshconf_congest : Z; meshconf_synch : Z;
  meshconf_auth : Z; meshconf_form : Z; meshconf_cap : Z;
}.

(** [struct ieee802_11_elems] as the parser leaves it, with what the handlers of
    rates, capabilities and operating channel make of the other elements. *)
Record elems := mk_elems {
  peering : option (list Z);
  has_rsn : bool;
  e_mesh_id : option (list Z);
  e_mesh_config : option meshconf;
  e_rates : Z;                  (* [ieee80211_sta_get_rates] *)
  e_basic_rates : Z;
  e_chandef : cfg80211_chan_def;  (* from the HT, VHT and HE operation elements *)
  e_ht_supported : bool;
  e_bandwidth : Z;
  e_20mhz_only : bool;          (* an HT operation element without [IEEE80211_HT_PARAM_CHAN_WIDTH_ANY] *)
}.

Definition IEEE80211_MESHCONF_CAPAB_ACCEPT_PLINKS : Z := 0x01.
Definition IEEE80211_MESHCONF_FORM_CONNECTED_TO_GATE : Z := 0x1.

Inductive plink_event :=
  | PLINK_UNDEFINED | OPN_ACPT | OPN_RJCT | OPN_IGNR | CNF_ACPT | CNF_RJCT | CNF_IGNR | CLS_ACPT | CLS_IGNR.

#[global] Instance plink_event_eq_dec : EqDecision plink_event.
Proof. solve_decision. Defined.

Section plink.
Context (p : params).

Definition mesh_matches_local (e : elems) : option bool :=
  match e_mesh_config e with
  | None => Some false
  | Some c =>
      if negb (bool_decide (mesh_id p = default [] (e_mesh_id e)) &&
               (mesh_pp_id p =? meshconf_psel c) && (mesh_pm_id p =? meshconf_pmetric c) &&
               (mesh_cc_id p =? meshconf_congest c) && (mesh_sp_id p =? meshconf_synch c) &&
               (mesh_auth_id p =? meshconf_auth c)) then Some false
      else if bool_decide (sband p = None) then Some false
      else if negb (basic_rates p =? e_basic_rates e) then Some false
      else
        let d := e_chandef e in
        let sta_chan_def := mk_chandef (chan (oper p)) (npca_chan d) (width d) (center_freq1 d) (center_freq2 d)
                              (edmg d) (freq1_offset d) (punctured d) (npca_punctured d) (s1g_primary_2mhz d) in
        r ← cfg80211_chandef_compatible (oper p) sta_chan_def;
        Some (bool_decide (r <> None))
  end.

Definition mesh_peer_accepts_plinks (e : elems) : M mesh_if bool :=
  c <- from_option (e_mesh_config e) ;;
  ret (nz (meshconf_cap c .& IEEE80211_MESHCONF_CAPAB_ACCEPT_PLINKS)).

Definition rssi_threshold_check (s : option sta_info) (w : mesh_if) : bool :=
  let rssi_threshold := rssi_threshold (mshcfg w) in
  (rssi_threshold =? 0) ||
  match s with Some s => rssi_threshold <? swrap 8 (- avg_signal s) | None => false end.

(** ** What depends on all established peers *)

Definition established (w : mesh_if) : list sta_info := filter (fun s => is_estab s = true) (sta_list w).

Definition erp_rates (b : supported_band) : Z :=
  foldr Z.lor 0 (imap (fun i flags => if nz (flags .& IEEE80211_RATE_ERP_G) then BIT (Z.of_nat i) else 0) (bitrates b)).

Definition mesh_set_short_slot_time : M mesh_if Z :=
  w <- gets id ;;
  match sband p with
  | None => ret 0
  | Some b =>
      let erp_rates := erp_rates b in
      let short_slot :=
        match sb_band b with
        | NL80211_BAND_5GHZ => true
        | NL80211_BAND_2GHZ =>
            nz erp_rates && negb (bool_decide (established w = [])) &&
            forallb (fun s => nz (erp_rates .& supp_rates s)) (established w)
        | _ => false
        end in
      if eqb (use_short_slot w) short_slot then ret 0
      else modify (set_use_short_slot short_slot) ;;; ret BSS_CHANGED_ERP_SLOT
  end.

Definition mesh_set_ht_prot_mode : M mesh_if Z :=
  w <- gets id ;;
  match width (oper p) with
  | NL80211_CHAN_WIDTH_20_NOHT => ret 0
  | width =>
      let narrow := filter (fun s => bandwidth s <= IEEE80211_STA_RX_BW_20) (established w) in
      let ht_opmode :=
        if existsb (fun s => negb (ht_supported s)) narrow then IEEE80211_HT_OP_MODE_PROTECTION_NONHT_MIXED
        else if negb (bool_decide (narrow = [])) && (width_num NL80211_CHAN_WIDTH_20 <? width_num width)
        then IEEE80211_HT_OP_MODE_PROTECTION_20MHZ
        else IEEE80211_HT_OP_MODE_PROTECTION_NONE in
      if ht_operation_mode w =? ht_opmode then ret 0
      else
        modify (fun w => set_mshcfg (set_conf_ht_opmode ht_opmode (mshcfg w)) (set_ht_operation_mode ht_opmode w)) ;;;
        ret BSS_CHANGED_HT
  end.

(** ** Link IDs *)

Definition llid_in_use (id : Z) (w : mesh_if) : bool := existsb (fun s => llid (mesh s) =? id) (sta_list w).

(** [get_random_bytes] until the number is not in use.  When the numbers of
    [rand16] are used up the source gives some other that is not in use. *)
Fixpoint draw (used : Z -> bool) (l : list Z) : option (Z * list Z) :=
  match l with
  | [] => option_map (fun id => (id, [])) (List.find (fun id => negb (used id)) (seqZ 1 65535))
  | x :: l => if used (u16 x) then draw used l else Some (u16 x, l)
  end.

Definition mesh_get_new_llid (a : list Z) : M mesh_if Z :=
  w <- gets id ;;
  r <- from_option (draw (fun id => llid_in_use id w) (rand16 w)) ;;
  modify (fun w => emit (ev_llid a r.1) (set_rand16 r.2 w)) ;;;
  ret r.1.

(** ** Stations *)

Definition mesh_sta_info_init (e : elems) (w : mesh_if) (s : sta_info) : sta_info :=
  if bool_decide (sband p = None) then s
  else
    let s := set_last_rx (jiffies w) s in
    if is_estab s && processed_beacon (mesh s) then s
    else
      set_bandwidth (if e_20mhz_only e then IEEE80211_STA_RX_BW_20 else e_bandwidth e)
        (set_ht_supported (e_ht_supported e) (set_supp_rates (e_rates e)
          (set_mesh (set_processed_beacon true (mesh s)) s))).

(** The smallest AID no station has, 0 being reserved. *)
Definition mesh_allocate_aid : M mesh_if (option Z) :=
  ok <- next_alloc ;;
  aids <- gets (fun w => map sta_aid (sta_list w)) ;;
  ret (if ok then List.find (fun i => negb (bool_decide (i ∈ aids))) (seqZ 1 IEEE80211_MAX_AID) else None).

(** A station as [sta_info_alloc] leaves it. *)
Definition new_mesh_sta : mesh_sta :=
  mk_mesh_sta NL80211_PLINK_LISTEN 0 0 0 0 0 0 false false 0 false false
    NL80211_MESH_POWER_UNKNOWN NL80211_MESH_POWER_UNKNOWN NL80211_MESH_POWER_ACTIVE.
Definition new_sta (now state aid : Z) : sta_info :=
  mk_sta new_mesh_sta state aid false false false 0 0 false now 0 true.

Definition __mesh_sta_info_alloc : M mesh_if (option sta_info) :=
  w <- gets id ;;
  if MESH_MAX_PLINKS <=? num_sta w then ret None
  else
    aid <- mesh_allocate_aid ;;
    match aid with
    | None => ret None
    | Some aid =>
        ok <- next_alloc ;;
        ret (if ok then Some (new_sta (jiffies w) IEEE80211_STA_AUTHORIZED aid) else None)
    end.

Definition mesh_sta_info_alloc (a : list Z) (e : elems) : M mesh_if (option sta_info) :=
  if user_mpm p || nz (security p .& IEEE80211_MESH_SEC_AUTHED) then
    accepts <- mesh_peer_accepts_plinks e ;;
    w <- gets id ;;
    when (accepts && mesh_plink_availables w) (modify (emit (ev_candidate a))) ;;;
    ret None
  else __mesh_sta_info_alloc.

(** Inserting can fail, in the driver or for want of memory. *)
Definition sta_info_insert_rcu (a : list Z) (s : sta_info) : M mesh_if bool :=
  ok <- next_alloc ;;
  if ok then
    modify (fun w => put_sta a s (set_num_sta (num_sta w + 1) w)) ;;;
    _ <- mesh_accept_plinks_update ;;
    ret true
  else ret false.

(** Whether there is a station now. *)
Definition mesh_sta_info_get (a : list Z) (e : elems) : M mesh_if bool :=
  w <- gets id ;;
  match sta_info_get a w with
  | Some _ => upd_sta a (mesh_sta_info_init e w) ;;; ret true
  | None =>
      s <- mesh_sta_info_alloc a e ;;
      match s with
      | None => ret false
      | Some s => sta_info_insert_rcu a (mesh_sta_info_init e w s)
      end
  end.

(** ** Operations on a link *)

Definition mesh_plink_timer_set (a : list Z) (timeout : Z) : M mesh_if unit :=
  upd_mesh a (set_plink_timeout timeout) ;;; mod_plink_timer p a timeout.

Definition __mesh_plink_deactivate (a : list Z) : M mesh_if Z :=
  s <- get_sta a ;;
  changed <- (if is_estab s then mesh_plink_dec_estab_count else ret 0) ;;
  upd_mesh a (set_plink_state NL80211_PLINK_BLOCKED) ;;;
  ieee80211_mps_sta_status_update a ;;;
  changed' <- ieee80211_mps_set_sta_local_pm a NL80211_MESH_POWER_UNKNOWN ;;
  ret (changed .| changed').

Definition mesh_path_flush_by_nexthop (a : list Z) : M mesh_if unit := modify (emit (ev_flush a)).

Definition mesh_plink_deactivate (a : list Z) : M mesh_if Z :=
  s <- get_sta a ;;
  let send_close := negb (bool_decide (state_of s = NL80211_PLINK_LISTEN)) in
  changed <- __mesh_plink_deactivate a ;;
  when (negb (user_mpm p) && send_close)
    (upd_mesh a (set_reason WLAN_REASON_MESH_PEER_CANCELED) ;;;
     plink_frame_tx p a WLAN_SP_MESH_PEERING_CLOSE WLAN_REASON_MESH_PEER_CANCELED) ;;;
  preempt p ;;;
  when (negb (user_mpm p)) (timer_delete_sync p a) ;;;
  mesh_path_flush_by_nexthop a ;;;
  ret changed.

Definition mesh_plink_open (a : list Z) : M mesh_if Z :=
  s <- get_sta a ;;
  if sta_state s <? IEEE80211_STA_AUTH then ret 0
  else
    id <- mesh_get_new_llid a ;;
    upd_mesh a (set_llid id) ;;;
    if negb (bool_decide (state_of s = NL80211_PLINK_LISTEN)) &&
       negb (bool_decide (state_of s = NL80211_PLINK_BLOCKED)) then ret 0
    else
      upd_mesh a (set_plink_state NL80211_PLINK_OPN_SNT) ;;;
      t <- gets (fun w => dot11MeshRetryTimeout (mshcfg w)) ;;
      mesh_plink_timer_set a t ;;;
      preempt p ;;;
      changed <- ieee80211_mps_local_status_update ;;
      s <- get_sta a ;;
      _ <- mesh_plink_frame_tx p (Some a) WLAN_SP_MESH_PEERING_OPEN a (llid (mesh s)) 0 0 ;;
      ret changed.

Definition mesh_plink_block (a : list Z) : M mesh_if Z :=
  changed <- __mesh_plink_deactivate a ;;
  upd_mesh a (set_plink_state NL80211_PLINK_BLOCKED) ;;;
  mesh_path_flush_by_nexthop a ;;;
  ret changed.

Definition mesh_plink_close (a : list Z) (event : plink_event) : M mesh_if unit :=
  let reason := if bool_decide (event = CLS_ACPT) then WLAN_REASON_MESH_CLOSE else WLAN_REASON_MESH_CONFIG in
  upd_mesh a (fun m => set_plink_state NL80211_PLINK_HOLDING (set_reason reason m)) ;;;
  t <- gets (fun w => dot11MeshHoldingTimeout (mshcfg w)) ;;
  mod_plink_timer p a t.

Definition mesh_plink_establish (a : list Z) : M mesh_if Z :=
  upd_mesh a (fun m => set_plink_state NL80211_PLINK_ESTAB (timer_delete m)) ;;;
  c1 <- mesh_plink_inc_estab_count ;;
  c2 <- mesh_set_ht_prot_mode ;;
  c3 <- mesh_set_short_slot_time ;;
  ieee80211_mps_sta_status_update a ;;;
  pm <- gets (fun w => power_mode (mshcfg w)) ;;
  c4 <- ieee80211_mps_set_sta_local_pm a pm ;;
  ret (c1 .| c2 .| c3 .| c4).

(** What the state machine does under the lock: the flags that changed, the
    frame to send and whether to flush the paths through the peer. *)
Definition plink_fsm_locked (a : list Z) (event : plink_event) : M mesh_if (Z * option plink_action * bool) :=
  s <- get_sta a ;;
  cfg <- gets mshcfg ;;
  let nothing := ret (0, None, false) in
  let send action := ret (0, Some action, false) in
  let goto st := upd_mesh a (set_plink_state st) in
  let close :=
    mesh_plink_close a event ;;; send WLAN_SP_MESH_PEERING_CLOSE in
  let establish action := changed <- mesh_plink_establish a ;; ret (changed, action, false) in
  match state_of s, event with
  | NL80211_PLINK_LISTEN, CLS_ACPT => upd_mesh a mesh_plink_fsm_restart ;;; nothing
  | NL80211_PLINK_LISTEN, OPN_ACPT =>
      goto NL80211_PLINK_OPN_RCVD ;;;
      id <- mesh_get_new_llid a ;;
      upd_mesh a (set_llid id) ;;;
      mesh_plink_timer_set a (dot11MeshRetryTimeout cfg) ;;;
      changed <- ieee80211_mps_local_status_update ;;
      ret (changed, Some WLAN_SP_MESH_PEERING_OPEN, false)
  | NL80211_PLINK_OPN_SNT, (OPN_RJCT | CNF_RJCT | CLS_ACPT) => close
  | NL80211_PLINK_OPN_SNT, OPN_ACPT => goto NL80211_PLINK_OPN_RCVD ;;; send WLAN_SP_MESH_PEERING_CONFIRM
  | NL80211_PLINK_OPN_SNT, CNF_ACPT =>
      goto NL80211_PLINK_CNF_RCVD ;;; mod_plink_timer p a (dot11MeshConfirmTimeout cfg) ;;; nothing
  | NL80211_PLINK_OPN_RCVD, (OPN_RJCT | CNF_RJCT | CLS_ACPT) => close
  | NL80211_PLINK_OPN_RCVD, OPN_ACPT => send WLAN_SP_MESH_PEERING_CONFIRM
  | NL80211_PLINK_OPN_RCVD, CNF_ACPT => establish None
  | NL80211_PLINK_CNF_RCVD, (OPN_RJCT | CNF_RJCT | CLS_ACPT) => close
  | NL80211_PLINK_CNF_RCVD, OPN_ACPT => establish (Some WLAN_SP_MESH_PEERING_CONFIRM)
  | NL80211_PLINK_ESTAB, CLS_ACPT =>
      c1 <- __mesh_plink_deactivate a ;;
      c2 <- mesh_set_ht_prot_mode ;;
      c3 <- mesh_set_short_slot_time ;;
      mesh_plink_close a event ;;;
      ret (c1 .| c2 .| c3, Some WLAN_SP_MESH_PEERING_CLOSE, true)
  | NL80211_PLINK_ESTAB, OPN_ACPT => send WLAN_SP_MESH_PEERING_CONFIRM
  | NL80211_PLINK_HOLDING, CLS_ACPT => upd_mesh a (fun m => mesh_plink_fsm_restart (timer_delete m)) ;;; nothing
  | NL80211_PLINK_HOLDING, (OPN_ACPT | CNF_ACPT | OPN_RJCT | CNF_RJCT) => send WLAN_SP_MESH_PEERING_CLOSE
  | _, _ => nothing
  end.

Definition mesh_plink_fsm (a : list Z) (event : plink_event) : M mesh_if Z :=
  r <- plink_fsm_locked a event ;;
  let '(changed, action, flush) := r in
  preempt p ;;;
  when flush (mesh_path_flush_by_nexthop a) ;;;
  match action with
  | None => ret changed
  | Some action =>
      s <- get_sta a ;;
      plink_frame_tx p a action (reason (mesh s)) ;;;
      when (bool_decide (action = WLAN_SP_MESH_PEERING_OPEN))
        (preempt p ;;; plink_frame_tx p a WLAN_SP_MESH_PEERING_CONFIRM 0) ;;;
      ret changed
  end.

(** ** Received frames *)

Definition mesh_plink_get_event (s : option sta_info) (e : elems) (ie_len : Z) (ftype : plink_action)
    (llid' plid' : Z) (w : mesh_if) : option plink_event :=
  matches_local ← (if bool_decide (ftype = WLAN_SP_MESH_PEERING_CLOSE) then Some true else mesh_matches_local e);
  Some
  match s with
  | None =>
      if negb matches_local then OPN_RJCT
      else if negb (bool_decide (ftype = WLAN_SP_MESH_PEERING_OPEN)) then PLINK_UNDEFINED
      else if mesh_plink_free_count w =? 0 then PLINK_UNDEFINED
      else OPN_ACPT
  | Some s =>
      let m := mesh s in
      if sta_state s <? IEEE80211_STA_AUTH then PLINK_UNDEFINED
      else if bool_decide (plink_state m = NL80211_PLINK_BLOCKED) then PLINK_UNDEFINED
      else
        let other_plid := nz (plid m) && negb (plid m =? plid') in
        match ftype with
        | WLAN_SP_MESH_PEERING_OPEN =>
            if negb matches_local then OPN_RJCT
            else if (mesh_plink_free_count w =? 0) || other_plid then OPN_IGNR
            else OPN_ACPT
        | WLAN_SP_MESH_PEERING_CONFIRM =>
            if negb matches_local then CNF_RJCT
            else if (mesh_plink_free_count w =? 0) || negb (llid m =? llid') || other_plid then CNF_IGNR
            else CNF_ACPT
        | WLAN_SP_MESH_PEERING_CLOSE =>
            if bool_decide (plink_state m = NL80211_PLINK_ESTAB) then CLS_ACPT
            else if negb (plid m =? plid') then CLS_IGNR
            else if (ie_len =? 8) && negb (llid m =? llid') then CLS_IGNR
            else CLS_ACPT
        end
  end.

(** [get_unaligned_le16] on the element body. *)
Definition ie_le16 (ie : list Z) (i : Z) : M mesh_if Z := from_option (rd_le16 ie i).

Definition ie_len_ok (ftype : plink_action) (ie_len : Z) : bool :=
  match ftype with
  | WLAN_SP_MESH_PEERING_OPEN => ie_len =? 4
  | WLAN_SP_MESH_PEERING_CONFIRM => ie_len =? 6
  | WLAN_SP_MESH_PEERING_CLOSE => (ie_len =? 6) || (ie_len =? 8)
  end.

(** A frame of [sa] with action code [ftype]; [aid] is the AID of a CONFIRM. *)
Definition mesh_process_plink_frame (sa : list Z) (ftype : plink_action) (aid : Z) (e : elems) : M mesh_if unit :=
  match peering e with
  | None => ret tt
  | Some ie =>
      let ie_len := zlen ie in
      if has_rsn e && (security p =? IEEE80211_MESH_SEC_NONE) then ret tt
      else if negb (ie_len_ok ftype ie_len) then ret tt
      else if negb (bool_decide (ftype = WLAN_SP_MESH_PEERING_CLOSE)) &&
              (bool_decide (e_mesh_id e = None) || bool_decide (e_mesh_config e = None)) then ret tt
      else
        plid' <- ie_le16 ie 2 ;;
        llid' <- (if bool_decide (ftype = WLAN_SP_MESH_PEERING_CONFIRM) ||
                     bool_decide (ftype = WLAN_SP_MESH_PEERING_CLOSE) && (ie_len =? 8)
                  then ie_le16 ie 4 else ret 0) ;;
        w <- gets id ;;
        let sta := sta_info_get sa w in
        if bool_decide (ftype = WLAN_SP_MESH_PEERING_OPEN) && negb (rssi_threshold_check sta w) then ret tt
        else
          event <- from_option (mesh_plink_get_event sta e ie_len ftype llid' plid' w) ;;
          preempt p ;;;
          let known := bool_decide (sta <> None) in
          let step :=
            preempt p ;;;
            changed <- mesh_plink_fsm sa event ;;
            ieee80211_mbss_info_change_notify changed in
          if bool_decide (event = OPN_ACPT) then
            found <- mesh_sta_info_get sa e ;;
            when found (upd_mesh sa (set_plid plid') ;;; step)
          else if negb known && bool_decide (event = OPN_RJCT) then
            _ <- mesh_plink_frame_tx p None WLAN_SP_MESH_PEERING_CLOSE sa 0 plid' WLAN_REASON_MESH_CONFIG ;; ret tt
          else if negb known || bool_decide (event = PLINK_UNDEFINED) then ret tt
          else
            when (bool_decide (event = CNF_ACPT))
              (upd_mesh sa (fun m => set_mesh_aid aid (if plid m =? 0 then set_plid plid' m else m))) ;;;
            step
  end.

(** [mesh_rx_plink_frame] from the point where the elements are parsed. *)
Definition mesh_rx_plink_frame (sa : list Z) (multicast : bool) (ftype : plink_action) (aid : Z) (e : elems)
    : M mesh_if unit :=
  if user_mpm p then ret tt
  else if multicast then ret tt
  else mesh_process_plink_frame sa ftype aid e.

Definition mesh_neighbour_update (a : list Z) (e : elems) : M mesh_if unit :=
  found <- mesh_sta_info_get a e ;;
  if negb found then ret tt
  else
    c <- from_option (e_mesh_config e) ;;
    upd_mesh a (set_connected_to_gate (nz (meshconf_form c .& IEEE80211_MESHCONF_FORM_CONNECTED_TO_GATE))) ;;;
    accepts <- mesh_peer_accepts_plinks e ;;
    s <- get_sta a ;;
    w <- gets id ;;
    changed <- (if accepts && bool_decide (state_of s = NL80211_PLINK_LISTEN) && accepting_plinks w &&
                   auto_open_plinks (mshcfg w) && rssi_threshold_check (Some s) w
                then mesh_plink_open a else ret 0) ;;
    ieee80211_mbss_info_change_notify changed.

(** [ieee80211_mesh_rx_bcn_presp] for a beacon on a usable channel; [signal] is
    its strength. *)
Definition ieee80211_mesh_rx_bcn_presp (sa : list Z) (e : elems) (signal : Z) : M mesh_if unit :=
  let secured := negb (security p =? IEEE80211_MESH_SEC_NONE) in
  if bool_decide (e_mesh_id e = None) || bool_decide (e_mesh_config e = None) || negb (eqb (has_rsn e) secured)
  then ret tt
  else
    matches <- from_option (mesh_matches_local e) ;;
    threshold <- gets (fun w => rssi_threshold (mshcfg w)) ;;
    when (matches && (negb (user_mpm p) || (threshold =? 0) || (threshold <? signal)))
      (mesh_neighbour_update sa e).
End plink.
