(* ===== verification/MeshRun.v ===== *)
(** * MeshRun: everything that happens to a mesh interface

    Removal and expiry of stations ([sta_info.c], [mesh.c]), changes by user
    space ([cfg.c] behind the checks of [nl80211.c]), and runs: sequences of
    operations, with interrupts inside and between them. *)
From stdpp Require Import gmap.
From S2P Require Import Prelude Frame Chandef StateMonad Mesh MeshPlink.

(** ** Requests of user space *)

Inductive nl80211_plink_action :=
  | NL80211_PLINK_ACTION_NO_ACTION | NL80211_PLINK_ACTION_OPEN | NL80211_PLINK_ACTION_BLOCK.

#[global] Instance nl80211_plink_action_eq_dec : EqDecision nl80211_plink_action.
Proof. solve_decision. Defined.

(** [sp_state] is there with [STATION_PARAM_APPLY_PLINK_STATE]. *)
Record station_parameters := mk_station_parameters {
  sp_state : option nl80211_plink_state;
  sp_action : nl80211_plink_action;
  sp_aid : Z;
  sp_local_pm : nl80211_mesh_power_mode;
}.

Definition NL80211_MESHCONF_RETRY_TIMEOUT : Z := 1.
Definition NL80211_MESHCONF_CONFIRM_TIMEOUT : Z := 2.
Definition NL80211_MESHCONF_HOLDING_TIMEOUT : Z := 3.
Definition NL80211_MESHCONF_MAX_PEER_LINKS : Z := 4.
Definition NL80211_MESHCONF_MAX_RETRIES : Z := 5.
Definition NL80211_MESHCONF_AUTO_OPEN_PLINKS : Z := 7.
Definition NL80211_MESHCONF_RSSI_THRESHOLD : Z := 20.
Definition NL80211_MESHCONF_HT_OPMODE : Z := 22.
Definition NL80211_MESHCONF_POWER_MODE : Z := 26.
Definition NL80211_MESHCONF_PLINK_TIMEOUT : Z := 28.

Definition _chg_mesh_attr (parm mask : Z) : bool := nz ((mask >> (parm - 1)) .& 0x1).

Section run.
Context (p : params).

(** ** Removing stations *)

Definition mesh_sta_cleanup (a : list Z) : M mesh_if unit :=
  changed <- mesh_plink_deactivate p a ;;
  ieee80211_mbss_info_change_notify changed.

Definition __cleanup_single_sta (a : list Z) : M mesh_if unit :=
  s <- get_sta a ;;
  when (ps_sta s)
    (upd_sta a (set_ps_sta false) ;;; modify (fun w => set_num_sta_ps (num_sta_ps w - 1) w)) ;;;
  mesh_sta_cleanup a.

(** First out of the list and the hash table, then, when no reader is left, down
    to [IEEE80211_STA_NONE] and away. *)
Definition __sta_info_destroy (a : list Z) : M mesh_if unit :=
  upd_sta a (set_listed false) ;;;
  preempt p ;;;
  modify (fun w => set_num_sta (num_sta w - 1) w) ;;;
  upd_sta a (set_sta_state IEEE80211_STA_NONE) ;;;
  __cleanup_single_sta a ;;;
  modify (fun w => set_stas (delete a (stas w)) w).

Definition sta_info_destroy_addr (a : list Z) : M mesh_if unit :=
  w <- gets id ;;
  match sta_info_get a w with Some _ => __sta_info_destroy a | None => ret tt end.

Definition expire_one (exp_time : Z) (a : list Z) : M mesh_if unit :=
  s <- get_sta a ;;
  w <- gets id ;;
  when (last_rx s + exp_time <? jiffies w)
    (when (ps_sta s) (modify (fun w => set_num_sta_ps (num_sta_ps w - 1) w)) ;;;
     __sta_info_destroy a).

Definition ieee80211_sta_expire (exp_time : Z) : M mesh_if unit :=
  l <- gets (fun w => map fst (map_to_list (stas w))) ;;
  iter (expire_one exp_time) l.

Definition ieee80211_mesh_housekeeping : M mesh_if unit :=
  t <- gets (fun w => conf_plink_timeout (mshcfg w)) ;;
  when (0 <? t) (ieee80211_sta_expire (t * HZ p)) ;;;
  changed <- mesh_accept_plinks_update ;;
  ieee80211_mbss_info_change_notify changed.

(** ** Changes by user space *)

(** [cfg80211_check_station_change] for the peers of a mesh. *)
Definition check_station_change (sp : station_parameters) : Z :=
  if negb (user_mpm p) then
    if bool_decide (sp_state sp = None) then 0 else - EINVAL
  else if negb (bool_decide (sp_action sp = NL80211_PLINK_ACTION_NO_ACTION)) &&
          negb (bool_decide (sp_action sp = NL80211_PLINK_ACTION_BLOCK)) then - EINVAL
  else 0.

Definition sta_apply_mesh_params (a : list Z) (sp : station_parameters) : M mesh_if unit :=
  c1 <-
    match sp_state sp with
    | None => ret 0
    | Some NL80211_PLINK_ESTAB =>
        s <- get_sta a ;;
        c <- (if is_estab s then ret 0 else mesh_plink_inc_estab_count) ;;
        upd_mesh a (fun m => set_mesh_aid (sp_aid sp) (set_plink_state NL80211_PLINK_ESTAB m)) ;;;
        ieee80211_mps_sta_status_update a ;;;
        pm <- gets (fun w => power_mode (mshcfg w)) ;;
        c' <- ieee80211_mps_set_sta_local_pm a pm ;;
        ret (c .| c')
    | Some st =>
        s <- get_sta a ;;
        c <- (if is_estab s then mesh_plink_dec_estab_count else ret 0) ;;
        upd_mesh a (set_plink_state st) ;;;
        ieee80211_mps_sta_status_update a ;;;
        c' <- ieee80211_mps_set_sta_local_pm a NL80211_MESH_POWER_UNKNOWN ;;
        ret (c .| c')
    end ;;
  c2 <-
    match sp_action sp with
    | NL80211_PLINK_ACTION_NO_ACTION => ret 0
    | NL80211_PLINK_ACTION_OPEN => mesh_plink_open p a
    | NL80211_PLINK_ACTION_BLOCK => mesh_plink_block a
    end ;;
  c3 <- (if bool_decide (sp_local_pm sp = NL80211_MESH_POWER_UNKNOWN) then ret 0
         else ieee80211_mps_set_sta_local_pm a (sp_local_pm sp)) ;;
  ieee80211_mbss_info_change_notify (c1 .| c2 .| c3).

Definition ieee80211_change_station (a : list Z) (sp : station_parameters) : M mesh_if Z :=
  w <- gets id ;;
  match sta_info_get a w with
  | None => ret (- ENOENT)
  | Some _ =>
      let err := check_station_change sp in
      if err <? 0 then ret err
      else sta_apply_mesh_params a sp ;;; ret 0
  end.

(** [_sta_info_move_state] by user space: authenticated, authorised or not. *)
Definition sta_info_move_state (a : list Z) (st : Z) : M mesh_if unit :=
  w <- gets id ;;
  match sta_info_get a w with
  | Some s => when ((IEEE80211_STA_NONE <=? st) && (st <=? IEEE80211_STA_AUTHORIZED)) (upd_sta a (set_sta_state st))
  | None => ret tt
  end.

(** A station user space adds. *)
Definition ieee80211_add_station (a : list Z) (aid : Z) : M mesh_if unit :=
  w <- gets id ;;
  match peer a w with
  | Some _ => ret tt
  | None => _ <- sta_info_insert_rcu a (new_sta (jiffies w) IEEE80211_STA_NONE aid) ;; ret tt
  end.

(** [EBUSY] ends the function in the middle. *)
Definition EBUSY : Z := 16.

Definition ieee80211_update_mesh_config (mask : Z) (nconf : mesh_config) : M mesh_if Z :=
  w <- gets id ;;
  let conf := mshcfg w in
  let chg {A} parm (f : mesh_config -> A) : A := f (if _chg_mesh_attr parm mask then nconf else conf) in
  let retry := chg NL80211_MESHCONF_RETRY_TIMEOUT dot11MeshRetryTimeout in
  let confirm := chg NL80211_MESHCONF_CONFIRM_TIMEOUT dot11MeshConfirmTimeout in
  let holding := chg NL80211_MESHCONF_HOLDING_TIMEOUT dot11MeshHoldingTimeout in
  let links := chg NL80211_MESHCONF_MAX_PEER_LINKS dot11MeshMaxPeerLinks in
  let retries := chg NL80211_MESHCONF_MAX_RETRIES dot11MeshMaxRetries in
  if _chg_mesh_attr NL80211_MESHCONF_AUTO_OPEN_PLINKS mask && user_mpm p then
    modify (set_mshcfg (mk_config retry confirm holding links retries (auto_open_plinks conf) (rssi_threshold conf)
                          (power_mode conf) (conf_ht_opmode conf) (conf_plink_timeout conf))) ;;;
    ret (- EBUSY)
  else
    let auto := chg NL80211_MESHCONF_AUTO_OPEN_PLINKS auto_open_plinks in
    let threshold := chg NL80211_MESHCONF_RSSI_THRESHOLD rssi_threshold in
    let opmode := chg NL80211_MESHCONF_HT_OPMODE conf_ht_opmode in
    let pm := chg NL80211_MESHCONF_POWER_MODE power_mode in
    let expiry := chg NL80211_MESHCONF_PLINK_TIMEOUT conf_plink_timeout in
    modify (set_mshcfg (mk_config retry confirm holding links retries auto threshold pm opmode expiry)) ;;;
    when (_chg_mesh_attr NL80211_MESHCONF_HT_OPMODE mask)
      (modify (set_ht_operation_mode opmode) ;;; modify (emit (ev_notify BSS_CHANGED_HT))) ;;;
    when (_chg_mesh_attr NL80211_MESHCONF_POWER_MODE mask)
      (_ <- ieee80211_mps_local_status_update ;; ret tt) ;;;
    ieee80211_mbss_info_change_notify BSS_CHANGED_BEACON ;;;
    ret 0.

(** ** Runs *)

Inductive op :=
  | op_rx_plink (sa : list Z) (multicast : bool) (ftype : plink_action) (aid : Z) (e : elems)
  | op_rx_beacon (sa : list Z) (e : elems) (signal : Z)
  | op_change_station (a : list Z) (sp : station_parameters)
  | op_move_state (a : list Z) (st : Z)
  | op_add_station (a : list Z) (aid : Z)
  | op_del_station (a : list Z)
  | op_housekeeping
  | op_config (mask : Z) (nconf : mesh_config)
  | op_suspend (quiesce : bool)                    (* [local->quiescing] *)
  | op_interrupt (i : interrupt).

Definition run_op (o : op) : M mesh_if unit :=
  match o with
  | op_rx_plink sa multicast ftype aid e => mesh_rx_plink_frame p sa multicast ftype aid e
  | op_rx_beacon sa e signal => ieee80211_mesh_rx_bcn_presp p sa e signal
  | op_change_station a sp => _ <- ieee80211_change_station a sp ;; ret tt
  | op_move_state a st => sta_info_move_state a st
  | op_add_station a aid => ieee80211_add_station a aid
  | op_del_station a => sta_info_destroy_addr a
  | op_housekeeping => ieee80211_mesh_housekeeping
  | op_config mask nconf => _ <- ieee80211_update_mesh_config mask nconf ;; ret tt
  | op_suspend q => modify (set_quiescing q)
  | op_interrupt i => run_irq p i
  end.

Definition run (l : list op) : M mesh_if unit := iter run_op l.

(** An interface that has just joined a mesh. *)
Definition fresh_if (k : mesh_config) (now : Z) (r16 r32 : list Z) (al : list bool)
    (sched : list (list interrupt)) : mesh_if :=
  mk_if ∅ 0 k 0 true NL80211_MESH_POWER_ACTIVE 0 0 0 false (conf_ht_opmode k) now false [] r16 r32 al sched [].
End run.
