(* ===== verification/MeshSpec.v ===== *)
(** * MeshSpec: what peer link management does, link by link

    The specification the handlers of [MeshPlink] and [MeshRun] are shown to
    implement: a link is the part of a station that the protocol is about, and
    [istep] and [astep] are the atomic steps of the links of one interface, those
    of interrupts and those of handlers.  [abs] forgets the rest of the
    interface.

    The steps are indexed by what is received meanwhile: [heard a x y] when a
    CONFIRM of the peer [a] carries its own link ID [x] and ours [y], [told a x]
    when an OPEN or CONFIRM carries its link ID [x]; and by the peers [relabel]
    that user space asks to open while they are open. *)
From stdpp Require Import gmap.
From S2P Require Import Prelude Frame Chandef StateMonad Mesh MeshPlink MeshRun.

Record link := mk_link {
  l_state : nl80211_plink_state;
  l_llid : Z;
  l_plid : Z;
  l_retries : Z;
  l_timeout : Z;
  l_pending : bool;
  l_fired : bool;
  l_expires : Z;
  l_listed : bool;
}.

Definition link_of (s : sta_info) : link :=
  let m := mesh s in
  mk_link (plink_state m) (llid m) (plid m) (plink_retries m) (plink_timeout m)
    (timer_pending m) (timer_fired m) (timer_expires m) (listed s).

Definition link_event (e : event) : bool :=
  match e with ev_frame _ _ | ev_llid _ _ => true | _ => false end.

Record core := mk_core {
  links : gmap (list Z) link;
  estab : Z;
  clog : list event;
  now : Z;
  to_send : list (list Z * plink_action * Z);
  retry_timeout : Z;
  max_retries : Z;
  max_links : Z;
  quiet : bool;
  auto : bool;
}.

Definition abs (w : mesh_if) : core :=
  mk_core (link_of <$> stas w) (estab_plinks w) (filter (fun e => link_event e = true) (log w)) (jiffies w) (late w)
    (dot11MeshRetryTimeout (mshcfg w)) (dot11MeshMaxRetries (mshcfg w)) (dot11MeshMaxPeerLinks (mshcfg w))
    (quiescing w) (auto_open_plinks (mshcfg w)).

(** ** Updates *)

Definition with_link (a : list Z) (l : link) (c : core) : core :=
  mk_core (<[a := l]> (links c)) (estab c) (clog c) (now c) (to_send c) (retry_timeout c) (max_retries c) (max_links c) (quiet c) (auto c).
Definition with_links (m : gmap (list Z) link) (c : core) : core :=
  mk_core m (estab c) (clog c) (now c) (to_send c) (retry_timeout c) (max_retries c) (max_links c) (quiet c) (auto c).
Definition with_estab (n : Z) (c : core) : core :=
  mk_core (links c) n (clog c) (now c) (to_send c) (retry_timeout c) (max_retries c) (max_links c) (quiet c) (auto c).
Definition logged (e : event) (c : core) : core :=
  mk_core (links c) (estab c) (e :: clog c) (now c) (to_send c) (retry_timeout c) (max_retries c) (max_links c) (quiet c) (auto c).
Definition with_now (n : Z) (c : core) : core :=
  mk_core (links c) (estab c) (clog c) n (to_send c) (retry_timeout c) (max_retries c) (max_links c) (quiet c) (auto c).
Definition with_to_send (l : list (list Z * plink_action * Z)) (c : core) : core :=
  mk_core (links c) (estab c) (clog c) (now c) l (retry_timeout c) (max_retries c) (max_links c) (quiet c) (auto c).
Definition with_config (t r m : Z) (b : bool) (c : core) : core :=
  mk_core (links c) (estab c) (clog c) (now c) (to_send c) t r m (quiet c) b.

(** A link in another state, with the same timer. *)
Definition at_state (st : nl80211_plink_state) (l : link) : link :=
  mk_link st (l_llid l) (l_plid l) (l_retries l) (l_timeout l) (l_pending l) (l_fired l) (l_expires l) (l_listed l).
(** The timer started to expire at [e], or stopped. *)
Definition armed (e : Z) (l : link) : link :=
  mk_link (l_state l) (l_llid l) (l_plid l) (l_retries l) (l_timeout l) true (l_fired l) e (l_listed l).
Definition disarmed (l : link) : link :=
  mk_link (l_state l) (l_llid l) (l_plid l) (l_retries l) (l_timeout l) false (l_fired l) (l_expires l) (l_listed l).
Definition with_ids (x y : Z) (l : link) : link :=
  mk_link (l_state l) x y (l_retries l) (l_timeout l) (l_pending l) (l_fired l) (l_expires l) (l_listed l).
Definition with_fired (b : bool) (l : link) : link :=
  mk_link (l_state l) (l_llid l) (l_plid l) (l_retries l) (l_timeout l) (l_pending l) b (l_expires l) (l_listed l).
Definition retrying (r t : Z) (l : link) : link :=
  mk_link (l_state l) (l_llid l) (l_plid l) r t (l_pending l) (l_fired l) (l_expires l) (l_listed l).
Definition unlisted (l : link) : link :=
  mk_link (l_state l) (l_llid l) (l_plid l) (l_retries l) (l_timeout l) (l_pending l) (l_fired l) (l_expires l) false.
Definition restarted (l : link) : link :=
  mk_link NL80211_PLINK_LISTEN 0 0 0 (l_timeout l) (l_pending l) (l_fired l) (l_expires l) (l_listed l).
Definition new_link : link := mk_link NL80211_PLINK_LISTEN 0 0 0 0 false false 0 true.

Definition l_estab (l : link) : bool := bool_decide (l_state l = NL80211_PLINK_ESTAB).
Definition opening (st : nl80211_plink_state) : bool :=
  match st with NL80211_PLINK_OPN_SNT | NL80211_PLINK_OPN_RCVD => true | _ => false end.
(** The states in which the timer must run. *)
Definition transient (st : nl80211_plink_state) : bool :=
  match st with
  | NL80211_PLINK_OPN_SNT | NL80211_PLINK_OPN_RCVD | NL80211_PLINK_CNF_RCVD | NL80211_PLINK_HOLDING => true
  | _ => false
  end.
Definition idle (st : nl80211_plink_state) : bool :=
  match st with NL80211_PLINK_LISTEN | NL80211_PLINK_BLOCKED => true | _ => false end.

Definition fresh_id (id : Z) (c : core) : Prop :=
  is_uint 16 id /\ forall b l, links c !! b = Some l -> l_llid l <> id.

(** What a CONFIRM is sent for: not a station that only knows the ID of its peer. *)
Definition confirmable (l : link) : Prop := idle (l_state l) = false \/ l_plid l = 0.

Definition sent (a : list Z) (l : link) (action : plink_action) (aid : option Z) (reason : Z) : event :=
  ev_frame a (mk_frame action aid (peering_ie action (l_llid l) (l_plid l) reason)).

(** ** The timer *)

(** What the handler does to a link, [r] being the random number and [e] the
    next expiry, and the frame it will send. *)
Definition timer_step (c : core) (r e : Z) (l : link) : option (link * option (plink_action * Z)) :=
  let l := with_fired false l in
  if quiet c || (now c <? l_expires l) then Some (l, None)
  else
    match l_state l with
    | NL80211_PLINK_OPN_RCVD | NL80211_PLINK_OPN_SNT =>
        if l_retries l <? max_retries c then
          if l_timeout l =? 0 then None
          else
            let t := u32 (l_timeout l + r mod l_timeout l) in
            Some (armed e (retrying (u8 (l_retries l + 1)) t l), Some (WLAN_SP_MESH_PEERING_OPEN, 0))
        else Some (armed e (at_state NL80211_PLINK_HOLDING l), Some (WLAN_SP_MESH_PEERING_CLOSE, WLAN_REASON_MESH_MAX_RETRIES))
    | NL80211_PLINK_CNF_RCVD =>
        Some (armed e (at_state NL80211_PLINK_HOLDING l), Some (WLAN_SP_MESH_PEERING_CLOSE, WLAN_REASON_MESH_CONFIRM_TIMEOUT))
    | NL80211_PLINK_HOLDING => Some (restarted (disarmed l), None)
    | _ => Some (l, None)
    end.

(** ** Steps *)

Inductive istep : core -> core -> Prop :=
  | i_tick n c : 0 <= n -> istep c (with_now (now c + n) c)
  | i_expire a l c :
      links c !! a = Some l -> l_pending l = true -> l_expires l <= now c ->
      istep c (with_link a (with_fired true (disarmed l)) c)
  | i_timer a l r e l' tx c :
      links c !! a = Some l -> l_fired l = true -> 0 <= r < 2 ^ 32 ->
      timer_step c r e l = Some (l', tx) ->
      istep c (with_link a l' (with_to_send
        (to_send c ++ match tx with Some (action, reason) => [(a, action, reason)] | None => [] end) c))
  | i_late a l action reason l1 l2 aid (ok : bool) c :
      to_send c = l1 ++ (a, action, reason) :: l2 -> links c !! a = Some l ->
      istep c (let c := with_to_send (l1 ++ l2) c in if ok then logged (sent a l action aid reason) c else c).

Section steps.
Context (user : bool) (heard : list Z -> Z -> Z -> Prop) (told : list Z -> Z -> Prop) (relabel : list Z -> Prop).

Inductive astep : core -> core -> Prop :=
  | a_irq c c' : istep c c' -> astep c c'
  | a_tx a l action aid reason c :
      links c !! a = Some l -> (action = WLAN_SP_MESH_PEERING_CONFIRM -> confirmable l) ->
      astep c (logged (sent a l action aid reason) c)
  | a_tx_open a l aid c :
      links c !! a = Some l ->
      astep c (logged (ev_frame a (mk_frame WLAN_SP_MESH_PEERING_OPEN aid
                         (peering_ie WLAN_SP_MESH_PEERING_OPEN (l_llid l) 0 0))) c)
  | a_reject a x aid reason c :
      astep c (logged (ev_frame a (mk_frame WLAN_SP_MESH_PEERING_CLOSE aid
                         (peering_ie WLAN_SP_MESH_PEERING_CLOSE 0 x reason))) c)
  | a_open a l id e c :
      links c !! a = Some l -> user = false -> idle (l_state l) = true -> fresh_id id c ->
      astep c (logged (ev_llid a id) (with_link a
        (armed e (retrying (l_retries l) (retry_timeout c) (with_ids id (l_plid l) (at_state NL80211_PLINK_OPN_SNT l)))) c))
  | a_relabel a l id c :
      links c !! a = Some l -> user = false -> relabel a -> idle (l_state l) = false -> fresh_id id c ->
      astep c (logged (ev_llid a id) (with_link a (with_ids id (l_plid l) l) c))
  | a_opened a l id e c :
      links c !! a = Some l -> user = false -> l_state l = NL80211_PLINK_LISTEN -> fresh_id id c ->
      astep c (logged (ev_llid a id) (with_link a
        (armed e (retrying (l_retries l) (retry_timeout c) (with_ids id (l_plid l) (at_state NL80211_PLINK_OPN_RCVD l)))) c))
  | a_open_both a l c :
      links c !! a = Some l -> l_state l = NL80211_PLINK_OPN_SNT ->
      astep c (with_link a (at_state NL80211_PLINK_OPN_RCVD l) c)
  | a_confirmed a l e c :
      links c !! a = Some l -> user = false -> l_state l = NL80211_PLINK_OPN_SNT -> heard a (l_plid l) (l_llid l) ->
      astep c (with_link a (armed e (at_state NL80211_PLINK_CNF_RCVD l)) c)
  | a_estab_confirm a l c :
      links c !! a = Some l -> user = false -> l_state l = NL80211_PLINK_OPN_RCVD -> heard a (l_plid l) (l_llid l) ->
      max_links c - estab c <> 0 ->
      astep c (with_estab (estab c + 1) (with_link a (disarmed (at_state NL80211_PLINK_ESTAB l)) c))
  | a_estab_open a l c :
      links c !! a = Some l -> user = false -> l_state l = NL80211_PLINK_CNF_RCVD -> max_links c - estab c <> 0 ->
      astep c (with_estab (estab c + 1) (with_link a (disarmed (at_state NL80211_PLINK_ESTAB l)) c))
  | a_plid a l y c :
      links c !! a = Some l -> user = false -> told a y -> l_plid l = 0 \/ l_plid l = y ->
      astep c (with_link a (with_ids (l_llid l) y l) c)
  | a_close a l e c :
      links c !! a = Some l -> user = false -> transient (l_state l) = true ->
      astep c (with_link a (armed e (at_state NL80211_PLINK_HOLDING l)) c)
  | a_close_estab a l e c :
      links c !! a = Some l -> user = false -> l_estab l = true ->
      astep c (with_estab (estab c - 1) (with_link a (armed e (at_state NL80211_PLINK_HOLDING l)) c))
  | a_restart a l c :
      links c !! a = Some l -> l_state l = NL80211_PLINK_LISTEN ->
      astep c (with_link a (restarted l) c)
  | a_restart_holding a l c :
      links c !! a = Some l -> l_state l = NL80211_PLINK_HOLDING ->
      astep c (with_link a (restarted (disarmed l)) c)
  | a_block a l c :
      links c !! a = Some l ->
      astep c (with_estab (estab c - Z.b2z (l_estab l)) (with_link a (at_state NL80211_PLINK_BLOCKED l) c))
  | a_user a l st c :
      links c !! a = Some l -> user = true ->
      astep c (with_estab (estab c - Z.b2z (l_estab l) + Z.b2z (bool_decide (st = NL80211_PLINK_ESTAB)))
                 (with_link a (at_state st l) c))
  | a_add a c : links c !! a = None -> astep c (with_link a new_link c)
  | a_unlist a l c : links c !! a = Some l -> astep c (with_link a (unlisted l) c)
  | a_disarm a l c :
      links c !! a = Some l -> l_state l = NL80211_PLINK_BLOCKED -> astep c (with_link a (disarmed l) c)
  | a_delete a l c :
      links c !! a = Some l -> l_state l = NL80211_PLINK_BLOCKED -> l_pending l = false -> l_fired l = false ->
      (forall x, x ∈ to_send c -> x.1.1 <> a) ->
      astep c (with_links (delete a (links c)) c)
  | a_config t r m b c :
      1 <= t <= 255 -> 0 <= r <= 16 -> (user = false -> estab c <= m) -> (user = true -> b = false) ->
      astep c (with_config t r m b c).
End steps.

(** ** What interrupts do to a link *)

(** Its identifiers stay, or all is reset; only a transient link changes state,
    towards HOLDING and LISTEN. *)
Definition evolves (l l' : link) : Prop :=
  l_listed l' = l_listed l /\
  ((l_state l' = l_state l /\ l_llid l' = l_llid l /\ l_plid l' = l_plid l) \/
   (transient (l_state l) = true /\ l_state l' = NL80211_PLINK_HOLDING /\ l_llid l' = l_llid l /\ l_plid l' = l_plid l) \/
   (transient (l_state l) = true /\ l_state l' = NL80211_PLINK_LISTEN /\ l_llid l' = 0 /\ l_plid l' = 0)).

Record irq_frame (c c' : core) : Prop := {
  if_links : forall a, option_relation evolves (fun _ => False) (fun _ => False) (links c !! a) (links c' !! a);
  if_estab : estab c' = estab c;
  if_retry : retry_timeout c' = retry_timeout c;
  if_max_retries : max_retries c' = max_retries c;
  if_max_links : max_links c' = max_links c;
  if_quiet : quiet c' = quiet c;
}.
