(* ===== verification/MeshInv.v ===== *)
(** * MeshInv: what every step of peer link management keeps

    [cinv]: the count of established links is right and within the limit, no two
    peers have the same link ID, a link that waits for something has its timer
    running, its timeout has not overflowed, and frames to be sent by timer
    handlers belong to peers that are still there. *)
From stdpp Require Import gmap.
From S2P Require Import Prelude Frame Chandef StateMonad Mesh MeshPlink MeshRun MeshSpec.

Definition count_estab (m : gmap (list Z) link) : Z :=
  Z.of_nat (size (filter (fun kv => l_estab kv.2 = true) m)).

Lemma count_insert_fresh m a l :
  m !! a = None -> count_estab (<[a := l]> m) = count_estab m + Z.b2z (l_estab l).
Proof.
  intros Ha. unfold count_estab. destruct (l_estab l) eqn:E; simpl.
  - rewrite map_filter_insert_True by done. rewrite map_size_insert_None; [lia|].
    apply map_lookup_filter_None_2. by left.
  - rewrite map_filter_insert_False by (simpl; congruence). rewrite delete_id by done. lia.
Qed.

Lemma count_delete m a l :
  m !! a = Some l -> count_estab (delete a m) = count_estab m - Z.b2z (l_estab l).
Proof.
  intros Ha. rewrite <- (insert_delete_id m a l Ha) at 2.
  rewrite count_insert_fresh by apply lookup_delete_eq. lia.
Qed.

Lemma count_insert m a l l' :
  m !! a = Some l -> count_estab (<[a := l']> m) = count_estab m - Z.b2z (l_estab l) + Z.b2z (l_estab l').
Proof.
  intros Ha. rewrite <- insert_delete_eq, count_insert_fresh by apply lookup_delete_eq.
  by rewrite (count_delete m a l Ha).
Qed.

Section inv.
Context (user : bool).

Record link_ok (n : Z) (l : link) : Prop := {
  lo_listen : l_state l = NL80211_PLINK_LISTEN -> l_llid l = 0 /\ l_retries l = 0;
  lo_retries : 0 <= l_retries l <= 16;
  lo_timeout : user = false -> opening (l_state l) = true -> 1 <= l_timeout l <= 255 * 2 ^ l_retries l;
  lo_timer : user = false -> transient (l_state l) = true ->
    l_pending l = true \/ l_fired l = true /\ l_expires l <= n;
  lo_user : user = true -> l_pending l = false /\ l_fired l = false /\ l_llid l = 0 /\ l_retries l = 0;
}.

Record cinv (c : core) : Prop := {
  ci_estab : estab c = count_estab (links c);
  ci_bound : user = false -> estab c <= max_links c;
  ci_ids : forall a b la lb, a <> b -> links c !! a = Some la -> links c !! b = Some lb ->
    l_llid la = l_llid lb -> l_llid la = 0;
  ci_late : forall x, x ∈ to_send c -> is_Some (links c !! x.1.1);
  ci_link : forall a l, links c !! a = Some l -> link_ok (now c) l;
  ci_config : 1 <= retry_timeout c <= 255 /\ 0 <= max_retries c <= 16;
  ci_quiet : quiet c = false;
  ci_user : user = true -> to_send c = [];
  ci_auto : user = true -> auto c = false;
}.

(** One link changes. *)
Lemma cinv_link c a l l' e :
  cinv c -> links c !! a = Some l -> link_ok (now c) l' ->
  (l_llid l' = l_llid l \/ l_llid l' = 0 \/ fresh_id (l_llid l') c) ->
  e = estab c - Z.b2z (l_estab l) + Z.b2z (l_estab l') -> (user = false -> e <= max_links c) ->
  cinv (with_estab e (with_link a l' c)).
Proof.
  intros [He Hb Hi Hl Ho Hc Hq Hu Hau] Ha Hok Hid -> Hle. split; simpl; auto.
  - by rewrite (count_insert _ _ l), <- He by done.
  - intros x y lx ly Hxy. rewrite !lookup_insert_Some.
    intros [[<- <-]|[Hx Lx]] [[<- <-]|[Hy Ly]] E; [done| | |by eapply (Hi x y)].
    + destruct Hid as [Hid|[Hid|Hid]]; [|done|by destruct (proj2 Hid _ _ Ly)].
      rewrite Hid in *. by eapply (Hi a y).
    + destruct Hid as [Hid|[Hid|Hid]]; [|congruence|by destruct (proj2 Hid _ _ Lx)].
      rewrite Hid in *. by eapply (Hi x a).
  - intros x Hx. destruct (decide (a = x.1.1)) as [<-|]; [rewrite lookup_insert_eq; eauto|].
    rewrite lookup_insert_ne by done. auto.
  - intros b lb. rewrite lookup_insert_Some. intros [[<- <-]|[_ H]]; [done|eauto].
Qed.

Lemma cinv_same_estab c a l l' :
  cinv c -> links c !! a = Some l -> link_ok (now c) l' -> l_estab l' = l_estab l ->
  (l_llid l' = l_llid l \/ l_llid l' = 0 \/ fresh_id (l_llid l') c) ->
  cinv (with_link a l' c).
Proof.
  intros H Ha Hok He Hid. pose proof (ci_bound _ H).
  replace (with_link a l' c) with (with_estab (estab c) (with_link a l' c)) by done.
  eapply cinv_link; eauto. rewrite He. lia.
Qed.

Lemma cinv_logged c e : cinv c -> cinv (logged e c).
Proof. intros [? ? ? ? ? ? ? ? ?]. by split. Qed.

Lemma cinv_to_send c l :
  cinv c -> (forall x, x ∈ l -> is_Some (links c !! x.1.1)) -> (user = true -> l = []) -> cinv (with_to_send l c).
Proof. intros [? ? ? ? ? ? ? ? ?] ? ?. by split. Qed.

Lemma pow_retries r : 0 <= r <= 16 -> 1 <= 2 ^ r <= 65536.
Proof.
  intros Hr. split; [pose proof (Z.pow_pos_nonneg 2 r); lia|].
  etrans; [apply (Z.pow_le_mono_r 2 r 16); lia|]. done.
Qed.

(** The handler of the timer never divides by zero, and the timeout at most
    doubles. *)
Lemma timer_step_ok c r e l :
  cinv c -> link_ok (now c) l -> user = false -> 0 <= r ->
  exists l' tx, timer_step c r e l = Some (l', tx) /\ link_ok (now c) l' /\ l_estab l' = l_estab l /\
    evolves l l' /\ (tx = None \/ exists x, tx = Some x).
Proof.
  intros Hc Hl Hu Hr. pose proof (ci_config _ Hc) as [Ht Hm]. pose proof (ci_quiet _ Hc) as Hq.
  pose proof Hl as [Hli Hre Hto Hti _].
  unfold timer_step. rewrite Hq. cbn [with_fired l_expires l_state l_retries l_timeout orb].
  destruct (Z.ltb_spec (now c) (l_expires l)) as [Hlt|Hge].
  { eexists _, _. split; [done|]. split; [|split; [done|split; [split; [done|by left]|by left]]].
    split; simpl; auto; [|congruence]. intros _ Htr. destruct (Hti Hu Htr) as [|[_ ?]]; [by left|lia]. }
  assert (Hhold : forall e, link_ok (now c) (armed e (at_state NL80211_PLINK_HOLDING (with_fired false l)))).
  { intros e'. split; simpl; auto; try done; congruence. }
  destruct (l_state l) eqn:Es; cbn [l_state].
  all: try (eexists _, _; split; [done|];
    split; [first [apply Hhold | split; simpl; rewrite ?Es; auto; try done; try lia; congruence]|];
    split; [by unfold l_estab; simpl; rewrite Es|]; split; [split; [done|simpl; rewrite Es; auto 10]|eauto]).
  all: specialize (Hto Hu eq_refl).
  all: destruct (Z.ltb_spec (l_retries l) (max_retries c)).
  2,4: eexists _, _; split; [done|]; split; [apply Hhold|]; split; [by unfold l_estab; simpl; rewrite Es|];
    split; [split; [done|simpl; rewrite Es; auto 10]|eauto].
  all: destruct (Z.eqb_spec (l_timeout l) 0); [lia|].
  all: eexists _, _; split; [done|].
  all: pose proof (Z.mod_pos_bound r (l_timeout l)).
  all: pose proof (pow_retries (l_retries l)).
  all: rewrite !wrap_small by (unfold is_uint; lia).
  all: split; [|split; [by unfold l_estab; simpl; rewrite Es|split; [split; [done|simpl; rewrite Es; auto]|eauto]]].
  all: split; simpl; rewrite ?Es; auto; try done; try lia; try congruence.
  all: intros _ _; rewrite Z.pow_add_r by lia; lia.
Qed.

Lemma istep_inv c c' : cinv c -> istep c c' -> cinv c'.
Proof.
  intros Hc Hs. destruct Hs as [n c Hn|a l c Ha Hp Hx|a l r e l' tx c Ha Hf Hr Ht|a l action reason l1 l2 aid ok c Hts Ha].
  - destruct Hc as [? ? ? ? Hl ? ? ? ?]. split; auto. intros a l Ha. destruct (Hl _ _ Ha) as [? ? ? Ht ?].
    split; auto. intros Hu Htr. destruct (Ht Hu Htr) as [|[]]; [by left|right]. simpl. split; [done|lia].
  - pose proof (ci_link _ Hc _ _ Ha) as [? ? ? ? Hus].
    eapply cinv_same_estab; eauto. split; simpl; auto.
    intros Hu. destruct (Hus Hu). congruence.
  - assert (Hu : user = false).
    { apply not_true_iff_false. intros Hu.
      destruct (lo_user _ _ (ci_link _ Hc _ _ Ha) Hu) as (_ & ? & _). congruence. }
    destruct (timer_step_ok c r e l Hc (ci_link _ Hc _ _ Ha) Hu) as (l1 & tx1 & E & Hok & He & Hev & _); [lia|].
    rewrite Ht in E. injection E as <- <-.
    assert (Hc' : cinv (with_link a l' c)).
    { eapply cinv_same_estab; eauto.
      destruct Hev as [_ [(_ & ? & _)|[(_ & _ & ? & _)|(_ & _ & ? & _)]]]; auto. }
    apply cinv_to_send with (l := to_send c ++ match tx with Some (action, reason) => [(a, action, reason)] | None => [] end) in Hc'.
    + done.
    + intros x. rewrite elem_of_app. intros [Hx|Hx]; [by apply (ci_late _ Hc')|].
      simpl. destruct tx as [[]|]; [|by apply not_elem_of_nil in Hx].
      apply list_elem_of_singleton in Hx as ->. simpl. rewrite lookup_insert_eq. eauto.
    + congruence.
  - assert (cinv (with_to_send (l1 ++ l2) c)).
    { apply cinv_to_send; [done| |].
      - intros x Hx. apply (ci_late _ Hc). rewrite Hts, elem_of_app, elem_of_cons.
        apply elem_of_app in Hx as []; auto.
      - intros Hu. pose proof (ci_user _ Hc Hu). rewrite Hts in *. by destruct l1. }
    destruct ok; [by apply cinv_logged|done].
Qed.

(** ** The other steps *)

Section steps.
Context (heard : list Z -> Z -> Z -> Prop) (told : list Z -> Z -> Prop) (relabel : list Z -> Prop).

Lemma link_ok_new n : link_ok n new_link.
Proof. split; simpl; try done; lia. Qed.

(** A link whose timer has just been started. *)
Lemma link_ok_armed n l l' e :
  link_ok n l -> user = false -> l' = armed e (at_state (l_state l') (with_ids (l_llid l') (l_plid l') l)) ->
  l_state l' <> NL80211_PLINK_LISTEN -> opening (l_state l') = false -> link_ok n l'.
Proof.
  intros [? ? ? ? ?] Hu -> ? Ho. simpl in *. split; simpl; auto; try done; congruence.
Qed.

Lemma link_ok_opening n l st id e t :
  link_ok n l -> user = false -> st <> NL80211_PLINK_LISTEN -> 1 <= t <= 255 ->
  link_ok n (armed e (retrying (l_retries l) t (with_ids id (l_plid l) (at_state st l)))).
Proof.
  intros [? ? ? ? ?] Hu ? Ht. split; simpl; auto; try done; [|congruence].
  pose proof (pow_retries (l_retries l)). intros _ _. nia.
Qed.

Lemma link_ok_ids n l x y :
  link_ok n l -> (x = l_llid l \/ user = false /\ l_state l <> NL80211_PLINK_LISTEN) ->
  link_ok n (with_ids x y l).
Proof.
  intros [Hl ? ? ? Hu] Hx. split; simpl; auto.
  - intros E. destruct Hx as [->|[_ ?]]; [auto|done].
  - intros E. destruct Hx as [->|[? _]]; [auto|congruence].
Qed.

Lemma link_ok_at n l st :
  link_ok n l -> (user = false -> transient st = false \/ transient (l_state l) = true) ->
  (user = false -> opening st = false \/ opening (l_state l) = true) ->
  (st = NL80211_PLINK_LISTEN -> user = true \/ l_llid l = 0 /\ l_retries l = 0) -> link_ok n (at_state st l).
Proof.
  intros [Hl Hr Ho Ht Hu] H1 H2 H3. split; simpl; auto.
  - intros E. destruct (H3 E) as [E'|]; [|done]. destruct (Hu E') as (_ & _ & ? & ?). done.
  - intros E1 E2. destruct (H2 E1); [congruence|auto].
  - intros E1 E2. destruct (H1 E1); [congruence|auto].
Qed.

Lemma link_ok_disarmed n l : link_ok n l -> transient (l_state l) = false -> link_ok n (disarmed l).
Proof.
  intros [? ? ? ? Hu] Ht. split; simpl; auto; [congruence|]. intros E. destruct (Hu E) as (_ & ?). done.
Qed.

Lemma link_ok_restarted n l : link_ok n l -> link_ok n (restarted l).
Proof.
  intros [? ? ? ? Hu]. split; simpl; auto; try done; try lia.
  intros E. destruct (Hu E) as (? & ? & _). done.
Qed.

Ltac count :=
  unfold l_estab; simpl;
  repeat match goal with H : l_state _ = _ |- _ => rewrite H end; simpl;
  try (let E := fresh in intros E; match goal with H : user = false -> _ |- _ => specialize (H E) end);
  repeat case_bool_decide; simpl; first [lia | done].

Lemma astep_inv c c' : cinv c -> astep user heard told relabel c c' -> cinv c'.
Proof.
  intros Hc Hs. pose proof (ci_bound _ Hc) as Hb. pose proof (ci_config _ Hc) as [Hret _].
  destruct Hs as [c c' Hi|a l action aid reason c Ha|a l aid c Ha|a x aid reason c|a l id e c Ha Hu Hst Hf
    |a l id c Ha Hu Hr Hst Hf|a l id e c Ha Hu Hst Hf|a l c Ha Hst|a l e c Ha Hu Hst Hh|a l c Ha Hu Hst Hh Hm
    |a l c Ha Hu Hst Hm|a l y c Ha Hu Ht Hy|a l e c Ha Hu Hst|a l e c Ha Hu Hst|a l c Ha Hst|a l c Ha Hst|a l c Ha
    |a l st c Ha Hu|a c Ha|a l c Ha|a l c Ha Hst|a l c Ha Hst Hp Hf Hts|t r m b c Ht Hr Hm Hbu].
  all: try (by apply cinv_logged).
  all: try (pose proof (ci_link _ Hc _ _ Ha) as Hl).
  - by eapply istep_inv.
  - apply cinv_logged. eapply cinv_same_estab; eauto.
    + by apply link_ok_opening.
    + unfold l_estab. simpl. by destruct (l_state l).
  - apply cinv_logged. eapply cinv_same_estab; eauto.
    apply link_ok_ids; [done|right]. split; [done|]. intros E. by rewrite E in Hst.
  - apply cinv_logged. eapply cinv_same_estab; eauto.
    + by apply link_ok_opening.
    + unfold l_estab. simpl. by rewrite Hst.
  - eapply cinv_same_estab; eauto.
    + apply link_ok_at; rewrite ?Hst; simpl; auto; done.
    + unfold l_estab. simpl. by rewrite Hst.
  - eapply cinv_same_estab; eauto.
    + by eapply link_ok_armed.
    + unfold l_estab. simpl. by rewrite Hst.
  - eapply cinv_link; eauto; [|count|count].
    apply link_ok_disarmed; [|done]. by apply link_ok_at; auto.
  - eapply cinv_link; eauto; [|count|count].
    apply link_ok_disarmed; [|done]. by apply link_ok_at; auto.
  - eapply cinv_same_estab; eauto. by apply link_ok_ids; auto.
  - eapply cinv_same_estab; eauto.
    + by eapply link_ok_armed.
    + unfold l_estab. simpl. by destruct (l_state l).
  - apply bool_decide_eq_true in Hst. eapply cinv_link; eauto; [by eapply link_ok_armed|count|count].
  - eapply cinv_same_estab; eauto; [by apply link_ok_restarted|]. unfold l_estab. simpl. by rewrite Hst.
  - eapply cinv_same_estab; eauto; [|unfold l_estab; simpl; by rewrite Hst].
    apply (link_ok_disarmed _ (restarted l)); [by apply link_ok_restarted|done].
  - eapply cinv_link; eauto; [by apply link_ok_at; auto|count|count].
  - eapply cinv_link; eauto; first [congruence | count | apply link_ok_at; auto; congruence].
  - destruct Hc as [He ? Hi Hl Ho ? ? ? ?]. split; simpl; auto.
    + rewrite count_insert_fresh by done. simpl. lia.
    + intros x y lx ly Hxy. rewrite !lookup_insert_Some.
      intros [[<- <-]|[Hx Lx]] [[<- <-]|[Hy Ly]] E; [done|done|done|by eapply (Hi x y)].
    + intros x Hx. destruct (decide (a = x.1.1)) as [<-|]; [rewrite lookup_insert_eq; eauto|].
      rewrite lookup_insert_ne by done. auto.
    + intros b lb. rewrite lookup_insert_Some. intros [[<- <-]|[_ H]]; [apply link_ok_new|eauto].
  - eapply cinv_same_estab; eauto. destruct Hl. by split.
  - eapply cinv_same_estab; eauto. apply link_ok_disarmed; [done|]. by rewrite Hst.
  - destruct Hc as [He ? Hi Hl2 Ho ? ? ? ?]. split; simpl; auto.
    + rewrite (count_delete _ _ l) by done. unfold l_estab. rewrite Hst. simpl. lia.
    + intros x y lx ly Hxy. rewrite !lookup_delete_Some. intros [_ ?] [_ ?]. by eapply (Hi x y).
    + intros x Hx. rewrite lookup_delete_ne by (by apply not_eq_sym, Hts). auto.
    + intros b lb. rewrite lookup_delete_Some. intros [_ ?]. eauto.
  - destruct Hc. by split.
Qed.
End steps.
End inv.
