(* ===== verification/MeshRefine.v ===== *)
(** * MeshRefine: the primitives of the handlers implement the steps

    [moves w w']: the links went from [abs w] to [abs w'] by the steps of
    [MeshSpec], and the stations are the same.  One rule per primitive; the
    bookkeeping of power save, slot time and HT protection does not touch a
    link. *)
From stdpp Require Import gmap.
From S2P Require Import Prelude Frame Chandef StateMonad Mesh MeshPlink MeshRun MeshSpec MeshInv.

(** ** Links and stations *)

Lemma peer_link a w s : peer a w = Some s -> links (abs w) !! a = Some (link_of s).
Proof. unfold peer. simpl. intros H. by rewrite lookup_fmap, H. Qed.

Lemma link_peer a w l : links (abs w) !! a = Some l -> exists s, peer a w = Some s /\ link_of s = l.
Proof.
  simpl. rewrite lookup_fmap. unfold peer. destruct (stas w !! a) as [s|]; [|done].
  intros [= <-]. eauto.
Qed.

Lemma no_link a w : links (abs w) !! a = None <-> peer a w = None.
Proof. simpl. rewrite lookup_fmap. unfold peer. by destruct (stas w !! a). Qed.

Lemma abs_put a s w : abs (put_sta a s w) = with_link a (link_of s) (abs w).
Proof. unfold abs, put_sta, with_link. simpl. by rewrite fmap_insert. Qed.

Lemma with_link_twice a l l' c : with_link a l' (with_link a l c) = with_link a l' c.
Proof. unfold with_link. simpl. by rewrite insert_insert_eq. Qed.

Lemma with_link_same a l c : links c !! a = Some l -> with_link a l c = c.
Proof. intros H. unfold with_link. rewrite insert_id by done. by destruct c. Qed.

Lemma links_with_link a l c : links (with_link a l c) !! a = Some l.
Proof. apply lookup_insert_eq. Qed.

(** Changes to a station that its link does not show. *)
Lemma abs_put_same a s s' w : peer a w = Some s -> link_of s' = link_of s -> abs (put_sta a s' w) = abs w.
Proof. intros Hs E. rewrite abs_put, E. by apply with_link_same, peer_link. Qed.

Definition silent (w w' : mesh_if) : Prop := abs w' = abs w /\ num_sta w' = num_sta w.

#[global] Instance silent_preorder : PreOrder silent.
Proof. split; [done|]. intros x y z [? ?] [? ?]. split; congruence. Qed.

Lemma silent_emit e w : link_event e = false -> silent w (emit e w).
Proof. intros He. split; [|done]. unfold abs, emit. simpl. by rewrite filter_cons_False by (by rewrite He). Qed.

Lemma silent_put a s s' w : peer a w = Some s -> link_of s' = link_of s -> silent w (put_sta a s' w).
Proof. intros. split; [by eapply abs_put_same|done]. Qed.

Lemma peer_put a s w : peer a (put_sta a s w) = Some s.
Proof. apply lookup_insert_eq. Qed.

(** ** What is silent *)

Lemma sta_status_update_silent a w : silent w (sta_status_update a w).
Proof.
  unfold sta_status_update. destruct (peer a w) as [s|] eqn:Hs; [|done].
  destruct (sta_state s <? IEEE80211_STA_ASSOC); [done|].
  set (buf := negb (bool_decide (sta_power_mode s = NL80211_MESH_POWER_ACTIVE))).
  set (s1 := if negb (is_estab s) then _ else _).
  assert (H1 : link_of s1 = link_of s) by (subst s1; destruct (is_estab s), buf; done).
  assert (S1 : silent w (put_sta a s1 w)) by (by eapply silent_put).
  destruct (eqb (ps_sta s1) buf); [done|]. destruct buf.
  - destruct (silent_put a s1 (set_ps_sta true s1) (put_sta a s1 w) (peer_put _ _ _) eq_refl) as [E N].
    split; [|done]. change (abs (set_num_sta_ps ?n ?w)) with (abs w). rewrite E. apply S1.
  - etrans; [exact S1|]. unfold ieee80211_sta_ps_deliver_wakeup.
    etrans; [|by apply silent_emit]. done.
Qed.

Lemma mps_rx_silent a b pm w : silent w (ieee80211_mps_rx_h_sta_process a b pm w).
Proof.
  unfold ieee80211_mps_rx_h_sta_process, sta_info_get.
  destruct (peer a w) as [s|] eqn:Hs; [|done]. destruct (listed s); [|done].
  destruct b; case_bool_decide; try done.
  all: etrans; [|apply sta_status_update_silent]; by eapply silent_put.
Qed.

(** [m] changes nothing the links show. *)
Definition silently {A} (m : M mesh_if A) (w : mesh_if) : Prop := wp m (fun _ w' => silent w w') w.

Lemma silently_ret {A} (x : A) w : silently (ret x) w.
Proof. by apply swp_ret. Qed.

Lemma silently_bind {A B} (m : M mesh_if A) (k : A -> M mesh_if B) w :
  silently m w -> (forall x w', silent w w' -> silently (k x) w') -> silently (bind m k) w.
Proof.
  intros Hm Hk. apply swp_bind. eapply swp_mono; [exact Hm|]. intros x w1 S1. cbn beta in S1.
  eapply swp_mono; [by apply Hk|]. intros y w2 S2. cbn beta in *. by etrans.
Qed.

Lemma silently_gets {A} (f : mesh_if -> A) w : silently (gets f) w.
Proof. by apply swp_gets. Qed.

Lemma silently_modify f w : silent w (f w) -> silently (modify f) w.
Proof. intros. by apply swp_modify. Qed.

Lemma silently_get_sta a w : is_Some (links (abs w) !! a) -> silently (get_sta a) w.
Proof.
  intros [l Hl]. destruct (link_peer _ _ _ Hl) as (s & Hs & _).
  unfold silently, wp, get_sta, from_option. by rewrite Hs.
Qed.

Lemma silently_if {A} (b : bool) (m m' : M mesh_if A) w : silently m w -> silently m' w -> silently (if b then m else m') w.
Proof. by destruct b. Qed.

Lemma silently_when b m w : silently m w -> silently (when b m) w.
Proof. intros. destruct b; [done|apply silently_ret]. Qed.

Lemma silent_links a w w' : silent w w' -> is_Some (links (abs w) !! a) -> is_Some (links (abs w') !! a).
Proof. by intros [-> _]. Qed.

Lemma upd_mesh_silent a f w :
  is_Some (links (abs w) !! a) -> (forall s, link_of (set_mesh (f (mesh s)) s) = link_of s) -> silently (upd_mesh a f) w.
Proof.
  intros [l Hl] Hf. destruct (link_peer _ _ _ Hl) as (s & Hs & _).
  unfold silently, wp, upd_mesh, upd_sta, bind, get_sta, from_option. rewrite Hs. simpl.
  eapply silent_put; eauto.
Qed.

Lemma upd_sta_silent a f w :
  is_Some (links (abs w) !! a) -> (forall s, link_of (f s) = link_of s) -> silently (upd_sta a f) w.
Proof.
  intros [l Hl] Hf. destruct (link_peer _ _ _ Hl) as (s & Hs & _).
  unfold silently, wp, upd_sta, bind, get_sta, from_option. rewrite Hs. simpl. eapply silent_put; eauto.
Qed.

Ltac silently :=
  repeat (intros; first
    [ apply silently_ret | apply silently_gets | apply silently_when | apply silently_if
    | apply silently_modify; done
    | apply silently_modify, silent_emit; done
    | apply upd_mesh_silent; [solve [eauto using silent_links]|done]
    | apply upd_sta_silent; [solve [eauto using silent_links]|done]
    | apply silently_get_sta; solve [eauto using silent_links]
    | apply silently_bind ]); intros.

Lemma accept_plinks_silent w : silently mesh_accept_plinks_update w.
Proof. unfold mesh_accept_plinks_update. silently. Qed.

Lemma notify_silent n w : silently (ieee80211_mbss_info_change_notify n) w.
Proof. unfold ieee80211_mbss_info_change_notify. silently. Qed.

Lemma local_status_silent w : silently ieee80211_mps_local_status_update w.
Proof. unfold ieee80211_mps_local_status_update. silently. Qed.

Lemma sta_status_silent a w : is_Some (links (abs w) !! a) -> silently (ieee80211_mps_sta_status_update a) w.
Proof.
  unfold ieee80211_mps_sta_status_update. silently. apply silently_modify, sta_status_update_silent.
Qed.

Lemma local_pm_silent a pm w : is_Some (links (abs w) !! a) -> silently (ieee80211_mps_set_sta_local_pm a pm) w.
Proof.
  intros Hl. unfold ieee80211_mps_set_sta_local_pm. silently.
Qed.

Lemma short_slot_silent p w : silently (mesh_set_short_slot_time p) w.
Proof. unfold mesh_set_short_slot_time. silently. destruct (sband p); silently. Qed.

Lemma ht_prot_silent p w : silently (mesh_set_ht_prot_mode p) w.
Proof. unfold mesh_set_ht_prot_mode. silently. destruct (width (oper p)); silently. Qed.

(** ** Interrupts *)

Definition same_peers (c c' : core) : Prop :=
  forall a, l_listed <$> links c' !! a = l_listed <$> links c !! a.

#[global] Instance same_peers_preorder : PreOrder same_peers.
Proof. split; [done|]. intros x y z H1 H2 a. by rewrite H2, H1. Qed.

Lemma same_peers_link c a l l' :
  links c !! a = Some l -> l_listed l' = l_listed l -> same_peers c (with_link a l' c).
Proof.
  intros Ha E b. simpl. destruct (decide (a = b)) as [<-|]; [|by rewrite lookup_insert_ne].
  rewrite lookup_insert_eq, Ha. simpl. by rewrite E.
Qed.

#[global] Instance evolves_preorder : PreOrder evolves.
Proof.
  split; [intros l; split; auto|]. intros x y z [L1 H1] [L2 H2]. split; [congruence|].
  destruct H1 as [(E1 & ? & ?)|[(T1 & E1 & ? & ?)|(T1 & E1 & ? & ?)]];
    destruct H2 as [(E2 & ? & ?)|[(T2 & E2 & ? & ?)|(T2 & E2 & ? & ?)]];
    rewrite ?E1 in *; simpl in *; try discriminate;
    first [left; split_and!; congruence
          | right; left; split_and!; congruence
          | right; right; split_and!; congruence].
Qed.

#[global] Instance irq_frame_preorder : PreOrder irq_frame.
Proof.
  split.
  - intros c. split; try done. intros a. by destruct (links c !! a); simpl.
  - intros x y z [L1 ? ? ? ? ?] [L2 ? ? ? ? ?]. split; try congruence. intros a.
    specialize (L1 a). specialize (L2 a).
    destruct (links x !! a), (links y !! a), (links z !! a); simpl in *; try done. by etrans.
Qed.

Lemma irq_frame_link c a l l' :
  links c !! a = Some l -> evolves l l' -> irq_frame c (with_link a l' c).
Proof.
  intros Ha He. split; try done. intros b. simpl. destruct (decide (a = b)) as [<-|].
  - by rewrite lookup_insert_eq, Ha.
  - rewrite lookup_insert_ne by done. by destruct (links c !! b); simpl.
Qed.

Lemma irq_frame_same c c' : links c' = links c -> estab c' = estab c -> retry_timeout c' = retry_timeout c ->
  max_retries c' = max_retries c -> max_links c' = max_links c -> quiet c' = quiet c -> irq_frame c c'.
Proof. intros E ? ? ? ? ?. split; try done. intros a. rewrite E. by destruct (links c !! a); simpl. Qed.

Lemma timer_step_evolves c r e l l' tx : timer_step c r e l = Some (l', tx) -> evolves l l'.
Proof.
  unfold timer_step. destruct (quiet c || _); [intros [= <- <-]; split; auto|].
  cbn [with_fired l_state l_retries l_timeout].
  destruct (l_state l) eqn:E; try (intros [= <- <-]; split; simpl; rewrite ?E; auto 10; done).
  all: destruct (_ <? _); [destruct (_ =? _); [done|]|]; intros [= <- <-]; split; simpl; rewrite ?E; auto 10.
Qed.

Lemma istep_frame c c' : istep c c' -> irq_frame c c'.
Proof.
  intros [n c0 _|a l c0 Ha _ _|a l r e l' tx c0 Ha _ _ Ht|a l action reason l1 l2 aid ok c0 _ _].
  - by apply irq_frame_same.
  - eapply irq_frame_link; [done|]. split; simpl; auto.
  - etrans; [eapply irq_frame_link; [done|by eapply timer_step_evolves]|]. by apply irq_frame_same.
  - by destruct ok; apply irq_frame_same.
Qed.

Lemma isteps_frame c c' : rtc istep c c' -> irq_frame c c'.
Proof. induction 1 as [|x y z H _ IH]; [done|]. etrans; [by apply istep_frame|done]. Qed.

Lemma irq_frame_peers c c' : irq_frame c c' -> same_peers c c'.
Proof.
  intros [L _ _ _ _ _] a. specialize (L a).
  destruct (links c !! a), (links c' !! a); simpl in *; try done. destruct L as [-> _]. done.
Qed.

Lemma irq_frame_at c c' a l :
  irq_frame c c' -> links c !! a = Some l -> exists l', links c' !! a = Some l' /\ evolves l l'.
Proof.
  intros [L _ _ _ _ _] Ha. specialize (L a). rewrite Ha in L.
  destruct (links c' !! a) as [l'|]; simpl in *; [eauto|done].
Qed.

Lemma isteps_inv user c c' : cinv user c -> rtc istep c c' -> cinv user c'.
Proof. intros Hc H. induction H as [|x y z Hs _ IH]; [done|]. apply IH. by eapply istep_inv. Qed.

Definition irqs (w w' : mesh_if) : Prop := rtc istep (abs w) (abs w') /\ num_sta w' = num_sta w.

#[global] Instance irqs_preorder : PreOrder irqs.
Proof. split; [done|]. intros x y z [? ?] [? ?]. split; [by etrans|congruence]. Qed.

Lemma silent_irqs w w' : silent w w' -> irqs w w'.
Proof. intros [E ?]. split; [by rewrite E|done]. Qed.

Lemma istep_irqs w w' : istep (abs w) (abs w') -> num_sta w' = num_sta w -> irqs w w'.
Proof. intros. split; [by apply rtc_once|done]. Qed.

Section rules.
Context (p : params).

Lemma swp_silently {A} (m : M mesh_if A) (Q : A -> mesh_if -> Prop) w :
  silently m w -> (forall x w', silent w w' -> Q x w') -> wp m Q w.
Proof. intros Hm HQ. eapply swp_mono; [exact Hm|]. auto. Qed.

Lemma swp_get_sta a l (Q : sta_info -> mesh_if -> Prop) w :
  links (abs w) !! a = Some l -> (forall s, peer a w = Some s -> link_of s = l -> Q s w) -> wp (get_sta a) Q w.
Proof.
  intros Hl HQ. destruct (link_peer _ _ _ Hl) as (s & Hs & E).
  unfold wp, get_sta, from_option. rewrite Hs. auto.
Qed.

(** An update of a station is an update [g] of its link. *)
Lemma swp_upd_sta a f (g : link -> link) l (Q : unit -> mesh_if -> Prop) w :
  links (abs w) !! a = Some l -> (forall s, link_of (f s) = g (link_of s)) ->
  (forall w', abs w' = with_link a (g l) (abs w) -> num_sta w' = num_sta w -> Q tt w') ->
  wp (upd_sta a f) Q w.
Proof.
  intros Hl Hf HQ. unfold upd_sta. apply swp_bind. eapply swp_get_sta; [done|]. intros s Hs E.
  apply swp_modify, HQ; [|done]. by rewrite abs_put, Hf, E.
Qed.

Lemma swp_upd_mesh a f (g : link -> link) l (Q : unit -> mesh_if -> Prop) w :
  links (abs w) !! a = Some l -> (forall s, link_of (set_mesh (f (mesh s)) s) = g (link_of s)) ->
  (forall w', abs w' = with_link a (g l) (abs w) -> num_sta w' = num_sta w -> Q tt w') ->
  wp (upd_mesh a f) Q w.
Proof. intros. by eapply swp_upd_sta. Qed.

Lemma swp_mod_timer a t l (Q : unit -> mesh_if -> Prop) w :
  links (abs w) !! a = Some l ->
  (forall e w', abs w' = with_link a (armed e l) (abs w) -> num_sta w' = num_sta w -> Q tt w') ->
  wp (mod_plink_timer p a t) Q w.
Proof.
  intros Hl HQ. unfold mod_plink_timer. apply swp_bind, swp_gets.
  eapply (swp_upd_mesh _ _ (armed (jiffies w + msecs_to_jiffies p t))); [done|done|]. eauto.
Qed.

Lemma next_alloc_wp (Q : bool -> mesh_if -> Prop) w : (forall b w', silent w w' -> Q b w') -> wp next_alloc Q w.
Proof. intros HQ. unfold wp, next_alloc. destruct (allocs w); by apply HQ. Qed.

Lemma silent_abs w w' : silent w w' -> abs w' = abs w.
Proof. by intros []. Qed.

(** A frame is sent, or there is no memory for it. *)
Lemma swp_frame_tx sta action da x y reason (Q : Z -> mesh_if -> Prop) w :
  (action = WLAN_SP_MESH_PEERING_CONFIRM -> exists a, sta = Some a /\ is_Some (links (abs w) !! a)) ->
  (forall r w', num_sta w' = num_sta w ->
     (abs w' = abs w \/ exists aid,
        abs w' = logged (ev_frame da (mk_frame action aid (peering_ie action x y reason))) (abs w)) -> Q r w') ->
  wp (mesh_plink_frame_tx p sta action da x y reason) Q w.
Proof.
  intros Hc HQ. unfold mesh_plink_frame_tx. apply swp_bind, next_alloc_wp. intros ok w1 [E1 N1].
  destruct ok; cbn [negb]; [|by apply swp_ret, HQ; auto].
  destruct (negb (bool_decide (action = _)) && _); [by apply swp_ret, HQ; auto|].
  assert (Hsend : forall aid w2, silent w1 w2 ->
    wp (modify (emit (ev_frame da (mk_frame action aid (peering_ie action x y reason)))) ;;; ret 0) Q w2).
  { intros aid w2 [E2 N2]. apply swp_bind, swp_modify, swp_ret, HQ; [simpl; congruence|]. right. exists aid.
    rewrite <- E1, <- E2. done. }
  apply swp_bind. case_bool_decide as Ha.
  - destruct (Hc Ha) as (a & -> & l & Hl). apply swp_bind. cbn. apply swp_bind.
    eapply swp_get_sta; [by rewrite E1|]. intros s _ _. apply swp_ret. by apply Hsend.
  - apply swp_ret. by apply Hsend.
Qed.

Lemma swp_plink_frame_tx a action reason l (Q : unit -> mesh_if -> Prop) w :
  links (abs w) !! a = Some l ->
  (forall w', num_sta w' = num_sta w ->
     (abs w' = abs w \/ exists aid, abs w' = logged (sent a l action aid reason) (abs w)) -> Q tt w') ->
  wp (plink_frame_tx p a action reason) Q w.
Proof.
  intros Hl HQ. unfold plink_frame_tx. apply swp_bind. eapply swp_get_sta; [done|]. intros s _ E.
  apply swp_bind. apply swp_frame_tx; [eauto|]. intros r w' N H. apply swp_ret, HQ; [done|].
  rewrite <- E. done.
Qed.

Lemma get_random_u32_wp (Q : Z -> mesh_if -> Prop) w :
  (forall r w', silent w w' -> 0 <= r < 2 ^ 32 -> Q r w') -> wp get_random_u32 Q w.
Proof.
  intros HQ. unfold wp, get_random_u32. destruct (rand32 w); apply HQ; try done. apply wrap_range. lia.
Qed.

(** The part of the timer handler that runs under the lock, from a link whose
    [fired] mark is gone. *)
Lemma swp_timer_locked a l (Q : option (plink_action * Z) -> mesh_if -> Prop) c w :
  quiet c = false -> now c = now (abs w) -> max_retries c = max_retries (abs w) ->
  links (abs w) !! a = Some (with_fired false l) ->
  (opening (l_state l) = true -> l_timeout l <> 0) ->
  (forall r e l' tx w', 0 <= r < 2 ^ 32 -> timer_step c r e l = Some (l', tx) ->
     abs w' = with_link a l' (abs w) -> num_sta w' = num_sta w -> Q tx w') ->
  wp (plink_timer_locked p a) Q w.
Proof.
  intros Hq Hn Hm Hl Ht HQ. unfold plink_timer_locked.
  apply swp_bind. eapply swp_get_sta; [done|]. intros s _ Es. apply swp_bind, swp_gets. unfold id.
  assert (Ex : timer_expires (mesh s) = l_expires l) by exact (f_equal l_expires Es).
  assert (Est : plink_state (mesh s) = l_state l) by exact (f_equal l_state Es).
  assert (Ere : plink_retries (mesh s) = l_retries l) by exact (f_equal l_retries Es).
  assert (Eto : plink_timeout (mesh s) = l_timeout l) by exact (f_equal l_timeout Es).
  assert (Hhold : forall reason, (forall e, timer_step c 0 e l =
      Some (armed e (at_state NL80211_PLINK_HOLDING (with_fired false l)), Some (WLAN_SP_MESH_PEERING_CLOSE, reason))) ->
    wp (upd_mesh a (set_plink_state NL80211_PLINK_HOLDING) ;;;
        mod_plink_timer p a (dot11MeshHoldingTimeout (mshcfg w)) ;;;
        ret (Some (WLAN_SP_MESH_PEERING_CLOSE, reason))) Q w).
  { intros reason E. apply swp_bind. eapply (swp_upd_mesh _ _ (at_state NL80211_PLINK_HOLDING)); [done|done|].
    intros w1 E1 N1. apply swp_bind. eapply swp_mod_timer; [rewrite E1; apply links_with_link|].
    intros e w2 E2 N2. apply swp_ret. eapply (HQ 0 e); [lia|apply E| |congruence].
    by rewrite E2, E1, with_link_twice. }
  unfold timer_step in Hhold, HQ. rewrite Hq in *. cbn [orb] in *.
  change (l_expires (with_fired false l)) with (l_expires l) in *.
  rewrite Ex. change (jiffies w) with (now (abs w)). rewrite <- Hn.
  destruct (now c <? l_expires l); [apply swp_ret; eapply (HQ 0 0); [lia|done|by symmetry; apply with_link_same|done]|].
  change (l_state (with_fired false l)) with (l_state l) in *.
  change (l_retries (with_fired false l)) with (l_retries l) in *.
  change (l_timeout (with_fired false l)) with (l_timeout l) in *. rewrite Est.
  change (dot11MeshMaxRetries (mshcfg w)) with (max_retries (abs w)). rewrite <- Hm, Ere, Eto.
  destruct (l_state l) eqn:El; try (by apply Hhold);
    try (apply swp_ret; eapply (HQ 0 0); [lia|done|by symmetry; apply with_link_same|done]).
  3: { apply swp_bind. eapply (swp_upd_mesh _ _ (fun l => restarted (disarmed l))); [done|done|].
       intros w1 E1 N1. apply swp_ret. by eapply (HQ 0 0). }
  all: destruct (l_retries l <? max_retries c) eqn:Er; [|by apply Hhold].
  all: apply swp_bind, get_random_u32_wp; intros r w1 [E1 N1] Hr.
  all: destruct (Z.eqb_spec (l_timeout l) 0); [by destruct Ht|].
  all: apply swp_bind.
  all: eapply (swp_upd_mesh _ _ (fun l' => retrying (u8 (l_retries l' + 1)) (u32 (l_timeout l + r mod l_timeout l)) l'));
    [by rewrite E1|done|].
  all: intros w2 E2 N2; apply swp_bind; eapply swp_mod_timer; [rewrite E2; apply links_with_link|];
    intros e w3 E3 N3; apply swp_ret; eapply (HQ r e); [lia|reflexivity| |congruence];
    by rewrite E3, E2, E1, with_link_twice.
Qed.

Lemma cinv_timeout c a l :
  cinv (user_mpm p) c -> links c !! a = Some l -> l_fired l = true -> opening (l_state l) = true -> l_timeout l <> 0.
Proof.
  intros Hc Hl Hf Ho. destruct (ci_link _ _ Hc _ _ Hl) as [_ _ Ht _ Hu].
  destruct (user_mpm p); [destruct (Hu eq_refl) as (_ & ? & _); congruence|].
  specialize (Ht eq_refl Ho). lia.
Qed.

Lemma timer_step_fired c r e l l' tx : timer_step c r e l = Some (l', tx) -> l_fired l' = false.
Proof.
  unfold timer_step. destruct (quiet c || _); [by intros [= <- <-]|].
  destruct (l_state _); try (by intros [= <- <-]).
  all: destruct (_ <? _); [destruct (_ =? _); [done|]|]; by intros [= <- <-].
Qed.

(** Afterwards the handler of this timer is not about to run, and the link is as
    the handler leaves it. *)
Record timer_ran (a : list Z) (w w' : mesh_if) : Prop := {
  tr_irqs : irqs w w';
  tr_fired : forall l, links (abs w') !! a = Some l -> l_fired l = false;
  tr_step : forall l, links (abs w) !! a = Some l ->
    if l_fired l then exists r e l' tx, timer_step (abs w) r e l = Some (l', tx) /\ links (abs w') !! a = Some l'
    else w' = w;
}.

Lemma irq_timer_wp a w :
  cinv (user_mpm p) (abs w) -> wp (run_irq p (irq_timer a)) (fun _ w' => timer_ran a w w') w.
Proof.
  intros Hc. unfold wp, run_irq. destruct (peer a w) as [s|] eqn:Hs.
  2: { apply no_link in Hs. split; [done| |]; intros l Hl; congruence. }
  pose proof (peer_link _ _ _ Hs) as Hl. destruct (timer_fired (mesh s)) eqn:Hf.
  2: { split; [done| |]; intros l; rewrite Hl; intros [= <-]; [done|]. by rewrite (Hf : l_fired (link_of s) = false). }
  set (w0 := put_sta _ _ _).
  assert (E0 : abs w0 = with_link a (with_fired false (link_of s)) (abs w)) by apply abs_put.
  change (wp (mesh_plink_timer p a) (fun _ w' => timer_ran a w w') w0).
  unfold mesh_plink_timer. apply swp_bind, swp_gets.
  pose proof (ci_quiet _ _ Hc) as Hq. change (quiescing w0) with (quiet (abs w)). rewrite Hq.
  apply swp_bind. apply (swp_timer_locked a (link_of s) _ (abs w)); first [exact Hq | by rewrite E0 | idtac].
  - rewrite E0. apply links_with_link.
  - by eapply cinv_timeout.
  - intros r e l' tx w1 Hr Ht E1 N1. rewrite E0, with_link_twice in E1.
    pose proof (i_timer a (link_of s) r e l' tx (abs w) Hl Hf Hr Ht) as Hi.
    assert (Hfi : forall l, links (abs w1) !! a = Some l -> l_fired l = false).
    { intros l. rewrite E1, links_with_link. intros [= <-]. by eapply timer_step_fired. }
    assert (Hst : forall k, links (abs w) !! a = Some k -> if l_fired k
        then exists r e l' tx, timer_step (abs w) r e k = Some (l', tx) /\ links (abs w1) !! a = Some l' else w1 = w).
    { intros k. rewrite Hl. intros [= <-]. rewrite (Hf : l_fired (link_of s) = true). exists r, e, l', tx.
      split; [done|]. rewrite E1. apply links_with_link. }
    destruct tx as [[action reason]|].
    + apply swp_modify. split; [|exact Hfi|].
      2: { intros k Hk. specialize (Hst k Hk). rewrite Hl in Hk. injection Hk as <-.
           rewrite (Hf : l_fired (link_of s) = true) in *. exact Hst. }
      apply istep_irqs; [|done].
      change (istep (abs w) (with_to_send (to_send (abs w1) ++ [(a, action, reason)]) (abs w1))).
      rewrite E1. exact Hi.
    + apply swp_ret. split; [|exact Hfi|exact Hst]. apply istep_irqs; [|done]. rewrite E1. rewrite app_nil_r in Hi.
      by destruct (abs w).
Qed.

Lemma irq_late_wp w : cinv (user_mpm p) (abs w) -> wp (run_irq p irq_late) (fun _ w' => irqs w w') w.
Proof.
  intros Hc. unfold wp, run_irq. destruct (late w) as [|[[a action] reason] l] eqn:Hl; [done|].
  assert (Hx : (a, action, reason) ∈ to_send (abs w)) by (simpl; rewrite Hl; apply elem_of_cons; by left).
  destruct (ci_late _ _ Hc _ Hx) as [k Hk]. simpl in Hk.
  set (w0 := set_late l w).
  assert (Hi : forall aid (ok : bool), istep (abs w) (let c := with_to_send l (abs w) in if ok then logged (sent a k action aid reason) c else c)).
  { intros aid ok. by apply (i_late a k action reason [] l aid ok (abs w)). }
  change (wp (plink_frame_tx p a action reason) (fun _ w' => irqs w w') w0).
  eapply (swp_plink_frame_tx _ _ _ k); [done|]. intros w1 N1 [E1|[aid E1]].
  - apply istep_irqs; [|done]. rewrite E1. apply (Hi None false).
  - apply istep_irqs; [|done]. rewrite E1. apply (Hi aid true).
Qed.

Lemma run_irq_wp i w : cinv (user_mpm p) (abs w) -> wp (run_irq p i) (fun _ w' => irqs w w') w.
Proof.
  intros Hc. destruct i as [n|a|a| |a b pm].
  - apply swp_modify. apply istep_irqs; [|done]. apply (i_tick (Z.max 0 n)). lia.
  - unfold wp, run_irq. destruct (peer a w) as [s|] eqn:Hs; [|done].
    destruct (timer_pending (mesh s)) eqn:Hp; simpl; [|done].
    destruct (Z.leb_spec (timer_expires (mesh s)) (jiffies w)); [|done].
    apply istep_irqs; [|done]. rewrite abs_put. apply (i_expire a (link_of s)); [by apply peer_link|done|done].
  - eapply swp_mono; [by apply irq_timer_wp|]. by intros [] w' [? _ _].
  - by apply irq_late_wp.
  - apply swp_modify, silent_irqs, mps_rx_silent.
Qed.

Lemma irqs_inv w w' : cinv (user_mpm p) (abs w) -> irqs w w' -> cinv (user_mpm p) (abs w').
Proof. intros Hc [H _]. by eapply isteps_inv. Qed.

Lemma irqs_wp l w : cinv (user_mpm p) (abs w) -> wp (iter (run_irq p) l) (fun _ w' => irqs w w') w.
Proof.
  intros Hc. apply (swp_iter _ (fun w' => irqs w w')); [|done]. intros i w1 H1.
  eapply swp_mono; [apply run_irq_wp; by eapply irqs_inv|]. intros [] w2 H2. cbn beta in *. by etrans.
Qed.

Lemma swp_preempt (Q : unit -> mesh_if -> Prop) w :
  cinv (user_mpm p) (abs w) -> (forall w', irqs w w' -> Q tt w') -> wp (preempt p) Q w.
Proof.
  intros Hc HQ. unfold wp, preempt. destruct (schedule w) as [|l sched]; [by apply HQ|].
  change (wp (iter (run_irq p) l) Q (set_schedule sched w)).
  eapply swp_mono; [by apply irqs_wp|]. intros [] w'. apply HQ.
Qed.

(** ** New link IDs *)

Definition all_listed (c : core) : Prop := forall a l, links c !! a = Some l -> l_listed l = true.

Lemma llids_in_use w a l id :
  all_listed (abs w) -> links (abs w) !! a = Some l -> llid_in_use id w = false -> l_llid l <> id.
Proof.
  intros Hl Ha Hu E. destruct (link_peer _ _ _ Ha) as (s & Hs & <-).
  assert (llid_in_use id w = true); [|congruence].
  unfold llid_in_use. apply existsb_exists. exists s. split; [|by apply Z.eqb_eq].
  apply list_elem_of_In. unfold sta_list. apply list_elem_of_filter. split; [by apply (Hl _ _ Ha)|].
  apply list_elem_of_fmap. exists (a, s). split; [done|]. by apply elem_of_map_to_list.
Qed.

Lemma draw_spec used l id l' : draw used l = Some (id, l') -> used id = false.
Proof.
  induction l as [|x l IH]; cbn [draw].
  - destruct (find _ _) as [y|] eqn:E; [cbn [option_map]|done]. intros [= <- <-]. apply find_some in E as [_ E].
    by apply negb_true_iff in E.
  - destruct (used (u16 x)) eqn:E; [done|]. by intros [= <- <-].
Qed.

Lemma draw_range used l id l' : draw used l = Some (id, l') -> 0 <= id < 2 ^ 16.
Proof.
  induction l as [|x l IH]; cbn [draw].
  - destruct (find _ _) as [y|] eqn:E; [cbn [option_map]|done]. intros [= <- <-]. apply find_some in E as [E _].
    apply list_elem_of_In, elem_of_seqZ in E. lia.
  - destruct (used (u16 x)); [done|]. intros [= <- <-]. apply wrap_range. lia.
Qed.

(** With fewer than 65535 stations there is always a number left. *)
Lemma draw_total w l : (size (stas w) < Z.to_nat 65535)%nat -> is_Some (draw (fun id => llid_in_use id w) l).
Proof.
  intros Hn. induction l as [|x l IH]; cbn [draw]; [|by destruct (llid_in_use _ _)].
  destruct (find _ _) as [y|] eqn:E; [by eexists|]. exfalso.
  set (used := map (fun s => llid (mesh s)) (map snd (map_to_list (stas w)))).
  assert (Hs : seqZ 1 65535 ⊆ used).
  { intros i Hi. apply list_elem_of_In in Hi. pose proof (find_none _ _ E i Hi) as Hu.
    apply negb_false_iff in Hu. unfold llid_in_use in Hu. apply existsb_exists in Hu as (s & Hs & Hid).
    apply list_elem_of_In in Hs. unfold sta_list in Hs. apply list_elem_of_filter in Hs as [_ Hs].
    apply Z.eqb_eq in Hid. subst used. apply list_elem_of_fmap. eauto. }
  assert (Hd : NoDup (seqZ 1 65535)) by apply NoDup_seqZ.
  pose proof (submseteq_length _ _ (NoDup_submseteq _ _ Hd Hs)) as Hlen.
  subst used. rewrite length_seqZ, !length_fmap, length_map_to_list in Hlen. lia.
Qed.

Lemma swp_new_llid a (Q : Z -> mesh_if -> Prop) w :
  all_listed (abs w) -> Z.of_nat (size (links (abs w))) < 65535 ->
  (forall id w', fresh_id id (abs w) -> abs w' = logged (ev_llid a id) (abs w) -> num_sta w' = num_sta w -> Q id w') ->
  wp (mesh_get_new_llid a) Q w.
Proof.
  intros Hl Hn HQ. unfold mesh_get_new_llid. apply swp_bind, swp_gets. unfold id. apply swp_bind.
  simpl in Hn. rewrite map_size_fmap in Hn.
  destruct (draw_total w (rand16 w)) as [[i l] E]; [lia|].
  unfold wp at 1, from_option. rewrite E. apply swp_bind, swp_modify, swp_ret, HQ; [|done|done].
  split; [by apply (draw_range _ _ _ _ E)|].
  intros b k Hb. eapply llids_in_use; [done|done|]. by apply (draw_spec _ _ _ _ E).
Qed.
End rules.
