(* ===== verification/MeshHandlers.v ===== *)
(** * MeshHandlers: the handlers implement the steps

    Each handler of [MeshPlink] takes the links by the steps of [MeshSpec], with
    interrupts wherever it can be preempted, and does not fault. *)
From stdpp Require Import gmap.
From S2P Require Import Prelude Frame Chandef StateMonad Mesh MeshPlink MeshRun MeshSpec MeshInv MeshRefine.

Section handlers.
Context (p : params) (heard : list Z -> Z -> Z -> Prop) (told : list Z -> Z -> Prop) (relabel : list Z -> Prop).
Abbreviation user := (user_mpm p).
Abbreviation step := (astep user heard told relabel).

Record moves (w w' : mesh_if) : Prop := {
  mv_steps : rtc step (abs w) (abs w');
  mv_peers : same_peers (abs w) (abs w');
  mv_num : num_sta w' = num_sta w;
}.

#[local] Instance moves_preorder : PreOrder moves.
Proof. split; [done|]. intros x y z [] []. split; [by etrans|by etrans|congruence]. Qed.

Lemma steps_inv c c' : cinv user c -> rtc step c c' -> cinv user c'.
Proof. intros Hc H. induction H as [|x y z Hs _ IH]; [done|]. apply IH. by eapply astep_inv. Qed.

Lemma moves_inv w w' : moves w w' -> cinv user (abs w) -> cinv user (abs w').
Proof. intros [] ?. by eapply steps_inv. Qed.

Lemma silent_moves w w' : silent w w' -> moves w w'.
Proof. intros [E ?]. split; [by rewrite E|by rewrite E|done]. Qed.

Lemma irqs_moves w w' : irqs w w' -> moves w w'.
Proof.
  intros [H ?]. split; [|by apply irq_frame_peers, isteps_frame|done].
  induction H as [|x y z Hs _ IH]; [done|]. eapply rtc_l; [by apply a_irq|done].
Qed.

Lemma step_moves w w' : step (abs w) (abs w') -> same_peers (abs w) (abs w') -> num_sta w' = num_sta w -> moves w w'.
Proof. intros. split; [by apply rtc_once|done|done]. Qed.

(** A step that changes one link, and perhaps the count or the log. *)
Lemma link_moves a l l' e (ev : core -> core) w w' :
  links (abs w) !! a = Some l -> l_listed l' = l_listed l -> num_sta w' = num_sta w ->
  abs w' = with_estab e (ev (with_link a l' (abs w))) -> (forall c, links (ev c) = links c) ->
  step (abs w) (abs w') -> moves w w'.
Proof.
  intros Hl Hls N E Hev Hs. apply step_moves; [done| |done]. intros b. rewrite E. simpl. rewrite Hev.
  by apply (same_peers_link _ _ _ _ Hl Hls).
Qed.

Lemma frame_moves a l action reason w w' :
  links (abs w) !! a = Some l -> (action = WLAN_SP_MESH_PEERING_CONFIRM -> confirmable l) ->
  num_sta w' = num_sta w ->
  (abs w' = abs w \/ exists aid, abs w' = logged (sent a l action aid reason) (abs w)) ->
  moves w w'.
Proof.
  intros Hl Hk N [E|[aid' E]]; [by apply silent_moves|].
  apply step_moves; [rewrite E; by apply a_tx|by rewrite E|done].
Qed.

Lemma swp_moves {A} (m : M mesh_if A) (Q : A -> mesh_if -> Prop) w0 w :
  moves w0 w -> wp m (fun x w' => moves w w' /\ Q x w') w -> wp m (fun x w' => moves w0 w' /\ Q x w') w.
Proof. intros H Hm. eapply swp_mono; [exact Hm|]. intros x w' []. split; [by etrans|done]. Qed.

(** A CONFIRM may be sent. *)
Definition busy (a : list Z) (w : mesh_if) : Prop := exists l, links (abs w) !! a = Some l /\ confirmable l.

Lemma busy_irqs a w w' : busy a w -> irqs w w' -> busy a w'.
Proof.
  intros (l & Hl & Hb) [H%isteps_frame _]. destruct (irq_frame_at _ _ _ _ H Hl) as (l' & Hl' & [_ He]).
  exists l'. split; [done|]. unfold confirmable in *.
  destruct He as [(-> & _ & ->)|[(_ & -> & _)|(_ & _ & _ & ->)]]; [done|by left|by right].
Qed.

Lemma busy_same a w w' : busy a w -> links (abs w') = links (abs w) -> busy a w'.
Proof. unfold busy. by intros ? ->. Qed.

Lemma swp_tx a action reason w0 w :
  moves w0 w -> (action = WLAN_SP_MESH_PEERING_CONFIRM -> busy a w) -> is_Some (links (abs w) !! a) ->
  wp (plink_frame_tx p a action reason) (fun _ w' => moves w0 w' /\ links (abs w') = links (abs w)) w.
Proof.
  intros H Hk [l Hl]. eapply swp_plink_frame_tx; [done|]. intros w' N E. split.
  - etrans; [done|]. eapply (frame_moves a l action); [done| |done|done].
    intros Ea. destruct (Hk Ea) as (l' & Hl' & Hc). congruence.
  - by destruct E as [->|[aid ->]].
Qed.

Lemma peers_fwd c c' a l :
  same_peers c c' -> links c !! a = Some l -> exists l', links c' !! a = Some l' /\ l_listed l' = l_listed l.
Proof.
  intros Hp Hl. specialize (Hp a). rewrite Hl in Hp. destruct (links c' !! a) as [l'|]; simpl in Hp; [|done].
  exists l'. split; congruence.
Qed.

Lemma peers_bwd c c' a l :
  same_peers c c' -> links c' !! a = Some l -> exists l0, links c !! a = Some l0 /\ l_listed l = l_listed l0.
Proof.
  intros Hp Hl. specialize (Hp a). rewrite Hl in Hp. destruct (links c !! a) as [l0|]; simpl in Hp; [|done].
  exists l0. split; congruence.
Qed.

Lemma moves_link a l w w' :
  moves w w' -> links (abs w) !! a = Some l -> exists l', links (abs w') !! a = Some l' /\ l_listed l' = l_listed l.
Proof. intros [_ Hp _]. by apply peers_fwd. Qed.

Lemma moves_listed w w' : moves w w' -> all_listed (abs w) -> all_listed (abs w').
Proof.
  intros [_ Hp _] Ha a l Hl. destruct (peers_bwd _ _ _ _ Hp Hl) as (l0 & Hl0 & ->). by eapply Ha.
Qed.

Lemma peers_size c c' : same_peers c c' -> size (links c') = size (links c).
Proof.
  intros Hp. rewrite <- !(size_dom (D := gset (list Z))). f_equal. apply set_eq. intros a.
  rewrite !elem_of_dom. specialize (Hp a).
  destruct (links c !! a), (links c' !! a); simpl in Hp; split; try done; by eexists.
Qed.

(** ** Deactivation *)

Lemma dec_estab_wp (Q : Z -> mesh_if -> Prop) w :
  (forall r w', abs w' = with_estab (estab (abs w) - 1) (abs w) -> num_sta w' = num_sta w -> Q r w') ->
  wp mesh_plink_dec_estab_count Q w.
Proof.
  intros HQ. unfold mesh_plink_dec_estab_count. apply swp_bind, swp_modify, swp_bind.
  eapply swp_silently; [apply accept_plinks_silent|]. intros r w' [E N]. apply swp_ret, HQ; [|done]. by rewrite E.
Qed.

Lemma inc_estab_wp (Q : Z -> mesh_if -> Prop) w :
  (forall r w', abs w' = with_estab (estab (abs w) + 1) (abs w) -> num_sta w' = num_sta w -> Q r w') ->
  wp mesh_plink_inc_estab_count Q w.
Proof.
  intros HQ. unfold mesh_plink_inc_estab_count. apply swp_bind, swp_modify, swp_bind.
  eapply swp_silently; [apply accept_plinks_silent|]. intros r w' [E N]. apply swp_ret, HQ; [|done]. by rewrite E.
Qed.

Lemma is_estab_link s l : link_of s = l -> is_estab s = l_estab l.
Proof. by intros <-. Qed.

Lemma with_estab_0 c : with_estab (estab c - 0) c = c.
Proof. destruct c. unfold with_estab. simpl. by rewrite Z.sub_0_r. Qed.

Lemma deactivate_locked_wp a l (Q : Z -> mesh_if -> Prop) w :
  links (abs w) !! a = Some l ->
  (forall r w', num_sta w' = num_sta w ->
     abs w' = with_estab (estab (abs w) - Z.b2z (l_estab l)) (with_link a (at_state NL80211_PLINK_BLOCKED l) (abs w)) ->
     Q r w') ->
  wp (__mesh_plink_deactivate a) Q w.
Proof.
  intros Hl HQ. unfold __mesh_plink_deactivate. apply swp_bind. eapply swp_get_sta; [done|]. intros s _ Es.
  rewrite (is_estab_link _ _ Es). apply swp_bind.
  assert (Hrest : forall c1 w1, abs w1 = with_estab (estab (abs w) - Z.b2z (l_estab l)) (abs w) -> num_sta w1 = num_sta w ->
    wp (upd_mesh a (set_plink_state NL80211_PLINK_BLOCKED) ;;;
        ieee80211_mps_sta_status_update a ;;;
        changed' <- ieee80211_mps_set_sta_local_pm a NL80211_MESH_POWER_UNKNOWN ;;
        ret (c1 .| changed')) Q w1).
  { intros c1 w1 E1 N1. apply swp_bind.
    eapply (swp_upd_mesh a _ (at_state NL80211_PLINK_BLOCKED)); [rewrite E1; exact Hl|done|].
    intros w2 E2 N2. rewrite E1 in E2.
    assert (Hl2 : is_Some (links (abs w2) !! a)) by (rewrite E2, links_with_link; eauto).
    apply swp_bind. eapply swp_silently; [by apply sta_status_silent|]. intros ? w3 S3.
    apply swp_bind. eapply swp_silently; [apply local_pm_silent; by eapply silent_links|]. intros c4 w4 S4.
    apply swp_ret. destruct S3 as [E3 N3], S4 as [E4 N4]. apply HQ; [congruence|]. by rewrite E4, E3, E2. }
  destruct (l_estab l).
  - apply dec_estab_wp. intros c1 w1 E1 N1. by apply Hrest.
  - apply swp_ret, Hrest; [|done]. symmetry. apply (with_estab_0 (abs w)).
Qed.

Lemma deactivate_moves a l w w' :
  links (abs w) !! a = Some l -> num_sta w' = num_sta w ->
  abs w' = with_estab (estab (abs w) - Z.b2z (l_estab l)) (with_link a (at_state NL80211_PLINK_BLOCKED l) (abs w)) ->
  moves w w'.
Proof.
  intros Hl N E. eapply (link_moves a l (at_state NL80211_PLINK_BLOCKED l) _ (fun c => c)); [done|done|done|exact E|done|].
  rewrite E. by apply a_block.
Qed.

Definition blocked_at (a : list Z) (w : mesh_if) : Prop :=
  exists l, links (abs w) !! a = Some l /\ l_state l = NL80211_PLINK_BLOCKED.

Lemma blocked_irqs a w w' : blocked_at a w -> irqs w w' -> blocked_at a w'.
Proof.
  intros (l & Hl & Hb) [H%isteps_frame _]. destruct (irq_frame_at _ _ _ _ H Hl) as (l' & Hl' & He).
  exists l'. split; [done|]. destruct He as [_ [(-> & _)|[(Ht & _)|(Ht & _)]]]; [done|by rewrite Hb in Ht|by rewrite Hb in Ht].
Qed.

Lemma blocked_same a w w' : blocked_at a w -> links (abs w') = links (abs w) -> blocked_at a w'.
Proof. unfold blocked_at. by intros ? ->. Qed.

(** ** [timer_delete_sync] *)

Definition mine (a : list Z) (l : list (list Z * plink_action * Z)) : nat := length (filter (fun x => x.1.1 = a) l).

Lemma mine_cons_ne a b action reason l : b <> a -> mine a ((b, action, reason) :: l) = mine a l.
Proof. intros. unfold mine. by rewrite filter_cons_False. Qed.

Lemma take_late_spec a l :
  match take_late a l with
  | Some ((action, reason), l') => exists l1 l2, l = l1 ++ (a, action, reason) :: l2 /\ l' = l1 ++ l2 /\ mine a l = S (mine a l')
  | None => mine a l = 0%nat
  end.
Proof.
  induction l as [|[[b action] reason] l IH]; [done|]. cbn [take_late]. case_bool_decide as Hb.
  - subst b. exists [], l. split_and!; [done|done|]. unfold mine. by rewrite filter_cons_True.
  - destruct (take_late a l) as [[[act r] l']|]; cbn [mbind option_bind].
    + destruct IH as (l1 & l2 & -> & -> & Hn). exists ((b, action, reason) :: l1), l2.
      split_and!; [done|done|]. cbn [app]. by rewrite !mine_cons_ne.
    + by rewrite mine_cons_ne.
Qed.

Lemma send_late_wp a w :
  is_Some (links (abs w) !! a) ->
  wp (send_late p a) (fun _ w' => irqs w w' /\ links (abs w') = links (abs w) /\
    mine a (to_send (abs w')) = pred (mine a (to_send (abs w)))) w.
Proof.
  intros [k Hk]. unfold send_late. apply swp_bind, swp_gets. pose proof (take_late_spec a (late w)) as Hs.
  destruct (take_late a (late w)) as [[[action reason] l']|].
  - destruct Hs as (l1 & l2 & El & -> & Hn). apply swp_bind, swp_modify.
    assert (Hi : forall aid (ok : bool), istep (abs w)
        (let c := with_to_send (l1 ++ l2) (abs w) in if ok then logged (sent a k action aid reason) c else c)).
    { intros aid ok. by apply i_late. }
    eapply (swp_plink_frame_tx p a action reason k); [done|]. intros w1 N1 H1.
    assert (Hm : mine a (l1 ++ l2) = pred (mine a (to_send (abs w)))).
    { change (to_send (abs w)) with (late w). by rewrite Hn. }
    destruct H1 as [E1|[aid E1]]; rewrite E1; (split; [|done]); apply istep_irqs; try done; rewrite E1.
    + apply (Hi None false).
    + apply (Hi aid true).
  - apply swp_ret. split_and!; [done|done|]. change (to_send (abs w)) with (late w). by rewrite Hs.
Qed.

Lemma send_all_wp {A} (xs : list A) a w :
  is_Some (links (abs w) !! a) ->
  wp (iter (fun _ => send_late p a) xs) (fun _ w' => irqs w w' /\ links (abs w') = links (abs w) /\
    (mine a (to_send (abs w')) = mine a (to_send (abs w)) - length xs)%nat) w.
Proof.
  revert w. induction xs as [|x xs IH]; intros w Hl; cbn [iter length].
  - apply swp_ret. split_and!; [done|done|lia].
  - apply swp_bind. eapply swp_mono; [by apply send_late_wp|]. intros [] w1 (H1 & E1 & M1).
    eapply swp_mono; [apply IH; by rewrite E1|]. intros [] w2 (H2 & E2 & M2).
    split_and!; [by etrans|congruence|lia].
Qed.

Lemma mine_zero a l : mine a l = 0%nat -> forall x, x ∈ l -> x.1.1 <> a.
Proof.
  intros H x Hx E. assert (Hf : x ∈ filter (fun x => x.1.1 = a) l) by by apply list_elem_of_filter.
  apply length_zero_iff_nil in H. rewrite H in Hf. by apply not_elem_of_nil in Hf.
Qed.

(** The timer of a blocked link is stopped for good. *)
Definition silenced (a : list Z) (w : mesh_if) : Prop :=
  (exists l, links (abs w) !! a = Some l /\ l_state l = NL80211_PLINK_BLOCKED /\ l_pending l = false /\ l_fired l = false) /\
  forall x, x ∈ to_send (abs w) -> x.1.1 <> a.

Lemma timer_delete_sync_wp a w :
  cinv user (abs w) -> blocked_at a w -> wp (timer_delete_sync p a) (fun _ w' => moves w w' /\ silenced a w') w.
Proof.
  intros Hc Hb. unfold timer_delete_sync. apply swp_bind. eapply swp_mono; [by apply irq_timer_wp|].
  intros [] w1 [H1 F1 _]. pose proof (blocked_irqs _ _ _ Hb H1) as (l & Hl & Hst).
  apply swp_bind, swp_gets, swp_bind. eapply swp_mono; [apply send_all_wp; by eexists|].
  intros [] w2 (H2 & E2 & M2). eapply (swp_upd_mesh a _ disarmed l); [by rewrite E2|done|].
  intros w3 E3 N3.
  assert (Hl2 : links (abs w2) !! a = Some l) by by rewrite E2.
  split.
  - etrans; [by apply irqs_moves; etrans|]. apply (link_moves a l (disarmed l) (estab (abs w2)) (fun c => c)); [done|done|done|exact E3|done|].
    rewrite E3. by apply a_disarm.
  - unfold silenced. rewrite E3. split.
    + exists (disarmed l). rewrite links_with_link. split_and!; try done. simpl. by apply F1.
    + apply mine_zero. change (mine a (to_send (abs w2)) = 0%nat). rewrite M2. unfold mine. change (late w1) with (to_send (abs w1)).
      pose proof (length_filter (fun x => x.1.1 = a) (to_send (abs w1))). lia.
Qed.

Lemma user_silenced a w :
  user = true -> cinv user (abs w) -> blocked_at a w -> silenced a w.
Proof.
  intros Hu Hc (l & Hl & Hb). destruct (lo_user _ _ _ (ci_link _ _ Hc _ _ Hl) Hu) as (? & ? & _).
  split; [eauto 10|]. rewrite (ci_user _ _ Hc Hu). intros x Hx. by apply not_elem_of_nil in Hx.
Qed.

Lemma deactivate_wp a w :
  cinv user (abs w) -> is_Some (links (abs w) !! a) ->
  wp (mesh_plink_deactivate p a) (fun _ w' => moves w w' /\ silenced a w') w.
Proof.
  intros Hc [l Hl]. unfold mesh_plink_deactivate. apply swp_bind. eapply swp_get_sta; [done|]. intros s _ _.
  apply swp_bind. eapply deactivate_locked_wp; [done|]. intros r w1 N1 E1.
  assert (M1 : moves w w1) by by eapply deactivate_moves.
  assert (B1 : blocked_at a w1).
  { exists (at_state NL80211_PLINK_BLOCKED l). split; [|done]. rewrite E1. apply links_with_link. }
  assert (Hclose : wp (when (negb user && negb (bool_decide (state_of s = NL80211_PLINK_LISTEN)))
      (upd_mesh a (set_reason WLAN_REASON_MESH_PEER_CANCELED) ;;;
       plink_frame_tx p a WLAN_SP_MESH_PEERING_CLOSE WLAN_REASON_MESH_PEER_CANCELED))
      (fun _ w' => moves w w' /\ blocked_at a w') w1).
  { apply swp_when; [|done]. intros _. apply swp_bind. pose proof B1 as (l1 & Hl1 & _).
    eapply swp_silently; [apply upd_mesh_silent; [by eexists|done]|]. intros [] w2 [E2 N2].
    eapply swp_mono; [apply (swp_tx a _ _ w)|].
    - etrans; [done|]. by apply silent_moves.
    - done.
    - rewrite E2. by eexists.
    - intros [] w3 [M3 L3]. split; [done|]. eapply blocked_same; [exact B1|]. by rewrite L3, E2. }
  apply swp_bind. eapply swp_mono; [exact Hclose|]. intros [] w2 [M2 B2].
  assert (C2 : cinv user (abs w2)) by by eapply moves_inv.
  apply swp_bind, swp_preempt; [done|]. intros w3 H3.
  assert (M3 : moves w w3) by (etrans; [done|by apply irqs_moves]).
  assert (B3 : blocked_at a w3) by by eapply blocked_irqs.
  assert (C3 : cinv user (abs w3)) by by eapply moves_inv.
  assert (Hend : forall w4, moves w w4 -> silenced a w4 ->
    wp (mesh_path_flush_by_nexthop a ;;; ret r) (fun _ w' => moves w w' /\ silenced a w') w4).
  { intros w4 M4 S4. apply swp_bind, swp_modify, swp_ret. destruct (silent_emit (ev_flush a) w4 eq_refl) as [E N].
    split; [|unfold silenced; by rewrite E]. etrans; [done|]. by apply silent_moves. }
  apply swp_bind. apply swp_when.
  - intros _. eapply swp_mono; [by apply timer_delete_sync_wp|]. intros [] w4 [M4 S4].
    apply Hend; [by etrans|done].
  - intros Hu. apply negb_false_iff in Hu. apply Hend; [done|]. by apply user_silenced.
Qed.

Lemma block_wp a w :
  is_Some (links (abs w) !! a) -> wp (mesh_plink_block a) (fun _ w' => moves w w') w.
Proof.
  intros [l Hl]. unfold mesh_plink_block. apply swp_bind. eapply deactivate_locked_wp; [done|]. intros r w1 N1 E1.
  assert (M1 : moves w w1) by by eapply deactivate_moves.
  apply swp_bind. eapply (swp_upd_mesh a _ (at_state NL80211_PLINK_BLOCKED)); [rewrite E1; apply links_with_link|done|].
  intros w2 E2 N2. apply swp_bind, swp_modify, swp_ret. etrans; [exact M1|].
  etrans; [|by apply silent_moves, silent_emit]. apply silent_moves. split; [|done].
  rewrite E2, E1. change (at_state NL80211_PLINK_BLOCKED (at_state NL80211_PLINK_BLOCKED l)) with (at_state NL80211_PLINK_BLOCKED l).
  exact (with_link_twice a _ _ (with_estab (estab (abs w) - Z.b2z (l_estab l)) (abs w))).
Qed.

(** ** Opening *)

Definition room (w : mesh_if) : Prop := all_listed (abs w) /\ Z.of_nat (size (links (abs w))) < 65535.

Lemma moves_room w w' : moves w w' -> room w -> room w'.
Proof.
  intros H [Hl Hn]. split; [by eapply moves_listed|]. by rewrite (peers_size _ _ (mv_peers _ _ H)).
Qed.

Lemma fresh_with_link a l l' id c :
  links c !! a = Some l -> l_llid l' = l_llid l -> fresh_id id (with_link a l' c) -> fresh_id id c.
Proof.
  intros Hl E [Hr Hf]. split; [done|]. intros b k Hb. destruct (decide (a = b)) as [<-|].
  - rewrite Hl in Hb. injection Hb as <-. rewrite <- E. apply (Hf a). apply links_with_link.
  - apply (Hf b). simpl. by rewrite lookup_insert_ne.
Qed.

Lemma state_link s l : link_of s = l -> state_of s = l_state l.
Proof. by intros <-. Qed.

Lemma timer_set_wp a t l (Q : unit -> mesh_if -> Prop) w :
  links (abs w) !! a = Some l ->
  (forall e w', abs w' = with_link a (armed e (retrying (l_retries l) t l)) (abs w) -> num_sta w' = num_sta w -> Q tt w') ->
  wp (mesh_plink_timer_set p a t) Q w.
Proof.
  intros Hl HQ. unfold mesh_plink_timer_set. apply swp_bind.
  eapply (swp_upd_mesh a _ (fun l => retrying (l_retries l) t l)); [done|done|]. intros w1 E1 N1.
  eapply swp_mod_timer; [rewrite E1; apply links_with_link|]. intros e w2 E2 N2. apply (HQ e); [|congruence].
  by rewrite E2, E1, with_link_twice.
Qed.

Lemma open_wp a w :
  cinv user (abs w) -> room w -> user = false ->
  (forall l, links (abs w) !! a = Some l -> idle (l_state l) = false -> relabel a) -> is_Some (links (abs w) !! a) ->
  wp (mesh_plink_open p a) (fun _ w' => moves w w') w.
Proof.
  intros Hc [Hli Hn] Hu Hre [l Hl]. unfold mesh_plink_open. apply swp_bind. eapply swp_get_sta; [done|]. intros s _ Es.
  destruct (sta_state s <? IEEE80211_STA_AUTH); [by apply swp_ret|].
  apply swp_bind, swp_new_llid; [done|done|]. intros i w1 Hf E1 N1. apply swp_bind.
  assert (Hl1 : links (abs w1) !! a = Some l) by by rewrite E1.
  eapply (swp_upd_mesh a _ (fun l => with_ids i (l_plid l) l)); [done|done|]. intros w2 E2 N2. rewrite E1 in E2.
  rewrite (state_link _ _ Es).
  assert (Hst : idle (l_state l) = bool_decide (l_state l = NL80211_PLINK_LISTEN) || bool_decide (l_state l = NL80211_PLINK_BLOCKED))
    by by destruct (l_state l).
  rewrite <- negb_orb, <- Hst. destruct (idle (l_state l)) eqn:Hid; cbn [negb].
  2: { apply swp_ret, step_moves; [| |congruence].
       - rewrite E2. apply (a_relabel _ _ _ _ a l i (abs w)); auto. by eapply Hre.
       - rewrite E2. by apply (same_peers_link _ _ _ _ Hl). }
  apply swp_bind. eapply (swp_upd_mesh a _ (at_state NL80211_PLINK_OPN_SNT)); [rewrite E2; apply links_with_link|done|].
  intros w3 E3 N3. apply swp_bind, swp_gets, swp_bind. eapply timer_set_wp; [rewrite E3; apply links_with_link|].
  intros e w4 E4 N4. rewrite E3, E2 in E4.
  set (l4 := armed e _) in E4. set (c1 := logged (ev_llid a i) (abs w)) in E4.
  assert (E4' : abs w4 = logged (ev_llid a i) (with_link a l4 (abs w))).
  { rewrite E4. transitivity (with_link a l4 c1); [|done]. rewrite !with_link_twice. done. }
  assert (Hcfg : dot11MeshRetryTimeout (mshcfg w3) = retry_timeout (abs w)).
  { change (retry_timeout (abs w3) = retry_timeout (abs w)). by rewrite E3, E2. }
  assert (M4 : moves w w4).
  { apply step_moves; [| |congruence].
    - rewrite E4'. subst l4. rewrite Hcfg. by apply (a_open _ _ _ _ a l i e (abs w)).
    - rewrite E4'. by apply (same_peers_link _ _ _ l4 Hl). }
  assert (C4 : cinv user (abs w4)) by by eapply moves_inv.
  apply swp_bind, swp_preempt; [done|]. intros w5 H5.
  assert (M5 : moves w w5) by (etrans; [exact M4|by apply irqs_moves]).
  apply swp_bind. eapply swp_silently; [apply local_status_silent|]. intros r w6 S6.
  assert (M6 : moves w w6) by (etrans; [exact M5|by apply silent_moves]).
  destruct (moves_link _ _ _ _ M6 Hl) as (l6 & Hl6 & _).
  apply swp_bind. eapply swp_get_sta; [done|]. intros s6 _ Es6. apply swp_bind, swp_frame_tx; [discriminate|].
  intros r7 w7 N7 H7. apply swp_ret. etrans; [exact M6|].
  destruct H7 as [E7|[aid E7]]; [by apply silent_moves|].
  apply step_moves; [|by rewrite E7|done]. rewrite E7.
  replace (llid (mesh s6)) with (l_llid l6) by by rewrite <- Es6. by apply a_tx_open.
Qed.

(** ** The state machine *)

(** What has been checked when the state machine gets an event. *)
Record event_ok (a : list Z) (event : plink_event) (w : mesh_if) : Prop := {
  eo_confirm : event = CNF_ACPT -> forall l, links (abs w) !! a = Some l -> opening (l_state l) = true ->
    heard a (l_plid l) (l_llid l);
  eo_free : event = OPN_ACPT \/ event = CNF_ACPT -> max_links (abs w) - estab (abs w) <> 0;
}.

Lemma evolves_opening l l' : evolves l l' -> opening (l_state l') = true ->
  l_state l' = l_state l /\ l_llid l' = l_llid l /\ l_plid l' = l_plid l.
Proof. intros [_ [?|[(_ & E & _)|(_ & E & _)]]] Ho; [done|by rewrite E in Ho|by rewrite E in Ho]. Qed.

Lemma event_ok_irqs a event w w' : is_Some (links (abs w) !! a) -> event_ok a event w -> irqs w w' -> event_ok a event w'.
Proof.
  intros [l0 Hl0] [Hc Hf] [H%isteps_frame _]. split.
  - intros E l Hl Ho. destruct (irq_frame_at _ _ _ _ H Hl0) as (l1 & Hl1 & He). rewrite Hl in Hl1. injection Hl1 as <-.
    destruct (evolves_opening _ _ He Ho) as (Es & -> & ->). apply (Hc E); [done|by rewrite <- Es].
  - intros E. rewrite (if_estab _ _ H), (if_max_links _ _ H). by apply Hf.
Qed.

Lemma close_wp a event l (Q : unit -> mesh_if -> Prop) w :
  links (abs w) !! a = Some l ->
  (forall e w', abs w' = with_link a (armed e (at_state NL80211_PLINK_HOLDING l)) (abs w) -> num_sta w' = num_sta w -> Q tt w') ->
  wp (mesh_plink_close p a event) Q w.
Proof.
  intros Hl HQ. unfold mesh_plink_close. apply swp_bind.
  eapply (swp_upd_mesh a _ (at_state NL80211_PLINK_HOLDING)); [done|done|]. intros w1 E1 N1.
  apply swp_bind, swp_gets. eapply swp_mod_timer; [rewrite E1; apply links_with_link|].
  intros e w2 E2 N2. apply (HQ e); [|congruence]. by rewrite E2, E1, with_link_twice.
Qed.

Lemma establish_wp a l (Q : Z -> mesh_if -> Prop) w :
  links (abs w) !! a = Some l ->
  (forall r w', abs w' = with_estab (estab (abs w) + 1) (with_link a (disarmed (at_state NL80211_PLINK_ESTAB l)) (abs w)) ->
     num_sta w' = num_sta w -> Q r w') ->
  wp (mesh_plink_establish p a) Q w.
Proof.
  intros Hl HQ. unfold mesh_plink_establish. apply swp_bind.
  eapply (swp_upd_mesh a _ (fun l => disarmed (at_state NL80211_PLINK_ESTAB l))); [done|done|]. intros w1 E1 N1.
  apply swp_bind, inc_estab_wp. intros c1 w2 E2 N2.
  apply swp_bind. eapply swp_silently; [apply ht_prot_silent|]. intros c2 w3 S3.
  apply swp_bind. eapply swp_silently; [apply short_slot_silent|]. intros c3 w4 S4.
  assert (E4 : abs w4 = abs w2) by (destruct S3, S4; congruence).
  assert (Hl4 : is_Some (links (abs w4) !! a)).
  { rewrite E4, E2, E1. eexists. apply links_with_link. }
  apply swp_bind. eapply swp_silently; [by apply sta_status_silent|]. intros ? w5 S5.
  apply swp_bind, swp_gets, swp_bind. eapply swp_silently; [apply local_pm_silent; by eapply silent_links|]. intros c4 w6 S6.
  apply swp_ret. destruct S3 as [_ N3], S4 as [_ N4], S5 as [E5 N5], S6 as [E6 N6]. apply HQ; [|congruence].
  by rewrite E6, E5, E4, E2, E1.
Qed.

(** What the state machine answers with. *)
Definition answers (a : list Z) (w : mesh_if) (r : Z * option plink_action * bool) (w' : mesh_if) : Prop :=
  moves w w' /\ forall action, r.1.2 = Some action -> action <> WLAN_SP_MESH_PEERING_CLOSE -> busy a w'.

Lemma answers_link a l r w w' :
  moves w w' -> links (abs w') !! a = Some l -> r.1.2 = None \/ r.1.2 = Some WLAN_SP_MESH_PEERING_CLOSE \/ idle (l_state l) = false ->
  answers a w r w'.
Proof.
  intros M Hl Hr. split; [done|]. intros action E Hne.
  destruct Hr as [Hr|[Hr|Hr]]; [congruence|congruence|]. exists l. split; [done|]. by left.
Qed.

Lemma fsm_locked_wp a event w :
  cinv user (abs w) -> room w -> user = false -> is_Some (links (abs w) !! a) -> event_ok a event w ->
  wp (plink_fsm_locked p a event) (answers a w) w.
Proof.
  intros Hc [Hli Hn] Hu [l Hl] [Hcf Hfr]. unfold plink_fsm_locked. apply swp_bind.
  eapply swp_get_sta; [done|]. intros s _ Es. apply swp_bind, swp_gets. rewrite (state_link _ _ Es).
  assert (Hnil : forall r : Z * option plink_action * bool,
      r.1.2 = None \/ r.1.2 = Some WLAN_SP_MESH_PEERING_CLOSE \/ idle (l_state l) = false -> wp (ret r) (answers a w) w).
  { intros r Hi. by apply swp_ret, (answers_link a l). }
  assert (Hone : forall f g r l', (forall s, link_of (set_mesh (f (mesh s)) s) = g (link_of s)) -> l' = g l ->
      l_listed l' = l_listed l -> r.1.2 = None \/ r.1.2 = Some WLAN_SP_MESH_PEERING_CLOSE \/ idle (l_state l') = false ->
      step (abs w) (with_link a l' (abs w)) -> wp (upd_mesh a f ;;; ret r) (answers a w) w).
  { intros f g r l' Hfg -> Hls Hr Hs. apply swp_bind. eapply (swp_upd_mesh a f g); [done|done|].
    intros w1 E1 N1. apply swp_ret, (answers_link a (g l)); [|rewrite E1; apply links_with_link|done].
    apply step_moves; rewrite ?E1; [done|by apply (same_peers_link _ _ _ _ Hl)|done]. }
  assert (Hclose : transient (l_state l) = true ->
      wp (mesh_plink_close p a event ;;; ret (0, Some WLAN_SP_MESH_PEERING_CLOSE, false)) (answers a w) w).
  { intros Ht. apply swp_bind. eapply close_wp; [done|]. intros e w1 E1 N1. apply swp_ret.
    eapply answers_link; [|rewrite E1; apply links_with_link|by auto].
    apply step_moves; rewrite ?E1; [by apply a_close|by apply (same_peers_link _ _ _ _ Hl)|done]. }
  assert (Hestab : forall action : option plink_action, max_links (abs w) - estab (abs w) <> 0 ->
      l_state l = NL80211_PLINK_CNF_RCVD \/ l_state l = NL80211_PLINK_OPN_RCVD /\ heard a (l_plid l) (l_llid l) ->
      wp (changed <- mesh_plink_establish p a ;; ret (changed, action, false)) (answers a w) w).
  { intros action Hm Hst. apply swp_bind. eapply establish_wp; [done|]. intros r w1 E1 N1. apply swp_ret.
    apply (answers_link a (disarmed (at_state NL80211_PLINK_ESTAB l)));
      [|rewrite E1; apply (links_with_link a _ (abs w))|by auto].
    apply step_moves; rewrite ?E1; [|by apply (same_peers_link _ _ _ (disarmed (at_state NL80211_PLINK_ESTAB l)) Hl)|done].
    destruct Hst as [|[]]; [by apply a_estab_open|by apply a_estab_confirm]. }
  destruct (l_state l) eqn:Est, event; try (by apply Hnil; auto); try (by apply Hclose); try (apply Hestab; by auto).
  - (* LISTEN, OPN_ACPT *)
    apply swp_bind. eapply (swp_upd_mesh a _ (at_state NL80211_PLINK_OPN_RCVD)); [done|done|]. intros w1 E1 N1.
    assert (Hp1 : same_peers (abs w) (abs w1)) by (rewrite E1; by apply (same_peers_link _ _ _ _ Hl)).
    apply swp_bind, swp_new_llid.
    { intros b k Hk. destruct (peers_bwd _ _ _ _ Hp1 Hk) as (k0 & Hk0 & ->). by eapply Hli. }
    { by rewrite (peers_size _ _ Hp1). }
    intros i w2 Hf E2 N2. rewrite E1 in Hf. apply (fresh_with_link a l) in Hf; [|done|done].
    rewrite E1 in E2. apply swp_bind.
    eapply (swp_upd_mesh a _ (fun l => with_ids i (l_plid l) l)); [rewrite E2; apply links_with_link|done|].
    intros w3 E3 N3. apply swp_bind. eapply timer_set_wp; [rewrite E3; apply links_with_link|]. intros e w4 E4 N4.
    apply swp_bind. eapply swp_silently; [apply local_status_silent|]. intros r w5 [E5 N5]. apply swp_ret.
    set (l4 := armed e _) in E4.
    assert (E : abs w5 = logged (ev_llid a i) (with_link a l4 (abs w))).
    { rewrite E5, E4, E3, E2. transitivity (with_link a l4 (logged (ev_llid a i) (abs w))); [|done].
      rewrite !with_link_twice. exact (with_link_twice a _ l4 (logged (ev_llid a i) (abs w))). }
    apply (answers_link a l4); [|rewrite E; apply (links_with_link a l4 (abs w))|by auto].
    apply step_moves; [| |congruence]; rewrite E; [|by apply (same_peers_link _ _ _ l4 Hl)].
    by apply (a_opened _ _ _ _ a l i e (abs w)).
  - (* LISTEN, CLS_ACPT *)
    eapply (Hone _ restarted); [done|done|done|by auto|]. by apply a_restart.
  - (* OPN_SNT, OPN_ACPT *)
    eapply (Hone _ (at_state NL80211_PLINK_OPN_RCVD)); [done|done|done|by auto|]. by apply a_open_both.
  - (* OPN_SNT, CNF_ACPT *)
    apply swp_bind. eapply (swp_upd_mesh a _ (at_state NL80211_PLINK_CNF_RCVD)); [done|done|]. intros w1 E1 N1.
    apply swp_bind. eapply swp_mod_timer; [rewrite E1; apply links_with_link|]. intros e w2 E2 N2. apply swp_ret.
    rewrite E1, with_link_twice in E2. eapply answers_link; [|rewrite E2; apply links_with_link|by auto].
    apply step_moves; [| |congruence]; rewrite E2.
    + apply a_confirmed; [done|done|done|]. apply Hcf; [done|done|by rewrite Est].
    + by apply (same_peers_link _ _ _ _ Hl).
  - (* OPN_RCVD, CNF_ACPT *)
    apply Hestab; [by auto|right]. split; [done|]. apply Hcf; [done|done|by rewrite Est].
  - (* ESTAB, CLS_ACPT *)
    apply swp_bind. eapply deactivate_locked_wp; [done|]. intros c1 w1 N1 E1.
    apply swp_bind. eapply swp_silently; [apply ht_prot_silent|]. intros c2 w2 S2.
    apply swp_bind. eapply swp_silently; [apply short_slot_silent|]. intros c3 w3 S3.
    assert (E3 : abs w3 = abs w1) by (destruct S2, S3; congruence).
    apply swp_bind. eapply close_wp; [rewrite E3, E1; apply links_with_link|]. intros e w4 E4 N4. apply swp_ret.
    rewrite E3, E1 in E4. set (l4 := armed e _) in E4.
    assert (Hes : l_estab l = true) by (unfold l_estab; by rewrite Est).
    assert (E : abs w4 = with_estab (estab (abs w) - 1) (with_link a l4 (abs w))).
    { rewrite E4, Hes. exact (with_link_twice a _ l4 (with_estab (estab (abs w) - 1) (abs w))). }
    apply (answers_link a l4); [|rewrite E; apply (links_with_link a l4 (abs w))|by auto].
    apply step_moves; [| |destruct S2, S3; congruence]; rewrite E; [|by apply (same_peers_link _ _ _ l4 Hl)].
    by apply (a_close_estab _ _ _ _ a l e (abs w)).
  - (* HOLDING, CLS_ACPT *)
    eapply (Hone _ (fun l => restarted (disarmed l))); [done|done|done|by auto|]. by apply a_restart_holding.
Qed.

Lemma moves_some a w w' : moves w w' -> is_Some (links (abs w) !! a) -> is_Some (links (abs w') !! a).
Proof. intros H [l Hl]. destruct (moves_link _ _ _ _ H Hl) as (l' & Hl' & _). by eexists. Qed.

Lemma fsm_wp a event w :
  cinv user (abs w) -> room w -> user = false -> is_Some (links (abs w) !! a) -> event_ok a event w ->
  wp (mesh_plink_fsm p a event) (fun _ w' => moves w w') w.
Proof.
  intros Hc Hr Hu Hl He. unfold mesh_plink_fsm. apply swp_bind. eapply swp_mono; [by apply fsm_locked_wp|].
  intros [[changed action] flush] w1 [M1 B1].
  apply swp_bind, swp_preempt; [by eapply moves_inv|]. intros w2 H2.
  assert (M2 : moves w w2) by (etrans; [done|by apply irqs_moves]).
  apply swp_bind. eapply swp_silently; [apply silently_when, silently_modify, silent_emit; done|]. intros [] w3 S3.
  assert (M3 : moves w w3) by (etrans; [done|by apply silent_moves]).
  destruct action as [action|]; [|by apply swp_ret].
  pose proof (moves_some _ _ _ M3 Hl) as [l3 Hl3].
  apply swp_bind. eapply swp_get_sta; [done|]. intros s _ _. apply swp_bind.
  assert (B3 : forall action', Some action = Some action' -> action' <> WLAN_SP_MESH_PEERING_CLOSE -> busy a w3).
  { intros action' E Hne. eapply busy_same; [eapply busy_irqs; [by eapply B1|exact H2]|]. by rewrite (silent_abs _ _ S3). }
  eapply swp_mono; [apply (swp_tx a _ _ w _ M3); [intros ->; by eapply B3|by eexists]|]. intros [] w4 [M4 L4].
  assert (C4 : cinv user (abs w4)) by by eapply moves_inv.
  apply swp_bind. apply swp_when; [intros Ea|intros _; by apply swp_ret].
  apply swp_bind, swp_preempt; [done|]. intros w5 H5.
  assert (M5 : moves w w5) by (etrans; [done|by apply irqs_moves]).
  eapply swp_mono; [apply (swp_tx a _ _ w _ M5); [|by eapply moves_some]|].
  { intros _. apply bool_decide_eq_true in Ea as ->. eapply busy_irqs; [|exact H5].
    eapply busy_same; [by eapply B3|by rewrite L4]. }
  intros [] w6 [M6 _]. by apply swp_ret.
Qed.

(** ** Received elements *)

Lemma primary_loop_total control pri fuel : 0 < pri -> forall width center punct,
  width < pri * 2 ^ Z.of_nat fuel -> is_Some (primary_loop (S fuel) control pri width center punct).
Proof.
  intros Hp. induction fuel as [|fuel IH]; intros width center punct Hw; cbn [primary_loop].
  - destruct (Z.ltb_spec pri width); [lia|by eexists].
  - destruct (pri <? width); [|by eexists].
    destruct (if center <? control then _ else _) as [c' p']. apply (IH (width / 2)).
    rewrite Nat2Z.inj_succ, Z.pow_succ_r in Hw by lia. apply Z.div_lt_upper_bound; lia.
Qed.

Lemma primary_total c w : chan c <> None -> is_Some (cfg80211_chandef_primary c w).
Proof.
  intros Hc. unfold cfg80211_chandef_primary. destruct (chan c) as [ch|]; [cbn [mbind option_bind]|done].
  destruct ((nl80211_chan_width_to_mhz w <? 0) || (cfg80211_chandef_get_width c <? 0)) eqn:E; [by eexists|].
  destruct (cfg80211_chandef_get_width c <? nl80211_chan_width_to_mhz w); [by eexists|].
  apply orb_false_iff in E as [E1 _]. apply Z.ltb_ge in E1.
  assert (Hpri : 0 < nl80211_chan_width_to_mhz w) by (destruct w; simpl in *; lia).
  assert (Hwd : cfg80211_chandef_get_width c <= 320) by (unfold cfg80211_chandef_get_width; destruct (width c); simpl; lia).
  destruct (primary_loop_total (center_freq ch) _ 9 Hpri (cfg80211_chandef_get_width c) (center_freq1 c) (punctured c))
    as [[x y] Hx]; [change (2 ^ Z.of_nat 9) with 512; nia|].
  unfold primary_fuel. rewrite Hx. by eexists.
Qed.

Lemma compatible_total c1 c2 : chan c1 <> None -> chan c2 <> None -> is_Some (cfg80211_chandef_compatible c1 c2).
Proof.
  intros H1 H2. unfold cfg80211_chandef_compatible.
  assert (Hc : forall a b w, chan a <> None -> chan b <> None -> is_Some (check_chandef_primary_compat a b w)).
  { intros a b w Ha Hb. unfold check_chandef_primary_compat.
    destruct (primary_total a w Ha) as [[] ->], (primary_total b w Hb) as [[] ->]. by eexists. }
  assert (is_Some (_cfg80211_chandef_compatible c1 c2)) as [r ->]; [|by eexists].
  unfold _cfg80211_chandef_compatible.
  repeat match goal with |- is_Some (if ?b then Some _ else _) => destruct b; [by eexists|] end.
  destruct (if width_num (width c2) <? width_num (width c1) then (c2, c1) else (c1, c2)) as [a b] eqn:E.
  assert (Hab : chan a <> None /\ chan b <> None) by (destruct (_ <? _) in E; by injection E as <- <-).
  destruct Hab as [Ha Hb]. destruct (_ <=? _); [by eexists|].
  destruct (Hc a b NL80211_CHAN_WIDTH_40 Ha Hb) as [[] ->]; try (by eexists). cbn [mbind option_bind].
  destruct (Hc a b NL80211_CHAN_WIDTH_80 Ha Hb) as [[] ->]; try (by eexists). cbn [mbind option_bind].
  destruct (bool_decide _); [by eexists|].
  destruct (Hc a b NL80211_CHAN_WIDTH_160 Ha Hb) as [x ->]. by eexists.
Qed.

Hypothesis Hchan : chan (oper p) <> None.

Lemma matches_total e : is_Some (mesh_matches_local p e).
Proof.
  unfold mesh_matches_local. destruct (e_mesh_config e); [|by eexists].
  repeat match goal with |- is_Some (if ?b then Some _ else _) => destruct b; [by eexists|] end.
  destruct (compatible_total (oper p) (mk_chandef (chan (oper p)) (npca_chan (e_chandef e)) (width (e_chandef e))
    (center_freq1 (e_chandef e)) (center_freq2 (e_chandef e)) (edmg (e_chandef e)) (freq1_offset (e_chandef e))
    (punctured (e_chandef e)) (npca_punctured (e_chandef e)) (s1g_primary_2mhz (e_chandef e)))) as [r Hr]; [done|done|].
  cbn zeta. rewrite Hr. by eexists.
Qed.

Lemma matches_or_close e ft :
  is_Some (if bool_decide (ft = WLAN_SP_MESH_PEERING_CLOSE) then Some true else mesh_matches_local p e).
Proof. case_bool_decide; [by eexists|apply matches_total]. Qed.

Lemma get_event_total s e n ft x y w : is_Some (mesh_plink_get_event p s e n ft x y w).
Proof. unfold mesh_plink_get_event. destruct (matches_or_close e ft) as [b ->]. by eexists. Qed.

Lemma get_event_spec s e n ft x y w ev :
  mesh_plink_get_event p (Some s) e n ft x y w = Some ev ->
  (ev = OPN_ACPT -> ft = WLAN_SP_MESH_PEERING_OPEN /\ mesh_plink_free_count w <> 0 /\ (plid (mesh s) = 0 \/ plid (mesh s) = y)) /\
  (ev = CNF_ACPT -> ft = WLAN_SP_MESH_PEERING_CONFIRM /\ mesh_plink_free_count w <> 0 /\ llid (mesh s) = x /\
     (plid (mesh s) = 0 \/ plid (mesh s) = y)).
Proof.
  unfold mesh_plink_get_event. destruct (matches_or_close e ft) as [b ->]. cbn [mbind option_bind]. intros [= <-].
  destruct (sta_state s <? _); [done|]. case_bool_decide; [done|].
  destruct ft.
  - destruct (negb _); [done|]. destruct (_ || _) eqn:E; [done|]. split; [|done]. intros _.
    apply orb_false_iff in E as [E1 E2]. apply Z.eqb_neq in E1. split_and!; [done|done|].
    unfold nz in E2. destruct (Z.eqb_spec (plid (mesh s)) 0), (Z.eqb_spec (plid (mesh s)) y); auto; done.
  - destruct (negb _); [done|]. destruct (_ || _) eqn:E; [done|]. split; [done|]. intros _.
    apply orb_false_iff in E as [E1 E2]. apply orb_false_iff in E1 as [E1 E3].
    apply Z.eqb_neq in E1. apply negb_false_iff, Z.eqb_eq in E3. split_and!; [done|done|done|].
    unfold nz in E2. destruct (Z.eqb_spec (plid (mesh s)) 0), (Z.eqb_spec (plid (mesh s)) y); auto; done.
  - split; intros E; repeat (destruct (_ : bool) in E; try done).
Qed.

Lemma get_event_unknown e n ft x y w ev :
  mesh_plink_get_event p None e n ft x y w = Some ev -> ev = OPN_ACPT ->
  ft = WLAN_SP_MESH_PEERING_OPEN /\ mesh_plink_free_count w <> 0.
Proof.
  unfold mesh_plink_get_event. destruct (matches_or_close e ft) as [b ->]. cbn [mbind option_bind]. intros [= <-].
  destruct (negb _); [done|]. case_bool_decide; [|done]. cbn [negb].
  destruct (Z.eqb_spec (mesh_plink_free_count w) 0); done.
Qed.

(** ** Stations *)

Definition rest (w : mesh_if) : Prop :=
  all_listed (abs w) /\ num_sta w = Z.of_nat (size (links (abs w))) /\ num_sta w < 65000.

Record runs (w w' : mesh_if) : Prop := {
  rn_steps : rtc step (abs w) (abs w');
  rn_rest : rest w -> rest w';
}.

#[local] Instance runs_preorder : PreOrder runs.
Proof. split; [done|]. intros x y z [] []. split; [by etrans|auto]. Qed.

Lemma rest_room w : rest w -> room w.
Proof. intros (? & ? & ?). split; [done|lia]. Qed.

Lemma moves_runs w w' : moves w w' -> runs w w'.
Proof.
  intros M. split; [by destruct M|]. intros (Hl & Hn & Hs). split_and!.
  - by eapply moves_listed.
  - by rewrite (mv_num _ _ M), (peers_size _ _ (mv_peers _ _ M)).
  - by rewrite (mv_num _ _ M).
Qed.

Lemma runs_inv w w' : runs w w' -> cinv user (abs w) -> cinv user (abs w').
Proof. intros [] ?. by eapply steps_inv. Qed.

Lemma add_runs a w w' :
  links (abs w) !! a = None -> abs w' = with_link a new_link (abs w) -> num_sta w' = num_sta w + 1 ->
  num_sta w < 64999 -> runs w w'.
Proof.
  intros Ha E N Hn. split.
  - rewrite E. apply rtc_once. by apply a_add.
  - intros (Hl & Hs & _). split_and!; [| |lia].
    + intros b l. rewrite E. simpl. rewrite lookup_insert_Some. intros [[<- <-]|[_ H]]; [done|by eapply Hl].
    + rewrite E. change (links (with_link a new_link (abs w))) with (<[a := new_link]> (links (abs w))).
      rewrite map_size_insert_None by done. lia.
Qed.

Lemma init_link e w s : link_of (mesh_sta_info_init p e w s) = link_of s.
Proof.
  unfold mesh_sta_info_init. case_bool_decide; [done|].
  destruct (is_estab _ && processed_beacon _); done.
Qed.

Lemma insert_wp a s w :
  links (abs w) !! a = None -> link_of s = new_link -> num_sta w < 64999 ->
  wp (sta_info_insert_rcu a s) (fun found w' => runs w w' /\
    if found then links (abs w') !! a = Some new_link /\ estab (abs w') = estab (abs w) /\ max_links (abs w') = max_links (abs w)
    else silent w w') w.
Proof.
  intros Ha Hs Hn. unfold sta_info_insert_rcu. apply swp_bind, next_alloc_wp. intros ok w1 [E1 N1].
  destruct ok.
  - apply swp_bind, swp_modify, swp_bind. eapply swp_silently; [apply accept_plinks_silent|]. intros r w2 [E2 N2].
    change (num_sta (put_sta a s (set_num_sta (num_sta w1 + 1) w1))) with (num_sta w1 + 1) in N2.
    rewrite abs_put, Hs in E2. change (abs (set_num_sta ?n ?w)) with (abs w) in E2. rewrite E1 in E2.
    apply swp_ret. split; [by apply (add_runs a); try congruence|]. rewrite E2, links_with_link. done.
  - apply swp_ret. split; [|done]. by apply moves_runs, silent_moves.
Qed.

Lemma alloc_aid_silent w : silently mesh_allocate_aid w.
Proof.
  unfold mesh_allocate_aid. apply silently_bind; [by apply next_alloc_wp|]. intros ok w1 _. silently.
Qed.

Lemma sta_alloc_wp a e w :
  e_mesh_config e <> None -> 
  wp (mesh_sta_info_alloc p a e) (fun s w' => silent w w' /\
    match s with Some s => link_of s = new_link /\ num_sta w < MESH_MAX_PLINKS | None => True end) w.
Proof.
  intros He. unfold mesh_sta_info_alloc. destruct (_ || _).
  - destruct (e_mesh_config e) as [c|] eqn:Ec; [|done]. unfold mesh_peer_accepts_plinks. rewrite Ec.
    apply swp_bind, swp_bind. cbn. apply swp_bind, swp_gets, swp_bind.
    eapply swp_silently; [apply silently_when, silently_modify, silent_emit; done|]. intros ? w1 S1. by apply swp_ret.
  - unfold __mesh_sta_info_alloc. apply swp_bind, swp_gets. unfold id.
    destruct (Z.leb_spec MESH_MAX_PLINKS (num_sta w)); [by apply swp_ret|].
    apply swp_bind. eapply swp_silently; [apply alloc_aid_silent|]. intros aid w1 S1.
    destruct aid as [aid|]; [|by apply swp_ret]. apply swp_bind, next_alloc_wp. intros ok w2 S2. apply swp_ret.
    split; [by etrans|]. by destruct ok.
Qed.

Lemma info_get_peer a w : all_listed (abs w) -> sta_info_get a w = peer a w.
Proof.
  intros Hl. unfold sta_info_get. destruct (peer a w) as [s|] eqn:Hs; [|done].
  pose proof (Hl _ _ (peer_link _ _ _ Hs)) as E. simpl in E. by rewrite E.
Qed.

Lemma sta_get_wp a e w :
  rest w -> e_mesh_config e <> None ->
  wp (mesh_sta_info_get p a e) (fun found w' => runs w w' /\
    estab (abs w') = estab (abs w) /\ max_links (abs w') = max_links (abs w) /\
    (forall l, links (abs w) !! a = Some l -> links (abs w') !! a = Some l) /\
    (links (abs w) !! a = None -> found = true -> links (abs w') !! a = Some new_link) /\
    (found = true -> is_Some (links (abs w') !! a))) w.
Proof.
  intros Hr He. unfold mesh_sta_info_get. apply swp_bind, swp_gets. unfold id.
  rewrite info_get_peer by apply Hr. destruct (peer a w) as [s|] eqn:Hs.
  - pose proof (peer_link _ _ _ Hs) as Hl.
    apply swp_bind. eapply swp_silently; [apply upd_sta_silent; [by eexists|apply init_link]|]. intros [] w1 S1.
    apply swp_ret. pose proof (silent_abs _ _ S1) as E1. rewrite !E1.
    split_and!; [by apply moves_runs, silent_moves|done|done|done|congruence|by eexists].
  - apply no_link in Hs. apply swp_bind. eapply swp_mono; [by apply sta_alloc_wp|]. intros [s|] w1 [S1 H1].
    + destruct H1 as [Hnew Hnum]. pose proof S1 as [E1 N1]. unfold MESH_MAX_PLINKS in Hnum.
      eapply swp_mono; [apply insert_wp|].
      * by rewrite E1.
      * by rewrite init_link.
      * rewrite N1. lia.
      * intros found w2 [R2 H2]. assert (R : runs w w2) by (etrans; [by apply moves_runs, silent_moves|done]).
        destruct found.
        -- destruct H2 as (H2 & Ee & Em). rewrite Ee, Em, !E1.
           split_and!; [done|done|done|congruence|done|by eexists].
        -- destruct H2 as [E2 _]. rewrite E2, !E1. split_and!; done.
    + apply swp_ret. pose proof (silent_abs _ _ S1) as E1. rewrite !E1.
      split_and!; [by apply moves_runs, silent_moves|done|done|done|done|done].
Qed.

(** ** Received frames *)

Lemma moves_notify n w0 w :
  moves w0 w -> wp (ieee80211_mbss_info_change_notify n) (fun _ w' => moves w0 w') w.
Proof.
  intros H. eapply swp_silently; [apply notify_silent|]. intros ? w' S. etrans; [done|by apply silent_moves].
Qed.

Lemma runs_rest w w' : runs w w' -> rest w -> rest w'.
Proof. by intros []. Qed.

(** From the point where the event is known and the link has the peer's ID. *)
Lemma react_wp a event w0 w :
  cinv user (abs w0) -> rest w0 -> user = false -> runs w0 w -> is_Some (links (abs w) !! a) -> event_ok a event w ->
  wp (preempt p ;;; changed <- mesh_plink_fsm p a event ;; ieee80211_mbss_info_change_notify changed)
     (fun _ w' => runs w0 w') w.
Proof.
  intros Hc0 Hr0 Hu R Hl He. assert (Hc : cinv user (abs w)) by by eapply runs_inv.
  apply swp_bind, swp_preempt; [done|]. intros w1 H1.
  assert (M1 : moves w w1) by by apply irqs_moves.
  assert (R1 : runs w0 w1) by (etrans; [done|by apply moves_runs]).
  apply swp_bind. eapply swp_mono.
  - apply fsm_wp; [by eapply irqs_inv| |done|by eapply moves_some|by eapply event_ok_irqs].
    apply rest_room. by eapply runs_rest.
  - intros changed w2 M2. cbn beta in M2. eapply swp_mono; [by apply (moves_notify _ w1)|].
    intros [] w3 M3. etrans; [exact R1|by apply moves_runs].
Qed.

Lemma evolves_plid l l' y : evolves l l' -> l_plid l = 0 \/ l_plid l = y -> l_plid l' = 0 \/ l_plid l' = y.
Proof. intros [_ [(_ & _ & ->)|[(_ & _ & _ & ->)|(_ & _ & _ & ->)]]]; auto. Qed.

Lemma plid_runs a l y f w (Q : unit -> mesh_if -> Prop) :
  links (abs w) !! a = Some l -> user = false -> told a y -> l_plid l = 0 \/ l_plid l = y ->
  (forall s, link_of s = l -> link_of (set_mesh (f (mesh s)) s) = with_ids (l_llid l) y l) ->
  (forall w', moves w w' -> links (abs w') !! a = Some (with_ids (l_llid l) y l) -> estab (abs w') = estab (abs w) ->
     max_links (abs w') = max_links (abs w) -> Q tt w') ->
  wp (upd_mesh a f) Q w.
Proof.
  intros Hl Hu Ht Hy Hf HQ. unfold upd_mesh, upd_sta. apply swp_bind. eapply swp_get_sta; [done|]. intros s Hs Es.
  apply swp_modify. assert (E : abs (put_sta a (set_mesh (f (mesh s)) s) w) = with_link a (with_ids (l_llid l) y l) (abs w)).
  { by rewrite abs_put, Hf. }
  apply HQ; rewrite ?E; [|apply links_with_link|done|done].
  apply step_moves; rewrite ?E; [by apply a_plid|by apply (same_peers_link _ _ _ _ Hl)|done].
Qed.

Lemma ie_le16_wp ie i (Q : Z -> mesh_if -> Prop) w :
  0 <= i -> i + 2 <= zlen ie -> (forall x, rd_le16 ie i = Some x -> Q x w) -> wp (ie_le16 ie i) Q w.
Proof.
  intros Hi Hn HQ. destruct (rd_le16_Some ie i Hi Hn) as [x Hx]. unfold wp, ie_le16, from_option. rewrite Hx. by apply HQ.
Qed.

Lemma free_count w : mesh_plink_free_count w = max_links (abs w) - estab (abs w).
Proof. done. Qed.

Lemma process_frame_wp sa ft aid e w :
  cinv user (abs w) -> rest w -> user = false ->
  (forall ie x, peering e = Some ie -> ft <> WLAN_SP_MESH_PEERING_CLOSE -> rd_le16 ie 2 = Some x -> told sa x) ->
  (forall ie x y, peering e = Some ie -> ft = WLAN_SP_MESH_PEERING_CONFIRM ->
     rd_le16 ie 2 = Some x -> rd_le16 ie 4 = Some y -> heard sa x y) ->
  wp (mesh_process_plink_frame p sa ft aid e) (fun _ w' => runs w w') w.
Proof.
  intros Hc Hr Hu Htold Hheard. unfold mesh_process_plink_frame.
  destruct (peering e) as [ie|] eqn:Hie; [|by apply swp_ret]. cbn zeta.
  destruct (has_rsn e && _); [by apply swp_ret|].
  destruct (ie_len_ok ft (zlen ie)) eqn:Hlen; cbn [negb]; [|by apply swp_ret].
  destruct (negb (bool_decide (ft = _)) && _) eqn:Hconf; [by apply swp_ret|].
  apply swp_bind, ie_le16_wp; [lia|destruct ft; simpl in Hlen; lia|]. intros x Hx.
  set (m := if _ || _ then _ else _).
  assert (Hm : forall Q : Z -> mesh_if -> Prop,
    (forall y, (ft = WLAN_SP_MESH_PEERING_CONFIRM -> rd_le16 ie 4 = Some y) -> Q y w) -> wp m Q w).
  { intros Q HQ. subst m. apply swp_if.
    - intros E. apply ie_le16_wp; [lia| |by auto].
      destruct ft; simpl in E, Hlen; [done|lia|]. destruct (Z.eqb_spec (zlen ie) 8); [lia|done].
    - intros E. apply swp_ret, HQ. intros ->. done. }
  apply swp_bind, Hm. clear m Hm. intros y Hy. apply swp_bind, swp_gets. unfold id. cbn zeta.
  rewrite info_get_peer by apply Hr.
  destruct (bool_decide (ft = WLAN_SP_MESH_PEERING_OPEN) && _); [by apply swp_ret|].
  destruct (get_event_total (peer sa w) e (zlen ie) ft y x w) as [ev Hev].
  apply swp_bind. unfold wp at 1, from_option. rewrite Hev.
  apply swp_bind, swp_preempt; [done|]. intros w1 H1.
  assert (R1 : runs w w1) by by apply moves_runs, irqs_moves.
  assert (C1 : cinv user (abs w1)) by by eapply runs_inv.
  assert (Hr1 : rest w1) by by eapply runs_rest.
  pose proof (isteps_frame _ _ (proj1 H1)) as F1.
  destruct (decide (ev = OPN_ACPT)) as [->|Eo]; [rewrite bool_decide_true by done|rewrite (bool_decide_false (ev = OPN_ACPT)) by done].
  - assert (Hft : ft = WLAN_SP_MESH_PEERING_OPEN /\ mesh_plink_free_count w <> 0).
    { destruct (peer sa w) as [s|]; [by apply get_event_spec in Hev as [Hev _]; destruct (Hev eq_refl) as (? & ? & _)|].
      by eapply get_event_unknown. }
    destruct Hft as [Hft Hfree].
    assert (Hcf : e_mesh_config e <> None).
    { intros E. rewrite E, Hft in Hconf. simpl in Hconf. by rewrite orb_true_r in Hconf. }
    apply swp_bind. eapply swp_mono; [by apply sta_get_wp|]. intros found w2 (R2 & Ee2 & Em2 & Hk & Hnew & Hsome).
    assert (R : runs w w2) by by etrans.
    apply swp_when; [intros ->|done]. destruct (Hsome eq_refl) as [l2 Hl2].
    assert (Hp2 : l_plid l2 = 0 \/ l_plid l2 = x).
    { destruct (links (abs w1) !! sa) as [l1|] eqn:Hl1.
      - rewrite (Hk _ eq_refl) in Hl2. injection Hl2 as <-.
        destruct (peer sa w) as [s|] eqn:Hs.
        + apply get_event_spec in Hev as [Hev _]. destruct (Hev eq_refl) as (_ & _ & Hpl).
          pose proof (peer_link _ _ _ Hs) as Hl. destruct (irq_frame_at _ _ _ _ F1 Hl) as (l1' & Hl1' & He).
          rewrite Hl1 in Hl1'. injection Hl1' as <-. by eapply evolves_plid.
        + exfalso. apply no_link in Hs. pose proof (if_links _ _ F1 sa) as Hx1. by rewrite Hs, Hl1 in Hx1.
      - rewrite (Hnew eq_refl eq_refl) in Hl2. injection Hl2 as <-. by left. }
    apply swp_bind. eapply (plid_runs sa l2 x); [done|done|eapply Htold; [done|by rewrite Hft|done]|done|by intros s <-|].
    intros w3 M3 Hl3 Ee3 Em3. apply react_wp; [done|done|done|by etrans; [|apply moves_runs]|by eexists|].
    split; [done|]. intros _. rewrite Ee3, Em3, Ee2, Em2, (if_estab _ _ F1), (if_max_links _ _ F1), <- free_count. done.
  - destruct (peer sa w) as [s|] eqn:Hs; cbn [negb andb orb].
    2: { rewrite (bool_decide_false (None <> None)) by auto. cbn [negb andb orb].
         destruct (bool_decide (ev = OPN_RJCT)); [|by apply swp_ret].
         apply swp_bind, swp_frame_tx; [discriminate|]. intros r w2 N2 H2. apply swp_ret. etrans; [exact R1|].
         apply moves_runs. destruct H2 as [E2|[aid' E2]]; [by apply silent_moves|].
         apply step_moves; [|by rewrite E2|done]. rewrite E2. apply a_reject. }
    rewrite bool_decide_true by done. cbn [negb andb orb].
    destruct (bool_decide (ev = PLINK_UNDEFINED)); [by apply swp_ret|].
    pose proof (peer_link _ _ _ Hs) as Hl. destruct (irq_frame_at _ _ _ _ F1 Hl) as (l1 & Hl1 & He1).
    apply get_event_spec in Hev as [_ Hev]. apply swp_bind.
    assert (Hnot : ev <> CNF_ACPT -> wp (preempt p ;;; changed <- mesh_plink_fsm p sa ev ;; ieee80211_mbss_info_change_notify changed)
        (fun _ w' => runs w w') w1).
    { intros Hne. apply react_wp; [done|done|done|done|by eexists|]. split; [done|]. by intros []. }
    apply swp_when; [intros Ec|intros Ec; apply bool_decide_eq_false in Ec; by apply Hnot].
    apply bool_decide_eq_true in Ec. destruct (Hev Ec) as (Hft & Hfree & Hll & Hpl).
    assert (Hp1 : l_plid l1 = 0 \/ l_plid l1 = x) by by eapply evolves_plid.
    eapply (plid_runs sa l1 x); [done|done|eapply Htold; [done|by rewrite Hft|done]|done| |].
    + intros s1 <-. unfold link_of in *. cbn [l_plid mesh set_mesh] in *.
      destruct (Z.eqb_spec (plid (mesh s1)) 0); [done|]. destruct Hp1 as [|Hp1]; [done|]. rewrite <- Hp1. done.
    + intros w2 M2 Hl2 Ee2 Em2. apply react_wp; [done|done|done|by etrans; [|apply moves_runs]|by eexists|].
      split.
      * intros _ k Hk Ho. rewrite Hl2 in Hk. injection Hk as <-. cbn [l_llid l_plid with_ids l_state] in *.
        destruct (evolves_opening _ _ He1 Ho) as (_ & -> & _). cbn [link_of l_llid]. rewrite Hll.
        eapply Hheard; [done|done|done|]. by apply Hy.
      * intros _. rewrite Ee2, Em2, (if_estab _ _ F1), (if_max_links _ _ F1), <- free_count. done.
Qed.
End handlers.
