(* ===== verification/MeshOps.v ===== *)
(** * MeshOps: every operation implements the steps

    The operations of [MeshRun], in the premises of [op_ok] and from a state
    that is [good], do not fault, go by the steps of [MeshSpec] and leave a
    [good] state. *)
From stdpp Require Import gmap.
From S2P Require Import Prelude Frame Chandef StateMonad Mesh MeshPlink MeshRun MeshSpec MeshInv MeshRefine MeshHandlers.

(** ** What an operation brings *)

(** The CONFIRM that is received carries the link IDs [x] of the peer and [y] of
    this station; the OPEN or CONFIRM carries [x]. *)
Definition op_heard (o : op) (a : list Z) (x y : Z) : Prop :=
  exists multicast aid e ie, o = op_rx_plink a multicast WLAN_SP_MESH_PEERING_CONFIRM aid e /\
    peering e = Some ie /\ rd_le16 ie 2 = Some x /\ rd_le16 ie 4 = Some y.
Definition op_told (o : op) (a : list Z) (x : Z) : Prop :=
  exists multicast ft aid e ie, o = op_rx_plink a multicast ft aid e /\ ft <> WLAN_SP_MESH_PEERING_CLOSE /\
    peering e = Some ie /\ rd_le16 ie 2 = Some x.
(** User space asks to open the link to [a], which is open. *)
Definition op_relabel (o : op) (c : core) (a : list Z) : Prop :=
  exists sp l, o = op_change_station a sp /\ sp_action sp = NL80211_PLINK_ACTION_OPEN /\
    links c !! a = Some l /\ idle (l_state l) = false.

Definition op_step (p : params) (o : op) (c : core) : core -> core -> Prop :=
  astep (user_mpm p) (op_heard o) (op_told o) (op_relabel o c).

(** The ranges [nl80211.c] enforces on a configuration; the limit on links is not
    set below the links there are; no suspend; a station table that is not
    full. *)
Definition op_ok (p : params) (w : mesh_if) (o : op) : Prop :=
  match o with
  | op_config mask k =>
      1 <= dot11MeshRetryTimeout k <= 255 /\ 0 <= dot11MeshMaxRetries k <= 16 /\
      (user_mpm p = false -> estab_plinks w <= dot11MeshMaxPeerLinks k)
  | op_add_station _ _ => num_sta w < 64999
  | op_suspend q => q = false
  | _ => True
  end.

Definition good (p : params) (w : mesh_if) : Prop := cinv (user_mpm p) (abs w) /\ rest w.

Section ops.
Context (p : params) (heard : list Z -> Z -> Z -> Prop) (told : list Z -> Z -> Prop) (relabel : list Z -> Prop).
Abbreviation user := (user_mpm p).
Abbreviation step := (astep user heard told relabel).
Abbreviation moves := (moves p heard told relabel).
Abbreviation runs := (runs p heard told relabel).

#[local] Instance moves_pre : PreOrder moves.
Proof. apply moves_preorder. Qed.
#[local] Instance runs_pre : PreOrder runs.
Proof. apply runs_preorder. Qed.

Hypothesis Hchan : chan (oper p) <> None.

Lemma rest_listed w : rest w -> all_listed (abs w).
Proof. by intros []. Qed.

(** ** Beacons *)

Lemma neighbour_wp a e w :
  cinv user (abs w) -> rest w -> e_mesh_config e <> None ->
  wp (mesh_neighbour_update p a e) (fun _ w' => runs w w') w.
Proof.
  intros Hc Hr He. unfold mesh_neighbour_update. apply swp_bind.
  eapply swp_mono; [by apply (sta_get_wp p heard told relabel)|]. intros found w1 (R1 & _ & _ & _ & _ & Hs).
  destruct found; cbn [negb]; [|by apply swp_ret].
  assert (C1 : cinv user (abs w1)) by by eapply runs_inv.
  destruct (e_mesh_config e) as [c|] eqn:Ec; [|done].
  apply swp_bind. unfold wp at 1, from_option. apply swp_bind.
  eapply swp_silently; [apply upd_mesh_silent; [by apply Hs|done]|]. intros [] w2 S2.
  pose proof (silent_abs _ _ S2) as E2. unfold mesh_peer_accepts_plinks. rewrite Ec.
  destruct (Hs eq_refl) as [l Hl].
  apply swp_bind, swp_bind. cbn. apply swp_bind. eapply swp_get_sta; [by rewrite E2|]. intros s _ Es.
  apply swp_bind, swp_gets. unfold id. rewrite (state_link _ _ Es).
  assert (R2 : runs w w2) by (etrans; [done|by apply moves_runs, silent_moves]).
  assert (Hend : forall r w3, runs w w3 -> wp (ieee80211_mbss_info_change_notify r) (fun _ w' => runs w w') w3).
  { intros r w3 R3. eapply swp_silently; [apply notify_silent|]. intros ? w4 S4.
    etrans; [done|]. by apply moves_runs, silent_moves. }
  apply swp_bind. apply swp_if; intros Eb; [|by apply swp_ret, Hend].
  repeat (apply andb_prop in Eb as [Eb ?]). 
  assert (C2 : cinv user (abs w2)) by by rewrite E2.
  eapply swp_mono; [apply open_wp with (heard := heard) (told := told) (relabel := relabel)|].
  - done.
  - apply rest_room. by eapply runs_rest.
  - apply not_true_iff_false. intros Hu. pose proof (ci_auto _ _ C2 Hu) as Ha.
    change (auto (abs w2)) with (auto_open_plinks (mshcfg w2)) in Ha. congruence.
  - intros k Hk Hid. rewrite E2, Hl in Hk. injection Hk as <-.
    match goal with H : bool_decide (l_state l = _) = true |- _ => apply bool_decide_eq_true in H; by rewrite H in Hid end.
  - rewrite E2. by eexists.
  - intros r w3 M3. apply Hend. etrans; [exact R2|by apply moves_runs].
Qed.

Lemma beacon_wp a e signal w :
  cinv user (abs w) -> rest w -> wp (ieee80211_mesh_rx_bcn_presp p a e signal) (fun _ w' => runs w w') w.
Proof.
  intros Hc Hr. unfold ieee80211_mesh_rx_bcn_presp. cbn zeta. destruct (_ || _ || _) eqn:E; [by apply swp_ret|].
  apply orb_false_iff in E as [E _]. apply orb_false_iff in E as [_ E]. apply bool_decide_eq_false in E.
  destruct (matches_total p Hchan e) as [b Hb]. apply swp_bind. unfold wp at 1, from_option. rewrite Hb.
  apply swp_bind, swp_gets, swp_when; [|done]. intros _. by apply neighbour_wp.
Qed.

Lemma with_estab_id e c : e = estab c -> c = with_estab e c.
Proof. intros ->. by destruct c. Qed.

(** ** Requests of user space *)

Lemma set_state_wp a st l (w1 w : mesh_if) c pm :
  links (abs w) !! a = Some l -> user = true -> num_sta w1 = num_sta w ->
  abs w1 = with_estab (estab (abs w) - Z.b2z (l_estab l) + Z.b2z (bool_decide (st = NL80211_PLINK_ESTAB))) (abs w) ->
  forall f, (forall s, link_of (set_mesh (f (mesh s)) s) = at_state st (link_of s)) ->
  wp (upd_mesh a f ;;; ieee80211_mps_sta_status_update a ;;;
      pm <- gets pm ;;
      c' <- ieee80211_mps_set_sta_local_pm a pm ;; ret (c .| c')) (fun _ w' => moves w w') w1.
Proof.
  intros Hl Hu N1 E1 f Hf. apply swp_bind. eapply (swp_upd_mesh a f (at_state st)); [rewrite E1; exact Hl|done|].
  intros w2 E2 N2. assert (Hl2 : is_Some (links (abs w2) !! a)) by (rewrite E2; eexists; apply links_with_link).
  apply swp_bind. eapply swp_silently; [by apply sta_status_silent|]. intros ? w3 [E3 N3].
  apply swp_bind, swp_gets, swp_bind. eapply swp_silently; [apply local_pm_silent; by rewrite E3|]. intros c' w4 [E4 N4].
  apply swp_ret. assert (E : abs w4 = with_estab (estab (abs w) - Z.b2z (l_estab l) + Z.b2z (bool_decide (st = NL80211_PLINK_ESTAB)))
      (with_link a (at_state st l) (abs w))) by by rewrite E4, E3, E2, E1.
  apply step_moves; [| |congruence]; rewrite E; [by apply a_user|by apply (same_peers_link _ _ _ _ Hl)].
Qed.

Lemma apply_params_wp a sp w :
  cinv user (abs w) -> rest w -> is_Some (links (abs w) !! a) ->
  (user = false -> sp_state sp = None) -> (user = true -> sp_action sp <> NL80211_PLINK_ACTION_OPEN) ->
  (sp_action sp = NL80211_PLINK_ACTION_OPEN ->
   forall l, links (abs w) !! a = Some l -> idle (l_state l) = false -> relabel a) ->
  wp (sta_apply_mesh_params p a sp) (fun _ w' => runs w w') w.
Proof.
  intros Hc Hr [l Hl] Hst Hact Hre. unfold sta_apply_mesh_params.
  assert (H1 : wp match sp_state sp with
    | None => ret 0
    | Some NL80211_PLINK_ESTAB =>
        s <- get_sta a ;;
        c <- (if is_estab s then ret 0 else mesh_plink_inc_estab_count) ;;
        upd_mesh a (fun m => set_mesh_aid (sp_aid sp) (set_plink_state NL80211_PLINK_ESTAB m)) ;;;
        ieee80211_mps_sta_status_update a ;;;
        pm <- gets (fun w => power_mode (mshcfg w)) ;;
        c' <- ieee80211_mps_set_sta_local_pm a pm ;;
        ret (c .| c')
    | Some st =>
        s <- get_sta a ;;
        c <- (if is_estab s then mesh_plink_dec_estab_count else ret 0) ;;
        upd_mesh a (set_plink_state st) ;;;
        ieee80211_mps_sta_status_update a ;;;
        c' <- ieee80211_mps_set_sta_local_pm a NL80211_MESH_POWER_UNKNOWN ;;
        ret (c .| c')
    end (fun _ w' => moves w w') w).
  { destruct (sp_state sp) as [st|]; [|by apply swp_ret].
    assert (Hu : user = true) by (apply not_false_iff_true; intros E; by specialize (Hst E)).
    assert (Hother : st <> NL80211_PLINK_ESTAB ->
      wp (s <- get_sta a ;;
          c <- (if is_estab s then mesh_plink_dec_estab_count else ret 0) ;;
          upd_mesh a (set_plink_state st) ;;;
          ieee80211_mps_sta_status_update a ;;;
          c' <- ieee80211_mps_set_sta_local_pm a NL80211_MESH_POWER_UNKNOWN ;;
          ret (c .| c')) (fun _ w' => moves w w') w).
    { intros Hne. apply swp_bind. eapply swp_get_sta; [done|]. intros s _ Es. rewrite (is_estab_link _ _ Es).
      apply swp_bind. destruct (l_estab l) eqn:El.
      - apply dec_estab_wp. intros c w1 E1 N1.
        apply (set_state_wp a st l w1 w c (fun _ => NL80211_MESH_POWER_UNKNOWN)); try done.
        rewrite E1, El, bool_decide_false by done. f_equal. cbn [Z.b2z]. lia.
      - apply swp_ret, (set_state_wp a st l w w 0 (fun _ => NL80211_MESH_POWER_UNKNOWN)); try done.
        rewrite El, bool_decide_false by done. apply with_estab_id. cbn [Z.b2z]. lia. }
    destruct st; try (by apply Hother). clear Hother.
    apply swp_bind. eapply swp_get_sta; [done|]. intros s _ Es. rewrite (is_estab_link _ _ Es).
    apply swp_bind. destruct (l_estab l) eqn:El.
    - apply swp_ret, (set_state_wp a NL80211_PLINK_ESTAB l w w 0 (fun w => power_mode (mshcfg w))); try done.
      rewrite El, bool_decide_true by done. apply with_estab_id. cbn [Z.b2z]. lia.
    - apply inc_estab_wp. intros c w1 E1 N1.
      apply (set_state_wp a NL80211_PLINK_ESTAB l w1 w c (fun w => power_mode (mshcfg w))); try done.
      rewrite E1, El, bool_decide_true by done. f_equal. cbn [Z.b2z]. lia. }
  apply swp_bind. eapply (swp_mono _ (fun _ w' => moves w w' /\ (user = false -> w' = w))).
  { destruct (sp_state sp) as [st|] eqn:Es; [|by apply swp_ret].
    eapply swp_mono; [exact H1|]. intros ? w' M. split; [exact M|]. intros E. by specialize (Hst E). }
  intros c1 w1 [M1 W1].
  assert (C1 : cinv user (abs w1)) by by eapply moves_inv.
  assert (Hl1 : is_Some (links (abs w1) !! a)) by (eapply moves_some; [exact M1|by eexists]).
  apply swp_bind. eapply (swp_mono _ (fun _ w' => moves w w')).
  { destruct (sp_action sp) eqn:Ea.
    - by apply swp_ret.
    - assert (Hu : user = false) by (apply not_true_iff_false; intros E; by destruct (Hact E)).
      eapply swp_mono; [apply open_wp with (heard := heard) (told := told) (relabel := relabel)|]; [done| |done|rewrite (W1 Hu); by apply Hre|done|].
      + eapply moves_room; [exact M1|by apply rest_room].
      + intros r w2 M2. cbn beta in *. by etrans.
    - eapply swp_mono; [by apply block_wp with (heard := heard) (told := told) (relabel := relabel)|].
      intros r w2 M2. cbn beta in *. by etrans. }
  intros c2 w2 M2. cbn beta in M2.
  assert (Hl2 : is_Some (links (abs w2) !! a)) by (eapply moves_some; [exact M2|by eexists]).
  apply swp_bind. eapply swp_silently; [apply silently_if; [apply silently_ret|by apply local_pm_silent]|].
  intros c3 w3 S3. eapply swp_silently; [apply notify_silent|]. intros ? w4 S4.
  apply moves_runs. etrans; [exact M2|]. by apply silent_moves; etrans.
Qed.

Lemma change_station_wp a sp w :
  cinv user (abs w) -> rest w ->
  (sp_action sp = NL80211_PLINK_ACTION_OPEN ->
   forall l, links (abs w) !! a = Some l -> idle (l_state l) = false -> relabel a) ->
  wp (ieee80211_change_station p a sp) (fun _ w' => runs w w') w.
Proof.
  intros Hc Hr Hre. unfold ieee80211_change_station. apply swp_bind, swp_gets. unfold id.
  rewrite info_get_peer by by apply rest_listed. destruct (peer a w) as [s|] eqn:Hs; [|by apply swp_ret].
  cbn zeta. destruct (check_station_change p sp <? 0) eqn:Ech; [by apply swp_ret|]. apply swp_bind.
  eapply swp_mono; [apply apply_params_wp; [done|done|eexists; by apply peer_link| | |done]|].
  - intros Hu. unfold check_station_change in Ech. rewrite Hu in Ech. cbn [negb] in Ech.
    case_bool_decide; [done|discriminate].
  - intros Hu E. unfold check_station_change in Ech. by rewrite Hu, E in Ech.
  - intros ? w' R. by apply swp_ret.
Qed.

Lemma move_state_wp a st w : rest w -> wp (sta_info_move_state a st) (fun _ w' => runs w w') w.
Proof.
  intros Hr. unfold sta_info_move_state. apply swp_bind, swp_gets. unfold id.
  rewrite info_get_peer by by apply rest_listed. destruct (peer a w) as [s|] eqn:Hs; [|by apply swp_ret].
  eapply swp_silently; [apply silently_when, upd_sta_silent; [eexists; by apply peer_link|done]|].
  intros ? w' S. by apply moves_runs, silent_moves.
Qed.

Lemma add_station_wp a aid w : num_sta w < 64999 -> wp (ieee80211_add_station a aid) (fun _ w' => runs w w') w.
Proof.
  intros Hn. unfold ieee80211_add_station. apply swp_bind, swp_gets. unfold id.
  destruct (peer a w) as [s|] eqn:Hs; [by apply swp_ret|]. apply swp_bind.
  eapply swp_mono; [apply (insert_wp p heard told relabel); [by apply no_link|done|done]|].
  intros found w' [R _]. by apply swp_ret.
Qed.

(** ** Removing stations *)

(** What the removal of the station [a] leaves. *)
Record removed (a : list Z) (w w' : mesh_if) : Prop := {
  rm_runs : runs w w';
  rm_others : forall b, b <> a -> is_Some (links (abs w) !! b) -> is_Some (links (abs w') !! b);
}.

Lemma cleanup_wp a w :
  cinv user (abs w) -> is_Some (links (abs w) !! a) ->
  wp (__cleanup_single_sta p a) (fun _ w' => moves w w' /\ silenced a w') w.
Proof.
  intros Hc [l Hl]. unfold __cleanup_single_sta. apply swp_bind. eapply swp_get_sta; [done|]. intros s _ _.
  apply swp_bind. eapply (swp_silently (when (ps_sta s) _)).
  { apply silently_when, silently_bind; [apply upd_sta_silent; [by eexists|done]|]. intros ? w1 S1.
    by apply silently_modify. }
  intros ? w1 S1. pose proof (silent_abs _ _ S1) as E1. unfold mesh_sta_cleanup. apply swp_bind.
  eapply swp_mono; [apply deactivate_wp with (heard := heard) (told := told) (relabel := relabel)|].
  - by rewrite E1.
  - rewrite E1. by eexists.
  - intros r w2 [M2 Si2]. eapply swp_silently; [apply notify_silent|]. intros ? w3 S3. split.
    + etrans; [by apply silent_moves|]. etrans; [exact M2|]. by apply silent_moves.
    + unfold silenced in *. by rewrite (silent_abs _ _ S3).
Qed.

Lemma destroy_wp a w :
  cinv user (abs w) -> rest w -> is_Some (links (abs w) !! a) ->
  wp (__sta_info_destroy p a) (fun _ w' => removed a w w') w.
Proof.
  intros Hc (Hli & Hn & Hs) [l Hl]. unfold __sta_info_destroy. apply swp_bind.
  eapply (swp_upd_sta a _ unlisted l); [done|done|]. intros w1 E1 N1.
  assert (T1 : rtc step (abs w) (abs w1)) by (rewrite E1; by apply rtc_once, a_unlist).
  assert (C1 : cinv user (abs w1)) by by eapply steps_inv.
  apply swp_bind, swp_preempt; [done|]. intros w2 H2.
  assert (M2 : moves w1 w2) by by apply irqs_moves.
  apply swp_bind, swp_modify. set (w3 := set_num_sta (num_sta w2 - 1) w2).
  assert (Hl3 : is_Some (links (abs w3) !! a)).
  { change (abs w3) with (abs w2). eapply moves_some; [exact M2|]. rewrite E1. eexists. apply links_with_link. }
  apply swp_bind. eapply swp_silently; [by apply upd_sta_silent|]. intros [] w4 [E4 N4].
  change (abs w3) with (abs w2) in *.
  apply swp_bind. eapply swp_mono; [apply cleanup_wp|].
  - rewrite E4. by eapply moves_inv.
  - by rewrite E4.
  - intros [] w5 [M5 [(k & Hk & Hb & Hp & Hf) Hmine]]. apply swp_modify.
    set (w6 := set_stas (delete a (stas w5)) w5).
    assert (E6 : abs w6 = with_links (delete a (links (abs w5))) (abs w5)).
    { unfold abs, with_links, w6. simpl. by rewrite fmap_delete. }
    assert (P5 : same_peers (abs w1) (abs w5)).
    { etrans; [by apply M2|]. rewrite <- E4. by apply M5. }
    assert (N5 : num_sta w5 = num_sta w - 1).
    { rewrite (mv_num _ _ _ _ _ _ M5), N4. change (num_sta w3) with (num_sta w2 - 1).
      rewrite (mv_num _ _ _ _ _ _ M2). lia. }
    assert (Hsz : size (links (abs w5)) = size (links (abs w))).
    { rewrite (peers_size _ _ P5), E1. change (links (with_link a (unlisted l) (abs w))) with (<[a := unlisted l]> (links (abs w))).
      by rewrite map_size_insert_Some by by eexists. }
    assert (Hothers : forall b k', b <> a -> links (abs w5) !! b = Some k' -> exists k0, links (abs w) !! b = Some k0 /\ l_listed k' = l_listed k0).
    { intros b k' Hne Hb'. destruct (peers_bwd _ _ _ _ P5 Hb') as (k0 & Hk0 & Hls).
      rewrite E1 in Hk0. change (<[a := unlisted l]> (links (abs w)) !! b = Some k0) in Hk0.
      rewrite lookup_insert_ne in Hk0 by congruence. eauto. }
    split.
    + split.
      * etrans; [exact T1|]. etrans; [by apply M2|]. rewrite <- E4. etrans; [by apply M5|].
        rewrite E6. apply rtc_once. by eapply a_delete.
      * intros _. unfold rest. rewrite E6. change (links (with_links ?m ?c)) with m. change (num_sta w6) with (num_sta w5).
        split_and!; [| |lia].
        -- intros b k'. change (links (with_links ?m ?c)) with m. rewrite lookup_delete_Some. intros [Hne Hb'].
           destruct (Hothers b k') as (k0 & Hk0 & ->); [done|done|]. by eapply Hli.
        -- rewrite map_size_delete_Some by by eexists. rewrite N5, Hn, Hsz.
           assert (size (links (abs w)) <> 0%nat).
           { apply map_size_ne_0_lookup. exists a. by eexists. }
           lia.
    + intros b Hne [k0 Hk0]. rewrite E6. change (is_Some (delete a (links (abs w5)) !! b)).
      rewrite lookup_delete_ne by congruence.
      assert (Hb1 : links (abs w1) !! b = Some k0).
      { rewrite E1. change (<[a := unlisted l]> (links (abs w)) !! b = Some k0). by rewrite lookup_insert_ne by congruence. }
      destruct (peers_fwd _ _ _ _ P5 Hb1) as (k5 & Hk5 & _). by eexists.
Qed.

Lemma del_station_wp a w :
  cinv user (abs w) -> rest w -> wp (sta_info_destroy_addr p a) (fun _ w' => runs w w') w.
Proof.
  intros Hc Hr. unfold sta_info_destroy_addr. apply swp_bind, swp_gets. unfold id.
  rewrite info_get_peer by by apply rest_listed. destruct (peer a w) as [s|] eqn:Hs; [|by apply swp_ret].
  eapply swp_mono; [apply destroy_wp; [done|done|eexists; by apply peer_link]|]. by intros ? w' [].
Qed.

Lemma expire_one_wp t a w :
  cinv user (abs w) -> rest w -> is_Some (links (abs w) !! a) ->
  wp (expire_one p t a) (fun _ w' => removed a w w') w.
Proof.
  intros Hc Hr [l Hl]. unfold expire_one. apply swp_bind. eapply swp_get_sta; [done|]. intros s _ _.
  apply swp_bind, swp_gets. unfold id. apply swp_when; [intros _|intros _; by split].
  apply swp_bind. eapply swp_silently; [by apply silently_when, silently_modify|]. intros ? w1 S1.
  pose proof (silent_abs _ _ S1) as E1. pose proof (proj2 S1) as N1.
  eapply swp_mono; [apply destroy_wp|].
  - by rewrite E1.
  - unfold rest. by rewrite E1, N1.
  - rewrite E1. by eexists.
  - intros [] w2 [R2 O2]. split.
    + etrans; [by apply moves_runs, silent_moves|done].
    + intros b. rewrite <- E1. apply O2.
Qed.

Lemma expire_all_wp t l w :
  NoDup l -> (forall a, a ∈ l -> is_Some (links (abs w) !! a)) -> cinv user (abs w) -> rest w ->
  wp (iter (expire_one p t) l) (fun _ w' => runs w w') w.
Proof.
  intros Hd. revert w. induction Hd as [|a l Hni Hd IH]; intros w Hl Hc Hr; cbn [iter]; [by apply swp_ret|].
  apply swp_bind. eapply swp_mono; [apply expire_one_wp; [done|done|apply Hl; left]|]. intros [] w1 [R1 O1].
  eapply swp_mono; [apply IH|].
  - intros b Hb. apply O1; [by intros ->|]. apply Hl. by right.
  - by eapply runs_inv.
  - by eapply runs_rest.
  - intros ? w2 R2. cbn beta in *. by etrans.
Qed.

Lemma housekeeping_wp w :
  cinv user (abs w) -> rest w -> wp (ieee80211_mesh_housekeeping p) (fun _ w' => runs w w') w.
Proof.
  intros Hc Hr. unfold ieee80211_mesh_housekeeping. apply swp_bind, swp_gets.
  assert (Hend : forall w1, runs w w1 -> wp (changed <- mesh_accept_plinks_update ;; ieee80211_mbss_info_change_notify changed)
      (fun _ w' => runs w w') w1).
  { intros w1 R1. apply swp_bind. eapply swp_silently; [apply accept_plinks_silent|]. intros r w2 S2.
    eapply swp_silently; [apply notify_silent|]. intros ? w3 S3. etrans; [exact R1|].
    by apply moves_runs, silent_moves; etrans. }
  apply swp_bind. apply swp_when; [|intros _; by apply Hend]. intros _.
  unfold ieee80211_sta_expire. apply swp_bind, swp_gets.
  eapply swp_mono; [apply expire_all_wp; [|  |done|done]|].
  - apply NoDup_fst_map_to_list.
  - intros a Ha. apply list_elem_of_fmap in Ha as ([b s] & -> & Hb). apply elem_of_map_to_list in Hb.
    eexists. by apply peer_link.
  - intros [] w1 R1. by apply Hend.
Qed.

(** ** Configuration *)

Lemma config_runs t r m b w w' :
  1 <= t <= 255 -> 0 <= r <= 16 -> (user = false -> estab (abs w) <= m) -> (user = true -> b = false) ->
  abs w' = with_config t r m b (abs w) -> num_sta w' = num_sta w -> runs w w'.
Proof.
  intros Ht Hr Hm Hb E N. apply moves_runs, step_moves; rewrite ?E; [by apply a_config|done|done].
Qed.

Lemma config_wp mask k w :
  cinv user (abs w) -> op_ok p w (op_config mask k) ->
  wp (ieee80211_update_mesh_config p mask k) (fun _ w' => runs w w') w.
Proof.
  intros Hc (Ht & Hr & Hm). unfold ieee80211_update_mesh_config. apply swp_bind, swp_gets. unfold id. cbn zeta.
  destruct (ci_config _ _ Hc) as [Ht0 Hr0]. pose proof (ci_bound _ _ Hc) as Hm0. pose proof (ci_auto _ _ Hc) as Ha0.
  set (retry := dot11MeshRetryTimeout _). set (links' := dot11MeshMaxPeerLinks _). set (retries := dot11MeshMaxRetries _).
  assert (H1 : 1 <= retry <= 255) by (subst retry; by destruct (_chg_mesh_attr NL80211_MESHCONF_RETRY_TIMEOUT mask)).
  assert (H2 : 0 <= retries <= 16) by (subst retries; by destruct (_chg_mesh_attr NL80211_MESHCONF_MAX_RETRIES mask)).
  assert (H3 : user = false -> estab (abs w) <= links').
  { intros Hu. subst links'. destruct (_chg_mesh_attr NL80211_MESHCONF_MAX_PEER_LINKS mask); [by apply Hm|by apply Hm0]. }
  clearbody retry links' retries.
  destruct (_ && user) eqn:Eb.
  - apply swp_bind, swp_modify, swp_ret. by apply (config_runs retry retries links' (auto (abs w))).
  - apply swp_bind, swp_modify.
    assert (Hend : forall w1 w2, runs w w1 -> silent w1 w2 ->
      wp (when (_chg_mesh_attr NL80211_MESHCONF_POWER_MODE mask) (_ <- ieee80211_mps_local_status_update ;; ret tt) ;;;
          ieee80211_mbss_info_change_notify BSS_CHANGED_BEACON ;;; ret 0) (fun _ w' => runs w w') w2).
    { intros w1 w2 R1 S2. apply swp_bind. eapply swp_silently.
      { apply silently_when, silently_bind; [apply local_status_silent|]. intros. apply silently_ret. }
      intros ? w3 S3. apply swp_bind. eapply swp_silently; [apply notify_silent|]. intros ? w4 S4. apply swp_ret.
      etrans; [exact R1|]. apply moves_runs, silent_moves. do 2 (etrans; [eassumption|]). done. }
    apply swp_bind. set (w1 := set_mshcfg _ w).
    assert (R1 : runs w w1).
    { apply (config_runs retry retries links' (auto (abs w1))); [done|done|done| |done|done].
      intros Hu. rewrite Hu, andb_true_r in Eb. subst w1. unfold abs. cbn [auto mshcfg set_mshcfg auto_open_plinks].
      rewrite Eb. by apply Ha0. }
    apply swp_when; [intros _|intros _; by eapply Hend].
    apply swp_bind, swp_modify, swp_modify. eapply Hend; [exact R1|]. by split.
Qed.
End ops.

(** ** All of them *)

Theorem run_op_wp p o w :
  chan (oper p) <> None -> good p w -> op_ok p w o ->
  wp (run_op p o) (fun _ w' => good p w' /\ rtc (op_step p o (abs w)) (abs w) (abs w')) w.
Proof.
  intros Hchan [Hc Hr] Hok.
  cut (wp (run_op p o) (fun _ w' => runs p (op_heard o) (op_told o) (op_relabel o (abs w)) w w') w).
  { intros H. eapply swp_mono; [exact H|]. intros [] w' R. cbn beta in R.
    split; [split; [by eapply runs_inv|by eapply runs_rest]|by destruct R]. }
  destruct o as [sa multicast ft aid e|sa e signal|a sp|a st|a aid|a| |mask k|q|i]; cbn [run_op op_ok] in *.
  - unfold mesh_rx_plink_frame. destruct (user_mpm p) eqn:Hu; [by apply swp_ret|].
    destruct multicast; [by apply swp_ret|]. apply process_frame_wp; try done; [by rewrite Hu| |].
    + intros ie x Hie Hft Hx. exists false, ft, aid, e, ie. done.
    + intros ie x y Hie -> Hx Hy. by exists false, aid, e, ie.
  - by apply beacon_wp.
  - apply swp_bind. eapply swp_mono; [apply (change_station_wp p (op_heard (op_change_station a sp)) (op_told (op_change_station a sp))
      (op_relabel (op_change_station a sp) (abs w))); [done|done|]|].
    + intros Ha l Hl Hi. by exists sp, l.
    + intros r w' R. by apply swp_ret.
  - by apply move_state_wp.
  - by apply add_station_wp.
  - by apply del_station_wp.
  - by apply housekeeping_wp.
  - apply swp_bind. eapply swp_mono; [by apply (config_wp p (op_heard (op_config mask k)) (op_told (op_config mask k)) (op_relabel (op_config mask k) (abs w)))|]. intros r w' R. by apply swp_ret.
  - subst q. apply swp_modify, moves_runs, silent_moves. split; [|done].
    unfold abs. cbn. f_equal. symmetry. exact (ci_quiet _ _ Hc).
  - eapply swp_mono; [by apply run_irq_wp|]. intros [] w' H. by apply moves_runs, irqs_moves.
Qed.
