(* ===== verification/MeshAgree.v ===== *)
(** * MeshAgree: two stations of a mesh agree on their link

    What one peer sees of a link is its [view]: the link and what was logged
    about it.  [view_step] is what the steps of [MeshSpec] do to a view, when
    what is heard and told comes from the view of the peer; [agree] is the
    invariant of the two views, and [agree_ids] its consequence. *)
From stdpp Require Import gmap.
From S2P Require Import Prelude Frame Chandef StateMonad Mesh MeshPlink MeshRun MeshSpec MeshInv MeshRefine.

(** ** Order of draws, the latest first *)

Definition older (l : list Z) (y x : Z) : Prop := exists l1 l2, l = l1 ++ x :: l2 /\ y ∈ l2.

Lemma older_in l y x : older l y x -> y ∈ l.
Proof. intros (l1 & l2 & -> & H). apply elem_of_app. right. by right. Qed.

Lemma older_cons n l y x : older (n :: l) y x -> x = n \/ older l y x.
Proof.
  intros ([|z l1] & l2 & E & H); injection E as -> E; [by left|right]. by exists l1, l2.
Qed.

Lemma older_head n l x : NoDup (n :: l) -> ~ older (n :: l) n x.
Proof.
  intros [Hn _]%NoDup_cons (l1 & l2 & E & H). apply Hn. destruct l1 as [|z l1]; injection E as -> E.
  - by rewrite E.
  - rewrite E. apply elem_of_app. right. by right.
Qed.

Lemma older_intro l y x : head l = Some x -> y ∈ l -> y <> x -> older l y x.
Proof.
  destruct l as [|z l]; [done|]. intros [= ->] [->|H]%elem_of_cons Hne; [done|]. by exists [], l.
Qed.

(** ** Views *)

Definition about (b : list Z) (e : event) : bool :=
  match e with ev_frame a _ | ev_llid a _ => bool_decide (a = b) | _ => false end.

Definition view : Type := option link * list event.
Definition view_of (b : list Z) (c : core) : view := (links c !! b, filter (fun e => about b e = true) (clog c)).

Definition drawn_id (e : event) : option Z := match e with ev_llid _ id => Some id | _ => None end.
Definition drawn (v : view) : list Z := omap drawn_id v.2.

(** Frames that carry the link ID [x] of the sender, and [y] of the receiver. *)
Definition tells (v : view) (x : Z) : Prop :=
  exists a ft aid ie, ev_frame a (mk_frame ft aid ie) ∈ v.2 /\ ft <> WLAN_SP_MESH_PEERING_CLOSE /\ rd_le16 ie 2 = Some x.
Definition confirms (v : view) (x y : Z) : Prop :=
  exists a aid ie, ev_frame a (mk_frame WLAN_SP_MESH_PEERING_CONFIRM aid ie) ∈ v.2 /\
    rd_le16 ie 2 = Some x /\ rd_le16 ie 4 = Some y.

Definition known (st : nl80211_plink_state) : bool :=
  match st with NL80211_PLINK_CNF_RCVD | NL80211_PLINK_ESTAB => true | _ => false end.

(** A link that goes on, back or away, without news from the peer. *)
Definition relaxes (l l' : link) : Prop :=
  (l_llid l' = l_llid l /\ l_plid l' = l_plid l /\
   (idle (l_state l) = true -> idle (l_state l') = true) /\ (known (l_state l') = true -> known (l_state l) = true)) \/
  (l_llid l' = 0 /\ l_plid l' = 0 /\ idle (l_state l') = true).

Inductive view_step (heard : Z -> Z -> Prop) (told : Z -> Prop) : view -> view -> Prop :=
  | vs_refl v : view_step heard told v v
  | vs_link l l' log : relaxes l l' -> view_step heard told (Some l, log) (Some l', log)
  | vs_new log : view_step heard told (None, log) (Some new_link, log)
  | vs_gone l log : view_step heard told (Some l, log) (None, log)
  | vs_tx l a action aid reason log :
      (action = WLAN_SP_MESH_PEERING_CONFIRM -> confirmable l) ->
      view_step heard told (Some l, log) (Some l, sent a l action aid reason :: log)
  | vs_close k a aid ie log :
      view_step heard told (k, log) (k, ev_frame a (mk_frame WLAN_SP_MESH_PEERING_CLOSE aid ie) :: log)
  | vs_draw l l' a id log :
      is_uint 16 id -> l_llid l' = id -> l_plid l' = l_plid l -> known (l_state l') = false ->
      view_step heard told (Some l, log) (Some l', ev_llid a id :: log)
  | vs_heard l l' log :
      l_llid l' = l_llid l -> l_plid l' = l_plid l -> idle (l_state l) = false -> idle (l_state l') = false ->
      heard (l_plid l) (l_llid l) -> view_step heard told (Some l, log) (Some l', log)
  | vs_told l y log :
      told y -> l_plid l = 0 \/ l_plid l = y ->
      view_step heard told (Some l, log) (Some (with_ids (l_llid l) y l), log).

(** ** The steps of an interface, as its view of one peer shows them *)

Definition late_ok (c : core) : Prop := forall x, x ∈ to_send c -> x.1.2 <> WLAN_SP_MESH_PEERING_CONFIRM.

Section view.
Context (heard : list Z -> Z -> Z -> Prop) (told : list Z -> Z -> Prop) (relabel : list Z -> Prop) (b : list Z).
Abbreviation vstep := (view_step (heard b) (told b)).

Lemma view_logged e c : view_of b (logged e c) = (links c !! b, (if about b e then [e] else []) ++ (view_of b c).2).
Proof. unfold view_of. cbn [clog logged links snd]. rewrite filter_cons. by destruct (about b e). Qed.

Lemma view_link a l c : view_of b (with_link a l c) = (if bool_decide (a = b) then Some l else links c !! b, (view_of b c).2).
Proof.
  unfold view_of. cbn. f_equal. case_bool_decide as E; [subst; by rewrite lookup_insert_eq|by rewrite lookup_insert_ne].
Qed.

(** A step at one link, seen from [b]. *)
Lemma vstep_at a l l' c :
  links c !! a = Some l -> (a = b -> forall log, vstep (Some l, log) (Some l', log)) ->
  vstep (view_of b c) (view_of b (with_link a l' c)).
Proof.
  intros Hl Hs. rewrite view_link. case_bool_decide as E; [|apply vs_refl]. subst a.
  unfold view_of at 1. rewrite Hl. by apply Hs.
Qed.

Lemma vstep_draw a l l' id c :
  links c !! a = Some l -> (a = b -> forall log, vstep (Some l, log) (Some l', ev_llid a id :: log)) ->
  vstep (view_of b c) (view_of b (logged (ev_llid a id) (with_link a l' c))).
Proof.
  intros Hl Hs. rewrite view_logged. cbn [about]. case_bool_decide as E.
  - subst a. cbn [links with_link app]. rewrite lookup_insert_eq. unfold view_of. rewrite Hl. by apply Hs.
  - cbn [links with_link app]. rewrite lookup_insert_ne by done. apply vs_refl.
Qed.

Lemma vstep_frame a f c :
  (a = b -> forall log, vstep (links c !! b, log) (links c !! b, ev_frame a f :: log)) ->
  vstep (view_of b c) (view_of b (logged (ev_frame a f) c)).
Proof.
  intros Hs. rewrite view_logged. cbn [about]. case_bool_decide as E; [|apply vs_refl]. by apply Hs.
Qed.

Lemma evolves_relaxes l l' : evolves l l' -> relaxes l l'.
Proof.
  intros [_ [(E & ? & ?)|[(Ht & E & ? & ?)|(Ht & E & ? & ?)]]].
  - left. by rewrite E.
  - left. rewrite E. destruct (l_state l); done.
  - right. by rewrite E.
Qed.

Lemma vstep_irqs c c' : irq_frame c c' -> clog c' = clog c -> vstep (view_of b c) (view_of b c').
Proof.
  intros Hf El. unfold view_of. rewrite El. pose proof (if_links _ _ Hf b) as Hb.
  destruct (links c !! b) as [l|], (links c' !! b) as [l'|]; simpl in Hb; try done; [|apply vs_refl].
  by apply vs_link, evolves_relaxes.
Qed.

Lemma istep_view c c' : late_ok c -> istep c c' -> vstep (view_of b c) (view_of b c').
Proof.
  intros Hlate Hs. pose proof (istep_frame _ _ Hs) as Hf. destruct Hs as [| | |a l action reason l1 l2 aid ok c Hts Ha].
  1-3: by apply vstep_irqs.
  destruct ok; [|by apply vstep_irqs].
  change (view_of b c) with (view_of b (with_to_send (l1 ++ l2) c)). apply vstep_frame. intros <- log.
  cbn [links with_to_send]. rewrite Ha. apply vs_tx. intros E. exfalso. apply (Hlate (a, action, reason)); [|done].
  rewrite Hts. apply elem_of_app. right. by left.
Qed.

Lemma istep_late c c' : late_ok c -> istep c c' -> late_ok c'.
Proof.
  intros Hlate Hs. destruct Hs as [n c0 _|a l c0 _ _ _|a l r e l' tx c0 Ha _ _ Ht|a l action reason l1 l2 aid ok c0 Hts _]; try exact Hlate.
  - intros x Hx. cbn in Hx. apply elem_of_app in Hx as [Hx|Hx]; [by apply Hlate|]. destruct tx as [[action reason]|]; [|by apply not_elem_of_nil in Hx].
    apply list_elem_of_singleton in Hx as ->. cbn. intros ->. unfold timer_step in Ht.
    destruct (_ || _); [done|]. destruct (l_state (with_fired false l)); try done; repeat case_match; done.
  - assert (Hl : late_ok (with_to_send (l1 ++ l2) c0)).
    { intros x Hx. apply Hlate. rewrite Hts. apply elem_of_app. rewrite elem_of_cons. apply elem_of_app in Hx as []; auto. }
    by destruct ok.
Qed.

Lemma astep_late c c' : late_ok c -> astep false heard told relabel c c' -> late_ok c'.
Proof. intros Hlate Hs. destruct Hs; try done. by eapply istep_late. Qed.

Lemma astep_view c c' :
  late_ok c -> ~ relabel b -> astep false heard told relabel c c' -> vstep (view_of b c) (view_of b c').
Proof.
  intros Hlate Hre Hs.
  destruct Hs as [c c' Hi|a l action aid reason c Ha Hk|a l aid c Ha|a x aid reason c|a l id e c Ha Hu Hst Hf
    |a l id c Ha Hu Hr Hst Hf|a l id e c Ha Hu Hst Hf|a l c Ha Hst|a l e c Ha Hu Hst Hh|a l c Ha Hu Hst Hh Hm
    |a l c Ha Hu Hst Hm|a l y c Ha Hu Ht Hy|a l e c Ha Hu Hst|a l e c Ha Hu Hst|a l c Ha Hst|a l c Ha Hst|a l c Ha
    |a l st c Ha Hu|a c Ha|a l c Ha|a l c Ha Hst|a l c Ha Hst Hp Hf Hts|t r m bb c Ht Hr Hm Hbu].
  - by apply istep_view.
  - apply vstep_frame. intros <- log. rewrite Ha. by apply vs_tx.
  - apply vstep_frame. intros <- log. rewrite Ha. by apply (vs_tx _ _ l a WLAN_SP_MESH_PEERING_OPEN aid 0 log).
  - apply vstep_frame. intros <- log. apply vs_close.
  - eapply vstep_draw; [done|]. intros <- log. by apply vs_draw; [apply Hf|..].
  - eapply vstep_draw; [done|]. by intros <-.
  - eapply vstep_draw; [done|]. intros <- log. by apply vs_draw; [apply Hf|..].
  - eapply vstep_at; [done|]. intros <- log. apply vs_link. left. simpl. by rewrite Hst.
  - eapply vstep_at; [done|]. intros <- log. apply vs_heard; try done; simpl; by rewrite ?Hst.
  - change (vstep (view_of b c) (view_of b (with_link a (disarmed (at_state NL80211_PLINK_ESTAB l)) c))).
    eapply vstep_at; [done|]. intros <- log. apply vs_heard; try done; simpl; by rewrite ?Hst.
  - change (vstep (view_of b c) (view_of b (with_link a (disarmed (at_state NL80211_PLINK_ESTAB l)) c))).
    eapply vstep_at; [done|]. intros <- log. apply vs_link. left. simpl. by rewrite Hst.
  - eapply vstep_at; [done|]. intros <- log. by apply vs_told.
  - eapply vstep_at; [done|]. intros <- log. apply vs_link. left. simpl. by destruct (l_state l).
  - change (vstep (view_of b c) (view_of b (with_link a (armed e (at_state NL80211_PLINK_HOLDING l)) c))).
    apply bool_decide_eq_true in Hst.
    eapply vstep_at; [done|]. intros <- log. apply vs_link. left. simpl. by rewrite Hst.
  - eapply vstep_at; [done|]. intros <- log. apply vs_link. by right.
  - eapply vstep_at; [done|]. intros <- log. apply vs_link. by right.
  - change (vstep (view_of b c) (view_of b (with_link a (at_state NL80211_PLINK_BLOCKED l) c))).
    eapply vstep_at; [done|]. intros <- log. apply vs_link. by left.
  - discriminate.
  - rewrite view_link. case_bool_decide as E; [|apply vs_refl]. subst a. unfold view_of. rewrite Ha. apply vs_new.
  - eapply vstep_at; [done|]. intros <- log. apply vs_link. by left.
  - eapply vstep_at; [done|]. intros <- log. apply vs_link. by left.
  - unfold view_of. cbn. destruct (decide (a = b)) as [<-|Hne].
    + rewrite Ha, lookup_delete_eq. apply vs_gone.
    + rewrite lookup_delete_ne by done. apply vs_refl.
  - apply vs_refl.
Qed.
End view.

(** ** What is in a frame *)

Lemma peering_llid action x y reason : is_uint 16 x -> rd_le16 (peering_ie action x y reason) 2 = Some x.
Proof.
  intros Hx. transitivity (rd_le16 (drop 2 (peering_ie action x y reason)) 0); [done|]. by apply rd_le16_bytes.
Qed.

Lemma peering_plid x y reason : is_uint 16 y -> rd_le16 (peering_ie WLAN_SP_MESH_PEERING_CONFIRM x y reason) 4 = Some y.
Proof.
  intros Hy. transitivity (rd_le16 (drop 4 (peering_ie WLAN_SP_MESH_PEERING_CONFIRM x y reason)) 0); [done|].
  by apply rd_le16_bytes.
Qed.

Lemma tells_cons e l log x :
  tells (Some l, e :: log) x -> tells (Some l, log) x \/
  exists a ft aid ie, e = ev_frame a (mk_frame ft aid ie) /\ ft <> WLAN_SP_MESH_PEERING_CLOSE /\ rd_le16 ie 2 = Some x.
Proof. intros (a & ft & aid & ie & [<-|H]%elem_of_cons & ? & ?); [right|left]; by exists a, ft, aid, ie. Qed.

Lemma confirms_cons k e log x y :
  confirms (k, e :: log) x y -> confirms (k, log) x y \/
  exists a aid ie, e = ev_frame a (mk_frame WLAN_SP_MESH_PEERING_CONFIRM aid ie) /\ rd_le16 ie 2 = Some x /\ rd_le16 ie 4 = Some y.
Proof. intros (a & aid & ie & [<-|H]%elem_of_cons & ?); [right|left]; by exists a, aid, ie. Qed.

(** ** The invariant *)

(** What [v] is, the peer having the view [u]. *)
Record half (v u : view) : Prop := {
  hf_range : forall x, x ∈ drawn v -> is_uint 16 x;
  hf_llid : forall l, v.1 = Some l -> l_llid l = 0 \/ head (drawn v) = Some (l_llid l);
  hf_busy : forall l, v.1 = Some l -> idle (l_state l) = false -> l_llid l <> 0;
  hf_plid : forall l, v.1 = Some l -> l_plid l = 0 \/ l_plid l ∈ drawn u;
  hf_tells : forall x, tells v x -> x = 0 \/ x ∈ drawn v;
  hf_conf : forall x y, confirms v x y -> x = 0 /\ y = 0 \/ x ∈ drawn v /\ (y = 0 \/ y ∈ drawn u);
  hf_cur : forall l x y, v.1 = Some l -> confirms v x y -> l_llid l = x -> x <> 0 -> y <> 0 -> l_plid l = y;
  hf_known : forall l, v.1 = Some l -> known (l_state l) = true -> confirms u (l_plid l) (l_llid l);
}.

(** No crossing: an ID that [v] had before [x] confirmed an ID that [u] drew
    after it knew [x]. *)
Record agree (v u : view) : Prop := {
  ag_left : half v u;
  ag_right : half u v;
  ag_order : forall x y x' y', confirms v y' x' -> confirms u y x -> older (drawn v) y' x -> older (drawn u) y x' -> False;
}.

Lemma agree_sym v u : agree v u -> agree u v.
Proof. intros [? ? H]. split; [done|done|]. intros x y x' y' ? ? ? ?. by eapply (H x' y' x y). Qed.

Definition distinct (v : view) : Prop := NoDup (drawn v) /\ 0 ∉ drawn v.

Lemma known_busy st : known st = true -> idle st = false.
Proof. by destruct st. Qed.

(** The consequence. *)
Lemma agree_ids v u l k :
  agree v u -> v.1 = Some l -> u.1 = Some k -> known (l_state l) = true -> known (l_state k) = true ->
  distinct v -> distinct u -> l_llid l = l_plid k /\ l_plid l = l_llid k.
Proof.
  intros [Hv Hu Ho] El Ek Sl Sk [Dv Zv] [Du Zu].
  pose proof (hf_known _ _ Hv _ El Sl) as Cu. pose proof (hf_known _ _ Hu _ Ek Sk) as Cv.
  pose proof (hf_busy _ _ Hv _ El (known_busy _ Sl)) as Bl. pose proof (hf_busy _ _ Hu _ Ek (known_busy _ Sk)) as Bk.
  destruct (hf_llid _ _ Hv _ El) as [|Hl]; [done|]. destruct (hf_llid _ _ Hu _ Ek) as [|Hk]; [done|].
  destruct (hf_conf _ _ Hu _ _ Cu) as [[_ ?]|[Iu _]]; [done|]. destruct (hf_conf _ _ Hv _ _ Cv) as [[_ ?]|[Iv _]]; [done|].
  destruct (decide (l_plid k = l_llid l)) as [E|N].
  { split; [done|]. apply (hf_cur _ _ Hv l (l_plid k) (l_llid k)); auto; congruence. }
  destruct (decide (l_plid l = l_llid k)) as [E|N'].
  { split; [|done]. symmetry. apply (hf_cur _ _ Hu k (l_plid l) (l_llid l)); auto; congruence. }
  exfalso. eapply (Ho (l_llid l) (l_plid l) (l_llid k) (l_plid k)); [done|done| |]; by apply older_intro.
Qed.

(** ** Every step keeps it *)

Lemma half_mono u v v' :
  half u v -> (forall x, x ∈ drawn v -> x ∈ drawn v') -> (forall x y, confirms v x y -> confirms v' x y) -> half u v'.
Proof.
  intros [H1 H2 H3 H4 H5 H6 H7 H8] Hd Hc. split; auto.
  - intros l E. destruct (H4 l E); auto.
  - intros x y E. destruct (H6 x y E) as [|[? []]]; auto.
Qed.

(** The link changes, and nothing is logged. *)
Lemma half_link k k' log u :
  half (k, log) u ->
  (forall l', k' = Some l' ->
     (idle (l_state l') = false -> l_llid l' <> 0) /\ (l_plid l' = 0 \/ l_plid l' ∈ drawn u) /\
     (known (l_state l') = true -> confirms u (l_plid l') (l_llid l')) /\
     (l_llid l' = 0 \/ exists l, k = Some l /\ l_llid l' = l_llid l /\ (l_plid l = 0 \/ l_plid l' = l_plid l))) ->
  half (k', log) u.
Proof.
  intros [H1 H2 H3 H4 H5 H6 H7 H8] Hk. split; try done; intros l'; cbn [fst].
  - intros E. destruct (Hk _ E) as (_ & _ & _ & [?|(l & El & -> & _)]); [by left|]. by apply H2.
  - intros E. by apply Hk.
  - intros E. by apply Hk.
  - intros x y E C Ex Hx Hy. destruct (Hk _ E) as (_ & _ & _ & [?|(l & El & E1 & E2)]); [congruence|].
    assert (Ey : l_plid l = y) by (apply (H7 l x y El C); congruence). destruct E2; congruence.
  - intros E. by apply Hk.
Qed.

Lemma known_plid v u l :
  half v u -> half u v -> distinct u -> v.1 = Some l -> known (l_state l) = true -> l_plid l <> 0.
Proof.
  intros Hv Hu [_ Zu] El Kl E. pose proof (hf_known _ _ Hv _ El Kl) as C.
  pose proof (hf_busy _ _ Hv _ El (known_busy _ Kl)). destruct (hf_conf _ _ Hu _ _ C) as [[_ ?]|[Hin _]]; [done|].
  by rewrite E in Hin.
Qed.

Lemma agree_link k k' log u :
  agree (k, log) u -> half (k', log) u -> agree (k', log) u.
Proof.
  intros [Hv Hu Ho] Hv'. split; [done| |exact Ho]. by eapply half_mono.
Qed.

Lemma view_link_agree l l' log u :
  agree (Some l, log) u ->
  (idle (l_state l') = false -> l_llid l' <> 0) -> (l_plid l' = 0 \/ l_plid l' ∈ drawn u) ->
  (known (l_state l') = true -> confirms u (l_plid l') (l_llid l')) ->
  (l_llid l' = 0 \/ l_llid l' = l_llid l /\ (l_plid l = 0 \/ l_plid l' = l_plid l)) ->
  agree (Some l', log) u.
Proof.
  intros H H1 H2 H3 H4. eapply agree_link; [done|]. eapply half_link; [apply H|]. intros ? [= <-].
  split_and!; auto. destruct H4 as [|[]]; [by left|right; by exists l].
Qed.

(** A frame is sent: what it tells is the link. *)
Lemma view_tx_agree k a f log u :
  agree (k, log) u -> distinct (k, log) ->
  (forall x, f_action f <> WLAN_SP_MESH_PEERING_CLOSE -> rd_le16 (f_ie f) 2 = Some x ->
     exists l, k = Some l /\ l_llid l = x) ->
  (forall x y, f_action f = WLAN_SP_MESH_PEERING_CONFIRM -> rd_le16 (f_ie f) 2 = Some x -> rd_le16 (f_ie f) 4 = Some y ->
     exists l, k = Some l /\ l_llid l = x /\ l_plid l = y /\ confirmable l) ->
  agree (k, ev_frame a f :: log) u.
Proof.
  intros [Hv Hu Ho] [Dv Zv] Ht Hc. change (drawn (k, log)) with (drawn (k, ev_frame a f :: log)) in Dv, Zv.
  assert (Hin : forall l x, k = Some l -> l_llid l = x -> x = 0 \/ head (drawn (k, log)) = Some x).
  { intros l x El <-. by apply (hf_llid _ _ Hv). }
  assert (Hhead : forall x, head (drawn (k, log)) = Some x -> x ∈ drawn (k, log)).
  { intros x. destruct (drawn (k, log)); [done|]. intros [= ->]. by left. }
  assert (Hcf : forall x y, confirms (k, ev_frame a f :: log) x y -> confirms (k, log) x y \/
      exists l, k = Some l /\ l_llid l = x /\ l_plid l = y /\ confirmable l).
  { intros x y [?|(a' & aid & ie & E & Hx & Hy)]%confirms_cons; [by left|right]. injection E as -> ->.
    by apply (Hc x y). }
  split.
  - split.
    + apply Hv.
    + apply Hv.
    + apply Hv.
    + apply Hv.
    + intros x (b & ft & aid & ie & [E|H]%elem_of_cons & Hft & Hx); [|apply (hf_tells _ _ Hv); by exists b, ft, aid, ie].
      injection E as -> <-. destruct (Ht x Hft Hx) as (l & El & E).
      destruct (Hin l x El E) as [|Hd]; [by left|right]. by apply Hhead.
    + intros x y [C|(l & El & Ex & Ey & Hk)]%Hcf; [by apply (hf_conf _ _ Hv)|].
      destruct (Hin l x El Ex) as [E0|Hd].
      * left. split; [done|]. destruct Hk as [Hk|Hk]; [|congruence]. destruct (hf_busy _ _ Hv l El Hk). congruence.
      * right. split; [by apply Hhead|]. rewrite <- Ey. by apply (hf_plid _ _ Hv).
    + intros l x y El [C|(l' & El' & Ex & Ey & Hk)]%Hcf; [by apply (hf_cur _ _ Hv)|].
      cbn in El. congruence.
    + apply Hv.
  - eapply half_mono; [done|done|]. intros x y (b & aid & ie & H & ?). exists b, aid, ie. split; [by right|done].
  - intros x y x' y' [C|(l & El & Ey & Ex & _)]%Hcf Cu O1 O2; [by eapply Ho|].
    pose proof (older_in _ _ _ O1) as Hin1. destruct (Hin l y' El Ey) as [->|Hd]; [done|].
    change (drawn (k, ev_frame a f :: log)) with (drawn (k, log)) in *.
    destruct (drawn (k, log)) as [|z d]; [done|]. injection Hd as ->. by eapply older_head.
Qed.

(** A new ID is drawn. *)
Lemma view_draw_agree l l' a id log u :
  agree (Some l, log) u -> distinct (Some l', ev_llid a id :: log) -> is_uint 16 id ->
  l_llid l' = id -> l_plid l' = l_plid l -> known (l_state l') = false -> agree (Some l', ev_llid a id :: log) u.
Proof.
  intros [Hv Hu Ho] [Dv Zv] Hr E1 E2 Hk.
  change (drawn (Some l', ev_llid a id :: log)) with (id :: drawn (Some l, log)) in Dv, Zv.
  apply not_elem_of_cons in Zv as [Zid Zv]. pose proof Dv as [Nid _]%NoDup_cons.
  assert (Hcf : forall x y, confirms (Some l', ev_llid a id :: log) x y -> confirms (Some l, log) x y).
  { intros x y [?|(? & ? & ? & ? & _)]%confirms_cons; done. }
  split.
  - split; cbn [fst].
    + intros x [->|H]%elem_of_cons; [done|by apply (hf_range _ _ Hv)].
    + intros ? [= <-]. right. cbn. by rewrite E1.
    + intros ? [= <-] _. congruence.
    + intros ? [= <-]. rewrite E2. by apply (hf_plid _ _ Hv l).
    + intros x (b & ft & aid & ie & [E|H]%elem_of_cons & ? & ?); [done|].
      destruct (hf_tells _ _ Hv x) as [|H']; [by exists b, ft, aid, ie|by left|right]. by right.
    + intros x y C%Hcf. destruct (hf_conf _ _ Hv _ _ C) as [|[H' ?]]; [by left|right]. split; [by right|done].
    + intros ? x y [= <-] C%Hcf Ex Hx Hy. destruct (hf_conf _ _ Hv _ _ C) as [[]|[H' _]]; [done|]. congruence.
    + intros ? [= <-] E. congruence.
  - eapply half_mono; [done|intros x H; by right|].
    intros x y (b & aid & ie & H & ?). exists b, aid, ie. split; [by right|done].
  - intros x y x' y' C%Hcf Cu [->|O1]%older_cons O2; [|by eapply Ho].
    destruct (hf_conf _ _ Hu _ _ Cu) as [[_ ?]|[_ [?|H]]]; [congruence|congruence|done].
Qed.

Lemma distinct_cons k k' e log : distinct (k', e :: log) -> distinct (k, log).
Proof.
  unfold distinct, drawn. cbn. destruct (drawn_id e); [|done].
  intros [[_ ?]%NoDup_cons [_ ?]%not_elem_of_cons]. done.
Qed.

Theorem view_step_agree v v' u :
  agree v u -> distinct v' -> distinct u -> view_step (confirms u) (tells u) v v' -> agree v' u.
Proof.
  intros Hvu Dv' Du Hs. pose proof Hvu as [Hv Hu Ho].
  destruct Hs as [v|l l' log Hr|log|l log|l a action aid reason log Hk|k a aid ie log|l l' a id log Hid E1 E2 Hk
    |l l' log E1 E2 Hi Hi' Hh|l y log Ht Hy]; [done|..].
  - destruct Hr as [(E1 & E2 & Hi & Hk)|(E1 & E2 & Hi)].
    + eapply view_link_agree; [done| | | |right; by auto]; rewrite ?E1, ?E2.
      * intros Hi'. apply (hf_busy _ _ Hv l); [done|]. destruct (idle (l_state l)); [|done]. by rewrite (Hi eq_refl) in Hi'.
      * by apply (hf_plid _ _ Hv l).
      * intros K. apply (hf_known _ _ Hv l); [done|by apply Hk].
    + eapply view_link_agree; [done| |by left| |by left]; [congruence|].
      intros K. apply known_busy in K. congruence.
  - eapply agree_link; [done|]. eapply half_link; [done|]. intros ? [= <-]. cbn. split_and!; [done|by left|done|by left].
  - eapply agree_link; [done|]. by eapply half_link.
  - assert (Hlr : is_uint 16 (l_llid l)).
    { destruct (hf_llid _ _ Hv l eq_refl) as [->|Hd]; [unfold is_uint; lia|]. apply (hf_range _ _ Hv).
      destruct (drawn (Some l, log)); [done|]. injection Hd as ->. by left. }
    assert (Hpr : is_uint 16 (l_plid l)).
    { destruct (hf_plid _ _ Hv l eq_refl) as [->|Hd]; [unfold is_uint; lia|]. by apply (hf_range _ _ Hu). }
    apply view_tx_agree; [done|by eapply distinct_cons| |]; cbn [f_action f_ie].
    + intros x _. rewrite peering_llid by done. intros [= <-]. by exists l.
    + intros x y ->. rewrite peering_llid, peering_plid by done. intros [= <-] [= <-]. exists l. auto.
  - apply view_tx_agree; [done|by eapply distinct_cons|done|done].
  - by eapply view_draw_agree.
  - eapply view_link_agree; [done| | | |right; by auto]; rewrite ?E1, ?E2.
    + intros _. by apply (hf_busy _ _ Hv l).
    + by apply (hf_plid _ _ Hv l).
    + done.
  - eapply view_link_agree; [done| | | |right; split; [done|]]; cbn.
    + by apply (hf_busy _ _ Hv l).
    + destruct (hf_tells _ _ Hu y Ht); auto.
    + intros K. pose proof (hf_known _ _ Hv l eq_refl K) as C. pose proof (known_plid _ _ l Hv Hu Du eq_refl K).
      destruct Hy as [|<-]; done.
    + destruct Hy; auto.
Qed.
