(* ===== verification/MeshNet.v ===== *)
(** * MeshNet: interfaces that run, alone and in pairs

    The states an interface reaches ([reached]) and those two stations reach when
    the frames they get from each other were sent ([network]); what the
    development proves of them is in [MeshProps]. *)
From stdpp Require Import gmap.
From S2P Require Import Prelude Frame Chandef StateMonad Mesh MeshPlink MeshRun MeshSpec MeshInv MeshRefine MeshHandlers MeshOps MeshAgree.

(** ** One interface *)

(** The ranges of [nl80211.c]. *)
Definition config_ok (p : params) (k : mesh_config) : Prop :=
  1 <= dot11MeshRetryTimeout k <= 255 /\ 0 <= dot11MeshMaxRetries k <= 16 /\ 0 <= dot11MeshMaxPeerLinks k /\
  (user_mpm p = true -> auto_open_plinks k = false).

Inductive reached (p : params) : mesh_if -> Prop :=
  | reached_fresh k now r16 r32 al sched :
      config_ok p k -> reached p (fresh_if k now r16 r32 al sched)
  | reached_op o w w' :
      reached p w -> op_ok p w o -> run_op p o w = Some (tt, w') -> reached p w'.

Lemma fresh_good p k now r16 r32 al sched :
  config_ok p k -> good p (fresh_if k now r16 r32 al sched).
Proof.
  intros (Ht & Hr & Hm & Ha). split; [split|].
  - done.
  - intros _. exact Hm.
  - by intros a b la lb _ [=].
  - intros x Hx. by apply not_elem_of_nil in Hx.
  - by intros a l [=].
  - done.
  - done.
  - done.
  - exact Ha.
  - split_and!; [|done|done]. by intros a l [=].
Qed.

Lemma op_runs p o w :
  chan (oper p) <> None -> good p w -> op_ok p w o ->
  exists w', run_op p o w = Some (tt, w') /\ good p w' /\ rtc (op_step p o (abs w)) (abs w) (abs w').
Proof.
  intros Hc Hg Ho. pose proof (run_op_wp p o w Hc Hg Ho) as H. unfold wp in H.
  destruct (run_op p o w) as [[[] w']|]; [|done]. by exists w'.
Qed.

Lemma reached_good p w : chan (oper p) <> None -> reached p w -> good p w.
Proof.
  intros Hc. induction 1 as [|o w w' _ IH Ho E]; [by apply fresh_good|].
  destruct (op_runs p o w Hc IH Ho) as (w1 & E1 & H1 & _). congruence.
Qed.

Lemma count_estab_stas w :
  count_estab (links (abs w)) = Z.of_nat (size (filter (fun kv => is_estab kv.2 = true) (stas w))).
Proof.
  unfold count_estab. cbn [links abs]. rewrite map_filter_fmap, map_size_fmap. done.
Qed.

(** ** The timer alone *)

(** How often the timer of a link can still act, if it hears nothing. *)
Definition patience (limit : Z) (l : link) : Z :=
  match l_state l with
  | NL80211_PLINK_OPN_SNT | NL80211_PLINK_OPN_RCVD => Z.max 0 (limit - l_retries l) + 2
  | NL80211_PLINK_CNF_RCVD => 2
  | NL80211_PLINK_HOLDING => 1
  | _ => 0
  end.

(** The handler of the timer runs, is due and finds something to do. *)
Definition acts (a : list Z) (w : mesh_if) (i : interrupt) : bool :=
  match i, peer a w with
  | irq_timer b, Some s =>
      bool_decide (a = b) && timer_fired (mesh s) && (timer_expires (mesh s) <=? jiffies w) && transient (state_of s)
  | _, _ => false
  end.

Fixpoint acted (p : params) (a : list Z) (l : list interrupt) (w : mesh_if) : Z :=
  match l with
  | [] => 0
  | i :: l =>
      Z.b2z (acts a w i) + match run_irq p i w with Some (_, w') => acted p a l w' | None => 0 end
  end.

Lemma timer_step_patience c r e l l' tx :
  timer_step c r e l = Some (l', tx) -> 0 <= l_retries l <= 16 ->
  patience (max_retries c) l' + Z.b2z (negb (quiet c) && (l_expires l <=? now c) && transient (l_state l)) <= patience (max_retries c) l.
Proof.
  unfold timer_step, patience. intros H Hr. rewrite Z.leb_antisym.
  cbn [with_fired l_expires l_state l_retries l_timeout] in H.
  destruct (quiet c), (now c <? l_expires l); cbn [orb negb andb] in *.
  1-3: injection H as <- <-; cbn; destruct (l_state l); cbn; lia.
  destruct (l_state l) eqn:Es; try (injection H as <- <-; cbn; rewrite ?Es; cbn; lia).
  all: destruct (Z.ltb_spec (l_retries l) (max_retries c)); [destruct (_ =? _); [done|]|];
    injection H as <- <-; cbn; rewrite ?Es; cbn; [|lia];
    rewrite wrap_small by (unfold is_uint; lia); lia.
Qed.

Section timer.
Context (p : params) (Hu : user_mpm p = false).

Lemma istep_patience c c' a l :
  cinv false c -> istep c c' -> links c !! a = Some l ->
  (exists l', links c' !! a = Some l' /\ patience (max_retries c) l' <= patience (max_retries c) l) /\
  max_retries c' = max_retries c.
Proof.
  intros Hc Hs Hl. pose proof (istep_frame _ _ Hs) as Hf. split; [|by apply Hf].
  destruct Hs as [n c0 _|b k c0 Hk _ _|b k r e k' tx c0 Hk _ _ Ht|b k action reason l1 l2 aid ok c0 _ _].
  - by exists l.
  - destruct (decide (b = a)) as [->|Hne].
    + rewrite Hl in Hk. injection Hk as <-. eexists. split; [apply links_with_link|done].
    + exists l. split; [|done]. cbn. by rewrite lookup_insert_ne.
  - destruct (decide (b = a)) as [->|Hne].
    + rewrite Hl in Hk. injection Hk as <-. eexists. split; [apply links_with_link|].
      pose proof (timer_step_patience _ _ _ _ _ _ Ht (lo_retries _ _ _ (ci_link _ _ Hc _ _ Hl))) as Hp.
      destruct (_ && _ && _); cbn in Hp; lia.
    + exists l. split; [|done]. cbn. by rewrite lookup_insert_ne.
  - exists l. by destruct ok.
Qed.

Lemma isteps_patience c c' a l :
  cinv false c -> rtc istep c c' -> links c !! a = Some l ->
  (exists l', links c' !! a = Some l' /\ patience (max_retries c) l' <= patience (max_retries c) l) /\
  max_retries c' = max_retries c.
Proof.
  intros Hc Hs. revert Hc l. induction Hs as [c|c c1 c' H1 _ IH]; intros Hc l Hl; [split; [exists l|]; done|].
  destruct (istep_patience _ _ _ _ Hc H1 Hl) as ((l1 & Hl1 & P1) & E1).
  destruct (IH (istep_inv _ _ _ Hc H1) l1 Hl1) as ((l2 & Hl2 & P2) & E2).
  split; [|congruence]. exists l2. rewrite E1 in P2. split; [done|lia].
Qed.

Lemma run_irq_patience i a w l :
  cinv (user_mpm p) (abs w) -> links (abs w) !! a = Some l ->
  exists w' l', run_irq p i w = Some (tt, w') /\ cinv (user_mpm p) (abs w') /\ links (abs w') !! a = Some l' /\
    max_retries (abs w') = max_retries (abs w) /\
  patience (max_retries (abs w)) l' + Z.b2z (acts a w i) <= patience (max_retries (abs w)) l.
Proof.
  intros Hc Hl. assert (Hc0 : cinv false (abs w)) by by rewrite <- Hu.
  destruct (acts a w i) eqn:Ea.
  - destruct i as [n|b|b| |b pf pm]; try done. cbn [acts] in Ea. destruct (peer a w) as [s|] eqn:Hs; [|done].
    rewrite !andb_true_iff in Ea. destruct Ea as (((<-%bool_decide_eq_true & Ef) & Ex) & Et).
    pose proof (peer_link _ _ _ Hs) as El. rewrite Hl in El. injection El as ->.
    pose proof (irq_timer_wp p a w Hc) as H. unfold wp in H.
    destruct (run_irq p (irq_timer a) w) as [[[] w']|]; [|done]. destruct H as [[Hi _] _ Hst].
    specialize (Hst _ Hl). rewrite (Ef : l_fired (link_of s) = true) in Hst.
    destruct Hst as (r & e & l' & tx & Ht & Hl').
    exists w', l'. split_and!; [done|by eapply isteps_inv|done|by apply (if_max_retries _ _ (isteps_frame _ _ Hi))|].
    pose proof (timer_step_patience _ _ _ _ _ _ Ht (lo_retries _ _ _ (ci_link _ _ Hc _ _ Hl))) as Hp.
    rewrite (ci_quiet _ _ Hc) in Hp. cbn [negb andb] in Hp.
    change (l_expires (link_of s)) with (timer_expires (mesh s)) in Hp. change (now (abs w)) with (jiffies w) in Hp.
    change (l_state (link_of s)) with (state_of s) in Hp. rewrite Ex, Et in Hp. done.
  - pose proof (run_irq_wp p i w Hc) as H. unfold wp in H. destruct (run_irq p i w) as [[[] w']|]; [|done].
    destruct H as [Hi _]. destruct (isteps_patience _ _ _ _ Hc0 Hi Hl) as ((l' & Hl' & Hp) & E).
    exists w', l'. split_and!; [done|by eapply isteps_inv|done|done|]. change (Z.b2z false) with 0. lia.
Qed.

Lemma irqs_patience irqs a w l :
  cinv (user_mpm p) (abs w) -> links (abs w) !! a = Some l ->
  exists w' l', iter (run_irq p) irqs w = Some (tt, w') /\ cinv (user_mpm p) (abs w') /\ links (abs w') !! a = Some l' /\
  patience (max_retries (abs w)) l' + acted p a irqs w <= patience (max_retries (abs w)) l.
Proof.
  revert w l. induction irqs as [|i irqs IH]; intros w l Hc Hl.
  - exists w, l. split_and!; [done..|]. change (acted p a [] w) with 0. lia.
  - destruct (run_irq_patience i a w l Hc Hl) as (w1 & l1 & E1 & Hc1 & Hl1 & Em & P1).
    destruct (IH w1 l1 Hc1 Hl1) as (w2 & l2 & E2 & Hc2 & Hl2 & P2).
    exists w2, l2. split_and!; [|done|done|].
    + cbn [iter]. unfold bind. by rewrite E1.
    + cbn [acted]. rewrite E1. rewrite Em in P2. lia.
Qed.
End timer.

(** ** Two stations *)

(** What [me] gets from [peer] was sent: an OPEN or CONFIRM from its address is
    one that is in its log.  And user space asks to open no link that is open. *)
Definition authentic (me peer : list Z) (w wpeer : mesh_if) (o : op) : Prop :=
  match o with
  | op_rx_plink sa _ ft _ e =>
      sa = peer -> ft <> WLAN_SP_MESH_PEERING_CLOSE -> forall ie, peering e = Some ie ->
      exists aid, ev_frame me (mk_frame ft aid ie) ∈ log wpeer
  | op_change_station a sp =>
      a = peer -> sp_action sp = NL80211_PLINK_ACTION_OPEN -> forall s, Mesh.peer a w = Some s ->
      idle (state_of s) = true
  | _ => True
  end.

(** Link IDs drawn for a peer, the latest first. *)
Definition link_ids (b : list Z) (w : mesh_if) : list Z :=
  omap (fun e => match e with ev_llid a id => if bool_decide (a = b) then Some id else None | _ => None end) (log w).

Lemma drawn_link_ids b w : drawn (view_of b (abs w)) = link_ids b w.
Proof.
  unfold drawn, view_of, link_ids. cbn [snd clog abs]. induction (log w) as [|e l IH]; [done|].
  rewrite filter_cons. destruct e as [a f|a id| | | | |]; cbn [link_event]; rewrite ?decide_True, ?decide_False by done;
    try (cbn [omap list_omap]; exact IH); rewrite filter_cons; cbn [about].
  - case_bool_decide; rewrite ?decide_True, ?decide_False by done; cbn; exact IH.
  - cbn [omap list_omap]. case_bool_decide; rewrite ?decide_True, ?decide_False by done; cbn [omap list_omap drawn_id]; by rewrite IH.
Qed.

Section network.
Context (pA pB : params) (A B : list Z).

Inductive network : mesh_if -> mesh_if -> Prop :=
  | net_start kA kB nA nB xA xB yA yB lA lB sA sB :
      config_ok pA kA -> config_ok pB kB -> network (fresh_if kA nA xA yA lA sA) (fresh_if kB nB xB yB lB sB)
  | net_left o wA wA' wB :
      network wA wB -> op_ok pA wA o -> authentic A B wA wB o -> run_op pA o wA = Some (tt, wA') -> network wA' wB
  | net_right o wA wB wB' :
      network wA wB -> op_ok pB wB o -> authentic B A wB wA o -> run_op pB o wB = Some (tt, wB') -> network wA wB'.
End network.

Lemma view_step_mono (heard heard' : Z -> Z -> Prop) (told told' : Z -> Prop) v v' :
  (forall x y, heard x y -> heard' x y) -> (forall x, told x -> told' x) ->
  view_step heard told v v' -> view_step heard' told' v v'.
Proof.
  intros Hh Ht []; [apply vs_refl|by apply vs_link|apply vs_new|apply vs_gone|by apply vs_tx|apply vs_close|by apply vs_draw
    |by apply vs_heard; auto|by apply vs_told; auto].
Qed.

Lemma view_step_distinct heard told v v' : view_step heard told v v' -> distinct v' -> distinct v.
Proof. intros [] D; try done; by eapply distinct_cons. Qed.

Lemma views_agree u v v' :
  rtc (view_step (confirms u) (tells u)) v v' -> distinct u -> distinct v' -> distinct v /\ (agree v u -> agree v' u).
Proof.
  intros Hs Du. induction Hs as [v|v v1 v' H1 _ IH]; intros Dv; [done|].
  destruct (IH Dv) as [D1 H2]. split; [by eapply view_step_distinct|]. intros Ha.
  by apply H2, (view_step_agree v v1 u).
Qed.

(** An operation, seen from the peer. *)
Lemma op_views p me b o w w' wpeer :
  user_mpm p = false -> late_ok (abs w) -> authentic me b w wpeer o ->
  rtc (op_step p o (abs w)) (abs w) (abs w') ->
  late_ok (abs w') /\
  rtc (view_step (confirms (view_of me (abs wpeer))) (tells (view_of me (abs wpeer)))) (view_of b (abs w)) (view_of b (abs w')).
Proof.
  intros Hu Hlate Hau Hs. unfold op_step in Hs. rewrite Hu in Hs.
  assert (Hin : forall ft aid ie, ev_frame me (mk_frame ft aid ie) ∈ log wpeer ->
    ev_frame me (mk_frame ft aid ie) ∈ (view_of me (abs wpeer)).2).
  { intros ft aid ie H. cbn. apply list_elem_of_filter. split; [cbn; by apply bool_decide_eq_true|].
    by apply list_elem_of_filter. }
  assert (Hh : forall x y, op_heard o b x y -> confirms (view_of me (abs wpeer)) x y).
  { intros x y (mc & aid & e & ie & -> & Hie & Hx & Hy). cbn in Hau.
    destruct (Hau eq_refl ltac:(done) ie Hie) as [aid' H]. exists me, aid', ie. split; [by apply Hin|done]. }
  assert (Ht : forall x, op_told o b x -> tells (view_of me (abs wpeer)) x).
  { intros x (mc & ft & aid & e & ie & -> & Hft & Hie & Hx). cbn in Hau.
    destruct (Hau eq_refl Hft ie Hie) as [aid' H]. exists me, ft, aid', ie. split; [by apply Hin|done]. }
  assert (Hr : ~ op_relabel o (abs w) b).
  { intros (sp & l & -> & Hop & Hl & Hi). cbn in Hau. destruct (link_peer _ _ _ Hl) as (s & Hp & <-).
    specialize (Hau eq_refl Hop s Hp). change (idle (l_state (link_of s))) with (idle (state_of s)) in Hi. congruence. }
  assert (Hgen : forall c c', rtc (astep false (op_heard o) (op_told o) (op_relabel o (abs w))) c c' -> late_ok c ->
    late_ok c' /\ rtc (view_step (confirms (view_of me (abs wpeer))) (tells (view_of me (abs wpeer)))) (view_of b c) (view_of b c')).
  { intros c c'. induction 1 as [|c c1 c' H1 _ IH]; intros Hl; [done|].
    destruct (IH (astep_late _ _ _ _ _ Hl H1)) as [? ?]. split; [done|]. eapply rtc_l; [|done].
    eapply view_step_mono; [exact Hh|exact Ht|]. by eapply astep_view. }
  by apply Hgen.
Qed.

Section agreement.
Context (pA pB : params) (A B : list Z).
Hypothesis (HuA : user_mpm pA = false) (HuB : user_mpm pB = false).
Hypothesis (HcA : chan (oper pA) <> None) (HcB : chan (oper pB) <> None).

Record network_ok (wA wB : mesh_if) : Prop := {
  no_left : good pA wA;
  no_right : good pB wB;
  no_late_left : late_ok (abs wA);
  no_late_right : late_ok (abs wB);
  no_agree : distinct (view_of B (abs wA)) -> distinct (view_of A (abs wB)) ->
    agree (view_of B (abs wA)) (view_of A (abs wB));
}.

Lemma agree_nothing : agree (None, []) (None, []).
Proof.
  assert (Hh : half (None, []) (None, [])).
  { split; try done.
    - intros x Hx. by apply not_elem_of_nil in Hx.
    - intros x (? & ? & ? & ? & H & _). by apply not_elem_of_nil in H.
    - intros x y (? & ? & ? & H & _). by apply not_elem_of_nil in H. }
  split; [done|done|]. intros x y x' y' (? & ? & ? & H & _). by apply not_elem_of_nil in H.
Qed.

Lemma network_inv wA wB : network pA pB A B wA wB -> network_ok wA wB.
Proof.
  induction 1 as [kA kB nA nB xA xB yA yB lA lB sA sB|o wA wA' wB _ [GA GB LA LB H] Ho Hau E|o wA wB wB' _ [GA GB LA LB H] Ho Hau E].
  - split; try by apply fresh_good.
    1,2: intros x Hx; by apply not_elem_of_nil in Hx.
    intros _ _. exact agree_nothing.
  - destruct (op_runs _ _ _ HcA GA Ho) as (w1 & E1 & G1 & Hs). rewrite E in E1. injection E1 as <-.
    destruct (op_views _ _ _ _ _ _ _ HuA LA Hau Hs) as [L1 Hv]. split; try done.
    intros D1 D2. destruct (views_agree _ _ _ Hv D2 D1) as [D0 Ha]. by apply Ha, H.
  - destruct (op_runs _ _ _ HcB GB Ho) as (w1 & E1 & G1 & Hs). rewrite E in E1. injection E1 as <-.
    destruct (op_views _ _ _ _ _ _ _ HuB LB Hau Hs) as [L1 Hv]. split; try done.
    intros D1 D2. destruct (views_agree _ _ _ Hv D1 D2) as [D0 Ha]. by apply agree_sym, Ha, agree_sym, H.
Qed.
End agreement.
