(* ===== verification/MeshProps.v ===== *)
(** * MeshProps: mesh peer link management is right

    The invariant of an interface and the spec its operations follow, agreement
    of two stations, the end of links that hear nothing, and a CONFIRM that shuts
    a peer out. *)
From stdpp Require Import gmap.
From S2P Require Import Prelude Frame Chandef StateMonad Mesh MeshPlink MeshRun MeshSpec MeshInv MeshRefine MeshHandlers MeshOps MeshAgree MeshNet.

(** C10: whatever frames arrive, user space asks and interrupts come, within the
    conditions of [op_ok] - the configuration is in the ranges user space is held
    to, the limit on links is not lowered below the links there are, the device
    is not suspended, and no station is added to a full table - an operation
    of a mesh interface ends without a fault - no division by a timeout of zero,
    no station used after it is gone, no array read past its end - and does to
    the links what the steps of the specification do.  Afterwards the number of
    established links is the one that is advertised and does not exceed the
    limit (where the kernel manages the links); no two peers share a link ID; a
    link the kernel manages and that waits for something has its timer running,
    or its handler about to run; the timeout of a link that is being opened has
    at most doubled with every retry, so that its 32 bits do not overflow; and
    frames still to be sent belong to peers that are there. *)
Theorem mesh_peering_invariant p w o :
  chan (oper p) <> None -> reached p w -> op_ok p w o ->
  exists w', run_op p o w = Some (tt, w') /\ rtc (op_step p o (abs w)) (abs w) (abs w') /\
    estab_plinks w' = Z.of_nat (size (filter (fun kv => is_estab kv.2 = true) (stas w'))) /\
    (user_mpm p = false -> estab_plinks w' <= dot11MeshMaxPeerLinks (mshcfg w')) /\
    (forall a b s t, peer a w' = Some s -> peer b w' = Some t -> llid (mesh s) = llid (mesh t) -> llid (mesh s) <> 0 -> a = b) /\
    (forall a s, user_mpm p = false -> peer a w' = Some s ->
       (transient (state_of s) = true -> timer_pending (mesh s) = true \/ timer_fired (mesh s) = true /\ timer_expires (mesh s) <= jiffies w') /\
       (opening (state_of s) = true -> 1 <= plink_timeout (mesh s) <= 255 * 2 ^ plink_retries (mesh s)) /\
       0 <= plink_retries (mesh s) <= 16) /\
    (forall a action reason, (a, action, reason) ∈ late w' -> exists s, peer a w' = Some s).
Proof.
  intros Hc Hr Ho. destruct (op_runs p o w Hc (reached_good _ _ Hc Hr) Ho) as (w' & E & [Hi _] & Hs).
  exists w'. split_and!; [done|done|..].
  - rewrite <- count_estab_stas. apply (ci_estab _ _ Hi).
  - apply (ci_bound _ _ Hi).
  - intros a b s t Ha Hb El Hn. destruct (decide (a = b)) as [|Hab]; [done|]. destruct Hn.
    exact (ci_ids _ _ Hi a b _ _ Hab (peer_link _ _ _ Ha) (peer_link _ _ _ Hb) El).
  - intros a s Hu Ha. destruct (ci_link _ _ Hi _ _ (peer_link _ _ _ Ha)) as [_ H1 H2 H3 _].
    split_and!; [by apply H3|by apply H2|apply H1|apply H1].
  - intros a action reason Hx. destruct (ci_late _ _ Hi _ Hx) as [l Hl].
    destruct (link_peer _ _ _ Hl) as (s & Hp & _). by exists s.
Qed.

(** C9: two stations that manage their mesh links themselves and that each get
    from the other only OPENs and CONFIRMs it sent - lost, late, repeated and out
    of order as they may be, whatever other stations send and forged CLOSEs from
    anyone - agree about their link once both have established it: the link ID of
    the one is what the other takes for its peer's.  Three conditions: neither
    drew a link ID for the other twice, or zero (both are possible, as the IDs
    are random and checked only against the links there are); user space did not
    ask to open a link that was open or being opened; and the operations are
    those of [op_ok]. *)
Theorem mesh_peering_agreement pA pB A B wA wB s t :
  user_mpm pA = false -> user_mpm pB = false -> chan (oper pA) <> None -> chan (oper pB) <> None ->
  network pA pB A B wA wB ->
  NoDup (link_ids B wA) -> 0 ∉ link_ids B wA -> NoDup (link_ids A wB) -> 0 ∉ link_ids A wB ->
  peer B wA = Some s -> peer A wB = Some t ->
  state_of s = NL80211_PLINK_ESTAB -> state_of t = NL80211_PLINK_ESTAB ->
  llid (mesh s) = plid (mesh t) /\ plid (mesh s) = llid (mesh t).
Proof.
  intros HuA HuB HcA HcB Hn DA ZA DB ZB Hs Ht Es Et.
  assert (Dv : distinct (view_of B (abs wA))) by (unfold distinct; by rewrite drawn_link_ids).
  assert (Du : distinct (view_of A (abs wB))) by (unfold distinct; by rewrite drawn_link_ids).
  pose proof (no_agree _ _ _ _ _ _ (network_inv pA pB A B HuA HuB HcA HcB wA wB Hn) Dv Du) as Ha.
  apply (agree_ids _ _ (link_of s) (link_of t) Ha); try done.
  - by apply peer_link.
  - by apply peer_link.
  - change (l_state (link_of s)) with (state_of s). by rewrite Es.
  - change (l_state (link_of t)) with (state_of t). by rewrite Et.
Qed.

(** C11: a link that hears nothing is given up, on a device that is not
    suspended ([reached] has no suspended state: a timer that expires while the
    device is quiescing is dropped, and the link then waits without one) and
    manages its links itself.  Whatever interrupts come, the timer of the link
    acts at most twice more than the retries that are left, and as long as the
    link waits for something its timer is running or its handler about to act;
    when it has acted so often the link is idle again. *)
Theorem mesh_peering_gives_up p w a s irqs :
  user_mpm p = false -> chan (oper p) <> None -> reached p w -> peer a w = Some s ->
  exists w' s', iter (run_irq p) irqs w = Some (tt, w') /\ peer a w' = Some s' /\
    patience (dot11MeshMaxRetries (mshcfg w)) (link_of s') + acted p a irqs w <= patience (dot11MeshMaxRetries (mshcfg w)) (link_of s) /\
    patience (dot11MeshMaxRetries (mshcfg w)) (link_of s) <= dot11MeshMaxRetries (mshcfg w) + 2 /\
    (transient (state_of s') = true -> timer_pending (mesh s') = true \/ timer_fired (mesh s') = true /\ timer_expires (mesh s') <= jiffies w') /\
    (transient (state_of s') = false <-> patience (dot11MeshMaxRetries (mshcfg w)) (link_of s') = 0).
Proof.
  intros Hu Hc Hr Hs. destruct (reached_good _ _ Hc Hr) as [Hi _]. pose proof (peer_link _ _ _ Hs) as Hl.
  destruct (irqs_patience p Hu irqs a w _ Hi Hl) as (w' & l' & E & Hi' & Hl' & Hp).
  destruct (link_peer _ _ _ Hl') as (s' & Hs' & El). exists w', s'. rewrite El.
  change (dot11MeshMaxRetries (mshcfg w)) with (max_retries (abs w)).
  pose proof (ci_config _ _ Hi) as [_ Hm]. pose proof (lo_retries _ _ _ (ci_link _ _ Hi _ _ Hl)) as Hre.
  split_and!; [done|done|exact Hp| | | ].
  - unfold patience. destruct (l_state _); lia.
  - intros Et. pose proof (lo_timer _ _ _ (ci_link _ _ Hi' _ _ Hl') Hu) as Ht. rewrite <- El in Ht. by apply Ht.
  - rewrite <- El. unfold patience. change (l_state (link_of s')) with (state_of s').
    destruct (state_of s'); cbn; split; first [done|lia].
Qed.

(** ** A CONFIRM for nobody *)

(** A frame the checks of [mesh_process_plink_frame] let through. *)
Record acceptable (p : params) (ft : plink_action) (e : elems) (ie : list Z) : Prop := {
  ac_ie : peering e = Some ie;
  ac_len : ie_len_ok ft (zlen ie) = true;
  ac_mesh : e_mesh_id e <> None /\ e_mesh_config e <> None;
  ac_open : has_rsn e && (security p =? IEEE80211_MESH_SEC_NONE) = false;
  ac_matches : mesh_matches_local p e = Some true;
}.

Lemma swp_preempt_none p (Q : unit -> mesh_if -> Prop) w : schedule w = [] -> Q tt w -> wp (preempt p) Q w.
Proof. intros E HQ. unfold wp, preempt. by rewrite E. Qed.

Lemma swp_known_sta a s (Q : sta_info -> mesh_if -> Prop) w : peer a w = Some s -> Q s w -> wp (get_sta a) Q w.
Proof. intros E HQ. unfold wp, get_sta. by rewrite E. Qed.

(** The state machine has nothing to do. *)
Lemma fsm_nothing p a s ev (Q : Z -> mesh_if -> Prop) w :
  schedule w = [] -> peer a w = Some s -> state_of s = NL80211_PLINK_LISTEN -> ev = OPN_IGNR \/ ev = CNF_ACPT ->
  Q 0 w -> wp (mesh_plink_fsm p a ev) Q w.
Proof.
  intros Hn Hs Es Hev HQ. unfold mesh_plink_fsm, plink_fsm_locked. do 2 apply swp_bind.
  eapply swp_known_sta; [done|]. apply swp_bind, swp_gets. rewrite Es.
  destruct Hev as [-> | ->]; apply swp_ret, swp_bind, swp_preempt_none; try done; by apply swp_bind, swp_ret, swp_ret.
Qed.

(** What is the same for every frame of a known station. *)
Lemma known_frame_wp p w sa s ft aid e ie x y ev (Q : unit -> mesh_if -> Prop) :
  user_mpm p = false -> schedule w = [] -> acceptable p ft e ie -> ft <> WLAN_SP_MESH_PEERING_CLOSE ->
  peer sa w = Some s -> listed s = true -> state_of s = NL80211_PLINK_LISTEN -> ev = OPN_IGNR \/ ev = CNF_ACPT ->
  rd_le16 ie 2 = Some x -> (if bool_decide (ft = WLAN_SP_MESH_PEERING_CONFIRM) then rd_le16 ie 4 = Some y else y = 0) ->
  mesh_plink_get_event p (Some s) e (zlen ie) ft y x w = Some ev ->
  (ft = WLAN_SP_MESH_PEERING_OPEN -> Q tt w) ->
  Q tt (if bool_decide (ev = CNF_ACPT)
        then put_sta sa (set_mesh (set_mesh_aid aid (if plid (mesh s) =? 0 then set_plid x (mesh s) else mesh s)) s) w
        else w) ->
  wp (run_op p (op_rx_plink sa false ft aid e)) Q w.
Proof.
  intros Hu Hn [Hie Hlen [Hid Hmc] Hrsn Hm] Hft Hs Hls Es Hev Hx Hy Ev HQ0 HQ.
  cbn [run_op]. unfold mesh_rx_plink_frame, mesh_process_plink_frame. rewrite Hu, Hie, Hrsn, Hlen. cbn [negb].
  rewrite (bool_decide_false _ Hid), (bool_decide_false _ Hmc). rewrite andb_false_r.
  apply swp_bind. unfold wp at 1, ie_le16, from_option. rewrite Hx. apply swp_bind.
  rewrite (bool_decide_false _ Hft). cbn [andb]. rewrite orb_false_r.
  apply (swp_mono _ (fun y' w' => y' = y /\ w' = w)).
  { destruct (bool_decide (ft = WLAN_SP_MESH_PEERING_CONFIRM)); [|by rewrite Hy; apply swp_ret]. unfold wp. by rewrite Hy. }
  intros y' w' [-> ->]. apply swp_bind, swp_gets. unfold id.
  assert (Hget : sta_info_get sa w = Some s) by (unfold sta_info_get; by rewrite Hs, Hls).
  rewrite Hget. apply swp_if; [intros Hr; apply andb_prop in Hr as [Hr%bool_decide_eq_true _]; by apply swp_ret, HQ0|intros _].
  apply swp_bind. unfold wp at 1, from_option. rewrite Ev. apply swp_bind, swp_preempt_none; [done|]. cbn zeta.
  assert (Hne1 : ev <> OPN_ACPT) by by destruct Hev; subst. assert (Hne2 : ev <> OPN_RJCT) by by destruct Hev; subst.
  assert (Hne3 : ev <> PLINK_UNDEFINED) by by destruct Hev; subst.
  rewrite (bool_decide_false _ Hne1), (bool_decide_false _ Hne2), (bool_decide_false _ Hne3).
  rewrite bool_decide_true by done. cbn [negb andb orb]. apply swp_bind.
  assert (Hend : forall s1 w1, peer sa w1 = Some s1 -> state_of s1 = NL80211_PLINK_LISTEN -> schedule w1 = [] -> Q tt w1 ->
    wp (preempt p ;;; changed <- mesh_plink_fsm p sa ev ;; ieee80211_mbss_info_change_notify changed) Q w1).
  { intros s1 w1 Hs1 Es1 Hn1 HQ1. apply swp_bind, swp_preempt_none; [done|]. apply swp_bind.
    by eapply fsm_nothing. }
  apply swp_when; intros Eb; rewrite Eb in HQ.
  - unfold upd_mesh, upd_sta. apply swp_bind. eapply swp_known_sta; [done|]. apply swp_modify.
    apply (Hend (set_mesh (set_mesh_aid aid (if plid (mesh s) =? 0 then set_plid x (mesh s) else mesh s)) s)); [| |exact Hn|exact HQ].
    + unfold peer. cbn. by rewrite lookup_insert_eq.
    + unfold state_of. cbn. by destruct (plid (mesh s) =? 0).
  - by eapply Hend.
Qed.

(** C40: a station that is known but has not been opened has link ID 0, and a
    CONFIRM for link ID 0 matches it: whoever sends it, the station stays in
    LISTEN but takes the link ID in it for its peer's, and from then on every OPEN
    of the peer that carries another link ID is ignored. *)
Theorem mesh_stray_confirm_shuts_out p w sa s aid e ie x :
  user_mpm p = false -> schedule w = [] -> mesh_plink_free_count w <> 0 ->
  peer sa w = Some s -> listed s = true -> state_of s = NL80211_PLINK_LISTEN -> IEEE80211_STA_AUTH <= sta_state s ->
  llid (mesh s) = 0 -> plid (mesh s) = 0 ->
  acceptable p WLAN_SP_MESH_PEERING_CONFIRM e ie -> rd_le16 ie 2 = Some x -> rd_le16 ie 4 = Some 0 -> x <> 0 ->
  exists w1 s1, run_op p (op_rx_plink sa false WLAN_SP_MESH_PEERING_CONFIRM aid e) w = Some (tt, w1) /\
    peer sa w1 = Some s1 /\ state_of s1 = NL80211_PLINK_LISTEN /\ plid (mesh s1) = x /\ log w1 = log w /\
    forall aid' e' ie' y, acceptable p WLAN_SP_MESH_PEERING_OPEN e' ie' -> rd_le16 ie' 2 = Some y -> y <> x ->
      run_op p (op_rx_plink sa false WLAN_SP_MESH_PEERING_OPEN aid' e') w1 = Some (tt, w1).
Proof.
  intros Hu Hn Hf Hs Hls Es Hau Hl Hp Hac Hx H0 Hx0.
  assert (Hst : (sta_state s <? IEEE80211_STA_AUTH) = false) by by apply Z.ltb_ge.
  set (s1 := set_mesh (set_mesh_aid aid (set_plid x (mesh s))) s). set (w1 := put_sta sa s1 w).
  assert (Hs1 : peer sa w1 = Some s1) by (unfold peer; cbn; by rewrite lookup_insert_eq).
  assert (H1 : wp (run_op p (op_rx_plink sa false WLAN_SP_MESH_PEERING_CONFIRM aid e)) (fun _ w' => w' = w1) w).
  { eapply (known_frame_wp p w sa s _ aid e ie x 0 CNF_ACPT); try done; [by right| |].
    - unfold mesh_plink_get_event.
      rewrite (bool_decide_false (WLAN_SP_MESH_PEERING_CONFIRM = WLAN_SP_MESH_PEERING_CLOSE)) by done.
      rewrite (ac_matches _ _ _ _ Hac). cbn [mbind option_bind negb].
      rewrite Hst. change (plink_state (mesh s)) with (state_of s). rewrite Es.
      rewrite (bool_decide_false (NL80211_PLINK_LISTEN = NL80211_PLINK_BLOCKED)) by done.
      rewrite Hl, Hp. cbn. by rewrite (proj2 (Z.eqb_neq _ _) Hf).
    - rewrite bool_decide_true by done. by rewrite Hp. }
  unfold wp in H1. destruct (run_op _ _ w) as [[[] w']|]; [|done]. subst w'. exists w1, s1.
  split_and!; [done|done|exact Es|done|done|]. intros aid' e' ie' y Hac' Hy Hne.
  assert (H2 : wp (run_op p (op_rx_plink sa false WLAN_SP_MESH_PEERING_OPEN aid' e')) (fun _ w' => w' = w1) w1).
  { eapply (known_frame_wp p w1 sa s1 _ aid' e' ie' y 0 OPN_IGNR); try done; [by left|].
    unfold mesh_plink_get_event.
    rewrite (bool_decide_false (WLAN_SP_MESH_PEERING_OPEN = WLAN_SP_MESH_PEERING_CLOSE)) by done.
    rewrite (ac_matches _ _ _ _ Hac'). cbn [mbind option_bind negb].
    change (sta_state s1) with (sta_state s). rewrite Hst. change (plink_state (mesh s1)) with (state_of s).
    rewrite Es, (bool_decide_false (NL80211_PLINK_LISTEN = NL80211_PLINK_BLOCKED)) by done.
    change (plid (mesh s1)) with x. unfold nz.
    rewrite (proj2 (Z.eqb_neq _ _) Hx0), (proj2 (Z.eqb_neq x y)) by congruence. cbn. by rewrite orb_true_r. }
  unfold wp in H2. destruct (run_op _ _ w1) as [[[] w']|]; [|done]. by subst w'.
Qed.

(** ** Witnesses *)

Module MeshWitness.

Definition ch6 : ieee80211_channel := mk_chan 1 NL80211_BAND_2GHZ 2437 0 0 NL80211_DFS_USABLE 0 0 0.
Definition oper6 : cfg80211_chan_def :=
  mk_chandef (Some ch6) None NL80211_CHAN_WIDTH_20 2437 0 (mk_edmg 0 0) 0 0 0 false.
Definition mesh_params : params :=
  mk_params false IEEE80211_MESH_SEC_NONE [109; 101; 115; 104] 1 1 0 1 0
    (Some (mk_band NL80211_BAND_2GHZ [0; 0; 0; 0])) 0xf oper6 (fun ms => ms) 1000.
Definition mesh_conf (auto_open : bool) : mesh_config :=
  mk_config 100 100 100 99 3 auto_open 0 NL80211_MESH_POWER_ACTIVE 0 1800.
Definition with_peering (ie : option (list Z)) : elems :=
  mk_elems ie false (Some [109; 101; 115; 104]) (Some (mk_meshconf 1 1 0 1 0 0 1)) 0xf 0xf oper6 false 0 false.
Definition A : list Z := [2; 0; 0; 0; 0; 1].
Definition B : list Z := [2; 0; 0; 0; 0; 2].

Definition fresh (auto_open : bool) (id : Z) (irqs : list (list interrupt)) : mesh_if :=
  fresh_if (mesh_conf auto_open) 1000 [id] [] [] irqs.
Definition after (o : op) (w : mesh_if) : mesh_if :=
  match run_op mesh_params o w with Some (_, w') => w' | None => w end.

Definition beacon (sa : list Z) : op := op_rx_beacon sa (with_peering None) 0.
Definition open (sa : list Z) (x : Z) : op :=
  op_rx_plink sa false WLAN_SP_MESH_PEERING_OPEN 0 (with_peering (Some (peering_ie WLAN_SP_MESH_PEERING_OPEN x 0 0))).
Definition confirm (sa : list Z) (x y : Z) : op :=
  op_rx_plink sa false WLAN_SP_MESH_PEERING_CONFIRM 1 (with_peering (Some (peering_ie WLAN_SP_MESH_PEERING_CONFIRM x y 0))).

(** A hears a beacon of B and opens; the timer expires before the answer. *)
Definition irqs : list (list interrupt) := [[irq_tick 200; irq_expire B; irq_timer B; irq_late]].
Definition a1 : mesh_if := after (beacon B) (fresh true 100 irqs).
Definition b1 : mesh_if := after (open A 100) (fresh true 200 []).
Definition a2 : mesh_if := after (open B 200) a1.
Definition a3 : mesh_if := after (confirm B 200 100) a2.
Definition b2 : mesh_if := after (confirm A 100 200) b1.

Example run_a : map (fun s => (state_of s, llid (mesh s), plid (mesh s), plink_retries (mesh s))) (sta_list a3)
  = [(NL80211_PLINK_ESTAB, 100, 200, 1)].
Proof. vm_compute. reflexivity. Qed.
Example run_b : map (fun s => (state_of s, llid (mesh s), plid (mesh s))) (sta_list b2) = [(NL80211_PLINK_ESTAB, 200, 100)].
Proof. vm_compute. reflexivity. Qed.

Lemma conf_ok b : config_ok mesh_params (mesh_conf b).
Proof. by unfold config_ok. Qed.

Lemma reached_a2 : reached mesh_params a2.
Proof.
  apply (reached_op _ (open B 200) a1); [|exact I|vm_compute; reflexivity].
  apply (reached_op _ (beacon B) (fresh true 100 irqs)); [apply reached_fresh, conf_ok|exact I|vm_compute; reflexivity].
Qed.

Ltac in_log := apply list_elem_of_In; vm_compute; repeat (first [left; reflexivity|right]).

Lemma network_ab : network mesh_params mesh_params A B a3 b2.
Proof.
  apply (net_right _ _ _ _ (confirm A 100 200) a3 b1); [|exact I| |vm_compute; reflexivity].
  2: { intros _ _ ie [= <-]. exists (Some 1). in_log. }
  apply (net_left _ _ _ _ (confirm B 200 100) a2 a3 b1); [|exact I| |vm_compute; reflexivity].
  2: { intros _ _ ie [= <-]. exists (Some 1). in_log. }
  apply (net_left _ _ _ _ (open B 200) a1 a2 b1); [|exact I| |vm_compute; reflexivity].
  2: { intros _ _ ie [= <-]. exists None. in_log. }
  apply (net_right _ _ _ _ (open A 100) a1 (fresh true 200 []) b1); [|exact I| |vm_compute; reflexivity].
  2: { intros _ _ ie [= <-]. exists None. in_log. }
  apply (net_left _ _ _ _ (beacon B) (fresh true 100 irqs) a1); [|exact I|exact I|vm_compute; reflexivity].
  apply net_start; apply conf_ok.
Qed.
End MeshWitness.

Import MeshWitness.

Lemma mesh_peering_invariant_witness :
  reached mesh_params a2 /\
  exists w', run_op mesh_params (confirm B 200 100) a2 = Some (tt, w') /\ estab_plinks w' <= dot11MeshMaxPeerLinks (mshcfg w').
Proof.
  split; [apply reached_a2|].
  destruct (mesh_peering_invariant mesh_params a2 (confirm B 200 100)) as (w' & E & _ & _ & H & _);
    [done|apply reached_a2|exact I|]. exists w'. split; [exact E|by apply H].
Defined.

(** The station of a peer that is there. *)
Definition sta_at (a : list Z) (w : mesh_if) : sta_info := default (new_sta 0 0 0) (peer a w).

Lemma mesh_peering_agreement_witness :
  state_of (sta_at B a3) = NL80211_PLINK_ESTAB /\ llid (mesh (sta_at B a3)) = plid (mesh (sta_at A b2)) /\
  plid (mesh (sta_at B a3)) = llid (mesh (sta_at A b2)).
Proof.
  split; [vm_compute; reflexivity|].
  apply (mesh_peering_agreement mesh_params mesh_params A B a3 b2 (sta_at B a3) (sta_at A b2));
    [reflexivity|reflexivity|discriminate|discriminate|exact network_ab| | | | |..].
  1-4: refine (bool_decide_unpack _ _); vm_compute; exact I.
  all: vm_compute; reflexivity.
Defined.

(** Four rounds in which nothing is heard: three retries, then HOLDING, then
    LISTEN. *)
Definition silence : list interrupt := concat (repeat [irq_tick 2000; irq_expire B; irq_timer B; irq_late] 5).

Lemma mesh_peering_gives_up_witness :
  acted mesh_params B silence a2 = 4 /\
  exists w', iter (run_irq mesh_params) silence a2 = Some (tt, w') /\ patience 3 (link_of (sta_at B w')) = 0.
Proof.
  assert (Ha : acted mesh_params B silence a2 = 4) by (vm_compute; reflexivity).
  split; [exact Ha|].
  destruct (mesh_peering_gives_up mesh_params a2 B (sta_at B a2) silence) as (w' & s' & E & Hs & Hp & _);
    [done|done|apply reached_a2|vm_compute; reflexivity|].
  exists w'. split; [exact E|]. unfold sta_at. rewrite Hs, Ha in *.
  change (dot11MeshMaxRetries (mshcfg a2)) with 3 in Hp.
  assert (H4 : patience 3 (link_of (sta_at B a2)) = 4) by (vm_compute; reflexivity).
  assert (0 <= patience 3 (link_of s')) by (unfold patience; destruct (l_state _); lia).
  change (patience 3 (link_of s') = 0). lia.
Defined.

(** B knows A by its beacon; a CONFIRM in the name of A with link ID 7, and then
    the OPEN of A. *)
Definition known : mesh_if := after (beacon A) (fresh false 200 []).

Lemma acceptable_ab ft ie : ie_len_ok ft (zlen ie) = true -> acceptable mesh_params ft (with_peering (Some ie)) ie.
Proof. intros H. split; [reflexivity|exact H|done|reflexivity|vm_compute; reflexivity]. Qed.

Lemma mesh_stray_confirm_shuts_out_witness :
  exists w1 s1, run_op mesh_params (confirm A 7 0) known = Some (tt, w1) /\ plid (mesh s1) = 7 /\
    run_op mesh_params (open A 100) w1 = Some (tt, w1).
Proof.
  destruct (mesh_stray_confirm_shuts_out mesh_params known A (sta_at A known) 1
      (with_peering (Some (peering_ie WLAN_SP_MESH_PEERING_CONFIRM 7 0 0))) (peering_ie WLAN_SP_MESH_PEERING_CONFIRM 7 0 0) 7)
    as (w1 & s1 & E & _ & _ & Hp & _ & H);
    [reflexivity|vm_compute; reflexivity|vm_compute; discriminate|vm_compute; reflexivity|vm_compute; reflexivity
    |vm_compute; reflexivity|vm_compute; discriminate|vm_compute; reflexivity|vm_compute; reflexivity
    |by apply acceptable_ab|reflexivity|reflexivity|discriminate|].
  exists w1, s1. split; [exact E|]. split; [exact Hp|].
  apply (H 0 _ (peering_ie WLAN_SP_MESH_PEERING_OPEN 100 0 0) 100); [by apply acceptable_ab|reflexivity|discriminate].
Defined.
